(* ===== verification/_CoqProject ===== *)
-Q . S2P
Prelude.v
PyStr.v
PyDict.v
PyVal.v
PyHost.v
Effects.v
Trace.v
PyText.v
Posix.v
SetupFs.v
SetupFsProps.v
SetupFsWrite.v
PyNum.v
Contracts.v
Json.v
Scheduling.v
Models.v
Repository.v
RepositoryInv.v
RepositorySpec.v
ControlProps.v
ControlOps.v
GpuMapping.v
GpuIsolation.v
GpuProps.v
RuntimeContracts.v
OwnedServer.v
OwnedServerProps.v
Planner.v
ProviderBase.v
Serde.v
Deployment.v
ProviderLaws.v
LlamaCpp.v
Vllm.v
FreeToken.v
ExLlama.v
Ollama.v
Lifecycle.v
Postgres.v
PostgresRepr.v
PostgresSim.v
PostgresProps.v
Client.v
Supervision.v
WorkerRuntime.v
WorkerRuntimeProps.v
Preflight.v
Mode.v
ModeProps.v
Api.v
ApiProps.v
ControlDaemon.v
Providers.v
ProviderProps.v
SetupContracts.v
SetupPlanner.v
SetupApply.v
SetupApplyProps.v
SetupProps.v
SetupPlannerProps.v
Migration.v
MigrationProps.v
Discovery.v
Systemd.v
Acceptance.v
FirstRun.v
FirstRunProps.v
Hardware.v
WorkerDaemon.v
Tui.v
TuiProps.v
AcceptanceProps.v
SystemdInspect.v
SystemdApply.v
SystemdLaws.v
SystemdAuthority.v
SystemdProps.v
SystemdFiles.v
SystemdChecks.v
