(* ===== verification/Prelude.v ===== *)
(** * TSUMGI / AstrumWeaver compute fabric: verification library

    AstrumWeaver schedules LLM jobs on GPU workers.  A Control Plane keeps workers and jobs
    (an HTTP API over a repository, in memory or in PostgreSQL); a Worker registers with the
    exact GPUs it owns, claims one job at a time under a lease, runs it on an inference
    server it owns, and reports the outcome; an operator plans, reviews and applies the setup
    of a Worker host, and borrows its GPUs back for development.  All file names below are
    relative to [src/src/astrumweaver/].

    ** The Python language

    - [Prelude]: the exceptions ([exn]), the result monad of code that raises, lists.
    - [PyStr], [PyText], [PyHost]: strings (code points U+0000-U+00FF), searching and
      replacing, the line ends that reading in text mode makes of a file, paths.  Where more
      code points matter, in the environment files of [FirstRunProps], a text is a list of them.  [PyDict]: insertion-ordered dictionaries.  [PyVal], [PyNum]: the
      values [json.loads] produces, with truth value, [==], [int], [float], [str]; floats are
      IEEE doubles ([spec_float]), integers unbounded ([Z]) as in Python; PostgreSQL columns
      and casts are kept at 32 bits.  [Json]: canonical JSON text.
    - [Effects]: computations [eff S A] with a state and exceptions, and their Hoare logic.
      [Trace]: operations that a world answers as it likes, their log, and a logic of logs.

    ** Contracts and matching

    - [Contracts] (contracts.py), [Models] (execution.py, control/models.py),
      [RuntimeContracts] (runtime/contracts.py): each dataclass is a [Record], its
      [__post_init__] the smart constructor [mk_<Class>], [wf_<Class>] what it guarantees.
    - [Scheduling] (scheduling.py): [match_worker] is proved to hold exactly of workers that
      [satisfies] the requirements.

    ** Control Plane

    - [Repository] (control/repository.py): one function per method on the [repo] record
      (workers, jobs, idempotency keys, sequence).  [RepositoryInv] makes them a transition
      system ([op], [step], [reachable]) with its invariant; [RepositorySpec], [ControlProps],
      [ControlOps] show exclusive GPU ownership, exact capacity, fencing of
      stale leases, the job life cycle, bounded attempts, scheduling order, idempotence.
    - [Postgres] (control/postgres.py): the same methods as statements on tables, with locked
      rows and commits of other transactions as arguments, and [jsonb] columns that give back
      what [jsonb] says of a value.  [PostgresRepr] relates rows and records, [PostgresSim]
      simulates method by method, [PostgresProps] concludes: on JSON that [jsonb] leaves as it
      is, the repository refines the in-memory one, so what [ControlProps] shows holds of it;
      on other JSON it does not, and [PostgresProps] has examples.
    - [Serde] (control/serde.py, transport.py), [Client] (worker/client.py),
      [Api] (control/api.py, control/auth.py), [ApiProps]: the protocol on both of its ends.  A
      handler runs over any repository that says what store a call leaves, whether it returns
      or raises; [api_serves] says what call each request makes and how it is answered.
    - [ControlDaemon] (control/daemon.py, control/migrate.py): the application a configuration
      makes, and the migrations: each script once, all recorded, nothing on a second run.

    ** Worker

    - [WorkerRuntime] (worker/runtime.py): registration, heartbeat, claim, execution and
      terminal writes as [eff] computations over a [World] of answers in which every await can
      bring signals; [WorkerRuntimeProps].  [Preflight] (worker/runtime.py, worker/health.py).
    - [Supervision] (worker/supervision.py): the health authority as a
      step relation over probes, reads, timeouts and closing.
    - [Mode], [ModeProps] (worker/mode.py): borrowing the GPUs.  [GpuMapping], [GpuProps]
      (gpu_mapping.py): which device nodes are whose, and that isolation is real.

    ** Runtimes

    - [Planner] (runtime/planner.py): which provider can run a demand.  [Lifecycle]
      (runtime/lifecycle.py).  [Deployment] (runtime/deployment.py): the persisted choice.
    - [OwnedServer] (the five managed runtimes of runtime/providers/): one child process and one
      endpoint behind the interface [backend]; [OwnedServerProps] proves start (which a
      cancellation may end with the process recorded), health, stop and release for every
      [LawfulBackend].  [Ollama], [LlamaCpp], [Vllm], [FreeToken],
      [ExLlama] (the files of those names) are the providers, the last four on [ProviderBase];
      with [ProviderLaws] each of them discharges [LawfulBackend] and [ReviewedProvider];
      [Providers] is the table of runtime/deployment.py and
      [ProviderProps] states what holds of all five.

    ** Setup of a host

    - [SetupContracts], [SetupPlanner], [SetupApply] (setup/contracts.py, planner.py,
      apply.py): plans and their digest, planning, and applying against a driver that is an
      interface; [SetupApplyProps], [SetupProps], [SetupPlannerProps].  What a failed apply
      leaves is stated for a driver that is [Restorable]: its actions leave no more than their
      own, even when they raise, and a rollback that returns has undone its action.
    - [Posix]: a kernel (inodes, directory entries, descriptors) on which
      other processes, the clock and faults act between any two system calls; [Posix] also shows
      what stays of it when the others are not the trusted owners.  [SetupFs]
      (setup/filesystem.py) is the trusted filesystem on that kernel; [SetupFsProps] shows that
      nobody redirects it, [SetupFsWrite] that what it writes appears whole, with the owner,
      group and mode it should have; the log of a rename holds the file that it replaced.
    - [Migration], [MigrationProps] (setup/migration.py); [Discovery]
      (setup/discovery.py).
    - [Systemd], [SystemdInspect], [SystemdApply] (setup/systemd.py): the driver behind that
      interface, one computation per kind of action over a host that performs the operations
      [host_op] (the class [SetupHost]) and is logged; [GpuIsolation] is the check of the
      effective unit it takes from validation/runtime_deployment.py.  [SystemdLaws] holds the
      logic of the log and that an inspection only reads; on it stand [SystemdProps] and
      [SystemdAuthority] (a dry run changes nothing, a worker restarts only under an authority
      systemd has loaded), [SystemdFiles] (what is written is written whole or restored, for
      hosts whose files are [LawfulFiles]; the text of a file is restored, line ends other than
      LF are not), [SystemdChecks] (the preflight, the wait for
      readiness, a staged root).

    - [Acceptance] (validation/runtime_deployment.py): the acceptance of a GPU subset against the
      protocol of its host, and the systemd host behind that protocol; [AcceptanceProps] shows
      that the Worker is started only when reviewed and never left running.
    - [FirstRun], [FirstRunProps] (setup/first_run.py): the configuration of a new Control or
      Worker host, written protected, read back as reviewed, and installed in order.
    - [Tui], [TuiProps] (setup/tui.py): the wizards over a terminal that answers, with the planner,
      the apply and the installer above behind them; nothing changes on the host before the
      operator saw it and typed its phrase.
    - [Hardware] (validation/hardware.py): the acceptance of a GPU node in service; its evidence
      says only what was observed.
    - [WorkerDaemon] (worker/daemon.py, executors/): the service a configuration starts, that it
      closes down in order, and that it starts with whatever the setup accepted.

    ** Bounds and fuel

    Loops over data are structural.  The polling loops of [Mode], [Lifecycle] and [OwnedServer]
    take fuel, and running out of it is an outcome of its own; [mode_switch_returns],
    [lifecycle_returns] and [owned_start_returns] show that fuel derived from the deadline and
    the polling interval is enough, for clocks that do not go back; [wait_ready_returns] does so for
    the readiness wait of the systemd driver, [acceptance_returns], [installs_return],
    [hardware_returns] and [daemon_returns] for the waits of those components.  The worker's loop is indexed by its number of turns;
    its properties hold for every number.

    ** Not modelled, and what stands for it

    - Third-party code and the environment are arguments: the network (httpx), the operating
      system and [subprocess], SHA-256, [repr] of floats, [tomllib.loads], the text of
      datetimes, the event loop's clock.  FastAPI's routing and JSON rendering, Pydantic's own
      parsing of query strings and psycopg's connections are left out.
    - In [Postgres]: the key order of [jsonb] and the limits on the size of a value, gaps of the
      identity column after a rollback, the evaluation order of a [WHERE] clause.
    - Code points above U+00FF in strings, and with them lone surrogates and the encoding errors
      they cause.
    - [KeyboardInterrupt] during a setup; the import of executors by dotted name; the table of
      in-flight tasks and [cancel] of the executors.
    - In [Systemd]: the classes below [OSError], but for the two the code catches, are one; the
      search of [PATH] and the parsers of JSON and TOML are arguments.
    - The argument parsers of the commands.  In [Tui] the dash U+2014 of some lines, and an
      interrupt at a prompt, which ends the wizard as the end of the input does. *)

From Stdlib Require Export ZArith Lia Ascii.
From Stdlib Require Import DecimalString DecimalN DecimalFacts.
From stdpp Require Export prelude list strings sorting gmap.

(** ** Notation scope *)

Declare Scope py_scope.
Delimit Scope py_scope with py.
#[global] Arguments bool_decide : simpl never.
#[global] Open Scope Z_scope.
#[global] Open Scope stdpp_scope.

(** ** Exceptions and the result monad *)

(** The exception classes the modelled code raises, each with the text it carries. *)
Inductive exn :=
  | ValueError (msg : string)
  | TypeError (msg : string)
  | KeyError (key : string)
  | AttributeError (msg : string)
  | OverflowError (msg : string)
  | RuntimeError (msg : string)
  | NotFoundError (msg : string)
  | ConflictError (msg : string)
  | StorageUnavailable (msg : string)
  | GpuMappingError (msg : string)
  | GpuIsolationUnavailableError (msg : string)
  | ModeTransitionError (msg : string)
  | RuntimeLifecycleError (msg : string)
  | RuntimeUnavailable (msg : string)
  | ControlTransportError (status : Z) (detail : string)
  | DatabaseError (msg : string)
  | CancelledError
  | ProviderError (msg : string)
  | SetupApprovalError (msg : string)
  | SetupPlanningError (msg : string)
  | UnsafeSetupPath (msg : string)
  | HostDiscoveryError (msg : string)
  | HTTPError (msg : string)
  | OSError (msg : string)
  | FileNotFoundError (msg : string)
  | FileExistsError (msg : string)
  | AssertionError (msg : string)
  | IndexError (msg : string)
  | UnicodeDecodeError (msg : string)
  | TOMLDecodeError (msg : string)
  | CalledProcessError (msg : string)
  | TimeoutExpired (msg : string)
  | RuntimeDeploymentAcceptanceError (msg : string)
  | HardwareAcceptanceError (msg : string)
  | EOFError (msg : string)
  | OutOfModel (what : string).
#[export] Instance exn_eq_dec : EqDecision exn.
Proof. solve_decision. Defined.

Inductive result (A : Type) :=
  | Ok (a : A)
  | Err (e : exn).
Arguments Ok {A} a.
Arguments Err {A} e.

#[export] Instance result_ret : MRet result := @Ok.
#[export] Instance result_bind : MBind result := λ A B f m,
  match m with Ok a => f a | Err e => Err e end.

(** [if not b: raise e]. *)
Definition require (b : bool) (e : exn) : result unit := if b then Ok tt else Err e.

Fixpoint mapR {A B} (f : A → result B) (l : list A) : result (list B) :=
  match l with
  | [] => Ok []
  | x :: l' => y ← f x; ys ← mapR f l'; Ok (y :: ys)
  end.

Fixpoint foldR {A B} (f : B → A → result B) (b : B) (l : list A) : result B :=
  match l with
  | [] => Ok b
  | x :: l' => b' ← f b x; foldR f b' l'
  end.

Definition is_ok {A} (r : result A) : bool := if r is Ok _ then true else false.

Lemma Ok_inj {A} (a b : A) : Ok a = Ok b → a = b.
Proof. congruence. Qed.

Lemma bind_Ok {A B} (m : result A) (f : A → result B) b :
  m ≫= f = Ok b ↔ ∃ a, m = Ok a ∧ f a = Ok b.
Proof.
  destruct m as [a|e]; cbn; split.
  - eauto.
  - intros (a' & [= ->] & ?); done.
  - done.
  - intros (a' & ? & ?); done.
Qed.

Lemma require_Ok b e u : require b e = Ok u ↔ b = true.
Proof. destruct b, u; cbn; naive_solver. Qed.

Lemma guard_Ok {A} b e (m : result A) x : (require b e;; m) = Ok x ↔ b = true ∧ m = Ok x.
Proof. destruct b; cbn; naive_solver. Qed.

Lemma guard_true {A} b e (m : result A) : b = true → (require b e;; m) = m.
Proof. by intros ->. Qed.

Lemma mapR_Ok {A B} (f : A → result B) l l' :
  mapR f l = Ok l' ↔ Forall2 (λ x y, f x = Ok y) l l'.
Proof.
  revert l'; induction l as [|x l IH]; intros l'; cbn.
  - split; [intros [= <-]; constructor | by inversion 1].
  - rewrite bind_Ok. setoid_rewrite bind_Ok. split.
    + intros (y & ? & ys & ?%IH & [= <-]). by constructor.
    + inversion 1; subst. eexists; split; [done|]. eexists; split; [by apply IH|done].
Qed.

Lemma mapR_id_Ok {A B} (f : A → result B) (g : A → B) l :
  (∀ x, x ∈ l → f x = Ok (g x)) → mapR f l = Ok (g <$> l).
Proof.
  intros H. apply mapR_Ok, Forall2_fmap_r, Forall_Forall2_diag, Forall_forall. done.
Qed.

(** An invariant carried along a fold with errors. *)
Lemma foldR_inv {A B} (P : B → Prop) (f : B → A → result B) l b b' :
  P b → (∀ b x b', x ∈ l → P b → f b x = Ok b' → P b') → foldR f b l = Ok b' → P b'.
Proof.
  revert b; induction l as [|x l IH]; cbn; intros b Hb Hf; [naive_solver|].
  intros (b1 & Hx & Hl)%bind_Ok. eapply IH; [| |done].
  - eapply Hf; [left|done|done].
  - intros ???? ??; eapply Hf; [by right|done|done].
Qed.

(** [simp_res] decomposes hypotheses of the form [m ≫= f = Ok b] and guards. *)
Ltac simp_res :=
  repeat match goal with
  | H : mbind _ _ = Ok _ |- _ => apply bind_Ok in H as (? & ? & ?)
  | H : require _ _ = Ok _ |- _ => apply require_Ok in H
  | H : Ok _ = Ok _ |- _ => injection H as H
  | H : Err _ = Ok _ |- _ => discriminate H
  | H : Ok _ = Err _ |- _ => discriminate H
  | H : None = Some _ |- _ => discriminate H
  | H : Some _ = None |- _ => discriminate H
  | H : Some _ = Some _ |- _ => injection H as H
  | u : unit |- _ => destruct u
  end; try subst.

(** [case_all] splits every [if]/[match] scrutinee of the hypotheses and of the goal. *)
Ltac case_in H :=
  repeat match type of H with
  | context [match ?x with _ => _ end] =>
      let E := fresh "E" in destruct x eqn:E; try discriminate H
  end.

(** Boolean connectives to propositions. *)
Ltac bools :=
  repeat match goal with
  | H : negb _ = true |- _ => apply negb_true_iff in H
  | H : negb _ = false |- _ => apply negb_false_iff in H
  | H : (_ && _) = true |- _ => apply andb_true_iff in H as [? ?]
  | H : (_ || _) = false |- _ => apply orb_false_iff in H as [? ?]
  | H : bool_decide _ = true |- _ => apply bool_decide_eq_true in H
  | H : bool_decide _ = false |- _ => apply bool_decide_eq_false in H
  end.

(** Prove a decidable closed statement by evaluating its decision procedure. *)
Ltac vm_decide := apply (bool_decide_unpack _); vm_compute; exact I.

Create HintDb py discriminated.
