(* ===== verification/PyStr.v ===== *)
(** * Python strings

    A [str] is a [string] of 8-bit characters, read as the code points U+0000 to
    U+00FF.  This file holds the string operations of the Python language the sources
    use ([strip], [lower], [partition], [split], [int], [str], [sorted]) and their laws. *)

From S2P Require Import Prelude.
From Stdlib Require Import DecimalString DecimalN DecimalFacts.

Open Scope Z_scope.

(** ** Characters *)

(** [str.isspace] on U+0000..U+00FF: TAB..CR, FS..US, SPACE, NEL, NBSP. *)
Definition is_space (c : ascii) : bool :=
  let n := N_of_ascii c in
  ((9 <=? n) && (n <=? 13) || (28 <=? n) && (n <=? 32) || (n =? 133) || (n =? 160))%N.

Definition is_digit (c : ascii) : bool :=
  let n := N_of_ascii c in ((48 <=? n) && (n <=? 57))%N.

(** [str.lower] of one character; the Latin-1 capitals are the ASCII ones and U+00C0..U+00DE
    without the multiplication sign U+00D7. *)
Definition lower_char (c : ascii) : ascii :=
  let n := N_of_ascii c in
  if ((65 <=? n) && (n <=? 90) || (192 <=? n) && (n <=? 222) && negb (n =? 215))%N
  then ascii_of_N (n + 32) else c.

(** ** strip, lower, truth value *)

Fixpoint lstrip (s : string) : string :=
  match s with
  | String c s' => if is_space c then lstrip s' else s
  | EmptyString => EmptyString
  end.

Fixpoint rstrip (s : string) : string :=
  match s with
  | EmptyString => EmptyString
  | String c s' =>
      match rstrip s' with
      | EmptyString => if is_space c then EmptyString else String c EmptyString
      | r => String c r
      end
  end.

Definition strip (s : string) : string := rstrip (lstrip s).

Fixpoint lower (s : string) : string :=
  match s with
  | EmptyString => EmptyString
  | String c s' => String (lower_char c) (lower s')
  end.

(** [bool(s)]: a string is falsy when empty. *)
Definition str_truthy (s : string) : bool := if s is EmptyString then false else true.

Fixpoint all_chars (p : ascii → bool) (s : string) : bool :=
  match s with
  | EmptyString => true
  | String c s' => p c && all_chars p s'
  end.

Fixpoint startswith (p s : string) : bool :=
  match p, s with
  | EmptyString, _ => true
  | String a p', String b s' => bool_decide (a = b) && startswith p' s'
  | String _ _, EmptyString => false
  end.

(** [sub in s]. *)
Fixpoint contains (sub s : string) : bool :=
  startswith sub s || (if s is String _ s' then contains sub s' else false).

(** ** partition and split *)

(** [s.partition(c)]: the head, whether the separator occurs, the tail. *)
Fixpoint partition_char (c : ascii) (s : string) : string * bool * string :=
  match s with
  | EmptyString => (EmptyString, false, EmptyString)
  | String a s' =>
      if bool_decide (a = c) then (EmptyString, true, s')
      else let '(h, b, t) := partition_char c s' in (String a h, b, t)
  end.

(** [s.split(c)]. *)
Fixpoint split_char (c : ascii) (s : string) : list string :=
  match s with
  | EmptyString => [EmptyString]
  | String a s' =>
      if bool_decide (a = c) then EmptyString :: split_char c s'
      else match split_char c s' with
           | [] => [String a EmptyString]
           | h :: t => String a h :: t
           end
  end.

(** [s.split(c, 1)]. *)
Definition split1_char (c : ascii) (s : string) : list string :=
  let '(h, b, t) := partition_char c s in if b then [h; t] else [h].

(** [sep.join(parts)]. *)
Fixpoint join (sep : string) (parts : list string) : string :=
  match parts with
  | [] => EmptyString
  | [p] => p
  | p :: ps => p +:+ sep +:+ join sep ps
  end.

(** Line boundaries of [str.splitlines] in U+0000..U+00FF: LF VT FF CR FS GS RS NEL. *)
Definition is_linebreak (c : ascii) : bool :=
  let n := N_of_ascii c in ((10 <=? n) && (n <=? 13) || (28 <=? n) && (n <=? 30) || (n =? 133))%N.

(** [cur] is the line read so far, [started] whether it holds a character; CR LF counts once. *)
Fixpoint splitlines_aux (cur : string) (started : bool) (s : string) : list string :=
  match s with
  | EmptyString => if started then [cur] else []
  | String c s' =>
      if is_linebreak c then
        match s' with
        | String d s'' =>
            if bool_decide (c = "013"%char) && bool_decide (d = "010"%char)
            then cur :: splitlines_aux EmptyString false s''
            else cur :: splitlines_aux EmptyString false s'
        | EmptyString => [cur]
        end
      else splitlines_aux (cur +:+ String c EmptyString) true s'
  end.
Definition splitlines (s : string) : list string := splitlines_aux EmptyString false s.

(** [s.split()]: fields separated by runs of white space. *)
Fixpoint fields_aux (cur : string) (s : string) : list string :=
  match s with
  | EmptyString => if str_truthy cur then [cur] else []
  | String c s' =>
      if is_space c
      then (if str_truthy cur then [cur] else []) ++ fields_aux EmptyString s'
      else fields_aux (cur +:+ String c EmptyString) s'
  end%list.
Definition fields (s : string) : list string := fields_aux EmptyString s.

(** ** Decimal integers *)

Definition str_of_N (n : N) : string := NilEmpty.string_of_uint (N.to_uint n).
Definition str_of_Z (z : Z) : string :=
  match z with
  | Zneg p => String "-" (str_of_N (Npos p))
  | _ => str_of_N (Z.to_N z)
  end.

(** [re.fullmatch("[0-9]+", s)]. *)
Definition digits (s : string) : bool := str_truthy s && all_chars is_digit s.

(** [int(s, 10)] of a string already known to be [0-9]+; Python refuses more than 4300
    digits. *)
Definition digits_value (s : string) : option N := N.of_uint <$> NilEmpty.uint_of_string s.
Definition int_of_digits (s : string) : result N :=
  if 4300 <? Z.of_nat (String.length s)
  then Err (ValueError "Exceeds the limit (4300 digits) for integer string conversion")
  else match digits_value s with
       | Some n => Ok n
       | None => Err (ValueError "invalid literal for int() with base 10")
       end.

(** ** Sorting *)

Definition sorted_strings (l : list string) : list string := merge_sort String.le l.

(** Duplicate test [len(set(l)) != len(l)]. *)
Definition all_distinct (l : list string) : bool := bool_decide (NoDup l).

(** ** Concatenation *)

Lemma append_nil_l s : EmptyString +:+ s = s.
Proof. reflexivity. Qed.
Lemma append_cons c s t : String c s +:+ t = String c (s +:+ t).
Proof. reflexivity. Qed.
Lemma append_assoc s t u : (s +:+ t) +:+ u = s +:+ (t +:+ u).
Proof. induction s as [|c s IH]; [done|]. rewrite !append_cons. by f_equal. Qed.

Lemma append_inj_l s t u : s +:+ t = s +:+ u → t = u.
Proof. induction s as [|c s IH]; [done|]. rewrite !append_cons. intros [= H]. by apply IH. Qed.

(** ** Laws of strip *)

Lemma lstrip_head s : match lstrip s with String c _ => is_space c = false | _ => True end.
Proof. induction s as [|c s IH]; cbn; [done|]. by destruct (is_space c) eqn:?. Qed.

Lemma lstrip_id s :
  match s with String c _ => is_space c = false | EmptyString => True end → lstrip s = s.
Proof. destruct s as [|c s]; cbn; [done|]. by intros ->. Qed.

Lemma rstrip_cons c s :
  rstrip (String c s) = (if str_truthy (rstrip s) then String c (rstrip s)
                         else if is_space c then EmptyString else String c EmptyString).
Proof. cbn. by destruct (rstrip s). Qed.

Lemma rstrip_idemp s : rstrip (rstrip s) = rstrip s.
Proof.
  induction s as [|c s IH]; [done|].
  rewrite rstrip_cons. destruct (rstrip s) as [|d r] eqn:E.
  - cbn. destruct (is_space c) eqn:Hc; cbn; by rewrite ?Hc.
  - change (str_truthy (String d r)) with true. cbv iota.
    rewrite rstrip_cons, IH. done.
Qed.

Lemma rstrip_head s :
  match s with String c _ => is_space c = false | _ => True end →
  match rstrip s with String c _ => is_space c = false | _ => True end.
Proof.
  destruct s as [|c s]; [done|]. intros H. rewrite rstrip_cons.
  destruct (str_truthy (rstrip s)); [done|]. by rewrite H.
Qed.

Lemma strip_idemp s : strip (strip s) = strip s.
Proof.
  unfold strip. rewrite (lstrip_id (rstrip (lstrip s))); [apply rstrip_idemp|].
  apply rstrip_head, lstrip_head.
Qed.

(** A string without surrounding white space is its own [strip]. *)
Definition stripped (s : string) : Prop := strip s = s.
Definition nonblank (s : string) : Prop := stripped s ∧ s ≠ EmptyString.

#[export] Instance stripped_dec s : Decision (stripped s).
Proof. unfold stripped; apply _. Defined.
#[export] Instance nonblank_dec s : Decision (nonblank s).
Proof. unfold nonblank; apply _. Defined.

Lemma strip_stripped s : stripped (strip s).
Proof. apply strip_idemp. Qed.

Lemma str_truthy_spec s : str_truthy s = true ↔ s ≠ EmptyString.
Proof. by destruct s. Qed.
Lemma str_truthy_false s : str_truthy s = false ↔ s = EmptyString.
Proof. by destruct s. Qed.

#[export] Hint Resolve strip_stripped : py.

(** ** Laws of lower *)

Lemma lower_char_idemp c : lower_char (lower_char c) = lower_char c.
Proof. destruct c as [[] [] [] [] [] [] [] []]; reflexivity. Qed.

Lemma lower_idemp s : lower (lower s) = lower s.
Proof. induction s as [|c s IH]; cbn; [done|]. by rewrite lower_char_idemp, IH. Qed.

Lemma is_space_lower c : is_space (lower_char c) = is_space c.
Proof. destruct c as [[] [] [] [] [] [] [] []]; reflexivity. Qed.

Lemma lstrip_lower s : lstrip (lower s) = lower (lstrip s).
Proof.
  induction s as [|c s IH]; cbn; [done|]. rewrite is_space_lower.
  by destruct (is_space c).
Qed.

Lemma rstrip_lower s : rstrip (lower s) = lower (rstrip s).
Proof.
  induction s as [|c s IH]; cbn; [done|]. rewrite IH.
  destruct (rstrip s); cbn; [|done]. rewrite is_space_lower. by destruct (is_space c).
Qed.

Lemma strip_lower s : strip (lower s) = lower (strip s).
Proof. unfold strip. by rewrite lstrip_lower, rstrip_lower. Qed.

Lemma nonblank_lower s : nonblank s → nonblank (lower s).
Proof.
  intros [H1 H2]. split.
  - unfold stripped. by rewrite strip_lower, H1.
  - by destruct s.
Qed.

(** ** Decimal round trip *)

Lemma digits_value_str n : digits_value (str_of_N n) = Some n.
Proof.
  unfold digits_value, str_of_N. rewrite NilEmpty.usu. cbn.
  by rewrite DecimalN.Unsigned.of_to.
Qed.

Lemma str_of_N_inj n m : str_of_N n = str_of_N m → n = m.
Proof. intros H. apply (f_equal digits_value) in H. rewrite !digits_value_str in H. by injection H. Qed.

Lemma string_of_uint_digits d : all_chars is_digit (NilEmpty.string_of_uint d) = true.
Proof. by induction d. Qed.

Lemma str_of_N_nonempty n : str_of_N n ≠ EmptyString.
Proof.
  unfold str_of_N. destruct n as [|p]; [done|]. cbn.
  intros H. pose proof (DecimalPos.Unsigned.to_uint_nonnil p) as Hn.
  change (N.to_uint (N.pos p)) with (Pos.to_uint p) in H.
  by destruct (Pos.to_uint p).
Qed.

Lemma digits_str n : digits (str_of_N n) = true.
Proof.
  unfold digits. rewrite (proj2 (str_truthy_spec _)); [|apply str_of_N_nonempty].
  apply string_of_uint_digits.
Qed.

(** ** Laws of partition and of sorting *)

Lemma partition_char_found c h t :
  all_chars (λ a, negb (bool_decide (a = c))) h = true →
  partition_char c (h +:+ String c t) = (h, true, t).
Proof.
  induction h as [|a h IH].
  - intros _. rewrite append_nil_l. cbn. by case_bool_decide.
  - cbn. intros [Ha Hh]%andb_true_iff. bools. rewrite append_cons. cbn.
    case_bool_decide; [done|]. by rewrite IH.
Qed.

Lemma all_chars_impl (p q : ascii → bool) s :
  (∀ c, p c = true → q c = true) → all_chars p s = true → all_chars q s = true.
Proof.
  intros Hpq. induction s as [|c s IH]; cbn; [done|].
  intros [? ?]%andb_true_iff. by rewrite Hpq, IH.
Qed.

Lemma sorted_strings_Permutation l : sorted_strings l ≡ₚ l.
Proof. apply merge_sort_Permutation. Qed.

Lemma sorted_strings_StronglySorted l : StronglySorted String.le (sorted_strings l).
Proof. apply StronglySorted_merge_sort; apply _. Qed.

Lemma sorted_strings_unique l1 l2 : l1 ≡ₚ l2 → sorted_strings l1 = sorted_strings l2.
Proof.
  intros H. apply (StronglySorted_unique String.le);
    [apply sorted_strings_StronglySorted..|].
  by rewrite !sorted_strings_Permutation.
Qed.

Lemma sorted_strings_idemp l : sorted_strings (sorted_strings l) = sorted_strings l.
Proof. apply sorted_strings_unique, sorted_strings_Permutation. Qed.

Lemma elem_of_sorted_strings x l : x ∈ sorted_strings l ↔ x ∈ l.
Proof. by rewrite sorted_strings_Permutation. Qed.

Lemma NoDup_sorted_strings l : NoDup (sorted_strings l) ↔ NoDup l.
Proof. by rewrite sorted_strings_Permutation. Qed.

(** ** Laws of [int] on digit strings *)

Lemma string_of_uint_length d : String.length (NilEmpty.string_of_uint d) = Decimal.nb_digits d.
Proof. induction d; cbn; congruence. Qed.

Lemma digits_uint s : all_chars is_digit s = true → is_Some (NilEmpty.uint_of_string s).
Proof.
  induction s as [|c s IH]; cbn; [eauto|]. intros [Hc Hs]%andb_true_iff.
  destruct (IH Hs) as [d ->]. clear -Hc.
  destruct c as [[] [] [] [] [] [] [] []]; try discriminate Hc; cbn; eauto.
Qed.

Lemma digits_value_length s n :
  s ≠ EmptyString → digits_value s = Some n → (String.length (str_of_N n) ≤ String.length s)%nat.
Proof.
  unfold digits_value, str_of_N. intros Hs (d & E & ->)%fmap_Some_1.
  rewrite DecimalN.Unsigned.to_of, string_of_uint_length.
  apply NilEmpty.sus in E. rewrite <- E, string_of_uint_length.
  apply nb_digits_unorm. intros ->. by apply Hs.
Qed.

Lemma int_of_digits_str n :
  Z.of_nat (String.length (str_of_N n)) ≤ 4300 → int_of_digits (str_of_N n) = Ok n.
Proof.
  intros H. unfold int_of_digits. destruct (Z.ltb_spec 4300 (Z.of_nat (String.length (str_of_N n)))); [lia|].
  by rewrite digits_value_str.
Qed.

Lemma int_of_digits_length s n :
  digits s = true → int_of_digits s = Ok n → Z.of_nat (String.length (str_of_N n)) ≤ 4300.
Proof.
  unfold digits, int_of_digits. intros [Hs _]%andb_true_iff. apply str_truthy_spec in Hs.
  destruct (Z.ltb_spec 4300 (Z.of_nat (String.length s))); [done|].
  destruct (digits_value s) eqn:E; [|done].
  intros [= <-]. pose proof (digits_value_length _ _ Hs E). lia.
Qed.

Lemma int_of_digits_ok s :
  digits s = true → Z.of_nat (String.length s) ≤ 4300 → is_ok (int_of_digits s) = true.
Proof.
  unfold digits, int_of_digits. intros [_ Hd]%andb_true_iff Hl.
  destruct (Z.ltb_spec 4300 (Z.of_nat (String.length s))); [lia|]. unfold digits_value.
  by destruct (digits_uint _ Hd) as [d ->].
Qed.

(** A string of non-space characters is stripped. *)
Lemma nospace_rstrip s : all_chars (λ c, negb (is_space c)) s = true → rstrip s = s.
Proof.
  induction s as [|c s IH]; [done|]. cbn [all_chars]. intros [Hc Hs]%andb_true_iff.
  rewrite rstrip_cons, (IH Hs). bools.
  destruct s as [|d s]; cbn; [by rewrite Hc|done].
Qed.

Lemma nospace_strip s : all_chars (λ c, negb (is_space c)) s = true → strip s = s.
Proof.
  intros H. unfold strip. rewrite lstrip_id; [by apply nospace_rstrip|].
  destruct s as [|c s]; [done|]. cbn in H. apply andb_true_iff in H as [? _]. by bools.
Qed.

Lemma all_chars_app p s t : all_chars p (s +:+ t) = all_chars p s && all_chars p t.
Proof.
  induction s as [|c s IH]; [done|]. rewrite append_cons. cbn. by rewrite IH, andb_assoc.
Qed.

Lemma digit_nospace c : is_digit c = true → negb (is_space c) = true.
Proof. destruct c as [[] [] [] [] [] [] [] []]; done. Qed.

Lemma digit_not c d : is_digit d = false → is_digit c = true → negb (bool_decide (c = d)) = true.
Proof. intros Hd Hc. apply negb_true_iff, bool_decide_eq_false. by intros ->; rewrite Hc in Hd. Qed.

Lemma length_append s t : String.length (s +:+ t) = (String.length s + String.length t)%nat.
Proof. induction s as [|c s IH]; [done|]. rewrite append_cons. cbn. by rewrite IH. Qed.

(** ** Universal newlines *)

(** What reading a file in text mode makes of its line ends: CRLF and CR become LF.  Writing on
    a POSIX system leaves a text as it is. *)
Fixpoint universal_newlines (s : string) : string :=
  match s with
  | EmptyString => EmptyString
  | String "013" (String "010" s') => String "010" (universal_newlines s')
  | String "013" s' => String "010" (universal_newlines s')
  | String c s' => String c (universal_newlines s')
  end.
Definition no_return (s : string) : bool := all_chars (λ c, negb (bool_decide (c = "013"%char))) s.
Lemma universal_newlines_id s : no_return s = true → universal_newlines s = s.
Proof.
  induction s as [|c s IH]; [done|]. unfold no_return. cbn [all_chars].
  intros [Hc Hs]%andb_true_iff. specialize (IH Hs).
  destruct c as [[] [] [] [] [] [] [] []]; by first [discriminate Hc | cbn; rewrite IH].
Qed.
