(* ===== verification/PyDict.v ===== *)
(** * Python dictionaries

    A [dict] with string keys keeps insertion order: the list of its items.  Assignment to
    a present key replaces the value in place, assignment to a new key appends.  Equality
    of dictionaries ([==]) ignores the order: [dict_equiv]. *)

From S2P Require Import Prelude.

Abbreviation dict V := (list (string * V)).

(** ** Operations *)

Definition bool_nat (b : bool) : nat := if b then 1%nat else 0%nat.

Section operations.
Context {V : Type}.
Implicit Types d : dict V.

(** [d.get(k)]. *)
Fixpoint dget (k : string) d : option V :=
  match d with
  | [] => None
  | (k', v) :: d' => if decide (k = k') then Some v else dget k d'
  end.

(** [d[k] = v]. *)
Fixpoint dset (k : string) (v : V) d : dict V :=
  match d with
  | [] => [(k, v)]
  | (k', v') :: d' => if decide (k = k') then (k', v) :: d' else (k', v') :: dset k v d'
  end.

(** [d.keys()] and [d.values()]. *)
Definition dkeys d : list string := d.*1.
Definition dvalues d : list V := d.*2.

(** [{**d, **e}]. *)
Definition dmerge d (e : dict V) : dict V := foldl (λ acc kv, dset kv.1 kv.2 acc) d e.

(** The number of values that satisfy [p]. *)
Definition dcount (p : V → bool) d : nat := sum_list_with (λ v, bool_nat (p v)) (dvalues d).

Definition dict_wf d : Prop := NoDup (dkeys d).

(** [==]: same keys, same values. *)
Definition dict_eqb `{EqDecision V} d (e : dict V) : bool :=
  bool_decide (length d = length e) && forallb (λ kv, bool_decide (dget kv.1 e = Some kv.2)) d.
End operations.

Definition dict_equiv {V} (d e : dict V) : Prop := ∀ k, dget k d = dget k e.

(** ** Laws *)

Section laws.
Context {V : Type}.
Implicit Types (d : dict V) (p : V → bool).

Lemma dget_dset_eq k v d : dget k (dset k v d) = Some v.
Proof.
  induction d as [|[k' v'] d IH]; cbn; [by destruct (decide (k = k))|].
  destruct (decide (k = k')) as [->|?]; cbn.
  - by destruct (decide (k' = k')).
  - by destruct (decide (k = k')).
Qed.

Lemma dget_dset_ne k k' v d : k' ≠ k → dget k' (dset k v d) = dget k' d.
Proof.
  intros Hne. induction d as [|[k1 v1] d IH]; cbn.
  - by destruct (decide (k' = k)).
  - destruct (decide (k = k1)) as [->|?]; cbn.
    + by destruct (decide (k' = k1)).
    + by destruct (decide (k' = k1)).
Qed.

Lemma dget_dset k k' v d : dget k' (dset k v d) = if decide (k' = k) then Some v else dget k' d.
Proof.
  destruct (decide (k' = k)) as [->|?]; [apply dget_dset_eq|by apply dget_dset_ne].
Qed.

Lemma dget_Some_In k v d : dget k d = Some v → (k, v) ∈ d.
Proof.
  induction d as [|[k' v'] d IH]; cbn; [done|].
  destruct (decide (k = k')) as [->|?]; [intros [= ->]; left | right; auto].
Qed.

Lemma dget_None k d : dget k d = None ↔ k ∉ dkeys d.
Proof.
  induction d as [|[k' v'] d IH]; cbn; [split; [set_solver|done]|].
  destruct (decide (k = k')) as [->|?].
  - split; [done|]. intros H; exfalso; apply H; left.
  - rewrite IH, not_elem_of_cons. cbn. tauto.
Qed.

Lemma dget_In d : dict_wf d → ∀ k v, (k, v) ∈ d ↔ dget k d = Some v.
Proof.
  intros Hwf k v; split; [|apply dget_Some_In].
  induction d as [|[k' v'] d IH]; cbn; [by intros ?%elem_of_nil|].
  apply NoDup_cons in Hwf as [Hk Hd]. cbn in Hk.
  intros [[= -> ->]|Hin]%elem_of_cons; [by rewrite decide_True|].
  destruct (decide (k = k')) as [->|?]; [|by apply IH].
  exfalso; apply Hk. by apply (list_elem_of_fmap_2 fst _ (k', v)).
Qed.

Lemma dvalues_elem v d : v ∈ dvalues d ↔ ∃ k, (k, v) ∈ d.
Proof.
  unfold dvalues. rewrite list_elem_of_fmap. split.
  - intros ([k v'] & -> & ?); eauto.
  - intros (k & ?); exists (k, v); eauto.
Qed.

Lemma dkeys_dset_present k v d : is_Some (dget k d) → dkeys (dset k v d) = dkeys d.
Proof.
  induction d as [|[k' v'] d IH]; cbn; [by intros []|].
  destruct (decide (k = k')) as [->|?]; cbn; [done|]. intros H; f_equal; auto.
Qed.

Lemma dset_absent k v d : dget k d = None → dset k v d = d ++ [(k, v)].
Proof.
  induction d as [|[k' v'] d IH]; cbn; [done|].
  destruct (decide (k = k')) as [->|?]; cbn; [done|]. intros ?; f_equal; auto.
Qed.

Lemma dict_wf_nil : dict_wf (V:=V) [].
Proof. constructor. Qed.

Lemma dict_wf_dset k v d : dict_wf d → dict_wf (dset k v d).
Proof.
  intros Hwf. destruct (dget k d) eqn:E.
  - unfold dict_wf. by rewrite dkeys_dset_present.
  - rewrite dset_absent by done. unfold dict_wf, dkeys. rewrite fmap_app, NoDup_app. cbn.
    split; [done|]. split; [|apply NoDup_singleton].
    intros x Hx ->%list_elem_of_singleton. by apply dget_None in E.
Qed.

Lemma dict_wf_dmerge d e : dict_wf d → dict_wf (dmerge d e).
Proof.
  unfold dmerge. revert d; induction e as [|[k v] e IH]; cbn; [done|].
  intros d Hd. by apply IH, dict_wf_dset.
Qed.

Lemma dset_length_present k v d : is_Some (dget k d) → length (dset k v d) = length d.
Proof.
  intros H. pose proof (dkeys_dset_present k v d H) as E.
  apply (f_equal length) in E. unfold dkeys in E. by rewrite !length_fmap in E.
Qed.

(** Overwriting a key with its own value changes nothing. *)
Lemma dset_id k v d : dget k d = Some v → dset k v d = d.
Proof.
  induction d as [|[k' v'] d IH]; cbn; [done|].
  destruct (decide (k = k')) as [->|?]; [by intros [= ->]|]. intros ?; f_equal; auto.
Qed.

Lemma dset_dset k v w d : dset k v (dset k w d) = dset k v d.
Proof.
  induction d as [|[k' v'] d IH]; cbn; [by rewrite decide_True|].
  destruct (decide (k = k')) as [->|?]; cbn; [by rewrite decide_True|].
  rewrite decide_False by done. by f_equal.
Qed.

(** How a count moves when one key is assigned. *)
Lemma dcount_dset p k v d : dict_wf d →
  (dcount p (dset k v d) + match dget k d with Some v0 => bool_nat (p v0) | None => 0 end
   = dcount p d + bool_nat (p v))%nat.
Proof.
  unfold dcount, dvalues. induction d as [|[k' v'] d IH]; cbn; intros Hwf; [lia|].
  apply NoDup_cons in Hwf as [Hk Hd]. specialize (IH Hd).
  destruct (decide (k = k')) as [->|?]; cbn; lia.
Qed.

Lemma dcount_pos p d : (0 < dcount p d)%nat ↔ ∃ v, v ∈ dvalues d ∧ p v = true.
Proof.
  unfold dcount. induction (dvalues d) as [|v l IH]; cbn.
  - split; [lia|]. by intros (v & ?%elem_of_nil & _).
  - destruct (p v) eqn:E; cbn.
    + split; [|lia]. intros _; exists v; split; [left|done].
    + rewrite IH. split.
      * intros (w & ? & ?); exists w; split; [by right|done].
      * intros (w & [->|?]%elem_of_cons & ?); [congruence|eauto].
Qed.

Lemma dcount_ext p q d : (∀ v, v ∈ dvalues d → p v = q v) → dcount p d = dcount q d.
Proof.
  unfold dcount. induction (dvalues d) as [|v l IH]; cbn; [done|]. intros H.
  rewrite IH by (intros w ?; apply H; by right). by rewrite (H v) by left.
Qed.

Lemma dget_dmerge k d e : dict_wf e →
  dget k (dmerge d e) = match dget k e with Some v => Some v | None => dget k d end.
Proof.
  unfold dmerge. revert d; induction e as [|[k' v] e IH]; cbn; [done|].
  intros d Hwf. apply NoDup_cons in Hwf as [Hk He]. rewrite IH by done.
  destruct (decide (k = k')) as [->|?].
  - rewrite (proj2 (dget_None k' e)) by done. by rewrite dget_dset_eq.
  - by rewrite dget_dset_ne.
Qed.

(** Reading an entry of a well-formed dictionary through its value list. *)
Lemma dvalues_get d v : dict_wf d → v ∈ dvalues d → ∃ k, dget k d = Some v.
Proof. intros ? (k & ?)%dvalues_elem. exists k. by apply dget_In. Qed.

Lemma dget_values k v d : dget k d = Some v → v ∈ dvalues d.
Proof. intros ?%dget_Some_In. apply dvalues_elem. eauto. Qed.
End laws.

#[export] Instance dict_equiv_equivalence {V} : Equivalence (@dict_equiv V).
Proof.
  split; [done|by intros d e H k|].
  intros d e f H1 H2 k. by rewrite H1.
Qed.

(** Lookup does not see the order of insertion. *)
#[export] Instance dget_proper {V} k : Proper (dict_equiv ==> eq) (@dget V k).
Proof. intros d e H. apply H. Qed.

Lemma dict_eqb_spec {V} `{EqDecision V} (d e : dict V) :
  dict_wf d → dict_wf e → dict_eqb d e = true ↔ dict_equiv d e.
Proof.
  intros Hd He. unfold dict_eqb. rewrite andb_true_iff, bool_decide_eq_true, forallb_forall.
  assert ((∀ x, List.In x d → bool_decide (dget x.1 e = Some x.2) = true) ↔
          ∀ k v, dget k d = Some v → dget k e = Some v) as ->.
  { split.
    - intros H k v Hk. specialize (H (k, v)). rewrite bool_decide_eq_true in H.
      apply H, list_elem_of_In, dget_Some_In. done.
    - intros H [k v] Hin. apply bool_decide_eq_true, H. apply dget_In; [done|].
      by apply list_elem_of_In. }
  split.
  - intros [Hlen Hsub] k. destruct (dget k d) as [v|] eqn:E; [symmetry; by apply Hsub|].
    destruct (dget k e) as [v|] eqn:E'; [|done]. exfalso.
    (* the keys of [d], distinct and as many, are those of [e] *)
    assert (dkeys d ⊆+ dkeys e) as Hs.
    { apply NoDup_submseteq; [done|]. intros x Hx.
      destruct (dget x d) as [w|] eqn:Ex; [|by apply dget_None in Ex].
      apply Hsub, dget_Some_In in Ex. by apply (list_elem_of_fmap_2 fst _ (x, w)). }
    apply submseteq_length_Permutation in Hs; [|unfold dkeys; rewrite !length_fmap; lia].
    apply dget_None in E. apply E. rewrite Hs.
    apply dget_Some_In in E'. by apply (list_elem_of_fmap_2 fst _ (k, v)).
  - intros H. split; [|intros k v; by rewrite H].
    assert (dkeys d ≡ₚ dkeys e) as Hp.
    { apply NoDup_Permutation; [done..|]. intros x. split; intros Hx.
      - destruct (dget x e) eqn:E; [|rewrite <- H in E; by apply dget_None in E].
        apply dget_Some_In in E. by apply (list_elem_of_fmap_2 fst _ (x, v)).
      - destruct (dget x d) eqn:E; [|rewrite H in E; by apply dget_None in E].
        apply dget_Some_In in E. by apply (list_elem_of_fmap_2 fst _ (x, v)). }
    apply Permutation_length in Hp. unfold dkeys in Hp. by rewrite !length_fmap in Hp.
Qed.

#[export] Hint Resolve dict_wf_nil dict_wf_dset dict_wf_dmerge : py.
