(* ===== verification/PyVal.v ===== *)
(** * Python values of JSON type

    The [Any] values that cross the wire or sit in payloads, metadata and results: what
    [json.loads] produces.  Floats are IEEE values ([spec_float]).  The operations are
    Python's truth value, [==], [int(...)], [str(...)] and [dict(...)] on such values. *)

From S2P Require Import Prelude PyStr PyDict.
From Stdlib Require Import SpecFloat.

#[local] Set Warnings "-register-all".

Inductive pyval :=
  | PNone
  | PBool (b : bool)
  | PInt (z : Z)
  | PFloat (f : spec_float)
  | PStr (s : string)
  | PList (l : list pyval)
  | PDict (d : list (string * pyval)).

(** ** Truth value: [bool(v)] *)

Definition float_is_zero (f : spec_float) : bool := if f is S754_zero _ then true else false.

Definition truthy (v : pyval) : bool :=
  match v with
  | PNone => false
  | PBool b => b
  | PInt z => negb (z =? 0)
  | PFloat f => negb (float_is_zero f)
  | PStr s => str_truthy s
  | PList l => match l with [] => false | _ => true end
  | PDict d => match d with [] => false | _ => true end
  end.

(** ** Equality: [a == b]

    Numbers compare by value across [bool], [int] and [float]; a NaN differs from
    everything; dictionaries ignore order. *)

(** [m * 2^e = z], exactly. *)
Definition float_eq_Z (f : spec_float) (z : Z) : bool :=
  match f with
  | S754_zero _ => z =? 0
  | S754_finite s m e =>
      let m' := if s then Z.neg m else Z.pos m in
      if 0 <=? e then m' * 2 ^ e =? z else m' =? z * 2 ^ (- e)
  | _ => false
  end.

Definition as_int (v : pyval) : option Z :=
  match v with PBool b => Some (Z.b2z b) | PInt z => Some z | _ => None end.

Fixpoint py_eqb (a b : pyval) {struct a} : bool :=
  match a, b with
  | PNone, PNone => true
  | (PBool _ | PInt _), (PBool _ | PInt _) =>
      bool_decide (as_int a = as_int b)
  | (PBool _ | PInt _), PFloat f | PFloat f, (PBool _ | PInt _) =>
      match as_int a, as_int b with
      | Some z, _ | None, Some z => float_eq_Z f z
      | None, None => false
      end
  | PFloat f, PFloat g => SFeqb f g
  | PStr s, PStr t => bool_decide (s = t)
  | PList l, PList m =>
      (fix go l m := match l, m with
        | [], [] => true
        | x :: l', y :: m' => py_eqb x y && go l' m'
        | _, _ => false
        end) l m
  | PDict d, PDict e =>
      bool_decide (length d = length e) &&
      (fix go d := match d with
        | [] => true
        | (k, v) :: d' => match dget k e with Some w => py_eqb v w | None => false end && go d'
        end) d
  | _, _ => false
  end.

(** [dict(a) == dict(b)]. *)
Definition dict_py_eqb (d e : dict pyval) : bool := py_eqb (PDict d) (PDict e).

(** ** Conversions *)

(** [int(s)] of a string: surrounding space, a sign, digits with single underscores. *)
Definition int_of_str (s : string) : result Z :=
  let t := strip s in
  let '(neg, body) := match t with
    | String "-" r => (true, r)
    | String "+" r => (false, r)
    | _ => (false, t)
    end in
  let parts := split_char "_" body in
  if forallb digits parts then
    n ← int_of_digits (foldr String.append EmptyString parts);
    Ok (if neg : bool then - Z.of_N n else Z.of_N n)
  else Err (ValueError "invalid literal for int() with base 10").

(** [int(f)]: truncation toward zero. *)
Definition int_of_float (f : spec_float) : result Z :=
  match f with
  | S754_zero _ => Ok 0
  | S754_infinity _ => Err (OverflowError "cannot convert float infinity to integer")
  | S754_nan => Err (ValueError "cannot convert float NaN to integer")
  | S754_finite s m e =>
      let a := if 0 <=? e then Z.pos m * 2 ^ e else Z.pos m / 2 ^ (- e) in
      Ok (if s then - a else a)
  end.

(** [int(v)]. *)
Definition py_int (v : pyval) : result Z :=
  match v with
  | PBool b => Ok (Z.b2z b)
  | PInt z => Ok z
  | PFloat f => int_of_float f
  | PStr s => int_of_str s
  | PNone | PList _ | PDict _ =>
      Err (TypeError "int() argument must be a string, a bytes-like object or a real number")
  end.

(** [str(v)]; the [repr] of floats and containers is outside the model. *)
Definition py_str (v : pyval) : result string :=
  match v with
  | PNone => Ok "None"
  | PBool true => Ok "True"
  | PBool false => Ok "False"
  | PInt z => Ok (str_of_Z z)
  | PStr s => Ok s
  | PFloat _ => Err (OutOfModel "repr of float")
  | PList _ => Err (OutOfModel "repr of list")
  | PDict _ => Err (OutOfModel "repr of dict")
  end.

(** One element of the sequence given to [dict(...)]: a pair.  Keys that are not strings
    are outside the model; unhashable ones raise. *)
Definition dict_pair (v : pyval) : result (string * pyval) :=
  match v with
  | PStr (String a (String b EmptyString)) =>
      Ok (String a EmptyString, PStr (String b EmptyString))
  | PStr _ => Err (ValueError "dictionary update sequence element has wrong length")
  | PList [PStr k; w] => Ok (k, w)
  | PList [(PList _ | PDict _); _] => Err (TypeError "unhashable type")
  | PList [_; _] => Err (OutOfModel "dict key that is not a string")
  | PList _ => Err (ValueError "dictionary update sequence element has wrong length")
  | PDict [(k1, _); (k2, _)] => Ok (k1, PStr k2)
  | PDict _ => Err (ValueError "dictionary update sequence element has wrong length")
  | _ => Err (TypeError "cannot convert dictionary update sequence element to a sequence")
  end.

(** [dict(v)]. *)
Definition py_dict (v : pyval) : result (dict pyval) :=
  match v with
  | PDict d => Ok d
  | PList l =>
      foldR (λ acc x, kv ← dict_pair x; Ok (dset kv.1 kv.2 acc)) [] l
  | PStr EmptyString => Ok []
  | PStr _ => Err (ValueError "dictionary update sequence element #0 has length 1; 2 is required")
  | _ => Err (TypeError "object is not iterable")
  end.

(** Iteration over [v]: the elements of a list, the characters of a string, the keys of a
    dictionary. *)
Fixpoint chars (s : string) : list pyval :=
  match s with
  | EmptyString => []
  | String c s' => PStr (String c EmptyString) :: chars s'
  end.
Definition py_iter (v : pyval) : result (list pyval) :=
  match v with
  | PList l => Ok l
  | PStr s => Ok (chars s)
  | PDict d => Ok (PStr <$> dkeys d)
  | _ => Err (TypeError "object is not iterable")
  end.

(** [v[k]] and [v.get(k)] with a string key. *)
Definition py_item (k : string) (v : pyval) : result pyval :=
  match v with
  | PDict d => match dget k d with Some w => Ok w | None => Err (KeyError k) end
  | PStr _ => Err (TypeError "string indices must be integers")
  | PList _ => Err (TypeError "list indices must be integers or slices, not str")
  | _ => Err (TypeError "object is not subscriptable")
  end.
Definition py_get (k : string) (v : pyval) : result pyval :=
  match v with
  | PDict d => Ok (default PNone (dget k d))
  | _ => Err (AttributeError "object has no attribute 'get'")
  end.

(** [d.get(k)] on a dictionary already built, absent keys reading [None]. *)
Definition get (k : string) (d : dict pyval) : pyval := default PNone (dget k d).
(** [d[k]]. *)
Definition item (k : string) (d : dict pyval) : result pyval :=
  match dget k d with Some w => Ok w | None => Err (KeyError k) end.
(** [data.get(k, default)]. *)
Definition get_default (k : string) (dflt : pyval) (d : dict pyval) : pyval := default dflt (dget k d).
(** [a or b]. *)
Definition py_or (a b : pyval) : pyval := if truthy a then a else b.

(** A string or [None]. *)
Definition of_opt_str (o : option string) : pyval := if o is Some s then PStr s else PNone.
Definition of_opt_Z (o : option Z) : pyval := if o is Some z then PInt z else PNone.
(** A list of strings. *)
Definition strs (l : list string) : pyval := PList (PStr <$> l).

(** ** Laws *)

(** Values on which [==] is reflexive: no NaN inside, dictionaries with distinct keys. *)
Fixpoint plain (v : pyval) : Prop :=
  match v with
  | PFloat f => f ≠ S754_nan
  | PList l => (fix go l := match l with [] => True | x :: l' => plain x ∧ go l' end) l
  | PDict d => dict_wf d ∧
      (fix go (d : list (string * pyval)) :=
        match d with [] => True | (_, x) :: d' => plain x ∧ go d' end) d
  | _ => True
  end.

Section pyval_ind.
Variable P : pyval → Prop.
Hypothesis HNone : P PNone.
Hypothesis HBool : ∀ b, P (PBool b).
Hypothesis HInt : ∀ z, P (PInt z).
Hypothesis HFloat : ∀ f, P (PFloat f).
Hypothesis HStr : ∀ s, P (PStr s).
Hypothesis HList : ∀ l, Forall P l → P (PList l).
Hypothesis HDict : ∀ d, Forall (λ kv, P kv.2) d → P (PDict d).

(** Induction through lists and dictionaries. *)
Fixpoint pyval_nested_ind (v : pyval) : P v.
Proof.
  destruct v as [| | | | |l|d]; [exact HNone|apply HBool|apply HInt|apply HFloat|apply HStr|..].
  - apply HList. induction l as [|x l IH]; constructor; [apply pyval_nested_ind|exact IH].
  - apply HDict. induction d as [|[k x] d IH]; constructor; [apply pyval_nested_ind|exact IH].
Qed.
End pyval_ind.

Lemma SFcompare_refl f : f ≠ S754_nan → SFcompare f f = Some Eq.
Proof.
  destruct f as [[]|[]| |[] m e]; try done; intros _; cbn;
    by rewrite Z.compare_refl, Pos.compare_refl.
Qed.

Lemma py_eqb_refl v : plain v → py_eqb v v = true.
Proof.
  induction v as [| | |f|s|l IH|d IH] using pyval_nested_ind; intros Hv; cbn;
    try by apply bool_decide_eq_true.
  - done.
  - cbn in Hv. unfold SFeqb. by rewrite SFcompare_refl.
  - cbn in Hv. induction IH as [|x l Hx _ IHl]; [done|]. destruct Hv as [H H0].
    rewrite (Hx H). apply (IHl H0).
  - rewrite bool_decide_true by done. destruct Hv as [Hwf Hp]. cbn.
    assert (∀ k v, (k, v) ∈ d → dget k d = Some v) as Hg by (intros; by apply dget_In).
    revert Hg. generalize d at 2 3. intros e Hg. clear Hwf.
    induction IH as [|[k x] d Hx _ IHd]; [done|]. destruct Hp as [Hpx Hp]. cbn in Hx.
    rewrite (Hg k x) by left. rewrite Hx by done. cbn.
    apply IHd; [done|]. intros k' v' ?. apply Hg. by right.
Qed.

Lemma dict_py_eqb_refl d : plain (PDict d) → dict_py_eqb d d = true.
Proof. apply py_eqb_refl. Qed.
