(* ===== verification/PyHost.v ===== *)
(** * Text and paths of the host

    The further Python operations the host-facing code uses: [casefold], [split(None, 1)],
    [pathlib] names, sorted dictionary items, and the law that printing lines and splitting
    them again gives the lines back. *)

From S2P Require Import Prelude PyStr PyDict.

(** ** Text *)

(** [str.casefold] on U+0000..U+00FF: [lower], and the sharp s becomes [ss].  (The micro
    sign folds to a Greek letter outside the range; it is kept.) *)
Fixpoint casefold (s : string) : string :=
  match s with
  | EmptyString => EmptyString
  | String c s' =>
      if bool_decide (c = "223"%char) then String "s" (String "s" (casefold s'))
      else String (lower_char c) (casefold s')
  end.

(** The first white-space-delimited word, and what follows it. *)
Fixpoint take_word (s : string) : string * string :=
  match s with
  | EmptyString => (EmptyString, EmptyString)
  | String c s' => if is_space c then (EmptyString, s)
                   else let '(w, r) := take_word s' in (String c w, r)
  end.

(** [s.split(None, 1)]. *)
Definition split_none1 (s : string) : list string :=
  let t := lstrip s in
  if negb (str_truthy t) then []
  else let '(w, r) := take_word t in
       let rest := lstrip r in
       if str_truthy rest then [w; rest] else [w].

(** [any(marker in text for marker in markers)]. *)
Definition any_in (markers : list string) (text : string) : bool :=
  existsb (λ m, contains m text) markers.

(** What [print] writes for each line. *)
Definition print_lines (l : list string) : string :=
  foldr (λ x acc, x +:+ String "010" acc) EmptyString l.

(** ** Paths *)

(** [root / name] for a root in [pathlib]'s normal form. *)
Definition path_div (root name : string) : string :=
  if bool_decide (root = "/") then root +:+ name
  else if bool_decide (root = ".") then name
  else root +:+ "/" +:+ name.

(** [Path(p).name]: the last component. *)
Definition path_name (p : string) : string :=
  default EmptyString
    (last (filter (λ c, negb (bool_decide (c = EmptyString) || bool_decide (c = ".")))
             (split_char "/" p))).

(** ** Sorted items *)

(** The order of tuples [(str, str)]. *)
Definition pair_le (a b : string * string) : Prop :=
  String.le a.1 b.1 ∧ (a.1 = b.1 → String.le a.2 b.2).
#[export] Instance pair_le_dec : RelDecision pair_le.
Proof. intros a b. unfold pair_le. apply _. Defined.

(** [sorted(pairs)]. *)
Definition sorted_pairs (l : list (string * string)) : list (string * string) :=
  merge_sort pair_le l.

(** [sorted(set(l))]. *)
Definition sorted_set (l : list string) : list string := sorted_strings (remove_dups l).

(** ** Laws *)

#[export] Instance pair_le_trans : Transitive pair_le.
Proof.
  intros a b c [H1 E1] [H2 E2]. split; [by etrans|]. intros Eac.
  assert (a.1 = b.1) as Eab.
  { apply (anti_symm String.le); [done|]. by rewrite Eac. }
  etrans; [by apply E1|]. apply E2. congruence.
Qed.
#[export] Instance pair_le_total : Total pair_le.
Proof.
  intros [a1 a2] [b1 b2]. unfold pair_le. cbn.
  destruct (decide (a1 = b1)) as [->|Hne].
  - destruct (total String.le a2 b2); [left|right]; by split.
  - destruct (total String.le a1 b1); [left|right]; split; congruence.
Qed.
#[export] Instance pair_le_antisymm : AntiSymm (=) pair_le.
Proof.
  intros [a1 a2] [b1 b2] [H1 E1] [H2 E2]. cbn in *.
  assert (a1 = b1) as -> by by apply (anti_symm String.le).
  f_equal. apply (anti_symm String.le); auto.
Qed.

Lemma sorted_pairs_Permutation l : sorted_pairs l ≡ₚ l.
Proof. apply merge_sort_Permutation. Qed.

Lemma sorted_pairs_unique l1 l2 : l1 ≡ₚ l2 → sorted_pairs l1 = sorted_pairs l2.
Proof.
  intros H. apply (StronglySorted_unique pair_le); [apply StronglySorted_merge_sort; apply _..|].
  by rewrite !sorted_pairs_Permutation.
Qed.

Lemma sorted_pairs_idemp l : sorted_pairs (sorted_pairs l) = sorted_pairs l.
Proof. apply sorted_pairs_unique, sorted_pairs_Permutation. Qed.

Lemma elem_of_sorted_set x l : x ∈ sorted_set l ↔ x ∈ l.
Proof. unfold sorted_set. by rewrite elem_of_sorted_strings, elem_of_remove_dups. Qed.

(** A line: no line boundary inside. *)
Definition line (s : string) : Prop := all_chars (λ c, negb (is_linebreak c)) s = true.

Lemma splitlines_line_aux cur started x s : line x →
  splitlines_aux cur started (x +:+ String "010" s) = (cur +:+ x) :: splitlines s.
Proof.
  revert cur started. induction x as [|c x IH]; intros cur started; cbn.
  - intros _. rewrite append_nil_l. cbn.
    assert (cur +:+ EmptyString = cur) as ->.
    { induction cur as [|d cur IH]; [done|]. by rewrite append_cons, IH. }
    destruct s; done.
  - unfold line. cbn. rewrite andb_true_iff, negb_true_iff. intros [Hc Hx].
    rewrite append_cons. cbn. rewrite Hc, IH by done. f_equal.
    clear. induction cur as [|d cur IH]; [done|]. by rewrite !append_cons, IH.
Qed.

(** Reading back what was printed. *)
Lemma splitlines_print l : Forall line l → splitlines (print_lines l) = l.
Proof.
  induction 1 as [|x l Hx _ IH]; [done|].
  change (print_lines (x :: l)) with (x +:+ String "010" (print_lines l)). unfold splitlines.
  rewrite splitlines_line_aux by done. by rewrite IH, append_nil_l.
Qed.

Lemma linebreak_is_space c : is_linebreak c = true → is_space c = true.
Proof. revert c. by intros [[] [] [] [] [] [] [] []]. Qed.

Lemma nospace_line s : all_chars (λ c, negb (is_space c)) s = true → line s.
Proof.
  apply all_chars_impl. intros c. rewrite !negb_true_iff. intros H.
  destruct (is_linebreak c) eqn:E; [|done]. apply linebreak_is_space in E. congruence.
Qed.

(** * Paths

    [pathlib.PurePosixPath]: a root ([""], ["/"] or ["//"]) and the names below it. *)

Record path := { p_root : string; p_names : list string }.

#[export] Instance path_eq_dec : EqDecision path.
Proof. solve_decision. Defined.

(** The names of a text: its components but the empty ones and ["."]. *)
Definition path_components (s : string) : list string :=
  filter (λ c, c ≠ EmptyString ∧ c ≠ ".") (split_char "/" s).

(** [Path(s)]. *)
Definition Path (s : string) : path :=
  {| p_root := if startswith "///" s then "/" else if startswith "//" s then "//"
               else if startswith "/" s then "/" else EmptyString;
     p_names := path_components s |}.

Definition root_path : path := {| p_root := "/"; p_names := [] |}.

(** [str(p)]. *)
Definition path_str (p : path) : string :=
  let s := p_root p +:+ join "/" (p_names p) in if str_truthy s then s else ".".

Definition is_absolute (p : path) : bool := str_truthy (p_root p).
Definition path_parts (p : path) : list string :=
  (if str_truthy (p_root p) then [p_root p] else []) ++ p_names p.
Definition parent (p : path) : path := {| p_root := p_root p; p_names := removelast (p_names p) |}.
Definition name_of (p : path) : string := default EmptyString (last (p_names p)).

(** [a / b]. *)
Definition path_join (a b : path) : path :=
  if is_absolute b then b else {| p_root := p_root a; p_names := p_names a ++ p_names b |}.

Fixpoint strip_names (l m : list string) : option (list string) :=
  match l, m with
  | [], _ => Some m
  | x :: l', y :: m' => if bool_decide (x = y) then strip_names l' m' else None
  | _ :: _, [] => None
  end.

(** [a.relative_to(b)]. *)
Definition relative_to (a b : path) : result path :=
  match (if bool_decide (p_root a = p_root b) then strip_names (p_names b) (p_names a) else None) with
  | Some l => Ok {| p_root := EmptyString; p_names := l |}
  | None => Err (ValueError (path_str a +:+ " is not in the subpath of " +:+ path_str b))
  end.

(** ** Laws *)

Lemma strip_names_Some l m r : strip_names l m = Some r ↔ m = l ++ r.
Proof.
  revert m. induction l as [|x l IH]; intros m; cbn.
  - split; [by intros [= ->]|by intros ->].
  - destruct m as [|y m]; cbn; [done|]. destruct (decide (x = y)) as [->|Hn].
    + rewrite bool_decide_true by done. rewrite IH. split; [by intros ->|by intros [= ->]].
    + rewrite bool_decide_false by done. split; [done|]. intros [= -> _]. done.
Qed.

Lemma strip_names_app l r : strip_names l (l ++ r) = Some r.
Proof. by apply strip_names_Some. Qed.

Lemma relative_to_Ok a b p :
  relative_to a b = Ok p ↔
  p_root a = p_root b ∧ p_root p = EmptyString ∧ p_names a = p_names b ++ p_names p.
Proof.
  unfold relative_to. destruct (decide (p_root a = p_root b)) as [E|E].
  - rewrite bool_decide_true by done.
    destruct (strip_names (p_names b) (p_names a)) as [r|] eqn:Es.
    + apply strip_names_Some in Es. split.
      * intros [= <-]. by cbn.
      * intros (_ & Hr & Hn). destruct p as [pr pn]. cbn in *. subst pr.
        rewrite Hn in Es. apply app_inv_head in Es. by subst.
    + split; [done|]. intros (_ & _ & Hn). rewrite Hn, strip_names_app in Es. done.
  - rewrite bool_decide_false by done. split; [done|]. by intros [? _].
Qed.

Lemma removelast_snoc {A} (l : list A) x : removelast (l ++ [x]) = l.
Proof. by rewrite removelast_app, app_nil_r. Qed.

(** A path with a name is its parent and that name. *)
Lemma parent_name (p : path) : p_names p ≠ [] →
  p_names p = p_names (parent p) ++ [name_of p].
Proof.
  unfold parent, name_of. cbn. intros H. destruct (last (p_names p)) as [x|] eqn:E.
  - apply last_Some in E as [l E]. by rewrite E, removelast_snoc.
  - by apply last_None in E.
Qed.
