(* ===== verification/Effects.v ===== *)
(** * Computations with state and exceptions

    [eff S A]: a computation that changes a state [S] and returns an [A] or raises; the state
    it had reached survives an exception.  With it a Hoare logic: from [P] it returns in [Q]
    or raises in [E]. *)

From S2P Require Import Prelude.

Definition eff (S A : Type) : Type := S → S * result A.

Section eff.
Context {S : Type}.

#[export] Instance eff_ret : MRet (eff S) := λ A a s, (s, Ok a).
#[export] Instance eff_bind : MBind (eff S) := λ A B k m s,
  match m s with
  | (s', Ok a) => k a s'
  | (s', Err e) => (s', Err e)
  end.

Definition throws {A} (e : exn) : eff S A := λ s, (s, Err e).
Definition gets {A} (f : S → A) : eff S A := λ s, (s, Ok (f s)).
Definition sets (f : S → S) : eff S unit := λ s, (f s, Ok tt).
Definition lifts {A} (r : result A) : eff S A := λ s, (s, r).
(** [if not b: raise e]. *)
Definition ensure (b : bool) (e : exn) : eff S unit := if b then mret tt else throws e.
(** [try: m except ... as e: h e]; [h] raises again what it does not handle. *)
Definition try_catch {A} (m : eff S A) (h : exn → eff S A) : eff S A := λ s,
  match m s with
  | (s', Ok a) => (s', Ok a)
  | (s', Err e) => h e s'
  end.
(** [try: m finally: c]: an exception of [c] replaces the outcome of [m]. *)
Definition try_finally {A} (m : eff S A) (c : eff S unit) : eff S A := λ s,
  let '(s', r) := m s in
  match c s' with
  | (s'', Ok _) => (s'', r)
  | (s'', Err e) => (s'', Err e)
  end.

(** [try: m except BaseException: c; raise]. *)
Definition on_error {A} (c : eff S unit) (m : eff S A) : eff S A := λ s,
  match m s with
  | (s', Ok a) => (s', Ok a)
  | (s', Err e) => match c s' with (s'', Ok _) => (s'', Err e) | (s'', Err e') => (s'', Err e') end
  end.

(** A loop over a list. *)
Fixpoint each {A} (f : A → eff S unit) (l : list A) : eff S unit :=
  match l with
  | [] => mret tt
  | x :: l' => f x;; each f l'
  end.

(** ** Hoare logic *)

Implicit Types (P : S → Prop).

Definition triple {A} P (m : eff S A) (Q : A → S → Prop) (E : exn → S → Prop) : Prop :=
  ∀ s, P s → match m s with (s', Ok a) => Q a s' | (s', Err e) => E e s' end.

Lemma triple_ret {A} (P : S → Prop) (a : A) (Q : A → S → Prop) E :
  (∀ s, P s → Q a s) → triple P (mret a) Q E.
Proof. intros H s Hs. by apply H. Qed.

Lemma triple_throws {A} P e (Q : A → S → Prop) (E : exn → S → Prop) :
  (∀ s, P s → E e s) → triple P (throws e) Q E.
Proof. intros H s Hs. by apply H. Qed.

Lemma triple_gets {A} P (f : S → A) (Q : A → S → Prop) E :
  (∀ s, P s → Q (f s) s) → triple P (gets f) Q E.
Proof. intros H s Hs. by apply H. Qed.

Lemma triple_sets P (f : S → S) (Q : unit → S → Prop) E :
  (∀ s, P s → Q tt (f s)) → triple P (sets f) Q E.
Proof. intros H s Hs. by apply H. Qed.

Lemma triple_lifts {A} P (r : result A) (Q : A → S → Prop) (E : exn → S → Prop) :
  (∀ s, P s → match r with Ok a => Q a s | Err e => E e s end) → triple P (lifts r) Q E.
Proof. intros H s Hs. specialize (H s Hs). unfold lifts. by destruct r. Qed.

Lemma triple_bind {A B} P (m : eff S A) Q (k : A → eff S B) R E :
  triple P m Q E → (∀ a, triple (Q a) (k a) R E) → triple P (m ≫= k) R E.
Proof.
  intros Hm Hk s Hs. specialize (Hm s Hs). unfold mbind, eff_bind.
  destruct (m s) as [s' [a|e]]; [by apply Hk|done].
Qed.

Lemma triple_ensure P b e (Q : unit → S → Prop) (E : exn → S → Prop) :
  (∀ s, P s → b = true → Q tt s) → (∀ s, P s → b = false → E e s) → triple P (ensure b e) Q E.
Proof. intros Ht Hf s Hs. unfold ensure. destruct b; [by apply Ht|by apply Hf]. Qed.

Lemma triple_catch {A} P (m : eff S A) Q E (h : exn → eff S A) E' :
  triple P m Q E → (∀ e, triple (E e) (h e) Q E') → triple P (try_catch m h) Q E'.
Proof.
  intros Hm Hh s Hs. specialize (Hm s Hs). unfold try_catch. destruct (m s) as [s' [a|e]]; [done|].
  by apply Hh.
Qed.

Lemma triple_finally {A} P (m : eff S A) (Q : A → S → Prop) (E : exn → S → Prop) c
    (Q' : A → S → Prop) (E' : exn → S → Prop) :
  triple P m Q E → (∀ a, triple (Q a) c (λ _, Q' a) E') →
  (∀ e, triple (E e) c (λ _, E' e) E') →
  triple P (try_finally m c) Q' E'.
Proof.
  intros Hm Hq He s Hs. specialize (Hm s Hs). unfold try_finally. destruct (m s) as [s' [a|e]].
  - specialize (Hq a s' Hm). by destruct (c s') as [s'' []].
  - specialize (He e s' Hm). by destruct (c s') as [s'' []].
Qed.

Lemma triple_on_error {A} P (m : eff S A) Q (E : exn → S → Prop) c (E' : exn → S → Prop) :
  triple P m Q E → (∀ e, triple (E e) c (λ _, E' e) E') → triple P (on_error c m) Q E'.
Proof.
  intros Hm He s Hs. specialize (Hm s Hs). unfold on_error. destruct (m s) as [s' [a|e]]; [done|].
  specialize (He e s' Hm). by destruct (c s') as [s'' []].
Qed.

Lemma triple_conseq {A} (P P' : S → Prop) (m : eff S A) (Q Q' : A → S → Prop)
    (E E' : exn → S → Prop) :
  triple P' m Q' E' → (∀ s, P s → P' s) → (∀ a s, Q' a s → Q a s) → (∀ e s, E' e s → E e s) →
  triple P m Q E.
Proof.
  intros Hm Hp Hq He s Hs. specialize (Hm s (Hp s Hs)). destruct (m s) as [s' []]; auto.
Qed.

Lemma triple_pre {A} (P P' : S → Prop) (m : eff S A) Q E :
  triple P' m Q E → (∀ s, P s → P' s) → triple P m Q E.
Proof. intros. by eapply triple_conseq. Qed.

Lemma triple_exists {A B} (P : B → S → Prop) (m : eff S A) Q E :
  (∀ b, triple (P b) m Q E) → triple (λ s, ∃ b, P b s) m Q E.
Proof. intros H s [b Hs]. by apply (H b). Qed.

Lemma triple_pure {A} (φ : Prop) P (m : eff S A) Q E :
  (φ → triple P m Q E) → triple (λ s, φ ∧ P s) m Q E.
Proof. intros H s [Hφ Hs]. by apply H. Qed.

Lemma triple_check (φ : Prop) P b e :
  (b = true → φ) → triple P (ensure b e) (λ _ s, φ ∧ P s) (λ _, P).
Proof. intros H s Hs. unfold ensure. destruct b; cbn; auto. Qed.

(** An invariant of the state. *)
Definition preserves {A} P (m : eff S A) : Prop := triple P m (λ _, P) (λ _, P).

Lemma preserves_ret {A} P (a : A) : preserves P (mret a).
Proof. by apply triple_ret. Qed.
Lemma preserves_throws {A} P e : preserves (A := A) P (throws e).
Proof. by apply triple_throws. Qed.
Lemma preserves_gets {A} P (f : S → A) : preserves P (gets f).
Proof. by apply triple_gets. Qed.
Lemma preserves_lifts {A} P (r : result A) : preserves P (lifts r).
Proof. apply triple_lifts. intros s Hs. by destruct r. Qed.
Lemma preserves_ensure P b e : preserves P (ensure b e).
Proof. by apply triple_ensure. Qed.
Lemma preserves_bind {A B} P (m : eff S A) (k : A → eff S B) :
  preserves P m → (∀ a, preserves P (k a)) → preserves P (m ≫= k).
Proof. intros Hm Hk. by apply (triple_bind P m (λ _, P)). Qed.
Lemma preserves_catch {A} P (m : eff S A) h :
  preserves P m → (∀ e, preserves P (h e)) → preserves P (try_catch m h).
Proof. intros Hm Hh. by apply (triple_catch P m (λ _, P) (λ _, P)). Qed.
Lemma preserves_finally {A} P (m : eff S A) c :
  preserves P m → preserves P c → preserves P (try_finally m c).
Proof. intros Hm Hc. by apply (triple_finally P m (λ _, P) (λ _, P)). Qed.
Lemma preserves_each {A} P (f : A → eff S unit) l :
  (∀ x, x ∈ l → preserves P (f x)) → preserves P (each f l).
Proof.
  induction l as [|x l IH]; intros H; cbn [each]; [by apply preserves_ret|].
  apply preserves_bind; [apply H; left|]. intros []. apply IH. intros y Hy. apply H. by right.
Qed.

(** What a run of a sequence was. *)
Lemma eff_bind_inv {A B} (m : eff S A) (k : A → eff S B) s s' r :
  (m ≫= k) s = (s', r) →
  (∃ a s1, m s = (s1, Ok a) ∧ k a s1 = (s', r)) ∨ (∃ e, m s = (s', Err e) ∧ r = Err e).
Proof.
  unfold mbind, eff_bind. destruct (m s) as [s1 [a|e]]; intros H; [left; eauto|right].
  injection H as -> <-. eauto.
Qed.
End eff.
