(* ===== verification/Trace.v ===== *)
(** * Operations answered by a world, and their trace

    A component that talks to something outside of it (a host, a database, a service) asks
    operations of a signature [op]; a world answers them, one at a time, in any way it likes.
    Every question is logged with its answer, and [traced] is a Hoare logic whose assertions
    speak of that log only, so that what is proved holds for every world. *)

From S2P Require Import Prelude Effects.

Class Handler (op : Type → Type) (W : Type) := { answer : ∀ A, op A → W → W * result A }.
Arguments answer {op W _ A} _ _.

(** A question and its answer. *)
Inductive entry (op : Type → Type) :=
  | Entry : ∀ A, op A → result A → entry op.
Arguments Entry {op A} _ _.

(** The world and what was asked of it, the latest first. *)
Record logged (op : Type → Type) (W : Type) := { lg_world : W; lg_log : list (entry op) }.
Arguments lg_world {op W}. Arguments lg_log {op W}.
#[global] Arguments Build_logged {op W}.

Section trace.
Context {op : Type → Type} {W : Type} `{Handler op W}.
Abbreviation T := (eff (logged op W)).
Abbreviation log := (list (entry op)).

Definition ask {A} (o : op A) : T A := λ s,
  let '(w, r) := answer o (lg_world s) in (Build_logged w (Entry o r :: lg_log s), r).

(** [try: m finally: c] of a loop that may be out of fuel: then nothing has ended yet. *)
Definition finally_done {A} (m : T (option A)) (c : T unit) : T (option A) := λ s,
  match m s with
  | (s', Ok None) => (s', Ok None)
  | (s', r) => match c s' with
               | (s'', Ok _) => (s'', r)
               | (s'', Err e) => (s'', Err e)
               end
  end.

(** [k] of what a loop gives, when it gives something. *)
Definition and_then {A B} (m : T (option A)) (k : A → T (option B)) : T (option B) :=
  r ← m; match r with Some a => k a | None => mret None end.

(** ** Assertions on the log *)

Implicit Types (P : log → Prop).

Definition traced {A} P (m : T A) (Q : A → log → Prop) (E : exn → log → Prop) : Prop :=
  triple (λ s, P (lg_log s)) m (λ a s, Q a (lg_log s)) (λ e s, E e (lg_log s)).

Lemma traced_ask {A} P (o : op A) (Q : A → log → Prop) (E : exn → log → Prop) :
  (∀ l, P l → (∀ a, Q a (Entry o (Ok a) :: l)) ∧ (∀ e, E e (Entry o (Err e) :: l))) →
  traced P (ask o) Q E.
Proof.
  intros Ho s Hs. destruct (Ho _ Hs) as [Hok Herr]. unfold ask.
  destruct (answer o (lg_world s)) as [w [a|e]]; [apply Hok|apply Herr].
Qed.

Lemma traced_ret {A} P (a : A) (Q : A → log → Prop) E : (∀ l, P l → Q a l) → traced P (mret a) Q E.
Proof. intros Ha. apply triple_ret. intros s. apply Ha. Qed.

Lemma traced_throws {A} P e (Q : A → log → Prop) (E : exn → log → Prop) :
  (∀ l, P l → E e l) → traced P (throws e) Q E.
Proof. intros He. apply triple_throws. intros s. apply He. Qed.

Lemma traced_lifts {A} P (r : result A) (Q : A → log → Prop) (E : exn → log → Prop) :
  (∀ a l, P l → r = Ok a → Q a l) → (∀ e l, P l → r = Err e → E e l) → traced P (lifts r) Q E.
Proof. intros Hok Herr. apply triple_lifts. intros s Hs. destruct r; [by apply Hok|by apply Herr]. Qed.

(** What a pure part gives, and what goes on with it. *)
Lemma traced_given {A B} P (r : result A) (k : A → T B) Q (E : exn → log → Prop) :
  (∀ e l, P l → E e l) → (∀ a, r = Ok a → traced P (k a) Q E) → traced P (lifts r ≫= k) Q E.
Proof. intros He Hk s Hs. destruct r as [a|e]; [exact (Hk a eq_refl s Hs)|by apply He]. Qed.

Lemma traced_bind {A B} P (m : T A) Q (k : A → T B) R E :
  traced P m Q E → (∀ a, traced (Q a) (k a) R E) → traced P (m ≫= k) R E.
Proof. apply triple_bind. Qed.

(** A check, and what goes on when it holds. *)
Lemma traced_guard {A} P b e (k : T A) Q (E : exn → log → Prop) :
  (b = false → ∀ l, P l → E e l) → (b = true → traced P k Q E) → traced P (ensure b e;; k) Q E.
Proof.
  intros Hf Ht. destruct b; [by apply Ht|]. intros s Hs. by apply Hf.
Qed.
Lemma traced_ensure P b e (Q : unit → log → Prop) (E : exn → log → Prop) :
  (b = false → ∀ l, P l → E e l) → (b = true → ∀ l, P l → Q tt l) → traced P (ensure b e) Q E.
Proof. intros Hf Ht s Hs. destruct b; [by apply Ht|by apply Hf]. Qed.

Lemma traced_catch {A} P (m : T A) Q E (h : exn → T A) E' :
  traced P m Q E → (∀ e, traced (E e) (h e) Q E') → traced P (try_catch m h) Q E'.
Proof. apply triple_catch. Qed.

Lemma traced_finally {A} P (m : T A) (Q : A → log → Prop) (E : exn → log → Prop) c
    (Q' : A → log → Prop) (E' : exn → log → Prop) :
  traced P m Q E → (∀ a, traced (Q a) c (λ _, Q' a) E') → (∀ e, traced (E e) c (λ _, E' e) E') →
  traced P (try_finally m c) Q' E'.
Proof.
  intros Hm Hq He s Hs. specialize (Hm s Hs). unfold try_finally. destruct (m s) as [s' [a|e]].
  - specialize (Hq a s' Hm). by destruct (c s') as [s'' []].
  - specialize (He e s' Hm). by destruct (c s') as [s'' []].
Qed.

Lemma traced_finally_done {A} P (m : T (option A)) (Q : option A → log → Prop)
    (E : exn → log → Prop) c (Q' : option A → log → Prop) (E' : exn → log → Prop) :
  traced P m Q E → (∀ l, Q None l → Q' None l) →
  (∀ a, traced (Q (Some a)) c (λ _, Q' (Some a)) E') → (∀ e, traced (E e) c (λ _, E' e) E') →
  traced P (finally_done m c) Q' E'.
Proof.
  intros Hm Hn Hq He s Hs. specialize (Hm s Hs). unfold finally_done. destruct (m s) as [s' [[a|]|e]].
  - specialize (Hq a s' Hm). by destruct (c s') as [s'' []].
  - by apply Hn.
  - specialize (He e s' Hm). by destruct (c s') as [s'' []].
Qed.

Lemma traced_and_then {A B} P (m : T (option A)) Q (k : A → T (option B)) (R : option B → log → Prop) E :
  traced P m Q E → (∀ l, Q None l → R None l) → (∀ a, traced (Q (Some a)) (k a) R E) →
  traced P (and_then m k) R E.
Proof.
  intros Hm Hn Hk. eapply traced_bind; [exact Hm|]. intros [a|]; [apply Hk|]. by apply traced_ret.
Qed.

Lemma traced_conseq {A} P P' (m : T A) (Q Q' : A → log → Prop) (E E' : exn → log → Prop) :
  traced P' m Q' E' → (∀ l, P l → P' l) → (∀ a l, Q' a l → Q a l) → (∀ e l, E' e l → E e l) →
  traced P m Q E.
Proof. intros Hm Hp Hq He. eapply triple_conseq; [exact Hm|..]; cbn; eauto. Qed.

Lemma traced_pre {A} P P' (m : T A) Q E : traced P' m Q E → (∀ l, P l → P' l) → traced P m Q E.
Proof. intros Hm Hp. by eapply traced_conseq. Qed.

Lemma traced_exists {A B} (P : B → log → Prop) (m : T A) (Q : A → log → Prop) (E : exn → log → Prop) :
  (∀ b, traced (P b) m Q E) → traced (λ l, ∃ b, P b l) m Q E.
Proof. apply (triple_exists (λ b s, P b (lg_log s))). Qed.
Lemma traced_each {A} P (f : A → T unit) (xs : list A) (E : exn → log → Prop) :
  (∀ x, traced P (f x) (λ _, P) E) → traced P (each f xs) (λ _, P) E.
Proof.
  intros Hf. induction xs as [|x xs IH]; [by apply traced_ret|].
  cbn [each]. by apply (traced_bind P (f x) (λ _, P)).
Qed.
Lemma traced_pure {A} (φ : Prop) P (m : T A) Q E :
  (φ → traced P m Q E) → traced (λ l, φ ∧ P l) m Q E.
Proof. apply triple_pure. Qed.

Lemma traced_frame {A} P R (m : T A) (Q : A → log → Prop) (E : exn → log → Prop) :
  traced P m Q E → traced R m (λ _, R) (λ _, R) →
  traced (λ l, P l ∧ R l) m (λ a l, Q a l ∧ R l) (λ e l, E e l ∧ R l).
Proof.
  intros Hm Hr s [Hp Hs]. specialize (Hm s Hp). specialize (Hr s Hs). by destruct (m s) as [s' []].
Qed.

(** ** Questions of one kind *)

(** What questions and answers of every kind keep. *)
Abbreviation keeps P m := (preserves (λ s, P (lg_log s)) m).

Lemma preserves_ask {A} (I : logged op W → Prop) (o : op A) :
  (∀ s, I s → I (ask o s).1) → preserves I (ask o).
Proof. intros Ho s Hs. specialize (Ho s Hs). by destruct (ask o s) as [s' []]. Qed.
Lemma preserves_finally_done {A} I (m : T (option A)) c :
  preserves I m → preserves I c → preserves I (finally_done m c).
Proof.
  intros Hm Hc s Hs. specialize (Hm s Hs). unfold finally_done.
  destruct (m s) as [s' [[a|]|e]]; [|done|]; specialize (Hc s' Hm); by destruct (c s') as [s'' []].
Qed.
Lemma preserves_and_then {A B} I (m : T (option A)) (k : A → T (option B)) :
  preserves I m → (∀ a, preserves I (k a)) → preserves I (and_then m k).
Proof. intros Hm Hk. apply preserves_bind; [done|]. intros [a|]; [apply Hk|apply preserves_ret]. Qed.
Lemma keeps_ask {A} P (o : op A) : (∀ r l, P l → P (Entry o r :: l)) → keeps P (ask o).
Proof.
  intros Ho. apply preserves_ask. intros s Hs. unfold ask. destruct (answer o _). by apply Ho.
Qed.
Lemma keeps_mono {A} P (Q : A → log → Prop) (E : exn → log → Prop) (m : T A) :
  keeps P m → (∀ a l, P l → Q a l) → (∀ e l, P l → E e l) → traced P m Q E.
Proof. intros Hm Hq He. by apply (traced_conseq P P m Q (λ _, P) E (λ _, P)). Qed.

(** A step that keeps the assertion, then the rest. *)
Lemma traced_keep {A B} P (m : T A) (k : A → T B) R (E : exn → log → Prop) :
  keeps P m → (∀ e l, P l → E e l) → (∀ a, traced P (k a) R E) → traced P (m ≫= k) R E.
Proof.
  intros Hm He Hk. apply (traced_bind P m (λ _, P)); [|done]. by eapply keeps_mono.
Qed.

(** What a computation keeps of the world whatever it asks of it. *)
Lemma keeps_world {A} (I : W → Prop) (o : op A) :
  (∀ w, I w → I (answer o w).1) → preserves (λ s, I (lg_world s)) (ask o).
Proof.
  intros Ho. apply preserves_ask. intros s Hs. specialize (Ho _ Hs). unfold ask.
  by destruct (answer o _).
Qed.

(** A run from an empty log. *)
Lemma traced_run {A} (m : T A) P (Q : A → log → Prop) E w :
  traced P m Q E → P [] →
  match m (Build_logged w []) with
  | (s, Ok a) => Q a (lg_log s)
  | (s, Err e) => E e (lg_log s)
  end.
Proof. intros Hm Hp. exact (Hm (Build_logged w []) Hp). Qed.
End trace.

(** ** Ends *)

(** A computation that does not run out of turns. *)
Definition ends {S A} (m : eff S (option A)) : Prop := ∀ s, (m s).2 ≠ Ok None.

Section ends.
Context {op : Type → Type} {W : Type} `{Handler op W}.
Abbreviation T := (eff (logged op W)).

Lemma trace_ends_bind {A B} (m : T A) (k : A → T (option B)) : (∀ a, ends (k a)) → ends (m ≫= k).
Proof. intros Hk s. unfold mbind, eff_bind. destruct (m s) as [s' [a|e]]; [apply Hk|done]. Qed.
Lemma trace_ends_and_then {A B} (m : T (option A)) (k : A → T (option B)) :
  ends m → (∀ a, ends (k a)) → ends (and_then m k).
Proof.
  intros Hm Hk s. specialize (Hm s). unfold and_then, mbind, eff_bind.
  destruct (m s) as [s' [[a|]|e]]; [apply Hk|done|done].
Qed.
Lemma trace_ends_finally_done {A} (m : T (option A)) c : ends m → ends (finally_done m c).
Proof.
  intros Hm s. specialize (Hm s). unfold finally_done.
  destruct (m s) as [s' [[a|]|e]]; [|done|]; by destruct (c s') as [s'' []].
Qed.
Lemma trace_ends_ret {A} (a : A) : ends (S := logged op W) (mret (Some a)).
Proof. by intros s. Qed.
End ends.

(** What questions and answers of every kind keep. *)
Abbreviation keeps P m := (preserves (λ s, P (lg_log s)) m).

Create HintDb trace discriminated.
#[export] Hint Resolve preserves_ret preserves_throws preserves_gets preserves_lifts preserves_ensure : trace.

(** Walks through a computation that keeps an assertion; what is left speaks of single
    questions. *)
Ltac keeping :=
  repeat first
    [ progress eauto with trace nocore
    | apply preserves_bind; [|intros ?]
    | apply preserves_catch; [|intros ?]
    | apply preserves_finally
    | apply preserves_finally_done
    | apply preserves_and_then; [|intros ?]
    | apply preserves_each; intros ? _
    | match goal with
      | |- preserves _ (let '(_, _) := ?x in _) => destruct x
      | |- preserves _ (match ?x with _ => _ end) => destruct x eqn:?
      end ].
