(* ===== verification/PyText.v ===== *)
(** * Searching and replacing in text

    [str.endswith], [str.count] and [str.replace(old, new, 1)] on non-empty patterns, slices,
    and the laws that say where a pattern can occur in a text built from lines. *)

From S2P Require Import Prelude PyStr PyDict PyHost.

(** ** Operations *)

(** [s[n:]]. *)
Fixpoint str_drop (n : nat) (s : string) : string :=
  match n, s with
  | S n', String _ s' => str_drop n' s'
  | _, _ => s
  end.
(** [s[:n]]. *)
Fixpoint str_take (n : nat) (s : string) : string :=
  match n, s with
  | S n', String c s' => String c (str_take n' s')
  | _, _ => EmptyString
  end.

(** [s.endswith(p)]. *)
Fixpoint endswith (p s : string) : bool :=
  bool_decide (p = s) || match s with String _ s' => endswith p s' | EmptyString => false end.

(** [s.count(sub)] for a non-empty [sub]: occurrences that do not overlap; [skip] characters
    belong to the occurrence found last. *)
Fixpoint count_from (skip : nat) (sub s : string) : nat :=
  match s with
  | EmptyString => 0
  | String _ s' =>
      match skip with
      | S k => count_from k sub s'
      | O => if startswith sub s then S (count_from (String.length sub - 1) sub s')
             else count_from 0 sub s'
      end
  end.
Definition count_str (sub s : string) : nat := count_from 0 sub s.

(** [s.replace(old, new, 1)] for a non-empty [old]. *)
Fixpoint replace1 (old new s : string) : string :=
  if startswith old s then new +:+ str_drop (String.length old) s
  else match s with
       | EmptyString => EmptyString
       | String c s' => String c (replace1 old new s')
       end.

(** [s.removesuffix(p)] of a string that ends with [p]: [s[:-len(p)]]. *)
Definition cut_suffix (p s : string) : string := str_take (String.length s - String.length p) s.

(** [s.strip(c)] for one character. *)
Fixpoint lstrip_char (c : ascii) (s : string) : string :=
  match s with
  | String a s' => if bool_decide (a = c) then lstrip_char c s' else s
  | EmptyString => EmptyString
  end.
Fixpoint rstrip_char (c : ascii) (s : string) : string :=
  match s with
  | EmptyString => EmptyString
  | String a s' =>
      match rstrip_char c s' with
      | EmptyString => if bool_decide (a = c) then EmptyString else String a EmptyString
      | r => String a r
      end
  end.
Definition strip_char (c : ascii) (s : string) : string := rstrip_char c (lstrip_char c s).

(** ** Laws *)

Lemma append_nil_r s : s +:+ EmptyString = s.
Proof. induction s as [|c s IH]; [done|]. by rewrite append_cons, IH. Qed.

Lemma startswith_spec p s : startswith p s = true ↔ ∃ t, s = p +:+ t.
Proof.
  revert s. induction p as [|c p IH]; intros s.
  - split; [intros _; by exists s|done].
  - destruct s as [|d s]; cbn; [split; [done|by intros (? & ?)]|].
    destruct (decide (c = d)) as [->|Hne].
    + rewrite bool_decide_true by done. cbn. rewrite IH.
      split; intros [t H]; exists t; [by rewrite H|]. rewrite append_cons in H. by injection H.
    + rewrite bool_decide_false by done. split; [done|]. intros [t H].
      rewrite append_cons in H. by injection H.
Qed.

Lemma startswith_app p t : startswith p (p +:+ t) = true.
Proof. apply startswith_spec. by exists t. Qed.

Lemma endswith_spec p s : endswith p s = true ↔ ∃ t, s = t +:+ p.
Proof.
  induction s as [|c s IH]; cbn; rewrite orb_true_iff, bool_decide_eq_true.
  - split; [intros [->|?]; [by exists EmptyString|done]|]. intros ([|d t] & H); [left; done|done].
  - rewrite IH. split.
    + intros [->|[t ->]]; [by exists EmptyString|by exists (String c t)].
    + intros ([|d t] & H); [by left|]. rewrite append_cons in H. injection H as -> ->. right. by exists t.
Qed.

Lemma str_drop_app s t : str_drop (String.length s) (s +:+ t) = t.
Proof. induction s as [|c s IH]; [by destruct t|]. rewrite append_cons. cbn. done. Qed.

Lemma str_take_app s t : str_take (String.length s) (s +:+ t) = s.
Proof. induction s as [|c s IH]; [by destruct t|]. rewrite append_cons. cbn. by rewrite IH. Qed.

Lemma cut_suffix_app s p : cut_suffix p (s +:+ p) = s.
Proof.
  unfold cut_suffix. rewrite length_append. replace (_ + _ - _)%nat with (String.length s) by lia.
  apply str_take_app.
Qed.

(** A pattern that holds a character the text lacks does not occur in it. *)
Definition lacks (c : ascii) (s : string) : bool := all_chars (λ d, negb (bool_decide (d = c))) s.

Lemma startswith_lacks c p s : lacks c s = true → lacks c p = false → startswith p s = false.
Proof.
  intros Hs Hp. apply not_true_is_false. intros [t ->]%startswith_spec.
  unfold lacks in *. rewrite all_chars_app in Hs. bools. congruence.
Qed.

Lemma count_lacks c sub s n : lacks c s = true → lacks c sub = false → count_from n sub s = 0%nat.
Proof.
  revert n. induction s as [|d s IH]; intros n Hs Hp; [done|].
  assert (lacks c s = true) as Hs' by (unfold lacks in *; cbn in Hs; bools; done).
  cbn [count_from]. destruct n as [|n]; [|by apply IH].
  rewrite (startswith_lacks c) by done. by apply IH.
Qed.

(** Occurrences in a text that starts with a piece in which the pattern does not start. *)
Fixpoint no_start (sub a b : string) : bool :=
  match a with
  | EmptyString => true
  | String _ a' => negb (startswith sub (a +:+ b)) && no_start sub a' b
  end.

Lemma count_no_start sub a b : no_start sub a b = true → count_str sub (a +:+ b) = count_str sub b.
Proof.
  unfold count_str. induction a as [|c a IH]; [done|]. cbn [no_start].
  intros [Hc Ha]%andb_true_iff. apply negb_true_iff in Hc.
  change (String c a +:+ b) with (String c (a +:+ b)) in *. cbn [count_from]. rewrite Hc. by apply IH.
Qed.

Lemma replace_no_start old new a b : no_start old a b = true →
  replace1 old new (a +:+ b) = a +:+ replace1 old new b.
Proof.
  induction a as [|c a IH]; [done|]. cbn [no_start].
  intros [Hc Ha]%andb_true_iff. apply negb_true_iff in Hc.
  change (String c a +:+ b) with (String c (a +:+ b)) in *. cbn [replace1]. rewrite Hc.
  rewrite append_cons. f_equal. by apply IH.
Qed.

Lemma count_from_skip sub a b : count_from (String.length a) sub (a +:+ b) = count_from 0 sub b.
Proof. induction a as [|c a IH]; [done|]. rewrite append_cons. cbn. done. Qed.

Lemma count_here sub b : sub ≠ EmptyString → count_str sub (sub +:+ b) = S (count_str sub b).
Proof.
  intros Hne. unfold count_str. pose proof (startswith_app sub b) as Hs.
  destruct sub as [|c s]; [done|]. rewrite append_cons in *. cbn [count_from]. rewrite Hs.
  f_equal. cbn [String.length]. rewrite Nat.sub_succ, Nat.sub_0_r. apply count_from_skip.
Qed.

Lemma replace_here old new b : old ≠ EmptyString → replace1 old new (old +:+ b) = new +:+ b.
Proof.
  intros Hne. pose proof (startswith_app old b) as Hs. pose proof (str_drop_app old b) as Hd.
  destruct (old +:+ b) as [|c s] eqn:E; cbn [replace1]; by rewrite Hs, Hd.
Qed.

(** A pattern that needs the character [c] cannot start inside a piece without [c] that is
    followed by a character the pattern does not have before [c]. *)
Lemma startswith_crossing c d p q a b :
  c ≠ d → lacks d p = true → lacks c a = true →
  startswith (p +:+ String c q) (a +:+ String d b) = false.
Proof.
  intros Hcd. revert p. induction a as [|e a IH]; intros p Hp Ha.
  - rewrite append_nil_l. destruct p as [|f p].
    + rewrite append_nil_l. cbn [startswith]. by rewrite bool_decide_false.
    + rewrite append_cons. cbn [startswith]. unfold lacks in Hp. cbn [all_chars] in Hp. bools. by rewrite bool_decide_false.
  - unfold lacks in Ha. cbn in Ha. bools. rewrite append_cons. destruct p as [|f p].
    + rewrite append_nil_l. cbn [startswith]. by rewrite bool_decide_false by done.
    + rewrite append_cons. cbn [startswith]. unfold lacks in Hp. cbn [all_chars] in Hp. bools. rewrite IH by done. apply andb_false_r.
Qed.

Lemma no_start_crossing c d p q a b :
  c ≠ d → lacks d p = true → lacks c a = true → no_start (p +:+ String c q) a (String d b) = true.
Proof.
  intros Hcd Hp. induction a as [|e a IH]; [done|]. intros Ha. cbn [no_start].
  rewrite (startswith_crossing c d) by done. apply IH. unfold lacks in *. cbn in Ha. by bools.
Qed.

(** Every element of [splitlines] is a line. *)
Lemma splitlines_aux_lines s : ∀ cur started, line cur → Forall line (splitlines_aux cur started s).
Proof.
  induction s as [s IH] using (induction_ltof1 _ String.length). intros cur started Hc.
  destruct s as [|c s]; cbn [splitlines_aux]; [destruct started; auto|].
  destruct (is_linebreak c) eqn:E.
  - destruct s as [|d s]; [auto|].
    case_match; constructor; try done; apply IH; unfold ltof; cbn; try lia; done.
  - apply IH; [unfold ltof; cbn; lia|]. unfold line in *. rewrite all_chars_app, Hc. cbn. by rewrite E.
Qed.
Lemma splitlines_lines s : Forall line (splitlines s).
Proof. by apply splitlines_aux_lines. Qed.

Lemma all_chars_lstrip p s : all_chars p s = true → all_chars p (lstrip s) = true.
Proof. induction s as [|c s IH]; [done|]. cbn. intros H. bools. destruct (is_space c); [by apply IH|]. cbn. by rewrite H, H0. Qed.
Lemma all_chars_rstrip p s : all_chars p s = true → all_chars p (rstrip s) = true.
Proof.
  induction s as [|c s IH]; [done|]. rewrite rstrip_cons. cbn [all_chars]. intros H. bools.
  destruct (str_truthy (rstrip s)); [|destruct (is_space c); [done|]]; cbn; rewrite ?H; [by apply IH|done].
Qed.
Lemma line_strip s : line s → line (strip s).
Proof. intros H. by apply all_chars_rstrip, all_chars_lstrip. Qed.
Lemma all_chars_partition p c s : all_chars p s = true → all_chars p (partition_char c s).2 = true.
Proof.
  induction s as [|d s IH]; [done|]. cbn. intros H. bools.
  destruct (bool_decide (d = c)); [done|]. specialize (IH ltac:(done)).
  destruct (partition_char c s) as [[h b] t]. done.
Qed.

(** A pattern that occurs is replaced at its first occurrence. *)
Lemma replace1_spec old new s : old ≠ EmptyString → count_str old s ≠ 0%nat →
  ∃ a b, s = a +:+ old +:+ b ∧ replace1 old new s = a +:+ new +:+ b.
Proof.
  intros Hne. unfold count_str. induction s as [|c s IH]; [done|]. cbn [count_from replace1].
  destruct (startswith old (String c s)) eqn:E.
  - intros _. apply startswith_spec in E as [t E]. exists EmptyString, t.
    rewrite !append_nil_l. split; [done|]. by rewrite E, str_drop_app.
  - intros Hc. destruct (IH Hc) as (a & b & -> & ->). exists (String c a), b. by rewrite !append_cons.
Qed.
