(* ===== verification/Posix.v ===== *)
(** * Files of the host

    The system calls Python's [os] module offers to code that works relative to directory
    descriptors: a kernel state with inodes, open descriptors and a clock.  The rest of the
    host is a schedule: before each call other processes may change any inode, the clock
    moves, and the call may fail.  Calls that change something are logged. *)

From S2P Require Import Prelude PyStr PyDict PyHost Effects.

(** ** Inodes *)

(** [(st_dev, st_ino)]. *)
Definition fileid := (Z * Z)%type.

(** The text of a regular file is what its bytes decode to as UTF-8; [None] if they do not. *)
Inductive node :=
  | Dir (entries : gmap string fileid)
  | Reg (text : option string)
  | Link (target : string)
  | Special.

Record inode := {
  i_node : node; i_uid : Z; i_gid : Z; i_mode : Z; i_nlink : Z; i_mtime : Z; i_ctime : Z }.

Abbreviation files := (gmap fileid inode).

(** Mode bits. *)
Definition S_IWOTHERS : Z := 18.  (* 0o022 *)
Definition S_ISVTX : Z := 512.    (* 0o1000 *)
Definition S_ISGID : Z := 1024.   (* 0o2000 *)
Definition has_bits (mode mask : Z) : bool := negb (Z.land mode mask =? 0).

Definition is_dir (n : node) : bool := match n with Dir _ => true | _ => false end.
Definition is_reg (n : node) : bool := match n with Reg _ => true | _ => false end.
Definition is_link (n : node) : bool := match n with Link _ => true | _ => false end.

(** ** The kernel *)

(** What happens around one call: the other processes, the clock, and a failure of the call
    (for a write, after how many characters). *)
Record event := {
  ev_change : files → files; ev_clock : Z; ev_fault : option (exn * nat) }.

(** The calls that change something, by the directory and the name or the inode. *)
Inductive call :=
  | CMkdir (d : fileid) (name : string) (i : fileid)
  | CCreate (d : fileid) (name : string) (i : fileid)
  | CSymlink (d : fileid) (name target : string)
  | CChmod (i : fileid) (mode : Z)
  | CChown (i : fileid) (uid gid : Z)
  | CWrite (i : fileid) (text : string)
  | CRename (d : fileid) (src dst : string) (replaced : option inode)
  | CUnlink (d : fileid) (name : string)
  | CRmdir (d : fileid) (name : string).

Record kernel := {
  k_files : files; k_root : fileid; k_fds : gmap Z fileid; k_euid : Z; k_egid : Z; k_umask : Z;
  k_clock : Z; k_tokens : list string; k_schedule : list event; k_log : list call }.

Definition with_files (f : files) (k : kernel) : kernel :=
  {| k_files := f; k_root := k_root k; k_fds := k_fds k; k_euid := k_euid k; k_egid := k_egid k;
     k_umask := k_umask k; k_clock := k_clock k; k_tokens := k_tokens k;
     k_schedule := k_schedule k; k_log := k_log k |}.
Definition with_fds (t : gmap Z fileid) (k : kernel) : kernel :=
  {| k_files := k_files k; k_root := k_root k; k_fds := t; k_euid := k_euid k; k_egid := k_egid k;
     k_umask := k_umask k; k_clock := k_clock k; k_tokens := k_tokens k;
     k_schedule := k_schedule k; k_log := k_log k |}.
Definition with_log (c : call) (k : kernel) : kernel :=
  {| k_files := k_files k; k_root := k_root k; k_fds := k_fds k; k_euid := k_euid k;
     k_egid := k_egid k; k_umask := k_umask k; k_clock := k_clock k; k_tokens := k_tokens k;
     k_schedule := k_schedule k; k_log := k_log k ++ [c] |}.
Definition with_tokens (l : list string) (k : kernel) : kernel :=
  {| k_files := k_files k; k_root := k_root k; k_fds := k_fds k; k_euid := k_euid k;
     k_egid := k_egid k; k_umask := k_umask k; k_clock := k_clock k; k_tokens := l;
     k_schedule := k_schedule k; k_log := k_log k |}.

Abbreviation K := (eff kernel).

(** The event at the head of the schedule happens; an empty schedule is a quiet host. *)
Definition happens (k : kernel) : kernel * option (exn * nat) :=
  match k_schedule k with
  | [] => (k, None)
  | ev :: rest =>
      ({| k_files := ev_change ev (k_files k); k_root := k_root k; k_fds := k_fds k;
          k_euid := k_euid k; k_egid := k_egid k; k_umask := k_umask k; k_clock := ev_clock ev;
          k_tokens := k_tokens k; k_schedule := rest; k_log := k_log k |}, ev_fault ev)
  end.

(** A system call: what the host does first, then the failure or the call itself. *)
Definition syscall {A} (f : kernel → result (kernel * A)) : K A := λ k,
  let '(k', fault) := happens k in
  match fault with
  | Some (e, _) => (k', Err e)
  | None => match f k' with Ok (k'', a) => (k'', Ok a) | Err e => (k', Err e) end
  end.

(** A call that only reads. *)
Definition query {A} (f : kernel → result A) : K A := syscall (λ k, a ← f k; Ok (k, a)).

Definition ENOENT : exn := FileNotFoundError "No such file or directory".
Definition EEXIST : exn := FileExistsError "File exists".
Definition ENOTDIR : exn := OSError "Not a directory".
Definition ELOOP : exn := OSError "Too many levels of symbolic links".
Definition EISDIR : exn := OSError "Is a directory".
Definition ENOTEMPTY : exn := OSError "Directory not empty".
Definition EBADF : exn := OSError "Bad file descriptor".
Definition EPERM : exn := OSError "Operation not permitted".
Definition EINVAL : exn := OSError "Invalid argument".

(** A name passed to the kernel holds no NUL, and the empty name names nothing. *)
Definition no_nul (s : string) : bool := all_chars (λ c, negb (bool_decide (c = "000"%char))) s.
Definition check_name (s : string) : result unit :=
  require (no_nul s) (ValueError "embedded null byte");; require (str_truthy s) ENOENT.

Definition inode_at (f : files) (i : fileid) : result inode :=
  match f !! i with Some n => Ok n | None => Err (OSError "Input/output error") end.
Definition inode_of (fd : Z) (k : kernel) : result (fileid * inode) :=
  match k_fds k !! fd with
  | Some i => n ← inode_at (k_files k) i; Ok (i, n)
  | None => Err EBADF
  end.
Definition entries_of (fd : Z) (k : kernel) : result (fileid * inode * gmap string fileid) :=
  p ← inode_of fd k;
  match i_node p.2 with Dir es => Ok (p, es) | _ => Err ENOTDIR end.

(** An unused descriptor, an unused inode number. *)
Definition fresh_fd (t : gmap Z fileid) : Z := map_fold (λ fd _ m, Z.max (fd + 1) m) 3 t.
Definition fresh_ino (f : files) : Z := map_fold (λ (i : fileid) _ m, Z.max (i.2 + 1) m) 1 f.

Definition open_fd (i : fileid) (k : kernel) : kernel * Z :=
  let fd := fresh_fd (k_fds k) in (with_fds (<[fd := i]> (k_fds k)) k, fd).

(** ** Calls *)

(** [os.close]; it does not fail on an open descriptor, and an event does not separate it
    from the call before. *)
Definition os_close (fd : Z) : K unit := λ k,
  match k_fds k !! fd with
  | Some _ => (with_fds (delete fd (k_fds k)) k, Ok tt)
  | None => (k, Err EBADF)
  end.

(** [os.open("/", _DIRECTORY_FLAGS)]. *)
Definition os_open_root : K Z := syscall (λ k, Ok (open_fd (k_root k) k)).

(** [os.open(name, _DIRECTORY_FLAGS, dir_fd=fd)]. *)
Definition os_open_dir (name : string) (fd : Z) : K Z := syscall (λ k,
  check_name name;;
  d ← entries_of fd k;
  match d.2 !! name with
  | None => Err ENOENT
  | Some i =>
      n ← inode_at (k_files k) i;
      if is_dir (i_node n) then Ok (open_fd i k) else Err ENOTDIR
  end).

(** [os.open(name, _FILE_FLAGS, dir_fd=fd)]: reading, without following a link. *)
Definition os_open_file (name : string) (fd : Z) : K Z := syscall (λ k,
  check_name name;;
  d ← entries_of fd k;
  match d.2 !! name with
  | None => Err ENOENT
  | Some i =>
      n ← inode_at (k_files k) i;
      if is_link (i_node n) then Err ELOOP else Ok (open_fd i k)
  end).

(** What [os.stat] and [os.fstat] report. *)
Record stat_result := { st_id : fileid; st_inode : inode }.
Definition st_uid (s : stat_result) : Z := i_uid (st_inode s).
Definition st_gid (s : stat_result) : Z := i_gid (st_inode s).
Definition st_mode (s : stat_result) : Z := i_mode (st_inode s).

Definition os_fstat (fd : Z) : K stat_result := query (λ k,
  p ← inode_of fd k; Ok {| st_id := p.1; st_inode := p.2 |}).
(** [os.stat(name, dir_fd=fd, follow_symlinks=False)]. *)
Definition os_stat (name : string) (fd : Z) : K stat_result := query (λ k,
  check_name name;;
  d ← entries_of fd k;
  match d.2 !! name with
  | None => Err ENOENT
  | Some i => n ← inode_at (k_files k) i; Ok {| st_id := i; st_inode := n |}
  end).
(** Whether [os.listdir(fd)] finds anything. *)
Definition os_listdir_any (fd : Z) : K bool := query (λ k,
  d ← entries_of fd k; Ok (negb (bool_decide (d.2 = ∅)))).
Definition os_readlink (name : string) (fd : Z) : K string := query (λ k,
  check_name name;;
  d ← entries_of fd k;
  match d.2 !! name with
  | None => Err ENOENT
  | Some i => n ← inode_at (k_files k) i;
              match i_node n with Link t => Ok t | _ => Err EINVAL end
  end).
(** [handle.read()] in text mode: UTF-8, and universal newlines. *)
Definition os_read_text (fd : Z) : K string := query (λ k,
  p ← inode_of fd k;
  match i_node p.2 with
  | Reg (Some t) => Ok (universal_newlines t)
  | Reg None => Err (ValueError "invalid utf-8")
  | _ => Err EISDIR
  end).

Definition new_inode (n : node) (gid mode nlink : Z) (k : kernel) : inode :=
  {| i_node := n; i_uid := k_euid k; i_gid := gid; i_mode := mode; i_nlink := nlink;
     i_mtime := k_clock k; i_ctime := k_clock k |}.
Definition set_entries (es : gmap string fileid) (t : Z) (n : inode) : inode :=
  {| i_node := Dir es; i_uid := i_uid n; i_gid := i_gid n; i_mode := i_mode n;
     i_nlink := i_nlink n; i_mtime := t; i_ctime := t |}.
Definition set_mode (m : Z) (t : Z) (n : inode) : inode :=
  {| i_node := i_node n; i_uid := i_uid n; i_gid := i_gid n; i_mode := m;
     i_nlink := i_nlink n; i_mtime := i_mtime n; i_ctime := t |}.
Definition set_owner (uid gid : Z) (t : Z) (n : inode) : inode :=
  {| i_node := i_node n; i_uid := uid; i_gid := gid; i_mode := i_mode n;
     i_nlink := i_nlink n; i_mtime := i_mtime n; i_ctime := t |}.
Definition set_text (s : string) (t : Z) (n : inode) : inode :=
  {| i_node := Reg (Some s); i_uid := i_uid n; i_gid := i_gid n; i_mode := i_mode n;
     i_nlink := i_nlink n; i_mtime := t; i_ctime := t |}.
Definition add_nlink (z : Z) (t : Z) (n : inode) : inode :=
  {| i_node := i_node n; i_uid := i_uid n; i_gid := i_gid n; i_mode := i_mode n;
     i_nlink := i_nlink n + z; i_mtime := i_mtime n; i_ctime := t |}.

(** A new entry of an existing directory: group and set-group-id bit come from a directory
    that has the bit. *)
Definition inherits (d : inode) : bool := has_bits (i_mode d) S_ISGID.
Definition new_gid (d : inode) (k : kernel) : Z := if inherits d then i_gid d else k_egid k.

(** An inode [n] for [name] in the directory [d], which must still have a link. *)
Definition add_entry (name : string) (fd : Z) (n : inode → inode) (c : fileid → fileid → call) (k : kernel)
    : result (kernel * fileid) :=
  check_name name;;
  d ← entries_of fd k;
  let '(p, es) := d in
  match es !! name with
  | Some _ => Err EEXIST
  | None =>
      require (0 <? i_nlink p.2) ENOENT;;
      let i := (p.1.1, fresh_ino (k_files k)) in
      let f := <[p.1 := set_entries (<[name := i]> es) (k_clock k) p.2]> (<[i := n p.2]> (k_files k)) in
      Ok (with_log (c p.1 i) (with_files f k), i)
  end.

(** [os.mkdir(name, mode, dir_fd=fd)]. *)
Definition os_mkdir (name : string) (mode fd : Z) : K unit := syscall (λ k,
  r ← add_entry name fd
        (λ d, new_inode (Dir ∅) (new_gid d k)
                (Z.lor (Z.ldiff mode (k_umask k)) (if inherits d then S_ISGID else 0)) 2 k)
        (λ d, CMkdir d name) k;
  Ok (r.1, tt)).
(** [os.open(name, O_WRONLY | O_CREAT | O_EXCL | O_NOFOLLOW | O_CLOEXEC, mode, dir_fd=fd)]. *)
Definition os_create (name : string) (mode fd : Z) : K Z := syscall (λ k,
  r ← add_entry name fd
        (λ d, new_inode (Reg (Some EmptyString)) (new_gid d k) (Z.ldiff mode (k_umask k)) 1 k)
        (λ d, CCreate d name) k;
  Ok (open_fd r.2 r.1)).
(** [os.symlink(target, name, dir_fd=fd)]. *)
Definition os_symlink (target name : string) (fd : Z) : K unit := syscall (λ k,
  check_name target;;
  r ← add_entry name fd (λ d, new_inode (Link target) (new_gid d k) 511 1 k)
        (λ d _, CSymlink d name target) k;
  Ok (r.1, tt)).

Definition update_fd (fd : Z) (g : inode → inode) (c : fileid → call) (k : kernel) : result (kernel * unit) :=
  p ← inode_of fd k;
  Ok (with_log (c p.1) (with_files (<[p.1 := g p.2]> (k_files k)) k), tt).
Definition owns (k : kernel) (n : inode) : bool := (k_euid k =? 0) || (k_euid k =? i_uid n).

Definition os_fchmod (fd mode : Z) : K unit := syscall (λ k,
  p ← inode_of fd k;
  require (owns k p.2) EPERM;;
  update_fd fd (set_mode mode (k_clock k)) (λ i, CChmod i mode) k).
(** [os.fchown(fd, uid, gid)]; [-1] keeps the group. *)
Definition os_fchown (fd uid gid : Z) : K unit := syscall (λ k,
  p ← inode_of fd k;
  require (k_euid k =? 0) EPERM;;
  let gid := if gid =? -1 then i_gid p.2 else gid in
  update_fd fd (set_owner uid gid (k_clock k)) (λ i, CChown i uid gid) k).
(** [handle.write(content)] and [handle.flush()]; a failure may leave a part. *)
Definition write_all (fd : Z) (content : string) (k : kernel) : result (kernel * unit) :=
  p ← inode_of fd k;
  require (is_reg (i_node p.2)) EINVAL;;
  update_fd fd (set_text content (k_clock k)) (λ i, CWrite i content) k.
Definition os_write_text (fd : Z) (content : string) : K unit := λ k,
  let '(k', fault) := happens k in
  match fault with
  | Some (e, n) =>
      match write_all fd (String.substring 0 n content) k' with
      | Ok (k'', _) => (k'', Err e)
      | Err e' => (k', Err e')
      end
  | None => match write_all fd content k' with Ok (k'', _) => (k'', Ok tt) | Err e => (k', Err e) end
  end.
Definition os_fsync (fd : Z) : K unit := query (λ k, inode_of fd k;; Ok tt).

(** One name less for an inode. *)
Definition drop_link (i : fileid) (k : kernel) (f : files) : files := alter (add_nlink (-1) (k_clock k)) i f.

(** [os.unlink(name, dir_fd=fd)]. *)
Definition os_unlink (name : string) (fd : Z) : K unit := syscall (λ k,
  check_name name;;
  d ← entries_of fd k;
  let '(p, es) := d in
  match es !! name with
  | None => Err ENOENT
  | Some i =>
      n ← inode_at (k_files k) i;
      require (negb (is_dir (i_node n))) EISDIR;;
      let f := <[p.1 := set_entries (delete name es) (k_clock k) p.2]> (drop_link i k (k_files k)) in
      Ok (with_log (CUnlink p.1 name) (with_files f k), tt)
  end).
(** [os.replace(src, dst, src_dir_fd=fd, dst_dir_fd=fd)] for [src] no directory. *)
Definition os_replace (src dst : string) (fd : Z) : K unit := syscall (λ k,
  check_name src;; check_name dst;;
  d ← entries_of fd k;
  let '(p, es) := d in
  match es !! src with
  | None => Err ENOENT
  | Some i =>
      n ← inode_at (k_files k) i;
      require (negb (is_dir (i_node n))) (OutOfModel "renaming a directory");;
      f ← match es !! dst with
          | None => Ok (k_files k)
          | Some j =>
              m ← inode_at (k_files k) j;
              require (negb (is_dir (i_node m))) EISDIR;;
              Ok (drop_link j k (k_files k))
          end;
      if bool_decide (es !! dst = Some i) then Ok (k, tt)
      else
        let f := alter (add_nlink 0 (k_clock k)) i f in
        let f := <[p.1 := set_entries (<[dst := i]> (delete src es)) (k_clock k) p.2]> f in
        let replaced := j ← es !! dst; k_files k !! j in
        Ok (with_log (CRename p.1 src dst replaced) (with_files f k), tt)
  end).
(** [os.rmdir(name, dir_fd=fd)]. *)
Definition os_rmdir (name : string) (fd : Z) : K unit := syscall (λ k,
  check_name name;;
  d ← entries_of fd k;
  let '(p, es) := d in
  match es !! name with
  | None => Err ENOENT
  | Some i =>
      n ← inode_at (k_files k) i;
      match i_node n with
      | Dir children =>
          require (bool_decide (children = ∅)) ENOTEMPTY;;
          let f := alter (add_nlink (- i_nlink n) (k_clock k)) i (k_files k) in
          let f := <[p.1 := set_entries (delete name es) (k_clock k) p.2]> f in
          Ok (with_log (CRmdir p.1 name) (with_files f k), tt)
      | _ => Err ENOTDIR
      end
  end).

(** [os.fdopen(fd, "r")]: a directory is refused, and stays open. *)
Definition os_fdopen (fd : Z) : K unit := query (λ k,
  p ← inode_of fd k; require (negb (is_dir (i_node p.2))) EISDIR).

(** [secrets.token_hex(16)]. *)
Definition token_hex : K string := λ k,
  match k_tokens k with [] => (k, Ok EmptyString) | t :: l => (with_tokens l k, Ok t) end.

Definition geteuid : K Z := gets k_euid.

(** ** Laws of the host's files

    What the system calls leave alone, which directories a path reaches when every step of it
    is protected, and that nobody outside the trusted owners can change that. *)

(** ** Freshness *)

Lemma fresh_ino_above (f : files) i n : f !! i = Some n → i.2 < fresh_ino f.
Proof.
  unfold fresh_ino. intros H. revert i n H.
  apply (map_fold_weak_ind (λ m f, ∀ i n, f !! i = Some n → i.2 < m)).
  - intros i n. by rewrite lookup_empty.
  - intros j x f' m Hj IH i n. destruct (decide (i = j)) as [->|Hn].
    + intros _. lia.
    + rewrite lookup_insert_ne by done. intros Hi%IH. lia.
Qed.

Lemma fresh_ino_None (f : files) dev : f !! (dev, fresh_ino f) = None.
Proof.
  destruct (f !! _) as [n|] eqn:E; [|done]. apply fresh_ino_above in E. cbn in E. lia.
Qed.

Lemma fresh_fd_None (t : gmap Z fileid) : t !! fresh_fd t = None.
Proof.
  assert (∀ fd i, t !! fd = Some i → fd < fresh_fd t) as H.
  { unfold fresh_fd.
    apply (map_fold_weak_ind (λ m t, ∀ fd i, t !! fd = Some i → fd < m)).
    - intros fd i. by rewrite lookup_empty.
    - intros j x f' m Hj IH i n. destruct (decide (i = j)) as [->|Hn].
      + intros _. lia.
      + rewrite lookup_insert_ne by done. intros Hi%IH. lia. }
  destruct (t !! _) as [n|] eqn:E; [|done]. apply H in E. lia.
Qed.

(** ** Running a call *)

Section syscalls.
Context {A : Type}.
Implicit Types (P : kernel → Prop).

(** An assertion other processes cannot break. *)
Definition stable P : Prop := ∀ k, P k → P (happens k).1.

Lemma triple_syscall P (f : kernel → result (kernel * A)) Q (E : exn → kernel → Prop) :
  stable P →
  (∀ k, P k → match f k with Ok (k', a) => Q a k' | Err e => E e k end) →
  (∀ e k, P k → E e k) →
  triple P (syscall f) Q E.
Proof.
  intros Hs Hf He k Hk. unfold syscall. apply Hs in Hk. destruct (happens k) as [k' [[e n]|]].
  - by apply He.
  - specialize (Hf k' Hk). destruct (f k') as [[k'' a]|e]; done.
Qed.

Lemma triple_query P (f : kernel → result A) (Q : A → kernel → Prop) (E : exn → kernel → Prop) :
  stable P → (∀ k a, P k → f k = Ok a → Q a k) → (∀ e k, P k → E e k) → triple P (query f) Q E.
Proof.
  intros Hs Hf He. apply triple_syscall; [done| |done]. intros k Hk.
  specialize (Hf k). destruct (f k); cbn; auto.
Qed.
End syscalls.

(** ** Protected directories *)

Section protected.
(** The users who are trusted, and the root directory. *)
Context (T : list Z) (root : fileid).

Definition trusted (n : inode) : Prop := i_uid n ∈ T.
Definition closed (n : inode) : Prop := has_bits (i_mode n) S_IWOTHERS = false.
Definition sticky (n : inode) : Prop := i_uid n = 0 ∧ has_bits (i_mode n) S_ISVTX = true.

(** [name] of the directory [d] is [c]. *)
Definition entry (f : files) (d : fileid) (name : string) (c : fileid) : Prop :=
  ∃ n es, f !! d = Some n ∧ i_node n = Dir es ∧ es !! name = Some c.

(** The names lead from the root to [i] through directories that belong to trusted users and
    that others cannot write to, or that are sticky system directories. *)
Inductive held (f : files) : list string → fileid → Prop :=
  | held_root n : f !! root = Some n → is_dir (i_node n) = true → trusted n → held f [] root
  | held_snoc names d nd name c nc :
      held f names d → f !! d = Some nd → closed nd ∨ sticky nd → entry f d name c →
      f !! c = Some nc → is_dir (i_node nc) = true → trusted nc → held f (names ++ [name]) c.

(** The same object, up to its links. *)
Definition kept (n n' : inode) : Prop :=
  i_node n' = i_node n ∧ i_uid n' = i_uid n ∧ i_gid n' = i_gid n ∧ i_mode n' = i_mode n ∧
  i_mtime n' = i_mtime n.

(** What users outside [T] can do: nothing to a directory they cannot write to; in a sticky
    one, not move or remove what belongs to others; nothing to the files and links of trusted
    users but link to them again; and they cannot make anything belong to a trusted user. *)
Record untrusted (f f' : files) : Prop := {
  un_dir names d nd es : held f names d → f !! d = Some nd → i_node nd = Dir es →
    ∃ nd' es', f' !! d = Some nd' ∧ i_node nd' = Dir es' ∧ i_uid nd' = i_uid nd ∧
      i_gid nd' = i_gid nd ∧ i_mode nd' = i_mode nd ∧ (closed nd → nd' = nd) ∧
      (sticky nd → ∀ name c nc, es !! name = Some c → f !! c = Some nc → trusted nc →
         es' !! name = Some c);
  un_file names d nd name c nc : held f names d → f !! d = Some nd → closed nd ∨ sticky nd →
    entry f d name c → f !! c = Some nc → trusted nc → closed nc ∨ is_link (i_node nc) = true →
    is_dir (i_node nc) = false → ∃ nc', f' !! c = Some nc' ∧ kept nc nc';
  un_gain i n' : f' !! i = Some n' → trusted n' →
    ∃ n, f !! i = Some n ∧ trusted n ∧ is_dir (i_node n) = is_dir (i_node n');
}.

Lemma held_node f names i : held f names i →
  ∃ n es, f !! i = Some n ∧ i_node n = Dir es ∧ trusted n.
Proof.
  intros [n Hi Hd Ht|? ? ? ? ? n ? ? ? ? Hi Hd Ht];
    destruct (i_node n) as [es| | |] eqn:E; try done; eauto.
Qed.

(** A path names one directory. *)
Lemma held_unique f names i j : held f names i → held f names j → i = j.
Proof.
  intros Hi. revert j. induction Hi as [|names d nd name c nc Hd IH Hn Hp He Hc Hdir Ht]; intros j Hj.
  - inversion Hj as [|ns ? ? ? ? ? ? ? ? ? ? ? ? E]; [done|]. by destruct ns.
  - inversion Hj as [E1 E2|ns d' nd' name' c' nc' Hd' Hn' Hp' He' Hc' Hdir' Ht' E1 E2]; subst.
    { match goal with H : [] = _ |- _ => by destruct names end. }
    apply app_inj_tail in E1 as [-> ->]. apply IH in Hd' as <-.
    destruct He as (m & es & ? & ? & ?), He' as (m' & es' & ? & ? & ?). congruence.
Qed.

(** Nobody else can change what a protected path names. *)
Lemma held_untrusted f f' names i : untrusted f f' → held f names i → held f' names i.
Proof.
  intros U H. induction H as [n Hi Hd Ht|names d nd name c nc Hd IH Hn Hp He Hc Hdir Ht].
  - destruct (i_node n) as [es| | |] eqn:E; try done.
    destruct (un_dir f f' U [] root n es) as (n' & es' & H1 & H2 & H3 & _); [by econstructor; rewrite ?E|done..|].
    apply (held_root f' n'); [done|by rewrite H2|]. unfold trusted in *. congruence.
  - destruct He as (nd0 & es & Hn0 & En & Ees). assert (nd0 = nd) as -> by congruence.
    destruct (un_dir f f' U names d nd es) as (nd' & es' & H1 & H2 & H3 & _ & H5 & H6 & H7); [done..|].
    destruct (i_node nc) as [cs| | |] eqn:Ec; try done.
    assert (held f (names ++ [name]) c) as Hc'.
    { apply (held_snoc f names d nd name c nc); try done; [by exists nd, es|by rewrite Ec]. }
    destruct (un_dir f f' U _ c nc cs Hc') as (nc' & cs' & C1 & C2 & C3 & _); [done..|].
    apply (held_snoc f' names d nd' name c nc'); [done|done| | |done|by rewrite C2|].
    + destruct Hp as [Hp|Hp]; [left|right]; unfold closed, sticky in *; rewrite H5, ?H3; done.
    + exists nd', es'. split_and!; [done..|]. destruct Hp as [Hp|Hp].
      * apply H6 in Hp. subst nd'. congruence.
      * by eapply H7.
    + unfold trusted in *. congruence.
Qed.

(** The attributes of a held directory cannot be changed either. *)
Lemma held_attributes f f' names i n : untrusted f f' → held f names i → f !! i = Some n →
  ∃ n', f' !! i = Some n' ∧ is_dir (i_node n') = true ∧ i_uid n' = i_uid n ∧ i_gid n' = i_gid n ∧
    i_mode n' = i_mode n ∧ (closed n → n' = n).
Proof.
  intros U H Hn. destruct (held_node _ _ _ H) as (m & es & Hm & Em & _). assert (m = n) as -> by congruence.
  destruct (un_dir f f' U names i n es) as (n' & es' & H1 & H2 & H3 & H4 & H5 & H6 & _); [done..|].
  exists n'. by rewrite H2.
Qed.

(** Something opened below a held, protected directory is held, or is no directory of a
    trusted user and never will be. *)
Definition pending (names : list string) (c : fileid) (f : files) : Prop :=
  held f names c ∨ ∀ n, f !! c = Some n → is_dir (i_node n) = true → ¬ trusted n.

Lemma pending_untrusted f f' names c : untrusted f f' → pending names c f → pending names c f'.
Proof.
  intros U [H|H]; [left; by eapply held_untrusted|right]. intros n' Hn' Hd Ht.
  destruct (un_gain f f' U c n' Hn' Ht) as (n & Hn & Hnt & Ed). apply (H n); [done|congruence|done].
Qed.

Lemma pending_held f names c n :
  pending names c f → f !! c = Some n → is_dir (i_node n) = true → trusted n → held f names c.
Proof. intros [H|H] Hn Hd Ht; [done|]. by apply H in Hn. Qed.

Lemma pending_root f : pending [] root f.
Proof.
  destruct (f !! root) as [n|] eqn:E; [|right; congruence].
  destruct (is_dir (i_node n)) eqn:Ed, (decide (i_uid n ∈ T)) as [Ht|Ht].
  - left. by econstructor.
  - right. intros n' Hn' _. by replace n' with n by congruence.
  - right. congruence.
  - right. congruence.
Qed.

(** ** Changes of setup itself that keep what is held *)

(** Every directory of [f] that is held is one in [f'], with its entries, its owner trusted
    and its protection. *)
Definition kept_dirs (f f' : files) : Prop :=
  ∀ d nd es, f !! d = Some nd → i_node nd = Dir es → trusted nd →
    ∃ nd' es', f' !! d = Some nd' ∧ i_node nd' = Dir es' ∧ trusted nd' ∧
      (closed nd ∨ sticky nd → closed nd' ∨ sticky nd') ∧
      (∀ name c nc, es !! name = Some c → f !! c = Some nc → is_dir (i_node nc) = true →
         es' !! name = Some c).

Lemma held_kept f f' names i : kept_dirs f f' → held f names i → held f' names i.
Proof.
  intros U H. induction H as [n Hi Hd Ht|names d nd name c nc Hd IH Hn Hp He Hc Hdir Ht].
  - destruct (i_node n) as [es| | |] eqn:E; try done.
    destruct (U root n es) as (n' & es' & H1 & H2 & H3 & _); [done..|].
    apply (held_root f' n'); [done|by rewrite H2|done].
  - destruct He as (nd0 & es & Hn0 & En & Ees). assert (nd0 = nd) as -> by congruence.
    destruct (held_node _ _ _ Hd) as (nd0 & es0 & E0 & _ & Htd). assert (nd0 = nd) as -> by congruence.
    destruct (U d nd es) as (nd' & es' & H1 & H2 & H3 & H4 & H5); [done..|].
    destruct (i_node nc) as [cs| | |] eqn:Ec; try done.
    destruct (U c nc cs) as (nc' & cs' & C1 & C2 & C3 & _); [done..|].
    apply (held_snoc f' names d nd' name c nc'); [done|done|by apply H4| |done|by rewrite C2|done].
    exists nd', es'. split_and!; [done..|]. apply (H5 name c nc); [done|done|by rewrite Ec].
Qed.

(** A new object, with a number of its own, under a name that was free. *)
Lemma kept_add f d nd es name i n :
  f !! d = Some nd → i_node nd = Dir es → es !! name = None → f !! i = None →
  ∀ t, kept_dirs f (<[d := set_entries (<[name := i]> es) t nd]> (<[i := n]> f)).
Proof.
  intros Hd Ed En Hi t j nj es' Hj Ej Ht.
  assert (i ≠ j) as Hij by congruence. assert (i ≠ d) as Hid by congruence.
  destruct (decide (j = d)) as [->|Hjd].
  - assert (nj = nd) as -> by congruence. assert (es' = es) as -> by congruence.
    exists (set_entries (<[name := i]> es) t nd), (<[name := i]> es). rewrite lookup_insert_eq.
    split_and!; [done..|].
    intros name' c nc Hc _ _. rewrite lookup_insert_ne; [done|]. by intros ->; congruence.
  - exists nj, es'. rewrite !lookup_insert_ne by done. by split_and!.
Qed.

(** New attributes that still protect the directory. *)
Lemma kept_update f i n n' :
  f !! i = Some n → i_node n' = i_node n → trusted n' → closed n' → kept_dirs f (<[i := n']> f).
Proof.
  intros Hi En Ht Hc j nj es Hj Ej Hjt. destruct (decide (j = i)) as [->|Hn].
  - exists n', es. rewrite lookup_insert_eq. assert (nj = n) as -> by congruence.
    split_and!; [done|congruence|done|by left|done].
  - exists nj, es. rewrite lookup_insert_ne by done. by split_and!.
Qed.

(** A file is no directory: what happens to it keeps every directory. *)
Lemma kept_file f f' :
  (∀ d nd, f !! d = Some nd → is_dir (i_node nd) = true → f' !! d = Some nd) → kept_dirs f f'.
Proof.
  intros H d nd es Hd Ed Ht. exists nd, es. rewrite (H d nd) by (by rewrite ?Ed). by split_and!.
Qed.

Lemma kept_dirs_refl f : kept_dirs f f.
Proof. by apply kept_file. Qed.

(** New entries for a directory that keep its subdirectories, and changes of other files. *)
Lemma kept_entries f d nd es es' t g :
  f !! d = Some nd → i_node nd = Dir es →
  (∀ name c nc, es !! name = Some c → f !! c = Some nc → is_dir (i_node nc) = true → es' !! name = Some c) →
  (∀ x nx, f !! x = Some nx → is_dir (i_node nx) = true → x ≠ d → g !! x = Some nx) →
  kept_dirs f (<[d := set_entries es' t nd]> g).
Proof.
  intros Hd Ed He Hg x nx ex Hx Ex Ht. destruct (decide (x = d)) as [->|Hn].
  - assert (nx = nd) as -> by congruence. assert (ex = es) as -> by congruence.
    exists (set_entries es' t nd), es'. rewrite lookup_insert_eq. by split_and!.
  - exists nx, ex. rewrite lookup_insert_ne by done. rewrite (Hg x nx) by (by rewrite ?Ex). by split_and!.
Qed.
End protected.
