(* ===== verification/SetupFs.v ===== *)
(** * The trusted filesystem of setup

    Models [src/src/astrumweaver/setup/filesystem.py]: privileged reads and writes relative to
    directory descriptors, whose every component is opened without following links and checked
    for its owner and permissions. *)

From S2P Require Import Prelude PyStr PyDict PyHost Effects Posix.

(** [SetupFilesystem], setup/filesystem.py lines 29-34. *)
Record SetupFilesystem := { sf_root : path; sf_owner : Z }.

(** [SetupFilesystem.__init__], setup/filesystem.py lines 30-34. *)
Definition mk_SetupFilesystem (root : path) (euid : Z) : result SetupFilesystem :=
  require (is_absolute root && negb (bool_decide (".." ∈ path_parts root)))
    (UnsafeSetupPath "setup root must be absolute without parent traversal");;
  Ok {| sf_root := root; sf_owner := if bool_decide (root = root_path) then 0 else euid |}.

(** [stat.S_IMODE]. *)
Definition S_IMODE (m : Z) : Z := Z.land m 4095.

(** The keywords of [directory], setup/filesystem.py lines 93-102. *)
Record dir_opts := {
  do_create : bool; do_mode : option Z; do_uid : option Z; do_gid : option Z;
  do_data_owner : option Z }.
Definition plain : dir_opts :=
  {| do_create := false; do_mode := None; do_uid := None; do_gid := None; do_data_owner := None |}.
Definition creating : dir_opts :=
  {| do_create := true; do_mode := None; do_uid := None; do_gid := None; do_data_owner := None |}.

Definition is_OSError (e : exn) : bool :=
  match e with OSError _ | FileNotFoundError _ | FileExistsError _ => true | _ => false end.

(** [except OSError: raise UnsafeSetupPath(message) from None]. *)
Definition refuse {A} (message : string) (e : exn) : K A :=
  if is_OSError e then throws (UnsafeSetupPath message) else throws e.
(** The same after [except FileNotFoundError: raise]. *)
Definition refuse_present {A} (message : string) (e : exn) : K A :=
  match e with FileNotFoundError _ => throws e | _ => refuse message e end.

(** [try: os.mkdir(part, 0o700, dir_fd=fd) except FileExistsError: pass]: whether it was
    created, setup/filesystem.py lines 111-117. *)
Definition try_mkdir (part : string) (fd : Z) : K bool :=
  try_catch (os_mkdir part 448 fd;; mret true)
    (λ e, match e with FileExistsError _ => mret false | _ => throws e end).

(** [_identity], setup/filesystem.py lines 165-169. *)
Definition _identity (metadata : option stat_result) : option (fileid * Z * Z) :=
  (λ m, (st_id m, i_mtime (st_inode m), i_ctime (st_inode m))) <$> metadata.
Definition same_identity (a b : option stat_result) : bool := bool_decide (_identity a = _identity b).

(** [try: os.unlink(name) except FileNotFoundError: pass], setup/filesystem.py lines 228-231. *)
Definition unlink_if_there (name : string) (fd : Z) : K unit :=
  try_catch (os_unlink name fd)
    (λ e, match e with FileNotFoundError _ => mret tt | _ => throws e end).

(** [except FileNotFoundError: return x]. *)
Definition absent {A} (x : A) (m : K A) : K A :=
  try_catch m (λ e, match e with FileNotFoundError _ => mret x | _ => throws e end).

(** [os.fchown(..., -1 if gid is None else gid)]. *)
Definition gid_or_keep (gid : option Z) : Z := default (-1) gid.

Section filesystem.
Context (fs : SetupFilesystem).
Implicit Types (p : path).

(** [_parts], setup/filesystem.py lines 36-42. *)
Definition _parts p : result (list string) :=
  require (is_absolute p && negb (bool_decide (".." ∈ path_parts p)))
    (UnsafeSetupPath "setup path must be absolute without parent traversal");;
  match relative_to p (sf_root fs) with
  | Ok r => Ok (path_parts r)
  | Err (ValueError _) => Err (UnsafeSetupPath "setup path is outside the selected root")
  | Err e => Err e
  end.

(** [_validate_directory], setup/filesystem.py lines 44-57. *)
Definition _validate_directory (fd : Z) (owners : list Z) (ancestor : bool) : K stat_result :=
  metadata ← os_fstat fd;
  ensure (is_dir (i_node (st_inode metadata)) && bool_decide (st_uid metadata ∈ owners))
    (UnsafeSetupPath "setup directory has unsafe type or ownership");;
  let sticky_system := ancestor && (st_uid metadata =? 0) && has_bits (st_mode metadata) S_ISVTX in
  ensure (negb (has_bits (st_mode metadata) S_IWOTHERS && negb sticky_system))
    (UnsafeSetupPath "setup directory is writable by an untrusted group/user");;
  mret metadata.

(** A new component of the root's ancestry, setup/filesystem.py lines 83-85. *)
Definition adopt_root (fd : Z) : K unit :=
  euid ← geteuid; _validate_directory fd [euid] false;; os_fchmod fd 493.

(** The loop of [_open_root]; [fd] is closed when it raises, setup/filesystem.py lines 63-90. *)
Fixpoint open_root_loop (create : bool) (parts : list string) (fd : Z) : K Z :=
  match parts with
  | [] => on_error (os_close fd) (_validate_directory fd [sf_owner fs] false;; mret fd)
  | part :: rest =>
      s ← on_error (os_close fd)
            (_validate_directory fd [0; sf_owner fs] true;;
             created ← (if bool_decide (rest = []) && create then try_mkdir part fd else mret false);
             child ← try_catch (os_open_dir part fd)
                       (refuse_present "setup root has linked or non-directory ancestry");
             mret (child, created));
      os_close fd;;
      on_error (os_close s.1) (if s.2 : bool then adopt_root s.1 else mret tt);;
      open_root_loop create rest s.1
  end.

(** [_open_root], setup/filesystem.py lines 59-90. *)
Definition _open_root (create : bool) : K Z :=
  fd ← os_open_root; open_root_loop create (p_names (sf_root fs)) fd.

(** A directory this call created, setup/filesystem.py lines 125-131. *)
Definition adopt_child (o : dir_opts) (final : bool) (child : Z) : K unit :=
  euid ← geteuid;
  metadata ← _validate_directory child [euid] false;
  other ← (if bool_decide (S_IMODE (st_mode metadata) = 448) then os_listdir_any child else mret true);
  ensure (negb other) (UnsafeSetupPath "new setup directory was replaced");;
  match do_uid o with
  | Some uid =>
      if final && (euid =? 0) then os_fchown child uid (gid_or_keep (do_gid o)) else mret tt
  | None => mret tt
  end;;
  os_fchmod child (if final then default 493 (do_mode o) else 493).

(** The last component must be canonical, setup/filesystem.py lines 133-139. *)
Definition check_final (o : dir_opts) (metadata : stat_result) : K unit :=
  let differs (want : option Z) (got : Z) :=
    match want with Some w => negb (bool_decide (got = w)) | None => false end in
  ensure (negb (differs (do_uid o) (st_uid metadata)))
    (UnsafeSetupPath "setup directory owner is not canonical");;
  ensure (negb (differs (do_gid o) (st_gid metadata)))
    (UnsafeSetupPath "setup directory group is not canonical");;
  ensure (negb (differs (do_mode o) (S_IMODE (st_mode metadata))))
    (UnsafeSetupPath "setup directory mode is not canonical").

Definition allowed_owners (o : dir_opts) : list Z :=
  [0; sf_owner fs] ++ match do_data_owner o with Some u => [u] | None => [] end.

(** One component of [directory], setup/filesystem.py lines 110-142. *)
Definition enter_child (o : dir_opts) (final : bool) (part : string) (fd : Z) : K Z :=
  created ← (if do_create o then try_mkdir part fd else mret false);
  child ← try_catch (os_open_dir part fd)
            (refuse_present "setup refuses linked or non-directory ancestry");
  on_error (os_close child)
    ((if created : bool then adopt_child o final child else mret tt);;
     metadata ← _validate_directory child (allowed_owners o) (negb final);
     (if final then check_final o metadata else mret tt);;
     mret child).

(** The loop of [directory] with the body of its [with], setup/filesystem.py lines 108-147. *)
Fixpoint directory_loop {A} (o : dir_opts) (parts : list string) (fd : Z) (body : Z → K A) : K A :=
  match parts with
  | [] => try_finally (body fd) (os_close fd)
  | part :: rest =>
      child ← on_error (os_close fd) (enter_child o (bool_decide (rest = [])) part fd);
      os_close fd;; directory_loop o rest child body
  end.

(** [with self.directory(path, ...) as fd: body], setup/filesystem.py lines 92-147. *)
Definition directory {A} p (o : dir_opts) (body : Z → K A) : K A :=
  parts ← lifts (_parts p);
  fd ← _open_root (do_create o);
  directory_loop o parts fd body.

(** [_validate_file], setup/filesystem.py lines 149-155. *)
Definition _validate_file (metadata : stat_result) : K unit :=
  ensure (is_reg (i_node (st_inode metadata)))
    (UnsafeSetupPath "setup target is not a regular non-symlink file");;
  ensure (bool_decide (st_uid metadata = sf_owner fs) && negb (has_bits (st_mode metadata) S_IWOTHERS))
    (UnsafeSetupPath "setup file has unsafe ownership or permissions");;
  ensure (i_nlink (st_inode metadata) =? 1)
    (UnsafeSetupPath "setup refuses multiply linked authoritative files").

(** [_file_state], setup/filesystem.py lines 157-163. *)
Definition _file_state (dir : Z) (name : string) : K (option stat_result) :=
  found ← absent None (m ← os_stat name dir; mret (Some m));
  match found with
  | None => mret None
  | Some metadata => _validate_file metadata;; mret (Some metadata)
  end.

(** The body of [read_text], setup/filesystem.py lines 174-189. *)
Definition read_entry (name : string) (dir : Z) : K (option string) :=
  before ← _file_state dir name;
  match before with
  | None => mret None
  | Some _ =>
      fd ← try_catch (os_open_file name dir) (refuse "setup file changed while being opened");
      os_fdopen fd;;
      content ← try_finally
        (m ← os_fstat fd; _validate_file m;;
         m' ← os_fstat fd;
         ensure (same_identity before (Some m')) (UnsafeSetupPath "setup file changed while being opened");;
         os_read_text fd)
        (os_close fd);
      after ← _file_state dir name;
      ensure (same_identity before after) (UnsafeSetupPath "setup file changed while being read");;
      mret (Some content)
  end.

(** [read_text], setup/filesystem.py lines 171-191. *)
Definition read_text p : K (option string) :=
  lifts (_parts p);; absent None (directory (parent p) plain (read_entry (name_of p))).

(** [_check_directory_current], setup/filesystem.py lines 193-197. *)
Definition _check_directory_current p (fd : Z) : K unit :=
  directory p plain (λ current,
    left ← os_fstat fd; right ← os_fstat current;
    ensure (bool_decide (st_id left = st_id right))
      (UnsafeSetupPath "setup directory changed during the operation")).

(** The temporary file beside the target, setup/filesystem.py line 206. *)
Definition temporary_name (name token : string) : string := "." +:+ name +:+ "." +:+ token +:+ ".tmp".

(** Owner, mode and content of the temporary file, setup/filesystem.py lines 213-220. *)
Definition fill (before : option stat_result) (content : string) (mode : Z) (gid : option Z)
    (preserve_metadata : bool) (fd : Z) : K unit :=
  let kept := if preserve_metadata then before else None in
  let selected_gid := match kept with Some b => Some (st_gid b) | None => gid end in
  euid ← geteuid;
  (if euid =? 0 then os_fchown fd (sf_owner fs) (gid_or_keep selected_gid) else mret tt);;
  os_fchmod fd (match kept with Some b => S_IMODE (st_mode b) | None => mode end);;
  os_write_text fd content;;
  os_fsync fd.

(** The move into place that [write_text] and [replace_link] share: the directory is still
    the one the path names, before and after, setup/filesystem.py lines 223-226. *)
Definition move_into_place p (temporary : string) (dir : Z) : K unit :=
  _check_directory_current (parent p) dir;;
  os_replace temporary (name_of p) dir;;
  os_fsync dir;;
  _check_directory_current (parent p) dir.

(** The body of [write_text], setup/filesystem.py lines 205-231. *)
Definition write_entry p (content : string) (mode : Z) (gid : option Z) (preserve_metadata : bool)
    (dir : Z) : K unit :=
  before ← _file_state dir (name_of p);
  token ← token_hex;
  let temporary := temporary_name (name_of p) token in
  fd ← os_create temporary 384 dir;
  try_finally
    (os_fdopen fd;;
     try_finally (fill before content mode gid preserve_metadata fd) (os_close fd);;
     now ← _file_state dir (name_of p);
     ensure (same_identity before now) (UnsafeSetupPath "setup file changed before atomic replacement");;
     move_into_place p temporary dir)
    (unlink_if_there temporary dir).

(** [write_text], setup/filesystem.py lines 199-231. *)
Definition write_text p (content : string) (mode : Z) (gid : option Z) (preserve_metadata : bool) : K unit :=
  lifts (_parts p);;
  directory (parent p) creating (write_entry p content mode gid preserve_metadata).

(** [remove_file]; [expected] is [None] for [_UNSET], setup/filesystem.py lines 233-243. *)
Definition remove_file p (expected : option string) : K unit :=
  lifts (_parts p);;
  current ← read_text p;
  match current with
  | None => mret tt
  | Some c =>
      ensure (match expected with Some x => bool_decide (c = x) | None => true end)
        (UnsafeSetupPath "setup refuses to remove a changed file");;
      directory (parent p) plain (λ dir,
        _file_state dir (name_of p);; os_unlink (name_of p) dir;; os_fsync dir)
  end.

Definition data_opts (data_owner : option Z) : dir_opts :=
  {| do_create := false; do_mode := None; do_uid := None; do_gid := None;
     do_data_owner := data_owner |}.

(** [remove_directory], setup/filesystem.py lines 245-263. *)
Definition remove_directory p (data_owner : option Z) : K bool :=
  lifts (_parts p);;
  absent false (directory (parent p) (data_opts data_owner) (λ dir,
    child ← os_open_dir (name_of p) dir;
    try_finally (_validate_directory child (allowed_owners (data_opts data_owner)) false;; mret tt) (os_close child);;
    try_catch (os_rmdir (name_of p) dir;; mret true)
      (λ e, if bool_decide (e = ENOTEMPTY) || match e with FileExistsError _ => true | _ => false end
            then mret false else throws e))).

(** [_link_state], setup/filesystem.py lines 265-272. *)
Definition _link_state (dir : Z) (name : string) : K (option (string * stat_result)) :=
  found ← absent None (m ← os_stat name dir; mret (Some m));
  match found with
  | None => mret None
  | Some metadata =>
      ensure (is_link (i_node (st_inode metadata)) && bool_decide (st_uid metadata = sf_owner fs))
        (UnsafeSetupPath "NVIDIA driver bridge target is not a managed symlink");;
      target ← os_readlink name dir; mret (Some (target, metadata))
  end.

(** [read_link], setup/filesystem.py lines 274-280. *)
Definition read_link p : K (option string) :=
  lifts (_parts p);;
  absent None (directory (parent p) plain (λ dir, s ← _link_state dir (name_of p); mret (fst <$> s))).

(** [replace_link], setup/filesystem.py lines 282-301. *)
Definition replace_link p (target : string) (expected : option string) : K unit :=
  lifts (_parts p);;
  directory (parent p) plain (λ dir,
    before ← _link_state dir (name_of p);
    ensure (bool_decide (fst <$> before = expected))
      (UnsafeSetupPath "driver bridge changed before replacement");;
    token ← token_hex;
    let temporary := temporary_name (name_of p) token in
    os_symlink target temporary dir;;
    try_finally
      (now ← _link_state dir (name_of p);
       ensure (same_identity (snd <$> before) (snd <$> now))
         (UnsafeSetupPath "driver bridge changed before replacement");;
       move_into_place p temporary dir)
      (unlink_if_there temporary dir)).

(** [remove_link], setup/filesystem.py lines 303-309. *)
Definition remove_link p (expected : string) : K unit :=
  lifts (_parts p);;
  directory (parent p) plain (λ dir,
    s ← _link_state dir (name_of p);
    ensure (bool_decide (fst <$> s = Some expected))
      (UnsafeSetupPath "driver bridge changed before removal");;
    os_unlink (name_of p) dir;;
    os_fsync dir).
End filesystem.
