(* ===== verification/SetupFsProps.v ===== *)
(** * The trusted filesystem: nobody redirects setup

    Whatever users outside the trusted owners do between two system calls, a directory that
    [SetupFilesystem] hands out is the one its path names, and a file it writes appears under
    its name complete or not at all. *)

From S2P Require Import Prelude PyStr PyDict PyHost Effects Posix SetupFs.

(** ** The state of a walk *)

(** A failure of the host itself: not the absence or the presence of a file. *)
Definition failure (e : exn) : Prop :=
  match e with FileNotFoundError _ | FileExistsError _ => False | _ => True end.

Section walk.
Context (fs : SetupFilesystem) (T : list Z) (root : fileid) (euid : Z) (F : exn → Prop).

(** The users outside [T] make every change that is not setup's own, and a call fails by
    itself with [F]. *)
Definition respectful (k : kernel) : Prop :=
  Forall (λ ev, (∀ f, untrusted T root f (ev_change ev f)) ∧
                ∀ e n, ev_fault ev = Some (e, n) → F e) (k_schedule k).

(** The open descriptors, and what is known of the files and of the log. *)
Definition walking (I : files → list call → Prop) (t : gmap Z fileid) (k : kernel) : Prop :=
  respectful k ∧ k_root k = root ∧ k_euid k = euid ∧ k_fds k = t ∧ I (k_files k) (k_log k).

Definition lasting (I : files → list call → Prop) : Prop :=
  ∀ f f' l, untrusted T root f f' → I f l → I f' l.

Lemma walking_stable I t : lasting I → stable (walking I t).
Proof.
  intros HI k (Hr & Hroot & He & Ht & H). unfold happens. unfold respectful in *.
  destruct (k_schedule k) as [|ev rest] eqn:E; cbn.
  - unfold walking, respectful. rewrite E. by split_and!.
  - inversion Hr as [|? ? [Hev _] Hrest]; subst. split_and!; cbn; try done. by eapply HI; [apply Hev|].
Qed.

Lemma triple_call {A} I t (f : kernel → result (kernel * A)) Q (E : exn → kernel → Prop) :
  lasting I →
  (∀ k, walking I t k → match f k with Ok (k', a) => Q a k' | Err e => E e k end) →
  (∀ e k, F e → walking I t k → E e k) →
  triple (walking I t) (syscall f) Q E.
Proof.
  intros HI Hf He k W. pose proof (walking_stable I t HI k W) as W'.
  assert (∀ e n, (happens k).2 = Some (e, n) → F e) as Hfail.
  { destruct W as [Hr _]. unfold respectful in Hr. intros e n. unfold happens.
    destruct (k_schedule k) as [|ev rest]; [done|]. inversion Hr as [|? ? [_ Hev] _]; subst. apply Hev. }
  unfold syscall. destruct (happens k) as [k' [[e n]|]]; cbn in *.
  - apply He; [by eapply Hfail|done].
  - specialize (Hf k' W'). destruct (f k') as [[k'' a]|e]; done.
Qed.

Lemma walking_weaken (I J : files → list call → Prop) t k :
  walking I t k → (∀ f l, I f l → J f l) → walking J t k.
Proof. intros (? & ? & ? & ? & H) HIJ. split_and!; auto. Qed.

(** [I] and a fact about the files. *)
Definition also (I : files → list call → Prop) (φ : files → Prop) (f : files) (l : list call) : Prop :=
  I f l ∧ φ f.
Definition lasts (φ : files → Prop) : Prop := ∀ f f', untrusted T root f f' → φ f → φ f'.

Lemma lasting_also I φ : lasting I → lasts φ → lasting (also I φ).
Proof. intros HI Hφ f f' l U [H1 H2]. split; [by eapply HI|by eapply Hφ]. Qed.
Lemma lasts_and φ ψ : lasts φ → lasts ψ → lasts (λ f, φ f ∧ ψ f).
Proof. intros Hφ Hψ f f' U [H1 H2]. split; [by eapply Hφ|by eapply Hψ]. Qed.

(** ** Calls that change nothing *)

Section calls.
Context (I : files → list call → Prop) (HI : lasting I).

(** A descriptor of [names] that is held, and whose directory protects its entries. *)
Definition is_held (names : list string) (c : fileid) (f : files) : Prop := held T root f names c.
Definition guards (names : list string) (c : fileid) (f : files) : Prop :=
  held T root f names c ∧ ∃ n, f !! c = Some n ∧ (closed n ∨ sticky n).

Lemma is_held_lasts names c : lasts (is_held names c).
Proof. intros f f' U H. by eapply held_untrusted. Qed.
Lemma guards_lasts names c : lasts (guards names c).
Proof.
  intros f f' U [H (n & Hn & Hc)]. split; [by eapply held_untrusted|].
  destruct (held_attributes T root f f' names c n U H Hn) as (n' & Hn' & _ & Hu & _ & Hm & _).
  exists n'. split; [done|]. destruct Hc as [Hc|Hc]; [left|right]; unfold closed, sticky in *; by rewrite Hm, ?Hu.
Qed.
Lemma pending_lasts names c : lasts (pending T root names c).
Proof. intros f f' U. by apply pending_untrusted. Qed.

Definition any : exn → Prop := λ _, True.

Lemma triple_close t fd c J :
  t !! fd = Some c →
  triple (walking J t) (os_close fd) (λ _, walking J (delete fd t)) (λ _ _, False).
Proof.
  intros Hfd k (Hr & Hroot & He & Ht & H). unfold os_close. rewrite Ht, Hfd. cbn. by rewrite <-Ht.
Qed.

(** What a failed call leaves. *)
Lemma triple_open_root t :
  triple (walking I t) os_open_root
    (λ fd k, t !! fd = None ∧ walking I (<[fd := root]> t) k) (λ _, walking I t).
Proof.
  apply triple_syscall; [by apply walking_stable| |done]. intros k (Hr & Hroot & He & Ht & H). cbn.
  rewrite Ht, Hroot. split; [apply fresh_fd_None|]. by split_and!.
Qed.

Lemma triple_open_dir t fd d name names :
  t !! fd = Some d →
  triple (walking (also I (guards names d)) t) (os_open_dir name fd)
    (λ child k, t !! child = None ∧
       ∃ c, walking (also I (λ f, guards names d f ∧ pending T root (names ++ [name]) c f)) (<[child := c]> t) k)
    (λ _, walking (also I (guards names d)) t).
Proof.
  intros Hfd. apply triple_syscall; [|intros k W|done].
  { apply walking_stable, lasting_also; [done|apply guards_lasts]. }
  pose proof W as (Hr & Hroot & He & Ht & HIk & [Hh (nd & Hnd & Hp)]).
  destruct (check_name name); cbn; [|done]. unfold entries_of, inode_of. rewrite Ht, Hfd. cbn.
  unfold inode_at. rewrite Hnd. cbn. destruct (i_node nd) as [es| | |] eqn:Ed; cbn; try done.
  destruct (es !! name) as [c|] eqn:Ec; cbn; [|done].
  destruct (k_files k !! c) as [nc|] eqn:Enc; cbn; [|done].
  destruct (is_dir (i_node nc)) eqn:Edir; cbn; [|done].
  rewrite Ht. split; [apply fresh_fd_None|]. exists c. split_and!; try done. cbn.
  split; [done|]. split; [by split; eauto|].
  destruct (decide (i_uid nc ∈ T)) as [Htr|Htr].
  - left. apply (held_snoc T root (k_files k) names d nd name c nc); try done. by exists nd, es.
  - right. intros n Hn _. assert (n = nc) as -> by congruence. done.
Qed.

(** A validated directory is held; one that is no ancestor keeps others from writing. *)
Definition validated (names : list string) (c : fileid) (ancestor : bool) (m : stat_result) (f : files) : Prop :=
  held T root f names c ∧ st_id m = c ∧ is_dir (i_node (st_inode m)) = true ∧
  (closed (st_inode m) ∨ ancestor = true ∧ sticky (st_inode m)) ∧
  ∃ n, f !! c = Some n ∧ is_dir (i_node n) = true ∧ i_uid n = st_uid m ∧ i_gid n = st_gid m ∧ i_mode n = st_mode m ∧
    (closed (st_inode m) → n = st_inode m).

Lemma validated_lasts names c a m : lasts (validated names c a m).
Proof.
  intros f f' U (H & E & Hd & Hc & n & Hn & Hdn & Hu & Hg & Hm & Hk).
  destruct (held_attributes T root f f' names c n U H Hn) as (n' & Hn' & Hd' & Hu' & Hg' & Hm' & Hk').
  split_and!; [by eapply held_untrusted|done..|]. exists n'. split_and!; [done|done|congruence..|].
  intros Hcl. rewrite <-(Hk Hcl). apply Hk'. by rewrite (Hk Hcl).
Qed.
Lemma validated_guards names c a m f : validated names c a m f → guards names c f.
Proof.
  intros (H & E & Hd & Hc & n & Hn & Hdn & Hu & Hg & Hm & Hk). split; [done|]. exists n. split; [done|].
  destruct Hc as [Hc|[_ Hc]]; [left|right]; unfold closed, sticky, st_uid, st_mode in *.
  - by rewrite Hm.
  - by rewrite Hm, Hu.
Qed.

Lemma triple_validate t fd c names allowed ancestor :
  t !! fd = Some c → (∀ u, u ∈ allowed → u ∈ T) →
  triple (walking (also I (pending T root names c)) t) (_validate_directory fd allowed ancestor)
    (λ m, walking (also I (validated names c ancestor m)) t) (λ _, walking I t).
Proof.
  intros Hfd HT. unfold _validate_directory.
  eapply triple_bind.
  { apply (triple_query _ _ (λ m, walking (also I (λ f, pending T root names c f ∧ st_id m = c ∧
        (∀ (_ : trusted T (st_inode m)) (_ : is_dir (i_node (st_inode m)) = true), held T root f names c ∧
         ∃ n, f !! c = Some n ∧ is_dir (i_node n) = true ∧ i_uid n = st_uid m ∧ i_gid n = st_gid m ∧ i_mode n = st_mode m ∧
           (closed (st_inode m) → n = st_inode m)))) t)).
    - apply walking_stable, lasting_also; [done|apply pending_lasts].
    - intros k a W. pose proof W as (Hr & Hroot & He & Ht & HIk & Hp).
      unfold inode_of. rewrite Ht, Hfd. cbn. unfold inode_at.
      destruct (k_files k !! c) as [n|] eqn:En; cbn; [|done]. intros [= <-]. cbn.
      split_and!; try done. split; [done|]. split_and!; [done|done|]. intros Htr Hdir.
      split; [by eapply pending_held|]. by exists n.
    - intros e k W. eapply walking_weaken; [exact W|]. by intros f l [? _]. }
  intros m. cbn beta.
  eapply triple_bind.
  { apply triple_ensure.
    - intros k W Hb. apply andb_true_iff in Hb as [Hd Hu]. apply bool_decide_eq_true in Hu.
      instantiate (1 := λ _, walking (also I (λ f, held T root f names c ∧ st_id m = c ∧
        is_dir (i_node (st_inode m)) = true ∧
        ∃ n, f !! c = Some n ∧ is_dir (i_node n) = true ∧ i_uid n = st_uid m ∧ i_gid n = st_gid m ∧ i_mode n = st_mode m ∧
           (closed (st_inode m) → n = st_inode m))) t).
      cbn beta. eapply walking_weaken; [exact W|]. intros f l [H1 (H2 & H3 & H4)].
      destruct H4 as [H4 H5]; [by apply HT|done|]. split; [done|]. by split_and!.
    - intros k W _. eapply walking_weaken; [exact W|]. by intros f l [? _]. }
  intros []. cbn beta zeta.
  eapply triple_bind.
  { apply triple_ensure.
    - intros k W Hb. instantiate (1 := λ _, walking (also I (validated names c ancestor m)) t).
      cbn beta. eapply walking_weaken; [exact W|]. intros f l [H1 (H2 & H3 & H4 & H5)]. split; [done|].
      split_and!; [done..| |done]. unfold closed, sticky.
      destruct (has_bits (st_mode m) S_IWOTHERS) eqn:Ew; [right|by left].
      cbn in Hb. apply negb_true_iff, negb_false_iff in Hb. rewrite !andb_true_iff in Hb.
      destruct Hb as [[-> Hu] Hs]. split; [done|]. split; [by apply Z.eqb_eq in Hu|done].
    - intros k W _. eapply walking_weaken; [exact W|]. by intros f l [? _]. }
  intros []. by apply triple_ret.
Qed.
End calls.

(** ** Calls that make directories *)

Definition dir_call (c : call) : Prop :=
  match c with CMkdir _ _ _ | CChmod _ _ | CChown _ _ _ => True | _ => False end.
(** What making directories does not break. *)
Definition grows (I : files → list call → Prop) : Prop :=
  ∀ f f' l c, dir_call c → kept_dirs T f f' → I f l → I f' (l ++ [c]).

Lemma guards_kept f f' names c : kept_dirs T f f' → guards names c f → guards names c f'.
Proof.
  intros U [H (n & Hn & Hc)]. split; [by eapply held_kept|].
  destruct (held_node _ _ _ _ _ H) as (n0 & es & Hn0 & En & Ht). assert (n0 = n) as -> by congruence.
  destruct (U c n es) as (n' & es' & Hn' & _ & _ & Hc' & _); [done..|]. eauto.
Qed.

(** A directory only its owner can write to. *)
Definition shut (names : list string) (c : fileid) (f : files) : Prop :=
  held T root f names c ∧ ∃ n, f !! c = Some n ∧ closed n.
Lemma shut_lasts names c : lasts (shut names c).
Proof.
  intros f f' U [H (n & Hn & Hc)]. split; [by eapply held_untrusted|].
  destruct (held_attributes T root f f' names c n U H Hn) as (n' & Hn' & _ & _ & _ & _ & Hk).
  exists n'. split; [done|]. by rewrite (Hk Hc).
Qed.
Lemma validated_shut names c m f : validated names c false m f → shut names c f.
Proof.
  intros (H & E & Hd & [Hc|[? _]] & n & Hn & _ & _ & _ & Hm & Hk); [|done]. split; [done|].
  exists n. split; [done|]. by rewrite (Hk Hc).
Qed.
Lemma shut_pending names c f : shut names c f → pending T root names c f.
Proof. intros [H _]. by left. Qed.

Lemma triple_mkdir I t fd d name mode names :
  lasting I → grows I → t !! fd = Some d →
  triple (walking (also I (guards names d)) t) (os_mkdir name mode fd)
    (λ _, walking (also I (guards names d)) t) (λ _, walking (also I (guards names d)) t).
Proof.
  intros HI HG Hfd. apply triple_syscall; [|intros k W|done].
  { apply walking_stable, lasting_also; [done|apply guards_lasts]. }
  pose proof W as (Hr & Hroot & He & Ht & HIk & Hg). pose proof Hg as [Hh (nd & Hnd & Hp)].
  unfold add_entry. destruct (check_name name); cbn; [|done].
  unfold entries_of, inode_of, inode_at. rewrite Ht, Hfd. cbn. rewrite Hnd. cbn.
  destruct (i_node nd) as [es| | |] eqn:Ed; cbn; try done.
  destruct (es !! name) as [c|] eqn:Ec; cbn; [done|]. destruct (0 <? i_nlink nd); cbn; [|done].
  assert (∀ n t', kept_dirs T (k_files k)
    (<[d := set_entries (<[name := (d.1, fresh_ino (k_files k))]> es) t' nd]>
       (<[(d.1, fresh_ino (k_files k)) := n]> (k_files k)))) as Hk.
  { intros n t'. apply kept_add; try done. apply fresh_ino_None. }
  split_and!; try done; cbn. split; [by eapply HG|by eapply guards_kept].
Qed.

Lemma triple_try_mkdir I t fd d name names :
  lasting I → grows I → t !! fd = Some d →
  triple (walking (also I (guards names d)) t) (try_mkdir name fd)
    (λ _, walking (also I (guards names d)) t) (λ _, walking (also I (guards names d)) t).
Proof.
  intros HI HG Hfd. unfold try_mkdir. eapply triple_catch.
  - eapply triple_bind; [by eapply triple_mkdir|]. intros []. by apply triple_ret.
  - intros e. destruct e; by first [apply triple_ret|apply triple_throws].
Qed.

(** Changing the attributes of a directory, so that it stays shut. *)
Lemma triple_update I t fd c names (g : Z → inode → inode → inode) (cl : inode → fileid → call)
    (P : kernel → inode → result (kernel * unit)) :
  lasting I → grows I → t !! fd = Some c →
  (∀ z o n, i_node (g z o n) = i_node n) → (∀ z o n, trusted T n → trusted T (g z o n)) →
  (∀ z o n, closed n → closed (g z o n)) → (∀ n i, dir_call (cl n i)) →
  (∀ k n, (∃ e, P k n = Err e) ∨ P k n = update_fd fd (g (k_clock k) n) (cl n) k) →
  triple (walking (also I (shut names c)) t) (syscall (λ k, p ← inode_of fd k; P k p.2))
    (λ _, walking (also I (shut names c)) t) (λ _, walking (also I (shut names c)) t).
Proof.
  intros HI HG Hfd Hg Htr Hcl Hdc HP. apply triple_syscall; [|intros k W|done].
  { apply walking_stable, lasting_also; [done|apply shut_lasts]. }
  pose proof W as (Hr & Hroot & He & Ht & HIk & [Hh (n & Hn & Hc)]).
  unfold inode_of at 1, inode_at. rewrite Ht, Hfd. cbn. rewrite Hn. cbn.
  destruct (HP k n) as [[e ->]| ->]; [done|].
  unfold update_fd, inode_of, inode_at. rewrite Ht, Hfd. cbn. rewrite Hn. cbn.
  assert (kept_dirs T (k_files k) (<[c := g (k_clock k) n n]> (k_files k))) as Hk.
  { destruct (held_node _ _ _ _ _ Hh) as (n0 & es & Hn0 & _ & Hnt). assert (n0 = n) as -> by congruence.
    apply (kept_update T (k_files k) c n); auto. }
  split_and!; try done; cbn. split; [by eapply HG|]. split; [by eapply held_kept|].
  exists (g (k_clock k) n n). rewrite lookup_insert_eq. auto.
Qed.

Lemma triple_fchmod I t fd c names mode :
  lasting I → grows I → t !! fd = Some c → has_bits mode S_IWOTHERS = false →
  triple (walking (also I (shut names c)) t) (os_fchmod fd mode)
    (λ _, walking (also I (shut names c)) t) (λ _, walking (also I (shut names c)) t).
Proof.
  intros HI HG Hfd Hm. unfold os_fchmod.
  eapply (triple_update I t fd c names (λ z _, set_mode mode z) (λ _ i, CChmod i mode)
    (λ k n, require (owns k n) EPERM;; update_fd fd (set_mode mode (k_clock k)) (λ i, CChmod i mode) k));
    try done.
  intros k n. destruct (owns k n); cbn; [by right|left; eauto].
Qed.

Lemma triple_fchown I t fd c names uid gid :
  lasting I → grows I → t !! fd = Some c → uid ∈ T →
  triple (walking (also I (shut names c)) t) (os_fchown fd uid gid)
    (λ _, walking (also I (shut names c)) t) (λ _, walking (also I (shut names c)) t).
Proof.
  intros HI HG Hfd Hm. unfold os_fchown.
  eapply (triple_update I t fd c names
    (λ z n, set_owner uid (if gid =? -1 then i_gid n else gid) z)
    (λ n i, CChown i uid (if gid =? -1 then i_gid n else gid))
    (λ k n, require (k_euid k =? 0) EPERM;;
            update_fd fd (set_owner uid (if gid =? -1 then i_gid n else gid) (k_clock k))
              (λ i, CChown i uid (if gid =? -1 then i_gid n else gid)) k));
    try done.
  intros k n. destruct (k_euid k =? 0); cbn; [by right|left; eauto].
Qed.

(** ** The walk *)

Context (Hzero : 0 ∈ T) (Howner : sf_owner fs ∈ T) (Heuid : euid ∈ T).

Lemma triple_geteuid I t E :
  triple (walking I t) geteuid (λ u k, u = euid ∧ walking I t k) E.
Proof. apply triple_gets. intros k W. split; [|done]. by destruct W as (? & ? & ? & ? & ?). Qed.

Lemma triple_refuse {A} (P : kernel → Prop) message e (Q : A → kernel → Prop) :
  triple P (refuse message e) Q (λ _, P).
Proof. unfold refuse. destruct (is_OSError e); by apply triple_throws. Qed.
Lemma triple_refuse_present {A} (P : kernel → Prop) message e (Q : A → kernel → Prop) :
  triple P (refuse_present message e) Q (λ _, P).
Proof. unfold refuse_present. destruct e; first [by apply triple_throws|apply triple_refuse]. Qed.

(** Closing a descriptor on the way out. *)
Lemma triple_close_error {A} (P : kernel → Prop) (m : K A) Q I t fd c :
  t !! fd = Some c → triple P m Q (λ _, walking I t) →
  triple P (on_error (os_close fd) m) Q (λ _, walking I (delete fd t)).
Proof.
  intros Hfd Hm. eapply triple_on_error; [exact Hm|]. intros e.
  eapply triple_conseq; [by apply (triple_close t fd c I)|done|done|done].
Qed.

Lemma triple_adopt_root I t fd c names :
  lasting I → grows I → t !! fd = Some c →
  triple (walking (also I (pending T root names c)) t) (adopt_root fd)
    (λ _, walking (also I (pending T root names c)) t) (λ _, walking I t).
Proof.
  intros HI HG Hfd. unfold adopt_root. eapply triple_bind.
  { apply triple_geteuid. }
  intros u. apply triple_pure. intros ->. eapply triple_bind.
  { apply triple_validate; [done|done|]. intros v ->%list_elem_of_singleton. done. }
  intros m. eapply triple_conseq; [by apply triple_fchmod| | |].
  - intros k W. eapply walking_weaken; [exact W|]. intros f l [H1 H2]. split; [done|by eapply validated_shut].
  - intros [] k W. eapply walking_weaken; [exact W|]. intros f l [H1 H2]. split; [done|by apply shut_pending].
  - intros e k W. eapply walking_weaken; [exact W|]. by intros f l [H1 H2].
Qed.
Lemma triple_close_new {A} (P : kernel → Prop) (m : K A) Q I t fd c :
  t !! fd = None → triple P m Q (λ _, walking I (<[fd := c]> t)) →
  triple P (on_error (os_close fd) m) Q (λ _, walking I t).
Proof.
  intros Hfd Hm. rewrite <-(delete_insert_id t fd c Hfd).
  eapply triple_close_error; [apply lookup_insert_eq|exact Hm].
Qed.

(** The parent is closed once the child is open. *)
Lemma triple_close_parent J t fd d child c :
  t !! fd = None → (<[fd := d]> t) !! child = None →
  t !! child = None ∧
  triple (walking J (<[child := c]> (<[fd := d]> t))) (os_close fd)
    (λ _, walking J (<[child := c]> t)) (λ _ _, False).
Proof.
  intros Hfd Hch.
  assert (child ≠ fd) as Hne by (intros ->; by rewrite lookup_insert_eq in Hch).
  split; [by rewrite lookup_insert_ne in Hch by done|].
  assert (<[child := c]> t = delete fd (<[child := c]> (<[fd := d]> t))) as ->.
  { by rewrite delete_insert_ne, delete_insert_id by done. }
  apply (triple_close _ fd d). rewrite lookup_insert_ne by done. apply lookup_insert_eq.
Qed.

Lemma triple_weaken {A} I J t (m : K A) Q E :
  triple (walking J t) m Q E → (∀ f l, I f l → J f l) → triple (walking I t) m Q E.
Proof. intros Hm HIJ. eapply triple_pre; [exact Hm|]. intros k W. by eapply walking_weaken. Qed.
Lemma triple_forget {A} I φ t P (m : K A) Q :
  triple P m Q (λ _, walking (also I φ) t) → triple P m Q (λ _, walking I t).
Proof.
  intros Hm. eapply triple_conseq; [exact Hm|done|done|]. intros e k W.
  eapply walking_weaken; [exact W|]. by intros f l [? _].
Qed.

(** Making the next component, if asked to, and opening it. *)
Lemma triple_make_and_open {A} I t fd d names part (make : bool) message (B : bool → Z → A) :
  lasting I → (make = true → grows I) → t !! fd = None →
  triple (walking (also I (guards names d)) (<[fd := d]> t))
    (created ← (if make then try_mkdir part fd else mret false);
     child ← try_catch (os_open_dir part fd) (refuse_present message);
     mret (B created child))
    (λ x k, ∃ created child c, x = B created child ∧ (created = true → make = true) ∧
       (<[fd := d]> t) !! child = None ∧
       walking (also I (λ f, guards names d f ∧ pending T root (names ++ [part]) c f))
         (<[child := c]> (<[fd := d]> t)) k)
    (λ _, walking I (<[fd := d]> t)).
Proof.
  intros HI HG Hfd. eapply triple_bind.
  { instantiate (1 := λ created k, (created = true → make = true) ∧
      walking (also I (guards names d)) (<[fd := d]> t) k).
    destruct make.
    - eapply triple_forget, triple_conseq; [apply triple_try_mkdir; [done|by apply HG|apply lookup_insert_eq]|done|by intros|intros e k W; exact W].
    - by apply triple_ret. }
  intros created. apply triple_pure. intros Hcr. eapply triple_bind.
  { eapply triple_catch; [apply triple_open_dir; [done|apply lookup_insert_eq]|].
    intros e. eapply triple_forget, triple_refuse_present. }
  intros child. apply triple_ret. intros k (Hch & c & W). by exists created, child, c.
Qed.

Lemma triple_open_root_loop I create parts : ∀ names t fd d,
  lasting I → (create = true → grows I) → t !! fd = None →
  triple (walking (also I (pending T root names d)) (<[fd := d]> t)) (open_root_loop fs create parts fd)
    (λ fd' k, t !! fd' = None ∧ ∃ c m,
       walking (also I (validated (names ++ parts) c false m)) (<[fd' := c]> t) k)
    (λ _, walking I t).
Proof.
  induction parts as [|part rest IH]; intros names t fd d HI HG Hfd; cbn [open_root_loop].
  - eapply triple_close_new; [done|]. eapply triple_bind.
    { apply triple_validate; [done|apply lookup_insert_eq|]. by intros u ->%list_elem_of_singleton. }
    intros m. apply triple_ret. intros k W. split; [done|]. exists d, m. by rewrite app_nil_r.
  - eapply triple_bind.
    { eapply triple_close_new; [done|]. eapply triple_bind.
      { apply triple_validate; [done|apply lookup_insert_eq|].
        intros u [->| ->%list_elem_of_singleton]%elem_of_cons; done. }
      intros m. eapply triple_weaken.
      - apply (triple_make_and_open I t fd d names part _ _ (λ created child, (child, created))); [done| |done].
        intros [_ H]%andb_true_iff. by apply HG.
      - intros f l [H1 H2]. split; [done|by eapply validated_guards]. }
    intros s. do 3 (apply triple_exists; intros ?). rename b into created, b0 into child, b1 into c.
    apply triple_pure. intros ->. apply triple_pure. intros Hcr. apply triple_pure. intros Hch. cbn [fst snd].
    destruct (triple_close_parent (also I (λ f, guards names d f ∧ pending T root (names ++ [part]) c f)) t fd d child c)
      as [Hch' Hcl]; [done..|].
    eapply triple_bind; [eapply triple_conseq; [exact Hcl|done|done|done]|]. intros [].
    eapply triple_bind.
    { eapply (triple_close_new _ _ _ I t child c); [done|].
      instantiate (1 := λ _, walking (also I (pending T root (names ++ [part]) c)) (<[child := c]> t)).
      apply (triple_weaken _ (also I (pending T root (names ++ [part]) c)));
        [|intros f l [H1 [_ H2]]; by split].
      destruct created; [|by apply triple_ret]. apply triple_adopt_root; [done| |apply lookup_insert_eq].
      apply HG. specialize (Hcr eq_refl). by apply andb_true_iff in Hcr as [_ ?]. }
    intros []. replace (names ++ part :: rest) with ((names ++ [part]) ++ rest) by (by rewrite <-app_assoc).
    by apply (IH (names ++ [part]) t child c).
Qed.
Lemma triple_open_root_walk I create t :
  lasting I → (create = true → grows I) →
  triple (walking I t) (_open_root fs create)
    (λ fd k, t !! fd = None ∧ ∃ c m,
       walking (also I (validated (p_names (sf_root fs)) c false m)) (<[fd := c]> t) k)
    (λ _, walking I t).
Proof.
  intros HI HG. unfold _open_root. eapply triple_bind; [by apply triple_open_root|].
  intros fd. apply triple_pure. intros Hfd.
  apply (triple_weaken _ (also I (pending T root [] root))).
  - by apply (triple_open_root_loop I create _ []).
  - intros f l H. split; [done|]. apply pending_root.
Qed.

Context (o : dir_opts).
Hypothesis Hdata : ∀ u, do_data_owner o = Some u → u ∈ T.
Hypothesis Huid : ∀ u, do_uid o = Some u → u ∈ T.
Hypothesis Hmode : ∀ m, do_mode o = Some m → has_bits m S_IWOTHERS = false.

Lemma triple_adopt_child I final t fd c names :
  lasting I → grows I → t !! fd = Some c →
  triple (walking (also I (pending T root names c)) t) (adopt_child o final fd)
    (λ _, walking (also I (pending T root names c)) t) (λ _, walking I t).
Proof.
  intros HI HG Hfd. unfold adopt_child. eapply triple_bind; [apply triple_geteuid|].
  intros u. apply triple_pure. intros ->. eapply triple_bind.
  { apply triple_validate; [done|done|]. intros v ->%list_elem_of_singleton. done. }
  intros m. apply (triple_weaken _ (also I (shut names c)));
    [|intros f l [H1 H2]; split; [done|by eapply validated_shut]].
  eapply triple_bind.
  { instantiate (1 := λ _, walking (also I (shut names c)) t).
    case_bool_decide; [|by apply triple_ret]. eapply triple_forget, triple_query;
      [apply walking_stable, lasting_also, shut_lasts; done|by intros|]. intros e k W. exact W. }
  intros other. eapply triple_bind.
  { instantiate (1 := λ _, walking (also I (shut names c)) t).
    eapply triple_forget, triple_ensure; intros k W _; exact W. }
  intros []. eapply triple_bind.
  { instantiate (1 := λ _, walking (also I (shut names c)) t).
    destruct (do_uid o) as [uid|] eqn:Eu; [|by apply triple_ret].
    destruct (final && _); [|by apply triple_ret]. eapply triple_forget, triple_fchown; auto. }
  intros []. eapply triple_forget, triple_conseq; [apply triple_fchmod|..]; try done.
  - destruct final; [|done]. destruct (do_mode o) eqn:Em; cbn; [by apply Hmode|done].
  - intros [] k W. eapply walking_weaken; [exact W|]. intros f l [H1 H2]. split; [done|by apply shut_pending].
  - intros e k W. exact W.
Qed.

(** What [directory] demanded of the last component. *)
Definition canonical (m : stat_result) : Prop :=
  (∀ u, do_uid o = Some u → st_uid m = u) ∧ (∀ g, do_gid o = Some g → st_gid m = g) ∧
  (∀ x, do_mode o = Some x → S_IMODE (st_mode m) = x).

Lemma triple_check_final (P : kernel → Prop) m :
  triple P (check_final o m) (λ _ k, canonical m ∧ P k) (λ _, P).
Proof.
  unfold check_final, canonical.
  assert (∀ want got, negb match want with Some w => negb (bool_decide (got = w)) | None => false end = true →
    ∀ w : Z, want = Some w → got = w) as H.
  { intros want got Hb w ->. rewrite negb_involutive in Hb. by apply bool_decide_eq_true in Hb. }
  eapply triple_bind; [eapply triple_check; intros Hb; exact (H _ _ Hb)|]. intros []. apply triple_pure. intros H1.
  eapply triple_bind; [eapply triple_check; intros Hb; exact (H _ _ Hb)|]. intros []. apply triple_pure. intros H2.
  eapply triple_conseq; [eapply triple_check; intros Hb; exact (H _ _ Hb)|done| |done]. intros _ k [H3 HP]. done.
Qed.

Lemma triple_enter_child I final part t fd d names :
  lasting I → (do_create o = true → grows I) → t !! fd = None →
  triple (walking (also I (guards names d)) (<[fd := d]> t)) (enter_child fs o final part fd)
    (λ child k, (<[fd := d]> t) !! child = None ∧ ∃ c m, (final = true → canonical m) ∧
       walking (also I (validated (names ++ [part]) c (negb final) m)) (<[child := c]> (<[fd := d]> t)) k)
    (λ _, walking I (<[fd := d]> t)).
Proof.
  intros HI HG Hfd. unfold enter_child.
  assert (∀ A (m1 : K bool) (m2 : K Z) (k : bool → Z → K A) s,
    (x ← m1; y ← m2; k x y) s = ((p ← (x ← m1; y ← m2; mret (x, y)); k p.1 p.2) s)) as Hassoc.
  { intros A m1 m2 k s. unfold mbind, eff_bind. destruct (m1 s) as [s1 [x|e]]; [|done].
    by destruct (m2 s1) as [s2 [y|e]]. }
  intros k0 W0. rewrite Hassoc. revert k0 W0. eapply triple_bind.
  { apply (triple_make_and_open I t fd d names part (do_create o) _ (λ created child, (created, child))); done. }
  intros p. do 3 (apply triple_exists; intros ?). rename b into created, b0 into child, b1 into c.
  apply triple_pure. intros ->. apply triple_pure. intros Hcr. apply triple_pure. intros Hch. cbn [fst snd].
  eapply (triple_close_new _ _ _ I (<[fd := d]> t) child c); [done|].
  apply (triple_weaken _ (also I (pending T root (names ++ [part]) c)));
    [|intros f l [H1 [_ H2]]; by split].
  eapply triple_bind.
  { instantiate (1 := λ _, walking (also I (pending T root (names ++ [part]) c)) (<[child := c]> (<[fd := d]> t))).
    destruct created; [|by apply triple_ret]. apply triple_adopt_child; [done|auto|apply lookup_insert_eq]. }
  intros []. eapply triple_bind.
  { apply triple_validate; [done|apply lookup_insert_eq|]. unfold allowed_owners.
    intros u [Hu|Hu]%elem_of_app.
    - by apply elem_of_cons in Hu as [->| ->%list_elem_of_singleton].
    - destruct (do_data_owner o) as [v|] eqn:Ev; [|by apply elem_of_nil in Hu].
      apply list_elem_of_singleton in Hu as ->. by apply Hdata. }
  intros m. eapply triple_bind.
  { instantiate (1 := λ _ k, (final = true → canonical m) ∧
      walking (also I (validated (names ++ [part]) c (negb final) m)) (<[child := c]> (<[fd := d]> t)) k).
    destruct final; [|by apply triple_ret]. eapply triple_forget, triple_conseq;
      [apply triple_check_final|done|by intros [] k [H1 H2]|intros e k W; exact W]. }
  intros []. apply triple_ret. intros k [Hc W]. split; [done|]. by exists c, m.
Qed.
(** What the body of [directory] knows of its directory. *)
Definition entered (checked : Prop) (names : list string) (c : fileid) (f : files) : Prop :=
  ∃ m, validated names c false m f ∧ (checked → canonical m).
Lemma entered_lasts checked names c : lasts (entered checked names c).
Proof. intros f f' U (m & H & Hc). exists m. split; [by eapply validated_lasts|done]. Qed.

(** A computation with [fd] open, and the state once it is closed. *)
Definition closing {A} (fd : Z) (c : fileid) (Q : A → kernel → Prop) (a : A) (k : kernel) : Prop :=
  k_fds k !! fd = Some c ∧ Q a (with_fds (delete fd (k_fds k)) k).

Lemma triple_with_fd {A} (P : kernel → Prop) (m : K A) fd c Q E :
  triple P m (closing fd c Q) (closing fd c E) → triple P (try_finally m (os_close fd)) Q E.
Proof.
  intros Hm. eapply triple_finally; [exact Hm|..]; intros x k [Hfd H]; unfold os_close; by rewrite Hfd.
Qed.

Section with_body.
Context {A : Type} (checked : Prop) (I : files → list call → Prop) (t : gmap Z fileid).
Context (body : Z → K A) (Q : A → kernel → Prop) (E : exn → kernel → Prop) (whole : list string).
Hypothesis HI : lasting I.
Hypothesis HG : do_create o = true → grows I.
Hypothesis HE : ∀ e k, walking I t k → E e k.
Hypothesis Hbody : ∀ fd c, t !! fd = None →
  triple (walking (also I (entered checked whole c)) (<[fd := c]> t)) (body fd)
    (closing fd c Q) (closing fd c E).

Lemma triple_directory_loop parts : ∀ names fd d,
  whole = names ++ parts → t !! fd = None →
  triple (walking (also I (λ f, guards names d f ∧ (parts = [] → entered checked names d f))) (<[fd := d]> t))
    (directory_loop fs o parts fd body) Q E.
Proof.
  induction parts as [|part rest IH]; intros names fd d Hw Hfd; cbn [directory_loop].
  - apply (triple_with_fd _ _ fd d). rewrite app_nil_r in Hw. subst names.
    eapply triple_weaken; [by apply Hbody|]. intros f l [H1 [_ H2]]. split; [done|by apply H2].
  - assert (whole = (names ++ [part]) ++ rest) as Hw' by by rewrite <-app_assoc.
    eapply triple_bind.
    { eapply triple_conseq; [apply (triple_close_new _ _ _ I t fd d Hfd)| | |].
      - apply (triple_enter_child I (bool_decide (rest = [])) part t fd d names); done.
      - intros k W. eapply walking_weaken; [exact W|]. intros f l [H1 [H2 _]]. by split.
      - intros child k H. exact H.
      - apply HE. }
    intros child. apply triple_pure. intros Hch. apply triple_exists. intros c.
    apply triple_exists. intros m. apply triple_pure. intros Hcan.
    destruct (triple_close_parent (also I (validated (names ++ [part]) c (negb (bool_decide (rest = []))) m))
      t fd d child c) as [Hch' Hcl]; [done..|].
    eapply triple_bind; [eapply triple_conseq; [exact Hcl|done|done|done]|]. intros [].
    eapply triple_weaken; [by apply IH|]. intros f l [H1 H2]. split; [done|].
    split; [by eapply validated_guards|]. intros ->. rewrite bool_decide_true in H2, Hcan by done.
    exists m. auto.
Qed.

Lemma triple_directory p :
  (∀ parts, _parts fs p = Ok parts → whole = p_names (sf_root fs) ++ parts ∧ (checked → parts ≠ [])) →
  triple (walking I t) (directory fs p o body) Q E.
Proof.
  intros Hp. unfold directory. eapply triple_bind.
  { apply triple_lifts. intros k W. instantiate (1 := λ ps k, _parts fs p = Ok ps ∧ walking I t k).
    destruct (_parts fs p); [done|by apply HE]. }
  intros ps. apply triple_pure. intros Eps. eapply triple_bind.
  { eapply triple_conseq; [by apply (triple_open_root_walk I (do_create o) t)|done|intros fd k H; exact H|].
    intros e k W. by apply HE. }
  intros fd. apply triple_pure. intros Hfd. apply triple_exists. intros c. apply triple_exists. intros m.
  apply Hp in Eps as [Hw Hck]. eapply triple_weaken; [by apply triple_directory_loop|].
  intros f l [H1 H2]. split; [done|]. split; [by eapply validated_guards|].
  intros ->. exists m. split; [done|]. intros Hc. by apply Hck in Hc.
Qed.
End with_body.
End walk.

(** ** Where a directory leads *)

(** The directory [c] open at [fd] is the one [p] names through protected directories, only
    its owner can write to it, and it is as [o] demands. *)
Record handed_out (fs : SetupFilesystem) (T : list Z) (o : dir_opts) (p : path) (k k1 : kernel)
    (fd : Z) (c : fileid) (n : inode) : Prop := {
  ho_fds : k_fds k !! fd = None ∧ k_fds k1 = <[fd := c]> (k_fds k);
  ho_node : k_files k1 !! c = Some n ∧ is_dir (i_node n) = true ∧ trusted T n ∧ closed n;
  ho_path parts : _parts fs p = Ok parts →
    held T (k_root k) (k_files k1) (p_names (sf_root fs) ++ parts) c ∧
    (parts ≠ [] → (∀ u, do_uid o = Some u → i_uid n = u) ∧ (∀ g, do_gid o = Some g → i_gid n = g) ∧
       (∀ x, do_mode o = Some x → S_IMODE (i_mode n) = x));
  ho_log : ∃ made, k_log k1 = k_log k ++ made ∧ Forall dir_call made ∧ (do_create o = false → made = []);
  ho_held names i : held T (k_root k) (k_files k) names i → held T (k_root k) (k_files k1) names i;
}.

(** Property C23: nobody redirects setup.  Whatever users outside the trusted owners do between
    the system calls of [directory], and whichever of them fail, the body runs only on a
    descriptor of the directory its path names: every step from the root stays inside
    directories that belong to trusted users and that others cannot write to (or that are
    sticky system directories), no link is followed, the directory itself is closed to
    others and has the demanded owner, group and mode; what was protected before still is;
    only directories were made, and none unless asked; and the descriptors that were
    opened are closed again, also after an error. *)
Theorem directory_trusted {A} fs T o p (body : Z → K A) k k' r :
  0 ∈ T → sf_owner fs ∈ T → k_euid k ∈ T →
  (∀ u, do_data_owner o = Some u ∨ do_uid o = Some u → u ∈ T) →
  (∀ m, do_mode o = Some m → has_bits m S_IWOTHERS = false) →
  respectful T (k_root k) failure k → (∀ fd s, k_fds (body fd s).1 = k_fds s) →
  directory fs p o body k = (k', r) →
  k_fds k' = k_fds k ∧
  ((∃ e, r = Err e ∧ ∃ made, k_log k' = k_log k ++ made ∧ Forall dir_call made ∧
      (do_create o = false → made = [])) ∨
   (∃ parts fd c n k1 k2, _parts fs p = Ok parts ∧ handed_out fs T o p k k1 fd c n ∧
      body fd k1 = (k2, r) ∧ k' = with_fds (delete fd (k_fds k2)) k2)).
Proof.
  intros H0 Hown Heuid Hu Hm Hr Hb Erun.
  destruct (_parts fs p) as [parts|e] eqn:Eparts.
  2:{ unfold directory in Erun. rewrite Eparts in Erun. injection Erun as <- <-. split; [done|].
      left. exists e. split; [done|]. exists []. by rewrite app_nil_r. }
  set (I := λ f l, (∃ made, l = k_log k ++ made ∧ Forall dir_call made ∧ (do_create o = false → made = [])) ∧
                   ∀ names i, held T (k_root k) (k_files k) names i → held T (k_root k) f names i).
  assert (lasting T (k_root k) I) as HI.
  { intros f f' l U [H1 H2]. split; [done|]. intros names i H. eapply held_untrusted; eauto. }
  assert (do_create o = true → grows T I) as HG.
  { intros Hc f f' l c Hd U [(made & -> & Hf & _) H2]. split.
    - exists (made ++ [c]). split; [by rewrite (assoc_L (++))|]. split; [|by rewrite Hc].
      apply Forall_app. by repeat constructor.
    - intros names i H. eapply held_kept; eauto. }
  assert (walking T (k_root k) (k_euid k) failure I (k_fds k) k) as W.
  { split_and!; try done. split; [|done]. exists []. by rewrite app_nil_r. }
  set (ran := λ (r : result A) k', ∃ fd c n k1 k2, handed_out fs T o p k k1 fd c n ∧
      body fd k1 = (k2, r) ∧ k' = with_fds (delete fd (k_fds k2)) k2).
  assert (triple (walking T (k_root k) (k_euid k) failure I (k_fds k)) (directory fs p o body)
    (λ a k', k_fds k' = k_fds k ∧ ran (Ok a) k')
    (λ e k', k_fds k' = k_fds k ∧ (walking T (k_root k) (k_euid k) failure I (k_fds k) k' ∨ ran (Err e) k')))
    as Htr.
  { eapply (triple_directory fs T (k_root k) (k_euid k) failure H0 Hown Heuid o
      (λ u H, Hu u (or_introl H)) (λ u H, Hu u (or_intror H)) Hm (parts ≠ []) I (k_fds k) body
      _ _ (p_names (sf_root fs) ++ parts) HI HG); [|  |].
    - intros e k1 W1. split; [by destruct W1 as (_&_&_&->&_)|by left].
    - intros fd c Hfd k1 (Hr1 & Hroot & He & Ht & [[made Hmade] Hh] & m & Hv & Hc).
      destruct Hv as (Hheld & Hid & Hd & [Hcl|[? _]] & n & Hn & Hdn & Hun & Hgn & Hmn & Hk); [|done].
      assert (handed_out fs T o p k k1 fd c n) as Hout.
      { specialize (Hk Hcl). subst n. destruct (held_node _ _ _ _ _ Hheld) as (n' & _ & Hn' & _ & Htr).
        split; try done.
        - split_and!; try done. by replace (st_inode m) with n' by congruence.
        - intros ps Eps. assert (ps = parts) as -> by congruence. split; [done|]. intros Hne.
          destruct (Hc Hne) as (C1 & C2 & C3). done.
        - by exists made. }
      pose proof (Hb fd k1) as Hfds. destruct (body fd k1) as [k2 r2] eqn:Eb. cbn in Hfds.
      assert (delete fd (k_fds k2) = k_fds k) as Ed by (rewrite Hfds, Ht; by apply delete_insert_id).
      destruct r2 as [a|e].
      + split; [by rewrite Hfds, Ht, lookup_insert_eq|]. cbn. split; [done|]. by exists fd, c, n, k1, k2.
      + split; [by rewrite Hfds, Ht, lookup_insert_eq|]. cbn. split; [done|]. right. by exists fd, c, n, k1, k2.
    - intros ps Eps. by assert (ps = parts) as -> by congruence. }
  specialize (Htr k W). rewrite Erun in Htr.
  assert (∀ r, ran r k' → ∃ parts0 fd c n k1 k2, Ok parts = Ok parts0 ∧ handed_out fs T o p k k1 fd c n ∧
      body fd k1 = (k2, r) ∧ k' = with_fds (delete fd (k_fds k2)) k2) as Hran.
  { intros r' (fd & c & n & k1 & k2 & H). by exists parts, fd, c, n, k1, k2. }
  destruct r as [a|e]; destruct Htr as [Hf Htr]; (split; [done|]); [right; by apply Hran|].
  destruct Htr as [W'|H]; [left|right; by apply Hran]. exists e. split; [done|].
  by destruct W' as (_&_&_&_&[H _]).
Qed.

(** ** A host with another user *)

(** Somebody replaces the object [x], if it does not belong to a trusted user. *)
Definition meddle (T : list Z) (x : fileid) (evil : inode) (f : files) : files :=
  match f !! x with
  | Some n => if bool_decide (i_uid n ∈ T) then f else <[x := evil]> f
  | None => f
  end.

Lemma meddle_untrusted T root x evil f : i_uid evil ∉ T → untrusted T root f (meddle T x evil f).
Proof.
  intros He. unfold meddle. destruct (f !! x) as [n|] eqn:Ex; [case_bool_decide as Hx|].
  2:{ assert (∀ i m, f !! i = Some m → trusted T m → i ≠ x) as Hne.
      { intros i m Hi Ht ->. assert (m = n) as -> by congruence. done. }
      split.
      - intros names d nd es Hd Hn En. destruct (held_node _ _ _ _ _ Hd) as (m & es' & Hm & _ & Ht).
        assert (m = nd) as -> by congruence. exists nd, es. rewrite lookup_insert_ne by (intros <-; by eapply Hne).
        by split_and!.
      - intros names d nd name c nc _ _ _ _ Hc Ht _ _. exists nc.
        rewrite lookup_insert_ne by (intros <-; by eapply Hne). by split_and!.
      - intros i m. destruct (decide (i = x)) as [->|Hi].
        + rewrite lookup_insert_eq. intros [= <-]. done.
        + rewrite lookup_insert_ne by done. intros Hm Ht. by exists m. }
  all: split; [intros names d nd es _ Hn En; exists nd, es; by split_and!
              |intros names d nd name c nc _ _ _ _ Hc _ _ _; exists nc; by split_and!
              |intros i m Hm Ht; by exists m].
Qed.

Definition demo_dir (es : gmap string fileid) (uid mode : Z) : inode :=
  {| i_node := Dir es; i_uid := uid; i_gid := uid; i_mode := mode; i_nlink := 2; i_mtime := 0; i_ctime := 0 |}.
Definition demo_link : inode :=
  {| i_node := Link "/etc/shadow"; i_uid := 1000; i_gid := 1000; i_mode := 511; i_nlink := 1;
     i_mtime := 1; i_ctime := 1 |}.
(** Before the third and the ninth call, the user 1000 turns the home directory into a link. *)
Definition demo_kernel : kernel :=
  let quiet := {| ev_change := λ f, f; ev_clock := 7; ev_fault := None |} in
  let attack := {| ev_change := meddle [0] (0, 3) demo_link; ev_clock := 8; ev_fault := None |} in
  {| k_files := {[ (0, 1) := demo_dir {[ "etc" := (0, 2); "home" := (0, 3) ]} 0 493;
                   (0, 2) := demo_dir ∅ 0 493; (0, 3) := demo_dir ∅ 1000 493 ]};
     k_root := (0, 1); k_fds := ∅; k_euid := 0; k_egid := 0; k_umask := 18; k_clock := 6;
     k_tokens := ["0f"];
     k_schedule := [quiet; quiet; attack; quiet; quiet; quiet; quiet; quiet; attack; quiet];
     k_log := [] |}.
Definition demo_fs : SetupFilesystem := {| sf_root := root_path; sf_owner := 0 |}.

Lemma demo_respectful : respectful [0] (k_root demo_kernel) failure demo_kernel.
Proof.
  assert (∀ f, untrusted [0] (0, 1) f f) as Hid.
  { intros f. split; [intros names d nd es _ Hn En; exists nd, es; by split_and!
                     |intros names d nd name c nc _ _ _ _ Hc _ _ _; exists nc; by split_and!
                     |intros i m Hm Ht; by exists m]. }
  assert (∀ f, untrusted [0] (0, 1) f (meddle [0] (0, 3) demo_link f)) as Hm.
  { intros f. apply meddle_untrusted. by intros ?%list_elem_of_singleton. }
  unfold respectful. cbn. repeat (constructor; [split; [done|by intros]|]). constructor.
Qed.

Definition directory_run : kernel * result unit :=
  directory demo_fs (Path "/etc/astrumweaver") creating (λ _, mret tt) demo_kernel.

Lemma directory_trusted_witness :
  is_ok directory_run.2 = true ∧ k_fds directory_run.1 = k_fds demo_kernel.
Proof.
  split; [vm_compute; reflexivity|].
  apply (directory_trusted demo_fs [0] creating (Path "/etc/astrumweaver") (λ _, mret tt) demo_kernel
    directory_run.1 directory_run.2).
  - left.
  - left.
  - left.
  - intros u [?|?]; discriminate.
  - intros m ?. discriminate.
  - apply demo_respectful.
  - reflexivity.
  - apply surjective_pairing.
Defined.
