(* ===== verification/SetupFsWrite.v ===== *)
(** * The trusted filesystem: files appear whole

    [write_text] under the same hosts as [SetupFsProps]: other users change what they can
    between any two calls, and any call may fail. *)

From S2P Require Import Prelude PyStr PyDict PyHost Effects Posix SetupFs SetupFsProps.

Section write.
Context (fs : SetupFilesystem) (T : list Z) (root : fileid) (euid : Z) (F : exn → Prop).
Context (HF : ∀ e, F e → failure e) (Hzero : 0 ∈ T) (Howner : sf_owner fs ∈ T) (Heuid : euid ∈ T).
Abbreviation walking := (walking T root euid F).
Abbreviation lasting := (lasting T root).
Abbreviation lasts := (lasts T root).
Abbreviation shut := (shut T root).

(** ** Files in a shut directory *)

(** A file or link nobody else can change. *)
Definition mine (n : inode) : Prop :=
  trusted T n ∧ is_dir (i_node n) = false ∧ (closed n ∨ is_link (i_node n) = true).

Record stays (φ : inode → Prop) : Prop := {
  stays_mine n : φ n → mine n;
  stays_kept n n' : kept n n' → φ n → φ n';
}.

(** [name] of the shut directory [d] is [i], which satisfies [φ]. *)
Definition has_file (names : list string) (d : fileid) (name : string) (i : fileid) (φ : inode → Prop)
    (f : files) : Prop :=
  shut names d f ∧ entry f d name i ∧ ∃ n, f !! i = Some n ∧ φ n.
(** [name] of [d] is nothing. *)
Definition gone (names : list string) (d : fileid) (name : string) (f : files) : Prop :=
  shut names d f ∧ ∀ j, ¬ entry f d name j.
(** [name] of [d] is what [before] says: nothing, or a file of setup's own as it was seen then,
    but for its links. *)
Definition as_seen (before : option stat_result) (d : fileid) (name : string) (f : files) : Prop :=
  match before with
  | None => ∀ j, ¬ entry f d name j
  | Some m => entry f d name (st_id m) ∧ ∃ n, f !! st_id m = Some n ∧ kept (st_inode m) n ∧ mine n
  end.
Definition settled (names : list string) (d : fileid) (name : string) (before : option stat_result)
    (f : files) : Prop := shut names d f ∧ as_seen before d name f.

(** Others leave the entries of a shut directory alone. *)
Lemma shut_entry f f' names d name j :
  untrusted T root f f' → shut names d f → entry f' d name j ↔ entry f d name j.
Proof.
  intros U [H (n & Hn & Hc)].
  destruct (held_attributes T root f f' names d n U H Hn) as (n' & Hn' & _ & _ & _ & _ & Hk).
  specialize (Hk Hc). subst n'. split; intros (m & es & Hm & ?); exists m, es; (split; [congruence|done]).
Qed.
Lemma shut_file f f' names d name j n :
  untrusted T root f f' → shut names d f → entry f d name j → f !! j = Some n → mine n →
  ∃ n', f' !! j = Some n' ∧ kept n n'.
Proof.
  intros U [H (nd & Hnd & Hc)] He Hj (Ht & Hd & Hl).
  eapply (un_file T root f f' U names d nd name j n); eauto.
Qed.
Lemma mine_kept n n' : kept n n' → mine n → mine n'.
Proof.
  intros (En & Eu & Eg & Em & _) (Ht & Hd & Hl). unfold mine, trusted, closed in *. rewrite En, Eu, Em. done.
Qed.

Lemma has_file_lasts names d name i φ : stays φ → lasts (has_file names d name i φ).
Proof.
  intros Hφ f f' U (Hs & He & n & Hn & Hp).
  destruct (shut_file f f' names d name i n U Hs He Hn) as (n' & Hn' & Hk); [by eapply stays_mine|].
  split; [by eapply shut_lasts|]. split; [by apply (shut_entry f f' names d name i U Hs)|]. exists n'. split; [done|by eapply stays_kept].
Qed.
Lemma gone_lasts names d name : lasts (gone names d name).
Proof.
  intros f f' U [Hs Hg]. split; [by eapply shut_lasts|]. intros j He. apply (Hg j). by apply (shut_entry f f' names d name j U Hs).
Qed.
Lemma kept_trans n1 n2 n3 : kept n1 n2 → kept n2 n3 → kept n1 n3.
Proof. intros (E1 & E2 & E3 & E4 & E5) (? & ? & ? & ? & ?). unfold kept. split_and!; congruence. Qed.
Lemma settled_lasts names d name before : lasts (settled names d name before).
Proof.
  intros f f' U [Hs Hg]. split; [by eapply shut_lasts|]. destruct before as [m|]; cbn in *.
  - destruct Hg as (He & n & Hn & Hk & Hm).
    destruct (shut_file f f' names d name _ n U Hs He Hn Hm) as (n' & Hn' & Hk').
    split; [by apply (shut_entry f f' names d name _ U Hs)|]. exists n'. split; [done|].
    split; [by eapply kept_trans|by eapply mine_kept].
  - intros j He. apply (Hg j). by apply (shut_entry f f' names d name j U Hs).
Qed.
Lemma as_seen_entry before d name f j : as_seen before d name f → entry f d name j →
  ∃ n, f !! j = Some n ∧ mine n.
Proof.
  destruct before as [m|]; cbn; [|by intros H ?%H].
  intros ((? & ? & ? & ? & ?) & n & Hn & _ & Hm) (? & ? & ? & ? & ?). exists n. split; [congruence|done].
Qed.

(** The directory at a descriptor, its inode and its entries. *)
Lemma shut_node f names d : shut names d f →
  ∃ n es, f !! d = Some n ∧ i_node n = Dir es ∧ closed n ∧ trusted T n.
Proof.
  intros [H (n & Hn & Hc)]. destruct (held_node _ _ _ _ _ H) as (n' & es & Hn' & En & Ht).
  exists n, es. assert (n' = n) as -> by congruence. done.
Qed.
Lemma entries_shut k t fd d names :
  k_fds k = t → t !! fd = Some d → shut names d (k_files k) →
  ∃ n es, k_files k !! d = Some n ∧ i_node n = Dir es ∧ entries_of fd k = Ok ((d, n), es).
Proof.
  intros Ht Hfd (n & es & Hn & En & _)%shut_node. exists n, es. split_and!; [done..|].
  unfold entries_of, inode_of, inode_at. rewrite Ht, Hfd. cbn. rewrite Hn. cbn. by rewrite En.
Qed.

(** ** Reading the state of the target *)

Lemma check_name_error name e : name ≠ EmptyString → check_name name = Err e → failure e.
Proof.
  intros Hn. unfold check_name. destruct (no_nul name); cbn; [|by intros [= <-]].
  by destruct name.
Qed.

(** [os.stat] of a name that may be absent. *)
Lemma triple_find J t dir d name names :
  lasting J → t !! dir = Some d → name ≠ EmptyString →
  triple (walking (also J (shut names d)) t) (absent None (m ← os_stat name dir; mret (Some m)))
    (λ b k, walking (also J (shut names d)) t k ∧
       match b with
       | None => ∀ j, ¬ entry (k_files k) d name j
       | Some m => entry (k_files k) d name (st_id m) ∧ k_files k !! st_id m = Some (st_inode m)
       end)
    (λ _, walking (also J (shut names d)) t).
Proof.
  intros HJ Hfd Hname. unfold absent. eapply triple_catch.
  - eapply triple_bind.
    + apply (triple_call T root euid F (also J (shut names d)) t _
        (λ m k, walking (also J (shut names d)) t k ∧ entry (k_files k) d name (st_id m) ∧
                k_files k !! st_id m = Some (st_inode m))
        (λ e k, walking (also J (shut names d)) t k ∧ (∀ x, e = FileNotFoundError x → ∀ j, ¬ entry (k_files k) d name j))).
      * apply lasting_also; [done|apply shut_lasts].
      * intros k W. pose proof W as (Hr & Hroot & He & Ht & HJk & Hs).
        destruct (entries_shut k t dir d names Ht Hfd Hs) as (n & es & Hn & En & Ees).
        destruct (check_name name) as [[]|e] eqn:Ename; cbn.
        2:{ split; [done|]. intros x ->. by apply check_name_error in Ename. }
        rewrite Ees. cbn. destruct (es !! name) as [j|] eqn:Ej; cbn.
        2:{ split; [done|]. intros _ _ j (n' & es' & Hn' & En' & Ej'). congruence. }
        unfold inode_at. destruct (k_files k !! j) as [nj|] eqn:Enj; cbn; [|done].
        split; [done|]. split; [by exists n, es|done].
      * intros e k Hf%HF W. split; [done|]. by intros x ->.
    + intros m. apply triple_ret. intros k H. exact H.
  - intros e. destruct e; try (apply triple_throws; by intros k [W _]).
    apply triple_ret. intros k [W H]. split; [done|by eapply H].
Qed.

Lemma triple_absent_stat J t dir name :
  lasting J → triple (walking J t) (absent None (m ← os_stat name dir; mret (Some m)))
    (λ _, walking J t) (λ _, walking J t).
Proof.
  intros HJ. eapply triple_catch.
  - eapply triple_bind; [|intros m; apply triple_ret; intros k W; exact W].
    apply triple_query; [by apply walking_stable|done|intros e k W; exact W].
  - intros e. destruct e; by first [apply triple_ret|apply triple_throws].
Qed.

Definition safe_mode (b : option stat_result) : Prop :=
  ∀ m, b = Some m → has_bits (st_mode m) S_IWOTHERS = false.

Lemma triple_validate_file (P : kernel → Prop) m :
  triple P (_validate_file fs m)
    (λ _ k, (is_reg (i_node (st_inode m)) = true ∧ st_uid m = sf_owner fs ∧
             has_bits (st_mode m) S_IWOTHERS = false) ∧ P k) (λ _, P).
Proof.
  unfold _validate_file.
  eapply triple_bind; [eapply triple_check; intros Hb; exact Hb|]. intros []. apply triple_pure. intros H1.
  eapply triple_bind; [eapply triple_check; intros Hb; apply andb_true_iff in Hb; exact Hb|].
  intros []. apply triple_pure. intros [H2%bool_decide_eq_true H3%negb_true_iff].
  eapply triple_conseq; [eapply triple_check; intros Hb; exact Hb|done|by intros [] k [_ HP]|done].
Qed.

Lemma triple_file_state J t dir name :
  lasting J → triple (walking J t) (_file_state fs dir name)
    (λ b k, safe_mode b ∧ walking J t k) (λ _, walking J t).
Proof.
  intros HJ. unfold _file_state. eapply triple_bind; [by apply triple_absent_stat|].
  intros [m|]; [|apply triple_ret; by intros k W].
  eapply triple_bind; [apply triple_validate_file|]. intros []. apply triple_pure. intros (_ & _ & H).
  apply triple_ret. intros k W. split; [|done]. by intros ? [= <-].
Qed.

(** The first look at the target settles what it is. *)
Lemma triple_settle J t dir d name names :
  lasting J → t !! dir = Some d → name ≠ EmptyString →
  triple (walking (also J (shut names d)) t) (_file_state fs dir name)
    (λ b k, safe_mode b ∧ walking (also J (settled names d name b)) t k) (λ _, walking J t).
Proof.
  intros HJ Hfd Hname. unfold _file_state. eapply triple_bind.
  { eapply triple_forget, triple_find; done. }
  intros [m|].
  - eapply triple_bind.
    { eapply triple_conseq; [apply triple_validate_file|intros k W; exact W|intros a k W; exact W|].
      intros e k [W _]. eapply walking_weaken; [exact W|]. by intros f l [? _]. }
    intros []. apply triple_pure. intros (Hreg & Hu & Hm). apply triple_ret.
    intros k [W [He Hn]]. split; [by intros ? [= <-]|].
    destruct W as (? & ? & ? & ? & HJk & Hs). split_and!; try done. split; [done|]. split; [done|].
    split; [done|]. exists (st_inode m). split; [done|]. split; [by split_and!|]. split_and!.
    + unfold trusted. unfold st_uid in Hu. by rewrite Hu.
    + by destruct (i_node (st_inode m)).
    + by left.
  - apply triple_ret. intros k [W Hg]. split; [done|].
    by destruct W as (? & ? & ? & ? & HJk & Hs).
Qed.

(** ** The temporary file *)

Lemma ldiff_closed m u : Z.land m S_IWOTHERS = 0 → has_bits (Z.ldiff m u) S_IWOTHERS = false.
Proof.
  intros H. unfold has_bits. apply negb_false_iff, Z.eqb_eq. apply Z.bits_inj'. intros n Hn.
  rewrite Z.land_spec, Z.ldiff_spec, Z.bits_0.
  assert (Z.testbit (Z.land m S_IWOTHERS) n = false) as Hb by by rewrite H, Z.bits_0.
  rewrite Z.land_spec in Hb. destruct (Z.testbit m n), (Z.testbit S_IWOTHERS n), (Z.testbit u n); done.
Qed.
Definition touches (i : fileid) (c : call) : Prop :=
  match c with CChmod j _ | CChown j _ _ | CWrite j _ => j = i | _ => False end.

Section entry.
Context (L : list call → Prop) (names : list string) (d : fileid) (name : string).
Context (before : option stat_result).

(** The log once the temporary file [tmp] was made and filled. *)
Definition filling (tmp : string) (i : fileid) (l : list call) : Prop :=
  ∃ l0 fills, L l0 ∧ Forall (touches i) fills ∧ l = l0 ++ CCreate d tmp i :: fills.
(** The target is what was seen, and not the temporary file. *)
Definition apart (i : fileid) (f : files) : Prop :=
  settled names d name before f ∧ ∀ j, entry f d name j → j ≠ i.

Definition temp (tmp : string) (i : fileid) (φ : inode → Prop) (f : files) (l : list call) : Prop :=
  filling tmp i l ∧ has_file names d tmp i φ f ∧ apart i f.

Lemma apart_lasts i : lasts (apart i).
Proof.
  intros f f' U [Hs Ha]. split; [by eapply settled_lasts|]. intros j He. apply Ha.
  by apply (shut_entry f f' names d name j U (proj1 Hs)).
Qed.
Lemma temp_lasting tmp i φ : stays φ → lasting (temp tmp i φ).
Proof.
  intros Hφ f f' l U (Hl & Hf & Ha). split_and!; [done|by eapply has_file_lasts|by eapply apart_lasts].
Qed.
Lemma temp_weaken tmp i (φ ψ : inode → Prop) f l :
  (∀ n, φ n → ψ n) → temp tmp i φ f l → temp tmp i ψ f l.
Proof. intros H (Hl & (Hs & He & n & Hn & Hp) & Ha). split_and!; [done| |done]. split_and!; [done..|]. eauto. Qed.

(** A change of the temporary file itself. *)
Lemma shut_update f i n n' c : shut names c f → f !! i = Some n → is_dir (i_node n) = false →
  shut names c (<[i := n']> f) ∧ ∀ x j, entry (<[i := n']> f) c x j ↔ entry f c x j.
Proof.
  intros Hs Hi Hd. destruct (shut_node _ _ _ Hs) as (nc & es & Hc & Ec & Hcl & Htr).
  assert (i ≠ c) as Hic by (intros ->; assert (n = nc) as -> by congruence; by rewrite Ec in Hd).
  assert ((<[i := n']> f) !! c = Some nc) as Hc' by by rewrite lookup_insert_ne.
  split.
  - split; [|by exists nc]. eapply held_kept; [|apply Hs]. apply kept_file.
    intros x nx Hx Hdx. rewrite lookup_insert_ne; [done|]. intros ->. assert (nx = n) as -> by congruence. congruence.
  - intros x j. unfold entry. rewrite Hc, Hc'. done.
Qed.

Lemma temp_update tmp i φ (ψ : inode → Prop) f l n n' c :
  (∀ n, φ n → mine n) → temp tmp i φ f l → f !! i = Some n → ψ n' → touches i c →
  temp tmp i ψ (<[i := n']> f) (l ++ [c]).
Proof.
  intros Hφ ((l0 & fills & HL & Hf & ->) & (Hs & He & n0 & Hn0 & Hp) & Ha) Hi Hψ Hc.
  assert (n0 = n) as -> by congruence. destruct (Hφ n Hp) as (_ & Hd & _).
  destruct (shut_update f i n n' d Hs Hi Hd) as [Hs' He'].
  split_and!.
  - exists l0, (fills ++ [c]). split; [done|]. split; [by apply Forall_app; repeat constructor|].
    by rewrite <-(assoc_L (++)).
  - split_and!; [done|by apply He'|]. exists n'. by rewrite lookup_insert_eq.
  - destruct Ha as [[_ Hb] Ha]. split; [split; [done|]|intros j Hj; apply Ha; by apply He'].
    destruct before as [m|]; cbn in *; [|intros j Hj; apply (Hb j); by apply He'].
    destruct Hb as (Hm & nm & Hnm & Hk). split; [by apply He'|]. exists nm.
    rewrite lookup_insert_ne; [done|]. intros E. by apply (Ha _ Hm).
Qed.

Lemma triple_touch tmp i φ ψ t fd (g : Z → inode → inode → inode) (cl : inode → fileid → call)
    (P : kernel → inode → result (kernel * unit)) :
  stays φ → t !! fd = Some i → (∀ z n, φ n → ψ (g z n n)) → (∀ n, touches i (cl n i)) →
  (∀ k n, (∃ e, P k n = Err e) ∨ P k n = update_fd fd (g (k_clock k) n) (cl n) k) →
  triple (walking (temp tmp i φ) t) (syscall (λ k, p ← inode_of fd k; P k p.2))
    (λ _, walking (temp tmp i ψ) t) (λ _, walking (temp tmp i φ) t).
Proof.
  intros Hφ Hfd Hg Hcl HP. apply triple_call; [by apply temp_lasting| |done].
  intros k W. pose proof W as (Hr & Hroot & He & Ht & Htemp).
  pose proof Htemp as (_ & (_ & _ & n & Hn & Hp) & _).
  unfold inode_of at 1, inode_at. rewrite Ht, Hfd. cbn. rewrite Hn. cbn.
  destruct (HP k n) as [[e ->]| ->]; [done|].
  unfold update_fd, inode_of, inode_at. rewrite Ht, Hfd. cbn. rewrite Hn. cbn.
  split_and!; try done. cbn.
  apply (temp_update tmp i φ ψ _ _ n); [intros m Hm; by apply (stays_mine φ Hφ)|done|done|by apply Hg|done].
Qed.

(** ** What the temporary file is *)

Definition plain_file (n : inode) : Prop := trusted T n ∧ is_reg (i_node n) = true ∧ closed n.
Definition owned_file (u : Z) (g : option Z) (n : inode) : Prop :=
  plain_file n ∧ i_uid n = u ∧ ∀ z, g = Some z → i_gid n = z.
Definition moded_file (u : Z) (g : option Z) (m : Z) (n : inode) : Prop := owned_file u g n ∧ i_mode n = m.
Definition whole_file (u : Z) (g : option Z) (m : Z) (s : string) (n : inode) : Prop :=
  moded_file u g m n ∧ i_node n = Reg (Some s).

Lemma plain_mine n : plain_file n → mine n.
Proof. intros (Ht & Hr & Hc). split_and!; [done|by destruct (i_node n)|by left]. Qed.
Lemma plain_stays : stays plain_file.
Proof.
  split; [apply plain_mine|]. intros n n' (En & Eu & Eg & Em & _) (Ht & Hr & Hc).
  unfold plain_file, trusted, closed in *. by rewrite En, Eu, Em.
Qed.
Lemma owned_stays u g : stays (owned_file u g).
Proof.
  split; [intros n [H _]; by apply plain_mine|]. intros n n' Hk (H & Hu & Hg).
  split; [by eapply (stays_kept _ plain_stays)|]. destruct Hk as (_ & Eu & Eg & _).
  split; [congruence|]. intros z Hz. rewrite Eg. by apply Hg.
Qed.
Lemma moded_stays u g m : stays (moded_file u g m).
Proof.
  split; [intros n [[H _] _]; by apply plain_mine|]. intros n n' Hk [H Hm].
  split; [by eapply (stays_kept _ (owned_stays u g))|]. destruct Hk as (_ & _ & _ & Em & _). congruence.
Qed.
Lemma whole_stays u g m s : stays (whole_file u g m s).
Proof.
  split; [intros n [[[H _] _] _]; by apply plain_mine|]. intros n n' Hk [H Hm].
  split; [by eapply (stays_kept _ (moded_stays u g m))|]. destruct Hk as (En & _). congruence.
Qed.

(** ** Filling it *)

Lemma triple_chmod_temp tmp i u g t fd m :
  t !! fd = Some i → has_bits m S_IWOTHERS = false →
  triple (walking (temp tmp i (owned_file u g)) t) (os_fchmod fd m)
    (λ _, walking (temp tmp i (moded_file u g m)) t) (λ _, walking (temp tmp i (owned_file u g)) t).
Proof.
  intros Hfd Hm. unfold os_fchmod.
  apply (triple_touch tmp i (owned_file u g) (moded_file u g m) t fd (λ z _, set_mode m z) (λ _ j, CChmod j m)
    (λ k n, require (owns k n) EPERM;; update_fd fd (set_mode m (k_clock k)) (λ i, CChmod i m) k));
    [apply owned_stays|done| |done|].
  - intros z n ((Ht & Hr & _) & Hu & Hg). by split_and!.
  - intros k n. destruct (owns k n); cbn; [by right|left; eauto].
Qed.

Lemma triple_chown_temp tmp i t fd u gid :
  t !! fd = Some i → u ∈ T →
  triple (walking (temp tmp i plain_file) t) (os_fchown fd u gid)
    (λ _, walking (temp tmp i (owned_file u (if gid =? -1 then None else Some gid))) t)
    (λ _, walking (temp tmp i plain_file) t).
Proof.
  intros Hfd Hu. unfold os_fchown.
  apply (triple_touch tmp i plain_file (owned_file u (if gid =? -1 then None else Some gid)) t fd
    (λ z n, set_owner u (if gid =? -1 then i_gid n else gid) z)
    (λ n j, CChown j u (if gid =? -1 then i_gid n else gid))
    (λ k n, require (k_euid k =? 0) EPERM;;
            update_fd fd (set_owner u (if gid =? -1 then i_gid n else gid) (k_clock k))
              (λ i, CChown i u (if gid =? -1 then i_gid n else gid)) k));
    [apply plain_stays|done| |done|].
  - intros z n (Ht & Hr & Hc). split; [by split_and!|]. split; [done|]. cbn. by destruct (gid =? -1); intros ? [= <-].
  - intros k n. destruct (k_euid k =? 0); cbn; [by right|left; eauto].
Qed.

Lemma triple_write_temp tmp i t fd u g m s :
  t !! fd = Some i →
  triple (walking (temp tmp i (moded_file u g m)) t) (os_write_text fd s)
    (λ _, walking (temp tmp i (whole_file u g m s)) t) (λ _, walking (temp tmp i plain_file) t).
Proof.
  intros Hfd k W. unfold os_write_text.
  pose proof (walking_stable T root euid F _ t (temp_lasting tmp i _ (moded_stays u g m)) k W) as W'.
  destruct (happens k) as [k' fault]. cbn [fst] in W'.
  pose proof W' as (Hr & Hroot & He & Ht & Htemp). pose proof Htemp as (_ & (_ & _ & n & Hn & Hp) & _).
  pose proof Hp as [((Htr & Hreg & Hcl) & Hu & Hg) Hm].
  assert (∀ x, walking (temp tmp i (whole_file u g m x)) t
    (with_log (CWrite i x) (with_files (<[i := set_text x (k_clock k') n]> (k_files k')) k'))) as Hw.
  { intros x. split_and!; try done. cbn.
    apply (temp_update tmp i (moded_file u g m) _ _ _ n); [|done|done| |done].
    - intros m' Hm'. by apply (stays_mine _ (moded_stays u g m)).
    - by split_and!. }
  assert (∀ x, write_all fd x k' = Ok (with_log (CWrite i x) (with_files (<[i := set_text x (k_clock k') n]> (k_files k')) k'), tt)) as E.
  { intros x. unfold write_all, update_fd, inode_of, inode_at. rewrite Ht, Hfd. cbn. rewrite Hn. cbn. by rewrite Hreg. }
  destruct fault as [[e z]|]; rewrite E; [|by apply Hw].
  eapply walking_weaken; [apply Hw|]. intros f l. apply temp_weaken. by intros ? [[[? _] _] _].
Qed.

Lemma triple_reads (J : files → list call → Prop) {A} t (f : kernel → result A) :
  lasting J → triple (walking J t) (query f) (λ _, walking J t) (λ _, walking J t).
Proof. intros HJ. apply triple_query; [by apply walking_stable|done|done]. Qed.

Definition final_uid : Z := if euid =? 0 then sf_owner fs else euid.
Definition final_mode (preserve : bool) (m : Z) : Z :=
  match (if preserve then before else None) with Some b => S_IMODE (st_mode b) | None => m end.
Definition final_gid (preserve : bool) (gid : option Z) : option Z :=
  if euid =? 0 then
    let g := gid_or_keep (match (if preserve then before else None) with Some b => Some (st_gid b) | None => gid end) in
    if g =? -1 then None else Some g
  else None.

Lemma imode_closed m : has_bits m S_IWOTHERS = false → has_bits (S_IMODE m) S_IWOTHERS = false.
Proof.
  unfold has_bits, S_IMODE. intros H. rewrite <-Z.land_assoc. exact H.
Qed.

Lemma triple_fill tmp i t fd content m gid preserve :
  t !! fd = Some i → has_bits m S_IWOTHERS = false → safe_mode before →
  triple (walking (temp tmp i (λ n, plain_file n ∧ i_uid n = euid)) t)
    (fill fs before content m gid preserve fd)
    (λ _, walking (temp tmp i (whole_file final_uid (final_gid preserve gid) (final_mode preserve m) content)) t)
    (λ _, walking (temp tmp i plain_file) t).
Proof.
  intros Hfd Hm Hb. unfold fill.
  assert (∀ u g f l, temp tmp i (owned_file u g) f l → temp tmp i plain_file f l) as Hown.
  { intros u g f l. apply temp_weaken. by intros n [H _]. }
  eapply triple_bind; [apply triple_geteuid|]. intros u. apply triple_pure. intros ->.
  eapply triple_bind.
  { instantiate (1 := λ _, walking (temp tmp i (owned_file final_uid (final_gid preserve gid))) t).
    unfold final_uid, final_gid. destruct (euid =? 0).
    - eapply triple_weaken; [by apply triple_chown_temp|]. intros f l. apply temp_weaken. by intros n [H _].
    - apply triple_ret. intros k W. eapply walking_weaken; [exact W|]. intros f l. apply temp_weaken. by intros n [? ?]. }
  intros []. change (match (if preserve then before else None) with
    | Some b => S_IMODE (st_mode b) | None => m end) with (final_mode preserve m).
  eapply triple_bind.
  { eapply triple_conseq; [apply (triple_chmod_temp tmp i final_uid (final_gid preserve gid))|intros k W; exact W|intros a k W; exact W|].
    - done.
    - unfold final_mode. destruct preserve, before as [b|]; try done. by apply imode_closed, Hb.
    - intros e k W. eapply walking_weaken; [exact W|apply Hown]. }
  intros []. eapply triple_bind; [by apply triple_write_temp|]. intros [].
  eapply triple_conseq; [apply triple_reads|intros k W; exact W|intros a k W; exact W|].
  - apply temp_lasting, whole_stays.
  - intros e k W. eapply walking_weaken; [exact W|]. intros f l. apply temp_weaken. by intros n [[[H _] _] _].
Qed.

(** ** Making it, moving it, removing it *)

Definition fresh_file (n : inode) : Prop := plain_file n ∧ i_uid n = euid.
Lemma fresh_stays : stays fresh_file.
Proof.
  split; [intros n [H _]; by apply plain_mine|]. intros n n' Hk [H Hu].
  split; [by eapply (stays_kept _ plain_stays)|]. destruct Hk as (_ & Eu & _). congruence.
Qed.

Lemma triple_create tmp t dir mode :
  t !! dir = Some d → tmp ≠ name → Z.land mode S_IWOTHERS = 0 →
  triple (walking (also (λ _, L) (settled names d name before)) t) (os_create tmp mode dir)
    (λ fd k, (t !! fd = None ∧ check_name tmp = Ok tt) ∧ ∃ i, walking (temp tmp i fresh_file) (<[fd := i]> t) k)
    (λ _, walking (λ _, L) t).
Proof.
  intros Hdir Hne Hmode. apply triple_call; [apply lasting_also; [by intros ???|apply settled_lasts]| |].
  2:{ intros e k _ W. eapply walking_weaken; [exact W|]. by intros f l [? _]. }
  intros k W. pose proof W as (Hr & Hroot & He & Ht & HL & Hs & Hset).
  assert (walking (λ _, L) t k) as Werr by by split_and!.
  pose proof (shut_node _ _ _ Hs) as (nd & es & Hn & En & Hcl & Htr).
  destruct (entries_shut k t dir d names Ht Hdir Hs) as (n' & es' & Hn' & En' & Ees).
  assert (n' = nd) as -> by congruence. assert (es' = es) as -> by congruence.
  unfold add_entry. destruct (check_name tmp) as [[]|]; cbn; [|done]. rewrite Ees. cbn.
  destruct (es !! tmp) as [j|] eqn:Etmp; cbn; [done|]. destruct (0 <? i_nlink nd); cbn; [|done].
  rewrite Ht. split; [split; [apply fresh_fd_None|done]|]. set (i := (d.1, fresh_ino (k_files k)) : fileid).
  assert (k_files k !! i = None) as Hi by apply fresh_ino_None.
  assert (i ≠ d) as Hid by (intros E; clearbody i; congruence). exists i.
  set (n := new_inode _ _ _ _ k).
  assert (kept_dirs T (k_files k) (<[d := set_entries (<[tmp := i]> es) (k_clock k) nd]> (<[i := n]> (k_files k)))) as Hk.
  { by apply kept_add. }
  assert (shut names d (<[d := set_entries (<[tmp := i]> es) (k_clock k) nd]> (<[i := n]> (k_files k)))) as Hs'.
  { split; [eapply held_kept; [exact Hk|apply Hs]|]. exists (set_entries (<[tmp := i]> es) (k_clock k) nd).
    by rewrite lookup_insert_eq. }
  split_and!; try done. cbn. split_and!.
  - exists (k_log k), []. by split_and!.
  - split; [done|]. split.
    + exists (set_entries (<[tmp := i]> es) (k_clock k) nd), (<[tmp := i]> es).
      split; [apply lookup_insert_eq|]. split; [done|]. apply lookup_insert_eq.
    + exists n. rewrite lookup_insert_ne, lookup_insert_eq by done. split; [done|].
      split; [|done]. unfold plain_file, trusted, closed. cbn. split_and!; [by rewrite He|done|]. by apply ldiff_closed.
  - assert (∀ j, entry (<[d := set_entries (<[tmp := i]> es) (k_clock k) nd]> (<[i := n]> (k_files k))) d name j ↔
                 entry (k_files k) d name j) as Hen.
    { intros j. split.
      - intros (nd' & es' & Hnd' & Ed' & Ej). rewrite lookup_insert_eq in Hnd'. injection Hnd' as <-. cbn in Ed'.
        injection Ed' as <-. rewrite lookup_insert_ne in Ej by done. by exists nd, es.
      - intros (nd' & es' & Hnd' & Ed' & Ej). assert (nd' = nd) as -> by congruence. assert (es' = es) as -> by congruence.
        exists (set_entries (<[tmp := i]> es) (k_clock k) nd), (<[tmp := i]> es). rewrite lookup_insert_eq.
        split; [done|]. split; [done|]. by rewrite lookup_insert_ne. }
    assert (∀ j, entry (k_files k) d name j → j ≠ i) as Hji.
    { intros j Hj ->. destruct (as_seen_entry _ _ _ _ _ Hset Hj) as (x & Hx & _). congruence. }
    split; [split; [done|]|by intros j Hj%Hen; apply Hji].
    destruct before as [m|]; cbn in *; [|by intros j Hj%Hen; apply (Hset j)].
    destruct Hset as (Hm & nm & Hnm & Hk' & Hmine). split; [by apply Hen|]. exists nm.
    rewrite lookup_insert_ne, lookup_insert_ne; [done|by intros E; apply (Hji _ Hm)|].
    intros E. assert (nm = nd) as -> by congruence. destruct Hmine as (_ & Hdir' & _). by rewrite En in Hdir'.
Qed.

Lemma temp_entries tmp i φ t k dir : t !! dir = Some d → (∀ n, φ n → mine n) →
  walking (temp tmp i φ) t k →
  ∃ nd es n, k_files k !! d = Some nd ∧ i_node nd = Dir es ∧ closed nd ∧
    entries_of dir k = Ok ((d, nd), es) ∧ es !! tmp = Some i ∧ k_files k !! i = Some n ∧ φ n ∧ mine n ∧ i ≠ d ∧
    shut names d (k_files k).
Proof.
  intros Hdir Hφ (Hr & Hroot & He & Ht & _ & (Hs & Hen & n & Hn & Hp) & _).
  pose proof (shut_node _ _ _ Hs) as (nd & es & Hnd & End & Hcl & Htr).
  destruct (entries_shut k t dir d names Ht Hdir Hs) as (n' & es' & Hn' & En' & Ees).
  assert (n' = nd) as -> by congruence. assert (es' = es) as -> by congruence.
  destruct Hen as (n'' & es'' & H1 & H2 & H3).
  assert (n'' = nd) as -> by congruence. assert (es'' = es) as -> by congruence.
  exists nd, es, n. split_and!; try done; [by apply Hφ|]. intros ->.
  assert (n = nd) as -> by congruence. destruct (Hφ nd Hp) as (_ & Hd & _). by rewrite End in Hd.
Qed.

(** A new set of entries for the directory, that differ in files only. *)
Lemma shut_entries f g nd es es' t :
  shut names d f → f !! d = Some nd → i_node nd = Dir es →
  (∀ x c nc, es !! x = Some c → f !! c = Some nc → is_dir (i_node nc) = true → es' !! x = Some c) →
  (∀ x nx, f !! x = Some nx → is_dir (i_node nx) = true → x ≠ d → g !! x = Some nx) →
  shut names d (<[d := set_entries es' t nd]> g) ∧
  ∀ x j, entry (<[d := set_entries es' t nd]> g) d x j ↔ es' !! x = Some j.
Proof.
  intros Hs Hd Ed He Hg. split.
  - pose proof Hs as [Hh (n & Hn & Hc)]. split.
    + eapply held_kept; [|exact Hh]. by apply (kept_entries T f d nd es es' t g).
    + exists (set_entries es' t nd). rewrite lookup_insert_eq. split; [done|].
      assert (n = nd) as -> by congruence. done.
  - intros x j. unfold entry. split.
    + intros (n & e & Hn & En & Ej). rewrite lookup_insert_eq in Hn. injection Hn as <-. cbn in En. congruence.
    + intros Hx. exists (set_entries es' t nd), es'. by rewrite lookup_insert_eq.
Qed.

(** The log once the temporary file was removed again; the log once it became the target. *)
Definition removed (tmp : string) (i : fileid) (f : files) (l : list call) : Prop :=
  (∃ l0 fills, L l0 ∧ Forall (touches i) fills ∧ l = l0 ++ CCreate d tmp i :: fills ++ [CUnlink d tmp]) ∧
  shut names d f.
Definition replaced (old : option inode) : Prop :=
  match before, old with
  | None, None => True
  | Some m, Some n => kept (st_inode m) n
  | _, _ => False
  end.
Definition published (tmp : string) (i : fileid) (φ : inode → Prop) (f : files) (l : list call) : Prop :=
  (∃ l0 fills old, L l0 ∧ Forall (touches i) fills ∧ replaced old ∧
     l = l0 ++ CCreate d tmp i :: fills ++ [CRename d tmp name old]) ∧
  has_file names d name i φ f ∧ gone names d tmp f.

Lemma published_lasting tmp i φ : stays φ → lasting (published tmp i φ).
Proof.
  intros Hφ f f' l U (Hl & Hf & Hg). split_and!; [done|by eapply has_file_lasts|by eapply gone_lasts].
Qed.

Lemma triple_replace tmp i φ t dir :
  t !! dir = Some d → stays φ → tmp ≠ name →
  triple (walking (temp tmp i φ) t) (os_replace tmp name dir)
    (λ _, walking (published tmp i φ) t) (λ _, walking (temp tmp i φ) t).
Proof.
  intros Hdir Hφ Hne. apply triple_call; [by apply temp_lasting| |done].
  intros k W. destruct (temp_entries tmp i φ t k dir Hdir (stays_mine φ Hφ) W)
    as (nd & es & n & Hd & Ed & Hcl & Ees & Etmp & Hi & Hp & (_ & Hnd & _) & Hid & Hs).
  pose proof W as (Hr & Hroot & He & Ht & (l0 & fills & HL & Hf & El) & _ & Ha).
  destruct (check_name tmp); cbn; [|done]. destruct (check_name name); cbn; [|done].
  rewrite Ees. cbn. rewrite Etmp. unfold inode_at. rewrite Hi. cbn. rewrite Hnd. cbn.
  assert (es !! name ≠ Some i) as Hni.
  { intros E. destruct Ha as [_ Ha]. apply (Ha i); [by exists nd, es|done]. }
  assert (replaced (j ← es !! name; k_files k !! j)) as Hold.
  { destruct Ha as [[_ Hb] _]. unfold replaced. destruct before as [m|]; cbn in Hb.
    - destruct Hb as ((nd' & es' & Hnd' & Ed' & Ej) & nm & Hnm & Hk & _).
      assert (es' = es) as -> by congruence. rewrite Ej. cbn. by rewrite Hnm.
    - destruct (es !! name) as [j|] eqn:Ej; [|done]. exfalso. apply (Hb j). by exists nd, es. }
  assert (∀ g old, replaced old → g !! i = Some n → (∀ x nx, k_files k !! x = Some nx → is_dir (i_node nx) = true → g !! x = Some nx) →
     (∀ j nj, es !! name = Some j → k_files k !! j = Some nj → is_dir (i_node nj) = false) →
     walking (published tmp i φ) t
       (with_log (CRename d tmp name old) (with_files
          (<[d := set_entries (<[name := i]> (delete tmp es)) (k_clock k) nd]> (alter (add_nlink 0 (k_clock k)) i g)) k))) as Hend.
  { intros g old Hold' Hgi Hg Hj.
    destruct (shut_entries (k_files k) (alter (add_nlink 0 (k_clock k)) i g) nd es (<[name := i]> (delete tmp es)) (k_clock k))
      as [Hs' He']; try done.
    - intros x c nc Hx Hc Hdc. destruct (decide (x = name)) as [->|Hxn].
      + exfalso. rewrite (Hj c nc Hx Hc) in Hdc. done.
      + rewrite lookup_insert_ne, lookup_delete_ne; [done| |done]. intros <-.
        assert (c = i) as -> by congruence. congruence.
    - intros x nx Hx Hdx Hxd. rewrite lookup_alter_ne; [by apply Hg|]. intros <-. congruence.
    - split_and!; try done. cbn. split_and!.
      + exists l0, fills, old. split_and!; [done|done|done|]. rewrite El, <-(assoc_L (++)). by cbn.
      + split; [done|]. split; [apply He', lookup_insert_eq|].
        exists (add_nlink 0 (k_clock k) n). rewrite lookup_insert_ne, lookup_alter_eq, Hgi by done.
        split; [done|]. eapply (stays_kept φ Hφ); [|exact Hp]. by split_and!.
      + split; [done|]. intros j Hj'. apply He' in Hj'. rewrite lookup_insert_ne, lookup_delete_eq in Hj' by done. done. }
  destruct (es !! name) as [j|] eqn:Ej; cbn.
  - destruct (k_files k !! j) as [nj|] eqn:Enj; cbn; [|done].
    destruct (is_dir (i_node nj)) eqn:Edj; cbn; [done|]. rewrite bool_decide_false by done.
    assert (j ≠ i) as Hji by congruence. cbn in Hold. rewrite Enj in Hold. apply Hend; [done|..].
    + unfold drop_link. by rewrite lookup_alter_ne.
    + intros x nx Hx Hdx. unfold drop_link. rewrite lookup_alter_ne; [done|]. intros <-. congruence.
    + intros j' nj' [= <-] Hj'. congruence.
  - rewrite bool_decide_false by done. by apply (Hend _ None).
Qed.

Lemma triple_unlink_temp tmp i φ t dir :
  t !! dir = Some d → stays φ → check_name tmp = Ok tt →
  triple (walking (temp tmp i φ) t) (unlink_if_there tmp dir)
    (λ _, walking (removed tmp i) t) (λ e k, F e ∧ walking (temp tmp i φ) t k).
Proof.
  intros Hdir Hφ Hck. unfold unlink_if_there. eapply triple_catch.
  { apply triple_call with (Q := λ _, walking (removed tmp i) t)
      (E := λ e k, F e ∧ walking (temp tmp i φ) t k); [by apply temp_lasting| |done].
    intros k W. destruct (temp_entries tmp i φ t k dir Hdir (stays_mine φ Hφ) W)
      as (nd & es & n & Hd & Ed & Hcl & Ees & Etmp & Hi & Hp & (_ & Hnd & _) & Hid & Hs).
    pose proof W as (Hr & Hroot & He & Ht & (l0 & fills & HL & Hf & El) & _ & _).
    rewrite Hck. cbn. rewrite Ees. cbn. rewrite Etmp. unfold inode_at. rewrite Hi. cbn. rewrite Hnd. cbn.
    split_and!; try done. cbn. split.
    - exists l0, fills. split_and!; [done|done|]. rewrite El, <-(assoc_L (++)). by cbn.
    - apply (shut_entries (k_files k) _ nd es (delete tmp es)); try done.
      + intros x c nc Hx Hc Hdc. rewrite lookup_delete_ne; [done|]. intros <-.
        assert (c = i) as -> by congruence. congruence.
      + intros x nx Hx Hdx Hxd. unfold drop_link. rewrite lookup_alter_ne; [done|]. intros <-. congruence. }
  intros e. destruct e; try (apply triple_throws; by intros k H).
  apply triple_ret. intros k [Hf%HF _]. done.
Qed.

Lemma triple_unlink_gone (J : files → list call → Prop) tmp t dir :
  t !! dir = Some d → lasting J → (∀ f l, J f l → gone names d tmp f) → check_name tmp = Ok tt →
  triple (walking J t) (unlink_if_there tmp dir) (λ _, walking J t) (λ _, walking J t).
Proof.
  intros Hdir HJ Hg Hck. unfold unlink_if_there. eapply triple_catch.
  { apply triple_call with (Q := λ _, walking J t) (E := λ e k, walking J t k); [done| |done].
    intros k W. pose proof W as (Hr & Hroot & He & Ht & [Hs Hn]%Hg).
    destruct (entries_shut k t dir d names Ht Hdir Hs) as (nd & es & Hnd & End & Ees).
    rewrite Hck. cbn. rewrite Ees. cbn. destruct (es !! tmp) as [j|] eqn:Ej; [|done].
    exfalso. apply (Hn j). by exists nd, es. }
  intros e. destruct e; by first [apply triple_ret|apply triple_throws].
Qed.
End entry.

(** ** The whole write *)

Lemma walking_close {A : Type} (J : files → list call → Prop) (X : files → Prop) (t : gmap Z fileid) (fd : Z)
    (c : fileid) (a : A) (k : kernel) :
  t !! fd = None → walking (also J X) (<[fd := c]> t) k → closing fd c (λ _, walking J t) a k.
Proof.
  intros Hfd (Hr & Hroot & He & Ht & HJ & _). unfold closing. rewrite Ht. split; [apply lookup_insert_eq|].
  split_and!; try done. cbn. by apply delete_insert_id.
Qed.

Definition path_dirs (p : path) : list string :=
  p_names (sf_root fs) ++ match _parts fs p with Ok parts => parts | Err _ => [] end.

Lemma triple_check_current J t p dir :
  lasting J →
  triple (walking J t) (_check_directory_current fs p dir) (λ _, walking J t) (λ _, walking J t).
Proof.
  intros HJ. unfold _check_directory_current.
  apply (triple_directory fs T root euid F Hzero Howner Heuid plain) with
    (checked := False) (I := J) (t := t) (whole := path_dirs p); try done.
  - intros fd c Hfd. set (J' := also J (entered T root plain False (path_dirs p) c)).
    assert (lasting J') as HJ' by (apply lasting_also; [done|apply entered_lasts]).
    assert (triple (walking J' (<[fd := c]> t))
      (left ← os_fstat dir; right ← os_fstat fd;
       ensure (bool_decide (st_id left = st_id right)) (UnsafeSetupPath "setup directory changed during the operation"))
      (λ _, walking J' (<[fd := c]> t)) (λ _, walking J' (<[fd := c]> t))) as H.
    { eapply triple_bind; [by apply triple_reads|]. intros left. eapply triple_bind; [by apply triple_reads|].
      intros right. apply triple_ensure; intros k W _; exact W. }
    eapply triple_conseq; [exact H|done|..]; intros x k W; exact (walking_close J _ t fd c x k Hfd W).
  - intros parts Hp. split; [|done]. unfold path_dirs. by rewrite Hp.
Qed.

Section outcome.
Context (L : list call → Prop) (p : path) (content : string) (mode : Z) (gid : option Z) (preserve : bool).
Let names := path_dirs (parent p).

(** The target is the complete file. *)
Definition target_file (before : option stat_result) : inode → Prop :=
  whole_file final_uid (final_gid before preserve gid) (final_mode before preserve mode) content.

Lemma triple_move tmp i d before t dir :
  t !! dir = Some d → tmp ≠ name_of p →
  triple (walking (temp L names d (name_of p) before tmp i (target_file before)) t) (move_into_place fs p tmp dir)
    (λ _, walking (published L names d (name_of p) before tmp i (target_file before)) t)
    (λ _ k, walking (temp L names d (name_of p) before tmp i (target_file before)) t k ∨
            walking (published L names d (name_of p) before tmp i (target_file before)) t k).
Proof.
  intros Hdir Hne. unfold move_into_place. assert (stays (target_file before)) as Hst by apply whole_stays.
  assert (lasting (published L names d (name_of p) before tmp i (target_file before))) as HP by by apply published_lasting.
  eapply triple_bind.
  { eapply triple_conseq; [apply triple_check_current; by apply temp_lasting|done|intros a k W; exact W|].
    intros e k W. by left. }
  intros []. eapply triple_bind.
  { eapply triple_conseq; [by apply triple_replace|done|intros a k W; exact W|]. intros e k W. by left. }
  intros []. eapply triple_bind.
  { eapply triple_conseq; [by apply triple_reads|done|intros a k W; exact W|]. intros e k W. by right. }
  intros []. eapply triple_conseq; [by apply triple_check_current|done|done|]. intros e k W. by right.
Qed.

(** What a write leaves: nothing of its own; the temporary file, when removing it failed; nothing
    again, the temporary file being removed; or the complete file. *)
Definition failed_write (e : exn) (f : files) (l : list call) : Prop :=
  L l ∨ ∃ d tmp i, held T root f names d ∧
    ((F e ∧ filling L d tmp i l) ∨ removed L names d tmp i f l ∨
     ∃ before, safe_mode before ∧ published L names d (name_of p) before tmp i (target_file before) f l).
Definition done_write (f : files) (l : list call) : Prop :=
  ∃ d tmp i before, safe_mode before ∧ published L names d (name_of p) before tmp i (target_file before) f l.

Section finish.
Context (tmp : string) (i d : fileid) (before : option stat_result) (dir : Z).
Context (Hne : tmp ≠ name_of p) (Hck : check_name tmp = Ok tt) (Hb : safe_mode before).
Context (Hm : has_bits mode S_IWOTHERS = false).
Let Pub := published L names d (name_of p) before tmp i (target_file before).
Let Tmp := temp L names d (name_of p) before tmp i plain_file.
Let Full := temp L names d (name_of p) before tmp i (target_file before).

(** The temporary file is still there, or is the target. *)
Definition halfway (k : kernel) : Prop := ∃ t, t !! dir = Some d ∧ (walking Tmp t k ∨ walking Pub t k).

Lemma Full_stays : stays (target_file before).
Proof. apply whole_stays. Qed.
Lemma halfway_tmp t k : t !! dir = Some d → walking Tmp t k → halfway k.
Proof. intros Hd W. exists t. auto. Qed.
Lemma halfway_full t k : t !! dir = Some d → walking Full t k → halfway k.
Proof.
  intros Hd W. apply (halfway_tmp t); [done|]. eapply walking_weaken; [exact W|].
  intros f l. apply temp_weaken. by intros n [[[? _] _] _].
Qed.

Lemma triple_forward t fd :
  t !! dir = Some d → t !! fd = None →
  triple (walking (temp L names d (name_of p) before tmp i fresh_file) (<[fd := i]> t))
    (os_fdopen fd;;
     try_finally (fill fs before content mode gid preserve fd) (os_close fd);;
     now ← _file_state fs dir (name_of p);
     ensure (same_identity before now) (UnsafeSetupPath "setup file changed before atomic replacement");;
     move_into_place fs p tmp dir)
    (λ _, walking Pub t) (λ _, halfway).
Proof.
  intros Hdir Hfd. assert (dir ≠ fd) as Hdf by congruence.
  assert ((<[fd := i]> t) !! dir = Some d) as Hdir' by by rewrite lookup_insert_ne.
  pose proof Full_stays as Hst. eapply triple_bind.
  { eapply triple_conseq; [apply triple_reads; apply temp_lasting, fresh_stays|intros k W; exact W|intros a k W; exact W|].
    intros e k W. apply (halfway_tmp (<[fd := i]> t)); [done|]. eapply walking_weaken; [exact W|].
    intros f l. apply temp_weaken. by intros n [? _]. }
  intros []. eapply triple_bind.
  { instantiate (1 := λ _, walking Full t).
    eapply triple_finally; [apply triple_fill; [apply lookup_insert_eq|done|done]|..].
    - intros []. eapply triple_conseq; [eapply triple_close, lookup_insert_eq|done| |done].
      intros [] k W. rewrite delete_insert_id in W by done. exact W.
    - intros e. eapply triple_conseq; [eapply triple_close, lookup_insert_eq|done| |done].
      intros [] k W. rewrite delete_insert_id in W by done. by apply (halfway_tmp t). }
  intros []. eapply triple_bind.
  { eapply triple_conseq; [apply triple_file_state; by apply temp_lasting|done|intros a k W; exact W|].
    intros e k W. by apply (halfway_full t). }
  intros now. apply triple_pure. intros _. eapply triple_bind.
  { instantiate (1 := λ _, walking Full t).
    apply triple_ensure; intros k W _; [done|]. by apply (halfway_full t). }
  intros []. eapply triple_conseq; [by apply (triple_move tmp i d before t dir)|intros k W; exact W|intros [] k W; exact W|].
  intros e k [W|W]; [by apply (halfway_full t)|]. exists t. auto.
Qed.

Lemma published_failed e t k : t !! dir = Some d → walking Pub t k →
  k_fds k !! dir = Some d ∧ failed_write e (k_files k) (k_log k).
Proof.
  intros Hd (_ & _ & _ & Ht & H). split; [by rewrite Ht|]. right. exists d, tmp, i.
  split; [apply H|]. right. right. by exists before.
Qed.

(** The temporary file is removed on the way out. *)
Lemma triple_cleanup e :
  triple halfway (unlink_if_there tmp dir)
    (λ _ k, k_fds k !! dir = Some d ∧ failed_write e (k_files k) (k_log k))
    (λ e k, k_fds k !! dir = Some d ∧ failed_write e (k_files k) (k_log k)).
Proof.
  apply triple_exists. intros t. apply triple_pure. intros Hd k [W|W]; revert k W; (eapply triple_conseq; [|done|..]).
  - apply (triple_unlink_temp L names d (name_of p) before tmp i plain_file t dir); [done|apply plain_stays|done].
  - intros [] k (_ & _ & _ & Ht & H). split; [by rewrite Ht|]. right. exists d, tmp, i.
    split; [apply H|]. right. by left.
  - intros e' k [Hf (_ & _ & _ & Ht & Hl & Hfile & Ha)]. split; [by rewrite Ht|]. right.
    exists d, tmp, i. split; [apply Hfile|]. by left.
  - apply (triple_unlink_gone names d Pub tmp t dir); [done|apply published_lasting, Full_stays| |done].
    by intros f l (_ & _ & Hg).
  - intros [] k W. by apply (published_failed e t).
  - intros e' k W. by apply (published_failed e' t).
Qed.

Lemma triple_finish t fd :
  t !! dir = Some d → t !! fd = None →
  triple (walking (temp L names d (name_of p) before tmp i fresh_file) (<[fd := i]> t))
    (try_finally
      (os_fdopen fd;;
       try_finally (fill fs before content mode gid preserve fd) (os_close fd);;
       now ← _file_state fs dir (name_of p);
       ensure (same_identity before now) (UnsafeSetupPath "setup file changed before atomic replacement");;
       move_into_place fs p tmp dir)
      (unlink_if_there tmp dir))
    (λ _, walking Pub t)
    (λ e k, k_fds k !! dir = Some d ∧ failed_write e (k_files k) (k_log k)).
Proof.
  intros Hdir Hfd. eapply triple_finally; [by apply triple_forward|..].
  - intros []. eapply triple_conseq; [apply (triple_unlink_gone names d Pub tmp t dir)|done|done|];
      [done|apply published_lasting, Full_stays| |done|].
    + by intros f l (_ & _ & Hg).
    + intros e k W. by apply (published_failed e t).
  - intros e. apply triple_cleanup.
Qed.
End finish.

Lemma temporary_ne name token : temporary_name name token ≠ name.
Proof.
  intros E. apply (f_equal String.length) in E. unfold temporary_name in E.
  rewrite !length_append in E. cbn in E. lia.
Qed.

Lemma triple_write_entry t dir d :
  t !! dir = Some d → name_of p ≠ EmptyString → has_bits mode S_IWOTHERS = false →
  triple (walking (also (λ _, L) (shut names d)) t) (write_entry fs p content mode gid preserve dir)
    (λ _ k, k_fds k = t ∧ done_write (k_files k) (k_log k))
    (λ e k, k_fds k !! dir = Some d ∧ failed_write e (k_files k) (k_log k)).
Proof.
  intros Hdir Hname Hm. unfold write_entry.
  assert (lasting (λ _, L)) as HL by by intros ???.
  assert (∀ e k, walking (λ _, L) t k → k_fds k !! dir = Some d ∧ failed_write e (k_files k) (k_log k)) as Hfail.
  { intros e k (_ & _ & _ & Ht & H). split; [by rewrite Ht|]. by left. }
  eapply triple_bind.
  { eapply triple_conseq; [by apply (triple_settle (λ _, L))|done|intros b k W; exact W|apply Hfail]. }
  intros before. apply triple_pure. intros Hb. eapply triple_bind.
  { instantiate (1 := λ _, walking (also (λ _, L) (settled names d (name_of p) before)) t).
    intros k W. unfold token_hex. destruct (k_tokens k); exact W. }
  intros token. cbv zeta. eapply triple_bind.
  { eapply triple_conseq; [apply (triple_create L names d (name_of p) before)|done|intros fd k W; exact W|apply Hfail];
      [done|apply temporary_ne|done]. }
  intros fd. apply triple_pure. intros [Hfd Hck]. apply triple_exists. intros i.
  eapply triple_conseq; [apply triple_finish|done| |]; try done.
  - apply temporary_ne.
  - intros [] k (_ & _ & _ & Ht & H). split; [done|]. by exists d, (temporary_name (name_of p) token), i, before.
Qed.
End outcome.

Lemma triple_write_text L p content mode gid preserve t :
  name_of p ≠ EmptyString → has_bits mode S_IWOTHERS = false →
  (∀ l c, dir_call c → L l → L (l ++ [c])) →
  triple (walking (λ _, L) t) (write_text fs p content mode gid preserve)
    (λ _ k, k_fds k = t ∧ done_write L p content mode gid preserve (k_files k) (k_log k))
    (λ e k, failed_write L p content mode gid preserve e (k_files k) (k_log k)).
Proof.
  intros Hname Hm Hgrow. unfold write_text. eapply triple_bind.
  { apply triple_lifts. intros k W. instantiate (1 := λ _, walking (λ _, L) t).
    destruct (_parts fs p); [done|]. left. apply W. }
  intros ps. apply (triple_directory fs T root euid F Hzero Howner Heuid creating) with
    (checked := False) (I := λ _, L) (t := t) (whole := path_dirs (parent p)); try done.
  - by intros ???.
  - intros _ f f' l c Hc _. by apply Hgrow.
  - intros e k W. left. apply W.
  - intros dir d Hdir. eapply triple_conseq;
      [apply (triple_write_entry L p content mode gid preserve (<[dir := d]> t) dir d); [apply lookup_insert_eq|done..]| | |].
    + intros k W. eapply walking_weaken; [exact W|]. intros f l [H (m & Hv & _)].
      split; [done|by eapply validated_shut].
    + intros [] k [Ht H]. unfold closing. rewrite Ht. split; [apply lookup_insert_eq|].
      split; [cbn; by apply delete_insert_id|exact H].
    + intros e k [Ht H]. by split.
  - intros parts Hp. split; [|done]. unfold path_dirs. by rewrite Hp.
Qed.
End write.

(** The entry [name] of [d] is the complete file: with the mode and group asked for, or those of
    the file [from] that it keeps the metadata of. *)
Definition complete (fs : SetupFilesystem) (euid : Z) (content : string) (mode : Z) (gid : option Z)
    (from : option inode) (f : files) (d : fileid) (name : string) : Prop :=
  ∃ i n, entry f d name i ∧ f !! i = Some n ∧ i_node n = Reg (Some content) ∧
    i_mode n = match from with Some o => S_IMODE (i_mode o) | None => mode end ∧
    i_uid n = (if euid =? 0 then sf_owner fs else euid) ∧
    ∀ g, euid = 0 → match from with Some o => Some (i_gid o) | None => gid end = Some g → g ≠ -1 → i_gid n = g.

Lemma whole_complete fs T euid content mode gid preserve before old f d name i n :
  replaced before old → entry f d name i → f !! i = Some n →
  target_file fs T euid content mode gid preserve before n →
  complete fs euid content mode gid (if preserve then old else None) f d name.
Proof.
  intros Ho He Hn [[[_ [Hu Hg]] Hm] Hc]. exists i, n. split_and!; try done.
  - rewrite Hm. unfold final_mode. destruct preserve; [|done].
    destruct before as [b|], old as [o|]; try done. destruct Ho as (_ & _ & _ & -> & _). done.
  - intros g -> Hfrom Hne. apply Hg. unfold final_gid. cbn [Z.eqb].
    replace (gid_or_keep _) with g; [by apply Z.eqb_neq in Hne as ->|].
    destruct preserve; [|by rewrite Hfrom]. destruct before as [b|], old as [o|]; try done; [|by rewrite Hfrom].
    destruct Ho as (_ & _ & Eg & _). injection Hfrom as <-. by rewrite Eg.
Qed.

(** What the log and the files show of a write that ended with [r]. *)
Definition written (fs : SetupFilesystem) (T : list Z) (p : path) (content : string) (mode : Z) (gid : option Z)
    (preserve : bool) (k k' : kernel) (r : result unit) : Prop :=
  ∃ made rest, k_log k' = k_log k ++ made ++ rest ∧ Forall dir_call made ∧
  ((∃ e, r = Err e ∧ rest = []) ∨
   ∃ d tmp i fills, held T (k_root k) (k_files k') (path_dirs fs (parent p)) d ∧ Forall (touches i) fills ∧
     ((∃ e ev n, r = Err e ∧ ev ∈ k_schedule k ∧ ev_fault ev = Some (e, n) ∧ rest = CCreate d tmp i :: fills) ∨
      (∃ e, r = Err e ∧ rest = CCreate d tmp i :: fills ++ [CUnlink d tmp]) ∨
      ((∀ j, ¬ entry (k_files k') d tmp j) ∧
       ∃ old, rest = CCreate d tmp i :: fills ++ [CRename d tmp (name_of p) old] ∧
         complete fs (k_euid k) content mode gid (if preserve then old else None) (k_files k') d (name_of p)))).

(** The log, when only directories were made. *)
Definition made_dirs (k : kernel) (l : list call) : Prop := ∃ made, l = k_log k ++ made ∧ Forall dir_call made.
Lemma published_written fs T p content mode gid preserve k k' d tmp i before r :
  published T (k_root k) (made_dirs k) (path_dirs fs (parent p)) d (name_of p) before tmp i
    (target_file fs T (k_euid k) content mode gid preserve before) (k_files k') (k_log k') →
  written fs T p content mode gid preserve k k' r.
Proof.
  intros ((l0 & fills & old & (made & -> & Hmade) & Hf & Ho & El) & (Hs & He & n & Hn & Hw) & Hg).
  exists made, (CCreate d tmp i :: fills ++ [CRename d tmp (name_of p) old]). rewrite El, <-(assoc_L (++)).
  split; [done|]. split; [done|]. right. exists d, tmp, i, fills. split; [apply Hs|]. split; [done|]. right. right.
  split; [apply Hg|]. exists old. split; [done|]. by eapply whole_complete.
Qed.

(** Property C24: a file setup writes appears whole or not at all, where its path says.
    Whatever users outside the trusted owners (root, the owner of the setup and the writer) do
    between the system calls of [write_text], whichever calls fail, and for any mode that does
    not let others write: besides making missing directories, it creates one temporary file in
    the directory that the path names through protected directories, fills only that file, and
    touches the target by nothing but one rename, when the file is complete.  The complete file
    has the text written; the mode and, for root, the group asked for, or on request those of
    the very file that the rename replaced; it belongs to the owner of the setup when root
    writes it, and to the writer otherwise (who has the group the system gives).  When the write
    returns, the target is that file, the temporary name is gone and every descriptor is closed
    again.  When it raises, it either never created the file, or removed it again (or the
    removal itself was what failed), or the target is the complete file already. *)
Theorem write_text_whole fs T p content mode gid preserve k k' r :
  0 ∈ T → sf_owner fs ∈ T → k_euid k ∈ T → has_bits mode S_IWOTHERS = false →
  name_of p ≠ EmptyString → respectful T (k_root k) failure k →
  write_text fs p content mode gid preserve k = (k', r) →
  (is_ok r = true → k_fds k' = k_fds k) ∧ written fs T p content mode gid preserve k k' r.
Proof.
  intros H0 Hown Heuid Hm Hname Hr Erun.
  set (F := λ e, failure e ∧ ∃ ev n, ev ∈ k_schedule k ∧ ev_fault ev = Some (e, n)).
  assert (respectful T (k_root k) F k) as Hr'.
  { unfold respectful in *. rewrite !Forall_forall in *. intros ev Hev. destruct (Hr ev Hev) as [Hu Hf].
    split; [done|]. intros e n He. split; [by eapply Hf|]. by exists ev, n. }
  set (L := made_dirs k).
  assert (∀ l c, dir_call c → L l → L (l ++ [c])) as Hgrow.
  { intros l c Hc (made & -> & Hf). exists (made ++ [c]). rewrite (assoc_L (++)). split; [done|].
    apply Forall_app. by repeat constructor. }
  pose proof (triple_write_text fs T (k_root k) (k_euid k) F (λ e H, proj1 H) H0 Hown Heuid L p content mode gid
    preserve (k_fds k) Hname Hm Hgrow k) as Ht.
  rewrite Erun in Ht.
  assert (walking T (k_root k) (k_euid k) F (λ _, L) (k_fds k) k) as W.
  { split_and!; try done. exists []. by rewrite app_nil_r. }
  specialize (Ht W). clear W Hr Hr' Hgrow.
  destruct r as [[]|e].
  - destruct Ht as [Hf (d & tmp & i & before & _ & Hp)]. split; [done|]. by eapply published_written.
  - split; [done|]. destruct Ht as [(made & El & Hmade)|(d & tmp & i & Hh & Ht)].
    { exists made, []. rewrite app_nil_r. split; [done|]. split; [done|]. left. by exists e. }
    destruct Ht as [[HF Ht]|[Ht|(before & _ & Hp)]]; [| |by eapply published_written].
    + destruct Ht as (l0 & fills & (made & -> & Hmade) & Hf & El). destruct HF as (_ & ev & n & Hev & Ee).
      exists made, (CCreate d tmp i :: fills). rewrite El, <-(assoc_L (++)). split; [done|]. split; [done|].
      right. exists d, tmp, i, fills. split; [done|]. split; [done|]. left. by exists e, ev, n.
    + destruct Ht as ((l0 & fills & (made & -> & Hmade) & Hf & El) & Hs).
      exists made, (CCreate d tmp i :: fills ++ [CUnlink d tmp]). rewrite El, <-(assoc_L (++)).
      split; [done|]. split; [done|]. right. exists d, tmp, i, fills. split; [done|]. split; [done|].
      right. left. by exists e.
Qed.

(** ** A file is written while others meddle *)

Definition written_run : kernel * result unit :=
  write_text demo_fs (Path "/etc/astrumweaver/runtime.json") "{}" 416 (Some 7) false demo_kernel.

Lemma write_text_whole_witness :
  is_ok written_run.2 = true ∧
  written demo_fs [0] (Path "/etc/astrumweaver/runtime.json") "{}" 416 (Some 7) false demo_kernel written_run.1 written_run.2.
Proof.
  split; [vm_compute; reflexivity|].
  apply (write_text_whole demo_fs [0] (Path "/etc/astrumweaver/runtime.json") "{}" 416 (Some 7) false demo_kernel
    written_run.1 written_run.2).
  - left.
  - left.
  - left.
  - reflexivity.
  - discriminate.
  - apply demo_respectful.
  - apply surjective_pairing.
Defined.
