(* ===== verification/PyNum.v ===== *)
(** * Numbers of configurations

    [float(v)], comparison of a number with zero, and the address checks that
    [urllib.parse.urlsplit] supports, as the runtime providers use them. *)

From Stdlib Require Import SpecFloat.
From S2P Require Import Prelude PyStr PyDict PyVal PyHost PyText.

(** ** Floats *)

(** The nearest double of an integer. *)
Definition float_of_Z (z : Z) : spec_float := binary_normalize 53 1024 z 0 false.

(** [float(v)]; text is outside the model. *)
Definition py_float (v : pyval) : result spec_float :=
  match v with
  | PFloat f => Ok f
  | PBool b => Ok (float_of_Z (Z.b2z b))
  | PInt z =>
      match float_of_Z z with
      | S754_infinity _ => Err (OverflowError "int too large to convert to float")
      | f => Ok f
      end
  | PStr _ => Err (OutOfModel "float of text")
  | _ => Err (TypeError "float() argument must be a string or a real number")
  end.

(** [v <= 0] and [v < 0] of a number. *)
Definition float_le_zero (f : spec_float) : bool :=
  match f with
  | S754_zero _ => true
  | S754_nan => false
  | S754_infinity s | S754_finite s _ _ => s
  end.
Definition le_zero (v : pyval) : result bool :=
  match v with
  | PInt z => Ok (z <=? 0)
  | PBool b => Ok (negb b)
  | PFloat f => Ok (float_le_zero f)
  | _ => Err (TypeError "'<=' not supported between instances")
  end.
Definition lt_zero (v : pyval) : result bool :=
  match v with
  | PInt z => Ok (z <? 0)
  | PBool _ => Ok false
  | PFloat f => Ok (float_le_zero f && negb (float_is_zero f))
  | _ => Err (TypeError "'<' not supported between instances")
  end.

(** [f < z] and [v >= z] against an integer, exactly; a NaN is neither. *)
Definition float_lt_Z (f : spec_float) (z : Z) : bool :=
  match f with
  | S754_zero _ => 0 <? z
  | S754_nan => false
  | S754_infinity s => s
  | S754_finite s m e =>
      let a := if s then Z.neg m else Z.pos m in
      if 0 <=? e then a * 2 ^ e <? z else a <? z * 2 ^ (- e)
  end.
Definition float_le_Z (f : spec_float) (z : Z) : bool :=
  match f with
  | S754_zero _ => 0 <=? z
  | S754_nan => false
  | S754_infinity s => s
  | S754_finite s m e =>
      let a := if s then Z.neg m else Z.pos m in
      if 0 <=? e then a * 2 ^ e <=? z else a <=? z * 2 ^ (- e)
  end.
Definition ge_Z (v : pyval) (z : Z) : result bool :=
  match v with
  | PInt a => Ok (z <=? a)
  | PBool b => Ok (z <=? Z.b2z b)
  | PFloat S754_nan => Ok false
  | PFloat f => Ok (negb (float_lt_Z f z))
  | _ => Err (TypeError "'>=' not supported between instances")
  end.

(** [v < z], [v > z] and [0 < v <= 1]. *)
Definition lt_Z (v : pyval) (z : Z) : result bool :=
  match v with
  | PInt a => Ok (a <? z)
  | PBool b => Ok (Z.b2z b <? z)
  | PFloat f => Ok (float_lt_Z f z)
  | _ => Err (TypeError "'<' not supported between instances")
  end.
Definition gt_Z (v : pyval) (z : Z) : result bool :=
  match v with
  | PInt a => Ok (z <? a)
  | PBool b => Ok (z <? Z.b2z b)
  | PFloat S754_nan => Ok false
  | PFloat f => Ok (negb (float_le_Z f z))
  | _ => Err (TypeError "'>' not supported between instances")
  end.
Definition unit_fraction (v : pyval) : result bool :=
  match v with
  | PInt a => Ok ((0 <? a) && (a <=? 1))
  | PBool b => Ok b
  | PFloat f => Ok (match f with S754_nan => false | _ => negb (float_le_Z f 0) end && float_le_Z f 1)
  | _ => Err (TypeError "'<' not supported between instances")
  end.

(** [v * z]. *)
Definition mul_Z (v : pyval) (z : Z) : result pyval :=
  match v with
  | PInt a => Ok (PInt (a * z))
  | PBool b => Ok (PInt (Z.b2z b * z))
  | PFloat f => g ← py_float (PInt z); Ok (PFloat (SFmul 53 1024 f g))
  | _ => Err (OutOfModel "product of a value that is not a number")
  end.

(** ** Addresses *)

Definition scheme_char (c : ascii) : bool :=
  let n := N_of_ascii (lower_char c) in
  ((97 <=? n) && (n <=? 122) || (48 <=? n) && (n <=? 57))%N || bool_decide (c ∈ ["+"; "-"; "."]%char).
Definition ascii_letter (c : ascii) : bool :=
  let n := N_of_ascii (lower_char c) in ((97 <=? n) && (n <=? 122))%N.
(** C0 controls and space. *)
Definition c0_or_space (c : ascii) : bool := (N_of_ascii c <=? 32)%N.
Fixpoint lstrip_c0 (s : string) : string :=
  match s with
  | String c s' => if c0_or_space c then lstrip_c0 s' else s
  | EmptyString => EmptyString
  end.
(** Without tabs and line ends. *)
Fixpoint drop_unsafe (s : string) : string :=
  match s with
  | String c s' => if bool_decide (c ∈ ["009"; "010"; "013"]%char) then drop_unsafe s'
                   else String c (drop_unsafe s')
  | EmptyString => EmptyString
  end.

(** Up to the first of [/ ? #]. *)
Fixpoint take_netloc (s : string) : string :=
  match s with
  | String c s' => if bool_decide (c ∈ ["/"; "?"; "#"]%char) then EmptyString else String c (take_netloc s')
  | EmptyString => EmptyString
  end.

(** After the last [@]. *)
Fixpoint after_at (s : string) : string :=
  match s with
  | String c s' => if contains "@" s' then after_at s'
                   else if bool_decide (c = "@"%char) then s' else s
  | EmptyString => EmptyString
  end.

(** The parts of [urlsplit] the providers read: the scheme, the host name, the text of the
    port.  Bracketed hosts raise or are no loopback name. *)
Record split_url := { su_scheme : string; su_hostname : string; su_port : option string }.
Definition urlsplit (raw : string) : result split_url :=
  let url := drop_unsafe (lstrip_c0 raw) in
  let '(head, colon, tail) := partition_char ":" url in
  let has_scheme := colon && all_chars scheme_char head &&
                    match head with String c _ => ascii_letter c | EmptyString => false end in
  let scheme := if has_scheme then lower head else EmptyString in
  let rest := if has_scheme then tail else url in
  if startswith "//" rest then
    let netloc := take_netloc (str_drop 2 rest) in
    require (negb (contains "[" netloc || contains "]" netloc)) (ValueError "Invalid IPv6 URL");;
    let hostinfo := after_at netloc in
    let '(host, has_port, port) := partition_char ":" hostinfo in
    Ok {| su_scheme := scheme; su_hostname := lower host;
          su_port := if has_port && str_truthy port then Some port else None |}
  else Ok {| su_scheme := scheme; su_hostname := EmptyString; su_port := None |}.

Definition loopback_names : list string := ["127.0.0.1"; "localhost"].
(** [parsed.scheme == "http" and parsed.hostname in {...}]. *)
Definition loopback_http (u : split_url) : bool :=
  bool_decide (su_scheme u = "http") && bool_decide (su_hostname u ∈ loopback_names).

(** [parsed.port]: absent, or a decimal between 0 and 65535. *)
Definition port_of (u : split_url) : result (option Z) :=
  match su_port u with
  | None => Ok None
  | Some p =>
      require (digits p) (ValueError "Port could not be cast to integer value");;
      n ← int_of_digits p;
      require (Z.of_N n <=? 65535) (ValueError "Port out of range 0-65535");;
      Ok (Some (Z.of_N n))
  end.
