(* ===== verification/Contracts.v ===== *)
(** * Worker and job resource contracts

    Models [src/src/astrumweaver/contracts.py]: the immutable value objects the scheduler
    sees.  A dataclass is a [Record]; its [__post_init__] is a smart constructor
    [mk_<Class>] that normalises and validates the raw fields and returns the record or the
    exception.  The well-formedness predicates [wf_<Class>] are what construction
    guarantees.  Fields the dataclass annotates with a type have that type here; the
    [isinstance] checks of [__post_init__] are discharged by it. *)

From S2P Require Import Prelude PyStr PyDict.

Open Scope Z_scope.

(** ** Normalisation helpers *)

(** [_require_nonblank], contracts.py lines 16-20. *)
Definition _require_nonblank (value field_name : string) : result string :=
  let normalized := strip value in
  if str_truthy normalized then Ok normalized
  else Err (ValueError (field_name +:+ " must not be blank")).

(** What callers pass where a collection of strings is expected: one string, or an
    iterable of strings. *)
Inductive str_values :=
  | OneStr (s : string)
  | StrIter (l : list string).

(** The loop of [_unique_strings], contracts.py lines 30-38. *)
Fixpoint unique_loop (field_name : string) (normalized : list string) (l : list string)
    : result (list string) :=
  match l with
  | [] => Ok normalized
  | value :: l' =>
      let item := strip value in
      if negb (str_truthy item)
      then Err (ValueError (field_name +:+ " must not contain blank values"))
      else if bool_decide (item ∈ normalized)
      then Err (ValueError (field_name +:+ " must not contain duplicates"))
      else unique_loop field_name (normalized ++ [item])%list l'
  end.

(** [_unique_strings], contracts.py lines 23-38. *)
Definition _unique_strings (values : str_values) (field_name : string)
    : result (list string) :=
  let raw_values := match values with OneStr s => [s] | StrIter l => l end in
  unique_loop field_name [] raw_values.

(** [_COMPUTE_CAPABILITY_RE.fullmatch], contracts.py lines 41-41. *)
Definition compute_capability_re (text : string) : bool :=
  let '(major, separator, minor) := partition_char "." text in
  digits major && (if separator then digits minor else true).

(** [normalize_compute_capability], contracts.py lines 44-54. *)
Definition normalize_compute_capability (value : string) : result string :=
  let text := strip value in
  if negb (str_truthy text) || negb (compute_capability_re text)
  then Err (ValueError "compute capability must use a numeric major or major.minor value")
  else
    let '(major_text, separator, minor_text) := partition_char "." text in
    major ← int_of_digits major_text;
    minor ← (if separator : bool then int_of_digits minor_text else Ok 0%N);
    Ok (str_of_N major +:+ "." +:+ str_of_N minor).

(** [compute_capability_key], contracts.py lines 57-60. *)
Definition compute_capability_key (value : string) : result (N * N) :=
  normalized ← normalize_compute_capability value;
  match split1_char "." normalized with
  | [major_text; minor_text] =>
      major ← int_of_digits major_text;
      minor ← int_of_digits minor_text;
      Ok (major, minor)
  | _ => Err (ValueError "not enough values to unpack (expected 2, got 1)")
  end.

(** [_normalize_labels], contracts.py lines 63-71. *)
Definition _normalize_labels (labels : dict string) : result (dict string) :=
  foldR (λ normalized '(raw_key, raw_value),
    let key := strip raw_key in
    let value := strip raw_value in
    if negb (str_truthy key) || negb (str_truthy value)
    then Err (ValueError "labels must use non-blank keys and values")
    else Ok (dset key value normalized)) [] labels.

(** [sum(...)] and [max(...)] of the device memories. *)
Definition sum_Z (l : list Z) : Z := foldr Z.add 0 l.
Definition max_Z (x : Z) (l : list Z) : Z := foldl Z.max x l.

(** ** Value objects *)

(** [AcceleratorDevice], contracts.py lines 74-81. *)
Record AcceleratorDevice := {
  ad_uuid : string;
  ad_memory_mb : Z;
  ad_compute_capability : option string;
  ad_device_class : option string;
}.

(** [AcceleratorDevice.__post_init__], contracts.py lines 83-101. *)
Definition mk_AcceleratorDevice (uuid : string) (memory_mb : Z)
    (compute_capability device_class : option string) : result AcceleratorDevice :=
  uuid' ← _require_nonblank uuid "accelerator uuid";
  require (0 <? memory_mb) (ValueError "accelerator memory_mb must be positive");;
  cc ← (match compute_capability with
        | Some c => c' ← normalize_compute_capability c; Ok (Some c')
        | None => Ok None
        end);
  let dc := match device_class with
            | Some c => let v := strip c in if str_truthy v then Some v else None
            | None => None
            end in
  Ok {| ad_uuid := uuid'; ad_memory_mb := memory_mb;
        ad_compute_capability := cc; ad_device_class := dc |}.

(** [ResourceShape], contracts.py lines 104-117. *)
Record ResourceShape := {
  gpu_count : Z;
  total_vram_mb : Z;
  max_single_gpu_vram_mb : Z;
}.

(** [ResourceShape.__post_init__], contracts.py lines 119-135. *)
Definition mk_ResourceShape (count total max_single : Z) : result ResourceShape :=
  require (0 <=? count) (ValueError "gpu_count must not be negative");;
  require (0 <=? total) (ValueError "total_vram_mb must not be negative");;
  require (0 <=? max_single) (ValueError "max_single_gpu_vram_mb must not be negative");;
  let shape := {| gpu_count := count; total_vram_mb := total;
                  max_single_gpu_vram_mb := max_single |} in
  if count =? 0 then
    require ((total =? 0) && (max_single =? 0))
      (ValueError "GPU VRAM must be zero when gpu_count is zero");;
    Ok shape
  else
    require (0 <? total) (ValueError "total_vram_mb must be positive when GPUs are present");;
    require (0 <? max_single)
      (ValueError "max_single_gpu_vram_mb must be positive when GPUs are present");;
    require (max_single <=? total)
      (ValueError "max_single_gpu_vram_mb must not exceed total_vram_mb");;
    Ok shape.

(** [WorkerSpec], contracts.py lines 138-148. *)
Record WorkerSpec := {
  worker_id : string;
  worker_class : string;
  resources : ResourceShape;
  gpu_uuids : list string;
  accelerators : list AcceleratorDevice;
  capabilities : gset string;
  labels : dict string;
}.

(** The accelerator cross-checks of [WorkerSpec.__post_init__], contracts.py lines 175-193. *)
Definition check_accelerators (accs : list AcceleratorDevice) (gpus : list string)
    (res : ResourceShape) : result unit :=
  match accs with
  | [] => Ok tt
  | dev :: rest =>
      require (Z.of_nat (length accs) =? gpu_count res)
        (ValueError "accelerators count must equal resources.gpu_count when provided");;
      require (bool_decide (ad_uuid <$> accs = gpus))
        (ValueError "accelerator UUID order must exactly match gpu_uuids");;
      require (sum_Z (ad_memory_mb <$> accs) =? total_vram_mb res)
        (ValueError "accelerator memory sum must equal resources.total_vram_mb");;
      require (max_Z (ad_memory_mb dev) (ad_memory_mb <$> rest) =? max_single_gpu_vram_mb res)
        (ValueError "accelerator max memory must equal resources.max_single_gpu_vram_mb")
  end.

(** [WorkerSpec.__post_init__], contracts.py lines 150-193. *)
Definition mk_WorkerSpec (id class : string) (res : ResourceShape) (gpus : str_values)
    (accs : list AcceleratorDevice) (caps : str_values) (labs : dict string)
    : result WorkerSpec :=
  id' ← _require_nonblank id "worker_id";
  class' ← _require_nonblank class "worker_class";
  gpus' ← _unique_strings gpus "gpu_uuids";
  caps' ← _unique_strings caps "capabilities";
  labs' ← _normalize_labels labs;
  require (Z.of_nat (length gpus') =? gpu_count res)
    (ValueError "gpu_uuids count must equal resources.gpu_count for a GPU worker");;
  check_accelerators accs gpus' res;;
  Ok {| worker_id := id'; worker_class := class'; resources := res; gpu_uuids := gpus';
        accelerators := accs; capabilities := list_to_set caps'; labels := labs' |}.

(** [JobRequirements], contracts.py lines 196-206. *)
Record JobRequirements := {
  req_worker_class : option string;
  required_capabilities : gset string;
  required_labels : dict string;
  required_gpu_uuids : gset string;
  min_gpu_count : Z;
  min_total_vram_mb : Z;
  min_single_gpu_vram_mb : Z;
}.

(** [JobRequirements.__post_init__], contracts.py lines 208-234. *)
Definition mk_JobRequirements (class : option string) (caps : str_values)
    (labs : dict string) (gpus : str_values) (count total single : Z)
    : result JobRequirements :=
  class' ← (match class with
            | Some c => c' ← _require_nonblank c "worker_class"; Ok (Some c')
            | None => Ok None
            end);
  caps' ← _unique_strings caps "required_capabilities";
  gpus' ← _unique_strings gpus "required_gpu_uuids";
  labs' ← _normalize_labels labs;
  require (0 <=? count) (ValueError "min_gpu_count must not be negative");;
  require (0 <=? total) (ValueError "min_total_vram_mb must not be negative");;
  require (0 <=? single) (ValueError "min_single_gpu_vram_mb must not be negative");;
  Ok {| req_worker_class := class'; required_capabilities := list_to_set caps';
        required_labels := labs'; required_gpu_uuids := list_to_set gpus';
        min_gpu_count := count; min_total_vram_mb := total;
        min_single_gpu_vram_mb := single |}.

(** The default [JobRequirements()]. *)
Definition no_requirements : JobRequirements :=
  {| req_worker_class := None; required_capabilities := ∅; required_labels := [];
     required_gpu_uuids := ∅; min_gpu_count := 0; min_total_vram_mb := 0;
     min_single_gpu_vram_mb := 0 |}.

(** ** Decidable equality, and Python's [==] *)

#[export] Instance AcceleratorDevice_eq_dec : EqDecision AcceleratorDevice.
Proof. solve_decision. Defined.
#[export] Instance ResourceShape_eq_dec : EqDecision ResourceShape.
Proof. solve_decision. Defined.

(** The dataclass equality of [WorkerSpec]: field by field, labels as dictionaries. *)
Definition WorkerSpec_eqb (a b : WorkerSpec) : bool :=
  bool_decide (worker_id a = worker_id b) && bool_decide (worker_class a = worker_class b)
  && bool_decide (resources a = resources b) && bool_decide (gpu_uuids a = gpu_uuids b)
  && bool_decide (accelerators a = accelerators b)
  && bool_decide (capabilities a = capabilities b) && dict_eqb (labels a) (labels b).

Definition JobRequirements_eqb (a b : JobRequirements) : bool :=
  bool_decide (req_worker_class a = req_worker_class b)
  && bool_decide (required_capabilities a = required_capabilities b)
  && dict_eqb (required_labels a) (required_labels b)
  && bool_decide (required_gpu_uuids a = required_gpu_uuids b)
  && bool_decide (min_gpu_count a = min_gpu_count b)
  && bool_decide (min_total_vram_mb a = min_total_vram_mb b)
  && bool_decide (min_single_gpu_vram_mb a = min_single_gpu_vram_mb b).

(** The equivalence [==] decides. *)
Definition WorkerSpec_equiv (a b : WorkerSpec) : Prop :=
  worker_id a = worker_id b ∧ worker_class a = worker_class b ∧ resources a = resources b ∧
  gpu_uuids a = gpu_uuids b ∧ accelerators a = accelerators b ∧
  capabilities a = capabilities b ∧ dict_equiv (labels a) (labels b).

Definition JobRequirements_equiv (a b : JobRequirements) : Prop :=
  req_worker_class a = req_worker_class b ∧
  required_capabilities a = required_capabilities b ∧
  dict_equiv (required_labels a) (required_labels b) ∧
  required_gpu_uuids a = required_gpu_uuids b ∧ min_gpu_count a = min_gpu_count b ∧
  min_total_vram_mb a = min_total_vram_mb b ∧
  min_single_gpu_vram_mb a = min_single_gpu_vram_mb b.

(** ** Well-formedness *)

Definition wf_labels (d : dict string) : Prop :=
  dict_wf d ∧ ∀ k v, dget k d = Some v → nonblank k ∧ nonblank v.

(** A canonical compute capability: [<major>.<minor>] without leading zeros. *)
Definition canonical_cc (c : string) : Prop :=
  ∃ major minor : N, c = str_of_N major +:+ "." +:+ str_of_N minor ∧
    Z.of_nat (String.length (str_of_N major)) ≤ 4300 ∧
    Z.of_nat (String.length (str_of_N minor)) ≤ 4300.

Definition wf_AcceleratorDevice (d : AcceleratorDevice) : Prop :=
  nonblank (ad_uuid d) ∧ 0 < ad_memory_mb d ∧
  (∀ c, ad_compute_capability d = Some c → canonical_cc c) ∧
  (∀ c, ad_device_class d = Some c → nonblank c).

Definition wf_ResourceShape (r : ResourceShape) : Prop :=
  (gpu_count r = 0 ∧ total_vram_mb r = 0 ∧ max_single_gpu_vram_mb r = 0) ∨
  (0 < gpu_count r ∧ 0 < max_single_gpu_vram_mb r ≤ total_vram_mb r).

Definition unique_nonblank (l : list string) : Prop := NoDup l ∧ Forall nonblank l.

Definition wf_WorkerSpec (s : WorkerSpec) : Prop :=
  nonblank (worker_id s) ∧ nonblank (worker_class s) ∧ unique_nonblank (gpu_uuids s) ∧
  Forall nonblank (elements (capabilities s)) ∧ wf_labels (labels s) ∧
  Z.of_nat (length (gpu_uuids s)) = gpu_count (resources s) ∧
  wf_ResourceShape (resources s) ∧ Forall wf_AcceleratorDevice (accelerators s) ∧
  check_accelerators (accelerators s) (gpu_uuids s) (resources s) = Ok tt.

Definition wf_JobRequirements (r : JobRequirements) : Prop :=
  (∀ c, req_worker_class r = Some c → nonblank c) ∧
  Forall nonblank (elements (required_capabilities r)) ∧
  Forall nonblank (elements (required_gpu_uuids r)) ∧ wf_labels (required_labels r) ∧
  0 ≤ min_gpu_count r ∧ 0 ≤ min_total_vram_mb r ∧ 0 ≤ min_single_gpu_vram_mb r.

#[global] Arguments _require_nonblank : simpl never.
#[global] Arguments _unique_strings : simpl never.
#[global] Arguments _normalize_labels : simpl never.
#[global] Arguments normalize_compute_capability : simpl never.
#[global] Arguments check_accelerators : simpl never.
#[global] Arguments str_of_N : simpl never.

(** ** Laws of the normalisation helpers *)

Lemma require_nonblank_Ok value f n :
  _require_nonblank value f = Ok n ↔ n = strip value ∧ strip value ≠ EmptyString.
Proof.
  unfold _require_nonblank. destruct (str_truthy (strip value)) eqn:E.
  - apply str_truthy_spec in E. split; [by intros [= <-]|by intros [-> _]].
  - apply str_truthy_false in E. split; [done|by intros [_ ?]].
Qed.

Lemma require_nonblank_nonblank value f n : _require_nonblank value f = Ok n → nonblank n.
Proof. intros [-> ?]%require_nonblank_Ok. split; [apply strip_stripped|done]. Qed.

Lemma require_nonblank_id n f : nonblank n → _require_nonblank n f = Ok n.
Proof. intros [Hs Hn]. apply require_nonblank_Ok. unfold stripped in Hs. by rewrite Hs. Qed.

Lemma unique_loop_Ok f acc l r :
  unique_loop f acc l = Ok r →
  r = acc ++ (strip <$> l) ∧ (unique_nonblank acc → unique_nonblank r).
Proof.
  revert acc; induction l as [|x l IH]; intros acc; cbn.
  - intros [= <-]. by rewrite app_nil_r.
  - destruct (str_truthy (strip x)) eqn:Ht; cbn; [|done].
    case_bool_decide as Hin; [done|]. intros (-> & Hu)%IH.
    rewrite <- app_assoc. split; [done|]. intros [Hd Hb]. apply str_truthy_spec in Ht.
    rewrite <- app_assoc in Hu. apply Hu. split.
    + apply NoDup_app. split; [done|]. split; [|apply NoDup_singleton].
      by intros y Hy ->%list_elem_of_singleton.
    + apply Forall_app. split; [done|]. apply Forall_singleton. by split; [apply strip_stripped|].
Qed.

Lemma unique_strings_wf vs f r : _unique_strings vs f = Ok r → unique_nonblank r.
Proof.
  unfold _unique_strings. intros (_ & H)%unique_loop_Ok. apply H.
  split; [apply NoDup_nil_2|constructor].
Qed.

Lemma unique_loop_id f acc l :
  NoDup (acc ++ l) → Forall nonblank l → unique_loop f acc l = Ok (acc ++ l).
Proof.
  revert acc; induction l as [|x l IH]; intros acc Hd Hl; cbn.
  - by rewrite app_nil_r.
  - apply Forall_cons in Hl as [[Hs Hn] Hl]. unfold stripped in Hs. rewrite Hs.
    rewrite (proj2 (str_truthy_spec x)) by done. cbn.
    rewrite bool_decide_false.
    + rewrite IH by (by rewrite <- ?app_assoc). by rewrite <- app_assoc.
    + apply NoDup_app in Hd as (_ & Hd & _). intros Hx. apply (Hd x Hx). left.
Qed.

Lemma unique_strings_id l f : unique_nonblank l → _unique_strings (StrIter l) f = Ok l.
Proof. intros [Hd Hb]. unfold _unique_strings. by rewrite unique_loop_id. Qed.

Lemma wf_labels_nil : wf_labels [].
Proof. split; [apply dict_wf_nil|done]. Qed.

Lemma normalize_labels_wf d r : _normalize_labels d = Ok r → wf_labels r.
Proof.
  unfold _normalize_labels. apply foldR_inv; [apply wf_labels_nil|].
  intros b [k v] b' _ [Hw Hb]. destruct (str_truthy (strip k)) eqn:Hk; cbn; [|done].
  destruct (str_truthy (strip v)) eqn:Hv; cbn; [|done]. intros [= <-].
  apply str_truthy_spec in Hk, Hv. split; [by apply dict_wf_dset|].
  intros k' v'. rewrite dget_dset. destruct (decide (k' = strip k)) as [->|?]; [|apply Hb].
  intros [= <-]. repeat split; auto using strip_stripped.
Qed.

Lemma normalize_labels_id d : wf_labels d → _normalize_labels d = Ok d.
Proof.
  intros [Hw Hb]. unfold _normalize_labels.
  enough (∀ acc, dict_wf (acc ++ d) → foldR (λ normalized '(raw_key, raw_value),
    if negb (str_truthy (strip raw_key)) || negb (str_truthy (strip raw_value))
    then Err (ValueError "labels must use non-blank keys and values")
    else Ok (dset (strip raw_key) (strip raw_value) normalized)) acc d = Ok (acc ++ d))%list
    as H by (by rewrite H).
  assert (∀ k v, (k, v) ∈ d → nonblank k ∧ nonblank v) as Hn.
  { intros k v Hin. apply Hb. by apply dget_In. }
  clear Hb Hw. induction d as [|[k v] d IH]; intros acc Hacc; cbn.
  - by rewrite app_nil_r.
  - destruct (Hn k v) as [[Hk Hk'] [Hv Hv']]; [left|]. unfold stripped in Hk, Hv.
    rewrite Hk, Hv, (proj2 (str_truthy_spec k)), (proj2 (str_truthy_spec v)) by done. cbn.
    assert (dget k acc = None) as Habs.
    { apply dget_None. unfold dict_wf, dkeys in Hacc. rewrite fmap_app, NoDup_app in Hacc.
      destruct Hacc as (_ & Hd & _). intros Hx. apply (Hd k Hx). left. }
    rewrite dset_absent by done.
    rewrite IH by (first [by intros; apply Hn; right | by rewrite <- app_assoc]).
    by rewrite <- app_assoc.
Qed.

Lemma compute_capability_re_canonical (major minor : N) :
  compute_capability_re (str_of_N major +:+ "." +:+ str_of_N minor) = true.
Proof.
  unfold compute_capability_re. rewrite append_cons, append_nil_l, partition_char_found.
  - by rewrite !digits_str.
  - pose proof (digits_str major) as [_ H]%andb_true_iff.
    eapply all_chars_impl, H. intros c. by apply digit_not.
Qed.

Lemma partition_canonical (major minor : N) :
  partition_char "." (str_of_N major +:+ "." +:+ str_of_N minor)
  = (str_of_N major, true, str_of_N minor).
Proof.
  rewrite append_cons, append_nil_l. apply partition_char_found.
  pose proof (digits_str major) as [_ H]%andb_true_iff.
  eapply all_chars_impl, H. intros c. by apply digit_not.
Qed.

Lemma strip_canonical (major minor : N) :
  strip (str_of_N major +:+ "." +:+ str_of_N minor)
  = str_of_N major +:+ "." +:+ str_of_N minor.
Proof.
  apply nospace_strip. rewrite !all_chars_app. cbn.
  pose proof (digits_str major) as [_ H1]%andb_true_iff.
  pose proof (digits_str minor) as [_ H2]%andb_true_iff.
  rewrite andb_true_iff; split; eapply all_chars_impl; eauto using digit_nospace.
Qed.

Lemma normalize_cc_canonical c c' : normalize_compute_capability c = Ok c' → canonical_cc c'.
Proof.
  unfold normalize_compute_capability, compute_capability_re.
  destruct (partition_char "." (strip c)) as [[h b] t].
  destruct (str_truthy (strip c)); cbn; [|done].
  destruct (digits h) eqn:Hh; cbn; [|done].
  destruct b; cbn.
  - destruct (digits t) eqn:Ht; cbn; [|done]. intros H. simp_res.
    eexists _, _; split; [done|]. split; eauto using int_of_digits_length.
  - intros H. simp_res. eexists _, 0%N; split; [done|]. split; [|done].
    eauto using int_of_digits_length.
Qed.

Lemma normalize_cc_id c : canonical_cc c → normalize_compute_capability c = Ok c.
Proof.
  intros (major & minor & -> & H1 & H2). unfold normalize_compute_capability.
  rewrite strip_canonical, compute_capability_re_canonical, partition_canonical.
  assert (str_truthy (str_of_N major +:+ "." +:+ str_of_N minor) = true) as ->.
  { apply str_truthy_spec. pose proof (str_of_N_nonempty major).
    by destruct (str_of_N major). }
  cbn. by rewrite !int_of_digits_str.
Qed.

(** ** Laws of the constructors *)

Lemma mk_AcceleratorDevice_wf u m c dc d : mk_AcceleratorDevice u m c dc = Ok d → wf_AcceleratorDevice d.
Proof.
  unfold mk_AcceleratorDevice. intros H. simp_res.
  match goal with H : (0 <? _) = true |- _ => apply Z.ltb_lt in H end.
  split; [|split; [done|split]]; cbn.
  - eauto using require_nonblank_nonblank.
  - intros c' ->. destruct c; simp_res; eauto using normalize_cc_canonical.
  - intros v Hv. destruct dc as [v0|]; [|done]. destruct (str_truthy (strip v0)) eqn:E; [|done].
    injection Hv as <-. split; [apply strip_stripped|by apply str_truthy_spec].
Qed.

Lemma mk_AcceleratorDevice_id d : wf_AcceleratorDevice d →
  mk_AcceleratorDevice (ad_uuid d) (ad_memory_mb d) (ad_compute_capability d) (ad_device_class d)
  = Ok d.
Proof.
  destruct d as [u m c dc]. intros (Hu & Hm & Hc & Hdc). cbn in *. unfold mk_AcceleratorDevice.
  rewrite require_nonblank_id by done. cbn. apply Z.ltb_lt in Hm. rewrite Hm. cbn.
  assert (match dc with
          | Some c => if str_truthy (strip c) then Some (strip c) else None
          | None => None
          end = dc) as ->.
  { destruct dc as [v|]; [|done]. destruct (Hdc v) as [E ?]; [done|]. unfold stripped in E.
    by rewrite E, (proj2 (str_truthy_spec v)). }
  destruct c as [c|]; cbn; [|done]. by rewrite normalize_cc_id by eauto.
Qed.

Lemma mk_ResourceShape_spec c t m r :
  mk_ResourceShape c t m = Ok r ↔
  r = {| gpu_count := c; total_vram_mb := t; max_single_gpu_vram_mb := m |} ∧ wf_ResourceShape r.
Proof.
  unfold mk_ResourceShape, wf_ResourceShape. split.
  - intros H. simp_res. destruct (Z.eqb_spec c 0); simp_res; (split; [done|]); cbn; lia.
  - intros [-> H]. cbn in H. unfold require.
    repeat (match goal with |- context [if ?b then _ else _] => destruct b eqn:? end; cbn;
      try done; try (exfalso; lia)).
Qed.

Lemma mk_ResourceShape_id r : wf_ResourceShape r →
  mk_ResourceShape (gpu_count r) (total_vram_mb r) (max_single_gpu_vram_mb r) = Ok r.
Proof. intros H. apply mk_ResourceShape_spec. by destruct r. Qed.

Lemma list_to_set_nonblank (l : list string) :
  Forall nonblank l → Forall nonblank (elements (list_to_set l : gset string)).
Proof. rewrite !Forall_forall. intros H x Hx. apply H. set_solver. Qed.

Lemma elements_unique_nonblank (X : gset string) l :
  Forall nonblank (elements X) → l ≡ₚ elements X → unique_nonblank l.
Proof. intros H E. split; [rewrite E; apply NoDup_elements|by rewrite E]. Qed.

Lemma mk_WorkerSpec_id s caps : wf_WorkerSpec s → caps ≡ₚ elements (capabilities s) →
  mk_WorkerSpec (worker_id s) (worker_class s) (resources s) (StrIter (gpu_uuids s))
    (accelerators s) (StrIter caps) (labels s) = Ok s.
Proof.
  destruct s as [i c r g a k l]; cbn. intros (Hi & Hc & Hg & Hk & Hl & Hn & _ & _ & Ha) E.
  cbn in *. unfold mk_WorkerSpec.
  rewrite !require_nonblank_id by done. cbn. rewrite (unique_strings_id g) by done. cbn.
  rewrite (unique_strings_id caps) by eauto using elements_unique_nonblank. cbn.
  rewrite normalize_labels_id by done. cbn. rewrite (proj2 (Z.eqb_eq _ _)) by done. cbn.
  rewrite Ha. cbn. do 2 f_equal. apply set_eq. intros x. rewrite elem_of_list_to_set, E, elem_of_elements. done.
Qed.

Lemma mk_JobRequirements_wf c k l g n t m r :
  mk_JobRequirements c k l g n t m = Ok r → wf_JobRequirements r.
Proof.
  unfold mk_JobRequirements. intros H. simp_res.
  repeat match goal with
  | H : _unique_strings _ _ = Ok _ |- _ => apply unique_strings_wf in H as [_ ?]
  | H : _normalize_labels _ = Ok _ |- _ => apply normalize_labels_wf in H
  | H : (_ <=? _) = true |- _ => apply Z.leb_le in H
  end.
  split; [|split_and!]; cbn; auto using list_to_set_nonblank.
  intros c' ->. destruct c; simp_res; eauto using require_nonblank_nonblank.
Qed.

Lemma mk_JobRequirements_id r caps gpus : wf_JobRequirements r →
  caps ≡ₚ elements (required_capabilities r) → gpus ≡ₚ elements (required_gpu_uuids r) →
  mk_JobRequirements (req_worker_class r) (StrIter caps) (required_labels r) (StrIter gpus)
    (min_gpu_count r) (min_total_vram_mb r) (min_single_gpu_vram_mb r) = Ok r.
Proof.
  destruct r as [c k l g n t m]; cbn. intros (Hc & Hk & Hg & Hl & Hn & Ht & Hm) Ek Eg.
  cbn in *. unfold mk_JobRequirements.
  assert (match c with
          | Some c => c' ← _require_nonblank c "worker_class"; Ok (Some c')
          | None => Ok None end = Ok c) as ->.
  { destruct c as [c|]; [|done]. by rewrite require_nonblank_id by eauto. }
  cbn. rewrite (unique_strings_id caps) by eauto using elements_unique_nonblank. cbn.
  rewrite (unique_strings_id gpus) by eauto using elements_unique_nonblank. cbn.
  rewrite normalize_labels_id by done. cbn.
  apply Z.leb_le in Hn, Ht, Hm. rewrite Hn, Ht, Hm. cbn. do 2 f_equal.
  - apply set_eq. intros x. rewrite elem_of_list_to_set, Ek. by rewrite elem_of_elements.
  - apply set_eq. intros x. rewrite elem_of_list_to_set, Eg. by rewrite elem_of_elements.
Qed.

(** ** Equality *)

Lemma WorkerSpec_eqb_spec a b : wf_labels (labels a) → wf_labels (labels b) →
  WorkerSpec_eqb a b = true ↔ WorkerSpec_equiv a b.
Proof.
  intros [Ha _] [Hb _]. unfold WorkerSpec_eqb, WorkerSpec_equiv.
  rewrite !andb_true_iff, !bool_decide_eq_true, dict_eqb_spec by done. tauto.
Qed.

Lemma JobRequirements_eqb_spec a b :
  wf_labels (required_labels a) → wf_labels (required_labels b) →
  JobRequirements_eqb a b = true ↔ JobRequirements_equiv a b.
Proof.
  intros [Ha _] [Hb _]. unfold JobRequirements_eqb, JobRequirements_equiv.
  rewrite !andb_true_iff, !bool_decide_eq_true, dict_eqb_spec by done. tauto.
Qed.

#[export] Instance WorkerSpec_equiv_equivalence : Equivalence WorkerSpec_equiv.
Proof.
  unfold WorkerSpec_equiv. split.
  - intros a. by repeat split.
  - intros a b H. destruct_and! H. repeat split; by symmetry.
  - intros a b c H1 H2. destruct_and! H1. destruct_and! H2. repeat split; by etrans.
Qed.

#[export] Instance JobRequirements_equiv_equivalence : Equivalence JobRequirements_equiv.
Proof.
  unfold JobRequirements_equiv. split.
  - intros a. by repeat split.
  - intros a b H. destruct_and! H. repeat split; by symmetry.
  - intros a b c H1 H2. destruct_and! H1. destruct_and! H2. repeat split; by etrans.
Qed.

(** ** Devices of a well-formed worker *)

Lemma max_Z_ge x l : x ≤ max_Z x l ∧ ∀ y, y ∈ l → y ≤ max_Z x l.
Proof.
  unfold max_Z. revert x; induction l as [|z l IH]; intros x; cbn.
  - split; [lia|]. by intros y ?%elem_of_nil.
  - destruct (IH (Z.max x z)) as [H1 H2]. split; [lia|].
    intros y [->|?]%elem_of_cons; [lia|auto].
Qed.

Lemma max_Z_elem x l : max_Z x l ∈ x :: l.
Proof.
  unfold max_Z. revert x; induction l as [|z l IH]; intros x; cbn; [left|].
  pose proof (IH (Z.max x z)) as H. apply elem_of_cons in H as [->|H]; [|by do 2 right].
  destruct (Z.max_spec x z) as [[_ ->]|[_ ->]]; [right; left|left].
Qed.

(** The advertised single-device capacity is the memory of one of the devices and bounds
    the others; the advertised total is their sum. *)
Lemma wf_spec_devices s : wf_WorkerSpec s → accelerators s ≠ [] →
  (∃ d, d ∈ accelerators s ∧ ad_memory_mb d = max_single_gpu_vram_mb (resources s)) ∧
  (∀ d, d ∈ accelerators s → ad_memory_mb d ≤ max_single_gpu_vram_mb (resources s)) ∧
  total_vram_mb (resources s) = sum_Z (ad_memory_mb <$> accelerators s) ∧
  ad_uuid <$> accelerators s = gpu_uuids s.
Proof.
  intros (_ & _ & _ & _ & _ & _ & _ & _ & Hc) Hne.
  destruct (accelerators s) as [|d l]; [done|]. unfold check_accelerators in Hc. simp_res.
  bools. repeat match goal with H : (_ =? _) = true |- _ => apply Z.eqb_eq in H end.
  match goal with H : max_Z _ _ = _ |- _ => rewrite <- H; clear H end.
  split_and!; [| |by symmetry|done].
  - pose proof (max_Z_elem (ad_memory_mb d) (ad_memory_mb <$> l)) as Hm.
    change (max_Z (ad_memory_mb d) (ad_memory_mb <$> l) ∈ ad_memory_mb <$> d :: l) in Hm.
    apply list_elem_of_fmap in Hm as (d' & ? & ?). eauto.
  - pose proof (max_Z_ge (ad_memory_mb d) (ad_memory_mb <$> l)) as [Hd Hl].
    intros d' [->|Hin]%elem_of_cons; [done|]. by apply Hl, list_elem_of_fmap_2.
Qed.

(** ** Properties *)

(** Property C40: whatever [WorkerSpec.__post_init__] accepts is well-formed (identity and
    class stripped and non-blank, GPU identities distinct, labels normalised, the
    accelerator list consistent with the resource shape), and rebuilding a worker from its
    own fields is the identity: normalisation is idempotent. *)
Theorem mk_WorkerSpec_normalises id class res gpus accs caps labs s :
  wf_ResourceShape res → Forall wf_AcceleratorDevice accs →
  mk_WorkerSpec id class res gpus accs caps labs = Ok s →
  wf_WorkerSpec s ∧
  mk_WorkerSpec (worker_id s) (worker_class s) (resources s) (StrIter (gpu_uuids s))
    (accelerators s) (StrIter (sorted_strings (elements (capabilities s)))) (labels s) = Ok s.
Proof.
  intros Hres Haccs H. assert (wf_WorkerSpec s) as Hwf.
  { unfold mk_WorkerSpec in H. simp_res.
    repeat match goal with
    | H : _unique_strings _ _ = Ok _ |- _ => apply unique_strings_wf in H
    | H : _normalize_labels _ = Ok _ |- _ => apply normalize_labels_wf in H
    | H : _require_nonblank _ _ = Ok _ |- _ => apply require_nonblank_nonblank in H
    | H : (_ =? _) = true |- _ => apply Z.eqb_eq in H
    end.
    unfold wf_WorkerSpec; cbn [worker_id worker_class resources gpu_uuids accelerators
      capabilities labels].
    split_and!; try done.
    match goal with H : unique_nonblank ?l |- Forall _ (elements (list_to_set ?l)) =>
      by apply list_to_set_nonblank, H end. }
  split; [done|]. apply mk_WorkerSpec_id; [done|]. apply sorted_strings_Permutation.
Qed.

Definition example_shape : ResourceShape :=
  {| gpu_count := 2; total_vram_mb := 24; max_single_gpu_vram_mb := 12 |}.
Definition example_device (u : string) (m : Z) : AcceleratorDevice :=
  {| ad_uuid := u; ad_memory_mb := m; ad_compute_capability := None; ad_device_class := None |}.
Definition example_spec : WorkerSpec :=
  {| worker_id := "w1"; worker_class := "gpu"; resources := example_shape;
     gpu_uuids := ["GPU-a"; "GPU-b"];
     accelerators := [example_device "GPU-a" 12; example_device "GPU-b" 12];
     capabilities := {["debug.echo"]}; labels := [("zone", "a")] |}.

Lemma example_device_wf u m : nonblank u → 0 < m → wf_AcceleratorDevice (example_device u m).
Proof. intros. split_and!; done. Qed.

Lemma example_devices_wf : Forall wf_AcceleratorDevice (accelerators example_spec).
Proof.
  apply Forall_cons; split; [|apply Forall_singleton];
    (apply example_device_wf; [vm_decide|lia]).
Qed.

#[export] Instance unique_nonblank_dec l : Decision (unique_nonblank l).
Proof. unfold unique_nonblank; apply _. Defined.

Lemma example_spec_wf : wf_WorkerSpec example_spec.
Proof.
  split; [vm_decide|]. split; [vm_decide|]. split; [vm_decide|]. split; [vm_decide|].
  split.
  { split; [vm_decide|]. intros k v. cbn. destruct (decide (k = "zone")) as [->|]; [|done].
    intros [= <-]. split; vm_decide. }
  split; [done|]. split; [right; cbn; lia|]. split; [|done]. apply example_devices_wf.
Qed.

Lemma mk_WorkerSpec_normalises_witness :
  wf_WorkerSpec example_spec ∧
  mk_WorkerSpec (worker_id example_spec) (worker_class example_spec) (resources example_spec)
    (StrIter (gpu_uuids example_spec)) (accelerators example_spec)
    (StrIter (sorted_strings (elements (capabilities example_spec)))) (labels example_spec)
  = Ok example_spec.
Proof.
  apply (mk_WorkerSpec_normalises " w1" "gpu " example_shape (StrIter ["GPU-a"; "GPU-b "])
    [example_device "GPU-a" 12; example_device "GPU-b" 12] (OneStr "debug.echo")
    [("zone", " a")]).
  - right. cbn. lia.
  - apply example_devices_wf.
  - vm_compute. reflexivity.
Defined.

(** A compute capability is accepted only in the form [major] or [major.minor]
    and is rendered canonically: normalising twice is normalising once, and
    [compute_capability_key] of a canonical value returns the two numbers that were
    printed. *)
Theorem normalize_cc_roundtrip c c' : normalize_compute_capability c = Ok c' →
  normalize_compute_capability c' = Ok c' ∧
  ∃ major minor, c' = str_of_N major +:+ "." +:+ str_of_N minor ∧
                 compute_capability_key c = Ok (major, minor).
Proof.
  intros H. pose proof (normalize_cc_canonical _ _ H) as Hc.
  split; [by apply normalize_cc_id|]. destruct Hc as (major & minor & -> & H1 & H2).
  exists major, minor. split; [done|]. unfold compute_capability_key. rewrite H. cbn.
  unfold split1_char. rewrite partition_canonical. cbn. by rewrite !int_of_digits_str.
Qed.

Lemma normalize_cc_roundtrip_witness :
  normalize_compute_capability "8.6" = Ok "8.6" ∧
  ∃ major minor, "8.6" = str_of_N major +:+ "." +:+ str_of_N minor ∧
                 compute_capability_key " 08.06 " = Ok (major, minor).
Proof. apply (normalize_cc_roundtrip " 08.06 " "8.6"). vm_compute. reflexivity. Defined.
