(* ===== verification/Json.v ===== *)
(** * JSON text

    The part of Python's [json] module the setup plans use:
    [json.dumps(v, sort_keys=True, separators=(",", ":"), ensure_ascii=False)].  Sorting the
    keys is a pass of its own ([sort_keys]); the text of a value is then a prefix code
    ([render_inj]), so equal texts are equal values up to the order of keys.  The [repr] of
    a float is a parameter. *)

From S2P Require Import Prelude PyStr PyDict PyVal.
From Stdlib Require Import SpecFloat.

(** ** Sorted keys *)

Section items.
Context {V : Type}.
Implicit Types (d : dict V).

(** [sorted(d.items(), key=lambda pair: pair[0])]: a stable sort. *)
Fixpoint insert_item (k : string) (v : V) d : dict V :=
  match d with
  | [] => [(k, v)]
  | (k', v') :: d' =>
      if decide (String.le k k') then (k, v) :: d else (k', v') :: insert_item k v d'
  end.
Fixpoint sort_items d : dict V :=
  match d with [] => [] | (k, v) :: d' => insert_item k v (sort_items d') end.

Definition key_le (a b : string * V) : Prop := String.le a.1 b.1.

Lemma insert_item_perm k v d : insert_item k v d ≡ₚ (k, v) :: d.
Proof.
  induction d as [|[k' v'] d IH]; cbn; [done|]. destruct (decide _); [done|].
  rewrite IH. apply perm_swap.
Qed.
Lemma sort_items_perm d : sort_items d ≡ₚ d.
Proof. induction d as [|[k v] d IH]; cbn; [done|]. by rewrite insert_item_perm, IH. Qed.

Lemma insert_item_sorted k v d : StronglySorted key_le d → StronglySorted key_le (insert_item k v d).
Proof.
  induction 1 as [|[k' v'] d Hd IH Hall]; cbn; [by repeat constructor|].
  destruct (decide (String.le k k')) as [Hle|Hn].
  - constructor; [by constructor|]. constructor; [done|].
    eapply Forall_impl; [exact Hall|]. intros [k2 v2] H. unfold key_le in *; cbn in *. by etrans.
  - constructor; [done|]. apply Forall_forall. intros x Hx.
    rewrite insert_item_perm in Hx. apply elem_of_cons in Hx as [->|Hx].
    + unfold key_le; cbn. destruct (total String.le k k'); done.
    + rewrite Forall_forall in Hall. by apply Hall.
Qed.
Lemma sort_items_sorted d : StronglySorted key_le (sort_items d).
Proof. induction d as [|[k v] d IH]; cbn; [constructor|by apply insert_item_sorted]. Qed.

Lemma sort_items_id d : StronglySorted key_le d → sort_items d = d.
Proof.
  induction 1 as [|[k v] d Hd IH Hall]; cbn; [done|]. rewrite IH.
  destruct d as [|[k' v'] d]; [done|]. cbn. apply Forall_cons in Hall as [Hk _].
  by rewrite decide_True.
Qed.

Lemma sort_items_idemp d : sort_items (sort_items d) = sort_items d.
Proof. apply sort_items_id, sort_items_sorted. Qed.

Lemma dict_wf_sort_items d : dict_wf d → dict_wf (sort_items d).
Proof. unfold dict_wf, dkeys. by rewrite sort_items_perm. Qed.

Lemma dget_sort_items k d : dict_wf d → dget k (sort_items d) = dget k d.
Proof.
  intros Hwf. destruct (dget k d) as [v|] eqn:E.
  - apply dget_In; [by apply dict_wf_sort_items|]. rewrite sort_items_perm. by apply dget_In.
  - apply dget_None. apply dget_None in E. unfold dkeys in *. by rewrite sort_items_perm.
Qed.

(** Sorting sees keys only. *)
End items.

Lemma insert_item_fmap {V W} (f : V → W) k v d :
  insert_item k (f v) (prod_map id f <$> d) = prod_map id f <$> insert_item k v d.
Proof. induction d as [|[k' v'] d IH]; cbn; [done|]. destruct (decide _); cbn; [done|]. by rewrite IH. Qed.
Lemma sort_items_fmap {V W} (f : V → W) d :
  sort_items (prod_map id f <$> d) = prod_map id f <$> sort_items d.
Proof. induction d as [|[k v] d IH]; cbn; [done|]. by rewrite IH, insert_item_fmap. Qed.

(** The value with the keys of every dictionary in it sorted. *)
Fixpoint sort_keys (v : pyval) : pyval :=
  match v with
  | PList l => PList (map sort_keys l)
  | PDict d => PDict (sort_items (map (λ kv, (kv.1, sort_keys kv.2)) d))
  | _ => v
  end.

Lemma sort_keys_idemp v : sort_keys (sort_keys v) = sort_keys v.
Proof.
  induction v as [| | | | |l IH|d IH] using pyval_nested_ind; cbn; try done; f_equal.
  - rewrite map_map. apply map_ext_in. intros x Hx. rewrite Forall_forall in IH.
    apply IH. by apply list_elem_of_In.
  - assert (map (λ kv, (kv.1, sort_keys kv.2)) (sort_items (map (λ kv, (kv.1, sort_keys kv.2)) d))
            = sort_items (map (λ kv, (kv.1, sort_keys kv.2)) d)) as ->;
      [|apply sort_items_idemp].
    rewrite <-(map_id (sort_items _)) at 2. apply map_ext_in.
    intros [k x] Hx%list_elem_of_In. rewrite sort_items_perm in Hx. cbn.
    apply list_elem_of_In, in_map_iff in Hx as ([k' y] & [= <- <-] & Hy).
    rewrite Forall_forall in IH. apply list_elem_of_In, IH in Hy. cbn in Hy. by rewrite Hy.
Qed.

(** ** The text *)

Definition quotation : ascii := "034".
Definition backslash : ascii := "092".
Definition hex_digit (n : N) : ascii :=
  ascii_of_N (if (n <? 10)%N then 48 + n else 87 + n)%N.

(** The escape of one character, as [json.encoder.ESCAPE] has it. *)
Definition escape_char (c : ascii) : string :=
  if bool_decide (c = quotation) then String backslash (String quotation EmptyString)
  else if bool_decide (c = backslash) then String backslash (String backslash EmptyString)
  else if bool_decide (c = "010"%char) then String backslash "n"
  else if bool_decide (c = "013"%char) then String backslash "r"
  else if bool_decide (c = "009"%char) then String backslash "t"
  else if bool_decide (c = "012"%char) then String backslash "f"
  else if bool_decide (c = "008"%char) then String backslash "b"
  else if (N_of_ascii c <? 32)%N then
    String backslash ("u00" +:+ String (hex_digit (N_of_ascii c / 16))
                                  (String (hex_digit (N_of_ascii c mod 16)) EmptyString))
  else String c EmptyString.

Fixpoint escape (s : string) : string :=
  match s with EmptyString => EmptyString | String c s' => escape_char c +:+ escape s' end.
Definition quote (s : string) : string :=
  String quotation (escape s +:+ String quotation EmptyString).

Section text.
Variable float_repr : spec_float → string.

Fixpoint render (v : pyval) : string :=
  match v with
  | PNone => "null"
  | PBool true => "true"
  | PBool false => "false"
  | PInt z => str_of_Z z
  | PFloat f => float_repr f
  | PStr s => quote s
  | PList l => "[" +:+ join "," (map render l) +:+ "]"
  | PDict d => "{" +:+ join "," (map (λ kv, quote kv.1 +:+ ":" +:+ render kv.2) d) +:+ "}"
  end.

(** [json.dumps(v, sort_keys=True, separators=(",", ":"), ensure_ascii=False)]. *)
Definition dumps (v : pyval) : string := render (sort_keys v).
End text.

(** ** Equal texts, equal values *)

Definition terminated (s : string) : Prop :=
  match s with EmptyString => True | String c _ => c ∈ [","; "]"; "}"]%char end.
Definition atom_char (c : ascii) : bool :=
  negb (bool_decide (c ∈ [","; "]"; "}"; "["; "{"; quotation]%char)).
Definition atom (s : string) : Prop := s ≠ EmptyString ∧ all_chars atom_char s = true.

Lemma terminated_not_atom c r : terminated (String c r) → atom_char c = true → False.
Proof.
  unfold atom_char. cbn. intros Ht Ha. bools. apply Ha. set_solver.
Qed.

(** Two atoms that end where a value ends are read alike. *)
Lemma atom_span a b r r' :
  all_chars atom_char a = true → all_chars atom_char b = true →
  terminated r → terminated r' → a +:+ r = b +:+ r' → a = b ∧ r = r'.
Proof.
  revert b. induction a as [|c a IH]; intros [|c' b] Ha Hb Hr Hr'; cbn in *.
  - done.
  - rewrite append_nil_l, append_cons. intros ->. bools.
    exfalso. by eapply terminated_not_atom.
  - rewrite append_nil_l, append_cons. intros <-. bools.
    exfalso. by eapply terminated_not_atom.
  - rewrite !append_cons. intros [= <- H]. bools.
    destruct (IH b) as [-> ->]; auto.
Qed.

(** One escaped character, read back. *)
Definition hex_value (c : ascii) : N :=
  let n := N_of_ascii c in if (n <? 58)%N then (n - 48)%N else (n - 87)%N.
Definition unescape_char (s : string) : option (ascii * string) :=
  match s with
  | EmptyString => None
  | String c r =>
      if bool_decide (c = quotation) then None
      else if bool_decide (c = backslash) then
        match r with
        | String "u" (String _ (String _ (String a (String b r')))) =>
            Some (ascii_of_N (hex_value a * 16 + hex_value b), r')
        | String "n" r' => Some ("010"%char, r')
        | String "r" r' => Some ("013"%char, r')
        | String "t" r' => Some ("009"%char, r')
        | String "f" r' => Some ("012"%char, r')
        | String "b" r' => Some ("008"%char, r')
        | String x r' => Some (x, r')
        | EmptyString => None
        end
      else Some (c, r)
  end.

Lemma unescape_escape c r : unescape_char (escape_char c +:+ r) = Some (c, r).
Proof. revert c. by intros [[] [] [] [] [] [] [] []]. Qed.

Lemma quote_inj s s' r r' : quote s +:+ r = quote s' +:+ r' → s = s' ∧ r = r'.
Proof.
  unfold quote. rewrite !append_cons. intros [= H]. revert s' H.
  induction s as [|c s IH]; intros [|c' s']; cbn; rewrite ?append_nil_l, ?append_cons; intros H.
  - by injection H.
  - exfalso. rewrite !append_assoc in H. apply (f_equal unescape_char) in H.
    by rewrite unescape_escape in H.
  - exfalso. rewrite !append_assoc in H. apply (f_equal unescape_char) in H.
    by rewrite unescape_escape in H.
  - rewrite !append_assoc in H. apply (f_equal unescape_char) in H.
    rewrite !unescape_escape in H. injection H as <- H.
    rewrite <-!append_assoc in H. destruct (IH s') as [-> ->]; done.
Qed.

(** A text that only its own value starts, up to a terminator. *)
Definition prefix_code {A} (f : A → string) (x : A) : Prop :=
  ∀ y r r', terminated r → terminated r' → f x +:+ r = f y +:+ r' → x = y ∧ r = r'.
Definition starts_open {A} (f : A → string) : Prop :=
  ∀ x, ∃ c s, f x = String c s ∧ c ∉ ["]"; "}"]%char.

Lemma comma_not_close : ","%char ∉ ["]"; "}"]%char.
Proof. vm_decide. Qed.

(** A joined sequence is read back element by element. *)
Lemma join_code {A} (f : A → string) (close : ascii) l :
  close ∈ ["]"; "}"]%char → starts_open f → Forall (prefix_code f) l →
  ∀ l' r r', join "," (map f l) +:+ String close r = join "," (map f l') +:+ String close r' →
  l = l' ∧ r = r'.
Proof.
  intros Hc Ho. 
  assert (∀ r, terminated (String close r)) as Ht by (intros; cbn; set_solver).
  assert (∀ x s r, f x +:+ s = String close r → False) as Hne.
  { intros x s r. destruct (Ho x) as (c & t & -> & Hn). rewrite append_cons. by intros [= -> _]. }
  induction 1 as [|x l Hx _ IH]; intros l' r r'.
  - destruct l' as [|y [|z l']]; cbn -[String.append]; rewrite ?append_nil_l.
    + by intros [= ->].
    + intros H; symmetry in H; by apply Hne in H.
    + rewrite !append_assoc. intros H; symmetry in H; by apply Hne in H.
  - destruct l' as [|y l'].
    { destruct l; cbn -[String.append]; rewrite ?append_assoc, append_nil_l; by intros ?%Hne. }
    assert (∀ t, terminated (String "," t)) as Hcomma by (intros; left).
    destruct l as [|x2 l], l' as [|y2 l']; cbn -[String.append]; rewrite ?append_assoc; intros H.
    + apply Hx in H as [-> [= ->]]; auto.
    + apply Hx in H as [_ H]; [|apply Ht|apply Hcomma].
      rewrite append_cons in H. injection H as H _. subst close. by apply comma_not_close in Hc.
    + apply Hx in H as [_ H]; [|apply Hcomma|apply Ht].
      rewrite append_cons in H. injection H as H _. subst close. by apply comma_not_close in Hc.
    + apply Hx in H as [-> H]; [|apply Hcomma..].
      rewrite !append_cons, !append_nil_l in H. injection H as H.
      destruct (IH (y2 :: l') r r' H) as [[= -> ->] ->]. done.
Qed.

Lemma str_of_Z_atom z : atom (str_of_Z z).
Proof.
  assert (∀ n, atom (str_of_N n)) as Hn.
  { intros n. split; [apply str_of_N_nonempty|].
    eapply (all_chars_impl is_digit); [|apply string_of_uint_digits].
    by intros [[] [] [] [] [] [] [] []]. }
  destruct z as [|p|p]; [apply (Hn 0%N)|apply (Hn (N.pos p))|]. split; [done|].
  cbn. apply (Hn (N.pos p)).
Qed.

Lemma str_of_Z_inj z z' : str_of_Z z = str_of_Z z' → z = z'.
Proof.
  assert (∀ n s, str_of_N n = String "-" s → False) as Hm.
  { intros n s H. pose proof (string_of_uint_digits (N.to_uint n)) as Hd.
    unfold str_of_N in H. by rewrite H in Hd. }
  destruct z as [|p|p], z' as [|q|q]; unfold str_of_Z; intros H;
    try (by apply Hm in H); try (by symmetry in H; apply Hm in H);
    try (injection H as H); apply str_of_N_inj in H; lia.
Qed.

(** What the [repr] of a float must be for the text to be unambiguous: [repr] separates
    floats, has no JSON punctuation, and is neither a literal nor an integer. *)
Class FloatRepr (float_repr : spec_float → string) := {
  float_repr_inj f g : float_repr f = float_repr g → f = g;
  float_repr_atom f : atom (float_repr f);
  float_repr_literal f : float_repr f ∉ ["null"; "true"; "false"];
  float_repr_int f z : float_repr f ≠ str_of_Z z;
}.

Section render.
Context (float_repr : spec_float → string) {FR : FloatRepr float_repr}.
Local Abbreviation render := (render float_repr).

Definition is_atom (v : pyval) : bool :=
  match v with PStr _ | PList _ | PDict _ => false | _ => true end.

Lemma render_atom v : is_atom v = true → atom (render v).
Proof.
  destruct v as [|[]|z|f| | |]; try done; intros _.
  - apply str_of_Z_atom.
  - apply (float_repr_atom f).
Qed.

Lemma str_of_Z_literal z : str_of_Z z ∉ ["null"; "true"; "false"].
Proof.
  assert (∀ n c s, str_of_N n = String c s → is_digit c = true) as Hd.
  { intros n c s H. pose proof (string_of_uint_digits (N.to_uint n)) as E.
    unfold str_of_N in H. rewrite H in E. cbn in E. by bools. }
  assert (∀ c s, str_of_Z z = String c s → is_digit c = true ∨ c = "-"%char) as Hh.
  { intros c s H. destruct z as [|p|p]; [left; by apply (Hd 0%N c s)|left; by apply (Hd (N.pos p) c s)|].
    right. by injection H. }
  intros H. repeat (apply elem_of_cons in H as [H|H]); [..|by apply elem_of_nil in H];
    by apply Hh in H as [H|H].
Qed.

Lemma render_atom_inj v w :
  is_atom v = true → is_atom w = true → render v = render w → v = w.
Proof.
  assert (∀ x, x ∉ ["null"; "true"; "false"] → x ≠ "null" ∧ x ≠ "true" ∧ x ≠ "false") as Hl
    by (intros; set_solver).
  assert (∀ z, str_of_Z z ≠ "null" ∧ str_of_Z z ≠ "true" ∧ str_of_Z z ≠ "false") as Hz
    by (intros; by apply Hl, str_of_Z_literal).
  assert (∀ f, float_repr f ≠ "null" ∧ float_repr f ≠ "true" ∧ float_repr f ≠ "false") as Hf
    by (intros; apply Hl, float_repr_literal).
  destruct v as [|[]|z|f| | |], w as [|[]|z'|g| | |]; try done; cbn; intros _ _ H;
    repeat match goal with
    | H : context [str_of_Z ?z] |- _ => lazymatch goal with
        | _ : str_of_Z z ≠ "null" |- _ => fail | _ => destruct (Hz z) as (? & ? & ?) end
    | H : context [float_repr ?z] |- _ => lazymatch goal with
        | _ : float_repr z ≠ "null" |- _ => fail | _ => destruct (Hf z) as (? & ? & ?) end
    end; try congruence.
  - by apply str_of_Z_inj in H as ->.
  - symmetry in H. by apply float_repr_int in H.
  - by apply float_repr_int in H.
  - by apply float_repr_inj in H as ->.
Qed.

(** How a text starts tells which kind of value it is. *)
Lemma render_head v : ∃ c s, render v = String c s ∧
  match v with
  | PStr _ => c = quotation
  | PList _ => c = "["%char
  | PDict _ => c = "{"%char
  | _ => atom_char c = true
  end.
Proof.
  destruct (is_atom v) eqn:E.
  - destruct (render_atom v E) as [Hn Ha]. destruct (render v) as [|c s]; [done|].
    exists c, s. split; [done|]. cbn in Ha. bools. destruct v; done.
  - destruct v; try done; cbn; unfold quote; rewrite ?append_cons; eauto.
Qed.

Lemma render_open : starts_open render.
Proof.
  intros v. destruct (render_head v) as (c & s & H & Hc). exists c, s. split; [done|].
  assert (atom_char c = true → c ∉ ["]"; "}"]%char).
  { unfold atom_char. intros Ha%negb_true_iff%bool_decide_eq_false Hin. apply Ha.
    right. apply elem_of_cons in Hin as [->|Hin]; [left|right].
    apply elem_of_cons in Hin as [->|Hin]; [left|by apply elem_of_nil in Hin]. }
  destruct v; subst; auto; vm_decide.
Qed.

(** The text of a value is a prefix code. *)
Lemma render_code v : prefix_code render v.
Proof.
  induction v as [| | | |s|l IH|d IH] using pyval_nested_ind; intros w r r' Hr Hr' H.
  1-4: match goal with H : render ?v +:+ _ = _ |- _ =>
    destruct (is_atom w) eqn:Ew;
    [destruct (render_atom v eq_refl) as [_ Ha], (render_atom w Ew) as [_ Hb];
     destruct (atom_span _ _ _ _ Ha Hb Hr Hr' H) as [E ->];
     split; [by apply render_atom_inj|done]
    |destruct (render_head v) as (c & t & E & Hc), (render_head w) as (c' & t' & E' & Hc');
     rewrite E, E', !append_cons in H; injection H as <- H; exfalso;
     destruct w; subst; done] end.
  - destruct (render_head w) as (c & t & E & Hc).
    pose proof H as H'. rewrite E in H'. cbn in H'. unfold quote in H'. rewrite !append_cons in H'.
    injection H' as <- _. destruct w as [|[]| | |s'| |]; try done.
    by apply quote_inj in H as [-> ->].
  - destruct (render_head w) as (c & t & E & Hc).
    pose proof H as H'. rewrite E in H'. cbn in H'. rewrite !append_cons in H'.
    injection H' as <- _. destruct w as [|[]| | | |l'|]; try done. clear E Hc.
    cbn -[String.append] in H. rewrite !append_cons, !append_nil_l, !append_assoc in H.
    injection H as H. rewrite !append_cons, !append_nil_l in H.
    apply join_code in H as [-> ->]; [done|left|apply render_open|done].
  - destruct (render_head w) as (c & t & E & Hc).
    pose proof H as H'. rewrite E in H'. cbn in H'. rewrite !append_cons in H'.
    injection H' as <- _. destruct w as [|[]| | | | |d']; try done. clear E Hc.
    cbn -[String.append] in H. rewrite !append_cons, !append_nil_l, !append_assoc in H.
    injection H as H. rewrite !append_cons, !append_nil_l in H.
    apply join_code in H as [-> ->]; [done|right; left| |].
    + intros [k x]. exists quotation. unfold quote. rewrite !append_cons. eexists. split; [done|]. vm_decide.
    + eapply Forall_impl; [exact IH|]. intros [k x] Hx [k' x'] r0 r0' Hr0 Hr0' H0. cbn in *.
      rewrite !append_assoc in H0. apply quote_inj in H0 as [-> H0].
      rewrite !append_cons, !append_nil_l in H0. injection H0 as H0.
      apply Hx in H0 as [-> ->]; done.
Qed.

Lemma render_inj v w : render v = render w → v = w.
Proof.
  intros H. apply (render_code v w EmptyString EmptyString); [done..|]. by rewrite H.
Qed.

(** Two values with one text are one value, up to the order of keys. *)
Lemma dumps_inj v w : dumps float_repr v = dumps float_repr w ↔ sort_keys v = sort_keys w.
Proof. split; [by intros H%render_inj|]. unfold dumps. by intros ->. Qed.
End render.

(** ** A [repr] that satisfies the laws

    The significand and the binary exponent, in decimal. *)

Definition exact_repr (f : spec_float) : string :=
  match f with
  | S754_nan => "NaN"
  | S754_infinity s => if s then "-Infinity" else "Infinity"
  | S754_zero s => if s then "-0.0" else "0.0"
  | S754_finite s m e =>
      (if s then "-" else EmptyString) +:+ str_of_N (N.pos m) +:+ String "e" (str_of_Z e)
  end.

Lemma str_of_N_no_e n : all_chars (λ a, negb (bool_decide (a = "e"%char))) (str_of_N n) = true.
Proof. eapply (all_chars_impl is_digit); [|apply string_of_uint_digits]. by intros [[] [] [] [] [] [] [] []]. Qed.

Lemma str_of_N_head n : ∃ c s, str_of_N n = String c s ∧ is_digit c = true.
Proof.
  pose proof (string_of_uint_digits (N.to_uint n)) as E. pose proof (str_of_N_nonempty n) as Hn.
  change (all_chars is_digit (str_of_N n) = true) in E. destruct (str_of_N n) as [|c s]; [done|].
  exists c, s. cbn in E. by bools.
Qed.

Lemma exact_repr_parts s m e s' m' e' :
  exact_repr (S754_finite s m e) = exact_repr (S754_finite s' m' e') → s = s' ∧ m = m' ∧ e = e'.
Proof.
  assert (∀ m m' e e', str_of_N (N.pos m) +:+ String "e" (str_of_Z e)
    = str_of_N (N.pos m') +:+ String "e" (str_of_Z e') → m = m' ∧ e = e') as Hb.
  { clear. intros m m' e e' H. apply (f_equal (partition_char "e")) in H.
    rewrite !partition_char_found in H by apply str_of_N_no_e.
    injection H as H1%str_of_N_inj H2%str_of_Z_inj. by injection H1 as ->. }
  assert (∀ m e, ∃ c t, str_of_N (N.pos m) +:+ String "e" (str_of_Z e) = String c t ∧
    is_digit c = true) as Hd.
  { clear. intros m e. destruct (str_of_N_head (N.pos m)) as (c & t & -> & H).
    eexists c, _. by rewrite append_cons. }
  cbn [exact_repr]. destruct s, s'; rewrite ?append_cons, ?append_nil_l; intros H.
  - injection H as H. destruct (Hb _ _ _ _ H) as [-> ->]; done.
  - destruct (Hd m' e') as (c & t & E & Hc). rewrite E in H. by injection H as <- _.
  - destruct (Hd m e) as (c & t & E & Hc). rewrite E in H. by injection H as -> _.
  - destruct (Hb _ _ _ _ H) as [-> ->]; done.
Qed.

(** An integer's text has no letter, a float's has one or a point. *)
Definition float_mark (c : ascii) : bool := negb (is_digit c || bool_decide (c = "-"%char)).
Lemma exact_repr_mark f : all_chars (λ c, negb (float_mark c)) (exact_repr f) = false.
Proof.
  destruct f as [[]|[]| |s m e]; try reflexivity. cbn [exact_repr].
  rewrite !all_chars_app. cbn [all_chars]. by rewrite !andb_false_r.
Qed.
Lemma str_of_Z_mark z : all_chars (λ c, negb (float_mark c)) (str_of_Z z) = true.
Proof.
  assert (∀ n, all_chars (λ c, negb (float_mark c)) (str_of_N n) = true) as Hn.
  { intros n. eapply (all_chars_impl is_digit); [|apply string_of_uint_digits].
    by intros [[] [] [] [] [] [] [] []]. }
  destruct z; cbn [str_of_Z all_chars]; [apply (Hn 0%N)|apply (Hn (N.pos _))|apply (Hn (N.pos _))].
Qed.

#[export] Instance exact_repr_lawful : FloatRepr exact_repr.
Proof.
  assert (∀ s m e, ∃ c t, exact_repr (S754_finite s m e) = String c t ∧
    (is_digit c = true ∨ (c = "-"%char ∧ ∃ d u, t = String d u ∧ is_digit d = true))) as Hh.
  { intros s m e. destruct (str_of_N_head (N.pos m)) as (c & t & E & H). cbn [exact_repr].
    rewrite E. destruct s; rewrite ?append_cons, ?append_nil_l; eauto 10. }
  split.
  - assert (∀ s m e, all_chars (λ a, negb (bool_decide (a = "e"%char)))
      (exact_repr (S754_finite s m e)) = false) as He.
    { intros s m e. cbn [exact_repr]. rewrite !all_chars_app. cbn [all_chars].
      by rewrite !andb_false_r. }
    intros f g H. destruct f as [[]|[]| |s m e], g as [[]|[]| |s' m' e']; try done;
      try (pose proof (He s m e) as Hf; rewrite H in Hf; done);
      try (pose proof (He s' m' e') as Hf; rewrite <-H in Hf; done).
    by apply exact_repr_parts in H as (-> & -> & ->).
  - intros f. destruct f as [[]|[]| |s m e]; try (split; [done|reflexivity]).
    split; [by destruct (Hh s m e) as (c & t & -> & _)|]. cbn [exact_repr].
    rewrite !all_chars_app. cbn [all_chars].
    change (str_of_N (N.pos m)) with (str_of_Z (Z.pos m)).
    rewrite (proj2 (str_of_Z_atom (Z.pos m))), (proj2 (str_of_Z_atom e)). by destruct s.
  - intros f. destruct f as [[]|[]| |s m e]; try vm_decide.
    destruct (Hh s m e) as (c & t & -> & Hc). intros H.
    repeat (apply elem_of_cons in H as [H|H]); [..|by apply elem_of_nil in H];
      injection H as -> _; by destruct Hc as [|[]].
  - intros f z H. pose proof (exact_repr_mark f) as Hf. rewrite H, str_of_Z_mark in Hf. done.
Qed.
