(* ===== verification/Scheduling.v ===== *)
(** * Worker eligibility matching

    Models [src/src/astrumweaver/scheduling.py].  [match_worker] lists the requirements a
    worker misses, in the order the code tests them; [satisfies] says declaratively when a
    worker meets a job's requirements. *)

From S2P Require Import Prelude PyStr PyDict Contracts.

(** [MatchResult], scheduling.py lines 15-18. *)
Record MatchResult := { matched : bool; reasons : list string }.

(** The loop over [required_labels.items()], scheduling.py lines 32-34. *)
Definition label_reasons (worker : WorkerSpec) (required : dict string) : list string :=
  kv ← required;
  if bool_decide (dget kv.1 (labels worker) = Some kv.2) then [] else ["label:" +:+ kv.1].

(** [match_worker], scheduling.py lines 21-47. *)
Definition match_worker (worker : WorkerSpec) (requirements : JobRequirements) : MatchResult :=
  let res := resources worker in
  let reason (b : bool) (r : string) : list string := if b then [r] else [] in
  let reasons :=
    reason (match req_worker_class requirements with
            | Some c => str_truthy c && negb (bool_decide (worker_class worker = c))
            | None => false
            end) "worker_class"
    ++ reason (negb (bool_decide (required_capabilities requirements ⊆ capabilities worker)))
         "capabilities"
    ++ label_reasons worker (required_labels requirements)
    ++ reason (negb (bool_decide
         (required_gpu_uuids requirements ⊆ (list_to_set (gpu_uuids worker) : gset string))))
         "gpu_uuids"
    ++ reason (gpu_count res <? min_gpu_count requirements) "gpu_count"
    ++ reason (total_vram_mb res <? min_total_vram_mb requirements) "total_vram_mb"
    ++ reason (max_single_gpu_vram_mb res <? min_single_gpu_vram_mb requirements)
         "max_single_gpu_vram_mb" in
  {| matched := match reasons with [] => true | _ => false end; reasons := reasons |}.

(** [worker_matches], scheduling.py lines 50-53. *)
Definition worker_matches (worker : WorkerSpec) (requirements : JobRequirements) : bool :=
  matched (match_worker worker requirements).

(** ** Specification *)

Definition satisfies (w : WorkerSpec) (r : JobRequirements) : Prop :=
  (∀ c, req_worker_class r = Some c → c ≠ EmptyString → worker_class w = c) ∧
  required_capabilities r ⊆ capabilities w ∧
  (∀ k v, (k, v) ∈ required_labels r → dget k (labels w) = Some v) ∧
  (∀ u, u ∈ required_gpu_uuids r → u ∈ gpu_uuids w) ∧
  min_gpu_count r ≤ gpu_count (resources w) ∧
  min_total_vram_mb r ≤ total_vram_mb (resources w) ∧
  min_single_gpu_vram_mb r ≤ max_single_gpu_vram_mb (resources w).

(** [r'] asks for no more than [r]. *)
Definition weaker (r' r : JobRequirements) : Prop :=
  (∀ c, req_worker_class r' = Some c → req_worker_class r = Some c) ∧
  required_capabilities r' ⊆ required_capabilities r ∧
  (∀ kv, kv ∈ required_labels r' → kv ∈ required_labels r) ∧
  required_gpu_uuids r' ⊆ required_gpu_uuids r ∧
  min_gpu_count r' ≤ min_gpu_count r ∧ min_total_vram_mb r' ≤ min_total_vram_mb r ∧
  min_single_gpu_vram_mb r' ≤ min_single_gpu_vram_mb r.

(** ** Laws *)

Lemma if_reason_nil (b : bool) (r : string) : (if b then [r] else []) = [] ↔ b = false.
Proof. by destruct b. Qed.

Lemma label_reasons_nil w l :
  label_reasons w l = [] ↔ ∀ k v, (k, v) ∈ l → dget k (labels w) = Some v.
Proof.
  unfold label_reasons. induction l as [|[k v] l IH]; cbn.
  - split; [|done]. by intros _ k v ?%elem_of_nil.
  - case_bool_decide as E; cbn.
    + rewrite IH. split.
      * intros H k' v' [[= -> ->]|?]%elem_of_cons; auto.
      * intros H k' v' ?. apply H. by right.
    + split; [done|]. intros H. exfalso. apply E, H. left.
Qed.

Lemma worker_matches_spec w r : worker_matches w r = true ↔ satisfies w r.
Proof.
  unfold worker_matches, match_worker, satisfies. cbn [matched].
  match goal with |- (match ?l with _ => _ end) = true ↔ _ =>
    transitivity (l = []); [by destruct l|] end.
  rewrite !app_nil, label_reasons_nil, !if_reason_nil, !negb_false_iff, !bool_decide_eq_true,
    !Z.ltb_ge.
  assert ((match req_worker_class r with
           | Some c => str_truthy c && negb (bool_decide (worker_class w = c))
           | None => false
           end = false) ↔
          (∀ c, req_worker_class r = Some c → c ≠ EmptyString → worker_class w = c)) as ->.
  { destruct (req_worker_class r) as [c|]; [|by split]. rewrite andb_false_iff, negb_false_iff,
      bool_decide_eq_true, str_truthy_false. split.
    - intros [->|?] c' [= <-] ?; done.
    - intros H. destruct (decide (c = EmptyString)); [by left|right; by apply H]. }
  assert (required_gpu_uuids r ⊆ list_to_set (gpu_uuids w) ↔
          (∀ u, u ∈ required_gpu_uuids r → u ∈ gpu_uuids w)) as ->.
  { setoid_rewrite <- (elem_of_list_to_set (C:=gset string)). done. }
  tauto.
Qed.

#[export] Instance worker_matches_proper :
  Proper (WorkerSpec_equiv ==> eq ==> eq) worker_matches.
Proof.
  intros w w' (E1 & E2 & E3 & E4 & E5 & E6 & E7) r ? <-.
  apply eq_true_iff_eq. rewrite !worker_matches_spec. unfold satisfies.
  rewrite E2, E3, E4, E6. setoid_rewrite E7. done.
Qed.

(** Requirements that differ only in the order of their labels match the same workers. *)
Lemma worker_matches_requirements w r r' :
  wf_JobRequirements r → wf_JobRequirements r' → JobRequirements_equiv r r' →
  worker_matches w r = worker_matches w r'.
Proof.
  intros (_ & _ & _ & [Hl _] & _) (_ & _ & _ & [Hl' _] & _) (E1 & E2 & E3 & E4 & E5 & E6 & E7).
  apply eq_true_iff_eq. rewrite !worker_matches_spec. unfold satisfies.
  rewrite E1, E2, E4, E5, E6, E7.
  setoid_rewrite (dget_In _ Hl). setoid_rewrite (dget_In _ Hl'). by setoid_rewrite E3.
Qed.

(** ** Properties *)

(** [match_worker] reports no reason exactly when the worker meets every
    requirement of the job: class, capabilities, labels, GPU identities, GPU count, total
    and single-device VRAM. *)
Theorem match_worker_correct w r :
  (matched (match_worker w r) = true ↔ satisfies w r) ∧
  (matched (match_worker w r) = true ↔ reasons (match_worker w r) = []).
Proof.
  split; [apply worker_matches_spec|]. unfold match_worker. cbn.
  by match goal with |- (match ?l with _ => _ end) = true ↔ _ => destruct l end.
Qed.

(** For a worker that declares its devices, [match_worker] accepts a job that
    asks for a large single device only when one of the devices has that much memory: two
    small GPUs never pass for one large GPU. *)
Theorem no_vram_masquerade w r :
  wf_WorkerSpec w → accelerators w ≠ [] → worker_matches w r = true →
  ∃ d, d ∈ accelerators w ∧ min_single_gpu_vram_mb r ≤ ad_memory_mb d.
Proof.
  intros Hwf Hne Hm%worker_matches_spec.
  destruct (wf_spec_devices w Hwf Hne) as [(d & Hd & E) _].
  exists d. split; [done|]. rewrite E. apply Hm.
Qed.

Definition one_large_gpu : JobRequirements :=
  {| req_worker_class := Some "gpu"; required_capabilities := {["debug.echo"]};
     required_labels := [("zone", "a")]; required_gpu_uuids := ∅;
     min_gpu_count := 1; min_total_vram_mb := 20; min_single_gpu_vram_mb := 12 |}.

Lemma no_vram_masquerade_witness :
  ∃ d, d ∈ accelerators example_spec ∧ min_single_gpu_vram_mb one_large_gpu ≤ ad_memory_mb d.
Proof.
  apply no_vram_masquerade.
  - apply example_spec_wf.
  - done.
  - vm_compute. reflexivity.
Defined.

(** Matching is monotone: a worker that is eligible for a job stays eligible
    when the job asks for less. *)
Theorem match_monotone w r r' :
  weaker r' r → worker_matches w r = true → worker_matches w r' = true.
Proof.
  intros (W1 & W2 & W3 & W4 & W5 & W6 & W7). rewrite !worker_matches_spec.
  intros (S1 & S2 & S3 & S4 & S5 & S6 & S7). unfold satisfies.
  split_and!; [| |auto|auto|lia..].
  - intros c Hc. by apply S1, W1.
  - by etrans.
Qed.

Lemma match_monotone_witness : worker_matches example_spec no_requirements = true.
Proof.
  apply (match_monotone example_spec one_large_gpu).
  - split_and!; cbn; try lia; try done; [by intros kv ?%elem_of_nil].
  - vm_compute. reflexivity.
Defined.
