(* ===== verification/Models.v ===== *)
(** * Execution payloads and durable control-plane records

    Models [src/src/astrumweaver/execution.py] and
    [src/src/astrumweaver/control/models.py].  A [datetime] is its wall-clock reading in
    microseconds and its UTC offset; the instants the control plane stores are aware UTC
    datetimes, that is integers ([Z], microseconds since the epoch). *)

From S2P Require Import Prelude PyStr PyDict PyVal Contracts.

(** ** Time *)

(** A [datetime]: wall clock in microseconds, UTC offset when [tzinfo] is set. *)
Record datetime := { dt_wall : Z; dt_utcoffset : option Z }.

Definition utc (t : Z) : datetime := {| dt_wall := t; dt_utcoffset := Some 0 |}.
Definition is_aware (d : datetime) : bool := if dt_utcoffset d is Some _ then true else false.

(** [timedelta(seconds=n)]. *)
Definition seconds (n : Z) : Z := n * 1000000.

(** ** Execution payloads *)

(** [_nonblank], execution.py lines 16-20. *)
Definition _nonblank (value field_name : string) : result string :=
  let normalized := strip value in
  if str_truthy normalized then Ok normalized
  else Err (ValueError (field_name +:+ " must not be blank")).

Definition _nonblank_opt (value : option string) (field_name : string)
    : result (option string) :=
  match value with
  | None => Ok None
  | Some v => v' ← _nonblank v field_name; Ok (Some v')
  end.

(** [ArtifactRef], execution.py lines 27-36. *)
Record ArtifactRef := {
  art_uri : string;
  art_media_type : option string;
  art_digest : option string;
  art_size_bytes : option Z;
  art_name : option string;
  art_metadata : dict pyval;
}.

(** [ArtifactRef.__post_init__], execution.py lines 38-48. *)
Definition mk_ArtifactRef (uri : string) (media_type digest : option string)
    (size_bytes : option Z) (name : option string) (metadata : dict pyval)
    : result ArtifactRef :=
  uri' ← _nonblank uri "uri";
  media_type' ← _nonblank_opt media_type "media_type";
  digest' ← _nonblank_opt digest "digest";
  name' ← _nonblank_opt name "name";
  require (match size_bytes with Some n => 0 <=? n | None => true end)
    (ValueError "size_bytes must not be negative");;
  Ok {| art_uri := uri'; art_media_type := media_type'; art_digest := digest';
        art_size_bytes := size_bytes; art_name := name'; art_metadata := metadata |}.

(** [JobRequest], execution.py lines 51-62. *)
Record JobRequest := {
  jr_job_id : string;
  jr_capability : string;
  jr_payload : dict pyval;
  jr_metadata : dict pyval;
}.

(** [JobRequest.__post_init__], execution.py lines 64-68. *)
Definition mk_JobRequest (job_id capability : string) (payload metadata : dict pyval)
    : result JobRequest :=
  job_id' ← _nonblank job_id "job_id";
  capability' ← _nonblank capability "capability";
  Ok {| jr_job_id := job_id'; jr_capability := capability'; jr_payload := payload;
        jr_metadata := metadata |}.

(** [JobResult], execution.py lines 71-79. *)
Record JobResult := {
  res_outputs : dict pyval;
  res_artifacts : list ArtifactRef;
  res_metrics : dict pyval;
  res_text : option string;
  res_metadata : dict pyval;
}.

(** The metric checks of [JobResult.__post_init__], execution.py lines 93-97. *)
Fixpoint check_metrics (metrics : dict pyval) : result unit :=
  match metrics with
  | [] => Ok tt
  | (key, value) :: rest =>
      require (str_truthy (strip key)) (ValueError "metrics must use non-blank string keys");;
      require (match value with PInt _ | PFloat _ => true | _ => false end)
        (TypeError "metric values must be int or float");;
      check_metrics rest
  end.

(** [JobResult.__post_init__], execution.py lines 81-97. *)
Definition mk_JobResult (outputs : dict pyval) (artifacts : list ArtifactRef)
    (metrics : dict pyval) (text : option string) (metadata : dict pyval) : result JobResult :=
  check_metrics metrics;;
  Ok {| res_outputs := outputs; res_artifacts := artifacts; res_metrics := metrics;
        res_text := text; res_metadata := metadata |}.

(** [ResidencyItem], execution.py lines 100-107. *)
Record ResidencyItem := {
  ri_name : string;
  ri_kind : string;
  ri_accelerator_memory_bytes : option Z;
  ri_metadata : dict pyval;
}.

(** [ResidencyItem.__post_init__], execution.py lines 109-114. *)
Definition mk_ResidencyItem (name kind : string) (memory : option Z) (metadata : dict pyval)
    : result ResidencyItem :=
  name' ← _nonblank name "name";
  kind' ← _nonblank kind "kind";
  require (match memory with Some n => 0 <=? n | None => true end)
    (ValueError "accelerator_memory_bytes must not be negative");;
  Ok {| ri_name := name'; ri_kind := kind'; ri_accelerator_memory_bytes := memory;
        ri_metadata := metadata |}.

(** [ResidencyReport], execution.py lines 117-123. *)
Record ResidencyReport := {
  rr_items : list ResidencyItem;
  rr_observed_at : Z;
  rr_metadata : dict pyval;
}.

(** [ResidencyReport.__post_init__], execution.py lines 125-136: the instant is stored in UTC. *)
Definition mk_ResidencyReport (items : list ResidencyItem) (observed_at : datetime)
    (metadata : dict pyval) : result ResidencyReport :=
  match dt_utcoffset observed_at with
  | None => Err (ValueError "observed_at must be timezone-aware")
  | Some offset =>
      Ok {| rr_items := items; rr_observed_at := dt_wall observed_at - offset;
            rr_metadata := metadata |}
  end.

(** [ResidencyReport.accelerator_memory_bytes], execution.py lines 138-140. *)
Definition accelerator_memory_bytes (r : ResidencyReport) : Z :=
  sum_Z ((λ i, default 0 (ri_accelerator_memory_bytes i)) <$> rr_items r).

(** ** Control-plane records *)

(** [JobStatus], control/models.py lines 23-28. *)
Inductive JobStatus := QUEUED | RUNNING | SUCCEEDED | FAILED | CANCELLED.
#[export] Instance JobStatus_eq_dec : EqDecision JobStatus.
Proof. solve_decision. Defined.

(** [WorkerState], control/models.py lines 31-34. *)
Inductive WorkerState := ONLINE | DRAINING | OFFLINE.
#[export] Instance WorkerState_eq_dec : EqDecision WorkerState.
Proof. solve_decision. Defined.

(** [JobStatus.value] and [JobStatus(...)]. *)
Definition JobStatus_value (s : JobStatus) : string :=
  match s with
  | QUEUED => "queued" | RUNNING => "running" | SUCCEEDED => "succeeded"
  | FAILED => "failed" | CANCELLED => "cancelled"
  end.
Definition mk_JobStatus (v : string) : result JobStatus :=
  if bool_decide (v = "queued") then Ok QUEUED
  else if bool_decide (v = "running") then Ok RUNNING
  else if bool_decide (v = "succeeded") then Ok SUCCEEDED
  else if bool_decide (v = "failed") then Ok FAILED
  else if bool_decide (v = "cancelled") then Ok CANCELLED
  else Err (ValueError (v +:+ " is not a valid JobStatus")).

(** [WorkerState.value] and [WorkerState(...)]. *)
Definition WorkerState_value (s : WorkerState) : string :=
  match s with ONLINE => "online" | DRAINING => "draining" | OFFLINE => "offline" end.
Definition mk_WorkerState (v : string) : result WorkerState :=
  if bool_decide (v = "online") then Ok ONLINE
  else if bool_decide (v = "draining") then Ok DRAINING
  else if bool_decide (v = "offline") then Ok OFFLINE
  else Err (ValueError (v +:+ " is not a valid WorkerState")).

(** [WorkerRegistration], control/models.py lines 37-41. *)
Record WorkerRegistration := {
  reg_spec : WorkerSpec;
  reg_max_concurrency : Z;
  reg_metadata : dict pyval;
}.

(** [WorkerRegistration.__post_init__], control/models.py lines 43-46. *)
Definition mk_WorkerRegistration (spec : WorkerSpec) (max_concurrency : Z)
    (metadata : dict pyval) : result WorkerRegistration :=
  require (1 <=? max_concurrency) (ValueError "max_concurrency must be positive");;
  Ok {| reg_spec := spec; reg_max_concurrency := max_concurrency; reg_metadata := metadata |}.

(** [WorkerHeartbeat], control/models.py lines 49-57. *)
Record WorkerHeartbeat := {
  hb_state : option WorkerState;
  hb_active_job_id : option string;
  hb_lease_token : option string;
  hb_metadata : dict pyval;
}.
Definition empty_heartbeat : WorkerHeartbeat :=
  {| hb_state := None; hb_active_job_id := None; hb_lease_token := None; hb_metadata := [] |}.

(** [WorkerRecord], control/models.py lines 60-79. *)
Record WorkerRecord := {
  w_spec : WorkerSpec;
  w_max_concurrency : Z;
  w_state : WorkerState;
  w_active_jobs : Z;
  w_registered_at : Z;
  w_last_seen_at : Z;
  w_metadata : dict pyval;
}.
Definition w_id (w : WorkerRecord) : string := worker_id (w_spec w).

(** [JobSubmission], control/models.py lines 82-90. *)
Record JobSubmission := {
  sub_capability : string;
  sub_payload : dict pyval;
  sub_requirements : JobRequirements;
  sub_priority : Z;
  sub_max_attempts : Z;
  sub_idempotency_key : option string;
  sub_available_at : option datetime;
}.

(** [JobSubmission.__post_init__], control/models.py lines 92-103. *)
Definition mk_JobSubmission (capability : string) (payload : dict pyval)
    (requirements : JobRequirements) (priority max_attempts : Z)
    (idempotency_key : option string) (available_at : option datetime)
    : result JobSubmission :=
  let capability' := strip capability in
  require (str_truthy capability') (ValueError "capability must not be blank");;
  require (1 <=? max_attempts) (ValueError "max_attempts must be positive");;
  require (match idempotency_key with Some k => str_truthy (strip k) | None => true end)
    (ValueError "idempotency_key must not be blank");;
  require (match available_at with Some d => is_aware d | None => true end)
    (ValueError "available_at must be timezone-aware");;
  Ok {| sub_capability := capability'; sub_payload := payload;
        sub_requirements := requirements; sub_priority := priority;
        sub_max_attempts := max_attempts; sub_idempotency_key := idempotency_key;
        sub_available_at := available_at |}.

(** [JobRecord], control/models.py lines 106-137. *)
Record JobRecord := {
  j_job_id : string;
  j_capability : string;
  j_payload : dict pyval;
  j_requirements : JobRequirements;
  j_priority : Z;
  j_sequence : Z;
  j_status : JobStatus;
  j_attempts : Z;
  j_max_attempts : Z;
  j_idempotency_key : option string;
  j_created_at : Z;
  j_available_at : Z;
  j_updated_at : Z;
  j_assigned_worker_id : option string;
  j_lease_token : option string;
  j_lease_expires_at : option Z;
  j_started_at : option Z;
  j_finished_at : option Z;
  j_result : option JobResult;
  j_error : option (dict pyval);
}.

(** ** Laws *)

Lemma mk_JobStatus_value s : mk_JobStatus (JobStatus_value s) = Ok s.
Proof. by destruct s. Qed.
Lemma mk_WorkerState_value s : mk_WorkerState (WorkerState_value s) = Ok s.
Proof. by destruct s. Qed.

(** A submission as [__post_init__] leaves it. *)
Definition wf_JobSubmission (s : JobSubmission) : Prop :=
  nonblank (sub_capability s) ∧ 1 ≤ sub_max_attempts s ∧
  (∀ k, sub_idempotency_key s = Some k → strip k ≠ EmptyString) ∧
  (∀ d, sub_available_at s = Some d → is_aware d = true).

Lemma mk_JobSubmission_wf c p r pr m k a s :
  mk_JobSubmission c p r pr m k a = Ok s → wf_JobSubmission s.
Proof.
  unfold mk_JobSubmission. intros H. simp_res.
  repeat match goal with H : (_ <=? _) = true |- _ => apply Z.leb_le in H end.
  split; [|split; [done|]]; cbn.
  - split; [apply strip_stripped|by apply str_truthy_spec].
  - split; intros ? ->; [by apply str_truthy_spec|done].
Qed.
