(* ===== verification/Repository.v ===== *)
(** * The in-memory control repository

    Models [src/src/astrumweaver/control/repository.py]: the reference semantics of the
    control plane.  The three dictionaries and the sequence counter are the [repo] record;
    each method is a function from the state to the new state and the returned value, or
    the exception (no method mutates before it raises, so an error leaves the state as it
    was).  [uuid4()] is an argument of the methods that draw one; [now] is the datetime the
    caller passes or the clock reading that stands for [None].  The re-entrant lock makes
    every method one atomic step. *)

From S2P Require Import Prelude PyStr PyDict PyVal Contracts Scheduling Models.

(** ** State *)

(** [InMemoryControlRepository.__init__], control/repository.py lines 146-160. *)
Record repo := {
  r_worker_ttl_seconds : Z;
  r_lease_seconds : Z;
  r_workers : dict WorkerRecord;
  r_jobs : dict JobRecord;
  r_idempotency : dict string;
  r_sequence : Z;
}.

(** [InMemoryControlRepository.__init__], control/repository.py lines 149-160. *)
Definition mk_repo (worker_ttl_seconds lease_seconds : Z) : result repo :=
  require (1 <=? worker_ttl_seconds) (ValueError "worker_ttl_seconds must be positive");;
  require (1 <=? lease_seconds) (ValueError "lease_seconds must be positive");;
  Ok {| r_worker_ttl_seconds := worker_ttl_seconds; r_lease_seconds := lease_seconds;
        r_workers := []; r_jobs := []; r_idempotency := []; r_sequence := 0 |}.

Definition set_workers (s : repo) (ws : dict WorkerRecord) : repo :=
  {| r_worker_ttl_seconds := r_worker_ttl_seconds s; r_lease_seconds := r_lease_seconds s;
     r_workers := ws; r_jobs := r_jobs s; r_idempotency := r_idempotency s;
     r_sequence := r_sequence s |}.
Definition set_jobs (s : repo) (js : dict JobRecord) : repo :=
  {| r_worker_ttl_seconds := r_worker_ttl_seconds s; r_lease_seconds := r_lease_seconds s;
     r_workers := r_workers s; r_jobs := js; r_idempotency := r_idempotency s;
     r_sequence := r_sequence s |}.
(** The assignments [self._workers[k] = w] and [self._jobs[k] = j]. *)
Definition put_worker (k : string) (w : WorkerRecord) (s : repo) : repo :=
  set_workers s (dset k w (r_workers s)).
Definition put_job (k : string) (j : JobRecord) (s : repo) : repo :=
  set_jobs s (dset k j (r_jobs s)).

(** ** Module-level helpers *)

(** [_aware], control/repository.py lines 115-119: naive datetimes are read as UTC. *)
Definition _aware (value : datetime) : Z :=
  match dt_utcoffset value with
  | None => dt_wall value
  | Some offset => dt_wall value - offset
  end.

(** The [error] argument of [fail_job]: a string or a dictionary. *)
Inductive error_arg :=
  | ErrorText (s : string)
  | ErrorDict (d : dict pyval).

(** [_failure_payload], control/repository.py lines 122-127. *)
Definition _failure_payload (error : error_arg) (retryable : bool) : dict pyval :=
  match error with
  | ErrorText s => [("message", PStr s); ("retryable", PBool retryable)]
  | ErrorDict d => dset "retryable" (PBool retryable) d
  end.

(** [_submission_matches], control/repository.py lines 130-143. *)
Definition _submission_matches (record : JobRecord) (submission : JobSubmission) : bool :=
  if negb (bool_decide (j_capability record = sub_capability submission)) then false
  else if negb (dict_py_eqb (j_payload record) (sub_payload submission)) then false
  else if negb (JobRequirements_eqb (j_requirements record) (sub_requirements submission))
  then false
  else if negb (j_priority record =? sub_priority submission) then false
  else if negb (j_max_attempts record =? sub_max_attempts submission) then false
  else match sub_available_at submission with
       | Some d => j_available_at record =? _aware d
       | None => true
       end.

(** ** Record updates ([dataclasses.replace], [JobRecord.with_updates]) *)

Definition with_state (w : WorkerRecord) (st : WorkerState) (last_seen : Z) : WorkerRecord :=
  {| w_spec := w_spec w; w_max_concurrency := w_max_concurrency w; w_state := st;
     w_active_jobs := w_active_jobs w; w_registered_at := w_registered_at w;
     w_last_seen_at := last_seen; w_metadata := w_metadata w |}.
Definition with_active_jobs (w : WorkerRecord) (n : Z) : WorkerRecord :=
  {| w_spec := w_spec w; w_max_concurrency := w_max_concurrency w; w_state := w_state w;
     w_active_jobs := n; w_registered_at := w_registered_at w;
     w_last_seen_at := w_last_seen_at w; w_metadata := w_metadata w |}.

(** The update of [heartbeat_worker], control/repository.py lines 276-279. *)
Definition job_renewed (j : JobRecord) (expires timestamp : Z) : JobRecord :=
  {| j_job_id := j_job_id j; j_capability := j_capability j; j_payload := j_payload j;
     j_requirements := j_requirements j; j_priority := j_priority j;
     j_sequence := j_sequence j; j_status := j_status j; j_attempts := j_attempts j;
     j_max_attempts := j_max_attempts j; j_idempotency_key := j_idempotency_key j;
     j_created_at := j_created_at j; j_available_at := j_available_at j;
     j_updated_at := timestamp; j_assigned_worker_id := j_assigned_worker_id j;
     j_lease_token := j_lease_token j; j_lease_expires_at := Some expires;
     j_started_at := j_started_at j; j_finished_at := j_finished_at j;
     j_result := j_result j; j_error := j_error j |}.

(** The update of [claim_next_job], control/repository.py lines 385-395. *)
Definition job_claimed (j : JobRecord) (worker_id token : string) (expires timestamp : Z)
    : JobRecord :=
  {| j_job_id := j_job_id j; j_capability := j_capability j; j_payload := j_payload j;
     j_requirements := j_requirements j; j_priority := j_priority j;
     j_sequence := j_sequence j; j_status := RUNNING; j_attempts := j_attempts j + 1;
     j_max_attempts := j_max_attempts j; j_idempotency_key := j_idempotency_key j;
     j_created_at := j_created_at j; j_available_at := j_available_at j;
     j_updated_at := timestamp; j_assigned_worker_id := Some worker_id;
     j_lease_token := Some token; j_lease_expires_at := Some expires;
     j_started_at := Some timestamp; j_finished_at := None;
     j_result := j_result j; j_error := None |}.

(** The update of [complete_job], control/repository.py lines 446-455. *)
Definition job_completed (j : JobRecord) (res : JobResult) (timestamp : Z) : JobRecord :=
  {| j_job_id := j_job_id j; j_capability := j_capability j; j_payload := j_payload j;
     j_requirements := j_requirements j; j_priority := j_priority j;
     j_sequence := j_sequence j; j_status := SUCCEEDED; j_attempts := j_attempts j;
     j_max_attempts := j_max_attempts j; j_idempotency_key := j_idempotency_key j;
     j_created_at := j_created_at j; j_available_at := j_available_at j;
     j_updated_at := timestamp; j_assigned_worker_id := None;
     j_lease_token := None; j_lease_expires_at := None;
     j_started_at := j_started_at j; j_finished_at := Some timestamp;
     j_result := Some res; j_error := None |}.

(** The update [fail_job] and [recover_expired_jobs] share, control/repository.py lines 477-487. *)
Definition job_failed (j : JobRecord) (should_retry : bool) (error : dict pyval)
    (timestamp : Z) : JobRecord :=
  {| j_job_id := j_job_id j; j_capability := j_capability j; j_payload := j_payload j;
     j_requirements := j_requirements j; j_priority := j_priority j;
     j_sequence := j_sequence j; j_status := if should_retry then QUEUED else FAILED;
     j_attempts := j_attempts j;
     j_max_attempts := j_max_attempts j; j_idempotency_key := j_idempotency_key j;
     j_created_at := j_created_at j;
     j_available_at := if should_retry then timestamp else j_available_at j;
     j_updated_at := timestamp; j_assigned_worker_id := None;
     j_lease_token := None; j_lease_expires_at := None;
     j_started_at := if should_retry then None else j_started_at j;
     j_finished_at := if should_retry then None else Some timestamp;
     j_result := j_result j; j_error := Some error |}.

(** The update of [cancel_job], control/repository.py lines 506-513. *)
Definition job_cancelled (j : JobRecord) (timestamp : Z) : JobRecord :=
  {| j_job_id := j_job_id j; j_capability := j_capability j; j_payload := j_payload j;
     j_requirements := j_requirements j; j_priority := j_priority j;
     j_sequence := j_sequence j; j_status := CANCELLED; j_attempts := j_attempts j;
     j_max_attempts := j_max_attempts j; j_idempotency_key := j_idempotency_key j;
     j_created_at := j_created_at j; j_available_at := j_available_at j;
     j_updated_at := timestamp; j_assigned_worker_id := None;
     j_lease_token := None; j_lease_expires_at := None;
     j_started_at := j_started_at j; j_finished_at := Some timestamp;
     j_result := j_result j; j_error := j_error j |}.

(** ** Methods *)

(** [_active_job_count], control/repository.py lines 165-170. *)
Definition runs_on (wid : string) (j : JobRecord) : bool :=
  bool_decide (j_status j = RUNNING) && bool_decide (j_assigned_worker_id j = Some wid).
Definition _active_job_count (s : repo) (worker_id : string) : Z :=
  Z.of_nat (dcount (runs_on worker_id) (r_jobs s)).

(** [owns_resources], control/repository.py lines 181-181. *)
Definition owns_resources (w : WorkerRecord) : bool :=
  negb (bool_decide (w_state w = OFFLINE)) || (0 <? w_active_jobs w).

(** The test of the loop of [_assert_gpu_ownership_available], control/repository.py lines 178-185. *)
Definition gpu_conflict (requested : list string) (ignore : option string) (w : WorkerRecord)
    : bool :=
  negb (bool_decide (Some (w_id w) = ignore)) && owns_resources w
  && existsb (λ u, bool_decide (u ∈ gpu_uuids (w_spec w))) requested.

(** [_assert_gpu_ownership_available], control/repository.py lines 172-185. *)
Definition _assert_gpu_ownership_available (s : repo) (registration : WorkerRegistration)
    (ignore_worker_id : option string) : result unit :=
  let requested := gpu_uuids (reg_spec registration) in
  match requested with
  | [] => Ok tt
  | _ =>
      match List.find (gpu_conflict requested ignore_worker_id) (dvalues (r_workers s)) with
      | Some w => Err (ConflictError ("GPU identity overlaps with worker " +:+ w_id w))
      | None => Ok tt
      end
  end.

(** [register_worker], control/repository.py lines 187-216. *)
Definition register_worker (registration : WorkerRegistration) (now : datetime) (s : repo)
    : result (repo * WorkerRecord) :=
  let timestamp := _aware now in
  let id := worker_id (reg_spec registration) in
  let existing := dget id (r_workers s) in
  match existing with
  | Some w =>
      if 0 <? w_active_jobs w then
        require (WorkerSpec_eqb (reg_spec registration) (w_spec w))
          (ConflictError "worker resource/topology cannot change while jobs are active");;
        require (w_active_jobs w <=? reg_max_concurrency registration)
          (ConflictError "max_concurrency cannot be lower than active job count")
      else Ok tt
  | None => Ok tt
  end;;
  _assert_gpu_ownership_available s registration (Some id);;
  let record := {|
    w_spec := reg_spec registration;
    w_max_concurrency := reg_max_concurrency registration;
    w_state := ONLINE;
    w_active_jobs := _active_job_count s id;
    w_registered_at := match existing with Some w => w_registered_at w | None => timestamp end;
    w_last_seen_at := timestamp;
    w_metadata := reg_metadata registration |} in
  Ok (put_worker (w_id record) record s, record).

(** [get_worker], control/repository.py lines 218-223. *)
Definition get_worker (worker_id : string) (s : repo) : result WorkerRecord :=
  match dget worker_id (r_workers s) with
  | Some w => Ok w
  | None => Err (NotFoundError ("worker not found: " +:+ worker_id))
  end.

(** [set_worker_state], control/repository.py lines 225-246. *)
Definition set_worker_state (worker_id : string) (state : WorkerState) (now : datetime)
    (s : repo) : result (repo * WorkerRecord) :=
  let timestamp := _aware now in
  current ← get_worker worker_id s;
  (if bool_decide (state = OFFLINE) then Ok tt
   else
     registration ← mk_WorkerRegistration (w_spec current) (w_max_concurrency current)
                      (w_metadata current);
     _assert_gpu_ownership_available s registration (Some worker_id));;
  let updated := with_state current state timestamp in
  Ok (put_worker worker_id updated s, updated).

(** [get_job], control/repository.py lines 347-352. *)
Definition get_job (job_id : string) (s : repo) : result JobRecord :=
  match dget job_id (r_jobs s) with
  | Some j => Ok j
  | None => Err (NotFoundError ("job not found: " +:+ job_id))
  end.

(** [_assert_running], control/repository.py lines 402-417. *)
Definition _assert_running (job : JobRecord) (worker_id lease_token : string) (now : Z)
    : result unit :=
  require (bool_decide (j_status job = RUNNING))
    (ConflictError ("job " +:+ j_job_id job +:+ " is not running"));;
  require (bool_decide (j_assigned_worker_id job = Some worker_id))
    (ConflictError ("job " +:+ j_job_id job +:+ " is assigned to another worker"));;
  require (str_truthy lease_token && bool_decide (j_lease_token job = Some lease_token))
    (ConflictError ("job " +:+ j_job_id job +:+ " lease token is stale"));;
  require (match j_lease_expires_at job with Some e => now <? e | None => false end)
    (ConflictError ("job " +:+ j_job_id job +:+ " lease has expired")).

Definition opt_truthy (o : option string) : bool :=
  match o with Some x => str_truthy x | None => false end.

(** [heartbeat_worker], control/repository.py lines 248-292. *)
Definition heartbeat_worker (worker_id : string) (heartbeat : WorkerHeartbeat) (now : datetime)
    (s : repo) : result (repo * WorkerRecord) :=
  let timestamp := _aware now in
  current ← get_worker worker_id s;
  require (negb (bool_decide (w_state current = OFFLINE) &&
                 (bool_decide (hb_state heartbeat = Some ONLINE)
                  || bool_decide (hb_state heartbeat = Some DRAINING))))
    (ConflictError "offline worker must explicitly reacquire GPU ownership");;
  s1 ← (match hb_active_job_id heartbeat, hb_lease_token heartbeat with
        | None, None => Ok s
        | active_job_id, lease_token =>
            match active_job_id, lease_token with
            | Some job_id, Some token =>
                require (str_truthy job_id && str_truthy token)
                  (ConflictError "active_job_id and lease_token must be supplied together");;
                job ← get_job job_id s;
                _assert_running job worker_id token timestamp;;
                Ok (put_job (j_job_id job)
                      (job_renewed job (timestamp + seconds (r_lease_seconds s)) timestamp) s)
            | _, _ =>
                Err (ConflictError "active_job_id and lease_token must be supplied together")
            end
        end);
  let updated := {|
    w_spec := w_spec current;
    w_max_concurrency := w_max_concurrency current;
    w_state := default (w_state current) (hb_state heartbeat);
    w_active_jobs := _active_job_count s1 worker_id;
    w_registered_at := w_registered_at current;
    w_last_seen_at := timestamp;
    w_metadata := dmerge (w_metadata current) (hb_metadata heartbeat) |} in
  Ok (put_worker worker_id updated s1, updated).

(** The test of the loop of [expire_stale_workers], control/repository.py lines 302-303. *)
Definition stale (cutoff : Z) (w : WorkerRecord) : bool :=
  negb (bool_decide (w_state w = OFFLINE) || (cutoff <=? w_last_seen_at w)).

(** [expire_stale_workers], control/repository.py lines 294-307. *)
Definition expire_stale_workers (now : datetime) (s : repo) : repo * list WorkerRecord :=
  let timestamp := _aware now in
  let cutoff := timestamp - seconds (r_worker_ttl_seconds s) in
  foldl (λ '(s, expired) '(worker_id, worker),
    if stale cutoff worker then
      let updated := with_state worker OFFLINE (w_last_seen_at worker) in
      (put_worker worker_id updated s, expired ++ [updated])
    else (s, expired)) (s, []) (r_workers s).

(** The record built by [submit_job], control/repository.py lines 325-341. *)
Definition new_job (submission : JobSubmission) (job_id : string) (sequence timestamp : Z)
    : JobRecord :=
  {| j_job_id := job_id; j_capability := sub_capability submission;
     j_payload := sub_payload submission; j_requirements := sub_requirements submission;
     j_priority := sub_priority submission; j_sequence := sequence; j_status := QUEUED;
     j_attempts := 0; j_max_attempts := sub_max_attempts submission;
     j_idempotency_key := sub_idempotency_key submission; j_created_at := timestamp;
     j_available_at := match sub_available_at submission with
                       | Some d => _aware d | None => timestamp end;
     j_updated_at := timestamp; j_assigned_worker_id := None; j_lease_token := None;
     j_lease_expires_at := None; j_started_at := None; j_finished_at := None;
     j_result := None; j_error := None |}.

(** The insertion at the end of [submit_job], control/repository.py lines 324-345. *)
Definition insert_job (submission : JobSubmission) (uuid : string) (timestamp : Z) (s : repo)
    : repo * JobRecord :=
  let sequence := r_sequence s + 1 in
  let record := new_job submission uuid sequence timestamp in
  ({| r_worker_ttl_seconds := r_worker_ttl_seconds s; r_lease_seconds := r_lease_seconds s;
      r_workers := r_workers s; r_jobs := dset (j_job_id record) record (r_jobs s);
      r_idempotency :=
        match sub_idempotency_key submission with
        | Some k => if str_truthy k then dset k (j_job_id record) (r_idempotency s)
                    else r_idempotency s
        | None => r_idempotency s
        end;
      r_sequence := sequence |}, record).

(** [submit_job], control/repository.py lines 309-345. *)
Definition submit_job (submission : JobSubmission) (uuid : string) (now : datetime) (s : repo)
    : result (repo * JobRecord) :=
  let timestamp := _aware now in
  match (if opt_truthy (sub_idempotency_key submission)
         then k ← sub_idempotency_key submission; dget k (r_idempotency s)
         else None) with
  | Some existing_id =>
      match dget existing_id (r_jobs s) with
      | None => Err (KeyError existing_id)
      | Some existing =>
          require (_submission_matches existing submission)
            (ConflictError "idempotency key already belongs to a different job request");;
          Ok (s, existing)
      end
  | None => Ok (insert_job submission uuid timestamp s)
  end.

(** [list_jobs], control/repository.py lines 354-356. *)
Definition by_sequence (a b : JobRecord) : Prop := j_sequence a ≤ j_sequence b.
#[export] Instance by_sequence_dec : RelDecision by_sequence.
Proof. intros a b. unfold by_sequence. apply _. Defined.
Definition list_jobs (s : repo) : list JobRecord := merge_sort by_sequence (dvalues (r_jobs s)).

(** The filter of [claim_next_job], control/repository.py lines 372-380. *)
Definition claimable (timestamp : Z) (worker : WorkerRecord) (j : JobRecord) : bool :=
  bool_decide (j_status j = QUEUED) && (j_available_at j <=? timestamp)
  && (j_attempts j <? j_max_attempts j)
  && bool_decide (j_capability j ∈ capabilities (w_spec worker))
  && worker_matches (w_spec worker) (j_requirements j).

(** The sort key [(-priority, sequence)], control/repository.py lines 383-383. *)
Definition claim_order (a b : JobRecord) : Prop :=
  - j_priority a < - j_priority b ∨
  (j_priority a = j_priority b ∧ j_sequence a ≤ j_sequence b).
#[export] Instance claim_order_dec : RelDecision claim_order.
Proof. intros a b. unfold claim_order. apply _. Defined.

(** [claim_next_job], control/repository.py lines 358-400. *)
Definition claim_next_job (worker_id uuid : string) (now : datetime) (s : repo)
    : result (repo * option JobRecord) :=
  let timestamp := _aware now in
  worker ← get_worker worker_id s;
  if seconds (r_worker_ttl_seconds s) <? timestamp - w_last_seen_at worker then
    Ok (put_worker worker_id (with_state worker OFFLINE (w_last_seen_at worker)) s, None)
  else if negb (bool_decide (w_state worker = ONLINE)) then Ok (s, None)
  else if w_max_concurrency worker <=? w_active_jobs worker then Ok (s, None)
  else
    let eligible := filter (claimable timestamp worker) (dvalues (r_jobs s)) in
    match merge_sort claim_order eligible with
    | [] => Ok (s, None)
    | selected :: _ =>
        let claimed := job_claimed selected worker_id uuid
                         (timestamp + seconds (r_lease_seconds s)) timestamp in
        let s1 := put_job (j_job_id claimed) claimed s in
        let s2 := put_worker worker_id (with_active_jobs worker (w_active_jobs worker + 1)) s1 in
        Ok (s2, Some claimed)
    end.

(** [_release_worker_capacity], control/repository.py lines 419-427. *)
Definition _release_worker_capacity (worker_id : option string) (s : repo) : repo :=
  match worker_id with
  | None => s
  | Some id =>
      match dget id (r_workers s) with
      | None => s
      | Some w => put_worker id (with_active_jobs w (Z.max (w_active_jobs w - 1) 0)) s
      end
  end.

(** [complete_job], control/repository.py lines 429-458. *)
Definition complete_job (job_id : string) (res : JobResult) (worker_id lease_token : string)
    (now : datetime) (s : repo) : result (repo * JobRecord) :=
  let timestamp := _aware now in
  job ← get_job job_id s;
  _assert_running job worker_id lease_token timestamp;;
  let completed := job_completed job res timestamp in
  Ok (_release_worker_capacity (Some worker_id) (put_job job_id completed s), completed).

(** [fail_job], control/repository.py lines 460-490. *)
Definition fail_job (job_id : string) (error : error_arg) (retryable : bool)
    (worker_id lease_token : string) (now : datetime) (s : repo)
    : result (repo * JobRecord) :=
  let timestamp := _aware now in
  job ← get_job job_id s;
  _assert_running job worker_id lease_token timestamp;;
  let should_retry := retryable && (j_attempts job <? j_max_attempts job) in
  let failed := job_failed job should_retry (_failure_payload error should_retry) timestamp in
  Ok (_release_worker_capacity (Some worker_id) (put_job job_id failed s), failed).

(** The test at the head of [cancel_job], control/repository.py lines 500-501. *)
Definition terminal (st : JobStatus) : bool :=
  match st with SUCCEEDED | FAILED | CANCELLED => true | QUEUED | RUNNING => false end.

(** [cancel_job], control/repository.py lines 492-515. *)
Definition cancel_job (job_id : string) (now : datetime) (s : repo)
    : result (repo * JobRecord) :=
  let timestamp := _aware now in
  job ← get_job job_id s;
  if terminal (j_status job) then Ok (s, job)
  else
    let s1 := if bool_decide (j_status job = RUNNING)
              then _release_worker_capacity (j_assigned_worker_id job) s else s in
    let cancelled := job_cancelled job timestamp in
    Ok (put_job job_id cancelled s1, cancelled).

(** The test of the loop of [recover_expired_jobs], control/repository.py lines 524-529. *)
Definition lease_expired (timestamp : Z) (job : JobRecord) : bool :=
  negb (negb (bool_decide (j_status job = RUNNING))
        || match j_lease_expires_at job with None => true | Some e => timestamp <? e end).

(** The body of that loop, control/repository.py lines 530-547. *)
Definition recover_one (timestamp : Z) (job_id : string) (job : JobRecord) (s : repo)
    : repo * JobRecord :=
  let s1 := _release_worker_capacity (j_assigned_worker_id job) s in
  let should_retry := j_attempts job <? j_max_attempts job in
  let updated := job_failed job should_retry
    [("message", PStr "worker lease expired"); ("retryable", PBool should_retry)] timestamp in
  (put_job job_id updated s1, updated).

(** [recover_expired_jobs], control/repository.py lines 517-548. *)
Definition recover_expired_jobs (now : datetime) (s : repo) : repo * list JobRecord :=
  let timestamp := _aware now in
  foldl (λ '(s, recovered) '(job_id, job),
    if lease_expired timestamp job then
      let '(s', updated) := recover_one timestamp job_id job s in (s', recovered ++ [updated])
    else (s, recovered)) (s, []) (r_jobs s).
