(* ===== verification/RepositoryInv.v ===== *)
(** * The repository invariant

    The operations of the in-memory repository as a transition system, and the invariant
    that holds in every reachable state: dictionaries are keyed by identity, leases and
    statuses agree, the capacity counter of every worker counts its running jobs and never
    exceeds its concurrency, and no GPU has two owners. *)

From S2P Require Import Prelude PyStr PyDict PyVal Contracts Scheduling Models Repository.

(** ** Operations and steps *)

Inductive op :=
  | OpRegister (registration : WorkerRegistration) (now : datetime)
  | OpSetState (worker_id : string) (state : WorkerState) (now : datetime)
  | OpHeartbeat (worker_id : string) (heartbeat : WorkerHeartbeat) (now : datetime)
  | OpExpire (now : datetime)
  | OpSubmit (submission : JobSubmission) (uuid : string) (now : datetime)
  | OpClaim (worker_id uuid : string) (now : datetime)
  | OpComplete (job_id : string) (res : JobResult) (worker_id lease_token : string)
      (now : datetime)
  | OpFail (job_id : string) (error : error_arg) (retryable : bool)
      (worker_id lease_token : string) (now : datetime)
  | OpCancel (job_id : string) (now : datetime)
  | OpRecover (now : datetime).

(** The state after an operation; one that raises changes nothing. *)
Definition after {A} (s : repo) (r : result (repo * A)) : repo :=
  match r with Ok (s', _) => s' | Err _ => s end.

Definition exec (o : op) (s : repo) : repo :=
  match o with
  | OpRegister reg now => after s (register_worker reg now s)
  | OpSetState wid st now => after s (set_worker_state wid st now s)
  | OpHeartbeat wid hb now => after s (heartbeat_worker wid hb now s)
  | OpExpire now => (expire_stale_workers now s).1
  | OpSubmit sub uuid now => after s (submit_job sub uuid now s)
  | OpClaim wid uuid now => after s (claim_next_job wid uuid now s)
  | OpComplete jid res wid tok now => after s (complete_job jid res wid tok now s)
  | OpFail jid err retryable wid tok now => after s (fail_job jid err retryable wid tok now s)
  | OpCancel jid now => after s (cancel_job jid now s)
  | OpRecover now => (recover_expired_jobs now s).1
  end.

(** What the value objects guarantee of the arguments, and [uuid4] of its draws: a new job
    identifier is unused. *)
Definition op_ok (s : repo) (o : op) : Prop :=
  match o with
  | OpRegister reg _ => 1 ≤ reg_max_concurrency reg
  | OpSubmit sub uuid _ => wf_JobSubmission sub ∧ dget uuid (r_jobs s) = None
  | _ => True
  end.

Inductive step (s : repo) : op → repo → Prop :=
  | step_op o : op_ok s o → step s o (exec o s).

Inductive reachable : repo → Prop :=
  | reach_init ttl lease s : mk_repo ttl lease = Ok s → reachable s
  | reach_step s o s' : reachable s → step s o s' → reachable s'.

(** ** The invariant *)

(** What holds of a job in isolation; [n] is the sequence counter. *)
Definition job_ok (n : Z) (j : JobRecord) : Prop :=
  1 ≤ j_sequence j ≤ n ∧ 0 ≤ j_attempts j ≤ j_max_attempts j ∧
  match j_status j with
  | RUNNING =>
      is_Some (j_assigned_worker_id j) ∧ is_Some (j_lease_token j) ∧
      is_Some (j_lease_expires_at j) ∧ 1 ≤ j_attempts j
  | _ =>
      j_assigned_worker_id j = None ∧ j_lease_token j = None ∧ j_lease_expires_at j = None
  end.

Record core (s : repo) : Prop := {
  core_workers_wf : dict_wf (r_workers s);
  core_jobs_wf : dict_wf (r_jobs s);
  core_worker_id k w : dget k (r_workers s) = Some w → w_id w = k;
  core_job k j : dget k (r_jobs s) = Some j → j_job_id j = k ∧ job_ok (r_sequence s) j;
  core_sequence k1 k2 j1 j2 :
    dget k1 (r_jobs s) = Some j1 → dget k2 (r_jobs s) = Some j2 →
    j_sequence j1 = j_sequence j2 → k1 = k2;
  core_assigned k j wid :
    dget k (r_jobs s) = Some j → j_assigned_worker_id j = Some wid →
    is_Some (dget wid (r_workers s));
  core_gpu k1 k2 w1 w2 u :
    dget k1 (r_workers s) = Some w1 → dget k2 (r_workers s) = Some w2 →
    owns_resources w1 = true → owns_resources w2 = true →
    u ∈ gpu_uuids (w_spec w1) → u ∈ gpu_uuids (w_spec w2) → k1 = k2;
  core_idem key id :
    dget key (r_idempotency s) = Some id →
    ∃ j, dget id (r_jobs s) = Some j ∧ j_idempotency_key j = Some key;
}.

(** The capacity counter of a worker is its number of running jobs. *)
Definition capacity (s : repo) : Prop :=
  ∀ k w, dget k (r_workers s) = Some w →
    w_active_jobs w = _active_job_count s k ∧ w_active_jobs w ≤ w_max_concurrency w.

Definition inv (s : repo) : Prop := core s ∧ capacity s ∧ 0 ≤ r_sequence s.

(** ** Reading through updates *)

Lemma r_workers_put_worker k w s : r_workers (put_worker k w s) = dset k w (r_workers s).
Proof. done. Qed.
Lemma r_workers_put_job k j s : r_workers (put_job k j s) = r_workers s.
Proof. done. Qed.
Lemma r_jobs_put_worker k w s : r_jobs (put_worker k w s) = r_jobs s.
Proof. done. Qed.
Lemma r_jobs_put_job k j s : r_jobs (put_job k j s) = dset k j (r_jobs s).
Proof. done. Qed.

#[global] Arguments put_worker : simpl never.
#[global] Arguments put_job : simpl never.
#[global] Arguments _release_worker_capacity : simpl never.
Create Rewrite HintDb repo.
#[export] Hint Rewrite r_workers_put_worker r_workers_put_job r_jobs_put_worker r_jobs_put_job
  : repo.

(** Case split on a read of a freshly assigned key. *)
Ltac get_cases :=
  repeat match goal with
  | H : dget ?k (dset ?k' ?v ?d) = Some _ |- _ =>
      rewrite (dget_dset k' k v d) in H;
      destruct (decide (k = k')) as [->|?];
      [let E := fresh in injection H as E; try subst|]
  end.

Lemma count_put_job k j wid s : dict_wf (r_jobs s) →
  _active_job_count (put_job k j s) wid =
  _active_job_count s wid + Z.of_nat (bool_nat (runs_on wid j))
  - match dget k (r_jobs s) with Some j0 => Z.of_nat (bool_nat (runs_on wid j0)) | None => 0 end.
Proof.
  intros Hwf. unfold _active_job_count. rewrite r_jobs_put_job.
  pose proof (dcount_dset (runs_on wid) k j (r_jobs s) Hwf).
  destruct (dget k (r_jobs s)); lia.
Qed.

Lemma count_put_worker k w wid s : _active_job_count (put_worker k w s) wid = _active_job_count s wid.
Proof. done. Qed.

Lemma count_nonneg s wid : 0 ≤ _active_job_count s wid.
Proof. unfold _active_job_count. lia. Qed.

Lemma not_running_runs_on wid j : j_status j ≠ RUNNING → runs_on wid j = false.
Proof. intros H. unfold runs_on. by rewrite bool_decide_false. Qed.

Lemma runs_on_assigned wid j :
  j_status j = RUNNING → runs_on wid j = bool_decide (j_assigned_worker_id j = Some wid).
Proof. intros H. unfold runs_on. by rewrite bool_decide_true. Qed.

(** ** How the core invariant moves *)

Lemma core_put_worker k w s : core s → w_id w = k →
  (∀ k' w' u, k' ≠ k → dget k' (r_workers s) = Some w' → owns_resources w = true →
     owns_resources w' = true → u ∈ gpu_uuids (w_spec w) → u ∈ gpu_uuids (w_spec w') → False) →
  core (put_worker k w s).
Proof.
  intros C Hid Hgpu. destruct C. split; autorewrite with repo; auto using dict_wf_dset.
  - intros k' w' H. get_cases; eauto.
  - intros k' j wid H1 H2. rewrite dget_dset. destruct (decide (wid = k)); eauto.
  - intros k1 k2 w1 w2 u H1 H2 O1 O2 U1 U2. get_cases; try done.
    + exfalso. eauto.
    + exfalso. eauto.
    + eauto.
Qed.

(** A worker that keeps its GPUs and does not become an owner. *)
Lemma core_put_worker_shrink k w0 w s : core s → dget k (r_workers s) = Some w0 →
  w_spec w = w_spec w0 → (owns_resources w = true → owns_resources w0 = true) →
  core (put_worker k w s).
Proof.
  intros C Hk Hs Ho. apply core_put_worker; [done| |].
  - unfold w_id. rewrite Hs. by eapply core_worker_id.
  - intros k' w' u Hne Hk' O O' U U'. rewrite Hs in U.
    apply Hne. eapply (core_gpu s C k' k); eauto.
Qed.

Lemma core_put_job k j0 j s : core s → dget k (r_jobs s) = Some j0 → j_job_id j = k →
  job_ok (r_sequence s) j → j_sequence j = j_sequence j0 →
  j_idempotency_key j = j_idempotency_key j0 →
  (∀ wid, j_assigned_worker_id j = Some wid → is_Some (dget wid (r_workers s))) →
  core (put_job k j s).
Proof.
  intros C Hk Hid Hok Hseq Hidem Ha. destruct C. split; autorewrite with repo;
    auto using dict_wf_dset.
  - intros k' j' H. get_cases; eauto.
  - intros k1 k2 j1 j2 H1 H2 E. get_cases; try done.
    + rewrite Hseq in E. eauto.
    + rewrite Hseq in E. eauto.
    + eauto.
  - intros k' j' wid H1 H2. get_cases; eauto.
  - intros key id H. destruct (core_idem0 key id H) as (j' & Hj & Hkey).
    rewrite dget_dset. destruct (decide (id = k)) as [->|?]; [|eauto].
    exists j. split; [done|]. congruence.
Qed.

(** ** How the capacity invariant moves *)

Lemma capacity_put_worker k w s : capacity s → w_active_jobs w = _active_job_count s k →
  w_active_jobs w ≤ w_max_concurrency w → capacity (put_worker k w s).
Proof.
  intros C Hc Hm k' w'. rewrite r_workers_put_worker, count_put_worker. intros H.
  get_cases; eauto.
Qed.

(** Replacing a job by one that runs where it ran keeps every count. *)
Lemma count_put_job_same k j0 j s wid : dict_wf (r_jobs s) → dget k (r_jobs s) = Some j0 →
  runs_on wid j = runs_on wid j0 → _active_job_count (put_job k j s) wid = _active_job_count s wid.
Proof. intros Hwf Hk E. rewrite count_put_job, Hk, E by done. lia. Qed.

Lemma capacity_put_job_same k j0 j s : dict_wf (r_jobs s) → dget k (r_jobs s) = Some j0 →
  (∀ wid, runs_on wid j = runs_on wid j0) → capacity s → capacity (put_job k j s).
Proof.
  intros Hwf Hk E C k' w'. rewrite r_workers_put_job. intros H.
  rewrite (count_put_job_same k j0) by auto. eauto.
Qed.

Lemma release_put_job o k j s :
  _release_worker_capacity o (put_job k j s) = put_job k j (_release_worker_capacity o s).
Proof.
  destruct o as [id|]; [|done]. unfold _release_worker_capacity.
  rewrite r_workers_put_job. by destruct (dget id (r_workers s)).
Qed.

Lemma release_jobs o s : r_jobs (_release_worker_capacity o s) = r_jobs s.
Proof.
  destruct o as [id|]; [|done]. unfold _release_worker_capacity. by destruct (dget id (r_workers s)).
Qed.
Lemma release_sequence o s : r_sequence (_release_worker_capacity o s) = r_sequence s.
Proof.
  destruct o as [id|]; [|done]. unfold _release_worker_capacity. by destruct (dget id (r_workers s)).
Qed.

(** The worker left by a release. *)
Lemma release_worker wid w s k : dget wid (r_workers s) = Some w →
  dget k (r_workers (_release_worker_capacity (Some wid) s)) =
  if decide (k = wid) then Some (with_active_jobs w (Z.max (w_active_jobs w - 1) 0))
  else dget k (r_workers s).
Proof.
  intros H. unfold _release_worker_capacity. rewrite H. autorewrite with repo. apply dget_dset.
Qed.

Lemma owns_fewer w n : n ≤ w_active_jobs w →
  owns_resources (with_active_jobs w n) = true → owns_resources w = true.
Proof.
  unfold owns_resources. cbn. intros Hn. rewrite !orb_true_iff, !Z.ltb_lt. intros [?|?]; [by left|].
  right. lia.
Qed.

(** The terminal transition of a running job: the job stops running, its worker gets one
    slot back. *)
Lemma inv_finish_job k j0 j wid s : inv s → dget k (r_jobs s) = Some j0 →
  j_status j0 = RUNNING → j_assigned_worker_id j0 = Some wid →
  j_job_id j = j_job_id j0 → job_ok (r_sequence s) j → j_status j ≠ RUNNING →
  j_sequence j = j_sequence j0 → j_idempotency_key j = j_idempotency_key j0 →
  inv (_release_worker_capacity (Some wid) (put_job k j s)).
Proof.
  intros (C & Cap & Hn) Hk Hrun Hwid Hid Hok Hst Hseq Hidem.
  destruct (core_assigned s C k j0 wid Hk Hwid) as [w Hw].
  destruct (core_job s C k j0 Hk) as [Hk0 _].
  assert (j_assigned_worker_id j = None) as Hna.
  { destruct Hok as (_ & _ & Hok). destruct (j_status j); try done; apply Hok. }
  assert (core (put_job k j s)) as C1.
  { eapply core_put_job; eauto; [congruence|]. intros ? E. by rewrite Hna in E. }
  destruct (Cap wid w Hw) as [Hcount Hmax].
  assert (1 ≤ w_active_jobs w) as Hpos.
  { rewrite Hcount. unfold _active_job_count. enough (0 < dcount (runs_on wid) (r_jobs s))%nat by lia.
    apply dcount_pos. exists j0. split; [by eapply dget_values|].
    rewrite runs_on_assigned, Hwid by done. by apply bool_decide_eq_true. }
  split; [|split].
  - unfold _release_worker_capacity. rewrite r_workers_put_job, Hw.
    eapply core_put_worker_shrink; eauto. apply owns_fewer. lia.
  - intros k' w'. rewrite (release_worker wid w) by done.
    assert (∀ id, _active_job_count (_release_worker_capacity (Some wid) (put_job k j s)) id
                  = _active_job_count s id - Z.of_nat (bool_nat (bool_decide (Some wid = Some id))))
      as Hc.
    { intros id. unfold _active_job_count at 1. rewrite release_jobs.
      change (_active_job_count (put_job k j s) id = _active_job_count s id
        - Z.of_nat (bool_nat (bool_decide (Some wid = Some id)))).
      rewrite count_put_job, Hk, (not_running_runs_on id j), (runs_on_assigned id j0), Hwid
        by (done || apply core_jobs_wf; done).
      cbn. lia. }
    rewrite Hc. destruct (decide (k' = wid)) as [->|Hne].
    + intros [= <-]. cbn. rewrite bool_decide_true by done. cbn. lia.
    + rewrite r_workers_put_job. intros H. rewrite bool_decide_false by congruence. cbn.
      destruct (Cap k' w' H). lia.
  - rewrite release_sequence. done.
Qed.

(** ** Each operation preserves the invariant *)

Lemma inv_init ttl lease s : mk_repo ttl lease = Ok s → inv s.
Proof.
  unfold mk_repo. intros H. simp_res.
  split; [|split; [by intros k w|done]].
  split; cbn; try done; apply dict_wf_nil.
Qed.

Lemma gpu_available s reg ign u w k : core s →
  _assert_gpu_ownership_available s reg ign = Ok tt → dget k (r_workers s) = Some w →
  Some k ≠ ign → owns_resources w = true → u ∈ gpu_uuids (reg_spec reg) →
  u ∈ gpu_uuids (w_spec w) → False.
Proof.
  intros C. unfold _assert_gpu_ownership_available.
  destruct (gpu_uuids (reg_spec reg)) as [|u0 us] eqn:E; [by intros _ _ _ _ ?%elem_of_nil|].
  destruct (List.find _ _) as [w'|] eqn:F; [done|]. intros _ Hk Hne Ho Hu Hw.
  apply find_none with (x := w) in F.
  2:{ apply list_elem_of_In. by eapply dget_values. }
  unfold gpu_conflict in F. rewrite (core_worker_id s C k w Hk), bool_decide_false, Ho in F by done.
  cbn [negb andb] in F. enough (existsb (λ u, bool_decide (u ∈ gpu_uuids (w_spec w))) (u0 :: us) = true)
    by congruence.
  apply existsb_exists. exists u. split; [by apply list_elem_of_In|by apply bool_decide_eq_true].
Qed.

(** No job can be running on a worker that is not registered. *)
Lemma count_unregistered s k : core s → dget k (r_workers s) = None → _active_job_count s k = 0.
Proof.
  intros C Hk. unfold _active_job_count.
  destruct (dcount (runs_on k) (r_jobs s)) as [|n] eqn:E; [done|].
  destruct (proj1 (dcount_pos (runs_on k) (r_jobs s))) as (j & Hj & Hr); [lia|].
  unfold runs_on in Hr. bools.
  apply dvalues_get in Hj as [id Hid]; [|by apply core_jobs_wf].
  destruct (core_assigned s C id j k Hid) as [? ?]; [done|congruence].
Qed.

Lemma inv_register reg now s s' w :
  1 ≤ reg_max_concurrency reg → inv s → register_worker reg now s = Ok (s', w) → inv s'.
Proof.
  intros Hmax (C & Cap & Hn) H. unfold register_worker in H.
  apply bind_Ok in H as ([] & Hold & H). apply bind_Ok in H as ([] & Hgpu & H). simp_res.
  split; [|split; [|done]].
  - apply core_put_worker; [done..|]. cbn. intros k' w' u Hne Hk' _ O' U U'.
    eapply gpu_available; eauto. by intros [= ->].
  - apply capacity_put_worker; cbn; [done..|]. unfold w_id; cbn.
    destruct (dget (worker_id (reg_spec reg)) (r_workers s)) as [w0|] eqn:E.
    + destruct (Cap _ _ E) as [Hc _]. destruct (Z.ltb_spec 0 (w_active_jobs w0)); simp_res.
      * match goal with H : (_ <=? _) = true |- _ => apply Z.leb_le in H end. lia.
      * lia.
    + rewrite count_unregistered by done. lia.
Qed.

Lemma inv_set_state wid st now s s' w :
  inv s → set_worker_state wid st now s = Ok (s', w) → inv s'.
Proof.
  intros (C & Cap & Hn) H. unfold set_worker_state, get_worker in H.
  destruct (dget wid (r_workers s)) as [w0|] eqn:E; [|done]. cbn [mbind result_bind] in H.
  apply bind_Ok in H as ([] & Hgpu & H). simp_res.
  pose proof (core_worker_id s C _ _ E) as Hid.
  split; [|split; [|done]].
  - case_bool_decide as Hst.
    + subst st. eapply core_put_worker_shrink; [done..|].
      unfold owns_resources. cbn. rewrite orb_true_iff, negb_true_iff, bool_decide_eq_false.
      rewrite orb_true_iff. intros [?|?]; [done|by right].
    + apply bind_Ok in Hgpu as (reg & Hreg & Hgpu). unfold mk_WorkerRegistration in Hreg. simp_res.
      apply core_put_worker; [done..|]. intros k' w' u Hne Hk' _ O' U U'.
      eapply gpu_available; eauto. by intros [= ->].
  - destruct (Cap _ _ E). by apply capacity_put_worker.
Qed.

Lemma assert_running_Ok j wid tok now :
  _assert_running j wid tok now = Ok tt ↔
  j_status j = RUNNING ∧ j_assigned_worker_id j = Some wid ∧ j_lease_token j = Some tok ∧
  tok ≠ EmptyString ∧ ∃ e, j_lease_expires_at j = Some e ∧ now < e.
Proof.
  unfold _assert_running. split.
  - intros H. simp_res. bools.
    match goal with H : str_truthy _ = true |- _ => apply str_truthy_spec in H end.
    split_and!; try done. destruct (j_lease_expires_at j) as [e|]; [|done].
    exists e. split; [done|by apply Z.ltb_lt].
  - intros (H1 & H2 & H3 & H4 & e & H5 & H6).
    rewrite H1, H2, H3, H5, !bool_decide_true, (proj2 (str_truthy_spec tok)) by done.
    apply Z.ltb_lt in H6. rewrite H6. done.
Qed.

(** The lease renewal of a heartbeat. *)
Lemma inv_renew k j e t s : inv s → dget k (r_jobs s) = Some j → j_status j = RUNNING →
  inv (put_job (j_job_id j) (job_renewed j e t) s).
Proof.
  intros (C & Cap & Hn) Hk Hrun. destruct (core_job s C k j Hk) as [Hid Hok]. rewrite Hid.
  split; [|split; [|done]].
  - eapply core_put_job; eauto.
    + destruct Hok as (H1 & H2 & H3). split; [done|split; [done|]]. cbn. rewrite Hrun in *.
      split_and!; try apply H3. done.
    + intros wid Hwid. by eapply core_assigned.
  - eapply capacity_put_job_same; eauto. by apply core_jobs_wf.
Qed.

Lemma heartbeat_decompose wid hb now s s' w :
  heartbeat_worker wid hb now s = Ok (s', w) →
  ∃ w0 s1, dget wid (r_workers s) = Some w0 ∧
    (w_state w0 = OFFLINE → default (w_state w0) (hb_state hb) = OFFLINE) ∧
    ((s1 = s ∧ hb_active_job_id hb = None ∧ hb_lease_token hb = None) ∨ ∃ jid tok j, hb_active_job_id hb = Some jid ∧ hb_lease_token hb = Some tok ∧
       dget jid (r_jobs s) = Some j ∧ _assert_running j wid tok (_aware now) = Ok tt ∧
       s1 = put_job (j_job_id j)
              (job_renewed j (_aware now + seconds (r_lease_seconds s)) (_aware now)) s) ∧
    s' = put_worker wid w s1 ∧ w_spec w = w_spec w0 ∧
    w_max_concurrency w = w_max_concurrency w0 ∧
    w_active_jobs w = _active_job_count s1 wid ∧
    w_state w = default (w_state w0) (hb_state hb) ∧ w_last_seen_at w = _aware now.
Proof.
  unfold heartbeat_worker, get_worker. intros H.
  destruct (dget wid (r_workers s)) as [w0|] eqn:E; [|done]. cbn [mbind result_bind] in H.
  apply bind_Ok in H as ([] & Hoff & H). apply require_Ok, negb_true_iff in Hoff.
  apply bind_Ok in H as (s1 & Hs1 & H). simp_res.
  exists w0, s1. split; [done|]. split; [|split; [|by cbn]].
  - intros Ho. rewrite Ho, bool_decide_true in Hoff by done. cbn in Hoff. bools.
    destruct (hb_state hb) as [[]|]; done.
  - destruct (hb_active_job_id hb) as [jid|], (hb_lease_token hb) as [tok|]; simp_res; auto.
    right. unfold get_job in *. destruct (dget jid (r_jobs s)) as [j|] eqn:Ej; [|done].
    simp_res. by eexists jid, tok, _.
Qed.

Lemma inv_heartbeat wid hb now s s' w :
  inv s → heartbeat_worker wid hb now s = Ok (s', w) → inv s'.
Proof.
  intros I (w0 & s1 & E & Hoff & Hs1 & -> & Hsp & Hmx & Hac & Hst & _)%heartbeat_decompose.
  assert (inv s1 ∧ r_workers s1 = r_workers s) as [(C & Cap & Hn) Hw].
  { destruct Hs1 as [(-> & _)|(jid & tok & j & _ & _ & Hj & Hrun & ->)]; [done|].
    apply assert_running_Ok in Hrun as (Hrun & _). split; [by eapply inv_renew|done]. }
  rewrite <- Hw in E. destruct (Cap _ _ E) as [Hc Hm]. split; [|split; [|done]].
  - eapply core_put_worker_shrink; eauto. unfold owns_resources.
    rewrite Hst, Hac, Hc, !orb_true_iff, !negb_true_iff, !bool_decide_eq_false.
    intros [?|?]; [left|by right]. intros ?. auto.
  - apply capacity_put_worker; [done..|]. lia.
Qed.

Lemma inv_go_offline k w s t : inv s → dget k (r_workers s) = Some w →
  inv (put_worker k (with_state w OFFLINE t) s).
Proof.
  intros (C & Cap & Hn) Hk. destruct (Cap _ _ Hk). split; [|split; [|done]].
  - eapply core_put_worker_shrink; eauto. unfold owns_resources. cbn.
    rewrite !orb_true_iff. intros [?|?]; [done|by right].
  - by apply capacity_put_worker.
Qed.

(** A loop over the items of a dictionary whose body changes only the entry it visits. *)
Lemma loop_items {V W A} (P : A → Prop) (entries : A → dict V) (body : A → string → V → A * W)
    (test : V → bool) (d : dict V) (s : A) (acc : list W) :
  NoDup (dkeys d) → P s → (∀ k v, (k, v) ∈ d → dget k (entries s) = Some v) →
  (∀ s k v, P s → dget k (entries s) = Some v → test v = true →
     P (body s k v).1 ∧ ∀ k', k' ≠ k → dget k' (entries (body s k v).1) = dget k' (entries s)) →
  P (foldl (λ '(s, out) '(k, v),
       if test v then let '(s', w) := body s k v in (s', out ++ [w]) else (s, out)) (s, acc) d).1.
Proof.
  intros Hd HP Hg Hb. revert s acc Hd HP Hg. induction d as [|[k v] d IH]; cbn; [done|].
  intros s acc [Hk Hd]%NoDup_cons HP Hg. destruct (test v) eqn:T.
  - destruct (Hb s k v HP) as [HP' Hne]; [apply Hg; by left|done|].
    destruct (body s k v) as [s' w]. apply IH; [done..|]. cbn in Hne.
    intros k' v' Hin. rewrite Hne; [apply Hg; by right|]. intros ->. apply Hk.
    by apply (list_elem_of_fmap_2 fst _ (k, v')).
  - apply IH; [done..|]. intros k' v' ?. apply Hg. by right.
Qed.

Lemma expire_as_loop now s :
  expire_stale_workers now s =
  foldl (λ '(s', out) '(k, v),
    if stale (_aware now - seconds (r_worker_ttl_seconds s)) v
    then let '(s'', w) := (put_worker k (with_state v OFFLINE (w_last_seen_at v)) s',
                           with_state v OFFLINE (w_last_seen_at v)) in (s'', out ++ [w])
    else (s', out)) (s, []) (r_workers s).
Proof. done. Qed.

Lemma inv_expire now s : inv s → inv (expire_stale_workers now s).1.
Proof.
  intros I. rewrite expire_as_loop.
  apply (loop_items inv r_workers
    (λ s' k v, (put_worker k (with_state v OFFLINE (w_last_seen_at v)) s',
                with_state v OFFLINE (w_last_seen_at v)))
    (stale (_aware now - seconds (r_worker_ttl_seconds s)))).
  - apply core_workers_wf, I.
  - done.
  - intros k v. apply dget_In, core_workers_wf, I.
  - intros s' k v I' Hk _. cbn. split; [by apply inv_go_offline|].
    intros k' Hne. by apply dget_dset_ne.
Qed.

Lemma job_failed_ok n j r err t : job_ok n j → job_ok n (job_failed j r err t).
Proof. intros (Hs & Ha & _). split; [done|split; [done|]]. cbn. by destruct r. Qed.

Lemma job_failed_stops j r err t : j_status (job_failed j r err t) ≠ RUNNING.
Proof. cbn. by destruct r. Qed.

Lemma inv_recover_one t k j s : inv s → dget k (r_jobs s) = Some j →
  lease_expired t j = true → inv (recover_one t k j s).1.
Proof.
  intros I Hk He. unfold recover_one. cbn [fst]. unfold lease_expired in He. bools.
  pose proof I as (C & _ & _). destruct (core_job s C k j Hk) as [Hid Hok].
  pose proof Hok as (_ & _ & Hlease). match goal with H : j_status j = _ |- _ => rename H into Hrun end.
  rewrite Hrun in Hlease. destruct Hlease as ([wid Hwid] & _ & _ & Hatt).
  rewrite Hwid, <- release_put_job.
  eapply inv_finish_job; eauto using job_failed_ok, job_failed_stops.
Qed.

Lemma inv_recover now s : inv s → inv (recover_expired_jobs now s).1.
Proof.
  intros I. unfold recover_expired_jobs.
  apply (loop_items inv r_jobs (λ s' k v, recover_one (_aware now) k v s')).
  - apply core_jobs_wf, I.
  - done.
  - intros k v. apply dget_In, core_jobs_wf, I.
  - intros s' k v I' Hk He. split; [by apply inv_recover_one|].
    intros k' Hne. unfold recover_one. cbn [fst]. rewrite r_jobs_put_job, release_jobs.
    by apply dget_dset_ne.
Qed.

Lemma inv_complete jid res wid tok now s s' j :
  inv s → complete_job jid res wid tok now s = Ok (s', j) → inv s'.
Proof.
  intros I H. unfold complete_job, get_job in H.
  destruct (dget jid (r_jobs s)) as [j0|] eqn:E; [|done]. cbn [mbind result_bind] in H.
  apply bind_Ok in H as ([] & Hr & H). apply assert_running_Ok in Hr as (Hrun & Hwid & _).
  simp_res. destruct (core_job s (proj1 I) _ _ E) as [Hid (Hs & Ha & _)].
  assert (job_ok (r_sequence s) (job_completed j0 res (_aware now))) by done.
  eapply inv_finish_job; eauto; done.
Qed.

Lemma inv_fail jid err retryable wid tok now s s' j :
  inv s → fail_job jid err retryable wid tok now s = Ok (s', j) → inv s'.
Proof.
  intros I H. unfold fail_job, get_job in H.
  destruct (dget jid (r_jobs s)) as [j0|] eqn:E; [|done]. cbn [mbind result_bind] in H.
  apply bind_Ok in H as ([] & Hr & H). apply assert_running_Ok in Hr as (Hrun & Hwid & _).
  simp_res. destruct (core_job s (proj1 I) _ _ E) as [Hid Hok].
  set (r := retryable && _). eapply inv_finish_job; eauto using job_failed_ok, job_failed_stops.
Qed.

Lemma inv_cancel jid now s s' j : inv s → cancel_job jid now s = Ok (s', j) → inv s'.
Proof.
  intros I H. unfold cancel_job, get_job in H.
  destruct (dget jid (r_jobs s)) as [j0|] eqn:E; [|done]. cbn [mbind result_bind] in H.
  destruct (core_job s (proj1 I) _ _ E) as [Hid (Hs & Ha & Hl)].
  assert (job_ok (r_sequence s) (job_cancelled j0 (_aware now))) as Hok by done.
  destruct (j_status j0) eqn:St; cbn [terminal] in H; simp_res; try done.
  - destruct I as (C & Cap & Hn). split; [|split; [|done]].
    + eapply core_put_job; eauto. done.
    + eapply capacity_put_job_same; eauto; [by apply core_jobs_wf|].
      intros wid. rewrite !not_running_runs_on; [done| |done]. by rewrite St.
  - destruct Hl as ([wid Hwid] & _).
    rewrite Hwid, <- release_put_job. eapply inv_finish_job; eauto; done.
Qed.

Lemma inv_submit sub uuid now s s' j : wf_JobSubmission sub → dget uuid (r_jobs s) = None →
  inv s → submit_job sub uuid now s = Ok (s', j) → inv s'.
Proof.
  intros (_ & Hmax & _) Hfresh I H. unfold submit_job in H.
  destruct (if opt_truthy (sub_idempotency_key sub) then _ else _) as [id|].
  { destruct (dget id (r_jobs s)); [|done]. simp_res. done. }
  unfold insert_job in H. simp_res. destruct I as (C & Cap & Hn).
  set (nj := new_job sub uuid (r_sequence s + 1) (_aware now)).
  assert (job_ok (r_sequence s + 1) nj) as Hnew by (split; cbn; [lia|split; [lia|done]]).
  assert (∀ k j, dget k (r_jobs s) = Some j → k ≠ uuid) as Hne by congruence.
  split; [|split; [|cbn; lia]].
  - destruct C. split; cbn; auto using dict_wf_dset.
    + intros k j H. get_cases; [done|]. destruct (core_job0 k j H) as [? (? & ?)].
      split; [done|]. split; [lia|done].
    + intros k1 k2 j1 j2 H1 H2 Es. get_cases; try done; cbn in Es.
      * destruct (core_job0 _ _ H1) as [_ ([? ?] & _)]. lia.
      * destruct (core_job0 _ _ H2) as [_ ([? ?] & _)]. lia.
      * eauto.
    + intros k j wid H1 H2. get_cases; [done|eauto].
    + intros key id Hk.
      assert (dget key (r_idempotency s) = Some id ∨
              (id = uuid ∧ sub_idempotency_key sub = Some key)) as [Ho|[-> Hkey]].
      { destruct (sub_idempotency_key sub) as [key'|]; [|by left].
        destruct (str_truthy key'); [|by left]. get_cases; [by right|by left]. }
      * destruct (core_idem0 key id Ho) as (j & Hj & ?). exists j.
        rewrite dget_dset_ne; [done|eauto].
      * exists nj. by rewrite dget_dset_eq.
  - intros k w Hk. cbn in Hk. destruct (Cap k w Hk). split; [|done].
    change (w_active_jobs w = _active_job_count (put_job uuid nj s) k).
    rewrite count_put_job, Hfresh by (by apply core_jobs_wf).
    rewrite (not_running_runs_on k nj) by done. cbn. lia.
Qed.

(** What a successful claim did. *)
Lemma claim_decompose wid uuid now s s' j :
  claim_next_job wid uuid now s = Ok (s', Some j) →
  ∃ w sel rest, dget wid (r_workers s) = Some w ∧
    _aware now - w_last_seen_at w ≤ seconds (r_worker_ttl_seconds s) ∧ w_state w = ONLINE ∧
    w_active_jobs w < w_max_concurrency w ∧
    merge_sort claim_order (filter (claimable (_aware now) w) (dvalues (r_jobs s))) = sel :: rest ∧
    j = job_claimed sel wid uuid (_aware now + seconds (r_lease_seconds s)) (_aware now) ∧
    s' = put_worker wid (with_active_jobs w (w_active_jobs w + 1)) (put_job (j_job_id sel) j s).
Proof.
  unfold claim_next_job, get_worker. intros H.
  destruct (dget wid (r_workers s)) as [w|] eqn:E; [|done]. cbn [mbind result_bind] in H.
  destruct (Z.ltb_spec (seconds (r_worker_ttl_seconds s)) (_aware now - w_last_seen_at w)); [done|].
  case_bool_decide; cbn [negb] in H; [|done].
  destruct (Z.leb_spec (w_max_concurrency w) (w_active_jobs w)); [done|].
  destruct (merge_sort _ _) as [|sel rest] eqn:Es; [done|]. simp_res.
  exists w, sel, rest. done.
Qed.

Lemma merge_sort_head_elem {A} (R : relation A) `{!RelDecision R} l x rest :
  merge_sort R l = x :: rest → x ∈ l.
Proof. intros H. rewrite <- (merge_sort_Permutation R l), H. left. Qed.

Lemma claimable_spec t w j : claimable t w j = true ↔
  j_status j = QUEUED ∧ j_available_at j ≤ t ∧ j_attempts j < j_max_attempts j ∧
  j_capability j ∈ capabilities (w_spec w) ∧ satisfies (w_spec w) (j_requirements j).
Proof.
  unfold claimable. rewrite !andb_true_iff, !bool_decide_eq_true, Z.leb_le, Z.ltb_lt,
    worker_matches_spec. tauto.
Qed.

(** The transition of a claim, whichever claimable job it takes. *)
Lemma inv_claimed wid uuid e t k sel w s : inv s → dget k (r_jobs s) = Some sel →
  dget wid (r_workers s) = Some w → j_status sel = QUEUED → j_attempts sel < j_max_attempts sel →
  w_state w = ONLINE → w_active_jobs w < w_max_concurrency w →
  inv (put_worker wid (with_active_jobs w (w_active_jobs w + 1))
         (put_job (j_job_id sel) (job_claimed sel wid uuid e t) s)).
Proof.
  intros (C & Cap & Hn) Hk Hw Hq Hatt Hon Hcap.
  destruct (core_job s C k sel Hk) as [Hid (Hsq & Ha & _)]. rewrite Hid.
  set (cj := job_claimed sel wid uuid _ _). destruct (Cap _ _ Hw) as [Hcnt Hmx].
  assert (core (put_job k cj s)) as C1.
  { eapply core_put_job; eauto.
    - split; [done|split; [cbn; lia|]]. cbn. split_and!; try done; lia.
    - cbn. intros ? [= <-]. eauto. }
  split; [|split; [|done]].
  + eapply core_put_worker_shrink; eauto. intros _. unfold owns_resources. by rewrite Hon.
  + intros k' w'. rewrite r_workers_put_worker, count_put_worker, r_workers_put_job. intros H.
    rewrite count_put_job, Hk by (by apply core_jobs_wf).
    rewrite (not_running_runs_on k' sel) by (by rewrite Hq).
    rewrite (runs_on_assigned k' cj) by done. cbn [j_assigned_worker_id cj job_claimed].
    get_cases.
    * rewrite bool_decide_true by done. cbn. lia.
    * rewrite bool_decide_false by congruence. cbn. destruct (Cap _ _ H). lia.
Qed.

Lemma inv_claim wid uuid now s s' o : inv s → claim_next_job wid uuid now s = Ok (s', o) → inv s'.
Proof.
  intros I H. destruct o as [j|].
  - apply claim_decompose in H as (w & sel & rest & Hw & Hseen & Hon & Hcap & Hs & -> & ->).
    apply merge_sort_head_elem in Hs. apply list_elem_of_filter in Hs as [Hc Hin].
    apply Is_true_true, claimable_spec in Hc as (Hq & _ & Hatt & _).
    apply dvalues_get in Hin as [k Hk]; [|by apply core_jobs_wf, I].
    by eapply inv_claimed.
  - unfold claim_next_job, get_worker in H.
    destruct (dget wid (r_workers s)) as [w|] eqn:E; [|done]. cbn [mbind result_bind] in H.
    case_in H; simp_res; try done. by apply inv_go_offline.
Qed.

Lemma inv_exec o s : op_ok s o → inv s → inv (exec o s).
Proof.
  intros Hok I. destruct o; cbn in *; try (
    match goal with |- inv (after _ ?r) => destruct r as [[s' ?]|] eqn:E; cbn; [|done] end);
    destruct_and?;
    eauto using inv_register, inv_set_state, inv_heartbeat, inv_expire, inv_submit, inv_claim,
      inv_complete, inv_fail, inv_cancel, inv_recover.
Qed.

Lemma reachable_inv s : reachable s → inv s.
Proof.
  induction 1 as [ttl lease s H|s o s' _ IH [o' Hok]]; [by eapply inv_init|].
  by apply inv_exec.
Qed.
