(* ===== verification/RepositorySpec.v ===== *)
(** * Properties of the control repository

    What every reachable state of the control plane satisfies, and what each operation
    promises: exclusive GPU ownership, exact capacity accounting, fencing of stale leases,
    the job life cycle, bounded attempts, scheduling order, idempotent submission, lease
    recovery and liveness expiry. *)

From S2P Require Import Prelude PyStr PyDict PyVal Contracts Scheduling Models Repository RepositoryInv.

(** ** Loops over a snapshot of the items *)

Section loop_get.
Context {V W A : Type} (entries : A → dict V) (body : A → string → V → A * W)
  (test : V → bool) (f : V → V) (g : V → W).
Hypothesis body_here : ∀ s k v, dget k (entries (body s k v).1) = Some (f v).
Hypothesis body_else : ∀ s k v k', k' ≠ k →
  dget k' (entries (body s k v).1) = dget k' (entries s).
Hypothesis body_out : ∀ s k v, (body s k v).2 = g v.

Definition items_loop (d : dict V) (s : A) (acc : list W) : A * list W :=
  foldl (λ '(s, out) '(k, v),
    if test v then let '(s', w) := body s k v in (s', out ++ [w]) else (s, out)) (s, acc) d.

(** Entry by entry, the loop rewrites exactly the values that pass the test. *)
Lemma items_loop_get d s acc k : NoDup (dkeys d) →
  dget k (entries (items_loop d s acc).1) =
  match dget k d with
  | Some v => if test v then Some (f v) else dget k (entries s)
  | None => dget k (entries s)
  end.
Proof.
  unfold items_loop. revert s acc. induction d as [|[k0 v0] d IH]; cbn; [done|].
  intros s acc [Hk Hd]%NoDup_cons. destruct (test v0) eqn:T.
  - pose proof (body_here s k0 v0) as H1. pose proof (body_else s k0 v0) as H2.
    destruct (body s k0 v0) as [s' w]. cbn in H1, H2. rewrite IH by done.
    destruct (decide (k = k0)) as [->|Hne].
    + rewrite T, (proj2 (dget_None k0 d)) by done. done.
    + rewrite H2 by done. done.
  - rewrite IH by done. destruct (decide (k = k0)) as [->|Hne]; [|done].
    by rewrite T, (proj2 (dget_None k0 d)).
Qed.

(** The list it returns, in the order of the dictionary. *)
Lemma items_loop_out d s acc : (items_loop d s acc).2 = acc ++ (g <$> filter test (dvalues d)).
Proof.
  unfold items_loop, dvalues. revert s acc. induction d as [|[k0 v0] d IH]; intros s acc.
  - cbn. by rewrite app_nil_r.
  - rewrite fmap_cons, filter_cons. cbn [foldl snd]. destruct (test v0) eqn:T.
    + pose proof (body_out s k0 v0) as H. destruct (body s k0 v0) as [s' w]. cbn in H. subst w.
      rewrite IH, <- app_assoc. by rewrite decide_True.
    + rewrite IH, decide_False by (by intros []). done.
Qed.
End loop_get.

(** ** How one job evolves in one step *)

Inductive job_evolves : op → JobRecord → JobRecord → Prop :=
  | ev_same o j : job_evolves o j j
  | ev_renew wid hb now j e t : j_status j = RUNNING →
      job_evolves (OpHeartbeat wid hb now) j (job_renewed j e t)
  | ev_claim wid uuid now j e t : j_status j = QUEUED → j_attempts j < j_max_attempts j →
      job_evolves (OpClaim wid uuid now) j (job_claimed j wid uuid e t)
  | ev_complete jid res wid tok now j t : j_status j = RUNNING → j_lease_token j = Some tok →
      job_evolves (OpComplete jid res wid tok now) j (job_completed j res t)
  | ev_fail jid err retryable wid tok now j err' t : j_status j = RUNNING →
      j_lease_token j = Some tok →
      job_evolves (OpFail jid err retryable wid tok now) j
        (job_failed j (retryable && (j_attempts j <? j_max_attempts j)) err' t)
  | ev_cancel jid now j t : terminal (j_status j) = false →
      job_evolves (OpCancel jid now) j (job_cancelled j t)
  | ev_recover now j err t : j_status j = RUNNING →
      job_evolves (OpRecover now) j (job_failed j (j_attempts j <? j_max_attempts j) err t).

Definition recovered (t : Z) (j : JobRecord) : JobRecord :=
  job_failed j (j_attempts j <? j_max_attempts j)
    [("message", PStr "worker lease expired");
     ("retryable", PBool (j_attempts j <? j_max_attempts j))] t.

Lemma recover_get now s k : inv s →
  dget k (r_jobs (recover_expired_jobs now s).1) =
  match dget k (r_jobs s) with
  | Some j => Some (if lease_expired (_aware now) j then recovered (_aware now) j else j)
  | None => None
  end.
Proof.
  intros I. unfold recover_expired_jobs.
  pose proof (items_loop_get r_jobs (λ s' k v, recover_one (_aware now) k v s')
    (lease_expired (_aware now)) (recovered (_aware now))) as H.
  unfold items_loop in H. rewrite H.
  - destruct (dget k (r_jobs s)) as [j|]; [|done]. by destruct (lease_expired (_aware now) j).
  - intros s' k' v. unfold recover_one. cbn [fst].
    rewrite r_jobs_put_job, release_jobs. apply dget_dset_eq.
  - intros s' k' v k'' Hne. unfold recover_one. cbn [fst].
    rewrite r_jobs_put_job, release_jobs. by apply dget_dset_ne.
  - apply core_jobs_wf, I.
Qed.

Lemma expire_get now s k : inv s →
  dget k (r_workers (expire_stale_workers now s).1) =
  match dget k (r_workers s) with
  | Some w => Some (if stale (_aware now - seconds (r_worker_ttl_seconds s)) w
                    then with_state w OFFLINE (w_last_seen_at w) else w)
  | None => None
  end.
Proof.
  intros I. rewrite expire_as_loop.
  pose proof (items_loop_get r_workers
    (λ s' k v, (put_worker k (with_state v OFFLINE (w_last_seen_at v)) s',
                with_state v OFFLINE (w_last_seen_at v)))
    (stale (_aware now - seconds (r_worker_ttl_seconds s)))
    (λ v, with_state v OFFLINE (w_last_seen_at v))) as H.
  unfold items_loop in H. rewrite H.
  - destruct (dget k (r_workers s)) as [w|]; [|done].
    by destruct (stale (_aware now - seconds (r_worker_ttl_seconds s)) w).
  - intros s' k' v. apply dget_dset_eq.
  - intros s' k' v k'' Hne. by apply dget_dset_ne.
  - apply core_workers_wf, I.
Qed.

(** The loop keeps whatever its body keeps. *)
Lemma foldl_keeps {A B} (Q : B → B → Prop) (f : B → A → B) l b :
  (∀ b, Q b b) → (∀ b c d, Q b c → Q c d → Q b d) → (∀ b x, Q b (f b x)) → Q b (foldl f b l).
Proof. intros Hr Ht Hf. revert b; induction l as [|x l IH]; cbn; eauto. Qed.

Lemma expire_jobs now s : r_jobs (expire_stale_workers now s).1 = r_jobs s.
Proof.
  unfold expire_stale_workers.
  apply (foldl_keeps (λ b c, r_jobs c.1 = r_jobs b.1) _ (r_workers s) (s, [])); [done|congruence|].
  intros [s' out] [k w]. by case_match.
Qed.

(** Assigning one job: that job evolves, the others stay. *)
Lemma put_job_evolves o s k0 j0 j0' : dget k0 (r_jobs s) = Some j0 → job_evolves o j0 j0' →
  ∀ k j, dget k (r_jobs s) = Some j →
  ∃ j', dget k (dset k0 j0' (r_jobs s)) = Some j' ∧ job_evolves o j j'.
Proof.
  intros H0 Hev k j Hk. rewrite dget_dset. destruct (decide (k = k0)) as [->|?].
  - exists j0'. split; [done|]. congruence.
  - exists j. split; [done|constructor].
Qed.

Lemma exec_evolves o s k j : op_ok s o → inv s → dget k (r_jobs s) = Some j →
  ∃ j', dget k (r_jobs (exec o s)) = Some j' ∧ job_evolves o j j'.
Proof.
  intros Hok I Hk. pose proof I as (C & _).
  assert (∀ o, ∃ j', dget k (r_jobs s) = Some j' ∧ job_evolves o j j') as Hsame.
  { intros o'. exists j. split; [done|constructor]. }
  destruct o; cbn [exec] in *; try (
    match goal with |- context [after _ ?r] => destruct r as [[s' x]|] eqn:E; cbn [after]; [|done] end).
  - unfold register_worker in E. apply bind_Ok in E as ([] & _ & E). simp_res. apply Hsame.
  - unfold set_worker_state in E. simp_res. apply Hsame.
  - apply heartbeat_decompose in E as (w0 & s1 & _ & _ & Hs1 & -> & _).
    rewrite r_jobs_put_worker. destruct Hs1 as [(-> & _)|(jid & tok & j1 & _ & _ & Hj & Hr & ->)];
      [apply Hsame|]. rewrite r_jobs_put_job, (proj1 (core_job s C _ _ Hj)).
    apply assert_running_Ok in Hr as (Hr & _).
    eapply put_job_evolves; [done|by apply ev_renew|done].
  - rewrite expire_jobs. apply Hsame.
  - destruct Hok as [_ Hfresh]. unfold submit_job in E.
    destruct (if opt_truthy (sub_idempotency_key submission) then _ else _) as [id|].
    { destruct (dget id (r_jobs s)); [|done]. simp_res. apply Hsame. }
    unfold insert_job in E. simp_res. cbn. exists j. split; [|constructor].
    rewrite dget_dset_ne; congruence.
  - destruct x as [cj|].
    + apply claim_decompose in E as (w & sel & rest & _ & _ & _ & _ & Hs & -> & ->).
      rewrite r_jobs_put_worker, r_jobs_put_job.
      apply merge_sort_head_elem, list_elem_of_filter in Hs as [Hc Hin].
      apply Is_true_true, claimable_spec in Hc as (Hq & _ & Hatt & _).
      apply dvalues_get in Hin as [k0 Hk0]; [|by apply core_jobs_wf].
      rewrite (proj1 (core_job s C _ _ Hk0)).
      eapply put_job_evolves; [done|by apply ev_claim|done].
    + unfold claim_next_job, get_worker in E.
      destruct (dget worker_id (r_workers s)) as [w|]; [|done]. cbn [mbind result_bind] in E.
      case_in E; simp_res; apply Hsame.
  - unfold complete_job, get_job in E. destruct (dget job_id (r_jobs s)) as [j0|] eqn:E0; [|done].
    cbn [mbind result_bind] in E. apply bind_Ok in E as ([] & Hr & E).
    apply assert_running_Ok in Hr as (Hr & _ & Ht & _). simp_res.
    rewrite release_jobs, r_jobs_put_job.
    eapply put_job_evolves; [done|by apply ev_complete|done].
  - unfold fail_job, get_job in E. destruct (dget job_id (r_jobs s)) as [j0|] eqn:E0; [|done].
    cbn [mbind result_bind] in E. apply bind_Ok in E as ([] & Hr & E).
    apply assert_running_Ok in Hr as (Hr & _ & Ht & _). simp_res.
    rewrite release_jobs, r_jobs_put_job.
    eapply put_job_evolves; [done|by apply ev_fail|done].
  - unfold cancel_job, get_job in E. destruct (dget job_id (r_jobs s)) as [j0|] eqn:E0; [|done].
    cbn [mbind result_bind] in E. destruct (terminal (j_status j0)) eqn:Et.
    { simp_res. apply Hsame. }
    simp_res. rewrite r_jobs_put_job.
    assert (r_jobs (if bool_decide (j_status j0 = RUNNING)
      then _release_worker_capacity (j_assigned_worker_id j0) s else s) = r_jobs s) as ->
      by (case_bool_decide; rewrite ?release_jobs; done).
    eapply put_job_evolves; [done|by apply ev_cancel|done].
  - rewrite recover_get, Hk by done. eexists; split; [done|].
    destruct (lease_expired (_aware now) j) eqn:Ee; [|constructor].
    apply ev_recover. unfold lease_expired in Ee. bools. done.
Qed.
