(* ===== verification/ControlProps.v ===== *)
(** * Control-plane properties: safety, fencing, life cycle, bounds

    The theorems a client of the control plane relies on, over every reachable state of
    the repository and every sequence of operations. *)

From S2P Require Import Prelude PyStr PyDict PyVal Contracts Scheduling Models Repository RepositoryInv RepositorySpec.

(** ** Traces *)

Inductive trace : repo → list op → repo → Prop :=
  | tr_nil s : trace s [] s
  | tr_cons s o os s' : op_ok s o → trace (exec o s) os s' → trace s (o :: os) s'.

Lemma trace_inv s os s' : trace s os s' → inv s → inv s'.
Proof. induction 1; auto using inv_exec. Qed.

Lemma trace_reachable s os s' : trace s os s' → reachable s → reachable s'.
Proof.
  induction 1 as [|s o os s' Hok _ IH]; [done|]. intros Hr. apply IH.
  eapply reach_step; [done|by constructor].
Qed.

(** ** The life cycle as an abstract state machine *)

Inductive status_step : JobStatus → JobStatus → Prop :=
  | st_claim : status_step QUEUED RUNNING
  | st_succeed : status_step RUNNING SUCCEEDED
  | st_retry : status_step RUNNING QUEUED
  | st_fail : status_step RUNNING FAILED
  | st_cancel st : terminal st = false → status_step st CANCELLED.

(** What a job never changes. *)
Definition job_identity (j : JobRecord) :=
  (j_job_id j, j_capability j, j_payload j, j_requirements j, j_priority j, j_sequence j,
   j_max_attempts j, j_idempotency_key j, j_created_at j).

Lemma evolves_identity o j j' : job_evolves o j j' → job_identity j' = job_identity j.
Proof. by destruct 1. Qed.

Lemma evolves_status o j j' : job_evolves o j j' →
  j_status j' = j_status j ∨ status_step (j_status j) (j_status j').
Proof.
  destruct 1 as [|wid hb now j e t H|? ? ? j ? ? H|? ? ? ? ? j ? H|? ? ? ? ? ? j ? ? H|? j ? H|? j ? ? H];
    cbn; auto; right; rewrite ?H; try constructor; try done.
  - destruct (_ && _); constructor.
  - destruct (_ <? _); constructor.
Qed.

Lemma evolves_terminal o j j' : job_evolves o j j' → terminal (j_status j) = true → j' = j.
Proof.
  destruct 1; intros Ht; try done; exfalso;
    match goal with H : _ = _ |- _ => by rewrite H in Ht end.
Qed.

(** ** Fencing *)

(** No lease carries the token. *)
Definition token_dead (tok : string) (s : repo) : Prop :=
  ∀ k j, dget k (r_jobs s) = Some j → j_lease_token j ≠ Some tok.

(** The operation draws a lease token other than [tok] (tokens come from [uuid4]). *)
Definition draws_other (tok : string) (o : op) : Prop :=
  match o with OpClaim _ uuid _ => uuid ≠ tok | _ => True end.

Lemma evolves_token tok o j j' : job_evolves o j j' → draws_other tok o →
  j_lease_token j ≠ Some tok → j_lease_token j' ≠ Some tok.
Proof. destruct 1; cbn; try done. congruence. Qed.

(** Every job after a step is a job before it, evolved, or a new queued one. *)
Lemma exec_job_origin o s k j' : op_ok s o → inv s → dget k (r_jobs (exec o s)) = Some j' →
  (∃ j, dget k (r_jobs s) = Some j ∧ job_evolves o j j') ∨
  (dget k (r_jobs s) = None ∧ j_status j' = QUEUED ∧ j_lease_token j' = None ∧ j_attempts j' = 0).
Proof.
  intros Hok I H. destruct (dget k (r_jobs s)) as [j|] eqn:E.
  - destruct (exec_evolves o s k j Hok I E) as (j1 & H1 & ?). left. exists j. split; [done|]. congruence.
  - right. split; [done|]. destruct o; cbn [exec] in H.
    all: try (match type of H with context [after _ ?r] => destruct r as [[s' x]|] eqn:E'; cbn [after] in H; [|congruence] end).
    + unfold register_worker in E'. apply bind_Ok in E' as ([] & _ & E'). simp_res.
      rewrite r_jobs_put_worker in H. congruence.
    + unfold set_worker_state in E'. simp_res. rewrite r_jobs_put_worker in H. congruence.
    + apply heartbeat_decompose in E' as (w0 & s1 & _ & _ & Hs1 & -> & _).
      rewrite r_jobs_put_worker in H. destruct Hs1 as [(-> & _)|(jid & tok & j1 & _ & _ & Hj & _ & ->)];
        [congruence|]. rewrite r_jobs_put_job in H. get_cases; [|congruence].
      rewrite (proj1 (core_job s (proj1 I) _ _ Hj)) in E. congruence.
    + rewrite expire_jobs in H. congruence.
    + unfold submit_job in E'. destruct (if opt_truthy _ then _ else _) as [id|].
      { destruct (dget id (r_jobs s)); [|done]. simp_res. congruence. }
      unfold insert_job in E'. simp_res. cbn in H. get_cases; [done|congruence].
    + destruct x as [cj|].
      * apply claim_decompose in E' as (w & sel & rest & _ & _ & _ & _ & Hs & -> & ->).
        rewrite r_jobs_put_worker, r_jobs_put_job in H. get_cases; [|congruence].
        apply merge_sort_head_elem, list_elem_of_filter in Hs as [_ Hin].
        apply dvalues_get in Hin as [k0 Hk0]; [|by apply core_jobs_wf, I].
        rewrite (proj1 (core_job s (proj1 I) _ _ Hk0)) in E. congruence.
      * unfold claim_next_job, get_worker in E'.
        destruct (dget worker_id (r_workers s)) as [w|]; [|done]. cbn [mbind result_bind] in E'.
        case_in E'; simp_res; rewrite ?r_jobs_put_worker in H; congruence.
    + unfold complete_job, get_job in E'. destruct (dget job_id (r_jobs s)) as [j0|] eqn:E0; [|done].
      simp_res. rewrite release_jobs, r_jobs_put_job in H. get_cases; congruence.
    + unfold fail_job, get_job in E'. destruct (dget job_id (r_jobs s)) as [j0|] eqn:E0; [|done].
      simp_res. rewrite release_jobs, r_jobs_put_job in H. get_cases; congruence.
    + unfold cancel_job, get_job in E'. destruct (dget job_id (r_jobs s)) as [j0|] eqn:E0; [|done].
      cbn [mbind result_bind] in E'. destruct (terminal (j_status j0)); simp_res; [congruence|].
      rewrite r_jobs_put_job in H. get_cases; [congruence|].
      case_bool_decide; rewrite ?release_jobs in H; congruence.
    + rewrite recover_get, E in H by done. done.
Qed.

Lemma token_dead_exec tok o s : op_ok s o → inv s → draws_other tok o →
  token_dead tok s → token_dead tok (exec o s).
Proof.
  intros Hok I Hd Hdead k j' H.
  destruct (exec_job_origin o s k j' Hok I H) as [(j & Hj & Hev)|(_ & _ & -> & _)]; [|done].
  eapply evolves_token; eauto.
Qed.

Lemma token_dead_trace tok s os s' : trace s os s' → inv s → Forall (draws_other tok) os →
  token_dead tok s → token_dead tok s'.
Proof.
  induction 1 as [|s o os s' Hok _ IH]; [done|]. intros I [Ho Hos]%Forall_cons Hd.
  apply IH; auto using inv_exec, token_dead_exec.
Qed.

Lemma dead_token_rejected j wid tok now :
  j_lease_token j ≠ Some tok → is_ok (_assert_running j wid tok now) = false.
Proof.
  intros H. destruct (_assert_running j wid tok now) as [[]|] eqn:E; [|done].
  by apply assert_running_Ok in E as (_ & _ & ? & _).
Qed.

(** ** Counting claims *)

Definition claims (k : string) (o : op) (s : repo) : bool :=
  match o with
  | OpClaim wid uuid now =>
      match claim_next_job wid uuid now s with
      | Ok (_, Some j) => bool_decide (j_job_id j = k)
      | _ => false
      end
  | _ => false
  end.

(** How many of the operations handed job [k] to a worker. *)
Fixpoint claims_of (k : string) (s : repo) (os : list op) : Z :=
  match os with
  | [] => 0
  | o :: os' => Z.b2z (claims k o s) + claims_of k (exec o s) os'
  end.

Definition is_claim (o : op) : bool := if o is OpClaim _ _ _ then true else false.

Lemma evolves_attempts_noclaim o j j' : job_evolves o j j' →
  is_claim o = false → j_attempts j' = j_attempts j.
Proof. by destruct 1. Qed.

Lemma exec_attempts o s k j : op_ok s o → inv s → dget k (r_jobs s) = Some j →
  ∃ j', dget k (r_jobs (exec o s)) = Some j' ∧
        j_attempts j' = j_attempts j + Z.b2z (claims k o s) ∧ j_max_attempts j' = j_max_attempts j.
Proof.
  intros Hok I Hk. destruct (exec_evolves o s k j Hok I Hk) as (j' & Hj' & Hev).
  exists j'. split; [done|]. split.
  2:{ pose proof (evolves_identity _ _ _ Hev) as E. by injection E. }
  destruct (is_claim o) eqn:Hc.
  2:{ rewrite (evolves_attempts_noclaim _ _ _ Hev Hc). destruct o; cbn; try lia. done. }
  destruct o as [| | | | |wid uuid now| | | |]; try done. clear Hc.
  cbn [exec claims] in *.
  destruct (claim_next_job wid uuid now s) as [[s' [cj|]]|] eqn:E; cbn [after] in Hj'.
  - apply claim_decompose in E as (w & sel & rest & _ & _ & _ & _ & Hs & -> & ->).
    rewrite r_jobs_put_worker, r_jobs_put_job in Hj'.
    apply merge_sort_head_elem, list_elem_of_filter in Hs as [_ Hin].
    apply dvalues_get in Hin as [k0 Hk0]; [|by apply core_jobs_wf, I].
    pose proof (proj1 (core_job s (proj1 I) _ _ Hk0)) as E0. rewrite E0 in *. cbn [j_job_id job_claimed].
    rewrite E0. get_cases.
    + rewrite bool_decide_true by done. rewrite Hk in Hk0. injection Hk0 as ->. done.
    + rewrite bool_decide_false by congruence. cbn. assert (j' = j) as -> by congruence. lia.
  - assert (r_jobs s' = r_jobs s) as Ej.
    { unfold claim_next_job, get_worker in E.
      destruct (dget wid (r_workers s)) as [w|]; [|done]. cbn [mbind result_bind] in E.
      case_in E; by simp_res. }
    rewrite Ej in Hj'. assert (j' = j) as -> by congruence. cbn. lia.
  - assert (j' = j) as -> by congruence. cbn. lia.
Qed.

(** ** A concrete run, for the witnesses *)

Definition demo_repo : repo :=
  {| r_worker_ttl_seconds := 60; r_lease_seconds := 300; r_workers := []; r_jobs := [];
     r_idempotency := []; r_sequence := 0 |}.
Definition demo_registration : WorkerRegistration :=
  {| reg_spec := example_spec; reg_max_concurrency := 1; reg_metadata := [] |}.
Definition demo_submission (prio : Z) (key : option string) : JobSubmission :=
  {| sub_capability := "debug.echo"; sub_payload := [("x", PInt 1)];
     sub_requirements := no_requirements; sub_priority := prio; sub_max_attempts := 2;
     sub_idempotency_key := key; sub_available_at := None |}.
Definition demo_result : JobResult :=
  {| res_outputs := [("x", PInt 1)]; res_artifacts := []; res_metrics := []; res_text := None;
     res_metadata := [] |}.

(** Register, submit two jobs, claim the urgent one. *)
Definition demo_ops : list op :=
  [OpRegister demo_registration (utc 0); OpSubmit (demo_submission 0 (Some "k1")) "job-a" (utc 1);
   OpSubmit (demo_submission 5 None) "job-b" (utc 2); OpClaim "w1" "tok-1" (utc 3)].
Definition demo_state : repo := foldl (λ s o, exec o s) demo_repo demo_ops.

Lemma demo_submission_wf p k : (k = None ∨ k = Some "k1") → wf_JobSubmission (demo_submission p k).
Proof.
  intros Hk. split; [vm_decide|]. split; [cbn; lia|]. split; [|done].
  intros k' E. cbn in E. destruct Hk as [->| ->]; [done|]. injection E as <-. vm_decide.
Qed.

Lemma demo_trace : trace demo_repo demo_ops demo_state.
Proof.
  apply tr_cons; [cbn; lia|]. apply tr_cons; [split; [apply demo_submission_wf; by right|done]|].
  apply tr_cons; [split; [apply demo_submission_wf; by left|by vm_compute]|].
  apply tr_cons; [done|]. apply tr_nil.
Qed.

Lemma demo_repo_reachable : reachable demo_repo.
Proof. by apply (reach_init 60 300). Qed.

Lemma demo_reachable : reachable demo_state.
Proof. eapply trace_reachable; [apply demo_trace|apply demo_repo_reachable]. Qed.

(** The leased job and its worker, by evaluation. *)
Definition demo_job : JobRecord := default (new_job (demo_submission 5 None) "job-b" 2 2)
  (dget "job-b" (r_jobs demo_state)).
Definition demo_worker : WorkerRecord :=
  default {| w_spec := example_spec; w_max_concurrency := 1; w_state := ONLINE;
             w_active_jobs := 0; w_registered_at := 0; w_last_seen_at := 0; w_metadata := [] |}
    (dget "w1" (r_workers demo_state)).

Lemma demo_job_get : dget "job-b" (r_jobs demo_state) = Some demo_job.
Proof. vm_compute. reflexivity. Qed.
Lemma demo_worker_get : dget "w1" (r_workers demo_state) = Some demo_worker.
Proof. vm_compute. reflexivity. Qed.

(** ** Invariants of every reachable state *)

(** Property C1: no GPU ever has two owners.  In every reachable state, two workers that
    both own resources (not OFFLINE, or still running a job) and both list a GPU UUID are
    the same worker. *)
Theorem gpu_ownership_exclusive s k1 k2 w1 w2 u : reachable s →
  dget k1 (r_workers s) = Some w1 → dget k2 (r_workers s) = Some w2 →
  owns_resources w1 = true → owns_resources w2 = true →
  u ∈ gpu_uuids (w_spec w1) → u ∈ gpu_uuids (w_spec w2) → k1 = k2.
Proof. intros [C _]%reachable_inv. apply (core_gpu s C). Qed.

Lemma gpu_ownership_exclusive_witness : "w1" = "w1".
Proof.
  apply (gpu_ownership_exclusive demo_state "w1" "w1" demo_worker demo_worker "GPU-a");
    [apply demo_reachable|apply demo_worker_get..|vm_compute; reflexivity
    |vm_compute; reflexivity|vm_decide|vm_decide].
Defined.

(** Property C2: capacity accounting is exact.  In every reachable state the counter
    [active_jobs] of a registered worker is the number of jobs running on it, and never
    exceeds [max_concurrency]: no operation leaks or double-frees a slot. *)
Theorem capacity_exact s k w : reachable s → dget k (r_workers s) = Some w →
  w_active_jobs w = _active_job_count s k ∧ 0 ≤ w_active_jobs w ≤ w_max_concurrency w.
Proof.
  intros (_ & Cap & _)%reachable_inv Hk. destruct (Cap k w Hk) as [E ?].
  split; [done|]. split; [rewrite E; apply count_nonneg|done].
Qed.

Lemma capacity_exact_witness :
  w_active_jobs demo_worker = _active_job_count demo_state "w1" ∧
  0 ≤ w_active_jobs demo_worker ≤ w_max_concurrency demo_worker.
Proof. apply (capacity_exact demo_state "w1"); [apply demo_reachable|apply demo_worker_get]. Defined.

(** Status, lease and retry budget agree in every reachable state.  A job is
    RUNNING exactly when it has a lease token, exactly when it has an expiry, exactly when
    it is assigned, and then to a registered worker; its attempts never exceed
    [max_attempts]; distinct jobs have distinct sequence numbers. *)
Theorem lease_consistent s k j : reachable s → dget k (r_jobs s) = Some j →
  (j_status j = RUNNING ↔ is_Some (j_lease_token j)) ∧
  (j_status j = RUNNING ↔ is_Some (j_lease_expires_at j)) ∧
  (j_status j = RUNNING ↔ ∃ wid, j_assigned_worker_id j = Some wid ∧
                                 is_Some (dget wid (r_workers s))) ∧
  0 ≤ j_attempts j ≤ j_max_attempts j ∧
  (∀ k' j', dget k' (r_jobs s) = Some j' → j_sequence j' = j_sequence j → k' = k).
Proof.
  intros (C & _)%reachable_inv Hk. destruct (core_job s C k j Hk) as [_ (_ & Ha & Hl)].
  split_and!; [..|lia|lia|intros k' j' Hk' E; by eapply (core_sequence s C)].
  - destruct (j_status j); try (destruct Hl as (_ & -> & _); split; [done|by intros []]). tauto.
  - destruct (j_status j); try (destruct Hl as (_ & _ & ->); split; [done|by intros []]). tauto.
  - destruct (j_status j) eqn:St;
      try (destruct Hl as (-> & _); split; [done|by intros (? & ? & _)]).
    destruct Hl as ([wid Hw] & _). split; [|done]. intros _. exists wid.
    split; [done|]. by eapply core_assigned.
Qed.

Lemma lease_consistent_witness :
  (j_status demo_job = RUNNING ↔ is_Some (j_lease_token demo_job)) ∧
  (j_status demo_job = RUNNING ↔ is_Some (j_lease_expires_at demo_job)) ∧
  (j_status demo_job = RUNNING ↔ ∃ wid, j_assigned_worker_id demo_job = Some wid ∧
                                 is_Some (dget wid (r_workers demo_state))) ∧
  0 ≤ j_attempts demo_job ≤ j_max_attempts demo_job ∧
  (∀ k' j', dget k' (r_jobs demo_state) = Some j' → j_sequence j' = j_sequence demo_job →
     k' = "job-b").
Proof. apply lease_consistent; [apply demo_reachable|apply demo_job_get]. Defined.

(** ** Life cycle *)

(** Property C4: the job life cycle.  Every operation leaves every job in place; its
    identity, payload, requirements, priority and retry budget never change; its status
    moves only along QUEUED -> RUNNING -> SUCCEEDED | FAILED | QUEUED and to CANCELLED from
    a non-terminal state; a terminal job is never touched again, not even its result. *)
Theorem job_lifecycle s o k j : reachable s → op_ok s o → dget k (r_jobs s) = Some j →
  ∃ j', dget k (r_jobs (exec o s)) = Some j' ∧
    job_identity j' = job_identity j ∧
    (j_status j' = j_status j ∨ status_step (j_status j) (j_status j')) ∧
    (terminal (j_status j) = true → j' = j).
Proof.
  intros I%reachable_inv Hok Hk. destruct (exec_evolves o s k j Hok I Hk) as (j' & Hj' & Hev).
  exists j'. split_and!; eauto using evolves_identity, evolves_status, evolves_terminal.
Qed.

Lemma job_lifecycle_witness :
  ∃ j', dget "job-b" (r_jobs (exec (OpComplete "job-b" demo_result "w1" "tok-1" (utc 4)) demo_state))
        = Some j' ∧
    job_identity j' = job_identity demo_job ∧
    (j_status j' = j_status demo_job ∨ status_step (j_status demo_job) (j_status j')) ∧
    (terminal (j_status demo_job) = true → j' = demo_job).
Proof. apply job_lifecycle; [apply demo_reachable|done|apply demo_job_get]. Defined.

(** Property C5: at-least-once with a hard bound.  Along every sequence of operations the
    attempts counter of a job grows by exactly the number of times the job was handed to a
    worker, and that number never exceeds its [max_attempts]. *)
Theorem claims_bounded s os s' k j : reachable s → trace s os s' → dget k (r_jobs s) = Some j →
  ∃ j', dget k (r_jobs s') = Some j' ∧ j_attempts j' = j_attempts j + claims_of k s os ∧
        claims_of k s os ≤ j_max_attempts j - j_attempts j.
Proof.
  intros I%reachable_inv Ht. revert j I.
  enough (∀ j, inv s → dget k (r_jobs s) = Some j →
    ∃ j', dget k (r_jobs s') = Some j' ∧ j_attempts j' = j_attempts j + claims_of k s os ∧
          j_max_attempts j' = j_max_attempts j) as H.
  { intros j I Hk. destruct (H j I Hk) as (j' & Hj' & E & Em). exists j'. split_and!; [done..|].
    destruct (core_job s' (proj1 (trace_inv _ _ _ Ht I)) _ _ Hj') as [_ (_ & ? & _)]. lia. }
  induction Ht as [s|s o os s' Hok Ht IH]; intros j I Hk; cbn [claims_of].
  - exists j. split_and!; [done|lia|done].
  - destruct (exec_attempts o s k j Hok I Hk) as (j1 & H1 & E1 & M1).
    destruct (IH j1 (inv_exec _ _ Hok I) H1) as (j' & Hj' & E & M).
    exists j'. split_and!; [done|lia|congruence].
Qed.

Lemma claims_bounded_witness :
  ∃ j', dget "job-b" (r_jobs (exec (OpRecover (utc 301000000)) demo_state)) = Some j' ∧
    j_attempts j' = j_attempts demo_job
      + claims_of "job-b" demo_state [OpRecover (utc 301000000)] ∧
    claims_of "job-b" demo_state [OpRecover (utc 301000000)]
      ≤ j_max_attempts demo_job - j_attempts demo_job.
Proof.
  apply claims_bounded; [apply demo_reachable| |apply demo_job_get].
  apply tr_cons; [done|apply tr_nil].
Defined.

(** ** Fencing *)

(** Property C3: fencing.  Once no lease carries a token (its job finished, was cancelled,
    or its lease expired and was recovered), then whatever happens next - other claims
    drawing other tokens included - a late [complete_job], [fail_job] or lease-renewing
    heartbeat that presents this token is rejected, for every job, worker and time. *)
Theorem stale_lease_fenced tok s os s' jid res err retryable wid hb now :
  reachable s → token_dead tok s → trace s os s' → Forall (draws_other tok) os →
  hb_active_job_id hb = Some jid → hb_lease_token hb = Some tok →
  is_ok (complete_job jid res wid tok now s') = false ∧
  is_ok (fail_job jid err retryable wid tok now s') = false ∧
  is_ok (heartbeat_worker wid hb now s') = false.
Proof.
  intros I%reachable_inv Hd Ht Hos Hj Htok.
  pose proof (token_dead_trace _ _ _ _ Ht I Hos Hd) as Hd'.
  unfold complete_job, fail_job, get_job. split_and!.
  1,2: destruct (dget jid (r_jobs s')) as [j|] eqn:E; [|done];
    pose proof (dead_token_rejected j wid tok (_aware now) (Hd' _ _ E));
    cbn [mbind result_bind]; by destruct (_assert_running j wid tok (_aware now)) as [[]|].
  destruct (heartbeat_worker wid hb now s') as [[s2 w]|] eqn:E; [|done].
  apply heartbeat_decompose in E as (w0 & s1 & _ & _ & Hs1 & _).
  destruct Hs1 as [(_ & E1 & _)|(jid' & tok' & j & E1 & E2 & Hjob & Hr & _)].
  - congruence.
  - rewrite Htok in E2. injection E2 as <-.
    apply assert_running_Ok in Hr as (_ & _ & Hr & _). by apply Hd' in Hjob.
Qed.

(** The demo lease expires and is recovered; its token is dead. *)
Definition demo_recovered : repo := exec (OpRecover (utc 301000000)) demo_state.

Lemma demo_token_dead : token_dead "tok-1" demo_recovered.
Proof.
  intros k j H. apply dget_values in H. revert j H. apply Forall_forall. vm_compute.
  repeat constructor; discriminate.
Qed.

Lemma stale_lease_fenced_witness :
  is_ok (complete_job "job-b" demo_result "w1" "tok-1" (utc 5)
           (exec (OpClaim "w1" "tok-2" (utc 301000001)) demo_recovered)) = false ∧
  is_ok (fail_job "job-b" (ErrorText "boom") true "w1" "tok-1" (utc 5)
           (exec (OpClaim "w1" "tok-2" (utc 301000001)) demo_recovered)) = false ∧
  is_ok (heartbeat_worker "w1"
           {| hb_state := None; hb_active_job_id := Some "job-b"; hb_lease_token := Some "tok-1";
              hb_metadata := [] |} (utc 5)
           (exec (OpClaim "w1" "tok-2" (utc 301000001)) demo_recovered)) = false.
Proof.
  apply (stale_lease_fenced "tok-1" demo_recovered [OpClaim "w1" "tok-2" (utc 301000001)]).
  - eapply reach_step; [apply demo_reachable|by apply step_op].
  - apply demo_token_dead.
  - apply tr_cons; [done|apply tr_nil].
  - by constructor.
  - done.
  - done.
Defined.
