(* ===== verification/ControlOps.v ===== *)
(** * Control-plane properties: what each operation does

    Scheduling order of claims, outcomes of completion and failure, lease recovery,
    liveness expiry, re-acquisition of resources, and idempotent submission. *)

From S2P Require Import Prelude PyStr PyDict PyVal Contracts Scheduling Models Repository RepositoryInv RepositorySpec ControlProps.

(** ** Scheduling order *)

#[export] Instance claim_order_trans : Transitive claim_order.
Proof. intros a b c. unfold claim_order. lia. Qed.
#[export] Instance claim_order_total : Total claim_order.
Proof. intros a b. unfold claim_order. lia. Qed.

(** A sorted list starts with its minimum. *)
Lemma merge_sort_head_min {A} (R : relation A) `{!RelDecision R, !Transitive R, !Total R} l x rest y :
  merge_sort R l = x :: rest → y ∈ l → y = x ∨ R x y.
Proof.
  intros H Hy. pose proof (StronglySorted_merge_sort R l) as Hs. rewrite H in Hs.
  apply StronglySorted_cons in Hs as [Hs _].
  rewrite <- (merge_sort_Permutation R l), H in Hy.
  apply elem_of_cons in Hy as [->|Hy]; [by left|right]. by eapply Forall_forall in Hs.
Qed.

(** The worker may take a job now. *)
Definition ready_to_claim (s : repo) (w : WorkerRecord) (t : Z) : Prop :=
  t - w_last_seen_at w ≤ seconds (r_worker_ttl_seconds s) ∧ w_state w = ONLINE ∧
  w_active_jobs w < w_max_concurrency w.

Lemma claim_ready wid uuid now s w : dget wid (r_workers s) = Some w →
  ready_to_claim s w (_aware now) →
  claim_next_job wid uuid now s =
  match merge_sort claim_order (filter (claimable (_aware now) w) (dvalues (r_jobs s))) with
  | [] => Ok (s, None)
  | sel :: _ =>
      let j := job_claimed sel wid uuid (_aware now + seconds (r_lease_seconds s)) (_aware now) in
      Ok (put_worker wid (with_active_jobs w (w_active_jobs w + 1)) (put_job (j_job_id sel) j s),
          Some j)
  end.
Proof.
  intros Hw (H1 & H2 & H3). unfold claim_next_job, get_worker. rewrite Hw.
  cbn [mbind result_bind]. rewrite H2, bool_decide_true by done.
  destruct (Z.ltb_spec (seconds (r_worker_ttl_seconds s)) (_aware now - w_last_seen_at w)); [lia|].
  destruct (Z.leb_spec (w_max_concurrency w) (w_active_jobs w)); [lia|]. done.
Qed.

(** Property C6: work-conserving priority scheduling.  For a live ONLINE worker with a free
    slot, [claim_next_job] hands out nothing exactly when no queued job is available,
    within its retry budget and matched by the worker; otherwise it hands out the matching
    job of highest priority, the oldest among equals, RUNNING under a fresh lease. *)
Theorem claim_next_job_best s wid uuid now w : reachable s →
  dget wid (r_workers s) = Some w → ready_to_claim s w (_aware now) →
  (claim_next_job wid uuid now s = Ok (s, None) ∧
     ∀ k j, dget k (r_jobs s) = Some j → claimable (_aware now) w j = false) ∨
  ∃ k sel s', dget k (r_jobs s) = Some sel ∧ claimable (_aware now) w sel = true ∧
     claim_next_job wid uuid now s =
       Ok (s', Some (job_claimed sel wid uuid
                       (_aware now + seconds (r_lease_seconds s)) (_aware now))) ∧
     ∀ k' j, dget k' (r_jobs s) = Some j → claimable (_aware now) w j = true → k' ≠ k →
       j_priority j < j_priority sel ∨
       (j_priority j = j_priority sel ∧ j_sequence sel < j_sequence j).
Proof.
  intros (C & _)%reachable_inv Hw Hr. rewrite (claim_ready _ _ _ _ _ Hw Hr).
  destruct (merge_sort claim_order _) as [|sel rest] eqn:Es.
  - left. split; [done|]. intros k j Hk. destruct (claimable (_aware now) w j) eqn:Ec; [|done].
    assert (j ∈ merge_sort claim_order (filter (claimable (_aware now) w) (dvalues (r_jobs s)))) as Hin.
    { rewrite merge_sort_Permutation. apply list_elem_of_filter.
      split; [by apply Is_true_true|by eapply dget_values]. }
    rewrite Es in Hin. by apply elem_of_nil in Hin.
  - right. pose proof (merge_sort_head_elem _ _ _ _ Es) as Hs.
    apply list_elem_of_filter in Hs as [Hc%Is_true_true Hin].
    apply dvalues_get in Hin as [k Hk]; [|by apply core_jobs_wf].
    exists k, sel. eexists.
    split; [done|]. split; [done|]. split; [reflexivity|]. intros k' j Hk' Hcj Hne.
    assert (j = sel ∨ claim_order sel j) as [->|Ho].
    { eapply (merge_sort_head_min claim_order); [exact Es|]. apply list_elem_of_filter.
      split; [by apply Is_true_true|by eapply dget_values]. }
    + exfalso. apply Hne. by eapply (core_sequence s C).
    + assert (j_sequence j ≠ j_sequence sel).
      { intros E. apply Hne. by eapply (core_sequence s C). }
      unfold claim_order in Ho. lia.
Qed.

(** Before the claim, two jobs wait and the worker is idle. *)
Definition demo_waiting : repo := foldl (λ s o, exec o s) demo_repo (take 3 demo_ops).
Definition demo_idle : WorkerRecord := default demo_worker (dget "w1" (r_workers demo_waiting)).

Lemma demo_waiting_reachable : reachable demo_waiting.
Proof.
  eapply (trace_reachable demo_repo (take 3 demo_ops)); [|apply demo_repo_reachable].
  apply tr_cons; [cbn; lia|]. apply tr_cons; [split; [apply demo_submission_wf; by right|done]|].
  apply tr_cons; [split; [apply demo_submission_wf; by left|by vm_compute]|]. apply tr_nil.
Qed.

Lemma claim_next_job_best_witness :
  (claim_next_job "w1" "tok-1" (utc 3) demo_waiting = Ok (demo_waiting, None) ∧
     ∀ k j, dget k (r_jobs demo_waiting) = Some j → claimable (_aware (utc 3)) demo_idle j = false) ∨
  ∃ k sel s', dget k (r_jobs demo_waiting) = Some sel ∧
     claimable (_aware (utc 3)) demo_idle sel = true ∧
     claim_next_job "w1" "tok-1" (utc 3) demo_waiting =
       Ok (s', Some (job_claimed sel "w1" "tok-1"
                (_aware (utc 3) + seconds (r_lease_seconds demo_waiting)) (_aware (utc 3)))) ∧
     ∀ k' j, dget k' (r_jobs demo_waiting) = Some j →
       claimable (_aware (utc 3)) demo_idle j = true → k' ≠ k →
       j_priority j < j_priority sel ∨
       (j_priority j = j_priority sel ∧ j_sequence sel < j_sequence j).
Proof.
  apply claim_next_job_best; [apply demo_waiting_reachable|vm_compute; reflexivity|].
  split_and!; vm_compute; [by intros ?|done|done].
Defined.

(** ** Completion and failure *)

(** The caller holds the live lease of the job. *)
Definition holds_lease (j : JobRecord) (wid tok : string) (t : Z) : Prop :=
  j_status j = RUNNING ∧ j_assigned_worker_id j = Some wid ∧ j_lease_token j = Some tok ∧
  tok ≠ EmptyString ∧ ∃ e, j_lease_expires_at j = Some e ∧ t < e.

Lemma with_lease {A} (m : result A) j wid tok t : holds_lease j wid tok t →
  (_assert_running j wid tok t;; m) = m.
Proof. intros H. by rewrite (proj2 (assert_running_Ok j wid tok t)). Qed.

(** Terminal writes.  [complete_job] and [fail_job] on a known job succeed
    exactly for the holder of its live lease; completion makes it SUCCEEDED with the given
    result, failure requeues it (available now, lease cleared) exactly when the failure is
    retryable and attempts remain, and makes it FAILED otherwise; the worker gets its slot
    back. *)
Theorem terminal_write_outcome s k j wid tok now res err retryable : reachable s →
  dget k (r_jobs s) = Some j →
  let retry := retryable && (j_attempts j <? j_max_attempts j) in
  (is_ok (complete_job k res wid tok now s) = true ↔ holds_lease j wid tok (_aware now)) ∧
  (is_ok (fail_job k err retryable wid tok now s) = true ↔ holds_lease j wid tok (_aware now)) ∧
  (holds_lease j wid tok (_aware now) →
     ∃ s1 s2 w, dget wid (r_workers s) = Some w ∧
       complete_job k res wid tok now s = Ok (s1, job_completed j res (_aware now)) ∧
       fail_job k err retryable wid tok now s =
         Ok (s2, job_failed j retry (_failure_payload err retry) (_aware now)) ∧
       dget wid (r_workers s1) = Some (with_active_jobs w (w_active_jobs w - 1)) ∧
       dget wid (r_workers s2) = Some (with_active_jobs w (w_active_jobs w - 1))).
Proof.
  intros I%reachable_inv Hk retry. pose proof I as (C & Cap & _).
  unfold complete_job, fail_job, get_job. rewrite Hk. cbn [mbind result_bind].
  split_and!.
  1,2: unfold holds_lease; rewrite <- assert_running_Ok;
    by destruct (_assert_running j wid tok (_aware now)) as [[]|].
  intros Hl. rewrite (proj2 (assert_running_Ok j wid tok (_aware now)) Hl). cbn [mbind result_bind].
  destruct Hl as (Hrun & Hw & _). destruct (core_assigned s C k j wid Hk Hw) as [w Hwk].
  destruct (Cap wid w Hwk) as [Hc _].
  assert (1 ≤ w_active_jobs w).
  { rewrite Hc. unfold _active_job_count. enough (0 < dcount (runs_on wid) (r_jobs s))%nat by lia.
    apply dcount_pos. exists j. split; [by eapply dget_values|].
    rewrite runs_on_assigned, Hw by done. by apply bool_decide_eq_true. }
  eexists _, _, w. split_and!; [done..| |].
  all: rewrite (release_worker wid w) by done; rewrite decide_True by done; do 2 f_equal; lia.
Qed.

Lemma demo_holds_lease : holds_lease demo_job "w1" "tok-1" (_aware (utc 4)).
Proof. split_and!; try (vm_compute; done). eexists. split; vm_compute; reflexivity. Qed.

Lemma terminal_write_outcome_witness :
  (is_ok (complete_job "job-b" demo_result "w1" "tok-1" (utc 4) demo_state) = true ↔
     holds_lease demo_job "w1" "tok-1" (_aware (utc 4))) ∧
  (is_ok (fail_job "job-b" (ErrorText "boom") true "w1" "tok-1" (utc 4) demo_state) = true ↔
     holds_lease demo_job "w1" "tok-1" (_aware (utc 4))) ∧
  (holds_lease demo_job "w1" "tok-1" (_aware (utc 4)) →
     ∃ s1 s2 w, dget "w1" (r_workers demo_state) = Some w ∧
       complete_job "job-b" demo_result "w1" "tok-1" (utc 4) demo_state
         = Ok (s1, job_completed demo_job demo_result (_aware (utc 4))) ∧
       fail_job "job-b" (ErrorText "boom") true "w1" "tok-1" (utc 4) demo_state =
         Ok (s2, job_failed demo_job (true && (j_attempts demo_job <? j_max_attempts demo_job))
             (_failure_payload (ErrorText "boom")
                (true && (j_attempts demo_job <? j_max_attempts demo_job))) (_aware (utc 4))) ∧
       dget "w1" (r_workers s1) = Some (with_active_jobs w (w_active_jobs w - 1)) ∧
       dget "w1" (r_workers s2) = Some (with_active_jobs w (w_active_jobs w - 1))).
Proof. apply terminal_write_outcome; [apply demo_reachable|apply demo_job_get]. Defined.

(** ** Recovery of expired leases *)

(** Lease recovery is complete and precise.  After [recover_expired_jobs] no
    running job has an expired lease; every job whose lease had expired is requeued when
    attempts remain and FAILED otherwise, under the error "worker lease expired", and is in
    the returned list; every other job is unchanged; capacity stays exact. *)
Theorem recover_expired_jobs_spec s now : reachable s →
  let s' := (recover_expired_jobs now s).1 in
  (∀ k, dget k (r_jobs s') =
     match dget k (r_jobs s) with
     | Some j => Some (if lease_expired (_aware now) j then recovered (_aware now) j else j)
     | None => None
     end) ∧
  (recover_expired_jobs now s).2 =
    (recovered (_aware now) <$> filter (lease_expired (_aware now)) (dvalues (r_jobs s))) ∧
  (∀ k j, dget k (r_jobs s') = Some j → lease_expired (_aware now) j = false) ∧
  (∀ k w, dget k (r_workers s') = Some w → w_active_jobs w = _active_job_count s' k).
Proof.
  intros I%reachable_inv s'. split_and!.
  - intros k. by apply recover_get.
  - unfold recover_expired_jobs.
    apply (items_loop_out (λ s' k v, recover_one (_aware now) k v s')
      (lease_expired (_aware now)) (recovered (_aware now))). done.
  - intros k j. subst s'. rewrite recover_get by done.
    destruct (dget k (r_jobs s)) as [j0|]; [|done]. intros [= <-].
    destruct (lease_expired (_aware now) j0) eqn:E; [|done].
    unfold lease_expired, recovered. cbn. by destruct (_ <? _).
  - intros k w Hk. destruct (inv_recover now s I) as (_ & Cap & _). by apply Cap.
Qed.

Lemma recover_expired_jobs_spec_witness :
  let s' := (recover_expired_jobs (utc 301000000) demo_state).1 in
  (∀ k, dget k (r_jobs s') =
     match dget k (r_jobs demo_state) with
     | Some j => Some (if lease_expired (_aware (utc 301000000)) j
                       then recovered (_aware (utc 301000000)) j else j)
     | None => None
     end) ∧
  (recover_expired_jobs (utc 301000000) demo_state).2 =
    (recovered (_aware (utc 301000000)) <$>
       filter (lease_expired (_aware (utc 301000000))) (dvalues (r_jobs demo_state))) ∧
  (∀ k j, dget k (r_jobs s') = Some j → lease_expired (_aware (utc 301000000)) j = false) ∧
  (∀ k w, dget k (r_workers s') = Some w → w_active_jobs w = _active_job_count s' k).
Proof. apply recover_expired_jobs_spec, demo_reachable. Defined.

(** ** Liveness of workers *)

(** Liveness expiry.  After [expire_stale_workers] every worker last seen
    before the cutoff is OFFLINE, no other worker changed, no job changed, and only the
    state field moves. *)
Theorem expire_stale_workers_spec s now k w : reachable s →
  dget k (r_workers s) = Some w →
  let s' := (expire_stale_workers now s).1 in
  r_jobs s' = r_jobs s ∧
  dget k (r_workers s') =
    Some (if bool_decide (_aware now - seconds (r_worker_ttl_seconds s) ≤ w_last_seen_at w)
          then w else with_state w OFFLINE (w_last_seen_at w)).
Proof.
  intros I%reachable_inv Hk s'. split; [apply expire_jobs|]. subst s'.
  rewrite expire_get, Hk by done. f_equal. unfold stale.
  destruct (Z.leb_spec (_aware now - seconds (r_worker_ttl_seconds s)) (w_last_seen_at w)) as [H|H].
  - by rewrite orb_true_r, (bool_decide_true (_ ≤ _)).
  - rewrite orb_false_r, (bool_decide_false (_ ≤ _)) by lia.
    case_bool_decide as Ho; [|done]. destruct w; cbn in *; by subst.
Qed.

Lemma expire_stale_workers_spec_witness :
  let s' := (expire_stale_workers (utc 70000000) demo_state).1 in
  r_jobs s' = r_jobs demo_state ∧
  dget "w1" (r_workers s') =
    Some (if bool_decide (_aware (utc 70000000) - seconds (r_worker_ttl_seconds demo_state)
                          ≤ w_last_seen_at demo_worker)
          then demo_worker else with_state demo_worker OFFLINE (w_last_seen_at demo_worker)).
Proof. apply expire_stale_workers_spec; [apply demo_reachable|apply demo_worker_get]. Defined.

(** ** Control-plane properties: submission and re-acquisition

    Idempotent submission over time, and how an OFFLINE worker comes back. *)

(** ** The idempotency index *)

Lemma release_idem wid s : r_idempotency (_release_worker_capacity wid s) = r_idempotency s.
Proof.
  unfold _release_worker_capacity. destruct wid as [id|]; [|done].
  by destruct (dget id (r_workers s)).
Qed.

Lemma recover_idem now s : r_idempotency (recover_expired_jobs now s).1 = r_idempotency s.
Proof.
  unfold recover_expired_jobs.
  apply (foldl_keeps (λ b c, r_idempotency c.1 = r_idempotency b.1) _ (r_jobs s) (s, []));
    [done|congruence|].
  intros [s' out] [k j]. case_match; [|done]. cbn. apply release_idem.
Qed.

Lemma expire_idem now s : r_idempotency (expire_stale_workers now s).1 = r_idempotency s.
Proof.
  unfold expire_stale_workers.
  apply (foldl_keeps (λ b c, r_idempotency c.1 = r_idempotency b.1) _ (r_workers s) (s, []));
    [done|congruence|].
  intros [s' out] [k j]. by case_match.
Qed.

(** The two outcomes of a successful submission. *)
Lemma submit_decompose sub uuid now s s' j : submit_job sub uuid now s = Ok (s', j) →
  (∃ key id, sub_idempotency_key sub = Some key ∧ str_truthy key = true ∧
     dget key (r_idempotency s) = Some id ∧ dget id (r_jobs s) = Some j ∧
     _submission_matches j sub = true ∧ s' = s) ∨
  ((∀ key, sub_idempotency_key sub = Some key → str_truthy key = true →
      dget key (r_idempotency s) = None) ∧ (s', j) = insert_job sub uuid (_aware now) s).
Proof.
  unfold submit_job. destruct (sub_idempotency_key sub) as [key|] eqn:Ek; cbn [opt_truthy].
  2:{ intros H. right. split; [done|congruence]. }
  destruct (str_truthy key) eqn:Et; [|intros H; right; split; congruence].
  cbn [mbind option_bind]. destruct (dget key (r_idempotency s)) as [id|] eqn:Ei.
  - destruct (dget id (r_jobs s)) as [j0|] eqn:Ej; [|done]. intros H. simp_res. left.
    by exists key, id.
  - intros H. right. split; congruence.
Qed.

Lemma submit_index sub uuid now s s' j key id : submit_job sub uuid now s = Ok (s', j) →
  dget key (r_idempotency s) = Some id → dget key (r_idempotency s') = Some id.
Proof.
  intros [(k & i & _ & _ & _ & _ & _ & ->)|[Hn H]]%submit_decompose Hk; [done|].
  unfold insert_job in H. injection H as -> ->. cbn.
  destruct (sub_idempotency_key sub) as [k|] eqn:Ek; [|done].
  destruct (str_truthy k) eqn:Et; [|done].
  rewrite dget_dset_ne; [done|]. intros ->. specialize (Hn k eq_refl Et). congruence.
Qed.

(** No operation forgets or redirects a key. *)
Lemma exec_index o s key id : dget key (r_idempotency s) = Some id →
  dget key (r_idempotency (exec o s)) = Some id.
Proof.
  intros Hk. destruct o; cbn [exec]; try (
    match goal with |- context [after _ ?r] => destruct r as [[s' x]|] eqn:E; cbn [after]; [|done] end).
  - unfold register_worker in E. apply bind_Ok in E as ([] & _ & E). by simp_res.
  - unfold set_worker_state in E. by simp_res.
  - by apply heartbeat_decompose in E as (w0 & s1 & _ & _ & [(-> & _)|(? & ? & ? & _ & _ & _ & _ & ->)] & -> & _).
  - by rewrite expire_idem.
  - by eapply submit_index.
  - unfold claim_next_job, get_worker in E.
    destruct (dget worker_id (r_workers s)) as [w|]; [|done]. cbn [mbind result_bind] in E.
    case_in E; by simp_res.
  - unfold complete_job in E. simp_res. by rewrite release_idem.
  - unfold fail_job in E. simp_res. by rewrite release_idem.
  - unfold cancel_job in E. simp_res. destruct (terminal _); simp_res; [done|].
    case_bool_decide; [change (dget key (r_idempotency (_release_worker_capacity
      (j_assigned_worker_id x0) s)) = Some id); by rewrite release_idem|done].
  - by rewrite recover_idem.
Qed.

(** Matching reads only what a job never changes, once no start time is asked for. *)
Lemma matches_identity sub j j' : sub_available_at sub = None → job_identity j' = job_identity j →
  _submission_matches j' sub = _submission_matches j sub.
Proof.
  unfold _submission_matches, job_identity. intros -> [= _ -> -> -> -> _ -> _ _]. done.
Qed.

Lemma matches_new sub uuid n t : sub_available_at sub = None → plain (PDict (sub_payload sub)) →
  wf_JobRequirements (sub_requirements sub) → _submission_matches (new_job sub uuid n t) sub = true.
Proof.
  intros Ha Hp Hr. unfold _submission_matches.
  cbn -[dict_py_eqb JobRequirements_eqb Z.eqb].
  rewrite bool_decide_true, (dict_py_eqb_refl _ Hp), !Z.eqb_refl, Ha by done. cbn -[JobRequirements_eqb].
  rewrite (proj2 (JobRequirements_eqb_spec _ _ (proj1 (proj2 (proj2 (proj2 Hr))))
    (proj1 (proj2 (proj2 (proj2 Hr)))))) by done. done.
Qed.

(** A known key answers with its job, or conflicts. *)
Lemma submit_known sub uuid now s key id j : sub_idempotency_key sub = Some key →
  str_truthy key = true → dget key (r_idempotency s) = Some id → dget id (r_jobs s) = Some j →
  submit_job sub uuid now s =
  if _submission_matches j sub then Ok (s, j)
  else Err (ConflictError "idempotency key already belongs to a different job request").
Proof.
  intros Hk Ht Hi Hj. unfold submit_job. rewrite Hk. cbn [opt_truthy mbind option_bind].
  rewrite Ht, Hi, Hj. by destruct (_submission_matches j sub).
Qed.

(** Along a trace the key keeps pointing at its job. *)
Lemma trace_index s os s' key id j : trace s os s' → inv s →
  dget key (r_idempotency s) = Some id → dget id (r_jobs s) = Some j →
  ∃ j', dget key (r_idempotency s') = Some id ∧ dget id (r_jobs s') = Some j' ∧
        job_identity j' = job_identity j.
Proof.
  intros Ht. revert j. induction Ht as [s|s o os s' Hok Ht IH]; intros j I Hi Hj; [eauto|].
  destruct (exec_evolves o s id j Hok I Hj) as (j1 & Hj1 & Hev%evolves_identity).
  destruct (IH j1 (inv_exec _ _ Hok I) (exec_index o s key id Hi) Hj1) as (j' & ? & ? & E).
  exists j'. split_and!; [done..|congruence].
Qed.

(** ** Properties *)

(** Property C7: idempotent submission.  After a keyed request was accepted, and whatever
    operations happened since - claims, retries, completion -, the same request is answered
    by the same job and changes nothing; a request with this key whose content differs from
    that job is refused with a conflict.  (Stated for well-formed requests whose payload has
    no NaN, which is not equal to itself, and without an explicit start time: with one, a
    retry breaks it, see [retry_breaks_idempotency].) *)
Theorem submit_idempotent s os s2 sub key uuid now s1 j uuid' now' sub' :
  reachable s → wf_JobSubmission sub → plain (PDict (sub_payload sub)) →
  wf_JobRequirements (sub_requirements sub) → sub_available_at sub = None →
  sub_idempotency_key sub = Some key → dget uuid (r_jobs s) = None →
  submit_job sub uuid now s = Ok (s1, j) → trace s1 os s2 →
  sub_idempotency_key sub' = Some key →
  ∃ j', dget (j_job_id j) (r_jobs s2) = Some j' ∧ job_identity j' = job_identity j ∧
    submit_job sub uuid' now' s2 = Ok (s2, j') ∧
    (_submission_matches j' sub' = false → ∃ msg, submit_job sub' uuid' now' s2 = Err (ConflictError msg)).
Proof.
  intros I%reachable_inv Hwf Hp Hr Ha Hk Hu Hs Ht Hk'.
  assert (str_truthy key = true) as Htr.
  { apply str_truthy_spec. intros ->. by apply (proj1 (proj2 (proj2 Hwf)) EmptyString). }
  assert (inv s1) as I1.
  { pose proof (inv_exec (OpSubmit sub uuid now) s (conj Hwf Hu) I) as H.
    cbn [exec] in H. by rewrite Hs in H. }
  assert (dget key (r_idempotency s1) = Some (j_job_id j) ∧ dget (j_job_id j) (r_jobs s1) = Some j ∧
    _submission_matches j sub = true) as (Hi & Hj & Hm).
  { apply submit_decompose in Hs as [(k & i & E & _ & H1 & H2 & Hm & ->)|[_ H]].
    - assert (k = key) as -> by congruence. rewrite (proj1 (core_job s (proj1 I) _ _ H2)). done.
    - unfold insert_job in H. injection H as -> ->. cbn. rewrite Hk, Htr, !dget_dset_eq.
      split_and!; [done..|by apply matches_new]. }
  destruct (trace_index _ _ _ _ _ _ Ht I1 Hi Hj) as (j' & Hi' & Hj' & Hid).
  exists j'. split; [done|]. split; [done|].
  rewrite !(submit_known _ _ _ _ key (j_job_id j) j') by done.
  rewrite (matches_identity sub j j'), Hm by done. split; [done|]. intros ->. by eexists.
Qed.

(** The keyed job of the demo, resubmitted after the other job ran. *)
Lemma no_requirements_wf : wf_JobRequirements no_requirements.
Proof. split_and!; cbn; try done; try (repeat constructor; done). Qed.

Lemma submit_idempotent_witness :
  let s1 := exec (OpSubmit (demo_submission 0 (Some "k1")) "job-a" (utc 1)) demo_repo in
  ∃ j', dget "job-a" (r_jobs (exec (OpCancel "job-a" (utc 2)) s1)) = Some j' ∧
    job_identity j' = job_identity (new_job (demo_submission 0 (Some "k1")) "job-a" 1 1) ∧
    submit_job (demo_submission 0 (Some "k1")) "job-c" (utc 9) (exec (OpCancel "job-a" (utc 2)) s1)
      = Ok (exec (OpCancel "job-a" (utc 2)) s1, j') ∧
    (_submission_matches j' (demo_submission 7 (Some "k1")) = false →
     ∃ msg, submit_job (demo_submission 7 (Some "k1")) "job-c" (utc 9)
              (exec (OpCancel "job-a" (utc 2)) s1) = Err (ConflictError msg)).
Proof.
  eapply (submit_idempotent demo_repo [OpCancel "job-a" (utc 2)] _ (demo_submission 0 (Some "k1")) "k1" "job-a" (utc 1)
    _ (new_job (demo_submission 0 (Some "k1")) "job-a" 1 1)).
  - apply demo_repo_reachable.
  - apply demo_submission_wf. by right.
  - cbn. split; [|done]. apply (bool_decide_unpack _). vm_compute. exact I.
  - apply no_requirements_wf.
  - done.
  - done.
  - done.
  - vm_compute. reflexivity.
  - apply tr_cons; [done|apply tr_nil].
  - done.
Defined.

(** A requested start time other than the record's. *)
Lemma scheduled_mismatch j sub d : sub_available_at sub = Some d → j_available_at j ≠ _aware d →
  _submission_matches j sub = false.
Proof.
  intros Hd Hne. unfold _submission_matches. rewrite Hd.
  rewrite (proj2 (Z.eqb_neq (j_available_at j) (_aware d))) by done. by repeat case_match.
Qed.

(** A retry breaks idempotency of scheduled requests.  A keyed request with an
    explicit [available_at] is recognised while its job is leased; after a retryable failure
    the very same request is refused with a conflict, because the retry overwrote the
    [available_at] the comparison reads. *)
Theorem retry_breaks_idempotency s key id j sub d wid tok err now uuid now' :
  reachable s → sub_idempotency_key sub = Some key → str_truthy key = true →
  dget key (r_idempotency s) = Some id → dget id (r_jobs s) = Some j →
  sub_available_at sub = Some d → _submission_matches j sub = true →
  holds_lease j wid tok (_aware now) → j_attempts j < j_max_attempts j → _aware now ≠ _aware d →
  submit_job sub uuid now' s = Ok (s, j) ∧
  ∃ s' j' msg, fail_job id err true wid tok now s = Ok (s', j') ∧ j_status j' = QUEUED ∧
    submit_job sub uuid now' s' = Err (ConflictError msg).
Proof.
  intros I%reachable_inv Hk Ht Hi Hj Hd Hm Hl Hatt Hne. split.
  { by rewrite (submit_known _ _ _ _ key id j), Hm by done. }
  unfold fail_job, get_job. rewrite Hj. cbn [mbind result_bind].
  rewrite (proj2 (assert_running_Ok j wid tok (_aware now)) Hl). cbn [mbind result_bind].
  rewrite (proj2 (Z.ltb_lt _ _)) by done.
  eexists _, _, _. split; [done|]. split; [done|].
  rewrite (submit_known _ _ _ _ key id (job_failed j true (_failure_payload err true) (_aware now)));
    [|done..|by rewrite release_idem|by rewrite release_jobs, r_jobs_put_job, dget_dset_eq].
  rewrite (scheduled_mismatch _ sub d) by done. done.
Qed.

(** A scheduled job, submitted, claimed at its start time. *)
Definition scheduled : JobSubmission :=
  {| sub_capability := "debug.echo"; sub_payload := []; sub_requirements := no_requirements;
     sub_priority := 0; sub_max_attempts := 2; sub_idempotency_key := Some "nightly";
     sub_available_at := Some (utc 3) |}.
Definition scheduled_ops : list op :=
  [OpRegister demo_registration (utc 0); OpSubmit scheduled "job-n" (utc 1);
   OpClaim "w1" "tok-n" (utc 3)].
Definition scheduled_state : repo := foldl (λ s o, exec o s) demo_repo scheduled_ops.
Definition scheduled_job : JobRecord :=
  default (new_job scheduled "job-n" 1 1) (dget "job-n" (r_jobs scheduled_state)).

Lemma scheduled_reachable : reachable scheduled_state.
Proof.
  eapply (trace_reachable demo_repo scheduled_ops); [|apply demo_repo_reachable].
  apply tr_cons; [cbn; lia|]. apply tr_cons.
  - split; [|done]. split; [vm_decide|]. split; [cbn; lia|].
    split; intros ? [= <-]; [vm_decide|done].
  - apply tr_cons; [done|apply tr_nil].
Qed.

Lemma retry_breaks_idempotency_witness :
  submit_job scheduled "job-m" (utc 5) scheduled_state = Ok (scheduled_state, scheduled_job) ∧
  ∃ s' j' msg,
    fail_job "job-n" (ErrorText "boom") true "w1" "tok-n" (utc 4) scheduled_state = Ok (s', j') ∧
    j_status j' = QUEUED ∧ submit_job scheduled "job-m" (utc 5) s' = Err (ConflictError msg).
Proof.
  apply (retry_breaks_idempotency _ "nightly" "job-n" _ _ (utc 3)); try (vm_compute; reflexivity).
  - apply scheduled_reachable.
  - split_and!; try (vm_compute; done). eexists. split; vm_compute; reflexivity.
  - vm_compute. discriminate.
Defined.

(** ** Coming back from OFFLINE *)

(** The operation explicitly asks for worker [k] to be back in service. *)
Definition reacquires (k : string) (o : op) : bool :=
  match o with
  | OpRegister reg _ => bool_decide (worker_id (reg_spec reg) = k)
  | OpSetState wid st _ => bool_decide (wid = k) && negb (bool_decide (st = OFFLINE))
  | _ => false
  end.

Lemma release_state wid s k w : dget k (r_workers s) = Some w →
  ∃ n, dget k (r_workers (_release_worker_capacity wid s)) = Some (with_active_jobs w n).
Proof.
  intros Hk. assert (w = with_active_jobs w (w_active_jobs w)) as Hw by by destruct w.
  unfold _release_worker_capacity. destruct wid as [id|]; [|by exists (w_active_jobs w); rewrite <- Hw].
  destruct (dget id (r_workers s)) as [w0|] eqn:E; [|by exists (w_active_jobs w); rewrite <- Hw].
  rewrite r_workers_put_worker, dget_dset. destruct (decide (k = id)) as [->|].
  - rewrite Hk in E. injection E as ->. by eexists.
  - exists (w_active_jobs w). by rewrite <- Hw.
Qed.

(** A property of the worker's state survives the recovery loop. *)
Lemma recover_worker_state now s k w : dget k (r_workers s) = Some w →
  ∃ w', dget k (r_workers (recover_expired_jobs now s).1) = Some w' ∧ w_state w' = w_state w.
Proof.
  intros Hk. unfold recover_expired_jobs.
  apply (foldl_keeps (λ b c, ∀ w, dget k (r_workers b.1) = Some w →
    ∃ w', dget k (r_workers c.1) = Some w' ∧ w_state w' = w_state w) _ (r_jobs s) (s, [])); [eauto|..].
  - intros b c d H1 H2 w0 Hw0. destruct (H1 w0 Hw0) as (w1 & Hw1 & E1).
    destruct (H2 w1 Hw1) as (w2 & Hw2 & E2). exists w2. split; [done|congruence].
  - intros [s' out] [k' j] w0 Hw0. case_match; [|eauto]. cbn in *.
    destruct (release_state (j_assigned_worker_id j) s' k w0 Hw0) as [n Hn]. eauto.
  - done.
Qed.

(** An OFFLINE worker returns only by explicit re-acquisition.  Whatever else
    happens to a reachable state - heartbeats that ask for ONLINE or DRAINING included - a
    worker recorded OFFLINE stays OFFLINE and gets no job; only its own registration or an
    explicit state change, which check GPU ownership, bring it back. *)
Theorem offline_needs_reacquire s k w o : reachable s → op_ok s o →
  dget k (r_workers s) = Some w → w_state w = OFFLINE → reacquires k o = false →
  (∃ w', dget k (r_workers (exec o s)) = Some w' ∧ w_state w' = OFFLINE) ∧
  (∀ uuid now s' j, claim_next_job k uuid now s ≠ Ok (s', Some j)).
Proof.
  intros I%reachable_inv Hok Hk Hoff Hre. split.
  2:{ intros uuid now s' j (w0 & sel & rest & Hw0 & _ & Hon & _)%claim_decompose. congruence. }
  assert (∀ k', reacquires k o = false → ∀ w1, (k' = k → w_state w1 = OFFLINE) →
    ∃ w', dget k (dset k' w1 (r_workers s)) = Some w' ∧ w_state w' = OFFLINE) as Hput.
  { intros k' _ w1 H. rewrite dget_dset. destruct (decide (k = k')) as [->|]; eauto. }
  specialize (λ k', Hput k' Hre).
  assert (∀ wid s', r_workers s' = r_workers s → ∃ w',
    dget k (r_workers (_release_worker_capacity wid s')) = Some w' ∧ w_state w' = OFFLINE)
    as release_offline.
  { intros wid s' E. rewrite <- E in Hk. destruct (release_state wid s' k w Hk) as [n ->]. eauto. }
  destruct o; cbn [exec reacquires] in *; try (
    match goal with |- context [after _ ?r] => destruct r as [[s' x]|] eqn:E; cbn [after]; [|by eauto] end).
  - unfold register_worker in E. apply bind_Ok in E as ([] & _ & E). simp_res.
    rewrite r_workers_put_worker. apply Hput. bools. done.
  - unfold set_worker_state in E. simp_res. rewrite r_workers_put_worker. apply Hput.
    intros ->. cbn. rewrite bool_decide_true in Hre by done. cbn in Hre. by bools.
  - apply heartbeat_decompose in E as (w0 & s1 & Hw0 & Hkeep & Hs1 & -> & _ & _ & _ & Hst & _).
    assert (r_workers s1 = r_workers s) as Hs1'.
    { destruct Hs1 as [(-> & _)|(? & ? & ? & _ & _ & _ & _ & ->)]; done. }
    rewrite r_workers_put_worker, Hs1'. apply Hput. intros ->. rewrite Hst.
    apply Hkeep. congruence.
  - rewrite expire_get, Hk by done. eexists. split; [done|]. by case_match.
  - apply submit_decompose in E as [(? & ? & _ & _ & _ & _ & _ & ->)|[_ E]]; [eauto|].
    unfold insert_job in E. injection E as -> _. eauto.
  - destruct x as [cj|].
    + apply claim_decompose in E as (w0 & sel & rest & Hw0 & _ & Hon & _ & _ & -> & ->).
      rewrite r_workers_put_worker, r_workers_put_job. apply Hput. intros ->. congruence.
    + unfold claim_next_job, get_worker in E.
      destruct (dget worker_id (r_workers s)) as [w0|] eqn:E0; [|done]. cbn [mbind result_bind] in E.
      case_in E; simp_res; try by eauto. rewrite r_workers_put_worker. by apply Hput.
  - unfold complete_job in E. simp_res. by apply release_offline.
  - unfold fail_job in E. simp_res. by apply release_offline.
  - unfold cancel_job in E. simp_res. destruct (terminal _); simp_res; [eauto|].
    rewrite r_workers_put_job. case_bool_decide; [by apply release_offline|eauto].
  - destruct (recover_worker_state now s k w Hk) as (w' & ? & ?). exists w'. split; [done|congruence].
Qed.

(** The demo worker goes stale, is expired, and heartbeats ONLINE again. *)
Definition demo_offline : repo := exec (OpExpire (utc 70000000)) demo_state.
Definition online_heartbeat : WorkerHeartbeat :=
  {| hb_state := Some ONLINE; hb_active_job_id := None; hb_lease_token := None; hb_metadata := [] |}.

Lemma offline_needs_reacquire_witness :
  (∃ w', dget "w1" (r_workers (exec (OpHeartbeat "w1" online_heartbeat (utc 70000001)) demo_offline))
         = Some w' ∧ w_state w' = OFFLINE) ∧
  (∀ uuid now s' j, claim_next_job "w1" uuid now demo_offline ≠ Ok (s', Some j)).
Proof.
  apply (offline_needs_reacquire _ _ (default demo_worker (dget "w1" (r_workers demo_offline)))).
  - eapply reach_step; [apply demo_reachable|by apply step_op].
  - done.
  - vm_compute. reflexivity.
  - vm_compute. reflexivity.
  - done.
Defined.
