(* ===== verification/GpuMapping.v ===== *)
(** * Physical GPU mapping and isolation proof

    Models [src/src/astrumweaver/gpu_mapping.py]: how the node agent maps NVIDIA UUIDs to
    device nodes, and how it proves that a worker's GPU subset is enforced.  Everything the
    host answers - the NVIDIA query tool, [/proc], [/dev], [open] - is the [host] record,
    an argument of the definitions. *)

From S2P Require Import Prelude PyStr PyDict PyVal PyHost.

(** ** The host *)

(** A finished process. *)
Record completed := { returncode : Z; stdout : string; stderr : string }.

Record stat_result := { st_mode : Z; st_rdev : Z }.

(** [tomllib.load] of a file: a table, the two errors the code catches, or bytes that are
    not UTF-8. *)
Inductive toml_read :=
  | TomlTable (config : dict pyval)
  | TomlUnavailable
  | TomlUndecodable.

(** The answers of the host.  A missing value is the [OSError] (or [UnicodeError]) the code
    catches; [open] answers a descriptor or an [errno]. *)
Record host := {
  h_run : string → string → option completed;
  h_proc_entries : list string;
  h_read_information : string → option string;
  h_read_text : string → option string;
  h_device_stat : string → option stat_result;
  h_open : string → Z + Z;
  h_load_toml : string → toml_read;
  h_cuda_visible_devices : option string;
}.

(** [stat.S_ISCHR], [os.major] and [os.minor] of the C library. *)
Definition S_ISCHR (mode : Z) : bool := Z.land mode 61440 =? 8192.
Definition os_major (rdev : Z) : Z :=
  Z.lor (Z.land (Z.shiftr rdev 8) 4095) (Z.land (Z.shiftr rdev 32) 4294963200).
Definition os_minor (rdev : Z) : Z :=
  Z.lor (Z.land rdev 255) (Z.land (Z.shiftr rdev 12) 4294967040).

(** ** Parsing *)

(** [_GPU_UUID_RE.fullmatch], gpu_mapping.py lines 25-25. *)
Definition uuid_char (c : ascii) : bool :=
  negb (is_space c) && negb (bool_decide (c = ","%char)) && negb (bool_decide (c = "="%char)).
Definition gpu_uuid_re (s : string) : bool :=
  match s with
  | String "G" (String "P" (String "U" (String "-" r))) => str_truthy r && all_chars uuid_char r
  | _ => false
  end.

(** [_DEVICE_PATH_RE.fullmatch], gpu_mapping.py lines 27-27. *)
Definition device_path_re (s : string) : bool :=
  startswith "/dev/nvidia" s && digits (String.substring 11 (String.length s - 11) s).

(** [_validate_uuid], gpu_mapping.py lines 33-37. *)
Definition _validate_uuid (value : string) : result string :=
  let normalized := strip value in
  require (gpu_uuid_re normalized) (GpuMappingError "GPU UUID data is invalid");;
  Ok normalized.

(** [_run_nvidia_query], gpu_mapping.py lines 40-60. *)
Definition _run_nvidia_query (h : host) (command fields : string) : result completed :=
  match h_run h command fields with
  | Some c => Ok c
  | None => Err (GpuMappingError "NVIDIA visibility command is unavailable")
  end.

(** The lines that are not blank. *)
Definition text_lines (output : string) : list string :=
  filter (λ l, str_truthy (strip l)) (splitlines output).

(** [_parse_visible_uuids], gpu_mapping.py lines 63-75. *)
Definition _parse_visible_uuids (output : string) : result (list string) :=
  values ← mapR (λ raw_line, _validate_uuid (strip raw_line)) (text_lines output);
  require (negb (bool_decide (values = [])))
    (GpuMappingError "no visible NVIDIA GPU UUIDs were reported");;
  require (all_distinct values) (GpuMappingError "visible NVIDIA GPU UUIDs are not unique");;
  Ok (sorted_strings values).

(** [_query_visible_uuids], gpu_mapping.py lines 78-86. *)
Definition _query_visible_uuids (h : host) (command : string) : result (list string) :=
  c ← _run_nvidia_query h command "uuid";
  require (returncode c =? 0) (GpuMappingError "NVIDIA GPU UUID visibility query failed");;
  _parse_visible_uuids (stdout c).

(** The loop body of [_parse_uuid_minor_rows], gpu_mapping.py lines 92-102. *)
Definition minor_row (rows : dict Z) (raw_line : string) : result (dict Z) :=
  match strip <$> split_char "," raw_line with
  | [f0; f1] =>
      uuid ← _validate_uuid f0;
      require (digits f1) (GpuMappingError "NVIDIA GPU minor data is malformed");;
      require (negb (bool_decide (is_Some (dget uuid rows))))
        (GpuMappingError "NVIDIA GPU UUID/minor data is ambiguous");;
      minor ← int_of_digits f1;
      Ok (dset uuid (Z.of_N minor) rows)
  | _ => Err (GpuMappingError "NVIDIA GPU UUID/minor data is malformed")
  end.

(** [_parse_uuid_minor_rows], gpu_mapping.py lines 89-106. *)
Definition _parse_uuid_minor_rows (output : string) : result (dict Z) :=
  rows ← foldR minor_row [] (text_lines output);
  require (negb (bool_decide (length rows = 0%nat)))
    (GpuMappingError "NVIDIA GPU UUID/minor data is empty");;
  Ok rows.

(** [_stdout_contains_gpu_data], gpu_mapping.py lines 109-119. *)
Definition _stdout_contains_gpu_data (output : string) : bool :=
  existsb (λ raw_line, gpu_uuid_re (strip (default EmptyString (head (split1_char "," (strip raw_line))))))
    (text_lines output).

(** gpu_mapping.py lines 148-157. *)
Definition runtime_failure_markers : list string :=
  ["failed to initialize nvml"; "driver/library version mismatch";
   "couldn't communicate with the nvidia driver"; "could not communicate with the nvidia driver";
   "failed to communicate with the nvidia driver"; "permission denied"; "not permitted";
   "insufficient permission"].

(** gpu_mapping.py lines 174-180. *)
Definition unsupported_markers : list string :=
  ["unknown"; "unsupported"; "not supported"; "unrecognized"; "not recognized"].

(** [_minor_query_is_explicitly_unsupported], gpu_mapping.py lines 122-181. *)
Definition _minor_query_is_explicitly_unsupported (c : completed) : bool :=
  if returncode c =? 0 then false
  else if _stdout_contains_gpu_data (stdout c) then false
  else
    let diagnostic :=
      casefold (join (String "010" EmptyString) (filter (λ p, str_truthy p) [stdout c; stderr c])) in
    if negb (str_truthy (strip diagnostic)) then false
    else if any_in runtime_failure_markers diagnostic then false
    else if negb (contains "minor_number" diagnostic || contains "minor number" diagnostic)
    then false
    else if contains "not a valid field to query" diagnostic then true
    else if negb (contains "field" diagnostic) then false
    else any_in unsupported_markers diagnostic.

(** [_query_primary_mapping], gpu_mapping.py lines 184-198. *)
Definition _query_primary_mapping (h : host) (command : string) : result (option (dict Z)) :=
  c ← _run_nvidia_query h command "uuid,minor_number";
  if negb (returncode c =? 0) then
    if _minor_query_is_explicitly_unsupported c then Ok None
    else Err (GpuMappingError "NVIDIA GPU UUID/minor query failed")
  else rows ← _parse_uuid_minor_rows (stdout c); Ok (Some rows).

(** A candidate minor: a parsed integer, the text of a field, [None], or a boolean. *)
Inductive raw_minor :=
  | MInt (z : Z)
  | MStr (s : string)
  | MNone
  | MBool (b : bool).

(** The values of one field of an information file, gpu_mapping.py lines 217-225. *)
Definition field_values (key text : string) : list string :=
  omap (λ raw_line,
    let '(k, separator, raw_value) := partition_char ":" raw_line in
    if (separator : bool) && bool_decide (strip k = key) then Some (strip raw_value) else None)
    (splitlines text).

(** The loop body of [_proc_mapping_rows], gpu_mapping.py lines 207-234. *)
Definition proc_row (h : host) (rows : dict (list raw_minor)) (entry : string)
    : dict (list raw_minor) :=
  match h_read_information h entry with
  | None => rows
  | Some text =>
      let uuids := field_values "GPU UUID" text in
      let minors := field_values "Device Minor" text in
      match uuids with
      | [] => rows
      | uuid :: _ =>
          let value := match uuids, minors with [_], [m] => MStr m | _, _ => MNone end in
          dset uuid (default [] (dget uuid rows) ++ [value]) rows
      end
  end.

(** [_proc_mapping_rows], gpu_mapping.py lines 200-235. *)
Definition _proc_mapping_rows (h : host) : result (dict (list raw_minor)) :=
  let information_files := sorted_strings (h_proc_entries h) in
  require (negb (bool_decide (information_files = [])))
    (GpuMappingError "NVIDIA GPU information entries are unavailable");;
  Ok (foldl (proc_row h) [] information_files).

(** ** Mapping *)

(** The minor a candidate stands for, gpu_mapping.py lines 252-262. *)
Definition candidate_minor (raw : raw_minor) : result Z :=
  minor ← (match raw with
           | MBool _ => Err (GpuMappingError "a visible GPU has an invalid device minor")
           | MInt z => Ok z
           | MStr s =>
               if digits s then n ← int_of_digits s; Ok (Z.of_N n)
               else Err (GpuMappingError "a visible GPU has an invalid device minor")
           | MNone => Err (GpuMappingError "a visible GPU has an invalid device minor")
           end);
  require (0 <=? minor) (GpuMappingError "a visible GPU has an invalid device minor");;
  Ok minor.

(** The check of one device node, gpu_mapping.py lines 264-283. *)
Definition check_node (h : host) (device_root : string) (nvidia_major minor : Z)
    : result string :=
  let device_path := "/dev/nvidia" +:+ str_of_Z minor in
  require (device_path_re device_path)
    (GpuMappingError "a visible GPU resolved to an invalid device path");;
  match h_device_stat h (path_div device_root ("nvidia" +:+ str_of_Z minor)) with
  | None => Err (GpuMappingError "a visible GPU device node is unavailable")
  | Some node_stat =>
      require (S_ISCHR (st_mode node_stat))
        (GpuMappingError "a visible GPU device node is not a character device");;
      require ((os_major (st_rdev node_stat) =? nvidia_major)
               && (os_minor (st_rdev node_stat) =? minor))
        (GpuMappingError "a visible GPU device node does not match the NVIDIA major/minor");;
      Ok device_path
  end.

(** The loop body of [_validate_mapping], gpu_mapping.py lines 248-286. *)
Definition map_one (h : host) (rows : dict (list raw_minor)) (device_root : string)
    (nvidia_major : Z) (mapping : dict string) (uuid : string) : result (dict string) :=
  match default [] (dget uuid rows) with
  | [raw] =>
      minor ← candidate_minor raw;
      device_path ← check_node h device_root nvidia_major minor;
      require (negb (bool_decide (device_path ∈ dvalues mapping)))
        (GpuMappingError "visible GPUs reuse one device minor");;
      Ok (dset uuid device_path mapping)
  | _ => Err (GpuMappingError "a visible GPU lacks exactly one device mapping")
  end.

(** [_validate_mapping], gpu_mapping.py lines 238-288. *)
Definition _validate_mapping (h : host) (visible_uuids : list string)
    (rows : dict (list raw_minor)) (device_root : string) (nvidia_major : Z)
    : result (list (string * string)) :=
  mapping ← foldR (map_one h rows device_root nvidia_major) [] visible_uuids;
  Ok (sorted_pairs mapping).

(** The loop of [_nvidia_character_device_major], gpu_mapping.py lines 297-316. *)
Fixpoint majors_loop (in_character_devices : bool) (majors : list Z) (lines : list string)
    : result (list Z) :=
  match lines with
  | [] => Ok majors
  | line :: lines' =>
      let stripped := strip line in
      if bool_decide (stripped = "Character devices:") then majors_loop true majors lines'
      else if bool_decide (stripped = "Block devices:") then Ok majors
      else if negb in_character_devices then majors_loop in_character_devices majors lines'
      else match split_none1 stripped with
           | [f0; f1] =>
               if bool_decide (f1 = "nvidia-frontend") || bool_decide (f1 = "nvidia") then
                 match int_of_str f0 with
                 | Ok major =>
                     majors_loop in_character_devices
                       (if bool_decide (major ∈ majors) then majors else majors ++ [major]) lines'
                 | Err (ValueError _) =>
                     Err (GpuMappingError "NVIDIA character device registry is malformed")
                 | Err e => Err e
                 end
               else majors_loop in_character_devices majors lines'
           | _ => majors_loop in_character_devices majors lines'
           end
  end.

(** [_nvidia_character_device_major], gpu_mapping.py lines 291-322. *)
Definition _nvidia_character_device_major (h : host) (proc_devices : string) : result Z :=
  match h_read_text h proc_devices with
  | None => Err (GpuMappingError "NVIDIA character device registry is unavailable")
  | Some text =>
      majors ← majors_loop false [] (splitlines text);
      match majors with
      | [m] => Ok m
      | _ => Err (GpuMappingError "NVIDIA character device major is unavailable or ambiguous")
      end
  end.

(** [discover_gpu_mapping], gpu_mapping.py lines 325-349. *)
Definition discover_gpu_mapping (h : host) (nvidia_smi proc_devices device_root : string)
    : result (list (string * string)) :=
  visible_uuids ← _query_visible_uuids h nvidia_smi;
  primary ← _query_primary_mapping h nvidia_smi;
  rows ← (match primary with
          | None => _proc_mapping_rows h
          | Some p => Ok (List.map (λ '(uuid, minor), (uuid, [MInt minor])) p)
          end);
  nvidia_major ← _nvidia_character_device_major h proc_devices;
  _validate_mapping h visible_uuids rows device_root nvidia_major.

(** ** Configuration files *)

(** [_load_expected], gpu_mapping.py lines 352-366. *)
Definition _load_expected (h : host) (path : string) : result (list string) :=
  match h_read_text h path with
  | None => Err (GpuMappingError "expected GPU UUID file is unavailable")
  | Some text =>
      values ← mapR _validate_uuid (text_lines text);
      require (negb (bool_decide (values = []))) (GpuMappingError "expected GPU UUID set is empty");;
      require (all_distinct values) (GpuMappingError "expected GPU UUID set is not unique");;
      Ok (sorted_strings values)
  end.

(** [_load_worker_gpu_order], gpu_mapping.py lines 369-388. *)
Definition _load_worker_gpu_order (h : host) (path : string) : result (list string) :=
  config ← (match h_load_toml h path with
            | TomlTable c => Ok c
            | TomlUnavailable => Err (GpuMappingError "Worker GPU configuration is unavailable")
            | TomlUndecodable => Err (ValueError "codec can't decode byte")
            end);
  worker ← py_dict (py_or (get "worker" config) (PDict []));
  match dget "gpu_uuids" worker with
  | Some (PList raw_values) =>
      values ← mapR (λ value, s ← py_str value; _validate_uuid s) raw_values;
      require (negb (bool_decide (values = []))) (GpuMappingError "Worker GPU UUID order is empty");;
      require (all_distinct values) (GpuMappingError "Worker GPU UUID order is not unique");;
      Ok values
  | _ => Err (GpuMappingError "Worker GPU UUID order is invalid")
  end.

(** The loop body of [load_reviewed_gpu_map], gpu_mapping.py lines 475-484. *)
Definition reviewed_line (mapping : dict string) (l : string) : result (dict string) :=
  let '(raw_uuid, found, raw_path) := partition_char "=" l in
  require (str_truthy (strip l) && found) (GpuMappingError "reviewed GPU device map is malformed");;
  uuid ← _validate_uuid (strip raw_uuid);
  let device_path := strip raw_path in
  require (device_path_re device_path) (GpuMappingError "reviewed GPU device map is malformed");;
  require (negb (bool_decide (is_Some (dget uuid mapping))))
    (GpuMappingError "reviewed GPU device map is ambiguous");;
  Ok (dset uuid device_path mapping).

(** [load_reviewed_gpu_map], gpu_mapping.py lines 468-487. *)
Definition load_reviewed_gpu_map (h : host) (path : string) : result (list (string * string)) :=
  match h_read_text h path with
  | None => Err (GpuMappingError "reviewed GPU device map is unavailable")
  | Some text =>
      mapping ← foldR reviewed_line [] (splitlines text);
      require (negb (bool_decide (length mapping = 0%nat)))
        (GpuMappingError "reviewed GPU device map is empty");;
      Ok (sorted_pairs mapping)
  end.

(** ** Isolation *)

(** [_select_mapping], gpu_mapping.py lines 455-465. *)
Definition _select_mapping (mapping : list (string * string)) (expected : list string)
    : result (list (string * string)) :=
  let available := foldl (λ d kv, dset kv.1 kv.2 d) [] mapping in
  selected ← foldR (λ selected uuid,
    match dget uuid available with
    | None => Err (GpuMappingError "a configured GPU UUID is not visible")
    | Some path => Ok (dset uuid path selected)
    end) [] expected;
  Ok (sorted_pairs selected).

(** What the probes do to the devices, in order. *)
Inductive dev_event :=
  | Opened (path : string) (fd : Z)
  | Closed (fd : Z)
  | Refused (path : string) (errno : Z).

Definition EPERM : Z := 1.
Definition EACCES : Z := 13.

(** [actual_path], gpu_mapping.py lines 427-428. *)
Definition actual_path (device_root logical_path : string) : string :=
  path_div device_root (path_name logical_path).

(** The probes of the selected devices, gpu_mapping.py lines 431-436. *)
Fixpoint probe_selected (h : host) (device_root : string) (paths : list string)
    : list dev_event * result unit :=
  match paths with
  | [] => ([], Ok tt)
  | p :: paths' =>
      match h_open h (actual_path device_root p) with
      | inr e => ([Refused p e], Err (GpuMappingError "selected GPU device access is unavailable"))
      | inl fd =>
          let '(log, r) := probe_selected h device_root paths' in
          (Opened p fd :: Closed fd :: log, r)
      end
  end.

(** The probes of the other devices, gpu_mapping.py lines 438-452. *)
Fixpoint probe_unselected (h : host) (device_root : string) (paths : list string)
    : list dev_event * result unit :=
  match paths with
  | [] => ([], Ok tt)
  | p :: paths' =>
      match h_open h (actual_path device_root p) with
      | inr e =>
          if (e =? EACCES) || (e =? EPERM) then
            let '(log, r) := probe_unselected h device_root paths' in (Refused p e :: log, r)
          else ([Refused p e],
                Err (GpuMappingError "unselected GPU device access probe failed ambiguously"))
      | inl fd =>
          ([Opened p fd; Closed fd],
           Err (GpuIsolationUnavailableError
                  "GPU subset isolation is not enforceable in this environment"))
      end
  end.

(** The checks before any device is touched, gpu_mapping.py lines 410-422. *)
Definition check_selection (mapping : list (string * string)) (expected : list string)
    (reviewed_mapping : list (string * string)) (worker_gpu_order : list string)
    (cuda_visible_devices : option string) : result (list (string * string)) :=
  selected ← _select_mapping mapping expected;
  let reviewed := sorted_pairs reviewed_mapping in
  require (bool_decide (selected = reviewed)) (GpuMappingError "reviewed GPU device map changed");;
  ordered ← mapR _validate_uuid worker_gpu_order;
  require (all_distinct ordered) (GpuMappingError "Worker GPU UUID order is not unique");;
  require (bool_decide (sorted_strings ordered = sorted_strings expected))
    (GpuMappingError "Worker GPU UUID order does not match selected set");;
  require (bool_decide (cuda_visible_devices = Some (join "," ordered)))
    (GpuMappingError "CUDA visible-device order does not match Worker GPU order");;
  Ok selected.

(** [verify_isolated_gpu_access], gpu_mapping.py lines 391-452. *)
Definition verify_isolated_gpu_access (h : host) (mapping : list (string * string))
    (expected : list string) (reviewed_mapping : list (string * string))
    (worker_gpu_order : list string) (cuda_visible_devices : option string)
    (device_root : string) : list dev_event * result unit :=
  match check_selection mapping expected reviewed_mapping worker_gpu_order
          cuda_visible_devices with
  | Err e => ([], Err e)
  | Ok selected =>
      let selected_paths := selected.*2 in
      let all_paths := mapping.*2 in
      let '(log1, r1) := probe_selected h device_root (sorted_set selected_paths) in
      match r1 with
      | Err e => (log1, Err e)
      | Ok _ =>
          let '(log2, r2) := probe_unselected h device_root
            (sorted_set (filter (λ p, p ∉ selected_paths) all_paths)) in
          (log1 ++ log2, r2)
      end
  end.

(** ** The command *)

Inductive mode := Discover | DiscoverVisible | Verify | VerifyIsolatedAccess.

Record cli_args := {
  a_nvidia_smi : string;
  a_proc_devices : string;
  a_device_root : string;
  a_mode : mode;
  a_paths : list string;
}.

(** The argument counts, gpu_mapping.py lines 536-543. *)
Definition check_paths (m : mode) (paths : list string) : result unit :=
  match m with
  | Discover =>
      require (length paths =? 1)%nat (GpuMappingError "discover arguments are invalid")
  | Verify =>
      require (length paths =? 2)%nat (GpuMappingError "mapping arguments are invalid")
  | VerifyIsolatedAccess =>
      require (length paths =? 3)%nat (GpuMappingError "isolated-access arguments are invalid")
  | DiscoverVisible =>
      require (length paths =? 0)%nat (GpuMappingError "discover-visible arguments are invalid")
  end.

(** The lines of [for uuid, device_path in selected: print(...)], gpu_mapping.py lines 569-570. *)
Definition mapping_lines (selected : list (string * string)) : list string :=
  (λ '(uuid, device_path), uuid +:+ "=" +:+ device_path) <$> selected.

(** The body of the [try] of [main], gpu_mapping.py lines 524-571: the lines printed. *)
Definition main_body (h : host) (args : cli_args) : result (list string) :=
  mapping ← discover_gpu_mapping h (a_nvidia_smi args) (a_proc_devices args) (a_device_root args);
  check_paths (a_mode args) (a_paths args);;
  match a_mode args, a_paths args with
  | DiscoverVisible, _ => Ok (mapping_lines mapping)
  | m, p0 :: rest =>
      expected ← _load_expected h p0;
      selected ← _select_mapping mapping expected;
      match m, rest with
      | Verify, p1 :: _ =>
          reviewed ← load_reviewed_gpu_map h p1;
          require (bool_decide (selected = reviewed))
            (GpuMappingError "reviewed GPU device map changed");;
          Ok ["[astrumweaver-gpu-device-map] ok count=" +:+ str_of_Z (Z.of_nat (length selected))]
      | VerifyIsolatedAccess, p1 :: p2 :: _ =>
          worker_order ← _load_worker_gpu_order h p2;
          reviewed ← load_reviewed_gpu_map h p1;
          (verify_isolated_gpu_access h mapping expected reviewed worker_order
             (h_cuda_visible_devices h) (a_device_root args)).2;;
          Ok ["[astrumweaver-gpu-device-map] isolated-access ok selected_count="
              +:+ str_of_Z (Z.of_nat (length selected)) +:+ " host_count=" +:+ str_of_Z (Z.of_nat (length mapping))]
      | _, _ => Ok (mapping_lines selected)
      end
  | _, [] => Err (OutOfModel "excluded by check_paths")
  end.

(** [main], gpu_mapping.py lines 522-580: the lines printed and the exit status; any other
    exception escapes. *)
Definition main (h : host) (args : cli_args) : result (list string * Z) :=
  match main_body h args with
  | Ok out => Ok (out, 0)
  | Err (GpuIsolationUnavailableError _) => Ok ([], 3)
  | Err (GpuMappingError _) => Ok ([], 1)
  | Err e => Err e
  end.
