(* ===== verification/GpuIsolation.v ===== *)
(** * The effective GPU isolation of the Worker service

    Models the part of [src/src/astrumweaver/validation/runtime_deployment.py] that reads the
    effective properties of a systemd unit ([systemctl show]) and requires that they keep the
    reviewed GPU isolation.  [shlex.split] is the Standard Library's POSIX splitter. *)

From S2P Require Import Prelude PyStr PyDict PyHost Effects PyText GpuMapping.

(** ** shlex.split *)

(** The state of the splitter; [ShEscape] remembers the quote it is in. *)
Inductive sh_state := ShBlank | ShWord | ShQuote (q : ascii) | ShEscape (back : option ascii).

Definition dquote : ascii := "034".
Definition squote : ascii := "'".
Definition sh_backslash : ascii := "092".
Definition sh_space (c : ascii) : bool := bool_decide (c ∈ [" "; "009"; "013"; "010"]%char).
Definition sh_quote (c : ascii) : bool := bool_decide (c = squote) || bool_decide (c = dquote).
Definition char_str (c : ascii) : string := String c EmptyString.
(** A token is kept when it has a character or was quoted. *)
Definition sh_emit (tok : string) (quoted : bool) : list string :=
  if str_truthy tok || quoted then [tok] else [].

Fixpoint sh_scan (st : sh_state) (tok : string) (quoted : bool) (s : string) : result (list string) :=
  match s with
  | EmptyString =>
      match st with
      | ShBlank => Ok []
      | ShWord => Ok (sh_emit tok quoted)
      | ShQuote _ => Err (ValueError "No closing quotation")
      | ShEscape _ => Err (ValueError "No escaped character")
      end
  | String c s' =>
      match st with
      | ShBlank =>
          if sh_space c then sh_scan ShBlank EmptyString false s'
          else if bool_decide (c = sh_backslash) then sh_scan (ShEscape None) EmptyString false s'
          else if sh_quote c then sh_scan (ShQuote c) EmptyString true s'
          else sh_scan ShWord (char_str c) false s'
      | ShWord =>
          if sh_space c then
            rest ← sh_scan ShBlank EmptyString false s'; Ok (sh_emit tok quoted ++ rest)
          else if sh_quote c then sh_scan (ShQuote c) tok true s'
          else if bool_decide (c = sh_backslash) then sh_scan (ShEscape None) tok quoted s'
          else sh_scan ShWord (tok +:+ char_str c) quoted s'
      | ShQuote q =>
          if bool_decide (c = q) then sh_scan ShWord tok true s'
          else if bool_decide (c = sh_backslash) && bool_decide (q = dquote)
          then sh_scan (ShEscape (Some q)) tok true s'
          else sh_scan (ShQuote q) (tok +:+ char_str c) true s'
      | ShEscape None => sh_scan ShWord (tok +:+ char_str c) quoted s'
      | ShEscape (Some q) =>
          let kept := if bool_decide (c = sh_backslash) || bool_decide (c = q) then EmptyString
                      else char_str sh_backslash in
          sh_scan (ShQuote q) (tok +:+ kept +:+ char_str c) true s'
      end
  end.
Definition shlex_split (s : string) : result (list string) := sh_scan ShBlank EmptyString false s.

(** ** Properties of the unit *)

(** [_SYSTEMD_ACCEPTANCE_PROPERTIES], validation/runtime_deployment.py lines 362-373. *)
Definition _SYSTEMD_ACCEPTANCE_PROPERTIES : list string :=
  ["DevicePolicy"; "DeviceAllow"; "Environment"; "EnvironmentFiles"; "UnsetEnvironment";
   "ExecStartPre"; "Requires"; "After"].

(** One line of the output, validation/runtime_deployment.py lines 381-391. *)
Definition property_line (properties : dict string) (line : string) : result (dict string) :=
  let '(name, separator, value) := partition_char "=" line in
  if negb separator || negb (bool_decide (name ∈ _SYSTEMD_ACCEPTANCE_PROPERTIES)) then Ok properties
  else match dget name properties with
       | Some old =>
           require (negb (bool_decide (name = "DevicePolicy")))
             (RuntimeDeploymentAcceptanceError "systemd returned duplicate DevicePolicy properties");;
           Ok (dset name (old +:+ " " +:+ value) properties)
       | None => Ok (dset name value properties)
       end.

(** [parse_systemd_show_properties], validation/runtime_deployment.py lines 376-398. *)
Definition parse_systemd_show_properties (output : string) : result (dict string) :=
  properties ← foldR property_line [] (splitlines output);
  require (forallb (λ n, bool_decide (n ∈ dkeys properties)) _SYSTEMD_ACCEPTANCE_PROPERTIES)
    (RuntimeDeploymentAcceptanceError "systemd effective Worker properties are unavailable");;
  Ok properties.

(** [properties.get(name, <empty>)]. *)
Definition property (name : string) (properties : dict string) : string :=
  default EmptyString (dget name properties).

(** [_split_systemd_list], validation/runtime_deployment.py lines 401-407. *)
Definition _split_systemd_list (value property_name : string) : result (list string) :=
  match shlex_split value with
  | Ok l => Ok l
  | Err _ => Err (RuntimeDeploymentAcceptanceError
      ("systemd returned malformed " +:+ property_name +:+ " property"))
  end.

(** [list(zip(fields[::2], fields[1::2]))]. *)
Fixpoint pairs (l : list string) : list (string * string) :=
  match l with x :: y :: l' => (x, y) :: pairs l' | _ => [] end.

(** [_parse_device_allow], validation/runtime_deployment.py lines 410-416. *)
Definition _parse_device_allow (value : string) : result (list (string * string)) :=
  fields ← _split_systemd_list value "DeviceAllow";
  require (Nat.even (length fields))
    (RuntimeDeploymentAcceptanceError "systemd returned malformed DeviceAllow property");;
  Ok (pairs fields).

(** [re.findall] of the records between braces; [cur] is the record that is open. *)
Fixpoint braced (cur : option string) (s : string) : list string :=
  match s with
  | EmptyString => []
  | String c s' =>
      if bool_decide (c = "{"%char) then braced (Some EmptyString) s'
      else if bool_decide (c = "}"%char) then
        match cur with Some r => r :: braced None s' | None => braced None s' end
      else braced ((λ r, r +:+ char_str c) <$> cur) s'
  end.

(** The fields of a record, validation/runtime_deployment.py lines 421-426. *)
Definition record_fields (record : string) : dict string :=
  foldl (λ acc field,
    let '(name, separator, value) := partition_char "=" field in
    if separator : bool then dset (strip name) (strip value) acc else acc)
    [] (split_char ";" record).

(** A store path: 32 characters of [[a-z0-9]] and a fixed rest,
    validation/runtime_deployment.py lines 354-361. *)
Definition store_path (rest s : string) : bool :=
  startswith "/nix/store/" s
  && all_chars (λ c, let n := N_of_ascii c in
       ((97 <=? n) && (n <=? 122) || (48 <=? n) && (n <=? 57))%N) (str_take 32 (str_drop 11 s))
  && (String.length (str_take 32 (str_drop 11 s)) =? 32)%nat
  && bool_decide (str_drop 43 s = rest).

(** One record of [_has_exact_set_preflight], validation/runtime_deployment.py lines 427-447. *)
Definition exact_set_record (record : string) : bool :=
  let properties := record_fields record in
  let executable := property "path" properties in
  bool_decide (dget "ignore_errors" properties = Some "no")
  && match shlex_split (property "argv[]" properties) with
     | Ok [program; argument] =>
         bool_decide (program = executable)
         && (bool_decide (executable = "/usr/local/libexec/astrumweaver/gpu-preflight")
             && bool_decide (argument = "/etc/astrumweaver/gpu-uuids")
             || store_path "-astrumweaver-gpu-preflight/bin/astrumweaver-gpu-preflight" executable
                && store_path "-astrumweaver-gpu-uuids" argument)
     | _ => false
     end.

(** [_has_exact_set_preflight], validation/runtime_deployment.py lines 419-448. *)
Definition _has_exact_set_preflight (value : string) : bool :=
  existsb exact_set_record (braced None value).

(** [_environment_values], validation/runtime_deployment.py lines 451-460. *)
Definition _environment_values (environment : list string) (name : string) : list string :=
  let prefix := name +:+ "=" in
  str_drop (String.length prefix) <$> List.filter (startswith prefix) environment.

(** The names that only the unit may set, validation/runtime_deployment.py lines 550-559. *)
Definition protected_names : list string :=
  ["CUDA_VISIBLE_DEVICES"; "ASTRUMWEAVER_GPU_PREFLIGHT_MODE"; "ASTRUMWEAVER_GPU_DEVICE_MAP";
   "ASTRUMWEAVER_GPU_WORKER_CONFIG"; "ASTRUMWEAVER_GPU_DEVICE_MAP_COMMAND";
   "ASTRUMWEAVER_NVIDIA_SMI"].

(** A line that assigns a protected name and is no comment,
    validation/runtime_deployment.py lines 481-484 and 505-508. *)
Definition assigns (line : string) : bool :=
  let t := lstrip line in
  existsb (λ name, startswith name t && startswith "=" (lstrip (str_drop (String.length name) t)))
    protected_names.
Definition overriding_line (line : string) : bool :=
  negb (startswith "#" (lstrip line) || startswith ";" (lstrip line)) && assigns line.

(** Devices of the NVIDIA driver, and physical GPUs, validation/runtime_deployment.py lines 350-353. *)
Definition gpu_device_path (s : string) : bool :=
  startswith "/dev/nvidia" s && digits (str_drop 11 s).
Definition device_char (c : ascii) : bool :=
  let n := N_of_ascii c in
  ((97 <=? n) && (n <=? 122) || (65 <=? n) && (n <=? 90) || (48 <=? n) && (n <=? 57))%N
  || bool_decide (c ∈ ["-"; "_"; "/"]%char).
Definition gpu_allowed_path (s : string) : bool :=
  startswith "/dev/nvidia" s && str_truthy (str_drop 11 s) && all_chars device_char (str_drop 11 s).

(** The checks of the grants, validation/runtime_deployment.py lines 522-545. *)
Definition check_devices (properties : dict string) (paths : list string) : result unit :=
  require (bool_decide (dget "DevicePolicy" properties = Some "closed"))
    (RuntimeDeploymentAcceptanceError "Worker service does not use DevicePolicy=closed");;
  device_allow ← _parse_device_allow (property "DeviceAllow" properties);
  require (forallb (λ g, gpu_allowed_path g.1 && bool_decide (g.2 = "rw")) device_allow)
    (RuntimeDeploymentAcceptanceError
       "Worker DeviceAllow includes a broad or unsupported device grant");;
  let allowed_physical := List.filter (λ g, gpu_device_path g.1) device_allow in
  require (bool_decide (sorted_pairs allowed_physical = (λ p, (p, "rw")) <$> sorted_set paths))
    (RuntimeDeploymentAcceptanceError "Worker DeviceAllow physical GPU set is not exact").

(** The checks of the environment, validation/runtime_deployment.py lines 547-582. *)
Definition check_environment (properties : dict string) (uuids : list string) : result unit :=
  environment ← _split_systemd_list (property "Environment" properties) "Environment";
  require (bool_decide (_environment_values environment "CUDA_VISIBLE_DEVICES" = [join "," uuids]))
    (RuntimeDeploymentAcceptanceError
       "Worker CUDA_VISIBLE_DEVICES does not preserve selected GPU order");;
  require (bool_decide (_environment_values environment "ASTRUMWEAVER_GPU_PREFLIGHT_MODE" = ["isolated-access"]))
    (RuntimeDeploymentAcceptanceError
       "Worker service does not explicitly use isolated-access GPU preflight");;
  foldR (λ _ name,
    require (match _environment_values environment name with [v] => startswith "/" v | _ => false end)
      (RuntimeDeploymentAcceptanceError ("Worker service lacks explicit absolute " +:+ name)))
    tt ["ASTRUMWEAVER_GPU_DEVICE_MAP"; "ASTRUMWEAVER_GPU_WORKER_CONFIG";
        "ASTRUMWEAVER_GPU_DEVICE_MAP_COMMAND"; "ASTRUMWEAVER_NVIDIA_SMI"].

(** The checks of the preflight and of its unit, validation/runtime_deployment.py lines 588-601. *)
Definition isolation_preflight : string := "astrumweaver-worker-gpu-isolation-preflight.service".
Definition check_preflight (properties : dict string) : result unit :=
  require (_has_exact_set_preflight (property "ExecStartPre" properties))
    (RuntimeDeploymentAcceptanceError "Worker service lacks in-cgroup GPU preflight");;
  foldR (λ _ name,
    dependencies ← _split_systemd_list (property name properties) name;
    require (bool_decide (isolation_preflight ∈ dependencies))
      (RuntimeDeploymentAcceptanceError
         ("Worker service lacks effective " +:+ name +:+ " isolation preflight")))
    tt ["Requires"; "After"].

Section isolation.
Context {S : Type} (read_text : path → eff S string).

(** The path of an item of EnvironmentFiles; [None] for the note in parentheses that follows
    one, validation/runtime_deployment.py lines 486-495. *)
Definition environment_file (item : string) : result (option path) :=
  if startswith "(" item && endswith ")" item then Ok None
  else if startswith "-/" item then Ok (Some (Path (str_drop 1 item)))
  else if startswith "/" item then Ok (Some (Path item))
  else Err (RuntimeDeploymentAcceptanceError "systemd returned malformed EnvironmentFiles property").

(** One item, validation/runtime_deployment.py lines 485-511. *)
Definition check_environment_file (item : string) : eff S unit :=
  file ← lifts (environment_file item);
  match file with
  | None => mret tt
  | Some p =>
      found ← try_catch (text ← read_text p; mret (Some text)) (λ e,
        match e with
        | FileNotFoundError _ => mret None
        | OSError _ | FileExistsError _ | UnicodeDecodeError _ =>
            throws (RuntimeDeploymentAcceptanceError
              "Worker EnvironmentFile could not be checked for GPU overrides")
        | _ => throws e
        end);
      match found with
      | None => mret tt
      | Some text =>
          ensure (negb (existsb overriding_line (splitlines text)))
            (RuntimeDeploymentAcceptanceError
               "Worker GPU preflight environment may be overridden by an EnvironmentFile")
      end
  end.

(** [_reject_effective_gpu_environment_override], validation/runtime_deployment.py lines 463-511. *)
Definition _reject_effective_gpu_environment_override (properties : dict string) : eff S unit :=
  unset ← lifts (_split_systemd_list (property "UnsetEnvironment" properties) "UnsetEnvironment");
  ensure (negb (existsb (λ i, bool_decide ((partition_char "=" i).1.1 ∈ protected_names)) unset))
    (RuntimeDeploymentAcceptanceError
       "Worker GPU preflight environment is unset by effective systemd policy");;
  files ← lifts (_split_systemd_list (property "EnvironmentFiles" properties) "EnvironmentFiles");
  each check_environment_file files.

(** [validate_effective_worker_gpu_isolation], validation/runtime_deployment.py lines 514-601. *)
Definition validate_effective_worker_gpu_isolation (properties : dict string)
    (expected_gpu_uuids expected_device_paths : list string) : eff S unit :=
  lifts (check_devices properties expected_device_paths);;
  lifts (check_environment properties expected_gpu_uuids);;
  _reject_effective_gpu_environment_override properties;;
  lifts (check_preflight properties).
End isolation.
