(* ===== verification/GpuProps.v ===== *)
(** * Properties of the GPU mapping

    What a discovered mapping guarantees, that the reviewed map reads back what discovery
    printed, and that isolation is reported exactly when the host enforces it. *)

From S2P Require Import Prelude PyStr PyDict PyVal PyHost GpuMapping.

(** ** Parsing lemmas *)

Lemma gpu_uuid_chars s : gpu_uuid_re s = true → s ≠ EmptyString ∧ all_chars uuid_char s = true.
Proof.
  unfold gpu_uuid_re. repeat (case_match; try done). subst.
  intros [_ H]%andb_true_iff. split; [done|]. exact H.
Qed.

Lemma validate_uuid_Ok v u : _validate_uuid v = Ok u ↔ u = strip v ∧ gpu_uuid_re u = true.
Proof.
  unfold _validate_uuid. destruct (gpu_uuid_re (strip v)) eqn:E; cbn; split; try naive_solver.
  intros [-> ?]. congruence.
Qed.

Lemma uuid_char_nospace c : uuid_char c = true → negb (is_space c) = true.
Proof. unfold uuid_char. by intros [[? _]%andb_true_iff _]%andb_true_iff. Qed.

Lemma uuid_strip u : gpu_uuid_re u = true → strip u = u.
Proof.
  intros [_ H]%gpu_uuid_chars. apply nospace_strip. eapply all_chars_impl; [|done].
  apply uuid_char_nospace.
Qed.

Lemma mapR_validate l vs : mapR _validate_uuid l = Ok vs ↔
  vs = strip <$> l ∧ Forall (λ v, gpu_uuid_re v = true) vs.
Proof.
  rewrite mapR_Ok. split.
  - induction 1 as [|x y l l' H _ [-> IH]]; [done|]. apply validate_uuid_Ok in H as [-> ?].
    by split; [|constructor].
  - intros [-> H]. induction l as [|x l IH]; cbn in *; [constructor|].
    apply Forall_cons in H as [? ?]. constructor; [by apply validate_uuid_Ok|auto].
Qed.

Lemma parse_visible_Ok out vs : _parse_visible_uuids out = Ok vs →
  vs ≠ [] ∧ NoDup vs ∧ Forall (λ v, gpu_uuid_re v = true) vs ∧
  ∀ u, u ∈ vs ↔ u ∈ strip <$> text_lines out.
Proof.
  unfold _parse_visible_uuids. intros H. simp_res. bools.
  assert (mapR _validate_uuid (strip <$> text_lines out) = Ok x) as [Hx ?]%mapR_validate.
  { rewrite <- H. clear. induction (text_lines out) as [|l ls IH]; [done|]. cbn. by rewrite IH. }
  assert (x = strip <$> text_lines out) as Ex.
  { rewrite Hx, <- list_fmap_compose. apply list_fmap_ext. intros ? y _. apply strip_idemp. }
  split_and!.
  - intros E. apply H0. apply Permutation_nil. by rewrite <- E, sorted_strings_Permutation.
  - unfold all_distinct in *. bools. by apply NoDup_sorted_strings.
  - by rewrite sorted_strings_Permutation.
  - intros u. by rewrite elem_of_sorted_strings, Ex.
Qed.

(** ** The mapping loop *)

Lemma str_of_Z_digits z : 0 ≤ z → digits (str_of_Z z) = true.
Proof. intros Hz. destruct z; try lia; apply digits_str. Qed.

Lemma substring_all s : String.substring 0 (String.length s) s = s.
Proof. induction s as [|c s IH]; [done|]. cbn. by rewrite IH. Qed.

Lemma device_path_str s : device_path_re ("/dev/nvidia" +:+ s) = digits s.
Proof.
  change (digits (String.substring 0 (String.length s - 0) s) = digits s).
  by rewrite Nat.sub_0_r, substring_all.
Qed.

(** A node of [/dev] that really is NVIDIA device [minor]. *)
Definition nvidia_node (h : host) (root : string) (major minor : Z) : Prop :=
  ∃ st, h_device_stat h (path_div root ("nvidia" +:+ str_of_Z minor)) = Some st ∧
    S_ISCHR (st_mode st) = true ∧ os_major (st_rdev st) = major ∧ os_minor (st_rdev st) = minor.

Lemma check_node_Ok h root major minor p : 0 ≤ minor →
  check_node h root major minor = Ok p ↔
  p = "/dev/nvidia" +:+ str_of_Z minor ∧ nvidia_node h root major minor.
Proof.
  intros Hm. unfold check_node, nvidia_node. rewrite device_path_str, str_of_Z_digits by done.
  cbn [require mbind result_bind].
  destruct (h_device_stat h _) as [st|]; [|split; [done|naive_solver]]. split.
  - intros H. simp_res. bools.
    repeat match goal with H : (_ =? _) = true |- _ => apply Z.eqb_eq in H end. eauto 10.
  - intros (-> & st' & [= <-] & Hc & H1 & H2). rewrite Hc, H1, H2, !Z.eqb_refl. done.
Qed.

Lemma candidate_nonneg raw m : candidate_minor raw = Ok m → 0 ≤ m.
Proof. unfold candidate_minor. intros H. simp_res. by apply Z.leb_le. Qed.

(** One entry of a validated mapping. *)
Definition mapped (h : host) (rows : dict (list raw_minor)) (root : string) (major : Z)
    (u p : string) : Prop :=
  ∃ raw minor, dget u rows = Some [raw] ∧ candidate_minor raw = Ok minor ∧
    p = "/dev/nvidia" +:+ str_of_Z minor ∧ nvidia_node h root major minor.

Lemma map_one_Ok h rows root major d u d' : map_one h rows root major d u = Ok d' →
  ∃ p, mapped h rows root major u p ∧ (p ∉ dvalues d) ∧ d' = dset u p d.
Proof.
  unfold map_one. destruct (dget u rows) as [[|raw [|? ?]]|] eqn:E; cbn [default from_option id]; try done.
  intros H. simp_res. bools. match goal with H : check_node _ _ _ _ = _ |- _ =>
    apply check_node_Ok in H as [-> ?]; [|by eapply candidate_nonneg] end.
  eexists. split; [|done]. by exists raw, x.
Qed.

Lemma map_loop h rows root major l d d' : foldR (map_one h rows root major) d l = Ok d' →
  dict_wf d → NoDup (dvalues d) → NoDup l → (∀ u, u ∈ l → u ∉ dkeys d) →
  dict_wf d' ∧ NoDup (dvalues d') ∧ dkeys d' = dkeys d ++ l ∧
  ∀ u p, (u, p) ∈ d' → (u, p) ∈ d ∨ mapped h rows root major u p.
Proof.
  revert d. induction l as [|u l IH]; intros d; cbn [foldR].
  - intros [= <-] ? ? _ _. rewrite app_nil_r. by eauto.
  - intros (d1 & (p & Hp & Hnew & ->)%map_one_Ok & Hl)%bind_Ok Hwf Hnd [Hu Hnl]%NoDup_cons Hfresh.
    assert (dget u d = None) as Hn by (apply dget_None, Hfresh; left).
    assert (dset u p d = d ++ [(u, p)]) as Hd1 by by apply dset_absent.
    apply IH in Hl as (W & N & K & M); [| | |done|].
    + split_and!; [done..| |].
      * rewrite K, Hd1. unfold dkeys. rewrite fmap_app, <- app_assoc. done.
      * intros u' p' Hin. apply M in Hin as [Hin|?]; [|by right].
        rewrite Hd1, elem_of_app, list_elem_of_singleton in Hin. naive_solver.
    + by apply dict_wf_dset.
    + rewrite Hd1. unfold dvalues. rewrite fmap_app. apply NoDup_app. split_and!; [done| |].
      * intros x Hx. cbn. rewrite list_elem_of_singleton. intros ->. done.
      * apply NoDup_singleton.
    + intros u' Hu'. rewrite Hd1. unfold dkeys. rewrite fmap_app, elem_of_app. cbn.
      rewrite list_elem_of_singleton. intros [?| ->]; [|done]. apply (Hfresh u'); [by right|done].
Qed.

(** ** Discovery *)

(** The kernel's or the tool's candidates, the way [discover_gpu_mapping] picks them. *)
Definition reported_rows (h : host) (smi : string) : result (dict (list raw_minor)) :=
  primary ← _query_primary_mapping h smi;
  match primary with
  | None => _proc_mapping_rows h
  | Some p => Ok (List.map (λ '(uuid, minor), (uuid, [MInt minor])) p)
  end.

Lemma discover_decompose h smi devs root m : discover_gpu_mapping h smi devs root = Ok m →
  ∃ vis rows major d, _query_visible_uuids h smi = Ok vis ∧ reported_rows h smi = Ok rows ∧
    _nvidia_character_device_major h devs = Ok major ∧ m = sorted_pairs d ∧
    NoDup vis ∧ vis ≠ [] ∧ Forall (λ v, gpu_uuid_re v = true) vis ∧ dict_wf d ∧
    NoDup (dvalues d) ∧ dkeys d = vis ∧
    (∀ u p, (u, p) ∈ d → mapped h rows root major u p).
Proof.
  unfold discover_gpu_mapping, reported_rows, _validate_mapping.
  intros (vis & Hvis & H)%bind_Ok. simp_res.
  rename H into Hp. rename x into primary. rename x0 into rows. rename x1 into major.
  rename x2 into d. exists vis, rows, major, d.
  assert (vis ≠ [] ∧ NoDup vis ∧ Forall (λ v, gpu_uuid_re v = true) vis) as (? & ? & ?).
  { unfold _query_visible_uuids in Hvis. simp_res.
    match goal with H : _parse_visible_uuids _ = _ |- _ => apply parse_visible_Ok in H; tauto end. }
  match goal with H : foldR _ _ _ = _ |- _ => apply map_loop in H as (W & N & K & M) end;
    [|constructor|constructor|done|set_solver].
  rewrite Hp. split_and!; try done. intros u p Hin. apply M in Hin as [Hin|?]; [|done].
  by apply elem_of_nil in Hin.
Qed.

Lemma visible_report h smi vis : _query_visible_uuids h smi = Ok vis →
  ∃ c, h_run h smi "uuid" = Some c ∧ returncode c = 0 ∧
    ∀ u, u ∈ vis ↔ u ∈ strip <$> text_lines (stdout c).
Proof.
  unfold _query_visible_uuids, _run_nvidia_query. destruct (h_run h smi "uuid") as [c|]; [|done].
  intros H. simp_res. exists x.
  match goal with H : (_ =? _) = true |- _ => apply Z.eqb_eq in H end.
  match goal with H : _parse_visible_uuids _ = _ |- _ => apply parse_visible_Ok in H end.
  split_and!; [done..|tauto].
Qed.

(** A discovered mapping is complete, injective and backed by the kernel.  It
    has exactly the GPU UUIDs the visibility query reports, each once, no two on the same
    device node; and every node it names exists, is a character device, and carries the
    registered NVIDIA major and the very minor the tool (or the driver's information file)
    reports for that UUID. *)
Theorem discover_sound h smi devs root m : discover_gpu_mapping h smi devs root = Ok m →
  NoDup m.*1 ∧ NoDup m.*2 ∧
  (∃ c, h_run h smi "uuid" = Some c ∧ returncode c = 0 ∧
        ∀ u, u ∈ m.*1 ↔ u ∈ strip <$> text_lines (stdout c)) ∧
  ∃ rows major, reported_rows h smi = Ok rows ∧ _nvidia_character_device_major h devs = Ok major ∧
    ∀ u p, (u, p) ∈ m → mapped h rows root major u p.
Proof.
  intros (vis & rows & major & d & Hv & Hr & Hmaj & -> & Hnd & _ & _ & W & N & K & M)%discover_decompose.
  pose proof (sorted_pairs_Permutation d) as E.
  split_and!.
  - by rewrite E.
  - by rewrite E.
  - apply visible_report in Hv as (c & ? & ? & Hc). exists c. split_and!; [done..|].
    intros u. rewrite E. change (d.*1) with (dkeys d). by rewrite K.
  - exists rows, major. split_and!; [done..|]. intros u p. rewrite E. apply M.
Qed.

(** ** Selection *)

Definition openable (h : host) (root p : string) : Prop :=
  ∃ fd, h_open h (actual_path root p) = inl fd.
(** The device cgroup refuses the open. *)
Definition denied (h : host) (root p : string) : Prop :=
  ∃ e, h_open h (actual_path root p) = inr e ∧ (e = EACCES ∨ e = EPERM).

Definition select_loop (available : dict string) : dict string → list string → result (dict string) :=
  foldR (λ selected uuid,
    match dget uuid available with
    | None => Err (GpuMappingError "a configured GPU UUID is not visible")
    | Some path => Ok (dset uuid path selected)
    end).

Lemma select_loop_Ok available l acc sel : select_loop available acc l = Ok sel →
  dict_wf acc → dict_wf sel ∧ (∀ u, u ∈ l → is_Some (dget u available)) ∧
  ∀ k, dget k sel = if decide (k ∈ l) then dget k available else dget k acc.
Proof.
  revert acc. induction l as [|u l IH]; intros acc; cbn [select_loop foldR].
  - intros [= <-] ?. split_and!; [done|set_solver|done].
  - destruct (dget u available) as [p|] eqn:E; [|done]. cbn [mbind result_bind].
    intros H Hwf. apply IH in H as (W & V & G); [|by apply dict_wf_dset].
    split_and!; [done| |].
    + intros u' [->|?]%elem_of_cons; [by eexists|auto].
    + intros k. rewrite G. destruct (decide (k ∈ l)) as [?|Hk].
      * rewrite decide_True; [done|by right].
      * rewrite dget_dset. destruct (decide (k = u)) as [->|Hne].
        -- rewrite decide_True; [done|left].
        -- rewrite decide_False; [done|]. by intros [?|?]%elem_of_cons.
Qed.

Lemma select_loop_total available l acc : (∀ u, u ∈ l → is_Some (dget u available)) →
  is_ok (select_loop available acc l) = true.
Proof.
  revert acc. induction l as [|u l IH]; intros acc H; [done|]. cbn [select_loop foldR].
  destruct (H u) as [p ->]; [left|]. apply IH. intros u' ?. apply H. by right.
Qed.

Lemma dget_dict_of (m : list (string * string)) k : NoDup m.*1 →
  dget k (foldl (λ d kv, dset kv.1 kv.2 d) [] m) = dget k m.
Proof.
  intros H. change (dget k (dmerge [] m) = dget k m). rewrite dget_dmerge by exact H.
  by destruct (dget k m).
Qed.

Lemma dget_pairs (m : list (string * string)) : NoDup m.*1 → ∀ k v, (k, v) ∈ m ↔ dget k m = Some v.
Proof. exact (dget_In m). Qed.

Lemma NoDup_pairs (m : list (string * string)) : NoDup m.*1 → NoDup m.
Proof. apply NoDup_fmap_1. Qed.

(** [_select_mapping] restricts the mapping to the expected GPUs. *)
Lemma select_mapping_Ok m expected sel : NoDup m.*1 →
  _select_mapping m expected = Ok sel ↔
  (∀ u, u ∈ expected → u ∈ m.*1) ∧ sel = sorted_pairs (filter (λ kv, kv.1 ∈ expected) m).
Proof.
  intros Hnd. unfold _select_mapping.
  set (av := foldl _ [] m).
  assert (∀ u, is_Some (dget u av) ↔ u ∈ m.*1) as Hav.
  { intros u. unfold av. rewrite dget_dict_of by done.
    destruct (dget u m) eqn:E.
    - split; [|by eexists]. intros _. apply (list_elem_of_fmap_2 fst _ (u, s)).
      by apply dget_pairs.
    - apply dget_None in E. split; [by intros []|done]. }
  assert (∀ d, select_loop av [] expected = Ok d →
    d ≡ₚ filter (λ kv, kv.1 ∈ expected) m) as Hloop.
  { intros d (W & V & G)%select_loop_Ok; [|constructor].
    apply NoDup_Permutation; [by apply NoDup_pairs|by apply NoDup_filter, NoDup_pairs|].
    intros [u p]. rewrite list_elem_of_filter, (dget_pairs m), (dget_pairs d), G by done. cbn.
    unfold av. rewrite dget_dict_of by done. destruct (decide (u ∈ expected)); [naive_solver|].
    split; [done|naive_solver]. }
  split.
  - intros (d & Hd & [= <-])%bind_Ok. split; [|by apply sorted_pairs_unique, Hloop].
    apply select_loop_Ok in Hd as (_ & V & _); [|constructor]. intros u ?. by apply Hav, V.
  - intros [V ->]. pose proof (select_loop_total av expected [] (λ u Hu, proj2 (Hav u) (V u Hu))) as T.
    change (foldR _ [] expected) with (select_loop av [] expected).
    destruct (select_loop av [] expected) as [d|] eqn:E; [|done]. cbn. f_equal.
    by apply sorted_pairs_unique, Hloop.
Qed.

(** ** Isolation *)

Lemma probe_selected_Ok h root ps :
  (probe_selected h root ps).2 = Ok tt ↔ ∀ p, p ∈ ps → openable h root p.
Proof.
  induction ps as [|p ps IH]; [split; [set_solver|done]|]. cbn. unfold openable in *.
  destruct (h_open h (actual_path root p)) as [fd|e] eqn:E.
  - destruct (probe_selected h root ps) as [log r]. cbn in *. rewrite IH.
    setoid_rewrite elem_of_cons. naive_solver.
  - split; [done|]. intros H. destruct (H p) as [fd ?]; [left|congruence].
Qed.

Lemma probe_unselected_Ok h root ps :
  (probe_unselected h root ps).2 = Ok tt ↔ ∀ p, p ∈ ps → denied h root p.
Proof.
  induction ps as [|p ps IH]; [split; [set_solver|done]|]. cbn. unfold denied in *.
  destruct (h_open h (actual_path root p)) as [fd|e] eqn:E.
  - split; [done|]. intros H. destruct (H p) as (? & ? & _); [left|congruence].
  - destruct ((e =? EACCES) || (e =? EPERM)) eqn:Ee.
    + rewrite orb_true_iff, !Z.eqb_eq in Ee.
      destruct (probe_unselected h root ps) as [log r]. cbn in *. rewrite IH.
      setoid_rewrite elem_of_cons. naive_solver.
    + rewrite orb_false_iff, !Z.eqb_neq in Ee. split; [done|]. intros H.
      destruct (H p) as (e' & He & Hd); [left|]. rewrite E in He. injection He as <-.
      destruct Hd, Ee; done.
Qed.

Lemma check_selection_Ok m expected reviewed order cuda sel : NoDup m.*1 →
  check_selection m expected reviewed order cuda = Ok sel ↔
  (∀ u, u ∈ expected → u ∈ m.*1) ∧
  sel = sorted_pairs (filter (λ kv, kv.1 ∈ expected) m) ∧
  reviewed ≡ₚ filter (λ kv, kv.1 ∈ expected) m ∧
  Forall (λ v, gpu_uuid_re v = true) (strip <$> order) ∧ NoDup (strip <$> order) ∧
  strip <$> order ≡ₚ expected ∧ cuda = Some (join "," (strip <$> order)).
Proof.
  intros Hnd. unfold check_selection. split.
  - intros H. simp_res. bools.
    match goal with H : _select_mapping _ _ = _ |- _ => apply select_mapping_Ok in H as [V E]; [|done] end.
    match goal with H : mapR _ _ = _ |- _ => apply mapR_validate in H as [-> F] end.
    subst sel. split_and!; [done|done| |done| | |done].
    + rewrite <- (sorted_pairs_Permutation reviewed), <- (sorted_pairs_Permutation (filter _ m)).
      by rewrite <- E.
    + unfold all_distinct in *. by bools.
    + match goal with H : sorted_strings _ = sorted_strings _ |- _ =>
        by rewrite <- (sorted_strings_Permutation (strip <$> order)), H, sorted_strings_Permutation end.
  - intros (V & -> & R & F & N & P & ->).
    rewrite (proj2 (select_mapping_Ok m expected _ Hnd) (conj V eq_refl)). cbn [mbind result_bind].
    rewrite (sorted_pairs_unique _ _ R), bool_decide_true by done. cbn [require mbind result_bind].
    rewrite (proj2 (mapR_validate order (strip <$> order))) by done. cbn [mbind result_bind].
    unfold all_distinct. rewrite bool_decide_true by done. cbn [require mbind result_bind].
    rewrite (sorted_strings_unique _ _ P), !bool_decide_true by done. done.
Qed.

(** Every device opened is closed at once, before the next probe. *)
Fixpoint balanced (log : list dev_event) : Prop :=
  match log with
  | [] => True
  | Opened _ fd :: Closed fd' :: log' => fd' = fd ∧ balanced log'
  | Refused _ _ :: log' => balanced log'
  | _ => False
  end.

Lemma probe_selected_balanced h root ps log2 :
  balanced log2 → balanced ((probe_selected h root ps).1 ++ log2).
Proof.
  intros H2. induction ps as [|p ps IH]; [done|]. cbn.
  destruct (h_open h (actual_path root p)); [|done].
  destruct (probe_selected h root ps) as [log r]. by split.
Qed.

Lemma probe_unselected_balanced h root ps : balanced (probe_unselected h root ps).1.
Proof.
  induction ps as [|p ps IH]; [done|]. cbn.
  destruct (h_open h (actual_path root p)) as [fd|e]; [done|].
  destruct (_ || _); [|done]. by destruct (probe_unselected h root ps) as [log r].
Qed.

Lemma verify_balanced h m expected reviewed order cuda root :
  balanced (verify_isolated_gpu_access h m expected reviewed order cuda root).1.
Proof.
  unfold verify_isolated_gpu_access. destruct (check_selection _ _ _ _ _) as [sel|]; [|done].
  pose proof (probe_selected_balanced h root (sorted_set sel.*2)) as H.
  destruct (probe_selected h root (sorted_set sel.*2)) as [log1 [[]|e]]; cbn in H.
  - pose proof (probe_unselected_balanced h root
      (sorted_set (filter (λ p, p ∉ sel.*2) m.*2))) as H'.
    destruct (probe_unselected _ _ _) as [log2 r2]. by apply H.
  - specialize (H [] I). by rewrite app_nil_r in H.
Qed.

Lemma not_selected (m : list (string * string)) (expected : list string) p : NoDup m.*2 →
  p ∈ filter (λ p, p ∉ (sorted_pairs (filter (λ kv, kv.1 ∈ expected) m)).*2) m.*2 ↔
  ∃ u, (u, p) ∈ m ∧ u ∉ expected.
Proof.
  intros Hnd. rewrite list_elem_of_filter, sorted_pairs_Permutation. rewrite !list_elem_of_fmap.
  setoid_rewrite list_elem_of_filter. split.
  - intros [Hno ([u p'] & -> & Hin)]. exists u. split; [done|]. intros Hu. apply Hno. by exists (u, p').
  - intros (u & Hin & Hu). split; [|by exists (u, p)]. intros ([u' p'] & -> & Hu' & Hin').
    apply Hu. enough (u = u') as -> by done. cbn in *.
    apply list_elem_of_lookup in Hin as [i Hi], Hin' as [j Hj].
    assert (i = j) as ->; [|by simplify_eq].
    eapply (NoDup_lookup _ i j p' Hnd); by rewrite list_lookup_fmap, ?Hi, ?Hj.
Qed.

(** Property C15: isolation is reported exactly when it is real.  On a mapping with distinct
    GPUs and devices, [verify_isolated_gpu_access] succeeds if and only if every expected
    GPU is mapped, the reviewed map is precisely the selected part, the worker's order
    (trimmed) is a duplicate-free arrangement of the expected GPUs, each written as a GPU
    UUID, and equals CUDA_VISIBLE_DEVICES, every selected device opens, and every other device of the host
    is refused with EACCES or EPERM.  Whatever the outcome, no probe leaves a device open. *)
Theorem isolation_exact h m expected reviewed order cuda root : NoDup m.*1 → NoDup m.*2 →
  ((verify_isolated_gpu_access h m expected reviewed order cuda root).2 = Ok tt ↔
   (∀ u, u ∈ expected → u ∈ m.*1) ∧
   reviewed ≡ₚ filter (λ kv, kv.1 ∈ expected) m ∧
   Forall (λ v, gpu_uuid_re v = true) (strip <$> order) ∧ NoDup (strip <$> order) ∧
   strip <$> order ≡ₚ expected ∧ cuda = Some (join "," (strip <$> order)) ∧
   (∀ u p, (u, p) ∈ m → u ∈ expected → openable h root p) ∧
   (∀ u p, (u, p) ∈ m → u ∉ expected → denied h root p)) ∧
  balanced (verify_isolated_gpu_access h m expected reviewed order cuda root).1.
Proof.
  intros Hk Hv. split; [|apply verify_balanced].
  unfold verify_isolated_gpu_access.
  destruct (check_selection m expected reviewed order cuda) as [sel|e] eqn:Ec.
  2:{ split; [done|]. intros (V & R & F & N & P & C & _).
      pose proof (proj2 (check_selection_Ok m expected reviewed order cuda _ Hk)
        (conj V (conj eq_refl (conj R (conj F (conj N (conj P C))))))) as H.
      by rewrite H in Ec. }
  apply check_selection_Ok in Ec as (V & -> & R & F & N & P & C); [|done].
  pose proof (probe_selected_Ok h root
    (sorted_set (sorted_pairs (filter (λ kv, kv.1 ∈ expected) m)).*2)) as Hs.
  pose proof (probe_unselected_Ok h root (sorted_set (filter (λ p,
    p ∉ (sorted_pairs (filter (λ kv, kv.1 ∈ expected) m)).*2) m.*2))) as Hu.
  setoid_rewrite elem_of_sorted_set in Hs. setoid_rewrite elem_of_sorted_set in Hu.
  setoid_rewrite not_selected in Hu; [|done].
  assert ((∀ p, p ∈ (sorted_pairs (filter (λ kv, kv.1 ∈ expected) m)).*2 → openable h root p) ↔
          ∀ u p, (u, p) ∈ m → u ∈ expected → openable h root p) as E.
  { setoid_rewrite sorted_pairs_Permutation. setoid_rewrite list_elem_of_fmap.
    setoid_rewrite list_elem_of_filter. split.
    - intros H u p ? ?. apply H. by exists (u, p).
    - intros H p ([u p'] & -> & ? & ?). by eapply H. }
  rewrite E in Hs. clear E.
  destruct (probe_selected h root _) as [log1 [[]|e1]]; cbn [snd] in Hs.
  - destruct (probe_unselected h root _) as [log2 r2]. cbn [snd] in *. rewrite Hu. split.
    + intros H. split_and!; try done; [by apply Hs|]. intros u p ? ?. apply H. by exists u.
    + intros (_ & _ & _ & _ & _ & _ & _ & H) p (u & ? & ?). by eapply H.
  - split; [done|]. intros (_ & _ & _ & _ & _ & _ & H & _). by apply Hs in H.
Qed.

(** ** The reviewed map *)

Definition plain_char (c : ascii) : bool := negb (is_space c).

Lemma uuid_nospace u : gpu_uuid_re u = true → all_chars plain_char u = true.
Proof. intros [_ H]%gpu_uuid_chars. eapply all_chars_impl; [|done]. apply uuid_char_nospace. Qed.

Lemma device_nospace z : 0 ≤ z → all_chars plain_char ("/dev/nvidia" +:+ str_of_Z z) = true.
Proof.
  intros Hz. rewrite all_chars_app. apply andb_true_iff. split; [done|].
  pose proof (str_of_Z_digits z Hz) as H. unfold digits in H. apply andb_true_iff in H as [_ H].
  eapply all_chars_impl; [|done]. apply digit_nospace.
Qed.

Lemma plain_strip s : all_chars plain_char s = true → strip s = s.
Proof. apply nospace_strip. Qed.

Lemma uuid_no_eq u : gpu_uuid_re u = true → all_chars (λ a, negb (bool_decide (a = "="%char))) u = true.
Proof.
  intros [_ H]%gpu_uuid_chars. eapply all_chars_impl; [|done].
  unfold uuid_char. by intros c [_ ?]%andb_true_iff.
Qed.

(** An entry discovery can print. *)
Definition printable (kv : string * string) : Prop :=
  gpu_uuid_re kv.1 = true ∧ ∃ z, 0 ≤ z ∧ kv.2 = "/dev/nvidia" +:+ str_of_Z z.

Lemma printable_line u p : printable (u, p) →
  all_chars plain_char (u +:+ "=" +:+ p) = true ∧ line (u +:+ "=" +:+ p).
Proof.
  intros (Hu & z & Hz & Ep). cbn in *. subst p.
  assert (all_chars plain_char (u +:+ "=" +:+ "/dev/nvidia" +:+ str_of_Z z) = true) as H.
  { rewrite !all_chars_app. rewrite uuid_nospace by done. cbn [andb].
    pose proof (device_nospace z Hz) as H. rewrite all_chars_app in H. exact H. }
  split; [done|]. by apply nospace_line.
Qed.

Lemma reviewed_line_Ok d u p : printable (u, p) → dget u d = None →
  reviewed_line d (u +:+ "=" +:+ p) = Ok (dset u p d).
Proof.
  intros Hpr Hn. pose proof (printable_line u p Hpr) as [Hpl _].
  destruct Hpr as (Hu & z & Hz & Ep). cbn in Hu, Ep. unfold reviewed_line.
  change (u +:+ "=" +:+ p) with (u +:+ String "=" p) in *.
  rewrite partition_char_found by by apply uuid_no_eq.
  rewrite (plain_strip (u +:+ String "=" p)) by exact Hpl. rewrite (proj2 (str_truthy_spec _)).
  2:{ destruct u; [done|]. by rewrite append_cons. }
  cbn [andb require mbind result_bind].
  rewrite (uuid_strip u Hu), (proj2 (validate_uuid_Ok u u)) by (by rewrite uuid_strip).
  cbn [mbind result_bind].
  rewrite (plain_strip p) by (rewrite Ep; by apply device_nospace).
  rewrite Ep, device_path_str, str_of_Z_digits by done. cbn [require mbind result_bind].
  rewrite bool_decide_false by (rewrite Hn; by intros []). done.
Qed.

Lemma reviewed_loop l d : Forall printable l → NoDup l.*1 → (∀ u, u ∈ l.*1 → u ∉ dkeys d) →
  foldR reviewed_line d (mapping_lines l) = Ok (d ++ l).
Proof.
  revert d. induction l as [|[u p] l IH]; intros d; cbn; [by rewrite app_nil_r|].
  intros [Hup Hl]%Forall_cons [Hu Hnd]%NoDup_cons Hf.
  assert (dget u d = None) as Hn by (apply dget_None, Hf; left).
  rewrite reviewed_line_Ok by done. cbn [mbind result_bind].
  unfold mapping_lines in IH. rewrite dset_absent by done.
  rewrite IH; [by rewrite <- app_assoc|done|done|].
  intros u' Hu'. unfold dkeys. rewrite fmap_app, elem_of_app. cbn.
  rewrite list_elem_of_singleton. intros [?| ->]; [|done]. apply (Hf u'); [by right|done].
Qed.

Lemma discover_printable h smi devs root m : discover_gpu_mapping h smi devs root = Ok m →
  Forall printable m ∧ NoDup m.*1 ∧ m ≠ [] ∧ sorted_pairs m = m.
Proof.
  intros (vis & rows & major & d & _ & _ & _ & -> & _ & Hne & Hre & W & _ & K & M)%discover_decompose.
  pose proof (sorted_pairs_Permutation d) as E.
  split_and!.
  - rewrite E. apply Forall_forall. intros [u p] Hin. split.
    + rewrite <- K in Hre. rewrite Forall_forall in Hre. apply Hre.
      by apply (list_elem_of_fmap_2 fst _ (u, p)).
    + apply M in Hin as (raw & z & _ & Hz%candidate_nonneg & -> & _). eauto.
  - by rewrite E.
  - intros E0. rewrite E0 in E. apply Permutation_nil in E as ->. by apply Hne.
  - apply sorted_pairs_idemp.
Qed.

(** The reviewed map reads back what discovery printed.  When the file holds
    the lines [main] prints for a discovered mapping, [load_reviewed_gpu_map] returns that
    mapping, entry for entry: an unchanged host always passes the later comparison. *)
Theorem reviewed_roundtrip h smi devs root m path : discover_gpu_mapping h smi devs root = Ok m →
  h_read_text h path = Some (print_lines (mapping_lines m)) →
  load_reviewed_gpu_map h path = Ok m.
Proof.
  intros (Hp & Hnd & Hne & Hs)%discover_printable Ht. unfold load_reviewed_gpu_map. rewrite Ht.
  rewrite splitlines_print.
  2:{ unfold mapping_lines. apply Forall_fmap. eapply Forall_impl; [exact Hp|].
      intros [u p] H. by apply printable_line. }
  rewrite reviewed_loop; [|done|done|by intros ? _ ?%elem_of_nil].
  change ([] ++ m) with m. cbn [mbind result_bind].
  rewrite bool_decide_false by (by destruct m). cbn. by rewrite Hs.
Qed.

(** ** A concrete host: two GPUs, the second one denied *)

Definition demo_host : host :=
  {| h_run := λ _ f, Some {| returncode := 0;
       stdout := if bool_decide (f = "uuid") then print_lines ["GPU-b"; "GPU-a"]
                 else print_lines ["GPU-b, 1"; "GPU-a, 0"];
       stderr := EmptyString |};
     h_proc_entries := []; h_read_information := λ _, None;
     h_read_text := λ p,
       if bool_decide (p = "/proc/devices")
       then Some (print_lines ["Character devices:"; "195 nvidia-frontend"; ""; "Block devices:"])
       else Some (print_lines ["GPU-a=/dev/nvidia0"; "GPU-b=/dev/nvidia1"]);
     h_device_stat := λ p,
       Some {| st_mode := 8630;
               st_rdev := if bool_decide (p = "/dev/nvidia0") then 195 * 256 else 195 * 256 + 1 |};
     h_open := λ p, if bool_decide (p = "/dev/nvidia0") then inl 3 else inr 1;
     h_load_toml := λ _, TomlUnavailable; h_cuda_visible_devices := Some "GPU-a" |}.
Definition demo_mapping : list (string * string) :=
  [("GPU-a", "/dev/nvidia0"); ("GPU-b", "/dev/nvidia1")].

Lemma demo_discover :
  discover_gpu_mapping demo_host "nvidia-smi" "/proc/devices" "/dev" = Ok demo_mapping.
Proof. vm_compute. reflexivity. Qed.

Lemma discover_sound_witness :
  NoDup demo_mapping.*1 ∧ NoDup demo_mapping.*2 ∧
  (∃ c, h_run demo_host "nvidia-smi" "uuid" = Some c ∧ returncode c = 0 ∧
        ∀ u, u ∈ demo_mapping.*1 ↔ u ∈ strip <$> text_lines (stdout c)) ∧
  ∃ rows major, reported_rows demo_host "nvidia-smi" = Ok rows ∧
    _nvidia_character_device_major demo_host "/proc/devices" = Ok major ∧
    ∀ u p, (u, p) ∈ demo_mapping → mapped demo_host rows "/dev" major u p.
Proof. exact (discover_sound _ _ _ _ _ demo_discover). Defined.

Lemma reviewed_roundtrip_witness : load_reviewed_gpu_map demo_host "/etc/reviewed" = Ok demo_mapping.
Proof. apply (reviewed_roundtrip _ _ _ _ _ _ demo_discover). vm_compute. reflexivity. Defined.

Lemma isolation_exact_witness :
  ((verify_isolated_gpu_access demo_host demo_mapping ["GPU-a"] [("GPU-a", "/dev/nvidia0")]
      ["GPU-a"] (Some "GPU-a") "/dev").2 = Ok tt ↔
   (∀ u, u ∈ ["GPU-a"] → u ∈ demo_mapping.*1) ∧
   [("GPU-a", "/dev/nvidia0")] ≡ₚ filter (λ kv, kv.1 ∈ ["GPU-a"]) demo_mapping ∧
   Forall (λ v, gpu_uuid_re v = true) (strip <$> ["GPU-a"]) ∧ NoDup (strip <$> ["GPU-a"]) ∧
   strip <$> ["GPU-a"] ≡ₚ ["GPU-a"] ∧ Some "GPU-a" = Some (join "," (strip <$> ["GPU-a"])) ∧
   (∀ u p, (u, p) ∈ demo_mapping → u ∈ ["GPU-a"] → openable demo_host "/dev" p) ∧
   (∀ u p, (u, p) ∈ demo_mapping → u ∉ ["GPU-a"] → denied demo_host "/dev" p)) ∧
  balanced (verify_isolated_gpu_access demo_host demo_mapping ["GPU-a"]
              [("GPU-a", "/dev/nvidia0")] ["GPU-a"] (Some "GPU-a") "/dev").1.
Proof. apply isolation_exact; vm_decide. Defined.

(** The demo host does enforce the subset. *)
Example demo_isolated :
  verify_isolated_gpu_access demo_host demo_mapping ["GPU-a"] [("GPU-a", "/dev/nvidia0")]
    ["GPU-a"] (Some "GPU-a") "/dev" =
  ([Opened "/dev/nvidia0" 3; Closed 3; Refused "/dev/nvidia1" 1], Ok tt).
Proof. vm_compute. reflexivity. Qed.
