(* ===== verification/RuntimeContracts.v ===== *)
(** * Runtime contracts

    Models [src/src/astrumweaver/runtime/contracts.py]: the provider-neutral values that
    describe a model, what executing it demands, what the host offers, what a provider
    reports and intends, and the health of a runtime.  Arguments the callers pass unparsed
    (from JSON) are [pyval]s, as the constructors check them. *)

From S2P Require Import Prelude PyStr PyDict PyVal Contracts.

(** ** Enumerations *)

(** [RuntimeSelectionMode], runtime/contracts.py lines 39-41. *)
Inductive RuntimeSelectionMode := EXPLICIT | RECOMMEND.
(** [ResidencyPolicy], runtime/contracts.py lines 44-47. *)
Inductive ResidencyPolicy := VRAM_ONLY | PREFER_VRAM | CPU_GPU_HYBRID.
(** [GPUTopology], runtime/contracts.py lines 50-53. *)
Inductive GPUTopology := NO_GPU | SINGLE_GPU | MULTI_GPU.
(** [ModelTopology], runtime/contracts.py lines 56-58. *)
Inductive ModelTopology := DENSE | MOE.
(** [ModelPreparationPolicy], runtime/contracts.py lines 61-64. *)
Inductive ModelPreparationPolicy := REFERENCE_ONLY | DOWNLOAD | CONVERT.
(** [RuntimeHealthState], runtime/contracts.py lines 67-72. *)
Inductive RuntimeHealthState := STOPPED | STARTING | READY | DEGRADED | HEALTH_FAILED.

#[export] Instance RuntimeSelectionMode_eq : EqDecision RuntimeSelectionMode.
Proof. solve_decision. Defined.
#[export] Instance ResidencyPolicy_eq : EqDecision ResidencyPolicy.
Proof. solve_decision. Defined.
#[export] Instance GPUTopology_eq : EqDecision GPUTopology.
Proof. solve_decision. Defined.
#[export] Instance ModelTopology_eq : EqDecision ModelTopology.
Proof. solve_decision. Defined.
#[export] Instance ModelPreparationPolicy_eq : EqDecision ModelPreparationPolicy.
Proof. solve_decision. Defined.
#[export] Instance RuntimeHealthState_eq : EqDecision RuntimeHealthState.
Proof. solve_decision. Defined.

(** An enumeration of strings: the value of a member, and the member of a value. *)
Class StrEnum (A : Type) := {
  enum_members : list A;
  enum_value : A → string;
  enum_name : string;
}.

(** [E(s)]: the member whose value is [s]. *)
Definition enum_of {A} `{StrEnum A} (s : string) : result A :=
  match List.find (λ m, bool_decide (enum_value m = s)) enum_members with
  | Some m => Ok m
  | None => Err (ValueError (s +:+ " is not a valid " +:+ enum_name))
  end.

#[export] Instance ResidencyPolicy_enum : StrEnum ResidencyPolicy := {
  enum_members := [VRAM_ONLY; PREFER_VRAM; CPU_GPU_HYBRID];
  enum_value v := match v with VRAM_ONLY => "vram_only" | PREFER_VRAM => "prefer_vram"
                  | CPU_GPU_HYBRID => "cpu_gpu_hybrid" end;
  enum_name := "ResidencyPolicy" }.
#[export] Instance GPUTopology_enum : StrEnum GPUTopology := {
  enum_members := [NO_GPU; SINGLE_GPU; MULTI_GPU];
  enum_value v := match v with NO_GPU => "none" | SINGLE_GPU => "single_gpu"
                  | MULTI_GPU => "multi_gpu" end;
  enum_name := "GPUTopology" }.
#[export] Instance ModelTopology_enum : StrEnum ModelTopology := {
  enum_members := [DENSE; MOE];
  enum_value v := match v with DENSE => "dense" | MOE => "moe" end;
  enum_name := "ModelTopology" }.
#[export] Instance ModelPreparationPolicy_enum : StrEnum ModelPreparationPolicy := {
  enum_members := [REFERENCE_ONLY; DOWNLOAD; CONVERT];
  enum_value v := match v with REFERENCE_ONLY => "reference_only" | DOWNLOAD => "download"
                  | CONVERT => "convert" end;
  enum_name := "ModelPreparationPolicy" }.

(** ** Helpers *)

(** [_nonblank], runtime/contracts.py lines 18-22. *)
Definition nonblank_str (value field_name : string) : result string :=
  let normalized := strip value in
  require (str_truthy normalized) (ValueError (field_name +:+ " must not be blank"));;
  Ok normalized.

(** [_nonnegative], runtime/contracts.py lines 31-36. *)
Definition _nonnegative (value : pyval) (field_name : string) : result Z :=
  match value with
  | PInt z =>
      require (0 <=? z) (ValueError (field_name +:+ " must not be negative"));;
      Ok z
  | _ => Err (TypeError (field_name +:+ " must be an integer"))
  end.

(** ** Selection *)

(** [RuntimeSelection], runtime/contracts.py lines 75-84. *)
Record RuntimeSelection := {
  rs_mode : RuntimeSelectionMode;
  rs_provider_id : option string;
}.

(** [RuntimeSelection.__post_init__], runtime/contracts.py lines 86-103. *)
Definition mk_RuntimeSelection (m : RuntimeSelectionMode) (provider_id : option string)
    : result RuntimeSelection :=
  match m with
  | EXPLICIT =>
      match provider_id with
      | None => Err (ValueError "explicit runtime selection requires provider_id")
      | Some p => p' ← nonblank_str p "provider_id"; Ok {| rs_mode := m; rs_provider_id := Some p' |}
      end
  | RECOMMEND =>
      match provider_id with
      | None => Ok {| rs_mode := m; rs_provider_id := None |}
      | Some _ => Err (ValueError "recommend runtime selection must not preselect provider_id")
      end
  end.

(** ** Demand *)

(** [ModelDemand], runtime/contracts.py lines 106-114. *)
Record ModelDemand := {
  md_model_ref : string;
  md_model_format : string;
  md_topology : ModelTopology;
  md_estimated_size_mb : option Z;
  md_metadata : dict pyval;
}.

(** [ModelDemand.__post_init__], runtime/contracts.py lines 116-132. *)
Definition mk_ModelDemand (model_ref model_format : string) (topology : ModelTopology)
    (estimated_size_mb : pyval) (metadata : dict pyval) : result ModelDemand :=
  ref ← nonblank_str model_ref "model_ref";
  fmt ← nonblank_str model_format "model_format";
  size ← (match estimated_size_mb with
          | PNone => Ok None
          | v =>
              z ← _nonnegative v "estimated_size_mb";
              require (negb (z =? 0)) (ValueError "estimated_size_mb must be positive when set");;
              Ok (Some z)
          end);
  Ok {| md_model_ref := ref; md_model_format := lower fmt; md_topology := topology;
        md_estimated_size_mb := size; md_metadata := metadata |}.

(** [ExecutionDemand], runtime/contracts.py lines 135-147. *)
Record ExecutionDemand := {
  ed_model : ModelDemand;
  ed_residency_policy : ResidencyPolicy;
  ed_gpu_topology : GPUTopology;
  ed_min_gpu_count : Z;
  ed_min_total_vram_mb : Z;
  ed_min_single_gpu_vram_mb : Z;
  ed_min_host_ram_mb : Z;
  ed_preferred_host_ram_mb : Z;
  ed_metadata : dict pyval;
}.

(** The checks that couple the fields, runtime/contracts.py lines 166-193. *)
Definition check_topology (d : ExecutionDemand) : result unit :=
  require (ed_min_host_ram_mb d <=? ed_preferred_host_ram_mb d)
    (ValueError "preferred_host_ram_mb must be >= min_host_ram_mb");;
  match ed_gpu_topology d with
  | NO_GPU =>
      require ((ed_min_gpu_count d =? 0) && (ed_min_total_vram_mb d =? 0)
               && (ed_min_single_gpu_vram_mb d =? 0))
        (ValueError "GPU requirements must be zero when gpu_topology=none");;
      require (negb (bool_decide (ed_residency_policy d = VRAM_ONLY)))
        (ValueError "vram_only residency requires a GPU topology")
  | SINGLE_GPU =>
      require ((ed_min_gpu_count d =? 0) || (ed_min_gpu_count d =? 1))
        (ValueError "single_gpu demand cannot require more than one GPU")
  | MULTI_GPU =>
      require (2 <=? ed_min_gpu_count d)
        (ValueError "multi_gpu demand requires min_gpu_count >= 2")
  end.

(** [ExecutionDemand.__post_init__], runtime/contracts.py lines 149-195. *)
Definition mk_ExecutionDemand (model : ModelDemand) (policy : ResidencyPolicy)
    (topology : GPUTopology) (gpus total single host preferred : Z) (metadata : dict pyval)
    : result ExecutionDemand :=
  _nonnegative (PInt gpus) "min_gpu_count";;
  _nonnegative (PInt total) "min_total_vram_mb";;
  _nonnegative (PInt single) "min_single_gpu_vram_mb";;
  _nonnegative (PInt host) "min_host_ram_mb";;
  _nonnegative (PInt preferred) "preferred_host_ram_mb";;
  let d := {| ed_model := model; ed_residency_policy := policy; ed_gpu_topology := topology;
              ed_min_gpu_count := gpus; ed_min_total_vram_mb := total;
              ed_min_single_gpu_vram_mb := single; ed_min_host_ram_mb := host;
              ed_preferred_host_ram_mb := preferred; ed_metadata := metadata |} in
  check_topology d;;
  Ok d.

(** [effective_min_gpu_count], runtime/contracts.py lines 197-203. *)
Definition effective_min_gpu_count (d : ExecutionDemand) : Z :=
  match ed_gpu_topology d with
  | NO_GPU => 0
  | SINGLE_GPU => 1
  | MULTI_GPU => ed_min_gpu_count d
  end.

(** ** Host and context *)

(** [RuntimeHostFacts], runtime/contracts.py lines 206-213. *)
Record RuntimeHostFacts := {
  hf_cpu_count : Z;
  hf_host_ram_mb : Z;
  hf_architecture : string;
  hf_labels : dict string;
}.

(** [RuntimeHostFacts.__post_init__], runtime/contracts.py lines 215-231. *)
Definition mk_RuntimeHostFacts (cpu_count host_ram_mb : Z) (architecture : string)
    (labels : dict string) : result RuntimeHostFacts :=
  _nonnegative (PInt cpu_count) "cpu_count";;
  _nonnegative (PInt host_ram_mb) "host_ram_mb";;
  require (negb (cpu_count =? 0)) (ValueError "cpu_count must be positive");;
  require (negb (host_ram_mb =? 0)) (ValueError "host_ram_mb must be positive");;
  arch ← nonblank_str architecture "architecture";
  normalized ← foldR (λ acc '(key, value),
    k ← nonblank_str key "label key";
    v ← nonblank_str value "label value";
    Ok (dset k v acc)) [] labels;
  Ok {| hf_cpu_count := cpu_count; hf_host_ram_mb := host_ram_mb; hf_architecture := arch;
        hf_labels := normalized |}.

(** [RuntimeCompatibilityContext], runtime/contracts.py lines 234-246. *)
Record RuntimeCompatibilityContext := {
  cx_worker : WorkerSpec;
  cx_host : RuntimeHostFacts;
  cx_demand : ExecutionDemand;
}.

(** ** What providers say *)

(** [RuntimeProviderInfo], runtime/contracts.py lines 249-253. *)
Record RuntimeProviderInfo := {
  pi_provider_id : string;
  pi_display_name : string;
  pi_description : string;
}.

(** [RuntimeProviderInfo.__post_init__], runtime/contracts.py lines 255-266. *)
Definition mk_RuntimeProviderInfo (provider_id display_name description : string)
    : result RuntimeProviderInfo :=
  p ← nonblank_str provider_id "provider_id";
  d ← nonblank_str display_name "display_name";
  Ok {| pi_provider_id := p; pi_display_name := d; pi_description := strip description |}.

(** [CompatibilityReason], runtime/contracts.py lines 270-273. *)
Record CompatibilityReason := {
  cr_code : string;
  cr_message : string;
  cr_blocking : bool;
}.

(** [CompatibilityReason.__post_init__], runtime/contracts.py lines 275-281. *)
Definition mk_CompatibilityReason (code message : string) (blocking : bool)
    : result CompatibilityReason :=
  c ← nonblank_str code "code";
  m ← nonblank_str message "message";
  Ok {| cr_code := c; cr_message := m; cr_blocking := blocking |}.

(** [RuntimeCompatibility], runtime/contracts.py lines 284-287. *)
Record RuntimeCompatibility := {
  rc_provider_id : string;
  rc_reasons : list CompatibilityReason;
}.

(** [RuntimeCompatibility.__post_init__], runtime/contracts.py lines 289-298. *)
Definition mk_RuntimeCompatibility (provider_id : string) (reasons : list CompatibilityReason)
    : result RuntimeCompatibility :=
  p ← nonblank_str provider_id "provider_id";
  Ok {| rc_provider_id := p; rc_reasons := reasons |}.

(** [compatible], runtime/contracts.py lines 300-302. *)
Definition compatible (r : RuntimeCompatibility) : bool :=
  negb (existsb cr_blocking (rc_reasons r)).

(** [RuntimeSetupIntent], runtime/contracts.py lines 305-321. *)
Record RuntimeSetupIntent := {
  si_provider_id : string;
  si_package_references : list string;
  si_configuration : dict pyval;
  si_model_preparation : ModelPreparationPolicy;
  si_model_ref : option string;
  si_requires_privilege : bool;
  si_metadata : dict pyval;
}.

(** [RuntimeSetupIntent.__post_init__], runtime/contracts.py lines 323-352. *)
Definition mk_RuntimeSetupIntent (provider_id : string) (package_references : list string)
    (configuration : dict pyval) (preparation : ModelPreparationPolicy) (model_ref : pyval)
    (requires_privilege : bool) (metadata : dict pyval) : result RuntimeSetupIntent :=
  p ← nonblank_str provider_id "provider_id";
  packages ← mapR (λ value, nonblank_str value "package reference") package_references;
  require (all_distinct packages)
    (ValueError "package_references must not contain duplicates");;
  ref ← (match model_ref with
         | PNone => Ok None
         | v => s ← py_str v; r ← nonblank_str s "model_ref"; Ok (Some r)
         end);
  Ok {| si_provider_id := p; si_package_references := packages;
        si_configuration := configuration; si_model_preparation := preparation;
        si_model_ref := ref; si_requires_privilege := requires_privilege;
        si_metadata := metadata |}.

(** [RuntimeHealth], runtime/contracts.py lines 355-360. *)
Record RuntimeHealth := {
  rh_state : RuntimeHealthState;
  rh_ready : bool;
  rh_detail : option string;
  rh_metadata : dict pyval;
}.

(** [RuntimeHealth.__post_init__], runtime/contracts.py lines 362-366. *)
Definition mk_RuntimeHealth (state : RuntimeHealthState) (ready : bool) (detail : option string)
    (metadata : dict pyval) : RuntimeHealth :=
  {| rh_state := state; rh_ready := ready; rh_detail := strip <$> detail; rh_metadata := metadata |}.

(** ** Laws *)

(** The value of a member determines it, as long as the table lists it. *)
Class LawfulEnum (A : Type) `{StrEnum A} := {
  enum_complete (a : A) : enum_of (enum_value a) = Ok a;
}.
#[export] Instance ResidencyPolicy_lawful : LawfulEnum ResidencyPolicy.
Proof. constructor. by intros []. Qed.
#[export] Instance GPUTopology_lawful : LawfulEnum GPUTopology.
Proof. constructor. by intros []. Qed.
#[export] Instance ModelTopology_lawful : LawfulEnum ModelTopology.
Proof. constructor. by intros []. Qed.
#[export] Instance ModelPreparationPolicy_lawful : LawfulEnum ModelPreparationPolicy.
Proof. constructor. by intros []. Qed.

Lemma nonblank_str_Ok v f s : nonblank_str v f = Ok s ↔ s = strip v ∧ nonblank s.
Proof.
  unfold nonblank_str, nonblank. destruct (str_truthy (strip v)) eqn:E; cbn; split.
  - intros [= <-]. split_and!; [done|apply strip_stripped|by apply str_truthy_spec].
  - by intros [-> _].
  - done.
  - intros (-> & _ & H). by apply str_truthy_false in E.
Qed.

Lemma nonblank_str_id v f : nonblank v → nonblank_str v f = Ok v.
Proof. intros H. apply nonblank_str_Ok. split; [|done]. by destruct H. Qed.

Lemma nonnegative_Ok z f : 0 ≤ z → _nonnegative (PInt z) f = Ok z.
Proof. intros H. unfold _nonnegative. by rewrite (proj2 (Z.leb_le _ _)). Qed.

#[global] Arguments _nonnegative : simpl never.
#[global] Arguments nonblank_str : simpl never.
#[global] Arguments check_topology : simpl never.

(** *** Well-formed demands *)

Definition wf_ModelDemand (m : ModelDemand) : Prop :=
  nonblank (md_model_ref m) ∧ nonblank (md_model_format m) ∧
  lower (md_model_format m) = md_model_format m ∧
  (∀ z, md_estimated_size_mb m = Some z → 0 < z).

Definition wf_ExecutionDemand (d : ExecutionDemand) : Prop :=
  wf_ModelDemand (ed_model d) ∧ 0 ≤ ed_min_gpu_count d ∧ 0 ≤ ed_min_total_vram_mb d ∧
  0 ≤ ed_min_single_gpu_vram_mb d ∧ 0 ≤ ed_min_host_ram_mb d ∧
  ed_min_host_ram_mb d ≤ ed_preferred_host_ram_mb d ∧
  match ed_gpu_topology d with
  | NO_GPU => ed_min_gpu_count d = 0 ∧ ed_min_total_vram_mb d = 0 ∧
              ed_min_single_gpu_vram_mb d = 0 ∧ ed_residency_policy d ≠ VRAM_ONLY
  | SINGLE_GPU => ed_min_gpu_count d ≤ 1
  | MULTI_GPU => 2 ≤ ed_min_gpu_count d
  end.

Definition wf_RuntimeSetupIntent (s : RuntimeSetupIntent) : Prop :=
  nonblank (si_provider_id s) ∧ Forall nonblank (si_package_references s) ∧
  NoDup (si_package_references s) ∧ (∀ r, si_model_ref s = Some r → nonblank r).

Lemma mk_ModelDemand_wf r f t e m d : mk_ModelDemand r f t e m = Ok d → wf_ModelDemand d.
Proof.
  unfold mk_ModelDemand. intros H. simp_res.
  match goal with H1 : nonblank_str r _ = _, H2 : nonblank_str f _ = _ |- _ =>
    apply nonblank_str_Ok in H1 as [_ H1], H2 as [_ H2] end.
  split_and!; cbn; [done|by apply nonblank_lower|apply lower_idemp|].
  intros z ->. destruct e; try done; unfold _nonnegative in *; simp_res; bools.
  match goal with H : (_ <=? _) = true, H' : (_ =? _) = false |- _ =>
    apply Z.leb_le in H; apply Z.eqb_neq in H'; lia end.
Qed.

Lemma check_topology_Ok d : 0 ≤ ed_min_gpu_count d → check_topology d = Ok tt ↔
  ed_min_host_ram_mb d ≤ ed_preferred_host_ram_mb d ∧
  match ed_gpu_topology d with
  | NO_GPU => ed_min_gpu_count d = 0 ∧ ed_min_total_vram_mb d = 0 ∧
              ed_min_single_gpu_vram_mb d = 0 ∧ ed_residency_policy d ≠ VRAM_ONLY
  | SINGLE_GPU => ed_min_gpu_count d ≤ 1
  | MULTI_GPU => 2 ≤ ed_min_gpu_count d
  end.
Proof.
  intros Hn. unfold check_topology. rewrite guard_Ok, Z.leb_le.
  destruct (ed_gpu_topology d).
  - rewrite guard_Ok, require_Ok, !andb_true_iff, !Z.eqb_eq, negb_true_iff, bool_decide_eq_false.
    tauto.
  - rewrite require_Ok, orb_true_iff, !Z.eqb_eq. lia.
  - rewrite require_Ok, Z.leb_le. done.
Qed.

Lemma mk_ExecutionDemand_id d : wf_ExecutionDemand d →
  mk_ExecutionDemand (ed_model d) (ed_residency_policy d) (ed_gpu_topology d)
    (ed_min_gpu_count d) (ed_min_total_vram_mb d) (ed_min_single_gpu_vram_mb d)
    (ed_min_host_ram_mb d) (ed_preferred_host_ram_mb d) (ed_metadata d) = Ok d.
Proof.
  destruct d as [m p t g tv sv h pr md]. intros (? & ? & ? & ? & ? & ? & Ht). cbn in *.
  unfold mk_ExecutionDemand. rewrite !nonnegative_Ok by lia. cbn [mbind result_bind].
  match goal with |- context [check_topology ?d] =>
    assert (check_topology d = Ok tt) as -> by by apply check_topology_Ok end.
  done.
Qed.

Lemma mk_ExecutionDemand_wf m p t g tv sv h pr md d : wf_ModelDemand m →
  mk_ExecutionDemand m p t g tv sv h pr md = Ok d → wf_ExecutionDemand d.
Proof.
  intros Hm H. unfold mk_ExecutionDemand in H. simp_res.
  unfold _nonnegative in *. simp_res.
  repeat match goal with H : (_ <=? _) = true |- _ => apply Z.leb_le in H end.
  match goal with H : check_topology _ = _ |- _ => apply check_topology_Ok in H as [? ?]; [|done] end.
  by split_and!.
Qed.

Lemma mk_RuntimeSetupIntent_wf p k c pr r pv m s :
  mk_RuntimeSetupIntent p k c pr r pv m = Ok s → wf_RuntimeSetupIntent s.
Proof.
  unfold mk_RuntimeSetupIntent. intros H. simp_res.
  split_and!; cbn.
  - by match goal with H : nonblank_str p _ = _ |- _ => apply nonblank_str_Ok in H as [_ H] end.
  - match goal with H : mapR _ k = _ |- _ => apply mapR_Ok in H; rename H into HF end.
    clear -HF. induction HF as [|a b l l' E _ IH]; constructor; [|done]. by apply nonblank_str_Ok in E as [_ ?].
  - unfold all_distinct in *. by bools.
  - intros r' ->. destruct r; simp_res; try done;
      match goal with H : nonblank_str _ "model_ref" = _ |- _ => by apply nonblank_str_Ok in H as [_ H] end.
Qed.
