(* ===== verification/OwnedServer.v ===== *)
(** * Inference servers owned by a worker

    What the five managed runtimes of [src/src/astrumweaver/runtime/providers/] share: one
    child process, one HTTP endpoint, and the same sequence of checks around them.  The
    operating system, the network and the event loop are a world that answers; every
    exchange and every signal to the process is logged. *)

From S2P Require Import Prelude PyStr PyDict PyVal Effects RuntimeContracts.

(** ** The world *)

(** [httpx.AsyncClient.request] (an answer is its status and its JSON body, [None] when the
    body is not JSON) and [aclose]; [loop.time()] and [asyncio.sleep]; [os.environ] and
    [asyncio.create_subprocess_exec]; of the child started last: whether its [returncode] is
    set, [terminate], [kill] and [wait] (with the provider's limit when asked: [false] is
    [TimeoutError]).  Every awaited call may raise. *)
Class ServerWorld (W : Type) := {
  sw_request : string → string → option (dict pyval) → W → W * result (Z * option pyval);
  sw_aclose : W → W * result unit;
  sw_time : W → Z;
  sw_deadline : pyval → W → option Z;
  sw_sleep : Z → W → W * result unit;
  sw_environ : W → dict string;
  sw_spawn : list string → dict string → W → W * result unit;
  sw_exited : W → bool;
  sw_terminate : W → W * result unit;
  sw_kill : W → W * result unit;
  sw_wait : bool → W → W * result bool;
}.

Inductive event :=
  | EvRequest (method path : string) (json : option (dict pyval)) (answer : result (Z * option pyval))
  | EvSpawn (args : list string) (env : dict string) (r : result unit)
  | EvTerminate
  | EvKill
  | EvWait (r : result bool)
  | EvSleep
  | EvClose.

Section server.
Context {W : Type} `{ServerWorld W}.

(** The world, [self._process is not None], [self._closed], and the log, latest first. *)
Record server := {
  sv_world : W;
  sv_process : bool;
  sv_closed : bool;
  sv_log : list event;
}.
Abbreviation M := (eff server).

Definition moved (w : W) (e : event) (s : server) : server :=
  {| sv_world := w; sv_process := sv_process s; sv_closed := sv_closed s; sv_log := e :: sv_log s |}.
Definition with_process (b : bool) (s : server) : server :=
  {| sv_world := sv_world s; sv_process := b; sv_closed := sv_closed s; sv_log := sv_log s |}.
Definition with_closed (b : bool) (s : server) : server :=
  {| sv_world := sv_world s; sv_process := sv_process s; sv_closed := b; sv_log := sv_log s |}.

Definition request (method path : string) (json : option (dict pyval)) : M (Z * option pyval) := λ s,
  let '(w, r) := sw_request method path json (sv_world s) in (moved w (EvRequest method path json r) s, r).
Definition sleep (d : Z) : M unit := λ s,
  let '(w, r) := sw_sleep d (sv_world s) in (moved w EvSleep s, r).
Definition aclose : M unit := λ s,
  let '(w, r) := sw_aclose (sv_world s) in (moved w EvClose s, r).
Definition spawn (args : list string) (env : dict string) : M unit := λ s,
  let '(w, r) := sw_spawn args env (sv_world s) in (moved w (EvSpawn args env r) s, r).
Definition terminate : M unit := λ s,
  let '(w, r) := sw_terminate (sv_world s) in (moved w EvTerminate s, r).
Definition kill : M unit := λ s,
  let '(w, r) := sw_kill (sv_world s) in (moved w EvKill s, r).
Definition wait (bounded : bool) : M bool := λ s,
  let '(w, r) := sw_wait bounded (sv_world s) in (moved w (EvWait r) s, r).

(** ** Exceptions *)

(** [except Exception]: everything but a cancellation. *)
Definition is_exception (e : exn) : bool := if e is CancelledError then false else true.
Definition except_exception {A} (m : M A) (h : exn → M A) : M A :=
  try_catch m (λ e, if is_exception e then h e else throws e).
(** [with contextlib.suppress(Exception)]. *)
Definition suppress (m : M unit) : M unit := except_exception m (λ _, mret tt).

(** ** The endpoint *)

(** [HttpLlamaCppApi._json], runtime/providers/llama_cpp.py lines 232-245: a successful answer whose body is an object. *)
Definition json_request (non_object : string) (method path : string) (json : option (dict pyval))
    : M (dict pyval) :=
  answer ← request method path json;
  let '(status, body) := answer in
  ensure ((200 <=? status) && (status <=? 299)) (HTTPError "response status is not successful");;
  match body with
  | None => throws (ValueError "Expecting value")
  | Some (PDict d) => mret d
  | Some _ => throws (RuntimeError non_object)
  end.

(** [HttpLlamaCppApi.health], runtime/providers/llama_cpp.py lines 225-230: a 200 of [/health]; an
    [httpx.HTTPError] is [False]. *)
Definition health_endpoint : M bool :=
  try_catch (answer ← request "GET" "/health" None; mret (answer.1 =? 200))
    (λ e, match e with HTTPError _ => mret false | _ => throws e end).

(** ** The child process *)

(** [OllamaSubprocessController.running], runtime/providers/ollama.py lines 192-194. *)
Definition running (s : server) : bool := sv_process s && negb (sw_exited (sv_world s)).

(** [LlamaCppSubprocessController.start], runtime/providers/llama_cpp.py lines 394-408, once the
    command and environment are known; [wrap] is what a provider makes of an [OSError]. *)
Definition start_process (command : list string) (environment : dict string → dict string)
    (wrap : exn → exn) : M unit :=
  alive ← gets running;
  if alive : bool then mret tt
  else
    env ← gets (λ s, sw_environ (sv_world s));
    try_catch (spawn command (environment env);; sets (with_process true))
      (λ e, match e with OSError _ => throws (wrap e) | _ => throws e end).

(** [OllamaSubprocessController.stop], runtime/providers/ollama.py lines 216-227. *)
Definition stop_process : M unit :=
  has ← gets sv_process;
  if negb has then mret tt
  else
    exited ← gets (λ s, sw_exited (sv_world s));
    (if exited : bool then mret tt
     else
       terminate;;
       ended ← wait true;
       if ended : bool then mret tt else kill;; wait false;; mret tt);;
    sets (with_process false).

Definition unless (c : bool) (m : M unit) : M unit := if c then mret tt else m.

(** ** The managed runtime *)

(** What a provider adds to the common sequence: its texts, its requests. *)
Record backend := {
  bk_released_text : string;
  bk_external_text : string;
  bk_exited_text : string;
  bk_timeout_text : string;
  bk_poll : Z;
  bk_startup_timeout : pyval;
  bk_spawn : M unit;
  bk_reachable : M bool;
  bk_verify : M unit;
  bk_cleanup : M unit;
  bk_available : M bool;
  bk_health_external : string;
  bk_health_inventory : string;
  bk_health_unavailable : string;
  bk_metadata : dict pyval;
  bk_ready_metadata : dict pyval;
  bk_unload : M unit;
}.

Variable b : backend.

(** The loop of [start], runtime/providers/ollama.py lines 468-478; [None] when out of fuel. *)
Fixpoint start_loop (fuel : nat) (deadline : option Z) : M (option unit) :=
  match fuel with
  | O => mret None
  | S fuel' =>
      alive ← gets running;
      if negb alive then throws (RuntimeError (bk_exited_text b))
      else
        reachable ← bk_reachable b;
        if reachable : bool then mret (Some tt)
        else
          now ← gets (λ s, sw_time (sv_world s));
          if match deadline with Some d => d <=? now | None => false end
          then throws (RuntimeError (bk_timeout_text b))
          else sleep (bk_poll b);; start_loop fuel' deadline
  end.

(** The [try] block of [start], runtime/providers/ollama.py lines 463-490. *)
Definition start_body (fuel : nat) : M (option unit) :=
  deadline ← gets (λ s, sw_deadline (bk_startup_timeout b) (sv_world s));
  r ← start_loop fuel deadline;
  match r with
  | None => mret None
  | Some _ => bk_verify b;; mret (Some tt)
  end.

(** [OllamaManagedRuntime.start], runtime/providers/ollama.py lines 448-498. *)
Definition start (fuel : nat) : M (option unit) :=
  closed ← gets sv_closed;
  ensure (negb closed) (RuntimeError (bk_released_text b));;
  reachable ← bk_reachable b;
  alive ← gets running;
  ensure (negb (reachable && negb alive)) (RuntimeError (bk_external_text b));;
  unless alive (bk_spawn b);;
  except_exception (start_body fuel)
    (λ e, bk_cleanup b;; unless alive (suppress stop_process);; throws e).

(** [OllamaManagedRuntime.stop], runtime/providers/ollama.py lines 500-503. *)
Definition stop : M unit := stop_process.

Definition not_ready (state : RuntimeHealthState) (detail : option string) : RuntimeHealth :=
  mk_RuntimeHealth state false detail (bk_metadata b).

(** [OllamaManagedRuntime.health], runtime/providers/ollama.py lines 505-558. *)
Definition health : M RuntimeHealth :=
  reachable ← bk_reachable b;
  alive ← gets running;
  if negb reachable then mret (not_ready (if alive : bool then STARTING else STOPPED) None)
  else if negb alive then mret (not_ready HEALTH_FAILED (Some (bk_health_external b)))
  else
    available ← except_exception (a ← bk_available b; mret (Some a)) (λ _, mret None);
    match available with
    | None => mret (not_ready DEGRADED (Some (bk_health_inventory b)))
    | Some false => mret (not_ready HEALTH_FAILED (Some (bk_health_unavailable b)))
    | Some true =>
        alive ← gets running;
        if negb alive then mret (not_ready STOPPED None)
        else mret (mk_RuntimeHealth READY true None (bk_ready_metadata b))
    end.

(** [OllamaManagedRuntime.release], runtime/providers/ollama.py lines 566-573. *)
Definition release : M unit :=
  closed ← gets sv_closed;
  if closed : bool then mret tt
  else bk_unload b;; aclose;; sets (with_closed true).
End server.
Arguments server W : clear implicits.
Arguments backend W : clear implicits.
