(* ===== verification/OwnedServerProps.v ===== *)
(** * Owned servers: adoption, verification, cleanup, truthful health *)

From S2P Require Import Prelude PyStr PyDict PyVal Effects RuntimeContracts OwnedServer.

Section server.
Context {W : Type} `{ServerWorld W}.

(** ** Events *)

Definition is_request (e : event) : bool := if e is EvRequest _ _ _ _ then true else false.
Definition quiet (e : event) : bool := match e with EvRequest _ _ _ _ | EvSleep => true | _ => false end.
Definition is_signal (e : event) : bool := match e with EvTerminate | EvKill => true | _ => false end.
Definition spawned (e : event) : bool := if e is EvSpawn _ _ (Ok _) then true else false.
Definition is_spawn (e : event) : bool := if e is EvSpawn _ _ _ then true else false.

(** A computation that leaves the process and the life of the runtime alone, and logs only
    events of the kind [K]. *)
Definition step_to (K : event → bool) (s s' : server W) : Prop :=
  sv_process s' = sv_process s ∧ sv_closed s' = sv_closed s ∧
  ∃ new, sv_log s' = new ++ sv_log s ∧ Forall (λ e, K e = true) new.
Definition emits {A} (K : event → bool) (m : eff (server W) A) : Prop := ∀ s, step_to K s (m s).1.

#[export] Instance step_to_preorder K : PreOrder (step_to K).
Proof.
  split.
  - intros s. split_and!; [done..|]. by exists [].
  - intros s1 s2 s3 (P1 & C1 & n1 & L1 & F1) (P2 & C2 & n2 & L2 & F2). split_and!; [congruence..|].
    exists (n2 ++ n1). split; [by rewrite L2, L1, app_assoc|]. by apply Forall_app.
Qed.

Lemma emits_ret {A} K (a : A) : emits K (mret a).
Proof. intros s. cbn. reflexivity. Qed.
Lemma emits_throws {A} K e : emits K (throws (A:=A) e).
Proof. intros s. cbn. reflexivity. Qed.
Lemma emits_gets {A} K (f : server W → A) : emits K (gets f).
Proof. intros s. cbn. reflexivity. Qed.
Lemma emits_lifts {A} K (r : result A) : emits K (lifts r).
Proof. intros s. cbn. reflexivity. Qed.
Lemma emits_ensure K b e : emits K (ensure b e).
Proof. destruct b; [apply emits_ret|apply emits_throws]. Qed.
Lemma emits_bind {A B} K (m : eff (server W) A) (k : A → eff (server W) B) :
  emits K m → (∀ a, emits K (k a)) → emits K (m ≫= k).
Proof.
  intros Hm Hk s. unfold mbind, eff_bind. specialize (Hm s).
  destruct (m s) as [s1 [a|e]]; [|done]. etrans; [exact Hm|apply Hk].
Qed.
Lemma emits_catch {A} K (m : eff (server W) A) h :
  emits K m → (∀ e, emits K (h e)) → emits K (try_catch m h).
Proof.
  intros Hm Hh s. unfold try_catch. specialize (Hm s).
  destruct (m s) as [s1 [a|e]]; [done|]. etrans; [exact Hm|apply Hh].
Qed.
Lemma emits_except {A} K (m : eff (server W) A) h :
  emits K m → (∀ e, emits K (h e)) → emits K (except_exception m h).
Proof. intros Hm Hh. apply emits_catch; [done|]. intros e. destruct (is_exception e); [done|apply emits_throws]. Qed.
Lemma emits_suppress K m : emits K m → emits K (suppress m).
Proof. intros Hm. apply emits_except; [done|]. intros. apply emits_ret. Qed.
Lemma emits_weaken {A} (K K' : event → bool) (m : eff (server W) A) :
  (∀ e, K e = true → K' e = true) → emits K m → emits K' m.
Proof.
  intros Hk Hm s. destruct (Hm s) as (P & C & n & L & F). split_and!; [done..|].
  exists n. split; [done|]. eapply Forall_impl; [exact F|auto].
Qed.
Lemma emits_request method path json : emits is_request (request method path json).
Proof.
  intros s. unfold request. destruct (sw_request _ _ _ _) as [w r]. cbn.
  split_and!; [done..|]. eexists [_]. split; [done|]. by repeat constructor.
Qed.
Lemma emits_sleep d : emits quiet (sleep d).
Proof.
  intros s. unfold sleep. destruct (sw_sleep _ _) as [w r]. cbn.
  split_and!; [done..|]. eexists [_]. split; [done|]. by repeat constructor.
Qed.
Lemma emits_json non_object method path json : emits is_request (json_request non_object method path json).
Proof.
  unfold json_request. apply emits_bind; [apply emits_request|]. intros [status body].
  apply emits_bind; [apply emits_ensure|]. intros _.
  destruct body as [[]|]; first [apply emits_ret|apply emits_throws].
Qed.
Lemma emits_health_endpoint : emits is_request health_endpoint.
Proof.
  unfold health_endpoint. apply emits_catch.
  - apply emits_bind; [apply emits_request|]. intros. apply emits_ret.
  - intros []; first [apply emits_ret|apply emits_throws].
Qed.

(** ** What a provider promises *)

(** Its checks only ask the endpoint; its cleanup raises nothing an [except Exception] would
    catch; its process is started by the subprocess controller, unless the command line
    cannot be built. *)
Class LawfulBackend (b : backend W) := {
  reachable_requests : emits is_request (bk_reachable b);
  verify_requests : emits is_request (bk_verify b);
  cleanup_requests : emits is_request (bk_cleanup b);
  available_requests : emits is_request (bk_available b);
  unload_requests : emits is_request (bk_unload b);
  cleanup_silent s e : (bk_cleanup b s).2 = Err e → is_exception e = false;
  spawn_controller s : running s = false →
    (∃ e, bk_spawn b s = (s, Err e)) ∨
    (∃ command environment wrap, bk_spawn b s = start_process command environment wrap s);
}.

Context (b : backend W) {LB : LawfulBackend b}.

(** ** The child process *)

Lemma start_process_spec command environment wrap s s' r : running s = false →
  start_process command environment wrap s = (s', r) →
  ∃ env o, sv_log s' = EvSpawn command env o :: sv_log s ∧ sv_closed s' = sv_closed s ∧
    match r with
    | Ok _ => o = Ok tt ∧ sv_process s' = true
    | Err _ => sv_process s' = sv_process s ∧ ∃ e, o = Err e
    end.
Proof.
  unfold start_process. intros Hr. unfold mbind, eff_bind, gets. rewrite Hr. cbn.
  unfold try_catch, spawn, sets. cbn.
  destruct (sw_spawn _ _ _) as [w [[]|e]]; cbn; intros E.
  - injection E as <- <-. cbn. eauto 10.
  - assert (s' = moved w (EvSpawn command (environment (sw_environ (sv_world s))) (Err e)) s ∧ ∃ e', r = Err e')
      as [-> [e' ->]] by (destruct e; injection E as <- <-; eauto).
    cbn. eauto 10.
Qed.

Definition stop_event (e : event) : bool := match e with EvTerminate | EvKill | EvWait _ => true | _ => false end.

(** [stop] as its outcome: what it did to a process that runs, and that it is forgotten. *)
Lemma stop_process_log s s' r : stop_process s = (s', r) →
  sv_closed s' = sv_closed s ∧
  (∃ new, sv_log s' = new ++ sv_log s ∧ Forall (λ e, stop_event e = true) new ∧
     (running s = true → ∃ newer, new = newer ++ [EvTerminate]) ∧
     (running s = false → new = []) ∧
     (EvKill ∈ new → EvWait (Ok false) ∈ new)) ∧
  (r = Ok tt → sv_process s' = false).
Proof.
  unfold stop_process, running. destruct s as [w p c l]. unfold mbind, eff_bind, gets, sets. cbn.
  destruct p; cbn.
  - destruct (sw_exited w) eqn:Ex; cbn.
    + intros [= <- <-]. cbn. split; [done|]. split; [|done]. exists []. set_solver.
    + unfold terminate. cbn. destruct (sw_terminate w) as [w1 [[]|e]]; cbn.
      2:{ intros [= <- <-]. cbn. split; [done|]. split; [|done]. exists [EvTerminate].
          split_and!; try done; [by repeat constructor|by exists []|set_solver]. }
      unfold wait. cbn. destruct (sw_wait true w1) as [w2 [[]|e]]; cbn.
      * intros [= <- <-]. cbn. split; [done|]. split; [|done]. exists [EvWait (Ok true); EvTerminate].
        split_and!; try done; [by repeat constructor|by exists [EvWait (Ok true)]|set_solver].
      * unfold kill. cbn. destruct (sw_kill w2) as [w3 [[]|e]]; cbn.
        2:{ intros [= <- <-]. cbn. split; [done|]. split; [|done].
            exists [EvKill; EvWait (Ok false); EvTerminate].
            split_and!; try done; [by repeat constructor|by exists [EvKill; EvWait (Ok false)]|set_solver]. }
        destruct (sw_wait false w3) as [w4 [x|e]]; cbn; intros [= <- <-]; cbn; (split; [done|]; split; [|done]).
        -- exists [EvWait (Ok x); EvKill; EvWait (Ok false); EvTerminate].
           split_and!; try done; [by repeat constructor|by exists [EvWait (Ok x); EvKill; EvWait (Ok false)]|set_solver].
        -- exists [EvWait (Err e); EvKill; EvWait (Ok false); EvTerminate].
           split_and!; try done; [by repeat constructor|by exists [EvWait (Err e); EvKill; EvWait (Ok false)]|set_solver].
      * intros [= <- <-]. cbn. split; [done|]. split; [|done]. exists [EvWait (Err e); EvTerminate].
        split_and!; try done; [by repeat constructor|by exists [EvWait (Err e)]|set_solver].
  - intros [= <- <-]. cbn. split; [done|]. split; [|done]. exists []. set_solver.
Qed.

(** The signals that end a child, latest first: none when it had exited by itself; [terminate]
    and an awaited exit; or, when that took too long, [kill] and an awaited exit. *)
Definition put_down (signals : list event) (s' : server W) : Prop :=
  sv_process s' = false ∧
  ((signals = [] ∧ sw_exited (sv_world s') = true) ∨
   signals = [EvWait (Ok true); EvTerminate] ∨
   ∃ x, signals = [EvWait (Ok x); EvKill; EvWait (Ok false); EvTerminate]).

(** [stop] of a runtime that has a child: it is put down, or asked to
    terminate by a call sequence that then raised. *)
Lemma stop_process_spec s s' r : sv_process s = true → stop_process s = (s', r) →
  sv_closed s' = sv_closed s ∧
  ∃ new, sv_log s' = new ++ sv_log s ∧ Forall (λ e, stop_event e = true) new ∧
    match r with
    | Ok _ => put_down new s'
    | Err _ => sv_process s' = true ∧ ∃ newer, new = newer ++ [EvTerminate]
    end.
Proof.
  unfold stop_process. destruct s as [w p c l]. unfold mbind, eff_bind, gets, sets. cbn. intros ->. cbn.
  destruct (sw_exited w) eqn:Ex; cbn.
  { intros [= <- <-]. split; [done|]. exists []. split; [done|]. split; [constructor|]. split; [done|by left]. }
  unfold terminate. cbn. destruct (sw_terminate w) as [w1 [[]|e]]; cbn.
  2:{ intros [= <- <-]. split; [done|]. exists [EvTerminate]. split; [done|]. split; [by repeat constructor|]. split; [done|by exists []]. }
  unfold wait. cbn. destruct (sw_wait true w1) as [w2 [[]|e]]; cbn.
  - intros [= <- <-]. split; [done|]. exists [EvWait (Ok true); EvTerminate].
    split; [done|]. split; [by repeat constructor|]. split; [done|by right; left].
  - unfold kill. cbn. destruct (sw_kill w2) as [w3 [[]|e]]; cbn.
    2:{ intros [= <- <-]. split; [done|]. exists [EvKill; EvWait (Ok false); EvTerminate].
        split; [done|]. split; [by repeat constructor|]. split; [done|by exists [EvKill; EvWait (Ok false)]]. }
    destruct (sw_wait false w3) as [w4 [x|e]]; cbn; intros [= <- <-]; (split; [done|]).
    + exists [EvWait (Ok x); EvKill; EvWait (Ok false); EvTerminate].
      split; [done|]. split; [by repeat constructor|]. split; [done|by right; right; exists x].
    + exists [EvWait (Err e); EvKill; EvWait (Ok false); EvTerminate].
      split; [done|]. split; [by repeat constructor|]. split; [done|by exists [EvWait (Err e); EvKill; EvWait (Ok false)]].
  - intros [= <- <-]. split; [done|]. exists [EvWait (Err e); EvTerminate].
    split; [done|]. split; [by repeat constructor|]. split; [done|by exists [EvWait (Err e)]].
Qed.

(** ** The start *)

Lemma request_quiet e : is_request e = true → quiet e = true.
Proof. by destruct e. Qed.

Lemma start_loop_spec fuel : ∀ deadline s s' r, start_loop b fuel deadline s = (s', r) →
  step_to quiet s s' ∧
  (r = Ok (Some tt) → ∃ s1, running s1 = true ∧ bk_reachable b s1 = (s', Ok true)).
Proof.
  induction fuel as [|fuel IH]; intros deadline s s' r; cbn [start_loop]; [by intros [= <- <-]|].
  unfold mbind, eff_bind, gets. destruct (running s) eqn:Hr; cbn [negb]; [|by intros [= <- <-]].
  pose proof (emits_weaken _ quiet _ request_quiet reachable_requests s) as Hs.
  destruct (bk_reachable b s) as [s1 [[|]|e]] eqn:Eb; cbn [fst] in Hs; [| |by intros [= <- <-]].
  - intros [= <- <-]. split; [done|]. intros _. by exists s.
  - case_match; [by intros [= <- <-]|]. pose proof (emits_sleep (bk_poll b) s1) as Hsl.
    destruct (sleep (bk_poll b) s1) as [s2 [[]|e]]; cbn [fst] in Hsl.
    + intros E. apply IH in E as [Hst Hok]. split; [by do 2 (etrans; [eassumption|])|done].
    + intros [= <- <-]. split; [by etrans|done].
Qed.

Lemma start_body_spec fuel s s' r : start_body b fuel s = (s', r) →
  step_to quiet s s' ∧
  (r = Ok (Some tt) → ∃ s1 s2, running s1 = true ∧ bk_reachable b s1 = (s2, Ok true) ∧
                                bk_verify b s2 = (s', Ok tt)).
Proof.
  unfold start_body, mbind, eff_bind, gets.
  destruct (start_loop b fuel _ s) as [s1 [[[]|]|e]] eqn:El; apply start_loop_spec in El as [Hst Hok].
  - pose proof (emits_weaken _ quiet _ request_quiet verify_requests s1) as Hv.
    destruct (bk_verify b s1) as [s2 [[]|e]] eqn:Ev; cbn [fst] in Hv; intros [= <- <-].
    + split; [by etrans|]. intros _. destruct (Hok eq_refl) as (s0 & Hr & Hb). by exists s0, s1.
    + split; [by etrans|done].
  - by intros [= <- <-].
  - by intros [= <- <-].
Qed.

(** How a start that failed ends, [new] being what it logged: with an exception, the child is
    put down by the last signals, or they began with [terminate] and one of the calls
    raised; when the start was cancelled the child stays recorded, for [stop] to end. *)
Definition stopped_by_cleanup (new : list event) (s' : server W) : Prop :=
  ∃ signals before, new = signals ++ before ∧ (∃ e, e ∈ before ∧ spawned e = true) ∧
    (put_down signals s' ∨
     ∃ newer s3 e, signals = newer ++ [EvTerminate] ∧ stop_process s3 = (s', Err e)).
(** The part of it that the handler sees. *)
Definition handled (new : list event) (s' : server W) (e : exn) : Prop :=
  if is_exception e then
    ∃ signals before, new = signals ++ before ∧
      (put_down signals s' ∨
       ∃ newer s3 e, signals = newer ++ [EvTerminate] ∧ stop_process s3 = (s', Err e))
  else sv_process s' = true.

(** What a start did after its first probe. *)
Record started (s1 s' : server W) (alive : bool) (r : result (option unit)) (new : list event) : Prop := {
  started_log : sv_log s' = new ++ sv_log s1;
  started_closed : sv_closed s' = sv_closed s1;
  started_spawns : (length (List.filter is_spawn new) <= if alive then 0 else 1)%nat;
  started_signals : ∀ e, e ∈ new → is_signal e = true → ∃ e', e' ∈ new ∧ spawned e' = true;
  started_verified : r = Ok (Some tt) → sv_process s' = true ∧
    ∃ sa sb, running sa = true ∧ bk_reachable b sa = (sb, Ok true) ∧ bk_verify b sb = (s', Ok tt);
  started_cleanup : ∀ e, r = Err e → (∃ e', e' ∈ new ∧ spawned e' = true) →
    if is_exception e then stopped_by_cleanup new s' else sv_process s' = true;
}.

Lemma filter_all_false {A} (p : A → bool) l : (∀ x, x ∈ l → p x = false) → List.filter p l = [].
Proof.
  induction l as [|x l IH]; [done|]. intros Hp. cbn. rewrite (Hp x) by left.
  apply IH. intros y Hy. apply Hp. by right.
Qed.

Lemma not_spawn_quiet e : quiet e = true → is_spawn e = false ∧ is_signal e = false ∧ spawned e = false.
Proof. by destruct e. Qed.
Lemma not_spawn_stop e : stop_event e = true → is_spawn e = false ∧ spawned e = false.
Proof. by destruct e. Qed.

Lemma spawn_count_app l m :
  length (List.filter is_spawn (l ++ m)) = (length (List.filter is_spawn l) + length (List.filter is_spawn m))%nat.
Proof. by rewrite List.filter_app, length_app. Qed.

(** The cleanup of a failed start. *)
Lemma cleanup_spec (alive : bool) e s s' (r : result (option unit)) :
  sv_process s = true → is_exception e = true →
  (bk_cleanup b;; unless alive (suppress stop_process);; throws e) s = (s', r) →
  sv_closed s' = sv_closed s ∧ ∃ new, sv_log s' = new ++ sv_log s ∧
    (∀ x, x ∈ new → is_spawn x = false ∧ (alive = true → is_signal x = false)) ∧
    ∃ e', r = Err e' ∧ (alive = false → handled new s' e').
Proof.
  intros Hp He. unfold mbind, eff_bind. destruct (cleanup_requests s) as (P & C & n & L & F).
  pose proof (cleanup_silent s) as Hsil.
  assert (∀ x, x ∈ n → is_spawn x = false ∧ (alive = true → is_signal x = false)) as Hn.
  { rewrite Forall_forall in F. intros x Hx. destruct (not_spawn_quiet x); [by apply request_quiet, F|naive_solver]. }
  destruct (bk_cleanup b s) as [s1 [[]|e1]]; cbn [fst snd] in *.
  2:{ intros [= <- <-]. split; [done|]. exists n. split; [done|]. split; [done|]. exists e1. split; [done|].
      intros _. unfold handled. rewrite (Hsil e1 eq_refl). congruence. }
  destruct alive; cbn [unless].
  { cbn. intros [= <- <-]. split; [done|]. exists n. split; [done|]. split; [done|]. by exists e. }
  unfold suppress, except_exception, try_catch. destruct (stop_process s1) as [s2 r2] eqn:Es.
  assert (sv_process s1 = true) as P1 by congruence.
  pose proof (stop_process_spec _ _ _ P1 Es) as (Cs & m & Lm & Fm & Hm).
  assert (∀ x, x ∈ m ++ n → is_spawn x = false ∧ (false = true → is_signal x = false)) as Hmn.
  { rewrite Forall_forall in Fm. intros x [Hx|Hx]%elem_of_app; [|by apply Hn]. split; [by apply not_spawn_stop, Fm|done]. }
  assert (sv_log s2 = (m ++ n) ++ sv_log s) as L2 by by rewrite Lm, L, app_assoc.
  destruct r2 as [[]|e2]; [|destruct (is_exception e2) eqn:E2]; cbn; intros [= <- <-];
    (split; [congruence|]; exists (m ++ n); split; [done|]; split; [done|]).
  - exists e. split; [done|]. intros _. unfold handled. rewrite He. exists m, n. split; [done|]. by left.
  - exists e. split; [done|]. intros _. unfold handled. rewrite He. destruct Hm as (_ & newer & ->).
    exists (newer ++ [EvTerminate]), n. split; [done|]. right. by exists newer, s1, e2.
  - exists e2. split; [done|]. intros _. unfold handled. rewrite E2. apply Hm.
Qed.

(** The [try] block with its cleanup, once there is a process. *)
Lemma try_spec fuel (alive : bool) s s' r : sv_process s = true →
  except_exception (start_body b fuel)
    (λ e, bk_cleanup b;; unless alive (suppress stop_process);; throws e) s = (s', r) →
  sv_closed s' = sv_closed s ∧ ∃ new, sv_log s' = new ++ sv_log s ∧
  (∀ x, x ∈ new → is_spawn x = false ∧ (alive = true → is_signal x = false)) ∧
  (r = Ok (Some tt) → sv_process s' = true ∧
     ∃ sa sb, running sa = true ∧ bk_reachable b sa = (sb, Ok true) ∧ bk_verify b sb = (s', Ok tt)) ∧
  (alive = false → ∀ e', r = Err e' → handled new s' e').
Proof.
  intros Hp. unfold except_exception, try_catch. destruct (start_body b fuel s) as [s1 r1] eqn:Eb.
  apply start_body_spec in Eb as [(P & C & n & L & F) Hok].
  assert (∀ x, x ∈ n → is_spawn x = false ∧ (alive = true → is_signal x = false)) as Hn.
  { rewrite Forall_forall in F. intros x Hx. destruct (not_spawn_quiet x); [by apply F|naive_solver]. }
  destruct r1 as [o|e].
  - intros [= <- <-]. split; [done|]. exists n. split_and!; [done..| |done].
    intros E. split; [congruence|by apply Hok].
  - destruct (is_exception e) eqn:Ee.
    + intros E. apply cleanup_spec in E as (Cc & m & Lm & Hm & e' & -> & Hs); [|congruence|done].
      split; [congruence|]. exists (m ++ n). split_and!; [by rewrite Lm, L, app_assoc| |done|].
      * intros x [Hx|Hx]%elem_of_app; auto.
      * intros Ha e2 [= <-]. specialize (Hs Ha). unfold handled in *. destruct (is_exception e'); [|done].
        destruct Hs as (signals & before & -> & Hs). exists signals, (before ++ n). by rewrite app_assoc.
    + intros [= <- <-]. split; [done|]. exists n. split_and!; [done|done|done|]. intros _ e' [= <-].
      unfold handled. rewrite Ee. congruence.
Qed.

(** A whole start after its first probe. *)
Lemma start_after_probe fuel s1 s' r (alive : bool) : running s1 = alive →
  (unless alive (bk_spawn b);;
   except_exception (start_body b fuel)
     (λ e, bk_cleanup b;; unless alive (suppress stop_process);; throws e)) s1 = (s', r) →
  ∃ new, started s1 s' alive r new.
Proof.
  intros Ha. unfold mbind at 1, eff_bind at 1. destruct alive.
  - change (unless true (bk_spawn b) s1) with (s1, Ok tt). cbv beta iota.
    intros E. apply (try_spec fuel true) in E as (C & n & L & Hn & Hv & _);
      [|unfold running in Ha; by destruct (sv_process s1)].
    exists n. split; try done.
    + rewrite filter_all_false; [done|]. intros x Hx. by apply Hn.
    + intros x Hx Hs. destruct (Hn x Hx) as [_ Hq]. by rewrite Hq in Hs.
    + intros e _ (x & Hx & Hs). destruct (Hn x Hx) as [Hq _]. by destruct x.
  - change (unless false (bk_spawn b) s1) with (bk_spawn b s1).
    destruct (spawn_controller s1 Ha) as [[e Hsp]|(command & environment & wrap & Hsp)]; rewrite Hsp.
    { intros [= <- <-]. exists []. split; try done; cbn; [lia|set_solver|]. intros ? _ (? & ?%elem_of_nil & _). done. }
    destruct (start_process command environment wrap s1) as [s2 r2] eqn:Es.
    apply start_process_spec in Es as (env & o & L2 & C2 & Hr2); [|done].
    destruct r2 as [[]|e2].
    + destruct Hr2 as [-> Hp]. intros E. apply (try_spec fuel false) in E as (C & n & L & Hn & Hv & Hs); [|done].
      exists (n ++ [EvSpawn command env (Ok tt)]). split.
      * by rewrite L, L2, <-app_assoc.
      * congruence.
      * rewrite spawn_count_app, filter_all_false; [done|]. intros x Hx. by apply Hn.
      * intros x _ _. exists (EvSpawn command env (Ok tt)). split; [set_solver|done].
      * done.
      * intros e Er _. specialize (Hs eq_refl e Er). unfold handled in Hs. destruct (is_exception e); [|done].
        destruct Hs as (signals & before & -> & Hs). exists signals, (before ++ [EvSpawn command env (Ok tt)]).
        rewrite <-app_assoc. split; [done|]. split; [|done]. exists (EvSpawn command env (Ok tt)). split; [set_solver|done].
    + destruct Hr2 as [Hp [e' ->]]. intros [= <- <-]. exists [EvSpawn command env (Err e')]. split; try done.
      * intros x Hx Hs. apply list_elem_of_singleton in Hx as ->. done.
      * intros e _ (x & Hx & Hs). by apply list_elem_of_singleton in Hx as ->.
Qed.

(** A start by its first probe. *)
Lemma start_cases fuel s s' r : start b fuel s = (s', r) →
  (sv_closed s = true → s' = s ∧ r = Err (RuntimeError (bk_released_text b))) ∧
  (∀ s1 r1, sv_closed s = false → bk_reachable b s = (s1, r1) → step_to is_request s s1 ∧
     match r1 with
     | Err e => s' = s1 ∧ r = Err e
     | Ok reachable =>
         if reachable && negb (running s1)
         then s' = s1 ∧ r = Err (RuntimeError (bk_external_text b))
         else ∃ new, started s1 s' (running s1) r new
     end).
Proof.
  unfold start. unfold mbind at 1, eff_bind at 1. cbn [gets]. intros E.
  split; [intros Hc; rewrite Hc in E; by injection E as <- <-|].
  intros s1 r1 Hc Hb. rewrite Hc in E. pose proof (reachable_requests s) as Hq. rewrite Hb in Hq.
  split; [exact Hq|]. revert E. cbn [negb ensure]. unfold mbind at 1, eff_bind at 1. cbn [mret eff_ret].
  unfold mbind at 1, eff_bind at 1. rewrite Hb. destruct r1 as [reachable|e]; [|by intros [= <- <-]].
  unfold mbind at 1, eff_bind at 1. cbn [gets]. unfold mbind at 1, eff_bind at 1.
  destruct (reachable && negb (running s1)); cbn [negb ensure].
  - by intros [= <- <-].
  - cbn [mret eff_ret]. intros E. by eapply start_after_probe.
Qed.

(** ** Release *)

Lemma release_spec s s' r : release b s = (s', r) →
  (sv_closed s = true → s' = s ∧ r = Ok tt) ∧ (r = Ok tt → sv_closed s' = true).
Proof.
  unfold release, mbind, eff_bind, gets, sets. destruct (sv_closed s) eqn:Hc.
  - intros [= <- <-]. split; [done|]. by rewrite Hc.
  - intros E. split; [done|]. intros ->. revert E.
    destruct (bk_unload b s) as [s1 [[]|e]]; [|done]. destruct (aclose s1) as [s2 [[]|e]]; [|done].
    intros [= <-]. done.
Qed.
End server.

(** ** Termination of a start *)

(** Time does not go back, and a sleep that returns took its time. *)
Class ServerClock (W : Type) `{ServerWorld W} := {
  request_time method path json w : sw_time w <= sw_time (sw_request method path json w).1;
  sleep_time d w w' : sw_sleep d w = (w', Ok tt) → sw_time w + d <= sw_time w';
}.

Definition timely {W} `{ServerWorld W} {A} (m : eff (server W) A) : Prop :=
  ∀ s, sw_time (sv_world s) <= sw_time (sv_world (m s).1).

Section timely.
Context {W : Type} `{ServerClock W}.

Lemma timely_request method path json : timely (request method path json).
Proof.
  intros s. unfold request. pose proof (request_time method path json (sv_world s)) as Ht.
  by destruct (sw_request _ _ _ _).
Qed.
Lemma timely_ret {A} (a : A) : timely (mret a : eff (server W) A).
Proof. intros s. cbn. lia. Qed.
Lemma timely_throws {A} e : timely (throws e : eff (server W) A).
Proof. intros s. cbn. lia. Qed.
Lemma timely_bind {A B} (m : eff (server W) A) (k : A → eff (server W) B) :
  timely m → (∀ a, timely (k a)) → timely (m ≫= k).
Proof.
  intros Hm Hk s. unfold mbind, eff_bind. specialize (Hm s).
  destruct (m s) as [s1 [a|e]]; cbn in *; [|lia]. specialize (Hk a s1). lia.
Qed.
Lemma timely_catch {A} (m : eff (server W) A) h : timely m → (∀ e, timely (h e)) → timely (try_catch m h).
Proof.
  intros Hm Hh s. unfold try_catch. specialize (Hm s).
  destruct (m s) as [s1 [a|e]]; cbn in *; [lia|]. specialize (Hh e s1). lia.
Qed.
Lemma timely_ensure b e : timely (ensure b e : eff (server W) unit).
Proof. destruct b; [apply timely_ret|apply timely_throws]. Qed.
Lemma timely_json non_object method path json : timely (json_request non_object method path json : eff (server W) _).
Proof.
  unfold json_request. apply timely_bind; [apply timely_request|]. intros [status body].
  apply timely_bind; [apply timely_ensure|]. intros _.
  destruct body as [[]|]; first [apply timely_ret|apply timely_throws].
Qed.
Lemma timely_health_endpoint : timely (health_endpoint : eff (server W) _).
Proof.
  unfold health_endpoint. apply timely_catch.
  - apply timely_bind; [apply timely_request|]. intros. apply timely_ret.
  - intros []; first [apply timely_ret|apply timely_throws].
Qed.

Lemma start_loop_ends (b : backend W) fuel : timely (bk_reachable b) → 0 < bk_poll b → ∀ d s,
  d <= sw_time (sv_world s) + bk_poll b * Z.of_nat fuel →
  (start_loop b (S fuel) (Some d) s).2 ≠ Ok None.
Proof.
  intros Hr Hp. induction fuel as [|fuel IH]; intros d s Hd; cbn [start_loop].
  all: unfold mbind at 1, eff_bind at 1; cbn [gets]; destruct (running s); cbn [negb]; [|done].
  all: unfold mbind at 1, eff_bind at 1; specialize (Hr s); destruct (bk_reachable b s) as [s1 [[|]|e]];
    cbn [fst] in Hr; [done| |done].
  all: unfold mbind at 1, eff_bind at 1; cbn [gets]; destruct (Z.leb_spec d (sw_time (sv_world s1))); [done|].
  { lia. }
  unfold mbind at 1, eff_bind at 1. unfold sleep at 1.
  pose proof (sleep_time (bk_poll b) (sv_world s1)) as Hs. destruct (sw_sleep _ _) as [w [[]|e]]; [|done].
  specialize (Hs w eq_refl). apply IH. cbn. lia.
Qed.

Lemma start_ends (b : backend W) fuel limit s : timely (bk_reachable b) → 0 < bk_poll b →
  (∀ w, ∃ d, sw_deadline (bk_startup_timeout b) w = Some d ∧ d <= sw_time w + limit) →
  limit <= bk_poll b * Z.of_nat fuel →
  (start b (S fuel) s).2 ≠ Ok None.
Proof.
  intros Hr Hp Hd Hf. unfold start. unfold mbind at 1, eff_bind at 1. cbn [gets].
  unfold mbind at 1, eff_bind at 1. destruct (sv_closed s); cbn; [done|].
  unfold mbind at 1, eff_bind at 1. destruct (bk_reachable b s) as [s1 [reachable|e]]; [|done].
  unfold mbind at 1, eff_bind at 1. cbn [gets]. set (alive := running s1). clearbody alive.
  unfold mbind at 1, eff_bind at 1. destruct (reachable && negb alive); cbn [negb ensure mret eff_ret throws]; [done|].
  unfold mbind at 1, eff_bind at 1. destruct (unless alive (bk_spawn b) s1) as [s2 [[]|e]]; [|done].
  unfold except_exception, try_catch.
  assert ((start_body b (S fuel) s2).2 ≠ Ok None) as Hb.
  { unfold start_body. unfold mbind at 1, eff_bind at 1. cbn [gets].
    destruct (Hd (sv_world s2)) as (d & -> & Hdl).
    unfold mbind at 1, eff_bind at 1.
    pose proof (start_loop_ends b fuel Hr Hp d s2 ltac:(lia)) as Hl.
    destruct (start_loop b (S fuel) (Some d) s2) as [s3 [[[]|]|e]]; cbn in Hl |- *; [|done|done].
    unfold mbind, eff_bind. by destruct (bk_verify b s3) as [s4 [[]|e]]. }
  destruct (start_body b (S fuel) s2) as [s3 [o|e]]; [exact Hb|]. destruct (is_exception e); [|done].
  unfold mbind, eff_bind. destruct (bk_cleanup b s3) as [s4 [[]|e1]]; [|done].
  by destruct (unless alive (suppress stop_process) s4) as [s5 [[]|e2]].
Qed.
End timely.
