(* ===== verification/Planner.v ===== *)
(** * Runtime planning

    Models [src/src/astrumweaver/runtime/planner.py]: which providers can run a demand on a
    worker, and how the operator's selection is resolved.  A provider is the [Protocol] of
    runtime/contracts.py as a record of operations, each of which may raise. *)

From S2P Require Import Prelude PyStr PyDict PyVal Contracts RuntimeContracts.

(** [RuntimeProvider], runtime/contracts.py lines 391-412. *)
Record RuntimeProvider (R : Type) := {
  rp_info : RuntimeProviderInfo;
  rp_compatibility : RuntimeCompatibilityContext → result RuntimeCompatibility;
  rp_setup_intent : RuntimeCompatibilityContext → result RuntimeSetupIntent;
  rp_create_runtime : RuntimeCompatibilityContext → RuntimeSetupIntent → result R;
  rp_config : option pyval;
}.
Arguments rp_info {R} _.
Arguments rp_compatibility {R} _ _.
Arguments rp_setup_intent {R} _ _.
Arguments rp_create_runtime {R} _ _ _.
Arguments rp_config {R} _.

Section planner.
Context {R : Type}.

Definition provider_key (p : RuntimeProvider R) : string := pi_provider_id (rp_info p).

(** ** Catalog *)

(** [RuntimeCatalog.__init__], runtime/planner.py lines 59-66. *)
Definition mk_RuntimeCatalog (providers : list (RuntimeProvider R))
    : result (dict (RuntimeProvider R)) :=
  foldR (λ indexed provider,
    let provider_id := provider_key provider in
    require (negb (bool_decide (is_Some (dget provider_id indexed))))
      (ValueError ("duplicate runtime provider: " +:+ provider_id));;
    Ok (dset provider_id provider indexed)) [] providers.

(** [RuntimeCatalog.providers], runtime/planner.py lines 71-75. *)
Definition catalog_providers (catalog : dict (RuntimeProvider R)) : list (RuntimeProvider R) :=
  omap (λ provider_id, dget provider_id catalog) (sorted_strings (dkeys catalog)).

(** ** Compatibility *)

Definition blocking_reason (code message : string) : CompatibilityReason :=
  {| cr_code := code; cr_message := message; cr_blocking := true |}.

(** The topology test, runtime/planner.py lines 87-118. *)
Definition topology_reasons (topology : GPUTopology) (gpu_count : Z) : list CompatibilityReason :=
  match topology with
  | NO_GPU =>
      if negb (gpu_count =? 0) then
        [blocking_reason "gpu-topology-mismatch"
           "execution demand requests no GPU but the selected Worker is a GPU-owned compute unit"]
      else []
  | SINGLE_GPU =>
      if negb (gpu_count =? 1) then
        [blocking_reason "gpu-topology-mismatch" "single_gpu execution requires a one-GPU Worker"]
      else []
  | MULTI_GPU =>
      if gpu_count <? 2 then
        [blocking_reason "gpu-topology-mismatch"
           "multi_gpu execution requires a Worker with at least two GPUs"]
      else []
  end.

(** The host memory test, runtime/planner.py lines 154-177. *)
Definition host_reasons (host : RuntimeHostFacts) (demand : ExecutionDemand)
    : list CompatibilityReason :=
  if hf_host_ram_mb host <? ed_min_host_ram_mb demand then
    [blocking_reason "insufficient-host-ram"
       ("Host RAM " +:+ str_of_Z (hf_host_ram_mb host) +:+ " MiB is below required "
        +:+ str_of_Z (ed_min_host_ram_mb demand) +:+ " MiB")]
  else if negb (ed_preferred_host_ram_mb demand =? 0)
          && (hf_host_ram_mb host <? ed_preferred_host_ram_mb demand) then
    [{| cr_code := "below-preferred-host-ram";
        cr_message := "Host RAM " +:+ str_of_Z (hf_host_ram_mb host) +:+ " MiB is below preferred "
          +:+ str_of_Z (ed_preferred_host_ram_mb demand) +:+ " MiB";
        cr_blocking := false |}]
  else [].

(** [_generic_reasons], runtime/planner.py lines 78-179. *)
Definition _generic_reasons (context : RuntimeCompatibilityContext) : list CompatibilityReason :=
  let res := resources (cx_worker context) in
  let demand := cx_demand context in
  topology_reasons (ed_gpu_topology demand) (gpu_count res)
  ++ (if gpu_count res <? effective_min_gpu_count demand then
        [blocking_reason "insufficient-gpu-count"
           ("Worker exposes " +:+ str_of_Z (gpu_count res) +:+ " GPUs but demand requires at least "
            +:+ str_of_Z (effective_min_gpu_count demand))]
      else [])
  ++ (if total_vram_mb res <? ed_min_total_vram_mb demand then
        [blocking_reason "insufficient-total-vram"
           ("Worker total VRAM " +:+ str_of_Z (total_vram_mb res) +:+ " MiB is below required "
            +:+ str_of_Z (ed_min_total_vram_mb demand) +:+ " MiB")]
      else [])
  ++ (if max_single_gpu_vram_mb res <? ed_min_single_gpu_vram_mb demand then
        [blocking_reason "insufficient-single-gpu-vram"
           ("Worker maximum single-device VRAM " +:+ str_of_Z (max_single_gpu_vram_mb res)
            +:+ " MiB is below required " +:+ str_of_Z (ed_min_single_gpu_vram_mb demand) +:+ " MiB")]
      else [])
  ++ host_reasons (cx_host context) demand.

(** [evaluate_provider], runtime/planner.py lines 182-195. *)
Definition evaluate_provider (provider : RuntimeProvider R) (context : RuntimeCompatibilityContext)
    : result RuntimeCompatibility :=
  let generic := _generic_reasons context in
  provider_report ← rp_compatibility provider context;
  require (bool_decide (rc_provider_id provider_report = provider_key provider))
    (ValueError "runtime provider returned compatibility for a different provider_id");;
  mk_RuntimeCompatibility (provider_key provider) (generic ++ rc_reasons provider_report).

(** [evaluate_catalog], runtime/planner.py lines 198-206. *)
Definition evaluate_catalog (catalog : dict (RuntimeProvider R))
    (context : RuntimeCompatibilityContext) : result (dict RuntimeCompatibility) :=
  foldR (λ reports provider,
    report ← evaluate_provider provider context;
    Ok (dset (provider_key provider) report reports)) [] (catalog_providers catalog).

(** ** Resolution *)

(** [RuntimeResolution], runtime/planner.py lines 37-42. *)
Record RuntimeResolution := {
  rr_selection : RuntimeSelection;
  rr_selected_provider_id : option string;
  rr_compatible_provider_ids : list string;
  rr_reports : dict RuntimeCompatibility;
}.

(** [RuntimeResolution.__post_init__], runtime/planner.py lines 44-55. *)
Definition mk_RuntimeResolution (selection : RuntimeSelection) (selected : option string)
    (ids : list string) (reports : dict RuntimeCompatibility) : result RuntimeResolution :=
  match rs_mode selection with
  | EXPLICIT =>
      require (bool_decide (selected = rs_provider_id selection))
        (ValueError "explicit runtime resolution must preserve provider_id")
  | RECOMMEND =>
      require (bool_decide (selected = None))
        (ValueError "recommend mode must not finalize a runtime selection")
  end;;
  Ok {| rr_selection := selection; rr_selected_provider_id := selected;
        rr_compatible_provider_ids := ids; rr_reports := reports |}.

(** What [resolve_runtime] returns, or the [RuntimeSelectionError] (runtime/planner.py lines
    24-34) it raises. *)
Inductive resolve_outcome :=
  | Resolved (r : RuntimeResolution)
  | SelectionError (msg provider_id : string) (reasons : list CompatibilityReason).

(** [compatible_ids], runtime/planner.py lines 216-220. *)
Definition compatible_ids (reports : dict RuntimeCompatibility) : list string :=
  filter (λ provider_id, match dget provider_id reports with
                         | Some r => compatible r | None => false end = true)
    (sorted_strings (dkeys reports)).

(** [resolve_runtime], runtime/planner.py lines 209-260. *)
Definition resolve_runtime (catalog : dict (RuntimeProvider R))
    (context : RuntimeCompatibilityContext) (selection : RuntimeSelection)
    : result resolve_outcome :=
  reports ← evaluate_catalog catalog context;
  let ids := compatible_ids reports in
  match rs_mode selection, rs_provider_id selection with
  | RECOMMEND, _ =>
      r ← mk_RuntimeResolution selection None ids reports; Ok (Resolved r)
  | EXPLICIT, None => Err (OutOfModel "assert selection.provider_id is not None")
  | EXPLICIT, Some provider_id =>
      match dget provider_id catalog with
      | None =>
          Ok (SelectionError ("explicit runtime provider is not installed: " +:+ provider_id)
                provider_id
                [blocking_reason "provider-not-found"
                   "selected runtime provider is not present in the catalog"])
      | Some _ =>
          match dget provider_id reports with
          | None => Err (KeyError provider_id)
          | Some report =>
              if negb (compatible report) then
                Ok (SelectionError
                      ("explicit runtime selection is incompatible: " +:+ provider_id)
                      provider_id (rc_reasons report))
              else
                r ← mk_RuntimeResolution selection (Some provider_id) ids reports;
                Ok (Resolved r)
          end
      end
  end.

(** ** Laws of the catalog *)

(** Every entry sits under its own identifier. *)
Definition wf_catalog (catalog : dict (RuntimeProvider R)) : Prop :=
  dict_wf catalog ∧ ∀ k p, dget k catalog = Some p → provider_key p = k.

Lemma mk_RuntimeCatalog_wf providers catalog : mk_RuntimeCatalog providers = Ok catalog →
  wf_catalog catalog ∧ ∀ p, p ∈ dvalues catalog → p ∈ providers.
Proof.
  unfold mk_RuntimeCatalog. intros H.
  refine (foldR_inv (λ c, wf_catalog c ∧ ∀ p, p ∈ dvalues c → p ∈ providers) _ providers [] catalog _ _ H).
  - split; [split; [constructor|done]|]. by intros p ?%elem_of_nil.
  - intros c p c' Hin [[W K] V] E. apply guard_Ok in E as [_ [= <-]].
    split; [split|].
    + by apply dict_wf_dset.
    + intros k q. rewrite dget_dset. destruct (decide (k = provider_key p)) as [->|]; [|by apply K].
      by intros [= ->].
    + intros q (k & Hk)%dvalues_get; [|by apply dict_wf_dset].
      rewrite dget_dset in Hk. destruct (decide (k = provider_key p)); [congruence|].
      apply V. by eapply dget_values.
Qed.

Lemma catalog_providers_elem catalog p : wf_catalog catalog →
  p ∈ catalog_providers catalog ↔ dget (provider_key p) catalog = Some p.
Proof.
  intros [W K]. unfold catalog_providers. rewrite list_elem_of_omap. split.
  - intros (k & _ & Hk). by rewrite (K k p Hk).
  - intros Hp. exists (provider_key p). split; [|done]. rewrite elem_of_sorted_strings.
    destruct (decide (provider_key p ∈ dkeys catalog)) as [|Hn]; [done|].
    apply dget_None in Hn. congruence.
Qed.

(** The reports, provider by provider. *)
Lemma evaluate_loop context l acc reports :
  foldR (λ reports provider,
    report ← evaluate_provider provider context;
    Ok (dset (provider_key provider) report reports)) acc l = Ok reports →
  (∀ p q, p ∈ l → q ∈ l → provider_key p = provider_key q → p = q) → dict_wf acc →
  dict_wf reports ∧
  (∀ p, p ∈ l → ∃ r, evaluate_provider p context = Ok r ∧ dget (provider_key p) reports = Some r) ∧
  (∀ k, k ∉ provider_key <$> l → dget k reports = dget k acc).
Proof.
  revert acc. induction l as [|p l IH]; intros acc; cbn [foldR].
  - intros [= <-] _ W. split_and!; [done|by intros p ?%elem_of_nil|done].
  - intros H Hinj W. simp_res. rename x0 into r.
    match goal with H : foldR _ _ l = _ |- _ => apply IH in H as (W' & G & E) end;
      [|intros; apply Hinj; auto; by right|by apply dict_wf_dset].
    split_and!; [done| |].
    + intros q [->|Hq]%elem_of_cons; [|by apply G].
      exists r. split; [done|]. destruct (decide (provider_key p ∈ provider_key <$> l)) as [Hin|Hn].
      * apply list_elem_of_fmap in Hin as (q & Eq & Hq). assert (p = q) as <-.
        { apply Hinj; [left|by right|done]. }
        destruct (G p Hq) as (r' & Hr' & ?). congruence.
      * rewrite E, dget_dset_eq by done. done.
    + intros k Hk. rewrite fmap_cons, not_elem_of_cons in Hk. destruct Hk as [Hk Hkl].
      rewrite E by done. by apply dget_dset_ne.
Qed.

Lemma evaluate_catalog_get catalog context reports k : wf_catalog catalog →
  evaluate_catalog catalog context = Ok reports →
  match dget k catalog with
  | Some p => ∃ r, evaluate_provider p context = Ok r ∧ dget k reports = Some r
  | None => dget k reports = None
  end.
Proof.
  intros C H. pose proof (catalog_providers_elem catalog) as Hel.
  apply evaluate_loop in H as (_ & G & E).
  - destruct (dget k catalog) as [p|] eqn:Hk.
    + pose proof (proj2 C k p Hk) as <-. apply G, Hel; done.
    + rewrite E; [done|]. intros (p & -> & Hp)%list_elem_of_fmap. apply Hel in Hp; [|done]. congruence.
  - intros p q Hp%Hel Hq%Hel Epq; [|done..]. rewrite Epq in Hp. congruence.
  - constructor.
Qed.

End planner.

(** ** Properties of runtime planning

    The generic reasons decide whether worker and host meet the demand, and the operator's
    selection is never silently replaced. *)

(** ** Messages are already normal *)

Lemma rstrip_app_last s t : rstrip t = t → t ≠ EmptyString → rstrip (s +:+ t) = s +:+ t.
Proof.
  intros Ht Hne. induction s as [|c s IH]; [by rewrite append_nil_l|].
  rewrite append_cons. cbn. rewrite IH. destruct (s +:+ t) eqn:E; [|done].
  destruct s; [rewrite append_nil_l in E; done|done].
Qed.

Lemma strip_text c s t : is_space c = false → rstrip t = t → t ≠ EmptyString →
  strip (String c s +:+ t) = String c s +:+ t.
Proof.
  intros Hc Ht Hne. unfold strip. rewrite append_cons. cbn [lstrip]. rewrite Hc.
  rewrite <- append_cons. by apply rstrip_app_last.
Qed.

Lemma str_of_Z_rstrip z : rstrip (str_of_Z z) = str_of_Z z ∧ str_of_Z z ≠ EmptyString.
Proof.
  assert (∀ n, all_chars (λ c, negb (is_space c)) (str_of_N n) = true) as Hn.
  { intros n. pose proof (digits_str n) as H. unfold digits in H. apply andb_true_iff in H as [_ H].
    eapply all_chars_impl; [apply digit_nospace|done]. }
  split.
  - destruct z; apply nospace_rstrip; apply Hn.
  - destruct z; cbn; try apply str_of_N_nonempty; done.
Qed.

Lemma nonempty_app_r s t : t ≠ EmptyString → s +:+ t ≠ EmptyString.
Proof. by destruct s. Qed.

Lemma rstrip_app_text s t : rstrip t = t ∧ t ≠ EmptyString →
  rstrip (s +:+ t) = s +:+ t ∧ s +:+ t ≠ EmptyString.
Proof. intros [? ?]. split; [by apply rstrip_app_last|by apply nonempty_app_r]. Qed.

(** A message that starts with a letter and ends in a trimmed part is trimmed. *)
Lemma message_normal code c s t : nonblank code → is_space c = false →
  rstrip t = t ∧ t ≠ EmptyString → ∀ b,
  mk_CompatibilityReason code (String c s +:+ t) b =
  Ok {| cr_code := code; cr_message := String c s +:+ t; cr_blocking := b |}.
Proof.
  intros Hcode Hc [Ht Hne] b. unfold mk_CompatibilityReason.
  rewrite (nonblank_str_id code) by exact Hcode. cbn [mbind result_bind].
  rewrite (nonblank_str_id (String c s +:+ t)); [reflexivity|].
  split; [by apply strip_text|by rewrite append_cons].
Qed.

Lemma generic_reasons_normal cx r : r ∈ _generic_reasons cx →
  mk_CompatibilityReason (cr_code r) (cr_message r) (cr_blocking r) = Ok r.
Proof.
  unfold _generic_reasons, topology_reasons, host_reasons. rewrite !elem_of_app.
  intros Hr. destruct_or! Hr.
  all: repeat case_match; try (by apply elem_of_nil in Hr);
    apply list_elem_of_singleton in Hr as ->; cbn [cr_code cr_message cr_blocking blocking_reason].
  all: first [vm_compute; reflexivity | apply message_normal; [vm_decide|done|]].
  all: repeat (apply rstrip_app_text); try apply str_of_Z_rstrip; done.
Qed.

(** ** What the generic reasons decide *)

Definition fits (cx : RuntimeCompatibilityContext) : Prop :=
  let res := resources (cx_worker cx) in
  let d := cx_demand cx in
  match ed_gpu_topology d with
  | NO_GPU => gpu_count res = 0
  | SINGLE_GPU => gpu_count res = 1
  | MULTI_GPU => 2 ≤ gpu_count res
  end ∧ effective_min_gpu_count d ≤ gpu_count res ∧ ed_min_total_vram_mb d ≤ total_vram_mb res ∧
  ed_min_single_gpu_vram_mb d ≤ max_single_gpu_vram_mb res ∧
  ed_min_host_ram_mb d ≤ hf_host_ram_mb (cx_host cx).

Lemma existsb_app_false {A} (p : A → bool) l k :
  existsb p (l ++ k) = false ↔ existsb p l = false ∧ existsb p k = false.
Proof. by rewrite existsb_app, orb_false_iff. Qed.

Lemma if_blocking b c m : existsb cr_blocking (if b : bool then [blocking_reason c m] else []) = b.
Proof. by destruct b. Qed.

Lemma generic_fits cx : existsb cr_blocking (_generic_reasons cx) = false ↔ fits cx.
Proof.
  unfold _generic_reasons, fits. rewrite !existsb_app_false, !if_blocking, !Z.ltb_ge.
  assert (∀ h d, existsb cr_blocking (host_reasons h d) = false ↔
                 ed_min_host_ram_mb d ≤ hf_host_ram_mb h) as ->.
  { intros h d. unfold host_reasons. destruct (Z.ltb_spec (hf_host_ram_mb h) (ed_min_host_ram_mb d)).
    - cbn. split; [done|lia].
    - destruct (_ && _); cbn; split; done. }
  unfold topology_reasons.
  destruct (ed_gpu_topology (cx_demand cx)); rewrite if_blocking, ?negb_false_iff, ?Z.eqb_eq, ?Z.ltb_ge;
    tauto.
Qed.

(** The generic compatibility check is exact and well-formed.  It raises no
    blocking reason precisely when the worker's GPU count fits the demanded topology and
    minimum, its total and per-device VRAM reach the minima, and the host has the minimal
    RAM (falling short of the preferred RAM only warns); and every reason it builds is one
    the validating constructor accepts unchanged. *)
Theorem generic_reasons_exact cx :
  (existsb cr_blocking (_generic_reasons cx) = false ↔ fits cx) ∧
  Forall (λ r, mk_CompatibilityReason (cr_code r) (cr_message r) (cr_blocking r) = Ok r)
    (_generic_reasons cx).
Proof.
  split; [apply generic_fits|]. apply Forall_forall. intros r. apply generic_reasons_normal.
Qed.

(** ** Resolution *)

Lemma StronglySorted_filter_sub {A} (P : A → Prop) `{∀ x, Decision (P x)} (Q : relation A) l :
  StronglySorted Q l → StronglySorted Q (filter P l).
Proof.
  induction 1 as [|x l _ IH Hx]; [constructor|]. rewrite filter_cons.
  destruct (decide (P x)); [|done]. constructor; [done|].
  apply Forall_forall. intros y [_ Hy]%list_elem_of_filter. by eapply Forall_forall in Hx.
Qed.

Section resolution.
Context {R : Type}.
Implicit Types (catalog : dict (RuntimeProvider R)) (p : RuntimeProvider R).

(** Provider [k] is installed and runs the demand. *)
Definition runs catalog (cx : RuntimeCompatibilityContext) (k : string) : Prop :=
  ∃ p report, dget k catalog = Some p ∧ rp_compatibility p cx = Ok report ∧
    fits cx ∧ Forall (λ r, cr_blocking r = false) (rc_reasons report).

Lemma evaluate_provider_Ok p cx r : evaluate_provider p cx = Ok r →
  ∃ report, rp_compatibility p cx = Ok report ∧
    rc_reasons r = _generic_reasons cx ++ rc_reasons report.
Proof. unfold evaluate_provider, mk_RuntimeCompatibility. intros H. simp_res. eauto. Qed.

Lemma compatible_app l k i : compatible {| rc_provider_id := i; rc_reasons := l ++ k |} = true ↔
  existsb cr_blocking l = false ∧ Forall (λ r, cr_blocking r = false) k.
Proof.
  unfold compatible. cbn [rc_reasons]. rewrite negb_true_iff, existsb_app_false.
  assert (existsb cr_blocking k = false ↔ Forall (λ r, cr_blocking r = false) k) as ->; [|done].
  induction k as [|r k IH]; cbn; [done|]. rewrite orb_false_iff, Forall_cons, IH. done.
Qed.

Lemma report_runs catalog cx reports k : wf_catalog catalog →
  evaluate_catalog catalog cx = Ok reports →
  (match dget k reports with Some r => compatible r | None => false end = true ↔ runs catalog cx k).
Proof.
  intros C H. pose proof (evaluate_catalog_get catalog cx reports k C H) as Hk. unfold runs.
  destruct (dget k catalog) as [p|].
  - destruct Hk as (r & Hr & ->). apply evaluate_provider_Ok in Hr as (report & Hrep & Er).
    destruct r as [i reasons]. cbn in Er. subst reasons. rewrite compatible_app, generic_fits.
    split; [intros []; by exists p, report|]. intros (p' & report' & [= <-] & Hrep' & ? & ?).
    assert (report = report') as -> by congruence. done.
  - rewrite Hk. split; [done|]. by intros (p & ? & ? & _).
Qed.

(** An explicit selection is never replaced.  Whenever [resolve_runtime]
    resolves, it keeps the operator's selection: in explicit mode it selects exactly the
    chosen provider, which is installed and runs the demand; in recommend mode it selects
    none.  The candidates it lists are exactly the installed providers that run the demand,
    sorted.  When it refuses, the chosen provider itself does not run the demand - it is
    missing, or the error carries its report, with a blocking reason. *)
Theorem selection_preserved providers catalog m id sel cx out :
  mk_RuntimeCatalog providers = Ok catalog → mk_RuntimeSelection m id = Ok sel →
  resolve_runtime catalog cx sel = Ok out →
  match out with
  | Resolved r =>
      rr_selection r = sel ∧ rr_selected_provider_id r = rs_provider_id sel ∧
      (∀ k, rr_selected_provider_id r = Some k → runs catalog cx k) ∧
      (∀ k, k ∈ rr_compatible_provider_ids r ↔ runs catalog cx k) ∧
      StronglySorted String.le (rr_compatible_provider_ids r)
  | SelectionError _ k reasons =>
      rs_provider_id sel = Some k ∧ ¬ runs catalog cx k ∧
      (dget k catalog = None ∨
       (is_Some (dget k catalog) ∧ existsb cr_blocking reasons = true))
  end.
Proof.
  intros [C _]%mk_RuntimeCatalog_wf Hsel H. unfold resolve_runtime in H.
  apply bind_Ok in H as (reports & Hrep & H).
  pose proof (λ k, report_runs catalog cx reports k C Hrep) as Hruns.
  assert (∀ k, k ∈ compatible_ids reports ↔ runs catalog cx k) as Hids.
  { intros k. unfold compatible_ids. rewrite list_elem_of_filter, <- Hruns, elem_of_sorted_strings.
    split; [by intros []|]. intros Hk. split; [done|].
    destruct (decide (k ∈ dkeys reports)) as [|Hn%dget_None]; [done|]. by rewrite Hn in Hk. }
  assert (StronglySorted String.le (compatible_ids reports)) as Hs.
  { unfold compatible_ids. apply StronglySorted_filter_sub, sorted_strings_StronglySorted. }
  unfold mk_RuntimeResolution in H.
  destruct m; cbn in Hsel.
  - destruct id as [i|]; [|done]. simp_res. cbn [rs_mode rs_provider_id] in *. rename x into k.
    pose proof (evaluate_catalog_get catalog cx reports k C Hrep) as Hg.
    specialize (Hruns k). destruct (dget k catalog) as [p|] eqn:Ek.
    + destruct Hg as (r & _ & Er). rewrite Er in H, Hruns.
      destruct (compatible r) eqn:Ec; cbn [negb] in H; simp_res.
      * cbn. split_and!; try done. intros k' [= <-]. by apply Hruns.
      * split_and!; [done| |].
        -- intros ?%Hruns. done.
        -- right. split; [by eexists|]. unfold compatible in Ec. by apply negb_false_iff in Ec.
    + simp_res. split_and!; [done| |by left]. by intros (? & ? & ? & _); congruence.
  - destruct id; [done|]. simp_res. cbn in *. simp_res. cbn. split_and!; done.
Qed.

End resolution.

(** ** A concrete catalog *)

Definition demo_provider (id : string) (reasons : list CompatibilityReason) : RuntimeProvider unit :=
  {| rp_info := {| pi_provider_id := id; pi_display_name := id; pi_description := EmptyString |};
     rp_compatibility := λ _, Ok {| rc_provider_id := id; rc_reasons := reasons |};
     rp_setup_intent := λ _, Err (RuntimeError "none"); rp_create_runtime := λ _ _, Ok tt;
     rp_config := None |}.
Definition demo_providers : list (RuntimeProvider unit) :=
  [demo_provider "vllm" []; demo_provider "ollama" [blocking_reason "no" "not here"]].
Definition demo_demand : ExecutionDemand :=
  {| ed_model := {| md_model_ref := "m"; md_model_format := "gguf"; md_topology := DENSE;
                    md_estimated_size_mb := Some 8000; md_metadata := [] |};
     ed_residency_policy := PREFER_VRAM; ed_gpu_topology := MULTI_GPU; ed_min_gpu_count := 2;
     ed_min_total_vram_mb := 20; ed_min_single_gpu_vram_mb := 12; ed_min_host_ram_mb := 1;
     ed_preferred_host_ram_mb := 64000; ed_metadata := [] |}.
Definition demo_context : RuntimeCompatibilityContext :=
  {| cx_worker := example_spec;
     cx_host := {| hf_cpu_count := 8; hf_host_ram_mb := 32000; hf_architecture := "x86_64";
                   hf_labels := [] |};
     cx_demand := demo_demand |}.
Definition demo_catalog : dict (RuntimeProvider unit) :=
  [("vllm", demo_provider "vllm" []);
   ("ollama", demo_provider "ollama" [blocking_reason "no" "not here"])].
Definition demo_selection : RuntimeSelection :=
  {| rs_mode := EXPLICIT; rs_provider_id := Some "vllm" |}.
Definition demo_resolution : resolve_outcome :=
  match resolve_runtime demo_catalog demo_context demo_selection with
  | Ok o => o
  | Err _ => SelectionError EmptyString EmptyString []
  end.

Example demo_resolves : ∃ r, demo_resolution = Resolved r ∧
  rr_selected_provider_id r = Some "vllm" ∧ rr_compatible_provider_ids r = ["vllm"].
Proof. eexists. split; [vm_compute; reflexivity|done]. Qed.

Lemma selection_preserved_witness :
  match demo_resolution with
  | Resolved r =>
      rr_selection r = demo_selection ∧
      rr_selected_provider_id r = rs_provider_id demo_selection ∧
      (∀ k, rr_selected_provider_id r = Some k → runs demo_catalog demo_context k) ∧
      (∀ k, k ∈ rr_compatible_provider_ids r ↔ runs demo_catalog demo_context k) ∧
      StronglySorted String.le (rr_compatible_provider_ids r)
  | SelectionError _ k reasons =>
      rs_provider_id demo_selection = Some k ∧ ¬ runs demo_catalog demo_context k ∧
      (dget k demo_catalog = None ∨
       (is_Some (dget k demo_catalog) ∧ existsb cr_blocking reasons = true))
  end.
Proof.
  apply (selection_preserved demo_providers demo_catalog EXPLICIT (Some " vllm ") demo_selection
    demo_context); vm_compute; reflexivity.
Defined.
