(* ===== verification/ProviderBase.v ===== *)
(** * What the runtime providers share

    The helpers of [src/src/astrumweaver/runtime/providers/]: keyword configuration, the
    reasons of a compatibility report, and the client, executor and managed runtime of the
    four servers that speak the chat and completion API of [llama_cpp.py], [vllm.py],
    [exllamav3.py] and [freetoken.py]. *)

From Stdlib Require Import SpecFloat.
From S2P Require Import Prelude PyStr PyDict PyVal PyHost Effects PyText PyNum Contracts Models RuntimeContracts OwnedServer Planner.

(** ** Configuration *)

(** [_nonblank], runtime/providers/ollama.py lines 36-40. *)
Definition _nonblank (value : pyval) (field_name : string) : result string :=
  s ← py_str value; nonblank_str s field_name.

(** A dataclass called with keywords: no unknown name, defaults for the absent ones. *)
Definition known_keywords (names : list string) (d : dict pyval) : result unit :=
  require (forallb (λ k, bool_decide (k ∈ names)) (dkeys d))
    (TypeError "__init__() got an unexpected keyword argument").

(** [base_url] of a provider that needs a port: its text without trailing slashes,
    runtime/providers/llama_cpp.py lines 74-84. *)
Definition loopback_base_url (message : string) (base_url : pyval) : result string :=
  s ← _nonblank base_url "base_url";
  let base_url := rstrip_char "/" s in
  parsed ← urlsplit base_url;
  require (loopback_http parsed) (ValueError message);;
  port ← port_of parsed;
  require (bool_decide (is_Some port)) (ValueError message);;
  Ok base_url.

(** [if v <= 0: raise ValueError(message)]. *)
Definition require_positive (v : pyval) (message : string) : result unit :=
  b ← le_zero v; require (negb b) (ValueError message).
(** [if v < 0: raise ValueError(message)]. *)
Definition require_nonnegative (v : pyval) (message : string) : result unit :=
  b ← lt_zero v; require (negb b) (ValueError message).
(** The same for a value that may be [None]. *)
Definition optional (check : pyval → result unit) (v : pyval) : result unit :=
  if v is PNone then Ok tt else check v.

(** [str(configuration.get(key) or default)]. *)
Definition text_or (key : string) (value : string) (d : dict pyval) : result string :=
  py_str (py_or (get key d) (PStr value)).

(** [str(v)] with the [repr] of floats given. *)
Definition py_text (float_repr : spec_float → string) (v : pyval) : result string :=
  if v is PFloat f then Ok (float_repr f) else py_str v.
(** [if v is not None: args.extend([name, str(v)])]. *)
Definition option_of (float_repr : spec_float → string) (name : string) (v : pyval) : result (list string) :=
  match v with PNone => Ok [] | v => s ← py_text float_repr v; Ok [name; s] end.

(** [E(value)] of a value that may not be text. *)
Definition enum_of_value {A} `{StrEnum A} (v : pyval) : result A :=
  match v with
  | PStr s => enum_of s
  | _ => Err (ValueError ("value is not a valid " +:+ enum_name))
  end.

(** [int(cfg[key]) if cfg.get(key) is not None else None]. *)
Definition opt_int (key : string) (d : dict pyval) : result (option Z) :=
  match get key d with PNone => Ok None | v => z ← py_int v; Ok (Some z) end.
(** [float(cfg[key]) if cfg.get(key) is not None else None]. *)
Definition opt_float (key : string) (d : dict pyval) : result (option spec_float) :=
  match get key d with PNone => Ok None | v => f ← py_float v; Ok (Some f) end.

Definition floats (l : list spec_float) : pyval := PList (PFloat <$> l).
Definition ints (l : list Z) : pyval := PList (PInt <$> l).
Definition of_opt {A} (f : A → pyval) (o : option A) : pyval := if o is Some a then f a else PNone.

(** ** Paths of models *)

(** [_local_model_reference], runtime/providers/freetoken.py lines 48-54. *)
Definition _local_model_reference (model_ref : string) : bool :=
  startswith "/" model_ref || startswith "./" model_ref || startswith "../" model_ref.

(** [_model_preparation], runtime/providers/freetoken.py lines 57-60. *)
Definition _model_preparation (model_ref : string) : ModelPreparationPolicy :=
  if _local_model_reference model_ref then REFERENCE_ONLY else DOWNLOAD.

(** ** Reasons *)

(** [CompatibilityReason(..., blocking=False)]. *)
Definition advice (code message : string) : CompatibilityReason :=
  {| cr_code := code; cr_message := message; cr_blocking := false |}.

Definition reason_if (b : bool) (r : CompatibilityReason) : list CompatibilityReason := if b then [r] else [].

(** ** Payloads *)

(** [sorted(...)] of the capabilities of every provider. *)
Definition LLM_CAPABILITIES : list string := ["llm.chat"; "text.generate"].

(** [d.pop(k, None)] and [d.setdefault(k, v)]. *)
Definition dremove {V} (k : string) (d : dict V) : dict V :=
  List.filter (λ kv, negb (bool_decide (kv.1 = k))) d.
Definition dsetdefault {V} (k : string) (v : V) (d : dict V) : dict V :=
  match dget k d with Some _ => d | None => dset k v d end.

(** The numbers of a response under the given keys. *)
Definition metrics_of (keys : list string) (response : dict pyval) : dict pyval :=
  foldl (λ acc key, match get key response with
                    | (PInt _ | PFloat _) as v => dset key v acc | _ => acc end) [] keys.

(** The command line of a server from its own base URL: host name and port,
    runtime/providers/llama_cpp.py lines 319-321. *)
Definition host_and_port (base_url : string) : result (string * Z) :=
  parsed ← urlsplit base_url;
  require (str_truthy (su_hostname parsed)) (AssertionError EmptyString);;
  port ← port_of parsed;
  match port with
  | Some p => Ok (su_hostname parsed, p)
  | None => Err (AssertionError EmptyString)
  end.

(** ** Chat servers *)

(** The words of a provider. *)
Record chat_names := {
  cn_provider_id : string;
  cn_label : string;
  cn_alias_key : string;
  cn_kind : string;
  cn_non_object : string;
  cn_invalid_models : string;
}.

(** [LlamaCppExecutor.__init__], runtime/providers/llama_cpp.py lines 427-439. *)
Record chat_executor := {
  ce_names : chat_names;
  ce_model_ref : string;
  ce_alias : string;
  ce_metadata : dict pyval;
}.
Definition mk_chat_executor (names : chat_names) (model_ref alias : string) (metadata : dict pyval)
    : result chat_executor :=
  r ← nonblank_str model_ref "model_ref";
  a ← nonblank_str alias (cn_alias_key names);
  Ok {| ce_names := names; ce_model_ref := r; ce_alias := a; ce_metadata := metadata |}.

(** [LlamaCppExecutor._payload], runtime/providers/llama_cpp.py lines 441-453. *)
Definition chat_payload (x : chat_executor) (job : JobRequest) : result (dict pyval) :=
  (match get "model" (jr_payload job) with
   | PNone => Ok tt
   | v => s ← py_str v;
          require (bool_decide (s ∈ [ce_model_ref x; ce_alias x]))
            (ValueError ("job model does not match the model bound to this " +:+ cn_label (ce_names x)
                         +:+ " runtime"))
   end);;
  let payload := dremove "model" (jr_payload job) in
  let payload := dset "model" (PStr (ce_alias x)) payload in
  Ok (dset "stream" (PBool false) payload).

(** The path and the body of the call of [LlamaCppExecutor.execute],
    runtime/providers/llama_cpp.py lines 455-469. *)
Definition chat_call (x : chat_executor) (job : JobRequest) : result (string * dict pyval) :=
  require (bool_decide (jr_capability job ∈ LLM_CAPABILITIES))
    (ValueError (cn_label (ce_names x) +:+ " executor does not support capability: " +:+ jr_capability job));;
  payload ← chat_payload x job;
  if bool_decide (jr_capability job = "llm.chat") then
    require (match get "messages" payload with PList _ => true | _ => false end)
      (ValueError "llm.chat requires a messages list");;
    Ok ("/v1/chat/completions", payload)
  else
    require (match get "prompt" payload with PStr _ => true | _ => false end)
      (ValueError "text.generate requires a prompt string");;
    Ok ("/v1/completions", payload).

(** The text of an answer, runtime/providers/llama_cpp.py lines 478-492. *)
Definition chat_text (capability : string) (response : dict pyval) : option string :=
  match get "choices" response with
  | PList (PDict first :: _) =>
      if bool_decide (capability = "llm.chat") then
        match get "message" first with
        | PDict message => match get "content" message with PStr s => Some s | _ => None end
        | _ => None
        end
      else match get "text" first with PStr s => Some s | _ => None end
  | _ => None
  end.

(** The metrics of an answer, runtime/providers/llama_cpp.py lines 494-504. *)
Definition usage_metrics (response : dict pyval) : dict pyval :=
  match get "usage" response with
  | PDict usage => metrics_of ["prompt_tokens"; "completion_tokens"; "total_tokens"] usage
  | _ => []
  end.

(** The result of [LlamaCppExecutor.execute], runtime/providers/llama_cpp.py lines 506-515. *)
Definition chat_result (x : chat_executor) (job : JobRequest) (response : dict pyval) : result JobResult :=
  mk_JobResult response [] (usage_metrics response) (chat_text (jr_capability job) response)
    [("runtime_provider", PStr (cn_provider_id (ce_names x))); ("model", PStr (ce_model_ref x));
     (cn_alias_key (ce_names x), PStr (ce_alias x))].

(** The report of an executor with what it measured of the accelerator,
    runtime/providers/llama_cpp.py lines 525-535. *)
Definition residency_report (x : chat_executor) (memory : option Z) (metadata : dict pyval) (now : datetime)
    : result ResidencyReport :=
  item ← mk_ResidencyItem (ce_model_ref x) (cn_kind (ce_names x)) memory metadata;
  mk_ResidencyReport [item] now [("runtime_provider", PStr (cn_provider_id (ce_names x)))].

(** The identifiers of a list of models, runtime/providers/llama_cpp.py lines 252-258. *)
Definition model_ids (data : list pyval) : list string :=
  omap (λ item, match item with
                | PDict d => match get "id" d with
                             | PStr model_id => if str_truthy (strip model_id) then Some (strip model_id) else None
                             | _ => None
                             end
                | _ => None
                end) data.

(** What a managed runtime says when it fails. *)
Record chat_texts := {
  ct_released : string;
  ct_external : string;
  ct_exited : string;
  ct_timeout : string;
  ct_unexposed : string;
  ct_health_external : string;
  ct_health_inventory : string;
  ct_health_unavailable : string;
}.

Section chat.
Context {W : Type} `{ServerWorld W}.
Abbreviation M := (eff (server W)).

(** [HttpLlamaCppApi.models], runtime/providers/llama_cpp.py lines 247-259. *)
Definition served_models (names : chat_names) : M (list string) :=
  body ← json_request (cn_non_object names) "GET" "/v1/models" None;
  match dget "data" body with
  | Some (PList data) => mret (model_ids data)
  | _ => throws (RuntimeError (cn_invalid_models names))
  end.

(** [LlamaCppExecutor.execute], the in-flight task being the call,
    runtime/providers/llama_cpp.py lines 455-515. *)
Definition chat_execute (x : chat_executor) (job : JobRequest) : M JobResult :=
  call ← lifts (chat_call x job);
  response ← json_request (cn_non_object (ce_names x)) "POST" call.1 (Some call.2);
  lifts (chat_result x job response).

(** [HttpFreeTokenApi.health]: the [status] of [/health]; [httpx.HTTPError], [RuntimeError]
    and [ValueError] are [False], runtime/providers/freetoken.py lines 228-233. *)
Definition health_status (non_object expected : string) : M bool :=
  try_catch
    (body ← json_request non_object "GET" "/health" None;
     mret (match get "status" body with PStr s => bool_decide (s = expected) | _ => false end))
    (λ e, match e with HTTPError _ | RuntimeError _ | ValueError _ => mret false | _ => throws e end).

Definition exposes (names : chat_names) (alias : string) : M bool :=
  models ← served_models names; mret (bool_decide (alias ∈ models)).

(** [LlamaCppManagedRuntime] as an owned server: what [start], [stop], [health] and [release]
    add to the common sequence, runtime/providers/llama_cpp.py lines 582-695. *)
Definition chat_backend (names : chat_names) (texts : chat_texts) (poll : Z) (timeout : pyval)
    (model_ref alias : string) (spawn : M unit) (reachable : M bool) : backend W := {|
  bk_released_text := ct_released texts;
  bk_external_text := ct_external texts;
  bk_exited_text := ct_exited texts;
  bk_timeout_text := ct_timeout texts;
  bk_poll := poll;
  bk_startup_timeout := timeout;
  bk_spawn := spawn;
  bk_reachable := reachable;
  bk_verify := available ← exposes names alias; ensure available (RuntimeError (ct_unexposed texts));
  bk_cleanup := mret tt;
  bk_available := exposes names alias;
  bk_health_external := ct_health_external texts;
  bk_health_inventory := ct_health_inventory texts;
  bk_health_unavailable := ct_health_unavailable texts;
  bk_metadata := [("runtime_provider", PStr (cn_provider_id names))];
  bk_ready_metadata := [("runtime_provider", PStr (cn_provider_id names)); ("model", PStr model_ref);
                        (cn_alias_key names, PStr alias)];
  bk_unload := mret tt;
|}.
End chat.
