(* ===== verification/Serde.v ===== *)
(** * JSON serialization of the control plane's values

    Models [src/src/astrumweaver/control/serde.py]: worker specifications, requirements and
    results as JSON values and back.  Parsing takes whatever JSON a peer sent. *)

From S2P Require Import Prelude PyStr PyDict PyVal Contracts Models.

(** ** Conversions the parsers share *)

(** [dict(v or {})] and [v or ()] for an iteration. *)
Definition dict_or_empty (v : pyval) : result (dict pyval) := py_dict (py_or v (PDict [])).
Definition iter_or_empty (v : pyval) : result (list pyval) := py_iter (py_or v (PList [])).
(** [int(v or 0)]. *)
Definition int_or_zero (v : pyval) : result Z := py_int (py_or v (PInt 0)).

(** [frozenset(items)]: containers are unhashable, equal elements collapse. *)
Definition hashable (v : pyval) : bool := match v with PList _ | PDict _ => false | _ => true end.
Fixpoint dedup (seen : list pyval) (l : list pyval) : list pyval :=
  match l with
  | [] => []
  | x :: l' => if existsb (py_eqb x) seen then dedup seen l' else x :: dedup (x :: seen) l'
  end.
Definition py_frozenset (l : list pyval) : result (list pyval) :=
  require (forallb hashable l) (TypeError "unhashable type");;
  Ok (dedup [] l).

(** The strings [_unique_strings] makes of the items. *)
Definition str_items (l : list pyval) : result str_values :=
  s ← mapR py_str l; Ok (StrIter s).
Definition str_set (v : pyval) : result str_values :=
  l ← iter_or_empty v; f ← py_frozenset l; str_items f.

(** The [str(key)], [str(value)] pairs [_normalize_labels] reads. *)
Definition label_items (v : pyval) : result (dict string) :=
  d ← dict_or_empty v;
  mapR (λ '(k, x), s ← py_str x; Ok (k, s)) d.

(** An attribute that is [None] or must have [.strip()]. *)
Definition strippable (v : pyval) : result (option string) :=
  match v with
  | PNone => Ok None
  | PStr s => Ok (Some s)
  | _ => Err (AttributeError "object has no attribute 'strip'")
  end.
(** An attribute that is [None] or goes through [str(...)]. *)
Definition str_or_none (v : pyval) : result (option string) :=
  match v with
  | PNone => Ok None
  | v => s ← py_str v; Ok (Some s)
  end.


(** ** Requirements *)

(** [requirements_to_dict], control/serde.py lines 11-20. *)
Definition requirements_to_dict (value : JobRequirements) : dict pyval :=
  [("worker_class", of_opt_str (req_worker_class value));
   ("required_capabilities", strs (sorted_strings (elements (required_capabilities value))));
   ("required_labels", PDict ((λ '(k, v), (k, PStr v)) <$> required_labels value));
   ("required_gpu_uuids", strs (sorted_strings (elements (required_gpu_uuids value))));
   ("min_gpu_count", PInt (min_gpu_count value));
   ("min_total_vram_mb", PInt (min_total_vram_mb value));
   ("min_single_gpu_vram_mb", PInt (min_single_gpu_vram_mb value))].

(** [requirements_from_dict], control/serde.py lines 23-33. *)
Definition requirements_from_dict (value : pyval) : result JobRequirements :=
  data ← dict_or_empty value;
  caps ← str_set (get "required_capabilities" data);
  gpus ← str_set (get "required_gpu_uuids" data);
  count ← int_or_zero (get "min_gpu_count" data);
  total ← int_or_zero (get "min_total_vram_mb" data);
  single ← int_or_zero (get "min_single_gpu_vram_mb" data);
  class ← strippable (get "worker_class" data);
  labs ← label_items (get "required_labels" data);
  mk_JobRequirements class caps labs gpus count total single.

(** ** Worker specifications *)

(** The dictionary of one device, control/serde.py lines 42-47. *)
Definition device_to_dict (device : AcceleratorDevice) : pyval :=
  PDict [("uuid", PStr (ad_uuid device)); ("memory_mb", PInt (ad_memory_mb device));
         ("compute_capability", of_opt_str (ad_compute_capability device));
         ("device_class", of_opt_str (ad_device_class device))].

(** [worker_spec_to_dict], control/serde.py lines 36-57. *)
Definition worker_spec_to_dict (value : WorkerSpec) : dict pyval :=
  [("worker_id", PStr (worker_id value));
   ("worker_class", PStr (worker_class value));
   ("gpu_uuids", strs (gpu_uuids value));
   ("accelerators", PList (device_to_dict <$> accelerators value));
   ("capabilities", strs (sorted_strings (elements (capabilities value))));
   ("labels", PDict ((λ '(k, v), (k, PStr v)) <$> labels value));
   ("resources", PDict [("gpu_count", PInt (gpu_count (resources value)));
                        ("total_vram_mb", PInt (total_vram_mb (resources value)));
                        ("max_single_gpu_vram_mb", PInt (max_single_gpu_vram_mb (resources value)))])].

(** One element of [accelerators], control/serde.py lines 68-73. *)
Definition device_from_item (item : pyval) : result AcceleratorDevice :=
  u ← py_item "uuid" item; uuid ← py_str u;
  m ← py_item "memory_mb" item; memory ← py_int m;
  c ← py_get "compute_capability" item; cc ← str_or_none c;
  d ← py_get "device_class" item; dc ← str_or_none d;
  mk_AcceleratorDevice uuid memory cc dc.

(** [worker_spec_from_dict], control/serde.py lines 60-83. *)
Definition worker_spec_from_dict (value : pyval) : result WorkerSpec :=
  data ← py_dict value;
  resource ← dict_or_empty (get "resources" data);
  i ← item "worker_id" data; id ← py_str i;
  c ← item "worker_class" data; class ← py_str c;
  g ← iter_or_empty (get "gpu_uuids" data); gpus ← str_items g;
  a ← iter_or_empty (get "accelerators" data); accs ← mapR device_from_item a;
  caps ← str_set (get "capabilities" data);
  count ← int_or_zero (get "gpu_count" resource);
  total ← int_or_zero (get "total_vram_mb" resource);
  single ← int_or_zero (get "max_single_gpu_vram_mb" resource);
  res ← mk_ResourceShape count total single;
  labs ← label_items (get "labels" data);
  mk_WorkerSpec id class res gpus accs caps labs.

(** ** Results *)

(** The dictionary of one artifact, control/serde.py lines 90-97. *)
Definition artifact_to_dict (artifact : ArtifactRef) : pyval :=
  PDict [("uri", PStr (art_uri artifact)); ("media_type", of_opt_str (art_media_type artifact));
         ("digest", of_opt_str (art_digest artifact));
         ("size_bytes", of_opt_Z (art_size_bytes artifact));
         ("name", of_opt_str (art_name artifact)); ("metadata", PDict (art_metadata artifact))].

(** [job_result_to_dict], control/serde.py lines 86-103. *)
Definition job_result_to_dict (value : JobResult) : dict pyval :=
  [("outputs", PDict (res_outputs value));
   ("artifacts", PList (artifact_to_dict <$> res_artifacts value));
   ("metrics", PDict (res_metrics value));
   ("text", of_opt_str (res_text value));
   ("metadata", PDict (res_metadata value))].

(** [size_bytes]: [None] or a number that compares with zero; numbers that are not [int] are
    kept as they are, outside the model. *)
Definition size_or_none (v : pyval) : result (option Z) :=
  match v with
  | PNone => Ok None
  | PInt z => Ok (Some z)
  | PBool _ | PFloat _ => Err (OutOfModel "size_bytes that is not an int")
  | _ => Err (TypeError "'<' not supported")
  end.

(** One element of [artifacts], control/serde.py lines 111-118. *)
Definition artifact_from_item (item : pyval) : result ArtifactRef :=
  u ← py_item "uri" item; uri ← py_str u;
  m ← py_get "media_type" item; media ← strippable m;
  d ← py_get "digest" item; digest ← strippable d;
  s ← py_get "size_bytes" item; size ← size_or_none s;
  n ← py_get "name" item; name ← strippable n;
  x ← py_get "metadata" item; metadata ← dict_or_empty x;
  mk_ArtifactRef uri media digest size name metadata.

(** [job_result_from_dict], control/serde.py lines 106-127. *)
Definition job_result_from_dict (value : pyval) : result (option JobResult) :=
  match value with
  | PNone => Ok None
  | _ =>
      data ← py_dict value;
      a ← iter_or_empty (get "artifacts" data); artifacts ← mapR artifact_from_item a;
      outputs ← dict_or_empty (get "outputs" data);
      metrics ← dict_or_empty (get "metrics" data);
      metadata ← dict_or_empty (get "metadata" data);
      text ← (match get "text" data with
              | PNone => Ok None
              | PStr s => Ok (Some s)
              | _ => Err (TypeError "text must be a string or None")
              end);
      r ← mk_JobResult outputs artifacts metrics text metadata;
      Ok (Some r)
  end.

(** ** Laws *)

#[local] Arguments py_eqb : simpl never.
#[local] Arguments get : simpl never.
#[local] Arguments item : simpl never.

Definition wf_ArtifactRef (a : ArtifactRef) : Prop :=
  nonblank (art_uri a) ∧ (∀ s, art_media_type a = Some s → nonblank s) ∧
  (∀ s, art_digest a = Some s → nonblank s) ∧ (∀ s, art_name a = Some s → nonblank s) ∧
  (∀ n, art_size_bytes a = Some n → 0 ≤ n).

Definition wf_JobResult (r : JobResult) : Prop :=
  Forall wf_ArtifactRef (res_artifacts r) ∧ check_metrics (res_metrics r) = Ok tt.

Lemma str_items_strs l : str_items (PStr <$> l) = Ok (StrIter l).
Proof.
  unfold str_items. rewrite (proj2 (mapR_Ok py_str (PStr <$> l) l)); [done|].
  apply Forall2_fmap_l, Forall_Forall2_diag, Forall_forall. done.
Qed.

Lemma iter_strs l : iter_or_empty (strs l) = Ok (PStr <$> l).
Proof. unfold iter_or_empty, strs. by destruct l. Qed.

Lemma dedup_strs seen l : NoDup l → (∀ x, x ∈ l → PStr x ∉ seen) →
  (∀ v, v ∈ seen → ∃ s, v = PStr s) → dedup seen (PStr <$> l) = PStr <$> l.
Proof.
  revert seen. induction l as [|x l IH]; intros seen; [done|]. intros [Hx Hl]%NoDup_cons Hs Hstr.
  cbn. assert (existsb (py_eqb (PStr x)) seen = false) as ->.
  { apply not_true_is_false. intros (v & Hv & E)%existsb_exists. apply list_elem_of_In in Hv.
    destruct (Hstr v Hv) as [s ->]. cbn in E. apply bool_decide_eq_true in E as <-.
    apply (Hs x); [left|done]. }
  f_equal. apply IH; [done| |].
  - intros y Hy. rewrite not_elem_of_cons. split; [by intros [= ->]|]. apply Hs. by right.
  - intros v [->|Hv]%elem_of_cons; eauto.
Qed.

Lemma str_set_strs l : NoDup l → str_set (strs l) = Ok (StrIter l).
Proof.
  intros Hl. unfold str_set. rewrite iter_strs. cbn [mbind result_bind]. unfold py_frozenset.
  rewrite guard_true.
  - cbn [mbind result_bind]. rewrite dedup_strs; [apply str_items_strs|done|..].
    + intros x _. apply not_elem_of_nil.
    + by intros v ?%elem_of_nil.
  - apply forallb_forall. intros v Hv%list_elem_of_In. by apply list_elem_of_fmap in Hv as (s & -> & _).
Qed.

Lemma label_items_dict (d : dict string) : label_items (PDict ((λ '(k, v), (k, PStr v)) <$> d)) = Ok d.
Proof.
  unfold label_items, dict_or_empty.
  assert (py_dict (py_or (PDict ((λ '(k, v), (k, PStr v)) <$> d)) (PDict [])) =
          Ok ((λ '(k, v), (k, PStr v)) <$> d)) as -> by by destruct d.
  cbn [mbind result_bind]. apply mapR_Ok. induction d as [|[k v] d IH]; by constructor.
Qed.

Lemma dict_or_empty_id (d : dict pyval) : dict_or_empty (PDict d) = Ok d.
Proof. by destruct d. Qed.

Lemma int_or_zero_id z : int_or_zero (PInt z) = Ok z.
Proof. unfold int_or_zero, py_or. cbn. by destruct (Z.eqb_spec z 0) as [->|]. Qed.

Lemma strippable_opt o : strippable (of_opt_str o) = Ok o.
Proof. by destruct o. Qed.
Lemma str_or_none_opt o : str_or_none (of_opt_str o) = Ok o.
Proof. by destruct o. Qed.

Lemma NoDup_sorted_elements (X : gset string) : NoDup (sorted_strings (elements X)).
Proof. apply NoDup_sorted_strings, NoDup_elements. Qed.

(** Reading a field of a dictionary display. *)
Lemma get_here k v (d : dict pyval) : get k ((k, v) :: d) = v.
Proof. unfold get. cbn [dget]. by rewrite decide_True. Qed.
Lemma get_skip k k' v (d : dict pyval) : k ≠ k' → get k ((k', v) :: d) = get k d.
Proof. intros H. unfold get. cbn [dget]. by rewrite decide_False. Qed.
Lemma item_here k v (d : dict pyval) : item k ((k, v) :: d) = Ok v.
Proof. unfold item. cbn [dget]. by rewrite decide_True. Qed.
Lemma item_skip k k' v (d : dict pyval) : k ≠ k' → item k ((k', v) :: d) = item k d.
Proof. intros H. unfold item. cbn [dget]. by rewrite decide_False. Qed.
Lemma py_item_dict k d : py_item k (PDict d) = item k d.
Proof. done. Qed.
Lemma py_get_dict k d : py_get k (PDict d) = Ok (get k d).
Proof. done. Qed.

Ltac fields_of :=
  repeat first
    [ rewrite get_here | rewrite get_skip by discriminate
    | rewrite item_here | rewrite item_skip by discriminate
    | rewrite py_item_dict | rewrite py_get_dict
    | progress cbn [mbind result_bind] ].

Hint Rewrite dict_or_empty_id int_or_zero_id strippable_opt str_or_none_opt iter_strs
  str_items_strs label_items_dict : serde.

Ltac serde := repeat first [progress fields_of | progress autorewrite with serde].

Lemma requirements_roundtrip r : wf_JobRequirements r →
  requirements_from_dict (PDict (requirements_to_dict r)) = Ok r.
Proof.
  intros Hr. unfold requirements_from_dict, requirements_to_dict. serde.
  rewrite !str_set_strs by apply NoDup_sorted_elements. serde.
  apply mk_JobRequirements_id; [done|apply sorted_strings_Permutation..].
Qed.

Lemma device_roundtrip d : wf_AcceleratorDevice d → device_from_item (device_to_dict d) = Ok d.
Proof.
  intros Hd. unfold device_from_item, device_to_dict. serde. cbn [py_str py_int mbind result_bind].
  serde. by apply mk_AcceleratorDevice_id.
Qed.

Lemma devices_roundtrip l : Forall wf_AcceleratorDevice l →
  mapR device_from_item (device_to_dict <$> l) = Ok l.
Proof.
  intros H. apply mapR_Ok. apply Forall2_fmap_l, Forall_Forall2_diag.
  eapply Forall_impl; [done|]. apply device_roundtrip.
Qed.

Lemma iter_list l : iter_or_empty (PList l) = Ok l.
Proof. by destruct l. Qed.

Lemma worker_spec_roundtrip s : wf_WorkerSpec s →
  worker_spec_from_dict (PDict (worker_spec_to_dict s)) = Ok s.
Proof.
  intros Hs. pose proof Hs as (_ & _ & _ & _ & _ & _ & Hres & Hacc & _).
  unfold worker_spec_from_dict, worker_spec_to_dict. cbn [py_dict]. serde.
  cbn [py_str mbind result_bind]. serde. rewrite iter_list. serde.
  rewrite devices_roundtrip by done. serde.
  rewrite str_set_strs by apply NoDup_sorted_elements. serde.
  rewrite mk_ResourceShape_id by done. serde.
  apply mk_WorkerSpec_id; [done|apply sorted_strings_Permutation].
Qed.

Lemma nonblank_models_id v f : nonblank v → _nonblank v f = Ok v.
Proof.
  intros [Hs Hn]. unfold _nonblank. unfold stripped in Hs. rewrite Hs.
  by rewrite (proj2 (str_truthy_spec v)).
Qed.
Lemma nonblank_opt_id o f : (∀ s, o = Some s → nonblank s) → _nonblank_opt o f = Ok o.
Proof. intros H. destruct o as [s|]; [|done]. cbn. by rewrite nonblank_models_id by auto. Qed.

Lemma size_or_none_id o : size_or_none (of_opt_Z o) = Ok o.
Proof. by destruct o. Qed.

Lemma artifact_roundtrip a : wf_ArtifactRef a → artifact_from_item (artifact_to_dict a) = Ok a.
Proof.
  intros (Hu & Hm & Hd & Hn & Hs). unfold artifact_from_item, artifact_to_dict. serde.
  cbn [py_str mbind result_bind]. serde. rewrite size_or_none_id. serde.
  unfold mk_ArtifactRef. rewrite nonblank_models_id, !nonblank_opt_id by done. serde.
  rewrite guard_true; [by destruct a|]. destruct (art_size_bytes a); [|done]. by apply Z.leb_le, Hs.
Qed.

Lemma job_result_roundtrip r : wf_JobResult r →
  job_result_from_dict (PDict (job_result_to_dict r)) = Ok (Some r).
Proof.
  intros [Ha Hm]. unfold job_result_from_dict, job_result_to_dict. cbn [py_dict]. serde.
  rewrite iter_list. serde.
  assert (mapR artifact_from_item (artifact_to_dict <$> res_artifacts r) = Ok (res_artifacts r)) as ->.
  { apply mapR_Ok, Forall2_fmap_l, Forall_Forall2_diag. eapply Forall_impl; [done|].
    apply artifact_roundtrip. }
  serde. unfold mk_JobResult. rewrite Hm. destruct r as [o a m [t|] md]; cbn; rewrite ?Hm; done.
Qed.

(** ** Property *)

(** Serialization round trips.  Every well-formed worker specification,
    requirement set and job result survives [to_dict] and the matching [from_dict]
    unchanged: what a worker registers is what Control stores and checks against, and a
    result is delivered as the executor returned it. *)
Theorem serde_roundtrip s r res : wf_WorkerSpec s → wf_JobRequirements r → wf_JobResult res →
  worker_spec_from_dict (PDict (worker_spec_to_dict s)) = Ok s ∧
  requirements_from_dict (PDict (requirements_to_dict r)) = Ok r ∧
  job_result_from_dict (PDict (job_result_to_dict res)) = Ok (Some res).
Proof.
  intros. split_and!; [by apply worker_spec_roundtrip|by apply requirements_roundtrip
                      |by apply job_result_roundtrip].
Qed.

Definition example_result : JobResult :=
  {| res_outputs := [("x", PInt 1)];
     res_artifacts := [{| art_uri := "s3://a"; art_media_type := Some "text/plain";
                          art_digest := None; art_size_bytes := Some 12; art_name := None;
                          art_metadata := [] |}];
     res_metrics := [("seconds", PInt 3)]; res_text := Some "ok"; res_metadata := [] |}.

Lemma serde_roundtrip_witness :
  worker_spec_from_dict (PDict (worker_spec_to_dict example_spec)) = Ok example_spec ∧
  requirements_from_dict (PDict (requirements_to_dict no_requirements)) = Ok no_requirements ∧
  job_result_from_dict (PDict (job_result_to_dict example_result)) = Ok (Some example_result).
Proof.
  apply serde_roundtrip.
  - apply example_spec_wf.
  - split_and!; try done; try by repeat constructor.
  - split; [|done]. apply Forall_singleton. split_and!; cbn; try by intros ? [= <-]; vm_decide.
    vm_decide.
Defined.

(** * The versioned JSON protocol

    Models [src/src/astrumweaver/transport.py]: the messages of protocol v1.  The textual
    form of a [datetime] ([isoformat], [fromisoformat]) is a parameter. *)

Definition PROTOCOL_VERSION : string := "v1".

Section transport.
Variable isoformat : Z → string.
Variable fromisoformat : string → result datetime.

(** [_iso], transport.py lines 30-31. *)
Definition _iso (value : option Z) : pyval :=
  match value with None => PNone | Some t => PStr (isoformat t) end.

(** [worker_record_to_dict], transport.py lines 34-44. *)
Definition worker_record_to_dict (value : WorkerRecord) : dict pyval :=
  [("protocol_version", PStr PROTOCOL_VERSION);
   ("spec", PDict (worker_spec_to_dict (w_spec value)));
   ("max_concurrency", PInt (w_max_concurrency value));
   ("state", PStr (WorkerState_value (w_state value)));
   ("active_jobs", PInt (w_active_jobs value));
   ("registered_at", PStr (isoformat (w_registered_at value)));
   ("last_seen_at", PStr (isoformat (w_last_seen_at value)));
   ("metadata", PDict (w_metadata value))].

(** [job_record_to_dict], transport.py lines 47-72. *)
Definition job_record_to_dict (value : JobRecord) (include_payload : bool) : dict pyval :=
  [("protocol_version", PStr PROTOCOL_VERSION);
   ("job_id", PStr (j_job_id value));
   ("capability", PStr (j_capability value));
   ("requirements", PDict (requirements_to_dict (j_requirements value)));
   ("priority", PInt (j_priority value));
   ("sequence", PInt (j_sequence value));
   ("status", PStr (JobStatus_value (j_status value)));
   ("attempts", PInt (j_attempts value));
   ("max_attempts", PInt (j_max_attempts value));
   ("idempotency_key", of_opt_str (j_idempotency_key value));
   ("assigned_worker_id", of_opt_str (j_assigned_worker_id value));
   ("lease_token", of_opt_str (j_lease_token value));
   ("created_at", PStr (isoformat (j_created_at value)));
   ("available_at", PStr (isoformat (j_available_at value)));
   ("started_at", _iso (j_started_at value));
   ("finished_at", _iso (j_finished_at value));
   ("lease_expires_at", _iso (j_lease_expires_at value));
   ("updated_at", PStr (isoformat (j_updated_at value)));
   ("result", match j_result value with None => PNone | Some r => PDict (job_result_to_dict r) end);
   ("error", match j_error value with None => PNone | Some e => PDict e end)]
  ++ (if include_payload then [("payload", PDict (j_payload value))] else []).

(** [worker_registration_from_dict], transport.py lines 75-81. *)
Definition worker_registration_from_dict (value : pyval) : result WorkerRegistration :=
  data ← py_dict value;
  raw_spec ← item "spec" data;
  spec ← worker_spec_from_dict raw_spec;
  max_concurrency ← py_int (get_default "max_concurrency" (PInt 1) data);
  metadata ← dict_or_empty (get "metadata" data);
  mk_WorkerRegistration spec max_concurrency metadata.

(** An identifier kept as it came: strings or [None]; other JSON values are outside the
    model. *)
Definition raw_identifier (v : pyval) : result (option string) :=
  match v with
  | PNone => Ok None
  | PStr s => Ok (Some s)
  | _ => Err (OutOfModel "identifier that is not a string")
  end.

(** [worker_heartbeat_from_dict], transport.py lines 84-92. *)
Definition worker_heartbeat_from_dict (value : pyval) : result WorkerHeartbeat :=
  data ← py_dict value;
  state ← (match get "state" data with
           | PNone => Ok None
           | v => s ← py_str v; st ← mk_WorkerState s; Ok (Some st)
           end);
  active_job_id ← raw_identifier (get "active_job_id" data);
  lease_token ← raw_identifier (get "lease_token" data);
  metadata ← dict_or_empty (get "metadata" data);
  Ok {| hb_state := state; hb_active_job_id := active_job_id; hb_lease_token := lease_token;
        hb_metadata := metadata |}.

(** [job_submission_from_dict], transport.py lines 95-106. *)
Definition job_submission_from_dict (value : pyval) : result JobSubmission :=
  data ← py_dict value;
  c ← item "capability" data; capability ← py_str c;
  requirements ← requirements_from_dict (get "requirements" data);
  priority ← py_int (get_default "priority" (PInt 0) data);
  max_attempts ← py_int (get_default "max_attempts" (PInt 3) data);
  available_at ← (match get "available_at" data with
                  | PNone => Ok None
                  | v => s ← py_str v; d ← fromisoformat s; Ok (Some d)
                  end);
  idempotency_key ← strippable (get "idempotency_key" data);
  payload ← dict_or_empty (get "payload" data);
  mk_JobSubmission capability payload requirements priority max_attempts idempotency_key
    available_at.

(** [job_request_from_record], transport.py lines 109-120. *)
Definition job_request_from_record (value : JobRecord) : result JobRequest :=
  mk_JobRequest (j_job_id value) (j_capability value) (j_payload value)
    [("attempt", PInt (j_attempts value)); ("lease_expires_at", _iso (j_lease_expires_at value))].

End transport.
