(* ===== verification/Deployment.v ===== *)
(** * Runtime deployments

    Models [src/src/astrumweaver/runtime/deployment.py]: the persisted choice of a provider,
    its configuration, the demand and the setup intent; reading it back; and the runtime a
    Worker service makes of it.  The table of provider types is an argument: a provider is
    what planning sees of it ([RuntimeProvider]). *)

From S2P Require Import Prelude PyStr PyDict PyVal Contracts RuntimeContracts Planner Serde.

(** ** The specification *)

(** [RuntimeDeploymentSpec], runtime/deployment.py lines 68-76. *)
Record RuntimeDeploymentSpec := {
  ds_provider_id : string;
  ds_provider_config : dict pyval;
  ds_demand : ExecutionDemand;
  ds_setup_intent : option RuntimeSetupIntent;
  ds_schema_version : string;
}.

(** [RuntimeDeploymentSpec.__post_init__], runtime/deployment.py lines 78-102. *)
Definition mk_RuntimeDeploymentSpec (provider_id : string) (config : dict pyval)
    (demand : ExecutionDemand) (intent : option RuntimeSetupIntent) (schema : string)
    : result RuntimeDeploymentSpec :=
  let provider_id := strip provider_id in
  require (str_truthy provider_id) (ValueError "provider_id must not be blank");;
  require (match intent with
           | Some i => bool_decide (si_provider_id i = provider_id) | None => true end)
    (ValueError "runtime deployment setup intent changed provider identity");;
  let schema := strip schema in
  require (bool_decide (schema = "v1"))
    (ValueError ("unsupported runtime deployment schema: " +:+ schema));;
  Ok {| ds_provider_id := provider_id; ds_provider_config := config; ds_demand := demand;
        ds_setup_intent := intent; ds_schema_version := schema |}.

(** ** JSON *)

(** [_json_value], runtime/deployment.py lines 45-61.  It turns enums, data classes, tuples and
    mappings with other keys into JSON values; a [pyval] holds none of these, so of its branches
    only those that rebuild the same value remain. *)
Definition _json_value (value : pyval) : pyval := value.

(** The ["model"] object, runtime/deployment.py lines 111-117. *)
Definition model_to_dict (model : ModelDemand) : dict pyval :=
  [("model_ref", PStr (md_model_ref model));
   ("model_format", PStr (md_model_format model));
   ("topology", PStr (enum_value (md_topology model)));
   ("estimated_size_mb", of_opt_Z (md_estimated_size_mb model));
   ("metadata", _json_value (PDict (md_metadata model)))].

(** The ["demand"] object, runtime/deployment.py lines 110-130. *)
Definition demand_to_dict (d : ExecutionDemand) : dict pyval :=
  [("model", PDict (model_to_dict (ed_model d)));
   ("residency_policy", PStr (enum_value (ed_residency_policy d)));
   ("gpu_topology", PStr (enum_value (ed_gpu_topology d)));
   ("min_gpu_count", PInt (ed_min_gpu_count d));
   ("min_total_vram_mb", PInt (ed_min_total_vram_mb d));
   ("min_single_gpu_vram_mb", PInt (ed_min_single_gpu_vram_mb d));
   ("min_host_ram_mb", PInt (ed_min_host_ram_mb d));
   ("preferred_host_ram_mb", PInt (ed_preferred_host_ram_mb d));
   ("metadata", _json_value (PDict (ed_metadata d)))].

(** The ["setup_intent"] object, runtime/deployment.py lines 134-152. *)
Definition intent_to_dict (i : RuntimeSetupIntent) : dict pyval :=
  [("provider_id", PStr (si_provider_id i));
   ("package_references", strs (si_package_references i));
   ("configuration", _json_value (PDict (si_configuration i)));
   ("model_preparation", PStr (enum_value (si_model_preparation i)));
   ("model_ref", of_opt_str (si_model_ref i));
   ("requires_privilege", PBool (si_requires_privilege i));
   ("metadata", _json_value (PDict (si_metadata i)))].

(** [RuntimeDeploymentSpec.to_dict], runtime/deployment.py lines 104-154. *)
Definition deployment_to_dict (s : RuntimeDeploymentSpec) : dict pyval :=
  [("schema_version", PStr (ds_schema_version s));
   ("provider_id", PStr (ds_provider_id s));
   ("provider_config", _json_value (PDict (ds_provider_config s)));
   ("demand", PDict (demand_to_dict (ds_demand s)));
   ("setup_intent", match ds_setup_intent s with
                    | None => PNone | Some i => PDict (intent_to_dict i) end)].

(** The demand read from its object, runtime/deployment.py lines 172-203. *)
Definition demand_from_dict (demand_data model_data : dict pyval) : result ExecutionDemand :=
  r ← item "model_ref" model_data; ref ← py_str r;
  f ← item "model_format" model_data; fmt ← py_str f;
  t ← item "topology" model_data; ts ← py_str t; topology ← enum_of ts;
  mm ← dict_or_empty (get "metadata" model_data);
  model ← mk_ModelDemand ref fmt topology (get "estimated_size_mb" model_data) mm;
  p ← item "residency_policy" demand_data; ps ← py_str p; policy ← enum_of ps;
  g ← item "gpu_topology" demand_data; gs ← py_str g; gpu ← enum_of gs;
  count ← int_or_zero (get "min_gpu_count" demand_data);
  total ← int_or_zero (get "min_total_vram_mb" demand_data);
  single ← int_or_zero (get "min_single_gpu_vram_mb" demand_data);
  ram ← int_or_zero (get "min_host_ram_mb" demand_data);
  preferred ← int_or_zero (get "preferred_host_ram_mb" demand_data);
  metadata ← dict_or_empty (get "metadata" demand_data);
  mk_ExecutionDemand model policy gpu count total single ram preferred metadata.

(** The intent read from its object, runtime/deployment.py lines 206-233. *)
Definition intent_from_dict (data : dict pyval) : result RuntimeSetupIntent :=
  p ← item "provider_id" data; provider_id ← py_str p;
  l ← py_iter (get_default "package_references" (PList []) data);
  packages ← mapR py_str l;
  configuration ← dict_or_empty (get "configuration" data);
  mp ← py_str (get_default "model_preparation" (PStr (enum_value REFERENCE_ONLY)) data);
  preparation ← enum_of mp;
  metadata ← dict_or_empty (get "metadata" data);
  mk_RuntimeSetupIntent provider_id packages configuration preparation (get "model_ref" data)
    (truthy (get "requires_privilege" data)) metadata.

(** [RuntimeDeploymentSpec.from_dict], runtime/deployment.py lines 156-235. *)
Definition deployment_from_dict (value : pyval) : result RuntimeDeploymentSpec :=
  data ← py_dict value;
  d ← item "demand" data; demand_data ← py_dict d;
  m ← item "model" demand_data; model_data ← py_dict m;
  intent_data ← (match get "setup_intent" data with
                 | PNone => Ok None
                 | raw => i ← py_dict raw; Ok (Some i)
                 end);
  schema ← py_str (get_default "schema_version" (PStr "v1") data);
  p ← item "provider_id" data; provider_id ← py_str p;
  config ← dict_or_empty (get "provider_config" data);
  demand ← demand_from_dict demand_data model_data;
  intent ← (match intent_data with
            | None => Ok None
            | Some i => x ← intent_from_dict i; Ok (Some x)
            end);
  mk_RuntimeDeploymentSpec provider_id config demand intent schema.

(** ** Host facts *)

(** The scan of [meminfo], runtime/deployment.py lines 273-283. *)
Fixpoint meminfo_ram_mb (lines : list string) : result (option Z) :=
  match lines with
  | [] => Ok None
  | raw :: rest =>
      if negb (startswith "MemTotal:" raw) then meminfo_ram_mb rest
      else match fields raw with
           | _ :: f :: _ =>
               match int_of_str f with
               | Ok z => Ok (Some (z / 1024))
               | Err (ValueError _) => Err (RuntimeError "runtime host RAM information is invalid")
               | Err e => Err e
               end
           | _ => Ok None
           end
  end.

(** [discover_runtime_host_facts], runtime/deployment.py lines 259-295; [cpu_count], [meminfo] and
    [machine] are what the operating system answers. *)
Definition discover_runtime_host_facts (cpu_count : option Z) (meminfo : option string)
    (machine : string) : result RuntimeHostFacts :=
  match cpu_count with
  | None => Err (RuntimeError "runtime host CPU count is unavailable")
  | Some cpus =>
      require (negb (cpus <=? 0)) (RuntimeError "runtime host CPU count is unavailable");;
      match meminfo with
      | None => Err (RuntimeError "runtime host RAM information is unavailable")
      | Some text =>
          ram ← meminfo_ram_mb (splitlines text);
          match ram with
          | None => Err (RuntimeError "runtime host RAM information is invalid")
          | Some mb =>
              require (negb (mb <=? 0)) (RuntimeError "runtime host RAM information is invalid");;
              let architecture := strip machine in
              require (str_truthy architecture)
                (RuntimeError "runtime host architecture is unavailable");;
              mk_RuntimeHostFacts cpus mb architecture []
          end
      end
  end.

(** ** From a deployment to a runtime *)

Section runtime.
Context {R : Type}.

(** [_PROVIDER_TYPES]: for a provider, the constructor of its configuration and of itself. *)
Variable provider_types : dict (dict pyval → result (RuntimeProvider R)).

(** [provider_from_deployment], runtime/deployment.py lines 298-308. *)
Definition provider_from_deployment (deployment : RuntimeDeploymentSpec)
    : result (RuntimeProvider R) :=
  match dget (ds_provider_id deployment) provider_types with
  | None => Err (ValueError ("unsupported runtime provider: " +:+ ds_provider_id deployment))
  | Some make => make (ds_provider_config deployment)
  end.

(** [build_runtime_deployment_spec], runtime/deployment.py lines 311-338. *)
Definition build_runtime_deployment_spec (provider : RuntimeProvider R)
    (context : RuntimeCompatibilityContext) (setup_intent : option RuntimeSetupIntent)
    : result RuntimeDeploymentSpec :=
  setup ← (match setup_intent with
           | Some s => Ok s | None => rp_setup_intent provider context end);
  require (bool_decide (si_provider_id setup = provider_key provider))
    (ValueError "runtime deployment setup intent changed provider identity");;
  config ← (match rp_config provider with
            | None => Ok []
            | Some c =>
                match _json_value c with
                | PDict d => Ok d
                | _ => Err (TypeError "runtime provider config must serialize to a mapping")
                end
            end);
  mk_RuntimeDeploymentSpec (provider_key provider) config (cx_demand context) (Some setup) "v1".

(** [managed_runtime_from_deployment], runtime/deployment.py lines 341-372. *)
Definition managed_runtime_from_deployment (deployment : RuntimeDeploymentSpec)
    (worker : WorkerSpec) (host : RuntimeHostFacts) : result R :=
  provider ← provider_from_deployment deployment;
  let context := {| cx_worker := worker; cx_host := host; cx_demand := ds_demand deployment |} in
  report ← rp_compatibility provider context;
  if negb (compatible report) then
    let detail := join "; " ((λ r, cr_code r +:+ ": " +:+ cr_message r) <$>
                             filter (λ r, cr_blocking r = true) (rc_reasons report)) in
    Err (RuntimeError ("persisted runtime deployment is incompatible with current Worker/host facts: "
                       +:+ detail))
  else
    intent ← (match ds_setup_intent deployment with
              | Some i => Ok i | None => rp_setup_intent provider context end);
    rp_create_runtime provider context intent.
End runtime.

(** ** Round trip *)

Definition wf_Deployment (s : RuntimeDeploymentSpec) : Prop :=
  nonblank (ds_provider_id s) ∧ ds_schema_version s = "v1" ∧ wf_ExecutionDemand (ds_demand s) ∧
  ∀ i, ds_setup_intent s = Some i → si_provider_id i = ds_provider_id s ∧ wf_RuntimeSetupIntent i.

Lemma mk_ModelDemand_id m : wf_ModelDemand m →
  mk_ModelDemand (md_model_ref m) (md_model_format m) (md_topology m)
    (of_opt_Z (md_estimated_size_mb m)) (md_metadata m) = Ok m.
Proof.
  intros (H1 & H2 & H3 & H4). unfold mk_ModelDemand. rewrite !nonblank_str_id by done.
  cbn [mbind result_bind]. destruct m as [r f t [z|] d]; cbn in *.
  - assert (0 < z) by by apply H4. rewrite nonnegative_Ok by lia. cbn [mbind result_bind].
    rewrite (proj2 (Z.eqb_neq z 0)) by lia. cbn. by rewrite H3.
  - by rewrite H3.
Qed.

Lemma mk_RuntimeSetupIntent_id i : wf_RuntimeSetupIntent i →
  mk_RuntimeSetupIntent (si_provider_id i) (si_package_references i) (si_configuration i)
    (si_model_preparation i) (of_opt_str (si_model_ref i)) (si_requires_privilege i)
    (si_metadata i) = Ok i.
Proof.
  intros (H1 & H2 & H3 & H4). unfold mk_RuntimeSetupIntent.
  rewrite nonblank_str_id by done. cbn [mbind result_bind].
  rewrite (mapR_id_Ok _ id), list_fmap_id.
  2: { intros x Hx. rewrite Forall_forall in H2. by apply nonblank_str_id, H2. }
  cbn [mbind result_bind]. unfold all_distinct. rewrite bool_decide_true by done.
  destruct i as [p k c m [r|] b d]; cbn in *; [|done].
  by rewrite nonblank_str_id by by apply H4.
Qed.

Lemma mapR_py_str l : mapR py_str (PStr <$> l) = Ok l.
Proof. induction l as [|x l IH]; [done|]. cbn [fmap list_fmap mapR]. cbn. by rewrite IH. Qed.

Lemma dict_or_empty_dict d : dict_or_empty (PDict d) = Ok d.
Proof. by destruct d. Qed.
Lemma int_or_zero_int z : int_or_zero (PInt z) = Ok z.
Proof. unfold int_or_zero, py_or. cbn. by destruct (Z.eqb_spec z 0) as [->|]. Qed.

Lemma demand_roundtrip d : wf_ExecutionDemand d →
  demand_from_dict (demand_to_dict d) (model_to_dict (ed_model d)) = Ok d.
Proof.
  intros H. pose proof (proj1 H) as Hm. unfold demand_from_dict.
  change (item "model_ref" _) with (Ok (PStr (md_model_ref (ed_model d)))).
  change (item "model_format" _) with (Ok (PStr (md_model_format (ed_model d)))).
  change (item "topology" _) with (Ok (PStr (enum_value (md_topology (ed_model d))))).
  change (get "metadata" (demand_to_dict d)) with (PDict (ed_metadata d)).
  change (get "metadata" _) with (PDict (md_metadata (ed_model d))).
  change (get "estimated_size_mb" _) with (of_opt_Z (md_estimated_size_mb (ed_model d))).
  change (item "residency_policy" _) with (Ok (PStr (enum_value (ed_residency_policy d)))).
  change (item "gpu_topology" _) with (Ok (PStr (enum_value (ed_gpu_topology d)))).
  change (get "min_gpu_count" _) with (PInt (ed_min_gpu_count d)).
  change (get "min_total_vram_mb" _) with (PInt (ed_min_total_vram_mb d)).
  change (get "min_single_gpu_vram_mb" _) with (PInt (ed_min_single_gpu_vram_mb d)).
  change (get "min_host_ram_mb" _) with (PInt (ed_min_host_ram_mb d)).
  change (get "preferred_host_ram_mb" _) with (PInt (ed_preferred_host_ram_mb d)).
  cbn [mbind result_bind py_str]. rewrite !enum_complete, !dict_or_empty_dict, !int_or_zero_int.
  cbn [mbind result_bind]. rewrite mk_ModelDemand_id by done. cbn [mbind result_bind].
  by apply mk_ExecutionDemand_id.
Qed.

Lemma intent_roundtrip i : wf_RuntimeSetupIntent i → intent_from_dict (intent_to_dict i) = Ok i.
Proof.
  intros H. unfold intent_from_dict.
  change (item "provider_id" _) with (Ok (PStr (si_provider_id i))).
  change (get_default "package_references" _ _) with (strs (si_package_references i)).
  change (get "configuration" _) with (PDict (si_configuration i)).
  change (get_default "model_preparation" _ _) with (PStr (enum_value (si_model_preparation i))).
  change (get "model_ref" _) with (of_opt_str (si_model_ref i)).
  change (get "requires_privilege" _) with (PBool (si_requires_privilege i)).
  change (get "metadata" _) with (PDict (si_metadata i)).
  cbn [mbind result_bind py_str py_iter strs]. rewrite mapR_py_str. cbn [mbind result_bind].
  rewrite enum_complete, !dict_or_empty_dict. cbn [mbind result_bind truthy].
  by apply mk_RuntimeSetupIntent_id.
Qed.

Lemma mk_RuntimeDeploymentSpec_id s : wf_Deployment s →
  mk_RuntimeDeploymentSpec (ds_provider_id s) (ds_provider_config s) (ds_demand s)
    (ds_setup_intent s) (ds_schema_version s) = Ok s.
Proof.
  intros ([Hs Hn] & Hv & _ & Hi). unfold mk_RuntimeDeploymentSpec.
  rewrite Hs, (proj2 (str_truthy_spec _)), Hv by done. cbn [require mbind result_bind].
  rewrite guard_true.
  - rewrite guard_true by done. destruct s; cbn in *; by subst.
  - destruct (ds_setup_intent s) as [i|]; [|done]. by apply bool_decide_eq_true, Hi.
Qed.

Lemma deployment_parse s : wf_Deployment s →
  deployment_from_dict (PDict (deployment_to_dict s)) = Ok s.
Proof.
  intros H. unfold deployment_from_dict. cbn [py_dict mbind result_bind].
  change (item "demand" _) with (Ok (PDict (demand_to_dict (ds_demand s)))).
  cbn [py_dict mbind result_bind].
  change (item "model" _) with (Ok (PDict (model_to_dict (ed_model (ds_demand s))))).
  cbn [py_dict mbind result_bind].
  change (get "setup_intent" _) with (match ds_setup_intent s with
    | None => PNone | Some i => PDict (intent_to_dict i) end).
  change (get_default "schema_version" _ _) with (PStr (ds_schema_version s)).
  change (item "provider_id" _) with (Ok (PStr (ds_provider_id s))).
  change (get "provider_config" _) with (PDict (ds_provider_config s)).
  destruct H as (H1 & H2 & H3 & H4). rewrite dict_or_empty_dict.
  pose proof (mk_RuntimeDeploymentSpec_id s (conj H1 (conj H2 (conj H3 H4)))) as Hmk.
  destruct (ds_setup_intent s) as [i|] eqn:Ei; cbn [py_dict mbind result_bind py_str];
    rewrite (demand_roundtrip (ds_demand s) H3); cbn [mbind result_bind]; [|done].
  by rewrite intent_roundtrip by by apply H4.
Qed.

(** ** Runtime deployments: what is persisted is what runs

    Freezing a provider's choice, writing it, reading it back and making the runtime: the
    provider, the demand and the intent are never replaced. *)

Section deployment.
Context {R : Type}.
Variable provider_types : dict (dict pyval → result (RuntimeProvider R)).

Lemma build_wf (provider : RuntimeProvider R) cx intent s :
  nonblank (provider_key provider) → wf_ExecutionDemand (cx_demand cx) →
  wf_RuntimeSetupIntent intent →
  build_runtime_deployment_spec provider cx (Some intent) = Ok s →
  wf_Deployment s ∧ ds_provider_id s = provider_key provider ∧ ds_demand s = cx_demand cx ∧
  ds_setup_intent s = Some intent ∧
  match rp_config provider with
  | None => ds_provider_config s = []
  | Some v => v = PDict (ds_provider_config s)
  end.
Proof.
  intros Hk Hd Hi H. unfold build_runtime_deployment_spec, mk_RuntimeDeploymentSpec in H.
  apply bind_Ok in H as (i & [= <-] & H). apply guard_Ok in H as [Hid H]. bools.
  apply bind_Ok in H as (c & Hc & H). simp_res. bools.
  destruct Hk as [Hs Hn]. rewrite Hs in *.
  split_and!; cbn; try done.
  - do 3 (split; [done|]). by intros i [= <-].
  - destruct (rp_config provider) as [v|]; [|by injection Hc as <-].
    unfold _json_value in Hc. destruct v; try done. by injection Hc as <-.
Qed.

(** A deployment makes a runtime exactly when its own provider, built from its own
    configuration, accepts the worker and host. *)
Lemma managed_runtime_Ok s w h rt :
  managed_runtime_from_deployment provider_types s w h = Ok rt ↔
  ∃ make provider report intent,
    let cx := {| cx_worker := w; cx_host := h; cx_demand := ds_demand s |} in
    dget (ds_provider_id s) provider_types = Some make ∧
    make (ds_provider_config s) = Ok provider ∧
    rp_compatibility provider cx = Ok report ∧ compatible report = true ∧
    (match ds_setup_intent s with Some i => Ok i | None => rp_setup_intent provider cx end) = Ok intent ∧
    rp_create_runtime provider cx intent = Ok rt.
Proof.
  unfold managed_runtime_from_deployment, provider_from_deployment. split.
  - intros (p & Hp & H)%bind_Ok. destruct (dget (ds_provider_id s) provider_types) as [make|]; [|done].
    apply bind_Ok in H as (report & Hr & H). destruct (compatible report) eqn:Ec; [|done].
    cbn [negb] in H. apply bind_Ok in H as (i & Hi & H). by exists make, p, report, i.
  - intros (make & p & report & i & -> & -> & Hr & Hc & Hi & H). cbn [mbind result_bind] in *.
    rewrite Hr. cbn [mbind result_bind]. rewrite Hc. cbn [negb]. rewrite Hi. done.
Qed.

(** A persisted deployment is the reviewed one.  Freezing a provider for a
    context and an intent, writing the specification as JSON and reading it back gives the
    same specification: the provider, its configuration, the demand and the intent; and the
    service makes a runtime from it exactly when that provider, rebuilt from that
    configuration, is compatible with the worker and host of the moment, and then with that
    demand and that intent - never with another provider. *)
Theorem deployment_faithful (provider : RuntimeProvider R) cx intent s w h rt :
  nonblank (provider_key provider) → wf_ExecutionDemand (cx_demand cx) →
  wf_RuntimeSetupIntent intent →
  build_runtime_deployment_spec provider cx (Some intent) = Ok s →
  deployment_from_dict (PDict (deployment_to_dict s)) = Ok s ∧
  (managed_runtime_from_deployment provider_types s w h = Ok rt ↔
   ∃ make provider' report config,
     let cx' := {| cx_worker := w; cx_host := h; cx_demand := cx_demand cx |} in
     dget (provider_key provider) provider_types = Some make ∧
     default (PDict []) (rp_config provider) = PDict config ∧ make config = Ok provider' ∧
     rp_compatibility provider' cx' = Ok report ∧ compatible report = true ∧
     rp_create_runtime provider' cx' intent = Ok rt).
Proof.
  intros Hk Hd Hi H. destruct (build_wf _ _ _ _ Hk Hd Hi H) as (Hw & Hp & Hdm & His & Hc).
  split; [by apply deployment_parse|]. rewrite managed_runtime_Ok, Hp, Hdm, His. split.
  - intros (make & p & report & i & H1 & H2 & H3 & H4 & [= <-] & H6).
    exists make, p, report, (ds_provider_config s). split_and!; try done.
    destruct (rp_config provider); cbn; [done|by rewrite Hc].
  - intros (make & p & report & config & H1 & H2 & H3 & H4 & H5 & H6).
    exists make, p, report, intent. split_and!; try done.
    destruct (rp_config provider) as [v|]; cbn in H2; [|injection H2 as <-; by rewrite Hc].
    rewrite H2 in Hc. by injection Hc as <-.
Qed.
End deployment.

(** ** A concrete deployment *)

Definition demo_setup_intent : RuntimeSetupIntent :=
  {| si_provider_id := "vllm"; si_package_references := ["pkg:vllm"];
     si_configuration := [("port", PInt 8000)]; si_model_preparation := REFERENCE_ONLY;
     si_model_ref := Some "m"; si_requires_privilege := true; si_metadata := [] |}.
Definition configured (port : Z) : RuntimeProvider Z :=
  {| rp_info := {| pi_provider_id := "vllm"; pi_display_name := "vLLM"; pi_description := EmptyString |};
     rp_compatibility := λ cx, Ok {| rc_provider_id := "vllm";
       rc_reasons := if hf_host_ram_mb (cx_host cx) <? 1000
                     then [blocking_reason "no" "too small"] else [] |};
     rp_setup_intent := λ _, Err (RuntimeError "none"); rp_create_runtime := λ _ _, Ok port;
     rp_config := Some (PDict [("port", PInt port)]) |}.
Definition make_configured (c : dict pyval) : result (RuntimeProvider Z) :=
  v ← item "port" c; p ← py_int v; Ok (configured p).
Definition demo_types : dict (dict pyval → result (RuntimeProvider Z)) :=
  [("vllm", make_configured)].
Definition demo_deployment : RuntimeDeploymentSpec :=
  {| ds_provider_id := "vllm"; ds_provider_config := [("port", PInt 8000)];
     ds_demand := demo_demand; ds_setup_intent := Some demo_setup_intent; ds_schema_version := "v1" |}.

Lemma deployment_faithful_witness :
  deployment_from_dict (PDict (deployment_to_dict demo_deployment)) = Ok demo_deployment ∧
  managed_runtime_from_deployment demo_types demo_deployment (cx_worker demo_context)
    (cx_host demo_context) = Ok 8000.
Proof.
  destruct (deployment_faithful demo_types (configured 8000) demo_context demo_setup_intent
    demo_deployment (cx_worker demo_context) (cx_host demo_context) 8000) as [H1 H2].
  - vm_decide.
  - unfold wf_ExecutionDemand, wf_ModelDemand.
    split_and!; cbn; try lia; try vm_decide. by intros z [= <-].
  - unfold wf_RuntimeSetupIntent. split_and!; cbn; try vm_decide. intros r [= <-]. vm_decide.
  - vm_compute. reflexivity.
  - split; [exact H1|]. apply H2.
    exists make_configured, (configured 8000), {| rc_provider_id := "vllm"; rc_reasons := [] |},
      [("port", PInt 8000)].
    repeat split; reflexivity.
Defined.
