(* ===== verification/ProviderLaws.v ===== *)
(** * What a provider promises

    Lemmas the providers share; every chat server is a lawful owned server; and the
    interface of a provider whose choices deploy as they were reviewed. *)

From Stdlib Require Import SpecFloat.
From S2P Require Import Prelude PyStr PyDict PyVal PyHost Effects PyText PyNum Contracts Models RuntimeContracts OwnedServer OwnedServerProps Planner ProviderBase Deployment.

(** ** Text *)

Lemma rstrip_char_cons c a s : rstrip_char c (String a s) =
  match rstrip_char c s with
  | EmptyString => if bool_decide (a = c) then EmptyString else String a EmptyString
  | r => String a r
  end.
Proof. reflexivity. Qed.

Lemma rstrip_char_idemp c s : rstrip_char c (rstrip_char c s) = rstrip_char c s.
Proof.
  induction s as [|a s IH]; [done|]. rewrite rstrip_char_cons.
  destruct (rstrip_char c s) as [|b r] eqn:E.
  - case_bool_decide; [done|]. by rewrite rstrip_char_cons, bool_decide_false.
  - by rewrite rstrip_char_cons, IH.
Qed.

Lemma nonblank_value_Ok v f s : _nonblank v f = Ok s → nonblank s.
Proof. unfold _nonblank. intros (t & _ & Hs)%bind_Ok. by apply nonblank_str_Ok in Hs as [_ ?]. Qed.
Lemma nonblank_value_id s f : nonblank s → _nonblank (PStr s) f = Ok s.
Proof. intros Hs. unfold _nonblank. cbn. by apply nonblank_str_id. Qed.

Lemma text_or_nonempty key v s d : dget key d = Some (PStr v) → v ≠ EmptyString → text_or key s d = Ok v.
Proof.
  intros Hk Hv. unfold text_or, py_or, get. rewrite Hk. by destruct v.
Qed.

Lemma mk_chat_executor_id names model_ref alias metadata : nonblank model_ref → nonblank alias →
  mk_chat_executor names model_ref alias metadata =
  Ok {| ce_names := names; ce_model_ref := model_ref; ce_alias := alias; ce_metadata := metadata |}.
Proof. intros Hm Ha. unfold mk_chat_executor. by rewrite !nonblank_str_id. Qed.

Lemma mapR_py_float l : mapR py_float (PFloat <$> l) = Ok l.
Proof. induction l as [|f l IH]; [done|]. cbn [fmap list_fmap mapR]. cbn. by rewrite IH. Qed.
Lemma mapR_py_int l : mapR py_int (PInt <$> l) = Ok l.
Proof. induction l as [|z l IH]; [done|]. cbn [fmap list_fmap mapR]. cbn. by rewrite IH. Qed.

Lemma existsb_reason_if b r : cr_blocking r = true → existsb cr_blocking (reason_if b r) = b.
Proof. intros H. destruct b; cbn; [by rewrite H|done]. Qed.

(** Numbers equal to an integer convert to it. *)
Lemma float_eq_Z_int f z : float_eq_Z f z = true → int_of_float f = Ok z.
Proof.
  destruct f as [| | |sign m e]; cbn [float_eq_Z int_of_float]; try done.
  - intros H%Z.eqb_eq. by subst.
  - destruct (Z.leb_spec 0 e) as [He|He]; intros H%Z.eqb_eq; f_equal.
    + rewrite <-H. destruct sign; lia.
    + assert (0 < 2 ^ (- e)) by (apply Z.pow_pos_nonneg; lia). destruct sign.
      * replace (Z.pos m) with (- z * 2 ^ (- e)) by lia. rewrite Z.div_mul by lia. lia.
      * rewrite H, Z.div_mul by lia. done.
Qed.
Lemma py_eqb_int v z : py_eqb v (PInt z) = true → py_int v = Ok z.
Proof.
  destruct v as [|b|z'|f| | |]; cbn; try done.
  - intros H%bool_decide_eq_true. by injection H as ->.
  - intros H%bool_decide_eq_true. by injection H as ->.
  - apply float_eq_Z_int.
Qed.

(** The base URL of a configuration, read again. *)
Lemma base_url_Ok m v u : loopback_base_url m v = Ok u → u ≠ EmptyString.
Proof.
  unfold loopback_base_url. intros (s & _ & H)%bind_Ok. apply bind_Ok in H as (p & Hp & H).
  apply guard_Ok in H as [Hl H]. apply bind_Ok in H as (port & Hport & H). apply guard_Ok in H as [_ H].
  injection H as <-. intros E. rewrite E in Hp. vm_compute in Hp. injection Hp as <-. done.
Qed.
Lemma base_url_id m v u : loopback_base_url m v = Ok u → stripped u → loopback_base_url m (PStr u) = Ok u.
Proof.
  intros H Hs. pose proof (base_url_Ok _ _ _ H) as Hn. revert H. unfold loopback_base_url.
  intros (s & _ & H)%bind_Ok. apply bind_Ok in H as (p & Hp & H). apply guard_Ok in H as [Hl H].
  apply bind_Ok in H as (port & Hport & H). apply guard_Ok in H as [Hsome H]. injection H as <-.
  rewrite nonblank_value_id by done. cbn [mbind result_bind]. rewrite rstrip_char_idemp, Hp.
  cbn [mbind result_bind]. rewrite Hl. cbn [require mbind result_bind]. rewrite Hport.
  cbn [mbind result_bind]. by rewrite Hsome.
Qed.

(** ** Calls of the executor *)

(** What a call that is made asks. *)
Lemma chat_call_Ok x job path body : chat_call x job = Ok (path, body) →
  jr_capability job ∈ LLM_CAPABILITIES ∧
  path = (if bool_decide (jr_capability job = "llm.chat") then "/v1/chat/completions" else "/v1/completions") ∧
  (get "model" (jr_payload job) = PNone ∨ ∃ name, py_str (get "model" (jr_payload job)) = Ok name ∧
     name ∈ [ce_model_ref x; ce_alias x]) ∧
  (jr_capability job = "llm.chat" → ∃ l, get "messages" body = PList l) ∧
  (jr_capability job = "text.generate" → ∃ p, get "prompt" body = PStr p) ∧
  get "model" body = PStr (ce_alias x) ∧ get "stream" body = PBool false.
Proof.
  unfold chat_call. intros H. apply guard_Ok in H as [Hcap H]. bools. split; [done|].
  apply bind_Ok in H as (payload & Hp & H). unfold chat_payload in Hp. apply bind_Ok in Hp as ([] & Hm & Hp).
  assert (get "model" (jr_payload job) = PNone ∨ ∃ name, py_str (get "model" (jr_payload job)) = Ok name ∧
     name ∈ [ce_model_ref x; ce_alias x]) as Hmodel.
  { destruct (get "model" (jr_payload job)); [by left|..]; right; apply bind_Ok in Hm as (name & Hn & Hm);
      exists name; (split; [done|]); apply require_Ok in Hm; by bools. }
  apply Ok_inj in Hp as <-.
  assert (get "model" (dset "stream" (PBool false) (dset "model" (PStr (ce_alias x)) (dremove "model" (jr_payload job))))
          = PStr (ce_alias x)) as Hmo.
  { unfold get. rewrite dget_dset_ne by done. by rewrite dget_dset_eq. }
  assert (get "stream" (dset "stream" (PBool false) (dset "model" (PStr (ce_alias x)) (dremove "model" (jr_payload job))))
          = PBool false) as Hst.
  { unfold get. by rewrite dget_dset_eq. }
  set (body' := dset "stream" _ _) in *. clearbody body'.
  case_bool_decide as Hc; apply guard_Ok in H as [Hg H]; apply Ok_inj in H; injection H as <- <-.
  - split_and!; try done; [|by rewrite Hc]. intros _. destruct (get "messages" body'); try done. eauto.
  - split_and!; try done. intros _. destruct (get "prompt" body'); try done. eauto.
Qed.

(** ** Chat servers are lawful *)

Section chat.
Context {W : Type} `{ServerWorld W}.

(** A JSON exchange is one request; a returned object was in a successful answer. *)
Lemma json_request_log non_object method path json (s : server W) :
  ∃ answer, sv_log (json_request non_object method path json s).1 = EvRequest method path json answer :: sv_log s ∧
    ∀ d, (json_request non_object method path json s).2 = Ok d →
      ∃ status, answer = Ok (status, Some (PDict d)) ∧ 200 <= status <= 299.
Proof.
  unfold json_request, request, mbind, eff_bind. destruct (sw_request _ _ _ _) as [w [[status body]|e]]; cbn.
  2:{ eexists. by split. }
  exists (Ok (status, body)). destruct ((200 <=? status) && (status <=? 299)) eqn:E; cbn; [|by split].
  bools. destruct body as [[]|]; cbn; split; try done. intros d' [= <-]. exists status. split; [done|lia].
Qed.

Lemma emits_served_models names : emits is_request (served_models (W:=W) names).
Proof.
  unfold served_models. apply emits_bind; [apply emits_json|]. intros body.
  destruct (dget "data" body) as [[]|]; first [apply emits_ret|apply emits_throws].
Qed.
Lemma emits_exposes names alias : emits is_request (exposes (W:=W) names alias).
Proof. unfold exposes. apply emits_bind; [apply emits_served_models|intros; apply emits_ret]. Qed.
Lemma emits_health_status non_object expected : emits is_request (health_status (W:=W) non_object expected).
Proof.
  unfold health_status. apply emits_catch.
  - apply emits_bind; [apply emits_json|]. intros. apply emits_ret.
  - intros []; first [apply emits_ret|apply emits_throws].
Qed.
Lemma timely_health_status `{!ServerClock W} non_object expected : timely (health_status (W:=W) non_object expected).
Proof.
  unfold health_status. apply timely_catch.
  - apply timely_bind; [apply timely_json|]. intros. apply timely_ret.
  - intros []; first [apply timely_ret|apply timely_throws].
Qed.

(** A process that is started once its command line is built. *)
Lemma spawn_by (alive : server W → bool) command environment wrap s : running s = false →
  (∃ e, (alive ← gets running;
         if alive : bool then mret tt
         else command ← lifts command; start_process command environment wrap) s = (s, Err e)) ∨
  (∃ c e w, (alive ← gets running;
             if alive : bool then mret tt
             else command ← lifts command; start_process command environment wrap) s = start_process c e w s).
Proof.
  intros Hr. unfold mbind at 1 3, eff_bind at 1 3. cbn [gets]. rewrite Hr. unfold mbind, eff_bind, lifts.
  destruct command as [c|e]; [right; eauto|left; eauto].
Qed.

Lemma chat_lawful names texts poll timeout model_ref alias spawn reachable :
  emits is_request reachable →
  (∀ s, running s = false → (∃ e, spawn s = (s, Err e)) ∨
        (∃ command environment wrap, spawn s = start_process command environment wrap s)) →
  LawfulBackend (chat_backend names texts poll timeout model_ref alias spawn reachable).
Proof.
  intros Hr Hs. split; cbn; try done.
  - apply emits_bind; [apply emits_exposes|]. intros. apply emits_ensure.
  - apply emits_ret.
  - apply emits_exposes.
  - apply emits_ret.
Qed.
End chat.

(** ** Providers whose choices deploy as reviewed *)

(** [provider] of a configuration; [of_dict] makes the configuration from keywords; [valid]
    configurations survive that; [described] is the runtime a configuration describes for a
    context, without any document in between. *)
Class ReviewedProvider {C R : Type} (provider : C → RuntimeProvider R) (of_dict : dict pyval → result C)
    (provider_id : string) (valid : C → Prop) (described : C → RuntimeCompatibilityContext → result R) := {
  reviewed_key c : provider_key (provider c) = provider_id;
  reviewed_key_stripped : nonblank provider_id;
  reviewed_config c : valid c → ∃ d, rp_config (provider c) = Some (PDict d) ∧ of_dict d = Ok c;
  reviewed_intent c cx i : valid c → wf_ExecutionDemand (cx_demand cx) →
    rp_setup_intent (provider c) cx = Ok i →
    si_provider_id i = provider_id ∧ wf_RuntimeSetupIntent i ∧
    (∃ report, rp_compatibility (provider c) cx = Ok report ∧ compatible report = true) ∧
    rp_create_runtime (provider c) cx i = described c cx;
  reviewed_refusal c cx report : rp_compatibility (provider c) cx = Ok report → compatible report = false →
    ∃ m, rp_setup_intent (provider c) cx = Err (RuntimeError m);
}.

Lemma mk_intent_id p k c pr r pv m i : nonblank p →
  mk_RuntimeSetupIntent p k c pr r pv m = Ok i → si_provider_id i = p ∧ si_configuration i = c.
Proof.
  intros Hp. unfold mk_RuntimeSetupIntent. rewrite nonblank_str_id by done. cbn [mbind result_bind].
  intros H. simp_res. done.
Qed.

Section reviewed.
Context {C R : Type} (provider : C → RuntimeProvider R) (of_dict : dict pyval → result C) (id : string)
  (valid : C → Prop) (described : C → RuntimeCompatibilityContext → result R)
  {RP : ReviewedProvider provider of_dict id valid described}.
Context (types : dict (dict pyval → result (RuntimeProvider R)))
  (Htypes : dget id types = Some (λ d, c ← of_dict d; Ok (provider c))).

Lemma reviewed_deployment c cx dep : valid c → wf_ExecutionDemand (cx_demand cx) →
  build_runtime_deployment_spec (provider c) cx None = Ok dep →
  deployment_from_dict (PDict (deployment_to_dict dep)) = Ok dep ∧
  managed_runtime_from_deployment types dep (cx_worker cx) (cx_host cx) = described c cx.
Proof.
  intros Hv Hd. unfold build_runtime_deployment_spec. intros (i & Hi & H)%bind_Ok.
  destruct (reviewed_intent c cx i Hv Hd Hi) as (Hid & Hw & (report & Hrep & Hcomp) & Hcreate).
  destruct (reviewed_config c Hv) as (d & Hcfg & Hof).
  apply guard_Ok in H as [_ H]. rewrite Hcfg in H. cbn [_json_value mbind result_bind] in H.
  rewrite reviewed_key in H. pose proof reviewed_key_stripped as Hnb.
  unfold mk_RuntimeDeploymentSpec in H. destruct Hnb as [Hs Hne]. rewrite Hs in H.
  apply guard_Ok in H as [_ H]. apply guard_Ok in H as [_ H]. cbn zeta in H.
  change (strip "v1") with "v1"%string in H. rewrite bool_decide_true in H by done.
  cbn [require mbind result_bind] in H. injection H as <-. split.
  - apply deployment_parse. split_and!; cbn; [done|done|done|]. intros i' [= <-]. done.
  - unfold managed_runtime_from_deployment, provider_from_deployment. cbn [ds_provider_id ds_provider_config].
    rewrite Htypes. cbn beta. rewrite Hof. cbn [mbind result_bind ds_demand ds_setup_intent].
    assert ({| cx_worker := cx_worker cx; cx_host := cx_host cx; cx_demand := cx_demand cx |} = cx) as ->
      by (by destruct cx).
    rewrite Hrep. cbn [mbind result_bind]. rewrite Hcomp. cbn [negb mbind result_bind]. done.
Qed.
End reviewed.
