(* ===== verification/LlamaCpp.v ===== *)
(** * The llama.cpp provider

    Models [src/src/astrumweaver/runtime/providers/llama_cpp.py]: the configuration, the
    launch policy, the command line, the executor and managed runtime as a chat server, and
    the provider.  The text of a float on the command line is an argument. *)

From Stdlib Require Import SpecFloat.
From S2P Require Import Prelude PyStr PyDict PyVal PyHost Effects PyText PyNum Contracts Models RuntimeContracts OwnedServer OwnedServerProps Planner ProviderBase Deployment ProviderLaws.

Definition LLAMA_CPP_PROVIDER_ID : string := "llama-cpp".

(** [LlamaCppSplitMode], runtime/providers/llama_cpp.py lines 46-50. *)
Inductive LlamaCppSplitMode := SPLIT_NONE | LAYER | ROW | TENSOR.
#[export] Instance LlamaCppSplitMode_eq : EqDecision LlamaCppSplitMode.
Proof. solve_decision. Defined.
#[export] Instance LlamaCppSplitMode_enum : StrEnum LlamaCppSplitMode := {
  enum_members := [SPLIT_NONE; LAYER; ROW; TENSOR];
  enum_value v := match v with SPLIT_NONE => "none" | LAYER => "layer" | ROW => "row" | TENSOR => "tensor" end;
  enum_name := "LlamaCppSplitMode" }.

(** ** Configuration *)

(** [LlamaCppProviderConfig], runtime/providers/llama_cpp.py lines 53-71. *)
Record LlamaCppProviderConfig := {
  lc_base_url : string;
  lc_executable : string;
  lc_package_reference : string;
  lc_startup_timeout_seconds : pyval;
  lc_request_timeout_seconds : pyval;
  lc_context_size : pyval;
  lc_gpu_layers : pyval;
  lc_split_mode : option LlamaCppSplitMode;
  lc_tensor_split : option (list spec_float);
  lc_main_gpu : pyval;
  lc_fit : pyval;
  lc_fit_target_mb : option (list Z);
  lc_cpu_moe : pyval;
  lc_n_cpu_moe : pyval;
  lc_n_cpu_ffn : pyval;
  lc_offline : pyval;
  lc_no_webui : pyval;
}.

(** [gpu_layers] of a configuration, runtime/providers/llama_cpp.py lines 104-112. *)
Definition check_gpu_layers (v : pyval) : result unit :=
  match v with
  | PNone => Ok tt
  | PBool _ => Err (TypeError "gpu_layers must be int, auto, all, or None")
  | PInt z => require (0 <=? z) (ValueError "gpu_layers must not be negative")
  | PStr s => require (bool_decide (s ∈ ["auto"; "all"])) (ValueError "gpu_layers must be int, auto, all, or None")
  | _ => Err (ValueError "gpu_layers must be int, auto, all, or None")
  end.

(** [tensor_split] of a configuration, runtime/providers/llama_cpp.py lines 121-125. *)
Definition mk_tensor_split (v : pyval) : result (option (list spec_float)) :=
  match v with
  | PNone => Ok None
  | v =>
      l ← py_iter v;
      split ← mapR py_float l;
      require (negb (Nat.eqb (length split) 0) && forallb (λ f, negb (float_le_zero f)) split)
        (ValueError "tensor_split values must be positive");;
      Ok (Some split)
  end.

(** [fit_target_mb] of a configuration, runtime/providers/llama_cpp.py lines 127-131. *)
Definition mk_fit_target (v : pyval) : result (option (list Z)) :=
  match v with
  | PNone => Ok None
  | v =>
      l ← py_iter v;
      targets ← mapR py_int l;
      require (negb (Nat.eqb (length targets) 0) && forallb (λ z, 0 <=? z) targets)
        (ValueError "fit_target_mb values must be non-negative");;
      Ok (Some targets)
  end.

(** [LlamaCppProviderConfig.__post_init__], runtime/providers/llama_cpp.py lines 73-136. *)
Definition mk_LlamaCppProviderConfig (base_url executable package_reference startup request context_size
    gpu_layers split_mode tensor_split main_gpu fit fit_target cpu_moe n_cpu_moe n_cpu_ffn offline
    no_webui : pyval) : result LlamaCppProviderConfig :=
  url ← loopback_base_url "llama.cpp provider requires a local loopback HTTP endpoint with port" base_url;
  exe ← _nonblank executable "executable";
  package ← _nonblank package_reference "package_reference";
  require_positive startup "startup_timeout_seconds must be positive";;
  require_positive request "request_timeout_seconds must be positive";;
  require_nonnegative context_size "context_size must not be negative";;
  require_nonnegative main_gpu "main_gpu must not be negative";;
  check_gpu_layers gpu_layers;;
  mode ← (match split_mode with PNone => Ok None | v => m ← enum_of_value v; Ok (Some m) end);
  split ← mk_tensor_split tensor_split;
  target ← mk_fit_target fit_target;
  optional (λ v, require_nonnegative v "n_cpu_moe must not be negative") n_cpu_moe;;
  optional (λ v, require_nonnegative v "n_cpu_ffn must not be negative") n_cpu_ffn;;
  Ok {| lc_base_url := url; lc_executable := exe; lc_package_reference := package;
        lc_startup_timeout_seconds := startup; lc_request_timeout_seconds := request;
        lc_context_size := context_size; lc_gpu_layers := gpu_layers; lc_split_mode := mode;
        lc_tensor_split := split; lc_main_gpu := main_gpu; lc_fit := fit; lc_fit_target_mb := target;
        lc_cpu_moe := cpu_moe; lc_n_cpu_moe := n_cpu_moe; lc_n_cpu_ffn := n_cpu_ffn;
        lc_offline := offline; lc_no_webui := no_webui |}.

(** The configuration from keywords, with the defaults, runtime/providers/llama_cpp.py lines 53-71. *)
Definition llama_config_of (d : dict pyval) : result LlamaCppProviderConfig :=
  known_keywords ["base_url"; "executable"; "package_reference"; "startup_timeout_seconds";
                  "request_timeout_seconds"; "context_size"; "gpu_layers"; "split_mode"; "tensor_split";
                  "main_gpu"; "fit"; "fit_target_mb"; "cpu_moe"; "n_cpu_moe"; "n_cpu_ffn"; "offline";
                  "no_webui"] d;;
  mk_LlamaCppProviderConfig (get_default "base_url" (PStr "http://127.0.0.1:8080") d)
    (get_default "executable" (PStr "llama-server") d) (get_default "package_reference" (PStr "llama-cpp") d)
    (get_default "startup_timeout_seconds" (PFloat (float_of_Z 120)) d)
    (get_default "request_timeout_seconds" (PFloat (float_of_Z 300)) d)
    (get_default "context_size" (PInt 4096) d) (get_default "gpu_layers" PNone d)
    (get_default "split_mode" PNone d) (get_default "tensor_split" PNone d)
    (get_default "main_gpu" (PInt 0) d) (get_default "fit" PNone d) (get_default "fit_target_mb" PNone d)
    (get_default "cpu_moe" (PBool false) d) (get_default "n_cpu_moe" PNone d)
    (get_default "n_cpu_ffn" PNone d) (get_default "offline" (PBool true) d)
    (get_default "no_webui" (PBool true) d).

(** [asdict(config)]. *)
Definition llama_config_to_dict (c : LlamaCppProviderConfig) : dict pyval :=
  [("base_url", PStr (lc_base_url c)); ("executable", PStr (lc_executable c));
   ("package_reference", PStr (lc_package_reference c));
   ("startup_timeout_seconds", lc_startup_timeout_seconds c);
   ("request_timeout_seconds", lc_request_timeout_seconds c);
   ("context_size", lc_context_size c); ("gpu_layers", lc_gpu_layers c);
   ("split_mode", of_opt (λ m, PStr (enum_value m)) (lc_split_mode c));
   ("tensor_split", of_opt floats (lc_tensor_split c)); ("main_gpu", lc_main_gpu c); ("fit", lc_fit c);
   ("fit_target_mb", of_opt ints (lc_fit_target_mb c)); ("cpu_moe", lc_cpu_moe c);
   ("n_cpu_moe", lc_n_cpu_moe c); ("n_cpu_ffn", lc_n_cpu_ffn c); ("offline", lc_offline c);
   ("no_webui", lc_no_webui c)].

(** ** The launch policy *)

(** [LlamaCppLaunchPolicy], runtime/providers/llama_cpp.py lines 139-149. *)
Record LlamaCppLaunchPolicy := {
  lp_gpu_layers : pyval;
  lp_split_mode : LlamaCppSplitMode;
  lp_fit : pyval;
  lp_tensor_split : option (list spec_float);
  lp_fit_target_mb : option (list Z);
  lp_main_gpu : pyval;
  lp_cpu_moe : pyval;
  lp_n_cpu_moe : pyval;
  lp_n_cpu_ffn : pyval;
}.

(** [_launch_policy], runtime/providers/llama_cpp.py lines 152-195. *)
Definition llama_launch_policy (cx : RuntimeCompatibilityContext) (c : LlamaCppProviderConfig)
    : LlamaCppLaunchPolicy :=
  let demand := cx_demand cx in
  let count := gpu_count (resources (cx_worker cx)) in
  let vram_only := bool_decide (ed_residency_policy demand = VRAM_ONLY) in
  let layers := match lc_gpu_layers c with
                | PNone => PStr (if vram_only then "all" else "auto")
                | v => v
                end in
  let mode := match lc_split_mode c with
              | Some m => m
              | None => if bool_decide (ed_gpu_topology demand = MULTI_GPU) then LAYER else SPLIT_NONE
              end in
  let fit := match lc_fit c with PNone => PBool (negb vram_only) | v => v end in
  {| lp_gpu_layers := if count =? 0 then PInt 0 else layers;
     lp_split_mode := if count =? 0 then SPLIT_NONE else mode;
     lp_fit := if count =? 0 then PBool false else fit;
     lp_tensor_split := lc_tensor_split c; lp_fit_target_mb := lc_fit_target_mb c;
     lp_main_gpu := lc_main_gpu c; lp_cpu_moe := lc_cpu_moe c; lp_n_cpu_moe := lc_n_cpu_moe c;
     lp_n_cpu_ffn := lc_n_cpu_ffn c |}.

(** ** The process *)

(** [LlamaCppSubprocessController.__init__], runtime/providers/llama_cpp.py lines 290-312. *)
Record llama_process := {
  lx_executable : string;
  lx_base_url : string;
  lx_model_ref : string;
  lx_model_alias : string;
  lx_gpu_uuids : list string;
  lx_context_size : Z;
  lx_policy : LlamaCppLaunchPolicy;
  lx_offline : bool;
  lx_no_webui : bool;
}.

Section command.
Variable float_repr : spec_float → string.

(** The options for the visible GPUs, runtime/providers/llama_cpp.py lines 347-379. *)
Definition llama_gpu_options (p : llama_process) : result (list string) :=
  let policy := lx_policy p in
  match lx_gpu_uuids p with
  | [] => Ok []
  | uuids =>
      main ← (if bool_decide (lp_split_mode policy ∈ [SPLIT_NONE; ROW])
              then s ← py_text float_repr (lp_main_gpu policy); Ok ["--main-gpu"; s]
              else Ok []);
      Ok (["--device"; join "," ((λ index, "CUDA" +:+ str_of_Z (Z.of_nat index)) <$> seq 0 (length uuids));
           "--split-mode"; enum_value (lp_split_mode policy)]
          ++ main
          ++ (if lp_tensor_split policy is Some l then ["--tensor-split"; join "," (float_repr <$> l)] else [])
          ++ (if lp_fit_target_mb policy is Some l then ["--fit-target"; join "," (str_of_Z <$> l)] else []))
  end.

(** [LlamaCppSubprocessController.command], runtime/providers/llama_cpp.py lines 318-392. *)
Definition llama_command (p : llama_process) : result (list string) :=
  let policy := lx_policy p in
  host ← host_and_port (lx_base_url p);
  layers ← py_text float_repr (lp_gpu_layers policy);
  gpus ← llama_gpu_options p;
  moe ← option_of float_repr "--n-cpu-moe" (lp_n_cpu_moe policy);
  ffn ← option_of float_repr "--n-cpu-ffn" (lp_n_cpu_ffn policy);
  Ok ([lx_executable p; "--host"; host.1; "--port"; str_of_Z host.2; "--model"; lx_model_ref p;
       "--alias"; lx_model_alias p; "--parallel"; "1"; "--ctx-size"; str_of_Z (lx_context_size p);
       "--n-gpu-layers"; layers; "--fit"; if truthy (lp_fit policy) then "on" else "off"]
      ++ (if lx_no_webui p then ["--no-webui"] else [])
      ++ (if lx_offline p then ["--offline"] else [])
      ++ gpus
      ++ (if truthy (lp_cpu_moe policy) then ["--cpu-moe"] else [])
      ++ moe ++ ffn).

Section runtime.
Context {W : Type} `{ServerWorld W}.

(** [LlamaCppSubprocessController.start], runtime/providers/llama_cpp.py lines 394-408. *)
Definition llama_spawn (p : llama_process) : eff (server W) unit :=
  alive ← gets running;
  if alive : bool then mret tt
  else
    command ← lifts (llama_command p);
    start_process command
      (λ env, match lx_gpu_uuids p with [] => env | l => dset "CUDA_VISIBLE_DEVICES" (join "," l) env end)
      (λ _, RuntimeError "failed to start llama.cpp server process").
End runtime.

(** ** The managed runtime *)

(** [LlamaCppExecutor] and its client among the chat servers, runtime/providers/llama_cpp.py lines 424-439. *)
Definition llama_names : chat_names := {|
  cn_provider_id := LLAMA_CPP_PROVIDER_ID;
  cn_label := "llama.cpp";
  cn_alias_key := "model_alias";
  cn_kind := "gguf-model";
  cn_non_object := "llama.cpp server returned a non-object response";
  cn_invalid_models := "llama.cpp /v1/models returned invalid data";
|}.

(** The messages of [LlamaCppManagedRuntime], runtime/providers/llama_cpp.py lines 585-683. *)
Definition llama_texts : chat_texts := {|
  ct_released := "llama.cpp runtime has already been released";
  ct_external := "an external llama.cpp server is already using the configured endpoint";
  ct_exited := "llama.cpp owned process exited before readiness; inspect Worker service logs";
  ct_timeout := "llama.cpp server did not become ready before timeout";
  ct_unexposed := "llama.cpp server did not expose the configured model alias";
  ct_health_external := "external llama.cpp process detected at managed endpoint";
  ct_health_inventory := "llama.cpp model inventory is unavailable";
  ct_health_unavailable := "configured llama.cpp model alias is unavailable";
|}.

(** [residency_metadata], runtime/providers/llama_cpp.py lines 564-579. *)
Definition llama_residency (cx : RuntimeCompatibilityContext) (policy : LlamaCppLaunchPolicy) : dict pyval :=
  [("residency_policy", PStr (enum_value (ed_residency_policy (cx_demand cx))));
   ("gpu_topology", PStr (enum_value (ed_gpu_topology (cx_demand cx))));
   ("gpu_count", PInt (gpu_count (resources (cx_worker cx))));
   ("gpu_layers", lp_gpu_layers policy); ("split_mode", PStr (enum_value (lp_split_mode policy)));
   ("fit", lp_fit policy); ("tensor_split", of_opt floats (lp_tensor_split policy));
   ("cpu_moe", lp_cpu_moe policy); ("n_cpu_moe", lp_n_cpu_moe policy); ("n_cpu_ffn", lp_n_cpu_ffn policy)].

(** [LlamaCppManagedRuntime.__init__], runtime/providers/llama_cpp.py lines 541-580. *)
Record llama_runtime := {
  lr_process : llama_process;
  lr_context : RuntimeCompatibilityContext;
  lr_startup_timeout : pyval;
  lr_executor : chat_executor;
}.

(** [LlamaCppManagedRuntime], runtime/providers/llama_cpp.py lines 538-695. *)
Definition llama_backend {W : Type} `{ServerWorld W} (rt : llama_runtime) : backend W :=
  chat_backend llama_names llama_texts 100 (lr_startup_timeout rt) (lx_model_ref (lr_process rt))
    (lx_model_alias (lr_process rt)) (llama_spawn (lr_process rt)) health_endpoint.

(** [LlamaCppExecutor.residency] at the instant [now], runtime/providers/llama_cpp.py lines 525-535. *)
Definition llama_residency_report (rt : llama_runtime) (now : datetime) : result ResidencyReport :=
  residency_report (lr_executor rt) None (ce_metadata (lr_executor rt)) now.

(** ** The provider *)

(** [v not in (None, 0)]. *)
Definition not_none_or_zero (v : pyval) : bool := negb (py_eqb v PNone || py_eqb v (PInt 0)).

(** The reasons of the [vram_only] policy, runtime/providers/llama_cpp.py lines 747-800. *)
Definition llama_vram_only_reasons (cx : RuntimeCompatibilityContext) (policy : LlamaCppLaunchPolicy)
    : list CompatibilityReason :=
  let model := ed_model (cx_demand cx) in
  let res := resources (cx_worker cx) in
  (match md_estimated_size_mb model with
   | None => [blocking_reason "model-size-required-for-vram-only"
                "llama.cpp vram_only planning requires an estimated GGUF size"]
   | Some size =>
       if bool_decide (ed_gpu_topology (cx_demand cx) = SINGLE_GPU) then
         reason_if (max_single_gpu_vram_mb res <? size)
           (blocking_reason "model-exceeds-single-gpu-vram"
              "estimated GGUF size exceeds the selected single GPU VRAM")
       else
         reason_if (total_vram_mb res <? size)
           (blocking_reason "model-exceeds-total-vram" "estimated GGUF size exceeds Worker total VRAM")
   end)
  ++ reason_if (negb (py_eqb (lp_gpu_layers policy) (PStr "all")) || truthy (lp_fit policy))
       (blocking_reason "vram-only-policy-overridden" "vram_only requires gpu_layers=all and fit=off")
  ++ reason_if (truthy (lp_cpu_moe policy) || not_none_or_zero (lp_n_cpu_moe policy)
                || not_none_or_zero (lp_n_cpu_ffn policy))
       (blocking_reason "cpu-offload-conflicts-with-vram-only"
          "CPU FFN/MoE offload options conflict with vram_only").

(** The reasons of a multi-GPU demand, runtime/providers/llama_cpp.py lines 837-890. *)
Definition llama_multi_gpu_reasons (cx : RuntimeCompatibilityContext) (policy : LlamaCppLaunchPolicy)
    : list CompatibilityReason :=
  let count := gpu_count (resources (cx_worker cx)) in
  reason_if (bool_decide (lp_split_mode policy = SPLIT_NONE))
    (blocking_reason "multi-gpu-split-mode-invalid" "multi_gpu requires a split mode other than none")
  ++ reason_if (match lp_tensor_split policy with
                | Some l => negb (Z.of_nat (length l) =? count) | None => false end)
       (blocking_reason "tensor-split-length-mismatch"
          "tensor_split must contain one proportion per Worker GPU")
  ++ reason_if (match lp_fit_target_mb policy with
                | Some l => negb (bool_decide (Z.of_nat (length l) ∈ [1; count])) | None => false end)
       (blocking_reason "fit-target-length-mismatch"
          "fit_target_mb must contain one value or one value per Worker GPU")
  ++ (if bool_decide (lp_split_mode policy = TENSOR) then
        [advice "tensor-split-experimental" "llama.cpp split_mode=tensor is upstream experimental"]
      else reason_if (bool_decide (lp_tensor_split policy = None))
        (advice "heterogeneous-auto-fit"
           "llama.cpp will fit/split across visible GPUs using its own device-memory information")).

(** The reasons of the model's topology, runtime/providers/llama_cpp.py lines 901-921. *)
Definition llama_topology_reasons (cx : RuntimeCompatibilityContext) (policy : LlamaCppLaunchPolicy)
    : list CompatibilityReason :=
  match md_topology (ed_model (cx_demand cx)) with
  | DENSE =>
      reason_if (truthy (lp_cpu_moe policy) || not_none_or_zero (lp_n_cpu_moe policy))
        (blocking_reason "moe-offload-on-dense-model" "cpu_moe/n_cpu_moe are only valid for MoE models")
  | MOE =>
      reason_if (not_none_or_zero (lp_n_cpu_ffn policy))
        (blocking_reason "dense-ffn-offload-on-moe-model"
           "n_cpu_ffn is reserved for dense FFN offload; use cpu_moe/n_cpu_moe for MoE expert weights")
  end.

(** The reasons of the hybrid policy, runtime/providers/llama_cpp.py lines 923-954. *)
Definition llama_hybrid_reasons (c : LlamaCppProviderConfig) (cx : RuntimeCompatibilityContext)
    (policy : LlamaCppLaunchPolicy) : list CompatibilityReason :=
  reason_if (match md_estimated_size_mb (ed_model (cx_demand cx)) with
             | Some size => total_vram_mb (resources (cx_worker cx)) + hf_host_ram_mb (cx_host cx) <? size
             | None => false
             end)
    (blocking_reason "model-exceeds-combined-memory"
       "estimated GGUF size exceeds combined Worker VRAM and host RAM")
  ++ reason_if (match lc_gpu_layers c, lp_n_cpu_moe policy, lp_n_cpu_ffn policy with
                | PNone, PNone, PNone => negb (truthy (lp_cpu_moe policy)) | _, _, _ => false end)
       (advice "hybrid-offload-auto"
          "llama.cpp will choose GPU layer placement automatically; set provider offload options for an explicit partition").

(** Whether the main GPU is not visible, runtime/providers/llama_cpp.py lines 813-818. *)
Definition main_gpu_outside (cx : RuntimeCompatibilityContext) (policy : LlamaCppLaunchPolicy) : result bool :=
  let count := gpu_count (resources (cx_worker cx)) in
  if (0 <? count) && bool_decide (lp_split_mode policy ∈ [SPLIT_NONE; ROW])
  then ge_Z (lp_main_gpu policy) count else Ok false.

(** [LlamaCppProvider.compatibility], runtime/providers/llama_cpp.py lines 729-959. *)
Definition llama_compatibility (c : LlamaCppProviderConfig) (cx : RuntimeCompatibilityContext)
    : result RuntimeCompatibility :=
  let demand := cx_demand cx in
  let policy := llama_launch_policy cx c in
  outside ← main_gpu_outside cx policy;
  mk_RuntimeCompatibility LLAMA_CPP_PROVIDER_ID
    (reason_if (negb (bool_decide (md_model_format (ed_model demand) = "gguf")))
       (blocking_reason "model-format-unsupported" "llama.cpp provider requires model_format=gguf")
     ++ (if bool_decide (ed_residency_policy demand = VRAM_ONLY) then llama_vram_only_reasons cx policy else [])
     ++ reason_if (negb (bool_decide (ed_gpu_topology demand = MULTI_GPU))
                   && negb (bool_decide (lp_tensor_split policy = None)))
          (blocking_reason "tensor-split-requires-multi-gpu" "tensor_split is only valid for multi_gpu execution")
     ++ reason_if outside
          (blocking_reason "main-gpu-outside-visible-set"
             "main_gpu must refer to a GPU inside the Worker-visible set")
     ++ reason_if (bool_decide (ed_gpu_topology demand = SINGLE_GPU)
                   && negb (bool_decide (lp_split_mode policy = SPLIT_NONE)))
          (blocking_reason "single-gpu-split-mode-invalid" "single_gpu requires split_mode=none")
     ++ (if bool_decide (ed_gpu_topology demand = MULTI_GPU) then llama_multi_gpu_reasons cx policy else [])
     ++ reason_if (bool_decide (ed_gpu_topology demand = NO_GPU) && negb (bool_decide (lc_tensor_split c = None)))
          (blocking_reason "cpu-only-tensor-split-invalid" "CPU-only execution cannot use tensor_split")
     ++ llama_topology_reasons cx policy
     ++ (if bool_decide (ed_residency_policy demand = CPU_GPU_HYBRID)
         then llama_hybrid_reasons c cx policy else [])).

(** The configuration of the intent, runtime/providers/llama_cpp.py lines 974-1001. *)
Definition llama_configuration (c : LlamaCppProviderConfig) (cx : RuntimeCompatibilityContext) : dict pyval :=
  let policy := llama_launch_policy cx c in
  let model_ref := md_model_ref (ed_model (cx_demand cx)) in
  [("base_url", PStr (lc_base_url c)); ("executable", PStr (lc_executable c));
   ("model_ref", PStr model_ref); ("model_alias", PStr "astrumweaver");
   ("context_size", lc_context_size c); ("gpu_uuids", strs (gpu_uuids (cx_worker cx)));
   ("gpu_layers", lp_gpu_layers policy); ("split_mode", PStr (enum_value (lp_split_mode policy)));
   ("tensor_split", of_opt floats (lp_tensor_split policy)); ("main_gpu", lp_main_gpu policy);
   ("fit", lp_fit policy); ("fit_target_mb", of_opt ints (lp_fit_target_mb policy));
   ("cpu_moe", lp_cpu_moe policy); ("n_cpu_moe", lp_n_cpu_moe policy); ("n_cpu_ffn", lp_n_cpu_ffn policy);
   ("offline", lc_offline c); ("no_webui", lc_no_webui c); ("capabilities", strs LLM_CAPABILITIES)].

(** [LlamaCppProvider.setup_intent], runtime/providers/llama_cpp.py lines 961-1006. *)
Definition llama_setup_intent (c : LlamaCppProviderConfig) (cx : RuntimeCompatibilityContext)
    : result RuntimeSetupIntent :=
  report ← llama_compatibility c cx;
  require (compatible report) (RuntimeError "cannot build llama.cpp setup intent for incompatible demand");;
  let model_ref := md_model_ref (ed_model (cx_demand cx)) in
  mk_RuntimeSetupIntent LLAMA_CPP_PROVIDER_ID [lc_package_reference c]
    (llama_configuration c cx)
    REFERENCE_ONLY (PStr model_ref) true [("runtime_provider", PStr LLAMA_CPP_PROVIDER_ID)].

(** The lists of a policy in a setup configuration, runtime/providers/llama_cpp.py lines 1041-1050. *)
Definition list_of {A} (f : pyval → result A) (v : pyval) : result (option (list A)) :=
  match v with PList l => l' ← mapR f l; Ok (Some l') | _ => Ok None end.

(** The policy of a setup configuration, runtime/providers/llama_cpp.py lines 1029-1063. *)
Definition llama_policy_of (c : LlamaCppProviderConfig) (cx : RuntimeCompatibilityContext) (cfg : dict pyval)
    : result LlamaCppLaunchPolicy :=
  let policy := llama_launch_policy cx c in
  mode ← (s ← text_or "split_mode" (enum_value (lp_split_mode policy)) cfg; enum_of s);
  split ← list_of py_float (get "tensor_split" cfg);
  target ← list_of py_int (get "fit_target_mb" cfg);
  main ← py_int (get_default "main_gpu" (lc_main_gpu c) cfg);
  moe ← opt_int "n_cpu_moe" cfg;
  ffn ← opt_int "n_cpu_ffn" cfg;
  Ok {| lp_gpu_layers := get_default "gpu_layers" (lp_gpu_layers policy) cfg;
        lp_split_mode := mode;
        lp_fit := PBool (truthy (get_default "fit" (lp_fit policy) cfg));
        lp_tensor_split := split; lp_fit_target_mb := target; lp_main_gpu := PInt main;
        lp_cpu_moe := PBool (truthy (get_default "cpu_moe" (lc_cpu_moe c) cfg));
        lp_n_cpu_moe := of_opt_Z moe; lp_n_cpu_ffn := of_opt_Z ffn |}.

(** [LlamaCppProvider.create_runtime], runtime/providers/llama_cpp.py lines 1008-1088. *)
Definition llama_create_runtime (c : LlamaCppProviderConfig) (cx : RuntimeCompatibilityContext)
    (setup : RuntimeSetupIntent) : result llama_runtime :=
  require (bool_decide (si_provider_id setup = LLAMA_CPP_PROVIDER_ID))
    (ValueError "setup intent does not belong to llama.cpp provider");;
  report ← llama_compatibility c cx;
  require (compatible report) (RuntimeError "cannot create llama.cpp runtime for incompatible demand");;
  let cfg := si_configuration setup in
  base_url ← text_or "base_url" (lc_base_url c) cfg;
  model_ref ← text_or "model_ref" (md_model_ref (ed_model (cx_demand cx))) cfg;
  model_alias ← text_or "model_alias" "astrumweaver" cfg;
  executable ← text_or "executable" (lc_executable c) cfg;
  policy ← llama_policy_of c cx cfg;
  context_size ← py_int (get_default "context_size" (lc_context_size c) cfg);
  executor ← mk_chat_executor llama_names model_ref model_alias (llama_residency cx policy);
  Ok {| lr_process := {| lx_executable := executable; lx_base_url := base_url; lx_model_ref := model_ref;
                         lx_model_alias := model_alias; lx_gpu_uuids := gpu_uuids (cx_worker cx);
                         lx_context_size := context_size; lx_policy := policy;
                         lx_offline := truthy (get_default "offline" (lc_offline c) cfg);
                         lx_no_webui := truthy (get_default "no_webui" (lc_no_webui c) cfg) |};
        lr_context := cx; lr_startup_timeout := lc_startup_timeout_seconds c; lr_executor := executor |}.

(** [LlamaCppProvider], runtime/providers/llama_cpp.py lines 698-727. *)
Definition LlamaCppProvider (c : LlamaCppProviderConfig) : RuntimeProvider llama_runtime := {|
  rp_info := {| pi_provider_id := LLAMA_CPP_PROVIDER_ID; pi_display_name := "llama.cpp";
                pi_description :=
                  "GGUF runtime for GPU-resident, CPU/GPU hybrid, and heterogeneous multi-GPU inference." |};
  rp_compatibility := llama_compatibility c;
  rp_setup_intent := llama_setup_intent c;
  rp_create_runtime := llama_create_runtime c;
  rp_config := Some (PDict (llama_config_to_dict c));
|}.
End command.

(** ** The llama.cpp provider: deployment and the VRAM-only guarantee *)

#[export] Instance LlamaCppSplitMode_lawful : LawfulEnum LlamaCppSplitMode.
Proof. constructor. by intros []. Qed.

(** ** The managed runtime keeps the interface *)

#[export] Instance llama_lawful {W} `{ServerWorld W} float_repr rt : LawfulBackend (llama_backend float_repr rt).
Proof. apply chat_lawful; [apply emits_health_endpoint|]. intros s Hs. by apply (spawn_by running). Qed.

Lemma llama_timely {W} `{ServerClock W} float_repr rt : timely (bk_reachable (llama_backend float_repr rt)).
Proof. apply timely_health_endpoint. Qed.

(** ** Configuration *)

Lemma mk_tensor_split_id v o : mk_tensor_split v = Ok o → mk_tensor_split (of_opt floats o) = Ok o.
Proof.
  assert (∀ l, (l0 ← py_iter v; split ← mapR py_float l0;
      require (negb (Nat.eqb (length split) 0) && forallb (λ f, negb (float_le_zero f)) split)
        (ValueError "tensor_split values must be positive");; Ok (Some split)) = Ok l →
      mk_tensor_split (of_opt floats l) = Ok l) as Hx.
  { intros l (l0 & _ & H)%bind_Ok. apply bind_Ok in H as (s & _ & H). apply guard_Ok in H as [Hg H].
    injection H as <-. cbn [of_opt floats mk_tensor_split py_iter mbind result_bind].
    rewrite mapR_py_float. cbn [mbind result_bind]. by rewrite Hg. }
  destruct v; cbn [mk_tensor_split]; [by intros [= <-]|apply Hx..].
Qed.

Lemma mk_fit_target_id v o : mk_fit_target v = Ok o → mk_fit_target (of_opt ints o) = Ok o.
Proof.
  assert (∀ l, (l0 ← py_iter v; targets ← mapR py_int l0;
      require (negb (Nat.eqb (length targets) 0) && forallb (λ z, 0 <=? z) targets)
        (ValueError "fit_target_mb values must be non-negative");; Ok (Some targets)) = Ok l →
      mk_fit_target (of_opt ints l) = Ok l) as Hx.
  { intros l (l0 & _ & H)%bind_Ok. apply bind_Ok in H as (s & _ & H). apply guard_Ok in H as [Hg H].
    injection H as <-. cbn [of_opt ints mk_fit_target py_iter mbind result_bind].
    rewrite mapR_py_int. cbn [mbind result_bind]. by rewrite Hg. }
  destruct v; cbn [mk_fit_target]; [by intros [= <-]|apply Hx..].
Qed.

(** A configuration the constructor accepts, its URL without surrounding space. *)
Definition llama_valid (c : LlamaCppProviderConfig) : Prop :=
  stripped (lc_base_url c) ∧
  ∃ b e p st rq cs gl sm ts mg fit ft cm nm nf off nw,
    mk_LlamaCppProviderConfig b e p st rq cs gl sm ts mg fit ft cm nm nf off nw = Ok c.

Lemma llama_config_id c : llama_valid c → llama_config_of (llama_config_to_dict c) = Ok c.
Proof.
  intros (Hs & b & e & p & st & rq & cs & gl & sm & ts & mg & fit & ft & cm & nm & nf & off & nw & H).
  unfold mk_LlamaCppProviderConfig in H.
  apply bind_Ok in H as (url & Hurl & H). apply bind_Ok in H as (exe & He & H).
  apply bind_Ok in H as (pk & Hp & H). apply bind_Ok in H as ([] & Hst & H).
  apply bind_Ok in H as ([] & Hrq & H). apply bind_Ok in H as ([] & Hcs & H).
  apply bind_Ok in H as ([] & Hmg & H). apply bind_Ok in H as ([] & Hgl & H).
  apply bind_Ok in H as (mode & Hsm & H). apply bind_Ok in H as (split & Hts & H).
  apply bind_Ok in H as (target & Hft & H). apply bind_Ok in H as ([] & Hnm & H).
  apply bind_Ok in H as ([] & Hnf & H). injection H as <-. cbn [lc_base_url] in Hs.
  apply nonblank_value_Ok in He, Hp. apply mk_tensor_split_id in Hts. apply mk_fit_target_id in Hft.
  set (cfg := Build_LlamaCppProviderConfig _ _ _ _ _ _ _ _ _ _ _ _ _ _ _ _ _).
  change (llama_config_of (llama_config_to_dict cfg)) with
    (mk_LlamaCppProviderConfig (PStr url) (PStr exe) (PStr pk) st rq cs gl
       (of_opt (λ m, PStr (enum_value m)) mode) (of_opt floats split) mg fit (of_opt ints target) cm nm nf off nw).
  unfold mk_LlamaCppProviderConfig. rewrite (base_url_id _ _ _ Hurl Hs). cbn [mbind result_bind].
  rewrite !nonblank_value_id by done. cbn [mbind result_bind].
  rewrite Hst, Hrq, Hcs, Hmg, Hgl. cbn [mbind result_bind].
  destruct mode as [m|]; cbn [of_opt enum_of_value]; [rewrite enum_complete|];
    cbn [mbind result_bind]; rewrite Hts, Hft; cbn [mbind result_bind]; rewrite Hnm, Hnf; reflexivity.
Qed.

(** ** Deployment *)

(** The policy as the process takes it: counts as integers, switches as booleans. *)
Definition llama_coerced (policy : LlamaCppLaunchPolicy) : result LlamaCppLaunchPolicy :=
  main ← py_int (lp_main_gpu policy);
  moe ← opt_int "n" [("n", lp_n_cpu_moe policy)];
  ffn ← opt_int "n" [("n", lp_n_cpu_ffn policy)];
  Ok {| lp_gpu_layers := lp_gpu_layers policy; lp_split_mode := lp_split_mode policy;
        lp_fit := PBool (truthy (lp_fit policy)); lp_tensor_split := lp_tensor_split policy;
        lp_fit_target_mb := lp_fit_target_mb policy; lp_main_gpu := PInt main;
        lp_cpu_moe := PBool (truthy (lp_cpu_moe policy)); lp_n_cpu_moe := of_opt_Z moe;
        lp_n_cpu_ffn := of_opt_Z ffn |}.

(** The runtime a configuration describes. *)
Definition llama_described (c : LlamaCppProviderConfig) (cx : RuntimeCompatibilityContext) : result llama_runtime :=
  policy ← llama_coerced (llama_launch_policy cx c);
  context_size ← py_int (lc_context_size c);
  let model_ref := md_model_ref (ed_model (cx_demand cx)) in
  Ok {| lr_process := {| lx_executable := lc_executable c; lx_base_url := lc_base_url c;
                         lx_model_ref := model_ref; lx_model_alias := "astrumweaver";
                         lx_gpu_uuids := gpu_uuids (cx_worker cx); lx_context_size := context_size;
                         lx_policy := policy; lx_offline := truthy (lc_offline c);
                         lx_no_webui := truthy (lc_no_webui c) |};
        lr_context := cx; lr_startup_timeout := lc_startup_timeout_seconds c;
        lr_executor := {| ce_names := llama_names; ce_model_ref := model_ref; ce_alias := "astrumweaver";
                          ce_metadata := llama_residency cx policy |} |}.

Lemma llama_valid_text c : llama_valid c → lc_base_url c ≠ EmptyString ∧ nonblank (lc_executable c) ∧
  nonblank (lc_package_reference c).
Proof.
  intros (_ & b & e & p & st & rq & cs & gl & sm & ts & mg & fit & ft & cm & nm & nf & off & nw & H).
  unfold mk_LlamaCppProviderConfig in H.
  apply bind_Ok in H as (url & Hurl & H). apply bind_Ok in H as (exe & He & H).
  apply bind_Ok in H as (pk & Hp & H). simp_res. cbn. apply base_url_Ok in Hurl.
  apply nonblank_value_Ok in He, Hp. done.
Qed.

Lemma llama_policy_coerced c cx :
  llama_policy_of c cx (llama_configuration c cx) = llama_coerced (llama_launch_policy cx c).
Proof.
  unfold llama_policy_of. set (policy := llama_launch_policy cx c).
  rewrite (text_or_nonempty "split_mode" (enum_value (lp_split_mode policy))) by (try done; by destruct (lp_split_mode policy)).
  cbn [mbind result_bind]. rewrite enum_complete. cbn [mbind result_bind].
  change (get "tensor_split" _) with (of_opt floats (lp_tensor_split policy)).
  change (get "fit_target_mb" _) with (of_opt ints (lp_fit_target_mb policy)).
  change (get_default "main_gpu" _ _) with (lp_main_gpu policy).
  change (get_default "gpu_layers" _ _) with (lp_gpu_layers policy).
  change (get_default "fit" _ _) with (lp_fit policy).
  change (get_default "cpu_moe" _ _) with (lp_cpu_moe policy).
  change (opt_int "n_cpu_moe" _) with (opt_int "n" [("n", lp_n_cpu_moe policy)]).
  change (opt_int "n_cpu_ffn" _) with (opt_int "n" [("n", lp_n_cpu_ffn policy)]).
  assert (list_of py_float (of_opt floats (lp_tensor_split policy)) = Ok (lp_tensor_split policy)) as ->.
  { destruct (lp_tensor_split policy) as [l|]; [|done]. cbn [of_opt floats list_of]. by rewrite mapR_py_float. }
  assert (list_of py_int (of_opt ints (lp_fit_target_mb policy)) = Ok (lp_fit_target_mb policy)) as ->.
  { destruct (lp_fit_target_mb policy) as [l|]; [|done]. cbn [of_opt ints list_of]. by rewrite mapR_py_int. }
  reflexivity.
Qed.

Lemma astrumweaver_nonblank : nonblank "astrumweaver".
Proof. by vm_compute. Qed.
#[local] Hint Resolve astrumweaver_nonblank : core.

#[export] Instance llama_reviewed :
  ReviewedProvider LlamaCppProvider llama_config_of LLAMA_CPP_PROVIDER_ID llama_valid llama_described.
Proof.
  split.
  - done.
  - by vm_compute.
  - intros c Hc. exists (llama_config_to_dict c). split; [done|]. by apply llama_config_id.
  - intros c cx i Hc Hd. cbn [rp_setup_intent rp_compatibility rp_create_runtime LlamaCppProvider].
    unfold llama_setup_intent. intros (report & Hrep & H)%bind_Ok. apply guard_Ok in H as [Hcomp H].
    pose proof (mk_RuntimeSetupIntent_wf _ _ _ _ _ _ _ _ H) as Hw.
    apply mk_intent_id in H as [Hid Hcfg]; [|by vm_compute].
    split; [done|]. split; [done|]. split; [by exists report|].
    destruct (llama_valid_text c Hc) as (Hu & [_ He] & _). destruct Hd as ((Hm & _) & _). destruct Hm as [Hms Hme].
    unfold llama_create_runtime. rewrite Hid, bool_decide_true by done. cbn [require mbind result_bind].
    rewrite Hrep. cbn [mbind result_bind]. rewrite Hcomp, Hcfg. cbn [require mbind result_bind].
    rewrite (text_or_nonempty "base_url" (lc_base_url c)) by done.
    rewrite (text_or_nonempty "model_ref" (md_model_ref (ed_model (cx_demand cx)))) by done.
    rewrite (text_or_nonempty "model_alias" "astrumweaver") by done.
    rewrite (text_or_nonempty "executable" (lc_executable c)) by done.
    cbn [mbind result_bind]. rewrite llama_policy_coerced. unfold llama_described.
    destruct (llama_coerced _) as [policy|e]; [|done]. cbn [mbind result_bind].
    change (get_default "context_size" _ _) with (lc_context_size c).
    destruct (py_int (lc_context_size c)) as [size|e]; [|done]. cbn [mbind result_bind].
    by rewrite mk_chat_executor_id.
  - intros c cx report Hrep Hcomp. cbn [rp_setup_intent rp_compatibility LlamaCppProvider] in *.
    unfold llama_setup_intent. rewrite Hrep. cbn [mbind result_bind]. rewrite Hcomp. cbn. eauto.
Qed.

(** ** The [vram_only] policy *)

Lemma not_none_or_zero_false v : not_none_or_zero v = false → v = PNone ∨ py_int v = Ok 0.
Proof.
  unfold not_none_or_zero. intros H%negb_false_iff. destruct v as [|b|z|f| | |]; try done; [by left|right..].
  - by destruct b.
  - cbn in H. apply bool_decide_eq_true in H. by injection H as ->.
  - cbn in H. by apply float_eq_Z_int.
Qed.

Lemma py_eqb_str v s : py_eqb v (PStr s) = true → v = PStr s.
Proof. destruct v; try done. cbn. intros H%bool_decide_eq_true. by subst. Qed.

(** What a compatible [vram_only] demand asks of the launch. *)
Lemma llama_vram_only_policy c cx report : llama_compatibility c cx = Ok report → compatible report = true →
  ed_residency_policy (cx_demand cx) = VRAM_ONLY →
  let policy := llama_launch_policy cx c in
  lp_gpu_layers policy = PStr "all" ∧ truthy (lp_fit policy) = false ∧ truthy (lp_cpu_moe policy) = false ∧
  not_none_or_zero (lp_n_cpu_moe policy) = false ∧ not_none_or_zero (lp_n_cpu_ffn policy) = false ∧
  ∃ size, md_estimated_size_mb (ed_model (cx_demand cx)) = Some size ∧
    size <= (if bool_decide (ed_gpu_topology (cx_demand cx) = SINGLE_GPU)
             then max_single_gpu_vram_mb (resources (cx_worker cx)) else total_vram_mb (resources (cx_worker cx))).
Proof.
  intros Hrep Hcomp Hv policy. unfold llama_compatibility in Hrep. apply bind_Ok in Hrep as (outside & _ & Hrep).
  injection Hrep as <-. unfold compatible in Hcomp. cbn [rc_reasons] in Hcomp.
  rewrite !existsb_app, !negb_orb in Hcomp. apply andb_true_iff in Hcomp as [_ Hcomp].
  apply andb_true_iff in Hcomp as [Hcomp _]. rewrite bool_decide_true in Hcomp by done.
  fold policy in Hcomp. unfold llama_vram_only_reasons in Hcomp.
  rewrite !existsb_app, !existsb_reason_if, !negb_orb in Hcomp by done.
  apply andb_true_iff in Hcomp as [Hsize Hcomp]. apply andb_true_iff in Hcomp as [Hlay Hoff]. bools.
  split; [by apply py_eqb_str|]. split_and!; try done. destruct (md_estimated_size_mb _) as [size|]; [|done].
  exists size. split; [done|]. case_bool_decide; rewrite existsb_reason_if in Hsize by done; bools; lia.
Qed.

(** A count that is none or zero, on the command line. *)
Lemma zero_option float_repr name v o args : not_none_or_zero v = false →
  opt_int "n" [("n", v)] = Ok o → option_of float_repr name (of_opt_Z o) = Ok args →
  args = [] ∨ args = [name; "0"].
Proof.
  intros [->|Hv]%not_none_or_zero_false H.
  - change (opt_int "n" [("n", PNone)]) with (Ok (None : option Z)) in H. injection H as <-. intros [= <-]. by left.
  - unfold opt_int in H. change (get "n" [("n", v)]) with v in H.
    assert (v = PNone ∨ o = Some 0) as [-> | ->].
    { destruct v; [by left|..]; rewrite Hv in H; injection H as <-; by right. }
    + done.
    + intros [= <-]. by right.
Qed.

(** The command line of a described runtime under [vram_only]. *)
Lemma llama_vram_only_command float_repr c cx report rt args :
  llama_compatibility c cx = Ok report → compatible report = true →
  ed_residency_policy (cx_demand cx) = VRAM_ONLY →
  llama_described c cx = Ok rt → llama_command float_repr (lr_process rt) = Ok args →
  ∃ start switches gpus moe ffn,
    args = start ++ ["--n-gpu-layers"; "all"; "--fit"; "off"] ++ switches ++ gpus ++ moe ++ ffn ∧
    Forall (λ a, a ∈ ["--no-webui"; "--offline"]) switches ∧
    llama_gpu_options float_repr (lr_process rt) = Ok gpus ∧
    (moe = [] ∨ moe = ["--n-cpu-moe"; "0"]) ∧ (ffn = [] ∨ ffn = ["--n-cpu-ffn"; "0"]).
Proof.
  intros Hrep Hcomp Hv Hd Hc.
  destruct (llama_vram_only_policy c cx report Hrep Hcomp Hv) as (Hlay & Hfit & Hmoe & Hnm & Hnf & _).
  unfold llama_described in Hd. set (lp := llama_launch_policy cx c) in *. clearbody lp.
  apply bind_Ok in Hd as (policy & Hp & Hd). apply bind_Ok in Hd as (size & Hsz & Hd). injection Hd as <-. unfold llama_coerced in Hp.
  apply bind_Ok in Hp as (main & _ & Hp). apply bind_Ok in Hp as (m & Hm & Hp).
  apply bind_Ok in Hp as (f & Hf & Hp). injection Hp as <-. revert Hc. unfold llama_command. cbn [lr_process lx_policy].
  intros (host & _ & H)%bind_Ok. apply bind_Ok in H as (layers & Hl & H).
  apply bind_Ok in H as (gpus & Hg & H). apply bind_Ok in H as (moe & Hcm & H).
  apply bind_Ok in H as (ffn & Hcf & H). apply Ok_inj in H. cbn [lp_gpu_layers lp_n_cpu_moe lp_n_cpu_ffn] in *.
  rewrite Hlay in Hl. apply Ok_inj in Hl as <-.
  cbn [lp_fit lp_cpu_moe] in H. rewrite Hfit, Hmoe in H. cbn [truthy] in H. rewrite app_nil_l in H.
  exists [lc_executable c; "--host"; host.1; "--port"; str_of_Z host.2; "--model";
          md_model_ref (ed_model (cx_demand cx)); "--alias"; "astrumweaver"; "--parallel"; "1"; "--ctx-size";
          str_of_Z size],
    ((if truthy (lc_no_webui c) then ["--no-webui"] else [])
     ++ (if truthy (lc_offline c) then ["--offline"] else [])), gpus, moe, ffn.
  rewrite <-H. split; [|split; [|split; [exact Hg|]]].
  - cbn [app lx_executable lx_model_ref lx_model_alias lx_context_size lx_no_webui lx_offline].
    by rewrite <-!app_assoc.
  - apply Forall_app. rewrite !Forall_forall. split; intros a;
      [destruct (truthy (lc_no_webui c))|destruct (truthy (lc_offline c))]; set_solver.
  - split; [exact (zero_option float_repr _ _ _ _ Hnm Hm Hcm)|exact (zero_option float_repr _ _ _ _ Hnf Hf Hcf)].
Qed.
