(* ===== verification/Vllm.v ===== *)
(** * The vLLM provider

    Models [src/src/astrumweaver/runtime/providers/vllm.py]: the configuration, the launch
    policy, the command line, the executor and managed runtime as a chat server, and the
    provider.  The text of a float on the command line is an argument. *)

From Stdlib Require Import SpecFloat.
From S2P Require Import Prelude PyStr PyDict PyVal PyHost Effects PyText PyNum Contracts Models RuntimeContracts OwnedServer OwnedServerProps Planner ProviderBase Deployment ProviderLaws.

Definition VLLM_PROVIDER_ID : string := "vllm".
(** [VLLM_MODEL_FORMATS], runtime/providers/vllm.py lines 35-37. *)
Definition VLLM_MODEL_FORMATS : list string := ["huggingface"; "hf"; "safetensors"; "vllm"].

(** ** Configuration *)

(** [VllmProviderConfig], runtime/providers/vllm.py lines 47-61. *)
Record VllmProviderConfig := {
  vc_base_url : string;
  vc_executable : string;
  vc_package_reference : string;
  vc_startup_timeout_seconds : pyval;
  vc_request_timeout_seconds : pyval;
  vc_served_model_name : string;
  vc_gpu_memory_utilization : pyval;
  vc_tensor_parallel_size : pyval;
  vc_enable_expert_parallel : pyval;
  vc_cpu_offload_gb : pyval;
  vc_generation_config : string;
  vc_trust_remote_code : pyval;
  vc_enforce_eager : pyval;
}.

(** [VllmProviderConfig.__post_init__], runtime/providers/vllm.py lines 63-109. *)
Definition mk_VllmProviderConfig (base_url executable package_reference startup request served utilization
    tensor_parallel expert_parallel offload generation trust eager : pyval) : result VllmProviderConfig :=
  url ← loopback_base_url "vLLM provider requires a local loopback HTTP endpoint with port" base_url;
  exe ← _nonblank executable "executable";
  package ← _nonblank package_reference "package_reference";
  name ← _nonblank served "served_model_name";
  generation' ← _nonblank generation "generation_config";
  require_positive startup "startup_timeout_seconds must be positive";;
  require_positive request "request_timeout_seconds must be positive";;
  fraction ← unit_fraction utilization;
  require fraction (ValueError "gpu_memory_utilization must be greater than 0 and at most 1");;
  optional (λ v, require_positive v "tensor_parallel_size must be positive") tensor_parallel;;
  require_nonnegative offload "cpu_offload_gb must not be negative";;
  Ok {| vc_base_url := url; vc_executable := exe; vc_package_reference := package;
        vc_startup_timeout_seconds := startup; vc_request_timeout_seconds := request;
        vc_served_model_name := name; vc_gpu_memory_utilization := utilization;
        vc_tensor_parallel_size := tensor_parallel; vc_enable_expert_parallel := expert_parallel;
        vc_cpu_offload_gb := offload; vc_generation_config := generation';
        vc_trust_remote_code := trust; vc_enforce_eager := eager |}.

(** [0.92]. *)
Definition float_092 : spec_float := S754_finite false 8286623314361713 (-53).

(** The configuration from keywords, with the defaults, runtime/providers/vllm.py lines 47-61. *)
Definition vllm_config_of (d : dict pyval) : result VllmProviderConfig :=
  known_keywords ["base_url"; "executable"; "package_reference"; "startup_timeout_seconds";
                  "request_timeout_seconds"; "served_model_name"; "gpu_memory_utilization";
                  "tensor_parallel_size"; "enable_expert_parallel"; "cpu_offload_gb";
                  "generation_config"; "trust_remote_code"; "enforce_eager"] d;;
  mk_VllmProviderConfig (get_default "base_url" (PStr "http://127.0.0.1:8000") d)
    (get_default "executable" (PStr "vllm") d) (get_default "package_reference" (PStr "vllm") d)
    (get_default "startup_timeout_seconds" (PFloat (float_of_Z 180)) d)
    (get_default "request_timeout_seconds" (PFloat (float_of_Z 300)) d)
    (get_default "served_model_name" (PStr "astrumweaver") d)
    (get_default "gpu_memory_utilization" (PFloat float_092) d)
    (get_default "tensor_parallel_size" PNone d) (get_default "enable_expert_parallel" PNone d)
    (get_default "cpu_offload_gb" (PFloat (float_of_Z 0)) d)
    (get_default "generation_config" (PStr "vllm") d) (get_default "trust_remote_code" (PBool false) d)
    (get_default "enforce_eager" (PBool false) d).

(** [asdict(config)]. *)
Definition vllm_config_to_dict (c : VllmProviderConfig) : dict pyval :=
  [("base_url", PStr (vc_base_url c)); ("executable", PStr (vc_executable c));
   ("package_reference", PStr (vc_package_reference c));
   ("startup_timeout_seconds", vc_startup_timeout_seconds c);
   ("request_timeout_seconds", vc_request_timeout_seconds c);
   ("served_model_name", PStr (vc_served_model_name c));
   ("gpu_memory_utilization", vc_gpu_memory_utilization c);
   ("tensor_parallel_size", vc_tensor_parallel_size c);
   ("enable_expert_parallel", vc_enable_expert_parallel c); ("cpu_offload_gb", vc_cpu_offload_gb c);
   ("generation_config", PStr (vc_generation_config c)); ("trust_remote_code", vc_trust_remote_code c);
   ("enforce_eager", vc_enforce_eager c)].

(** ** The launch policy *)

(** [VllmLaunchPolicy], runtime/providers/vllm.py lines 112-118. *)
Record VllmLaunchPolicy := {
  vp_tensor_parallel_size : pyval;
  vp_enable_expert_parallel : pyval;
  vp_gpu_memory_utilization : pyval;
  vp_cpu_offload_gb : pyval;
  vp_device_ids : list string;
}.

(** [_launch_policy], runtime/providers/vllm.py lines 121-147. *)
Definition vllm_launch_policy (cx : RuntimeCompatibilityContext) (c : VllmProviderConfig) : VllmLaunchPolicy :=
  let multi := bool_decide (ed_gpu_topology (cx_demand cx) = MULTI_GPU) in
  {| vp_tensor_parallel_size :=
       match vc_tensor_parallel_size c with
       | PNone => PInt (if multi then gpu_count (resources (cx_worker cx)) else 1)
       | v => v
       end;
     vp_enable_expert_parallel :=
       match vc_enable_expert_parallel c with
       | PNone => PBool (bool_decide (md_topology (ed_model (cx_demand cx)) = MOE) && multi)
       | v => v
       end;
     vp_gpu_memory_utilization := vc_gpu_memory_utilization c;
     vp_cpu_offload_gb := vc_cpu_offload_gb c;
     vp_device_ids := gpu_uuids (cx_worker cx) |}.

(** ** The process *)

(** [VllmSubprocessController.__init__], runtime/providers/vllm.py lines 249-269. *)
Record vllm_process := {
  vx_executable : string;
  vx_base_url : string;
  vx_model_ref : string;
  vx_served_model_name : string;
  vx_policy : VllmLaunchPolicy;
  vx_generation_config : string;
  vx_trust_remote_code : bool;
  vx_enforce_eager : bool;
}.

Section command.
Variable float_repr : spec_float → string.

(** [VllmSubprocessController.command], runtime/providers/vllm.py lines 275-329. *)
Definition vllm_command (p : vllm_process) : result (list string) :=
  let policy := vx_policy p in
  host ← host_and_port (vx_base_url p);
  utilization ← py_text float_repr (vp_gpu_memory_utilization policy);
  several ← gt_Z (vp_tensor_parallel_size policy) 1;
  size ← py_text float_repr (vp_tensor_parallel_size policy);
  offloads ← gt_Z (vp_cpu_offload_gb policy) 0;
  offload ← py_text float_repr (vp_cpu_offload_gb policy);
  Ok ([vx_executable p; "serve"; vx_model_ref p; "--host"; host.1; "--port"; str_of_Z host.2;
       "--served-model-name"; vx_served_model_name p; "--generation-config"; vx_generation_config p;
       "--gpu-memory-utilization"; utilization]
      ++ (match vp_device_ids policy with [] => [] | l => ["--device-ids"; join "," l] end)
      ++ (if several : bool then ["--tensor-parallel-size"; size; "--distributed-executor-backend"; "mp"]
          else [])
      ++ (if truthy (vp_enable_expert_parallel policy) then ["--enable-expert-parallel"] else [])
      ++ (if offloads : bool then ["--cpu-offload-gb"; offload] else [])
      ++ (if vx_trust_remote_code p then ["--trust-remote-code"] else [])
      ++ (if vx_enforce_eager p then ["--enforce-eager"] else [])).

Section runtime.
Context {W : Type} `{ServerWorld W}.

(** [VllmSubprocessController.start], runtime/providers/vllm.py lines 331-339. *)
Definition vllm_spawn (p : vllm_process) : eff (server W) unit :=
  alive ← gets running;
  if alive : bool then mret tt
  else
    command ← lifts (vllm_command p);
    start_process command id (λ _, RuntimeError "failed to start vLLM server process").
End runtime.

(** ** The managed runtime *)

(** [VllmExecutor] and its client among the chat servers, runtime/providers/vllm.py lines 355-387. *)
Definition vllm_names : chat_names := {|
  cn_provider_id := VLLM_PROVIDER_ID;
  cn_label := "vLLM";
  cn_alias_key := "served_model_name";
  cn_kind := "vllm-model";
  cn_non_object := "vLLM returned a non-object response";
  cn_invalid_models := "vLLM /v1/models returned invalid data";
|}.

(** The messages of [VllmManagedRuntime], runtime/providers/vllm.py lines 517-613. *)
Definition vllm_texts : chat_texts := {|
  ct_released := "vLLM runtime has already been released";
  ct_external := "an external vLLM server is already using the configured endpoint";
  ct_exited := "vLLM owned process exited before readiness; inspect Worker service logs";
  ct_timeout := "vLLM server did not become ready before timeout";
  ct_unexposed := "vLLM server did not expose the configured model alias";
  ct_health_external := "external vLLM process detected at managed endpoint";
  ct_health_inventory := "vLLM model inventory is unavailable";
  ct_health_unavailable := "configured vLLM model alias is unavailable";
|}.

(** [residency_metadata], runtime/providers/vllm.py lines 498-511. *)
Definition vllm_residency (cx : RuntimeCompatibilityContext) (policy : VllmLaunchPolicy) : dict pyval :=
  [("residency_policy", PStr (enum_value (ed_residency_policy (cx_demand cx))));
   ("gpu_topology", PStr (enum_value (ed_gpu_topology (cx_demand cx))));
   ("gpu_count", PInt (gpu_count (resources (cx_worker cx))));
   ("tensor_parallel_size", vp_tensor_parallel_size policy);
   ("expert_parallel", vp_enable_expert_parallel policy);
   ("gpu_memory_utilization", vp_gpu_memory_utilization policy);
   ("cpu_offload_gb_per_gpu", vp_cpu_offload_gb policy); ("device_ids", strs (vp_device_ids policy))].

(** [VllmManagedRuntime.__init__], runtime/providers/vllm.py lines 475-512. *)
Record vllm_runtime := {
  vr_process : vllm_process;
  vr_context : RuntimeCompatibilityContext;
  vr_startup_timeout : pyval;
  vr_executor : chat_executor;
}.

(** [VllmManagedRuntime], runtime/providers/vllm.py lines 472-627. *)
Definition vllm_backend {W : Type} `{ServerWorld W} (rt : vllm_runtime) : backend W :=
  chat_backend vllm_names vllm_texts 200 (vr_startup_timeout rt) (vx_model_ref (vr_process rt))
    (vx_served_model_name (vr_process rt)) (vllm_spawn (vr_process rt)) health_endpoint.

(** [VllmExecutor.residency] at the instant [now], runtime/providers/vllm.py lines 459-469. *)
Definition vllm_residency_report (rt : vllm_runtime) (now : datetime) : result ResidencyReport :=
  residency_report (vr_executor rt) None (ce_metadata (vr_executor rt)) now.

(** ** The provider *)

(** [len({...}) != 1] of the values of a non-empty list, with [None in {...}] excluded. *)
Definition one_value {A} `{EqDecision A} (l : list A) : bool :=
  match l with [] => false | x :: l' => forallb (λ y, bool_decide (y = x)) l' end.
Definition one_known_value {A} `{EqDecision A} (l : list (option A)) : bool :=
  bool_decide (None ∉ l) && one_value l.

(** The reasons of a multi-GPU demand, runtime/providers/vllm.py lines 701-758. *)
Definition vllm_multi_gpu_reasons (cx : RuntimeCompatibilityContext) (policy : VllmLaunchPolicy)
    : list CompatibilityReason :=
  let count := gpu_count (resources (cx_worker cx)) in
  let devices := accelerators (cx_worker cx) in
  reason_if (negb (py_eqb (vp_tensor_parallel_size policy) (PInt count)))
    (blocking_reason "tensor-parallel-size-mismatch" "multi_gpu vLLM must use every GPU owned by the Worker")
  ++ (if negb (Z.of_nat (length devices) =? count) then
        [blocking_reason "accelerator-facts-required"
           "vLLM homogeneous multi-GPU validation requires per-device accelerator facts for every Worker GPU"]
      else
        reason_if (negb (one_value (ad_memory_mb <$> devices)))
          (blocking_reason "heterogeneous-vram-unsupported"
             "vLLM multi-GPU v0.x requires equal per-device VRAM capacity")
        ++ reason_if (negb (one_known_value (ad_compute_capability <$> devices)))
             (blocking_reason "heterogeneous-compute-capability-unsupported"
                "vLLM homogeneous multi-GPU validation requires the same known compute capability on every GPU")
        ++ reason_if (negb (one_known_value (ad_device_class <$> devices)))
             (blocking_reason "heterogeneous-device-class-unsupported"
                "vLLM homogeneous multi-GPU validation requires the same known device class on every GPU")).

(** The reasons of expert parallelism, runtime/providers/vllm.py lines 760-791. *)
Definition vllm_expert_reasons (cx : RuntimeCompatibilityContext) (policy : VllmLaunchPolicy)
    : list CompatibilityReason :=
  let moe := bool_decide (md_topology (ed_model (cx_demand cx)) = MOE) in
  if negb (truthy (vp_enable_expert_parallel policy)) then []
  else
    reason_if (negb moe)
      (blocking_reason "expert-parallel-requires-moe" "expert parallelism is only valid for MoE models")
    ++ reason_if (gpu_count (resources (cx_worker cx)) <? 2)
         (blocking_reason "expert-parallel-requires-multi-gpu" "expert parallelism requires a multi-GPU Worker")
    ++ reason_if (moe && bool_decide (ed_gpu_topology (cx_demand cx) = MULTI_GPU))
         (advice "expert-parallel-enabled" "vLLM expert parallelism will be enabled for MoE layers").

(** The RAM that offloading takes, runtime/providers/vllm.py lines 793-795. *)
Definition vllm_offload_total_mb (cx : RuntimeCompatibilityContext) (policy : VllmLaunchPolicy) : result Z :=
  gb ← mul_Z (vp_cpu_offload_gb policy) 1024;
  mb ← py_int gb;
  Ok (mb * Z.max (gpu_count (resources (cx_worker cx))) 1).

(** The reasons of the residency policy, runtime/providers/vllm.py lines 806-844. *)
Definition vllm_residency_reasons (cx : RuntimeCompatibilityContext) (offloads nonpositive : bool)
    : list CompatibilityReason :=
  match ed_residency_policy (cx_demand cx) with
  | VRAM_ONLY =>
      reason_if offloads
        (blocking_reason "cpu-offload-conflicts-with-vram-only" "vram_only cannot use vLLM CPU weight offload")
      ++ reason_if (bool_decide (md_estimated_size_mb (ed_model (cx_demand cx)) = None))
           (blocking_reason "model-size-required-for-vram-only"
              "vLLM vram_only planning requires estimated model size")
  | CPU_GPU_HYBRID =>
      [if nonpositive
       then blocking_reason "cpu-offload-not-configured"
              "vLLM cpu_gpu_hybrid requires explicit cpu_offload_gb"
       else advice "cpu-offload-interconnect-sensitive"
              "vLLM CPU weight offload transfers model data on forward passes and benefits from a fast CPU-GPU interconnect"]
  | PREFER_VRAM => []
  end.

(** Whether the model exceeds the budget, runtime/providers/vllm.py lines 846-860. *)
Definition vllm_over_budget (cx : RuntimeCompatibilityContext) (policy : VllmLaunchPolicy) (offload_total_mb : Z)
    : result bool :=
  let res := resources (cx_worker cx) in
  match md_estimated_size_mb (ed_model (cx_demand cx)) with
  | Some size =>
      if 0 <? gpu_count res then
        v ← mul_Z (vp_gpu_memory_utilization policy) (total_vram_mb res);
        vram_budget_mb ← py_int v;
        Ok (vram_budget_mb + offload_total_mb <? size)
      else Ok false
  | None => Ok false
  end.

(** [VllmProvider.compatibility], runtime/providers/vllm.py lines 661-865. *)
Definition vllm_compatibility (c : VllmProviderConfig) (cx : RuntimeCompatibilityContext)
    : result RuntimeCompatibility :=
  let demand := cx_demand cx in
  let policy := vllm_launch_policy cx c in
  offload_total_mb ← vllm_offload_total_mb cx policy;
  offloads ← gt_Z (vp_cpu_offload_gb policy) 0;
  nonpositive ← le_zero (vp_cpu_offload_gb policy);
  over_budget ← vllm_over_budget cx policy offload_total_mb;
  mk_RuntimeCompatibility VLLM_PROVIDER_ID
    (reason_if (negb (bool_decide (md_model_format (ed_model demand) ∈ VLLM_MODEL_FORMATS)))
       (blocking_reason "model-format-unsupported"
          "vLLM provider requires a Hugging Face/safetensors compatible model reference")
     ++ reason_if (bool_decide (ed_gpu_topology demand = NO_GPU))
          (blocking_reason "gpu-required" "first-class vLLM provider currently targets GPU Workers")
     ++ reason_if (bool_decide (ed_gpu_topology demand = SINGLE_GPU)
                   && negb (py_eqb (vp_tensor_parallel_size policy) (PInt 1)))
          (blocking_reason "tensor-parallel-size-mismatch" "single_gpu execution requires tensor_parallel_size=1")
     ++ (if bool_decide (ed_gpu_topology demand = MULTI_GPU) then vllm_multi_gpu_reasons cx policy else [])
     ++ vllm_expert_reasons cx policy
     ++ reason_if (offloads && (hf_host_ram_mb (cx_host cx) <? offload_total_mb))
          (blocking_reason "cpu-offload-exceeds-host-ram" "configured vLLM CPU offload exceeds available host RAM")
     ++ vllm_residency_reasons cx offloads nonpositive
     ++ reason_if over_budget
          (blocking_reason "model-exceeds-effective-memory-budget"
             "estimated model size exceeds configured vLLM VRAM plus CPU-offload budget")).

(** The configuration of the intent, runtime/providers/vllm.py lines 881-897. *)
Definition vllm_configuration (c : VllmProviderConfig) (cx : RuntimeCompatibilityContext) : dict pyval :=
  let policy := vllm_launch_policy cx c in
  let model_ref := md_model_ref (ed_model (cx_demand cx)) in
  [("base_url", PStr (vc_base_url c)); ("executable", PStr (vc_executable c));
   ("model_ref", PStr model_ref); ("served_model_name", PStr (vc_served_model_name c));
   ("gpu_uuids", strs (gpu_uuids (cx_worker cx)));
   ("tensor_parallel_size", vp_tensor_parallel_size policy);
   ("enable_expert_parallel", vp_enable_expert_parallel policy);
   ("gpu_memory_utilization", vp_gpu_memory_utilization policy);
   ("cpu_offload_gb", vp_cpu_offload_gb policy); ("generation_config", PStr (vc_generation_config c));
   ("trust_remote_code", vc_trust_remote_code c); ("enforce_eager", vc_enforce_eager c);
   ("capabilities", strs LLM_CAPABILITIES)].

(** [VllmProvider.setup_intent], runtime/providers/vllm.py lines 867-904. *)
Definition vllm_setup_intent (c : VllmProviderConfig) (cx : RuntimeCompatibilityContext)
    : result RuntimeSetupIntent :=
  report ← vllm_compatibility c cx;
  require (compatible report) (RuntimeError "cannot build vLLM setup intent for incompatible demand");;
  let model_ref := md_model_ref (ed_model (cx_demand cx)) in
  mk_RuntimeSetupIntent VLLM_PROVIDER_ID [vc_package_reference c]
    (vllm_configuration c cx)
    (_model_preparation model_ref) (PStr model_ref) true [("runtime_provider", PStr VLLM_PROVIDER_ID)].

(** The policy of a setup configuration, runtime/providers/vllm.py lines 930-956. *)
Definition vllm_policy_of (c : VllmProviderConfig) (cx : RuntimeCompatibilityContext) (cfg : dict pyval)
    : result VllmLaunchPolicy :=
  let policy := vllm_launch_policy cx c in
  size ← py_int (get_default "tensor_parallel_size" (vp_tensor_parallel_size policy) cfg);
  utilization ← py_float (get_default "gpu_memory_utilization" (vc_gpu_memory_utilization c) cfg);
  offload ← py_float (get_default "cpu_offload_gb" (vc_cpu_offload_gb c) cfg);
  Ok {| vp_tensor_parallel_size := PInt size;
        vp_enable_expert_parallel :=
          PBool (truthy (get_default "enable_expert_parallel" (vp_enable_expert_parallel policy) cfg));
        vp_gpu_memory_utilization := PFloat utilization; vp_cpu_offload_gb := PFloat offload;
        vp_device_ids := gpu_uuids (cx_worker cx) |}.

(** [VllmProvider.create_runtime], runtime/providers/vllm.py lines 906-990. *)
Definition vllm_create_runtime (c : VllmProviderConfig) (cx : RuntimeCompatibilityContext)
    (setup : RuntimeSetupIntent) : result vllm_runtime :=
  require (bool_decide (si_provider_id setup = VLLM_PROVIDER_ID))
    (ValueError "setup intent does not belong to vLLM provider");;
  report ← vllm_compatibility c cx;
  require (compatible report) (RuntimeError "cannot create vLLM runtime for incompatible demand");;
  let cfg := si_configuration setup in
  base_url ← text_or "base_url" (vc_base_url c) cfg;
  model_ref ← text_or "model_ref" (md_model_ref (ed_model (cx_demand cx))) cfg;
  served ← text_or "served_model_name" (vc_served_model_name c) cfg;
  executable ← text_or "executable" (vc_executable c) cfg;
  policy ← vllm_policy_of c cx cfg;
  generation ← py_str (get_default "generation_config" (PStr (vc_generation_config c)) cfg);
  executor ← mk_chat_executor vllm_names model_ref served (vllm_residency cx policy);
  Ok {| vr_process := {| vx_executable := executable; vx_base_url := base_url; vx_model_ref := model_ref;
                         vx_served_model_name := served; vx_policy := policy;
                         vx_generation_config := generation;
                         vx_trust_remote_code := truthy (get_default "trust_remote_code" (vc_trust_remote_code c) cfg);
                         vx_enforce_eager := truthy (get_default "enforce_eager" (vc_enforce_eager c) cfg) |};
        vr_context := cx; vr_startup_timeout := vc_startup_timeout_seconds c; vr_executor := executor |}.

(** [VllmProvider], runtime/providers/vllm.py lines 630-659. *)
Definition VllmProvider (c : VllmProviderConfig) : RuntimeProvider vllm_runtime := {|
  rp_info := {| pi_provider_id := VLLM_PROVIDER_ID; pi_display_name := "vLLM";
                pi_description := "GPU-resident high-throughput serving with tensor and expert parallelism." |};
  rp_compatibility := vllm_compatibility c;
  rp_setup_intent := vllm_setup_intent c;
  rp_create_runtime := vllm_create_runtime c;
  rp_config := Some (PDict (vllm_config_to_dict c));
|}.
End command.

(** ** The vLLM provider: deployment and the multi-GPU guarantee *)

#[export] Instance vllm_lawful {W} `{ServerWorld W} float_repr rt : LawfulBackend (vllm_backend float_repr rt).
Proof. apply chat_lawful; [apply emits_health_endpoint|]. intros s Hs. by apply (spawn_by running). Qed.

Lemma vllm_timely {W} `{ServerClock W} float_repr rt : timely (bk_reachable (vllm_backend float_repr rt)).
Proof. apply timely_health_endpoint. Qed.

(** ** Configuration *)

(** A configuration the constructor accepts, its URL without surrounding space. *)
Definition vllm_valid (c : VllmProviderConfig) : Prop :=
  stripped (vc_base_url c) ∧
  ∃ b e p st rq sn ut tp ep off gen tr ea, mk_VllmProviderConfig b e p st rq sn ut tp ep off gen tr ea = Ok c.

Lemma vllm_config_facts c : vllm_valid c → vllm_config_of (vllm_config_to_dict c) = Ok c ∧
  vc_base_url c ≠ EmptyString ∧ nonblank (vc_executable c) ∧ nonblank (vc_served_model_name c).
Proof.
  intros (Hs & b & e & p & st & rq & sn & ut & tp & ep & off & gen & tr & ea & H).
  unfold mk_VllmProviderConfig in H.
  apply bind_Ok in H as (url & Hurl & H). apply bind_Ok in H as (exe & He & H).
  apply bind_Ok in H as (pk & Hp & H). apply bind_Ok in H as (name & Hn & H).
  apply bind_Ok in H as (gen' & Hg & H). apply bind_Ok in H as ([] & Hst & H).
  apply bind_Ok in H as ([] & Hrq & H). apply bind_Ok in H as (fraction & Hut & H).
  apply bind_Ok in H as ([] & Hfr & H). apply bind_Ok in H as ([] & Htp & H).
  apply bind_Ok in H as ([] & Hoff & H). injection H as <-. cbn [vc_base_url] in Hs.
  apply nonblank_value_Ok in He, Hp, Hn, Hg. split; [|by apply base_url_Ok in Hurl].
  set (cfg := Build_VllmProviderConfig _ _ _ _ _ _ _ _ _ _ _ _ _).
  change (vllm_config_of (vllm_config_to_dict cfg)) with
    (mk_VllmProviderConfig (PStr url) (PStr exe) (PStr pk) st rq (PStr name) ut tp ep off (PStr gen') tr ea).
  unfold mk_VllmProviderConfig. rewrite (base_url_id _ _ _ Hurl Hs). cbn [mbind result_bind].
  rewrite !nonblank_value_id by done. cbn [mbind result_bind].
  rewrite Hst, Hrq, Hut. cbn [mbind result_bind]. rewrite Hfr. cbn [mbind result_bind].
  rewrite Htp, Hoff. reflexivity.
Qed.

(** ** Deployment *)

(** The policy as the process takes it. *)
Definition vllm_coerced (policy : VllmLaunchPolicy) : result VllmLaunchPolicy :=
  size ← py_int (vp_tensor_parallel_size policy);
  utilization ← py_float (vp_gpu_memory_utilization policy);
  offload ← py_float (vp_cpu_offload_gb policy);
  Ok {| vp_tensor_parallel_size := PInt size;
        vp_enable_expert_parallel := PBool (truthy (vp_enable_expert_parallel policy));
        vp_gpu_memory_utilization := PFloat utilization; vp_cpu_offload_gb := PFloat offload;
        vp_device_ids := vp_device_ids policy |}.

(** The runtime a configuration describes. *)
Definition vllm_described (c : VllmProviderConfig) (cx : RuntimeCompatibilityContext) : result vllm_runtime :=
  policy ← vllm_coerced (vllm_launch_policy cx c);
  let model_ref := md_model_ref (ed_model (cx_demand cx)) in
  Ok {| vr_process := {| vx_executable := vc_executable c; vx_base_url := vc_base_url c;
                         vx_model_ref := model_ref; vx_served_model_name := vc_served_model_name c;
                         vx_policy := policy; vx_generation_config := vc_generation_config c;
                         vx_trust_remote_code := truthy (vc_trust_remote_code c);
                         vx_enforce_eager := truthy (vc_enforce_eager c) |};
        vr_context := cx; vr_startup_timeout := vc_startup_timeout_seconds c;
        vr_executor := {| ce_names := vllm_names; ce_model_ref := model_ref;
                          ce_alias := vc_served_model_name c; ce_metadata := vllm_residency cx policy |} |}.

Lemma vllm_policy_coerced c cx :
  vllm_policy_of c cx (vllm_configuration c cx) = vllm_coerced (vllm_launch_policy cx c).
Proof. reflexivity. Qed.

#[export] Instance vllm_reviewed :
  ReviewedProvider VllmProvider vllm_config_of VLLM_PROVIDER_ID vllm_valid vllm_described.
Proof.
  split.
  - done.
  - by vm_compute.
  - intros c Hc. exists (vllm_config_to_dict c). split; [done|]. by apply vllm_config_facts.
  - intros c cx i Hc Hd. cbn [rp_setup_intent rp_compatibility rp_create_runtime VllmProvider].
    unfold vllm_setup_intent. intros (report & Hrep & H)%bind_Ok. apply guard_Ok in H as [Hcomp H].
    pose proof (mk_RuntimeSetupIntent_wf _ _ _ _ _ _ _ _ H) as Hw.
    apply mk_intent_id in H as [Hid Hcfg]; [|by vm_compute].
    split; [done|]. split; [done|]. split; [by exists report|].
    destruct (vllm_config_facts c Hc) as (_ & Hu & [_ He] & [Hss Hse]).
    destruct Hd as ((Hm & _) & _). destruct Hm as [Hms Hme].
    unfold vllm_create_runtime. rewrite Hid, bool_decide_true by done. cbn [require mbind result_bind].
    rewrite Hrep. cbn [mbind result_bind]. rewrite Hcomp, Hcfg. cbn [require mbind result_bind].
    rewrite (text_or_nonempty "base_url" (vc_base_url c)) by done.
    rewrite (text_or_nonempty "model_ref" (md_model_ref (ed_model (cx_demand cx)))) by done.
    rewrite (text_or_nonempty "served_model_name" (vc_served_model_name c)) by done.
    rewrite (text_or_nonempty "executable" (vc_executable c)) by done.
    cbn [mbind result_bind]. rewrite vllm_policy_coerced. unfold vllm_described.
    destruct (vllm_coerced _) as [policy|e]; [|done]. cbn [mbind result_bind].
    change (py_str (get_default "generation_config" _ _)) with (Ok (vc_generation_config c)).
    cbn [mbind result_bind]. by rewrite mk_chat_executor_id.
  - intros c cx report Hrep Hcomp. cbn [rp_setup_intent rp_compatibility VllmProvider] in *.
    unfold vllm_setup_intent. rewrite Hrep. cbn [mbind result_bind]. rewrite Hcomp. cbn. eauto.
Qed.

(** ** Multi-GPU demands *)

Lemma one_value_Forall {A} `{EqDecision A} (l : list A) : one_value l = true → ∃ x, Forall (λ y, y = x) l ∧ l ≠ [].
Proof.
  destruct l as [|x l]; [done|]. cbn [one_value]. rewrite forallb_forall. intros H. exists x.
  split; [|done]. constructor; [done|]. apply List.Forall_forall. intros y Hy. apply H in Hy. by bools.
Qed.
Lemma one_known_value_Forall {A} `{EqDecision A} (l : list (option A)) : one_known_value l = true →
  ∃ x, Forall (λ y, y = Some x) l.
Proof.
  intros H%andb_true_iff. destruct H as [Hn (o & Ho & Hne)%one_value_Forall]. bools.
  destruct o as [x|]; [by exists x|]. destruct l as [|y l]; [done|].
  apply Forall_cons_1 in Ho as [-> _]. destruct Hn. left.
Qed.

(** What a compatible multi-GPU demand asks of the worker and the launch. *)
Lemma vllm_multi_gpu_policy c cx report : vllm_compatibility c cx = Ok report → compatible report = true →
  ed_gpu_topology (cx_demand cx) = MULTI_GPU →
  let policy := vllm_launch_policy cx c in
  let count := gpu_count (resources (cx_worker cx)) in
  py_eqb (vp_tensor_parallel_size policy) (PInt count) = true ∧
  Z.of_nat (length (accelerators (cx_worker cx))) = count ∧
  (∃ memory capability class, Forall (λ d, ad_memory_mb d = memory ∧ ad_compute_capability d = Some capability ∧
     ad_device_class d = Some class) (accelerators (cx_worker cx))) ∧
  (truthy (vp_enable_expert_parallel policy) = true →
   md_topology (ed_model (cx_demand cx)) = MOE ∧ 2 <= count).
Proof.
  intros Hrep Hcomp Hm policy count. unfold vllm_compatibility in Hrep.
  apply bind_Ok in Hrep as (off & _ & Hrep). apply bind_Ok in Hrep as (o & _ & Hrep).
  apply bind_Ok in Hrep as (np & _ & Hrep). apply bind_Ok in Hrep as (ob & _ & Hrep).
  injection Hrep as <-. unfold compatible in Hcomp. cbn [rc_reasons] in Hcomp.
  rewrite !existsb_app, !negb_orb in Hcomp. fold policy in Hcomp.
  rewrite (bool_decide_true (ed_gpu_topology (cx_demand cx) = MULTI_GPU)) in Hcomp by done.
  do 3 apply andb_true_iff in Hcomp as [_ Hcomp]. apply andb_true_iff in Hcomp as [Hg Hcomp].
  apply andb_true_iff in Hcomp as [He _]. unfold vllm_multi_gpu_reasons in Hg. fold count in Hg.
  rewrite existsb_app, existsb_reason_if, negb_orb, negb_involutive in Hg by done.
  apply andb_true_iff in Hg as [Htp Hg]. split; [exact Htp|].
  destruct (Z.of_nat (length (accelerators (cx_worker cx))) =? count) eqn:Hl; [|done]. cbn [negb] in Hg.
  rewrite !existsb_app, !existsb_reason_if, !negb_orb, !negb_involutive in Hg by done.
  apply andb_true_iff in Hg as [(mem & Hmem & _)%one_value_Forall Hg].
  apply andb_true_iff in Hg as [(cap & Hcap)%one_known_value_Forall (cls & Hcls)%one_known_value_Forall].
  rewrite Forall_fmap in Hmem. rewrite Forall_fmap in Hcap. rewrite Forall_fmap in Hcls. split; [by apply Z.eqb_eq|]. split.
  - exists mem, cap, cls. rewrite !Forall_forall in *. intros d Hd. split_and!; [by apply Hmem|by apply Hcap|by apply Hcls].
  - intros Ht. unfold vllm_expert_reasons in He. rewrite Ht in He. cbn [negb] in He. fold count in He.
    rewrite !existsb_app, !existsb_reason_if, !negb_orb in He by done.
    apply andb_true_iff in He as [H1 He]. apply andb_true_iff in He as [H2 _]. bools. split; [done|lia].
Qed.

(** The ranks on the command line. *)
Lemma vllm_command_ranks float_repr p count args : vllm_command float_repr p = Ok args →
  vp_tensor_parallel_size (vx_policy p) = PInt count → 1 < count →
  ∃ start rest, args =
    start ++ ["--tensor-parallel-size"; str_of_Z count; "--distributed-executor-backend"; "mp"] ++ rest.
Proof.
  intros H Htp Hgt. unfold vllm_command in H. rewrite Htp in H. apply bind_Ok in H as (host & _ & H).
  apply bind_Ok in H as (u & _ & H). cbn [gt_Z mbind result_bind] in H.
  rewrite (proj2 (Z.ltb_lt 1 count)) in H by done. cbn [py_text py_str mbind result_bind] in H.
  apply bind_Ok in H as (o & _ & H). apply bind_Ok in H as (ot & _ & H). apply Ok_inj in H as <-.
  match goal with |- ∃ start rest, ?l ++ ?d ++ _ ++ ?r = _ => exists (l ++ d), r end.
  by rewrite <-app_assoc.
Qed.
