(* ===== verification/FreeToken.v ===== *)
(** * The FreeToken provider

    Models [src/src/astrumweaver/runtime/providers/freetoken.py]: the configuration, the
    launch policy, the command line, the executor and managed runtime as a chat server, and
    the provider.  The text of a float on the command line is an argument. *)

From Stdlib Require Import SpecFloat.
From S2P Require Import Prelude PyStr PyDict PyVal PyHost Effects PyText PyNum Contracts Models RuntimeContracts OwnedServer OwnedServerProps Planner ProviderBase Deployment ProviderLaws.

Definition FREETOKEN_PROVIDER_ID : string := "freetoken".
(** [FREETOKEN_MODEL_FORMATS], runtime/providers/freetoken.py lines 36-38. *)
Definition FREETOKEN_MODEL_FORMATS : list string := ["huggingface"; "hf"; "safetensors"; "ftw"].

(** [FreeTokenMoeStrategy], runtime/providers/freetoken.py lines 63-67. *)
Inductive FreeTokenMoeStrategy := STRATEGY_AUTO | STRATEGY_OFFLOAD | STRATEGY_CPU | STRATEGY_HYBRID.
#[export] Instance FreeTokenMoeStrategy_eq : EqDecision FreeTokenMoeStrategy.
Proof. solve_decision. Defined.
#[export] Instance FreeTokenMoeStrategy_enum : StrEnum FreeTokenMoeStrategy := {
  enum_members := [STRATEGY_AUTO; STRATEGY_OFFLOAD; STRATEGY_CPU; STRATEGY_HYBRID];
  enum_value v := match v with STRATEGY_AUTO => "auto" | STRATEGY_OFFLOAD => "offload"
                  | STRATEGY_CPU => "cpu" | STRATEGY_HYBRID => "hybrid" end;
  enum_name := "FreeTokenMoeStrategy" }.

(** ** Configuration *)

(** [FreeTokenProviderConfig], runtime/providers/freetoken.py lines 70-85. *)
Record FreeTokenProviderConfig := {
  fc_base_url : string;
  fc_executable : string;
  fc_package_reference : string;
  fc_startup_timeout_seconds : pyval;
  fc_request_timeout_seconds : pyval;
  fc_served_model_name : string;
  fc_moe_strategy : FreeTokenMoeStrategy;
  fc_memory_ratio : pyval;
  fc_moe_cache_size : pyval;
  fc_moe_cache_rate : pyval;
  fc_moe_cpu_threads : pyval;
  fc_moe_cpu_layers : pyval;
  fc_moe_hybrid_max_fetch : pyval;
  fc_max_running_requests : pyval;
}.

Definition is_none (v : pyval) : bool := if v is PNone then true else false.

(** [FreeTokenProviderConfig.__post_init__], runtime/providers/freetoken.py lines 87-146. *)
Definition mk_FreeTokenProviderConfig (base_url executable package_reference startup request served strategy
    ratio cache_size cache_rate cpu_threads cpu_layers max_fetch max_requests : pyval)
    : result FreeTokenProviderConfig :=
  url ← loopback_base_url "FreeToken provider requires a local loopback HTTP endpoint with port" base_url;
  exe ← _nonblank executable "executable";
  package ← _nonblank package_reference "package_reference";
  name ← _nonblank served "served_model_name";
  strategy' ← enum_of_value strategy;
  require_positive startup "startup_timeout_seconds must be positive";;
  require_positive request "request_timeout_seconds must be positive";;
  fraction ← unit_fraction ratio;
  require fraction (ValueError "memory_ratio must be greater than 0 and at most 1");;
  require_positive max_requests "max_running_requests must be positive";;
  optional (λ v, require_positive v "moe_cache_size must be positive when set") cache_size;;
  optional (λ v, b ← unit_fraction v;
                 require b (ValueError "moe_cache_rate must be greater than 0 and at most 1 when set")) cache_rate;;
  require (is_none cache_size || is_none cache_rate)
    (ValueError "moe_cache_size and moe_cache_rate are mutually exclusive");;
  optional (λ v, require_positive v "moe_cpu_threads must be positive when set") cpu_threads;;
  optional (λ v, b ← lt_Z v (-1); require (negb b) (ValueError "moe_hybrid_max_fetch must be >= -1 when set"))
    max_fetch;;
  require (match cpu_layers with PBool _ => false | _ => true end)
    (TypeError "moe_cpu_layers must not be boolean");;
  Ok {| fc_base_url := url; fc_executable := exe; fc_package_reference := package;
        fc_startup_timeout_seconds := startup; fc_request_timeout_seconds := request;
        fc_served_model_name := name; fc_moe_strategy := strategy'; fc_memory_ratio := ratio;
        fc_moe_cache_size := cache_size; fc_moe_cache_rate := cache_rate; fc_moe_cpu_threads := cpu_threads;
        fc_moe_cpu_layers := cpu_layers; fc_moe_hybrid_max_fetch := max_fetch;
        fc_max_running_requests := max_requests |}.

(** [0.9]. *)
Definition float_09 : spec_float := S754_finite false 8106479329266893 (-53).

(** The configuration from keywords, with the defaults, runtime/providers/freetoken.py lines 70-85. *)
Definition freetoken_config_of (d : dict pyval) : result FreeTokenProviderConfig :=
  known_keywords ["base_url"; "executable"; "package_reference"; "startup_timeout_seconds";
                  "request_timeout_seconds"; "served_model_name"; "moe_strategy"; "memory_ratio";
                  "moe_cache_size"; "moe_cache_rate"; "moe_cpu_threads"; "moe_cpu_layers";
                  "moe_hybrid_max_fetch"; "max_running_requests"] d;;
  mk_FreeTokenProviderConfig (get_default "base_url" (PStr "http://127.0.0.1:1919") d)
    (get_default "executable" (PStr "ft") d) (get_default "package_reference" (PStr "freetoken[accel]") d)
    (get_default "startup_timeout_seconds" (PFloat (float_of_Z 300)) d)
    (get_default "request_timeout_seconds" (PFloat (float_of_Z 300)) d)
    (get_default "served_model_name" (PStr "astrumweaver") d)
    (get_default "moe_strategy" (PStr "auto") d) (get_default "memory_ratio" (PFloat float_09) d)
    (get_default "moe_cache_size" PNone d) (get_default "moe_cache_rate" PNone d)
    (get_default "moe_cpu_threads" PNone d) (get_default "moe_cpu_layers" PNone d)
    (get_default "moe_hybrid_max_fetch" PNone d) (get_default "max_running_requests" (PInt 1) d).

(** [asdict(config)]. *)
Definition freetoken_config_to_dict (c : FreeTokenProviderConfig) : dict pyval :=
  [("base_url", PStr (fc_base_url c)); ("executable", PStr (fc_executable c));
   ("package_reference", PStr (fc_package_reference c));
   ("startup_timeout_seconds", fc_startup_timeout_seconds c);
   ("request_timeout_seconds", fc_request_timeout_seconds c);
   ("served_model_name", PStr (fc_served_model_name c));
   ("moe_strategy", PStr (enum_value (fc_moe_strategy c))); ("memory_ratio", fc_memory_ratio c);
   ("moe_cache_size", fc_moe_cache_size c); ("moe_cache_rate", fc_moe_cache_rate c);
   ("moe_cpu_threads", fc_moe_cpu_threads c); ("moe_cpu_layers", fc_moe_cpu_layers c);
   ("moe_hybrid_max_fetch", fc_moe_hybrid_max_fetch c); ("max_running_requests", fc_max_running_requests c)].

(** ** The launch policy *)

(** [FreeTokenLaunchPolicy], runtime/providers/freetoken.py lines 149-159. *)
Record FreeTokenLaunchPolicy := {
  fp_gpu_uuid : string;
  fp_moe_strategy : FreeTokenMoeStrategy;
  fp_memory_ratio : pyval;
  fp_moe_cache_size : pyval;
  fp_moe_cache_rate : pyval;
  fp_moe_cpu_threads : pyval;
  fp_moe_cpu_layers : pyval;
  fp_moe_hybrid_max_fetch : pyval;
  fp_max_running_requests : pyval;
}.

(** [_launch_policy], runtime/providers/freetoken.py lines 162-181. *)
Definition freetoken_launch_policy (cx : RuntimeCompatibilityContext) (c : FreeTokenProviderConfig)
    : FreeTokenLaunchPolicy :=
  {| fp_gpu_uuid := match gpu_uuids (cx_worker cx) with [u] => u | _ => EmptyString end;
     fp_moe_strategy := fc_moe_strategy c; fp_memory_ratio := fc_memory_ratio c;
     fp_moe_cache_size := fc_moe_cache_size c; fp_moe_cache_rate := fc_moe_cache_rate c;
     fp_moe_cpu_threads := fc_moe_cpu_threads c; fp_moe_cpu_layers := fc_moe_cpu_layers c;
     fp_moe_hybrid_max_fetch := fc_moe_hybrid_max_fetch c;
     fp_max_running_requests := fc_max_running_requests c |}.

(** ** The process *)

(** [FreeTokenSubprocessController.__init__], runtime/providers/freetoken.py lines 281-295. *)
Record freetoken_process := {
  fx_executable : string;
  fx_base_url : string;
  fx_model_ref : string;
  fx_served_model_name : string;
  fx_policy : FreeTokenLaunchPolicy;
}.

Section command.
Variable float_repr : spec_float → string.

(** [FreeTokenSubprocessController.command], runtime/providers/freetoken.py lines 301-349. *)
Definition freetoken_command (p : freetoken_process) : result (list string) :=
  let policy := fx_policy p in
  host ← host_and_port (fx_base_url p);
  ratio ← py_text float_repr (fp_memory_ratio policy);
  requests ← py_text float_repr (fp_max_running_requests policy);
  cache_size ← option_of float_repr "--moe-cache-size" (fp_moe_cache_size policy);
  cache_rate ← option_of float_repr "--moe-cache-rate" (fp_moe_cache_rate policy);
  threads ← option_of float_repr "--moe-cpu-threads" (fp_moe_cpu_threads policy);
  layers ← option_of float_repr "--moe-cpu-layers" (fp_moe_cpu_layers policy);
  fetch ← option_of float_repr "--moe-hybrid-max-fetch" (fp_moe_hybrid_max_fetch policy);
  Ok ([fx_executable p; "serve"; "--model"; fx_model_ref p; "--host"; host.1; "--port"; str_of_Z host.2;
       "--gpu"; fp_gpu_uuid policy; "--served-model-name"; fx_served_model_name p;
       "--moe-strategy"; enum_value (fp_moe_strategy policy); "--memory-ratio"; ratio;
       "--max-running-requests"; requests]
      ++ cache_size ++ cache_rate ++ threads ++ layers ++ fetch).

Section runtime.
Context {W : Type} `{ServerWorld W}.

(** [FreeTokenSubprocessController.start], runtime/providers/freetoken.py lines 351-359. *)
Definition freetoken_spawn (p : freetoken_process) : eff (server W) unit :=
  alive ← gets running;
  if alive : bool then mret tt
  else
    command ← lifts (freetoken_command p);
    start_process command id (λ _, RuntimeError "failed to start FreeToken server process").
End runtime.

(** ** The managed runtime *)

(** [FreeTokenExecutor] and its client among the chat servers, runtime/providers/freetoken.py lines 375-407. *)
Definition freetoken_names : chat_names := {|
  cn_provider_id := FREETOKEN_PROVIDER_ID;
  cn_label := "FreeToken";
  cn_alias_key := "served_model_name";
  cn_kind := "freetoken-model";
  cn_non_object := "FreeToken returned a non-object response";
  cn_invalid_models := "FreeToken /v1/models returned invalid data";
|}.

(** The messages of [FreeTokenManagedRuntime], runtime/providers/freetoken.py lines 560-656. *)
Definition freetoken_texts : chat_texts := {|
  ct_released := "FreeToken runtime has already been released";
  ct_external := "an external FreeToken server is already using the configured endpoint";
  ct_exited := "FreeToken owned process exited before readiness; inspect Worker service logs";
  ct_timeout := "FreeToken server did not become ready before timeout";
  ct_unexposed := "FreeToken server did not expose the configured model alias";
  ct_health_external := "external FreeToken process detected at managed endpoint";
  ct_health_inventory := "FreeToken model inventory is unavailable";
  ct_health_unavailable := "configured FreeToken model alias is unavailable";
|}.

(** [residency_metadata], runtime/providers/freetoken.py lines 542-554. *)
Definition freetoken_residency (cx : RuntimeCompatibilityContext) (policy : FreeTokenLaunchPolicy) : dict pyval :=
  [("residency_policy", PStr (enum_value (ed_residency_policy (cx_demand cx))));
   ("gpu_topology", PStr (enum_value (ed_gpu_topology (cx_demand cx))));
   ("gpu_uuid", PStr (fp_gpu_uuid policy)); ("host_ram_mb", PInt (hf_host_ram_mb (cx_host cx)));
   ("moe_strategy", PStr (enum_value (fp_moe_strategy policy))); ("memory_ratio", fp_memory_ratio policy);
   ("moe_cache_size", fp_moe_cache_size policy); ("moe_cache_rate", fp_moe_cache_rate policy);
   ("moe_cpu_threads", fp_moe_cpu_threads policy); ("moe_cpu_layers", fp_moe_cpu_layers policy);
   ("moe_hybrid_max_fetch", fp_moe_hybrid_max_fetch policy)].

(** [FreeTokenManagedRuntime.__init__], runtime/providers/freetoken.py lines 519-555. *)
Record freetoken_runtime := {
  fr_process : freetoken_process;
  fr_context : RuntimeCompatibilityContext;
  fr_startup_timeout : pyval;
  fr_executor : chat_executor;
}.

Section server.
Context {W : Type} `{ServerWorld W}.

(** [FreeTokenManagedRuntime], runtime/providers/freetoken.py lines 516-671. *)
Definition freetoken_backend (rt : freetoken_runtime) : backend W :=
  chat_backend freetoken_names freetoken_texts 200 (fr_startup_timeout rt) (fx_model_ref (fr_process rt))
    (fx_served_model_name (fr_process rt)) (freetoken_spawn (fr_process rt))
    (health_status (cn_non_object freetoken_names) "ok").

(** What the server measured of the accelerator, runtime/providers/freetoken.py lines 487-492. *)
Definition observed_vram (stats : dict pyval) : option Z :=
  match get "vram_bytes" stats with
  | PInt vram_bytes => if 0 <? vram_bytes then Some vram_bytes else None
  | _ => None
  end.

(** What the server says of its model, runtime/providers/freetoken.py lines 494-501. *)
Definition observed_model (stats metadata : dict pyval) : dict pyval :=
  match get "model" stats with
  | PDict model_stats =>
      let metadata := match get "id" model_stats with
                      | PStr s => dset "observed_model" (PStr s) metadata | _ => metadata end in
      match get "moe" model_stats with
      | PBool b => dset "observed_moe" (PBool b) metadata | _ => metadata end
  | _ => metadata
  end.

(** [FreeTokenExecutor.residency] at the instant [now], runtime/providers/freetoken.py lines 479-513. *)
Definition freetoken_residency_report (rt : freetoken_runtime) (now : datetime) : eff (server W) ResidencyReport :=
  stats ← except_exception (json_request (cn_non_object freetoken_names) "GET" "/v1/stats" None)
            (λ _, mret []);
  lifts (residency_report (fr_executor rt) (observed_vram stats)
           (observed_model stats (ce_metadata (fr_executor rt))) now).
End server.

(** ** The provider *)

(** The advice on the residency policy, runtime/providers/freetoken.py lines 778-810. *)
Definition freetoken_residency_reasons (cx : RuntimeCompatibilityContext) (policy : FreeTokenLaunchPolicy)
    : CompatibilityReason :=
  match ed_residency_policy (cx_demand cx) with
  | VRAM_ONLY =>
      blocking_reason "vram-only-unsupported"
        "AstrumWeaver v0.x FreeToken provider targets MoE offload and does not claim a vram_only execution path"
  | CPU_GPU_HYBRID =>
      advice "cpu-gpu-hybrid-supported"
        ("FreeToken MoE execution will use the selected " +:+ enum_value (fp_moe_strategy policy)
         +:+ " strategy with host RAM available for expert offload/CPU execution")
  | PREFER_VRAM =>
      advice "prefer-vram-moe-cache"
        "FreeToken will prefer GPU residency within its memory budget while retaining its MoE offload/cache policy"
  end.

(** [FreeTokenProvider.compatibility], runtime/providers/freetoken.py lines 704-834. *)
Definition freetoken_compatibility (c : FreeTokenProviderConfig) (cx : RuntimeCompatibilityContext)
    : result RuntimeCompatibility :=
  let demand := cx_demand cx in
  let model := ed_model demand in
  let policy := freetoken_launch_policy cx c in
  let architecture := hf_architecture (cx_host cx) in
  mk_RuntimeCompatibility FREETOKEN_PROVIDER_ID
    (reason_if (negb (bool_decide (lower architecture ∈ ["x86_64"; "amd64"])))
       (blocking_reason "architecture-unsupported"
          ("current upstream FreeToken packages require Linux x86_64; host architecture is " +:+ architecture))
     ++ reason_if (negb (bool_decide (md_model_format model ∈ FREETOKEN_MODEL_FORMATS)))
          (blocking_reason "model-format-unsupported"
             "AstrumWeaver FreeToken provider requires a Hugging Face/safetensors or local FTW model reference")
     ++ reason_if (bool_decide (md_model_format model = "ftw") && negb (_local_model_reference (md_model_ref model)))
          (blocking_reason "ftw-reference-must-be-local"
             "FTW is a local FreeToken checkpoint format; the v0.x provider requires an explicit local FTW path")
     ++ reason_if (negb (bool_decide (md_topology model = MOE)))
          (blocking_reason "model-topology-outside-provider-scope"
             "AstrumWeaver v0.x intentionally scopes the FreeToken provider to MoE/offload workloads; this is not a claim that upstream FreeToken cannot serve dense models")
     ++ reason_if (negb (bool_decide (ed_gpu_topology demand = SINGLE_GPU))
                   || negb (gpu_count (resources (cx_worker cx)) =? 1)
                   || negb (Nat.eqb (length (gpu_uuids (cx_worker cx))) 1))
          (blocking_reason "single-gpu-required"
             "AstrumWeaver v0.x FreeToken provider requires a single-GPU Worker and will not partially consume a multi-GPU Worker")
     ++ [freetoken_residency_reasons cx policy;
         advice "host-ram-interconnect-sensitive"
           "FreeToken MoE offload performance and feasible model size depend on host RAM capacity/bandwidth and the CPU-GPU interconnect; AstrumWeaver does not invent an exact RAM requirement beyond declared demand"]).

(** The configuration of the intent, runtime/providers/freetoken.py lines 850-865. *)
Definition freetoken_configuration (c : FreeTokenProviderConfig) (cx : RuntimeCompatibilityContext) : dict pyval :=
  let policy := freetoken_launch_policy cx c in
  let model_ref := md_model_ref (ed_model (cx_demand cx)) in
  [("base_url", PStr (fc_base_url c)); ("executable", PStr (fc_executable c));
   ("model_ref", PStr model_ref); ("served_model_name", PStr (fc_served_model_name c));
   ("gpu_uuid", PStr (fp_gpu_uuid policy)); ("moe_strategy", PStr (enum_value (fp_moe_strategy policy)));
   ("memory_ratio", fp_memory_ratio policy); ("moe_cache_size", fp_moe_cache_size policy);
   ("moe_cache_rate", fp_moe_cache_rate policy); ("moe_cpu_threads", fp_moe_cpu_threads policy);
   ("moe_cpu_layers", fp_moe_cpu_layers policy);
   ("moe_hybrid_max_fetch", fp_moe_hybrid_max_fetch policy);
   ("max_running_requests", fp_max_running_requests policy); ("capabilities", strs LLM_CAPABILITIES)].

(** [FreeTokenProvider.setup_intent], runtime/providers/freetoken.py lines 836-872. *)
Definition freetoken_setup_intent (c : FreeTokenProviderConfig) (cx : RuntimeCompatibilityContext)
    : result RuntimeSetupIntent :=
  report ← freetoken_compatibility c cx;
  require (compatible report) (RuntimeError "cannot build FreeToken setup intent for incompatible demand");;
  let model_ref := md_model_ref (ed_model (cx_demand cx)) in
  mk_RuntimeSetupIntent FREETOKEN_PROVIDER_ID [fc_package_reference c]
    (freetoken_configuration c cx)
    (_model_preparation model_ref) (PStr model_ref) true [("runtime_provider", PStr FREETOKEN_PROVIDER_ID)].

(** The policy of a setup configuration, runtime/providers/freetoken.py lines 909-947. *)
Definition freetoken_policy_of (c : FreeTokenProviderConfig) (gpu_uuid : string) (cfg : dict pyval)
    : result FreeTokenLaunchPolicy :=
  strategy ← enum_of_value (get_default "moe_strategy" (PStr (enum_value (fc_moe_strategy c))) cfg);
  ratio ← py_float (get_default "memory_ratio" (fc_memory_ratio c) cfg);
  cache_size ← opt_int "moe_cache_size" cfg;
  cache_rate ← opt_float "moe_cache_rate" cfg;
  threads ← opt_int "moe_cpu_threads" cfg;
  fetch ← opt_int "moe_hybrid_max_fetch" cfg;
  requests ← py_int (get_default "max_running_requests" (fc_max_running_requests c) cfg);
  Ok {| fp_gpu_uuid := gpu_uuid; fp_moe_strategy := strategy; fp_memory_ratio := PFloat ratio;
        fp_moe_cache_size := of_opt_Z cache_size; fp_moe_cache_rate := of_opt PFloat cache_rate;
        fp_moe_cpu_threads := of_opt_Z threads;
        fp_moe_cpu_layers := get_default "moe_cpu_layers" (fc_moe_cpu_layers c) cfg;
        fp_moe_hybrid_max_fetch := of_opt_Z fetch; fp_max_running_requests := PInt requests |}.

(** [FreeTokenProvider.create_runtime], runtime/providers/freetoken.py lines 874-966. *)
Definition freetoken_create_runtime (c : FreeTokenProviderConfig) (cx : RuntimeCompatibilityContext)
    (setup : RuntimeSetupIntent) : result freetoken_runtime :=
  require (bool_decide (si_provider_id setup = FREETOKEN_PROVIDER_ID))
    (ValueError "setup intent does not belong to FreeToken provider");;
  report ← freetoken_compatibility c cx;
  require (compatible report) (RuntimeError "cannot create FreeToken runtime for incompatible demand");;
  let cfg := si_configuration setup in
  expected ← (match gpu_uuids (cx_worker cx) with
              | u :: _ => Ok u | [] => Err (IndexError "tuple index out of range") end);
  (match get "gpu_uuid" cfg with
   | PNone => Ok tt
   | v => s ← py_str v;
          require (bool_decide (s = expected))
            (ValueError "setup intent GPU UUID does not match FreeToken Worker ownership")
   end);;
  base_url ← text_or "base_url" (fc_base_url c) cfg;
  model_ref ← text_or "model_ref" (md_model_ref (ed_model (cx_demand cx))) cfg;
  served ← text_or "served_model_name" (fc_served_model_name c) cfg;
  executable ← text_or "executable" (fc_executable c) cfg;
  policy ← freetoken_policy_of c expected cfg;
  executor ← mk_chat_executor freetoken_names model_ref served (freetoken_residency cx policy);
  Ok {| fr_process := {| fx_executable := executable; fx_base_url := base_url; fx_model_ref := model_ref;
                         fx_served_model_name := served; fx_policy := policy |};
        fr_context := cx; fr_startup_timeout := fc_startup_timeout_seconds c; fr_executor := executor |}.

(** [FreeTokenProvider], runtime/providers/freetoken.py lines 673-702. *)
Definition FreeTokenProvider (c : FreeTokenProviderConfig) : RuntimeProvider freetoken_runtime := {|
  rp_info := {| pi_provider_id := FREETOKEN_PROVIDER_ID; pi_display_name := "FreeToken";
                pi_description := "RAM-heavy, VRAM-constrained MoE serving with explicit single-GPU ownership." |};
  rp_compatibility := freetoken_compatibility c;
  rp_setup_intent := freetoken_setup_intent c;
  rp_create_runtime := freetoken_create_runtime c;
  rp_config := Some (PDict (freetoken_config_to_dict c));
|}.
End command.

(** ** The FreeToken provider: deployment on one GPU *)

#[export] Instance FreeTokenMoeStrategy_lawful : LawfulEnum FreeTokenMoeStrategy.
Proof. constructor. by intros []. Qed.

#[export] Instance freetoken_lawful {W} `{ServerWorld W} float_repr rt :
  LawfulBackend (freetoken_backend float_repr rt).
Proof. apply chat_lawful; [apply emits_health_status|]. intros s Hs. by apply (spawn_by running). Qed.

Lemma freetoken_timely {W} `{ServerClock W} float_repr rt : timely (bk_reachable (freetoken_backend float_repr rt)).
Proof. apply timely_health_status. Qed.

(** ** Configuration *)

(** A configuration the constructor accepts, its URL without surrounding space. *)
Definition freetoken_valid (c : FreeTokenProviderConfig) : Prop :=
  stripped (fc_base_url c) ∧
  ∃ b e p st rq sn str mr cs cr ct cl hf mx,
    mk_FreeTokenProviderConfig b e p st rq sn str mr cs cr ct cl hf mx = Ok c.

Lemma freetoken_config_facts c : freetoken_valid c →
  freetoken_config_of (freetoken_config_to_dict c) = Ok c ∧
  fc_base_url c ≠ EmptyString ∧ nonblank (fc_executable c) ∧ nonblank (fc_served_model_name c).
Proof.
  intros (Hs & b & e & p & st & rq & sn & str & mr & cs & cr & ct & cl & hf & mx & H).
  unfold mk_FreeTokenProviderConfig in H.
  apply bind_Ok in H as (url & Hurl & H). apply bind_Ok in H as (exe & He & H).
  apply bind_Ok in H as (pk & Hp & H). apply bind_Ok in H as (name & Hn & H).
  apply bind_Ok in H as (strategy & Hstr & H). apply bind_Ok in H as ([] & Hst & H).
  apply bind_Ok in H as ([] & Hrq & H). apply bind_Ok in H as (fraction & Hmr & H).
  apply bind_Ok in H as ([] & Hfr & H). apply bind_Ok in H as ([] & Hmx & H).
  apply bind_Ok in H as ([] & Hcs & H). apply bind_Ok in H as ([] & Hcr & H).
  apply bind_Ok in H as ([] & Hex & H). apply bind_Ok in H as ([] & Hct & H).
  apply bind_Ok in H as ([] & Hhf & H). apply bind_Ok in H as ([] & Hcl & H).
  injection H as <-. cbn [fc_base_url] in Hs.
  apply nonblank_value_Ok in He, Hp, Hn. split; [|by apply base_url_Ok in Hurl].
  set (cfg := Build_FreeTokenProviderConfig _ _ _ _ _ _ _ _ _ _ _ _ _ _).
  change (freetoken_config_of (freetoken_config_to_dict cfg)) with
    (mk_FreeTokenProviderConfig (PStr url) (PStr exe) (PStr pk) st rq (PStr name)
       (PStr (enum_value strategy)) mr cs cr ct cl hf mx).
  unfold mk_FreeTokenProviderConfig. rewrite (base_url_id _ _ _ Hurl Hs). cbn [mbind result_bind].
  rewrite !nonblank_value_id by done. cbn [mbind result_bind enum_of_value]. rewrite enum_complete.
  cbn [mbind result_bind]. rewrite Hst, Hrq, Hmr. cbn [mbind result_bind]. rewrite Hfr.
  cbn [mbind result_bind]. rewrite Hmx, Hcs, Hcr, Hex, Hct, Hhf, Hcl. reflexivity.
Qed.

(** ** Deployment *)

(** The policy as the process takes it, for the one GPU of the worker. *)
Definition freetoken_coerced (policy : FreeTokenLaunchPolicy) : result FreeTokenLaunchPolicy :=
  ratio ← py_float (fp_memory_ratio policy);
  cache_size ← opt_int "n" [("n", fp_moe_cache_size policy)];
  cache_rate ← opt_float "n" [("n", fp_moe_cache_rate policy)];
  threads ← opt_int "n" [("n", fp_moe_cpu_threads policy)];
  fetch ← opt_int "n" [("n", fp_moe_hybrid_max_fetch policy)];
  requests ← py_int (fp_max_running_requests policy);
  Ok {| fp_gpu_uuid := fp_gpu_uuid policy; fp_moe_strategy := fp_moe_strategy policy;
        fp_memory_ratio := PFloat ratio;
        fp_moe_cache_size := of_opt_Z cache_size; fp_moe_cache_rate := of_opt PFloat cache_rate;
        fp_moe_cpu_threads := of_opt_Z threads; fp_moe_cpu_layers := fp_moe_cpu_layers policy;
        fp_moe_hybrid_max_fetch := of_opt_Z fetch; fp_max_running_requests := PInt requests |}.

(** The runtime a configuration describes. *)
Definition freetoken_described (c : FreeTokenProviderConfig) (cx : RuntimeCompatibilityContext)
    : result freetoken_runtime :=
  policy ← freetoken_coerced (freetoken_launch_policy cx c);
  let model_ref := md_model_ref (ed_model (cx_demand cx)) in
  Ok {| fr_process := {| fx_executable := fc_executable c; fx_base_url := fc_base_url c;
                         fx_model_ref := model_ref; fx_served_model_name := fc_served_model_name c;
                         fx_policy := policy |};
        fr_context := cx; fr_startup_timeout := fc_startup_timeout_seconds c;
        fr_executor := {| ce_names := freetoken_names; ce_model_ref := model_ref;
                          ce_alias := fc_served_model_name c; ce_metadata := freetoken_residency cx policy |} |}.

Lemma freetoken_policy_coerced c cx u : gpu_uuids (cx_worker cx) = [u] →
  freetoken_policy_of c u (freetoken_configuration c cx) = freetoken_coerced (freetoken_launch_policy cx c).
Proof.
  intros Hu. unfold freetoken_policy_of, freetoken_coerced. cbn [freetoken_launch_policy fp_gpu_uuid]. rewrite Hu.
  change (get_default "moe_strategy" _ _) with (PStr (enum_value (fc_moe_strategy c))).
  cbn [enum_of_value]. rewrite enum_complete. reflexivity.
Qed.

(** What FreeToken runs. *)
Lemma freetoken_compatible_one_gpu c cx report : freetoken_compatibility c cx = Ok report →
  compatible report = true → ∃ u, gpu_uuids (cx_worker cx) = [u] ∧ gpu_count (resources (cx_worker cx)) = 1.
Proof.
  intros [= <-]. unfold compatible. cbn [rc_reasons]. rewrite !existsb_app, !negb_orb. intros H.
  repeat (apply andb_true_iff in H as [? H]).
  match goal with H : negb (existsb _ (reason_if (_ || _ || _) _)) = true |- _ => rename H into Hg end.
  destruct (negb (bool_decide _) || negb (gpu_count _ =? 1) || negb (Nat.eqb _ 1)) eqn:E in Hg; [done|].
  apply orb_false_iff in E as [E1 E3]. apply orb_false_iff in E1 as [_ E2].
  apply negb_false_iff in E2, E3. apply Z.eqb_eq in E2. apply Nat.eqb_eq in E3.
  destruct (gpu_uuids (cx_worker cx)) as [|u []]; try done. by exists u.
Qed.

#[export] Instance freetoken_reviewed :
  ReviewedProvider FreeTokenProvider freetoken_config_of FREETOKEN_PROVIDER_ID freetoken_valid
    freetoken_described.
Proof.
  split.
  - done.
  - by vm_compute.
  - intros c Hc. exists (freetoken_config_to_dict c). split; [done|]. by apply freetoken_config_facts.
  - intros c cx i Hc Hd. cbn [rp_setup_intent rp_compatibility rp_create_runtime FreeTokenProvider].
    unfold freetoken_setup_intent. intros (report & Hrep & H)%bind_Ok. apply guard_Ok in H as [Hcomp H].
    pose proof (mk_RuntimeSetupIntent_wf _ _ _ _ _ _ _ _ H) as Hw.
    apply mk_intent_id in H as [Hid Hcfg]; [|by vm_compute].
    split; [done|]. split; [done|]. split; [by exists report|].
    destruct (freetoken_config_facts c Hc) as (_ & Hu & [_ He] & [Hss Hse]).
    destruct Hd as ((Hm & _) & _). destruct Hm as [Hms Hme].
    destruct (freetoken_compatible_one_gpu c cx report Hrep Hcomp) as (u & Hg & _).
    unfold freetoken_create_runtime. rewrite Hid, bool_decide_true by done. cbn [require mbind result_bind].
    rewrite Hrep. cbn [mbind result_bind]. rewrite Hcomp, Hcfg. cbn [require mbind result_bind].
    rewrite Hg. cbn [mbind result_bind].
    replace (get "gpu_uuid" (freetoken_configuration c cx)) with (PStr u)
      by (unfold freetoken_configuration; cbn [freetoken_launch_policy fp_gpu_uuid]; by rewrite Hg).
    cbn [py_str mbind result_bind]. rewrite bool_decide_true by done. cbn [require mbind result_bind].
    rewrite (text_or_nonempty "base_url" (fc_base_url c)) by done.
    rewrite (text_or_nonempty "model_ref" (md_model_ref (ed_model (cx_demand cx)))) by done.
    rewrite (text_or_nonempty "served_model_name" (fc_served_model_name c)) by done.
    rewrite (text_or_nonempty "executable" (fc_executable c)) by done.
    cbn [mbind result_bind]. rewrite (freetoken_policy_coerced c cx u Hg). unfold freetoken_described.
    destruct (freetoken_coerced _) as [policy|e]; [|done]. cbn [mbind result_bind].
    by rewrite mk_chat_executor_id.
  - intros c cx report Hrep Hcomp. cbn [rp_setup_intent rp_compatibility FreeTokenProvider] in *.
    unfold freetoken_setup_intent. rewrite Hrep. cbn [mbind result_bind]. rewrite Hcomp. cbn. eauto.
Qed.
