(* ===== verification/ExLlama.v ===== *)
(** * The ExLlamaV3 provider

    Models [src/src/astrumweaver/runtime/providers/exllamav3.py]: the configuration, the
    launch policy, the TabbyAPI configuration, the command line, the executor and managed
    runtime as a chat server, and the provider. *)

From Stdlib Require Import SpecFloat.
From S2P Require Import Prelude PyStr PyDict PyVal PyHost Effects PyText PyNum Contracts Models RuntimeContracts OwnedServer OwnedServerProps Planner ProviderBase Deployment ProviderLaws.

Definition EXLLAMAV3_PROVIDER_ID : string := "exllamav3".
(** [EXLLAMAV3_MODEL_FORMATS], runtime/providers/exllamav3.py lines 37-37. *)
Definition EXLLAMAV3_MODEL_FORMATS : list string := ["exl3"; "exllamav3"].

(** [ExLlamaMultiGpuMode], runtime/providers/exllamav3.py lines 69-71. *)
Inductive ExLlamaMultiGpuMode := AUTOSPLIT | TENSOR_PARALLEL.
#[export] Instance ExLlamaMultiGpuMode_eq : EqDecision ExLlamaMultiGpuMode.
Proof. solve_decision. Defined.
#[export] Instance ExLlamaMultiGpuMode_enum : StrEnum ExLlamaMultiGpuMode := {
  enum_members := [AUTOSPLIT; TENSOR_PARALLEL];
  enum_value v := match v with AUTOSPLIT => "autosplit" | TENSOR_PARALLEL => "tensor_parallel" end;
  enum_name := "ExLlamaMultiGpuMode" }.

(** ** Paths *)

(** [pathlib.Path(s)]: its root and its parts without empty ones and dots; [.name] and
    [str(.parent)]. *)
Definition path_root (s : string) : string :=
  if startswith "///" s then "/" else if startswith "//" s then "//" else if startswith "/" s then "/"
  else EmptyString.
Definition path_parts (s : string) : list string :=
  List.filter (λ p, negb (bool_decide (p ∈ [EmptyString; "."]))) (split_char "/" s).
Definition path_text (root : string) (parts : list string) : string :=
  if str_truthy root then root +:+ join "/" parts
  else match parts with [] => "." | _ => join "/" parts end.
Definition path_name (s : string) : string := List.last (path_parts s) EmptyString.
Definition path_parent (s : string) : string := path_text (path_root s) (removelast (path_parts s)).

(** [_model_location], runtime/providers/exllamav3.py lines 62-66. *)
Definition _model_location (model_ref default_model_dir : string) : string * string :=
  if _local_model_reference model_ref then (path_parent model_ref, path_name model_ref)
  else (default_model_dir, List.last (split_char "/" (rstrip_char "/" model_ref)) EmptyString).

(** ** Configuration *)

(** [ExLlamaV3ProviderConfig], runtime/providers/exllamav3.py lines 74-90. *)
Record ExLlamaV3ProviderConfig := {
  xc_base_url : string;
  xc_executable : string;
  xc_entrypoint : string;
  xc_config_path : string;
  xc_package_references : list string;
  xc_startup_timeout_seconds : pyval;
  xc_request_timeout_seconds : pyval;
  xc_model_dir : string;
  xc_multi_gpu_mode : ExLlamaMultiGpuMode;
  xc_tensor_parallel_backend : string;
  xc_gpu_split : option (list spec_float);
  xc_cache_mode : string;
  xc_max_seq_len : pyval;
  xc_max_batch_size : pyval;
  xc_autosplit_reserve_mb : option (list Z);
}.

(** [gpu_split] of a configuration, runtime/providers/exllamav3.py lines 133-137. *)
Definition mk_gpu_split (v : pyval) : result (option (list spec_float)) :=
  match v with
  | PNone => Ok None
  | v =>
      l ← py_iter v;
      split ← mapR py_float l;
      require (negb (Nat.eqb (length split) 0) && forallb (λ f, negb (float_le_zero f)) split)
        (ValueError "gpu_split values must be positive");;
      Ok (Some split)
  end.

(** [autosplit_reserve_mb] of a configuration, runtime/providers/exllamav3.py lines 139-143. *)
Definition mk_autosplit_reserve (v : pyval) : result (option (list Z)) :=
  match v with
  | PNone => Ok None
  | v =>
      l ← py_iter v;
      reserve ← mapR py_int l;
      require (negb (Nat.eqb (length reserve) 0) && forallb (λ z, 0 <=? z) reserve)
        (ValueError "autosplit_reserve_mb values must be non-negative");;
      Ok (Some reserve)
  end.

(** [ExLlamaV3ProviderConfig.__post_init__], runtime/providers/exllamav3.py lines 92-143. *)
Definition mk_ExLlamaV3ProviderConfig (base_url executable entrypoint config_path package_references startup
    request model_dir mode backend gpu_split cache_mode max_seq_len max_batch_size reserve : pyval)
    : result ExLlamaV3ProviderConfig :=
  url ← loopback_base_url "ExLlamaV3 provider requires a local loopback HTTP endpoint with port" base_url;
  exe ← _nonblank executable "executable";
  entry ← _nonblank entrypoint "entrypoint";
  path ← _nonblank config_path "config_path";
  dir ← _nonblank model_dir "model_dir";
  l ← py_iter package_references;
  packages ← mapR (λ v, _nonblank v "package reference") l;
  mode' ← enum_of_value mode;
  backend' ← _nonblank backend "tensor_parallel_backend";
  require (bool_decide (backend' ∈ ["native"; "nccl"]))
    (ValueError "tensor_parallel_backend must be native or nccl");;
  cache ← _nonblank cache_mode "cache_mode";
  require_positive startup "startup_timeout_seconds must be positive";;
  require_positive request "request_timeout_seconds must be positive";;
  optional (λ v, require_positive v "max_seq_len must be positive when set") max_seq_len;;
  optional (λ v, require_positive v "max_batch_size must be positive when set") max_batch_size;;
  split ← mk_gpu_split gpu_split;
  reserve' ← mk_autosplit_reserve reserve;
  Ok {| xc_base_url := url; xc_executable := exe; xc_entrypoint := entry; xc_config_path := path;
        xc_package_references := packages; xc_startup_timeout_seconds := startup;
        xc_request_timeout_seconds := request; xc_model_dir := dir; xc_multi_gpu_mode := mode';
        xc_tensor_parallel_backend := backend'; xc_gpu_split := split; xc_cache_mode := cache;
        xc_max_seq_len := max_seq_len; xc_max_batch_size := max_batch_size;
        xc_autosplit_reserve_mb := reserve' |}.

(** The configuration from keywords, with the defaults, runtime/providers/exllamav3.py lines 74-90. *)
Definition exllama_config_of (d : dict pyval) : result ExLlamaV3ProviderConfig :=
  known_keywords ["base_url"; "executable"; "entrypoint"; "config_path"; "package_references";
                  "startup_timeout_seconds"; "request_timeout_seconds"; "model_dir"; "multi_gpu_mode";
                  "tensor_parallel_backend"; "gpu_split"; "cache_mode"; "max_seq_len"; "max_batch_size";
                  "autosplit_reserve_mb"] d;;
  mk_ExLlamaV3ProviderConfig (get_default "base_url" (PStr "http://127.0.0.1:5000") d)
    (get_default "executable" (PStr "python") d)
    (get_default "entrypoint" (PStr "/opt/tabbyAPI/main.py") d)
    (get_default "config_path" (PStr "/etc/astrumweaver/runtime/exllamav3/config.yml") d)
    (get_default "package_references" (strs ["tabbyAPI[cu12]"; "exllamav3"]) d)
    (get_default "startup_timeout_seconds" (PFloat (float_of_Z 300)) d)
    (get_default "request_timeout_seconds" (PFloat (float_of_Z 300)) d)
    (get_default "model_dir" (PStr "/var/lib/astrumweaver/models/exllamav3") d)
    (get_default "multi_gpu_mode" (PStr "autosplit") d)
    (get_default "tensor_parallel_backend" (PStr "native") d) (get_default "gpu_split" PNone d)
    (get_default "cache_mode" (PStr "FP16") d) (get_default "max_seq_len" PNone d)
    (get_default "max_batch_size" PNone d) (get_default "autosplit_reserve_mb" PNone d).

(** [asdict(config)]. *)
Definition exllama_config_to_dict (c : ExLlamaV3ProviderConfig) : dict pyval :=
  [("base_url", PStr (xc_base_url c)); ("executable", PStr (xc_executable c));
   ("entrypoint", PStr (xc_entrypoint c)); ("config_path", PStr (xc_config_path c));
   ("package_references", strs (xc_package_references c));
   ("startup_timeout_seconds", xc_startup_timeout_seconds c);
   ("request_timeout_seconds", xc_request_timeout_seconds c); ("model_dir", PStr (xc_model_dir c));
   ("multi_gpu_mode", PStr (enum_value (xc_multi_gpu_mode c)));
   ("tensor_parallel_backend", PStr (xc_tensor_parallel_backend c));
   ("gpu_split", of_opt floats (xc_gpu_split c)); ("cache_mode", PStr (xc_cache_mode c));
   ("max_seq_len", xc_max_seq_len c); ("max_batch_size", xc_max_batch_size c);
   ("autosplit_reserve_mb", of_opt ints (xc_autosplit_reserve_mb c))].

(** ** The launch policy *)

(** [ExLlamaV3LaunchPolicy], runtime/providers/exllamav3.py lines 146-157. *)
Record ExLlamaV3LaunchPolicy := {
  xp_gpu_uuids : list string;
  xp_multi_gpu_mode : ExLlamaMultiGpuMode;
  xp_tensor_parallel : bool;
  xp_tensor_parallel_backend : string;
  xp_gpu_split_auto : bool;
  xp_gpu_split : option (list spec_float);
  xp_autosplit_reserve_mb : option (list Z);
  xp_cache_mode : string;
  xp_max_seq_len : pyval;
  xp_max_batch_size : pyval;
}.

(** [_launch_policy], runtime/providers/exllamav3.py lines 160-178. *)
Definition exllama_launch_policy (cx : RuntimeCompatibilityContext) (c : ExLlamaV3ProviderConfig)
    : ExLlamaV3LaunchPolicy :=
  let multi := bool_decide (ed_gpu_topology (cx_demand cx) = MULTI_GPU) in
  {| xp_gpu_uuids := gpu_uuids (cx_worker cx); xp_multi_gpu_mode := xc_multi_gpu_mode c;
     xp_tensor_parallel := multi && bool_decide (xc_multi_gpu_mode c = TENSOR_PARALLEL);
     xp_tensor_parallel_backend := xc_tensor_parallel_backend c;
     xp_gpu_split_auto := multi && bool_decide (xc_gpu_split c = None);
     xp_gpu_split := xc_gpu_split c; xp_autosplit_reserve_mb := xc_autosplit_reserve_mb c;
     xp_cache_mode := xc_cache_mode c; xp_max_seq_len := xc_max_seq_len c;
     xp_max_batch_size := xc_max_batch_size c |}.

(** [if value is not None: model[key] = value]. *)
Definition entry_of (key : string) (v : pyval) : dict pyval :=
  match v with PNone => [] | v => [(key, v)] end.

(** [_tabby_config], runtime/providers/exllamav3.py lines 181-226. *)
Definition _tabby_config (base_url model_dir model_name : string) (policy : ExLlamaV3LaunchPolicy)
    : result (dict pyval) :=
  host ← host_and_port base_url;
  let model :=
    [("model_dir", PStr model_dir); ("model_name", PStr model_name); ("backend", PStr "exllamav3");
     ("inline_model_loading", PBool false); ("tensor_parallel", PBool (xp_tensor_parallel policy));
     ("tensor_parallel_backend", PStr (xp_tensor_parallel_backend policy));
     ("gpu_split_auto", PBool (xp_gpu_split_auto policy));
     ("gpu_split", floats (default [] (xp_gpu_split policy))); ("cache_mode", PStr (xp_cache_mode policy))]
    ++ entry_of "autosplit_reserve" (of_opt ints (xp_autosplit_reserve_mb policy))
    ++ entry_of "max_seq_len" (xp_max_seq_len policy)
    ++ entry_of "max_batch_size" (xp_max_batch_size policy) in
  Ok [("network", PDict [("host", PStr host.1); ("port", PInt host.2); ("disable_auth", PBool true);
                         ("allowed_origins", PList []); ("api_servers", strs ["OAI"]);
                         ("access_log", PBool false)]);
      ("logging", PDict [("log_prompt", PBool false); ("log_generation_params", PBool false);
                         ("log_requests", PBool false); ("log_chat_completion_requests", PBool false)]);
      ("model", PDict model); ("sampling", PDict [("override_preset", PStr "safe_defaults")])].

(** ** The process *)

(** [ExLlamaV3SubprocessController.__init__], runtime/providers/exllamav3.py lines 313-325. *)
Record exllama_process := {
  xx_executable : string;
  xx_entrypoint : string;
  xx_config_path : string;
  xx_gpu_uuids : list string;
}.

(** [ExLlamaV3SubprocessController.command], runtime/providers/exllamav3.py lines 331-337. *)
Definition exllama_command (p : exllama_process) : list string :=
  [xx_executable p; xx_entrypoint p; "--config"; xx_config_path p].

(** [ExLlamaV3SubprocessController.start], runtime/providers/exllamav3.py lines 339-350. *)
Definition exllama_spawn {W : Type} `{ServerWorld W} (p : exllama_process) : eff (server W) unit :=
  start_process (exllama_command p) (dset "CUDA_VISIBLE_DEVICES" (join "," (xx_gpu_uuids p)))
    (λ _, RuntimeError "failed to start ExLlamaV3 TabbyAPI process").

(** ** The managed runtime *)

(** [ExLlamaV3Executor] and its client among the chat servers, runtime/providers/exllamav3.py lines 366-381. *)
Definition exllama_names : chat_names := {|
  cn_provider_id := EXLLAMAV3_PROVIDER_ID;
  cn_label := "ExLlamaV3";
  cn_alias_key := "served_model_name";
  cn_kind := "exl3-model";
  cn_non_object := "TabbyAPI returned a non-object response";
  cn_invalid_models := "TabbyAPI /v1/models returned invalid data";
|}.

(** The messages of [ExLlamaV3ManagedRuntime], runtime/providers/exllamav3.py lines 523-621. *)
Definition exllama_texts : chat_texts := {|
  ct_released := "ExLlamaV3 runtime has already been released";
  ct_external := "an external TabbyAPI server is already using the configured endpoint";
  ct_exited := "ExLlamaV3 TabbyAPI owned process exited before readiness; inspect Worker service logs";
  ct_timeout := "ExLlamaV3 TabbyAPI server did not become ready before timeout";
  ct_unexposed := "TabbyAPI did not expose the configured ExLlamaV3 model";
  ct_health_external := "external TabbyAPI process detected at managed endpoint";
  ct_health_inventory := "TabbyAPI model inventory is unavailable";
  ct_health_unavailable := "configured ExLlamaV3 model is unavailable";
|}.

(** [residency_metadata], runtime/providers/exllamav3.py lines 502-517. *)
Definition exllama_residency (cx : RuntimeCompatibilityContext) (policy : ExLlamaV3LaunchPolicy) : dict pyval :=
  [("residency_policy", PStr (enum_value (ed_residency_policy (cx_demand cx))));
   ("gpu_topology", PStr (enum_value (ed_gpu_topology (cx_demand cx))));
   ("gpu_count", PInt (gpu_count (resources (cx_worker cx))));
   ("gpu_uuids", strs (xp_gpu_uuids policy));
   ("multi_gpu_mode", PStr (enum_value (xp_multi_gpu_mode policy)));
   ("tensor_parallel", PBool (xp_tensor_parallel policy));
   ("tensor_parallel_backend", PStr (xp_tensor_parallel_backend policy));
   ("gpu_split_auto", PBool (xp_gpu_split_auto policy));
   ("gpu_split", of_opt floats (xp_gpu_split policy)); ("cache_mode", PStr (xp_cache_mode policy))].

(** [ExLlamaV3ManagedRuntime.__init__], runtime/providers/exllamav3.py lines 479-518. *)
Record exllama_runtime := {
  xr_process : exllama_process;
  xr_context : RuntimeCompatibilityContext;
  xr_model_ref : string;
  xr_served_model_name : string;
  xr_startup_timeout : pyval;
  xr_policy : ExLlamaV3LaunchPolicy;
  xr_executor : chat_executor;
}.

(** [ExLlamaV3ManagedRuntime], runtime/providers/exllamav3.py lines 476-633. *)
Definition exllama_backend {W : Type} `{ServerWorld W} (rt : exllama_runtime) : backend W :=
  chat_backend exllama_names exllama_texts 200 (xr_startup_timeout rt) (xr_model_ref rt)
    (xr_served_model_name rt) (exllama_spawn (xr_process rt))
    (health_status (cn_non_object exllama_names) "healthy").

(** [ExLlamaV3Executor.residency] at the instant [now], runtime/providers/exllamav3.py lines 463-473. *)
Definition exllama_residency_report (rt : exllama_runtime) (now : datetime) : result ResidencyReport :=
  residency_report (xr_executor rt) None (ce_metadata (xr_executor rt)) now.

(** ** The provider *)

Definition key_ltb (a b : N * N) : bool := (a.1 <? b.1)%N || (N.eqb a.1 b.1 && (a.2 <? b.2)%N).
(** [min(l, key=compute_capability_key)] of a non-empty list. *)
Fixpoint min_capability (best : string) (key : N * N) (l : list string) : result string :=
  match l with
  | [] => Ok best
  | c :: l' => k ← compute_capability_key c;
               if key_ltb k key then min_capability c k l' else min_capability best key l'
  end.

(** The compute capability of a worker, runtime/providers/exllamav3.py lines 696-715. *)
Definition worker_capability (worker : WorkerSpec) : result (option string) :=
  match omap ad_compute_capability (accelerators worker) with
  | c :: l =>
      if Nat.eqb (length (c :: l)) (length (accelerators worker))
      then k ← compute_capability_key c; m ← min_capability c k l; Ok (Some m)
      else Ok (dget "gpu.compute_capability.min" (labels worker))
  | [] => Ok (dget "gpu.compute_capability.min" (labels worker))
  end.

(** The reasons of the compute capability, runtime/providers/exllamav3.py lines 716-750. *)
Definition exllama_capability_reasons (capability : option string) : result (list CompatibilityReason) :=
  match capability with
  | None => Ok [advice "compute-capability-unverified"
                  "ExLlamaV3 requires NVIDIA compute capability 8.0 or newer; Worker metadata does not currently prove the minimum capability"]
  | Some c =>
      match compute_capability_key c with
      | Ok key => Ok (reason_if (key_ltb key (8, 0)%N)
                        (blocking_reason "compute-capability-unsupported"
                           "ExLlamaV3 requires NVIDIA compute capability 8.0 or newer"))
      | Err (ValueError _) => Ok [blocking_reason "compute-capability-invalid"
                                    "gpu.compute_capability.min must use a numeric value such as 8.6"]
      | Err e => Err e
      end
  end.

(** The reasons of the GPUs, runtime/providers/exllamav3.py lines 752-831. *)
Definition exllama_gpu_reasons (cx : RuntimeCompatibilityContext) (policy : ExLlamaV3LaunchPolicy)
    : list CompatibilityReason :=
  let count := gpu_count (resources (cx_worker cx)) in
  let topology := ed_gpu_topology (cx_demand cx) in
  reason_if (bool_decide (topology = NO_GPU) || (count =? 0))
    (blocking_reason "gpu-required" "ExLlamaV3 requires an NVIDIA GPU Worker")
  ++ reason_if (negb (Z.of_nat (length (gpu_uuids (cx_worker cx))) =? count))
       (blocking_reason "gpu-identity-count-mismatch"
          "Worker GPU UUID ownership does not match GPU resource count")
  ++ (if bool_decide (topology = SINGLE_GPU) then
        reason_if (negb (count =? 1))
          (blocking_reason "single-gpu-required" "single_gpu ExLlamaV3 demand requires exactly one Worker GPU")
        ++ reason_if (negb (bool_decide (xp_gpu_split policy = None)))
             (blocking_reason "gpu-split-requires-multi-gpu"
                "explicit ExLlamaV3 gpu_split requires multi_gpu demand")
      else [])
  ++ reason_if (match xp_autosplit_reserve_mb policy with
                | Some l => negb (Z.of_nat (length l) =? count) | None => false end)
       (blocking_reason "autosplit-reserve-length-mismatch"
          "ExLlamaV3 autosplit_reserve_mb must provide one value for every Worker-owned GPU")
  ++ (if bool_decide (topology = MULTI_GPU) then
        reason_if (count <? 2)
          (blocking_reason "multi-gpu-required" "multi_gpu ExLlamaV3 demand requires at least two Worker GPUs")
        ++ reason_if (match xp_gpu_split policy with
                      | Some l => negb (Z.of_nat (length l) =? count) | None => false end)
             (blocking_reason "gpu-split-length-mismatch"
                "ExLlamaV3 gpu_split must provide one value for every Worker-owned GPU")
        ++ [advice (if xp_tensor_parallel policy then "tensor-parallel-enabled" else "multi-gpu-autosplit-enabled")
              ("ExLlamaV3 will use all Worker-owned GPUs with " +:+
               (if xp_tensor_parallel policy
                then xp_tensor_parallel_backend policy +:+ " tensor parallelism"
                else "TabbyAPI/ExLlamaV3 autosplit"))]
      else []).

(** The reasons of the residency policy and the size, runtime/providers/exllamav3.py lines 833-881. *)
Definition exllama_size_reasons (cx : RuntimeCompatibilityContext) : list CompatibilityReason :=
  let policy := ed_residency_policy (cx_demand cx) in
  let size := md_estimated_size_mb (ed_model (cx_demand cx)) in
  let exceeds := match size with
                 | Some z => total_vram_mb (resources (cx_worker cx)) <? z | None => false end in
  reason_if (bool_decide (policy = CPU_GPU_HYBRID))
    (blocking_reason "cpu-gpu-hybrid-outside-provider-scope"
       "AstrumWeaver v0.x ExLlamaV3 provider is scoped to VRAM-resident/prefer-VRAM execution; use FreeToken or llama.cpp for RAM-heavy offload")
  ++ reason_if (bool_decide (policy = VRAM_ONLY) && bool_decide (size = None))
       (blocking_reason "model-size-required-for-vram-only"
          "ExLlamaV3 vram_only planning requires estimated model size")
  ++ (if exceeds then
        [blocking_reason "model-exceeds-total-vram"
           "estimated EXL3 model size exceeds Worker total VRAM before KV cache and runtime overhead"]
      else reason_if (bool_decide (policy = VRAM_ONLY))
             (advice "vram-overhead-not-proven-by-model-size"
                "model-size fit does not include KV cache/runtime overhead; declare explicit VRAM minima for a hard deployment floor")).

(** [ExLlamaV3Provider.compatibility], runtime/providers/exllamav3.py lines 667-886. *)
Definition exllama_compatibility (c : ExLlamaV3ProviderConfig) (cx : RuntimeCompatibilityContext)
    : result RuntimeCompatibility :=
  let policy := exllama_launch_policy cx c in
  capability ← worker_capability (cx_worker cx);
  capability_reasons ← exllama_capability_reasons capability;
  mk_RuntimeCompatibility EXLLAMAV3_PROVIDER_ID
    (reason_if (negb (bool_decide (lower (hf_architecture (cx_host cx)) ∈ ["x86_64"; "amd64"])))
       (blocking_reason "architecture-unsupported" "current ExLlamaV3/TabbyAPI Linux wheel path targets x86_64")
     ++ reason_if (negb (bool_decide (md_model_format (ed_model (cx_demand cx)) ∈ EXLLAMAV3_MODEL_FORMATS)))
          (blocking_reason "model-format-unsupported" "AstrumWeaver ExLlamaV3 provider requires an EXL3 model")
     ++ capability_reasons
     ++ exllama_gpu_reasons cx policy
     ++ exllama_size_reasons cx).

(** The configuration of the intent, runtime/providers/exllamav3.py lines 913-941. *)
Definition exllama_configuration (c : ExLlamaV3ProviderConfig) (cx : RuntimeCompatibilityContext)
    (tabby_config : dict pyval) : dict pyval :=
  let policy := exllama_launch_policy cx c in
  let model_ref := md_model_ref (ed_model (cx_demand cx)) in
  let '(model_dir, model_name) := _model_location model_ref (xc_model_dir c) in
  [("base_url", PStr (xc_base_url c)); ("executable", PStr (xc_executable c));
   ("entrypoint", PStr (xc_entrypoint c)); ("config_path", PStr (xc_config_path c));
   ("model_ref", PStr model_ref); ("model_dir", PStr model_dir); ("served_model_name", PStr model_name);
   ("gpu_uuids", strs (xp_gpu_uuids policy));
   ("multi_gpu_mode", PStr (enum_value (xp_multi_gpu_mode policy)));
   ("tensor_parallel", PBool (xp_tensor_parallel policy));
   ("tensor_parallel_backend", PStr (xp_tensor_parallel_backend policy));
   ("gpu_split_auto", PBool (xp_gpu_split_auto policy));
   ("gpu_split", of_opt floats (xp_gpu_split policy));
   ("autosplit_reserve_mb", of_opt ints (xp_autosplit_reserve_mb policy));
   ("cache_mode", PStr (xp_cache_mode policy)); ("max_seq_len", xp_max_seq_len policy);
   ("max_batch_size", xp_max_batch_size policy); ("tabby_config", PDict tabby_config);
   ("capabilities", strs LLM_CAPABILITIES)].

(** [ExLlamaV3Provider.setup_intent], runtime/providers/exllamav3.py lines 888-949. *)
Definition exllama_setup_intent (c : ExLlamaV3ProviderConfig) (cx : RuntimeCompatibilityContext)
    : result RuntimeSetupIntent :=
  report ← exllama_compatibility c cx;
  require (compatible report) (RuntimeError "cannot build ExLlamaV3 setup intent for incompatible demand");;
  let policy := exllama_launch_policy cx c in
  let model_ref := md_model_ref (ed_model (cx_demand cx)) in
  let '(model_dir, model_name) := _model_location model_ref (xc_model_dir c) in
  tabby_config ← _tabby_config (xc_base_url c) model_dir model_name policy;
  mk_RuntimeSetupIntent EXLLAMAV3_PROVIDER_ID (xc_package_references c)
    (exllama_configuration c cx tabby_config)
    (_model_preparation model_ref) (PStr model_ref) true
    [("runtime_provider", PStr EXLLAMAV3_PROVIDER_ID); ("serving_backend", PStr "tabbyapi")].

(** [ExLlamaV3Provider.create_runtime], runtime/providers/exllamav3.py lines 951-1005. *)
Definition exllama_create_runtime (c : ExLlamaV3ProviderConfig) (cx : RuntimeCompatibilityContext)
    (setup : RuntimeSetupIntent) : result exllama_runtime :=
  require (bool_decide (si_provider_id setup = EXLLAMAV3_PROVIDER_ID))
    (ValueError "setup intent does not belong to ExLlamaV3 provider");;
  report ← exllama_compatibility c cx;
  require (compatible report) (RuntimeError "cannot create ExLlamaV3 runtime for incompatible demand");;
  let cfg := si_configuration setup in
  let expected := gpu_uuids (cx_worker cx) in
  l ← py_iter (get_default "gpu_uuids" (PList []) cfg);
  configured ← mapR py_str l;
  require (bool_decide (configured = []) || bool_decide (configured = expected))
    (ValueError "setup intent GPU UUIDs do not match ExLlamaV3 Worker ownership");;
  let policy := exllama_launch_policy cx c in
  mode ← enum_of_value (get_default "multi_gpu_mode" (PStr (enum_value (xp_multi_gpu_mode policy))) cfg);
  require (bool_decide (mode = xp_multi_gpu_mode policy))
    (ValueError "setup intent multi-GPU mode does not match reviewed ExLlamaV3 policy");;
  base_url ← text_or "base_url" (xc_base_url c) cfg;
  model_ref ← text_or "model_ref" (md_model_ref (ed_model (cx_demand cx))) cfg;
  served ← text_or "served_model_name" (_model_location model_ref (xc_model_dir c)).2 cfg;
  executable ← text_or "executable" (xc_executable c) cfg;
  entrypoint ← text_or "entrypoint" (xc_entrypoint c) cfg;
  config_path ← text_or "config_path" (xc_config_path c) cfg;
  executor ← mk_chat_executor exllama_names model_ref served (exllama_residency cx policy);
  Ok {| xr_process := {| xx_executable := executable; xx_entrypoint := entrypoint;
                         xx_config_path := config_path; xx_gpu_uuids := expected |};
        xr_context := cx; xr_model_ref := model_ref; xr_served_model_name := served;
        xr_startup_timeout := xc_startup_timeout_seconds c; xr_policy := policy; xr_executor := executor |}.

(** [ExLlamaV3Provider], runtime/providers/exllamav3.py lines 636-665. *)
Definition ExLlamaV3Provider (c : ExLlamaV3ProviderConfig) : RuntimeProvider exllama_runtime := {|
  rp_info := {| pi_provider_id := EXLLAMAV3_PROVIDER_ID; pi_display_name := "ExLlamaV3";
                pi_description :=
                  "EXL3 consumer-NVIDIA VRAM-resident serving through the official TabbyAPI backend." |};
  rp_compatibility := exllama_compatibility c;
  rp_setup_intent := exllama_setup_intent c;
  rp_create_runtime := exllama_create_runtime c;
  rp_config := Some (PDict (exllama_config_to_dict c));
|}.

(** ** The ExLlamaV3 provider: deployment and the TabbyAPI configuration *)

#[export] Instance ExLlamaMultiGpuMode_lawful : LawfulEnum ExLlamaMultiGpuMode.
Proof. constructor. by intros []. Qed.

#[export] Instance exllama_lawful {W} `{ServerWorld W} rt : LawfulBackend (exllama_backend rt).
Proof. apply chat_lawful; [apply emits_health_status|]. intros s _. right. unfold exllama_spawn. eauto. Qed.

Lemma exllama_timely {W} `{ServerClock W} rt : timely (bk_reachable (exllama_backend rt)).
Proof. apply timely_health_status. Qed.

(** ** Configuration *)

(** A configuration the constructor accepts, its URL without surrounding space. *)
Definition exllama_valid (c : ExLlamaV3ProviderConfig) : Prop :=
  stripped (xc_base_url c) ∧
  ∃ b e en cp pr st rq md mo bk gs cm sl bs ar,
    mk_ExLlamaV3ProviderConfig b e en cp pr st rq md mo bk gs cm sl bs ar = Ok c.

Lemma mapR_nonblank l f : Forall nonblank l → mapR (λ v, _nonblank v f) (PStr <$> l) = Ok l.
Proof.
  induction 1 as [|x l Hx _ IH]; [done|]. cbn [fmap list_fmap mapR]. rewrite nonblank_value_id by done.
  cbn [mbind result_bind]. by rewrite IH.
Qed.
Lemma mapR_nonblank_Ok l f l' : mapR (λ v, _nonblank v f) l = Ok l' → Forall nonblank l'.
Proof.
  revert l'. induction l as [|v l IH]; intros l'; cbn [mapR].
  - by intros [= <-].
  - intros (x & Hx & H)%bind_Ok. apply bind_Ok in H as (r & Hr & H). injection H as <-.
    constructor; [by eapply nonblank_value_Ok|by apply IH].
Qed.

Lemma mk_gpu_split_id v o : mk_gpu_split v = Ok o → mk_gpu_split (of_opt floats o) = Ok o.
Proof.
  assert (∀ l, (l0 ← py_iter v; split ← mapR py_float l0;
      require (negb (Nat.eqb (length split) 0) && forallb (λ f, negb (float_le_zero f)) split)
        (ValueError "gpu_split values must be positive");; Ok (Some split)) = Ok l →
      mk_gpu_split (of_opt floats l) = Ok l) as Hx.
  { intros l (l0 & _ & H)%bind_Ok. apply bind_Ok in H as (s & _ & H). apply guard_Ok in H as [Hg H].
    injection H as <-. cbn [of_opt floats mk_gpu_split py_iter mbind result_bind].
    rewrite mapR_py_float. cbn [mbind result_bind]. by rewrite Hg. }
  destruct v; cbn [mk_gpu_split]; [by intros [= <-]|apply Hx..].
Qed.

Lemma mk_autosplit_reserve_id v o :
  mk_autosplit_reserve v = Ok o → mk_autosplit_reserve (of_opt ints o) = Ok o.
Proof.
  assert (∀ l, (l0 ← py_iter v; reserve ← mapR py_int l0;
      require (negb (Nat.eqb (length reserve) 0) && forallb (λ z, 0 <=? z) reserve)
        (ValueError "autosplit_reserve_mb values must be non-negative");; Ok (Some reserve)) = Ok l →
      mk_autosplit_reserve (of_opt ints l) = Ok l) as Hx.
  { intros l (l0 & _ & H)%bind_Ok. apply bind_Ok in H as (s & _ & H). apply guard_Ok in H as [Hg H].
    injection H as <-. cbn [of_opt ints mk_autosplit_reserve py_iter mbind result_bind].
    rewrite mapR_py_int. cbn [mbind result_bind]. by rewrite Hg. }
  destruct v; cbn [mk_autosplit_reserve]; [by intros [= <-]|apply Hx..].
Qed.

Lemma exllama_config_facts c : exllama_valid c → exllama_config_of (exllama_config_to_dict c) = Ok c ∧
  xc_base_url c ≠ EmptyString ∧ nonblank (xc_executable c) ∧ nonblank (xc_entrypoint c) ∧
  nonblank (xc_config_path c).
Proof.
  intros (Hs & b & e & en & cp & pr & st & rq & md & mo & bk & gs & cm & sl & bs & ar & H).
  unfold mk_ExLlamaV3ProviderConfig in H.
  apply bind_Ok in H as (url & Hurl & H). apply bind_Ok in H as (exe & He & H).
  apply bind_Ok in H as (entry & Hen & H). apply bind_Ok in H as (path & Hcp & H).
  apply bind_Ok in H as (dir & Hmd & H). apply bind_Ok in H as (l & _ & H).
  apply bind_Ok in H as (packages & Hpr & H). apply bind_Ok in H as (mode & Hmo & H).
  apply bind_Ok in H as (backend & Hbk & H). apply bind_Ok in H as ([] & Hin & H).
  apply bind_Ok in H as (cache & Hcm & H). apply bind_Ok in H as ([] & Hst & H).
  apply bind_Ok in H as ([] & Hrq & H). apply bind_Ok in H as ([] & Hsl & H).
  apply bind_Ok in H as ([] & Hbs & H). apply bind_Ok in H as (split & Hgs & H).
  apply bind_Ok in H as (reserve & Har & H). injection H as <-. cbn [xc_base_url] in Hs.
  apply nonblank_value_Ok in He, Hen, Hcp, Hmd, Hbk, Hcm. apply mapR_nonblank_Ok in Hpr.
  apply mk_gpu_split_id in Hgs. apply mk_autosplit_reserve_id in Har.
  split; [|by apply base_url_Ok in Hurl].
  set (cfg := Build_ExLlamaV3ProviderConfig _ _ _ _ _ _ _ _ _ _ _ _ _ _ _).
  change (exllama_config_of (exllama_config_to_dict cfg)) with
    (mk_ExLlamaV3ProviderConfig (PStr url) (PStr exe) (PStr entry) (PStr path) (strs packages) st rq (PStr dir)
       (PStr (enum_value mode)) (PStr backend) (of_opt floats split) (PStr cache) sl bs (of_opt ints reserve)).
  unfold mk_ExLlamaV3ProviderConfig. rewrite (base_url_id _ _ _ Hurl Hs). cbn [mbind result_bind].
  rewrite !nonblank_value_id by done. cbn [mbind result_bind py_iter strs]. rewrite mapR_nonblank by done.
  cbn [mbind result_bind enum_of_value]. rewrite enum_complete. cbn [mbind result_bind].
  rewrite Hin. cbn [mbind result_bind].
  rewrite Hst, Hrq, Hsl, Hbs, Hgs, Har. reflexivity.
Qed.

(** ** Deployment *)

(** The runtime a configuration describes. *)
Definition exllama_described (c : ExLlamaV3ProviderConfig) (cx : RuntimeCompatibilityContext)
    : result exllama_runtime :=
  let policy := exllama_launch_policy cx c in
  let model_ref := md_model_ref (ed_model (cx_demand cx)) in
  let served := (_model_location model_ref (xc_model_dir c)).2 in
  executor ← mk_chat_executor exllama_names model_ref served (exllama_residency cx policy);
  Ok {| xr_process := {| xx_executable := xc_executable c; xx_entrypoint := xc_entrypoint c;
                         xx_config_path := xc_config_path c; xx_gpu_uuids := gpu_uuids (cx_worker cx) |};
        xr_context := cx; xr_model_ref := model_ref; xr_served_model_name := served;
        xr_startup_timeout := xc_startup_timeout_seconds c; xr_policy := policy; xr_executor := executor |}.

Lemma text_or_self key v d : dget key d = Some (PStr v) → text_or key v d = Ok v.
Proof. intros H. unfold text_or, py_or, get. rewrite H. by destruct v. Qed.

#[export] Instance exllama_reviewed :
  ReviewedProvider ExLlamaV3Provider exllama_config_of EXLLAMAV3_PROVIDER_ID exllama_valid exllama_described.
Proof.
  split.
  - done.
  - by vm_compute.
  - intros c Hc. exists (exllama_config_to_dict c). split; [done|]. by apply exllama_config_facts.
  - intros c cx i Hc Hd. cbn [rp_setup_intent rp_compatibility rp_create_runtime ExLlamaV3Provider].
    unfold exllama_setup_intent. intros (report & Hrep & H)%bind_Ok. apply guard_Ok in H as [Hcomp H].
    destruct (_model_location _ _) as [dir name] eqn:Eloc. apply bind_Ok in H as (tabby & Ht & H).
    pose proof (mk_RuntimeSetupIntent_wf _ _ _ _ _ _ _ _ H) as Hw.
    apply mk_intent_id in H as [Hid Hcfg]; [|by vm_compute].
    split; [done|]. split; [done|]. split; [by exists report|].
    destruct (exllama_config_facts c Hc) as (_ & Hu & [_ He] & [_ Hen] & [_ Hcp]).
    destruct Hd as ((Hm & _) & _). destruct Hm as [Hms Hme].
    unfold exllama_create_runtime. rewrite Hid, bool_decide_true by done. cbn [require mbind result_bind].
    rewrite Hrep. cbn [mbind result_bind]. rewrite Hcomp, Hcfg. cbn [require mbind result_bind].
    unfold exllama_configuration. rewrite Eloc.
    change (get_default "gpu_uuids" _ _) with (strs (gpu_uuids (cx_worker cx))).
    cbn [py_iter strs mbind result_bind]. rewrite mapR_py_str. cbn [mbind result_bind].
    rewrite (bool_decide_true (gpu_uuids (cx_worker cx) = gpu_uuids (cx_worker cx))), orb_true_r by done.
    cbn [require mbind result_bind].
    change (get_default "multi_gpu_mode" _ _) with (PStr (enum_value (xc_multi_gpu_mode c))).
    cbn [enum_of_value]. rewrite enum_complete. cbn [mbind result_bind].
    rewrite bool_decide_true by done. cbn [require mbind result_bind].
    rewrite (text_or_nonempty "base_url" (xc_base_url c)) by done.
    rewrite (text_or_nonempty "model_ref" (md_model_ref (ed_model (cx_demand cx)))) by done.
    cbn [mbind result_bind]. rewrite Eloc. cbn [snd]. rewrite (text_or_self "served_model_name" name) by done.
    rewrite (text_or_nonempty "executable" (xc_executable c)) by done.
    rewrite (text_or_nonempty "entrypoint" (xc_entrypoint c)) by done.
    rewrite (text_or_nonempty "config_path" (xc_config_path c)) by done.
    unfold exllama_described. rewrite Eloc. reflexivity.
  - intros c cx report Hrep Hcomp. cbn [rp_setup_intent rp_compatibility ExLlamaV3Provider] in *.
    unfold exllama_setup_intent. rewrite Hrep. cbn [mbind result_bind]. rewrite Hcomp. cbn. eauto.
Qed.
