(* ===== verification/Ollama.v ===== *)
(** * The Ollama provider

    Models [src/src/astrumweaver/runtime/providers/ollama.py]: the configuration, the HTTP
    client, the child process, the executor, the managed runtime and the provider. *)

From Stdlib Require Import SpecFloat.
From S2P Require Import Prelude PyStr PyDict PyVal PyHost Effects PyText PyNum Contracts Models RuntimeContracts OwnedServer OwnedServerProps Planner ProviderBase Deployment ProviderLaws.

Definition OLLAMA_PROVIDER_ID : string := "ollama".
(** [sorted(OLLAMA_CAPABILITIES)]. *)
Definition OLLAMA_CAPABILITIES : list string := ["llm.chat"; "text.generate"].

(** [_model_matches], runtime/providers/ollama.py lines 43-48. *)
Definition _model_matches (configured observed : string) : bool :=
  let configured := strip configured in
  let observed := strip observed in
  bool_decide (configured = observed)
  || (negb (contains ":" configured) && bool_decide (observed = configured +:+ ":latest")).

(** ** Configuration *)

(** [OllamaProviderConfig], runtime/providers/ollama.py lines 51-58. *)
Record OllamaProviderConfig := {
  oc_base_url : string;
  oc_executable : string;
  oc_package_reference : string;
  oc_keep_alive : string;
  oc_startup_timeout_seconds : pyval;
  oc_no_cloud : pyval;
}.

(** [OllamaProviderConfig.__post_init__], runtime/providers/ollama.py lines 60-76. *)
Definition mk_OllamaProviderConfig (base_url executable package_reference keep_alive
    startup_timeout_seconds no_cloud : pyval) : result OllamaProviderConfig :=
  url ← (s ← _nonblank base_url "base_url"; Ok (rstrip_char "/" s));
  parsed ← urlsplit url;
  require (loopback_http parsed)
    (ValueError "Ollama provider currently requires a local loopback HTTP endpoint");;
  exe ← _nonblank executable "executable";
  package ← _nonblank package_reference "package_reference";
  keep ← _nonblank keep_alive "keep_alive";
  nonpositive ← le_zero startup_timeout_seconds;
  require (negb nonpositive) (ValueError "startup_timeout_seconds must be positive");;
  Ok {| oc_base_url := url; oc_executable := exe; oc_package_reference := package;
        oc_keep_alive := keep; oc_startup_timeout_seconds := startup_timeout_seconds;
        oc_no_cloud := no_cloud |}.

Definition seconds_30 : pyval := PFloat (S754_finite false 8444249301319680 (-48)).

(** The configuration from keywords, with the defaults, runtime/providers/ollama.py lines 51-58. *)
Definition ollama_config_of (d : dict pyval) : result OllamaProviderConfig :=
  known_keywords ["base_url"; "executable"; "package_reference"; "keep_alive";
                  "startup_timeout_seconds"; "no_cloud"] d;;
  mk_OllamaProviderConfig (get_default "base_url" (PStr "http://127.0.0.1:11434") d)
    (get_default "executable" (PStr "ollama") d) (get_default "package_reference" (PStr "ollama") d)
    (get_default "keep_alive" (PStr "5m") d) (get_default "startup_timeout_seconds" seconds_30 d)
    (get_default "no_cloud" (PBool true) d).

(** [asdict(config)]. *)
Definition ollama_config_to_dict (c : OllamaProviderConfig) : dict pyval :=
  [("base_url", PStr (oc_base_url c)); ("executable", PStr (oc_executable c));
   ("package_reference", PStr (oc_package_reference c)); ("keep_alive", PStr (oc_keep_alive c));
   ("startup_timeout_seconds", oc_startup_timeout_seconds c); ("no_cloud", oc_no_cloud c)].

(** ** Jobs *)

(** [OllamaExecutor.__init__] holds a model and a keep-alive, runtime/providers/ollama.py lines 233-243. *)
Record ollama_executor := { oe_model : string; oe_keep_alive : string }.
Definition mk_OllamaExecutor (model keep_alive : string) : result ollama_executor :=
  m ← nonblank_str model "model";
  k ← nonblank_str keep_alive "keep_alive";
  Ok {| oe_model := m; oe_keep_alive := k |}.

(** [OllamaExecutor._payload], runtime/providers/ollama.py lines 245-258. *)
Definition _payload (x : ollama_executor) (job : JobRequest) : result (dict pyval) :=
  (match get "model" (jr_payload job) with
   | PNone => Ok tt
   | v => s ← py_str v;
          require (_model_matches (oe_model x) s)
            (ValueError "job model does not match the model bound to this Ollama runtime")
   end);;
  let payload := dremove "model" (jr_payload job) in
  let payload := dset "model" (PStr (oe_model x)) payload in
  let payload := dset "stream" (PBool false) payload in
  Ok (dsetdefault "keep_alive" (PStr (oe_keep_alive x)) payload).

(** The path and the body of the call of [OllamaExecutor.execute], runtime/providers/ollama.py lines 260-274. *)
Definition execute_call (x : ollama_executor) (job : JobRequest) : result (string * dict pyval) :=
  require (bool_decide (jr_capability job ∈ OLLAMA_CAPABILITIES))
    (ValueError ("Ollama executor does not support capability: " +:+ jr_capability job));;
  payload ← _payload x job;
  if bool_decide (jr_capability job = "llm.chat") then
    require (match get "messages" payload with PList _ => true | _ => false end)
      (ValueError "llm.chat requires a messages list");;
    Ok ("/api/chat", payload)
  else
    require (match get "prompt" payload with PStr _ => true | _ => false end)
      (ValueError "text.generate requires a prompt string");;
    Ok ("/api/generate", payload).

(** The durations and counts Ollama reports, runtime/providers/ollama.py lines 297-305. *)
Definition metric_keys : list string :=
  ["total_duration"; "load_duration"; "prompt_eval_count"; "prompt_eval_cached_count";
   "prompt_eval_duration"; "eval_count"; "eval_duration"].

(** The result of [OllamaExecutor.execute], runtime/providers/ollama.py lines 283-318. *)
Definition execute_result (x : ollama_executor) (job : JobRequest) (response : dict pyval)
    : result JobResult :=
  let text :=
    if bool_decide (jr_capability job = "llm.chat") then
      match get "message" response with
      | PDict message => match get "content" message with PStr s => Some s | _ => None end
      | _ => None
      end
    else match get "response" response with PStr s => Some s | _ => None end in
  mk_JobResult response [] (metrics_of metric_keys response) text
    [("runtime_provider", PStr OLLAMA_PROVIDER_ID); ("model", PStr (oe_model x))].

Section ollama.
Context {W : Type} `{ServerWorld W}.
Abbreviation M := (eff (server W)).

(** ** The client *)

(** [HttpOllamaApi._json], runtime/providers/ollama.py lines 108-121. *)
Definition _json (method path : string) (json : option (dict pyval)) : M (dict pyval) :=
  json_request "Ollama returned a non-object response" method path json.

(** The mappings of a list of models. *)
Definition mappings (l : list pyval) : list (dict pyval) :=
  omap (λ v, match v with PDict d => Some d | _ => None end) l.

(** [HttpOllamaApi.list_models], runtime/providers/ollama.py lines 123-128. *)
Definition list_models : M (list (dict pyval)) :=
  body ← _json "GET" "/api/tags" None;
  match dget "models" body with
  | Some (PList l) => mret (mappings l)
  | _ => throws (RuntimeError "Ollama /api/tags returned invalid models")
  end.

(** [HttpOllamaApi.running_models], runtime/providers/ollama.py lines 130-135. *)
Definition running_models : M (list (dict pyval)) :=
  body ← _json "GET" "/api/ps" None;
  match dget "models" body with
  | Some (PList l) => mret (mappings l)
  | _ => throws (RuntimeError "Ollama /api/ps returned invalid models")
  end.

(** [HttpOllamaApi.generate], runtime/providers/ollama.py lines 140-141. *)
Definition api_generate (payload : dict pyval) : M (dict pyval) := _json "POST" "/api/generate" (Some payload).
(** [HttpOllamaApi.chat], runtime/providers/ollama.py lines 137-138. *)
Definition api_chat (payload : dict pyval) : M (dict pyval) := _json "POST" "/api/chat" (Some payload).

Definition load_request (model : string) (keep_alive : pyval) : dict pyval :=
  [("model", PStr model); ("prompt", PStr EmptyString); ("stream", PBool false); ("keep_alive", keep_alive)].

(** [HttpOllamaApi.unload], runtime/providers/ollama.py lines 143-151. *)
Definition api_unload (model : string) : M unit := api_generate (load_request model (PInt 0));; mret tt.

(** ** The process *)

(** The arguments of [OllamaSubprocessController.__init__], runtime/providers/ollama.py lines 174-190. *)
Record ollama_process := {
  op_executable : string;
  op_base_url : string;
  op_gpu_uuids : list string;
  op_keep_alive : string;
  op_no_cloud : bool;
  op_sched_spread : bool;
}.

Definition remove_prefix (p s : string) : string := if startswith p s then str_drop (String.length p) s else s.

(** The environment of [OllamaSubprocessController.start], runtime/providers/ollama.py lines 199-209. *)
Definition ollama_environment (p : ollama_process) (env : dict string) : dict string :=
  let env := dset "OLLAMA_HOST" (remove_prefix "https://" (remove_prefix "http://" (op_base_url p))) env in
  let env := dset "OLLAMA_NUM_PARALLEL" "1" env in
  let env := dset "OLLAMA_MAX_LOADED_MODELS" "1" env in
  let env := dset "OLLAMA_KEEP_ALIVE" (op_keep_alive p) env in
  let env := dset "OLLAMA_NO_CLOUD" (if op_no_cloud p then "true" else "false") env in
  let env := match op_gpu_uuids p with [] => env | l => dset "CUDA_VISIBLE_DEVICES" (join "," l) env end in
  if op_sched_spread p then dset "OLLAMA_SCHED_SPREAD" "true" env else env.

(** [OllamaSubprocessController.start], runtime/providers/ollama.py lines 196-214. *)
Definition ollama_spawn (p : ollama_process) : M unit :=
  start_process [op_executable p; "serve"] (ollama_environment p) id.

(** ** The managed runtime *)

(** The arguments of [OllamaManagedRuntime.__init__], runtime/providers/ollama.py lines 365-386. *)
Record ollama_runtime := {
  om_process : ollama_process;
  om_context : RuntimeCompatibilityContext;
  om_model : string;
  om_keep_alive : string;
  om_startup_timeout : pyval;
  om_executor : ollama_executor;
}.

Variable rt : ollama_runtime.

(** [OllamaManagedRuntime._server_reachable], runtime/providers/ollama.py lines 388-393. *)
Definition _server_reachable : M bool :=
  except_exception (list_models;; mret true) (λ _, mret false).

(** The string names of a model entry. *)
Definition entry_names (model : dict pyval) : list string :=
  omap (λ key, match get key model with PStr s => Some s | _ => None end) ["model"; "name"].

(** [OllamaManagedRuntime._available_models] and the test on it, runtime/providers/ollama.py lines 395-403. *)
Definition model_available : M bool :=
  models ← list_models;
  mret (existsb (_model_matches (om_model rt)) (models ≫= entry_names)).

(** The entry of [/api/ps] for a model, runtime/providers/ollama.py lines 407-408. *)
Definition entry_matches (entry : dict pyval) : bool :=
  match py_or (get "model" entry) (get "name" entry) with
  | PStr name => _model_matches (om_model rt) name
  | _ => false
  end.

(** [OllamaManagedRuntime._resident_entry], runtime/providers/ollama.py lines 405-410. *)
Definition _resident_entry : M (option (dict pyval)) :=
  models ← running_models; mret (List.find entry_matches models).

(** [OllamaManagedRuntime._load_model], runtime/providers/ollama.py lines 412-420. *)
Definition _load_model : M unit :=
  api_generate (load_request (om_model rt) (PStr (om_keep_alive rt)));; mret tt.

(** [OllamaManagedRuntime._verify_loaded_topology], runtime/providers/ollama.py lines 422-441. *)
Definition _verify_loaded_topology : M unit :=
  entry ← _resident_entry;
  match entry with
  | None => throws (RuntimeError "Ollama did not report the configured model as resident")
  | Some entry =>
      match get "size_vram" entry with
      | PInt size_vram =>
          if bool_decide (ed_residency_policy (cx_demand (om_context rt)) = VRAM_ONLY) then
            match get "size" entry with
            | PInt size =>
                ensure (size <=? size_vram) (RuntimeError
                  "Ollama loaded part of the model outside VRAM under vram_only policy")
            | _ => throws (RuntimeError
                     "Ollama did not report model size required for vram_only verification")
            end
          else mret tt
      | _ => throws (RuntimeError "Ollama did not report model VRAM residency")
      end
  end.

(** After the server answers, runtime/providers/ollama.py lines 480-490. *)
Definition ollama_verify : M unit :=
  available ← model_available;
  ensure available (RuntimeError "configured Ollama model is not available after setup");;
  _load_model;;
  _verify_loaded_topology.

(** Before the process of a failed start is stopped, runtime/providers/ollama.py lines 492-494. *)
Definition ollama_cleanup : M unit :=
  reachable ← _server_reachable;
  if reachable : bool then suppress (api_unload (om_model rt)) else mret tt.

(** What [release] does before the client is closed, runtime/providers/ollama.py lines 569-571. *)
Definition ollama_unload : M unit :=
  alive ← gets running;
  if negb alive then mret tt
  else
    reachable ← _server_reachable;
    alive ← gets running;
    if reachable && alive then suppress (api_unload (om_model rt)) else mret tt.

Definition provider_metadata : dict pyval := [("runtime_provider", PStr OLLAMA_PROVIDER_ID)].

(** [OllamaManagedRuntime] as an owned server: what [start], [stop], [health] and [release]
    add to the common sequence, runtime/providers/ollama.py lines 448-573. *)
Definition ollama_backend : backend W := {|
  bk_released_text := "Ollama runtime has already been released";
  bk_external_text := "an external Ollama server is already using the configured endpoint";
  bk_exited_text := "Ollama owned process exited before readiness; inspect Worker service logs";
  bk_timeout_text := "Ollama server did not become ready";
  bk_poll := 100;
  bk_startup_timeout := om_startup_timeout rt;
  bk_spawn := ollama_spawn (om_process rt);
  bk_reachable := _server_reachable;
  bk_verify := ollama_verify;
  bk_cleanup := ollama_cleanup;
  bk_available := model_available;
  bk_health_external := "external Ollama process detected at managed endpoint";
  bk_health_inventory := "Ollama model inventory is unavailable";
  bk_health_unavailable := "configured Ollama model is unavailable";
  bk_metadata := provider_metadata;
  bk_ready_metadata := provider_metadata ++ [("model", PStr (om_model rt))];
  bk_unload := ollama_unload;
|}.

(** [OllamaExecutor.execute]: the call and its result; the in-flight task is the call, which
    may be cancelled, runtime/providers/ollama.py lines 260-318. *)
Definition execute (job : JobRequest) : M JobResult :=
  call ← lifts (execute_call (om_executor rt) job);
  response ← _json "POST" call.1 (Some call.2);
  lifts (execute_result (om_executor rt) job response).

(** An item of [OllamaExecutor.residency], runtime/providers/ollama.py lines 332-355. *)
Definition residency_item (model : dict pyval) : result (option ResidencyItem) :=
  match py_or (get "model" model) (get "name" model) with
  | PStr name =>
      if negb (_model_matches (oe_model (om_executor rt)) name) then Ok None
      else
        let metadata :=
          (match get "size" model with PInt z => [("size_bytes", PInt z)] | _ => [] end)
          ++ (match get "context_length" model with PInt z => [("context_length", PInt z)] | _ => [] end) in
        item ← mk_ResidencyItem (oe_model (om_executor rt)) "ollama-model"
                 (match get "size_vram" model with PInt z => Some z | _ => None end) metadata;
        Ok (Some item)
  | _ => Ok None
  end.

(** [OllamaExecutor.residency] at the instant [now], runtime/providers/ollama.py lines 328-359. *)
Definition residency (now : datetime) : M ResidencyReport :=
  models ← running_models;
  items ← lifts (mapR residency_item models);
  lifts (mk_ResidencyReport (omap id items) now provider_metadata).
End ollama.

(** ** The provider *)

(** The reasons of the [vram_only] policy, runtime/providers/ollama.py lines 642-672. *)
Definition ollama_vram_reasons (model : ModelDemand) (total_vram_mb : Z) : CompatibilityReason :=
  match md_estimated_size_mb model with
  | None => blocking_reason "model-size-required-for-vram-only"
      "Ollama vram_only planning requires estimated model size; runtime residency is verified again after load"
  | Some size =>
      if total_vram_mb <? size then
        blocking_reason "model-exceeds-total-vram"
          "estimated model size exceeds Worker total VRAM under vram_only policy"
      else advice "vram-residency-runtime-verified"
             "Ollama full-VRAM residency will be verified from /api/ps after the model is loaded"
  end.

(** [OllamaProvider.compatibility], runtime/providers/ollama.py lines 608-690. *)
Definition ollama_compatibility (cx : RuntimeCompatibilityContext) : result RuntimeCompatibility :=
  let demand := cx_demand cx in
  let model := ed_model demand in
  mk_RuntimeCompatibility OLLAMA_PROVIDER_ID
    (reason_if (negb (bool_decide (md_model_format model = "ollama")))
       (blocking_reason "model-format-unsupported"
          "Ollama provider currently requires an Ollama model reference (model_format=ollama)")
     ++ reason_if (bool_decide (ed_residency_policy demand = CPU_GPU_HYBRID))
          (advice "ollama-offload-automatic"
             "Ollama controls CPU/GPU offload automatically; use llama.cpp when explicit layer/offload control is required")
     ++ reason_if (bool_decide (ed_residency_policy demand = VRAM_ONLY))
          (ollama_vram_reasons model (total_vram_mb (resources (cx_worker cx))))
     ++ reason_if (bool_decide (ed_gpu_topology demand = MULTI_GPU))
          (advice "ollama-multi-gpu-spread"
             "Ollama will be restricted to the Worker GPU UUID set and OLLAMA_SCHED_SPREAD will request distribution across all selected GPUs")).

(** The configuration of the intent, runtime/providers/ollama.py lines 705-719. *)
Definition ollama_configuration (c : OllamaProviderConfig) (cx : RuntimeCompatibilityContext) : dict pyval :=
  let model_ref := md_model_ref (ed_model (cx_demand cx)) in
  [("base_url", PStr (oc_base_url c)); ("executable", PStr (oc_executable c));
   ("model", PStr model_ref); ("keep_alive", PStr (oc_keep_alive c));
   ("startup_timeout_seconds", oc_startup_timeout_seconds c);
   ("gpu_uuids", strs (gpu_uuids (cx_worker cx))); ("capabilities", strs OLLAMA_CAPABILITIES);
   ("num_parallel", PInt 1); ("max_loaded_models", PInt 1); ("no_cloud", oc_no_cloud c);
   ("sched_spread", PBool (bool_decide (ed_gpu_topology (cx_demand cx) = MULTI_GPU)))].

(** [OllamaProvider.setup_intent], runtime/providers/ollama.py lines 692-726. *)
Definition ollama_setup_intent (c : OllamaProviderConfig) (cx : RuntimeCompatibilityContext)
    : result RuntimeSetupIntent :=
  report ← ollama_compatibility cx;
  require (compatible report)
    (RuntimeError "cannot build Ollama setup intent for an incompatible execution demand");;
  let model_ref := md_model_ref (ed_model (cx_demand cx)) in
  mk_RuntimeSetupIntent OLLAMA_PROVIDER_ID [oc_package_reference c]
    (ollama_configuration c cx)
    DOWNLOAD (PStr model_ref) true [("runtime_provider", PStr OLLAMA_PROVIDER_ID)].

(** [OllamaProvider.create_runtime], runtime/providers/ollama.py lines 728-770. *)
Definition ollama_create_runtime (c : OllamaProviderConfig) (cx : RuntimeCompatibilityContext)
    (setup : RuntimeSetupIntent) : result ollama_runtime :=
  require (bool_decide (si_provider_id setup = OLLAMA_PROVIDER_ID))
    (ValueError "setup intent does not belong to Ollama provider");;
  report ← ollama_compatibility cx;
  require (compatible report)
    (RuntimeError "cannot create Ollama runtime for an incompatible execution demand");;
  let configuration := si_configuration setup in
  model ← text_or "model" (md_model_ref (ed_model (cx_demand cx))) configuration;
  base_url ← text_or "base_url" (oc_base_url c) configuration;
  executable ← text_or "executable" (oc_executable c) configuration;
  keep_alive ← text_or "keep_alive" (oc_keep_alive c) configuration;
  timeout ← py_float (get_default "startup_timeout_seconds" (oc_startup_timeout_seconds c) configuration);
  executor ← mk_OllamaExecutor model keep_alive;
  Ok {| om_process := {| op_executable := executable; op_base_url := base_url;
                         op_gpu_uuids := gpu_uuids (cx_worker cx); op_keep_alive := keep_alive;
                         op_no_cloud := truthy (get_default "no_cloud" (oc_no_cloud c) configuration);
                         op_sched_spread := truthy (get_default "sched_spread" (PBool false) configuration) |};
        om_context := cx; om_model := model; om_keep_alive := keep_alive;
        om_startup_timeout := PFloat timeout; om_executor := executor |}.

(** [OllamaProvider], runtime/providers/ollama.py lines 576-606. *)
Definition OllamaProvider (c : OllamaProviderConfig) : RuntimeProvider ollama_runtime := {|
  rp_info := {| pi_provider_id := OLLAMA_PROVIDER_ID; pi_display_name := "Ollama";
                pi_description := "General-purpose local model serving through Ollama." |};
  rp_compatibility := ollama_compatibility;
  rp_setup_intent := ollama_setup_intent c;
  rp_create_runtime := ollama_create_runtime c;
  rp_config := Some (PDict (ollama_config_to_dict c));
|}.

(** ** The Ollama provider: an owned server that verifies what it loads

    Ollama keeps the promises of an owned server, for which starting, health, stopping and
    release are proved; its configuration survives deployment. *)

(** ** The managed runtime keeps the interface *)

Section ollama.
Context {W : Type} `{ServerWorld W}.
Variable rt : ollama_runtime.

Lemma emits_list_models : emits is_request (list_models (W:=W)).
Proof.
  unfold list_models, _json. apply emits_bind; [apply emits_json|]. intros body.
  destruct (dget "models" body) as [[]|]; first [apply emits_ret|apply emits_throws].
Qed.
Lemma emits_running_models : emits is_request (running_models (W:=W)).
Proof.
  unfold running_models, _json. apply emits_bind; [apply emits_json|]. intros body.
  destruct (dget "models" body) as [[]|]; first [apply emits_ret|apply emits_throws].
Qed.
Lemma emits_server_reachable : emits is_request (_server_reachable (W:=W)).
Proof.
  unfold _server_reachable. apply emits_except; [|intros; apply emits_ret].
  apply emits_bind; [apply emits_list_models|intros; apply emits_ret].
Qed.
Lemma emits_model_available : emits is_request (model_available (W:=W) rt).
Proof. unfold model_available. apply emits_bind; [apply emits_list_models|intros; apply emits_ret]. Qed.
Lemma emits_generate payload : emits is_request (api_generate payload;; mret tt : eff (server W) unit).
Proof. unfold api_generate, _json. apply emits_bind; [apply emits_json|intros; apply emits_ret]. Qed.

Lemma emits_verify : emits is_request (ollama_verify (W:=W) rt).
Proof.
  unfold ollama_verify, _load_model, _verify_loaded_topology, _resident_entry.
  apply emits_bind; [apply emits_model_available|intros available].
  apply emits_bind; [apply emits_ensure|intros _]. apply emits_bind; [apply emits_generate|intros _].
  apply emits_bind; [apply emits_bind; [apply emits_running_models|intros; apply emits_ret]|].
  intros [entry|]; [|apply emits_throws].
  destruct (get "size_vram" entry); try apply emits_throws. case_bool_decide; [|apply emits_ret].
  destruct (get "size" entry); first [apply emits_ensure|apply emits_throws].
Qed.

Lemma suppress_silent (m : eff (server W) unit) s e : (suppress m s).2 = Err e → is_exception e = false.
Proof.
  unfold suppress, except_exception, try_catch. destruct (m s) as [s' [[]|e']]; [done|].
  destruct (is_exception e') eqn:E; cbn; [done|]. by intros [= <-].
Qed.

Lemma reachable_silent s e : (_server_reachable (W:=W) s).2 = Err e → is_exception e = false.
Proof.
  unfold _server_reachable, except_exception, try_catch.
  destruct ((list_models;; mret true) s) as [s' [b|e']]; [done|].
  destruct (is_exception e') eqn:E; cbn; [done|]. by intros [= <-].
Qed.

#[export] Instance ollama_lawful : LawfulBackend (ollama_backend (W:=W) rt).
Proof.
  split; cbn.
  - apply emits_server_reachable.
  - apply emits_verify.
  - unfold ollama_cleanup. apply emits_bind; [apply emits_server_reachable|].
    intros [|]; [apply emits_suppress, emits_generate|apply emits_ret].
  - apply emits_model_available.
  - unfold ollama_unload. apply emits_bind; [apply emits_gets|]. intros [|]; [|apply emits_ret]. cbn [negb].
    apply emits_bind; [apply emits_server_reachable|]. intros reachable.
    apply emits_bind; [apply emits_gets|]. intros alive.
    destruct (reachable && alive); [apply emits_suppress, emits_generate|apply emits_ret].
  - intros s e. unfold ollama_cleanup, mbind, eff_bind.
    pose proof (reachable_silent s) as Hr. destruct (_server_reachable s) as [s1 [[|]|e1]]; cbn.
    + apply suppress_silent.
    + done.
    + intros [= <-]. by apply Hr.
  - unfold ollama_spawn. eauto 6.
Qed.

Lemma ollama_timely `{!ServerClock W} : timely (bk_reachable (ollama_backend (W:=W) rt)).
Proof.
  cbn. unfold _server_reachable, except_exception, list_models, _json.
  apply timely_catch.
  - apply timely_bind; [|intros; apply timely_ret]. apply timely_bind; [apply timely_json|].
    intros body. destruct (dget "models" body) as [[]|]; first [apply timely_ret|apply timely_throws].
  - intros e. destruct (is_exception e); [apply timely_ret|apply timely_throws].
Qed.
End ollama.

(** ** Configuration *)

(** A configuration read back from its own fields. *)
Lemma ollama_config_id a b p k t n c : mk_OllamaProviderConfig a b p k t n = Ok c →
  stripped (oc_base_url c) → ollama_config_of (ollama_config_to_dict c) = Ok c.
Proof.
  unfold mk_OllamaProviderConfig. intros H Hs.
  apply bind_Ok in H as (url & Hurl & H). apply bind_Ok in Hurl as (u & Hu & Hurl). injection Hurl as <-.
  apply bind_Ok in H as (parsed & Hp & H). apply guard_Ok in H as [Hl H].
  apply bind_Ok in H as (exe & He & H). apply bind_Ok in H as (pk & Hpk & H).
  apply bind_Ok in H as (ka & Hk & H). apply bind_Ok in H as (np & Hnp & H).
  apply guard_Ok in H as [Hpos H]. injection H as <-. cbn in Hs.
  apply nonblank_value_Ok in He, Hpk, Hk.
  set (cfg := Build_OllamaProviderConfig _ _ _ _ _ _).
  change (ollama_config_of (ollama_config_to_dict cfg)) with
    (mk_OllamaProviderConfig (PStr (rstrip_char "/" u)) (PStr exe) (PStr pk) (PStr ka) t n).
  unfold mk_OllamaProviderConfig.
  assert (nonblank (rstrip_char "/" u)) as Hnb.
  { split; [done|]. intros E. rewrite E in Hp. vm_compute in Hp. injection Hp as <-. done. }
  rewrite (nonblank_value_id _ _ Hnb). cbn [mbind result_bind]. rewrite rstrip_char_idemp, Hp.
  cbn [mbind result_bind]. rewrite Hl. cbn [require mbind result_bind].
  rewrite !nonblank_value_id by done. cbn [mbind result_bind]. rewrite Hnp. cbn [mbind result_bind].
  by rewrite Hpos.
Qed.

(** ** Compatibility *)

(** What Ollama can run. *)
Definition ollama_runs (cx : RuntimeCompatibilityContext) : Prop :=
  md_model_format (ed_model (cx_demand cx)) = "ollama" ∧
  (ed_residency_policy (cx_demand cx) = VRAM_ONLY →
   ∃ size, md_estimated_size_mb (ed_model (cx_demand cx)) = Some size ∧
           size <= total_vram_mb (resources (cx_worker cx))).

Lemma ollama_compatibility_exact cx :
  ∃ report, ollama_compatibility cx = Ok report ∧ (compatible report = true ↔ ollama_runs cx).
Proof.
  eexists. split; [reflexivity|]. unfold compatible, ollama_runs. cbn [rc_reasons].
  rewrite !existsb_app. case_bool_decide as Ef; cbn [negb reason_if existsb cr_blocking blocking_reason orb].
  2:{ split; [done|]. intros []. done. }
  assert (∀ r, existsb cr_blocking (reason_if r (advice "ollama-offload-automatic"
    "Ollama controls CPU/GPU offload automatically; use llama.cpp when explicit layer/offload control is required")) = false)
    as -> by (by intros []).
  assert (∀ r, existsb cr_blocking (reason_if r (advice "ollama-multi-gpu-spread"
    "Ollama will be restricted to the Worker GPU UUID set and OLLAMA_SCHED_SPREAD will request distribution across all selected GPUs"))
    = false) as -> by (by intros []).
  case_bool_decide as Ev; cbn [reason_if existsb orb].
  - unfold ollama_vram_reasons. destruct (md_estimated_size_mb _) as [size|]; [|naive_solver].
    destruct (Z.ltb_spec (total_vram_mb (resources (cx_worker cx))) size); cbn.
    + split; [done|]. intros [_ Hs]. destruct (Hs Ev) as (z & [= <-] & Hz). lia.
    + split; [|done]. intros _. split; [done|]. intros _. by exists size.
  - naive_solver.
Qed.

(** ** Deployment *)

(** The runtime of a configuration for a worker and a demand. *)
Definition ollama_runtime_of (c : OllamaProviderConfig) (cx : RuntimeCompatibilityContext) (timeout : pyval)
    : ollama_runtime :=
  let model := md_model_ref (ed_model (cx_demand cx)) in
  {| om_process := {| op_executable := oc_executable c; op_base_url := oc_base_url c;
                      op_gpu_uuids := gpu_uuids (cx_worker cx); op_keep_alive := oc_keep_alive c;
                      op_no_cloud := truthy (oc_no_cloud c);
                      op_sched_spread := bool_decide (ed_gpu_topology (cx_demand cx) = MULTI_GPU) |};
     om_context := cx; om_model := model; om_keep_alive := oc_keep_alive c;
     om_startup_timeout := timeout;
     om_executor := {| oe_model := model; oe_keep_alive := oc_keep_alive c |} |}.

Lemma ollama_config_nonblank a b p k t n c : mk_OllamaProviderConfig a b p k t n = Ok c →
  oc_base_url c ≠ EmptyString ∧ nonblank (oc_executable c) ∧ nonblank (oc_package_reference c) ∧
  nonblank (oc_keep_alive c).
Proof.
  unfold mk_OllamaProviderConfig. intros H. simp_res.
  repeat match goal with H : _nonblank _ _ = Ok _ |- _ => apply nonblank_value_Ok in H end.
  cbn. split_and!; try done. intros E.
  match goal with H : urlsplit _ = Ok _ |- _ => rewrite E in H; vm_compute in H; injection H as <- end. done.
Qed.

Lemma ollama_intent_Ok c cx : nonblank (oc_package_reference c) → nonblank (md_model_ref (ed_model (cx_demand cx))) →
  ollama_runs cx → ∃ i, ollama_setup_intent c cx = Ok i ∧ si_provider_id i = OLLAMA_PROVIDER_ID ∧
    si_configuration i = ollama_configuration c cx.
Proof.
  intros Hp Hm Hr. destruct (ollama_compatibility_exact cx) as (report & Hc & He).
  unfold ollama_setup_intent. rewrite Hc. cbn [mbind result_bind]. rewrite (proj2 He Hr).
  cbn [require mbind result_bind]. unfold mk_RuntimeSetupIntent. cbn [mapR].
  rewrite !nonblank_str_id by done. cbn [mbind result_bind py_str].
  assert (all_distinct [oc_package_reference c] = true) as -> by apply bool_decide_true, NoDup_singleton.
  cbn [require mbind result_bind]. rewrite nonblank_str_id by done. cbn [mbind result_bind].
  eexists. split; [reflexivity|done].
Qed.

Lemma ollama_create c cx i report : oc_base_url c ≠ EmptyString → nonblank (oc_executable c) →
  nonblank (oc_keep_alive c) → nonblank (md_model_ref (ed_model (cx_demand cx))) →
  ollama_compatibility cx = Ok report → compatible report = true →
  si_provider_id i = OLLAMA_PROVIDER_ID → si_configuration i = ollama_configuration c cx →
  ollama_create_runtime c cx i =
  (f ← py_float (oc_startup_timeout_seconds c); Ok (ollama_runtime_of c cx (PFloat f))).
Proof.
  intros Hu He Hk Hm Hrep Hcomp Hid Hc.
  unfold ollama_create_runtime. rewrite bool_decide_true by done. cbn [require mbind result_bind].
  rewrite Hrep. cbn [mbind result_bind]. rewrite Hcomp, Hc. cbn [require mbind result_bind].
  destruct He as [_ He], Hk as [Hks Hke], Hm as [Hms Hme].
  rewrite (text_or_nonempty "model" (md_model_ref (ed_model (cx_demand cx)))) by done.
  rewrite (text_or_nonempty "base_url" (oc_base_url c)) by done.
  rewrite (text_or_nonempty "executable" (oc_executable c)) by done.
  rewrite (text_or_nonempty "keep_alive" (oc_keep_alive c)) by done.
  cbn [mbind result_bind].
  change (get_default "startup_timeout_seconds" _ _) with (oc_startup_timeout_seconds c).
  destruct (py_float _) as [f|e]; [|done]. cbn [mbind result_bind]. unfold mk_OllamaExecutor.
  by rewrite !nonblank_str_id.
Qed.

(** A configuration the constructor accepts, its URL without surrounding space. *)
Definition ollama_valid (c : OllamaProviderConfig) : Prop :=
  stripped (oc_base_url c) ∧ ∃ a b p k t n, mk_OllamaProviderConfig a b p k t n = Ok c.

(** The runtime a configuration describes. *)
Definition ollama_described (c : OllamaProviderConfig) (cx : RuntimeCompatibilityContext) : result ollama_runtime :=
  f ← py_float (oc_startup_timeout_seconds c); Ok (ollama_runtime_of c cx (PFloat f)).

#[export] Instance ollama_reviewed :
  ReviewedProvider OllamaProvider ollama_config_of OLLAMA_PROVIDER_ID ollama_valid ollama_described.
Proof.
  split.
  - done.
  - by vm_compute.
  - intros c (Hs & a & b & p & k & t & n & H). exists (ollama_config_to_dict c). split; [done|].
    by eapply ollama_config_id.
  - intros c cx i (Hs & a & b & p & k & t & n & Hc) Hd. cbn [rp_setup_intent rp_compatibility rp_create_runtime OllamaProvider].
    unfold ollama_setup_intent. intros (report & Hrep & H)%bind_Ok. apply guard_Ok in H as [Hcomp H].
    pose proof (mk_RuntimeSetupIntent_wf _ _ _ _ _ _ _ _ H) as Hw.
    apply mk_intent_id in H as [Hid Hcfg]; [|by vm_compute].
    split; [done|]. split; [done|]. split; [by exists report|].
    destruct (ollama_config_nonblank _ _ _ _ _ _ _ Hc) as (Hu & He & Hp & Hk).
    apply (ollama_create c cx i report); try done. apply Hd.
  - intros c cx report Hrep Hcomp. cbn [rp_setup_intent rp_compatibility OllamaProvider] in *.
    unfold ollama_setup_intent. rewrite Hrep. cbn [mbind result_bind]. rewrite Hcomp. cbn. eauto.
Qed.
