(* ===== verification/Lifecycle.v ===== *)
(** * Runtime lifecycle

    Models [src/src/astrumweaver/runtime/lifecycle.py]: bringing a managed runtime up and
    down, with deadlines and at most one release per life.  The runtime and the event loop's
    clock are an interface over an abstract state; every awaited call may raise, and every
    call is logged. *)

From S2P Require Import Prelude PyStr PyDict PyVal Contracts RuntimeContracts.

(** ** The runtime and the clock *)

(** [ManagedRuntime], runtime/contracts.py lines 369-388, and the event loop: [loop.time()],
    [asyncio.sleep] and an await bounded by [asyncio.timeout].  Times are in ticks. *)
Class ManagedRuntime (S : Type) := {
  mr_health : S → S * result RuntimeHealth;
  mr_start : S → S * result unit;
  mr_stop : S → S * result unit;
  mr_release : S → S * result unit;
  mr_time : S → Z;
  mr_sleep : Z → S → S;
  mr_within : Z → (S → S * result unit) → S → S * result unit;
}.

(** Time never runs backwards, and a sleep lasts at least as long as asked. *)
Class LawfulClock (S : Type) `{ManagedRuntime S} := {
  health_time s : mr_time s ≤ mr_time (mr_health s).1;
  sleep_time d s : 0 < d → mr_time s + d ≤ mr_time (mr_sleep d s);
}.

Inductive call := CallHealth | CallStart | CallStop | CallRelease.
#[export] Instance call_eq : EqDecision call.
Proof. solve_decision. Defined.

Section lifecycle.
Context {S : Type} `{MR : ManagedRuntime S}.

(** [RuntimeLifecycleManager], runtime/lifecycle.py lines 20-24: the manager's flag, the
    runtime behind it, and the calls made so far. *)
Record manager := {
  mg_released : bool;
  mg_runtime : S;
  mg_calls : list call;
}.

(** One awaited call. *)
Definition await {A} (c : call) (op : S → S * result A) (m : manager) : manager * result A :=
  let '(s, r) := op (mg_runtime m) in
  ({| mg_released := mg_released m; mg_runtime := s; mg_calls := mg_calls m ++ [c] |}, r).

Definition set_released (b : bool) (m : manager) : manager :=
  {| mg_released := b; mg_runtime := mg_runtime m; mg_calls := mg_calls m |}.
Definition sleep (d : Z) (m : manager) : manager :=
  {| mg_released := mg_released m; mg_runtime := mr_sleep d (mg_runtime m);
     mg_calls := mg_calls m |}.
Definition time (m : manager) : Z := mr_time (mg_runtime m).

(** Sequencing of calls that may raise. *)
Definition andThen {A B} (r : manager * result A) (k : A → manager → manager * result B)
    : manager * result B :=
  match r with
  | (m, Ok a) => k a m
  | (m, Err e) => (m, Err e)
  end.

Variable poll_interval : Z.

(** [RuntimeLifecycleManager.__post_init__], runtime/lifecycle.py lines 26-28. *)
Definition mk_manager (s : S) : result manager :=
  require (0 <? poll_interval) (ValueError "poll_interval_seconds must be positive");;
  Ok {| mg_released := false; mg_runtime := s; mg_calls := [] |}.

(** The loop of [ensure_ready], runtime/lifecycle.py lines 52-65; [None] when out of fuel. *)
Fixpoint ready_loop (fuel : nat) (deadline : Z) (m : manager)
    : option (manager * result RuntimeHealth) :=
  match fuel with
  | O => None
  | Datatypes.S fuel' =>
      match await CallHealth mr_health m with
      | (m, Err e) => Some (m, Err e)
      | (m, Ok health) =>
          if rh_ready health then Some (set_released false m, Ok health)
          else if bool_decide (rh_state health = HEALTH_FAILED) then
            Some (m, Err (RuntimeLifecycleError "runtime entered failed state while starting"))
          else if deadline <=? time m then
            Some (m, Err (RuntimeLifecycleError "runtime did not become ready before timeout"))
          else ready_loop fuel' deadline (sleep poll_interval m)
      end
  end.

(** [ensure_ready], runtime/lifecycle.py lines 30-65. *)
Definition ensure_ready (fuel : nat) (timeout : Z) (m : manager)
    : option (manager * result RuntimeHealth) :=
  if timeout <=? 0 then Some (m, Err (ValueError "timeout_seconds must be positive"))
  else
    match await CallHealth mr_health m with
    | (m, Err e) => Some (m, Err e)
    | (m, Ok health) =>
        if rh_ready health then Some (set_released false m, Ok health)
        else if bool_decide (rh_state health = HEALTH_FAILED) then
          Some (m, Err (RuntimeLifecycleError
                          "runtime is failed before start; inspect provider diagnostics"))
        else
          match (if bool_decide (rh_state health = STOPPED)
                 then await CallStart mr_start m else (m, Ok tt)) with
          | (m, Err e) => Some (m, Err e)
          | (m, Ok _) => ready_loop fuel (time m + timeout) m
          end
    end.

(** The loop of [ensure_stopped], runtime/lifecycle.py lines 82-94. *)
Fixpoint stopped_loop (fuel : nat) (deadline : Z) (m : manager)
    : option (manager * result RuntimeHealth) :=
  match fuel with
  | O => None
  | Datatypes.S fuel' =>
      match await CallHealth mr_health m with
      | (m, Err e) => Some (m, Err e)
      | (m, Ok health) =>
          if bool_decide (rh_state health = STOPPED) then Some (m, Ok health)
          else if bool_decide (rh_state health = HEALTH_FAILED) then
            Some (m, Err (RuntimeLifecycleError "runtime entered failed state while stopping"))
          else if deadline <=? time m then
            Some (m, Err (RuntimeLifecycleError "runtime did not stop before timeout"))
          else stopped_loop fuel' deadline (sleep poll_interval m)
      end
  end.

(** The release at the end of [ensure_stopped], runtime/lifecycle.py lines 96-100. *)
Definition finish_stopped (release : bool) (health : RuntimeHealth) (m : manager)
    : manager * result RuntimeHealth :=
  if release && negb (mg_released m) then
    andThen (await CallRelease mr_release m) (λ _ m, (set_released true m, Ok health))
  else (m, Ok health).

(** [ensure_stopped], runtime/lifecycle.py lines 67-100. *)
Definition ensure_stopped (fuel : nat) (timeout : Z) (release : bool) (m : manager)
    : option (manager * result RuntimeHealth) :=
  if timeout <=? 0 then Some (m, Err (ValueError "timeout_seconds must be positive"))
  else
    match await CallHealth mr_health m with
    | (m, Err e) => Some (m, Err e)
    | (m, Ok health) =>
        if bool_decide (rh_state health = STOPPED) then Some (finish_stopped release health m)
        else
          match await CallStop mr_stop m with
          | (m, Err e) => Some (m, Err e)
          | (m, Ok _) =>
              r ← stopped_loop fuel (time m + timeout) m;
              Some (andThen r (finish_stopped release))
          end
    end.

(** [shutdown_owned], runtime/lifecycle.py lines 102-119; a timeout that is infinite or NaN
    is [None]. *)
Definition shutdown_owned (timeout : option Z) (m : manager) : manager * result unit :=
  match timeout with
  | None => (m, Err (ValueError "shutdown timeout must be finite and positive"))
  | Some t =>
      if t <=? 0 then (m, Err (ValueError "shutdown timeout must be finite and positive"))
      else if mg_released m then (m, Ok tt)
      else
        let deadline := time m + t in
        match andThen (await CallStop (mr_within deadline mr_stop) m) (λ _,
                await CallRelease (mr_within deadline mr_release)) with
        | (m, Ok _) => (set_released true m, Ok tt)
        | (m, Err _) =>
            (m, Err (RuntimeLifecycleError "owned runtime shutdown failed; inspect Worker logs"))
        end
  end.

(** [restart], runtime/lifecycle.py lines 121-130. *)
Definition restart (fuel : nat) (timeout : Z) (m : manager)
    : option (manager * result RuntimeHealth) :=
  r ← ensure_stopped fuel timeout false m;
  match r with
  | (m, Err e) => Some (m, Err e)
  | (m, Ok _) => ensure_ready fuel timeout m
  end.

End lifecycle.
Arguments manager S : clear implicits.

(** ** Properties of the runtime lifecycle

    Every wait ends before its deadline is far past, results mean what they say, and a
    runtime is released at most once per life. *)

Section termination.
Context {S : Type} `{LawfulClock S} (poll : Z).
Hypothesis poll_pos : 0 < poll.
Implicit Types m : manager S.

Lemma await_health m m' r : await CallHealth mr_health m = (m', r) → time m ≤ time m'.
Proof.
  unfold await, time. pose proof (health_time (mg_runtime m)).
  destruct (mr_health (mg_runtime m)) as [s x]. by intros [= <- <-].
Qed.

(** One more round than the remaining time allows sleeps. *)
Lemma ready_loop_total fuel deadline m : (0 < fuel)%nat →
  deadline - time m ≤ poll * (Z.of_nat fuel - 1) → is_Some (ready_loop poll fuel deadline m).
Proof.
  revert m. induction fuel as [|fuel IH]; intros m; [lia|]. intros _ Hf. cbn [ready_loop].
  destruct (await CallHealth mr_health m) as [m1 [h|e]] eqn:E; [|by eexists].
  apply await_health in E. destruct (rh_ready h); [by eexists|].
  case_bool_decide; [by eexists|]. destruct (Z.leb_spec deadline (time m1)); [by eexists|].
  pose proof (sleep_time poll (mg_runtime m1) poll_pos) as Hs.
  apply IH; unfold time in *; cbn; nia.
Qed.

Lemma stopped_loop_total fuel deadline m : (0 < fuel)%nat →
  deadline - time m ≤ poll * (Z.of_nat fuel - 1) → is_Some (stopped_loop poll fuel deadline m).
Proof.
  revert m. induction fuel as [|fuel IH]; intros m; [lia|]. intros _ Hf. cbn [stopped_loop].
  destruct (await CallHealth mr_health m) as [m1 [h|e]] eqn:E; [|by eexists].
  apply await_health in E. case_bool_decide; [by eexists|].
  case_bool_decide; [by eexists|]. destruct (Z.leb_spec deadline (time m1)); [by eexists|].
  pose proof (sleep_time poll (mg_runtime m1) poll_pos) as Hs.
  apply IH; unfold time in *; cbn; nia.
Qed.

(** The rounds a wait of [timeout] ticks can take. *)
Definition rounds (timeout : Z) : nat := Z.to_nat (timeout / poll) + 2.

Lemma rounds_enough fuel timeout m : 0 < timeout → (rounds timeout ≤ fuel)%nat →
  (0 < fuel)%nat ∧ time m + timeout - time m ≤ poll * (Z.of_nat fuel - 1).
Proof.
  unfold rounds. intros Ht Hf. split; [lia|].
  assert (0 ≤ timeout / poll) by (apply Z.div_pos; lia).
  pose proof (Z.mul_succ_div_gt timeout poll poll_pos). nia.
Qed.

Lemma ensure_ready_total fuel timeout m : (rounds timeout ≤ fuel)%nat →
  is_Some (ensure_ready poll fuel timeout m).
Proof.
  intros Hf. unfold ensure_ready. destruct (Z.leb_spec timeout 0); [by eexists|].
  destruct (await CallHealth mr_health m) as [m1 [h|e]]; [|by eexists].
  destruct (rh_ready h); [by eexists|]. case_bool_decide; [by eexists|].
  destruct (if bool_decide _ then _ else _) as [m2 [u|e]]; [|by eexists].
  destruct (rounds_enough fuel timeout m2) as [? ?]; [done..|]. by apply ready_loop_total.
Qed.

Lemma ensure_stopped_total fuel timeout release m : (rounds timeout ≤ fuel)%nat →
  is_Some (ensure_stopped poll fuel timeout release m).
Proof.
  intros Hf. unfold ensure_stopped. destruct (Z.leb_spec timeout 0); [by eexists|].
  destruct (await CallHealth mr_health m) as [m1 [h|e]]; [|by eexists].
  case_bool_decide; [by eexists|].
  destruct (await CallStop mr_stop m1) as [m2 [u|e]]; [|by eexists].
  destruct (rounds_enough fuel timeout m2) as [? ?]; [done..|].
  destruct (stopped_loop_total fuel (time m2 + timeout) m2) as [r ->]; [done..|].
  by eexists.
Qed.

Lemma restart_total fuel timeout m : (rounds timeout ≤ fuel)%nat →
  is_Some (restart poll fuel timeout m).
Proof.
  intros Hf. unfold restart. destruct (ensure_stopped_total fuel timeout false m Hf) as [[m1 [h|e]] ->].
  - by apply ensure_ready_total.
  - by eexists.
Qed.

End termination.

(** ** The operations of the manager *)

Inductive mop :=
  | OpReady (timeout : Z)
  | OpStopped (timeout : Z) (release : bool)
  | OpRestart (timeout : Z)
  | OpShutdown (timeout : option Z).

Section operations.
Context {S : Type} `{ManagedRuntime S} (poll : Z).
Implicit Types m : manager S.

(** The health an operation reports, if any. *)
Definition run_op (fuel : nat) (o : mop) m : option (manager S * result (option RuntimeHealth)) :=
  let some r := (let '(m, r) := r in (m, h ← r; Ok (Some h))) in
  match o with
  | OpReady t => some <$> ensure_ready poll fuel t m
  | OpStopped t release => some <$> ensure_stopped poll fuel t release m
  | OpRestart t => some <$> restart poll fuel t m
  | OpShutdown t => Some (let '(m, r) := shutdown_owned t m in (m, r;; Ok None))
  end.

(** How often [release] was called. *)
Definition releases m : nat := length (filter (λ c, c = CallRelease) (mg_calls m)).

Lemma await_releases {A} c (op : S → S * result A) m m' r : await c op m = (m', r) →
  mg_released m' = mg_released m ∧
  releases m' = (releases m + (if c is CallRelease then 1 else 0))%nat.
Proof.
  unfold await, releases. destruct (op (mg_runtime m)) as [s x]. intros [= <- <-]. cbn.
  split; [done|]. rewrite filter_app, length_app. f_equal. rewrite filter_cons.
  by destruct c.
Qed.

Ltac step_await :=
  match goal with
  | |- context [await ?c ?op ?m] =>
      let E := fresh "E" in
      destruct (await c op m) as [? [?|?]] eqn:E; apply await_releases in E as [? ?]; cbn in *
  end.

Lemma ready_loop_spec fuel deadline m m' r : ready_loop poll fuel deadline m = Some (m', r) →
  releases m' = releases m ∧
  match r with
  | Ok h => rh_ready h = true ∧ mg_released m' = false
  | Err _ => mg_released m' = mg_released m
  end.
Proof.
  revert m. induction fuel as [|fuel IH]; intros m; [done|]. cbn [ready_loop].
  step_await; [|intros [= <- <-]; split; [lia|congruence]].
  destruct (rh_ready a) eqn:Er; [intros [= <- <-]; cbn; split; [unfold releases in *; cbn; lia|done]|].
  case_bool_decide; [intros [= <- <-]; split; [lia|congruence]|].
  destruct (_ <=? _); [intros [= <- <-]; split; [lia|congruence]|].
  intros [Hr Hm]%IH. split; [unfold releases in *; cbn in *; lia|].
  destruct r; [done|]. cbn in Hm. congruence.
Qed.

Lemma ensure_ready_spec fuel timeout m m' r : ensure_ready poll fuel timeout m = Some (m', r) →
  releases m' = releases m ∧
  match r with
  | Ok h => rh_ready h = true ∧ mg_released m' = false
  | Err _ => mg_released m' = mg_released m
  end.
Proof.
  unfold ensure_ready. destruct (timeout <=? 0); [by intros [= <- <-]|].
  step_await; [|intros [= <- <-]; split; [lia|congruence]].
  destruct (rh_ready a) eqn:Er; [intros [= <- <-]; cbn; split; [unfold releases in *; cbn; lia|done]|].
  case_bool_decide; [intros [= <- <-]; split; [lia|congruence]|].
  case_bool_decide.
  - step_await; [|intros [= <- <-]; split; [lia|congruence]].
    intros [Hr Hm]%ready_loop_spec. split; [lia|]. destruct r; [done|congruence].
  - intros [Hr Hm]%ready_loop_spec. split; [lia|]. destruct r; [done|congruence].
Qed.

Lemma stopped_loop_spec fuel deadline m m' r : stopped_loop poll fuel deadline m = Some (m', r) →
  releases m' = releases m ∧ mg_released m' = mg_released m ∧
  (∀ h, r = Ok h → rh_state h = STOPPED).
Proof.
  revert m. induction fuel as [|fuel IH]; intros m; [done|]. cbn [stopped_loop].
  step_await; [|intros [= <- <-]; split_and!; [lia|congruence|done]].
  case_bool_decide; [intros [= <- <-]; split_and!; [lia|congruence|by intros h [= <-]]|].
  case_bool_decide; [intros [= <- <-]; split_and!; [lia|congruence|done]|].
  destruct (_ <=? _); [intros [= <- <-]; split_and!; [lia|congruence|done]|].
  intros (Hr & Hm & ?)%IH. split_and!; [unfold releases in *; cbn in *; lia|cbn in *; congruence|done].
Qed.

Lemma finish_stopped_spec release h m m' r : finish_stopped release h m = (m', r) →
  (mg_released m = true → releases m' = releases m ∧ mg_released m' = true) ∧
  (mg_released m' = true → mg_released m = true ∨ releases m' = Datatypes.S (releases m)) ∧
  (releases m' ≤ Datatypes.S (releases m))%nat ∧ (releases m ≤ releases m')%nat ∧
  (∀ h', r = Ok h' → h' = h ∧ (release = true → mg_released m' = true)).
Proof.
  unfold finish_stopped. destruct release; cbn [andb].
  2:{ intros [= <- <-]. split_and!; auto. by intros h' [= <-]. }
  destruct (mg_released m) eqn:Em; cbn [negb].
  { intros [= <- <-]. split_and!; auto. by intros h' [= <-]. }
  step_await; intros [= <- <-]; cbn; unfold releases in *; cbn in *.
  - split_and!; try done; try lia; intros; first [right; lia|by simplify_eq].
  - split_and!; try done; try lia; intros; congruence.
Qed.

(** What [ensure_stopped] guarantees between its start and its end. *)
Definition stop_post (release : bool) m m' (r : result RuntimeHealth) : Prop :=
  (mg_released m = true → releases m' = releases m ∧ mg_released m' = true) ∧
  (mg_released m' = true → mg_released m = true ∨ releases m' = Datatypes.S (releases m)) ∧
  (releases m' ≤ Datatypes.S (releases m))%nat ∧ (releases m ≤ releases m')%nat ∧
  (∀ h, r = Ok h → rh_state h = STOPPED ∧ (release = true → mg_released m' = true)).

Lemma stop_post_err release m m1 e : mg_released m1 = mg_released m → releases m1 = releases m →
  stop_post release m m1 (Err e).
Proof. intros E1 E2. unfold stop_post. rewrite E1, E2. split_and!; auto; try lia. done. Qed.

Lemma finish_post release m m2 h m' r : mg_released m2 = mg_released m →
  releases m2 = releases m → rh_state h = STOPPED → finish_stopped release h m2 = (m', r) →
  stop_post release m m' r.
Proof.
  intros E1 E2 Hst (H1 & H2 & H3 & H4 & H5)%finish_stopped_spec.
  rewrite E1, E2 in *. split_and!; [exact H1|exact H2|exact H3|exact H4|].
  intros h' Hh'. by destruct (H5 h' Hh') as [-> ?].
Qed.

Lemma ensure_stopped_spec fuel timeout release m m' r :
  ensure_stopped poll fuel timeout release m = Some (m', r) → stop_post release m m' r.
Proof.
  unfold ensure_stopped. destruct (timeout <=? 0); [intros [= <- <-]; by apply stop_post_err|].
  step_await; [|intros [= <- <-]; apply stop_post_err; [congruence|lia]].
  case_bool_decide as Hs.
  { intros [= Hf]. eapply finish_post; [| |exact Hs|exact Hf]; [congruence|lia]. }
  step_await; [|intros [= <- <-]; apply stop_post_err; [congruence|lia]].
  destruct (stopped_loop poll fuel _ _) as [[m3 [h|e]]|] eqn:El; [..|done];
    apply stopped_loop_spec in El as (Hr3 & Hm3 & Hst); intros [= Hf].
  - eapply finish_post; [| |by apply Hst|exact Hf]; [congruence|lia].
  - subst. apply stop_post_err; [congruence|lia].
Qed.

Lemma shutdown_spec timeout m m' r : shutdown_owned timeout m = (m', r) →
  (mg_released m = true → releases m' = releases m ∧ mg_released m' = true) ∧
  (mg_released m' = true → mg_released m = true ∨ releases m' = Datatypes.S (releases m)) ∧
  (releases m' ≤ Datatypes.S (releases m))%nat ∧ (releases m ≤ releases m')%nat ∧
  (r = Ok tt → mg_released m' = true).
Proof.
  unfold shutdown_owned. destruct timeout as [t|]; [|by intros [= <- <-]; split_and!; auto].
  destruct (t <=? 0); [by intros [= <- <-]; split_and!; auto|].
  destruct (mg_released m) eqn:Em; [by intros [= <- <-]; split_and!; auto|].
  step_await; [step_await|]; intros [= <- <-]; cbn; unfold releases in *; cbn in *;
    split_and!; intros; try done; try lia; try congruence; right; lia.
Qed.

(** Waits end and results mean what they say.  On a clock that advances, with
    fuel for [timeout / poll_interval] rounds, every operation of the manager returns: it
    never polls forever.  [ensure_ready] and [restart] succeed only with a ready runtime,
    [ensure_stopped] only with a stopped one, released if that was asked for. *)
Theorem lifecycle_returns (Hclock : LawfulClock S) (Hpoll : 0 < poll) fuel o m :
  match o with
  | OpReady t | OpStopped t _ | OpRestart t => (rounds poll t ≤ fuel)%nat
  | OpShutdown _ => True
  end →
  ∃ m' r, run_op fuel o m = Some (m', r) ∧
    ∀ h, r = Ok (Some h) →
      match o with
      | OpReady _ | OpRestart _ => rh_ready h = true
      | OpStopped _ release => rh_state h = STOPPED ∧ (release = true → mg_released m' = true)
      | OpShutdown _ => False
      end.
Proof.
  intros Hf. destruct o as [t|t release|t|t]; cbn [run_op].
  - destruct (ensure_ready_total poll Hpoll fuel t m Hf) as [[m' r] E]. rewrite E.
    apply ensure_ready_spec in E as [_ E]. exists m', (h ← r; Ok (Some h)). split; [done|].
    intros h Hh. destruct r; [|done]. injection Hh as <-. tauto.
  - destruct (ensure_stopped_total poll Hpoll fuel t release m Hf) as [[m' r] E]. rewrite E.
    apply ensure_stopped_spec in E as (_ & _ & _ & _ & E). exists m', (h ← r; Ok (Some h)).
    split; [done|]. intros h Hh. destruct r; [|done]. injection Hh as <-. by apply E.
  - destruct (restart_total poll Hpoll fuel t m Hf) as [[m' r] E]. rewrite E.
    exists m', (h ← r; Ok (Some h)). split; [done|]. intros h Hh. destruct r; [|done].
    injection Hh as <-. unfold restart in E.
    destruct (ensure_stopped poll fuel t false m) as [[m1 [h1|e]]|]; [|done..].
    cbn in E. apply ensure_ready_spec in E. tauto.
  - destruct (shutdown_owned t m) as [m' r]. exists m', (r;; Ok None). split; [done|].
    intros h Hh. by destruct r.
Qed.

(** A runtime is released at most once per life.  An operation calls [release]
    at most once, and not at all while the runtime is marked released; the mark appears
    only with a release, and disappears only when a ready runtime is reported. *)
Theorem released_once fuel o m m' r : run_op fuel o m = Some (m', r) →
  (mg_released m = true → releases m' = releases m) ∧
  (releases m ≤ releases m' ≤ Datatypes.S (releases m))%nat ∧
  (mg_released m = false → mg_released m' = true → releases m' = Datatypes.S (releases m)) ∧
  (mg_released m = true → mg_released m' = false →
     ∃ h, r = Ok (Some h) ∧ rh_ready h = true).
Proof.
  destruct o as [t|t release|t|t]; cbn [run_op].
  - destruct (ensure_ready poll fuel t m) as [[m1 r1]|] eqn:E; [|done]. intros [= <- <-].
    apply ensure_ready_spec in E as [E1 E2]. split_and!; [done|lia|lia| |].
    + destruct r1; [destruct E2; congruence|congruence].
    + destruct r1; [destruct E2; eauto|congruence].
  - destruct (ensure_stopped poll fuel t release m) as [[m1 r1]|] eqn:E; [|done]. intros [= <- <-].
    apply ensure_stopped_spec in E as (E1 & E2 & E3 & E4 & _).
    split_and!; [tauto|lia|lia| |]; intros Hm Hm'; [destruct (E2 Hm'); congruence|].
    destruct (E1 Hm). congruence.
  - unfold restart. destruct (ensure_stopped poll fuel t false m) as [[m1 [h1|e]]|] eqn:E; [..|done];
      apply ensure_stopped_spec in E as (E1 & E2 & E3 & E4 & _); cbn.
    + destruct (ensure_ready poll fuel t m1) as [[m2 r2]|] eqn:E'; [|done]. intros [= <- <-].
      apply ensure_ready_spec in E' as [F1 F2]. rewrite F1. split_and!; [tauto|lia|lia| |].
      * intros Hm Hm'. destruct r2; [destruct F2; congruence|]. rewrite F2 in Hm'.
        destruct (E2 Hm'); congruence.
      * intros Hm Hm'. destruct r2; [destruct F2; eauto|]. destruct (E1 Hm). congruence.
    + intros [= <- <-]. split_and!; [tauto|lia|lia| |]; intros Hm Hm'; [destruct (E2 Hm'); congruence|].
      destruct (E1 Hm). congruence.
  - destruct (shutdown_owned t m) as [m1 r1] eqn:E. intros [= <- <-].
    apply shutdown_spec in E as (E1 & E2 & E3 & E4 & _).
    split_and!; [tauto|lia|lia| |]; intros Hm Hm'; [destruct (E2 Hm'); congruence|].
    destruct (E1 Hm). congruence.
Qed.

End operations.

(** ** A runtime that needs three ticks to come up *)

(** Its clock, and the tick it was started at. *)
Definition toy := (Z * option Z)%type.
Definition toy_health (s : toy) : RuntimeHealth :=
  match s.2 with
  | None => mk_RuntimeHealth STOPPED false None []
  | Some t0 => if t0 + 3 <=? s.1 then mk_RuntimeHealth READY true None []
               else mk_RuntimeHealth STARTING false None []
  end.
#[export] Instance toy_runtime : ManagedRuntime toy := {
  mr_health s := (s, Ok (toy_health s));
  mr_start s := ((s.1, Some s.1), Ok tt);
  mr_stop s := ((s.1, None), Ok tt);
  mr_release s := (s, Ok tt);
  mr_time s := s.1;
  mr_sleep d s := (s.1 + d, s.2);
  mr_within _ op s := op s }.
#[export] Instance toy_clock : LawfulClock toy.
Proof. split; cbn; intros; lia. Qed.

Definition toy_manager : manager toy :=
  {| mg_released := true; mg_runtime := (0, None); mg_calls := [] |}.

Lemma lifecycle_returns_witness :
  ∃ m' r, run_op 1 (rounds 1 10) (OpReady 10) toy_manager = Some (m', r) ∧
    ∀ h, r = Ok (Some h) → rh_ready h = true.
Proof. apply (lifecycle_returns 1 toy_clock ltac:(done) _ (OpReady 10)). done. Defined.

Lemma released_once_witness :
  let m' := {| mg_released := false; mg_runtime := (3, Some 0) : toy;
               mg_calls := [CallHealth; CallStart; CallHealth; CallHealth; CallHealth; CallHealth] |} in
  let r := Ok (Some (mk_RuntimeHealth READY true None [])) in
  (mg_released toy_manager = true → releases m' = releases toy_manager) ∧
  (releases toy_manager ≤ releases m' ≤ Datatypes.S (releases toy_manager))%nat ∧
  (mg_released toy_manager = false → mg_released m' = true →
     releases m' = Datatypes.S (releases toy_manager)) ∧
  (mg_released toy_manager = true → mg_released m' = false →
     ∃ h, r = Ok (Some h) ∧ rh_ready h = true).
Proof. apply (released_once 1 12 (OpReady 10)). vm_compute. reflexivity. Defined.
