(* ===== verification/Postgres.v ===== *)
(** * The PostgreSQL control repository

    Models [src/src/astrumweaver/control/postgres.py].  A table is the list of its rows and
    a statement is what SQL documents of it: [WHERE] filters, [UPDATE ... RETURNING] maps
    the matching rows and returns them, [ORDER BY ... LIMIT 1] is the head of the sorted
    selection, an [integer] column or cast holds 32 bits and fails outside them, and
    [FOR UPDATE SKIP LOCKED] ignores the rows of [locked].  A [jsonb] column gives back what
    [jsonb] says: numbers pass through SQL's decimal [numeric], which has no NaN, no infinity
    and no exponent, and a NUL character is refused in it as in a [text] parameter ([texts]).
    Outside the model are the order in which [jsonb] keeps the keys of an object (Python's
    [==] ignores it) and PostgreSQL's limits on the size of a value.  An exception rolls the
    transaction back: [Err] carries no state.  Where the code re-reads after a lock wait,
    [between] is what other transactions committed meanwhile. *)

From Stdlib Require Import Strings.Byte SpecFloat.
From S2P Require Import Prelude PyStr PyDict PyVal Contracts Scheduling Models Repository Serde.

(** ** Tables *)

(** The columns of [workers], control/postgres.py lines 303-318. *)
Record worker_row := {
  wr_id : string;
  wr_worker_class : string;
  wr_capabilities : list string;
  wr_labels : dict string;
  wr_gpu_uuids : list string;
  wr_accelerators : list pyval;
  wr_gpu_count : Z;
  wr_total_vram_mb : Z;
  wr_max_single_gpu_vram_mb : Z;
  wr_max_concurrency : Z;
  wr_state : string;
  wr_metadata : dict pyval;
  wr_registered_at : Z;
  wr_last_seen_at : Z;
  wr_active_jobs : Z;
  wr_updated_at : Z;
}.

(** The columns of [jobs], control/postgres.py lines 551-558. *)
Record job_row := {
  jb_id : string;
  jb_sequence : Z;
  jb_capability : string;
  jb_status : string;
  jb_payload : dict pyval;
  jb_requirements : dict pyval;
  jb_priority : Z;
  jb_attempts : Z;
  jb_max_attempts : Z;
  jb_idempotency_key : option string;
  jb_assigned_worker_id : option string;
  jb_lease_token : option string;
  jb_result : option (dict pyval);
  jb_error : option (dict pyval);
  jb_created_at : Z;
  jb_available_at : Z;
  jb_started_at : option Z;
  jb_finished_at : option Z;
  jb_lease_expires_at : option Z;
  jb_updated_at : Z;
}.

(** The repository object and the database it talks to; [pg_sequence] is the identity
    column's last value. *)
Record postgres := {
  pg_worker_ttl_seconds : Z;
  pg_lease_seconds : Z;
  pg_workers : list worker_row;
  pg_jobs : list job_row;
  pg_sequence : Z;
}.

Definition with_workers (d : postgres) (ws : list worker_row) : postgres :=
  {| pg_worker_ttl_seconds := pg_worker_ttl_seconds d; pg_lease_seconds := pg_lease_seconds d;
     pg_workers := ws; pg_jobs := pg_jobs d; pg_sequence := pg_sequence d |}.
Definition with_jobs (d : postgres) (js : list job_row) : postgres :=
  {| pg_worker_ttl_seconds := pg_worker_ttl_seconds d; pg_lease_seconds := pg_lease_seconds d;
     pg_workers := pg_workers d; pg_jobs := js; pg_sequence := pg_sequence d |}.

(** [PostgresControlRepository.__init__], control/postgres.py lines 107-122. *)
Definition mk_postgres (database_url : string) (worker_ttl_seconds lease_seconds : Z)
    : result postgres :=
  require (str_truthy database_url) (ValueError "database_url is required");;
  require (1 <=? worker_ttl_seconds) (ValueError "worker_ttl_seconds must be positive");;
  require (1 <=? lease_seconds) (ValueError "lease_seconds must be positive");;
  Ok {| pg_worker_ttl_seconds := worker_ttl_seconds; pg_lease_seconds := lease_seconds;
        pg_workers := []; pg_jobs := []; pg_sequence := 0 |}.

(** ** SQL *)

Section sql.
Context {R : Type}.

(** [SELECT * FROM t WHERE p]. *)
Definition select (p : R → bool) (t : list R) : list R := filter p t.
(** [UPDATE t SET f WHERE p RETURNING *]: the table and the rows returned. *)
Definition update (p : R → bool) (f : R → R) (t : list R) : list R * list R :=
  ((λ r, if p r then f r else r) <$> t, f <$> filter p t).
(** A [WHERE] clause whose evaluation can fail. *)
Fixpoint select_where (p : R → result bool) (t : list R) : result (list R) :=
  match t with
  | [] => Ok []
  | r :: t' => b ← p r; rs ← select_where p t'; Ok (if b : bool then r :: rs else rs)
  end.
(** [fetchone()]. *)
Definition fetchone (t : list R) : option R := head t.
End sql.

(** [integer]: 32 bits. *)
Definition in_int4 (z : Z) : bool := (- 2 ^ 31 <=? z) && (z <? 2 ^ 31).
Definition int4 (z : Z) : result Z :=
  if in_int4 z then Ok z else Err (DatabaseError "integer out of range").

(** A string PostgreSQL can hold: none of its characters is NUL. *)
Definition no_nul (s : string) : bool := all_chars (λ c, negb (Ascii.eqb c Ascii.zero)) s.
(** String parameters of a statement. *)
Definition texts (l : list string) : result unit :=
  require (forallb no_nul l) (DatabaseError "PostgreSQL text fields cannot contain NUL (0x00) bytes").

(** ** [jsonb]

    [Jsonb(v)] sends [json.dumps(v)]; reading the column back gives [json.loads] of what
    PostgreSQL prints. *)

(** The float that [z] reads as. *)
Definition float_of_Z (z : Z) : spec_float := binary_normalize 53 1024 z 0 false.
(** The digits [repr] gives a whole float: the multiple of the highest power of ten, from
    [10^k] down, that reads back as the same float; the nearer one if there are two. *)
Fixpoint repr_digits (k : nat) (z : Z) : Z :=
  match k with
  | O => z
  | S k' =>
      let unit := 10 ^ Z.of_nat k in
      let below := z / unit * unit in
      let above := below + unit in
      let reads z' := SFeqb (float_of_Z z') (float_of_Z z) in
      if reads below && (negb (reads above) || (z - below <=? above - z)) then below
      else if reads above then above
      else repr_digits k' z
  end.

(** A float: [repr] writes an exponent from 10^16 on, and [numeric] then prints a whole
    number without a fraction, which reads back as an [int]; no float reaches 10^309. *)
Definition jsonb_float (f : spec_float) : result pyval :=
  match f with
  | S754_nan | S754_infinity _ => Err (DatabaseError "invalid input syntax for type json")
  | S754_zero _ => Ok (PFloat (S754_zero false))
  | S754_finite sign m e =>
      let z := if 0 <=? e then Z.pos m * 2 ^ e else Z.pos m / 2 ^ (- e) in
      if z <? 10 ^ 16 then Ok (PFloat f)
      else Ok (PInt (if sign then - repr_digits 309 z else repr_digits 309 z))
  end.

(** [_json] and the reading of the column, control/postgres.py lines 52-53. *)
Fixpoint jsonb (v : pyval) : result pyval :=
  match v with
  | PNone | PBool _ => Ok v
  | PInt z =>
      require (String.length (str_of_Z (Z.abs z)) <=? 4300)%nat
        (ValueError "Exceeds the limit (4300 digits) for integer string conversion");;
      Ok v
  | PFloat f => jsonb_float f
  | PStr s => texts [s];; Ok v
  | PList l => l' ← mapR jsonb l; Ok (PList l')
  | PDict d => d' ← mapR (λ kv, texts [kv.1];; w ← jsonb kv.2; Ok (kv.1, w)) d; Ok (PDict d')
  end.
Definition jsonb_dict (d : dict pyval) : result (dict pyval) :=
  mapR (λ kv, texts [kv.1];; w ← jsonb kv.2; Ok (kv.1, w)) d.

(** [a AND b], with [b] evaluated when [a] holds. *)
Definition sql_and (a : bool) (b : result bool) : result bool := if a then b else Ok false.

(** [doc->>key] for a key that holds a string or null. *)
Definition json_text (key : string) (doc : dict pyval) : result (option string) :=
  match dget key doc with
  | None | Some PNone => Ok None
  | Some (PStr s) => Ok (Some s)
  | Some _ => Err (OutOfModel "text of a JSON value that is not a string")
  end.
(** [(doc->>key)::integer] for a key that holds an integer or null. *)
Definition json_int4 (key : string) (doc : dict pyval) : result (option Z) :=
  match dget key doc with
  | None | Some PNone => Ok None
  | Some (PInt z) => n ← int4 z; Ok (Some n)
  | Some _ => Err (OutOfModel "integer cast of a JSON value that is not an integer")
  end.
(** [jsonb_array_elements_text(COALESCE(doc->key, '[]'))] for an array of strings. *)
Definition json_elements (key : string) (doc : dict pyval) : result (list string) :=
  match dget key doc with
  | None => Ok []
  | Some (PList l) =>
      mapR (λ v, match v with PStr s => Ok s
                 | _ => Err (OutOfModel "text of a JSON value that is not a string") end) l
  | Some _ => Err (DatabaseError "cannot extract elements from a scalar")
  end.
(** [COALESCE(doc->key, '{}') <@ labels] for an object of scalars. *)
Definition json_contained (key : string) (doc : dict pyval) (labels : dict string)
    : result bool :=
  match dget key doc with
  | None => Ok true
  | Some (PDict d) =>
      Ok (forallb (λ kv, match kv.2 with
                         | PStr v => bool_decide (dget kv.1 labels = Some v)
                         | _ => false end) d)
  | Some _ => Ok false
  end.

(** [_transaction], control/postgres.py lines 140-151. *)
Definition is_repository_error (e : exn) : bool :=
  match e with NotFoundError _ | ConflictError _ | StorageUnavailable _ => true | _ => false end.
Definition _transaction {A} (body : result A) : result A :=
  match body with
  | Ok a => Ok a
  | Err e => if is_repository_error e then Err e
             else Err (StorageUnavailable "postgresql transaction failed")
  end.

(** ** Rows to records *)

(** [_worker], control/postgres.py lines 153-184. *)
Definition _worker (row : worker_row) : result WorkerRecord :=
  accs ← mapR device_from_item (wr_accelerators row);
  res ← mk_ResourceShape (wr_gpu_count row) (wr_total_vram_mb row)
          (wr_max_single_gpu_vram_mb row);
  spec ← mk_WorkerSpec (wr_id row) (wr_worker_class row) res (StrIter (wr_gpu_uuids row)) accs
           (StrIter (elements (list_to_set (wr_capabilities row) : gset string)))
           (wr_labels row);
  state ← mk_WorkerState (wr_state row);
  Ok {| w_spec := spec; w_max_concurrency := wr_max_concurrency row; w_state := state;
        w_active_jobs := wr_active_jobs row; w_registered_at := wr_registered_at row;
        w_last_seen_at := wr_last_seen_at row; w_metadata := wr_metadata row |}.

Definition opt_dict (o : option (dict pyval)) : pyval := if o is Some d then PDict d else PNone.

(** [_job], control/postgres.py lines 186-209. *)
Definition _job (row : job_row) : result JobRecord :=
  requirements ← requirements_from_dict (PDict (jb_requirements row));
  status ← mk_JobStatus (jb_status row);
  res ← job_result_from_dict (opt_dict (jb_result row));
  Ok {| j_job_id := jb_id row; j_capability := jb_capability row; j_payload := jb_payload row;
        j_requirements := requirements; j_priority := jb_priority row;
        j_sequence := jb_sequence row; j_status := status; j_attempts := jb_attempts row;
        j_max_attempts := jb_max_attempts row; j_idempotency_key := jb_idempotency_key row;
        j_created_at := jb_created_at row; j_available_at := jb_available_at row;
        j_updated_at := jb_updated_at row;
        j_assigned_worker_id := jb_assigned_worker_id row;
        j_lease_token := jb_lease_token row; j_lease_expires_at := jb_lease_expires_at row;
        j_started_at := jb_started_at row; j_finished_at := jb_finished_at row;
        j_result := res; j_error := jb_error row |}.

(** ** Update clauses *)

(** The columns of [workers] that an [UPDATE] sets. *)
Definition worker_set (row : worker_row) (state : string) (last_seen_at active_jobs : Z)
    (metadata : dict pyval) (updated_at : Z) : worker_row :=
  {| wr_id := wr_id row; wr_worker_class := wr_worker_class row;
     wr_capabilities := wr_capabilities row; wr_labels := wr_labels row;
     wr_gpu_uuids := wr_gpu_uuids row; wr_accelerators := wr_accelerators row;
     wr_gpu_count := wr_gpu_count row; wr_total_vram_mb := wr_total_vram_mb row;
     wr_max_single_gpu_vram_mb := wr_max_single_gpu_vram_mb row;
     wr_max_concurrency := wr_max_concurrency row; wr_state := state; wr_metadata := metadata;
     wr_registered_at := wr_registered_at row; wr_last_seen_at := last_seen_at;
     wr_active_jobs := active_jobs; wr_updated_at := updated_at |}.

(** The columns of [jobs] that an [UPDATE] sets. *)
Definition job_set (row : job_row) (status : string) (attempts : Z)
    (res error : option (dict pyval)) (assigned_worker_id lease_token : option string)
    (lease_expires_at started_at finished_at : option Z) (available_at updated_at : Z)
    : job_row :=
  {| jb_id := jb_id row; jb_sequence := jb_sequence row; jb_capability := jb_capability row;
     jb_status := status; jb_payload := jb_payload row;
     jb_requirements := jb_requirements row; jb_priority := jb_priority row;
     jb_attempts := attempts; jb_max_attempts := jb_max_attempts row;
     jb_idempotency_key := jb_idempotency_key row;
     jb_assigned_worker_id := assigned_worker_id; jb_lease_token := lease_token;
     jb_result := res; jb_error := error; jb_created_at := jb_created_at row;
     jb_available_at := available_at; jb_started_at := started_at;
     jb_finished_at := finished_at; jb_lease_expires_at := lease_expires_at;
     jb_updated_at := updated_at |}.

(** [UPDATE workers SET state = 'offline', updated_at = ...], control/postgres.py lines 509-515. *)
Definition set_offline (timestamp : Z) (row : worker_row) : worker_row :=
  worker_set row "offline" (wr_last_seen_at row) (wr_active_jobs row) (wr_metadata row) timestamp.

(** The renewal of [heartbeat_worker], control/postgres.py lines 435-446. *)
Definition set_renewed (expires timestamp : Z) (row : job_row) : job_row :=
  job_set row (jb_status row) (jb_attempts row) (jb_result row) (jb_error row)
    (jb_assigned_worker_id row) (jb_lease_token row) (Some expires) (jb_started_at row)
    (jb_finished_at row) (jb_available_at row) timestamp.

(** The claim, control/postgres.py lines 709-732. *)
Definition set_claimed (worker_id token : string) (expires timestamp attempts : Z)
    (row : job_row) : job_row :=
  job_set row "running" attempts (jb_result row) None (Some worker_id) (Some token)
    (Some expires) (Some timestamp) None (jb_available_at row) timestamp.

(** The completion, control/postgres.py lines 803-822. *)
Definition set_completed (res : dict pyval) (timestamp : Z) (row : job_row) : job_row :=
  job_set row "succeeded" (jb_attempts row) (Some res) None None None None (jb_started_at row)
    (Some timestamp) (jb_available_at row) timestamp.

(** The failure, [fail_job] and [recover_expired_jobs], control/postgres.py lines 853-878. *)
Definition set_failed (should_retry : bool) (error : dict pyval) (timestamp : Z)
    (row : job_row) : job_row :=
  let status := if should_retry then QUEUED else FAILED in
  job_set row (JobStatus_value status) (jb_attempts row) (jb_result row) (Some error) None None
    None (if should_retry then None else jb_started_at row)
    (if should_retry then None else Some timestamp)
    (if should_retry then timestamp else jb_available_at row) timestamp.

(** The cancellation, control/postgres.py lines 899-911. *)
Definition set_cancelled (timestamp : Z) (row : job_row) : job_row :=
  job_set row "cancelled" (jb_attempts row) (jb_result row) (jb_error row) None None None
    (jb_started_at row) (Some timestamp) (jb_available_at row) timestamp.

(** ** Queries the methods share *)

(** [WHERE id = %s] on both tables. *)
Definition worker_is (worker_id : string) (row : worker_row) : bool :=
  bool_decide (wr_id row = worker_id).
Definition job_is (job_id : string) (row : job_row) : bool := bool_decide (jb_id row = job_id).

Definition worker_by_id (worker_id : string) (d : postgres) : option worker_row :=
  fetchone (select (worker_is worker_id) (pg_workers d)).
Definition job_by_id (job_id : string) (d : postgres) : option job_row :=
  fetchone (select (job_is job_id) (pg_jobs d)).

Definition update_worker (worker_id : string) (f : worker_row → worker_row) (d : postgres)
    : postgres * option worker_row :=
  let '(t, rows) := update (worker_is worker_id) f (pg_workers d) in
  (with_workers d t, fetchone rows).
Definition update_job (job_id : string) (f : job_row → job_row) (d : postgres)
    : postgres * option job_row :=
  let '(t, rows) := update (job_is job_id) f (pg_jobs d) in (with_jobs d t, fetchone rows).

(** [row = ....fetchone()] used as a row: [None] is not subscriptable. *)
Definition the_row {R} (o : option R) : result R :=
  match o with Some r => Ok r | None => Err (TypeError "'NoneType' object is not subscriptable") end.

(** [if row is None: raise e]. *)
Definition row_or {R} (o : option R) (e : exn) : result R :=
  match o with Some r => Ok r | None => Err e end.

(** [SELECT count( * ) FROM jobs WHERE status = 'running' AND assigned_worker_id = %s], control/postgres.py lines 291-299. *)
Definition running_on (worker_id : string) (row : job_row) : bool :=
  bool_decide (jb_status row = "running")
  && bool_decide (jb_assigned_worker_id row = Some worker_id).
Definition count_running (worker_id : string) (d : postgres) : Z :=
  Z.of_nat (length (select (running_on worker_id) (pg_jobs d))).

(** ** Ownership locks *)

Section ownership.
(** [sha256(...).digest()]. *)
Variable digest : string → list byte.

(** [_WORKER_OWNERSHIP_LOCK] and [_GPU_OWNERSHIP_LOCK], control/postgres.py lines 57-58. *)
Definition _WORKER_OWNERSHIP_LOCK : Z := 0x41535701.
Definition _GPU_OWNERSHIP_LOCK : Z := 0x41535702.

(** [int.from_bytes(bs, "big", signed=True)]. *)
Definition from_bytes_signed (bs : list byte) : Z :=
  let unsigned := foldl (λ acc b, acc * 256 + Z.of_N (Byte.to_N b)) 0 bs in
  let width := 8 * Z.of_nat (length bs) in
  if (0 <? width) && (2 ^ (width - 1) <=? unsigned) then unsigned - 2 ^ width else unsigned.

(** [_ownership_lock_key], control/postgres.py lines 61-62. *)
Definition _ownership_lock_key (identity : string) : Z :=
  from_bytes_signed (take 4 (digest identity)).

Definition sorted_keys (l : list Z) : list Z := merge_sort Z.le l.

(** [_lock_worker_ownership]: the advisory locks in the order taken, and the row read under
    them, control/postgres.py lines 211-247. *)
Definition _lock_worker_ownership (worker_id : string) (requested_gpu_uuids : list string)
    (d : postgres) : list (Z * Z) * option worker_row :=
  let current := worker_by_id worker_id d in
  let gpu_uuids : gset string :=
    list_to_set requested_gpu_uuids ∪
    match current with Some row => list_to_set (wr_gpu_uuids row) | None => ∅ end in
  let keys := sorted_keys (elements (set_map _ownership_lock_key gpu_uuids : gset Z)) in
  ((_WORKER_OWNERSHIP_LOCK, _ownership_lock_key worker_id)
     :: ((λ key, (_GPU_OWNERSHIP_LOCK, key)) <$> keys), worker_by_id worker_id d).
End ownership.

(** [ORDER BY id] on rows of [workers]. *)
Definition by_id (a b : worker_row) : Prop := String.le (wr_id a) (wr_id b).
#[export] Instance by_id_dec : RelDecision by_id.
Proof. intros a b. unfold by_id. apply _. Defined.

(** The [WHERE] clause of [_gpu_overlap], control/postgres.py lines 260-268. *)
Definition overlaps (worker_id : string) (requested : list string) (row : worker_row) : bool :=
  negb (bool_decide (wr_id row = worker_id))
  && (negb (bool_decide (wr_state row = "offline")) || (0 <? wr_active_jobs row))
  && existsb (λ u, bool_decide (u ∈ wr_gpu_uuids row)) requested.

(** [_gpu_overlap], control/postgres.py lines 249-273. *)
Definition _gpu_overlap (registration : WorkerRegistration) (d : postgres) : option string :=
  match gpu_uuids (reg_spec registration) with
  | [] => None
  | requested =>
      let rows := select (overlaps (worker_id (reg_spec registration)) requested) (pg_workers d) in
      wr_id <$> fetchone (merge_sort by_id rows)
  end.

(** ** Worker methods *)

Definition json_strings (X : gset string) : list string := sorted_strings (elements X).

(** The values [register_worker] inserts, control/postgres.py lines 337-364. *)
Definition insert_values (registration : WorkerRegistration) (metadata : dict pyval)
    (registered_at timestamp active_jobs : Z) : worker_row :=
  let spec := reg_spec registration in
  {| wr_id := worker_id spec; wr_worker_class := worker_class spec;
     wr_capabilities := json_strings (capabilities spec); wr_labels := labels spec;
     wr_gpu_uuids := gpu_uuids spec; wr_accelerators := device_to_dict <$> accelerators spec;
     wr_gpu_count := gpu_count (resources spec);
     wr_total_vram_mb := total_vram_mb (resources spec);
     wr_max_single_gpu_vram_mb := max_single_gpu_vram_mb (resources spec);
     wr_max_concurrency := reg_max_concurrency registration; wr_state := "online";
     wr_metadata := metadata; wr_registered_at := registered_at;
     wr_last_seen_at := timestamp; wr_active_jobs := active_jobs; wr_updated_at := timestamp |}.

(** The JSON values among them whose columns the model keeps typed. *)
Definition worker_json (spec : WorkerSpec) : list pyval :=
  [strs (json_strings (capabilities spec)); PDict ((λ '(k, v), (k, PStr v)) <$> labels spec);
   strs (gpu_uuids spec); PList (device_to_dict <$> accelerators spec)].

(** [ON CONFLICT (id) DO UPDATE SET ...], control/postgres.py lines 319-333. *)
Definition on_conflict (excluded row : worker_row) : worker_row :=
  {| wr_id := wr_id row; wr_worker_class := wr_worker_class excluded;
     wr_capabilities := wr_capabilities excluded; wr_labels := wr_labels excluded;
     wr_gpu_uuids := wr_gpu_uuids excluded; wr_accelerators := wr_accelerators excluded;
     wr_gpu_count := wr_gpu_count excluded; wr_total_vram_mb := wr_total_vram_mb excluded;
     wr_max_single_gpu_vram_mb := wr_max_single_gpu_vram_mb excluded;
     wr_max_concurrency := wr_max_concurrency excluded; wr_state := "online";
     wr_metadata := wr_metadata excluded; wr_registered_at := wr_registered_at row;
     wr_last_seen_at := wr_last_seen_at excluded; wr_active_jobs := wr_active_jobs excluded;
     wr_updated_at := wr_updated_at excluded |}.

(** The integer columns and the [CHECK] constraints of the inserted row. *)
Definition insertable (row : worker_row) : bool :=
  forallb in_int4 [wr_gpu_count row; wr_total_vram_mb row; wr_max_single_gpu_vram_mb row;
                   wr_max_concurrency row; wr_active_jobs row]
  && is_ok (mk_ResourceShape (wr_gpu_count row) (wr_total_vram_mb row)
              (wr_max_single_gpu_vram_mb row))
  && (0 <? wr_max_concurrency row) && (0 <=? wr_active_jobs row).

(** [INSERT INTO workers ... ON CONFLICT ... RETURNING *], control/postgres.py lines 301-334. *)
Definition upsert_worker (values : worker_row) (d : postgres)
    : result (postgres * option worker_row) :=
  require (insertable values) (DatabaseError "row violates a constraint of workers");;
  match worker_by_id (wr_id values) d with
  | Some _ => Ok (update_worker (wr_id values) (on_conflict values) d)
  | None => Ok (with_workers d (pg_workers d ++ [values]), Some values)
  end.

(** [register_worker], control/postgres.py lines 275-370. *)
Definition register_worker (digest : string → list byte) (registration : WorkerRegistration)
    (now : datetime) (d : postgres) : result (postgres * WorkerRecord) :=
  let timestamp := _aware now in
  let spec := reg_spec registration in
  _transaction (
    texts [worker_id spec];;
    let existing := (_lock_worker_ownership digest (worker_id spec) (gpu_uuids spec) d).2 in
    match existing with
    | Some row =>
        current ← _worker row;
        if 0 <? w_active_jobs current then
          require (WorkerSpec_eqb spec (w_spec current))
            (ConflictError "worker resource/topology cannot change while jobs are active");;
          require (w_active_jobs current <=? reg_max_concurrency registration)
            (ConflictError "max_concurrency cannot be lower than active job count")
        else Ok tt
    | None => Ok tt
    end;;
    match _gpu_overlap registration d with
    | Some conflicting =>
        require (negb (str_truthy conflicting))
          (ConflictError ("GPU identity overlaps with worker " +:+ conflicting))
    | None => Ok tt
    end;;
    let registered_at := match existing with Some row => wr_registered_at row
                                            | None => timestamp end in
    let active_jobs := count_running (worker_id spec) d in
    texts [worker_class spec];;
    mapR jsonb (worker_json spec);;
    metadata ← jsonb_dict (reg_metadata registration);
    '(d', row) ← upsert_worker
      (insert_values registration metadata registered_at timestamp active_jobs) d;
    row ← the_row row;
    record ← _worker row;
    Ok (d', record)).

(** [get_worker], control/postgres.py lines 372-379. *)
Definition get_worker (worker_id : string) (d : postgres) : result WorkerRecord :=
  texts [worker_id];;
  row ← row_or (worker_by_id worker_id d) (NotFoundError ("worker not found: " +:+ worker_id));
  _worker row.

(** [set_worker_state], control/postgres.py lines 381-416. *)
Definition set_worker_state (digest : string → list byte) (worker_id : string)
    (state : WorkerState) (now : datetime) (d : postgres) : result (postgres * WorkerRecord) :=
  let timestamp := _aware now in
  _transaction (
    texts [worker_id];;
    current_row ← row_or (_lock_worker_ownership digest worker_id [] d).2
                    (NotFoundError ("worker not found: " +:+ worker_id));
    current ← _worker current_row;
    (if bool_decide (state = OFFLINE) then Ok tt
     else
       registration ← mk_WorkerRegistration (w_spec current) (w_max_concurrency current)
                        (w_metadata current);
       match _gpu_overlap registration d with
       | Some conflict =>
           require (negb (str_truthy conflict))
             (ConflictError ("GPU identity overlaps with worker " +:+ conflict))
       | None => Ok tt
       end);;
    let '(d', row) := update_worker worker_id (λ row,
      worker_set row (WorkerState_value state) timestamp (wr_active_jobs row)
        (wr_metadata row) timestamp) d in
    row ← the_row row;
    record ← _worker row;
    Ok (d', record)).

(** [_assert_running_row], control/postgres.py lines 746-762. *)
Definition _assert_running_row (row : job_row) (worker_id lease_token : string) (now : Z)
    : result unit :=
  require (bool_decide (jb_status row = JobStatus_value RUNNING))
    (ConflictError ("job " +:+ jb_id row +:+ " is not running"));;
  require (bool_decide (jb_assigned_worker_id row = Some worker_id))
    (ConflictError ("job " +:+ jb_id row +:+ " is assigned to another worker"));;
  require (str_truthy lease_token && bool_decide (jb_lease_token row = Some lease_token))
    (ConflictError ("job " +:+ jb_id row +:+ " lease token is stale"));;
  require (match jb_lease_expires_at row with Some e => negb (e <=? now) | None => false end)
    (ConflictError ("job " +:+ jb_id row +:+ " lease has expired")).

(** The lease renewal of [heartbeat_worker], control/postgres.py lines 430-463. *)
Definition renew_lease (worker_id : string) (heartbeat : WorkerHeartbeat) (timestamp : Z)
    (d : postgres) : result postgres :=
  match hb_active_job_id heartbeat, hb_lease_token heartbeat with
  | None, None => Ok d
  | Some job_id, Some token =>
      require (str_truthy job_id && str_truthy token)
        (ConflictError "active_job_id and lease_token must be supplied together");;
      texts [job_id];;
      row ← row_or (job_by_id job_id d) (NotFoundError ("job not found: " +:+ job_id));
      _assert_running_row row worker_id token timestamp;;
      let expires := timestamp + seconds (pg_lease_seconds d) in
      Ok (update_job (jb_id row) (set_renewed expires timestamp) d).1
  | _, _ => Err (ConflictError "active_job_id and lease_token must be supplied together")
  end.

(** [heartbeat_worker], control/postgres.py lines 418-500. *)
Definition heartbeat_worker (worker_id : string) (heartbeat : WorkerHeartbeat) (now : datetime)
    (d : postgres) : result (postgres * WorkerRecord) :=
  let timestamp := _aware now in
  _transaction (
    d1 ← renew_lease worker_id heartbeat timestamp d;
    texts [worker_id];;
    worker_row ← row_or (worker_by_id worker_id d1)
                   (NotFoundError ("worker not found: " +:+ worker_id));
    current ← _worker worker_row;
    require (negb (bool_decide (w_state current = OFFLINE) &&
                   (bool_decide (hb_state heartbeat = Some ONLINE)
                    || bool_decide (hb_state heartbeat = Some DRAINING))))
      (ConflictError "offline worker must explicitly reacquire GPU ownership");;
    let active_jobs := count_running worker_id d1 in
    let state := WorkerState_value (default (w_state current) (hb_state heartbeat)) in
    metadata ← jsonb_dict (dmerge (w_metadata current) (hb_metadata heartbeat));
    let '(d2, row) := update_worker worker_id (λ row,
      worker_set row state timestamp active_jobs metadata timestamp) d1 in
    row ← the_row row;
    record ← _worker row;
    Ok (d2, record)).

(** [expire_stale_workers], control/postgres.py lines 502-517. *)
Definition expire_stale_workers (now : datetime) (d : postgres)
    : result (postgres * list WorkerRecord) :=
  let timestamp := _aware now in
  let cutoff := timestamp - seconds (pg_worker_ttl_seconds d) in
  let '(t, rows) := update (λ row, negb (bool_decide (wr_state row = "offline"))
                                   && (wr_last_seen_at row <? cutoff))
                      (set_offline timestamp) (pg_workers d) in
  records ← mapR _worker rows;
  Ok (with_workers d t, records).

(** ** Submission *)

(** [WHERE idempotency_key = %s]: a null key equals nothing. *)
Definition has_key (key : option string) (row : job_row) : bool :=
  match key with
  | Some k => bool_decide (jb_idempotency_key row = Some k)
  | None => false
  end.
Definition job_by_key (key : option string) (d : postgres) : option job_row :=
  fetchone (select (has_key key) (pg_jobs d)).

(** The values [submit_job] inserts; the other columns take their defaults,
    control/postgres.py lines 549-580. *)
Definition job_values (submission : JobSubmission) (payload requirements : dict pyval)
    (job_id : string) (sequence timestamp available_at : Z) : job_row :=
  {| jb_id := job_id; jb_sequence := sequence; jb_capability := sub_capability submission;
     jb_status := "queued"; jb_payload := payload; jb_requirements := requirements;
     jb_priority := sub_priority submission; jb_attempts := 0;
     jb_max_attempts := sub_max_attempts submission;
     jb_idempotency_key := sub_idempotency_key submission; jb_assigned_worker_id := None;
     jb_lease_token := None; jb_result := None; jb_error := None; jb_created_at := timestamp;
     jb_available_at := available_at; jb_started_at := None; jb_finished_at := None;
     jb_lease_expires_at := None; jb_updated_at := timestamp |}.

(** [INSERT INTO jobs ... ON CONFLICT (idempotency_key) DO NOTHING RETURNING *],
    control/postgres.py lines 549-582. *)
Definition insert_job (submission : JobSubmission) (job_id : string)
    (timestamp available_at : Z) (d : postgres) : result (postgres * option job_row) :=
  let sequence := pg_sequence d + 1 in
  texts (sub_capability submission :: option_list (sub_idempotency_key submission));;
  payload ← jsonb_dict (sub_payload submission);
  requirements ← jsonb_dict (requirements_to_dict (sub_requirements submission));
  let values := job_values submission payload requirements job_id sequence timestamp available_at in
  require (in_int4 (jb_priority values) && in_int4 (jb_max_attempts values)
           && (0 <? jb_max_attempts values))
    (DatabaseError "row violates a constraint of jobs");;
  let d' := {| pg_worker_ttl_seconds := pg_worker_ttl_seconds d;
               pg_lease_seconds := pg_lease_seconds d; pg_workers := pg_workers d;
               pg_jobs := pg_jobs d; pg_sequence := sequence |} in
  match job_by_key (sub_idempotency_key submission) d with
  | Some _ => Ok (d', None)
  | None =>
      require (negb (existsb (job_is job_id) (pg_jobs d)))
        (DatabaseError "duplicate key value violates unique constraint");;
      Ok (with_jobs d' (pg_jobs d ++ [values]), Some values)
  end.

(** The existing record answered to a keyed resubmission, control/postgres.py lines 541-547. *)
Definition resubmitted (submission : JobSubmission) (row : job_row) : result JobRecord :=
  record ← _job row;
  require (_submission_matches record submission)
    (ConflictError "idempotency key already belongs to a different job request");;
  Ok record.

(** [submit_job]; [between] is what commits between the first [SELECT] and the [INSERT],
    control/postgres.py lines 519-594. *)
Definition submit_job (between : postgres → postgres) (submission : JobSubmission)
    (uuid : string) (now : datetime) (d : postgres) : result (postgres * JobRecord) :=
  let timestamp := _aware now in
  let available_at := match sub_available_at submission with
                      | Some a => _aware a | None => timestamp end in
  _transaction (
    (if opt_truthy (sub_idempotency_key submission)
     then texts (option_list (sub_idempotency_key submission)) else Ok tt);;
    match (if opt_truthy (sub_idempotency_key submission)
           then job_by_key (sub_idempotency_key submission) d else None) with
    | Some existing => record ← resubmitted submission existing; Ok (d, record)
    | None =>
        '(d', row) ← insert_job submission uuid timestamp available_at (between d);
        match row with
        | Some row => record ← _job row; Ok (d', record)
        | None =>
            existing ← row_or (job_by_key (sub_idempotency_key submission) d')
                         (StorageUnavailable "idempotent job insert did not persist");
            record ← resubmitted submission existing;
            Ok (d', record)
        end
    end).

(** [get_job], control/postgres.py lines 596-603. *)
Definition get_job (job_id : string) (d : postgres) : result JobRecord :=
  texts [job_id];;
  row ← row_or (job_by_id job_id d) (NotFoundError ("job not found: " +:+ job_id));
  _job row.

(** ** Claims *)

(** [ORDER BY j.priority DESC, j.sequence ASC], control/postgres.py lines 678-678. *)
Definition row_order (a b : job_row) : Prop :=
  - jb_priority a < - jb_priority b ∨
  (jb_priority a = jb_priority b ∧ jb_sequence a ≤ jb_sequence b).
#[export] Instance row_order_dec : RelDecision row_order.
Proof. intros a b. unfold row_order. apply _. Defined.

(** The requirement conjuncts of the [WHERE] clause of [claim_next_job], from left to right,
    control/postgres.py lines 639-666. *)
Definition requirements_match (spec : WorkerSpec) (requirements : dict pyval) : result bool :=
  class ← json_text "worker_class" requirements;
  sql_and (match class with None => true | Some c => bool_decide (c = worker_class spec) end) (
  caps ← json_elements "required_capabilities" requirements;
  sql_and (forallb (λ c, bool_decide (c ∈ json_strings (capabilities spec))) caps) (
  labs ← json_contained "required_labels" requirements (labels spec);
  sql_and labs (
  gpus ← json_elements "required_gpu_uuids" requirements;
  sql_and (forallb (λ u, bool_decide (u ∈ gpu_uuids spec)) gpus) (
  count ← json_int4 "min_gpu_count" requirements;
  sql_and (default 0 count <=? gpu_count (resources spec)) (
  total ← json_int4 "min_total_vram_mb" requirements;
  sql_and (default 0 total <=? total_vram_mb (resources spec)) (
  single ← json_int4 "min_single_gpu_vram_mb" requirements;
  Ok (default 0 single <=? max_single_gpu_vram_mb (resources spec)))))))).

(** The [WHERE] clause of [claim_next_job], control/postgres.py lines 633-671. *)
Definition claim_where (timestamp : Z) (spec : WorkerSpec) (has_capacity : bool) (row : job_row)
    : result bool :=
  sql_and (bool_decide (jb_status row = "queued")) (
  sql_and (jb_available_at row <=? timestamp) (
  sql_and (jb_attempts row <? jb_max_attempts row) (
  sql_and (bool_decide (jb_capability row ∈ json_strings (capabilities spec))) (
  b ← requirements_match spec (jb_requirements row);
  sql_and b (Ok has_capacity))))).

(** [SELECT w.active_jobs < w.max_concurrency FROM workers AS w WHERE w.id = %s], control/postgres.py lines 667-671. *)
Definition capacity_left (worker_id : string) (d : postgres) : bool :=
  match worker_by_id worker_id d with
  | Some w => wr_active_jobs w <? wr_max_concurrency w
  | None => false
  end.

(** The selection of [claim_next_job], control/postgres.py lines 630-695. *)
Definition claim_select (locked : string → bool) (timestamp : Z) (worker_id : string)
    (spec : WorkerSpec) (d : postgres) : result (option job_row) :=
  rows ← select_where (claim_where timestamp spec (capacity_left worker_id d)) (pg_jobs d);
  Ok (fetchone (merge_sort row_order (select (λ row, negb (locked (jb_id row))) rows))).

(** What follows the selection, under the job lock, control/postgres.py lines 696-744. *)
Definition claim_commit (row : job_row) (worker_id uuid : string) (timestamp cutoff : Z)
    (d : postgres) : result (postgres * option JobRecord) :=
  locked_worker_row ← row_or (worker_by_id worker_id d)
                        (NotFoundError ("worker not found: " +:+ worker_id));
  locked_worker ← _worker locked_worker_row;
  if (w_last_seen_at locked_worker <? cutoff)
     || negb (bool_decide (w_state locked_worker = ONLINE))
     || (w_max_concurrency locked_worker <=? w_active_jobs locked_worker)
  then Ok (d, None)
  else
    selected ← _job row;
    if negb (bool_decide (j_capability selected ∈ capabilities (w_spec locked_worker)))
       || negb (worker_matches (w_spec locked_worker) (j_requirements selected))
    then Ok (d, None)
    else
      attempts ← int4 (jb_attempts row + 1);
      let expires := timestamp + seconds (pg_lease_seconds d) in
      let '(d1, claimed_row) :=
        update_job (jb_id row) (set_claimed worker_id uuid expires timestamp attempts) d in
      active_jobs ← int4 (wr_active_jobs locked_worker_row + 1);
      let '(d2, _) := update_worker worker_id (λ w,
        worker_set w (wr_state w) (wr_last_seen_at w) active_jobs (wr_metadata w) timestamp) d1 in
      claimed_row ← the_row claimed_row;
      claimed ← _job claimed_row;
      Ok (d2, Some claimed).

(** [claim_next_job]; [locked] holds the rows other transactions lock, [between] is what
    they commit between the selection and the worker lock,
    control/postgres.py lines 605-744. *)
Definition claim_next_job (locked : string → bool) (between : postgres → postgres)
    (worker_id uuid : string) (now : datetime) (d : postgres)
    : result (postgres * option JobRecord) :=
  let timestamp := _aware now in
  let cutoff := timestamp - seconds (pg_worker_ttl_seconds d) in
  _transaction (
    texts [worker_id];;
    worker_row ← row_or (worker_by_id worker_id d)
                   (NotFoundError ("worker not found: " +:+ worker_id));
    worker ← _worker worker_row;
    if w_last_seen_at worker <? cutoff then
      Ok ((update_worker worker_id (set_offline timestamp) d).1, None)
    else if negb (bool_decide (w_state worker = ONLINE)) then Ok (d, None)
    else
      row ← claim_select locked timestamp worker_id (w_spec worker) d;
      match row with
      | None => Ok (d, None)
      | Some row => claim_commit row worker_id uuid timestamp cutoff (between d)
      end).

(** ** Terminal writes *)

(** [_decrement_worker], control/postgres.py lines 764-777. *)
Definition _decrement_worker (worker_id : option string) (timestamp : Z) (d : postgres)
    : postgres :=
  match worker_id with
  | None => d
  | Some id =>
      (update_worker id (λ w, worker_set w (wr_state w) (wr_last_seen_at w)
        (Z.max (wr_active_jobs w - 1) 0) (wr_metadata w) timestamp) d).1
  end.

(** [complete_job], control/postgres.py lines 779-825. *)
Definition complete_job (job_id : string) (res : JobResult) (worker_id lease_token : string)
    (now : datetime) (d : postgres) : result (postgres * JobRecord) :=
  let timestamp := _aware now in
  _transaction (
    texts [job_id];;
    row ← row_or (job_by_id job_id d) (NotFoundError ("job not found: " +:+ job_id));
    _assert_running_row row worker_id lease_token timestamp;;
    result_json ← jsonb_dict (job_result_to_dict res);
    let '(d1, updated) := update_job (jb_id row) (set_completed result_json timestamp) d in
    let d2 := _decrement_worker (Some worker_id) timestamp d1 in
    updated ← the_row updated;
    record ← _job updated;
    Ok (d2, record)).

(** [fail_job], control/postgres.py lines 827-880. *)
Definition fail_job (job_id : string) (error : error_arg) (retryable : bool)
    (worker_id lease_token : string) (now : datetime) (d : postgres)
    : result (postgres * JobRecord) :=
  let timestamp := _aware now in
  _transaction (
    texts [job_id];;
    row ← row_or (job_by_id job_id d) (NotFoundError ("job not found: " +:+ job_id));
    _assert_running_row row worker_id lease_token timestamp;;
    let should_retry := retryable && (jb_attempts row <? jb_max_attempts row) in
    error_json ← jsonb_dict (_failure_payload error should_retry);
    let '(d1, updated) := update_job (jb_id row) (set_failed should_retry error_json timestamp) d in
    let d2 := _decrement_worker (Some worker_id) timestamp d1 in
    updated ← the_row updated;
    record ← _job updated;
    Ok (d2, record)).

(** [cancel_job], control/postgres.py lines 882-917. *)
Definition cancel_job (job_id : string) (now : datetime) (d : postgres)
    : result (postgres * JobRecord) :=
  let timestamp := _aware now in
  _transaction (
    texts [job_id];;
    row ← row_or (job_by_id job_id d) (NotFoundError ("job not found: " +:+ job_id));
    job ← _job row;
    if terminal (j_status job) then Ok (d, job)
    else
      let '(d1, updated) := update_job (jb_id row) (set_cancelled timestamp) d in
      let d2 := if bool_decide (j_status job = RUNNING)
                then _decrement_worker (j_assigned_worker_id job) timestamp d1 else d1 in
      updated ← the_row updated;
      record ← _job updated;
      Ok (d2, record)).

(** [ORDER BY sequence ASC]. *)
Definition row_sequence (a b : job_row) : Prop := jb_sequence a ≤ jb_sequence b.
#[export] Instance row_sequence_dec : RelDecision row_sequence.
Proof. intros a b. unfold row_sequence. apply _. Defined.

(** The [WHERE] clause of [recover_expired_jobs], control/postgres.py lines 929-930. *)
Definition row_expired (timestamp : Z) (row : job_row) : bool :=
  bool_decide (jb_status row = "running")
  && match jb_lease_expires_at row with Some e => e <=? timestamp | None => false end.

(** One iteration of [recover_expired_jobs]: [None] when no row is left,
    control/postgres.py lines 925-978. *)
Definition recover_once (locked : string → bool) (timestamp : Z) (d : postgres)
    : result (option (postgres * JobRecord)) :=
  _transaction (
    let rows := select (λ row, row_expired timestamp row && negb (locked (jb_id row)))
                  (pg_jobs d) in
    match fetchone (merge_sort row_sequence rows) with
    | None => Ok None
    | Some row =>
        let should_retry := jb_attempts row <? jb_max_attempts row in
        error_json ← jsonb_dict
          [("message", PStr "worker lease expired"); ("retryable", PBool should_retry)];
        let '(d1, updated) := update_job (jb_id row) (set_failed should_retry error_json timestamp) d in
        let d2 := _decrement_worker (jb_assigned_worker_id row) timestamp d1 in
        updated ← the_row updated;
        record ← _job updated;
        Ok (Some (d2, record))
    end).

(** The [while True] loop of [recover_expired_jobs], control/postgres.py lines 919-978. *)
Fixpoint recover_loop (fuel : nat) (locked : string → bool) (timestamp : Z)
    (recovered : list JobRecord) (d : postgres) : result (postgres * list JobRecord) :=
  match fuel with
  | O => Err (OutOfModel "fuel")
  | S fuel' =>
      next ← recover_once locked timestamp d;
      match next with
      | None => Ok (d, recovered)
      | Some (d', record) => recover_loop fuel' locked timestamp (recovered ++ [record]) d'
      end
  end.

(** [recover_expired_jobs], control/postgres.py lines 919-978: each iteration settles one row,
    so one more than the number of rows is fuel enough. *)
Definition recover_expired_jobs (locked : string → bool) (now : datetime) (d : postgres)
    : result (postgres * list JobRecord) :=
  recover_loop (S (length (pg_jobs d))) locked (_aware now) [] d.
