(* ===== verification/PostgresRepr.v ===== *)
(** * Rows and records of the PostgreSQL repository

    [repr d s] says that the tables of [d] hold the records of the in-memory state [s],
    column by column: reading a row gives its record back, updating a row updates the record,
    and the [WHERE] clause that selects a job is the scheduler's matching function. *)

From Stdlib Require Import Strings.Byte.
From S2P Require Import Prelude PyStr PyDict PyVal Contracts Scheduling Models Repository RepositoryInv Serde Postgres.

(** ** What a [jsonb] column gives back as it was *)

(** A JSON value that reads back as the same value: no NaN and no infinity, no negative
    zero, no float of 10^16 or more, no integer beyond the digits Python prints and no NUL
    character, at any depth. *)
Definition stable (v : pyval) : Prop := jsonb v = Ok v.
Definition stable_dict (d : dict pyval) : Prop := jsonb_dict d = Ok d.

Lemma texts_Ok l : forallb no_nul l = true → texts l = Ok tt.
Proof. unfold texts. by intros ->. Qed.

Lemma stable_dict_spec d :
  stable_dict d ↔ Forall (λ kv, texts [kv.1] = Ok tt ∧ stable kv.2) d.
Proof.
  unfold stable_dict, jsonb_dict, stable. rewrite mapR_Ok. split.
  - induction d as [|[k v] d IH]; inversion 1 as [|? ? ? ? Hkv Hd]; constructor; [|by apply IH].
    cbn [fst snd] in *. apply bind_Ok in Hkv as ([] & Hk & (w & Hw & [= ->])%bind_Ok). done.
  - intros H. apply Forall_Forall2_diag. eapply Forall_impl; [exact H|].
    intros [k v] [Hk Hv]. cbn [fst snd] in *. rewrite Hk. cbn [mbind result_bind]. by rewrite Hv.
Qed.
Lemma stable_PDict d : stable (PDict d) ↔ stable_dict d.
Proof.
  unfold stable, stable_dict. change (jsonb (PDict d)) with (d' ← jsonb_dict d; Ok (PDict d')).
  destruct (jsonb_dict d); cbn; split; congruence.
Qed.

Lemma stable_dset k v d :
  texts [k] = Ok tt → stable v → stable_dict d → stable_dict (dset k v d).
Proof.
  rewrite !stable_dict_spec. intros Hk Hv. induction 1 as [|[k' v'] d H Hd IH]; cbn.
  - constructor; [by split|constructor].
  - case_decide; constructor; try done. split; [apply H|done].
Qed.
Lemma stable_dmerge d e : stable_dict d → stable_dict e → stable_dict (dmerge d e).
Proof.
  intros Hd He%stable_dict_spec. revert d Hd. unfold dmerge.
  induction He as [|kv e [Hk Hv] _ IH]; intros d Hd; cbn; [done|]. by apply IH, stable_dset.
Qed.

(** An error argument whose payload reads back. *)
Definition stable_error (err : error_arg) : Prop :=
  match err with ErrorText s => texts [s] = Ok tt | ErrorDict d => stable_dict d end.
Lemma stable_failure err b : stable_error err → stable_dict (_failure_payload err b).
Proof.
  destruct err as [s|d]; cbn [stable_error _failure_payload]; intros H; [|by apply stable_dset].
  apply stable_dict_spec. repeat constructor; try done. cbn [snd]. unfold stable.
  change (jsonb (PStr s)) with (texts [s];; Ok (PStr s)). by rewrite H.
Qed.

(** ** The representation *)

(** The row of [workers] that holds a record. *)
Definition worker_columns (w : WorkerRecord) (updated_at : Z) : worker_row :=
  let spec := w_spec w in
  {| wr_id := worker_id spec; wr_worker_class := worker_class spec;
     wr_capabilities := json_strings (capabilities spec); wr_labels := labels spec;
     wr_gpu_uuids := gpu_uuids spec; wr_accelerators := device_to_dict <$> accelerators spec;
     wr_gpu_count := gpu_count (resources spec);
     wr_total_vram_mb := total_vram_mb (resources spec);
     wr_max_single_gpu_vram_mb := max_single_gpu_vram_mb (resources spec);
     wr_max_concurrency := w_max_concurrency w; wr_state := WorkerState_value (w_state w);
     wr_metadata := w_metadata w; wr_registered_at := w_registered_at w;
     wr_last_seen_at := w_last_seen_at w; wr_active_jobs := w_active_jobs w;
     wr_updated_at := updated_at |}.

(** The row of [jobs] that holds a record. *)
Definition job_columns (j : JobRecord) : job_row :=
  {| jb_id := j_job_id j; jb_sequence := j_sequence j; jb_capability := j_capability j;
     jb_status := JobStatus_value (j_status j); jb_payload := j_payload j;
     jb_requirements := requirements_to_dict (j_requirements j); jb_priority := j_priority j;
     jb_attempts := j_attempts j; jb_max_attempts := j_max_attempts j;
     jb_idempotency_key := j_idempotency_key j; jb_assigned_worker_id := j_assigned_worker_id j;
     jb_lease_token := j_lease_token j; jb_result := job_result_to_dict <$> j_result j;
     jb_error := j_error j; jb_created_at := j_created_at j;
     jb_available_at := j_available_at j; jb_started_at := j_started_at j;
     jb_finished_at := j_finished_at j; jb_lease_expires_at := j_lease_expires_at j;
     jb_updated_at := j_updated_at j |}.

(** What the [integer] casts of the claim query can read. *)
Definition int4_requirements (r : JobRequirements) : Prop :=
  in_int4 (min_gpu_count r) = true ∧ in_int4 (min_total_vram_mb r) = true ∧
  in_int4 (min_single_gpu_vram_mb r) = true.

(** Records a row can hold and give back. *)
Definition storable_worker (w : WorkerRecord) : Prop :=
  wf_WorkerSpec (w_spec w) ∧ 1 ≤ w_max_concurrency w ∧ in_int4 (w_max_concurrency w) = true ∧
  stable_dict (w_metadata w).
Definition storable_job (j : JobRecord) : Prop :=
  wf_JobRequirements (j_requirements j) ∧ int4_requirements (j_requirements j) ∧
  (∀ r, j_result j = Some r → wf_JobResult r) ∧ in_int4 (j_max_attempts j) = true.

Definition holds_worker (row : worker_row) (kv : string * WorkerRecord) : Prop :=
  kv.1 = w_id kv.2 ∧ storable_worker kv.2 ∧ ∃ t, row = worker_columns kv.2 t.
Definition holds_job (row : job_row) (kv : string * JobRecord) : Prop :=
  kv.1 = j_job_id kv.2 ∧ storable_job kv.2 ∧ row = job_columns kv.2.

Record repr (d : postgres) (s : repo) : Prop := {
  repr_ttl : pg_worker_ttl_seconds d = r_worker_ttl_seconds s;
  repr_lease : pg_lease_seconds d = r_lease_seconds s;
  repr_sequence : pg_sequence d = r_sequence s;
  repr_workers : Forall2 holds_worker (pg_workers d) (r_workers s);
  repr_jobs : Forall2 holds_job (pg_jobs d) (r_jobs s);
  repr_wf_workers : dict_wf (r_workers s);
  repr_wf_jobs : dict_wf (r_jobs s);
  repr_keys k id : dget k (r_idempotency s) = Some id ↔
    ∃ j, dget id (r_jobs s) = Some j ∧ j_idempotency_key j = Some k;
  repr_order : StronglySorted Z.lt (j_sequence <$> dvalues (r_jobs s));
}.

#[local] Arguments _worker : simpl never.
#[local] Arguments _job : simpl never.

(** ** Rows give their records back *)

Lemma worker_decode w t : storable_worker w → _worker (worker_columns w t) = Ok w.
Proof.
  intros (Hs & _). pose proof Hs as (_ & _ & _ & _ & _ & _ & Hres & Hacc & _).
  unfold _worker. cbn [wr_accelerators worker_columns wr_gpu_count wr_total_vram_mb
    wr_max_single_gpu_vram_mb wr_id wr_worker_class wr_gpu_uuids wr_capabilities wr_labels wr_state].
  rewrite devices_roundtrip by done. cbn [mbind result_bind].
  rewrite mk_ResourceShape_id by done. cbn [mbind result_bind].
  rewrite mk_WorkerSpec_id; [|done|].
  - cbn [mbind result_bind]. rewrite mk_WorkerState_value. by destruct w.
  - enough (list_to_set (json_strings (capabilities (w_spec w))) = capabilities (w_spec w)) as -> by done.
    apply set_eq. intros x. unfold json_strings.
    by rewrite elem_of_list_to_set, elem_of_sorted_strings, elem_of_elements.
Qed.

Lemma job_decode j : storable_job j → _job (job_columns j) = Ok j.
Proof.
  intros (Hr & _ & Hres & _). unfold _job.
  cbn [jb_requirements jb_status jb_result job_columns].
  rewrite requirements_roundtrip by done. cbn [mbind result_bind].
  rewrite mk_JobStatus_value. cbn [mbind result_bind].
  assert (job_result_from_dict (opt_dict (job_result_to_dict <$> j_result j)) = Ok (j_result j)) as ->.
  { destruct (j_result j) as [r|]; [|done]. apply job_result_roundtrip. by apply Hres. }
  by destruct j.
Qed.

(** ** Tables against dictionaries *)

Section table.
Context {R V : Type} (holds : R → string * V → Prop) (key : R → string).
Hypothesis holds_key : ∀ r kv, holds r kv → key r = kv.1.
Implicit Types (t : list R) (d : dict V).

Lemma select_absent t d k : Forall2 holds t d → k ∉ dkeys d →
  select (λ r, bool_decide (key r = k)) t = [].
Proof.
  unfold select. induction 1 as [|r [k' v] t d Hr H IH]; [done|].
  cbn [dkeys fmap list_fmap]. intros [Hne Hn]%not_elem_of_cons.
  rewrite filter_cons_False; [by apply IH|]. apply holds_key in Hr. cbn in Hr. cbn beta. rewrite Hr.
  cbn in Hne.
  rewrite bool_decide_false by congruence. by intros [].
Qed.

Lemma select_key t d k : Forall2 holds t d → dict_wf d →
  match dget k d with
  | Some v => ∃ r, select (λ r, bool_decide (key r = k)) t = [r] ∧ holds r (k, v)
  | None => select (λ r, bool_decide (key r = k)) t = []
  end.
Proof.
  unfold dict_wf. induction 1 as [|r [k' v] t d Hr H IH]; [done|].
  cbn [dkeys fmap list_fmap dget]. intros [Hk Hd]%NoDup_cons.
  pose proof (holds_key _ _ Hr) as E. cbn in E. destruct (decide (k = k')) as [->|Hne].
  - exists r. split; [|done]. unfold select. rewrite filter_cons_True.
    + f_equal. by apply select_absent with d.
    + cbn beta. by rewrite E, bool_decide_true.
  - unfold select. rewrite filter_cons_False; [by apply IH|].
    cbn beta. rewrite E, bool_decide_false by congruence. by intros [].
Qed.

Lemma update_absent t d k f : Forall2 holds t d → k ∉ dkeys d →
  ((λ r, if bool_decide (key r = k) then f r else r) <$> t) = t.
Proof.
  induction 1 as [|r [k' v] t d Hr H IH]; [done|].
  cbn [dkeys fmap list_fmap]. intros [Hne Hn]%not_elem_of_cons. rewrite IH by done.
  apply holds_key in Hr. cbn in Hr. cbn in Hne.
  rewrite bool_decide_false; [done|congruence].
Qed.

Lemma update_key t d k v v' f : Forall2 holds t d → dict_wf d → dget k d = Some v →
  (∀ r, holds r (k, v) → holds (f r) (k, v')) →
  Forall2 holds ((λ r, if bool_decide (key r = k) then f r else r) <$> t) (dset k v' d).
Proof.
  intros H Hwf Hk Hf. revert Hwf Hk. unfold dict_wf.
  induction H as [|r [k' v0] t d Hr H IH]; [done|].
  cbn [dkeys fmap list_fmap dget dset]. intros [Hn Hd]%NoDup_cons.
  pose proof (holds_key _ _ Hr) as E. cbn in E. destruct (decide (k = k')) as [->|Hne].
  - intros [= ->]. rewrite E, bool_decide_true by done. constructor; [by apply Hf|].
    change (Forall2 holds ((λ r, if bool_decide (key r = k') then f r else r) <$> t) d).
    by rewrite (update_absent t d) by done.
  - intros Hk. rewrite E, bool_decide_false by congruence. constructor; [done|]. by apply IH.
Qed.
End table.

(** ** Reading rows under the relation *)

Lemma holds_worker_key r kv : holds_worker r kv → wr_id r = kv.1.
Proof. by intros (E & _ & t & ->). Qed.
Lemma holds_job_key r kv : holds_job r kv → jb_id r = kv.1.
Proof. by intros (E & _ & ->). Qed.

Lemma worker_by_id_repr d s id : repr d s →
  match dget id (r_workers s) with
  | Some w => w_id w = id ∧ storable_worker w ∧ ∃ t, worker_by_id id d = Some (worker_columns w t)
  | None => worker_by_id id d = None
  end.
Proof.
  intros H. pose proof (select_key _ _ holds_worker_key _ _ id (repr_workers _ _ H)
    (repr_wf_workers _ _ H)) as Hs.
  unfold worker_by_id. destruct (dget id (r_workers s)) as [w|].
  - destruct Hs as (r & E & Hk & Hw & t & ->). split; [done|]. split; [done|]. exists t.
    unfold worker_is. by rewrite E.
  - unfold worker_is. by rewrite Hs.
Qed.

Lemma job_by_id_repr d s id : repr d s →
  match dget id (r_jobs s) with
  | Some j => j_job_id j = id ∧ storable_job j ∧ job_by_id id d = Some (job_columns j)
  | None => job_by_id id d = None
  end.
Proof.
  intros H. pose proof (select_key _ _ holds_job_key _ _ id (repr_jobs _ _ H)
    (repr_wf_jobs _ _ H)) as Hs.
  unfold job_by_id. destruct (dget id (r_jobs s)) as [j|].
  - destruct Hs as (r & E & Hk & Hj & ->). split; [done|]. split; [done|].
    unfold job_is. by rewrite E.
  - unfold job_is. by rewrite Hs.
Qed.

(** The jobs table is the image of the records. *)
Lemma pg_jobs_repr d s : repr d s → pg_jobs d = job_columns <$> dvalues (r_jobs s).
Proof.
  intros H. unfold dvalues. induction (repr_jobs _ _ H) as [|r [k j] t js (_ & _ & ->) _ IH]; [done|].
  cbn. by rewrite IH.
Qed.

Lemma storable_jobs d s j : repr d s → j ∈ dvalues (r_jobs s) → storable_job j.
Proof.
  intros H (k & Hk)%dvalues_elem. apply dget_In in Hk; [|apply H].
  pose proof (job_by_id_repr d s k H) as Hj. rewrite Hk in Hj. apply Hj.
Qed.

(** ** Updating rows under the relation *)

Lemma update_worker_repr d s id w w' f : repr d s → dget id (r_workers s) = Some w →
  storable_worker w' → w_id w' = id →
  (∀ t, ∃ t', f (worker_columns w t) = worker_columns w' t') →
  ∃ d' t', update_worker id f d = (d', Some (worker_columns w' t')) ∧ repr d' (put_worker id w' s).
Proof.
  intros H Hk Hw' Hid Hf.
  pose proof (select_key _ _ holds_worker_key _ _ id (repr_workers _ _ H)
    (repr_wf_workers _ _ H)) as Hs. rewrite Hk in Hs. destruct Hs as (r & E & Hr).
  pose proof Hr as (_ & _ & t & ->). destruct (Hf t) as [t' Ht].
  eexists _, t'. split.
  - unfold update_worker, update. unfold select in E. unfold worker_is. rewrite E. cbn. by rewrite Ht.
  - destruct H. split; cbn; try done; [|by apply dict_wf_dset].
    eapply update_key; [apply holds_worker_key|done..|].
    intros r (? & ? & t1 & ->). cbn in *. destruct (Hf t1) as [t2 E2]. split_and!; eauto.
Qed.

Lemma dvalues_dset_same {V W} (g : V → W) k v v' (d : dict V) :
  dget k d = Some v → g v' = g v → g <$> dvalues (dset k v' d) = g <$> dvalues d.
Proof.
  intros Hk E. induction d as [|[k' v0] d IH]; [done|]. cbn in *.
  destruct (decide (k = k')) as [->|Hne]; cbn.
  - injection Hk as ->. by rewrite E.
  - f_equal. by apply IH.
Qed.

(** An update that keeps what identifies a job. *)
Definition same_identity (j j' : JobRecord) : Prop :=
  j_job_id j' = j_job_id j ∧ j_sequence j' = j_sequence j ∧
  j_idempotency_key j' = j_idempotency_key j.

Lemma update_job_repr d s id j j' f : repr d s → dget id (r_jobs s) = Some j →
  storable_job j' → same_identity j j' → f (job_columns j) = job_columns j' →
  ∃ d', update_job id f d = (d', Some (job_columns j')) ∧ repr d' (put_job id j' s).
Proof.
  intros H Hk Hj' (Hid & Hseq & Hkey) Hf.
  pose proof (select_key _ _ holds_job_key _ _ id (repr_jobs _ _ H)
    (repr_wf_jobs _ _ H)) as Hs. rewrite Hk in Hs. destruct Hs as (r & E & Hr).
  pose proof Hr as (Hidj & _ & ->). cbn in Hidj.
  eexists. split.
  - unfold update_job, update. unfold select in E. unfold job_is. rewrite E. cbn. by rewrite Hf.
  - destruct H. split; cbn; try done; [|by apply dict_wf_dset|..].
    + eapply update_key; [apply holds_job_key|done..|].
      intros r (? & ? & ->). cbn in *. split; [cbn; congruence|]. split; [done|]. done.
    + intros k i. change (r_idempotency (put_job id j' s)) with (r_idempotency s).
      rewrite repr_keys0, r_jobs_put_job, dget_dset. destruct (decide (i = id)) as [->|?]; [|done].
      rewrite Hk. split; intros (j1 & [= <-] & E1); eexists; (split; [reflexivity|]); congruence.
    + rewrite r_jobs_put_job. by rewrite (dvalues_dset_same j_sequence id j).
Qed.

(** [_decrement_worker] is [_release_worker_capacity]. *)
Lemma decrement_repr d s o t : repr d s → (∀ w, o = Some w → is_Some (dget w (r_workers s))) →
  repr (_decrement_worker o t d) (_release_worker_capacity o s).
Proof.
  intros H Ho. destruct o as [id|]; [|done]. destruct (Ho id eq_refl) as [w Hw].
  unfold _release_worker_capacity, _decrement_worker. rewrite Hw.
  pose proof (worker_by_id_repr d s id H) as Hr. rewrite Hw in Hr. destruct Hr as (Hid & Hs & _).
  destruct (update_worker_repr d s id w (with_active_jobs w (Z.max (w_active_jobs w - 1) 0))
    (λ w, worker_set w (wr_state w) (wr_last_seen_at w) (Z.max (wr_active_jobs w - 1) 0)
       (wr_metadata w) t)) as (d' & t' & -> & Hr); try done. by eexists.
Qed.

(** Counting. *)
Lemma running_on_columns wid j : running_on wid (job_columns j) = runs_on wid j.
Proof.
  unfold running_on, runs_on. cbn. f_equal. apply bool_decide_ext. by destruct (j_status j).
Qed.

Lemma count_running_repr d s wid : repr d s → count_running wid d = _active_job_count s wid.
Proof.
  intros H. unfold count_running, _active_job_count, dcount. f_equal.
  rewrite (pg_jobs_repr d s) by done. unfold select.
  induction (dvalues (r_jobs s)) as [|j l IH]; [done|]. rewrite fmap_cons, filter_cons.
  cbn [sum_list_with]. rewrite <- IH, running_on_columns. by destruct (runs_on wid j).
Qed.

(** ** The claim query is the scheduler's matching *)

Lemma sql_and_Ok a b : sql_and a (Ok b) = Ok (a && b).
Proof. by destruct a. Qed.

Lemma forallb_subseteq (p : string → bool) (X Y : gset string) :
  (∀ x, p x = true ↔ x ∈ Y) → forallb p (json_strings X) = bool_decide (X ⊆ Y).
Proof.
  intros Hp. apply eq_true_iff_eq. rewrite forallb_forall, bool_decide_eq_true. unfold json_strings.
  split; intros H x Hx.
  - apply Hp, H. apply list_elem_of_In. rewrite elem_of_sorted_strings. by apply elem_of_elements.
  - apply Hp, H. apply list_elem_of_In in Hx. by rewrite elem_of_sorted_strings, elem_of_elements in Hx.
Qed.

Lemma json_elements_strs key (doc : dict pyval) l :
  dget key doc = Some (strs l) → json_elements key doc = Ok l.
Proof.
  unfold json_elements, strs. intros ->. apply mapR_Ok.
  apply Forall2_fmap_l, Forall_Forall2_diag, Forall_forall. done.
Qed.

Lemma json_int4_int key (doc : dict pyval) z :
  dget key doc = Some (PInt z) → in_int4 z = true → json_int4 key doc = Ok (Some z).
Proof. unfold json_int4, int4. by intros -> ->. Qed.

Lemma json_contained_labels key (doc : dict pyval) (r l : dict string) :
  dget key doc = Some (PDict ((λ '(k, v), (k, PStr v)) <$> r)) →
  json_contained key doc l = Ok (forallb (λ kv, bool_decide (dget kv.1 l = Some kv.2)) r).
Proof.
  unfold json_contained. intros ->. f_equal. induction r as [|[k v] r IH]; [done|].
  cbn. by f_equal.
Qed.

Lemma requirements_match_scheduler spec r : wf_JobRequirements r → int4_requirements r →
  requirements_match spec (requirements_to_dict r) = Ok (worker_matches spec r).
Proof.
  intros (Hclass & _) (Hc & Ht & Hs). unfold requirements_match.
  assert (json_text "worker_class" (requirements_to_dict r) = Ok (req_worker_class r)) as ->.
  { unfold json_text. cbn. by destruct (req_worker_class r). }
  cbn [mbind result_bind].
  rewrite (json_elements_strs "required_capabilities" _ (json_strings (required_capabilities r))),
    (json_contained_labels _ _ (required_labels r)),
    (json_elements_strs "required_gpu_uuids" _ (json_strings (required_gpu_uuids r))),
    (json_int4_int "min_gpu_count" _ (min_gpu_count r)),
    (json_int4_int "min_total_vram_mb" _ (min_total_vram_mb r)),
    (json_int4_int "min_single_gpu_vram_mb" _ (min_single_gpu_vram_mb r)) by done.
  cbn [mbind result_bind default]. rewrite !sql_and_Ok. f_equal.
  rewrite (forallb_subseteq _ _ (capabilities spec)), (forallb_subseteq _ _ (list_to_set (gpu_uuids spec))).
  - apply eq_true_iff_eq. rewrite worker_matches_spec. unfold satisfies.
    rewrite !andb_true_iff, !bool_decide_eq_true, !Z.leb_le, forallb_forall.
    assert (match req_worker_class r with None => true
            | Some c => bool_decide (c = worker_class spec) end = true ↔
            ∀ c, req_worker_class r = Some c → c ≠ EmptyString → worker_class spec = c) as ->.
    { destruct (req_worker_class r) as [c|]; [|done]. rewrite bool_decide_eq_true. split.
      - by intros -> ? [= ->].
      - intros H. symmetry. apply H; [done|]. by apply (Hclass c). }
    setoid_rewrite <- list_elem_of_In. setoid_rewrite bool_decide_eq_true.
    split.
    + intros (H1 & H2 & H3 & H4 & H5 & H6 & H7). split_and!; try done.
      * intros k v Hkv. by apply (H3 (k, v)).
      * intros u Hu. apply H4 in Hu. set_solver.
    + intros (H1 & H2 & H3 & H4 & H5 & H6 & H7). split_and!; try done.
      * intros [k v] Hkv. by apply H3.
      * intros u Hu. apply elem_of_list_to_set. by apply H4.
  - intros x. by rewrite bool_decide_eq_true, elem_of_list_to_set.
  - intros x. unfold json_strings. by rewrite bool_decide_eq_true, elem_of_sorted_strings, elem_of_elements.
Qed.

Lemma claim_where_columns t w cap j : storable_job j →
  claim_where t (w_spec w) cap (job_columns j) = Ok (claimable t w j && cap).
Proof.
  intros (Hr & Hi & _). unfold claim_where, claimable.
  cbn [jb_status jb_available_at jb_attempts jb_max_attempts jb_capability jb_requirements job_columns].
  rewrite requirements_match_scheduler by done. cbn [mbind result_bind]. rewrite !sql_and_Ok.
  f_equal. rewrite <- !andb_assoc. f_equal; [|do 2 f_equal].
  - apply bool_decide_ext. by destruct (j_status j).
  - f_equal. apply bool_decide_ext. unfold json_strings. by rewrite elem_of_sorted_strings, elem_of_elements.
Qed.

(** Sorting rows is sorting the records they hold. *)
Section sort_image.
Context {A B : Type} (f : A → B) (R : relation A) (S : relation B).
Context `{!RelDecision R, !RelDecision S}.
Hypothesis order : ∀ x y, S (f x) (f y) ↔ R x y.

Lemma list_merge_fmap l1 l2 : list_merge S (f <$> l1) (f <$> l2) = f <$> list_merge R l1 l2.
Proof.
  revert l2; induction l1 as [|x l1 IH1]; intros l2.
  { by destruct l2. }
  induction l2 as [|y l2 IH2]; [by rewrite !list_merge_nil_r|].
  rewrite !fmap_cons, !list_merge_cons. destruct (decide (R x y)) as [H|H].
  - rewrite decide_True by (by apply order). rewrite fmap_cons. f_equal. apply (IH1 (y :: l2)).
  - rewrite decide_False by (by rewrite order). rewrite fmap_cons. f_equal. apply IH2.
Qed.

Definition image_stack (st : list (option (list A))) : list (option (list B)) :=
  (λ o : option (list A), (λ l : list A, f <$> l) <$> o) <$> st.

Lemma merge_list_to_stack_fmap st l :
  merge_list_to_stack S (image_stack st) (f <$> l) = image_stack (merge_list_to_stack R st l).
Proof.
  revert l; induction st as [|[l'|] st IH]; intros l; cbn; try done.
  rewrite list_merge_fmap. unfold image_stack in *. cbn. f_equal. apply IH.
Qed.

Lemma merge_stack_fmap st : merge_stack S (image_stack st) = f <$> merge_stack R st.
Proof. induction st as [|[l'|] st IH]; cbn; [done| |done].
  unfold image_stack in *. by rewrite IH, list_merge_fmap. Qed.

Lemma merge_sort_fmap l : merge_sort S (f <$> l) = f <$> merge_sort R l.
Proof.
  unfold merge_sort. change (@nil (option (list B))) with (image_stack []).
  generalize (@nil (option (list A))). induction l as [|x l IH]; intros st; cbn.
  - apply merge_stack_fmap.
  - change [f x] with (f <$> [x]). rewrite merge_list_to_stack_fmap. apply IH.
Qed.
End sort_image.

Lemma filter_image {A B} (f : A → B) (p : B → bool) (q : A → bool) (l : list A) :
  (∀ x, x ∈ l → p (f x) = q x) → filter p (f <$> l) = f <$> filter q l.
Proof.
  induction l as [|x l IH]; intros H; [done|]. rewrite fmap_cons, !filter_cons, (H x) by left.
  destruct (decide (q x)); cbn; rewrite IH; try done; intros y ?; apply H; by right.
Qed.

Lemma select_where_image {A B} (f : A → B) (p : B → result bool) (q : A → bool) (l : list A) :
  (∀ x, x ∈ l → p (f x) = Ok (q x)) → select_where p (f <$> l) = Ok (f <$> filter q l).
Proof.
  induction l as [|x l IH]; intros H; [done|]. rewrite fmap_cons, filter_cons. cbn [select_where].
  rewrite (H x), IH; [|intros y ?; apply H; by right|left].
  cbn [mbind result_bind]. by destruct (q x).
Qed.

(** What the claim query selects: the best claimable job that nobody holds locked. *)
Lemma claim_select_repr locked t d s wid w : repr d s → dget wid (r_workers s) = Some w →
  claim_select locked t wid (w_spec w) d =
  Ok (job_columns <$> head (merge_sort claim_order (filter (λ j, negb (locked (j_job_id j)))
        (filter (λ j, claimable t w j && (w_active_jobs w <? w_max_concurrency w))
           (dvalues (r_jobs s)))))).
Proof.
  intros H Hw. unfold claim_select. rewrite (pg_jobs_repr d s) by done.
  pose proof (worker_by_id_repr d s wid H) as Hr. rewrite Hw in Hr.
  destruct Hr as (_ & _ & t' & Hrow).
  erewrite select_where_image.
  2:{ intros j Hj. apply claim_where_columns. by eapply storable_jobs. }
  cbn [mbind result_bind]. unfold capacity_left. rewrite Hrow. cbn [wr_active_jobs wr_max_concurrency worker_columns].
  f_equal. unfold select.
  rewrite (filter_image job_columns _ (λ j, negb (locked (j_job_id j)))) by done.
  rewrite (merge_sort_fmap job_columns claim_order row_order) by done.
  unfold fetchone. by destruct (merge_sort _ _).
Qed.
