(* ===== verification/PostgresSim.v ===== *)
(** * Each PostgreSQL method simulates the in-memory one

    [sim] relates outcomes: related states and equal answers, or errors of the same class.
    One lemma per method; the recovery loop by induction on the rows still to visit. *)

From Stdlib Require Import Strings.Byte.
From S2P Require Import Prelude PyStr PyDict PyVal Contracts Scheduling Models Repository RepositoryInv Serde Postgres PostgresRepr.

#[local] Arguments _worker : simpl never.
#[local] Arguments _job : simpl never.

(** ** Simulation *)

(** Both repositories raise repository errors; [heartbeat_worker] tests the lease before the
    worker here and after it there, so its errors may be of another class. *)
Definition same_error (loose : bool) (e e' : exn) : Prop :=
  match e, e' with
  | NotFoundError _, NotFoundError _ | ConflictError _, ConflictError _ => True
  | _, _ => loose = true ∧ is_repository_error e = true ∧ is_repository_error e' = true
  end.

Definition sim {A} (loose : bool) (r : result (postgres * A)) (r' : result (repo * A)) : Prop :=
  match r, r' with
  | Ok (d, x), Ok (s, y) => repr d s ∧ x = y
  | Err e, Err e' => same_error loose e e'
  | _, _ => False
  end.

Lemma overlaps_columns id requested w t :
  overlaps id requested (worker_columns w t) = gpu_conflict requested (Some id) w.
Proof.
  unfold overlaps, gpu_conflict, owns_resources. cbn. f_equal. f_equal.
  - f_equal. apply bool_decide_ext. unfold w_id. split; [by intros ->|by intros [= ->]].
  - f_equal. f_equal. apply bool_decide_ext. by destruct (w_state w).
Qed.

Lemma gpu_overlap_repr d s reg : repr d s →
  match _gpu_overlap reg d, _assert_gpu_ownership_available s reg (Some (worker_id (reg_spec reg)))
  with
  | None, Ok _ => True
  | Some c, Err (ConflictError _) => str_truthy c = true
  | _, _ => False
  end.
Proof.
  intros H. unfold _gpu_overlap, _assert_gpu_ownership_available.
  destruct (gpu_uuids (reg_spec reg)) as [|u us]; [done|].
  set (id := worker_id (reg_spec reg)). set (req := u :: us).
  assert (∀ r, r ∈ select (overlaps id req) (pg_workers d) → str_truthy (wr_id r) = true) as Ht.
  { intros r [_ Hr]%list_elem_of_filter.
    apply list_elem_of_lookup in Hr as [i Hi]. destruct (Forall2_lookup_l _ _ _ _ _ (repr_workers _ _ H) Hi)
      as ([k w] & _ & _ & (Hw & _) & t & ->). apply str_truthy_spec. apply Hw. }
  assert (select (overlaps id req) (pg_workers d) = [] ↔
          List.find (gpu_conflict req (Some id)) (dvalues (r_workers s)) = None) as Hn.
  { clear Ht. unfold select, dvalues. induction (repr_workers _ _ H) as [|r [k w] t d' (_ & _ & t' & ->) _ IH]; [done|].
    rewrite filter_cons. cbn [fmap list_fmap List.find snd]. rewrite overlaps_columns. cbn [snd].
    by destruct (gpu_conflict req (Some id) w). }
  pose proof (merge_sort_Permutation by_id (select (overlaps id req) (pg_workers d))) as Hp.
  destruct (merge_sort by_id _) as [|r l]; cbn [fetchone head fmap option_fmap option_map].
  - apply Permutation_nil_l in Hp. by rewrite (proj1 Hn).
  - destruct (List.find _ _) as [w|].
    + apply Ht. rewrite <- Hp. left.
    + rewrite (proj2 Hn) in Hp by done. by apply Permutation_nil_r in Hp.
Qed.

(** A registration whose values the columns hold and give back. *)
Definition storable_registration (reg : WorkerRegistration) : Prop :=
  wf_WorkerSpec (reg_spec reg) ∧ 1 ≤ reg_max_concurrency reg ∧
  forallb in_int4 [gpu_count (resources (reg_spec reg)); total_vram_mb (resources (reg_spec reg));
                   max_single_gpu_vram_mb (resources (reg_spec reg)); reg_max_concurrency reg] = true ∧
  texts [worker_id (reg_spec reg)] = Ok tt ∧ texts [worker_class (reg_spec reg)] = Ok tt ∧
  Forall stable (worker_json (reg_spec reg)) ∧ stable_dict (reg_metadata reg).

Lemma worker_json_stable reg : storable_registration reg →
  mapR jsonb (worker_json (reg_spec reg)) = Ok (worker_json (reg_spec reg)).
Proof.
  intros (_ & _ & _ & _ & _ & H & _). by apply mapR_Ok, Forall_Forall2_diag.
Qed.

Lemma in_int4_spec z : in_int4 z = true ↔ - 2 ^ 31 ≤ z < 2 ^ 31.
Proof. unfold in_int4. rewrite andb_true_iff, Z.leb_le, Z.ltb_lt. done. Qed.

Lemma insertable_values reg t0 t n : storable_registration reg →
  0 ≤ n ≤ reg_max_concurrency reg → insertable (insert_values reg (reg_metadata reg) t0 t n) = true.
Proof.
  intros (Hw & Hm & H4 & _) Hn. cbn in H4. bools. unfold insertable. cbn [insert_values forallb wr_gpu_count
    wr_total_vram_mb wr_max_single_gpu_vram_mb wr_max_concurrency wr_active_jobs].
  repeat match goal with H : in_int4 _ = true |- _ => rewrite H; pose proof (proj1 (in_int4_spec _) H); clear H end.
  rewrite (proj2 (in_int4_spec n)) by lia.
  rewrite mk_ResourceShape_id by apply Hw. cbn [is_ok andb].
  rewrite (proj2 (Z.ltb_lt 0 _)), (proj2 (Z.leb_le 0 _)) by lia. done.
Qed.

(** The record [register_worker] leaves. *)
Definition registered (reg : WorkerRegistration) (t0 t n : Z) : WorkerRecord :=
  {| w_spec := reg_spec reg; w_max_concurrency := reg_max_concurrency reg; w_state := ONLINE;
     w_active_jobs := n; w_registered_at := t0; w_last_seen_at := t;
     w_metadata := reg_metadata reg |}.

Lemma upsert_repr d s reg t n : repr d s → storable_registration reg →
  0 ≤ n ≤ reg_max_concurrency reg →
  let id := worker_id (reg_spec reg) in
  let t0 := match dget id (r_workers s) with Some w => w_registered_at w | None => t end in
  ∃ d' t', upsert_worker (insert_values reg (reg_metadata reg) t0 t n) d =
      Ok (d', Some (worker_columns (registered reg t0 t n) t'))
    ∧ repr d' (put_worker id (registered reg t0 t n) s) ∧ storable_worker (registered reg t0 t n).
Proof.
  intros H Hreg Hn id t0. unfold upsert_worker. rewrite insertable_values by done.
  cbn [require mbind result_bind]. change (wr_id _) with id.
  assert (storable_worker (registered reg t0 t n)) as Hst.
  { destruct Hreg as (? & ? & H4 & _ & _ & _ & ?). cbn in H4. bools. done. }
  pose proof (worker_by_id_repr d s id H) as Hr. unfold t0 in *. clear t0.
  destruct (dget id (r_workers s)) as [w|] eqn:Hw.
  - destruct Hr as (Hid & _ & t1 & ->).
    destruct (update_worker_repr d s id w (registered reg (w_registered_at w) t n)
      (on_conflict (insert_values reg (reg_metadata reg) (w_registered_at w) t n))) as (d' & t' & E & Hr'); try done.
    { intros t2. exists t. unfold worker_columns, on_conflict. cbn. f_equal. apply Hid. }
    exists d', t'. by rewrite E.
  - rewrite Hr. eexists _, t. split; [done|]. split; [|done]. destruct H. split; cbn; try done.
    + rewrite r_workers_put_worker. rewrite dset_absent by done. apply Forall2_app; [done|]. constructor; [|done].
      split; [done|]. split; [done|]. by exists t.
    + by apply dict_wf_dset.
Qed.

Section simulation.
Variable digest : string → list byte.
Implicit Types (d : postgres) (s : repo).

Lemma register_sim d s reg now : repr d s → inv s → storable_registration reg →
  sim false (register_worker digest reg now d) (Repository.register_worker reg now s).
Proof.
  intros H (C & Cap & _) Hreg. unfold register_worker, Repository.register_worker, _lock_worker_ownership.
  pose proof Hreg as (_ & _ & _ & -> & _). cbn [snd mbind result_bind]. set (id := worker_id (reg_spec reg)).
  pose proof (worker_by_id_repr d s id H) as Hr.
  pose proof (gpu_overlap_repr d s reg H) as Hg. fold id in Hg.
  pose proof (upsert_repr d s reg (_aware now) (count_running id d) H Hreg) as Hu. fold id in Hu.
  rewrite (count_running_repr d s id H) in *.
  assert (∀ t0, t0 = match dget id (r_workers s) with Some w => w_registered_at w | None => _aware now end →
    0 ≤ _active_job_count s id ≤ reg_max_concurrency reg →
    ∀ m : result unit, m = Ok tt → ∀ o : option string, match o, _assert_gpu_ownership_available s reg (Some id) with
      | None, Ok _ => True | Some c, Err (ConflictError _) => str_truthy c = true | _, _ => False end →
    sim false (_transaction (m;; match o with
      | Some c => require (negb (str_truthy c)) (ConflictError ("GPU identity overlaps with worker " +:+ c))
      | None => Ok tt end;;
      texts [worker_class (reg_spec reg)];;
      mapR jsonb (worker_json (reg_spec reg));;
      metadata ← jsonb_dict (reg_metadata reg);
      '(d', row) ← upsert_worker (insert_values reg metadata t0 (_aware now) (_active_job_count s id)) d;
      row ← the_row row; record ← _worker row; Ok (d', record)))
     (_assert_gpu_ownership_available s reg (Some id);;
      Ok (put_worker id (registered reg t0 (_aware now) (_active_job_count s id)) s,
          registered reg t0 (_aware now) (_active_job_count s id)))) as Hrest.
  { intros t0 -> Hn m -> o Ho. cbn [mbind result_bind].
    destruct o as [c|], (_assert_gpu_ownership_available _ _ _) as [[]|[]]; try done.
    - cbn [mbind result_bind]. by rewrite Ho.
    - rewrite (worker_json_stable reg Hreg). pose proof Hreg as (_ & _ & _ & _ & -> & _ & ->).
      cbn [mbind result_bind]. destruct (Hu Hn) as (d' & t' & -> & Hr' & Hst). cbn [mbind result_bind the_row].
      rewrite worker_decode by done. by cbn. }
  destruct (dget id (r_workers s)) as [w|] eqn:Hw.
  - destruct Hr as (Hid & Hst & t & ->). rewrite worker_decode by done. cbn [mbind result_bind].
    destruct (Cap id w Hw) as [Hcnt Hmax].
    destruct (Z.ltb_spec 0 (w_active_jobs w)).
    + destruct (WorkerSpec_eqb _ _); [|done]. cbn [require mbind result_bind].
      destruct (Z.leb_spec (w_active_jobs w) (reg_max_concurrency reg)); [|done].
      apply (Hrest _ eq_refl); [lia|done|done].
    + apply (Hrest _ eq_refl); [|done|done]. destruct Hreg as (_ & ? & _).
      pose proof (count_nonneg s id). lia.
  - rewrite Hr. apply (Hrest _ eq_refl); [|done|done]. rewrite count_unregistered by done.
    destruct Hreg as (_ & ? & _). lia.
Qed.

(** An update of an existing worker, read back. *)
Lemma update_decode d s id w w' f : repr d s → dget id (r_workers s) = Some w →
  storable_worker w' → w_id w' = id →
  (∀ t, ∃ t', f (worker_columns w t) = worker_columns w' t') →
  sim false (_transaction (let '(d', row) := update_worker id f d in
               row ← the_row row; record ← _worker row; Ok (d', record)))
    (Ok (put_worker id w' s, w')).
Proof.
  intros H Hk Hst Hid Hf.
  destruct (update_worker_repr d s id w w' f H Hk Hst Hid Hf) as (d' & t' & -> & Hr').
  cbn [mbind result_bind the_row]. by rewrite worker_decode.
Qed.

Lemma set_state_sim d s wid st now : repr d s → texts [wid] = Ok tt →
  sim false (set_worker_state digest wid st now d) (Repository.set_worker_state wid st now s).
Proof.
  intros H Htx. unfold set_worker_state, Repository.set_worker_state, Repository.get_worker,
    _lock_worker_ownership. rewrite Htx. cbn [snd mbind result_bind].
  pose proof (worker_by_id_repr d s wid H) as Hr.
  destruct (dget wid (r_workers s)) as [w|] eqn:Hw; [|by rewrite Hr].
  destruct Hr as (Hid & Hst & t & ->). cbn [row_or mbind result_bind].
  rewrite worker_decode by done. cbn [mbind result_bind].
  assert (sim false (_transaction (let '(d', row) := update_worker wid (λ row,
      worker_set row (WorkerState_value st) (_aware now) (wr_active_jobs row) (wr_metadata row)
        (_aware now)) d in row ← the_row row; record ← _worker row; Ok (d', record)))
    (Ok (put_worker wid (with_state w st (_aware now)) s, with_state w st (_aware now)))) as Hu.
  { apply update_decode with w; try done. by eexists. }
  case_bool_decide; [exact Hu|].
  unfold mk_WorkerRegistration. rewrite !guard_true by (apply Z.leb_le, Hst). cbn [mbind result_bind].
  pose proof (gpu_overlap_repr d s {| reg_spec := w_spec w; reg_max_concurrency := w_max_concurrency w;
    reg_metadata := w_metadata w |} H) as Hg. cbn [reg_spec] in Hg.
  change (worker_id (w_spec w)) with (w_id w) in Hg. rewrite Hid in Hg.
  destruct (_gpu_overlap _ _) as [c|], (_assert_gpu_ownership_available _ _ _) as [[]|[]]; try done.
  cbn [mbind result_bind]. by rewrite Hg.
Qed.

Lemma status_columns j st : bool_decide (jb_status (job_columns j) = JobStatus_value st) =
  bool_decide (j_status j = st).
Proof. apply bool_decide_ext. cbn. by destruct (j_status j), st. Qed.

Lemma assert_running_columns j wid tok t :
  _assert_running_row (job_columns j) wid tok t = _assert_running j wid tok t.
Proof.
  unfold _assert_running_row, _assert_running. rewrite status_columns.
  cbn [jb_id jb_assigned_worker_id jb_lease_token jb_lease_expires_at job_columns].
  do 3 f_equal. destruct (j_lease_expires_at j) as [e|]; [|done]. by rewrite <- Z.ltb_antisym.
Qed.

Lemma assert_running_conflict j wid tok t e :
  _assert_running j wid tok t = Err e → ∃ m, e = ConflictError m.
Proof.
  unfold _assert_running. destruct (bool_decide (j_status j = RUNNING)); cbn; [|naive_solver].
  destruct (bool_decide (j_assigned_worker_id j = Some wid)); cbn; [|naive_solver].
  destruct (str_truthy tok && _); cbn; [|naive_solver].
  destruct (match j_lease_expires_at j with Some _ => _ | None => _ end); naive_solver.
Qed.

(** The lease renewal, as the in-memory method writes it. *)
Definition renewed (wid : string) (hb : WorkerHeartbeat) (t : Z) s : result repo :=
  match hb_active_job_id hb, hb_lease_token hb with
  | None, None => Ok s
  | Some job_id, Some token =>
      require (str_truthy job_id && str_truthy token)
        (ConflictError "active_job_id and lease_token must be supplied together");;
      job ← Repository.get_job job_id s;
      _assert_running job wid token t;;
      Ok (put_job (j_job_id job) (job_renewed job (t + seconds (r_lease_seconds s)) t) s)
  | _, _ => Err (ConflictError "active_job_id and lease_token must be supplied together")
  end.

Lemma renew_sim d s wid hb t : repr d s → texts (option_list (hb_active_job_id hb)) = Ok tt →
  match renew_lease wid hb t d, renewed wid hb t s with
  | Ok d', Ok s' => repr d' s' ∧ r_workers s' = r_workers s
  | Err e, Err e' => is_repository_error e = true ∧ is_repository_error e' = true
  | _, _ => False
  end.
Proof.
  intros H Htx. unfold renew_lease, renewed.
  destruct (hb_active_job_id hb) as [jid|], (hb_lease_token hb) as [tok|]; try done.
  destruct (str_truthy jid && str_truthy tok); [|done]. change (texts [jid] = Ok tt) in Htx.
  rewrite Htx. cbn [require mbind result_bind].
  unfold Repository.get_job. pose proof (job_by_id_repr d s jid H) as Hr.
  destruct (dget jid (r_jobs s)) as [j|] eqn:Hj; [|by rewrite Hr].
  destruct Hr as (Hid & Hst & ->). cbn [row_or mbind result_bind]. rewrite assert_running_columns.
  destruct (_assert_running j wid tok t) as [[]|e] eqn:E; cbn [mbind result_bind].
  2:{ by apply assert_running_conflict in E as [m ->]. }
  change (jb_id (job_columns j)) with (j_job_id j). rewrite Hid, (repr_lease d s) by done.
  destruct (update_job_repr d s jid j (job_renewed j (t + seconds (r_lease_seconds s)) t)
    (set_renewed (t + seconds (r_lease_seconds s)) t)) as (d' & -> & Hr'); try done.
Qed.

Lemma heartbeat_sim d s wid hb now : repr d s → texts (option_list (hb_active_job_id hb)) = Ok tt →
  texts [wid] = Ok tt → stable_dict (hb_metadata hb) →
  sim true (heartbeat_worker wid hb now d) (Repository.heartbeat_worker wid hb now s).
Proof.
  intros H Hj Htx Hmd. unfold heartbeat_worker, Repository.heartbeat_worker, Repository.get_worker.
  pose proof (renew_sim d s wid hb (_aware now) H Hj) as Hrn.
  change (match hb_active_job_id hb with Some _ => _ | None => _ end) with (renewed wid hb (_aware now) s).
  destruct (renew_lease wid hb (_aware now) d) as [d1|e1], (renewed wid hb (_aware now) s) as [s1|e2];
    try done; cbn [mbind result_bind].
  - destruct Hrn as [H1 Hw1]. rewrite Htx. cbn [mbind result_bind]. pose proof (worker_by_id_repr d1 s1 wid H1) as Hr. rewrite Hw1 in Hr.
    destruct (dget wid (r_workers s)) as [w|] eqn:Hw; [|by rewrite Hr].
    destruct Hr as (Hid & Hst & t & ->). cbn [row_or mbind result_bind].
    rewrite worker_decode by done. cbn [mbind result_bind].
    destruct (negb _); [|done]. cbn [require mbind result_bind].
    rewrite (count_running_repr d1 s1) by done.
    assert (stable_dict (dmerge (w_metadata w) (hb_metadata hb))) as Hmg
      by (apply stable_dmerge; [apply Hst|done]).
    rewrite Hmg. cbn [mbind result_bind].
    apply (update_decode d1 s1 wid w); try done; [by rewrite Hw1| |by eexists].
    destruct Hst as (? & ? & ? & _). by split_and!.
  - destruct Hrn as [He1 He2]. unfold _transaction. rewrite He1.
    destruct (dget wid (r_workers s)) as [w|]; cbn [mbind result_bind].
    + destruct (negb _); cbn [require mbind result_bind]; by destruct e1, e2.
    + by destruct e1.
Qed.

(** The expiry loop rewrites the stale entries in place. *)
Lemma dset_middle {V} k (v v' : V) pre suf : k ∉ dkeys pre →
  dset k v' (pre ++ (k, v) :: suf) = pre ++ (k, v') :: suf.
Proof.
  induction pre as [|[k0 v0] pre IH]; cbn; [by rewrite decide_True|].
  intros [Hne Hn]%not_elem_of_cons. rewrite decide_False by done. by rewrite IH.
Qed.

Definition expired_entry (cutoff : Z) (kv : string * WorkerRecord) : string * WorkerRecord :=
  (kv.1, if stale cutoff kv.2 then with_state kv.2 OFFLINE (w_last_seen_at kv.2) else kv.2).

Lemma expire_loop_shape cutoff s pre suf out : r_workers s = pre ++ suf →
  NoDup (dkeys (pre ++ suf)) →
  foldl (λ '(s, expired) '(worker_id, worker),
    if stale cutoff worker then
      (put_worker worker_id (with_state worker OFFLINE (w_last_seen_at worker)) s,
       expired ++ [with_state worker OFFLINE (w_last_seen_at worker)])
    else (s, expired)) (s, out) suf =
  (set_workers s (pre ++ (expired_entry cutoff <$> suf)),
   out ++ ((λ w, with_state w OFFLINE (w_last_seen_at w)) <$> filter (stale cutoff) (dvalues suf))).
Proof.
  revert s pre out. induction suf as [|[k w] suf IH]; intros s pre out Hs Hd.
  - cbn. rewrite !app_nil_r. f_equal. rewrite app_nil_r in Hs. rewrite <- Hs. by destruct s.
  - assert (k ∉ dkeys pre) as Hk.
    { unfold dkeys in Hd. rewrite fmap_app, NoDup_app in Hd. destruct Hd as (_ & Hd & _).
      intros Hin. apply (Hd k Hin). left. }
    unfold dvalues in *. rewrite !fmap_cons, filter_cons. cbn [foldl snd].
    unfold expired_entry at 1. cbn [fst snd].
    rewrite (cons_middle _ pre), (app_assoc pre) in Hs, Hd. rewrite (cons_middle _ pre), (app_assoc pre).
    destruct (stale cutoff w) eqn:E.
    + rewrite (IH _ (pre ++ [(k, with_state w OFFLINE (w_last_seen_at w))])).
      * rewrite decide_True, fmap_cons, <- !(app_assoc out) by done. done.
      * rewrite r_workers_put_worker, Hs, <- !app_assoc. cbn [app]. by rewrite dset_middle.
      * unfold dkeys in *. rewrite !fmap_app in *. done.
    + rewrite (IH _ (pre ++ [(k, w)])) by done. rewrite decide_False by (by intros []). done.
Qed.

Lemma holds_expired cutoff t r kv : holds_worker r kv →
  holds_worker (if negb (bool_decide (wr_state r = "offline")) && (wr_last_seen_at r <? cutoff)
                then set_offline t r else r) (expired_entry cutoff kv)
  ∧ negb (bool_decide (wr_state r = "offline")) && (wr_last_seen_at r <? cutoff) = stale cutoff kv.2.
Proof.
  intros (Hk & Hst & t' & ->).
  assert (negb (bool_decide (wr_state (worker_columns kv.2 t') = "offline"))
    && (wr_last_seen_at (worker_columns kv.2 t') <? cutoff) = stale cutoff kv.2) as E.
  { unfold stale. rewrite negb_orb, <- Z.ltb_antisym. f_equal. f_equal.
    apply bool_decide_ext. cbn. by destruct (w_state kv.2). }
  split; [|done]. rewrite E. unfold expired_entry. destruct (stale cutoff kv.2); cbn.
  - split; [done|]. split; [done|]. by exists t.
  - split; [done|]. split; [done|]. by exists t'.
Qed.

Lemma expire_sim d s now : repr d s →
  sim false (expire_stale_workers now d) (Ok (Repository.expire_stale_workers now s)).
Proof.
  intros H. unfold expire_stale_workers, Repository.expire_stale_workers, update.
  rewrite (repr_ttl d s) by done. set (cutoff := _aware now - _).
  rewrite (expire_loop_shape cutoff s [] (r_workers s) []) by (try done; apply H). cbn [app].
  assert (Forall2 holds_worker ((λ r, if negb (bool_decide (wr_state r = "offline"))
      && (wr_last_seen_at r <? cutoff) then set_offline (_aware now) r else r) <$> pg_workers d)
    (expired_entry cutoff <$> r_workers s)) as HF.
  { apply Forall2_fmap, (Forall2_impl _ _ _ _ (repr_workers _ _ H)). intros r kv Hr.
    by apply (holds_expired cutoff (_aware now)) in Hr as [Hr _]. }
  assert (dkeys (expired_entry cutoff <$> r_workers s) = dkeys (r_workers s)) as Ek.
  { unfold dkeys. rewrite <- list_fmap_compose. done. }
  match goal with |- context [mapR _worker ?l] =>
    assert (mapR _worker l = Ok ((λ w, with_state w OFFLINE (w_last_seen_at w)) <$>
      filter (stale cutoff) (dvalues (r_workers s)))) as -> end.
  { apply mapR_Ok, Forall2_fmap. unfold dvalues. clear HF Ek.
    induction (repr_workers _ _ H) as [|r kv t ws Hr _ IH]; [constructor|].
    rewrite fmap_cons, !filter_cons. apply (holds_expired cutoff (_aware now)) in Hr as Hr'.
    destruct Hr' as [Hr1 Hr2]. rewrite Hr2 in *. destruct (stale cutoff kv.2) eqn:E; cbn; [|done].
    constructor; [|done]. unfold expired_entry in Hr1. rewrite E in Hr1.
    destruct Hr1 as (_ & Hst & t' & E'). cbn [fst snd] in *. rewrite E'. by apply worker_decode. }
  cbn. split; [|done]. destruct H. split; cbn; try done. unfold dict_wf. by rewrite Ek.
Qed.

(** A submission whose values the columns hold and give back. *)
Definition storable_submission (sub : JobSubmission) : Prop :=
  wf_JobRequirements (sub_requirements sub) ∧ int4_requirements (sub_requirements sub) ∧
  in_int4 (sub_priority sub) = true ∧ in_int4 (sub_max_attempts sub) = true ∧
  texts (sub_capability sub :: option_list (sub_idempotency_key sub)) = Ok tt ∧
  stable_dict (sub_payload sub) ∧ stable_dict (requirements_to_dict (sub_requirements sub)).

Lemma key_texts sub : storable_submission sub →
  texts (option_list (sub_idempotency_key sub)) = Ok tt.
Proof.
  intros (_ & _ & _ & _ & H & _). unfold texts in *. cbn [forallb] in H.
  destruct (no_nul (sub_capability sub)); [exact H|done].
Qed.

Lemma job_by_key_repr d s key : repr d s →
  match key with
  | None => job_by_key key d = None
  | Some k =>
      match dget k (r_idempotency s) with
      | None => job_by_key key d = None
      | Some id => ∃ j, dget id (r_jobs s) = Some j ∧ storable_job j ∧
                     job_by_key key d = Some (job_columns j)
      end
  end.
Proof.
  intros H. unfold job_by_key, fetchone. destruct key as [k|].
  2:{ unfold select. by induction (pg_jobs d). }
  assert (∀ r, r ∈ select (has_key (Some k)) (pg_jobs d) →
    ∃ id j, dget k (r_idempotency s) = Some id ∧ dget id (r_jobs s) = Some j ∧ storable_job j ∧
      r = job_columns j) as Hin.
  { intros r [Hr Hin]%list_elem_of_filter. apply Is_true_true, bool_decide_eq_true in Hr.
    apply list_elem_of_lookup in Hin as [i Hi].
    destruct (Forall2_lookup_l _ _ _ _ _ (repr_jobs _ _ H) Hi) as ([id j] & Hkv & _ & Hst & ->).
    apply list_elem_of_lookup_2, dget_In in Hkv; [|apply H]. exists id, j. split_and!; try done.
    apply (repr_keys _ _ H). by exists j. }
  destruct (dget k (r_idempotency s)) as [id|] eqn:Hk.
  - pose proof Hk as Hk'. apply (repr_keys _ _ H) in Hk' as (j & Hj & Hkey).
    pose proof (job_by_id_repr d s id H) as Hr. rewrite Hj in Hr.
    exists j. split; [done|]. split; [apply Hr|].
    destruct (select _ _) as [|r l] eqn:E.
    + exfalso. eapply (not_elem_of_nil (job_columns j)). rewrite <- E. apply list_elem_of_filter.
      split; [apply Is_true_true; by apply bool_decide_eq_true|].
      rewrite (pg_jobs_repr d s) by done. apply list_elem_of_fmap_2. by eapply dget_values.
    + destruct (Hin r) as (id' & j' & Hid & Hj' & _ & ->); [left|]. cbn. congruence.
  - destruct (select _ _) as [|r l]; [done|]. destruct (Hin r) as (id' & j' & Hid & _); [left|done].
Qed.

Lemma resubmitted_columns sub j : storable_job j →
  resubmitted sub (job_columns j) =
  (require (_submission_matches j sub)
     (ConflictError "idempotency key already belongs to a different job request");; Ok j).
Proof. intros H. unfold resubmitted. by rewrite job_decode. Qed.

Lemma repr_insert d s sub uuid t : repr d s → inv s → dget uuid (r_jobs s) = None →
  wf_JobSubmission sub → storable_submission sub →
  match sub_idempotency_key sub with Some k => dget k (r_idempotency s) = None | None => True end →
  ∃ d', insert_job sub uuid t (match sub_available_at sub with Some a => _aware a | None => t end) d
    = Ok (d', Some (job_columns (new_job sub uuid (r_sequence s + 1) t)))
    ∧ repr d' (Repository.insert_job sub uuid t s).1
    ∧ storable_job (new_job sub uuid (r_sequence s + 1) t).
Proof.
  intros H I Hfresh (_ & Hmax & Hkeys & _) (Hr & Hi & Hp & Hm & Htx & Hpl & Hrq) Hnew.
  set (nj := new_job sub uuid (r_sequence s + 1) t).
  assert (storable_job nj) as Hst by by split_and!.
  assert (job_by_key (sub_idempotency_key sub) d = None) as Hkey.
  { pose proof (job_by_key_repr d s (sub_idempotency_key sub) H) as E.
    destruct (sub_idempotency_key sub) as [k|]; [|done]. by rewrite Hnew in E. }
  unfold insert_job. rewrite Htx. cbn [mbind result_bind]. rewrite Hpl. cbn [mbind result_bind].
  rewrite Hrq. cbn [mbind result_bind jb_priority jb_max_attempts job_values].
  rewrite Hp, Hm, (proj2 (Z.ltb_lt 0 _)) by lia. cbn [require andb mbind result_bind]. rewrite Hkey.
  assert (existsb (job_is uuid) (pg_jobs d) = false) as ->.
  { pose proof (job_by_id_repr d s uuid H) as E. rewrite Hfresh in E. unfold job_by_id, select in E.
    apply not_true_is_false. intros (r & Hin & Hr')%existsb_exists.
    destruct (filter _ _) as [|r' l] eqn:F; [|done]. apply (not_elem_of_nil r). rewrite <- F.
    apply list_elem_of_filter. split; [by apply Is_true_true|by apply list_elem_of_In]. }
  cbn [require negb mbind result_bind]. rewrite (repr_sequence d s) by done.
  eexists. split; [done|]. split; [|done]. destruct I as (C & _ & _).
  pose proof (repr_keys d s H) as Hidx.
  destruct H. split; cbn; try done; [|by apply dict_wf_dset|..].
  - rewrite dset_absent by done. apply Forall2_app; [done|].
    constructor; [|done]. split; [done|]. by split; [exact Hst|].
  - intros k id. rewrite dget_dset. destruct (sub_idempotency_key sub) as [k0|] eqn:Ek.
    + rewrite (proj2 (str_truthy_spec k0)) by (intros ->; by apply (Hkeys ""%string)).
      rewrite dget_dset. destruct (decide (k = k0)) as [->|Hne].
      * split; [intros [= <-]; exists nj; by rewrite decide_True|].
        destruct (decide (id = uuid)) as [->|]; [done|]. intros (j & Hj & Hk).
        assert (dget k0 (r_idempotency s) = Some id) by (apply Hidx; eauto). congruence.
      * rewrite Hidx. destruct (decide (id = uuid)) as [->|]; [|done].
        rewrite Hfresh. split; [by intros (? & ? & _)|]. intros (j & [= <-] & E). cbn in E. congruence.
    + rewrite Hidx. destruct (decide (id = uuid)) as [->|]; [|done].
      rewrite Hfresh. split; [by intros (? & ? & _)|]. intros (j & [= <-] & E). cbn in E. congruence.
  - rewrite dset_absent by done. unfold dvalues. rewrite !fmap_app. apply StronglySorted_app.
    split_and!; [|done|by repeat constructor].
    intros x1 x2 (j & -> & Hj)%list_elem_of_fmap ->%list_elem_of_singleton. cbn.
    apply dvalues_elem in Hj as (k & Hj). apply dget_In in Hj; [|done].
    destruct (core_job s C k j Hj) as [_ [[_ ?] _]]. lia.
Qed.

Lemma submit_sim d s sub uuid now : repr d s → inv s → op_ok s (OpSubmit sub uuid now) →
  storable_submission sub →
  sim false (submit_job id sub uuid now d) (Repository.submit_job sub uuid now s).
Proof.
  intros H I [Hwf Hfresh] Hst. unfold submit_job, Repository.submit_job.
  assert ((if opt_truthy (sub_idempotency_key sub) then texts (option_list (sub_idempotency_key sub))
           else Ok tt) = Ok tt) as ->.
  { destruct (opt_truthy _); [by apply key_texts|done]. }
  cbn [mbind result_bind].
  pose proof (job_by_key_repr d s (sub_idempotency_key sub) H) as Hk.
  assert (match sub_idempotency_key sub with Some k => dget k (r_idempotency s) = None | None => True end →
    sim false (_transaction ('(d', row) ← insert_job sub uuid (_aware now)
        (match sub_available_at sub with Some a => _aware a | None => _aware now end) d;
      match row with
      | Some row => record ← _job row; Ok (d', record)
      | None => existing ← row_or (job_by_key (sub_idempotency_key sub) d')
                  (StorageUnavailable "idempotent job insert did not persist");
                record ← resubmitted sub existing; Ok (d', record)
      end)) (Ok (Repository.insert_job sub uuid (_aware now) s))) as Hins.
  { intros Hnew. destruct (repr_insert d s sub uuid (_aware now)) as (d' & -> & Hr & Hst'); try done.
    cbn [mbind result_bind]. rewrite job_decode by done. by cbn. }
  destruct (sub_idempotency_key sub) as [k|] eqn:Ek; [|by apply Hins].
  assert (opt_truthy (Some k) = true) as ->.
  { cbn. apply str_truthy_spec. intros ->. destruct Hwf as (_ & _ & Hks & _). by apply (Hks _ Ek). }
  cbn [mbind option_bind].
  destruct (dget k (r_idempotency s)) as [jid|].
  - destruct Hk as (j & Hj & Hsj & ->). rewrite Hj, resubmitted_columns by done.
    destruct (_submission_matches j sub); by cbn.
  - rewrite Hk. by apply Hins.
Qed.
(** ** Claims *)

(** Why [claim_next_job] gives up under the worker lock. *)
Definition claim_blocked (cutoff : Z) (w : WorkerRecord) (j : JobRecord) : bool :=
  (w_last_seen_at w <? cutoff) || negb (bool_decide (w_state w = ONLINE))
  || (w_max_concurrency w <=? w_active_jobs w)
  || negb (bool_decide (j_capability j ∈ capabilities (w_spec w)))
  || negb (worker_matches (w_spec w) (j_requirements j)).

Definition claimed_state (wid : string) (w : WorkerRecord) (j : JobRecord) s : repo :=
  put_worker wid (with_active_jobs w (w_active_jobs w + 1)) (put_job (j_job_id j) j s).

Lemma claim_commit_repr d s j w wid uuid t cutoff : repr d s → 0 ≤ w_active_jobs w →
  0 ≤ j_attempts j < j_max_attempts j →
  dget (j_job_id j) (r_jobs s) = Some j → dget wid (r_workers s) = Some w →
  let cj := job_claimed j wid uuid (t + seconds (r_lease_seconds s)) t in
  match claim_commit (job_columns j) wid uuid t cutoff d with
  | Ok (d', None) => d' = d ∧ claim_blocked cutoff w j = true
  | Ok (d', Some c) => c = cj ∧ claim_blocked cutoff w j = false ∧ repr d' (claimed_state wid w cj s)
  | Err _ => False
  end.
Proof.
  intros H Hact Hatt Hj Hw cj. pose proof (worker_by_id_repr d s wid H) as Hr. rewrite Hw in Hr.
  destruct Hr as (Hid & Hst & t' & Hrow). pose proof (job_by_id_repr d s (j_job_id j) H) as Hjr.
  rewrite Hj in Hjr. destruct Hjr as (_ & Hsj & _).
  unfold claim_commit, claim_blocked. rewrite Hrow. cbn [row_or mbind result_bind].
  rewrite worker_decode by done. cbn [mbind result_bind].
  destruct (_ || _ || _) eqn:E1; [done|]. cbn [orb].
  rewrite job_decode by done. cbn [mbind result_bind].
  destruct (negb (bool_decide (j_capability j ∈ _)) || _) eqn:E2; [done|].
  destruct Hst as (Hws & Hmx & H4 & Hmd). pose proof (proj1 (in_int4_spec _) H4) as H4'.
  pose proof Hsj as (Hs1 & Hs2 & Hs3 & H5). pose proof (proj1 (in_int4_spec _) H5) as H5'.
  apply orb_false_iff in E1 as [_ E1]. apply Z.leb_gt in E1.
  unfold int4. cbn [jb_attempts job_columns wr_active_jobs worker_columns].
  rewrite (proj2 (in_int4_spec (j_attempts j + 1))), (proj2 (in_int4_spec (w_active_jobs w + 1))) by lia.
  cbn [mbind result_bind]. rewrite (repr_lease d s) by done. change (jb_id (job_columns j)) with (j_job_id j).
  destruct (update_job_repr d s (j_job_id j) j cj
    (set_claimed wid uuid (t + seconds (r_lease_seconds s)) t (j_attempts j + 1)))
    as (d1 & -> & H1); try done.
  destruct (update_worker_repr d1 (put_job (j_job_id j) cj s) wid w
    (with_active_jobs w (w_active_jobs w + 1))
    (λ w0, worker_set w0 (wr_state w0) (wr_last_seen_at w0) (w_active_jobs w + 1) (wr_metadata w0) t))
    as (d2 & t2 & -> & H2); try done; [by eexists|].
  cbn [the_row mbind result_bind]. by rewrite job_decode.
Qed.

Lemma filter_none {A} (p : A → bool) (l : list A) : (∀ x, x ∈ l → p x = false) → filter p l = [].
Proof.
  induction l as [|x l IH]; intros H; [done|]. rewrite filter_cons.
  destruct (decide _) as [Hd|]; [|apply IH; intros y ?; apply H; by right].
  cbn beta in Hd. rewrite (H x) in Hd by left. done.
Qed.

Lemma filter_same {A} (p q : A → bool) (l : list A) : (∀ x, p x = q x) → filter p l = filter q l.
Proof. intros H. induction l as [|x l IH]; [done|]. rewrite !filter_cons, H, IH. done. Qed.

Lemma claim_sim d s wid uuid now : repr d s → inv s → texts [wid] = Ok tt →
  sim false (claim_next_job (λ _, false) id wid uuid now d) (Repository.claim_next_job wid uuid now s).
Proof.
  intros H (C & Cap & _) Htx. unfold claim_next_job, Repository.claim_next_job, Repository.get_worker.
  rewrite Htx. cbn [mbind result_bind].
  pose proof (worker_by_id_repr d s wid H) as Hr.
  destruct (dget wid (r_workers s)) as [w|] eqn:Hw; [|by rewrite Hr].
  destruct Hr as (Hid & Hst & t' & Hrow). rewrite Hrow. cbn [row_or mbind result_bind].
  rewrite worker_decode by done. cbn [mbind result_bind]. rewrite (repr_ttl d s) by done.
  set (t := _aware now). set (ttl := seconds (r_worker_ttl_seconds s)).
  assert ((w_last_seen_at w <? t - ttl) = (ttl <? t - w_last_seen_at w)) as E.
  { apply eq_true_iff_eq. rewrite !Z.ltb_lt. lia. }
  rewrite E. destruct (ttl <? t - w_last_seen_at w) eqn:Es.
  { destruct (update_worker_repr d s wid w (with_state w OFFLINE (w_last_seen_at w)) (set_offline t))
      as (d' & t2 & -> & H'); try done. by eexists. }
  destruct (negb (bool_decide (w_state w = ONLINE))) eqn:Eo; [done|].
  rewrite (claim_select_repr _ t d s wid w) by done. cbn [mbind result_bind negb].
  destruct (Cap wid w Hw) as [Hcnt Hmx]. pose proof (count_nonneg s wid).
  destruct (Z.leb_spec (w_max_concurrency w) (w_active_jobs w)) as [Hf|Hf].
  { rewrite (proj2 (Z.ltb_ge _ _)) by done. by rewrite (filter_none _ (dvalues _)) by (intros; apply andb_false_r). }
  rewrite (proj2 (Z.ltb_lt _ _)) by done.
  rewrite (filter_same (λ j, claimable t w j && true) (claimable t w)) by (intros; apply andb_true_r).
  assert (∀ l : list JobRecord, filter (λ _, true) l = l) as ->.
  { intros l. induction l as [|x l IH]; [done|]. rewrite filter_cons, decide_True by done. f_equal. exact IH. }
  destruct (merge_sort claim_order _) as [|j rest] eqn:Em; [done|]. cbn [head fmap option_fmap option_map].
  apply merge_sort_head_elem, list_elem_of_filter in Em as [Hcl Hin].
  apply Is_true_true, claimable_spec in Hcl as (_ & _ & Hatt & Hcp & Hsat).
  apply dvalues_get in Hin as [k Hk]; [|apply H].
  destruct (core_job s C k j Hk) as [<- (_ & Ha & _)].
  pose proof (claim_commit_repr d s j w wid uuid t (t - ttl) H) as Hc. unfold id.
  assert (claim_blocked (t - ttl) w j = false) as Hb.
  { unfold claim_blocked. rewrite E, Eo, (proj2 (Z.leb_gt _ _)), bool_decide_true by done.
    by rewrite (proj2 (worker_matches_spec _ _)). }
  rewrite Hb in Hc. cbn zeta in Hc.
  destruct (claim_commit _ _ _ _ _ d) as [[d' [c|]]|]; [..|exfalso; apply Hc; (done || lia)].
  - destruct Hc as (-> & _ & Hr); [lia|lia|done|done|]. cbn. done.
  - destruct Hc as [_ ?]; (done || lia).
Qed.
(** ** Terminal writes *)

(** A settled job: its row is rewritten, its worker gets the slot back. *)
Lemma settle_repr d s k j j' f o t : repr d s → inv s → dget k (r_jobs s) = Some j →
  storable_job j' → same_identity j j' → f (job_columns j) = job_columns j' →
  (∀ w, o = Some w → j_assigned_worker_id j = Some w) →
  ∃ d1, update_job k f d = (d1, Some (job_columns j')) ∧
    repr (_decrement_worker o t d1) (_release_worker_capacity o (put_job k j' s)).
Proof.
  intros H (C & _) Hk Hst Hid Hf Ho.
  destruct (update_job_repr d s k j j' f H Hk Hst Hid Hf) as (d1 & E & H1).
  exists d1. split; [done|]. apply decrement_repr; [done|]. intros w Hw.
  rewrite r_workers_put_job. eapply core_assigned; eauto.
Qed.

Lemma storable_failed j r err t : storable_job j → storable_job (job_failed j r err t).
Proof. by intros (? & ? & ? & ?). Qed.

Lemma set_failed_columns j b err t :
  set_failed b err t (job_columns j) = job_columns (job_failed j b err t).
Proof. by destruct b. Qed.

Lemma complete_sim d s jid res wid tok now : repr d s → inv s → texts [jid] = Ok tt →
  wf_JobResult res → stable_dict (job_result_to_dict res) →
  sim false (complete_job jid res wid tok now d) (Repository.complete_job jid res wid tok now s).
Proof.
  intros H I Htx Hres Hjs. unfold complete_job, Repository.complete_job, Repository.get_job.
  rewrite Htx. cbn [mbind result_bind].
  pose proof (job_by_id_repr d s jid H) as Hr.
  destruct (dget jid (r_jobs s)) as [j|] eqn:Hj; [|by rewrite Hr].
  destruct Hr as (Hid & Hst & ->). cbn [row_or mbind result_bind]. rewrite assert_running_columns.
  destruct (_assert_running j wid tok _) as [[]|e] eqn:E; cbn [mbind result_bind].
  2:{ by apply assert_running_conflict in E as [m ->]. }
  apply assert_running_Ok in E as (_ & Hwid & _). change (jb_id (job_columns j)) with (j_job_id j). rewrite Hid.
  rewrite Hjs. cbn [mbind result_bind]. set (j' := job_completed j res (_aware now)).
  assert (storable_job j') as Hst'.
  { destruct Hst as (? & ? & ? & ?). split_and!; try done. by intros ? [= <-]. }
  destruct (settle_repr d s jid j j' (set_completed (job_result_to_dict res) (_aware now)) (Some wid) (_aware now))
    as (d1 & -> & H1); try done; [congruence|].
  cbn [the_row mbind result_bind]. by rewrite job_decode.
Qed.

Lemma fail_sim d s jid err r wid tok now : repr d s → inv s → texts [jid] = Ok tt →
  stable_error err →
  sim false (fail_job jid err r wid tok now d) (Repository.fail_job jid err r wid tok now s).
Proof.
  intros H I Htx Herr. unfold fail_job, Repository.fail_job, Repository.get_job.
  rewrite Htx. cbn [mbind result_bind].
  pose proof (job_by_id_repr d s jid H) as Hr.
  destruct (dget jid (r_jobs s)) as [j|] eqn:Hj; [|by rewrite Hr].
  destruct Hr as (Hid & Hst & ->). cbn [row_or mbind result_bind]. rewrite assert_running_columns.
  destruct (_assert_running j wid tok _) as [[]|e] eqn:E; cbn [mbind result_bind].
  2:{ by apply assert_running_conflict in E as [m ->]. }
  apply assert_running_Ok in E as (_ & Hwid & _). change (jb_id (job_columns j)) with (j_job_id j). rewrite Hid.
  change (jb_attempts (job_columns j)) with (j_attempts j).
  change (jb_max_attempts (job_columns j)) with (j_max_attempts j).
  set (b := r && _). rewrite (stable_failure err b Herr). cbn [mbind result_bind]. set (j' := job_failed j b (_failure_payload err b) (_aware now)).
  destruct (settle_repr d s jid j j' (set_failed b (_failure_payload err b) (_aware now)) (Some wid) (_aware now))
    as (d1 & -> & H1); [done|done|done|by apply storable_failed|done|apply set_failed_columns|congruence|].
  cbn [the_row mbind result_bind]. by rewrite job_decode by by apply storable_failed.
Qed.

Lemma cancel_sim d s jid now : repr d s → inv s → texts [jid] = Ok tt →
  sim false (cancel_job jid now d) (Repository.cancel_job jid now s).
Proof.
  intros H I Htx. unfold cancel_job, Repository.cancel_job, Repository.get_job.
  rewrite Htx. cbn [mbind result_bind].
  pose proof (job_by_id_repr d s jid H) as Hr.
  destruct (dget jid (r_jobs s)) as [j|] eqn:Hj; [|by rewrite Hr].
  destruct Hr as (Hid & Hst & ->). cbn [row_or mbind result_bind]. rewrite job_decode by done.
  cbn [mbind result_bind]. destruct (terminal (j_status j)); [by cbn|].
  change (jb_id (job_columns j)) with (j_job_id j). rewrite Hid.
  set (j' := job_cancelled j (_aware now)).
  set (o := if bool_decide (j_status j = RUNNING) then j_assigned_worker_id j else None).
  destruct (settle_repr d s jid j j' (set_cancelled (_aware now)) o (_aware now)) as (d1 & -> & H1); try done.
  { unfold o. case_bool_decide; [done|by intros ? [=]]. }
  cbn [the_row mbind result_bind]. rewrite job_decode by done. cbn. split; [|done].
  rewrite release_put_job in H1. unfold o in H1. by case_bool_decide.
Qed.

(** ** Recovery *)

Lemma expired_columns t j : row_expired t (job_columns j) && negb false = lease_expired t j.
Proof.
  unfold row_expired, lease_expired. change "running"%string with (JobStatus_value RUNNING).
  rewrite status_columns, andb_true_r, negb_orb, negb_involutive. f_equal.
  cbn. destruct (j_lease_expires_at j) as [e|]; [|done]. by rewrite <- Z.leb_antisym.
Qed.

(** The head of a sorted list whose first element precedes the others. *)
Lemma head_first (l : list JobRecord) j : Forall (λ i, j_sequence j < j_sequence i) l →
  head (merge_sort by_sequence (j :: l)) = Some j.
Proof.
  intros Hl. pose proof (merge_sort_Permutation by_sequence (j :: l)) as Hp.
  assert (StronglySorted by_sequence (merge_sort by_sequence (j :: l))) as Hs.
  { apply StronglySorted_merge_sort; [intros a b c ? ?|intros a b]; unfold by_sequence in *; lia. }
  destruct (merge_sort _ _) as [|h rest]; [by apply Permutation_nil_cons in Hp|]. cbn.
  apply StronglySorted_inv in Hs as [_ Hh].
  assert (h ∈ j :: l) as [->|Hin]%elem_of_cons by (rewrite <- Hp; left); [done|].
  assert (j ∈ h :: rest) as [<-|Hj]%elem_of_cons by (rewrite Hp; left); [done|].
  rewrite Forall_forall in Hl, Hh. specialize (Hl h Hin). specialize (Hh j Hj).
  unfold by_sequence in Hh. lia.
Qed.

Lemma recover_once_repr t d s pre j k suf : repr d s → inv s →
  r_jobs s = pre ++ (k, j) :: suf → (∀ i, i ∈ dvalues pre → lease_expired t i = false) →
  lease_expired t j = true →
  ∃ d', recover_once (λ _, false) t d = Ok (Some (d', (recover_one t k j s).2))
    ∧ repr d' (recover_one t k j s).1.
Proof.
  intros H I Hs Hpre Hexp. unfold recover_once, recover_one.
  assert (dget k (r_jobs s) = Some j) as Hk.
  { apply dget_In; [apply H|]. rewrite Hs. apply elem_of_app. right. left. }
  pose proof (job_by_id_repr d s k H) as Hr. rewrite Hk in Hr.
  destruct Hr as (Hid & Hst & _).
  rewrite (pg_jobs_repr d s) by done. unfold select.
  rewrite (filter_image job_columns _ (lease_expired t)) by (intros; apply expired_columns).
  rewrite (merge_sort_fmap job_columns by_sequence row_sequence) by done.
  assert (head (merge_sort by_sequence (filter (lease_expired t) (dvalues (r_jobs s)))) = Some j) as Hh.
  { pose proof (repr_order d s H) as Ho. rewrite Hs in *. unfold dvalues in *. rewrite !fmap_app in Ho.
    rewrite fmap_app, filter_app. cbn [fmap list_fmap snd].
    assert (filter (lease_expired t) (pre.*2) = []) as -> by by apply filter_none.
    cbn [app]. rewrite filter_cons, decide_True by by rewrite Hexp.
    apply head_first, Forall_forall. intros i [_ Hi]%list_elem_of_filter.
    apply StronglySorted_app in Ho as (_ & _ & Ho). cbn in Ho.
    apply StronglySorted_inv in Ho as [_ Ho]. rewrite Forall_forall in Ho. apply Ho.
    by apply list_elem_of_fmap_2. }
  unfold fetchone. destruct (merge_sort _ _) as [|j0 rest]; [done|]. injection Hh as ->.
  cbn [fmap list_fmap head]. change (jb_id (job_columns j)) with (j_job_id j). rewrite Hid.
  change (jb_attempts (job_columns j)) with (j_attempts j).
  change (jb_max_attempts (job_columns j)) with (j_max_attempts j).
  set (b := j_attempts j <? j_max_attempts j).
  set (err := [("message", PStr "worker lease expired"); ("retryable", PBool b)]).
  assert (jsonb_dict err = Ok err) as -> by reflexivity. cbn [mbind result_bind].
  destruct (settle_repr d s k j (job_failed j b err t) (set_failed b err t) (j_assigned_worker_id j) t)
    as (d1 & -> & H1); [done|done|done|by apply storable_failed|done|apply set_failed_columns|done|].
  cbn [the_row mbind result_bind]. rewrite job_decode by by apply storable_failed.
  eexists. split; [done|]. by rewrite release_put_job in H1.
Qed.

Lemma recover_loop_repr t suf pre s d out fuel : repr d s → inv s →
  r_jobs s = pre ++ suf → (∀ i, i ∈ dvalues pre → lease_expired t i = false) →
  (length suf < fuel)%nat →
  sim false (recover_loop fuel (λ _, false) t out d)
    (Ok (foldl (λ '(s, recovered) '(job_id, job),
       if lease_expired t job then
         let '(s', updated) := recover_one t job_id job s in (s', recovered ++ [updated])
       else (s, recovered)) (s, out) suf)).
Proof.
  revert pre s d out fuel. induction suf as [|[k j] suf IH]; intros pre s d out fuel H I Hs Hpre Hf.
  - destruct fuel as [|fuel]; [cbn in Hf; lia|]. cbn [recover_loop foldl].
    assert (recover_once (λ _, false) t d = Ok None) as ->; [|done].
    unfold recover_once. rewrite (pg_jobs_repr d s) by done. unfold select.
    rewrite (filter_image job_columns _ (lease_expired t)) by (intros; apply expired_columns).
    rewrite app_nil_r in Hs. rewrite Hs.
    assert (filter (lease_expired t) (dvalues pre) = []) as ->; [|done].
    by apply filter_none.
  - cbn [foldl]. cbn in Hf. destruct (lease_expired t j) eqn:E.
    + destruct (recover_once_repr t d s pre j k suf) as (d' & Hd & H'); try done.
      destruct fuel as [|fuel]; [lia|]. cbn [recover_loop]. rewrite Hd. cbn [mbind result_bind].
      assert (dget k (r_jobs s) = Some j) as Hk.
      { apply dget_In; [apply H|]. rewrite Hs. apply elem_of_app. right. left. }
      assert (inv (recover_one t k j s).1) as I' by by apply inv_recover_one.
      assert (k ∉ dkeys pre) as Hn.
      { pose proof (repr_wf_jobs d s H) as Hd'. rewrite Hs in Hd'. unfold dict_wf, dkeys in Hd'.
        rewrite fmap_app, NoDup_app in Hd'. destruct Hd' as (_ & Hd' & _). intros Hin. apply (Hd' k Hin). left. }
      destruct (recover_one t k j s) as [s' j'] eqn:Er. unfold recover_one in Er. injection Er as Es Ej.
      apply (IH (pre ++ [(k, j')])); try done; [|..|lia].
      * rewrite <- Es, r_jobs_put_job, release_jobs, Hs, dset_middle, <- app_assoc by done.
        cbn. by rewrite Ej.
      * intros i. unfold dvalues. rewrite fmap_app, elem_of_app. intros [Hi|Hi%list_elem_of_singleton].
        -- by apply Hpre.
        -- cbn in Hi. subst i j'. unfold lease_expired. rewrite bool_decide_false; [done|].
           apply job_failed_stops.
    + apply (IH (pre ++ [(k, j)])); try done; [by rewrite <- app_assoc| |lia].
      intros i. unfold dvalues. rewrite fmap_app, elem_of_app. intros [Hi|Hi%list_elem_of_singleton].
      * by apply Hpre.
      * by subst i.
Qed.

Lemma recover_sim d s now : repr d s → inv s →
  sim false (recover_expired_jobs (λ _, false) now d) (Ok (Repository.recover_expired_jobs now s)).
Proof.
  intros H I. unfold recover_expired_jobs, Repository.recover_expired_jobs.
  apply (recover_loop_repr (_aware now) (r_jobs s) []); try done.
  - by intros i ?%elem_of_nil.
  - rewrite (Forall2_length _ _ _ (repr_jobs d s H)). lia.
Qed.
End simulation.
