(* ===== verification/PostgresProps.v ===== *)
(** * Properties of the PostgreSQL repository

    The repository refines the in-memory one, operation by operation and run by run; its
    claim query is the scheduler's matching; claims and submissions stay correct when other
    transactions commit in the middle; and its ownership locks are ordered, complete and
    free of deadlock. *)

From Stdlib Require Import Strings.Byte SpecFloat.
From S2P Require Import Prelude PyStr PyDict PyVal Contracts Scheduling Models Repository RepositoryInv ControlProps ControlOps Serde Postgres PostgresRepr PostgresSim.

(** ** Runs of both repositories *)

(** What an operation answers. *)
Inductive reply :=
  | RWorker (w : WorkerRecord)
  | RWorkers (ws : list WorkerRecord)
  | RJob (j : JobRecord)
  | RClaim (o : option JobRecord)
  | RJobs (js : list JobRecord).

Definition reply_with {S A} (f : A → reply) (r : result (S * A)) : result (S * reply) :=
  '(s, a) ← r; Ok (s, f a).

Definition perform (o : op) (s : repo) : result (repo * reply) :=
  match o with
  | OpRegister reg now => reply_with RWorker (Repository.register_worker reg now s)
  | OpSetState wid st now => reply_with RWorker (Repository.set_worker_state wid st now s)
  | OpHeartbeat wid hb now => reply_with RWorker (Repository.heartbeat_worker wid hb now s)
  | OpExpire now => reply_with RWorkers (Ok (Repository.expire_stale_workers now s))
  | OpSubmit sub uuid now => reply_with RJob (Repository.submit_job sub uuid now s)
  | OpClaim wid uuid now => reply_with RClaim (Repository.claim_next_job wid uuid now s)
  | OpComplete jid res wid tok now =>
      reply_with RJob (Repository.complete_job jid res wid tok now s)
  | OpFail jid err r wid tok now => reply_with RJob (Repository.fail_job jid err r wid tok now s)
  | OpCancel jid now => reply_with RJob (Repository.cancel_job jid now s)
  | OpRecover now => reply_with RJobs (Ok (Repository.recover_expired_jobs now s))
  end.

(** The same operations on the database, with no other transaction running. *)
Definition pg_perform (digest : string → list byte) (o : op) (d : postgres)
    : result (postgres * reply) :=
  match o with
  | OpRegister reg now => reply_with RWorker (Postgres.register_worker digest reg now d)
  | OpSetState wid st now => reply_with RWorker (Postgres.set_worker_state digest wid st now d)
  | OpHeartbeat wid hb now => reply_with RWorker (Postgres.heartbeat_worker wid hb now d)
  | OpExpire now => reply_with RWorkers (Postgres.expire_stale_workers now d)
  | OpSubmit sub uuid now => reply_with RJob (Postgres.submit_job id sub uuid now d)
  | OpClaim wid uuid now =>
      reply_with RClaim (Postgres.claim_next_job (λ _, false) id wid uuid now d)
  | OpComplete jid res wid tok now =>
      reply_with RJob (Postgres.complete_job jid res wid tok now d)
  | OpFail jid err r wid tok now => reply_with RJob (Postgres.fail_job jid err r wid tok now d)
  | OpCancel jid now => reply_with RJob (Postgres.cancel_job jid now d)
  | OpRecover now => reply_with RJobs (Postgres.recover_expired_jobs (λ _, false) now d)
  end.

(** Arguments the columns can hold and give back: 32-bit numbers, strings without NUL, and
    JSON values that are [stable]. *)
Definition storable (o : op) : Prop :=
  match o with
  | OpRegister reg _ => storable_registration reg
  | OpSetState wid _ _ | OpClaim wid _ _ => texts [wid] = Ok tt
  | OpHeartbeat wid hb _ =>
      texts (option_list (hb_active_job_id hb)) = Ok tt ∧ texts [wid] = Ok tt ∧
      stable_dict (hb_metadata hb)
  | OpExpire _ | OpRecover _ => True
  | OpSubmit sub _ _ => storable_submission sub
  | OpComplete jid res _ _ _ =>
      texts [jid] = Ok tt ∧ wf_JobResult res ∧ stable_dict (job_result_to_dict res)
  | OpFail jid err _ _ _ _ => texts [jid] = Ok tt ∧ stable_error err
  | OpCancel jid _ => texts [jid] = Ok tt
  end.

Definition is_heartbeat (o : op) : bool := match o with OpHeartbeat _ _ _ => true | _ => false end.

Lemma exec_perform o s : exec o s = after s (perform o s).
Proof.
  destruct o; cbn; unfold reply_with;
    try (by match goal with |- context [after s ?r] => destruct r as [[]|] end).
  - by destruct (Repository.expire_stale_workers now s).
  - by destruct (Repository.recover_expired_jobs now s).
Qed.

Lemma sim_reply {A} (f : A → reply) loose r r' :
  sim loose r r' → sim loose (reply_with f r) (reply_with f r').
Proof. destruct r as [[d x]|], r' as [[s y]|]; cbn; try done. by intros [? ->]. Qed.

Lemma perform_sim digest o d s : repr d s → inv s → op_ok s o → storable o →
  sim (is_heartbeat o) (pg_perform digest o d) (perform o s).
Proof.
  intros H I Hok Hst. destruct o; apply sim_reply.
  - by apply register_sim.
  - by apply set_state_sim.
  - destruct Hst as (? & ? & ?). by apply heartbeat_sim.
  - by apply expire_sim.
  - by apply submit_sim.
  - by apply claim_sim.
  - destruct Hst as (? & ? & ?). by apply complete_sim.
  - destruct Hst. by apply fail_sim.
  - by apply cancel_sim.
  - by apply recover_sim.
Qed.

(** The operations of a run are acceptable where they are performed. *)
Fixpoint acceptable (ops : list op) (s : repo) : Prop :=
  match ops with
  | [] => True
  | o :: ops' => op_ok s o ∧ storable o ∧ acceptable ops' (exec o s)
  end.

(** Two runs answer alike, operation by operation. *)
Fixpoint agree (digest : string → list byte) (ops : list op) (d : postgres) (s : repo) : Prop :=
  match ops with
  | [] => True
  | o :: ops' =>
      match pg_perform digest o d, perform o s with
      | Ok (d', x), Ok (s', y) => x = y ∧ agree digest ops' d' s'
      | Err e, Err e' => same_error (is_heartbeat o) e e' ∧ agree digest ops' d s
      | _, _ => False
      end
  end.

Lemma repr_init url ttl lease d s :
  mk_postgres url ttl lease = Ok d → mk_repo ttl lease = Ok s → repr d s.
Proof.
  unfold mk_postgres, mk_repo. intros H1 H2. simp_res.
  split; cbn; try done; try apply dict_wf_nil; try constructor; [done|by intros (? & ? & _)].
Qed.

Lemma agree_repr digest ops d s : repr d s → inv s → acceptable ops s → agree digest ops d s.
Proof.
  revert d s. induction ops as [|o ops IH]; intros d s H I; [done|]. intros (Hok & Hst & Hops). cbn.
  pose proof (perform_sim digest o d s H I Hok Hst) as Hsim.
  pose proof (inv_exec o s Hok I) as I'. rewrite exec_perform in I', Hops.
  destruct (pg_perform digest o d) as [[d' x]|e], (perform o s) as [[s' y]|e']; try done.
  - destruct Hsim as [H' ->]. split; [done|]. by apply IH.
  - split; [done|]. by apply IH.
Qed.

(** ** A concrete run, for the witnesses *)

Definition demo_digest : string → list byte := String.list_byte_of_string.
Definition pg_exec (o : op) (d : postgres) : postgres :=
  match pg_perform demo_digest o d with Ok (d', _) => d' | Err _ => d end.
Definition demo_pg : postgres :=
  {| pg_worker_ttl_seconds := 60; pg_lease_seconds := 300; pg_workers := []; pg_jobs := [];
     pg_sequence := 0 |}.

Lemma run_repr ops d s : repr d s → inv s → acceptable ops s →
  repr (foldl (λ d o, pg_exec o d) d ops) (foldl (λ s o, exec o s) s ops)
  ∧ inv (foldl (λ s o, exec o s) s ops).
Proof.
  revert d s. induction ops as [|o ops IH]; intros d s H I; [done|]. intros (Hok & Hst & Hops).
  cbn. pose proof (inv_exec o s Hok I) as I'. apply IH; [|done..].
  pose proof (perform_sim demo_digest o d s H I Hok Hst) as Hs. unfold pg_exec.
  rewrite exec_perform.
  destruct (pg_perform _ o d) as [[d' x]|e], (perform o s) as [[s' y]|e']; try done. apply Hs.
Qed.

Lemma demo_storable_submission p k : (k = None ∨ k = Some "k1"%string) →
  storable_submission (demo_submission p k) ↔ in_int4 p = true.
Proof.
  intros Hk. unfold storable_submission. cbn [sub_priority demo_submission]. split; [by intros (_ & _ & ? & _)|].
  intros Hp. destruct Hk as [-> | ->]; by split_and!; try apply no_requirements_wf.
Qed.

Lemma demo_acceptable : acceptable demo_ops demo_repo.
Proof.
  split; [cbn; lia|]. split; [split; [apply example_spec_wf|by split_and!; [cbn; lia|..|repeat constructor|]]|].
  split; [split; [apply demo_submission_wf; by right|done]|].
  split; [by apply demo_storable_submission; [auto|]|].
  split; [split; [apply demo_submission_wf; by left|by vm_compute]|].
  split; [by apply demo_storable_submission; [auto|]|]. by split_and!.
Qed.

(** The database before the claim of the run. *)
Definition demo_pg_waiting : postgres := foldl (λ d o, pg_exec o d) demo_pg (take 3 demo_ops).

Lemma demo_pg_repr : repr demo_pg demo_repo.
Proof. by apply (repr_init "db" 60 300). Qed.

Lemma demo_waiting_repr : repr demo_pg_waiting demo_waiting ∧ inv demo_waiting.
Proof.
  apply run_repr; [apply demo_pg_repr|by apply (inv_init 60 300)|].
  pose proof demo_acceptable as (? & ? & ? & ? & ? & ? & _). done.
Qed.

(** ** Errors of the claim query *)

(** Everything a job asks for but its VRAM. *)
Definition without_vram (r : JobRequirements) : JobRequirements :=
  {| req_worker_class := req_worker_class r; required_capabilities := required_capabilities r;
     required_labels := required_labels r; required_gpu_uuids := required_gpu_uuids r;
     min_gpu_count := min_gpu_count r; min_total_vram_mb := 0; min_single_gpu_vram_mb := 0 |}.

Lemma wide_requirement_fails spec r : wf_JobRequirements r → in_int4 (min_gpu_count r) = true →
  satisfies spec (without_vram r) → 2 ^ 31 ≤ min_total_vram_mb r →
  requirements_match spec (requirements_to_dict r) = Err (DatabaseError "integer out of range").
Proof.
  intros (H1 & H2 & H3 & H4 & H5 & _) Hc Hsat Hwide.
  assert (requirements_match spec (requirements_to_dict (without_vram r)) = Ok true) as Hm.
  { rewrite requirements_match_scheduler.
    - f_equal. by apply worker_matches_spec.
    - split_and!; try done.
    - by split_and!. }
  assert (json_int4 "min_total_vram_mb" (requirements_to_dict r)
          = Err (DatabaseError "integer out of range")) as Ht.
  { unfold json_int4, int4.
    change (dget "min_total_vram_mb" (requirements_to_dict r)) with (Some (PInt (min_total_vram_mb r))).
    cbn iota. destruct (in_int4 (min_total_vram_mb r)) eqn:E; [|done].
    apply in_int4_spec in E. lia. }
  unfold requirements_match in *.
  repeat match type of Hm with
  | mbind ?f (?g ?k (requirements_to_dict (without_vram r)) ?l) = _ =>
      change (g k (requirements_to_dict (without_vram r)) l) with (g k (requirements_to_dict r) l) in Hm;
      destruct (g k (requirements_to_dict r) l); [cbn [mbind result_bind] in *|discriminate Hm]
  | mbind ?f (json_int4 "min_total_vram_mb" _) = _ => fail 1
  | mbind ?f (?g ?k (requirements_to_dict (without_vram r))) = _ =>
      change (g k (requirements_to_dict (without_vram r))) with (g k (requirements_to_dict r)) in Hm;
      destruct (g k (requirements_to_dict r)); [cbn [mbind result_bind] in *|discriminate Hm]
  | sql_and ?b _ = _ => destruct b; [cbn [sql_and] in *|discriminate Hm]
  end.
  by rewrite Ht.
Qed.

(** Evaluations whose failures are database errors, never repository errors. *)
Definition clean {A} (m : result A) : Prop := ∀ e, m = Err e → is_repository_error e = false.

Lemma query_clean_Ok {A} (a : A) : clean (Ok a).
Proof. by intros e. Qed.
Lemma query_clean_bind {A B} (m : result A) (f : A → result B) :
  clean m → (∀ a, clean (f a)) → clean (m ≫= f).
Proof. intros Hm Hf. destruct m as [a|e']; cbn; [apply Hf|]. intros e [= <-]. by apply Hm. Qed.
Lemma query_clean_and a b : clean b → clean (sql_and a b).
Proof. destruct a; [done|intros _; apply query_clean_Ok]. Qed.
Lemma query_clean_int4 z : clean (int4 z).
Proof. unfold int4. destruct (in_int4 z); [apply query_clean_Ok|by intros e [= <-]]. Qed.
Lemma query_clean_json_int4 key doc : clean (json_int4 key doc).
Proof.
  unfold json_int4. destruct (dget key doc) as [[]|]; try by intros e [= <-].
  apply query_clean_bind; [apply query_clean_int4|intros; apply query_clean_Ok].
Qed.
Lemma query_clean_json_text key doc : clean (json_text key doc).
Proof. unfold json_text. by destruct (dget key doc) as [[]|]; intros e [= <-]. Qed.
Lemma query_clean_json_elements key doc : clean (json_elements key doc).
Proof.
  unfold json_elements. destruct (dget key doc) as [[]|]; try by intros e [= <-].
  induction l as [|[] l IH]; cbn; try by intros e [= <-].
  apply query_clean_bind; [done|intros; apply query_clean_Ok].
Qed.
Lemma query_clean_json_contained key doc labs : clean (json_contained key doc labs).
Proof. unfold json_contained. by destruct (dget key doc) as [[]|]; intros e [= <-]. Qed.

#[local] Hint Resolve query_clean_Ok query_clean_bind query_clean_and query_clean_json_int4 query_clean_json_text
  query_clean_json_elements query_clean_json_contained : py.

Lemma query_clean_claim_where t spec cap row : clean (claim_where t spec cap row).
Proof. unfold claim_where, requirements_match. auto 30 with py. Qed.

(** One row whose condition fails makes the whole selection fail. *)
Lemma select_where_fails (p : job_row → result bool) row e0 l :
  (∀ r, clean (p r)) → row ∈ l → p row = Err e0 →
  ∃ e, select_where p l = Err e ∧ is_repository_error e = false.
Proof.
  intros Hp Hin Hrow. induction l as [|r l IH]; [by apply elem_of_nil in Hin|].
  cbn. destruct (p r) as [b|e] eqn:E; cbn [mbind result_bind].
  - apply elem_of_cons in Hin as [->|Hin]; [congruence|].
    destruct (IH Hin) as (e & -> & He). by exists e.
  - exists e. split; [done|]. by eapply Hp.
Qed.

(** ** Properties *)

(** Property C8: the PostgreSQL repository refines the in-memory one.  From a fresh database
    and a fresh in-memory repository with the same settings, every run of acceptable
    operations (registrations, state changes, heartbeats, expiry, submissions, claims,
    completions, failures, cancellations, recovery) answers the same records in both, and
    fails in both or in neither, with the same class of error (heartbeats, which test the
    lease and the worker in the other order, only with a repository error in both).  An
    operation is acceptable when its fresh identifiers are fresh, its numbers fit 32 bits,
    its strings hold no NUL, and its payload, requirements, metadata, result or error is
    [stable]: JSON that a [jsonb] column gives back as it was, so without NaN, infinities,
    negative zeros and floats of 10^16 or more (on those the two repositories differ:
    [jsonb_float_conflicts], [jsonb_infinity_unavailable]).  Not modelled are the order of
    the keys of a JSON object and PostgreSQL's limits on the size of a value. *)
Theorem postgres_refines_memory digest url ttl lease d s ops :
  mk_postgres url ttl lease = Ok d → mk_repo ttl lease = Ok s → acceptable ops s →
  agree digest ops d s.
Proof.
  intros Hd Hs Hops. apply agree_repr; [by eapply repr_init|by eapply inv_init|done].
Qed.

Lemma postgres_refines_memory_witness : agree demo_digest demo_ops demo_pg demo_repo.
Proof.
  apply (postgres_refines_memory demo_digest "db" 60 300); [done|done|apply demo_acceptable].
Defined.

(** *** Where they differ: floats in [jsonb] *)

(** A keyed submission whose payload holds one float. *)
Definition float_submission (f : spec_float) : JobSubmission :=
  {| sub_capability := "debug.echo"; sub_payload := [("x", PFloat f)];
     sub_requirements := no_requirements; sub_priority := 0; sub_max_attempts := 3;
     sub_idempotency_key := Some "k1"; sub_available_at := None |}.
Definition submit_float (f : spec_float) (uuid : string) : op :=
  OpSubmit (float_submission f) uuid (utc 1).

(** 10^23 is the nearest float of [1e23], whose digits [jsonb] prints without an exponent: the
    integer read back is another number, and the same request under the same idempotency
    key, answered with the stored job in memory, is a conflict. *)
Lemma jsonb_float_conflicts :
  let o := submit_float (float_of_Z (10 ^ 23)) in
  pg_perform demo_digest (o "job-b") (pg_exec (o "job-a") demo_pg) =
    Err (ConflictError "idempotency key already belongs to a different job request") ∧
  is_ok (perform (o "job-b") (exec (o "job-a") demo_repo)) = true.
Proof. split; vm_compute; reflexivity. Qed.

(** An infinity or a NaN, which [json.loads] accepts in a request: the in-memory repository
    stores it, PostgreSQL refuses the statement and the caller is told that the storage is
    unavailable. *)
Lemma jsonb_infinity_unavailable :
  let o := submit_float (SpecFloat.S754_infinity false) "job-a" in
  pg_perform demo_digest o demo_pg = Err (StorageUnavailable "postgresql transaction failed") ∧
  is_ok (perform o demo_repo) = true.
Proof. split; vm_compute; reflexivity. Qed.

(** Property C10: the claim query selects what the scheduler matches.  On the row of a
    storable job the [WHERE] clause of [claim_next_job] evaluates without error, and holds
    exactly when the job is queued, available, has attempts left, its capability and every
    requirement are met by the worker, and the capacity subquery of the clause, here either
    answer [cap], holds. *)
Theorem claim_query_is_matching t w cap j : storable_job j →
  ∃ b, claim_where t (w_spec w) cap (job_columns j) = Ok b ∧
    (b = true ↔ j_status j = QUEUED ∧ j_available_at j ≤ t ∧ j_attempts j < j_max_attempts j ∧
       j_capability j ∈ capabilities (w_spec w) ∧ satisfies (w_spec w) (j_requirements j) ∧
       cap = true).
Proof.
  intros H. eexists. split; [by apply claim_where_columns|].
  rewrite andb_true_iff, claimable_spec. tauto.
Qed.

Lemma claim_query_is_matching_witness :
  ∃ b, claim_where 3 (w_spec demo_idle) true (job_columns demo_job) = Ok b ∧
    (b = true ↔ j_status demo_job = QUEUED ∧ j_available_at demo_job ≤ 3 ∧
       j_attempts demo_job < j_max_attempts demo_job ∧
       j_capability demo_job ∈ capabilities (w_spec demo_idle) ∧
       satisfies (w_spec demo_idle) (j_requirements demo_job) ∧ true = true).
Proof.
  apply claim_query_is_matching. split; [apply no_requirements_wf|]. by split_and!.
Defined.

(** A stored requirement beyond 32 bits blocks every claim it is considered for.
    When a queued, available job with attempts left asks for 2^31 MB of VRAM or more, and
    an online worker with the job's capability meets everything else it asks, the claim
    query's [integer] cast fails: [claim_next_job] raises [StorageUnavailable] for that
    worker whatever else is queued, instead of leaving the job unmatched. *)
Theorem wide_requirement_blocks_claims locked between d wid uuid now w t row r :
  texts [wid] = Ok tt →
  worker_by_id wid d = Some (worker_columns w t) → storable_worker w → w_state w = ONLINE →
  _aware now - seconds (pg_worker_ttl_seconds d) ≤ w_last_seen_at w →
  row ∈ pg_jobs d → jb_status row = "queued"%string → jb_available_at row ≤ _aware now →
  jb_attempts row < jb_max_attempts row → jb_capability row ∈ capabilities (w_spec w) →
  jb_requirements row = requirements_to_dict r → wf_JobRequirements r →
  in_int4 (min_gpu_count r) = true → satisfies (w_spec w) (without_vram r) →
  2 ^ 31 ≤ min_total_vram_mb r →
  Postgres.claim_next_job locked between wid uuid now d
  = Err (StorageUnavailable "postgresql transaction failed").
Proof.
  intros Htx Hw Hst Hon Hseen Hin Hq Ha Hatt Hcap Hreq Hwf Hc Hsat Hwide.
  unfold Postgres.claim_next_job. rewrite Htx. cbn [mbind result_bind]. rewrite Hw. cbn [row_or mbind result_bind].
  rewrite worker_decode by done. cbn [mbind result_bind].
  rewrite (proj2 (Z.ltb_ge _ _)) by lia. rewrite Hon, bool_decide_true by done. cbn [negb].
  unfold claim_select.
  destruct (select_where_fails (claim_where (_aware now) (w_spec w) (capacity_left wid d)) row
    (DatabaseError "integer out of range") (pg_jobs d)) as (e & -> & He).
  - intros. apply query_clean_claim_where.
  - done.
  - unfold claim_where. rewrite Hq, Hreq, (proj2 (Z.leb_le _ _)), (proj2 (Z.ltb_lt _ _)) by done.
    rewrite !bool_decide_true by (done || by apply elem_of_sorted_strings, elem_of_elements).
    cbn [sql_and]. by rewrite wide_requirement_fails.
  - cbn [mbind result_bind]. unfold _transaction. by rewrite He.
Qed.

(** A queue whose urgent job is ordinary and whose other job asks for 2^31 MB. *)
Definition wide_requirements : JobRequirements :=
  {| req_worker_class := None; required_capabilities := ∅; required_labels := [];
     required_gpu_uuids := ∅; min_gpu_count := 0; min_total_vram_mb := 2 ^ 31;
     min_single_gpu_vram_mb := 0 |}.
Definition wide_row : job_row :=
  job_values {| sub_capability := "debug.echo"; sub_payload := [];
                sub_requirements := wide_requirements; sub_priority := 0; sub_max_attempts := 3;
                sub_idempotency_key := None; sub_available_at := None |}
    [] (requirements_to_dict wide_requirements) "job-w" 9 2 2.
Definition demo_pg_wide : postgres :=
  with_jobs demo_pg_waiting (pg_jobs demo_pg_waiting ++ [wide_row]).

Lemma wide_requirement_blocks_claims_witness :
  Postgres.claim_next_job (λ _, false) id "w1" "tok" (utc 3) demo_pg_wide
  = Err (StorageUnavailable "postgresql transaction failed").
Proof.
  apply (wide_requirement_blocks_claims (λ _, false) id demo_pg_wide "w1" "tok" (utc 3) demo_idle
           0 wide_row wide_requirements).
  - reflexivity.
  - vm_compute. reflexivity.
  - split; [|by split_and!]. exact example_spec_wf.
  - reflexivity.
  - vm_compute. discriminate.
  - apply elem_of_app. right. left.
  - reflexivity.
  - vm_compute. discriminate.
  - reflexivity.
  - vm_decide.
  - reflexivity.
  - split_and!; try done; by repeat constructor.
  - reflexivity.
  - apply worker_matches_spec. vm_compute. reflexivity.
  - reflexivity.
Defined.

(** ** Interleavings *)

(** The claim query of a worker whose row is stored. *)
Lemma claim_reaches_commit locked between wid uuid now d s w d' j : repr d s →
  dget wid (r_workers s) = Some w →
  Postgres.claim_next_job locked between wid uuid now d = Ok (d', Some j) →
  ∃ j0, claim_select locked (_aware now) wid (w_spec w) d = Ok (Some (job_columns j0)) ∧
    j0 ∈ dvalues (r_jobs s) ∧ claimable (_aware now) w j0 = true ∧ locked (j_job_id j0) = false ∧
    claim_commit (job_columns j0) wid uuid (_aware now)
      (_aware now - seconds (pg_worker_ttl_seconds d)) (between d) = Ok (d', Some j).
Proof.
  intros H Hw E. unfold Postgres.claim_next_job in E.
  destruct (texts [wid]) as [[]|] eqn:Htx; [cbn [mbind result_bind] in E|].
  2:{ unfold texts, require in Htx. destruct (forallb _ _) in Htx; [done|]. by injection Htx as <-. }
  pose proof (worker_by_id_repr d s wid H) as Hr. rewrite Hw in Hr.
  destruct Hr as (_ & Hst & t & Hrow). rewrite Hrow in E. cbn [row_or mbind result_bind] in E.
  rewrite worker_decode in E by done. cbn [mbind result_bind] in E.
  destruct (_ <? _) in E; [done|]. destruct (negb _) in E; [done|].
  pose proof (claim_select_repr locked (_aware now) d s wid w H Hw) as Hs. rewrite Hs in E.
  cbn [mbind result_bind] in E. rewrite Hs.
  destruct (merge_sort claim_order _) as [|j0 rest] eqn:Em; [done|].
  cbn [head fmap option_fmap option_map] in *. exists j0.
  apply merge_sort_head_elem, list_elem_of_filter in Em as [Hl [Hc Hin]%list_elem_of_filter].
  apply Is_true_true, negb_true_iff in Hl. apply Is_true_true, andb_true_iff in Hc as [Hc _].
  split_and!; try done. destruct (claim_commit _ _ _ _ _ _) as [x|e]; [done|].
  unfold _transaction in E. by destruct (is_repository_error e).
Qed.

(** Property C9: a claim is correct under any interleaving.  Whatever rows other
    transactions lock and whatever they commit between the selection and the worker lock,
    short of touching the selected row itself (it is locked), a claim that returns a job
    takes a queued, unlocked one with attempts left, for a worker that in the state it
    commits to is online, alive, below its concurrency and satisfies the job; and the
    resulting database again represents a state with every control-plane invariant. *)
Theorem claim_interleaved_safe locked between wid uuid now d s s1 w d' j :
  repr d s → dget wid (r_workers s) = Some w →
  repr (between d) s1 → inv s1 → pg_worker_ttl_seconds (between d) = pg_worker_ttl_seconds d →
  (∀ row, claim_select locked (_aware now) wid (w_spec w) d = Ok (Some row) →
    row ∈ pg_jobs (between d)) →
  Postgres.claim_next_job locked between wid uuid now d = Ok (d', Some j) →
  ∃ j0 w1 s', dget (j_job_id j0) (r_jobs s1) = Some j0 ∧ j_status j0 = QUEUED ∧
    j_attempts j0 < j_max_attempts j0 ∧ locked (j_job_id j0) = false ∧
    dget wid (r_workers s1) = Some w1 ∧ w_state w1 = ONLINE ∧
    w_active_jobs w1 < w_max_concurrency w1 ∧
    _aware now - seconds (r_worker_ttl_seconds s1) ≤ w_last_seen_at w1 ∧
    satisfies (w_spec w1) (j_requirements j0) ∧
    j = job_claimed j0 wid uuid (_aware now + seconds (r_lease_seconds s1)) (_aware now) ∧
    repr d' s' ∧ inv s' ∧ dget (j_job_id j) (r_jobs s') = Some j.
Proof.
  intros H Hw H1 I1 Httl Hlock E.
  destruct (claim_reaches_commit _ _ _ _ _ _ _ _ _ _ H Hw E) as (j0 & Hsel & Hin & Hc & Hl & Hcm).
  apply Hlock in Hsel. rewrite (pg_jobs_repr (between d) s1) in Hsel by done.
  apply list_elem_of_fmap in Hsel as (j1 & Ej & Hin1).
  assert (j1 = j0) as ->.
  { apply (storable_jobs d s) in Hin; [|done]. apply (storable_jobs (between d) s1) in Hin1; [|done].
    apply job_decode in Hin, Hin1. congruence. }
  apply claimable_spec in Hc as (Hq & _ & Hatt & _). pose proof I1 as (C & Cap & _).
  apply dvalues_get in Hin1 as [k Hk]; [|apply H1].
  destruct (core_job s1 C k j0 Hk) as [<- (_ & Ha & _)].
  pose proof (worker_by_id_repr (between d) s1 wid H1) as Hr.
  destruct (dget wid (r_workers s1)) as [w1|] eqn:Hw1.
  2:{ unfold claim_commit in Hcm. by rewrite Hr in Hcm. }
  destruct (Cap wid w1 Hw1) as [Hcnt _]. pose proof (count_nonneg s1 wid).
  pose proof (claim_commit_repr (between d) s1 j0 w1 wid uuid (_aware now)
    (_aware now - seconds (pg_worker_ttl_seconds d)) H1) as Hcc.
  cbn zeta in Hcc. rewrite Hcm in Hcc. destruct Hcc as (-> & Hb & Hr'); [lia|lia|done|done|].
  unfold claim_blocked in Hb. bools.
  repeat match goal with
  | H : (_ <? _) = false |- _ => apply Z.ltb_ge in H
  | H : (_ <=? _) = false |- _ => apply Z.leb_gt in H
  | H : worker_matches _ _ = true |- _ => apply worker_matches_spec in H
  end.
  rewrite <- Httl, (repr_ttl (between d) s1) in * by done.
  eexists j0, w1, _. split_and!; try done.
  - pose proof (inv_claimed wid uuid (_aware now + seconds (r_lease_seconds s1)) (_aware now)
      (j_job_id j0) j0 w1 s1) as Hi. by apply Hi.
  - unfold claimed_state. rewrite r_jobs_put_worker, r_jobs_put_job. cbn. apply dget_dset_eq.
Qed.

(** A heartbeat of the worker commits between the selection and the worker lock. *)
Definition demo_between (d : postgres) : postgres :=
  pg_exec (OpHeartbeat "w1" empty_heartbeat (utc 2)) d.
Definition demo_between_state : repo :=
  exec (OpHeartbeat "w1" empty_heartbeat (utc 2)) demo_waiting.

Lemma demo_between_repr : repr (demo_between demo_pg_waiting) demo_between_state
  ∧ inv demo_between_state.
Proof.
  destruct demo_waiting_repr. by apply (run_repr [OpHeartbeat "w1" empty_heartbeat (utc 2)]).
Qed.

Lemma claim_interleaved_safe_witness : ∃ d' j,
  Postgres.claim_next_job (λ id, bool_decide (id = "job-z")) demo_between "w1" "tok" (utc 3)
    demo_pg_waiting = Ok (d', Some j) ∧ ∃ s', repr d' s' ∧ inv s' ∧
    dget (j_job_id j) (r_jobs s') = Some j.
Proof.
  destruct demo_waiting_repr as [H I]. destruct demo_between_repr as [H1 I1].
  destruct (Postgres.claim_next_job (λ id, bool_decide (id = "job-z")) demo_between "w1" "tok"
    (utc 3) demo_pg_waiting) as [[d' [j|]]|e] eqn:E; [|exfalso; vm_compute in E; discriminate E..].
  exists d', j. split; [done|].
  destruct (claim_interleaved_safe (λ id, bool_decide (id = "job-z")) demo_between "w1" "tok"
    (utc 3) demo_pg_waiting demo_waiting demo_between_state demo_idle d' j)
    as (_ & _ & s' & _ & _ & _ & _ & _ & _ & _ & _ & _ & _ & Hr & Hi & Hj).
  - exact H.
  - vm_compute. reflexivity.
  - exact H1.
  - exact I1.
  - vm_compute. reflexivity.
  - intros row Hs. apply (list_elem_of_lookup_2 _ 1). vm_compute in Hs. injection Hs as <-.
    vm_compute. reflexivity.
  - exact E.
  - exact (ex_intro _ s' (conj Hr (conj Hi Hj))).
Defined.

(** Racing submissions with one idempotency key give one job.  When the first
    lookup of a keyed submission finds nothing and other transactions then commit, the
    submission answers what it would have answered run alone after them: the stored job when
    it matches, a conflict when it does not, and a new job only when the key is still free;
    the jobs table ends as in that run. *)
Theorem submit_race_linearizes between sub uuid now d s1 k :
  sub_idempotency_key sub = Some k → job_by_key (Some k) d = None →
  repr (between d) s1 → inv s1 → op_ok s1 (OpSubmit sub uuid now) → storable_submission sub →
  match Postgres.submit_job between sub uuid now d, Repository.submit_job sub uuid now s1 with
  | Ok (d', j), Ok (s', j') => j = j' ∧ Forall2 holds_job (pg_jobs d') (r_jobs s')
  | Err e, Err e' => same_error false e e'
  | _, _ => False
  end.
Proof.
  intros Hk Hnone H I [Hwf Hfresh] Hst.
  unfold Postgres.submit_job, Repository.submit_job. rewrite Hk, Hnone.
  assert (str_truthy k = true) as Ht.
  { apply str_truthy_spec. intros ->. destruct Hwf as (_ & _ & Hks & _). by apply (Hks _ Hk). }
  pose proof (key_texts sub Hst) as Hkt. rewrite Hk in Hkt.
  cbn [opt_truthy]. rewrite Ht, Hkt. cbn [mbind option_bind result_bind].
  pose proof (job_by_key_repr (between d) s1 (Some k) H) as Hr.
  cbn iota in Hr. destruct (dget k (r_idempotency s1)) as [jid|] eqn:Hid.
  - destruct Hr as (j & Hj & Hsj & Hrow). rewrite Hj. unfold insert_job.
    destruct Hst as (_ & _ & Hp & Hm & Htx & Hpl & Hrq). rewrite Hk in Htx.
    rewrite Hk, Htx. cbn [mbind result_bind]. rewrite Hpl. cbn [mbind result_bind]. rewrite Hrq.
    cbn [mbind result_bind jb_priority jb_max_attempts job_values]. rewrite Hp, Hm.
    destruct Hwf as (_ & Hmx & _). rewrite (proj2 (Z.ltb_lt 0 _)) by lia.
    cbn [andb require mbind result_bind]. rewrite Hrow. cbn [mbind result_bind].
    change (job_by_key (Some k) _) with (job_by_key (Some k) (between d)). rewrite Hrow.
    cbn [row_or mbind result_bind]. rewrite resubmitted_columns by done.
    destruct (_submission_matches j sub); cbn; [|done]. split; [done|]. apply H.
  - destruct (repr_insert (between d) s1 sub uuid (_aware now)) as (d' & -> & Hr' & Hst'); try done.
    { by rewrite Hk. }
    cbn [mbind result_bind]. rewrite job_decode by done. cbn. split; [done|]. apply Hr'.
Qed.

(** Another client submits under the same key in between. *)
Definition demo_race (d : postgres) : postgres :=
  pg_exec (OpSubmit (demo_submission 7 (Some "k1")) "job-x" (utc 2)) d.

Definition demo_race_state : repo :=
  exec (OpSubmit (demo_submission 7 (Some "k1")) "job-x" (utc 2)) demo_repo.

Lemma demo_race_repr : repr (demo_race demo_pg) demo_race_state ∧ inv demo_race_state.
Proof.
  apply (run_repr [OpSubmit (demo_submission 7 (Some "k1")) "job-x" (utc 2)]).
  - apply demo_pg_repr.
  - by apply (inv_init 60 300).
  - split; [split; [apply demo_submission_wf; by right|done]|].
    split; [by split_and!; try apply no_requirements_wf|done].
Qed.

Lemma submit_race_linearizes_witness :
  match Postgres.submit_job demo_race (demo_submission 7 (Some "k1")) "job-y" (utc 3) demo_pg,
        Repository.submit_job (demo_submission 7 (Some "k1")) "job-y" (utc 3) demo_race_state with
  | Ok (d', j), Ok (s', j') => j = j' ∧ Forall2 holds_job (pg_jobs d') (r_jobs s')
  | Err e, Err e' => same_error false e e'
  | _, _ => False
  end.
Proof.
  destruct demo_race_repr as [H I].
  apply (submit_race_linearizes demo_race (demo_submission 7 (Some "k1")) "job-y" (utc 3) demo_pg
    demo_race_state "k1").
  - reflexivity.
  - reflexivity.
  - exact H.
  - exact I.
  - split; [apply demo_submission_wf; by right|]. vm_compute. reflexivity.
  - by apply demo_storable_submission; [auto|].
Defined.

(** ** Ownership locks *)

(** The order on locks: namespace first, then key. *)
Definition lock_lt (a b : Z * Z) : Prop := a.1 < b.1 ∨ (a.1 = b.1 ∧ a.2 < b.2).

Lemma lock_lt_trans a b c : lock_lt a b → lock_lt b c → lock_lt a c.
Proof. unfold lock_lt. lia. Qed.
Lemma lock_lt_irrefl a : ¬ lock_lt a a.
Proof. unfold lock_lt. lia. Qed.

Lemma sorted_keys_lt (X : gset Z) : StronglySorted Z.lt (sorted_keys (elements X)).
Proof.
  assert (StronglySorted Z.le (sorted_keys (elements X))) as Hs.
  { apply StronglySorted_merge_sort; [intros a b c; lia|intros a b; lia]. }
  assert (NoDup (sorted_keys (elements X))) as Hd.
  { unfold sorted_keys. rewrite merge_sort_Permutation. apply NoDup_elements. }
  induction Hs as [|x l Hs IH Hx]; [constructor|]. apply NoDup_cons in Hd as [Hn Hd].
  constructor; [by apply IH|]. rewrite Forall_forall in *. intros y Hy.
  specialize (Hx y Hy). enough (x ≠ y) by lia. by intros ->.
Qed.

Lemma ownership_sorted digest wid req d :
  StronglySorted lock_lt (_lock_worker_ownership digest wid req d).1.
Proof.
  unfold _lock_worker_ownership. cbn [fst]. constructor.
  - induction (sorted_keys_lt (set_map (_ownership_lock_key digest)
      (list_to_set req ∪ match worker_by_id wid d with
        | Some row => list_to_set (wr_gpu_uuids row) | None => ∅ end : gset string)))
      as [|x l Hs IH Hx]; [constructor|]. cbn. constructor; [done|].
    apply Forall_fmap. eapply Forall_impl; [done|]. intros y Hy. right. split; [done|]. exact Hy.
  - apply Forall_fmap, Forall_forall. intros y _. left. done.
Qed.

(** The ownership lock protocol.  An acquisition takes the worker's identity
    lock and one lock for every GPU it asks for or the worker's row records, and no other,
    in strictly increasing order: any two acquisitions that share a worker or a GPU
    contend for a common lock. *)
Theorem ownership_locks_exact digest wid req d :
  StronglySorted lock_lt (_lock_worker_ownership digest wid req d).1 ∧
  ∀ l, l ∈ (_lock_worker_ownership digest wid req d).1 ↔
    l = (_WORKER_OWNERSHIP_LOCK, _ownership_lock_key digest wid) ∨
    ∃ u, l = (_GPU_OWNERSHIP_LOCK, _ownership_lock_key digest u) ∧
      (u ∈ req ∨ ∃ row, worker_by_id wid d = Some row ∧ u ∈ wr_gpu_uuids row).
Proof.
  split; [apply ownership_sorted|]. intros l. unfold _lock_worker_ownership. cbn [fst].
  rewrite elem_of_cons, list_elem_of_fmap. apply or_iff_compat_l.
  unfold sorted_keys. setoid_rewrite merge_sort_Permutation.
  setoid_rewrite elem_of_elements. setoid_rewrite elem_of_map.
  setoid_rewrite elem_of_union. setoid_rewrite elem_of_list_to_set.
  split.
  - intros (key & -> & u & -> & Hu). exists u. split; [done|].
    destruct Hu as [Hu|Hu]; [by left|right]. destruct (worker_by_id wid d) as [row|]; [|set_solver].
    exists row. split; [done|]. by apply elem_of_list_to_set in Hu.
  - intros (u & -> & Hu). eexists. split; [done|]. exists u. split; [done|].
    destruct Hu as [Hu|(row & E & Hu)]; [by left|right]. rewrite E. by apply elem_of_list_to_set.
Qed.

(** A transaction that holds the locks [held] of its acquisition and waits for [next]. *)
Definition waits (digest : string → list byte) (p : list (Z * Z) * (Z * Z)) : Prop :=
  ∃ wid req d rest, (_lock_worker_ownership digest wid req d).1 = p.1 ++ p.2 :: rest.

Lemma maximal_wait (ts : list (list (Z * Z) * (Z * Z))) : ts ≠ [] →
  ∃ t, t ∈ ts ∧ ∀ t', t' ∈ ts → ¬ lock_lt t.2 t'.2.
Proof.
  induction ts as [|t ts IH]; [done|]. intros _. destruct ts as [|t1 ts].
  - exists t. split; [left|]. intros t' ->%list_elem_of_singleton. apply lock_lt_irrefl.
  - destruct IH as (m & Hm & Hmax); [done|].
    assert (lock_lt m.2 t.2 ∨ ¬ lock_lt m.2 t.2) as [Hlt|Hn] by (unfold lock_lt; lia).
    + exists t. split; [left|]. intros t' [->|Ht']%elem_of_cons; [apply lock_lt_irrefl|].
      intros Ht. apply (Hmax t' Ht'). by eapply lock_lt_trans.
    + exists m. split; [by right|]. intros t' [->|Ht']%elem_of_cons; [done|by apply Hmax].
Qed.

(** Property C11: no deadlock on ownership locks.  Among any transactions that each hold a
    prefix of their acquisition and wait for its next lock, one waits for a lock that none
    of them holds. *)
Theorem ownership_deadlock_free digest ts :
  ts ≠ [] → Forall (waits digest) ts → ∃ t, t ∈ ts ∧ ∀ t', t' ∈ ts → t.2 ∉ t'.1.
Proof.
  intros Hne Hw. destruct (maximal_wait ts Hne) as (t & Ht & Hmax). exists t. split; [done|].
  intros t' Ht' Hheld. apply (Hmax t' Ht'). rewrite Forall_forall in Hw.
  destruct (Hw t' Ht') as (wid & req & d & rest & E).
  pose proof (ownership_sorted digest wid req d) as Hs. rewrite E in Hs.
  apply StronglySorted_app in Hs as (Hlt & _). apply Hlt; [done|left].
Qed.

(** Two enrolments over one GPU: the first waits for the GPU lock, the second for its own
    identity lock. *)
Lemma ownership_deadlock_free_witness :
  let l1 := (_lock_worker_ownership demo_digest "w1" ["GPU-a"] demo_pg).1 in
  let l2 := (_lock_worker_ownership demo_digest "w2" ["GPU-a"] demo_pg).1 in
  let ts := [(take 1 l1, default (0, 0) (l1 !! 1%nat)); ([], default (0, 0) (head l2))] in
  ∃ t, t ∈ ts ∧ ∀ t', t' ∈ ts → t.2 ∉ t'.1.
Proof.
  apply (ownership_deadlock_free demo_digest); [done|].
  apply Forall_cons; split; [|apply Forall_singleton].
  - exists "w1", ["GPU-a"], demo_pg, []. vm_compute. reflexivity.
  - exists "w2", ["GPU-a"], demo_pg, (drop 1 (_lock_worker_ownership demo_digest "w2" ["GPU-a"] demo_pg).1).
    vm_compute. reflexivity.
Defined.
