(* ===== verification/Client.v ===== *)
(** * The worker's control client

    Models [src/src/astrumweaver/worker/client.py].  Each method makes one HTTP request and
    interprets its outcome; the network is a parameter, so a method is the pair of the
    request it sends and what it makes of the answer. *)

From S2P Require Import Prelude PyStr PyDict PyVal Contracts Models Serde.

(** ** HTTP *)

Record http_request := { hq_method : string; hq_path : string; hq_json : option pyval }.

(** No answer ([httpx.HTTPError], timeout), or a status with a body that is JSON or not. *)
Inductive http_outcome :=
  | NoAnswer
  | Answer (status : Z) (json : option pyval).

(** A method of the client. *)
Record rpc (A : Type) := {
  rpc_request : http_request;
  rpc_result : http_outcome → result A;
}.
Arguments rpc_request {A} _.
Arguments rpc_result {A} _ _.

(** The detail of an error answer, worker/client.py lines 73-76. *)
Definition error_detail (json : option pyval) : result string :=
  match json with
  | Some (PDict d) => py_str (get_default "detail" (PStr "request failed") d)
  | _ => Ok "request failed"
  end.

(** [_request], worker/client.py lines 66-78. *)
Definition _request (o : http_outcome) : result (Z * option pyval) :=
  match o with
  | NoAnswer => Err (ControlTransportError 0 "control unavailable")
  | Answer status json =>
      if 400 <=? status then
        detail ← error_detail json; Err (ControlTransportError status detail)
      else Ok (status, json)
  end.

(** [_object], worker/client.py lines 80-88. *)
Definition _object (json : option pyval) : result (dict pyval) :=
  match json with
  | None => Err (ControlTransportError 502 "Control returned invalid JSON")
  | Some (PDict body) => Ok body
  | Some _ => Err (ControlTransportError 502 "Control response must be an object")
  end.

(** A request answered by an object. *)
Definition object_rpc (method path : string) (json : option pyval) : rpc (dict pyval) :=
  {| rpc_request := {| hq_method := method; hq_path := path; hq_json := json |};
     rpc_result o := r ← _request o; _object r.2 |}.

(** ** Methods *)

(** [ClaimedJob], worker/client.py lines 26-31. *)
Record ClaimedJob := {
  cj_request : JobRequest;
  cj_lease_token : string;
  cj_lease_expires_at : pyval;
  cj_attempts : Z;
}.

(** [register], worker/client.py lines 90-107. *)
Definition register (spec : WorkerSpec) (max_concurrency : Z) (metadata : dict pyval)
    : rpc (dict pyval) :=
  object_rpc "POST" "/v1/workers/register" (Some (PDict
    [("protocol_version", PStr PROTOCOL_VERSION); ("spec", PDict (worker_spec_to_dict spec));
     ("max_concurrency", PInt max_concurrency); ("metadata", PDict metadata)])).

(** [heartbeat], worker/client.py lines 109-129. *)
Definition heartbeat (worker_id : string) (active_job_id lease_token : option string)
    (state : option WorkerState) (metadata : dict pyval) : rpc (dict pyval) :=
  object_rpc "POST" ("/v1/workers/" +:+ worker_id +:+ "/heartbeat") (Some (PDict
    [("protocol_version", PStr PROTOCOL_VERSION); ("active_job_id", of_opt_str active_job_id);
     ("lease_token", of_opt_str lease_token);
     ("state", of_opt_str (WorkerState_value <$> state)); ("metadata", PDict metadata)])).

(** [set_state], worker/client.py lines 131-137. *)
Definition set_state (worker_id : string) (state : WorkerState) : rpc (dict pyval) :=
  object_rpc "POST" ("/v1/workers/" +:+ worker_id +:+ "/state") (Some (PDict
    [("protocol_version", PStr PROTOCOL_VERSION); ("state", PStr (WorkerState_value state))])).

(** The decoding of a claim, worker/client.py lines 143-160. *)
Definition claimed_of (body : dict pyval) : result ClaimedJob :=
  lease_token ← (match get "lease_token" body with
                 | PStr s =>
                     if str_truthy s then Ok s
                     else Err (ControlTransportError 502 "claim response lacks lease token")
                 | _ => Err (ControlTransportError 502 "claim response lacks lease token")
                 end);
  i ← item "job_id" body; job_id ← py_str i;
  c ← item "capability" body; capability ← py_str c;
  attempts ← py_int (get_default "attempts" (PInt 0) body);
  payload ← dict_or_empty (get "payload" body);
  request ← mk_JobRequest job_id capability payload
    [("attempt", PInt attempts); ("lease_expires_at", get "lease_expires_at" body)];
  Ok {| cj_request := request; cj_lease_token := lease_token;
        cj_lease_expires_at := get "lease_expires_at" body; cj_attempts := attempts |}.

(** [claim], worker/client.py lines 139-160. *)
Definition claim (worker_id : string) : rpc (option ClaimedJob) :=
  {| rpc_request := {| hq_method := "POST"; hq_path := "/v1/workers/" +:+ worker_id +:+ "/jobs/claim";
                       hq_json := None |};
     rpc_result o :=
       r ← _request o;
       if r.1 =? 204 then Ok None
       else body ← _object r.2; c ← claimed_of body; Ok (Some c) |}.

(** [inspect_job], worker/client.py lines 162-166. *)
Definition inspect_job (worker_id job_id : string) : rpc (dict pyval) :=
  object_rpc "GET" ("/v1/workers/" +:+ worker_id +:+ "/jobs/" +:+ job_id) None.

(** [complete], worker/client.py lines 168-184. *)
Definition complete (worker_id job_id lease_token : string) (res : JobResult) : rpc (dict pyval) :=
  object_rpc "POST" ("/v1/workers/" +:+ worker_id +:+ "/jobs/" +:+ job_id +:+ "/complete")
    (Some (PDict [("protocol_version", PStr PROTOCOL_VERSION); ("lease_token", PStr lease_token);
                  ("result", PDict (job_result_to_dict res))])).

(** [fail], worker/client.py lines 186-205. *)
Definition fail (worker_id job_id lease_token : string) (error : pyval) (retryable : bool)
    : rpc (dict pyval) :=
  object_rpc "POST" ("/v1/workers/" +:+ worker_id +:+ "/jobs/" +:+ job_id +:+ "/fail")
    (Some (PDict [("protocol_version", PStr PROTOCOL_VERSION); ("lease_token", PStr lease_token);
                  ("error", error); ("retryable", PBool retryable)])).
