(* ===== verification/Supervision.v ===== *)
(** * Runtime health supervision

    Models [src/src/astrumweaver/worker/supervision.py]: the fail-closed health authority of
    one owned runtime.  The object is shared by the monitor task, by whoever reads
    [available], and by an execution that asks for a [check]; the probe lock admits one
    probe at a time.  Its life is a sequence of events: a checker gets the lock and probes,
    a probe ends, a budget runs out, a flag is read, the monitor stops, the supervisor is
    closed. *)

From S2P Require Import Prelude PyStr PyDict PyVal Contracts RuntimeContracts.

(** ** State *)

(** [RuntimeHealthSupervisor.__init__], worker/supervision.py lines 28-59; times in ticks, the
    probe under way is its start. *)
Record supervisor := {
  sp_interval : Z;
  sp_timeout : Z;
  sp_initialized : bool;
  sp_failed : bool;
  sp_valid_until : Z;
  sp_reason : option string;
  sp_probe : option Z;
  sp_started : bool;
  sp_closed : bool;
}.

(** [RuntimeHealthSupervisor.__init__], worker/supervision.py lines 28-59; [same_runtime] says
    that a lifecycle given owns this runtime. *)
Definition mk_supervisor (interval timeout shutdown_timeout : Z) (same_runtime : bool)
    : result supervisor :=
  require ((0 <? interval) && (0 <? timeout) && (0 <? shutdown_timeout))
    (ValueError "runtime health timings must be finite and positive");;
  require same_runtime
    (ValueError "runtime supervisor lifecycle must own the same runtime");;
  Ok {| sp_interval := interval; sp_timeout := timeout; sp_initialized := false;
        sp_failed := false; sp_valid_until := 0; sp_reason := None; sp_probe := None;
        sp_started := false; sp_closed := false |}.

Definition sp_set (s : supervisor) (initialized failed : bool) (valid_until : Z)
    (reason : option string) (probe : option Z) (started closed : bool) : supervisor :=
  {| sp_interval := sp_interval s; sp_timeout := sp_timeout s; sp_initialized := initialized;
     sp_failed := failed; sp_valid_until := valid_until; sp_reason := reason;
     sp_probe := probe; sp_started := started; sp_closed := closed |}.

(** ** Operations *)

(** [_fail], worker/supervision.py lines 77-83. *)
Definition _fail (reason : string) (s : supervisor) : supervisor :=
  if sp_failed s || sp_closed s then s
  else sp_set s (sp_initialized s) true 0 (Some reason) (sp_probe s) (sp_started s) (sp_closed s).

(** [available], worker/supervision.py lines 61-66: reading it can latch a failure. *)
Definition expire (now : Z) (s : supervisor) : supervisor :=
  if negb (sp_valid_until s =? 0) && (sp_valid_until s <=? now) then _fail "health_stale" s else s.
Definition available_in (s : supervisor) : bool :=
  negb (sp_closed s) && negb (sp_failed s) && negb (sp_valid_until s =? 0).
Definition available (now : Z) (s : supervisor) : supervisor * bool :=
  let s' := expire now s in (s', available_in s').

(** [state], worker/supervision.py lines 68-73. *)
Definition state (now : Z) (s : supervisor) : supervisor * string :=
  if sp_closed s then (s, "stopped")
  else
    let '(s', b) := available now s in
    (s', if b : bool then "ready" else if sp_failed s' then "failed" else "starting").

(** The tests before and after the probe of [check], worker/supervision.py lines 94-97 and
    lines 100-103: [false] when [check] returns [False] there. *)
Definition check_admits (now : Z) (s : supervisor) : supervisor * bool :=
  if sp_closed s || sp_failed s then (s, false)
  else if sp_valid_until s =? 0 then (s, true)
  else available now s.

Definition set_probe (p : option Z) (s : supervisor) : supervisor :=
  sp_set s (sp_initialized s) (sp_failed s) (sp_valid_until s) (sp_reason s) p (sp_started s)
    (sp_closed s).
Definition set_valid (t : Z) (s : supervisor) : supervisor :=
  sp_set s (sp_initialized s) (sp_failed s) t (sp_reason s) (sp_probe s) (sp_started s)
    (sp_closed s).

(** A checker takes the probe lock, worker/supervision.py lines 93-98: it gives up, or its
    probe is under way since [now]. *)
Definition probe_begin (now : Z) (s : supervisor) : supervisor :=
  let '(s', b) := check_admits now s in if b : bool then set_probe (Some now) s' else s'.

(** What [runtime.health()] came to, worker/supervision.py lines 98-117: a health record,
    another value, an exception, the end of the budget of [asyncio.timeout], or the
    cancellation of the checking task, which no clause catches. *)
Inductive probe_outcome :=
  | ProbeHealth (h : RuntimeHealth)
  | ProbeOther
  | ProbeRaised
  | ProbeTimeout
  | ProbeCancelled.

(** The end of a probe started at [started], worker/supervision.py lines 99-117. *)
Definition probe_end (now started : Z) (o : probe_outcome) (s : supervisor) : supervisor :=
  match o with
  | ProbeTimeout => _fail "health_timeout" s
  | ProbeRaised => _fail "health_exception" s
  | ProbeCancelled => s
  | _ =>
      let '(s', b) := check_admits now s in
      if negb b then s'
      else if sp_timeout s' <=? now - started then _fail "health_timeout" s'
      else match o with
           | ProbeHealth h =>
               if negb (bool_decide (rh_state h = READY)) || negb (rh_ready h)
               then _fail "health_not_ready" s'
               else set_valid (started + sp_interval s' + sp_timeout s') s'
           | _ => _fail "health_invalid" s'
           end
  end.

(** [start], worker/supervision.py lines 120-124. *)
Definition start (s : supervisor) : result supervisor :=
  require (negb (sp_closed s || sp_started s))
    (RuntimeError "runtime supervisor is single-use");;
  Ok (sp_set s (sp_initialized s) (sp_failed s) (sp_valid_until s) (sp_reason s) (sp_probe s)
        true (sp_closed s)).

Definition set_initialized (s : supervisor) : supervisor :=
  sp_set s true (sp_failed s) (sp_valid_until s) (sp_reason s) (sp_probe s) (sp_started s)
    (sp_closed s).

(** The [finally] clause of [_run], worker/supervision.py lines 135-139. *)
Definition monitor_stopped (s : supervisor) : supervisor :=
  set_initialized (if sp_closed s then s else _fail "monitor_stopped" s).

(** The start of [close], worker/supervision.py lines 141-146; the cancelled monitor then ends. *)
Definition close (s : supervisor) : supervisor :=
  set_initialized
    (sp_set s (sp_initialized s) (sp_failed s) 0 (sp_reason s) (sp_probe s) (sp_started s) true).

(** ** Events *)

Inductive event :=
  | EvRead (now : Z)
  | EvState (now : Z)
  | EvProbeBegin (now : Z)
  | EvProbeEnd (now : Z) (o : probe_outcome)
  | EvLockTimeout
  | EvMonitorStopped
  | EvClose.

(** The probe lock: a probe begins when none is under way, and ends when one is.  A checker
    whose budget runs out while it waits for the lock fails without touching the probe. *)
Inductive step : supervisor → event → supervisor → Prop :=
  | st_read now s : step s (EvRead now) (available now s).1
  | st_state now s : step s (EvState now) (state now s).1
  | st_begin now s : sp_probe s = None → step s (EvProbeBegin now) (probe_begin now s)
  | st_end now t o s : sp_probe s = Some t → t ≤ now →
      step s (EvProbeEnd now o) (set_probe None (probe_end now t o s))
  | st_lock_timeout s : step s EvLockTimeout (_fail "health_timeout" s)
  | st_monitor s : step s EvMonitorStopped (monitor_stopped s)
  | st_close s : step s EvClose (close s).

Inductive steps : supervisor → list event → supervisor → Prop :=
  | steps_nil s : steps s [] s
  | steps_snoc s es s' e s'' : steps s es s' → step s' e s'' → steps s (es ++ [e]) s''.

(** ** Runtime health supervision: the authority is fail-closed

    An invariant over the events of a supervisor relates its lease to the probe that granted
    it: the lease is always the one of a READY probe that answered within its budget. *)

(** ** The invariant *)

(** The trace holds a whole probe, started at [t] and granted at [t'] by the record [h]. *)
Definition granted (es : list event) (t t' : Z) (h : RuntimeHealth) : Prop :=
  ∃ es1 es2 es3,
    es = es1 ++ EvProbeBegin t :: es2 ++ EvProbeEnd t' (ProbeHealth h) :: es3 ∧
    (∀ now o, EvProbeEnd now o ∉ es2).

(** The trace ends in the probe under way. *)
Definition probing (es : list event) (t : Z) : Prop :=
  ∃ es1 es2, es = es1 ++ EvProbeBegin t :: es2 ∧ (∀ now o, EvProbeEnd now o ∉ es2).

(** The lease is the one that a timely READY probe grants. *)
Definition lease_of (interval timeout : Z) (es : list event) (v : Z) : Prop :=
  ∃ t t' h, granted es t t' h ∧ rh_state h = READY ∧ rh_ready h = true ∧
    t' - t < timeout ∧ v = t + interval + timeout.

Record sup_inv (interval timeout : Z) (es : list event) (s : supervisor) : Prop := {
  si_interval : sp_interval s = interval;
  si_timeout : sp_timeout s = timeout;
  si_latched : sp_failed s = true ∨ sp_closed s = true → sp_valid_until s = 0;
  si_probe : ∀ t, sp_probe s = Some t → probing es t;
  si_lease : sp_valid_until s ≠ 0 → lease_of interval timeout es (sp_valid_until s);
}.

Lemma granted_snoc es t t' h e : granted es t t' h → granted (es ++ [e]) t t' h.
Proof.
  intros (es1 & es2 & es3 & -> & Hn). exists es1, es2, (es3 ++ [e]).
  split; [|done]. by rewrite <-!app_assoc; cbn; rewrite <-!app_assoc.
Qed.

Lemma lease_of_snoc i d es v e : lease_of i d es v → lease_of i d (es ++ [e]) v.
Proof.
  intros (t & t' & h & Hg & H). exists t, t', h. split; [by apply granted_snoc|done].
Qed.

Lemma probing_snoc es t e :
  (∀ now o, e ≠ EvProbeEnd now o) → probing es t → probing (es ++ [e]) t.
Proof.
  intros He (es1 & es2 & -> & Hn). exists es1, (es2 ++ [e]).
  split; [by rewrite <-app_assoc|]. intros now o [Hin|Hin]%elem_of_app; [by eapply Hn|].
  apply list_elem_of_singleton in Hin. by eapply He.
Qed.

Lemma probing_begin es t : probing (es ++ [EvProbeBegin t]) t.
Proof. exists es, []. split; [done|]. intros ??. apply not_elem_of_nil. Qed.

Lemma probing_granted es t t' h :
  probing es t → granted (es ++ [EvProbeEnd t' (ProbeHealth h)]) t t' h.
Proof.
  intros (es1 & es2 & -> & Hn). exists es1, es2, [].
  split; [|done]. by rewrite <-app_assoc.
Qed.

(** ** The operations keep it *)

Section Steps.
  Context (i d : Z).
  Local Abbreviation inv := (sup_inv i d).

Lemma sup_snoc es s e :
  (∀ now o, e ≠ EvProbeEnd now o) → inv es s → inv (es ++ [e]) s.
Proof.
  intros He [Hi Hd Hl Hp Hv]. split; try done.
  - intros t Ht. by apply probing_snoc, Hp.
  - intros Hne. by apply lease_of_snoc, Hv.
Qed.

Lemma sup_fail es s r : inv es s → inv es (_fail r s).
Proof.
  intros [Hi Hd Hl Hp Hv]. unfold _fail. destruct (sp_failed s || sp_closed s); [by split|].
  split; cbn; done.
Qed.

Lemma sup_expire es s now : inv es s → inv es (expire now s).
Proof. intros H. unfold expire. case_match; [by apply sup_fail|done]. Qed.

Lemma inv_check_admits es s now : inv es s → inv es (check_admits now s).1.
Proof.
  intros H. unfold check_admits, available. repeat case_match; try done. by apply sup_expire.
Qed.

Lemma inv_state es s now : inv es s → inv es (state now s).1.
Proof. intros H. unfold state, available. case_match; [done|by apply sup_expire]. Qed.

Lemma inv_set_initialized es s : inv es s → inv es (set_initialized s).
Proof. intros [Hi Hd Hl Hp Hv]. by split. Qed.

Lemma inv_close es s : inv es s → inv es (close s).
Proof. intros [Hi Hd Hl Hp Hv]. split; cbn; done. Qed.

Lemma inv_probe_none es s e : inv es s → inv (es ++ [e]) (set_probe None s).
Proof.
  intros [Hi Hd Hl Hp Hv]. split; cbn; try done. intros Hne. by apply lease_of_snoc, Hv.
Qed.

Lemma inv_probe_begin es s now :
  inv es s → inv (es ++ [EvProbeBegin now]) (probe_begin now s).
Proof.
  intros H. unfold probe_begin. pose proof (inv_check_admits es s now H) as Ha.
  destruct (check_admits now s) as [s' b]. cbn in Ha.
  apply (sup_snoc es s' (EvProbeBegin now)) in Ha; [|done].
  destruct b; [|done]. destruct Ha as [Hi Hd Hl Hp Hv]. split; cbn; try done.
  intros t [= <-]. apply probing_begin.
Qed.

Lemma check_admits_true s now s' :
  check_admits now s = (s', true) →
  s' = s ∧ sp_failed s = false ∧ sp_closed s = false.
Proof.
  unfold check_admits, available, available_in, expire, _fail.
  destruct (sp_closed s) eqn:Hc, (sp_failed s) eqn:Hf; cbn; try congruence.
  intros H. repeat case_match; simplify_eq; cbn in *; try done; try congruence.
Qed.

Lemma inv_probe_end es s now t o :
  inv es s → sp_probe s = Some t →
  inv (es ++ [EvProbeEnd now o]) (set_probe None (probe_end now t o s)).
Proof.
  intros H Ht. pose proof (inv_check_admits es s now H) as Ha.
  unfold probe_end. destruct (check_admits now s) as [s' b] eqn:E. cbn in Ha.
  assert (∀ r s1, inv es s1 → inv (es ++ [EvProbeEnd now o]) (set_probe None (_fail r s1))) as Hf.
  { intros r s1 H1. by apply inv_probe_none, sup_fail. }
  destruct o; [| |by apply Hf|by apply Hf|by apply inv_probe_none].
  - destruct b; cbn; [|by apply inv_probe_none].
    destruct (check_admits_true _ _ _ E) as (-> & Hff & Hcc).
    case_match; [by apply Hf|]. case_match; [by apply Hf|].
    apply orb_false_iff in H1 as [Hr Hr']. apply negb_false_iff in Hr, Hr'.
    apply bool_decide_eq_true in Hr. apply Z.leb_gt in H0.
    destruct Ha as [Hi Hd Hl Hp Hv]. split; cbn; try done.
    + intros [|]; congruence.
    + intros _. exists t, now, h. repeat split; try done; try lia.
      by apply probing_granted, Hp.
  - destruct b; cbn; [|by apply inv_probe_none]. case_match; by apply Hf.
Qed.

Lemma sup_step es s e s' : step s e s' → inv es s → inv (es ++ [e]) s'.
Proof.
  intros Hs H. destruct Hs.
  - apply sup_snoc; [done|by apply sup_expire].
  - apply sup_snoc; [done|by apply inv_state].
  - by apply inv_probe_begin.
  - by apply inv_probe_end.
  - apply sup_snoc; [done|by apply sup_fail].
  - apply sup_snoc; [done|]. apply inv_set_initialized. case_match; [done|by apply sup_fail].
  - apply sup_snoc; [done|]. by apply inv_close.
Qed.

Lemma sup_steps s0 es s : steps s0 es s → inv [] s0 → inv es s.
Proof. intros Hs H0. induction Hs; [done|]. eapply sup_step; [done|by apply IHHs]. Qed.

End Steps.

Lemma sup_init i d sd b s :
  mk_supervisor i d sd b = Ok s → sup_inv i d [] s ∧ 0 < i ∧ 0 < d.
Proof.
  unfold mk_supervisor, require. repeat case_match; cbn; intros [= <-]. 
  all: try done. split; [|lia]. split; cbn; try done.
Qed.

(** ** A lost authority stays lost *)

(** What a failure or a close leaves for good: the flags, and the first failure's reason. *)
Definition lost (s s' : supervisor) : Prop :=
  (sp_failed s = true → sp_failed s' = true ∧ sp_reason s' = sp_reason s) ∧
  (sp_closed s = true → sp_closed s' = true).

Lemma lost_refl s : lost s s.
Proof. by split. Qed.
Lemma lost_trans s1 s2 s3 : lost s1 s2 → lost s2 s3 → lost s1 s3.
Proof.
  intros [Hf Hc] [Hf' Hc']. split; [|by auto].
  intros H. destruct (Hf H) as [H1 H2]. destruct (Hf' H1) as [H3 H4]. split; congruence.
Qed.

Lemma lost_fail r s : lost s (_fail r s).
Proof.
  unfold _fail. destruct (sp_failed s) eqn:E; cbn; [apply lost_refl|].
  destruct (sp_closed s) eqn:E'; cbn; [apply lost_refl|]. split; cbn; congruence.
Qed.
Lemma lost_expire now s : lost s (expire now s).
Proof. unfold expire. case_match; [apply lost_fail|apply lost_refl]. Qed.
Lemma lost_check_admits now s : lost s (check_admits now s).1.
Proof.
  unfold check_admits, available. repeat case_match; try apply lost_refl. apply lost_expire.
Qed.
Lemma lost_state now s : lost s (state now s).1.
Proof. unfold state, available. case_match; [apply lost_refl|apply lost_expire]. Qed.
Lemma lost_probe_begin now s : lost s (probe_begin now s).
Proof.
  unfold probe_begin. pose proof (lost_check_admits now s) as H.
  destruct (check_admits now s) as [s' []]; exact H.
Qed.
Lemma lost_probe_end now t o s : lost s (probe_end now t o s).
Proof.
  unfold probe_end. pose proof (lost_check_admits now s) as H.
  destruct (check_admits now s) as [s' b]; cbn in H.
  repeat case_match; try exact H; try apply lost_fail; try apply lost_refl;
    try (eapply lost_trans; [exact H|apply lost_fail]).
Qed.

Lemma lost_step s e s' : step s e s' → lost s s'.
Proof.
  intros Hs. destruct Hs.
  - apply lost_expire.
  - apply lost_state.
  - apply lost_probe_begin.
  - apply (lost_probe_end now t o s).
  - apply lost_fail.
  - unfold monitor_stopped. case_match; [by split|apply (lost_fail "monitor_stopped" s)].
  - by split.
Qed.

Lemma lost_steps s es s' : steps s es s' → lost s s'.
Proof.
  intros Hs. induction Hs; [apply lost_refl|].
  eapply lost_trans; [exact IHHs|]. by eapply lost_step.
Qed.

Lemma available_true now s :
  (available now s).2 = true →
  sp_failed s = false ∧ sp_closed s = false ∧ sp_valid_until s ≠ 0 ∧ now < sp_valid_until s.
Proof.
  unfold available, available_in, expire, _fail; cbn.
  destruct (sp_closed s) eqn:?, (sp_failed s) eqn:?, (sp_valid_until s =? 0) eqn:?,
    (sp_valid_until s <=? now) eqn:?; cbn; rewrite ?Heqb, ?Heqb0, ?Heqb1; cbn; try done.
  intros _. repeat split; lia.
Qed.

(** ** The property *)

(** Property C14: the health authority fails closed.  In every history of a supervisor, whatever the
    interleaving of probes, reads, timeouts, the monitor's end and [close]: if [available]
    answers true at time [now], then a whole probe, started less than interval + timeout
    before [now], came back within the timeout with a record that is READY and ready; and
    once the supervisor failed or was closed, no later history makes [available] true
    again, [state] says so, and the reason recorded first is kept. *)
Theorem supervisor_fail_closed interval timeout shutdown same s0 es s :
  mk_supervisor interval timeout shutdown same = Ok s0 →
  steps s0 es s →
  (∀ now, (available now s).2 = true →
     ∃ t t' h, granted es t t' h ∧ rh_state h = READY ∧ rh_ready h = true ∧
       t' - t < timeout ∧ now < t + interval + timeout) ∧
  (sp_failed s = true ∨ sp_closed s = true →
   ∀ es' s', steps s es' s' → ∀ now,
     (available now s').2 = false ∧
     (state now s').2 = (if sp_closed s' then "stopped" else "failed") ∧
     (sp_failed s = true → sp_reason s' = sp_reason s)).
Proof.
  intros Hm Hs. destruct (sup_init _ _ _ _ _ Hm) as (H0 & Hi & Hd).
  pose proof (sup_steps _ _ _ _ _ Hs H0) as H. split.
  - intros now (_ & _ & Hv & Hlt)%available_true.
    destruct (si_lease _ _ _ _ H Hv) as (t & t' & h & Hg & Hr & Hr' & Hb & Hv').
    exists t, t', h. repeat split; try done. lia.
  - intros Hl es' s' Hs' now. destruct (lost_steps _ _ _ Hs') as [Hf Hc].
    assert ((available now s').2 = false) as Ha.
    { apply not_true_iff_false. intros (Hf' & Hc' & _)%available_true.
      destruct Hl as [[Hl _]%Hf|Hl%Hc]; congruence. }
    split; [done|]. split; [|intros [_ ?]%Hf; done].
    unfold state. destruct (sp_closed s') eqn:Ec; [done|].
    destruct Hl as [[Hl _]%Hf|Hl%Hc]; [|congruence].
    destruct (available now s') as [s1 b] eqn:E. cbn in Ha; subst b. cbn.
    pose proof (proj1 (lost_expire now s') Hl) as [Hs1 _].
    unfold available in E. injection E as <- _. by rewrite Hs1.
Qed.

(** A probe that starts at 10 is granted at 12; at 14 it is available, at 16 the lease of
    one tick interval and five ticks timeout has run out and the supervisor is failed. *)
Definition probe_ok : RuntimeHealth :=
  {| rh_state := READY; rh_ready := true; rh_detail := None; rh_metadata := [] |}.
Definition probed_events : list event := [EvProbeBegin 10; EvProbeEnd 12 (ProbeHealth probe_ok)].
Definition fresh_supervisor : supervisor :=
  {| sp_interval := 1; sp_timeout := 5; sp_initialized := false; sp_failed := false;
     sp_valid_until := 0; sp_reason := None; sp_probe := None; sp_started := false;
     sp_closed := false |}.
Definition probed : supervisor := set_valid 16 fresh_supervisor.

Lemma probed_steps : steps fresh_supervisor probed_events probed.
Proof.
  apply (steps_snoc _ [EvProbeBegin 10] (set_probe (Some 10) fresh_supervisor)).
  - apply (steps_snoc _ [] fresh_supervisor); [constructor|].
    by apply (st_begin 10 fresh_supervisor).
  - by apply (st_end 12 10 (ProbeHealth probe_ok) (set_probe (Some 10) fresh_supervisor)).
Qed.

Lemma supervisor_fail_closed_witness :
  (available 14 probed).2 = true ∧
  (∃ t t' h, granted probed_events t t' h ∧ rh_state h = READY ∧ rh_ready h = true ∧
     t' - t < 5 ∧ 14 < t + 1 + 5) ∧
  (available 14 (available 16 probed).1).2 = false.
Proof.
  pose proof (supervisor_fail_closed 1 5 60 true fresh_supervisor) as P.
  split; [reflexivity|split].
  - destruct (P probed_events probed eq_refl probed_steps) as [Hg _].
    exact (Hg 14 eq_refl).
  - destruct (P _ _ eq_refl (steps_snoc _ _ _ _ _ probed_steps (st_read 16 probed)))
      as [_ Hl].
    exact (proj1 (Hl (or_introl eq_refl) [] _ (steps_nil _) 14)).
Defined.
