(* ===== verification/WorkerRuntime.v ===== *)
(** * The worker's execution loop

    Models [WorkerRuntime] of [src/src/astrumweaver/worker/runtime.py]: registration, heartbeats,
    claims, execution and terminal writes of one worker.  A coroutine is a computation over
    the worker's fields and a [World]: the clock, the network, the executor, the health
    supervisor and the other tasks.  Every await can bring signals (a drain or stop request,
    cancellation); taking the control lock can first run the drain sections of the signal
    task.  Every request is logged with the fields it was sent under. *)

From S2P Require Import Prelude PyStr PyDict PyVal Contracts Models Serde Client.

(** ** The world *)

(** What other tasks did during an await. *)
Record signals := { sg_drain : bool; sg_stop : bool; sg_cancel : bool }.
Definition no_signals : signals := {| sg_drain := false; sg_stop := false; sg_cancel := false |}.

(** How an execution task ended: a value ([None] when it is not a [JobResult]), an exception
    with its type name and text, or cancellation. *)
Inductive exec_outcome :=
  | ExecReturned (r : option JobResult)
  | ExecRaised (type_name message : string)
  | ExecCancelled.

Class World (W : Type) := {
  w_time : W → Z;
  w_exchange : http_request → W → W * signals * http_outcome;
  w_wait : Z → W → W * signals;
  w_lock : W → W * signals * nat;
  w_start : JobRequest → W → W;
  w_execution : W → option exec_outcome;
  w_cancel : string → W → W * signals * result unit;
  w_available : W → W * bool;
  w_failed : W → bool;
  w_supervise : W → W * signals * result unit;
  w_check : W → W * signals;
  w_close : W → W * signals;
  w_shutdown : W → W * signals * result unit;
}.

(** Time is not negative, and reading a flag takes none. *)
Class LawfulWorld (W : Type) `{World W} := {
  time_nonneg w : 0 ≤ w_time w;
  available_time w : w_time (w_available w).1 = w_time w;
}.

(** The requests of the worker. *)
Inductive command :=
  | CRegister
  | CHeartbeat (active : option ClaimedJob) (state : option WorkerState)
  | CClaim
  | CInspect (job_id : string)
  | CComplete (job_id lease_token : string) (res : JobResult)
  | CFail (job_id lease_token : string) (error : pyval) (retryable : bool)
  | CSetState (state : WorkerState).

(** ** State *)

(** The fields of [WorkerRuntime], worker/runtime.py lines 145-177. *)
Record fields := {
  f_stop : bool;
  f_draining : bool;
  f_registered : bool;
  f_control_state : option WorkerState;
  f_control_valid_until : Z;
  f_next_heartbeat_at : Z;
  f_active : option ClaimedJob;
}.

(** A request, when and under which fields it was sent, and its outcome. *)
Record entry := {
  e_fields : fields;
  e_time : Z;
  e_command : command;
  e_outcome : http_outcome;
}.

Record rt (W : Type) := {
  rt_fields : fields;
  rt_world : W;
  rt_log : list entry;
}.
Arguments rt_fields {W} _.
Arguments rt_world {W} _.
Arguments rt_log {W} _.

Section worker.
Context {W : Type} `{World W}.

(** ** Configuration *)

Variable spec : WorkerSpec.
Variable max_concurrency : Z.
Variables poll_interval heartbeat_interval : Z.
(** [client.timeout_seconds], and whether there is a [runtime_supervisor]. *)
Variable request_timeout : Z.
Variable supervised : bool.

(** The client call behind each request. *)
Definition command_request (c : command) : http_request :=
  match c with
  | CRegister => rpc_request (Client.register spec max_concurrency
                                [("runtime", PStr "astrumweaver-worker")])
  | CHeartbeat active state =>
      rpc_request (Client.heartbeat (worker_id spec)
        ((λ c, jr_job_id (cj_request c)) <$> active) (cj_lease_token <$> active) state [])
  | CClaim => rpc_request (Client.claim (worker_id spec))
  | CInspect job_id => rpc_request (Client.inspect_job (worker_id spec) job_id)
  | CComplete job_id lease_token res =>
      rpc_request (Client.complete (worker_id spec) job_id lease_token res)
  | CFail job_id lease_token error retryable =>
      rpc_request (Client.fail (worker_id spec) job_id lease_token error retryable)
  | CSetState state => rpc_request (Client.set_state (worker_id spec) state)
  end.

(** What the client makes of an answer: an object, or a claim. *)
Definition answered (o : http_outcome) : result (dict pyval) := r ← _request o; _object r.2.
Definition claim_answered (o : http_outcome) : result (option ClaimedJob) :=
  rpc_result (Client.claim (worker_id spec)) o.

(** ** Computations *)

Definition M (A : Type) : Type := rt W → rt W * result A.
#[export] Instance M_ret : MRet M := λ A a s, (s, Ok a).
#[export] Instance M_bind : MBind M := λ A B k m s,
  match m s with
  | (s', Ok a) => k a s'
  | (s', Err e) => (s', Err e)
  end.

Definition throw {A} (e : exn) : M A := λ s, (s, Err e).
(** [try: m except ... as e: h e]; [h] raises again what it does not handle. *)
Definition catch {A} (m : M A) (h : exn → M A) : M A := λ s,
  match m s with
  | (s', Ok a) => (s', Ok a)
  | (s', Err e) => h e s'
  end.
(** [try: m finally: c]: an exception of [c] replaces the outcome of [m]. *)
Definition finally {A} (m : M A) (c : M unit) : M A := λ s,
  let '(s', r) := m s in
  match c s' with
  | (s'', Ok _) => (s'', r)
  | (s'', Err e) => (s'', Err e)
  end.
(** The same around a computation that can be out of fuel ([None]), which leaves it under
    way: its clause has not run. *)
Definition finally_done {A} (m : M (option A)) (c : M unit) : M (option A) := λ s,
  match m s with
  | (s', Ok None) => (s', Ok None)
  | (s', r) => finally (λ _, (s', r)) c s'
  end.
Definition when (b : bool) (m : M unit) : M unit := if b then m else mret tt.

Definition reads {A} (f : fields → A) : M A := λ s, (s, Ok (f (rt_fields s))).
Definition modify (f : fields → fields) : M unit := λ s,
  ({| rt_fields := f (rt_fields s); rt_world := rt_world s; rt_log := rt_log s |}, Ok tt).
Definition monotonic : M Z := λ s, (s, Ok (w_time (rt_world s))).

Definition absorb (sg : signals) (f : fields) : fields :=
  {| f_stop := sg_stop sg || f_stop f; f_draining := sg_drain sg || sg_stop sg || f_draining f;
     f_registered := f_registered f; f_control_state := f_control_state f;
     f_control_valid_until := f_control_valid_until f;
     f_next_heartbeat_at := f_next_heartbeat_at f; f_active := f_active f |}.

(** An await: the world moves, signals arrive, cancellation is raised here. *)
Definition awaiting {A} (act : W → W * signals * result A) : M A := λ s,
  let '(w, sg, r) := act (rt_world s) in
  ({| rt_fields := absorb sg (rt_fields s); rt_world := w; rt_log := rt_log s |},
   if sg_cancel sg then Err CancelledError else r).
Definition awaiting_unit (act : W → W * signals) : M unit :=
  awaiting (λ w, let '(w', sg) := act w in (w', sg, Ok tt)).

(** A request of the client, logged. *)
Definition call {A} (c : command) (decode : http_outcome → result A) : M A := λ s,
  let '(w, sg, o) := w_exchange (command_request c) (rt_world s) in
  ({| rt_fields := absorb sg (rt_fields s); rt_world := w;
      rt_log := rt_log s ++ [{| e_fields := rt_fields s; e_time := w_time (rt_world s);
                                e_command := c; e_outcome := o |}] |},
   if sg_cancel sg then Err CancelledError else decode o).

(** ** Field updates *)

Definition set_registered (b : bool) (f : fields) : fields :=
  {| f_stop := f_stop f; f_draining := f_draining f; f_registered := b;
     f_control_state := f_control_state f; f_control_valid_until := f_control_valid_until f;
     f_next_heartbeat_at := f_next_heartbeat_at f; f_active := f_active f |}.
Definition set_control (st : option WorkerState) (until : Z) (f : fields) : fields :=
  {| f_stop := f_stop f; f_draining := f_draining f; f_registered := f_registered f;
     f_control_state := st; f_control_valid_until := until;
     f_next_heartbeat_at := f_next_heartbeat_at f; f_active := f_active f |}.
Definition set_next (t : Z) (f : fields) : fields :=
  {| f_stop := f_stop f; f_draining := f_draining f; f_registered := f_registered f;
     f_control_state := f_control_state f; f_control_valid_until := f_control_valid_until f;
     f_next_heartbeat_at := t; f_active := f_active f |}.
Definition set_active (a : option ClaimedJob) (f : fields) : fields :=
  {| f_stop := f_stop f; f_draining := f_draining f; f_registered := f_registered f;
     f_control_state := f_control_state f; f_control_valid_until := f_control_valid_until f;
     f_next_heartbeat_at := f_next_heartbeat_at f; f_active := a |}.

(** ** Construction *)

(** [WorkerRuntime.__init__], worker/runtime.py lines 145-177. *)
Definition mk_WorkerRuntime (w : W) : result (rt W) :=
  require (max_concurrency =? 1)
    (ValueError "v1 WorkerRuntime currently requires max_concurrency=1");;
  require ((0 <? poll_interval) && (0 <? heartbeat_interval))
    (ValueError "worker intervals must be finite and positive");;
  Ok {| rt_fields := {| f_stop := false; f_draining := false; f_registered := false;
                        f_control_state := None; f_control_valid_until := 0;
                        f_next_heartbeat_at := 0; f_active := None |};
        rt_world := w; rt_log := [] |}.

(** ** Properties of the object *)

(** [control_available], worker/runtime.py lines 179-181. *)
Definition control_available_at (t : Z) (f : fields) : bool := t <? f_control_valid_until f.
Definition control_available : M bool := t ← monotonic; reads (control_available_at t).

(** [runtime_available], worker/runtime.py lines 198-200. *)
Definition runtime_available : M bool :=
  if supervised then λ s,
    let '(w, b) := w_available (rt_world s) in
    ({| rt_fields := rt_fields s; rt_world := w; rt_log := rt_log s |}, Ok b)
  else mret true.

(** [self.runtime_supervisor is not None and self.runtime_supervisor.failed.is_set()]. *)
Definition runtime_failed : M bool := λ s, (s, Ok (supervised && w_failed (rt_world s))).

(** [draining], worker/runtime.py lines 218-223. *)
Definition draining_in (failed : bool) (f : fields) : bool :=
  f_draining f || bool_decide (f_control_state f = Some DRAINING) || failed.

(** What [ready] reads of the fields, worker/runtime.py lines 187-196. *)
Definition ready_in (failed : bool) (t : Z) (f : fields) : bool :=
  negb (f_stop f) && f_registered f && negb (draining_in failed f) && control_available_at t f
  && bool_decide (f_control_state f = Some ONLINE).

(** [ready], worker/runtime.py lines 187-196. *)
Definition ready : M bool :=
  failed ← runtime_failed; t ← monotonic; b ← reads (ready_in failed t);
  if b : bool then runtime_available else mret false.

(** [_require_runtime], worker/runtime.py lines 210-212. *)
Definition _require_runtime : M unit :=
  b ← runtime_available;
  if b : bool then mret tt else throw (RuntimeUnavailable "RuntimeProvider health is unconfirmed").

(** [request_drain] and [request_stop], worker/runtime.py lines 229-236. *)
Definition request_drain : M unit :=
  modify (absorb {| sg_drain := true; sg_stop := false; sg_cancel := false |}).
Definition request_stop : M unit :=
  modify (absorb {| sg_drain := true; sg_stop := true; sg_cancel := false |}).

(** ** Control acknowledgements *)

(** [_control_failed], worker/runtime.py lines 238-245. *)
Definition _control_failed (status : Z) : M unit :=
  modify (λ f, set_control (f_control_state f) 0 f);;
  when (bool_decide (status ∈ [401; 403; 404])) (modify (set_registered false));;
  t ← monotonic;
  modify (set_next (t + heartbeat_interval)).

(** [except ControlTransportError as exc: self._control_failed(exc); raise]. *)
Definition or_control_failed {A} (m : M A) : M A :=
  catch m (λ e, match e with
                | ControlTransportError status _ => _control_failed status;; throw e
                | _ => throw e
                end).

(** The checks of [_acknowledge_control], worker/runtime.py lines 249-255. *)
Definition acknowledged_state (record : dict pyval) : result WorkerState :=
  require (py_eqb (get "protocol_version" record) (PStr PROTOCOL_VERSION))
    (ValueError "invalid Worker response");;
  raw ← item "state" record;
  state ← (match raw with PStr v => mk_WorkerState v
           | _ => Err (ValueError "not a valid WorkerState") end);
  raw_spec ← item "spec" record;
  observed ← worker_spec_from_dict raw_spec;
  require (WorkerSpec_eqb observed spec) (ValueError "Worker identity changed");;
  capacity ← item "max_concurrency" record;
  require (py_eqb capacity (PInt max_concurrency)) (ValueError "Worker capacity changed");;
  Ok state.

(** [_acknowledge_control], worker/runtime.py lines 247-268. *)
Definition _acknowledge_control (record : dict pyval) (sent_at : Z) : M unit :=
  match acknowledged_state record with
  | Ok state =>
      modify (set_registered true);;
      modify (set_control (Some state) (sent_at + heartbeat_interval + request_timeout))
  | Err (KeyError _ | TypeError _ | ValueError _) =>
      _control_failed 502;;
      throw (ControlTransportError 502 "invalid Worker acknowledgement")
  | Err e => throw e
  end.

(** [_heartbeat_locked], worker/runtime.py lines 287-313. *)
Definition _heartbeat_locked : M unit :=
  active ← reads f_active;
  sent_at ← monotonic;
  failed ← runtime_failed;
  local ← reads (λ f, (f_draining f || failed) && control_available_at sent_at f
                      && negb (bool_decide (f_control_state f = Some OFFLINE)));
  let state := if local : bool then Some DRAINING else None in
  finally
    (or_control_failed (
       record ← call (CHeartbeat active state) answered;
       _acknowledge_control record sent_at))
    (t ← monotonic; modify (set_next (t + heartbeat_interval))).

(** ** The control lock *)

(** One drain section of the signal task: [drain] under [contextlib.suppress(Exception)],
    worker/runtime.py lines 391-397. *)
Definition drain_section : M unit :=
  request_drain;;
  go ← reads (λ f, f_registered f && negb (f_stop f));
  when go (catch _heartbeat_locked (λ e,
    match e with CancelledError => throw e | _ => mret tt end)).

Fixpoint drain_sections (n : nat) : M unit :=
  match n with O => mret tt | S n' => drain_section;; drain_sections n' end.

(** [async with self._control_lock: body]. *)
Definition with_lock {A} (body : M A) : M A :=
  n ← awaiting (λ w, let '(w', sg, n) := w_lock w in (w', sg, Ok n));
  drain_sections n;;
  body.

(** [register], worker/runtime.py lines 270-285. *)
Definition register : M unit :=
  with_lock (
    sent_at ← monotonic;
    or_control_failed (
      record ← call CRegister answered;
      _acknowledge_control record sent_at);;
    t ← monotonic;
    modify (set_next (t + heartbeat_interval));;
    d ← reads f_draining;
    when d _heartbeat_locked).

(** [time.monotonic() >= self._next_heartbeat_at]. *)
Definition heartbeat_due : M bool := t ← monotonic; reads (λ f, f_next_heartbeat_at f <=? t).

(** [_heartbeat_if_due], worker/runtime.py lines 315-318. *)
Definition _heartbeat_if_due : M unit :=
  with_lock (b ← heartbeat_due; when b _heartbeat_locked).

(** [_wait_for_poll], worker/runtime.py lines 320-326. *)
Definition _wait_for_poll : M unit :=
  t ← monotonic;
  delay ← reads (λ f, Z.min poll_interval (Z.max 0 (f_next_heartbeat_at f - t)));
  awaiting_unit (w_wait delay).

(** ** Execution of a claim *)

Definition execution : M (option exec_outcome) := λ s, (s, Ok (w_execution (rt_world s))).
Definition start_execution (request : JobRequest) : M unit := λ s,
  ({| rt_fields := rt_fields s; rt_world := w_start request (rt_world s);
      rt_log := rt_log s |}, Ok tt).

(** The wait loop of [_execute_claim], worker/runtime.py lines 414-421; [None] when out of
    fuel. *)
Fixpoint execution_loop (fuel : nat) : M (option exec_outcome) :=
  match fuel with
  | O => mret None
  | S fuel' =>
      o ← execution;
      match o with
      | Some outcome => mret (Some outcome)
      | None =>
          _require_runtime;;
          _heartbeat_if_due;;
          _require_runtime;;
          t ← monotonic;
          delay ← reads (λ f, Z.max 0 (f_next_heartbeat_at f - t));
          awaiting_unit (w_wait delay);;
          execution_loop fuel'
      end
  end.

(** What is reported of an execution: a result, or an error and whether to retry,
    worker/runtime.py lines 423-444. *)
Definition reported (o : exec_outcome) : M (JobResult + pyval * bool) :=
  match o with
  | ExecReturned (Some r) => mret (inl r)
  | ExecReturned None =>
      mret (inr (PDict [("type", PStr "ExecutorProtocolError");
                        ("message", PStr "executor returned a non-JobResult value")], false))
  | ExecRaised type_name message =>
      when supervised (awaiting_unit w_check;; _require_runtime);;
      mret (inr (PDict [("type", PStr type_name); ("message", PStr message)], true))
  | ExecCancelled => throw CancelledError
  end.

(** The terminal write, worker/runtime.py lines 446-465. *)
Definition terminal_write (claimed : ClaimedJob) (report : JobResult + pyval * bool) : M unit :=
  let job_id := jr_job_id (cj_request claimed) in
  with_lock (
    due ← heartbeat_due;
    when due _heartbeat_locked;;
    _require_runtime;;
    ok ← control_available;
    when (negb ok) (throw (ControlTransportError 0 "Worker authority is unconfirmed"));;
    (match report with
     | inr (error, retryable) =>
         call (CFail job_id (cj_lease_token claimed) error retryable) answered
     | inl res => call (CComplete job_id (cj_lease_token claimed) res) answered
     end);;
    modify (set_active None)).

(** The handler of a lost transport, worker/runtime.py lines 466-477. *)
Definition abandon (claimed : ClaimedJob) (e : exn) : M (option unit) :=
  match e with
  | ControlTransportError status _ =>
      _control_failed status;;
      if status =? 409 then
        st ← with_lock (call (CInspect (jr_job_id (cj_request claimed))) answered);
        if py_eqb (get "status" st) (PStr "cancelled") then mret (Some tt) else throw e
      else throw e
  | _ => throw e
  end.

(** The [finally] clause of [_execute_claim], worker/runtime.py lines 478-495. *)
Definition join_execution (claimed : ClaimedJob) : M unit :=
  finally
    (o ← execution;
     when (if o is None then true else false)
       (awaiting (w_cancel (jr_job_id (cj_request claimed)))))
    (modify (set_active None)).

(** [_execute_claim], worker/runtime.py lines 399-495; [None] when out of fuel, with the
    execution still under way. *)
Definition _execute_claim (fuel : nat) (claimed : ClaimedJob) : M (option unit) :=
  active ← reads f_active;
  when (if active is Some _ then negb (bool_decide (cj_lease_token <$> active = Some (cj_lease_token claimed)))
        else false)
    (throw (RuntimeError "Worker already owns a different local attempt"));;
  _require_runtime;;
  modify (set_active (Some claimed));;
  start_execution (cj_request claimed);;
  finally_done
    (catch (o ← execution_loop fuel;
            match o with
            | None => mret None
            | Some outcome =>
                _require_runtime;;
                report ← reported outcome;
                terminal_write claimed report;;
                mret (Some tt)
            end) (abandon claimed))
    (join_execution claimed).

(** ** The main loop *)

(** The claim under the lock, worker/runtime.py lines 347-356: [None] when not ready. *)
Definition claim_locked : M (option (option ClaimedJob)) :=
  with_lock (
    b ← ready;
    if negb b then mret None
    else
      due ← heartbeat_due;
      when due _heartbeat_locked;;
      b ← ready;
      if negb b then mret None
      else
        claimed ← call CClaim claim_answered;
        modify (set_active claimed);;
        mret (Some claimed)).

(** One round of the loop of [run_forever], worker/runtime.py lines 339-375; [None] when the
    execution is out of fuel. *)
Definition round (fuel : nat) : M (option unit) :=
  catch (
    _heartbeat_if_due;;
    b ← ready;
    if negb b then _wait_for_poll;; mret (Some tt)
    else
      claimed ← claim_locked;
      match claimed with
      | None => mret (Some tt)
      | Some None => _wait_for_poll;; mret (Some tt)
      | Some (Some claimed) =>
          finally_done (_require_runtime;; _execute_claim fuel claimed) (modify (set_active None))
      end)
  (λ e, match e with
        | RuntimeUnavailable _ => _wait_for_poll;; mret (Some tt)
        | ControlTransportError status _ =>
            _control_failed status;; _wait_for_poll;; mret (Some tt)
        | _ => throw e
        end).

Fixpoint rounds (fuel : nat) : M (option unit) :=
  match fuel with
  | O => mret None
  | S fuel' =>
      stop ← reads f_stop;
      if stop : bool then mret (Some tt)
      else
        r ← round fuel;
        match r with None => mret None | Some _ => rounds fuel' end
  end.

(** [await self._stop.wait()]: still waiting ([None]) while nothing has stopped the worker,
    worker/runtime.py lines 334-337. *)
Definition await_stop : M (option unit) :=
  awaiting_unit (w_wait 0);;
  stop ← reads f_stop;
  mret (if stop : bool then Some tt else None).

(** The cleanup of [run_forever], worker/runtime.py lines 376-389. *)
Definition cleanup : M unit :=
  request_stop;;
  modify (λ f, set_control (f_control_state f) 0 f);;
  when supervised (awaiting_unit w_close;; awaiting w_shutdown);;
  with_lock (
    registered ← reads f_registered;
    when registered
      (catch (call (CSetState OFFLINE) answered;; mret tt)
         (λ e, match e with ControlTransportError _ _ => mret tt | _ => throw e end));;
    modify (set_registered false)).

(** [run_forever], worker/runtime.py lines 328-389; [None] when out of fuel. *)
Definition run_forever (fuel : nat) : M (option unit) :=
  finally_done
    (stop ← reads f_stop;
     if stop : bool then mret (Some tt)
     else
       when supervised (awaiting w_supervise);;
       b ← runtime_available;
       if negb b then await_stop
       else register;; rounds fuel)
    cleanup.
End worker.
Arguments M : clear implicits.
