(* ===== verification/WorkerRuntimeProps.v ===== *)
(** * Properties of the worker's execution loop

    A small Hoare logic for the worker's coroutines, and what it shows of the requests a
    worker sends: claims only under a fresh ONLINE acknowledgement and never while
    draining, at most one terminal write per claim, with that claim's lease, and a clean
    end. *)

From S2P Require Import Prelude PyStr PyDict PyVal Contracts Models Serde Client WorkerRuntime.

(** ** A Hoare logic *)

Section hoare.
Context {W : Type} `{World W}.
Implicit Types (P E : rt W → Prop).

(** From [P], [m] returns in [Q] or raises in [E]. *)
Definition hoare {A} P (m : M W A) (Q : A → rt W → Prop) E : Prop :=
  ∀ s, P s → match m s with (s', Ok a) => Q a s' | (s', Err _) => E s' end.

Lemma hoare_ret {A} P (a : A) E : hoare P (mret a) (λ _, P) E.
Proof. by intros s. Qed.

Lemma hoare_bind {A B} P (m : M W A) Q (k : A → M W B) R E :
  hoare P m Q E → (∀ a, hoare (Q a) (k a) R E) → hoare P (m ≫= k) R E.
Proof.
  intros Hm Hk s Hs. specialize (Hm s Hs). unfold mbind, M_bind.
  destruct (m s) as [s' [a|e]]; [by apply Hk|done].
Qed.

Lemma hoare_catch {A} P (m : M W A) Q E (h : exn → M W A) E' :
  hoare P m Q E → (∀ e, hoare E (h e) Q E') → hoare P (catch m h) Q E'.
Proof.
  intros Hm Hh s Hs. specialize (Hm s Hs). unfold catch. destruct (m s) as [s' [a|e]]; [done|].
  by apply Hh.
Qed.

Lemma hoare_finally {A} P (m : M W A) Q E (c : M W unit) Q' E' :
  hoare P m Q E → (∀ a, hoare (Q a) c (λ _, Q' a) E') → hoare E c (λ _, E') E' →
  hoare P (finally m c) Q' E'.
Proof.
  intros Hm Hq He s Hs. specialize (Hm s Hs). unfold finally. destruct (m s) as [s' [a|e]].
  - specialize (Hq a s' Hm). by destruct (c s') as [s'' []].
  - specialize (He s' Hm). by destruct (c s') as [s'' []].
Qed.

(** Out of fuel, the clause has not run. *)
Lemma hoare_finally_done {A} P (m : M W (option A)) Q E (c : M W unit) Q' E' :
  hoare P m Q E → (∀ a, hoare (Q (Some a)) c (λ _, Q' (Some a)) E') →
  (∀ s, Q None s → Q' None s) → hoare E c (λ _, E') E' →
  hoare P (finally_done m c) Q' E'.
Proof.
  intros Hm Hq Hn He s Hs. specialize (Hm s Hs). unfold finally_done, finally.
  destruct (m s) as [s' [[a|]|e]].
  - specialize (Hq a s' Hm). by destruct (c s') as [s'' []].
  - by apply Hn.
  - specialize (He s' Hm). by destruct (c s') as [s'' []].
Qed.

Lemma hoare_when P b (m : M W unit) Q E :
  (b = true → hoare P m Q E) → (b = false → ∀ s, P s → Q tt s) → hoare P (when b m) Q E.
Proof. destruct b; [intros Hm _; by apply Hm|intros _ Hf s Hs; by apply Hf]. Qed.

Lemma hoare_conseq {A} P P' (m : M W A) Q Q' E E' :
  hoare P' m Q' E' → (∀ s, P s → P' s) → (∀ a s, Q' a s → Q a s) → (∀ s, E' s → E s) →
  hoare P m Q E.
Proof.
  intros Hm Hp Hq He s Hs. specialize (Hm s (Hp s Hs)). destruct (m s) as [s' []]; auto.
Qed.

Lemma hoare_true {A} (m : M W A) : hoare (λ _, True) m (λ _ _, True) (λ _, True).
Proof. intros s _. by destruct (m s) as [s' []]. Qed.

(** An invariant. *)
Definition keeps {A} P (m : M W A) : Prop := hoare P m (λ _, P) P.

Lemma hoare_finally_keeps {A} P I (m : M W A) c :
  hoare P m (λ _, I) I → keeps I c → hoare P (finally m c) (λ _, I) I.
Proof. intros. by eapply hoare_finally. Qed.

Lemma keeps_ret {A} P (a : A) : keeps P (mret a).
Proof. apply hoare_ret. Qed.
Lemma keeps_throw {A} P e : keeps P (throw (A:=A) e).
Proof. by intros s. Qed.
Lemma keeps_bind {A B} P (m : M W A) (k : A → M W B) :
  keeps P m → (∀ a, keeps P (k a)) → keeps P (m ≫= k).
Proof. intros. by eapply hoare_bind. Qed.
Lemma keeps_catch {A} P (m : M W A) h : keeps P m → (∀ e, keeps P (h e)) → keeps P (catch m h).
Proof. intros. by eapply hoare_catch. Qed.
Lemma keeps_finally {A} P (m : M W A) c : keeps P m → keeps P c → keeps P (finally m c).
Proof. intros. by eapply hoare_finally. Qed.
Lemma keeps_finally_done {A} P (m : M W (option A)) c :
  keeps P m → keeps P c → keeps P (finally_done m c).
Proof. intros. by eapply hoare_finally_done. Qed.
Lemma keeps_when P b m : keeps P m → keeps P (when b m).
Proof. intros. by apply hoare_when. Qed.
Lemma keeps_reads {A} P (f : fields → A) : keeps P (reads f).
Proof. by intros s. Qed.
Lemma keeps_monotonic P : keeps P monotonic.
Proof. by intros s. Qed.
Lemma keeps_runtime_failed P b : keeps P (runtime_failed b).
Proof. by intros s. Qed.
Lemma keeps_execution P : keeps P execution.
Proof. by intros s. Qed.
End hoare.

Create HintDb hoare discriminated.
#[export] Hint Resolve keeps_ret keeps_throw keeps_bind keeps_catch keeps_finally
  keeps_finally_done keeps_when keeps_reads keeps_monotonic keeps_runtime_failed
  keeps_execution : hoare.

(** ** What the log records *)

Section log.
Variable spec : WorkerSpec.
Variable max_concurrency : Z.

(** Control acknowledged the worker in state [st]. *)
Definition acknowledges (e : entry) (st : WorkerState) : Prop :=
  ∃ record, answered (e_outcome e) = Ok record ∧
    acknowledged_state spec max_concurrency record = Ok st.

(** The claims the log grants, and its terminal writes. *)
Definition granted (l : list entry) : list ClaimedJob :=
  e ← l;
  match e_command e with
  | CClaim => match claim_answered spec (e_outcome e) with Ok (Some c) => [c] | _ => [] end
  | _ => []
  end.
Definition is_terminal (c : command) : bool :=
  match c with CComplete _ _ _ | CFail _ _ _ _ => true | _ => false end.
Definition terminals (l : list entry) : nat :=
  length (filter (λ e, is_terminal (e_command e)) l).

Variables heartbeat_interval request_timeout : Z.

(** Control's acknowledgement in state [st] was requested less than an interval and a
    timeout before [t]. *)
Definition authority (l : list entry) (st : option WorkerState) (t : Z) : Prop :=
  ∃ e0 st0, e0 ∈ l ∧ st = Some st0 ∧ acknowledges e0 st0 ∧
    t < e_time e0 + heartbeat_interval + request_timeout.

(** What must hold of a request, given the requests before it. *)
Definition entry_ok (pre : list entry) (e : entry) : Prop :=
  let f := e_fields e in
  match e_command e with
  | CClaim =>
      f_stop f = false ∧ f_draining f = false ∧ f_registered f = true ∧
      f_control_state f = Some ONLINE ∧ authority pre (Some ONLINE) (e_time e)
  | CComplete job_id lease_token _ | CFail job_id lease_token _ _ =>
      (∃ c, last (granted pre) = Some c ∧ job_id = jr_job_id (cj_request c) ∧
        lease_token = cj_lease_token c) ∧
      (terminals pre < length (granted pre))%nat ∧
      authority pre (f_control_state f) (e_time e)
  | CHeartbeat active _ => active = f_active f
  | _ => True
  end ∧ ∀ e', e' ∈ pre → f_draining (e_fields e') = true → f_draining f = true.

Definition log_ok (l : list entry) : Prop :=
  ∀ pre e post, l = pre ++ e :: post → entry_ok pre e.

Lemma log_ok_nil : log_ok [].
Proof. intros [|x pre] y post E; discriminate E. Qed.

Lemma log_ok_snoc l e : log_ok l → entry_ok l e → log_ok (l ++ [e]).
Proof.
  intros Hl He pre e' post E. destruct post as [|p post _] using rev_ind.
  - apply app_inj_tail in E as [-> ->]. done.
  - rewrite app_comm_cons, app_assoc in E. apply app_inj_tail in E as [-> _]. by eapply Hl.
Qed.

Lemma granted_app l l' : granted (l ++ l') = granted l ++ granted l'.
Proof. unfold granted. apply bind_app. Qed.
Lemma terminals_app l l' : terminals (l ++ l') = (terminals l + terminals l')%nat.
Proof. unfold terminals. by rewrite filter_app, length_app. Qed.

Lemma authority_app l l' st t : authority l st t → authority (l ++ l') st t.
Proof. intros (e0 & st0 & Hin & ?). exists e0, st0. split; [|done]. apply elem_of_app. by left. Qed.
End log.

(** ** The invariant *)

Section invariant.
Context {W : Type} `{LW : LawfulWorld W}.
Variable spec : WorkerSpec.
Variable max_concurrency : Z.
Variables poll_interval heartbeat_interval request_timeout : Z.
Variable supervised : bool.

#[local] Abbreviation authority := (authority spec max_concurrency heartbeat_interval request_timeout).
#[local] Abbreviation log_ok := (log_ok spec max_concurrency heartbeat_interval request_timeout).
#[local] Abbreviation entry_ok := (entry_ok spec max_concurrency heartbeat_interval request_timeout).
#[local] Abbreviation granted := (granted spec).
#[local] Abbreviation CALL := (call spec max_concurrency).

(** The log is in order, the local window of authority has its acknowledgement, and every
    terminal write has its claim; with [Some c], the last claim granted is [c] and it is not
    yet reported. *)
Record good (o : option ClaimedJob) (s : rt W) : Prop := {
  good_log : log_ok (rt_log s);
  good_authority :
    f_control_valid_until (rt_fields s) ≤ 0 ∨
    ∃ e0 st0, e0 ∈ rt_log s ∧ f_control_state (rt_fields s) = Some st0 ∧
      acknowledges spec max_concurrency e0 st0 ∧
      f_control_valid_until (rt_fields s) = e_time e0 + heartbeat_interval + request_timeout;
  good_draining e : e ∈ rt_log s → f_draining (e_fields e) = true →
    f_draining (rt_fields s) = true;
  good_terminals : (terminals (rt_log s) ≤ length (granted (rt_log s)))%nat;
  good_claim c : o = Some c → last (granted (rt_log s)) = Some c ∧
    (terminals (rt_log s) < length (granted (rt_log s)))%nat;
}.

Lemma good_weaken o s : good o s → good None s.
Proof. intros []. by split. Qed.

(** Authority at a time when [control_available] holds. *)
Lemma good_available o s : good o s →
  control_available_at (w_time (rt_world s)) (rt_fields s) = true →
  authority (rt_log s) (f_control_state (rt_fields s)) (w_time (rt_world s)).
Proof.
  intros G Ht. apply Z.ltb_lt in Ht. pose proof (time_nonneg (rt_world s)).
  destruct (good_authority o s G) as [?|(e0 & st0 & Hin & Hst & Ha & Hv)]; [lia|].
  exists e0, st0. split_and!; try done. lia.
Qed.

(** Field updates that leave authority and the drain flag alone. *)
Lemma good_modify o (f : fields → fields) :
  (∀ x, f_control_valid_until (f x) = f_control_valid_until x ∧
        f_control_state (f x) = f_control_state x ∧
        (f_draining x = true → f_draining (f x) = true)) →
  keeps (W:=W) (good o) (modify f).
Proof.
  intros Hf s G. cbn. destruct (Hf (rt_fields s)) as (E1 & E2 & E3).
  destruct G. split; cbn; try done; [by rewrite E1, E2|]. intros e Hin Hd. apply E3. eauto.
Qed.

(** Authority can always be dropped. *)
Lemma good_drop o : keeps (W:=W) (good o) (modify (λ f, set_control (f_control_state f) 0 f)).
Proof. intros s G. destruct G. split; cbn; try done. by left. Qed.

(** The world moves, signals come. *)
Lemma good_world o s w sg : good o s →
  good o {| rt_fields := absorb sg (rt_fields s); rt_world := w; rt_log := rt_log s |}.
Proof.
  intros []. split; cbn; try done. intros e Hin Hd.
  rewrite (good_draining0 e Hin Hd). by rewrite orb_true_r.
Qed.

Lemma good_awaiting o {A} (act : W → W * signals * result A) : keeps (good o) (awaiting act).
Proof.
  intros s G. unfold awaiting. destruct (act (rt_world s)) as [[w sg] r].
  pose proof (good_world o s w sg G). destruct (sg_cancel sg); [done|]. by destruct r.
Qed.

Lemma good_awaiting_unit o act : keeps (good o) (awaiting_unit act).
Proof. apply good_awaiting. Qed.

Lemma good_available_read o : keeps (good o) (runtime_available supervised).
Proof.
  unfold runtime_available. destruct supervised; [|apply keeps_ret].
  intros s G. destruct (w_available (rt_world s)) as [w b]. cbn. by destruct G.
Qed.

Lemma good_start o request : keeps (good o) (start_execution request).
Proof. intros s G. cbn. by destruct G. Qed.

(** ** Requests *)

Definition is_claim (c : command) : bool := match c with CClaim => true | _ => false end.

(** The log after a request, in general. *)
Lemma good_call_state o o' (c : command) s w sg out : good o s →
  let e := {| e_fields := rt_fields s; e_time := w_time (rt_world s);
              e_command := c; e_outcome := out |} in
  entry_ok (rt_log s) e →
  (terminals (rt_log s ++ [e]) ≤ length (granted (rt_log s ++ [e])))%nat →
  (∀ cj, o' = Some cj → last (granted (rt_log s ++ [e])) = Some cj ∧
     (terminals (rt_log s ++ [e]) < length (granted (rt_log s ++ [e])))%nat) →
  good o' {| rt_fields := absorb sg (rt_fields s); rt_world := w; rt_log := rt_log s ++ [e] |}.
Proof.
  intros G e He Ht Hc. destruct G. split; cbn; try done.
  - by apply log_ok_snoc.
  - destruct good_authority0 as [?|(e0 & st0 & Hin & ?)]; [by left|right].
    exists e0, st0. split; [|done]. apply elem_of_app. by left.
  - intros e' [Hin|Hin%list_elem_of_singleton]%elem_of_app Hd.
    + rewrite (good_draining0 e' Hin Hd). by rewrite orb_true_r.
    + subst e'. cbn in Hd. rewrite Hd. by rewrite orb_true_r.
Qed.

Lemma plain_log (c : command) l f t out : is_claim c = false → is_terminal c = false →
  let e := {| e_fields := f; e_time := t; e_command := c; e_outcome := out |} in
  granted (l ++ [e]) = granted l ∧ terminals (l ++ [e]) = terminals l.
Proof.
  intros Hc Ht e. rewrite granted_app, terminals_app. split.
  - unfold granted. cbn. destruct c; try done; by rewrite !app_nil_r.
  - unfold terminals at 2. rewrite filter_cons. rewrite decide_False; [cbn; lia|].
    unfold e. cbn [e_command]. rewrite Ht. by intros [].
Qed.

(** A request that is neither a claim nor a terminal write. *)
Lemma good_call o {A} (c : command) (decode : http_outcome → result A) :
  is_claim c = false → is_terminal c = false →
  hoare (λ s, good o s ∧ match c with CHeartbeat a _ => a = f_active (rt_fields s) | _ => True end)
    (CALL c decode) (λ _, good o) (good o).
Proof.
  intros Hc Ht s [G Ha]. unfold call.
  destruct (w_exchange _ (rt_world s)) as [[w sg] out].
  assert (good o {| rt_fields := absorb sg (rt_fields s); rt_world := w;
    rt_log := rt_log s ++ [{| e_fields := rt_fields s; e_time := w_time (rt_world s);
                              e_command := c; e_outcome := out |}] |}) as G'.
  { destruct (plain_log c (rt_log s) (rt_fields s) (w_time (rt_world s)) out Hc Ht) as [Eg Et].
    apply (good_call_state o); [done| |rewrite Eg, Et; apply G|rewrite Eg, Et; apply G].
    split; [|intros e' Hin Hd; by apply (good_draining o s G e')]. by destruct c. }
  destruct (sg_cancel sg); [done|]. by destruct (decode out).
Qed.

(** A request answered by an object, at the time [t0] it was sent. *)
Definition asked_at (o : option ClaimedJob) (t0 : Z) (record : dict pyval) (s : rt W) : Prop :=
  good o s ∧ ∃ e0, e0 ∈ rt_log s ∧ e_time e0 = t0 ∧ answered (e_outcome e0) = Ok record.

Lemma good_ask o t0 (c : command) : is_claim c = false → is_terminal c = false →
  hoare (λ s, good o s ∧ w_time (rt_world s) = t0 ∧
              match c with CHeartbeat a _ => a = f_active (rt_fields s) | _ => True end)
    (CALL c answered) (asked_at o t0) (good o).
Proof.
  intros Hc Ht s (G & Et & Ha). pose proof (good_call o c answered Hc Ht s (conj G Ha)) as G'.
  revert G'. unfold call. destruct (w_exchange _ (rt_world s)) as [[w sg] out].
  destruct (sg_cancel sg); [done|]. destruct (answered out) as [record|] eqn:E; [|done].
  intros G'. split; [done|]. cbn. eexists. split; [apply elem_of_app; right; left|]. done.
Qed.

Lemma good_control_failed o status : keeps (W:=W) (good o) (_control_failed heartbeat_interval status).
Proof.
  unfold _control_failed. apply keeps_bind; [apply good_drop|intros _].
  apply keeps_bind; [apply keeps_when, good_modify; done|intros _].
  apply keeps_bind; [apply keeps_monotonic|intros t]. by apply good_modify.
Qed.

Lemma good_or_failed {A} P o (m : M W A) Q : hoare P m Q (good o) →
  hoare P (or_control_failed heartbeat_interval m) Q (good o).
Proof.
  intros Hm. eapply hoare_catch; [exact Hm|]. intros [];
    try (by intros s G).
  eapply hoare_bind; [apply good_control_failed|]. by intros _ s G.
Qed.

Lemma good_acknowledge o t0 record :
  hoare (asked_at o t0 record)
    (_acknowledge_control spec max_concurrency heartbeat_interval request_timeout record t0)
    (λ _, good o) (good o).
Proof.
  intros s (G & e0 & Hin & Ht & Ha). unfold _acknowledge_control.
  destruct (acknowledged_state spec max_concurrency record) as [st|e] eqn:E.
  - cbn. destruct G. split; cbn; try done. right. exists e0, st. split_and!; try done.
    + by exists record.
    + by rewrite Ht.
  - destruct e; try done;
      (eapply hoare_bind; [apply good_control_failed| |exact G]; by intros _ s' G').
Qed.

Lemma good_set_next o t : keeps (W:=W) (good o) (modify (set_next t)).
Proof. by apply good_modify. Qed.
Lemma good_set_active o a : keeps (W:=W) (good o) (modify (set_active a)).
Proof. by apply good_modify. Qed.
Lemma good_set_registered o b : keeps (W:=W) (good o) (modify (set_registered b)).
Proof. by apply good_modify. Qed.
Lemma good_request_stop o : keeps (W:=W) (good o) request_stop.
Proof. by apply good_modify. Qed.
Lemma good_request_drain o : keeps (W:=W) (good o) request_drain.
Proof. by apply good_modify. Qed.

#[local] Hint Resolve good_drop good_awaiting good_awaiting_unit good_available_read good_start
  good_control_failed good_set_next good_set_active good_set_registered good_request_stop
  good_request_drain : hoare.

#[local] Abbreviation HB :=
  (_heartbeat_locked spec max_concurrency heartbeat_interval request_timeout supervised).

Lemma good_heartbeat o : keeps (good o) HB.
Proof.
  unfold _heartbeat_locked.
  apply (hoare_bind _ _ (λ a s, good o s ∧ a = f_active (rt_fields s))); [by intros s G|intros a].
  apply (hoare_bind _ _ (λ t s, good o s ∧ w_time (rt_world s) = t ∧ a = f_active (rt_fields s)));
    [by intros s []|intros t].
  apply (hoare_bind _ _ (λ _ s, good o s ∧ w_time (rt_world s) = t ∧ a = f_active (rt_fields s)));
    [by intros s G|intros failed].
  apply (hoare_bind _ _ (λ _ s, good o s ∧ w_time (rt_world s) = t ∧ a = f_active (rt_fields s)));
    [by intros s G|intros local].
  apply hoare_finally_keeps; [|auto with hoare].
  apply good_or_failed. eapply hoare_bind; [|intros record; apply good_acknowledge].
  by apply (good_ask o t (CHeartbeat a (if local : bool then Some DRAINING else None))).
Qed.

Lemma good_drain_sections o n : keeps (good o)
  (drain_sections spec max_concurrency heartbeat_interval request_timeout supervised n).
Proof.
  induction n as [|n IH]; cbn [drain_sections]; [auto with hoare|].
  apply keeps_bind; [|done]. unfold drain_section.
  apply keeps_bind; [auto with hoare|intros _]. apply keeps_bind; [auto with hoare|intros go].
  apply keeps_when, keeps_catch; [apply good_heartbeat|]. intros []; auto with hoare.
Qed.

#[local] Abbreviation LOCK :=
  (with_lock spec max_concurrency heartbeat_interval request_timeout supervised).

Lemma good_with_lock {A} o (body : M W A) Q :
  hoare (good o) body Q (good o) → hoare (good o) (LOCK body) Q (good o).
Proof.
  intros Hb. unfold with_lock. eapply hoare_bind; [apply good_awaiting|intros n].
  eapply hoare_bind; [apply good_drain_sections|intros u; exact Hb].
Qed.

Lemma keeps_with_lock {A} o (body : M W A) : keeps (good o) body → keeps (good o) (LOCK body).
Proof. apply good_with_lock. Qed.

Lemma good_due o : keeps (W:=W) (good o) heartbeat_due.
Proof. unfold heartbeat_due. auto with hoare. Qed.

#[local] Hint Resolve good_heartbeat good_due keeps_with_lock : hoare.

Lemma good_if_due o : keeps (good o)
  (_heartbeat_if_due spec max_concurrency heartbeat_interval request_timeout supervised).
Proof. unfold _heartbeat_if_due. auto with hoare. Qed.

Lemma good_register o : keeps (good o)
  (register spec max_concurrency heartbeat_interval request_timeout supervised).
Proof.
  unfold register. apply good_with_lock.
  apply (hoare_bind _ _ (λ t s, good o s ∧ w_time (rt_world s) = t ∧ True));
    [by intros s G|intros t].
  apply (hoare_bind _ _ (λ _, good o)); [|intros u; apply (keeps_bind (good o)); auto 6 with hoare].
  apply good_or_failed. eapply hoare_bind; [|intros record; apply good_acknowledge].
  by apply (good_ask o t CRegister).
Qed.

Lemma good_require o : keeps (good o) (_require_runtime supervised).
Proof.
  unfold _require_runtime. apply keeps_bind; [auto with hoare|intros []]; auto with hoare.
Qed.
Lemma good_wait o : keeps (W:=W) (good o) (_wait_for_poll poll_interval).
Proof. unfold _wait_for_poll. auto with hoare. Qed.

#[local] Hint Resolve good_if_due good_register good_require good_wait : hoare.

Lemma good_execution_loop o fuel : keeps (good o)
  (execution_loop spec max_concurrency heartbeat_interval request_timeout supervised fuel).
Proof.
  induction fuel as [|fuel IH]; cbn [execution_loop]; [auto with hoare|].
  apply keeps_bind; [auto with hoare|intros [out|]]; [auto with hoare|].
  do 3 (apply keeps_bind; [auto with hoare|intros _]). apply keeps_bind; [auto with hoare|intros t].
  apply keeps_bind; [auto with hoare|intros d]. apply keeps_bind; [auto with hoare|by intros _].
Qed.

Lemma good_reported o out : keeps (good o) (reported supervised out).
Proof. destruct out as [[r|]|n m|]; cbn [reported]; auto with hoare. Qed.

(** The terminal write reports the claim. *)
Lemma terminal_granted l f t c out : is_terminal c = true →
  let e := {| e_fields := f; e_time := t; e_command := c; e_outcome := out |} in
  granted (l ++ [e]) = granted l ∧ terminals (l ++ [e]) = S (terminals l).
Proof.
  intros Ht e. rewrite granted_app, terminals_app. split.
  - unfold granted. cbn. destruct c; try done; by rewrite !app_nil_r.
  - unfold terminals at 2. rewrite filter_cons. rewrite decide_True; [cbn; lia|].
    unfold e. cbn [e_command]. by rewrite Ht.
Qed.

Lemma good_report c (cmd : command) : 
  match cmd with
  | CComplete job_id token _ | CFail job_id token _ _ =>
      job_id = jr_job_id (cj_request c) ∧ token = cj_lease_token c
  | _ => False
  end →
  hoare (λ s, good (Some c) s ∧
              control_available_at (w_time (rt_world s)) (rt_fields s) = true)
    (CALL cmd answered) (λ _, good None) (good None).
Proof.
  intros Hcmd s [G Hav]. pose proof (good_available _ s G Hav) as Hauth.
  destruct (good_claim _ s G c eq_refl) as [Hlast Hlt]. unfold call.
  destruct (w_exchange _ (rt_world s)) as [[w sg] out].
  assert (is_terminal cmd = true) as Ht by by destruct cmd.
  assert (good None {| rt_fields := absorb sg (rt_fields s); rt_world := w;
    rt_log := rt_log s ++ [{| e_fields := rt_fields s; e_time := w_time (rt_world s);
                              e_command := cmd; e_outcome := out |}] |}) as G'.
  { destruct (terminal_granted (rt_log s) (rt_fields s) (w_time (rt_world s)) cmd out Ht) as [Eg Et].
    apply (good_call_state (Some c)); [done| |rewrite Eg, Et; lia|done].
    split; [|intros e' Hin Hd; by apply (good_draining _ s G e')].
    destruct cmd; try done; destruct Hcmd as [-> ->]; (split; [by exists c|done]). }
  destruct (sg_cancel sg); [done|]. by destruct (answered out).
Qed.

Lemma weaken_to_none {A} c (m : M W A) Q : hoare (good None) m Q (good None) →
  hoare (good (Some c)) m Q (good None).
Proof. intros Hm s G. by apply Hm, good_weaken with (Some c). Qed.

Lemma keeps_weaken {A} o (m : M W A) :
  keeps (good o) m → hoare (good o) m (λ _, good o) (good None).
Proof.
  intros Hm s G. specialize (Hm s G). destruct (m s) as [s' [a|e]]; [done|].
  by eapply good_weaken.
Qed.

Lemma good_terminal_write c report : hoare (good (Some c))
  (terminal_write spec max_concurrency heartbeat_interval request_timeout supervised c report)
  (λ _, good None) (good None).
Proof.
  unfold terminal_write, with_lock.
  eapply hoare_bind; [apply keeps_weaken, good_awaiting|intros n].
  eapply hoare_bind; [apply keeps_weaken, good_drain_sections|intros u]. cbn beta.
  eapply hoare_bind; [apply keeps_weaken, good_due|intros due]. cbn beta.
  eapply hoare_bind; [apply keeps_weaken, keeps_when, good_heartbeat|intros u1]. cbn beta.
  eapply hoare_bind; [apply keeps_weaken, good_require|intros u2]. cbn beta.
  apply (hoare_bind _ _ (λ b s, good (Some c) s ∧
    (b = true → control_available_at (w_time (rt_world s)) (rt_fields s) = true))).
  { intros s G. cbn. by split. }
  intros ok. apply (hoare_bind _ _ (λ _ s, good (Some c) s ∧
    control_available_at (w_time (rt_world s)) (rt_fields s) = true)).
  { destruct ok; intros s [G Hok]; cbn; [by split; [|apply Hok]|by eapply good_weaken]. }
  intros u3. apply (hoare_bind _ _ (λ _, good None)).
  - destruct report as [res|[error retryable]]; by apply good_report.
  - intros u4. apply good_set_active.
Qed.

(** What [ready] promises at the moment it is asked. *)
Definition admitted (s : rt W) : Prop :=
  f_stop (rt_fields s) = false ∧ f_draining (rt_fields s) = false ∧
  f_registered (rt_fields s) = true ∧ f_control_state (rt_fields s) = Some ONLINE ∧
  control_available_at (w_time (rt_world s)) (rt_fields s) = true.

Lemma good_ready o : hoare (good o) (ready supervised)
  (λ b s, good o s ∧ (b = true → admitted s)) (good o).
Proof.
  intros s G. unfold ready, mbind, M_bind. cbn [runtime_failed monotonic reads].
  destruct (ready_in (supervised && w_failed (rt_world s)) (w_time (rt_world s)) (rt_fields s)) eqn:E;
    [|by split].
  pose proof (good_available_read o s G) as G'.
  assert (∀ s' b, runtime_available supervised s = (s', b) →
    rt_fields s' = rt_fields s ∧ w_time (rt_world s') = w_time (rt_world s)) as Hs.
  { unfold runtime_available. intros s' b. destruct supervised; [|by intros [= <- <-]].
    pose proof (available_time (rt_world s)) as Ht. destruct (w_available (rt_world s)) as [w x].
    by intros [= <- <-]. }
  destruct (runtime_available supervised s) as [s' r]. specialize (Hs s' r eq_refl) as [Ef Et].
  destruct r as [b|e]; [|done]. split; [done|]. intros _. unfold admitted. rewrite Ef, Et.
  unfold ready_in, draining_in in E. rewrite !andb_true_iff, !negb_true_iff, bool_decide_eq_true in E.
  destruct E as ((((E1 & E2) & E3) & E4) & E5). rewrite !orb_false_iff in E3. tauto.
Qed.

Lemma claim_granted l f t out :
  let e := {| e_fields := f; e_time := t; e_command := CClaim; e_outcome := out |} in
  granted (l ++ [e]) = granted l ++ match claim_answered spec out with
                                    | Ok (Some c) => [c] | _ => [] end
  ∧ terminals (l ++ [e]) = terminals l.
Proof.
  intros e. rewrite granted_app, terminals_app. split.
  - f_equal. unfold granted. cbn. by rewrite app_nil_r.
  - unfold terminals at 2. rewrite filter_cons, decide_False by by intros []. cbn. lia.
Qed.

Lemma good_claim_call : hoare (λ s, good None s ∧ admitted s)
  (CALL CClaim (claim_answered spec)) (λ r, good r) (good None).
Proof.
  intros s [G (H1 & H2 & H3 & H4 & H5)]. pose proof (good_available _ s G H5) as Hauth. rewrite H4 in Hauth.
  unfold call. destruct (w_exchange _ (rt_world s)) as [[w sg] out].
  destruct (claim_granted (rt_log s) (rt_fields s) (w_time (rt_world s)) out) as [Eg Et].
  pose proof (good_terminals _ s G) as Hle.
  assert (∀ o', (∀ c, o' = Some c → claim_answered spec out = Ok (Some c)) →
    good o' {| rt_fields := absorb sg (rt_fields s); rt_world := w;
    rt_log := rt_log s ++ [{| e_fields := rt_fields s; e_time := w_time (rt_world s);
                              e_command := CClaim; e_outcome := out |}] |}) as G'.
  { intros o' Ho. apply (good_call_state None); [done| |rewrite Eg, Et, length_app; lia|].
    - split; [by split_and!|]. intros e' Hin Hd. by apply (good_draining _ s G e').
    - intros c ->. rewrite Eg, Et, (Ho c) by done. rewrite last_snoc, length_app. cbn. split; [done|lia]. }
  destruct (sg_cancel sg); [by apply G'|]. destruct (claim_answered spec out) as [[c|]|e] eqn:E.
  - by apply G'; intros ? [= <-].
  - by apply G'.
  - by apply G'.
Qed.

Lemma good_claim_locked : hoare (good None)
  (claim_locked spec max_concurrency heartbeat_interval request_timeout supervised)
  (λ r, good (mjoin r)) (good None).
Proof.
  unfold claim_locked. apply good_with_lock.
  eapply hoare_bind; [apply good_ready|intros b]. cbn beta.
  destruct b; cbn [negb]; [|by intros s [G _]].
  apply (hoare_bind _ _ (λ _, good None)); [intros s [G _]; by apply good_due|intros due].
  apply (hoare_bind _ _ (λ _, good None)); [apply keeps_when, good_heartbeat|intros u].
  eapply hoare_bind; [apply good_ready|intros b]. cbn beta.
  destruct b; cbn [negb]; [|by intros s [G _]].
  apply (hoare_bind _ _ (λ r, good r)).
  - intros s [G Ha]. apply good_claim_call. split; [done|by apply Ha].
  - intros claimed. eapply hoare_bind; [apply keeps_weaken, good_set_active|].
    intros u' s G. cbn. by destruct claimed.
Qed.

Lemma good_abandon c e : keeps (good None)
  (abandon spec max_concurrency heartbeat_interval request_timeout supervised c e).
Proof.
  destruct e; cbn [abandon]; auto with hoare. apply keeps_bind; [auto with hoare|intros _].
  destruct (_ =? 409); [|auto with hoare]. apply keeps_bind.
  - apply keeps_with_lock. eapply hoare_conseq; [by apply (good_call None (CInspect _) answered)|..]; try done.
  - intros st. destruct (py_eqb _ _); auto with hoare.
Qed.

Lemma good_join c : keeps (good None) (join_execution c).
Proof. unfold join_execution. auto with hoare. Qed.

Lemma good_execute fuel c : hoare (good (Some c))
  (_execute_claim spec max_concurrency heartbeat_interval request_timeout supervised fuel c)
  (λ _, good None) (good None).
Proof.
  unfold _execute_claim.
  eapply hoare_bind; [apply keeps_weaken, keeps_reads|intros active]. cbn beta.
  eapply hoare_bind; [apply keeps_weaken, keeps_when, keeps_throw|intros u]. cbn beta.
  eapply hoare_bind; [apply keeps_weaken, good_require|intros u1]. cbn beta.
  eapply hoare_bind; [apply keeps_weaken, good_set_active|intros u2]. cbn beta.
  eapply hoare_bind; [apply keeps_weaken, good_start|intros u3]. cbn beta.
  apply (hoare_finally_done _ _ (λ _, good None) (good None)); try done; [|intros a; apply good_join
    |apply good_join].
  apply (hoare_catch _ _ _ (good None)); [|intros e; apply good_abandon].
  eapply hoare_bind; [apply keeps_weaken, good_execution_loop|intros [out|]]; cbn beta.
  2:{ intros s G. by eapply good_weaken. }
  eapply hoare_bind; [apply keeps_weaken, good_require|intros u4]. cbn beta.
  eapply hoare_bind; [apply keeps_weaken, good_reported|intros report]. cbn beta.
  eapply hoare_bind; [apply good_terminal_write|]. by intros u5 s G.
Qed.

Lemma good_round fuel : keeps (good None)
  (round spec max_concurrency poll_interval heartbeat_interval request_timeout supervised fuel).
Proof.
  unfold round. apply keeps_catch.
  - apply keeps_bind; [auto with hoare|intros _].
    eapply hoare_bind; [apply good_ready|intros b]. cbn beta.
    apply (hoare_conseq _ (good None) _ _ (λ _, good None) _ (good None)); [|by intros s [G _]|done|done].
    destruct (negb b); [apply keeps_bind; auto with hoare|].
    eapply hoare_bind; [apply good_claim_locked|intros [[c|]|]]; cbn beta.
    + apply hoare_finally_done with (λ _, good None) (good None); try done;
        [|intros a; apply good_set_active|apply good_set_active].
      eapply hoare_bind; [apply keeps_weaken, good_require|intros u]. apply good_execute.
    + apply (keeps_bind (good None)); auto with hoare.
    + by intros s G.
  - intros []; auto with hoare.
Qed.

Lemma good_rounds fuel : keeps (good None)
  (rounds spec max_concurrency poll_interval heartbeat_interval request_timeout supervised fuel).
Proof.
  induction fuel as [|fuel IH]; cbn [rounds]; [auto with hoare|].
  apply keeps_bind; [auto with hoare|intros []]; [auto with hoare|].
  apply keeps_bind; [apply good_round|intros [[]|]]; auto with hoare.
Qed.

Lemma good_cleanup : keeps (good None)
  (cleanup spec max_concurrency heartbeat_interval request_timeout supervised).
Proof.
  unfold cleanup. apply keeps_bind; [auto with hoare|intros _].
  apply keeps_bind; [auto with hoare|intros _]. apply keeps_bind; [auto with hoare|intros _].
  apply keeps_with_lock. apply keeps_bind; [auto with hoare|intros b].
  apply keeps_bind; [|auto with hoare]. apply keeps_when, keeps_catch.
  - apply keeps_bind; [|auto with hoare].
    eapply hoare_conseq; [by apply (good_call None (CSetState OFFLINE) answered)|..]; done.
  - intros []; auto with hoare.
Qed.

Lemma good_run fuel : keeps (good None)
  (run_forever spec max_concurrency poll_interval heartbeat_interval request_timeout supervised fuel).
Proof.
  unfold run_forever. apply keeps_finally_done; [|apply good_cleanup].
  apply keeps_bind; [auto with hoare|intros []]; [auto with hoare|].
  apply keeps_bind; [auto with hoare|intros _]. apply keeps_bind; [auto with hoare|intros b].
  destruct (negb b).
  - unfold await_stop. auto with hoare.
  - apply keeps_bind; [auto with hoare|intros _]. apply good_rounds.
Qed.

Lemma good_init w s : mk_WorkerRuntime max_concurrency poll_interval heartbeat_interval w = Ok s →
  good None s.
Proof.
  unfold mk_WorkerRuntime. intros Hs. simp_res. split; cbn; try done; [apply log_ok_nil|by left|].
  intros e He. by apply elem_of_nil in He.
Qed.

(** ** The end of a run *)

(** Once stopped, the worker stays stopped; nothing it does while stopped gives it authority. *)
Definition stopped (s : rt W) : Prop :=
  f_stop (rt_fields s) = true ∧ f_draining (rt_fields s) = true ∧
  f_control_valid_until (rt_fields s) = 0.

Lemma stopped_awaiting {A} (act : W → W * signals * result A) : keeps stopped (awaiting act).
Proof.
  intros s (H1 & H2 & H3). unfold awaiting. destruct (act (rt_world s)) as [[w sg] r].
  assert (stopped {| rt_fields := absorb sg (rt_fields s); rt_world := w; rt_log := rt_log s |}) as Hs.
  { unfold stopped; cbn. rewrite H1, H2. by rewrite !orb_true_r. }
  destruct (sg_cancel sg); [done|]. by destruct r.
Qed.

Lemma stopped_call {A} (c : command) (decode : http_outcome → result A) : keeps stopped (CALL c decode).
Proof.
  intros s (H1 & H2 & H3). unfold call. destruct (w_exchange _ (rt_world s)) as [[w sg] out].
  assert (∀ l, stopped {| rt_fields := absorb sg (rt_fields s); rt_world := w; rt_log := l |}) as Hs.
  { intros l. unfold stopped; cbn. rewrite H1, H2. by rewrite !orb_true_r. }
  destruct (sg_cancel sg); [apply Hs|]. destruct (decode out); apply Hs.
Qed.

(** A drain section of a stopped worker sends nothing. *)
Lemma stopped_drains n : keeps stopped
  (drain_sections spec max_concurrency heartbeat_interval request_timeout supervised n).
Proof.
  induction n as [|n IH]; [by intros s Hs|]. cbn [drain_sections]. apply keeps_bind; [|done].
  intros s (H1 & H2 & H3). unfold drain_section, request_drain, mbind, M_bind. cbn. rewrite H1, andb_false_r.
  cbn. unfold stopped. cbn. by rewrite H1.
Qed.

Lemma stopped_modify (f : fields → fields) :
  (∀ x, f_stop (f x) = f_stop x ∧ f_draining (f x) = f_draining x ∧
        f_control_valid_until (f x) = f_control_valid_until x) → keeps (W:=W) stopped (modify f).
Proof. intros Hf s (H1 & H2 & H3). destruct (Hf (rt_fields s)) as (E1 & E2 & E3). cbn. unfold stopped. cbn. by rewrite E1, E2, E3. Qed.

Lemma cleanup_ends : hoare (λ _, True)
  (cleanup spec max_concurrency heartbeat_interval request_timeout supervised)
  (λ _ s, stopped s ∧ f_registered (rt_fields s) = false) stopped.
Proof.
  unfold cleanup. apply (hoare_bind _ _ (λ _ s, f_stop (rt_fields s) = true ∧ f_draining (rt_fields s) = true)).
  { intros s _. cbn. done. }
  intros u. apply (hoare_bind _ _ (λ _, stopped)); [by intros s [H1 H2]|intros u1].
  apply (hoare_bind _ _ (λ _, stopped)).
  { apply keeps_when, keeps_bind; [apply stopped_awaiting|intros _; apply stopped_awaiting]. }
  intros u2. unfold with_lock.
  eapply hoare_bind; [apply stopped_awaiting|intros n]. eapply hoare_bind; [apply stopped_drains|intros u3].
  eapply hoare_bind; [apply keeps_reads|intros b].
  eapply hoare_bind; [|intros u4 s Hs; exact (conj Hs eq_refl)].
  apply keeps_when, keeps_catch.
  - apply keeps_bind; [apply stopped_call|auto with hoare].
  - intros []; auto with hoare.
Qed.
End invariant.

(** ** Properties *)

Section properties.
Context {W : Type} `{LW : LawfulWorld W}.
Variable spec : WorkerSpec.
Variable max_concurrency : Z.
Variables poll_interval heartbeat_interval request_timeout : Z.
Variable supervised : bool.

#[local] Abbreviation RUN := (run_forever spec max_concurrency poll_interval heartbeat_interval
  request_timeout supervised).
#[local] Abbreviation INIT := (mk_WorkerRuntime (W:=W) max_concurrency poll_interval heartbeat_interval).

Lemma run_good fuel w s0 s r : INIT w = Ok s0 → RUN fuel s0 = (s, r) →
  good spec max_concurrency heartbeat_interval request_timeout None s.
Proof.
  intros Hi Hr. eapply good_init in Hi.
  pose proof (good_run spec max_concurrency poll_interval heartbeat_interval request_timeout
    supervised fuel s0 Hi) as G. rewrite Hr in G. by destruct r.
Qed.

(** Property C12: the worker claims only under fresh, explicit authority.  In every run,
    whatever the network answers and whatever signals arrive, a claim request is sent only
    when the worker is not stopped, was not draining at this or any earlier request, and
    Control acknowledged it ONLINE, for this specification and capacity, in answer to a
    request sent less than a heartbeat interval and a request timeout earlier. *)
Theorem claims_admitted fuel w s0 s r pre e post :
  INIT w = Ok s0 → RUN fuel s0 = (s, r) →
  rt_log s = pre ++ e :: post → e_command e = CClaim →
  f_stop (e_fields e) = false ∧ f_draining (e_fields e) = false ∧
  (∀ e', e' ∈ pre → f_draining (e_fields e') = false) ∧
  f_control_state (e_fields e) = Some ONLINE ∧
  ∃ e0, e0 ∈ pre ∧ acknowledges spec max_concurrency e0 ONLINE ∧
    e_time e < e_time e0 + heartbeat_interval + request_timeout.
Proof.
  intros Hi Hr El Ec. destruct (good_log _ _ _ _ _ _ (run_good _ _ _ _ _ Hi Hr) pre e post El) as [He Hd].
  rewrite Ec in He. destruct He as (H1 & H2 & H3 & H4 & e0 & st0 & Hin & [= <-] & Ha & Ht).
  split_and!; try done; [|by exists e0].
  intros e' Hin'. destruct (f_draining (e_fields e')) eqn:E; [|done]. rewrite (Hd e' Hin' E) in H2. done.
Qed.

(** The claim a terminal write reports. *)
Definition reports (c : command) : option (string * string) :=
  match c with
  | CComplete job_id lease_token _ | CFail job_id lease_token _ _ => Some (job_id, lease_token)
  | _ => None
  end.

(** Property C13: at most one terminal write per claim, under its lease.  In every run a
    completion or failure is sent only for the last claim Control granted, with that
    claim's job and lease token, when fewer terminal writes than claims have been sent
    before it, and only while Control's last acknowledgement still gives authority. *)
Theorem reports_fenced fuel w s0 s r pre e post job_id lease_token :
  INIT w = Ok s0 → RUN fuel s0 = (s, r) →
  rt_log s = pre ++ e :: post → reports (e_command e) = Some (job_id, lease_token) →
  (∃ c, last (granted spec pre) = Some c ∧ job_id = jr_job_id (cj_request c) ∧
     lease_token = cj_lease_token c) ∧
  (terminals pre < length (granted spec pre))%nat ∧
  ∃ e0 st, e0 ∈ pre ∧ acknowledges spec max_concurrency e0 st ∧
    e_time e < e_time e0 + heartbeat_interval + request_timeout.
Proof.
  intros Hi Hr El Ec. destruct (good_log _ _ _ _ _ _ (run_good _ _ _ _ _ Hi Hr) pre e post El) as [He _].
  destruct (e_command e); try done; injection Ec as <- <-;
    destruct He as (Hc & Hn & e0 & st0 & Hin & _ & Ha & Ht); split_and!; try done; by exists e0, st0.
Qed.

(** A run ends withdrawn.  However [run_forever] ends (returning, raising, or
    cancelled), the worker is stopped and draining and has no authority left, so it is never
    ready again; when it returns, it is no longer registered. *)
Theorem run_ends_withdrawn fuel s0 s r : RUN fuel s0 = (s, r) → r ≠ Ok None →
  f_stop (rt_fields s) = true ∧ f_draining (rt_fields s) = true ∧
  (∀ failed t, ready_in failed t (rt_fields s) = false) ∧
  (is_ok r = true → f_registered (rt_fields s) = false).
Proof.
  intros Hr Hn.
  assert (hoare (W:=W) (λ _, True) (RUN fuel)
    (λ a s, a ≠ None → stopped s ∧ f_registered (rt_fields s) = false) stopped) as Hh.
  { unfold run_forever.
    pose proof (cleanup_ends spec max_concurrency heartbeat_interval request_timeout supervised) as Hc.
    apply (hoare_finally_done _ _ (λ _ _, True) (λ _, True)); [| |by intros s' _|].
    - apply hoare_true.
    - intros a. by eapply hoare_conseq; [exact Hc|..].
    - by eapply hoare_conseq; [exact Hc|..]; [|intros ? ? []|]. }
  specialize (Hh s0 I). rewrite Hr in Hh. destruct r as [[[]|]|e]; [|done|].
  - destruct Hh as [(H1 & H2 & H3) Hreg]; [done|]. split_and!; try done.
    intros failed t. unfold ready_in. by rewrite H1.
  - destruct Hh as (H1 & H2 & H3). split_and!; try done.
    intros failed t. unfold ready_in. by rewrite H1.
Qed.

(** Control's own record is the acknowledgement, and nothing else is.  The
    worker accepts the JSON form of a Control worker record exactly when its specification
    equals the local one and its capacity is the local one, and then takes its state. *)
Theorem acknowledgement_exact isoformat (record : WorkerRecord) st :
  wf_WorkerSpec (w_spec record) → wf_WorkerSpec spec →
  acknowledged_state spec max_concurrency (worker_record_to_dict isoformat record) = Ok st ↔
  WorkerSpec_equiv (w_spec record) spec ∧ w_max_concurrency record = max_concurrency ∧
  st = w_state record.
Proof.
  intros Hwf Hspec. unfold acknowledged_state, worker_record_to_dict. serde. cbn [py_eqb].
  rewrite guard_true by by apply bool_decide_eq_true. rewrite mk_WorkerState_value.
  cbn [mbind result_bind]. rewrite worker_spec_roundtrip by done. cbn [mbind result_bind].
  rewrite !guard_Ok, bool_decide_eq_true, WorkerSpec_eqb_spec by (apply Hwf || apply Hspec).
  cbn. split; [intros (H1 & [= H2] & [= H3])|intros (H1 & -> & ->)]; done.
Qed.
End properties.

(** ** A scripted world, for the witnesses *)

(** The clock, the answers still to come, and the execution. *)
Definition script : Type := N * list http_outcome * option exec_outcome.
Definition demo_report : JobResult :=
  {| res_outputs := []; res_artifacts := []; res_metrics := []; res_text := Some "done";
     res_metadata := [] |}.

(** Requests take a tick and consume the script; a wait stops the worker. *)
#[export] Instance script_world : World script := {
  w_time w := Z.of_N w.1.1;
  w_exchange _ w :=
    let '(t, l, x) := w in
    match l with
    | [] => ((t, [], x), no_signals, NoAnswer)
    | o :: l' => ((N.succ t, l', x), no_signals, o)
    end;
  w_wait _ w := (w, {| sg_drain := false; sg_stop := true; sg_cancel := false |});
  w_lock w := (w, no_signals, O);
  w_start _ w := (w.1, Some (ExecReturned (Some demo_report)));
  w_execution w := w.2;
  w_cancel _ w := (w, no_signals, Ok tt);
  w_available w := (w, true);
  w_failed _ := false;
  w_supervise w := (w, no_signals, Ok tt);
  w_check w := (w, no_signals);
  w_close w := (w, no_signals);
  w_shutdown w := (w, no_signals, Ok tt) }.
#[export] Instance script_lawful : LawfulWorld script.
Proof. split; cbn; [intros; lia|done]. Qed.

Definition demo_record : WorkerRecord :=
  {| w_spec := example_spec; w_max_concurrency := 1; w_state := ONLINE; w_active_jobs := 0;
     w_registered_at := 0; w_last_seen_at := 0; w_metadata := [] |}.
Definition demo_answer : http_outcome :=
  Answer 200 (Some (PDict (worker_record_to_dict (λ _, "t") demo_record))).
Definition demo_claim_answer : http_outcome :=
  Answer 200 (Some (PDict [("lease_token", PStr "tok"); ("job_id", PStr "job-1");
                           ("capability", PStr "debug.echo"); ("attempts", PInt 1)])).

(** Register, claim a job, complete it, find no other, stop, go offline. *)
Definition demo_script : script :=
  (0%N, [demo_answer; demo_claim_answer; Answer 200 (Some (PDict [])); Answer 204 None;
         Answer 200 (Some (PDict []))], None).
Definition demo_start : rt script :=
  {| rt_fields := {| f_stop := false; f_draining := false; f_registered := false;
                     f_control_state := None; f_control_valid_until := 0;
                     f_next_heartbeat_at := 0; f_active := None |};
     rt_world := demo_script; rt_log := [] |}.
Definition demo_run := run_forever example_spec 1 1 5 10 false 4 demo_start.
Definition demo_entry (n : nat) : entry :=
  default {| e_fields := rt_fields demo_start; e_time := 0; e_command := CRegister;
             e_outcome := NoAnswer |} (rt_log demo_run.1 !! n).

Lemma demo_run_log n : (n < 5)%nat →
  rt_log demo_run.1 = take n (rt_log demo_run.1) ++ demo_entry n :: drop (S n) (rt_log demo_run.1).
Proof.
  intros Hn. symmetry. apply take_drop_middle.
  assert (length (rt_log demo_run.1) = 5%nat) as Hl by by vm_compute.
  unfold demo_entry. destruct (lookup_lt_is_Some_2 (rt_log demo_run.1) n) as [e ->]; [lia|done].
Qed.

Lemma claims_admitted_witness :
  e_command (demo_entry 1) = CClaim ∧
  f_control_state (e_fields (demo_entry 1)) = Some ONLINE ∧
  ∃ e0, e0 ∈ take 1 (rt_log demo_run.1) ∧ acknowledges example_spec 1 e0 ONLINE ∧
    e_time (demo_entry 1) < e_time e0 + 5 + 10.
Proof.
  destruct (claims_admitted example_spec 1 1 5 10 false 4 demo_script demo_start demo_run.1 demo_run.2
    (take 1 (rt_log demo_run.1)) (demo_entry 1) (drop 2 (rt_log demo_run.1)))
    as (_ & _ & _ & H1 & H2).
  - reflexivity.
  - apply surjective_pairing.
  - apply (demo_run_log 1). lia.
  - vm_compute. reflexivity.
  - split; [vm_compute; reflexivity|]. split; [exact H1|exact H2].
Defined.

Lemma reports_fenced_witness :
  (∃ c, last (granted example_spec (take 2 (rt_log demo_run.1))) = Some c ∧
     "job-1" = jr_job_id (cj_request c) ∧ "tok" = cj_lease_token c) ∧
  (terminals (take 2 (rt_log demo_run.1))
   < length (granted example_spec (take 2 (rt_log demo_run.1))))%nat.
Proof.
  destruct (reports_fenced example_spec 1 1 5 10 false 4 demo_script demo_start demo_run.1 demo_run.2
    (take 2 (rt_log demo_run.1)) (demo_entry 2) (drop 3 (rt_log demo_run.1)) "job-1" "tok")
    as (H1 & H2 & _).
  - reflexivity.
  - apply surjective_pairing.
  - apply (demo_run_log 2). lia.
  - vm_compute. reflexivity.
  - split; [exact H1|exact H2].
Defined.

Lemma run_ends_withdrawn_witness :
  f_stop (rt_fields demo_run.1) = true ∧ f_registered (rt_fields demo_run.1) = false.
Proof.
  destruct (run_ends_withdrawn example_spec 1 1 5 10 false 4 demo_start demo_run.1 demo_run.2)
    as (H1 & _ & _ & H2).
  - apply surjective_pairing.
  - vm_compute. discriminate.
  - split; [exact H1|]. apply H2. vm_compute. reflexivity.
Defined.

Lemma acknowledgement_exact_witness :
  acknowledged_state example_spec 1 (worker_record_to_dict (λ _, "t") demo_record) = Ok ONLINE.
Proof.
  apply (acknowledgement_exact example_spec 1 (λ _, "t") demo_record ONLINE);
    [apply example_spec_wf|apply example_spec_wf|by split_and!].
Defined.
