(* ===== verification/Preflight.v ===== *)
(** * Worker preflight and local health

    Models the checks of [src/src/astrumweaver/worker/runtime.py] that a Worker passes before
    it registers (the exact set of GPUs, isolated access, the executor's capabilities), and
    [src/src/astrumweaver/worker/health.py], the local health API.  A process outcome of
    [None] is the [OSError] of [subprocess.run]. *)

From S2P Require Import Prelude PyStr PyDict PyVal PyHost Contracts Models GpuMapping Serde Client WorkerRuntime.

(** ** The GPU set *)

(** [discover_nvidia_gpu_uuids], worker/runtime.py lines 34-49. *)
Definition discover_nvidia_gpu_uuids (outcome : option completed) : result (list string) :=
  match outcome with
  | None => Err (RuntimeError "nvidia-smi preflight failed")
  | Some c =>
      require (returncode c =? 0) (RuntimeError "nvidia-smi preflight failed");;
      let uuids := sorted_strings
        (filter (λ l, l ≠ EmptyString) (strip <$> splitlines (stdout c))) in
      require (match uuids with [] => false | _ => true end) (RuntimeError "no NVIDIA GPUs observed");;
      require (all_distinct uuids) (RuntimeError "observed duplicate GPU UUIDs");;
      Ok uuids
  end.

(** [require_exact_gpu_set], worker/runtime.py lines 52-66. *)
Definition require_exact_gpu_set (expected : list string) (outcome : option completed)
    : result unit :=
  let expected_sorted := sorted_strings expected in
  match expected_sorted with
  | [] => Ok tt
  | _ =>
      require (all_distinct expected_sorted)
        (RuntimeError "configured GPU UUIDs contain duplicates");;
      observed ← discover_nvidia_gpu_uuids outcome;
      require (bool_decide (observed = expected_sorted))
        (RuntimeError ("GPU UUID set mismatch (expected_count="
           +:+ str_of_N (N.of_nat (length expected_sorted)) +:+ " observed_count="
           +:+ str_of_N (N.of_nat (length observed)) +:+ ")"))
  end.

(** [require_isolated_gpu_access], worker/runtime.py lines 69-89. *)
Definition require_isolated_gpu_access (h : host) (expected : list string)
    (reviewed_map_path command : string) (cuda_visible_devices : option string)
    : list dev_event * result unit :=
  match expected with
  | [] => ([], Ok tt)
  | _ =>
      if negb (startswith "/" reviewed_map_path) then
        ([], Err (RuntimeError "isolated GPU device map path must be absolute"))
      else
        match discover_gpu_mapping h command "/proc/devices" "/dev" with
        | Err e => ([], Err e)
        | Ok mapping =>
            match load_reviewed_gpu_map h reviewed_map_path with
            | Err e => ([], Err e)
            | Ok reviewed =>
                verify_isolated_gpu_access h mapping expected reviewed expected
                  cuda_visible_devices "/dev"
            end
        end
  end.

(** ** Executor capabilities *)

(** [executor_capabilities], worker/runtime.py lines 92-103; the attribute is a string, an
    iterable of strings, or absent. *)
Definition executor_capabilities (raw : option str_values) : result (gset string) :=
  match raw with
  | None => Err (TypeError "configured executor must declare capabilities")
  | Some r =>
      let values := strip <$> match r with OneStr s => [s] | StrIter l => l end in
      require (match values with [] => false | _ => true end && forallb str_truthy values)
        (ValueError "executor capabilities must be non-empty non-blank strings");;
      Ok (list_to_set values)
  end.

(** [require_executor_capabilities], worker/runtime.py lines 106-116. *)
Definition require_executor_capabilities (raw : option str_values) (advertised : gset string)
    : result unit :=
  supported ← executor_capabilities raw;
  let missing := advertised ∖ supported in
  require (bool_decide (missing = ∅))
    (RuntimeError ("executor does not support advertised capabilities: "
                   +:+ join ", " (sorted_strings (elements missing)))).

(** ** The local health API *)

(** What the health endpoints read of the worker; [draining] includes the failed supervisor. *)
Record health_view := {
  hv_worker_id : string;
  hv_registered : bool;
  hv_control_state : option WorkerState;
  hv_control_available : bool;
  hv_runtime_state : string;
  hv_runtime_available : bool;
  hv_runtime_failure : option string;
  hv_ready : bool;
  hv_active_job_id : option string;
  hv_draining : bool;
}.

(** The readiness both endpoints report, worker/health.py lines 26-26. *)
Definition is_ready (v : health_view) : bool := hv_ready v && hv_registered v && negb (hv_draining v).

(** [health], worker/health.py lines 15-29. *)
Definition health_body (v : health_view) : dict pyval :=
  [("status", PStr "ok");
   ("worker_id", PStr (hv_worker_id v));
   ("registered", PBool (hv_registered v));
   ("control_state", of_opt_str (WorkerState_value <$> hv_control_state v));
   ("control_available", PBool (hv_control_available v));
   ("runtime_state", PStr (hv_runtime_state v));
   ("runtime_available", PBool (hv_runtime_available v));
   ("runtime_failure", of_opt_str (hv_runtime_failure v));
   ("ready", PBool (is_ready v));
   ("active_job_id", of_opt_str (hv_active_job_id v));
   ("draining", PBool (hv_draining v))].

(** [ready]: the status and the body, worker/health.py lines 31-41. *)
Definition ready_response (v : health_view) : Z * dict pyval :=
  (if is_ready v then 200 else 503,
   [("ready", PBool (is_ready v));
    ("worker_id", PStr (hv_worker_id v));
    ("active_job_id", of_opt_str (hv_active_job_id v));
    ("draining", PBool (hv_draining v))]).

(** The properties of a worker, read at time [t] while the supervisor has [failed] or not:
    [control_available], [control_state], [ready], [runtime_available], [draining],
    [active_job_id], worker/runtime.py lines 179-227. *)
Definition worker_view (spec : WorkerSpec) (f : fields) (t : Z) (failed available : bool)
    (runtime_state : string) (runtime_failure : option string) : health_view :=
  {| hv_worker_id := worker_id spec;
     hv_registered := f_registered f;
     hv_control_state := f_control_state f;
     hv_control_available := t <? f_control_valid_until f;
     hv_runtime_state := runtime_state;
     hv_runtime_available := available;
     hv_runtime_failure := runtime_failure;
     hv_ready := ready_in failed t f && available;
     hv_active_job_id := (λ c, jr_job_id (cj_request c)) <$> f_active f;
     hv_draining := draining_in failed f |}.
