(* ===== verification/Mode.v ===== *)
(** * Borrowing the GPUs of a worker

    Models [src/src/astrumweaver/worker/mode.py]: switching a machine between development and
    worker use.  The controller asks systemd, the worker's local health endpoint and
    nvidia-smi; every question and command is an observation of a world that moves on its
    own, and is logged. *)

From S2P Require Import Prelude PyStr PyDict PyVal PyHost Effects GpuMapping Preflight.

(** ** The world *)

(** [subprocess.run] ([None] is [OSError]), [httpx.get] ([None] is [httpx.HTTPError]; the
    body is [None] when it is not JSON), [time.monotonic] and [time.sleep]. *)
Class ModeWorld (W : Type) := {
  mw_run : list string → W → W * option completed;
  mw_get : string → W → W * option (Z * option pyval);
  mw_time : W → Z;
  mw_sleep : Z → W → W;
}.

(** [GPUProcess], worker/mode.py lines 21-26. *)
Record GPUProcess := {
  gp_pid : Z;
  gp_gpu_uuid : string;
  gp_process_type : string;
  gp_process_name : string;
}.

(** [ModeReport], worker/mode.py lines 29-36. *)
Record ModeReport := {
  mr_mode : string;
  mr_service_active : bool;
  mr_worker_ready : bool;
  mr_worker_draining : bool;
  mr_active_job_id : option string;
  mr_gpu_processes : list GPUProcess;
}.

(** What the controller saw or did; the last two kinds belong to the acceptance of a node,
    which uses the controller: a request to the Control API, and a file written. *)
Inductive observation :=
  | ORun (args : list string) (outcome : option completed)
  | OGet (url : string) (answer : option (Z * option pyval))
  | OSleep
  | OCall (verb location : string) (body : pyval) (answer : option (Z * option pyval))
  | OWrite (p : path) (text : string).

Section mode.
Context {W : Type} `{ModeWorld W}.

(** The world and what was observed, the latest first. *)
Definition mstate : Type := W * list observation.
Abbreviation M := (eff mstate).

Definition run (args : list string) : M (option completed) := λ s,
  let '(w, o) := mw_run args s.1 in ((w, ORun args o :: s.2), Ok o).
Definition http_get (url : string) : M (option (Z * option pyval)) := λ s,
  let '(w, o) := mw_get url s.1 in ((w, OGet url o :: s.2), Ok o).
Definition monotonic : M Z := gets (λ s, mw_time s.1).
Definition sleep (d : Z) : M unit := λ s, ((mw_sleep d s.1, OSleep :: s.2), Ok tt).

(** ** systemd *)

Variables systemctl service_name : string.

(** [SystemdServiceManager._run], worker/mode.py lines 67-76. *)
Definition _run (arguments : list string) : M completed :=
  o ← run (systemctl :: arguments);
  match o with
  | Some c => mret c
  | None => throws (ModeTransitionError "systemctl is unavailable")
  end.

(** [SystemdServiceManager.is_active], worker/mode.py lines 78-86. *)
Definition is_active : M bool :=
  c ← _run ["is-active"; "--quiet"; service_name];
  if returncode c =? 0 then mret true
  else if returncode c =? 3 then mret false
  else throws (ModeTransitionError ("cannot determine service state for " +:+ service_name)).

(** [SystemdServiceManager.request_drain], worker/mode.py lines 88-96. *)
Definition request_drain : M unit :=
  c ← _run ["kill"; "--kill-whom=main"; "--signal=SIGUSR1"; service_name];
  ensure (returncode c =? 0) (ModeTransitionError "failed to request Worker drain").

(** [SystemdServiceManager.stop], worker/mode.py lines 98-101. *)
Definition stop_service : M unit :=
  c ← _run ["stop"; service_name];
  ensure (returncode c =? 0) (ModeTransitionError "failed to stop Worker service").

(** [SystemdServiceManager.start], worker/mode.py lines 103-106. *)
Definition start_service : M unit :=
  c ← _run ["start"; service_name];
  ensure (returncode c =? 0) (ModeTransitionError "failed to start Worker service").

(** ** Health *)

Variable base_url : string.

(** [v is True] and [v is None] of [d.get(key)]. *)
Definition is_true (o : option pyval) : bool := if o is Some (PBool true) then true else false.
Definition is_none (v : pyval) : bool := if v is PNone then true else false.

(** The object of a 200 answer. *)
Definition ok_object (o : option (Z * option pyval)) : option (dict pyval) :=
  match o with
  | Some (status, Some (PDict d)) => if status =? 200 then Some d else None
  | _ => None
  end.

(** [HTTPHealthProbe.snapshot], worker/mode.py lines 121-135. *)
Definition snapshot : M (option (dict pyval)) :=
  o ← http_get (base_url +:+ "/health"); mret (ok_object o).

(** [HTTPHealthProbe.ready], worker/mode.py lines 137-151. *)
Definition probe_ready : M bool :=
  o ← http_get (base_url +:+ "/ready");
  mret (match ok_object o with Some d => is_true (dget "ready" d) | None => false end).

(** ** GPUs *)

Variable nvidia_smi : string.
Variable expected_gpu_uuids : list string.

(** [NvidiaGPUProbe.__init__], worker/mode.py lines 155-167. *)
Definition mk_NvidiaGPUProbe (uuids : list string) : result (list string) :=
  let expected := sorted_strings (strip <$> uuids) in
  require (match expected with [] => false | _ => true end && forallb str_truthy expected)
    (ValueError "borrowable GPU mode requires expected GPU UUIDs");;
  require (all_distinct expected) (ValueError "expected GPU UUIDs must be unique");;
  Ok expected.

(** [NvidiaGPUProbe.require_exact_identity], worker/mode.py lines 169-173. *)
Definition require_exact_identity : M unit :=
  o ← run [nvidia_smi; "--query-gpu=uuid"; "--format=csv,noheader"];
  lifts (require_exact_gpu_set expected_gpu_uuids o).

(** One row of the index table, worker/mode.py lines 194-201. *)
Definition index_row (mapping : dict string) (raw_line : string) : result (dict string) :=
  let line := strip raw_line in
  if negb (str_truthy line) then Ok mapping
  else match strip <$> split1_char "," line with
       | [index; gpu_uuid] => Ok (dset gpu_uuid index mapping)
       | _ => Err (ModeTransitionError "unexpected nvidia-smi GPU output")
       end.

(** [NvidiaGPUProbe._gpu_index_map], worker/mode.py lines 175-202. *)
Definition _gpu_index_map : M (dict string) :=
  o ← run [nvidia_smi; "--query-gpu=index,uuid"; "--format=csv,noheader,nounits"];
  match o with
  | None => throws (ModeTransitionError "nvidia-smi is unavailable")
  | Some c =>
      ensure (returncode c =? 0) (ModeTransitionError "cannot inspect NVIDIA GPU identity");;
      lifts (foldR index_row [] (splitlines (stdout c)))
  end.

(** [line.split(maxsplit=n)] of a line without surrounding space. *)
Fixpoint split_max (n : nat) (s : string) : list string :=
  match n with
  | O => [s]
  | S n' => match split_none1 s with
            | [w; rest] => w :: split_max n' rest
            | l => l
            end
  end.

(** One row of [nvidia-smi pmon], worker/mode.py lines 226-248. *)
Definition process_row (expected_indexes : dict string) (processes : list GPUProcess)
    (raw_line : string) : result (list GPUProcess) :=
  let line := strip raw_line in
  if negb (str_truthy line) || startswith "#" line then Ok processes
  else match split_max 7 line with
       | gpu_index :: raw_pid :: process_type :: more =>
           match dget gpu_index expected_indexes with
           | None => Ok processes
           | Some gpu_uuid =>
               if bool_decide (raw_pid = "-") then Ok processes
               else match int_of_str raw_pid with
                    | Ok pid =>
                        Ok (processes ++
                            [{| gp_pid := pid; gp_gpu_uuid := gpu_uuid;
                                gp_process_type := process_type;
                                gp_process_name := default EmptyString (more !! 4%nat) |}])
                    | Err (ValueError _) =>
                        Err (ModeTransitionError "unexpected nvidia-smi process PID")
                    | Err e => Err e
                    end
           end
       | _ => Err (ModeTransitionError "unexpected nvidia-smi pmon output")
       end.

(** The indexes of the expected GPUs, worker/mode.py lines 206-210. *)
Definition indexes_of (index_map : dict string) : dict string :=
  foldl (λ acc uuid, match dget uuid index_map with
                     | Some index => dset index uuid acc | None => acc end) [] expected_gpu_uuids.

(** [NvidiaGPUProbe.active_processes], worker/mode.py lines 204-249. *)
Definition active_processes : M (list GPUProcess) :=
  index_map ← _gpu_index_map;
  o ← run [nvidia_smi; "pmon"; "-c"; "1"];
  match o with
  | None => throws (ModeTransitionError "nvidia-smi is unavailable")
  | Some c =>
      ensure (returncode c =? 0) (ModeTransitionError "cannot inspect NVIDIA GPU processes");;
      lifts (foldR (process_row (indexes_of index_map)) [] (splitlines (stdout c)))
  end.

(** ** The controller *)

Variable poll_interval : Z.

(** The loop of [_wait], worker/mode.py lines 284-289; [None] when out of fuel. *)
Fixpoint wait_loop (fuel : nat) (predicate : M bool) (deadline : option Z) (description : string)
    : M (option unit) :=
  match fuel with
  | O => mret None
  | S fuel' =>
      b ← predicate;
      if b : bool then mret (Some tt)
      else
        now ← monotonic;
        if match deadline with Some d => d <=? now | None => false end
        then throws (ModeTransitionError ("timed out waiting for " +:+ description))
        else sleep poll_interval;; wait_loop fuel' predicate deadline description
  end.

(** [BorrowableWorkerController._wait], worker/mode.py lines 272-289. *)
Definition _wait (fuel : nat) (predicate : M bool) (timeout : option Z) (description : string)
    : M (option unit) :=
  now ← monotonic;
  wait_loop fuel predicate ((λ t, now + t) <$> timeout) description.

(** [snapshot and snapshot.get(key) is True] and [snapshot.get("draining")] as a truth value. *)
Definition says_true (key : string) (s : option (dict pyval)) : bool :=
  match s with Some d => is_true (dget key d) | None => false end.
Definition says_no_job (s : option (dict pyval)) : bool :=
  match s with Some d => is_none (get "active_job_id" d) | None => false end.

(** [BorrowableWorkerController._report], worker/mode.py lines 294-322. *)
Definition _report : M ModeReport :=
  active ← is_active;
  s ← (if active : bool then snapshot else mret None);
  let ready := says_true "ready" s in
  let draining := match s with Some d => truthy (get "draining" d) | None => false end in
  job ← lifts (match s with
               | Some d => match get "active_job_id" d with
                           | PNone => Ok None
                           | v => j ← py_str v; Ok (Some j)
                           end
               | None => Ok None
               end);
  processes ← active_processes;
  mret {| mr_mode := if active && draining then "draining"
                     else if active && ready then "astrumweaver"
                     else if active then "transitioning" else "development";
          mr_service_active := active; mr_worker_ready := ready; mr_worker_draining := draining;
          mr_active_job_id := job; mr_gpu_processes := processes |}.

(** [drained], worker/mode.py lines 335-343: the service is gone, or says that it drains and
    has no job. *)
Definition drained : M bool :=
  active ← is_active;
  if negb active then mret true
  else s ← snapshot; mret (says_true "draining" s && says_no_job s).

(** Stop a service that is still active, worker/mode.py lines 351-352. *)
Definition stop_if_active : M unit :=
  active ← is_active; if active : bool then stop_service else mret tt.

(** No process may own the GPUs, worker/mode.py lines 357-362. *)
Definition require_idle_gpus (message : string) : M unit :=
  require_exact_identity;;
  busy ← active_processes;
  ensure (match busy with [] => true | _ => false end) (ModeTransitionError message).

(** [BorrowableWorkerController.to_development], worker/mode.py lines 327-363. *)
Definition to_development (fuel : nat) (drain_timeout : option Z) : M (option ModeReport) :=
  active ← is_active;
  r ← (if active : bool then
         request_drain;;
         r ← _wait fuel drained drain_timeout "Worker drain";
         match r with
         | None => mret None
         | Some _ => stop_if_active;; mret (Some tt)
         end
       else mret (Some tt));
  match r with
  | None => mret None
  | Some _ =>
      active ← is_active;
      ensure (negb active) (ModeTransitionError "Worker service is still active");;
      require_idle_gpus "GPU is still owned by one or more compute processes";;
      report ← _report;
      mret (Some report)
  end.

(** [already_ready] and [ready], worker/mode.py lines 395-397. *)
Definition worker_ready : M bool := s ← snapshot; mret (says_true "ready" s).

(** What an already active service leads to, worker/mode.py lines 374-404: [inl] is the
    report returned at once, [inr] continues with a start. *)
Definition settle_active (fuel : nat) (start_timeout : Z) (drain_timeout : option Z)
    : M (option (ModeReport + unit)) :=
  active ← is_active;
  if negb active then mret (Some (inr tt))
  else
    s ← snapshot;
    if says_true "draining" s then
      r ← _wait fuel drained drain_timeout "existing Worker drain";
      match r with
      | None => mret None
      | Some _ => stop_if_active;; mret (Some (inr tt))
      end
    else
      r ← _wait fuel worker_ready (Some start_timeout) "existing Worker readiness";
      match r with
      | None => mret None
      | Some _ => report ← _report; mret (Some (inl report))
      end.

(** Starting the service once the GPUs are idle, worker/mode.py lines 406-429. *)
Definition start_worker (fuel : nat) (start_timeout : Z) : M (option ModeReport) :=
  require_idle_gpus "GPU is in use by a development or unrelated process";;
  start_service;;
  r ← _wait fuel is_active (Some start_timeout) "Worker service activation";
  match r with
  | None => mret None
  | Some _ =>
      r ← _wait fuel worker_ready (Some start_timeout) "Worker readiness";
      match r with
      | None => mret None
      | Some _ => report ← _report; mret (Some report)
      end
  end.

(** [BorrowableWorkerController.to_astrumweaver], worker/mode.py lines 365-429. *)
Definition to_astrumweaver (fuel : nat) (start_timeout : Z) (drain_timeout : option Z)
    : M (option ModeReport) :=
  ensure (0 <? start_timeout) (ValueError "start_timeout_seconds must be positive");;
  r ← settle_active fuel start_timeout drain_timeout;
  match r with
  | None => mret None
  | Some (inl report) => mret (Some report)
  | Some (inr _) => start_worker fuel start_timeout
  end.

(** ** The command *)

Inductive mode_request := RequestDevelopment | RequestAstrumweaver | RequestStatus.

(** What [main] does with its arguments, worker/mode.py lines 491-515: a drain timeout of 0
    waits indefinitely; [inr] is the message of exit status 1. *)
Definition main_body (fuel : nat) (request : mode_request) (drain_timeout start_timeout : Z)
    : M (option (ModeReport + exn)) :=
  let timeout := if drain_timeout =? 0 then None else Some drain_timeout in
  try_catch
    (r ← match request with
         | RequestDevelopment => to_development fuel timeout
         | RequestAstrumweaver => to_astrumweaver fuel start_timeout timeout
         | RequestStatus => report ← _report; mret (Some report)
         end;
     mret (inl <$> r))
    (λ e, match e with
          | ModeTransitionError _ | RuntimeError _ | ValueError _ => mret (Some (inr e))
          | _ => throws e
          end).
End mode.
