(* ===== verification/ModeProps.v ===== *)
(** * Borrowing the GPUs of a worker: safety and termination

    What the log of a mode switch can contain: the service is stopped only after it was seen
    drained, started only after the GPUs were seen idle; and every switch with time limits
    returns. *)

From S2P Require Import Prelude PyStr PyDict PyVal PyHost Effects GpuMapping Preflight Mode.

Section mode.
Context {W : Type} `{ModeWorld W}.
Variables systemctl service_name base_url nvidia_smi : string.
Variable expected_gpu_uuids : list string.
Variable poll_interval : Z.

Local Abbreviation st := (mstate (W:=W)).

(** ** What was observed *)

Definition is_active_args : list string := [systemctl; "is-active"; "--quiet"; service_name].
Definition stop_args : list string := [systemctl; "stop"; service_name].
Definition start_args : list string := [systemctl; "start"; service_name].

Definition saw_active (o : observation) : Prop :=
  ∃ c, o = ORun is_active_args (Some c) ∧ returncode c = 0.
Definition saw_inactive (o : observation) : Prop :=
  ∃ c, o = ORun is_active_args (Some c) ∧ returncode c = 3.
Definition saw_drained (o : observation) : Prop :=
  ∃ a, o = OGet (base_url +:+ "/health") a ∧ says_true "draining" (ok_object a) = true ∧
       says_no_job (ok_object a) = true.
Definition saw_ready (o : observation) : Prop :=
  ∃ a, o = OGet (base_url +:+ "/health") a ∧ says_true "ready" (ok_object a) = true.

Definition gone (o : observation) : Prop := saw_drained o ∨ saw_inactive o.
Definition ends_with (p : observation → Prop) (l : list observation) : Prop :=
  ∃ o l', l = o :: l' ∧ p o.

(** The latest three observations, after [older]: the exact GPU set, the index table, and no
    process on the expected GPUs. *)
Definition idle_gpus_after (older l : list observation) : Prop :=
  ∃ o1 c2 c3 m,
    l = ORun [nvidia_smi; "pmon"; "-c"; "1"] (Some c3)
        :: ORun [nvidia_smi; "--query-gpu=index,uuid"; "--format=csv,noheader,nounits"] (Some c2)
        :: ORun [nvidia_smi; "--query-gpu=uuid"; "--format=csv,noheader"] o1 :: older ∧
    require_exact_gpu_set expected_gpu_uuids o1 = Ok tt ∧
    returncode c2 = 0 ∧ foldR index_row [] (splitlines (stdout c2)) = Ok m ∧
    returncode c3 = 0 ∧
    foldR (process_row (indexes_of expected_gpu_uuids m)) [] (splitlines (stdout c3)) = Ok [].
Definition saw_idle_gpus (l : list observation) : Prop := ∃ older, idle_gpus_after older l.

(** A command is allowed after the observations [l], the latest first. *)
Definition allowed (o : observation) (l : list observation) : Prop :=
  match o with
  | ORun args _ =>
      (args = stop_args → ∃ a d older, l = a :: d :: older ∧ saw_active a ∧
                                       (saw_drained d ∨ saw_inactive d)) ∧
      (args = start_args → saw_idle_gpus l)
  | _ => True
  end.
Fixpoint safe (l : list observation) : Prop :=
  match l with [] => True | o :: l' => allowed o l' ∧ safe l' end.

Definition safe_state (s : st) : Prop := safe s.2.


(** ** Primitives *)

Lemma run_triple (P : list observation → Prop) args :
  (∀ l o, P l → allowed (ORun args o) l) →
  triple (λ s : st, safe_state s ∧ P s.2) (run args)
    (λ o s, safe_state s ∧ ∃ l, s.2 = ORun args o :: l ∧ P l) (λ _, safe_state).
Proof.
  intros Ha s [Hs Hp]. unfold run. destruct (mw_run args s.1) as [w o]. split.
  - cbn. split; [by apply Ha|done].
  - by exists s.2.
Qed.

(** A question: neither a stop nor a start. *)
Lemma ask_triple (P : list observation → Prop) args :
  args ≠ stop_args → args ≠ start_args →
  triple (λ s : st, safe_state s ∧ P s.2) (run args)
    (λ o s, safe_state s ∧ ∃ l, s.2 = ORun args o :: l ∧ P l) (λ _, safe_state).
Proof. intros Hn Hn'. apply run_triple. intros l o _. cbn. tauto. Qed.

Lemma get_triple (P : list observation → Prop) url :
  triple (λ s : st, safe_state s ∧ P s.2) (http_get url)
    (λ o s, safe_state s ∧ ∃ l, s.2 = OGet url o :: l ∧ P l) (λ _, safe_state).
Proof.
  intros s [Hs Hp]. unfold http_get. destruct (mw_get url s.1) as [w o].
  split; [by split|by exists s.2].
Qed.

(** [is_active]: what it returns is what was seen. *)
Lemma is_active_triple (P : list observation → Prop) :
  triple (λ s : st, safe_state s ∧ P s.2) (is_active systemctl service_name)
    (λ b s, safe_state s ∧ ∃ o l, s.2 = o :: l ∧ P l ∧ if b : bool then saw_active o else saw_inactive o)
    (λ _, safe_state).
Proof.
  unfold is_active, _run. eapply triple_bind.
  - eapply triple_bind; [apply (ask_triple P); discriminate|].
    intros [c|]; [|apply triple_throws; by intros s [? _]].
    apply (triple_ret _ c (λ c s, safe_state s ∧ ∃ l, s.2 = ORun is_active_args (Some c) :: l ∧ P l)).
    by intros s.
  - intros c. cbn beta. destruct (Z.eqb_spec (returncode c) 0) as [E|E].
    { apply triple_ret. intros s (Hs & l & El & Hp). split; [done|].
      exists (ORun is_active_args (Some c)), l. split_and!; try done. by exists c. }
    destruct (Z.eqb_spec (returncode c) 3) as [E'|E'].
    { apply triple_ret. intros s (Hs & l & El & Hp). split; [done|].
      exists (ORun is_active_args (Some c)), l. split_and!; try done. by exists c. }
    apply triple_throws. by intros s [? _].
Qed.

Lemma snapshot_triple (P : list observation → Prop) :
  triple (λ s : st, safe_state s ∧ P s.2) (snapshot base_url)
    (λ d s, safe_state s ∧ ∃ a l, s.2 = OGet (base_url +:+ "/health") a :: l ∧ P l ∧ d = ok_object a)
    (λ _, safe_state).
Proof.
  unfold snapshot. eapply triple_bind; [apply (get_triple P)|]. intros o. cbn beta.
  apply triple_ret. intros s (Hs & l & El & Hp). split; [done|]. by exists o, l.
Qed.

(** ** The steps of a switch *)

Abbreviation keeps_safe m := (preserves safe_state m).

Lemma safe_of {A} (m : eff st A) Q :
  triple (λ s, safe_state s ∧ True) m (λ a s, safe_state s ∧ Q a s) (λ _, safe_state) → keeps_safe m.
Proof. intros Hm. eapply triple_conseq; [exact Hm|by intros s|by intros a s []|done]. Qed.

Lemma safe_run_other args : args ≠ stop_args → args ≠ start_args → keeps_safe (run args).
Proof. intros Hn Hn'. by eapply safe_of, (ask_triple (λ _, True)). Qed.

Lemma safe_bind {A B} (m : eff st A) (k : A → eff st B) :
  keeps_safe m → (∀ a, keeps_safe (k a)) → keeps_safe (m ≫= k).
Proof. intros Hm Hk. eapply triple_bind; [exact Hm|done]. Qed.
Lemma safe_ret {A} (a : A) : keeps_safe (mret a).
Proof. by apply triple_ret. Qed.
Lemma safe_throws {A} e : keeps_safe (throws (A:=A) e).
Proof. by apply triple_throws. Qed.
Lemma safe_ensure b e : keeps_safe (ensure b e).
Proof. by apply triple_ensure. Qed.
Lemma safe_lifts {A} (r : result A) : keeps_safe (lifts r).
Proof. apply triple_lifts. by destruct r. Qed.
Lemma safe_is_active : keeps_safe (is_active systemctl service_name).
Proof. eapply safe_of, (is_active_triple (λ _, True)). Qed.
Lemma safe_snapshot : keeps_safe (snapshot base_url).
Proof. eapply safe_of, (snapshot_triple (λ _, True)). Qed.

Lemma safe_request_drain : keeps_safe (request_drain systemctl service_name).
Proof.
  unfold request_drain, _run. apply safe_bind; [|intros; apply safe_ensure].
  apply safe_bind; [by apply safe_run_other|]. intros [c|]; [apply safe_ret|apply safe_throws].
Qed.

(** Waiting keeps what the predicate establishes when it answers true. *)
Lemma wait_triple fuel predicate timeout description (Q : list observation → Prop) :
  triple safe_state predicate (λ b s, safe_state s ∧ (b = true → Q s.2)) (λ _, safe_state) →
  triple safe_state (_wait poll_interval fuel predicate timeout description)
    (λ r s, safe_state s ∧ (r = Some tt → Q s.2)) (λ _, safe_state).
Proof.
  intros Hp. unfold _wait.
  eapply triple_bind; [apply (triple_gets _ _ (λ _ s, safe_state s)); done|]. intros now. cbn beta.
  generalize ((λ t, now + t) <$> timeout); intros deadline.
  induction fuel as [|fuel IH]; cbn [wait_loop]; [by apply triple_ret|].
  eapply triple_bind; [exact Hp|]. intros [|]; cbn beta.
  { apply triple_ret. intros s [Hs Hq]. split; [done|]. intros _. by apply Hq. }
  eapply triple_bind; [apply (triple_gets _ _ (λ _ s, safe_state s)); by intros s []|].
  intros t. cbn beta. destruct (match deadline with Some d => d <=? t | None => false end).
  { by apply triple_throws. }
  apply (triple_bind _ _ (λ _, safe_state)); [|intros []; apply IH].
  intros s Hs. by split.
Qed.

Lemma drained_triple :
  triple safe_state (drained systemctl service_name base_url)
    (λ b s, safe_state s ∧ (b = true → ends_with gone s.2))
    (λ _, safe_state).
Proof.
  unfold drained. eapply triple_bind.
  { eapply triple_pre; [apply (is_active_triple (λ _, True))|done]. }
  intros [|]; cbn beta; cbn [negb].
  - eapply triple_bind; [eapply triple_pre; [apply (snapshot_triple (λ _, True))|by intros s []]|].
    intros d. cbn beta. apply triple_ret. intros s (Hs & a & l & El & _ & ->). split; [done|].
    intros [Hd Hj]%andb_true_iff. exists (OGet (base_url +:+ "/health") a), l.
    split; [done|]. left. by exists a.
  - apply triple_ret. intros s (Hs & o & l & El & _ & Ho). split; [done|]. intros _.
    exists o, l. split; [done|by right].
Qed.

Lemma stop_triple :
  triple (λ s, safe_state s ∧ ends_with gone s.2)
    (stop_if_active systemctl service_name) (λ _, safe_state) (λ _, safe_state).
Proof.
  unfold stop_if_active. eapply triple_bind.
  { apply (is_active_triple (ends_with gone)). }
  intros [|]; cbn beta; [|by apply triple_ret; intros s []].
  unfold stop_service, _run.
  apply (triple_bind _ _ (λ _, safe_state)); [|intros; apply safe_ensure].
  apply (triple_bind _ _ (λ _, safe_state)); [|intros [c|]; [apply safe_ret|apply safe_throws]].
  eapply triple_conseq.
  - apply (run_triple (λ l, ∃ a d l', l = a :: d :: l' ∧ saw_active a ∧ (saw_drained d ∨ saw_inactive d))).
    intros l o (a & d & l' & -> & Ha & Hd). cbn. split; [by exists a, d, l'|done].
  - intros s (Hs & o & l & El & (d & l' & -> & Hd) & Ho). split; [done|]. by exists o, d, l'.
  - by intros a s [].
  - done.
Qed.

Lemma index_map_triple (P : list observation → Prop) :
  triple (λ s, safe_state s ∧ P s.2) (_gpu_index_map nvidia_smi)
    (λ m s, safe_state s ∧ ∃ c l,
       s.2 = ORun [nvidia_smi; "--query-gpu=index,uuid"; "--format=csv,noheader,nounits"] (Some c) :: l ∧
       P l ∧ returncode c = 0 ∧ foldR index_row [] (splitlines (stdout c)) = Ok m) (λ _, safe_state).
Proof.
  unfold _gpu_index_map. eapply triple_bind; [apply (ask_triple P); discriminate|].
  intros [c|]; cbn beta; [|by apply triple_throws; intros s []].
  eapply triple_bind.
  { apply (triple_ensure _ _ _ (λ _ s, safe_state s ∧ (∃ l, s.2 = ORun
      [nvidia_smi; "--query-gpu=index,uuid"; "--format=csv,noheader,nounits"] (Some c) :: l ∧ P l) ∧
      returncode c = 0) (λ _, safe_state)).
    - intros s [Hs Hl] E. split_and!; [done|done|by apply Z.eqb_eq].
    - by intros s []. }
  intros []. cbn beta. apply triple_lifts. intros s (Hs & (l & El & Hp) & Hr).
  destruct (foldR index_row [] _) as [m|e] eqn:E; [|done]. split; [done|]. by exists c, l.
Qed.

Lemma processes_triple (P : list observation → Prop) :
  triple (λ s, safe_state s ∧ P s.2) (active_processes nvidia_smi expected_gpu_uuids)
    (λ ps s, safe_state s ∧ ∃ c2 c3 m l,
       s.2 = ORun [nvidia_smi; "pmon"; "-c"; "1"] (Some c3)
             :: ORun [nvidia_smi; "--query-gpu=index,uuid"; "--format=csv,noheader,nounits"] (Some c2) :: l ∧
       P l ∧ returncode c2 = 0 ∧ foldR index_row [] (splitlines (stdout c2)) = Ok m ∧
       returncode c3 = 0 ∧
       foldR (process_row (indexes_of expected_gpu_uuids m)) [] (splitlines (stdout c3)) = Ok ps)
    (λ _, safe_state).
Proof.
  unfold active_processes. eapply triple_bind; [apply (index_map_triple P)|]. intros m. cbn beta.
  eapply triple_bind.
  { apply (ask_triple (λ l, ∃ c l', l = ORun [nvidia_smi; "--query-gpu=index,uuid";
      "--format=csv,noheader,nounits"] (Some c) :: l' ∧ P l' ∧ returncode c = 0 ∧
      foldR index_row [] (splitlines (stdout c)) = Ok m)); discriminate. }
  intros [c|]; cbn beta; [|by apply triple_throws; intros s []].
  eapply triple_bind.
  { apply (triple_ensure _ _ _ (λ _ s, (safe_state s ∧ ∃ l, s.2 = ORun [nvidia_smi; "pmon"; "-c"; "1"] (Some c) :: l ∧
      ∃ c' l', l = ORun [nvidia_smi; "--query-gpu=index,uuid"; "--format=csv,noheader,nounits"] (Some c') :: l' ∧ P l' ∧ returncode c' = 0 ∧
      foldR index_row [] (splitlines (stdout c')) = Ok m) ∧ returncode c = 0) (λ _, safe_state)).
    - intros s Hs E. split; [done|by apply Z.eqb_eq].
    - by intros s []. }
  intros []. cbn beta. apply triple_lifts.
  intros s ((Hs & l & El & c' & l' & -> & Hp & Hr' & Hm) & Hr).
  destruct (foldR (process_row _) [] _) as [ps|e] eqn:E; [|done]. split; [done|]. by exists c', c, m, l'.
Qed.

Lemma idle_triple (P : list observation → Prop) message :
  triple (λ s, safe_state s ∧ P s.2) (require_idle_gpus nvidia_smi expected_gpu_uuids message)
    (λ _ s, safe_state s ∧ ∃ older, idle_gpus_after older s.2 ∧ P older) (λ _, safe_state).
Proof.
  unfold require_idle_gpus, require_exact_identity.
  set (R := λ l, ∃ o l', l = ORun [nvidia_smi; "--query-gpu=uuid"; "--format=csv,noheader"] o :: l' ∧
                         P l' ∧ require_exact_gpu_set expected_gpu_uuids o = Ok tt).
  apply (triple_bind _ _ (λ _ s, safe_state s ∧ R s.2)); [|intros []].
  { eapply triple_bind; [apply (ask_triple P); discriminate|].
    intros o. cbn beta. apply triple_lifts. intros s (Hs & l & El & Hp).
    destruct (require_exact_gpu_set _ o) as [[]|e] eqn:E; [|done]. split; [done|]. by exists o, l. }
  eapply triple_bind; [apply (processes_triple R)|]. intros ps. cbn beta.
  apply triple_ensure; [|by intros s []].
  intros s (Hs & c2 & c3 & m & l & El & (o & l' & -> & Hp & Hx) & H2 & Hm & H3 & Hps) E.
  destruct ps; [|done]. split; [done|]. exists l'. split; [|done]. by exists o, c2, c3, m.
Qed.

(** ** The two switches *)

(** A question of the log: it changes nothing. *)
Definition question (o : observation) : Prop :=
  match o with
  | ORun args _ => args ≠ stop_args ∧ args ≠ start_args
  | _ => True
  end.
Definition then_asked (P : list observation → Prop) (l : list observation) : Prop :=
  ∃ newer older, l = newer ++ older ∧ Forall question newer ∧ P older.

Lemma then_asked_refl (P : list observation → Prop) l : P l → then_asked P l.
Proof. intros Hp. by exists [], l. Qed.
Lemma then_asked_cons P o l : question o → then_asked P l → then_asked P (o :: l).
Proof. intros Ho (n & l' & -> & Hn & Hp). exists (o :: n), l'. split_and!; [done|by constructor|done]. Qed.

Lemma report_triple (P : list observation → Prop) :
  triple (λ s, safe_state s ∧ P s.2)
    (_report systemctl service_name base_url nvidia_smi expected_gpu_uuids)
    (λ _ s, safe_state s ∧ then_asked P s.2) (λ _, safe_state).
Proof.
  unfold _report. eapply triple_bind; [eapply triple_pre; [apply (is_active_triple (then_asked P))|]|].
  { intros s []. split; [done|by apply then_asked_refl]. }
  intros active. cbn beta.
  apply (triple_bind _ _ (λ _ s, safe_state s ∧ then_asked P s.2)).
  { eapply (triple_pre _ (λ s, safe_state s ∧ then_asked P s.2)).
    - destruct active; [|by apply triple_ret].
      eapply triple_conseq; [apply (snapshot_triple (then_asked P))|done| |done].
      intros d s (Hs & a & l & El & Hp & _). split; [done|]. rewrite El. by apply then_asked_cons.
    - intros s (Hs & o & l & El & Hp & Ho). split; [done|]. rewrite El. apply then_asked_cons; [|done].
      destruct active; destruct Ho as (c & -> & _); by split. }
  intros d. apply (triple_bind _ _ (λ _ s, safe_state s ∧ then_asked P s.2)).
  { apply triple_lifts. intros s Hs. destruct (match d with Some _ => _ | None => _ end); [done|by destruct Hs]. }
  intros job. eapply triple_bind; [apply (processes_triple (then_asked P))|].
  intros ps. cbn beta. apply triple_ret.
  intros s (Hs & c2 & c3 & m & l & El & Hp & _). split; [done|]. rewrite El.
  apply then_asked_cons; [by split|]. by apply then_asked_cons; [by split|].
Qed.

Lemma worker_ready_triple :
  triple safe_state (worker_ready base_url)
    (λ b s, safe_state s ∧ (b = true → ends_with saw_ready s.2)) (λ _, safe_state).
Proof.
  unfold worker_ready. eapply triple_bind; [eapply triple_pre; [apply (snapshot_triple (λ _, True))|done]|].
  intros d. cbn beta. apply triple_ret. intros s (Hs & a & l & El & _ & ->). split; [done|].
  intros Hr. exists (OGet (base_url +:+ "/health") a), l. split; [done|by exists a].
Qed.

Lemma start_triple :
  triple (λ s, safe_state s ∧ saw_idle_gpus s.2) (start_service systemctl service_name)
    (λ _, safe_state) (λ _, safe_state).
Proof.
  unfold start_service, _run.
  apply (triple_bind _ _ (λ _, safe_state)); [|intros; apply safe_ensure].
  apply (triple_bind _ _ (λ _, safe_state)); [|intros [c|]; [apply safe_ret|apply safe_throws]].
  eapply triple_conseq; [apply (run_triple saw_idle_gpus)|done|by intros a s []|done].
  intros l o Hl. cbn. done.
Qed.

(** A wait for [drained], then a stop. *)
Lemma drain_and_stop_triple fuel timeout description {A} (a : A) :
  triple safe_state
    (r ← _wait poll_interval fuel (drained systemctl service_name base_url) timeout description;
     match r with
     | None => mret None
     | Some _ => stop_if_active systemctl service_name;; mret (Some a)
     end) (λ _, safe_state) (λ _, safe_state).
Proof.
  eapply triple_bind; [apply (wait_triple _ _ _ _ (ends_with gone)), drained_triple|].
  intros [[]|]; cbn beta; [|by apply triple_ret; intros s []].
  apply (triple_bind _ _ (λ _, safe_state)); [|intros []; by apply safe_ret].
  eapply triple_pre; [apply stop_triple|]. intros s [Hs Hd]. split; [done|by apply Hd].
Qed.

(** The end of a switch that waited for readiness. *)
Lemma ready_report_triple fuel timeout description {A} (f : ModeReport → A) :
  triple safe_state
    (r ← _wait poll_interval fuel (worker_ready base_url) timeout description;
     match r with
     | None => mret None
     | Some _ => report ← _report systemctl service_name base_url nvidia_smi expected_gpu_uuids;
                 mret (Some (f report))
     end)
    (λ r s, safe_state s ∧
            (r ≠ None → then_asked (ends_with saw_ready) s.2)) (λ _, safe_state).
Proof.
  eapply triple_bind; [apply (wait_triple _ _ _ _ (ends_with saw_ready)), worker_ready_triple|].
  intros [[]|]; cbn beta; [|by apply triple_ret; intros s []].
  eapply triple_bind; [eapply triple_pre; [apply report_triple|]|].
  - intros s [Hs Hr]. split; [done|by apply Hr].
  - intros r. apply triple_ret. intros s [Hs Hr]. by split.
Qed.

Lemma to_development_triple fuel timeout :
  triple safe_state (to_development systemctl service_name base_url nvidia_smi expected_gpu_uuids
                       poll_interval fuel timeout)
    (λ r s, safe_state s ∧ (r ≠ None → then_asked (λ l, ∃ older,
       idle_gpus_after older l ∧ ends_with saw_inactive older) s.2)) (λ _, safe_state).
Proof.
  unfold to_development. eapply triple_bind; [apply safe_is_active|].
  intros active. cbn beta. apply (triple_bind _ _ (λ _, safe_state)).
  { destruct active; [|by apply safe_ret].
    apply safe_bind; [apply safe_request_drain|]. intros _. apply drain_and_stop_triple. }
  intros [[]|]; [|by apply triple_ret; intros s ?; split].
  eapply triple_bind; [eapply triple_pre; [apply (is_active_triple (λ _, True))|by intros s]|].
  intros still. cbn beta.
  apply (triple_bind _ _ (λ _ s, safe_state s ∧ ends_with saw_inactive s.2)).
  { apply triple_ensure; intros s (Hs & o & l & El & _ & Ho) E; [|done]. split; [done|].
    exists o, l. destruct still; done. }
  intros []. eapply triple_bind; [apply (idle_triple (ends_with saw_inactive))|].
  intros []. cbn beta.
  eapply triple_bind; [apply (report_triple (λ l, ∃ older, idle_gpus_after older l ∧
                                              ends_with saw_inactive older))|].
  intros r. apply triple_ret. intros s [Hs Hr]. by split.
Qed.

Lemma settle_active_triple fuel start_timeout timeout :
  triple safe_state (settle_active systemctl service_name base_url nvidia_smi expected_gpu_uuids
                       poll_interval fuel start_timeout timeout)
    (λ r s, safe_state s ∧ ((∃ report, r = Some (inl report)) →
                            then_asked (ends_with saw_ready) s.2)) (λ _, safe_state).
Proof.
  unfold settle_active. eapply triple_bind; [apply safe_is_active|].
  intros [|]; cbn [negb]; [|apply triple_ret; intros s Hs; split; [done|by intros []]].
  eapply triple_bind; [apply safe_snapshot|]. intros d. cbn beta.
  destruct (says_true "draining" d).
  - eapply triple_conseq; [|done| |intros e s Hs; exact Hs].
    + eapply triple_bind; [apply (wait_triple _ _ _ _ (ends_with gone)), drained_triple|]. intros r. cbn beta.
      instantiate (1 := λ r s, safe_state s ∧ ∀ report, r ≠ Some (inl report)).
      destruct r as [[]|]; [|apply triple_ret; intros s []; by split].
      apply (triple_bind _ _ (λ _, safe_state)); [|intros []; apply triple_ret; intros s Hs; by split].
      eapply triple_pre; [apply stop_triple|]. intros s [Hs Hd]. split; [done|by apply Hd].
    + intros r s [Hs Hr]. split; [done|]. intros [rep ->]. by destruct (Hr rep).
  - eapply triple_conseq; [apply (ready_report_triple _ _ _ inl)|done| |done].
    intros r s [Hs Hr]. split; [done|]. intros [rep ->]. by apply Hr.
Qed.

Lemma start_worker_triple fuel start_timeout :
  triple safe_state (start_worker systemctl service_name base_url nvidia_smi expected_gpu_uuids
                       poll_interval fuel start_timeout)
    (λ r s, safe_state s ∧
            (r ≠ None → then_asked (ends_with saw_ready) s.2)) (λ _, safe_state).
Proof.
  unfold start_worker. eapply triple_bind; [eapply triple_pre; [apply (idle_triple (λ _, True))|done]|].
  intros []. cbn beta. eapply triple_bind; [eapply triple_pre; [apply start_triple|]|].
  { intros s (Hs & older & Ho & _). split; [done|by exists older]. }
  intros []. cbn beta.
  eapply triple_bind; [eapply (wait_triple _ _ _ _ (λ _, True))|].
  { eapply triple_conseq; [apply safe_is_active|done|by intros a s|done]. }
  intros [[]|]; cbn beta; [|by apply triple_ret; intros s []].
  eapply triple_pre; [apply (ready_report_triple _ _ _ id)|by intros s []].
Qed.

Lemma to_astrumweaver_triple fuel start_timeout timeout :
  triple safe_state (to_astrumweaver systemctl service_name base_url nvidia_smi expected_gpu_uuids
                       poll_interval fuel start_timeout timeout)
    (λ r s, safe_state s ∧
            (r ≠ None → then_asked (ends_with saw_ready) s.2)) (λ _, safe_state).
Proof.
  unfold to_astrumweaver. eapply triple_bind; [apply safe_ensure|]. intros []. cbn beta.
  eapply triple_bind; [apply settle_active_triple|].
  intros [[rep|[]]|]; cbn beta; [| |by apply triple_ret; intros s []].
  - apply triple_ret. intros s [Hs Hr]. split; [done|]. intros _. apply Hr. by exists rep.
  - eapply triple_pre; [apply start_worker_triple|by intros s []].
Qed.

(** A status report asks only. *)
Lemma status_triple :
  triple (λ s, safe_state s ∧ Forall question s.2)
    (_report systemctl service_name base_url nvidia_smi expected_gpu_uuids)
    (λ _ s, safe_state s ∧ Forall question s.2) (λ _, safe_state).
Proof.
  eapply triple_conseq; [apply (report_triple (Forall question))|done| |done].
  intros _ s (Hs & newer & older & El & Hn & Ho). split; [done|]. rewrite El. by apply Forall_app.
Qed.

(** What a report of each request says was observed. *)
Definition reported (request : mode_request) (l : list observation) : Prop :=
  match request with
  | RequestDevelopment => then_asked (λ l', ∃ older, idle_gpus_after older l' ∧ ends_with saw_inactive older) l
  | RequestAstrumweaver => then_asked (ends_with saw_ready) l
  | RequestStatus => Forall question l
  end.

Lemma main_triple fuel request drain_timeout start_timeout w :
  triple (λ s, s = (w, []))
    (main_body systemctl service_name base_url nvidia_smi expected_gpu_uuids poll_interval
       fuel request drain_timeout start_timeout)
    (λ r s, safe_state s ∧ (∀ report, r = Some (inl report) → reported request s.2))
    (λ _, safe_state).
Proof.
  unfold main_body. eapply (triple_catch _ _ _ (λ _, safe_state)).
  - apply (triple_bind _ _ (λ r s, safe_state s ∧ (r ≠ None → reported request s.2))).
    + destruct request.
      * eapply triple_pre; [apply to_development_triple|by intros ? ->].
      * eapply triple_pre; [apply to_astrumweaver_triple|by intros ? ->].
      * eapply triple_bind; [eapply triple_pre; [apply status_triple|]|].
        { by intros ? ->. }
        intros rep. apply triple_ret. intros s [Hs Hl]. by split.
    + intros r. apply triple_ret. intros s [Hs Hr]. split; [done|].
      intros rep E. apply Hr. by intros ->.
  - intros e. destruct e; first [by apply triple_throws
                                |apply triple_ret; intros s Hs; split; [exact Hs|discriminate]].
Qed.
End mode.

(** ** Termination *)

(** A lawful clock: [time.monotonic] never goes back and [time.sleep] takes its time. *)
Class ClockLaws (W : Type) `{ModeWorld W} := {
  clock_run args w : mw_time w <= mw_time (mw_run args w).1;
  clock_get url w : mw_time w <= mw_time (mw_get url w).1;
  clock_sleep d w : mw_time w + d <= mw_time (mw_sleep d w);
}.

Section clock.
Context {W : Type} `{ClockLaws W}.
Variables systemctl service_name base_url nvidia_smi : string.
Variable expected_gpu_uuids : list string.
Variable poll_interval : Z.
Hypothesis Hpoll : 0 < poll_interval.

Local Abbreviation st := (mstate (W:=W)).

Definition later (t : Z) (s : st) : Prop := t <= mw_time s.1.
Abbreviation returns m := (∀ t, triple (later t) m (λ _, later t) (λ _ _, True)).

Lemma mode_returns_bind {A B} (m : eff st A) (k : A → eff st B) :
  returns m → (∀ a, returns (k a)) → returns (m ≫= k).
Proof. intros Hm Hk t. eapply triple_bind; [apply Hm|intros; apply Hk]. Qed.
Lemma mode_returns_ret {A} (a : A) : returns (mret a).
Proof. intros t. by apply triple_ret. Qed.
Lemma mode_returns_throws {A} e : returns (throws (A:=A) e).
Proof. intros t. by apply triple_throws. Qed.
Lemma returns_ensure b e : returns (ensure b e).
Proof. intros t. by apply triple_ensure. Qed.
Lemma mode_returns_lifts {A} (r : result A) : returns (lifts r).
Proof. intros t. apply triple_lifts. by destruct r. Qed.
Lemma returns_run args : returns (run args).
Proof.
  intros t s Hs. unfold run. pose proof (clock_run args s.1) as Hc.
  destruct (mw_run args s.1) as [w o]. unfold later in *. cbn in *. lia.
Qed.
Lemma returns_get url : returns (http_get url).
Proof.
  intros t s Hs. unfold http_get. pose proof (clock_get url s.1) as Hc.
  destruct (mw_get url s.1) as [w o]. unfold later in *. cbn in *. lia.
Qed.
Lemma returns_sleep t : triple (later t) (sleep poll_interval) (λ _, later (t + poll_interval)) (λ _ _, True).
Proof. intros s Hs. pose proof (clock_sleep poll_interval s.1). unfold later in *. cbn. lia. Qed.

Ltac returning :=
  repeat first [apply returns_run | apply returns_get | apply mode_returns_ret | apply mode_returns_throws
               | apply returns_ensure | apply mode_returns_lifts
               | apply mode_returns_bind; [|intros ?] | case_match ].

Lemma returns_systemctl args : returns (_run systemctl args).
Proof. unfold _run. returning. Qed.
Lemma returns_is_active : returns (is_active systemctl service_name).
Proof. unfold is_active. apply mode_returns_bind; [apply returns_systemctl|intros c]. returning. Qed.
Lemma returns_snapshot : returns (snapshot base_url).
Proof. unfold snapshot. returning. Qed.
Lemma returns_drained : returns (drained systemctl service_name base_url).
Proof.
  unfold drained. apply mode_returns_bind; [apply returns_is_active|intros [|]]; [|apply mode_returns_ret].
  apply mode_returns_bind; [apply returns_snapshot|intros d; apply mode_returns_ret].
Qed.
Lemma returns_worker_ready : returns (worker_ready base_url).
Proof. unfold worker_ready. apply mode_returns_bind; [apply returns_snapshot|intros d; apply mode_returns_ret]. Qed.
Lemma returns_stop : returns (stop_if_active systemctl service_name).
Proof.
  unfold stop_if_active, stop_service. apply mode_returns_bind; [apply returns_is_active|intros [|]]; [|apply mode_returns_ret].
  apply mode_returns_bind; [apply returns_systemctl|intros; apply returns_ensure].
Qed.
Lemma returns_processes : returns (active_processes nvidia_smi expected_gpu_uuids).
Proof. unfold active_processes, _gpu_index_map. returning. Qed.
Lemma returns_idle message : returns (require_idle_gpus nvidia_smi expected_gpu_uuids message).
Proof.
  unfold require_idle_gpus, require_exact_identity. apply mode_returns_bind; [returning|intros _].
  apply mode_returns_bind; [apply returns_processes|intros; apply returns_ensure].
Qed.
Lemma returns_report : returns (_report systemctl service_name base_url nvidia_smi expected_gpu_uuids).
Proof.
  unfold _report. apply mode_returns_bind; [apply returns_is_active|intros active].
  apply mode_returns_bind; [destruct active; [apply returns_snapshot|apply mode_returns_ret]|intros d].
  apply mode_returns_bind; [apply mode_returns_lifts|intros job].
  apply mode_returns_bind; [apply returns_processes|intros ps]. apply mode_returns_ret.
Qed.

(** A wait with a time limit ends: each turn moves the clock by the poll interval. *)
Abbreviation ends m :=
  (∀ t, triple (later t) m (λ r s, r ≠ None ∧ later t s) (λ _ _, True)).

Lemma wait_loop_ends predicate description fuel : returns predicate → ∀ t d,
  d <= t + poll_interval * Z.of_nat fuel →
  triple (later t) (wait_loop poll_interval (S fuel) predicate (Some d) description)
    (λ r s, r ≠ None ∧ later t s) (λ _ _, True).
Proof.
  intros Hp. induction fuel as [|fuel IH]; intros t d Hd; cbn [wait_loop].
  all: eapply triple_bind; [apply Hp|intros [|]; [by apply triple_ret|]].
  all: apply (triple_bind _ _ (λ now s, later t s ∧ t <= now));
    [apply triple_gets; intros s Hs; split; exact Hs|intros now].
  all: destruct (Z.leb_spec d now); [by apply triple_throws|].
  { intros s [Hs Hn]. lia. }
  eapply triple_bind; [eapply triple_pre; [apply returns_sleep|by intros s []]|].
  intros []. eapply triple_conseq; [apply (IH (t + poll_interval) d)|done| |done]; [lia|].
  intros r s [Hr Hs]. split; [done|]. unfold later in *. lia.
Qed.

Lemma wait_ends fuel predicate timeout description :
  returns predicate → timeout <= poll_interval * Z.of_nat fuel →
  ends (_wait poll_interval (S fuel) predicate (Some timeout) description).
Proof.
  intros Hp Ht t. unfold _wait.
  apply (triple_bind _ _ (λ now s, t <= now ∧ later now s)).
  { apply triple_gets. intros s Hs. split; [exact Hs|]. unfold later. lia. }
  intros now s [Hn Hs]. pose proof (wait_loop_ends predicate description fuel Hp now (now + timeout)) as Hw.
  specialize (Hw ltac:(lia) s Hs). cbn [fmap option_fmap option_map].
  destruct (wait_loop _ _ _ _ _ _) as [s' [a|e]]; [|done].
  destruct Hw as [Ha Hl]. split; [done|]. unfold later in *. lia.
Qed.

Lemma ends_returns {A B} (m : eff st A) (k : A → eff st (option B)) :
  returns m → (∀ a, ends (k a)) → ends (m ≫= k).
Proof. intros Hm Hk t. eapply triple_bind; [apply Hm|intros; apply Hk]. Qed.
Lemma ends_bind {A B} (m : eff st (option A)) (k : option A → eff st (option B)) :
  ends m → (∀ a, ends (k (Some a))) → ends (m ≫= k).
Proof.
  intros Hm Hk t. eapply triple_bind; [apply Hm|]. intros [a|]; [|by intros s []].
  eapply triple_pre; [apply Hk|by intros s []].
Qed.
Lemma ends_ret {A} (a : A) : ends (mret (Some a)).
Proof. intros t. by apply triple_ret. Qed.
Lemma ends_report {A} (f : ModeReport → A) :
  ends (report ← _report systemctl service_name base_url nvidia_smi expected_gpu_uuids;
        mret (Some (f report))).
Proof. apply ends_returns; [apply returns_report|intros; apply ends_ret]. Qed.

Lemma to_development_ends fuel timeout :
  timeout <= poll_interval * Z.of_nat fuel →
  ends (to_development systemctl service_name base_url nvidia_smi expected_gpu_uuids
          poll_interval (S fuel) (Some timeout)).
Proof.
  intros Ht. unfold to_development. apply ends_returns; [apply returns_is_active|intros active].
  apply (ends_bind (A := unit)).
  - destruct active; [|apply ends_ret]. apply ends_returns.
    { unfold request_drain. apply mode_returns_bind; [apply returns_systemctl|intros; apply returns_ensure]. }
    intros _. apply (ends_bind (A := unit)); [apply wait_ends; [apply returns_drained|done]|].
    intros _. apply ends_returns; [apply returns_stop|intros; apply ends_ret].
  - intros _. apply ends_returns; [apply returns_is_active|intros still].
    apply ends_returns; [apply returns_ensure|intros _].
    apply ends_returns; [apply returns_idle|intros _]. apply (ends_report id).
Qed.

Lemma start_worker_ends fuel start_timeout :
  start_timeout <= poll_interval * Z.of_nat fuel →
  ends (start_worker systemctl service_name base_url nvidia_smi expected_gpu_uuids
          poll_interval (S fuel) start_timeout).
Proof.
  intros Ht. unfold start_worker. apply ends_returns; [apply returns_idle|intros _].
  apply ends_returns.
  { unfold start_service. apply mode_returns_bind; [apply returns_systemctl|intros; apply returns_ensure]. }
  intros _. apply (ends_bind (A := unit)); [apply wait_ends; [apply returns_is_active|done]|intros _].
  apply (ends_bind (A := unit)); [apply wait_ends; [apply returns_worker_ready|done]|intros _].
  apply (ends_report id).
Qed.

Lemma to_astrumweaver_ends fuel start_timeout timeout :
  start_timeout <= poll_interval * Z.of_nat fuel → timeout <= poll_interval * Z.of_nat fuel →
  ends (to_astrumweaver systemctl service_name base_url nvidia_smi expected_gpu_uuids
          poll_interval (S fuel) start_timeout (Some timeout)).
Proof.
  intros Hs Ht. unfold to_astrumweaver. apply ends_returns; [apply returns_ensure|intros _].
  apply (ends_bind (A := ModeReport + unit)).
  - unfold settle_active. apply ends_returns; [apply returns_is_active|intros [|]; [|apply ends_ret]].
    cbn [negb]. apply ends_returns; [apply returns_snapshot|intros d].
    destruct (says_true "draining" d).
    + apply (ends_bind (A := unit)); [apply wait_ends; [apply returns_drained|done]|intros _].
      apply ends_returns; [apply returns_stop|intros; apply ends_ret].
    + apply (ends_bind (A := unit)); [apply wait_ends; [apply returns_worker_ready|done]|intros _].
      apply (ends_report inl).
  - intros [rep|[]]; [apply ends_ret|by apply start_worker_ends].
Qed.

Lemma main_ends fuel request drain_timeout start_timeout :
  drain_timeout ≠ 0 → drain_timeout <= poll_interval * Z.of_nat fuel →
  start_timeout <= poll_interval * Z.of_nat fuel → ∀ s,
  (main_body systemctl service_name base_url nvidia_smi expected_gpu_uuids poll_interval
     (S fuel) request drain_timeout start_timeout s).2 ≠ Ok None.
Proof.
  intros Hd Ht Hs s. unfold main_body. rewrite (proj2 (Z.eqb_neq _ _) Hd).
  match goal with |- (try_catch ?m ?h s).2 ≠ _ => set (body := m); set (handler := h) end.
  assert (Hb : ends body).
  { unfold body. apply (ends_bind (A := ModeReport)).
    - destruct request; [by apply to_development_ends|by apply to_astrumweaver_ends|apply (ends_report id)].
    - intros r. apply ends_ret. }
  specialize (Hb (mw_time s.1) s (Z.le_refl _)). unfold try_catch.
  destruct (body s) as [s' [r|e]]; cbn; [naive_solver|]. by destruct e.
Qed.
End clock.

(** What the worker's health endpoint makes the switch see: drained is draining with no job
    in hand, and such a worker is not ready. *)
Lemma health_drained v :
  says_true "draining" (Some (health_body v)) && says_no_job (Some (health_body v))
  = hv_draining v && bool_decide (hv_active_job_id v = None).
Proof.
  unfold says_true, says_no_job. cbn. by destruct (hv_draining v), (hv_active_job_id v).
Qed.

Lemma health_drained_not_ready v :
  says_true "draining" (Some (health_body v)) = true → says_true "ready" (Some (health_body v)) = false.
Proof.
  unfold says_true. cbn. unfold is_ready. destruct (hv_draining v); [|done].
  intros _. by rewrite andb_false_r.
Qed.

(** ** An example: a worker that finishes its job while it drains *)

Record demo := { dw_active : bool; dw_draining : bool; dw_left : Z; dw_time : Z }.
Definition answer (code : Z) (out : string) : option completed :=
  Some {| returncode := code; stdout := out; stderr := EmptyString |}.
Definition demo_run (args : list string) (w : demo) : demo * option completed :=
  match args with
  | _ :: "is-active" :: _ => (w, answer (if dw_active w then 0 else 3) EmptyString)
  | _ :: "kill" :: _ =>
      ({| dw_active := dw_active w; dw_draining := true; dw_left := dw_left w; dw_time := dw_time w |},
       answer 0 EmptyString)
  | _ :: "stop" :: _ =>
      ({| dw_active := false; dw_draining := false; dw_left := 0; dw_time := dw_time w |}, answer 0 EmptyString)
  | _ :: "start" :: _ =>
      ({| dw_active := true; dw_draining := false; dw_left := 0; dw_time := dw_time w |}, answer 0 EmptyString)
  | _ :: "--query-gpu=uuid" :: _ => (w, answer 0 "GPU-1")
  | _ :: "--query-gpu=index,uuid" :: _ => (w, answer 0 "0, GPU-1")
  | _ => (w, answer 0 "0 - - - - - - -")
  end.
Definition demo_get (url : string) (w : demo) : demo * option (Z * option pyval) :=
  (w, if dw_active w
      then Some (200, Some (PDict [("ready", PBool (negb (dw_draining w)));
                                   ("draining", PBool (dw_draining w));
                                   ("active_job_id", if dw_left w =? 0 then PNone else PStr "job-1")]))
      else None).
#[export] Instance demo_world : ModeWorld demo := {
  mw_run := demo_run;
  mw_get := demo_get;
  mw_time := dw_time;
  mw_sleep d w := {| dw_active := dw_active w; dw_draining := dw_draining w;
                     dw_left := Z.max 0 (dw_left w - d); dw_time := dw_time w + Z.max d 0 |};
}.
#[export] Instance demo_clock : ClockLaws demo.
Proof.
  split; cbn; [|intros; lia|intros; lia].
  intros args w. unfold demo_run. repeat case_match; cbn; lia.
Qed.

Definition busy_worker : demo := {| dw_active := true; dw_draining := false; dw_left := 3; dw_time := 0 |}.
Definition demo_switch (request : mode_request) :=
  main_body "systemctl" "w.service" "http://h" "nvidia-smi" ["GPU-1"] 1 11 request 10 10 (busy_worker, []).
Definition demo_final : mstate := (demo_switch RequestDevelopment).1.
Definition demo_report : ModeReport :=
  {| mr_mode := "development"; mr_service_active := false; mr_worker_ready := false;
     mr_worker_draining := false; mr_active_job_id := None; mr_gpu_processes := [] |}.

(** Property C35: a mode switch acts only on what it saw.  In every run of the command, in any
    world, the worker service is stopped only when the last two observations were that it is
    active and, before that, that it was drained (its health endpoint answered 200 with
    [draining] true and no active job) or inactive; it is started only when the last three
    observations were the exact set of expected GPUs, their index table and a process table
    without a process on them.  A report of development means that the service was seen
    inactive and the GPUs were then seen idle, a report of worker use means that the worker
    was seen ready, each followed by questions only; a status request asks only. *)
Theorem mode_switch_safe {W} `{ModeWorld W} systemctl service_name base_url nvidia_smi
    expected_gpu_uuids poll_interval fuel request drain_timeout start_timeout (w : W) s r :
  main_body systemctl service_name base_url nvidia_smi expected_gpu_uuids poll_interval
    fuel request drain_timeout start_timeout (w, []) = (s, r) →
  safe systemctl service_name base_url nvidia_smi expected_gpu_uuids s.2 ∧
  (∀ report, r = Ok (Some (inl report)) →
     reported systemctl service_name base_url nvidia_smi expected_gpu_uuids request s.2).
Proof.
  intros E. pose proof (main_triple systemctl service_name base_url nvidia_smi expected_gpu_uuids
    poll_interval fuel request drain_timeout start_timeout w (w, []) eq_refl) as Ht.
  rewrite E in Ht. destruct r as [a|e]; [|by split]. destruct Ht as [Hs Hr]. split; [exact Hs|].
  intros rep [= ->]. by apply (Hr rep).
Qed.

Lemma mode_switch_safe_witness :
  safe "systemctl" "w.service" "http://h" "nvidia-smi" ["GPU-1"] demo_final.2 ∧
  (∀ report, Ok (Some (inl demo_report)) = Ok (A:=option (ModeReport + exn)) (Some (inl report)) →
     reported "systemctl" "w.service" "http://h" "nvidia-smi" ["GPU-1"] RequestDevelopment demo_final.2).
Proof.
  apply (mode_switch_safe "systemctl" "w.service" "http://h" "nvidia-smi" ["GPU-1"] 1 11
           RequestDevelopment 10 10 busy_worker demo_final).
  vm_compute. reflexivity.
Defined.

(** A mode switch with time limits returns.  With a clock that does not go back
    and sleeps that take their time, a positive poll interval and a drain timeout other than
    0 (which waits for ever), the loops end within one turn more than the longest timeout
    has poll intervals, whatever the service, the worker and the driver answer. *)
Theorem mode_switch_returns {W} `{ClockLaws W} systemctl service_name base_url nvidia_smi
    expected_gpu_uuids poll_interval fuel request drain_timeout start_timeout (s : mstate) :
  0 < poll_interval → drain_timeout ≠ 0 →
  Z.max drain_timeout start_timeout <= poll_interval * Z.of_nat fuel →
  ∃ s', (∃ report, main_body systemctl service_name base_url nvidia_smi expected_gpu_uuids
                     poll_interval (S fuel) request drain_timeout start_timeout s = (s', Ok (Some report)))
        ∨ ∃ e, main_body systemctl service_name base_url nvidia_smi expected_gpu_uuids
                 poll_interval (S fuel) request drain_timeout start_timeout s = (s', Err e).
Proof.
  intros Hp Hd Hf. pose proof (main_ends systemctl service_name base_url nvidia_smi expected_gpu_uuids
    poll_interval Hp fuel request drain_timeout start_timeout Hd ltac:(lia) ltac:(lia) s) as Hm.
  destruct (main_body _ _ _ _ _ _ _ _ _ _ s) as [s' [[rep|]|e]]; [|done|]; exists s'; eauto.
Qed.

Lemma mode_switch_returns_witness :
  0 < 1 ∧ (10 : Z) ≠ 0 ∧ Z.max 10 10 <= 1 * Z.of_nat 10 ∧
  ∃ s', (∃ report, demo_switch RequestDevelopment = (s', Ok (Some report)))
        ∨ ∃ e, demo_switch RequestDevelopment = (s', Err e).
Proof.
  split; [lia|]. split; [lia|]. split; [lia|].
  apply (mode_switch_returns "systemctl" "w.service" "http://h" "nvidia-smi" ["GPU-1"] 1 10
           RequestDevelopment 10 10 (busy_worker, [])); lia.
Defined.
