(* ===== verification/Api.v ===== *)
(** * The Control Plane API

    Models [src/src/astrumweaver/control/api.py]: what each endpoint requires, how it reads
    the request, which repository operation it runs and which status it answers.  The
    repository is the [Protocol] the module is written against; the routing and the
    transport of bytes (FastAPI) are outside. *)

From S2P Require Import Prelude PyStr PyDict PyVal Contracts Models Repository Serde.

(** ** The repository interface *)

(** [ControlRepository], control/repository.py lines 46-112: one method call is one step, at
    the clock reading and with the fresh identifier the implementation draws.  A method that
    may write answers with the store it leaves, whether it returns or raises; [get_job] and
    [check_storage] only read. *)
Class ControlRepository (S : Type) := {
  cr_check_storage : S → result unit;
  cr_register_worker : WorkerRegistration → S → S * result WorkerRecord;
  cr_heartbeat_worker : string → WorkerHeartbeat → S → S * result WorkerRecord;
  cr_set_worker_state : string → WorkerState → S → S * result WorkerRecord;
  cr_expire_stale_workers : S → S * result (list WorkerRecord);
  cr_submit_job : JobSubmission → S → S * result JobRecord;
  cr_get_job : string → S → result JobRecord;
  cr_claim_next_job : string → S → S * result (option JobRecord);
  cr_complete_job : string → JobResult → string → string → S → S * result JobRecord;
  cr_fail_job : string → error_arg → bool → string → string → S → S * result JobRecord;
  cr_cancel_job : string → S → S * result JobRecord;
  cr_recover_expired_jobs : S → S * result (list JobRecord);
}.

(** An in-memory method raises before it first writes (see Repository.v), so the store it
    leaves when it raises is the one it found. *)
Definition leaving {A} (r : result (repo * A)) (s : repo) : repo * result A :=
  match r with Ok (s', a) => (s', Ok a) | Err e => (s, Err e) end.

(** The in-memory implementation, at one clock reading and one fresh identifier. *)
#[export] Instance memory_repository (now : datetime) (uuid : string) : ControlRepository repo := {
  cr_check_storage _ := Ok tt;
  cr_register_worker reg s := leaving (register_worker reg now s) s;
  cr_heartbeat_worker wid hb s := leaving (heartbeat_worker wid hb now s) s;
  cr_set_worker_state wid st s := leaving (set_worker_state wid st now s) s;
  cr_expire_stale_workers s := leaving (Ok (expire_stale_workers now s)) s;
  cr_submit_job sub s := leaving (submit_job sub uuid now s) s;
  cr_get_job jid s := get_job jid s;
  cr_claim_next_job wid s := leaving (claim_next_job wid uuid now s) s;
  cr_complete_job jid res wid tok s := leaving (complete_job jid res wid tok now s) s;
  cr_fail_job jid err retryable wid tok s := leaving (fail_job jid err retryable wid tok now s) s;
  cr_cancel_job jid s := leaving (cancel_job jid now s) s;
  cr_recover_expired_jobs s := leaving (Ok (recover_expired_jobs now s)) s }.

(** ** Requests, responses, faults *)

(** A request: the [authorization] header (empty when absent) and the body, when it is
    JSON. *)
Record request := { rq_authorization : string; rq_json : option pyval }.

Record response := { rs_status : Z; rs_json : option pyval }.

(** What a handler raises. *)
Inductive fault :=
  | HTTPException (status : Z) (detail : string)
  | Raised (e : exn).

Inductive hres (A : Type) := HOk (a : A) | HFault (f : fault).
Arguments HOk {A} a.
Arguments HFault {A} f.
#[export] Instance hres_ret : MRet hres := @HOk.
#[export] Instance hres_bind : MBind hres := λ A B k m,
  match m with HOk a => k a | HFault f => HFault f end.

Definition lift {A} (r : result A) : hres A :=
  match r with Ok a => HOk a | Err e => HFault (Raised e) end.

(** [str(exc)]. *)
Definition exn_text (e : exn) : string :=
  match e with
  | KeyError k => "'" +:+ k +:+ "'"
  | ValueError m | TypeError m | AttributeError m | OverflowError m | RuntimeError m
  | NotFoundError m | ConflictError m | StorageUnavailable m | GpuMappingError m
  | GpuIsolationUnavailableError m | ModeTransitionError m | RuntimeLifecycleError m
  | RuntimeUnavailable m | DatabaseError m | ProviderError m | SetupApprovalError m
  | SetupPlanningError m | UnsafeSetupPath m | HostDiscoveryError m
  | HTTPError m | OSError m | FileNotFoundError m | FileExistsError m | AssertionError m
  | IndexError m | UnicodeDecodeError m | TOMLDecodeError m | CalledProcessError m
  | TimeoutExpired m | RuntimeDeploymentAcceptanceError m | HardwareAcceptanceError m | EOFError m
  | OutOfModel m => m
  | CancelledError => EmptyString
  | ControlTransportError s d => "control transport error " +:+ str_of_Z s +:+ ": " +:+ d
  end.

(** [except (KeyError, TypeError, ValueError) as exc: raise HTTPException(422, ...)]. *)
Definition unprocessable {A} (m : hres A) : hres A :=
  match m with
  | HFault (Raised ((KeyError _ | TypeError _ | ValueError _) as e)) =>
      HFault (HTTPException 422 (exn_text e))
  | _ => m
  end.
(** [except (TypeError, ValueError) as exc]. *)
Definition unprocessable_no_key {A} (m : hres A) : hres A :=
  match m with
  | HFault (Raised ((TypeError _ | ValueError _) as e)) =>
      HFault (HTTPException 422 (exn_text e))
  | _ => m
  end.

Definition detail (d : string) : option pyval := Some (PDict [("detail", PStr d)]).

(** The exception handlers, control/api.py lines 122-140. *)
Definition fault_response (f : fault) : response :=
  match f with
  | HTTPException st d => {| rs_status := st; rs_json := detail d |}
  | Raised (NotFoundError m) => {| rs_status := 404; rs_json := detail m |}
  | Raised (ConflictError m) => {| rs_status := 409; rs_json := detail m |}
  | Raised (StorageUnavailable _) => {| rs_status := 503; rs_json := detail "storage unavailable" |}
  | Raised _ => {| rs_status := 500; rs_json := detail "internal server error" |}
  end.

(** ** Authentication *)

Inductive client_auth_mode := BEARER | NO_AUTH.

(** The configuration [create_app] closes over. *)
Record app_config := {
  ac_client_token : option string;
  ac_worker_token : string;
  ac_client_auth : client_auth_mode;
  ac_maintenance_interval : Z;
}.

Definition is_ascii (s : string) : bool := all_chars (λ c, (N_of_ascii c <? 128)%N) s.

(** [secrets.compare_digest] of two strings: both must be ASCII. *)
Definition compare_digest (a b : string) : result bool :=
  if is_ascii a && is_ascii b then Ok (bool_decide (a = b))
  else Err (TypeError "comparing strings with non-ASCII characters is not supported").

(** The checks of [create_app], control/api.py lines 71-82. *)
Definition create_app (c : app_config) : result app_config :=
  require (str_truthy (ac_worker_token c)) (ValueError "worker_token is required");;
  match ac_client_auth c with
  | BEARER =>
      match ac_client_token c with
      | Some t =>
          require (str_truthy t)
            (ValueError "client_token is required when client_auth=bearer");;
          same ← compare_digest t (ac_worker_token c);
          require (negb same) (ValueError "client_token and worker_token must be distinct")
      | None => Err (ValueError "client_token is required when client_auth=bearer")
      end
  | NO_AUTH => Ok tt
  end;;
  require (0 <? ac_maintenance_interval c)
    (ValueError "maintenance_interval_seconds must be positive");;
  Ok c.

(** [_bearer_token], control/api.py lines 34-39. *)
Definition _bearer_token (rq : request) : option string :=
  let '(scheme, _, token) := partition_char " " (rq_authorization rq) in
  if negb (bool_decide (lower scheme = "bearer")) || negb (str_truthy token) then None
  else Some token.

(** [_require_token], control/api.py lines 42-48. *)
Definition _require_token (rq : request) (expected authority : string) : hres unit :=
  match _bearer_token rq with
  | None => HFault (HTTPException 401 (authority +:+ " authorization required"))
  | Some supplied =>
      same ← lift (compare_digest supplied expected);
      if same : bool then HOk tt
      else HFault (HTTPException 401 (authority +:+ " authorization required"))
  end.

(** [require_client], control/api.py lines 113-117. *)
Definition require_client (c : app_config) (rq : request) : hres unit :=
  match ac_client_auth c with
  | NO_AUTH => HOk tt
  | BEARER =>
      match ac_client_token c with
      | None => HFault (Raised (OutOfModel "assert client_token is not None"))
      | Some t => _require_token rq t "client"
      end
  end.

(** [require_worker], control/api.py lines 119-120. *)
Definition require_worker (c : app_config) (rq : request) : hres unit :=
  _require_token rq (ac_worker_token c) "worker".

(** ** Endpoints *)

Inductive endpoint :=
  | EpHealth
  | EpReady
  | EpSubmitJob
  | EpGetJob (job_id : string)
  | EpCancelJob (job_id : string)
  | EpRegisterWorker
  | EpHeartbeat (worker_id : string)
  | EpSetState (worker_id : string)
  | EpClaim (worker_id : string)
  | EpInspect (worker_id job_id : string)
  | EpComplete (worker_id job_id : string)
  | EpFail (worker_id job_id : string).

(** The [dependencies=[Depends(...)]] of the endpoints, control/api.py lines 142-255. *)
Definition authenticate (c : app_config) (ep : endpoint) (rq : request) : hres unit :=
  match ep with
  | EpHealth | EpReady => HOk tt
  | EpSubmitJob | EpGetJob _ | EpCancelJob _ => require_client c rq
  | _ => require_worker c rq
  end.

(** [_json_v1], control/api.py lines 51-60; a body that is not JSON raises a [ValueError]. *)
Definition _json_v1 (rq : request) : hres (dict pyval) :=
  match rq_json rq with
  | None => HFault (Raised (ValueError "Expecting value"))
  | Some (PDict body) =>
      if py_eqb (get "protocol_version" body) (PStr PROTOCOL_VERSION) then HOk body
      else HFault (HTTPException 409 "unsupported protocol version; expected v1")
  | Some _ => HFault (HTTPException 422 "JSON object is required")
  end.

(** A handler threads the store through: a fault keeps what was written before it. *)
Definition handler (S A : Type) : Type := S → S * hres A.
#[export] Instance handler_ret {S} : MRet (handler S) := λ A a s, (s, HOk a).
#[export] Instance handler_bind {S} : MBind (handler S) := λ A B k m s,
  match m s with
  | (s', HOk a) => k a s'
  | (s', HFault f) => (s', HFault f)
  end.
(** A step that does not use the repository. *)
Definition reading {S A} (m : hres A) : handler S A := λ s, (s, m).
(** A call of a repository method, and of one that only reads. *)
Definition call {S A} (m : S → S * result A) : handler S A := λ s, ((m s).1, lift (m s).2).
Definition query {S A} (m : S → result A) : handler S A := λ s, (s, lift (m s)).

Section handlers.
Variable isoformat : Z → string.
Variable fromisoformat : string → result datetime.
Context {S : Type} `{ControlRepository S}.

Definition ok_json (status : Z) (d : dict pyval) : response :=
  {| rs_status := status; rs_json := Some (PDict d) |}.

Definition job_body (j : JobRecord) : dict pyval := job_record_to_dict isoformat j true.
Definition worker_body (w : WorkerRecord) : dict pyval := worker_record_to_dict isoformat w.

(** [submit_job], control/api.py lines 151-158. *)
Definition h_submit_job (rq : request) : handler S response :=
  submission ← reading (unprocessable
    (body ← _json_v1 rq; lift (job_submission_from_dict fromisoformat (PDict body))));
  r ← call (cr_submit_job submission);
  mret (ok_json 201 (job_body r)).

(** [get_job], control/api.py lines 160-163. *)
Definition h_get_job (job_id : string) : handler S response :=
  j ← query (cr_get_job job_id);
  mret (ok_json 200 (job_body j)).

(** [cancel_job], control/api.py lines 165-168. *)
Definition h_cancel_job (job_id : string) : handler S response :=
  r ← call (cr_cancel_job job_id);
  mret (ok_json 200 (job_body r)).

(** [register_worker], control/api.py lines 170-177. *)
Definition h_register_worker (rq : request) : handler S response :=
  registration ← reading (unprocessable
    (body ← _json_v1 rq; lift (worker_registration_from_dict (PDict body))));
  r ← call (cr_register_worker registration);
  mret (ok_json 201 (worker_body r)).

(** [heartbeat_worker], control/api.py lines 179-188. *)
Definition h_heartbeat_worker (worker_id : string) (rq : request) : handler S response :=
  hb ← reading (unprocessable_no_key
    (body ← _json_v1 rq; lift (worker_heartbeat_from_dict (PDict body))));
  r ← call (cr_heartbeat_worker worker_id hb);
  mret (ok_json 200 (worker_body r)).

(** [set_worker_state], control/api.py lines 190-199. *)
Definition h_set_worker_state (worker_id : string) (rq : request) : handler S response :=
  state ← reading (unprocessable
    (body ← _json_v1 rq;
     lift (state_value ← item "state" body; v ← py_str state_value; mk_WorkerState v)));
  r ← call (cr_set_worker_state worker_id state);
  mret (ok_json 200 (worker_body r)).

(** [claim_job], control/api.py lines 201-206. *)
Definition h_claim_job (worker_id : string) : handler S response :=
  r ← call (cr_claim_next_job worker_id);
  match r with
  | None => mret {| rs_status := 204; rs_json := None |}
  | Some j => mret (ok_json 200 (job_body j))
  end.

(** [inspect_worker_job], control/api.py lines 208-226. *)
Definition h_inspect_worker_job (worker_id job_id : string) : handler S response :=
  j ← query (cr_get_job job_id);
  if match j_assigned_worker_id j with
     | None => false | Some w => negb (bool_decide (w = worker_id)) end
  then reading (HFault (HTTPException 404 "job not visible to this worker"))
  else mret (ok_json 200
    [("protocol_version", PStr PROTOCOL_VERSION); ("job_id", PStr (j_job_id j));
     ("status", PStr (JobStatus_value (j_status j)));
     ("assigned_worker_id", of_opt_str (j_assigned_worker_id j));
     ("lease_expires_at", _iso isoformat (j_lease_expires_at j));
     ("updated_at", PStr (isoformat (j_updated_at j)))]).

(** [complete_job], control/api.py lines 228-248. *)
Definition h_complete_job (worker_id job_id : string) (rq : request)
    : handler S response :=
  p ← reading (unprocessable
    (body ← _json_v1 rq;
     lift (t ← item "lease_token" body; lease_token ← py_str t;
           v ← item "result" body; res ← job_result_from_dict v;
           match res with
           | None => Err (ValueError "result is required")
           | Some res => Ok (lease_token, res)
           end)));
  r ← call (cr_complete_job job_id p.2 worker_id p.1);
  mret (ok_json 200 (job_body r)).

(** [fail_job], control/api.py lines 250-272. *)
Definition h_fail_job (worker_id job_id : string) (rq : request) : handler S response :=
  p ← reading (unprocessable
    (body ← _json_v1 rq;
     lift (t ← item "lease_token" body; lease_token ← py_str t;
           error ← (match get_default "error" (PStr "executor failed") body with
                    | PStr e => Ok (ErrorText e)
                    | PDict d => Ok (ErrorDict d)
                    | _ => Err (TypeError "error must be a string or object")
                    end);
           Ok (lease_token, error, truthy (get_default "retryable" (PBool false) body)))));
  let '(lease_token, error, retryable) := p in
  r ← call (cr_fail_job job_id error retryable worker_id lease_token);
  mret (ok_json 200 (job_body r)).

(** [ready], control/api.py lines 146-149. *)
Definition h_ready : handler S response :=
  query cr_check_storage;;
  mret (ok_json 200 [("ready", PBool true); ("protocol_version", PStr PROTOCOL_VERSION)]).

(** The handler of each route; that of the health endpoint, control/api.py lines 142-144, is
    written out. *)
Definition route (ep : endpoint) (rq : request) : handler S response :=
  match ep with
  | EpHealth =>
      mret (ok_json 200 [("status", PStr "ok"); ("protocol_version", PStr PROTOCOL_VERSION)])
  | EpReady => h_ready
  | EpSubmitJob => h_submit_job rq
  | EpGetJob jid => h_get_job jid
  | EpCancelJob jid => h_cancel_job jid
  | EpRegisterWorker => h_register_worker rq
  | EpHeartbeat wid => h_heartbeat_worker wid rq
  | EpSetState wid => h_set_worker_state wid rq
  | EpClaim wid => h_claim_job wid
  | EpInspect wid jid => h_inspect_worker_job wid jid
  | EpComplete wid jid => h_complete_job wid jid rq
  | EpFail wid jid => h_fail_job wid jid rq
  end.

(** The app, control/api.py lines 107-140: one request runs its dependency first, then its
    handler, and a fault goes through the exception handlers; what was written before the
    fault stays. *)
Definition handle (c : app_config) (ep : endpoint) (rq : request) (s : S) : S * response :=
  match (reading (authenticate c ep rq);; route ep rq) s with
  | (s', HOk r) => (s', r)
  | (s', HFault f) => (s', fault_response f)
  end.

(** One round of [maintenance_loop], control/api.py lines 84-93: what either call raises is
    logged and the loop goes on. *)
Definition maintenance_round (s : S) : S :=
  match cr_expire_stale_workers s with
  | (s1, Err _) => s1
  | (s1, Ok _) => (cr_recover_expired_jobs s1).1
  end.

End handlers.
