(* ===== verification/ApiProps.v ===== *)
(** * Properties of the API and its protocol

    Authority, clean failures, and that worker and Control read each other's messages the
    same way. *)

From S2P Require Import Prelude PyStr PyDict PyVal Contracts Models Repository ControlProps Serde Client Api.

(** ** Authority *)

Lemma hbind_HOk {A B} (m : hres A) (k : A → hres B) b :
  m ≫= k = HOk b ↔ ∃ a, m = HOk a ∧ k a = HOk b.
Proof. destruct m; cbn; naive_solver. Qed.

Lemma require_token_HOk rq expected a :
  _require_token rq expected a = HOk tt → _bearer_token rq = Some expected.
Proof.
  unfold _require_token, compare_digest. destruct (_bearer_token rq) as [t|]; [|done].
  destruct (is_ascii t && is_ascii expected); [|done]. cbn.
  case_bool_decide; [congruence|done].
Qed.

Lemma create_app_distinct c c' t : create_app c = Ok c' → ac_client_auth c = BEARER →
  ac_client_token c = Some t → t ≠ ac_worker_token c.
Proof.
  unfold create_app. intros H Hm Ht ->. rewrite Hm, Ht in H.
  apply guard_Ok in H as [_ H]. apply bind_Ok in H as ([] & H & _). apply guard_Ok in H as [_ H].
  unfold compare_digest in H. destruct (is_ascii _ && _); [|done]. cbn in H.
  by rewrite bool_decide_true in H.
Qed.

(** Who may use an endpoint. *)
Definition authorized (c : app_config) (ep : endpoint) (rq : request) : Prop :=
  match ep with
  | EpHealth | EpReady => True
  | EpSubmitJob | EpGetJob _ | EpCancelJob _ =>
      ac_client_auth c = NO_AUTH ∨
      (is_Some (ac_client_token c) ∧ _bearer_token rq = ac_client_token c ∧
       _bearer_token rq ≠ Some (ac_worker_token c))
  | _ => _bearer_token rq = Some (ac_worker_token c) ∧
         (ac_client_auth c = BEARER → _bearer_token rq ≠ ac_client_token c)
  end.

Lemma authenticate_authorized c c' ep rq : create_app c = Ok c' →
  authenticate c ep rq = HOk tt → authorized c ep rq.
Proof.
  intros Hc. pose proof (create_app_distinct c c') as Hd.
  assert (require_worker c rq = HOk tt → _bearer_token rq = Some (ac_worker_token c) ∧
    (ac_client_auth c = BEARER → _bearer_token rq ≠ ac_client_token c)) as Hw.
  { unfold require_worker. intros E%require_token_HOk. split; [done|]. rewrite E. intros Hb Ht.
    by apply (Hd (ac_worker_token c)). }
  assert (require_client c rq = HOk tt → ac_client_auth c = NO_AUTH ∨
    (is_Some (ac_client_token c) ∧ _bearer_token rq = ac_client_token c ∧
     _bearer_token rq ≠ Some (ac_worker_token c))) as Hcl.
  { unfold require_client. destruct (ac_client_auth c) eqn:Em; [|by left]. right.
    destruct (ac_client_token c) as [t|] eqn:Et; [|done]. apply require_token_HOk in H as ->.
    split_and!; [by eexists|done|]. intros [= ->]. by apply (Hd (ac_worker_token c)). }
  destruct ep; cbn; auto.
Qed.

Section api.
Variable isoformat : Z → string.
Variable fromisoformat : string → result datetime.
Context {S : Type} `{ControlRepository S}.

(** Statuses of faults: 401 and 404, 409, 422, 500, 503. *)
Definition error_status (z : Z) : Prop := z ∈ [401; 404; 409; 422; 500; 503].
Definition ok_status (z : Z) : Prop := z ∈ [200; 201; 204].

(** *** What a request asks for *)

(** What [complete_job] reads. *)
Definition completion_of (rq : request) : hres (string * JobResult) :=
  body ← _json_v1 rq;
  lift (t ← item "lease_token" body; lease_token ← py_str t;
        v ← item "result" body; res ← job_result_from_dict v;
        match res with
        | None => Err (ValueError "result is required")
        | Some res => Ok (lease_token, res)
        end).

(** What [fail_job] reads. *)
Definition failure_of (rq : request) : hres (string * error_arg * bool) :=
  body ← _json_v1 rq;
  lift (t ← item "lease_token" body; lease_token ← py_str t;
        error ← (match get_default "error" (PStr "executor failed") body with
                 | PStr e => Ok (ErrorText e)
                 | PDict d => Ok (ErrorDict d)
                 | _ => Err (TypeError "error must be a string or object")
                 end);
        Ok (lease_token, error, truthy (get_default "retryable" (PBool false) body))).

(** [of_body rq read x]: the request carries a v1 body which [read] decodes to [x]. *)
Definition of_body {A} (rq : request) (read : dict pyval → result A) (x : A) : Prop :=
  ∃ body, _json_v1 rq = HOk body ∧ read body = Ok x.

(** The status an operation is answered with, or what it raised. *)
Definition answered {A} (status : Z) (r : result A) : Z + exn :=
  match r with Ok _ => inl status | Err e => inr e end.

(** The one repository operation an endpoint stands for, with the identifiers of its path
    and the values its body decodes to, and how it ended: the store it left, and the status
    it is answered with or what it raised. *)
Inductive performed : endpoint → request → S → S → Z + exn → Prop :=
  | ran_health rq s : performed EpHealth rq s s (inl 200)
  | ran_ready rq s : performed EpReady rq s s (answered 200 (cr_check_storage s))
  | ran_submit rq s sub :
      of_body rq (λ b, job_submission_from_dict fromisoformat (PDict b)) sub →
      performed EpSubmitJob rq s (cr_submit_job sub s).1 (answered 201 (cr_submit_job sub s).2)
  | ran_get jid rq s : performed (EpGetJob jid) rq s s (answered 200 (cr_get_job jid s))
  | ran_cancel jid rq s :
      performed (EpCancelJob jid) rq s (cr_cancel_job jid s).1 (answered 200 (cr_cancel_job jid s).2)
  | ran_register rq s reg :
      of_body rq (λ b, worker_registration_from_dict (PDict b)) reg →
      performed EpRegisterWorker rq s (cr_register_worker reg s).1
        (answered 201 (cr_register_worker reg s).2)
  | ran_heartbeat wid rq s hb :
      of_body rq (λ b, worker_heartbeat_from_dict (PDict b)) hb →
      performed (EpHeartbeat wid) rq s (cr_heartbeat_worker wid hb s).1
        (answered 200 (cr_heartbeat_worker wid hb s).2)
  | ran_state wid rq s st :
      of_body rq (λ b, v ← item "state" b; t ← py_str v; mk_WorkerState t) st →
      performed (EpSetState wid) rq s (cr_set_worker_state wid st s).1
        (answered 200 (cr_set_worker_state wid st s).2)
  | ran_claim wid rq s :
      performed (EpClaim wid) rq s (cr_claim_next_job wid s).1
        (match (cr_claim_next_job wid s).2 with
         | Ok None => inl 204
         | Ok (Some _) => inl 200
         | Err e => inr e
         end)
  | ran_inspect wid jid rq s :
      (∀ j, cr_get_job jid s = Ok j → j_assigned_worker_id j = None ∨ j_assigned_worker_id j = Some wid) →
      performed (EpInspect wid jid) rq s s (answered 200 (cr_get_job jid s))
  | ran_complete wid jid rq s token res :
      completion_of rq = HOk (token, res) →
      performed (EpComplete wid jid) rq s (cr_complete_job jid res wid token s).1
        (answered 200 (cr_complete_job jid res wid token s).2)
  | ran_fail wid jid rq s token error retryable :
      failure_of rq = HOk (token, error, retryable) →
      performed (EpFail wid jid) rq s (cr_fail_job jid error retryable wid token s).1
        (answered 200 (cr_fail_job jid error retryable wid token s).2).

(** How a handler ends: refused before its operation, or as the operation did. *)
Definition served (ep : endpoint) (rq : request) (s : S) (m : S * hres response) : Prop :=
  (∃ f, m = (s, HFault f) ∧ error_status (rs_status (fault_response f))) ∨
  (∃ e, performed ep rq s m.1 (inr e) ∧ m.2 = HFault (Raised e)) ∨
  (∃ r, performed ep rq s m.1 (inl (rs_status r)) ∧ m.2 = HOk r ∧ ok_status (rs_status r)).

Lemma error_status_400 z : error_status z → 400 ≤ z.
Proof.
  unfold error_status. intros Hz. repeat (apply elem_of_cons in Hz as [->|Hz]; [lia|]).
  by apply elem_of_nil in Hz.
Qed.

Definition clean_fault (f : fault) : Prop := error_status (rs_status (fault_response f)).

Lemma clean_raised e : clean_fault (Raised e).
Proof. unfold clean_fault, error_status. destruct e; cbn; vm_decide. Qed.

Lemma clean_http st d : error_status st → clean_fault (HTTPException st d).
Proof. done. Qed.
Ltac http := apply clean_http; unfold error_status; vm_decide.

Definition clean {A} (m : hres A) : Prop := match m with HOk _ => True | HFault f => clean_fault f end.

Lemma clean_lift {A} (r : result A) : clean (lift r).
Proof. destruct r; [done|apply clean_raised]. Qed.
Lemma clean_bind {A B} (m : hres A) (k : A → hres B) :
  clean m → (∀ a, m = HOk a → clean (k a)) → clean (m ≫= k).
Proof. destruct m; cbn; auto. Qed.
Lemma clean_unprocessable {A} (m : hres A) : clean m → clean (unprocessable m).
Proof.
  destruct m as [a|[st d|e]]; cbn; [done..|]. destruct e; cbn; try done; intros _; http.
Qed.
Lemma clean_unprocessable_no_key {A} (m : hres A) : clean m → clean (unprocessable_no_key m).
Proof.
  destruct m as [a|[st d|e]]; cbn; [done..|]. destruct e; cbn; try done; intros _; http.
Qed.
Lemma clean_json rq : clean (_json_v1 rq).
Proof.
  unfold _json_v1. destruct (rq_json rq) as [[]|]; try http.
  destruct (py_eqb _ _); [done|http].
Qed.

Hint Resolve clean_lift clean_bind clean_unprocessable clean_unprocessable_no_key clean_json : clean.

Lemma clean_token rq t a : clean (_require_token rq t a).
Proof.
  unfold _require_token. destruct (_bearer_token rq); [|http].
  apply clean_bind; [apply clean_lift|]. intros [] _; [done|http].
Qed.
Lemma clean_authenticate c ep rq : clean (authenticate c ep rq).
Proof.
  assert (clean (require_client c rq)).
  { unfold require_client. destruct (ac_client_auth c); [|done].
    destruct (ac_client_token c); [apply clean_token|apply clean_raised]. }
  destruct ep; cbn; try done; apply clean_token.
Qed.

(** *** Every handler serves its endpoint *)

Lemma unprocessable_HOk {A} (m : hres A) a : unprocessable m = HOk a → m = HOk a.
Proof. destruct m as [?|[? ?|[]]]; cbn; congruence. Qed.
Lemma unprocessable_no_key_HOk {A} (m : hres A) a : unprocessable_no_key m = HOk a → m = HOk a.
Proof. destruct m as [?|[? ?|[]]]; cbn; congruence. Qed.
Lemma lift_HOk {A} (r : result A) a : lift r = HOk a → r = Ok a.
Proof. destruct r; cbn; congruence. Qed.
Lemma of_body_intro {A} rq (read : dict pyval → result A) x :
  (body ← _json_v1 rq; lift (read body)) = HOk x → of_body rq read x.
Proof. intros (body & Hb & Hx%lift_HOk)%hbind_HOk. by exists body. Qed.

Lemma served_reading {A} ep rq s (m : hres A) (k : A → handler S response) :
  clean m → (∀ a, m = HOk a → served ep rq s (k a s)) → served ep rq s ((reading m ≫= k) s).
Proof.
  intros Hm Hk. unfold mbind, handler_bind, reading. destruct m as [a|f]; [by apply Hk|].
  left. by exists f.
Qed.

Lemma served_ok ep rq s s' r :
  performed ep rq s s' (inl (rs_status r)) → ok_status (rs_status r) → served ep rq s (s', HOk r).
Proof. intros. right; right. by exists r. Qed.
Lemma served_raised ep rq s s' e :
  performed ep rq s s' (inr e) → served ep rq s (s', HFault (Raised e)).
Proof. intros. right; left. by exists e. Qed.

Lemma served_call {A} ep rq s (op : S → S * result A) st (body : A → dict pyval) :
  performed ep rq s (op s).1 (answered st (op s).2) → ok_status st →
  served ep rq s ((call op ≫= λ r, mret (ok_json st (body r))) s).
Proof.
  intros Hp Hst. unfold mbind, handler_bind, call, mret, handler_ret.
  destruct (op s) as [s' [a|e]]; [by apply served_ok|by apply served_raised].
Qed.
Lemma served_query {A} ep rq s (op : S → result A) st (body : A → dict pyval) :
  performed ep rq s s (answered st (op s)) → ok_status st →
  served ep rq s ((query op ≫= λ r, mret (ok_json st (body r))) s).
Proof. intros Hp Hst. by apply (served_call ep rq s (λ s, (s, op s))). Qed.

Ltac ok := unfold ok_status; vm_decide.
Ltac serve := repeat match goal with
  | |- served _ _ _ (mbind _ (reading _) _) =>
      apply served_reading; [eauto 6 with clean|intros ? Hread]
  | |- served _ _ _ (mbind _ (call _) _) => apply served_call; [|ok]
  | |- served _ _ _ (mbind _ (query _) _) => apply served_query; [|ok]
  end.

Lemma served_claim wid rq s : served (EpClaim wid) rq s (h_claim_job isoformat wid s).
Proof.
  pose proof (ran_claim wid rq s) as Hp. unfold h_claim_job, mbind, handler_bind, call.
  destruct (cr_claim_next_job wid s) as [s' [[j|]|e]]; [apply served_ok..|by apply served_raised];
    first [exact Hp|ok].
Qed.

Lemma served_inspect wid jid rq s :
  served (EpInspect wid jid) rq s (h_inspect_worker_job isoformat wid jid s).
Proof.
  pose proof (ran_inspect wid jid rq s) as Hp.
  unfold h_inspect_worker_job, mbind, handler_bind, query.
  destruct (cr_get_job jid s) as [j|e]; [cbn [lift]|by apply served_raised, Hp].
  destruct (j_assigned_worker_id j) as [w|] eqn:Hj; [case_bool_decide; subst|]; cbn [negb].
  1, 3: apply served_ok; [apply Hp; intros ? [= <-]; rewrite Hj; auto|ok].
  left. eexists; split; [done|]. unfold error_status; cbn; vm_decide.
Qed.

Lemma route_served ep rq s : served ep rq s (route isoformat fromisoformat ep rq s).
Proof.
  destruct ep; cbn [route];
    try unfold h_ready, h_submit_job, h_get_job, h_cancel_job, h_register_worker,
      h_heartbeat_worker, h_set_worker_state, h_complete_job, h_fail_job; serve.
  - apply served_ok; [apply ran_health|ok].
  - apply ran_ready.
  - by apply ran_submit, of_body_intro, unprocessable_HOk.
  - apply ran_get.
  - apply ran_cancel.
  - by apply ran_register, of_body_intro, unprocessable_HOk.
  - by apply ran_heartbeat, of_body_intro, unprocessable_no_key_HOk.
  - by apply ran_state, of_body_intro, unprocessable_HOk.
  - apply served_claim.
  - apply served_inspect.
  - apply ran_complete. rewrite <- surjective_pairing. by apply unprocessable_HOk.
  - destruct a as [[tok err] retryable]. serve.
    by apply ran_fail, unprocessable_HOk.
Qed.

Lemma handle_cases c ep rq s :
  (∃ f, authenticate c ep rq = HFault f ∧ clean_fault f ∧
     handle isoformat fromisoformat c ep rq s = (s, fault_response f)) ∨
  (authenticate c ep rq = HOk tt ∧ ∃ m, served ep rq s m ∧
     handle isoformat fromisoformat c ep rq s =
       (m.1, match m.2 with HOk r => r | HFault f => fault_response f end)).
Proof.
  unfold handle, mbind, handler_bind, reading.
  pose proof (clean_authenticate c ep rq) as Hc. destruct (authenticate c ep rq) as [[]|f].
  - right. split; [done|]. exists (route isoformat fromisoformat ep rq s).
    split; [apply route_served|]. by destruct (route _ _ _ _ _) as [? []].
  - left. by exists f.
Qed.

(** Property C16: the tokens separate the authorities.  Over any repository, a request whose
    answer is not an error, or which changes anything, carried the right credential: a
    worker endpoint the worker token (and never the client's), a client endpoint the client
    token (and never the worker's) unless client authentication is off. *)
Theorem api_authority c c' ep rq s s' r : create_app c = Ok c' →
  handle isoformat fromisoformat c ep rq s = (s', r) → s' ≠ s ∨ rs_status r < 400 →
  authorized c ep rq.
Proof.
  intros Hc Hh Hgood. destruct (handle_cases c ep rq s) as [(f & _ & Hf & E)|[Ha _]];
    [exfalso|by eapply authenticate_authorized].
  rewrite E in Hh. injection Hh as <- <-. destruct Hgood as [?|Hlt]; [done|].
  apply error_status_400 in Hf. lia.
Qed.

(** Property C17: a request is refused or carried out, once and as it says.  Over any
    repository, whatever its methods do before they raise, every request either is refused
    with an error status (401, 404, 409, 422, 500 or 503) and the repository is left as it
    was; or was authenticated, and exactly the operation its endpoint stands for was run on
    the repository, with the identifiers of its path and the values its body decodes to,
    leaving the store that operation left: answered 200, 201 or 204 when the operation
    returned, and with the error its exception is mapped to when it raised.  (Rendering the
    answer as JSON is the framework's and comes after.) *)
Theorem api_serves c ep rq s s' r :
  handle isoformat fromisoformat c ep rq s = (s', r) →
  (s' = s ∧ error_status (rs_status r)) ∨
  (authenticate c ep rq = HOk tt ∧
   ((ok_status (rs_status r) ∧ performed ep rq s s' (inl (rs_status r))) ∨
    (∃ e, r = fault_response (Raised e) ∧ error_status (rs_status r) ∧
       performed ep rq s s' (inr e)))).
Proof.
  intros Hh. destruct (handle_cases c ep rq s) as [(f & _ & Hf & E)|(Ha & m & Hm & E)];
    rewrite E in Hh; injection Hh as <- <-; [by left|].
  destruct Hm as [(f & -> & Hf)|[(e & Hp & ->)|(x & Hp & -> & Hok)]]; [by left|right..];
    (split; [done|]).
  - right. exists e. split_and!; [done|apply clean_raised|done].
  - by left.
Qed.

End api.

(** ** A worker and Control understand each other *)

(** The request a client method sends. *)
Definition sent {A} (token : string) (m : rpc A) : request :=
  {| rq_authorization := "Bearer " +:+ token; rq_json := hq_json (rpc_request m) |}.

Lemma json_v1_sent {A} token (m : rpc A) body :
  hq_json (rpc_request m) = Some (PDict (("protocol_version", PStr PROTOCOL_VERSION) :: body)) →
  _json_v1 (sent token m) = HOk (("protocol_version", PStr PROTOCOL_VERSION) :: body).
Proof. intros H. unfold _json_v1, sent. cbn [rq_json]. by rewrite H. Qed.

Lemma get_default_here k v w (d : dict pyval) : get_default k w ((k, v) :: d) = v.
Proof. unfold get_default. cbn [dget]. by rewrite decide_True. Qed.
Lemma get_default_skip k k' v w (d : dict pyval) : k ≠ k' →
  get_default k w ((k', v) :: d) = get_default k w d.
Proof. intros H. unfold get_default. cbn [dget]. by rewrite decide_False. Qed.

Ltac wire := repeat first
  [ progress serde | rewrite get_default_here | rewrite get_default_skip by discriminate
  | progress cbn [py_dict py_str py_int mbind result_bind lift] ].

#[local] Arguments get : simpl never.
#[local] Arguments item : simpl never.
#[local] Arguments get_default : simpl never.

Lemma registration_received token spec mc md : wf_WorkerSpec spec → 1 ≤ mc →
  (body ← _json_v1 (sent token (register spec mc md));
   lift (worker_registration_from_dict (PDict body))) =
  HOk {| reg_spec := spec; reg_max_concurrency := mc; reg_metadata := md |}.
Proof.
  intros Hs Hm. erewrite json_v1_sent by done. cbn [mbind hres_bind].
  unfold worker_registration_from_dict. wire. rewrite worker_spec_roundtrip by done. wire.
  unfold mk_WorkerRegistration. by rewrite guard_true by by apply Z.leb_le.
Qed.

Lemma raw_identifier_opt o : raw_identifier (of_opt_str o) = Ok o.
Proof. by destruct o. Qed.

Lemma heartbeat_received token wid jid tok st md :
  (body ← _json_v1 (sent token (heartbeat wid jid tok st md));
   lift (worker_heartbeat_from_dict (PDict body))) =
  HOk {| hb_state := st; hb_active_job_id := jid; hb_lease_token := tok; hb_metadata := md |}.
Proof.
  erewrite json_v1_sent by done. cbn [mbind hres_bind].
  unfold worker_heartbeat_from_dict. wire. rewrite !raw_identifier_opt. wire.
  destruct st as [st|]; [|done]. cbn. by rewrite mk_WorkerState_value.
Qed.

Lemma completion_received token wid jid tok res : wf_JobResult res →
  completion_of (sent token (complete wid jid tok res)) = HOk (tok, res).
Proof.
  intros Hr. unfold completion_of. erewrite json_v1_sent by done. cbn [mbind hres_bind].
  wire. by rewrite job_result_roundtrip.
Qed.

Lemma claim_received iso wid j tok : j_lease_token j = Some tok → tok ≠ EmptyString →
  nonblank (j_job_id j) → nonblank (j_capability j) →
  rpc_result (claim wid) (Answer 200 (Some (PDict (job_record_to_dict iso j true)))) =
  Ok (Some {| cj_request :=
                {| jr_job_id := j_job_id j; jr_capability := j_capability j;
                   jr_payload := j_payload j;
                   jr_metadata := [("attempt", PInt (j_attempts j));
                                   ("lease_expires_at", _iso iso (j_lease_expires_at j))] |};
              cj_lease_token := tok; cj_lease_expires_at := _iso iso (j_lease_expires_at j);
              cj_attempts := j_attempts j |}).
Proof.
  intros Ht Hne Hj Hc. cbn [rpc_result claim _request]. cbn [mbind result_bind].
  change (400 <=? 200) with false. cbn [mbind result_bind fst snd].
  change (200 =? 204) with false. cbn [_object mbind result_bind].
  unfold claimed_of, job_record_to_dict. cbn [app]. wire. rewrite Ht. cbn [of_opt_str].
  rewrite (proj2 (str_truthy_spec tok)) by done. wire.
  unfold mk_JobRequest. rewrite !nonblank_models_id by done. done.
Qed.

(** Property C18: worker and Control read each other's messages the same way.  The
    registration, the heartbeat and the completion a worker sends decode, on the API's side,
    to exactly the values it sent; and a claim's answer decodes, on the worker's side, to
    the job Control leased: same identifier, capability, payload, attempt, and the lease
    token that fences it. *)
Theorem protocol_faithful iso token spec mc md wid jid lease st res j tok :
  wf_WorkerSpec spec → 1 ≤ mc → wf_JobResult res →
  j_lease_token j = Some tok → tok ≠ EmptyString → nonblank (j_job_id j) → nonblank (j_capability j) →
  (body ← _json_v1 (sent token (register spec mc md));
   lift (worker_registration_from_dict (PDict body))) =
    HOk {| reg_spec := spec; reg_max_concurrency := mc; reg_metadata := md |} ∧
  (body ← _json_v1 (sent token (heartbeat wid jid lease st md));
   lift (worker_heartbeat_from_dict (PDict body))) =
    HOk {| hb_state := st; hb_active_job_id := jid; hb_lease_token := lease; hb_metadata := md |} ∧
  completion_of (sent token (complete wid (j_job_id j) tok res)) = HOk (tok, res) ∧
  ∃ c, rpc_result (claim wid) (Answer 200 (Some (PDict (job_record_to_dict iso j true)))) = Ok (Some c) ∧
    cj_lease_token c = tok ∧ cj_attempts c = j_attempts j ∧
    jr_job_id (cj_request c) = j_job_id j ∧ jr_capability (cj_request c) = j_capability j ∧
    jr_payload (cj_request c) = j_payload j.
Proof.
  intros. split; [by apply registration_received|]. split; [by apply heartbeat_received|].
  split; [by apply completion_received|]. eexists. split; [by apply claim_received|]. done.
Qed.

(** ** Concrete runs *)

Definition demo_app : app_config :=
  {| ac_client_token := Some "c-tok"; ac_worker_token := "w-tok"; ac_client_auth := BEARER;
     ac_maintenance_interval := 5 |}.
Definition demo_claim : request := {| rq_authorization := "Bearer w-tok"; rq_json := None |}.
Definition no_iso (_ : Z) : string := "t".
Definition no_fromiso (_ : string) : result datetime := Err (ValueError "Invalid isoformat string").

Lemma api_authority_witness : authorized demo_app (EpClaim "w1") demo_claim.
Proof.
  eapply (api_authority no_iso no_fromiso (H := memory_repository (utc 3) "tok-9")
    demo_app demo_app (EpClaim "w1") demo_claim demo_state); [done|apply surjective_pairing|].
  right. vm_compute. reflexivity.
Defined.

Definition demo_submit : request :=
  {| rq_authorization := "Bearer c-tok";
     rq_json := Some (PDict [("protocol_version", PStr "v1"); ("capability", PStr "debug.echo")]) |}.

Lemma api_serves_witness :
  let rep := memory_repository (utc 3) "tok-9" in
  let h := handle no_iso no_fromiso (H := rep) demo_app EpSubmitJob demo_submit demo_state in
  h.1 ≠ demo_state ∧
  ((h.1 = demo_state ∧ error_status (rs_status h.2)) ∨
   (authenticate demo_app EpSubmitJob demo_submit = HOk tt ∧
    ((ok_status (rs_status h.2) ∧
      performed no_fromiso (H := rep) EpSubmitJob demo_submit demo_state h.1 (inl (rs_status h.2))) ∨
     (∃ e, h.2 = fault_response (Raised e) ∧ error_status (rs_status h.2) ∧
      performed no_fromiso (H := rep) EpSubmitJob demo_submit demo_state h.1 (inr e))))).
Proof.
  intros rep h. split; [intros E%(f_equal r_sequence); vm_compute in E; congruence|].
  apply (api_serves no_iso no_fromiso), surjective_pairing.
Defined.

Lemma protocol_faithful_witness :
  (body ← _json_v1 (sent "w-tok" (register example_spec 1 []));
   lift (worker_registration_from_dict (PDict body))) =
    HOk {| reg_spec := example_spec; reg_max_concurrency := 1; reg_metadata := [] |} ∧
  (body ← _json_v1 (sent "w-tok" (heartbeat "w1" (Some "job-b") (Some "tok-1") None []));
   lift (worker_heartbeat_from_dict (PDict body))) =
    HOk {| hb_state := None; hb_active_job_id := Some "job-b"; hb_lease_token := Some "tok-1";
           hb_metadata := [] |} ∧
  completion_of (sent "w-tok" (complete "w1" (j_job_id demo_job) "tok-1" demo_result))
    = HOk ("tok-1", demo_result) ∧
  ∃ c, rpc_result (claim "w1") (Answer 200 (Some (PDict (job_record_to_dict no_iso demo_job true))))
       = Ok (Some c) ∧
    cj_lease_token c = "tok-1" ∧ cj_attempts c = j_attempts demo_job ∧
    jr_job_id (cj_request c) = j_job_id demo_job ∧
    jr_capability (cj_request c) = j_capability demo_job ∧
    jr_payload (cj_request c) = j_payload demo_job.
Proof.
  apply protocol_faithful; [apply example_spec_wf|done| |vm_compute; reflexivity|done|vm_decide|vm_decide].
  split; [constructor|done].
Defined.

(** A JSON [Infinity] where an integer is read: [int] raises [OverflowError], which the
    handlers do not translate, and the client sees 500 instead of 422. *)
Lemma infinite_priority_is_500 s :
  handle no_iso no_fromiso (H := memory_repository (utc 3) "job-x") demo_app EpSubmitJob
    {| rq_authorization := "Bearer c-tok";
       rq_json := Some (PDict [("protocol_version", PStr "v1"); ("capability", PStr "debug.echo");
                               ("priority", PFloat (SpecFloat.S754_infinity false))]) |} s
  = (s, {| rs_status := 500; rs_json := detail "internal server error" |}).
Proof. reflexivity. Qed.

(** A bearer token with a non-ASCII character: [compare_digest] raises [TypeError], and the
    caller sees 500 instead of 401. *)
Lemma non_ascii_token_is_500 s :
  handle no_iso no_fromiso (H := memory_repository (utc 3) "job-x") demo_app (EpClaim "w1")
    {| rq_authorization := "Bearer " +:+ String "233" EmptyString; rq_json := None |} s
  = (s, {| rs_status := 500; rs_json := detail "internal server error" |}).
Proof. reflexivity. Qed.
