(* ===== verification/ControlDaemon.v ===== *)
(** * The Control Plane as a service: configuration and migrations

    Models [src/src/astrumweaver/control/daemon.py] (the application that a configuration and
    an environment make) and [src/src/astrumweaver/control/migrate.py] (bringing the schema of
    the database up to date).  [tomllib.load] and uvicorn are outside; the database and the
    migration files answer the operations [migrate_op]. *)

From Stdlib Require Import SpecFloat.
From S2P Require Import Prelude PyStr PyDict PyVal Effects Trace PyText PyNum Postgres Api.

(** ** The application *)

(** [os.environ.get(name, default)]. *)
Definition getenv (environ : string → option string) (name fallback : string) : string :=
  default fallback (environ name).

(** [ClientAuthMode(value)], control/auth.py lines 8-12. *)
Definition client_auth_of (value : string) : result client_auth_mode :=
  if bool_decide (value = "bearer") then Ok BEARER
  else if bool_decide (value = "none") then Ok NO_AUTH
  else Err (ValueError (value +:+ " is not a valid ClientAuthMode")).

(** What the service runs: its repository and its application.  [create_app] looks at the
    interval only to see whether it is positive. *)
Record control_app := {
  ca_database_url : string;
  ca_repository : postgres;
  ca_app : app_config;
  ca_maintenance_interval_seconds : spec_float;
}.

(** [build_app] of a loaded configuration, control/daemon.py lines 23-63. *)
Definition build_app (config : dict pyval) (environ : string → option string) : result control_app :=
  section ← py_dict (py_or (get "control" config) (PDict []));
  let database_url := getenv environ "ASTRUMWEAVER_DATABASE_URL" EmptyString in
  let client_token := getenv environ "ASTRUMWEAVER_CLIENT_TOKEN" EmptyString in
  let worker_token := getenv environ "ASTRUMWEAVER_WORKER_TOKEN" EmptyString in
  mode ← py_str (get_default "client_auth" (PStr "bearer") section);
  client_auth ← match client_auth_of mode with
                | Ok m => Ok m
                | Err _ => Err (RuntimeError "control.client_auth must be bearer or none")
                end;
  require (str_truthy database_url) (RuntimeError "ASTRUMWEAVER_DATABASE_URL is required");;
  require (negb (match client_auth with BEARER => true | NO_AUTH => false end
                 && negb (str_truthy client_token)))
    (RuntimeError "ASTRUMWEAVER_CLIENT_TOKEN is required when control.client_auth=bearer");;
  require (str_truthy worker_token) (RuntimeError "ASTRUMWEAVER_WORKER_TOKEN is required");;
  ttl ← py_int (get_default "worker_ttl_seconds" (PInt 60) section);
  lease ← py_int (get_default "lease_seconds" (PInt 300) section);
  repository ← mk_postgres database_url ttl lease;
  interval ← py_float (get_default "maintenance_interval_seconds" (PFloat (float_of_Z 5)) section);
  app ← create_app {| ac_client_token := if str_truthy client_token then Some client_token else None;
                      ac_worker_token := worker_token; ac_client_auth := client_auth;
                      ac_maintenance_interval := if float_le_zero interval then 0 else 1 |};
  Ok {| ca_database_url := database_url; ca_repository := repository; ca_app := app;
        ca_maintenance_interval_seconds := interval |}.

(** The address [main] listens on, control/daemon.py lines 71-80. *)
Definition listen_address (config : dict pyval) : result (string * Z * bool) :=
  section ← py_dict (py_or (get "control" config) (PDict []));
  host ← py_str (get_default "host" (PStr "127.0.0.1") section);
  port ← py_int (get_default "port" (PInt 9000) section);
  Ok (host, port, truthy (get_default "access_log" (PBool false) section)).

(** ** Migrations *)

(** What a migration asks: the files of the package and of the source tree (their names), the
    connection, [to_regclass], the recorded rows, and statements.  [ExecuteScript] carries the
    name of the script it runs. *)
Inductive migrate_op : Type → Type :=
  | PackageFiles : migrate_op (list string)
  | SourceIsDir : migrate_op bool
  | SourceFiles : migrate_op (list string)
  | Connect (url : string) : migrate_op unit
  | CloseConnection : migrate_op unit
  | TableRegistered : migrate_op bool
  | RecordedRows : migrate_op (list string)
  | MigrationText (name : string) : migrate_op string
  | ExecuteScript (name text : string) : migrate_op unit
  | RecordMigration (name : string) : migrate_op unit.

Section migrate.
Context {W : Type} `{Handler migrate_op W}.
Abbreviation T := (eff (logged migrate_op W)).

(** [item.name.endswith(".sql")]. *)
Definition sql_file (name : string) : bool := endswith ".sql" name.

(** [_migration_files], control/migrate.py lines 20-48; [FileNotFoundError] stands for
    [NotADirectoryError] too. *)
Definition _migration_files : T (list string) :=
  packaged ← try_catch (items ← ask PackageFiles; mret (sorted_strings (List.filter sql_file items)))
    (λ e, match e with FileNotFoundError _ => mret [] | _ => throws e end);
  names ← match packaged with
          | [] => there ← ask SourceIsDir;
                  if there : bool then items ← ask SourceFiles; mret (sorted_strings items) else mret []
          | _ => mret packaged
          end;
  ensure (match names with [] => false | _ => true end)
    (RuntimeError "no AstrumWeaver migrations were found");;
  mret names.

(** [_recorded_migrations], control/migrate.py lines 56-65. *)
Definition _recorded_migrations : T (gset string) :=
  there ← ask TableRegistered;
  if negb there then mret ∅
  else rows ← ask RecordedRows; mret (list_to_set rows).

(** One migration that is not recorded, control/migrate.py lines 87-103: the records after it. *)
Definition run_migration (recorded : gset string) (name : string) : T (gset string) :=
  text ← ask (MigrationText name);
  ask (ExecuteScript name text);;
  there ← ask TableRegistered;
  if there : bool then ask (RecordMigration name);; mret ({[ name ]} ∪ recorded)
  else mret recorded.

(** The loop of [apply_migrations], control/migrate.py lines 79-103. *)
Fixpoint migrate_loop (recorded : gset string) (names : list string) : T unit :=
  match names with
  | [] => mret tt
  | name :: rest =>
      if bool_decide (name ∈ recorded) then migrate_loop recorded rest
      else recorded' ← run_migration recorded name; migrate_loop recorded' rest
  end.

(** [apply_migrations], control/migrate.py lines 68-113. *)
Definition apply_migrations (database_url : string) : T (list string) :=
  ensure (str_truthy database_url) (RuntimeError "database URL is required");;
  migrations ← _migration_files;
  ask (Connect database_url);;
  final ← try_finally
    (recorded ← _recorded_migrations;
     migrate_loop recorded migrations;;
     _recorded_migrations)
    (ask CloseConnection);
  required ← _migration_files;
  let missing := List.filter (λ n, negb (bool_decide (n ∈ final))) required in
  ensure (match missing with [] => true | _ => false end)
    (RuntimeError ("database migration tracking is incomplete: " +:+ join ", " missing));;
  mret required.
End migrate.

(** ** What a run executes *)

Abbreviation event := (entry migrate_op).

(** The scripts that were run, the latest first. *)
Fixpoint scripts (l : list event) : list string :=
  match l with
  | [] => []
  | Entry o _ :: l' => match o with ExecuteScript name _ => name :: scripts l' | _ => scripts l' end
  end.
Definition is_script (e : event) : bool :=
  match e with Entry o _ => match o with ExecuteScript _ _ => true | _ => false end end.
Lemma scripts_other e l : is_script e = false → scripts (e :: l) = scripts l.
Proof. destruct e as [A o r]. by destruct o. Qed.

Section migrate_laws.
Context {W : Type} `{Handler migrate_op W}.
Abbreviation T := (eff (logged migrate_op W)).

(** A question that runs no script. *)
Lemma script_free {A} P (o : migrate_op A) :
  (∀ e l, is_script e = false → P l → P (e :: l)) → (∀ r, is_script (Entry o r) = false) →
  keeps P (ask (W := W) o).
Proof. intros HP Ho. apply keeps_ask. intros r l. by apply HP. Qed.

Definition lasting (P : list event → Prop) : Prop := ∀ e l, is_script e = false → P l → P (e :: l).
Lemma lasting_scripts (Q : list string → Prop) : lasting (λ l, Q (scripts l)).
Proof. intros e l He. by rewrite scripts_other. Qed.

Lemma files_lasting P : lasting P → keeps P (_migration_files (W := W)).
Proof.
  intros HP. unfold _migration_files.
  assert (∀ A (o : migrate_op A), (∀ r, is_script (Entry o r) = false) → keeps P (ask (W := W) o)) as Ho
    by (intros; by apply script_free).
  keeping; by apply Ho.
Qed.
Lemma recorded_lasting P : lasting P → keeps P (_recorded_migrations (W := W)).
Proof. intros HP. unfold _recorded_migrations. keeping; by apply script_free. Qed.

(** What one run may have executed, of the files [listed], given the records [recorded] it found:
    the scripts so far are of files not recorded, in the order of the files. *)
Definition may_run (listed : list string) (recorded : gset string) (l : list event) : Prop :=
  reverse (scripts l) `sublist_of` listed ∧ ∀ n, n ∈ scripts l → n ∉ recorded.
Definition has_run (listed : list string) (recorded : gset string) (l : list event) : Prop :=
  may_run listed recorded l ∧ ∀ n, n ∈ listed → n ∉ recorded → n ∈ scripts l.

Lemma may_run_all done rest recorded l : may_run done recorded l → may_run (done ++ rest) recorded l.
Proof. intros [Hs Hn]. split; [|done]. by apply sublist_inserts_r. Qed.

(** The records the loop works with: those found, and scripts it ran. *)
Definition tracked (done : list string) (recorded0 recorded : gset string) (l : list event) : Prop :=
  has_run done recorded0 l ∧ ∀ n, n ∈ recorded → n ∈ recorded0 ∨ n ∈ scripts l.

Lemma tracked_lasting done recorded0 recorded : lasting (tracked done recorded0 recorded).
Proof.
  intros e l He. unfold tracked, has_run, may_run. by rewrite (scripts_other e l He).
Qed.

Lemma tracked_skip done recorded0 recorded n l : n ∈ recorded →
  tracked done recorded0 recorded l → tracked (done ++ [n]) recorded0 recorded l.
Proof.
  intros Hn [[Hm Hall] Ht]. split; [|done]. split; [by apply may_run_all|].
  intros m [Hm'| ->%list_elem_of_singleton]%elem_of_app Hnot; [by apply Hall|]. by destruct (Ht n Hn).
Qed.
Lemma tracked_run done recorded0 recorded n text r l : n ∉ recorded → recorded0 ⊆ recorded →
  tracked done recorded0 recorded l →
  tracked (done ++ [n]) recorded0 ({[ n ]} ∪ recorded) (Entry (ExecuteScript n text) r :: l).
Proof.
  intros Hn Hsub [[[Hm Hnot] Hall] Ht]. unfold tracked, has_run, may_run.
  change (scripts (Entry (ExecuteScript n text) r :: l)) with (n :: scripts l). split; [split; [split|]|].
  - rewrite reverse_cons. by apply sublist_app.
  - intros m [->|Hin]%elem_of_cons; [set_solver|by apply Hnot].
  - intros m [Hin| ->%list_elem_of_singleton]%elem_of_app Hm'; [right; by apply Hall|left].
  - intros m [->%elem_of_singleton|Hin]%elem_of_union; [right; left|].
    destruct (Ht m Hin); [by left|right; by right].
Qed.
Lemma tracked_drop done recorded0 recorded n l :
  tracked done recorded0 ({[ n ]} ∪ recorded) l → tracked done recorded0 recorded l.
Proof. intros [? Ht]. split; [done|]. intros m Hm. apply Ht. set_solver. Qed.

Lemma migration_spec done recorded0 recorded n : n ∉ recorded → recorded0 ⊆ recorded →
  traced (W := W) (tracked done recorded0 recorded) (run_migration recorded n)
    (λ recorded' l, recorded0 ⊆ recorded' ∧ tracked (done ++ [n]) recorded0 recorded' l)
    (λ _, may_run (done ++ [n]) recorded0).
Proof.
  intros Hn Hsub. unfold run_migration. set (P := tracked (done ++ [n]) recorded0 ({[ n ]} ∪ recorded)).
  assert (∀ (e : exn) l, P l → may_run (done ++ [n]) recorded0 l) as HE by (by intros e l [[? _] _]).
  apply traced_keep; [by apply script_free; [apply tracked_lasting|]| |intros text].
  { intros e l [[? _] _]. by apply may_run_all. }
  eapply (traced_bind _ _ (λ _, P)).
  { apply traced_ask. intros l Hl. split; intros; [|eapply (HE e)]; by apply tracked_run. }
  intros []. apply traced_keep; [by apply script_free; [apply tracked_lasting|]|done|intros [|]].
  - apply traced_keep; [by apply script_free; [apply tracked_lasting|]|done|intros []].
    apply traced_ret. intros l Hl. split; [set_solver|done].
  - apply traced_ret. intros l Hl. split; [done|]. by eapply tracked_drop.
Qed.

Lemma loop_spec recorded0 rest : ∀ done recorded, recorded0 ⊆ recorded →
  traced (W := W) (tracked done recorded0 recorded) (migrate_loop recorded rest)
    (λ _, has_run (done ++ rest) recorded0) (λ _, may_run (done ++ rest) recorded0).
Proof.
  induction rest as [|n rest IH]; intros done recorded Hsub; cbn [migrate_loop].
  { rewrite app_nil_r. by apply traced_ret; intros l []. }
  rewrite (cons_middle n done rest), app_assoc. case_bool_decide as Hin.
  - eapply traced_pre; [by apply IH|]. intros l. by apply tracked_skip.
  - eapply traced_bind.
    + eapply traced_conseq; [by apply (migration_spec done recorded0)|done|done|].
      intros e l. apply may_run_all.
    + intros recorded'. apply traced_pure. intros Hsub'. by apply IH.
Qed.
(** ** What a run was told *)

(** The files it found. *)
Definition listing (names : list string) (l : list event) : Prop :=
  names ≠ [] ∧
  ((∃ items, Entry PackageFiles (Ok items) ∈ l ∧ names = sorted_strings (List.filter sql_file items)) ∨
   ∃ items, Entry SourceFiles (Ok items) ∈ l ∧ names = sorted_strings items).
(** The records it has just read. *)
Definition just_told (recorded : gset string) (l : list event) : Prop :=
  (∃ l', l = Entry TableRegistered (Ok false) :: l' ∧ recorded = ∅) ∨
  ∃ rows l', l = Entry RecordedRows (Ok rows) :: l' ∧ recorded = list_to_set rows.
(** The records read before the first script, and after the last one. *)
Definition found (recorded : gset string) (l : list event) : Prop :=
  ∃ l1 l2, l = l1 ++ l2 ∧ just_told recorded l2 ∧ scripts l2 = [].
Definition confirmed (recorded : gset string) (l : list event) : Prop :=
  ∃ l1 l2, l = l1 ++ l2 ∧ just_told recorded l2 ∧ scripts l1 = [].

Lemma listing_cons e names l : listing names l → listing names (e :: l).
Proof.
  intros [Hn [(items & ? & ?)|(items & ? & ?)]]; (split; [done|]); [left|right]; exists items.
  all: split; [by right|done].
Qed.
Lemma found_cons e recorded l : found recorded l → found recorded (e :: l).
Proof. intros (l1 & l2 & -> & ? & ?). by exists (e :: l1), l2. Qed.
Lemma confirmed_lasting recorded : lasting (confirmed recorded).
Proof.
  intros e l He (l1 & l2 & -> & ? & ?). exists (e :: l1), l2. by rewrite scripts_other.
Qed.

Lemma files_spec P : lasting P →
  traced (W := W) P _migration_files (λ names l, P l ∧ listing names l) (λ _, P).
Proof.
  intros HP. unfold _migration_files.
  assert (∀ e l, is_script e = false → P l → P (e :: l)) as Hc by done.
  eapply (traced_bind _ _ (λ packaged l, P l ∧ (packaged ≠ [] → listing packaged l))).
  { eapply (traced_catch _ _ _ (λ _, P)).
    - eapply (traced_bind _ _ (λ items l, P l ∧ Entry PackageFiles (Ok items) ∈ l)).
      + apply traced_ask. intros l Hl. split; intros; [split; [by apply Hc|left]|by apply Hc].
      + intros items. apply traced_ret. intros l [? ?]. split; [done|]. intros Hne.
        split; [done|]. left. by exists items.
    - intros []; first [by apply traced_throws | by apply traced_ret]. }
  intros packaged. eapply (traced_bind _ _ (λ names l, P l ∧ (names ≠ [] → listing names l))).
  - destruct packaged; [|by apply traced_ret]. apply (traced_pre _ P); [|by intros l []].
    apply traced_keep; [by apply script_free|done|intros [|]]; [|by apply traced_ret].
    eapply (traced_bind _ _ (λ items l, P l ∧ Entry SourceFiles (Ok items) ∈ l)).
    + apply traced_ask. intros l Hl. split; intros; [split; [by apply Hc|left]|by apply Hc].
    + intros items. apply traced_ret. intros l [? ?]. split; [done|]. intros Hne.
      split; [done|]. right. by exists items.
  - intros names. apply traced_guard; [by intros _ l []|intros Hb].
    apply traced_ret. intros l [? Hl]. split; [done|]. apply Hl. by destruct names.
Qed.

Lemma recorded_spec P : lasting P →
  traced (W := W) P _recorded_migrations
    (λ recorded l, P l ∧ just_told recorded l) (λ _, P).
Proof.
  intros HP. unfold _recorded_migrations.
  assert (∀ e l, is_script e = false → P l → P (e :: l)) as Hc by done.
  eapply (traced_bind _ _ (λ b l, P l ∧ (b = false → just_told ∅ l))).
  { apply traced_ask. intros l Hl. split; intros; [|by apply Hc].
    split; [by apply Hc|]. intros ->. left. by exists l. }
  intros [|]; cbn [negb].
  - apply (traced_pre _ P); [|by intros l []]. eapply (traced_bind _ _ (λ rows l, P l ∧
      just_told (list_to_set rows) l)).
    + apply traced_ask. intros l Hl. split; intros; [|by apply Hc].
      split; [by apply Hc|]. right. by exists a, l.
    + intros rows. by apply traced_ret.
  - apply traced_ret. intros l [? Ht]. split; [done|]. by apply Ht.
Qed.

(** How a run ends. *)
Definition safe_end (l : list event) : Prop :=
  scripts l = [] ∨ ∃ listed recorded, listing listed l ∧ found recorded l ∧ may_run listed recorded l.
Definition complete (names : list string) (l : list event) : Prop :=
  listing names l ∧ ∃ listed recorded final, listing listed l ∧ found recorded l ∧
    has_run listed recorded l ∧ confirmed final l ∧ ∀ n, n ∈ names → n ∈ final.

(** The loop asks only its own questions. *)
Lemma loop_keeps P recorded names : (∀ e l, P l → P (e :: l)) → keeps P (migrate_loop (W := W) recorded names).
Proof.
  intros HP. assert (∀ A (o : migrate_op A), keeps P (ask (W := W) o)) as Ho
    by (intros; apply keeps_ask; intros; by apply HP).
  revert recorded. induction names as [|n names IH]; intros recorded; cbn [migrate_loop]; [keeping|].
  case_bool_decide; [apply IH|]. apply preserves_bind; [unfold run_migration; keeping; apply Ho|done].
Qed.

Lemma update_spec listed :
  traced (W := W) (λ l, scripts l = [] ∧ listing listed l)
    (recorded ← _recorded_migrations; migrate_loop recorded listed;; _recorded_migrations)
    (λ final l, ∃ recorded, listing listed l ∧ found recorded l ∧ has_run listed recorded l ∧ confirmed final l)
    (λ _, safe_end).
Proof.
  eapply traced_bind.
  { eapply traced_conseq; [apply (recorded_spec (λ l, scripts l = [] ∧ listing listed l))|done|done|].
    - intros e l He [Hs Hl]. rewrite scripts_other by done. split; [done|]. by apply listing_cons.
    - intros e l [? _]. by left. }
  intros recorded. set (R := λ l, listing listed l ∧ found recorded l).
  assert (∀ e l, R l → R (e :: l)) as HR by (intros e l []; split; [by apply listing_cons|by apply found_cons]).
  eapply (traced_bind _ _ (λ _ l, has_run listed recorded l ∧ R l)).
  - eapply traced_conseq; [apply traced_frame; [exact (loop_spec recorded listed [] recorded ltac:(done))|]| | |].
    + apply (loop_keeps R); exact HR.
    + intros l [[Hs Hl] Ht]. split.
      * unfold tracked, has_run, may_run. rewrite Hs. split; [split; [split|]|].
        -- apply sublist_nil_l.
        -- set_solver.
        -- set_solver.
        -- by left.
      * split; [done|]. by exists [], l.
    + done.
    + intros e l [? [? ?]]. right. by exists listed, recorded.
  - intros []. eapply traced_conseq; [apply (recorded_spec (λ l, has_run listed recorded l ∧ R l))|done| |].
    + intros e l He [Hh Hr]. split; [|by apply HR]. unfold has_run, may_run. by rewrite (scripts_other e l He).
    + intros final l [[? [? ?]] ?]. exists recorded. split_and!; try done. by exists [], l.
    + intros e l [[? _] [? ?]]. right. by exists listed, recorded.
Qed.

Lemma apply_spec url :
  traced (W := W) (λ l, l = []) (apply_migrations url) complete (λ _, safe_end).
Proof.
  unfold apply_migrations. set (P0 := λ l, scripts l = []).
  assert (lasting P0) as HP0 by (intros e l He; unfold P0; by rewrite scripts_other).
  apply traced_guard; [by intros _ l ->; left|intros _].
  eapply traced_bind.
  { eapply traced_conseq; [by apply (files_spec P0)|by intros l ->|done|]. intros e l. by left. }
  intros listed.
  apply traced_keep; [apply (keeps_ask (λ l, P0 l ∧ listing listed l))| |intros []].
  { intros r l [? ?]. split; [by apply HP0|by apply listing_cons]. }
  { intros e l [? _]. by left. }
  set (U := λ final l, ∃ recorded, listing listed l ∧ found recorded l ∧ has_run listed recorded l ∧ confirmed final l).
  assert (∀ final, lasting (U final)) as HU.
  { intros final e l He (r & ? & ? & ? & ?). exists r. split_and!.
    - by apply listing_cons.
    - by apply found_cons.
    - unfold has_run, may_run. by rewrite (scripts_other e l He).
    - by apply confirmed_lasting. }
  assert (∀ final l, U final l → safe_end l) as HS
    by (intros final l (r & ? & ? & [? _] & _); right; by exists listed, r).
  eapply (traced_bind _ _ U).
  - eapply traced_finally; [apply update_spec| |].
    + intros final. eapply keeps_mono; [by apply (script_free (U final)); [apply HU|]|done|]. intros e l. apply HS.
    + intros e. eapply keeps_mono; [|done|done]. apply keeps_ask. intros r l [Hs|(li & re & ? & ? & ?)].
      * left. by rewrite scripts_other.
      * right. exists li, re. split_and!; [by apply listing_cons|by apply found_cons|].
        unfold may_run. by rewrite (scripts_other _ l).
  - intros final. eapply traced_bind.
    { eapply traced_conseq; [by apply (files_spec (U final))|done|done|]. intros e l. apply HS. }
    intros required. apply traced_guard; [intros _ l [? _]; by eapply HS|intros Hm].
    apply traced_ret. intros l [(r & ? & ? & ? & ?) ?]. split; [done|].
    exists listed, r, final. split_and!; try done. intros n Hn.
    destruct (decide (n ∈ final)) as [|Hnot]; [done|].
    assert (n ∈ List.filter (λ n, negb (bool_decide (n ∈ final))) required) as Hin.
    { apply list_elem_of_In, filter_In. split; [by apply list_elem_of_In|]. by rewrite bool_decide_false. }
    destruct (List.filter _ required); [by apply not_elem_of_nil in Hin|done].
Qed.

(** Migrations run once and completely.  Whatever the database and the files
    answer: the scripts a run executes are files it listed, in their order, none of which was
    recorded when it began, also when it fails half way; and when it returns, it has executed
    every listed file that was not recorded, and the records it read after the last script
    contain the name of every migration this binary requires. *)
Theorem migrations_exact url (w : W) :
  match apply_migrations url (Build_logged w []) with
  | (s, Ok names) => complete names (lg_log s)
  | (s, Err _) => safe_end (lg_log s)
  end.
Proof. exact (traced_run _ _ _ _ w (apply_spec url) eq_refl). Qed.
End migrate_laws.

(** ** A second run *)

Definition writes {A} (o : migrate_op A) : bool :=
  match o with ExecuteScript _ _ | RecordMigration _ => true | _ => false end.

(** A database nobody else migrates, and a package whose directory is there with fixed files:
    a question does not change the records, and answers tell them. *)
Class MigrationStore (W : Type) `{Handler migrate_op W} (table : W → bool) (rows : W → gset string)
    (files : list string) := {
  ms_reads A (o : migrate_op A) w : writes o = false →
    table (answer o w).1 = table w ∧ rows (answer o w).1 = rows w;
  ms_files w l : (answer PackageFiles w).2 = Ok l → l = files;
  ms_found w e : (answer PackageFiles w).2 = Err e → ∃ m, e = OSError m;
  ms_table w b : (answer TableRegistered w).2 = Ok b → b = table w;
  ms_rows w l : (answer RecordedRows w).2 = Ok l → list_to_set l = rows w;
}.

Section twice.
Context {W : Type} `{MigrationStore W table rows files}.
Definition required : list string := sorted_strings (List.filter sql_file files).
Hypothesis required_some : required ≠ [].

(** The records of the database. *)
Definition records (s : logged migrate_op W) : gset string :=
  if table (lg_world s) then rows (lg_world s) else ∅.

Lemma records_ask {A} (o : migrate_op A) s : writes o = false → records (ask o s).1 = records s.
Proof.
  intros Ho. unfold ask. pose proof (ms_reads A o (lg_world s) Ho) as [E1 E2].
  destruct (answer o (lg_world s)) as [w r]. cbn in *. unfold records. cbn. by rewrite E1, E2.
Qed.
Lemma reading {A} (I : gset string → Prop) (o : migrate_op A) :
  writes o = false → preserves (λ s, I (records s)) (ask o).
Proof. intros Ho. apply preserves_ask. intros s Hs. by rewrite records_ask. Qed.

Lemma files_found (I : gset string → Prop) :
  triple (λ s, I (records s)) _migration_files (λ names s, names = required ∧ I (records s)) (λ _ s, I (records s)).
Proof.
  unfold _migration_files. apply (triple_bind _ _ (λ packaged s, packaged = required ∧ I (records s))).
  - apply (triple_catch _ _ _ (λ e s, (∃ m, e = OSError m) ∧ I (records s))).
    + apply (triple_bind _ _ (λ items s, items = files ∧ I (records s))).
      * intros s Hs. pose proof (records_ask PackageFiles s eq_refl) as Er.
        pose proof (ms_files (lg_world s)) as Ef. pose proof (ms_found (lg_world s)) as Ee.
        unfold ask in *. destruct (answer PackageFiles (lg_world s)) as [w [items|e]]; cbn in *; rewrite Er; eauto.
      * intros items. apply triple_ret. by intros s [-> ?].
    + intros e. apply triple_pure. intros [m ->]. by apply triple_throws.
  - intros packaged. apply triple_pure. intros ->. destruct required as [|n l] eqn:E; [done|].
    apply (triple_bind _ _ (λ names s, names = required ∧ I (records s))); [by apply triple_ret; rewrite E|].
    intros names. apply triple_pure. intros ->. rewrite E. by apply triple_ret.
Qed.

Lemma records_read (I : gset string → Prop) :
  triple (λ s, I (records s)) _recorded_migrations (λ r s, r = records s ∧ I (records s)) (λ _ s, I (records s)).
Proof.
  unfold _recorded_migrations. apply (triple_bind _ _ (λ b s, b = table (lg_world s) ∧ I (records s))).
  - intros s Hs. pose proof (records_ask TableRegistered s eq_refl) as Er.
    pose proof (ms_table (lg_world s)) as Et. pose proof (ms_reads _ TableRegistered (lg_world s) eq_refl) as [E1 _].
    unfold ask in *. destruct (answer TableRegistered (lg_world s)) as [w [b|e]]; cbn in *; rewrite Er; [|done].
    split; [|done]. rewrite E1. by apply Et.
  - intros [|]; cbn [negb].
    + apply (triple_bind _ _ (λ l s, list_to_set l = records s ∧ I (records s))).
      * intros s [Ht Hs]. pose proof (records_ask RecordedRows s eq_refl) as Er.
        pose proof (ms_rows (lg_world s)) as Et.
        unfold ask in *. destruct (answer RecordedRows (lg_world s)) as [w [b|e]]; cbn in *; rewrite Er; [|done].
        split; [|done]. unfold records. rewrite <-Ht. by apply Et.
      * intros l. apply triple_ret. by intros s [-> ?].
    + apply triple_ret. intros s [Ht ?]. split; [|done]. unfold records. by rewrite <-Ht.
Qed.

Lemma first_run url :
  triple (λ _, True) (apply_migrations url) (λ names s, names = required ∧ ∀ n, n ∈ names → n ∈ records s)
    (λ _ _, True).
Proof.
  unfold apply_migrations. apply (triple_bind _ _ (λ _ _, True)); [by apply triple_ensure|intros []].
  apply (triple_bind _ _ (λ _ _, True)).
  { eapply triple_conseq; [apply (files_found (λ _, True))|done|done|done]. }
  intros listed. apply (triple_bind _ _ (λ _ _, True)); [by apply (reading (λ _, True))|intros []].
  apply (triple_bind _ _ (λ final s, final = records s)).
  - apply (triple_finally _ _ (λ final s, final = records s) (λ _ _, True)).
    + eapply (triple_bind _ _ (λ _ _, True)); [|intros recorded].
      { eapply triple_conseq; [apply (records_read (λ _, True))|done|done|done]. }
      eapply (triple_bind _ _ (λ _ _, True)); [|intros []].
      { eapply (loop_keeps (λ _, True)). done. }
      eapply triple_conseq; [apply (records_read (λ _, True))|done|by intros ? ? []|done].
    + intros final s Hs. pose proof (reading (λ r, final = r) CloseConnection eq_refl s Hs) as Hc.
      by destruct (ask CloseConnection s) as [s' []].
    + intros e s _. by destruct (ask CloseConnection s) as [s' []].
  - intros final. apply (triple_bind _ _ (λ names s, names = required ∧ final = records s)).
    { eapply triple_conseq; [apply (files_found (λ r, final = r))|done|done|done]. }
    intros names. apply (triple_bind _ _ (λ _ s, names = required ∧ ∀ n, n ∈ names → n ∈ records s)).
    + apply triple_ensure; [|done]. intros s [-> ->] Hm. split; [done|]. intros n Hn.
      destruct (decide (n ∈ records s)) as [|Hnot]; [done|].
      assert (n ∈ List.filter (λ n, negb (bool_decide (n ∈ records s))) required) as Hin.
      { apply list_elem_of_In, filter_In. split; [by apply list_elem_of_In|]. by rewrite bool_decide_false. }
      destruct (List.filter _ required); [by apply not_elem_of_nil in Hin|done].
    + intros []. by apply triple_ret.
Qed.

(** Nothing is executed, and everything is recorded. *)
Definition up_to_date (s : logged migrate_op W) : Prop :=
  (∀ n, n ∈ required → n ∈ records s) ∧ scripts (lg_log s) = [].

Lemma idle_ask {A} (o : migrate_op A) : writes o = false → preserves up_to_date (ask o).
Proof.
  intros Ho. apply preserves_ask. intros s [Hr Hs]. split; [by rewrite records_ask|].
  unfold ask. destruct (answer o (lg_world s)) as [w r]. cbn. by destruct o.
Qed.
Lemma idle_files : preserves up_to_date (_migration_files (W := W)).
Proof. unfold _migration_files. keeping; by apply idle_ask. Qed.
Lemma idle_recorded : preserves up_to_date (_recorded_migrations (W := W)).
Proof. unfold _recorded_migrations. keeping; by apply idle_ask. Qed.
Lemma idle_loop recorded names : (∀ n, n ∈ names → n ∈ recorded) →
  migrate_loop (W := W) recorded names = mret tt.
Proof.
  induction names as [|n names IH]; intros Hn; cbn [migrate_loop]; [done|].
  rewrite bool_decide_true by (apply Hn; left). apply IH. intros m Hm. apply Hn. by right.
Qed.

Lemma second_run url : preserves up_to_date (apply_migrations (W := W) url).
Proof.
  unfold apply_migrations. apply preserves_bind; [keeping|intros []].
  apply (triple_bind _ _ (λ names s, names = required ∧ up_to_date s)).
  { intros s Hs. pose proof (files_found (λ _, True) s I) as Hf. pose proof (idle_files s Hs) as Hk.
    by destruct (_migration_files s) as [s' [names|e]]; [destruct Hf|]. }
  intros listed. apply triple_pure. intros ->.
  apply preserves_bind; [by apply idle_ask|intros []].
  apply preserves_bind; [|intros final; apply preserves_bind; [apply idle_files|intros names; keeping]].
  apply preserves_finally; [|by apply idle_ask].
  apply (triple_bind _ _ (λ r s, (∀ n, n ∈ required → n ∈ r) ∧ up_to_date s)).
  { intros s Hs. pose proof (records_read (λ _, True) s I) as Hf. pose proof (idle_recorded s Hs) as Hk.
    destruct (_recorded_migrations s) as [s' [r|e]]; [|done]. destruct Hf as [-> _]. split; [|done]. apply Hk. }
  intros recorded. apply triple_pure. intros Hr. rewrite idle_loop by done. apply idle_recorded.
Qed.

(** Migrating twice changes nothing.  On a database nobody else migrates, after a
    run that returned, another run executes no script and every migration stays recorded,
    whatever becomes of its connection. *)
Theorem migrate_twice_idle url url' s s' names :
  apply_migrations url s = (s', Ok names) →
  up_to_date (apply_migrations url' (Build_logged (lg_world s') [])).1.
Proof.
  intros Hrun. pose proof (first_run url s I) as Hf. rewrite Hrun in Hf. destruct Hf as [-> Hr].
  pose proof (second_run url' (Build_logged (lg_world s') []) (conj Hr eq_refl)) as Hs.
  by destruct (apply_migrations url' _) as [s2 []].
Qed.
End twice.

(** ** A small database *)

Record small_db := { sd_table : bool; sd_rows : list string }.
Definition small_migrations : list string := ["001_control_plane.sql"; "000_schema_migrations.sql"; "README.md"].
#[local] Instance small_database : Handler migrate_op small_db := {
  answer := λ A o w,
    match o in migrate_op A return small_db * result A with
    | PackageFiles => (w, Ok small_migrations)
    | SourceIsDir => (w, Ok false)
    | SourceFiles => (w, Ok [])
    | Connect _ | CloseConnection => (w, Ok tt)
    | TableRegistered => (w, Ok (sd_table w))
    | RecordedRows => (w, Ok (sd_rows w))
    | MigrationText name => (w, Ok ("-- " +:+ name))
    | ExecuteScript name _ => ({| sd_table := true; sd_rows := sd_rows w |}, Ok tt)
    | RecordMigration name => ({| sd_table := sd_table w; sd_rows := name :: sd_rows w |}, Ok tt)
    end }.
#[local] Instance small_store :
  MigrationStore small_db sd_table (λ w, list_to_set (sd_rows w)) small_migrations.
Proof. constructor; try done; [by intros A []|by intros w l [= <-]..]. Qed.

(** An empty database gets both scripts in their order. *)
Definition first_migration := apply_migrations "postgresql://db" (Build_logged {| sd_table := false; sd_rows := [] |} []).
Example small_migration :
  match first_migration with
  | (s, Ok names) => reverse (scripts (lg_log s)) = names ∧ length names = 2%nat
  | _ => False
  end.
Proof. vm_compute. done. Qed.

Lemma migrate_twice_idle_witness :
  match first_migration with
  | (s, Ok _) => up_to_date (table := sd_table) (rows := λ w, list_to_set (sd_rows w)) (files := small_migrations)
      (apply_migrations "postgresql://db" (Build_logged (lg_world s) [])).1
  | _ => False
  end.
Proof.
  destruct first_migration as [s [names|e]] eqn:E; [|vm_compute in E; discriminate E].
  refine (migrate_twice_idle (files := small_migrations) _ "postgresql://db" "postgresql://db" _ s names E).
  vm_compute. discriminate.
Defined.
