(* ===== verification/Providers.v ===== *)
(** * The built-in providers

    The table of [src/src/astrumweaver/runtime/deployment.py]: each provider with its
    configuration, and what a worker runs with any of them. *)

From Stdlib Require Import SpecFloat.
From S2P Require Import Prelude PyStr PyDict PyVal PyHost Effects PyText PyNum Contracts Models RuntimeContracts OwnedServer OwnedServerProps Planner ProviderBase Deployment ProviderLaws LlamaCpp Vllm FreeToken ExLlama Ollama.

(** A managed runtime of any provider. *)
Inductive managed_runtime :=
  | MOllama (rt : ollama_runtime)
  | MLlamaCpp (rt : llama_runtime)
  | MVllm (rt : vllm_runtime)
  | MFreeToken (rt : freetoken_runtime)
  | MExLlamaV3 (rt : exllama_runtime).

(** A configuration of any provider. *)
Inductive provider_config :=
  | COllama (c : OllamaProviderConfig)
  | CLlamaCpp (c : LlamaCppProviderConfig)
  | CVllm (c : VllmProviderConfig)
  | CFreeToken (c : FreeTokenProviderConfig)
  | CExLlamaV3 (c : ExLlamaV3ProviderConfig).

(** A provider seen through a map of its runtimes. *)
Definition map_provider {R R'} (f : R → R') (p : RuntimeProvider R) : RuntimeProvider R' := {|
  rp_info := rp_info p;
  rp_compatibility := rp_compatibility p;
  rp_setup_intent := rp_setup_intent p;
  rp_create_runtime cx i := r ← rp_create_runtime p cx i; Ok (f r);
  rp_config := rp_config p;
|}.

(** [provider_type(config)], runtime/deployment.py lines 306-308. *)
Definition provider_of (c : provider_config) : RuntimeProvider managed_runtime :=
  match c with
  | COllama c => map_provider MOllama (OllamaProvider c)
  | CLlamaCpp c => map_provider MLlamaCpp (LlamaCppProvider c)
  | CVllm c => map_provider MVllm (VllmProvider c)
  | CFreeToken c => map_provider MFreeToken (FreeTokenProvider c)
  | CExLlamaV3 c => map_provider MExLlamaV3 (ExLlamaV3Provider c)
  end.

(** [_PROVIDER_TYPES], runtime/deployment.py lines 238-256. *)
Definition _PROVIDER_TYPES : dict (dict pyval → result (RuntimeProvider managed_runtime)) :=
  [(OLLAMA_PROVIDER_ID, λ d, c ← ollama_config_of d; Ok (provider_of (COllama c)));
   (LLAMA_CPP_PROVIDER_ID, λ d, c ← llama_config_of d; Ok (provider_of (CLlamaCpp c)));
   (VLLM_PROVIDER_ID, λ d, c ← vllm_config_of d; Ok (provider_of (CVllm c)));
   (FREETOKEN_PROVIDER_ID, λ d, c ← freetoken_config_of d; Ok (provider_of (CFreeToken c)));
   (EXLLAMAV3_PROVIDER_ID, λ d, c ← exllama_config_of d; Ok (provider_of (CExLlamaV3 c)))].

(** The owned server a managed runtime is. *)
Definition managed_backend {W : Type} `{ServerWorld W} (float_repr : spec_float → string)
    (rt : managed_runtime) : backend W :=
  match rt with
  | MOllama rt => ollama_backend rt
  | MLlamaCpp rt => llama_backend float_repr rt
  | MVllm rt => vllm_backend float_repr rt
  | MFreeToken rt => freetoken_backend float_repr rt
  | MExLlamaV3 rt => exllama_backend rt
  end.

(** The GPU UUIDs a managed runtime's process description names, in its order; the spawned
    child gets them as CUDA_VISIBLE_DEVICES when there are any. *)
Definition runtime_gpu_uuids (rt : managed_runtime) : list string :=
  match rt with
  | MOllama rt => op_gpu_uuids (om_process rt)
  | MLlamaCpp rt => lx_gpu_uuids (lr_process rt)
  | MVllm rt => vp_device_ids (vx_policy (vr_process rt))
  | MFreeToken rt => [fp_gpu_uuid (fx_policy (fr_process rt))]
  | MExLlamaV3 rt => xx_gpu_uuids (xr_process rt)
  end.

#[export] Instance managed_lawful {W} `{ServerWorld W} float_repr rt :
  LawfulBackend (managed_backend float_repr rt).
Proof. destruct rt; cbn [managed_backend]; apply _. Qed.

Lemma managed_timely {W} `{ServerClock W} float_repr rt : timely (bk_reachable (managed_backend float_repr rt)).
Proof.
  destruct rt; cbn [managed_backend];
    [apply ollama_timely, _|apply llama_timely|apply vllm_timely|apply freetoken_timely|apply exllama_timely].
Qed.

(** ** What the configurations promise *)

Definition valid_config (c : provider_config) : Prop :=
  match c with
  | COllama c => ollama_valid c
  | CLlamaCpp c => llama_valid c
  | CVllm c => vllm_valid c
  | CFreeToken c => freetoken_valid c
  | CExLlamaV3 c => exllama_valid c
  end.

(** The runtime a configuration describes for a context. *)
Definition described_runtime (c : provider_config) (cx : RuntimeCompatibilityContext) : result managed_runtime :=
  match c with
  | COllama c => r ← ollama_described c cx; Ok (MOllama r)
  | CLlamaCpp c => r ← llama_described c cx; Ok (MLlamaCpp r)
  | CVllm c => r ← vllm_described c cx; Ok (MVllm r)
  | CFreeToken c => r ← freetoken_described c cx; Ok (MFreeToken r)
  | CExLlamaV3 c => r ← exllama_described c cx; Ok (MExLlamaV3 r)
  end.

(** A provider keeps the interface through a map of its runtimes. *)
Lemma reviewed_map {C R R'} (f : R → R') (provider : C → RuntimeProvider R) of_dict id valid described :
  ReviewedProvider provider of_dict id valid described →
  ReviewedProvider (λ c, map_provider f (provider c)) of_dict id valid
    (λ c cx, r ← described c cx; Ok (f r)).
Proof.
  intros [Hk Hn Hc Hi Hr]. split; [exact Hk|exact Hn|exact Hc| |exact Hr].
  intros c cx i Hv Hd H. destruct (Hi c cx i Hv Hd H) as (H1 & H2 & H3 & H4).
  split_and!; [exact H1|exact H2|exact H3|]. cbn [rp_create_runtime map_provider]. by rewrite H4.
Qed.
