(* ===== verification/ProviderProps.v ===== *)
(** * Owned servers: what every provider's runtime does

    The properties of start, health, stop and release that hold for every provider keeping
    the promises of [LawfulBackend], and a small world in which they are seen at work. *)

From Stdlib Require Import SpecFloat.
From S2P Require Import Prelude PyStr PyDict PyVal PyHost Effects PyText PyNum Contracts Models RuntimeContracts OwnedServer OwnedServerProps Planner ProviderBase Deployment ProviderLaws LlamaCpp Vllm FreeToken ExLlama Ollama Providers.

Section server.
Context {W : Type} `{ServerWorld W} (b : backend W) {LB : LawfulBackend b}.

(** Property C37: a start never adopts a server it does not own and cleans up after itself.
    On a released runtime it fails and asks nothing.  If the endpoint answers while no child
    of this runtime runs, it fails with the external-server error, having only asked.
    Otherwise it spawns at most one process (none when its child already runs), sends
    signals only when it has spawned a process in the same start, and returns success only
    with the child running when the endpoint answered, after the provider's own verification
    passed.  When it fails with an exception after it spawned a process, its last signals put
    that process down - none when the child has exited by itself, [terminate] and an awaited
    exit, or [kill] and an awaited exit when the first wait ran out -, or they began with
    [terminate] and one of these calls raised, which is suppressed.  When it is cancelled
    instead, which no handler of the code catches, the process stays recorded, so that a
    later [stop] reaches it. *)
Theorem owned_start_safe fuel s s' r : start b fuel s = (s', r) →
  (sv_closed s = true → s' = s ∧ r = Err (RuntimeError (bk_released_text b))) ∧
  (∀ s1 reachable, sv_closed s = false → bk_reachable b s = (s1, Ok reachable) →
   step_to is_request s s1 ∧
   (reachable = true → running s1 = false →
    s' = s1 ∧ r = Err (RuntimeError (bk_external_text b))) ∧
   (reachable = false ∨ running s1 = true →
    ∃ new, sv_log s' = new ++ sv_log s1 ∧
      (length (List.filter is_spawn new) <= if running s1 then 0 else 1)%nat ∧
      (∀ e, e ∈ new → is_signal e = true → ∃ e', e' ∈ new ∧ spawned e' = true) ∧
      (r = Ok (Some tt) → sv_process s' = true ∧
         ∃ sa sb, running sa = true ∧ bk_reachable b sa = (sb, Ok true) ∧ bk_verify b sb = (s', Ok tt)) ∧
      (∀ e, r = Err e → (∃ e', e' ∈ new ∧ spawned e' = true) →
       if is_exception e then stopped_by_cleanup new s' else sv_process s' = true))).
Proof.
  intros E. destruct (start_cases b fuel s s' r E) as [Hc Ho]. split; [exact Hc|].
  intros s1 reachable Hn Hb. destruct (Ho s1 (Ok reachable) Hn Hb) as [Hs Hr].
  split; [exact Hs|]. split.
  - intros -> Hd. by rewrite Hd in Hr.
  - intros Hx. assert (reachable && negb (running s1) = false) as Hz
      by (destruct Hx as [-> | ->]; [done|by rewrite andb_false_r]).
    rewrite Hz in Hr. destruct Hr as [new []]. by exists new.
Qed.

(** A health report tells the truth about an owned server.  Asking changes
    neither the process nor the life of the runtime; ready and READY are the same; READY is
    reported only if the child was running when the endpoint answered, the model was found
    available afterwards, and the child was still running at the end; STOPPED is reported
    only when no child runs; an endpoint that answers with no child of this runtime running
    is reported FAILED, never READY. *)
Theorem owned_health_truthful s s' h : health b s = (s', Ok h) →
  step_to is_request s s' ∧ (rh_ready h = true ↔ rh_state h = READY) ∧
  (rh_state h = READY → running s' = true ∧
     ∃ s1, bk_reachable b s = (s1, Ok true) ∧ running s1 = true ∧ bk_available b s1 = (s', Ok true)) ∧
  (rh_state h = STOPPED → running s' = false) ∧
  (∀ s1, bk_reachable b s = (s1, Ok true) → running s1 = false → rh_state h = HEALTH_FAILED).
Proof.
  unfold health. unfold mbind at 1, eff_bind at 1. pose proof (reachable_requests s) as Hq.
  destruct (bk_reachable b s) as [s1 [reachable|e]] eqn:Eb; [|done]. cbn [fst] in Hq.
  unfold mbind at 1, eff_bind at 1. cbn [gets].
  destruct reachable; cbn [negb].
  2:{ intros [= <- <-]. destruct (running s1) eqn:Er; split_and!; try done. }
  destruct (running s1) eqn:Er; cbn [negb].
  2:{ intros [= <- <-]. split_and!; try done. }
  unfold mbind at 1, eff_bind at 1, except_exception, try_catch. unfold mbind at 1, eff_bind at 1.
  pose proof (available_requests s1) as Ha.
  destruct (bk_available b s1) as [s2 [available|e]] eqn:Ea; cbn [fst] in Ha.
  - cbn. destruct available; cbn.
    + unfold mbind, eff_bind, gets. destruct (running s2) eqn:E2; cbn; intros [= <- <-].
      * split; [by etrans|]. split; [done|]. split; [|split; [done|intros s3 [= <-]; congruence]].
        intros _. split; [done|]. by exists s1.
      * split; [by etrans|]. split; [done|]. split; [done|]. split; [done|]. intros s3 [= <-]. congruence.
    + intros [= <- <-]. split; [by etrans|]. split; [done|]. split; [done|]. by split.
  - destruct (is_exception e); cbn; [|done]. intros [= <- <-].
    split; [by etrans|]. split; [done|]. split; [done|]. split; [done|]. intros s3 [= <-]. congruence.
Qed.

(** Stopping ends the child, and a release is final.  A stop sends SIGTERM
    first, to a running child only, SIGKILL only after the child outlived the wait, and when
    it returns the process is forgotten and a second stop does nothing; after a release that
    returned, releasing again does nothing and every start fails without asking anything. *)
Theorem owned_stop_release s s1 r :
  (stop s = (s1, r) →
   (∃ new, sv_log s1 = new ++ sv_log s ∧ Forall (λ e, stop_event e = true) new ∧
      (running s = true → ∃ newer, new = newer ++ [EvTerminate]) ∧
      (running s = false → new = []) ∧ (EvKill ∈ new → EvWait (Ok false) ∈ new)) ∧
   (r = Ok tt → running s1 = false ∧ stop s1 = (s1, Ok tt))) ∧
  (release b s = (s1, r) → r = Ok tt → release b s1 = (s1, Ok tt) ∧
   ∀ fuel, start b fuel s1 = (s1, Err (RuntimeError (bk_released_text b)))).
Proof.
  split.
  - intros E. destruct (stop_process_log b s s1 r E) as (_ & Hlog & Hp). split; [exact Hlog|].
    intros Hr. specialize (Hp Hr). unfold running, stop, stop_process, mbind, eff_bind, gets. by rewrite Hp.
  - intros E Hr. destruct (release_spec b s s1 r E) as [_ Hc]. specialize (Hc Hr). split.
    + unfold release, mbind, eff_bind, gets. by rewrite Hc.
    + intros fuel. destruct (start b fuel s1) as [s2 r2] eqn:Es.
      destruct (start_cases b fuel s1 s2 r2 Es) as [Hx _]. by destruct (Hx Hc) as [-> ->].
Qed.
End server.

(** Property C38: a start ends.  When time does not go back, a sleep that returns took its
    time, the provider's probe does not turn time back, and the deadline lies at most
    [limit] ahead of the instant it is computed at, a start that may poll [limit / poll]
    times and once more never runs out of polls: it returns or raises. *)
Theorem owned_start_returns {W} `{ServerClock W} (b : backend W) fuel limit s :
  timely (bk_reachable b) → 0 < bk_poll b →
  (∀ w, ∃ d, sw_deadline (bk_startup_timeout b) w = Some d ∧ d <= sw_time w + limit) →
  limit <= bk_poll b * Z.of_nat fuel →
  (start b (S fuel) s).2 = Ok (Some tt) ∨ ∃ e, (start b (S fuel) s).2 = Err e.
Proof.
  intros Hr Hp Hd Hf. pose proof (start_ends b fuel limit s Hr Hp Hd Hf) as Hs.
  destruct (start b (S fuel) s) as [s' [[[]|]|e]]; cbn in *; [by left|done|right; eauto].
Qed.

(** ** Deployment *)




Lemma build_compatible {C R} (provider : C → RuntimeProvider R) of_dict id valid described c cx dep :
  ReviewedProvider provider of_dict id valid described → valid c → wf_ExecutionDemand (cx_demand cx) →
  build_runtime_deployment_spec (provider c) cx None = Ok dep →
  ∃ report, rp_compatibility (provider c) cx = Ok report ∧ compatible report = true.
Proof.
  intros RP Hv Hd. unfold build_runtime_deployment_spec. intros (i & Hi & _)%bind_Ok.
  by destruct (reviewed_intent c cx i Hv Hd Hi) as (_ & _ & H & _).
Qed.



(** A deployed llama.cpp runtime keeps the [vram_only] promise on its command
    line.  When a [vram_only] demand is deployed and the worker makes the runtime from the
    deployment, the model's estimated size is known and fits the memory the demand may use
    (the largest GPU for single_gpu, all of them otherwise), the worker has a GPU policy to
    offload every layer, and the process is started with exactly [--n-gpu-layers all --fit
    off], no [--cpu-moe] switch, and no CPU layers of experts or feed-forward blocks but an
    explicit zero, whatever the configuration asked for. *)
Theorem llama_vram_only_enforced float_repr c cx dep rt args : llama_valid c →
  wf_ExecutionDemand (cx_demand cx) → ed_residency_policy (cx_demand cx) = VRAM_ONLY →
  build_runtime_deployment_spec (provider_of (CLlamaCpp c)) cx None = Ok dep →
  managed_runtime_from_deployment _PROVIDER_TYPES dep (cx_worker cx) (cx_host cx) = Ok (MLlamaCpp rt) →
  llama_command float_repr (lr_process rt) = Ok args →
  (∃ size, md_estimated_size_mb (ed_model (cx_demand cx)) = Some size ∧
     size <= (if bool_decide (ed_gpu_topology (cx_demand cx) = SINGLE_GPU)
              then max_single_gpu_vram_mb (resources (cx_worker cx))
              else total_vram_mb (resources (cx_worker cx)))) ∧
  ∃ start switches gpus moe ffn,
    args = start ++ ["--n-gpu-layers"; "all"; "--fit"; "off"] ++ switches ++ gpus ++ moe ++ ffn ∧
    Forall (λ a, a ∈ ["--no-webui"; "--offline"]) switches ∧
    llama_gpu_options float_repr (lr_process rt) = Ok gpus ∧
    (moe = [] ∨ moe = ["--n-cpu-moe"; "0"]) ∧ (ffn = [] ∨ ffn = ["--n-cpu-ffn"; "0"]).
Proof.
  intros Hc Hd Hv Hb Hr Hargs. pose proof (reviewed_map MLlamaCpp LlamaCppProvider _ _ _ _ llama_reviewed) as RP.
  destruct (build_compatible _ _ _ _ _ c cx dep RP Hc Hd Hb) as (report & Hrep & Hcomp).
  assert (dget LLAMA_CPP_PROVIDER_ID _PROVIDER_TYPES =
          Some (λ d, c ← llama_config_of d; Ok (map_provider MLlamaCpp (LlamaCppProvider c)))) as Ht by done.
  destruct (reviewed_deployment _ _ _ _ _ _ Ht c cx dep Hc Hd Hb) as [_ H2].
  rewrite H2 in Hr. apply bind_Ok in Hr as (r & Hdesc & Hr). injection Hr as <-. split.
  - by destruct (llama_vram_only_policy c cx report Hrep Hcomp Hv) as (_ & _ & _ & _ & _ & H).
  - by apply (llama_vram_only_command float_repr c cx report r args).
Qed.

(** A deployed vLLM runtime for a multi-GPU demand uses every GPU of the worker,
    and all of them are alike.  When such a demand is deployed and the worker makes the
    runtime from the deployment, there are device facts for every GPU, with one memory size,
    one known compute capability and one known device class; the process is given exactly
    the worker's GPU UUIDs and as many tensor-parallel ranks as there are GPUs, on its
    command line too when they are several; and expert parallelism is on only for a
    mixture-of-experts model on at least two GPUs. *)
Theorem vllm_multi_gpu_exact float_repr c cx dep rt args : vllm_valid c →
  wf_ExecutionDemand (cx_demand cx) → ed_gpu_topology (cx_demand cx) = MULTI_GPU →
  build_runtime_deployment_spec (provider_of (CVllm c)) cx None = Ok dep →
  managed_runtime_from_deployment _PROVIDER_TYPES dep (cx_worker cx) (cx_host cx) = Ok (MVllm rt) →
  vllm_command float_repr (vr_process rt) = Ok args →
  let count := gpu_count (resources (cx_worker cx)) in
  Z.of_nat (length (accelerators (cx_worker cx))) = count ∧
  (∃ memory capability class, Forall (λ d, ad_memory_mb d = memory ∧ ad_compute_capability d = Some capability ∧
     ad_device_class d = Some class) (accelerators (cx_worker cx))) ∧
  vp_tensor_parallel_size (vx_policy (vr_process rt)) = PInt count ∧
  vp_device_ids (vx_policy (vr_process rt)) = gpu_uuids (cx_worker cx) ∧
  (1 < count → ∃ start rest, args =
     start ++ ["--tensor-parallel-size"; str_of_Z count; "--distributed-executor-backend"; "mp"] ++ rest) ∧
  (truthy (vp_enable_expert_parallel (vx_policy (vr_process rt))) = true →
   md_topology (ed_model (cx_demand cx)) = MOE ∧ 2 <= count).
Proof.
  intros Hc Hd Hm Hb Hr Hargs. pose proof (reviewed_map MVllm VllmProvider _ _ _ _ vllm_reviewed) as RP.
  destruct (build_compatible _ _ _ _ _ c cx dep RP Hc Hd Hb) as (report & Hrep & Hcomp).
  assert (dget VLLM_PROVIDER_ID _PROVIDER_TYPES =
          Some (λ d, c ← vllm_config_of d; Ok (map_provider MVllm (VllmProvider c)))) as Ht by done.
  destruct (reviewed_deployment _ _ _ _ _ _ Ht c cx dep Hc Hd Hb) as [_ H2].
  rewrite H2 in Hr. apply bind_Ok in Hr as (r & Hdesc & Hr). injection Hr as <-.
  destruct (vllm_multi_gpu_policy c cx report Hrep Hcomp Hm) as (Htp & Hlen & Hall & Hep).
  apply py_eqb_int in Htp. unfold vllm_described in Hdesc. apply bind_Ok in Hdesc as (policy & Hp & Hdesc).
  injection Hdesc as <-. cbn [vr_process vx_policy] in *. unfold vllm_coerced in Hp. rewrite Htp in Hp.
  cbn [mbind result_bind] in Hp. apply bind_Ok in Hp as (u & _ & Hp). apply bind_Ok in Hp as (o & _ & Hp).
  apply Ok_inj in Hp as <-. cbn [vp_tensor_parallel_size vp_device_ids vp_enable_expert_parallel] in *.
  split_and!; [done|done|done|done| |by apply Hep]. intros Hgt. by eapply vllm_command_ranks.
Qed.

(** A chat server is only asked what the job may ask of it.  Executing a job on
    llama.cpp, vLLM, FreeToken or ExLlamaV3 sends at most one request; a job of another
    capability, one that names a model other than the one bound to the runtime or its alias,
    and one without messages (for llm.chat) or a prompt (for text.generate) is refused with
    no request at all; a request goes to the endpoint of the capability, names the alias
    and asks for no stream; and a result comes from such an answer, with the bound model in
    its metadata. *)
Theorem chat_jobs_bound {W} `{ServerWorld W} x job s s' r : chat_execute x job s = (s', r) →
  (∀ new, sv_log s' = new ++ sv_log s → (length new <= 1)%nat) ∧
  (sv_log s' = sv_log s ∧ (∃ e, chat_call x job = Err e ∧ r = Err e) ∨
   ∃ body answer, sv_log s' =
       EvRequest "POST" (if bool_decide (jr_capability job = "llm.chat") then "/v1/chat/completions"
                         else "/v1/completions") (Some body) answer :: sv_log s ∧
     jr_capability job ∈ LLM_CAPABILITIES ∧
     (get "model" (jr_payload job) = PNone ∨ ∃ name, py_str (get "model" (jr_payload job)) = Ok name ∧
        name ∈ [ce_model_ref x; ce_alias x]) ∧
     (jr_capability job = "llm.chat" → ∃ l, get "messages" body = PList l) ∧
     (jr_capability job = "text.generate" → ∃ p, get "prompt" body = PStr p) ∧
     get "model" body = PStr (ce_alias x) ∧ get "stream" body = PBool false ∧
     ∀ result, r = Ok result → ∃ status response, answer = Ok (status, Some (PDict response)) ∧
       200 <= status <= 299 ∧ res_outputs result = response ∧
       get "model" (res_metadata result) = PStr (ce_model_ref x)).
Proof.
  intros E. assert (∀ a b : list event, a = b → ∀ new, a = new ++ b → (length new <= 1)%nat) as Hnil.
  { intros a b -> new Hn. apply (f_equal length) in Hn. rewrite length_app in Hn. lia. }
  unfold chat_execute, mbind, eff_bind, lifts in E. destruct (chat_call x job) as [[path body]|e] eqn:Hcall.
  2:{ injection E as <- <-. split; [by apply Hnil|]. left. eauto. }
  apply chat_call_Ok in Hcall as (Hcap & -> & Hmodel & Hmsg & Hprompt & Hmo & Hst).
  cbn [fst snd] in E. destruct (json_request_log (cn_non_object (ce_names x)) "POST"
    (if bool_decide (jr_capability job = "llm.chat") then "/v1/chat/completions" else "/v1/completions")
    (Some body) s) as (answer & Hlog & Hans).
  destruct (json_request _ _ _ _ s) as [s1 [response|e]]; cbn [fst snd] in *; injection E as <- <-; rewrite Hlog.
  - split.
    { intros new Hn. apply (f_equal length) in Hn. rewrite length_app in Hn. cbn in Hn. lia. }
    right. exists body, answer. split_and!; try done. intros result Hres.
    destruct (Hans response eq_refl) as (status & -> & Hrange). exists status, response.
    split; [done|]. split; [done|]. unfold chat_result, mk_JobResult in Hres. simp_res. done.
  - split.
    { intros new Hn. apply (f_equal length) in Hn. rewrite length_app in Hn. cbn in Hn. lia. }
    right. exists body, answer. split_and!; done.
Qed.

(** ** A host with one Ollama server *)

(** Whether the child lives, whether the endpoint answers, the clock, the loaded model. *)
Record demo_server := { dm_alive : bool; dm_up : bool; dm_now : Z; dm_loaded : bool }.

Definition demo_tags : pyval := PDict [("models", PList [PDict [("name", PStr "llama3:latest")]])].
Definition demo_ps (loaded : bool) : pyval :=
  PDict [("models", PList (if loaded then [PDict [("name", PStr "llama3:latest"); ("size_vram", PInt 4);
                                                  ("size", PInt 4)]] else []))].

Definition demo_answer (method path : string) (d : demo_server) : demo_server * result (Z * option pyval) :=
  if negb (dm_up d) then (d, Err (HTTPError "refused"))
  else if bool_decide (path = "/api/tags") then (d, Ok (200, Some demo_tags))
  else if bool_decide (path = "/api/ps") then (d, Ok (200, Some (demo_ps (dm_loaded d))))
  else ({| dm_alive := dm_alive d; dm_up := true; dm_now := dm_now d; dm_loaded := true |},
        Ok (200, Some (PDict []))).

#[export] Instance demo_world : ServerWorld demo_server := {|
  sw_request method path json := demo_answer method path;
  sw_aclose d := (d, Ok tt);
  sw_time := dm_now;
  sw_deadline _ d := Some (dm_now d + 300);
  sw_sleep t d := ({| dm_alive := dm_alive d; dm_up := dm_alive d; dm_now := dm_now d + t;
                      dm_loaded := dm_loaded d |}, Ok tt);
  sw_environ _ := [("PATH", "/bin")];
  sw_spawn _ _ d := ({| dm_alive := true; dm_up := dm_up d; dm_now := dm_now d; dm_loaded := false |}, Ok tt);
  sw_exited d := negb (dm_alive d);
  sw_terminate d := ({| dm_alive := false; dm_up := false; dm_now := dm_now d; dm_loaded := false |}, Ok tt);
  sw_kill d := (d, Ok tt);
  sw_wait _ d := (d, Ok true);
|}.

#[export] Instance demo_clock : ServerClock demo_server.
Proof.
  split.
  - intros method path json w. cbn. unfold demo_answer. destruct (dm_up w); cbn; [|lia].
    repeat case_bool_decide; cbn; lia.
  - intros d w w' E. cbn in E. injection E as <-. cbn. lia.
Qed.

Definition demo_ollama_config : OllamaProviderConfig :=
  {| oc_base_url := "http://127.0.0.1:11434"; oc_executable := "ollama"; oc_package_reference := "ollama";
     oc_keep_alive := "5m"; oc_startup_timeout_seconds := seconds_30; oc_no_cloud := PBool true |}.
Definition demo_ollama_context : RuntimeCompatibilityContext :=
  {| cx_worker := example_spec; cx_host := cx_host demo_context;
     cx_demand := {| ed_model := {| md_model_ref := "llama3"; md_model_format := "ollama"; md_topology := DENSE;
                                    md_estimated_size_mb := Some 20; md_metadata := [] |};
                     ed_residency_policy := VRAM_ONLY; ed_gpu_topology := MULTI_GPU; ed_min_gpu_count := 2;
                     ed_min_total_vram_mb := 20; ed_min_single_gpu_vram_mb := 12; ed_min_host_ram_mb := 1;
                     ed_preferred_host_ram_mb := 64000; ed_metadata := [] |} |}.
Definition demo_backend : backend demo_server :=
  ollama_backend (ollama_runtime_of demo_ollama_config demo_ollama_context seconds_30).
#[export] Instance demo_lawful : LawfulBackend demo_backend := ollama_lawful _.

Lemma demo_timely : timely (bk_reachable demo_backend).
Proof. apply ollama_timely, _. Qed.

Definition demo_cold : server demo_server :=
  {| sv_world := {| dm_alive := false; dm_up := false; dm_now := 0; dm_loaded := false |};
     sv_process := false; sv_closed := false; sv_log := [] |}.
(** The same host with somebody else's server at the endpoint. *)
Definition demo_foreign : server demo_server :=
  {| sv_world := {| dm_alive := false; dm_up := true; dm_now := 0; dm_loaded := false |};
     sv_process := false; sv_closed := false; sv_log := [] |}.
Definition demo_started : server demo_server := (start demo_backend 4 demo_cold).1.
Definition demo_ready : RuntimeHealth :=
  mk_RuntimeHealth READY true None [("runtime_provider", PStr "ollama"); ("model", PStr "llama3")].
Definition demo_stopped : server demo_server := (stop demo_started).1.
Definition demo_released : server demo_server := (release demo_backend demo_stopped).1.

Lemma demo_run : (start demo_backend 4 demo_cold).2 = Ok (Some tt) ∧
  (health demo_backend demo_started).2 = Ok demo_ready ∧ (stop demo_started).2 = Ok tt ∧
  (release demo_backend demo_stopped).2 = Ok tt.
Proof. vm_compute. split_and!; reflexivity. Qed.

(** A cold start succeeds on its own process; a start beside a foreign server is refused. *)
Lemma owned_start_safe_witness :
  (running demo_started = true ∧ ∃ sa sb, running sa = true ∧
     bk_reachable demo_backend sa = (sb, Ok true) ∧ bk_verify demo_backend sb = (demo_started, Ok tt)) ∧
  (start demo_backend 4 demo_foreign).2 = Err (RuntimeError (bk_external_text demo_backend)).
Proof.
  split.
  - split; [by vm_compute|].
    destruct (owned_start_safe demo_backend 4 demo_cold demo_started (Ok (Some tt))) as [_ H]; [by vm_compute|].
    destruct (H (bk_reachable demo_backend demo_cold).1 false) as (_ & _ & H1); [by vm_compute..|].
    destruct (H1 (or_introl eq_refl)) as (new & _ & _ & _ & Hv & _). by destruct (Hv eq_refl).
  - destruct (owned_start_safe demo_backend 4 demo_foreign (start demo_backend 4 demo_foreign).1
      (start demo_backend 4 demo_foreign).2) as [_ H]; [by vm_compute|].
    destruct (H (bk_reachable demo_backend demo_foreign).1 true) as (_ & H1 & _); [by vm_compute..|].
    by destruct H1; [vm_compute..|].
Defined.

Lemma owned_health_truthful_witness :
  (health demo_backend demo_started).2 = Ok demo_ready ∧ running (health demo_backend demo_started).1 = true.
Proof.
  split; [apply demo_run|].
  destruct (owned_health_truthful demo_backend demo_started (health demo_backend demo_started).1 demo_ready)
    as (_ & _ & H & _); [by vm_compute|]. by apply H.
Defined.

Lemma owned_stop_release_witness :
  running demo_started = true ∧ running demo_stopped = false ∧ stop demo_stopped = (demo_stopped, Ok tt) ∧
  ∀ fuel, start demo_backend fuel demo_released = (demo_released, Err (RuntimeError (bk_released_text demo_backend))).
Proof.
  split; [by vm_compute|].
  destruct (owned_stop_release demo_backend demo_started demo_stopped (Ok tt)) as [H _].
  destruct H as [_ [H1 H2]]; [by vm_compute|done|]. split_and!; [done..|].
  destruct (owned_stop_release demo_backend demo_stopped demo_released (Ok tt)) as [_ H].
  apply H; [by vm_compute|done].
Defined.

Lemma owned_start_returns_witness : timely (bk_reachable demo_backend) ∧
  ((start demo_backend 4 demo_cold).2 = Ok (Some tt) ∨ ∃ e, (start demo_backend 4 demo_cold).2 = Err e).
Proof.
  split; [exact demo_timely|].
  assert (∀ w, ∃ d, sw_deadline (bk_startup_timeout demo_backend) w = Some d ∧ d <= sw_time w + 300) as Hd.
  { intros w. exists (dm_now w + 300). split; [done|]. cbn. lia. }
  exact (owned_start_returns demo_backend 3 300 demo_cold demo_timely eq_refl Hd ltac:(done)).
Defined.

(** ** Deployments of llama.cpp and vLLM *)

Definition demo_demand_for (format : string) : ExecutionDemand :=
  {| ed_model := {| md_model_ref := "/models/m"; md_model_format := format; md_topology := DENSE;
                    md_estimated_size_mb := Some 20; md_metadata := [] |};
     ed_residency_policy := VRAM_ONLY; ed_gpu_topology := MULTI_GPU; ed_min_gpu_count := 2;
     ed_min_total_vram_mb := 20; ed_min_single_gpu_vram_mb := 12; ed_min_host_ram_mb := 1;
     ed_preferred_host_ram_mb := 64000; ed_metadata := [] |}.
Definition demo_device (uuid : string) : AcceleratorDevice :=
  {| ad_uuid := uuid; ad_memory_mb := 12; ad_compute_capability := Some "8.6"; ad_device_class := Some "ampere" |}.
Definition demo_context_for (format : string) : RuntimeCompatibilityContext :=
  {| cx_worker := {| worker_id := "w1"; worker_class := "gpu"; resources := resources example_spec;
                     gpu_uuids := gpu_uuids example_spec;
                     accelerators := [demo_device "GPU-a"; demo_device "GPU-b"];
                     capabilities := capabilities example_spec; labels := labels example_spec |};
     cx_host := cx_host demo_context; cx_demand := demo_demand_for format |}.

Lemma demo_demand_wf format : nonblank format → lower format = format →
  wf_ExecutionDemand (cx_demand (demo_context_for format)).
Proof.
  intros Hf Hl. unfold wf_ExecutionDemand, wf_ModelDemand.
  split_and!; cbn; try exact Hf; try exact Hl; try lia; try vm_decide. by intros z [= <-].
Qed.

Definition demo_llama_config : LlamaCppProviderConfig :=
  match llama_config_of [("executable", PStr "/opt/llama-server"); ("n_cpu_moe", PInt 0)] with
  | Ok c => c
  | Err _ => {| lc_base_url := EmptyString; lc_executable := EmptyString; lc_package_reference := EmptyString;
                lc_startup_timeout_seconds := PNone; lc_request_timeout_seconds := PNone; lc_context_size := PNone;
                lc_gpu_layers := PNone; lc_split_mode := None; lc_tensor_split := None; lc_main_gpu := PNone;
                lc_fit := PNone; lc_fit_target_mb := None; lc_cpu_moe := PNone; lc_n_cpu_moe := PNone;
                lc_n_cpu_ffn := PNone; lc_offline := PNone; lc_no_webui := PNone |}
  end.
Definition demo_vllm_config : VllmProviderConfig :=
  match vllm_config_of [("gpu_memory_utilization", PInt 1)] with
  | Ok c => c
  | Err _ => {| vc_base_url := EmptyString; vc_executable := EmptyString; vc_package_reference := EmptyString;
                vc_startup_timeout_seconds := PNone; vc_request_timeout_seconds := PNone;
                vc_served_model_name := EmptyString; vc_gpu_memory_utilization := PNone;
                vc_tensor_parallel_size := PNone; vc_enable_expert_parallel := PNone; vc_cpu_offload_gb := PNone;
                vc_generation_config := EmptyString; vc_trust_remote_code := PNone; vc_enforce_eager := PNone |}
  end.

Lemma demo_llama_valid : llama_valid demo_llama_config.
Proof.
  split; [by vm_compute|].
  exists (PStr "http://127.0.0.1:8080"), (PStr "/opt/llama-server"), (PStr "llama-cpp"), (PFloat (float_of_Z 120)),
    (PFloat (float_of_Z 300)), (PInt 4096), PNone, PNone, PNone, (PInt 0), PNone, PNone, (PBool false), (PInt 0),
    PNone, (PBool true), (PBool true). by vm_compute.
Qed.
Lemma demo_vllm_valid : vllm_valid demo_vllm_config.
Proof.
  split; [by vm_compute|].
  exists (PStr "http://127.0.0.1:8000"), (PStr "vllm"), (PStr "vllm"), (PFloat (float_of_Z 180)),
    (PFloat (float_of_Z 300)), (PStr "astrumweaver"), (PInt 1), PNone, PNone, (PFloat (float_of_Z 0)),
    (PStr "vllm"), (PBool false), (PBool false). by vm_compute.
Qed.

Definition deployment_or {R} (p : RuntimeProvider R) (cx : RuntimeCompatibilityContext) : RuntimeDeploymentSpec :=
  match build_runtime_deployment_spec p cx None with
  | Ok dep => dep
  | Err _ => {| ds_provider_id := EmptyString; ds_provider_config := []; ds_demand := cx_demand cx;
                ds_setup_intent := None; ds_schema_version := EmptyString |}
  end.
Definition demo_llama_deployment := deployment_or (provider_of (CLlamaCpp demo_llama_config)) (demo_context_for "gguf").
Definition demo_vllm_deployment := deployment_or (provider_of (CVllm demo_vllm_config)) (demo_context_for "hf").

Lemma demo_builds :
  build_runtime_deployment_spec (provider_of (CLlamaCpp demo_llama_config)) (demo_context_for "gguf") None
    = Ok demo_llama_deployment ∧
  build_runtime_deployment_spec (provider_of (CVllm demo_vllm_config)) (demo_context_for "hf") None
    = Ok demo_vllm_deployment.
Proof. split; vm_compute; reflexivity. Qed.

Definition demo_llama_runtime : result llama_runtime := llama_described demo_llama_config (demo_context_for "gguf").
Definition demo_vllm_runtime : result vllm_runtime := vllm_described demo_vllm_config (demo_context_for "hf").

(** The worker makes what the configurations describe. *)
Lemma demo_created :
  managed_runtime_from_deployment _PROVIDER_TYPES demo_llama_deployment (cx_worker (demo_context_for "gguf"))
    (cx_host (demo_context_for "gguf")) = (r ← demo_llama_runtime; Ok (MLlamaCpp r)) ∧
  managed_runtime_from_deployment _PROVIDER_TYPES demo_vllm_deployment (cx_worker (demo_context_for "hf"))
    (cx_host (demo_context_for "hf")) = (r ← demo_vllm_runtime; Ok (MVllm r)).
Proof. split; vm_compute; reflexivity. Qed.

Definition demo_repr (f : spec_float) : string := "1.0".
Definition demo_llama_args : list string :=
  ["/opt/llama-server"; "--host"; "127.0.0.1"; "--port"; "8080"; "--model"; "/models/m"; "--alias"; "astrumweaver";
   "--parallel"; "1"; "--ctx-size"; "4096"; "--n-gpu-layers"; "all"; "--fit"; "off"; "--no-webui"; "--offline";
   "--device"; "CUDA0,CUDA1"; "--split-mode"; "layer"; "--n-cpu-moe"; "0"].
Definition demo_vllm_args : list string :=
  ["vllm"; "serve"; "/models/m"; "--host"; "127.0.0.1"; "--port"; "8000"; "--served-model-name"; "astrumweaver";
   "--generation-config"; "vllm"; "--gpu-memory-utilization"; "1.0"; "--device-ids"; "GPU-a,GPU-b";
   "--tensor-parallel-size"; "2"; "--distributed-executor-backend"; "mp"].


Lemma llama_vram_only_enforced_witness : ∃ rt, demo_llama_runtime = Ok rt ∧
  llama_command demo_repr (lr_process rt) = Ok demo_llama_args ∧
  ∃ start rest, demo_llama_args = start ++ ["--n-gpu-layers"; "all"; "--fit"; "off"] ++ rest.
Proof.
  destruct demo_llama_runtime as [rt|e] eqn:E; [|by vm_compute in E].
  assert (llama_command demo_repr (lr_process rt) = Ok demo_llama_args) as Hc.
  { vm_compute in E. injection E as <-. by vm_compute. }
  exists rt. split; [done|]. split; [exact Hc|].
  destruct (llama_vram_only_enforced demo_repr demo_llama_config (demo_context_for "gguf") demo_llama_deployment
    rt demo_llama_args) as (_ & start & switches & gpus & moe & ffn & -> & _); [exact demo_llama_valid|by apply demo_demand_wf|
    done|apply demo_builds|by rewrite (proj1 demo_created), E|exact Hc|by eexists _, _].
Defined.

Lemma vllm_multi_gpu_exact_witness : ∃ rt, demo_vllm_runtime = Ok rt ∧
  vllm_command demo_repr (vr_process rt) = Ok demo_vllm_args ∧
  vp_tensor_parallel_size (vx_policy (vr_process rt)) = PInt 2 ∧
  vp_device_ids (vx_policy (vr_process rt)) = ["GPU-a"; "GPU-b"].
Proof.
  destruct demo_vllm_runtime as [rt|e] eqn:E; [|by vm_compute in E].
  assert (vllm_command demo_repr (vr_process rt) = Ok demo_vllm_args) as Hc.
  { vm_compute in E. injection E as <-. by vm_compute. }
  exists rt. split; [done|]. split; [exact Hc|].
  destruct (vllm_multi_gpu_exact demo_repr demo_vllm_config (demo_context_for "hf") demo_vllm_deployment
    rt demo_vllm_args) as (_ & _ & H1 & H2 & _); [exact demo_vllm_valid|by apply demo_demand_wf|
    done|apply demo_builds|by rewrite (proj2 demo_created), E|exact Hc|by split].
Defined.

(** ** A job on a chat server *)

Definition demo_executor : chat_executor :=
  {| ce_names := llama_names; ce_model_ref := "/models/m"; ce_alias := "astrumweaver"; ce_metadata := [] |}.
Definition demo_job (model : string) : JobRequest :=
  {| jr_job_id := "j"; jr_capability := "text.generate";
     jr_payload := [("model", PStr model); ("prompt", PStr "hello")]; jr_metadata := [] |}.

(** A job for the bound model is one request; a job for another model is none. *)
Lemma chat_jobs_bound_witness :
  (∃ body answer, sv_log (chat_execute demo_executor (demo_job "/models/m") demo_started).1 =
     EvRequest "POST" "/v1/completions" (Some body) answer :: sv_log demo_started ∧
     get "model" body = PStr "astrumweaver") ∧
  sv_log (chat_execute demo_executor (demo_job "other") demo_started).1 = sv_log demo_started.
Proof.
  split.
  - destruct (chat_jobs_bound demo_executor (demo_job "/models/m") demo_started _ _ (surjective_pairing _))
      as [_ [[H _]|(body & answer & H)]].
    + by vm_compute in H.
    + exists body, answer. split; [|apply H]. by destruct H as [H _].
  - destruct (chat_jobs_bound demo_executor (demo_job "other") demo_started _ _ (surjective_pairing _))
      as [_ [[H _]|(body & answer & H)]]; [exact H|].
    destruct H as (_ & _ & [H|(name & H1 & H2)] & _); [done|]. cbn in H1. apply Ok_inj in H1 as <-.
    assert ("other"%string ∉ ["/models/m"; "astrumweaver"]%string) as Hx by vm_decide. by destruct Hx.
Defined.
