(* ===== verification/SetupContracts.v ===== *)
(** * Setup plan contracts

    Models [src/src/astrumweaver/setup/contracts.py]: what a host setup consists of.  A plan
    is a list of actions with JSON payloads, frozen with sorted keys; its digest is the
    SHA-256 of its canonical JSON text, and an approval names that digest.  SHA-256 and the
    [repr] of floats are parameters. *)

From S2P Require Import Prelude PyStr PyDict PyVal Contracts Json RuntimeContracts Serde.
From Stdlib Require Import SpecFloat.

(** ** Enumerations *)

(** [DeploymentPath], setup/contracts.py lines 64-66. *)
Inductive DeploymentPath := NIXOS | SYSTEMD.
(** [PrivilegeMode], setup/contracts.py lines 69-72. *)
Inductive PrivilegeMode := ROOT | SUDO | PRIVILEGE_UNAVAILABLE.
(** [SetupPlanGoal], setup/contracts.py lines 75-77. *)
Inductive SetupPlanGoal := ACTIVATE | RELEASE.
(** [SetupActionKind], setup/contracts.py lines 80-94. *)
Inductive SetupActionKind :=
  | ENSURE_DIRECTORY | ENSURE_PACKAGE | ENSURE_NVIDIA_DRIVER_BRIDGE | RENDER_CONFIG
  | VERIFY_MODEL_REFERENCE | DOWNLOAD_MODEL | CONVERT_MODEL | PREFLIGHT | WORKER_STOP
  | RECONCILE_WORKER_EXECUTION | RUNTIME_START | HEALTH_CHECK | RUNTIME_STOP
  | RUNTIME_RELEASE.
(** [SetupActionState], setup/contracts.py lines 97-100. *)
Inductive SetupActionState := SATISFIED | NEEDS_APPLY | STATE_BLOCKED.
(** [SetupActionResultStatus], setup/contracts.py lines 103-109. *)
Inductive SetupActionResultStatus :=
  SKIPPED | APPLIED | ACTION_FAILED | ROLLED_BACK | ROLLBACK_FAILED | ACTION_BLOCKED.
(** [SetupApplyStatus], setup/contracts.py lines 112-114. *)
Inductive SetupApplyStatus := APPLY_SUCCEEDED | APPLY_FAILED.

#[export] Instance DeploymentPath_eq : EqDecision DeploymentPath.
Proof. solve_decision. Defined.
#[export] Instance PrivilegeMode_eq : EqDecision PrivilegeMode.
Proof. solve_decision. Defined.
#[export] Instance SetupPlanGoal_eq : EqDecision SetupPlanGoal.
Proof. solve_decision. Defined.
#[export] Instance SetupActionKind_eq : EqDecision SetupActionKind.
Proof. solve_decision. Defined.
#[export] Instance SetupActionState_eq : EqDecision SetupActionState.
Proof. solve_decision. Defined.
#[export] Instance SetupActionResultStatus_eq : EqDecision SetupActionResultStatus.
Proof. solve_decision. Defined.
#[export] Instance SetupApplyStatus_eq : EqDecision SetupApplyStatus.
Proof. solve_decision. Defined.

#[export] Instance DeploymentPath_enum : StrEnum DeploymentPath := {
  enum_members := [NIXOS; SYSTEMD];
  enum_value v := match v with NIXOS => "nixos" | SYSTEMD => "systemd" end;
  enum_name := "DeploymentPath" }.
#[export] Instance PrivilegeMode_enum : StrEnum PrivilegeMode := {
  enum_members := [ROOT; SUDO; PRIVILEGE_UNAVAILABLE];
  enum_value v := match v with ROOT => "root" | SUDO => "sudo"
                  | PRIVILEGE_UNAVAILABLE => "unavailable" end;
  enum_name := "PrivilegeMode" }.
#[export] Instance SetupPlanGoal_enum : StrEnum SetupPlanGoal := {
  enum_members := [ACTIVATE; RELEASE];
  enum_value v := match v with ACTIVATE => "activate" | RELEASE => "release" end;
  enum_name := "SetupPlanGoal" }.
#[export] Instance SetupActionKind_enum : StrEnum SetupActionKind := {
  enum_members := [ENSURE_DIRECTORY; ENSURE_PACKAGE; ENSURE_NVIDIA_DRIVER_BRIDGE;
    RENDER_CONFIG; VERIFY_MODEL_REFERENCE; DOWNLOAD_MODEL; CONVERT_MODEL; PREFLIGHT;
    WORKER_STOP; RECONCILE_WORKER_EXECUTION; RUNTIME_START; HEALTH_CHECK; RUNTIME_STOP;
    RUNTIME_RELEASE];
  enum_value v := match v with
    | ENSURE_DIRECTORY => "ensure_directory"
    | ENSURE_PACKAGE => "ensure_package"
    | ENSURE_NVIDIA_DRIVER_BRIDGE => "ensure_nvidia_driver_bridge"
    | RENDER_CONFIG => "render_config"
    | VERIFY_MODEL_REFERENCE => "verify_model_reference"
    | DOWNLOAD_MODEL => "download_model"
    | CONVERT_MODEL => "convert_model"
    | PREFLIGHT => "preflight"
    | WORKER_STOP => "worker_stop"
    | RECONCILE_WORKER_EXECUTION => "reconcile_worker_execution"
    | RUNTIME_START => "runtime_start"
    | HEALTH_CHECK => "health_check"
    | RUNTIME_STOP => "runtime_stop"
    | RUNTIME_RELEASE => "runtime_release"
    end;
  enum_name := "SetupActionKind" }.
#[export] Instance SetupActionState_enum : StrEnum SetupActionState := {
  enum_members := [SATISFIED; NEEDS_APPLY; STATE_BLOCKED];
  enum_value v := match v with SATISFIED => "satisfied" | NEEDS_APPLY => "needs_apply"
                  | STATE_BLOCKED => "blocked" end;
  enum_name := "SetupActionState" }.
#[export] Instance SetupActionResultStatus_enum : StrEnum SetupActionResultStatus := {
  enum_members := [SKIPPED; APPLIED; ACTION_FAILED; ROLLED_BACK; ROLLBACK_FAILED; ACTION_BLOCKED];
  enum_value v := match v with SKIPPED => "skipped" | APPLIED => "applied"
                  | ACTION_FAILED => "failed" | ROLLED_BACK => "rolled_back"
                  | ROLLBACK_FAILED => "rollback_failed" | ACTION_BLOCKED => "blocked" end;
  enum_name := "SetupActionResultStatus" }.
#[export] Instance SetupApplyStatus_enum : StrEnum SetupApplyStatus := {
  enum_members := [APPLY_SUCCEEDED; APPLY_FAILED];
  enum_value v := match v with APPLY_SUCCEEDED => "succeeded" | APPLY_FAILED => "failed" end;
  enum_name := "SetupApplyStatus" }.

#[export] Instance DeploymentPath_lawful : LawfulEnum DeploymentPath.
Proof. constructor. by intros []. Qed.
#[export] Instance SetupPlanGoal_lawful : LawfulEnum SetupPlanGoal.
Proof. constructor. by intros []. Qed.
#[export] Instance SetupActionKind_lawful : LawfulEnum SetupActionKind.
Proof. constructor. by intros []. Qed.

(** ** Frozen JSON *)

(** [SecretReference], [SecretReference.to_dict], setup/contracts.py lines 26-36. *)
Definition secret_reference (name : string) : result pyval :=
  n ← nonblank_str name "name"; Ok (PDict [("$secret_ref", PStr n)]).

(** [_freeze_json] and [thaw_json] on JSON values, setup/contracts.py lines 39-61: freezing
    sorts the keys of every mapping, thawing changes no value. *)
Definition _freeze_json (value : pyval) : pyval := sort_keys value.
Definition thaw_json (value : pyval) : pyval := value.
Definition freeze_dict (d : dict pyval) : dict pyval :=
  match _freeze_json (PDict d) with PDict d' => d' | _ => [] end.
#[global] Arguments freeze_dict : simpl never.

(** ** Host snapshot *)

(** [SetupHostSnapshot], setup/contracts.py lines 117-132. *)
Record SetupHostSnapshot := {
  hs_runtime_host : RuntimeHostFacts;
  hs_deployment_path : DeploymentPath;
  hs_os_id : string;
  hs_os_version : string;
  hs_service_manager : option string;
  hs_package_manager : option string;
  hs_available_commands : gset string;
  hs_privilege_mode : PrivilegeMode;
  hs_metadata : dict pyval;
}.

Definition opt_nonblank (o : option string) (field : string) : result (option string) :=
  match o with None => Ok None | Some s => s' ← nonblank_str s field; Ok (Some s') end.

(** [SetupHostSnapshot.__post_init__], setup/contracts.py lines 134-166. *)
Definition mk_SetupHostSnapshot (host : RuntimeHostFacts) (path : DeploymentPath)
    (os_id os_version : string) (service_manager package_manager : option string)
    (commands : list string) (mode : PrivilegeMode) (metadata : dict pyval)
    : result SetupHostSnapshot :=
  id ← nonblank_str os_id "os_id";
  sm ← opt_nonblank service_manager "service_manager";
  pm ← opt_nonblank package_manager "package_manager";
  cmds ← mapR (λ c, nonblank_str c "available command") commands;
  Ok {| hs_runtime_host := host; hs_deployment_path := path; hs_os_id := lower id;
        hs_os_version := strip os_version; hs_service_manager := sm;
        hs_package_manager := pm; hs_available_commands := list_to_set cmds;
        hs_privilege_mode := mode; hs_metadata := freeze_dict metadata |}.

(** [SetupHostSnapshot.to_dict], setup/contracts.py lines 168-184. *)
Definition snapshot_to_dict (s : SetupHostSnapshot) : dict pyval :=
  [("runtime_host", PDict
      [("cpu_count", PInt (hf_cpu_count (hs_runtime_host s)));
       ("host_ram_mb", PInt (hf_host_ram_mb (hs_runtime_host s)));
       ("architecture", PStr (hf_architecture (hs_runtime_host s)));
       ("labels", PDict ((λ '(k, v), (k, PStr v)) <$> hf_labels (hs_runtime_host s)))]);
   ("deployment_path", PStr (enum_value (hs_deployment_path s)));
   ("os_id", PStr (hs_os_id s));
   ("os_version", PStr (hs_os_version s));
   ("service_manager", of_opt_str (hs_service_manager s));
   ("package_manager", of_opt_str (hs_package_manager s));
   ("available_commands", strs (sorted_strings (elements (hs_available_commands s))));
   ("privilege_mode", PStr (enum_value (hs_privilege_mode s)));
   ("metadata", thaw_json (PDict (hs_metadata s)))].

(** ** Actions *)

(** [SetupAction], setup/contracts.py lines 187-196. *)
Record SetupAction := {
  ac_action_id : string;
  ac_kind : SetupActionKind;
  ac_description : string;
  ac_payload : dict pyval;
  ac_requires_privilege : bool;
  ac_requires_network : bool;
  ac_requires_confirmation : bool;
  ac_reversible : bool;
}.

(** [_ACTION_ID.fullmatch], setup/contracts.py line 16. *)
Definition action_id_start (c : ascii) : bool :=
  let n := N_of_ascii c in ((97 <=? n) && (n <=? 122) || (48 <=? n) && (n <=? 57))%N.
Definition action_id_char (c : ascii) : bool :=
  action_id_start c || bool_decide (c ∈ ["."; "_"; "-"]%char).
Definition action_id_ok (s : string) : bool :=
  match s with
  | EmptyString => false
  | String c r => action_id_start c && all_chars action_id_char r
  end.

(** [SetupAction.__post_init__], setup/contracts.py lines 198-209. *)
Definition mk_SetupAction (action_id : string) (kind : SetupActionKind) (description : string)
    (payload : dict pyval) (privilege network confirmation reversible : bool)
    : result SetupAction :=
  id ← nonblank_str action_id "action_id";
  require (action_id_ok id) (ValueError "action_id contains unsupported characters");;
  desc ← nonblank_str description "description";
  Ok {| ac_action_id := id; ac_kind := kind; ac_description := desc;
        ac_payload := freeze_dict payload; ac_requires_privilege := privilege;
        ac_requires_network := network; ac_requires_confirmation := confirmation;
        ac_reversible := reversible |}.

(** [SetupAction.to_dict], setup/contracts.py lines 211-221. *)
Definition action_to_dict (a : SetupAction) : dict pyval :=
  [("action_id", PStr (ac_action_id a));
   ("kind", PStr (enum_value (ac_kind a)));
   ("description", PStr (ac_description a));
   ("payload", thaw_json (PDict (ac_payload a)));
   ("requires_privilege", PBool (ac_requires_privilege a));
   ("requires_network", PBool (ac_requires_network a));
   ("requires_confirmation", PBool (ac_requires_confirmation a));
   ("reversible", PBool (ac_reversible a))].

(** [SetupAction.from_dict], setup/contracts.py lines 224-237. *)
Definition action_from_dict (value : pyval) : result SetupAction :=
  i ← py_item "action_id" value; id ← py_str i;
  k ← py_item "kind" value; ks ← py_str k; kind ← enum_of ks;
  d ← py_item "description" value; desc ← py_str d;
  p ← py_get "payload" value; payload ← dict_or_empty p;
  privilege ← py_get "requires_privilege" value;
  network ← py_get "requires_network" value;
  confirmation ← py_get "requires_confirmation" value;
  reversible ← py_get "reversible" value;
  mk_SetupAction id kind desc payload (truthy privilege) (truthy network)
    (truthy confirmation) (truthy reversible).

(** ** Plans *)

(** [SetupPlan], setup/contracts.py lines 240-247. *)
Record SetupPlan := {
  pl_provider_id : string;
  pl_deployment_path : DeploymentPath;
  pl_goal : SetupPlanGoal;
  pl_actions : list SetupAction;
  pl_metadata : dict pyval;
  pl_schema_version : string;
}.

(** [SetupPlan.__post_init__], setup/contracts.py lines 249-275. *)
Definition mk_SetupPlan (provider_id : string) (path : DeploymentPath) (goal : SetupPlanGoal)
    (actions : list SetupAction) (metadata : dict pyval) (schema_version : string)
    : result SetupPlan :=
  pid ← nonblank_str provider_id "provider_id";
  require (match actions with [] => false | _ => true end)
    (ValueError "SetupPlan must contain at least one action");;
  require (all_distinct (ac_action_id <$> actions))
    (ValueError "SetupPlan action IDs must be unique");;
  sv ← nonblank_str schema_version "schema_version";
  Ok {| pl_provider_id := pid; pl_deployment_path := path; pl_goal := goal;
        pl_actions := actions; pl_metadata := freeze_dict metadata; pl_schema_version := sv |}.

(** [SetupPlan.to_dict], setup/contracts.py lines 277-285. *)
Definition plan_to_dict (p : SetupPlan) : dict pyval :=
  [("schema_version", PStr (pl_schema_version p));
   ("provider_id", PStr (pl_provider_id p));
   ("deployment_path", PStr (enum_value (pl_deployment_path p)));
   ("goal", PStr (enum_value (pl_goal p)));
   ("actions", PList ((λ a, PDict (action_to_dict a)) <$> pl_actions p));
   ("metadata", thaw_json (PDict (pl_metadata p)))].

(** [SetupPlan.requires_privilege], [SetupPlan.requires_network], [SetupPlan.requires_confirmation],
    setup/contracts.py lines 331-341. *)
Definition requires_privilege (p : SetupPlan) : bool := existsb ac_requires_privilege (pl_actions p).
Definition requires_network (p : SetupPlan) : bool := existsb ac_requires_network (pl_actions p).
Definition requires_confirmation (p : SetupPlan) : bool :=
  existsb ac_requires_confirmation (pl_actions p).

(** The hash and the [repr] of floats the digests are made with. *)
Class Digests := {
  float_repr : spec_float → string;
  sha256_hex : string → string;
}.

Section digest.
Context {DG : Digests}.

(** [SetupPlan.to_json] without [pretty], setup/contracts.py lines 295-300. *)
Definition to_json (p : SetupPlan) : string := dumps float_repr (PDict (plan_to_dict p)).

(** [SetupPlan.digest], setup/contracts.py lines 302-304. *)
Definition digest (p : SetupPlan) : string := sha256_hex (to_json p).

(** [SetupPlan.from_dict], setup/contracts.py lines 306-322. *)
Definition plan_from_dict (value : dict pyval) : result SetupPlan :=
  schema ← py_str (get_default "schema_version" (PStr "v1") value);
  p ← item "provider_id" value; provider ← py_str p;
  d ← item "deployment_path" value; ds ← py_str d; path ← enum_of ds;
  g ← item "goal" value; gs ← py_str g; goal ← enum_of gs;
  l ← iter_or_empty (get "actions" value);
  actions ← mapR action_from_dict l;
  metadata ← dict_or_empty (get "metadata" value);
  plan ← mk_SetupPlan provider path goal actions metadata schema;
  match get "digest" value with
  | PNone => Ok plan
  | supplied =>
      s ← py_str supplied;
      require (bool_decide (s = digest plan))
        (ValueError "SetupPlan digest does not match content");;
      Ok plan
  end.

(** [SetupPlan.from_json], setup/contracts.py lines 324-329; the value is the parsed JSON. *)
Definition plan_from_json_value (value : pyval) : result SetupPlan :=
  match value with
  | PDict d => plan_from_dict d
  | _ => Err (ValueError "SetupPlan JSON must contain an object")
  end.
End digest.

(** ** Inspection, receipts and results *)

(** [ActionInspection.*], setup/contracts.py lines 344-351. *)
Record ActionInspection := { in_state : SetupActionState; in_detail : string }.
Definition mk_ActionInspection (state : SetupActionState) (detail : string) : ActionInspection :=
  {| in_state := state; in_detail := strip detail |}.

(** [ActionReceipt.*], setup/contracts.py lines 354-372. *)
Record ActionReceipt := {
  rc_changed : bool;
  rc_detail : string;
  rc_evidence : dict pyval;
  rc_rollback_data : dict pyval;
}.
Definition mk_ActionReceipt (changed : bool) (detail : string) (evidence rollback : dict pyval)
    : ActionReceipt :=
  {| rc_changed := changed; rc_detail := strip detail; rc_evidence := freeze_dict evidence;
     rc_rollback_data := freeze_dict rollback |}.

(** [SetupActionPreview.*], setup/contracts.py lines 375-396. *)
Record SetupActionPreview := {
  pv_action_id : string;
  pv_kind : SetupActionKind;
  pv_state : SetupActionState;
  pv_description : string;
  pv_requires_privilege : bool;
  pv_requires_network : bool;
  pv_requires_confirmation : bool;
  pv_detail : string;
}.
Definition preview_to_dict (p : SetupActionPreview) : dict pyval :=
  [("action_id", PStr (pv_action_id p));
   ("kind", PStr (enum_value (pv_kind p)));
   ("state", PStr (enum_value (pv_state p)));
   ("description", PStr (pv_description p));
   ("requires_privilege", PBool (pv_requires_privilege p));
   ("requires_network", PBool (pv_requires_network p));
   ("requires_confirmation", PBool (pv_requires_confirmation p));
   ("detail", PStr (pv_detail p))].

(** [SetupPreview.*], setup/contracts.py lines 399-424. *)
Record SetupPreview := { sv_plan_digest : string; sv_actions : list SetupActionPreview }.
Definition preview_blocked (p : SetupPreview) : bool :=
  existsb (λ a, bool_decide (pv_state a = STATE_BLOCKED)) (sv_actions p).
Definition changes_required (p : SetupPreview) : bool :=
  existsb (λ a, bool_decide (pv_state a = NEEDS_APPLY)) (sv_actions p).
Definition setup_preview_to_dict (p : SetupPreview) : dict pyval :=
  [("plan_digest", PStr (sv_plan_digest p));
   ("blocked", PBool (preview_blocked p));
   ("changes_required", PBool (changes_required p));
   ("actions", PList ((λ a, PDict (preview_to_dict a)) <$> sv_actions p))].

(** [SetupActionResult.*], setup/contracts.py lines 427-454. *)
Record SetupActionResult := {
  ar_action_id : string;
  ar_kind : SetupActionKind;
  ar_status : SetupActionResultStatus;
  ar_changed : bool;
  ar_detail : string;
  ar_evidence : dict pyval;
}.
Definition mk_SetupActionResult (id : string) (kind : SetupActionKind)
    (status : SetupActionResultStatus) (changed : bool) (detail : string)
    (evidence : dict pyval) : SetupActionResult :=
  {| ar_action_id := id; ar_kind := kind; ar_status := status; ar_changed := changed;
     ar_detail := strip detail; ar_evidence := freeze_dict evidence |}.
Definition action_result_to_dict (r : SetupActionResult) : dict pyval :=
  [("action_id", PStr (ar_action_id r));
   ("kind", PStr (enum_value (ar_kind r)));
   ("status", PStr (enum_value (ar_status r)));
   ("changed", PBool (ar_changed r));
   ("detail", PStr (ar_detail r));
   ("evidence", thaw_json (PDict (ar_evidence r)))].

(** [SetupApplyResult.*], setup/contracts.py lines 457-485. *)
Record SetupApplyResult := {
  sr_plan_digest : string;
  sr_status : SetupApplyStatus;
  sr_actions : list SetupActionResult;
  sr_rollback_actions : list SetupActionResult;
}.
Definition succeeded (r : SetupApplyResult) : bool := bool_decide (sr_status r = APPLY_SUCCEEDED).
Definition apply_result_to_dict (r : SetupApplyResult) : dict pyval :=
  [("plan_digest", PStr (sr_plan_digest r));
   ("status", PStr (enum_value (sr_status r)));
   ("actions", PList ((λ a, PDict (action_result_to_dict a)) <$> sr_actions r));
   ("rollback_actions", PList ((λ a, PDict (action_result_to_dict a)) <$> sr_rollback_actions r))].

(** [SetupApproval], setup/contracts.py lines 488-497. *)
Record SetupApproval := {
  av_plan_digest : string;
  av_allow_privileged : bool;
  av_allow_network : bool;
  av_allow_model_download : bool;
  av_allow_model_convert : bool;
  av_allow_confirmation_actions : bool;
}.

(** [re.fullmatch("[0-9a-f]{64}", s)]. *)
Definition is_hex_char (c : ascii) : bool :=
  let n := N_of_ascii c in ((48 <=? n) && (n <=? 57) || (97 <=? n) && (n <=? 102))%N.
Definition sha256_hex_form (s : string) : bool :=
  (String.length s =? 64)%nat && all_chars is_hex_char s.

(** [SetupApproval.__post_init__], setup/contracts.py lines 499-503. *)
Definition mk_SetupApproval (plan_digest : string)
    (privileged network download convert confirmation : bool) : result SetupApproval :=
  d ← nonblank_str plan_digest "plan_digest";
  require (sha256_hex_form (lower d)) (ValueError "plan_digest must be a SHA-256 hex digest");;
  Ok {| av_plan_digest := lower d; av_allow_privileged := privileged;
        av_allow_network := network; av_allow_model_download := download;
        av_allow_model_convert := convert; av_allow_confirmation_actions := confirmation |}.
