(* ===== verification/SetupPlanner.v ===== *)
(** * Planning a setup

    Models [src/src/astrumweaver/setup/planner.py]: from an explicit choice of a runtime, a
    host snapshot and what the provider intends, the ordered actions of a setup plan. *)

From S2P Require Import Prelude PyStr PyDict PyVal Contracts RuntimeContracts Planner Serde Deployment SetupContracts.

Definition DEFAULT_RUNTIME_STARTUP_TIMEOUT_SECONDS : Z := 600.

(** ** The builder *)

(** [kind.value.replace("_", "-")]. *)
Fixpoint dashed (s : string) : string :=
  match s with
  | EmptyString => EmptyString
  | String c s' => String (if bool_decide (c = "_"%char) then "-"%char else c) (dashed s')
  end.
(** [f"{index:02d}"]. *)
Definition two_digits (index : nat) : string :=
  let s := str_of_N (N.of_nat index) in
  if (String.length s <? 2)%nat then String "0" s else s.
Definition action_id (index : nat) (kind : SetupActionKind) : string :=
  two_digits index +:+ "-" +:+ dashed (enum_value kind).

(** What [add] is told about an action besides its text. *)
Record flags := { fl_privilege : bool; fl_network : bool; fl_confirmation : bool; fl_reversible : bool }.
Definition no_flags : flags :=
  {| fl_privilege := false; fl_network := false; fl_confirmation := false; fl_reversible := false |}.
Definition privileged (b : bool) : flags :=
  {| fl_privilege := b; fl_network := false; fl_confirmation := false; fl_reversible := false |}.
Definition reversible_if (b : bool) : flags :=
  {| fl_privilege := b; fl_network := false; fl_confirmation := false; fl_reversible := true |}.

(** [_ActionBuilder.add], setup/planner.py lines 35-58. *)
Definition add (kind : SetupActionKind) (description : string) (payload : dict pyval) (f : flags)
    (actions : list SetupAction) : result (list SetupAction) :=
  a ← mk_SetupAction (action_id (length actions + 1) kind) kind description payload
        (fl_privilege f) (fl_network f) (fl_confirmation f) (fl_reversible f);
  Ok (actions ++ [a]).

(** ** The stages of an activation plan *)

Section stages.
Variable provider_id : string.
Variable intent : RuntimeSetupIntent.

(** Directories, setup/planner.py lines 117-126. *)
Definition directory_actions : list SetupAction → result (list SetupAction) := λ actions,
  foldR (λ acc logical_name,
    add ENSURE_DIRECTORY ("Ensure runtime " +:+ logical_name +:+ " directory exists")
      [("provider_id", PStr provider_id); ("logical_name", PStr logical_name)]
      (privileged (si_requires_privilege intent)) acc) actions ["config"; "state"; "cache"].

(** Packages, setup/planner.py lines 128-138. *)
Definition package_actions (actions : list SetupAction) : result (list SetupAction) :=
  foldR (λ acc package_reference,
    add ENSURE_PACKAGE ("Ensure runtime package is installed: " +:+ package_reference)
      [("provider_id", PStr provider_id); ("package_reference", PStr package_reference)]
      {| fl_privilege := si_requires_privilege intent; fl_network := true;
         fl_confirmation := false; fl_reversible := false |} acc)
    actions (sorted_strings (si_package_references intent)).

(** The driver bridge, setup/planner.py lines 140-156. *)
Definition bridge_actions (needed : bool) (actions : list SetupAction)
    : result (list SetupAction) :=
  if needed then
    add ENSURE_NVIDIA_DRIVER_BRIDGE "Ensure the host NVIDIA CUDA driver bridge is available"
      [("provider_id", PStr provider_id); ("soname", PStr "libcuda.so.1");
       ("bridge_directory", PStr "/etc/astrumweaver/runtime/nvidia-driver")]
      (reversible_if true) actions
  else Ok actions.

(** The configuration, setup/planner.py lines 158-174. *)
Definition config_actions (deployment : dict pyval) (reconcile : bool)
    (actions : list SetupAction) : result (list SetupAction) :=
  match si_configuration intent with
  | [] => Ok actions
  | configuration =>
      add RENDER_CONFIG "Render selected runtime configuration"
        ([("provider_id", PStr provider_id); ("configuration", PDict configuration);
          ("runtime_deployment", PDict deployment)]
         ++ (if reconcile then [("existing_worker_migration", PBool true)] else []))
        (reversible_if (si_requires_privilege intent)) actions
  end.

(** The model, setup/planner.py lines 176-213. *)
Definition model_actions (demand : ExecutionDemand) (actions : list SetupAction)
    : result (list SetupAction) :=
  let model_ref := match si_model_ref intent with
    | Some r => if str_truthy r then r else md_model_ref (ed_model demand)
    | None => md_model_ref (ed_model demand)
    end in
  let payload := [("provider_id", PStr provider_id); ("model_ref", PStr model_ref);
                  ("model_format", PStr (md_model_format (ed_model demand)))] in
  match si_model_preparation intent with
  | REFERENCE_ONLY =>
      add VERIFY_MODEL_REFERENCE "Verify the selected model reference is available" payload
        no_flags actions
  | DOWNLOAD =>
      add DOWNLOAD_MODEL "Download the explicitly selected model" payload
        {| fl_privilege := false; fl_network := true; fl_confirmation := true;
           fl_reversible := false |} actions
  | CONVERT =>
      add CONVERT_MODEL "Convert the explicitly selected model for this runtime" payload
        {| fl_privilege := false; fl_network := false; fl_confirmation := true;
           fl_reversible := false |} actions
  end.

(** The existing Worker, setup/planner.py lines 215-247. *)
Definition reconcile_actions (deployment : dict pyval) (path : DeploymentPath) (reconcile : bool)
    (actions : list SetupAction) : result (list SetupAction) :=
  if negb reconcile then Ok actions
  else
    require (bool_decide (path = SYSTEMD))
      (SetupPlanningError "existing Worker execution reconciliation is systemd-only");;
    actions ← add WORKER_STOP "Stop the existing Worker before changing execution authority"
      [("provider_id", PStr provider_id);
       ("source_execution", PStr "canonical_smoke_or_runtime");
       ("desired_execution", PStr "runtime"); ("runtime_deployment", PDict deployment)]
      (reversible_if true) actions;
    add RECONCILE_WORKER_EXECUTION
      "Reconcile installed Worker execution to RuntimeProvider execution"
      [("provider_id", PStr provider_id);
       ("source_execution", PStr "canonical_smoke_or_runtime");
       ("desired_execution", PStr "runtime");
       ("capabilities", strs ["llm.chat"; "text.generate"]);
       ("runtime_manifest", PStr "/etc/astrumweaver/runtime-deployment.json");
       ("runtime_deployment", PDict deployment);
       ("startup_timeout_seconds", PInt 600); ("shutdown_timeout_seconds", PInt 60)]
      (reversible_if true) actions.

(** Preflight, start and health, setup/planner.py lines 249-273. *)
Definition final_actions (demand : ExecutionDemand) (actions : list SetupAction)
    : result (list SetupAction) :=
  actions ← add PREFLIGHT "Run runtime and model compatibility preflight"
    [("provider_id", PStr provider_id);
     ("residency_policy", PStr (enum_value (ed_residency_policy demand)));
     ("gpu_topology", PStr (enum_value (ed_gpu_topology demand)));
     ("model_topology", PStr (enum_value (md_topology (ed_model demand))))] no_flags actions;
  actions ← add RUNTIME_START "Start or reconcile the selected runtime"
    [("provider_id", PStr provider_id)] (reversible_if (si_requires_privilege intent)) actions;
  add HEALTH_CHECK "Verify the selected runtime is ready"
    [("provider_id", PStr provider_id);
     ("timeout_seconds", PInt DEFAULT_RUNTIME_STARTUP_TIMEOUT_SECONDS)] no_flags actions.
End stages.

(** ** The plans *)

(** [_require_snapshot_matches_context], setup/planner.py lines 61-68: equality of host facts,
    whose labels are mappings. *)
Definition host_eqb (a b : RuntimeHostFacts) : bool :=
  (hf_cpu_count a =? hf_cpu_count b) && (hf_host_ram_mb a =? hf_host_ram_mb b)
  && bool_decide (hf_architecture a = hf_architecture b) && dict_eqb (hf_labels a) (hf_labels b).
Definition _require_snapshot_matches_context (snapshot : SetupHostSnapshot)
    (context : RuntimeCompatibilityContext) : result unit :=
  require (host_eqb (hs_runtime_host snapshot) (cx_host context))
    (SetupPlanningError "host discovery snapshot does not match compatibility context").

#[export] Instance RuntimeSelectionMode_enum : StrEnum RuntimeSelectionMode := {
  enum_members := [EXPLICIT; RECOMMEND];
  enum_value v := match v with EXPLICIT => "explicit" | RECOMMEND => "recommend" end;
  enum_name := "RuntimeSelectionMode" }.

Section planner.
Context {R : Type}.

(** The actions of an activation, setup/planner.py lines 114-273. *)
Definition activation_actions (provider_id : string) (intent : RuntimeSetupIntent)
    (context : RuntimeCompatibilityContext) (snapshot : SetupHostSnapshot)
    (deployment : dict pyval) (reconcile : bool) : result (list SetupAction) :=
  actions ← directory_actions provider_id intent [];
  actions ← package_actions provider_id intent actions;
  actions ← bridge_actions provider_id
    (bool_decide (hs_deployment_path snapshot = SYSTEMD)
     && (0 <? gpu_count (resources (cx_worker context)))) actions;
  actions ← config_actions provider_id intent deployment reconcile actions;
  actions ← model_actions provider_id intent (cx_demand context) actions;
  actions ← reconcile_actions provider_id deployment (hs_deployment_path snapshot) reconcile actions;
  final_actions provider_id intent (cx_demand context) actions.

(** [build_runtime_setup_plan], setup/planner.py lines 71-290; the [RuntimeSelectionError] of
    [resolve_runtime] is a [RuntimeError]. *)
Definition build_runtime_setup_plan (catalog : dict (RuntimeProvider R))
    (context : RuntimeCompatibilityContext) (selection : RuntimeSelection)
    (snapshot : SetupHostSnapshot) (reconcile : bool) : result SetupPlan :=
  _require_snapshot_matches_context snapshot context;;
  require (bool_decide (rs_mode selection = EXPLICIT))
    (SetupPlanningError "runtime setup requires an explicit user-selected provider");;
  outcome ← resolve_runtime catalog context selection;
  match outcome with
  | SelectionError msg _ _ => Err (RuntimeError msg)
  | Resolved resolution =>
      match rr_selected_provider_id resolution with
      | None => Err (SetupPlanningError "runtime provider selection is unresolved")
      | Some provider_id =>
          match dget provider_id catalog with
          | None => Err (SetupPlanningError
                           ("selected runtime provider is not installed: " +:+ provider_id))
          | Some provider =>
              intent ← rp_setup_intent provider context;
              require (bool_decide (si_provider_id intent = provider_id))
                (SetupPlanningError "runtime provider setup intent changed provider identity");;
              deployment ← build_runtime_deployment_spec provider context (Some intent);
              actions ← activation_actions provider_id intent context snapshot
                          (deployment_to_dict deployment) reconcile;
              let demand := cx_demand context in
              mk_SetupPlan provider_id (hs_deployment_path snapshot) ACTIVATE actions
                [("selection_mode", PStr (enum_value (rs_mode selection)));
                 ("model_format", PStr (md_model_format (ed_model demand)));
                 ("model_topology", PStr (enum_value (md_topology (ed_model demand))));
                 ("residency_policy", PStr (enum_value (ed_residency_policy demand)));
                 ("gpu_topology", PStr (enum_value (ed_gpu_topology demand)));
                 ("worker_class", PStr (worker_class (cx_worker context)));
                 ("gpu_count", PInt (gpu_count (resources (cx_worker context))));
                 ("host_privilege_mode", PStr (enum_value (hs_privilege_mode snapshot)))] "v1"
          end
      end
  end.
End planner.

(** [build_runtime_release_plan], setup/planner.py lines 293-325. *)
Definition build_runtime_release_plan (provider_id : string) (snapshot : SetupHostSnapshot)
    (requires_privilege : bool) : result SetupPlan :=
  actions ← add RUNTIME_STOP "Stop the selected runtime" [("provider_id", PStr provider_id)]
    (reversible_if requires_privilege) [];
  actions ← add RUNTIME_RELEASE "Release runtime-local model and accelerator residency"
    [("provider_id", PStr provider_id)] (privileged requires_privilege) actions;
  mk_SetupPlan provider_id (hs_deployment_path snapshot) RELEASE actions
    [("host_privilege_mode", PStr (enum_value (hs_privilege_mode snapshot)))] "v1".
