(* ===== verification/SetupApply.v ===== *)
(** * Applying a setup plan

    Models [src/src/astrumweaver/setup/apply.py]: dry runs, the approval gate, the loop that
    inspects and applies one action after another, and the rollback of what was changed.
    The driver is an interface: its calls read and change a world of its own and may raise.
    The progress observer is part of the driver's world, because it may do anything to it. *)

From S2P Require Import Prelude PyStr PyDict PyVal RuntimeContracts SetupContracts.

(** ** The driver *)

(** A call that may raise an [Exception]; only the name of its class is read. *)
Inductive attempt (A : Type) :=
  | Returned (a : A)
  | Raised (class_name : string).
Arguments Returned {A} a.
Arguments Raised {A} class_name.

(** [SetupActionDriver], setup/apply.py lines 44-62. *)
Class SetupActionDriver (W : Type) := {
  inspect : SetupAction → W → W * attempt ActionInspection;
  apply_action : SetupAction → W → W * attempt ActionReceipt;
  rollback_action : SetupAction → ActionReceipt → W → W * attempt ActionReceipt;
}.

(** [on_result]: what the observer did to the world, whether it returned or raised. *)
Abbreviation observer W := (option (SetupActionResult → W → W)).

Section apply.
Context {W : Type} {D : SetupActionDriver W} {DG : Digests}.

(** [_emit_result], setup/apply.py lines 29-41. *)
Definition _emit_result (callback : observer W) (res : SetupActionResult) (w : W) : W :=
  match callback with None => w | Some f => f res w end.

(** [a or b] on strings. *)
Definition or_str (a b : string) : string := if str_truthy a then a else b.

(** ** Dry run *)

(** One turn of the loop of [preview_plan], setup/apply.py lines 70-89. *)
Definition preview_action (action : SetupAction) (w : W) : W * SetupActionPreview :=
  let '(w', o) := inspect action w in
  let inspection := match o with
    | Returned i => i
    | Raised cls => mk_ActionInspection STATE_BLOCKED ("inspection failed: " +:+ cls)
    end in
  (w', {| pv_action_id := ac_action_id action; pv_kind := ac_kind action;
          pv_state := in_state inspection; pv_description := ac_description action;
          pv_requires_privilege := ac_requires_privilege action;
          pv_requires_network := ac_requires_network action;
          pv_requires_confirmation := ac_requires_confirmation action;
          pv_detail := in_detail inspection |}).

Fixpoint preview_actions (l : list SetupAction) (w : W) : W * list SetupActionPreview :=
  match l with
  | [] => (w, [])
  | a :: l' =>
      let '(w1, p) := preview_action a w in
      let '(w2, ps) := preview_actions l' w1 in (w2, p :: ps)
  end.

(** [preview_plan], [dry_run_plan], setup/apply.py lines 65-102. *)
Definition preview_plan (plan : SetupPlan) (w : W) : W * SetupPreview :=
  let '(w', previews) := preview_actions (pl_actions plan) w in
  (w', {| sv_plan_digest := digest plan; sv_actions := previews |}).

(** [explain_plan], setup/apply.py lines 105-128. *)
Definition explain_action (a : SetupAction) : string :=
  let flag (b : bool) (s : string) := if b then [s] else [] in
  let flags := flag (ac_requires_privilege a) "privileged"
    ++ flag (ac_requires_network a) "network"
    ++ flag (ac_requires_confirmation a) "confirmation"
    ++ flag (ac_reversible a) "reversible" in
  let suffix := match flags with [] => EmptyString | _ => " [" +:+ join " " flags +:+ "]" end in
  "  " +:+ ac_action_id a +:+ ": " +:+ enum_value (ac_kind a) +:+ " - "
    +:+ ac_description a +:+ suffix.
Definition explain_plan (plan : SetupPlan) : string :=
  join (String "010" EmptyString)
    (["SetupPlan " +:+ digest plan;
      "provider: " +:+ pl_provider_id plan;
      "deployment: " +:+ enum_value (pl_deployment_path plan);
      "goal: " +:+ enum_value (pl_goal plan);
      "actions:"] ++ (explain_action <$> pl_actions plan)).

(** ** The approval gate *)

(** [_validate_approval], setup/apply.py lines 131-167. *)
Definition _validate_approval (plan : SetupPlan) (approval : SetupApproval) : result unit :=
  require (bool_decide (av_plan_digest approval = digest plan))
    (SetupApprovalError "approved plan digest does not match the plan being applied");;
  require (negb (requires_privilege plan && negb (av_allow_privileged approval)))
    (SetupApprovalError "plan contains privileged actions but privilege was not approved");;
  require (negb (requires_network plan && negb (av_allow_network approval)))
    (SetupApprovalError "plan contains network actions but network access was not approved");;
  require (negb (requires_confirmation plan && negb (av_allow_confirmation_actions approval)))
    (SetupApprovalError "plan contains explicit-confirmation actions that were not approved");;
  foldR (λ _ action,
    require (negb (bool_decide (ac_kind action = SetupContracts.DOWNLOAD_MODEL)
                   && negb (av_allow_model_download approval)))
      (SetupApprovalError "model download action was not explicitly approved");;
    require (negb (bool_decide (ac_kind action = CONVERT_MODEL)
                   && negb (av_allow_model_convert approval)))
      (SetupApprovalError "model conversion action was not explicitly approved"))
    tt (pl_actions plan).

(** ** Rollback *)

(** The result of one rollback, setup/apply.py lines 180-203. *)
Definition rollback_result (action : SetupAction) (o : attempt ActionReceipt)
    : SetupActionResult :=
  match o with
  | Raised cls =>
      mk_SetupActionResult (ac_action_id action) (ac_kind action) ROLLBACK_FAILED false
        ("rollback failed: " +:+ cls) []
  | Returned receipt =>
      mk_SetupActionResult (ac_action_id action) (ac_kind action) ROLLED_BACK
        (rc_changed receipt) (rc_detail receipt) (rc_evidence receipt)
  end.

(** The loop of [_rollback] over the applied actions, the last one first,
    setup/apply.py lines 177-204. *)
Fixpoint rollback_loop (on_result : observer W) (reversed : list (SetupAction * ActionReceipt))
    (w : W) : W * list SetupActionResult :=
  match reversed with
  | [] => (w, [])
  | (action, receipt) :: rest =>
      if negb (ac_reversible action) || negb (rc_changed receipt)
      then rollback_loop on_result rest w
      else
        let '(w1, o) := rollback_action action receipt w in
        let res := rollback_result action o in
        let '(w2, results) := rollback_loop on_result rest (_emit_result on_result res w1) in
        (w2, res :: results)
  end.

(** [_rollback], setup/apply.py lines 170-204. *)
Definition _rollback (on_result : observer W) (applied : list (SetupAction * ActionReceipt))
    (w : W) : W * list SetupActionResult :=
  rollback_loop on_result (reverse applied) w.

(** ** Apply *)

(** A failing branch of [apply_plan]: the result is recorded and emitted, the applied actions
    are rolled back if that was asked for, setup/apply.py lines 231-250. *)
Definition stop (plan : SetupPlan) (rollback_on_failure : bool) (on_result : observer W)
    (results : list SetupActionResult) (applied : list (SetupAction * ActionReceipt))
    (res : SetupActionResult) (w : W) : W * SetupApplyResult :=
  let w := _emit_result on_result res w in
  let '(w, rolled) := if rollback_on_failure then _rollback on_result applied w else (w, []) in
  (w, {| sr_plan_digest := digest plan; sr_status := APPLY_FAILED;
         sr_actions := results ++ [res]; sr_rollback_actions := rolled |}).

(** The result of an action, by kind of branch, setup/apply.py lines 252-260. *)
Definition action_result (action : SetupAction) (status : SetupActionResultStatus)
    (changed : bool) (detail : string) (evidence : dict pyval) : SetupActionResult :=
  mk_SetupActionResult (ac_action_id action) (ac_kind action) status changed detail evidence.

(** The loop of [apply_plan], setup/apply.py lines 227-332. *)
Fixpoint apply_loop (plan : SetupPlan) (rollback_on_failure : bool) (on_result : observer W)
    (results : list SetupActionResult) (applied : list (SetupAction * ActionReceipt))
    (actions : list SetupAction) (w : W) : W * SetupApplyResult :=
  match actions with
  | [] => (w, {| sr_plan_digest := digest plan; sr_status := APPLY_SUCCEEDED;
                 sr_actions := results; sr_rollback_actions := [] |})
  | action :: rest =>
      let '(w, o) := inspect action w in
      match o with
      | Raised cls =>
          stop plan rollback_on_failure on_result results applied
            (action_result action ACTION_FAILED false ("inspection failed: " +:+ cls) []) w
      | Returned inspection =>
          match in_state inspection with
          | SATISFIED =>
              let res := action_result action SKIPPED false
                           (or_str (in_detail inspection) "already satisfied") [] in
              apply_loop plan rollback_on_failure on_result (results ++ [res]) applied rest
                (_emit_result on_result res w)
          | STATE_BLOCKED =>
              stop plan rollback_on_failure on_result results applied
                (action_result action ACTION_BLOCKED false
                   (or_str (in_detail inspection) "action is blocked") []) w
          | NEEDS_APPLY =>
              let '(w, o) := apply_action action w in
              match o with
              | Raised cls =>
                  stop plan rollback_on_failure on_result results applied
                    (action_result action ACTION_FAILED false ("apply failed: " +:+ cls) []) w
              | Returned receipt =>
                  let res := action_result action
                               (if rc_changed receipt then APPLIED else SKIPPED)
                               (rc_changed receipt) (rc_detail receipt) (rc_evidence receipt) in
                  apply_loop plan rollback_on_failure on_result (results ++ [res])
                    (if rc_changed receipt then applied ++ [(action, receipt)] else applied) rest
                    (_emit_result on_result res w)
              end
          end
      end
  end.

(** [apply_plan], setup/apply.py lines 207-332. *)
Definition apply_plan (plan : SetupPlan) (approval : SetupApproval) (rollback_on_failure : bool)
    (on_result : observer W) (w : W) : result (W * SetupApplyResult) :=
  _validate_approval plan approval;;
  Ok (apply_loop plan rollback_on_failure on_result [] [] (pl_actions plan) w).

End apply.
