(* ===== verification/SetupApplyProps.v ===== *)
(** * Applying a setup plan: what an apply does

    The approval gate admits exactly the reviewed plan; the calls an apply makes, in order;
    what a failed apply leaves behind; and that applying again changes nothing. *)

From S2P Require Import Prelude PyStr PyDict PyVal Json RuntimeContracts SetupContracts SetupApply.

(** ** Plans as their digest sees them *)

Definition frozen (d : dict pyval) : Prop := freeze_dict d = d.

Definition wf_SetupAction (a : SetupAction) : Prop :=
  nonblank (ac_action_id a) ∧ action_id_ok (ac_action_id a) = true ∧
  nonblank (ac_description a) ∧ frozen (ac_payload a).
Definition wf_SetupPlan (p : SetupPlan) : Prop :=
  nonblank (pl_provider_id p) ∧ nonblank (pl_schema_version p) ∧ pl_actions p ≠ [] ∧
  NoDup (ac_action_id <$> pl_actions p) ∧ Forall wf_SetupAction (pl_actions p) ∧
  frozen (pl_metadata p).

Lemma freeze_frozen d : frozen (freeze_dict d).
Proof.
  unfold frozen, freeze_dict, _freeze_json.
  pose proof (sort_keys_idemp (PDict d)) as H. cbn [sort_keys] in *. by injection H as ->.
Qed.

Lemma frozen_sorted d : frozen d → sort_keys (PDict d) = PDict d.
Proof. intros H. unfold frozen, freeze_dict, _freeze_json in H. cbn [sort_keys] in *. by rewrite H. Qed.

Lemma mk_SetupAction_wf i k d p b1 b2 b3 b4 a :
  mk_SetupAction i k d p b1 b2 b3 b4 = Ok a → wf_SetupAction a.
Proof.
  unfold mk_SetupAction. intros H. simp_res.
  repeat match goal with H : nonblank_str _ _ = _ |- _ => apply nonblank_str_Ok in H as [-> ?] end.
  split_and!; [done..|apply freeze_frozen].
Qed.

Lemma mk_SetupPlan_wf pr pa g l m v p :
  Forall wf_SetupAction l → mk_SetupPlan pr pa g l m v = Ok p → wf_SetupPlan p.
Proof.
  intros Hl. unfold mk_SetupPlan. intros H. simp_res.
  repeat match goal with H : nonblank_str _ _ = _ |- _ => apply nonblank_str_Ok in H as [-> ?] end.
  unfold all_distinct in *. bools. split_and!; cbn; try done; [by destruct l|apply freeze_frozen].
Qed.

Lemma enum_value_inj {A} `{LawfulEnum A} (a b : A) : enum_value a = enum_value b → a = b.
Proof. intros E. apply (f_equal enum_of) in E. rewrite !enum_complete in E. by injection E. Qed.

Lemma action_dict_inj a b : wf_SetupAction a → wf_SetupAction b →
  sort_keys (PDict (action_to_dict a)) = sort_keys (PDict (action_to_dict b)) → a = b.
Proof.
  intros (_ & _ & _ & Ha) (_ & _ & _ & Hb) H.
  apply frozen_sorted in Ha, Hb. unfold action_to_dict, thaw_json in H.
  remember (PDict (ac_payload a)) as pa eqn:Ea. remember (PDict (ac_payload b)) as pb eqn:Eb.
  cbn [sort_keys map fst snd] in H. rewrite Ha, Hb in H.
  vm_compute sort_items in H. injection H as H1 H2 H3 H4 H5 H6 H7 H8.
  assert (ac_kind a = ac_kind b) as Hk by by apply enum_value_inj.
  rewrite Ea, Eb in H4. injection H4 as H4. destruct a, b; cbn in *; by subst.
Qed.

Lemma actions_dict_inj l m :
  Forall wf_SetupAction l → Forall wf_SetupAction m →
  map sort_keys ((λ a, PDict (action_to_dict a)) <$> l) =
  map sort_keys ((λ a, PDict (action_to_dict a)) <$> m) → l = m.
Proof.
  intros Hl. revert m. induction Hl as [|a l Ha _ IH]; intros [|b m] Hm; try done.
  apply Forall_cons in Hm as [Hb Hm]. intros H.
  pose proof (f_equal (hd PNone) H) as H1. pose proof (f_equal (@tl _) H) as H2.
  f_equal; [by apply action_dict_inj|by apply IH].
Qed.

Lemma plan_dict_inj p q : wf_SetupPlan p → wf_SetupPlan q →
  sort_keys (PDict (plan_to_dict p)) = sort_keys (PDict (plan_to_dict q)) → p = q.
Proof.
  intros (_ & _ & _ & _ & Hap & Hmp) (_ & _ & _ & _ & Haq & Hmq) H.
  apply frozen_sorted in Hmp, Hmq. unfold plan_to_dict, thaw_json in H.
  remember (PDict (pl_metadata p)) as mp eqn:Ep. remember (PDict (pl_metadata q)) as mq eqn:Eq.
  remember ((λ a, PDict (action_to_dict a)) <$> pl_actions p) as lp eqn:Elp.
  remember ((λ a, PDict (action_to_dict a)) <$> pl_actions q) as lq eqn:Elq.
  cbn [sort_keys map fst snd] in H. rewrite Hmp, Hmq in H.
  remember (map sort_keys lp) as sp. remember (map sort_keys lq) as sq.
  vm_compute sort_items in H. injection H as H1 H2 H3 H4 H5 H6.
  assert (pl_deployment_path p = pl_deployment_path q) by by apply enum_value_inj.
  assert (pl_goal p = pl_goal q) by by apply enum_value_inj.
  assert (pl_actions p = pl_actions q) by (apply actions_dict_inj; [done..|congruence]).
  rewrite Ep, Eq in H4. injection H4 as H4. destruct p, q; cbn in *; by subst.
Qed.

(** ** The approval gate *)

Section apply.
Context {W : Type} {D : SetupActionDriver W} {DG : Digests}.

(** What an approval grants. *)
Definition approves (av : SetupApproval) (p : SetupPlan) : Prop :=
  av_plan_digest av = digest p ∧
  ∀ a, a ∈ pl_actions p →
    (ac_requires_privilege a = true → av_allow_privileged av = true) ∧
    (ac_requires_network a = true → av_allow_network av = true) ∧
    (ac_requires_confirmation a = true → av_allow_confirmation_actions av = true) ∧
    (ac_kind a = DOWNLOAD_MODEL → av_allow_model_download av = true) ∧
    (ac_kind a = CONVERT_MODEL → av_allow_model_convert av = true).

Lemma gate_flag {A} (f : A → bool) (l : list A) (b : bool) :
  negb (existsb f l && negb b) = true ↔ ∀ a, a ∈ l → f a = true → b = true.
Proof.
  rewrite negb_true_iff, andb_false_iff, negb_false_iff. split.
  - intros [H| ->]; [|done]. intros a Ha Hf. exfalso.
    apply not_true_iff_false in H. apply H, existsb_exists. exists a.
    by rewrite <-list_elem_of_In.
  - intros H. destruct (existsb f l) eqn:E; [|by left]. right.
    apply existsb_exists in E as (a & Ha%list_elem_of_In & Hf). eauto.
Qed.

Lemma gate_kind (k k' : SetupActionKind) (b : bool) :
  negb (bool_decide (k = k') && negb b) = true ↔ (k = k' → b = true).
Proof.
  rewrite negb_true_iff, andb_false_iff, negb_false_iff, bool_decide_eq_false.
  destruct (decide (k = k')); naive_solver.
Qed.

Lemma foldR_unit {A} (f : A → result unit) l :
  foldR (λ _ a, f a) tt l = Ok tt ↔ ∀ a, a ∈ l → f a = Ok tt.
Proof.
  induction l as [|a l IH]; cbn; [split; [by intros _ a ?%elem_of_nil|done]|]. split.
  - intros ([] & Ha & Hl)%bind_Ok b [-> |Hb]%elem_of_cons; [done|by apply IH].
  - intros H. rewrite (H a) by left. cbn. apply IH. intros b Hb. apply H. by right.
Qed.

Lemma validate_Ok p av : _validate_approval p av = Ok tt ↔ approves av p.
Proof.
  unfold _validate_approval. rewrite !guard_Ok, bool_decide_eq_true, foldR_unit.
  unfold requires_privilege, requires_network, requires_confirmation. rewrite !gate_flag.
  setoid_rewrite guard_Ok. setoid_rewrite require_Ok. setoid_rewrite gate_kind.
  unfold approves. naive_solver.
Qed.

Lemma validate_Err p av :
  ¬ approves av p → ∃ m, _validate_approval p av = Err (SetupApprovalError m).
Proof.
  intros H. destruct (_validate_approval p av) as [[]|e] eqn:E; [by apply validate_Ok in E|].
  clear H. unfold _validate_approval, require in E.
  repeat match type of E with context [if ?b then _ else _] =>
    destruct b; cbn [mbind result_bind] in E; [|injection E as <-; by eauto] end.
  revert E. induction (pl_actions p) as [|a l IH]; cbn; [done|].
  repeat match goal with |- context [if ?b then _ else _] =>
    destruct b; cbn [mbind result_bind]; [|intros [= <-]; by eauto] end. done.
Qed.

(** ** The calls an apply makes *)

Inductive call :=
  | CInspect (a : SetupAction) (o : attempt ActionInspection)
  | CApply (a : SetupAction) (o : attempt ActionReceipt)
  | CRollback (a : SetupAction) (rc : ActionReceipt) (o : attempt ActionReceipt)
  | CEmit (res : SetupActionResult).

(** The same driver and observer, with the calls recorded. *)
Definition logged : SetupActionDriver (W * list call) := {|
  inspect a w := let '(w1, o) := inspect a w.1 in ((w1, w.2 ++ [CInspect a o]), o);
  apply_action a w := let '(w1, o) := apply_action a w.1 in ((w1, w.2 ++ [CApply a o]), o);
  rollback_action a rc w :=
    let '(w1, o) := rollback_action a rc w.1 in ((w1, w.2 ++ [CRollback a rc o]), o);
|}.
Definition logged_observer (f : observer W) : observer (W * list call) :=
  Some (λ res w, (_emit_result f res w.1, w.2 ++ [CEmit res])).

Definition inspected (l : list call) : list SetupAction :=
  omap (λ c, if c is CInspect a _ then Some a else None) l.
Definition changes (l : list call) : list (SetupAction * ActionReceipt) :=
  omap (λ c, if c is CApply a (Returned rc) then if rc_changed rc then Some (a, rc) else None
             else None) l.
Definition rolled_back (l : list call) : list (SetupAction * ActionReceipt) :=
  omap (λ c, if c is CRollback a rc _ then Some (a, rc) else None) l.
Definition emitted (l : list call) : list SetupActionResult :=
  omap (λ c, if c is CEmit r then Some r else None) l.
Definition is_rollback (c : call) : bool := if c is CRollback _ _ _ then true else false.
Definition is_forward (c : call) : bool :=
  match c with CInspect _ _ | CApply _ _ => true | _ => false end.

(** What a rollback undoes of the applied actions, in which order. *)
Definition undone (applied : list (SetupAction * ActionReceipt)) :=
  filter (λ ar, ac_reversible ar.1 = true ∧ rc_changed ar.2 = true) (reverse applied).

(** The rollback loop under the recording driver. *)
Lemma rollback_trace obs l : ∀ w l0, ∃ bwd,
  rollback_loop (D:=logged) (logged_observer obs) l (w, l0) =
    ((rollback_loop obs l w).1, l0 ++ bwd, (rollback_loop obs l w).2) ∧
  rolled_back bwd = filter (λ ar, ac_reversible ar.1 = true ∧ rc_changed ar.2 = true) l ∧
  emitted bwd = (rollback_loop obs l w).2 ∧
  Forall (λ c, is_forward c = false) bwd.
Proof.
  induction l as [|[a rc] l IH]; intros w l0; cbn [rollback_loop].
  { exists []. by rewrite app_nil_r. }
  rewrite filter_cons. cbn [fst snd].
  destruct (ac_reversible a) eqn:Er; cbn [negb orb];
    [|rewrite decide_False by naive_solver; apply IH].
  destruct (rc_changed rc) eqn:Ec; cbn [negb];
    [|rewrite decide_False by naive_solver; apply IH].
  rewrite decide_True by done. cbn [rollback_action logged fst snd].
  destruct (rollback_action a rc w) as [w1 o]. cbn [fst snd logged_observer _emit_result].
  destruct (IH (_emit_result obs (rollback_result a o) w1)
              ((l0 ++ [CRollback a rc o]) ++ [CEmit (rollback_result a o)]))
    as (bwd & E & Hr & He & Hf).
  exists (CRollback a rc o :: CEmit (rollback_result a o) :: bwd).
  rewrite E. destruct (rollback_loop obs l _) as [w' rs]. cbn in *.
  rewrite <-!app_assoc. cbn. split; [done|].
  unfold rolled_back, emitted in *. cbn. split_and!; [by rewrite Hr|by rewrite He|by repeat constructor].
Qed.

Definition completed (r : SetupActionResult) : Prop :=
  ar_status r = SKIPPED ∨ ar_status r = APPLIED.

(** How an apply of [actions] ends, [applied] having been applied before. *)
Record apply_end (rb : bool) (applied : list (SetupAction * ActionReceipt))
    (actions : list SetupAction) (fwd bwd : list call) (status : SetupApplyStatus)
    (results rolled : list SetupActionResult) : Prop := {
  ae_forward : Forall (λ c, is_rollback c = false) fwd;
  ae_backward : Forall (λ c, is_forward c = false) bwd;
  ae_inspected : inspected fwd = take (length results) actions;
  ae_ids : (ar_action_id <$> results) = ac_action_id <$> take (length results) actions;
  ae_emitted : emitted fwd = results ∧ emitted bwd = rolled;
  ae_end :
    (status = APPLY_SUCCEEDED ∧ Forall completed results ∧ length results = length actions ∧
     bwd = []) ∨
    (status = APPLY_FAILED ∧
     (∃ rs r, results = rs ++ [r] ∧ Forall completed rs ∧ ¬ completed r) ∧
     rolled_back bwd = if rb then undone (applied ++ changes fwd) else []);
}.

(** [r] is what the run without records returns, and the recorded calls are [fwd ++ bwd]. *)
Definition traced (rb : bool) applied actions (results : list SetupActionResult) (l0 : list call)
    (run : W * SetupApplyResult) (lrun : (W * list call) * SetupApplyResult) : Prop :=
  ∃ fwd bwd new,
    lrun = (run.1, l0 ++ fwd ++ bwd, run.2) ∧ sr_actions run.2 = results ++ new ∧
    apply_end rb applied actions fwd bwd (sr_status run.2) new (sr_rollback_actions run.2).

Lemma stop_trace plan rb obs results applied a rest res w l0 l1 :
  inspected l1 = [a] → changes l1 = [] → emitted l1 = [] →
  Forall (λ c, is_rollback c = false) l1 →
  ar_action_id res = ac_action_id a → ¬ completed res →
  traced rb applied (a :: rest) results l0
    (stop plan rb obs results applied res w)
    (stop (D:=logged) plan rb (logged_observer obs) results applied res (w, l0 ++ l1)).
Proof.
  intros Hi Hc He Hf Hid Hn. unfold stop, _rollback.
  cbn [logged_observer _emit_result fst snd].
  assert (∀ bwd, Forall (λ c, is_forward c = false) bwd →
    rolled_back bwd = (if rb then undone applied else []) →
    apply_end rb applied (a :: rest) (l1 ++ [CEmit res]) bwd APPLY_FAILED [res] (emitted bwd)) as Hend.
  { intros bwd Hb Hr. split; cbn; [|done| | | |].
    - apply Forall_app; by repeat constructor.
    - unfold inspected in *. by rewrite omap_app, Hi.
    - by rewrite Hid.
    - unfold emitted in *. by rewrite omap_app, He.
    - right. split; [done|]. split; [by exists [], res|].
      unfold changes in *. by rewrite omap_app, Hc, !app_nil_r. }
  destruct rb.
  - destruct (rollback_trace obs (reverse applied) (_emit_result obs res w)
      ((l0 ++ l1) ++ [CEmit res])) as (bwd & E & Hr & Hem & Hb). rewrite E.
    destruct (rollback_loop obs (reverse applied) _) as [w' rs]. cbn [fst snd] in *.
    exists (l1 ++ [CEmit res]), bwd, [res]. cbn [sr_actions sr_status sr_rollback_actions].
    split; [by rewrite <-!app_assoc|]. split; [done|]. rewrite <-Hem. by apply Hend.
  - exists (l1 ++ [CEmit res]), [], [res]. cbn [fst snd sr_actions sr_status sr_rollback_actions].
    split; [by rewrite app_nil_r, <-!app_assoc|]. split; [done|]. by apply (Hend []).
Qed.

(** A turn that goes on adds its calls and its result in front. *)
Lemma turn_trace rb applied a rest results res l0 l1 run lrun :
  inspected l1 = [a] → emitted l1 = [res] → Forall (λ c, is_rollback c = false) l1 →
  ar_action_id res = ac_action_id a → completed res →
  traced rb (applied ++ changes l1) rest (results ++ [res]) (l0 ++ l1) run lrun →
  traced rb applied (a :: rest) results l0 run lrun.
Proof.
  intros Hi He Hf Hid Hc (fwd & bwd & new & -> & Hr & [Hfwd Hb Hins Hids [Hem Hem'] Hend]).
  exists (l1 ++ fwd), bwd, (res :: new). split; [by rewrite <-!app_assoc|].
  split; [by rewrite Hr, <-app_assoc|]. split; cbn.
  - by apply Forall_app.
  - done.
  - unfold inspected in *. by rewrite omap_app, Hi, Hins.
  - by rewrite Hid, Hids.
  - unfold emitted in *. by rewrite omap_app, He, Hem.
  - destruct Hend as [(-> & Hall & Hlen & ->)|(-> & (rs & r & -> & Hall & Hn) & Hu)]; [left|right].
    + split_and!; [done|by constructor|cbn; congruence|done].
    + split; [done|]. split; [exists (res :: rs), r; split_and!; [done|by constructor|done]|].
      rewrite Hu. unfold changes. by rewrite omap_app, app_assoc.
Qed.

Lemma loop_trace plan rb obs actions : ∀ results applied w l0,
  traced rb applied actions results l0
    (apply_loop plan rb obs results applied actions w)
    (apply_loop (D:=logged) plan rb (logged_observer obs) results applied actions (w, l0)).
Proof.
  induction actions as [|a rest IH]; intros results applied w l0; cbn [apply_loop].
  { exists [], [], []. rewrite !app_nil_r. cbn. split; [done|].
    split; [done|]. split; cbn; try done. by left. }
  cbn [inspect apply_action logged fst snd].
  destruct (inspect a w) as [w1 o]. destruct o as [i|cls].
  2: { apply stop_trace; try done; [by repeat constructor|]. by intros [|]. }
  destruct (in_state i).
  - set (res := action_result a SKIPPED _ _ _).
    apply (turn_trace _ _ _ _ _ res _ [CInspect a (Returned i); CEmit res]);
      [done|done|by repeat constructor|done|by left|].
    cbn [changes omap list_omap]. rewrite app_nil_r.
    cbn [logged_observer _emit_result fst snd]. rewrite <-!app_assoc. cbn. apply IH.
  - cbn [apply_action logged fst snd].
    destruct (apply_action a w1) as [w2 o]. destruct o as [rc|cls].
    2: { rewrite <-app_assoc. apply stop_trace; try done; [by repeat constructor|]. by intros [|]. }
    set (res := action_result a _ _ _ _).
    apply (turn_trace _ _ _ _ _ res _ [CInspect a (Returned i); CApply a (Returned rc); CEmit res]);
      [done|done|by repeat constructor|done| |].
    { unfold completed, res. destruct (rc_changed rc); cbn; auto. }
    cbn [changes omap list_omap]. 
    replace (applied ++ _) with (if rc_changed rc then applied ++ [(a, rc)] else applied)
      by (destruct (rc_changed rc); by rewrite ?app_nil_r).
    cbn [logged_observer _emit_result fst snd]. rewrite <-!app_assoc. cbn. apply IH.
  - apply stop_trace; try done; [by repeat constructor|]. by intros [|].
Qed.

(** ** What a failed apply leaves *)

Definition irreversible (p : SetupPlan) (id : string) : bool :=
  existsb (λ a, bool_decide (ac_action_id a = id) && negb (ac_reversible a)) (pl_actions p).
(** The results that own up to a change that stays: an action or a rollback that failed, and a
    change that is irreversible. *)
Definition left_over (p : SetupPlan) (x : SetupActionResult) : bool :=
  match ar_status x with
  | ACTION_FAILED | ROLLBACK_FAILED => true
  | APPLIED => irreversible p (ar_action_id x)
  | _ => false
  end.
Definition left_ids (p : SetupPlan) (l : list SetupActionResult) : gset string :=
  list_to_set (omap (λ x, if left_over p x then Some (ar_action_id x) else None) l).
Definition left_behind (p : SetupPlan) (r : SetupApplyResult) : gset string :=
  left_ids p (sr_actions r ++ sr_rollback_actions r).

Lemma left_ids_app p l l' : left_ids p (l ++ l') = left_ids p l ∪ left_ids p l'.
Proof. unfold left_ids. by rewrite omap_app, list_to_set_app_L. Qed.
Lemma left_ids_cons p x l : left_ids p (x :: l) = left_ids p [x] ∪ left_ids p l.
Proof. apply (left_ids_app p [x] l). Qed.
Lemma left_ids_one p x : left_over p x = true → left_ids p [x] = {[ar_action_id x]}.
Proof. intros Hx. unfold left_ids. cbn. rewrite Hx. cbn. set_solver. Qed.
Lemma irreversible_in p a : a ∈ pl_actions p → ac_reversible a = false → irreversible p (ac_action_id a) = true.
Proof.
  intros Ha Hr. unfold irreversible. apply existsb_exists. exists a.
  split; [by apply list_elem_of_In|]. by rewrite bool_decide_true, Hr.
Qed.

(** [R X w w']: the hosts differ in nothing but what the actions named in [X] may leave.  What
    is asked of a driver: an action and a rollback, raising or not, leave no more than the
    action's own; inspecting leaves nothing, nor does an action that reports no change; and a
    rollback that returns has undone its action, whatever others left meanwhile. *)
Class Restorable (R : gset string → relation W) := {
  rs_refl X w : R X w w;
  rs_mono X Y w w' : X ⊆ Y → R X w w' → R Y w w';
  rs_trans X w1 w2 w3 : R X w1 w2 → R X w2 w3 → R X w1 w3;
  rs_inspect a w : R ∅ w (inspect a w).1;
  rs_apply a w : R {[ac_action_id a]} w (apply_action a w).1;
  rs_kept a w rc : (apply_action a w).2 = Returned rc → rc_changed rc = false → R ∅ w (apply_action a w).1;
  rs_undo a rc w : R {[ac_action_id a]} w (rollback_action a rc w).1;
  rs_undone X a w rc w2 rc' : (apply_action a w).2 = Returned rc → rc_changed rc = true →
    ac_reversible a = true → ac_action_id a ∉ X → R X (apply_action a w).1 w2 →
    (rollback_action a rc w2).2 = Returned rc' → R X w (rollback_action a rc w2).1;
}.

Section restore.
Context (R : gset string → relation W) {RS : Restorable R} (obs : observer W) (p : SetupPlan).
Hypothesis Hobs : ∀ res w, R ∅ w (_emit_result obs res w).

Lemma rs_join X Y w1 w2 w3 : R X w1 w2 → R Y w2 w3 → R (X ∪ Y) w1 w3.
Proof. intros H1 H2. eapply rs_trans; (eapply rs_mono; [|eassumption]); set_solver. Qed.
Lemma rs_then X w1 w2 w3 : R X w1 w2 → R ∅ w2 w3 → R X w1 w3.
Proof. intros H1 H2. eapply rs_trans; [exact H1|]. eapply rs_mono; [|exact H2]. set_solver. Qed.

(** Rolling back from [w], or from what differs from it by [X], gives back [w0], up to [X], to
    [S] and to what the rollbacks fail to undo. *)
Definition undoes (S : gset string) (w0 : W) (applied : list (SetupAction * ActionReceipt)) (w : W) : Prop :=
  ∀ X w2, R X w w2 → R (X ∪ S ∪ left_ids p (_rollback obs applied w2).2) w0 (_rollback obs applied w2).1.

Lemma undoes_mono S S' w0 applied w : S ⊆ S' → undoes S w0 applied w → undoes S' w0 applied w.
Proof. intros HS H X w2 H2. eapply rs_mono; [|by apply H]. set_solver. Qed.
Lemma undoes_equiv S w0 applied w w1 : R ∅ w w1 → undoes S w0 applied w → undoes S w0 applied w1.
Proof. intros Hr H X w2 H2. apply H. eapply rs_mono; [|eapply rs_join; [exact Hr|exact H2]]. set_solver. Qed.

(** A rollback that returns undoes its action; one that raises reports it. *)
Lemma undone_step a rc w w2 X : (apply_action a w).2 = Returned rc → rc_changed rc = true → ac_reversible a = true →
  R X (apply_action a w).1 w2 →
  R (X ∪ left_ids p [rollback_result a (rollback_action a rc w2).2]) w (rollback_action a rc w2).1.
Proof.
  intros Ha Hc Hr H2.
  assert (R (X ∪ {[ac_action_id a]}) w (rollback_action a rc w2).1) as Hany.
  { eapply rs_mono; [|eapply rs_join; [eapply rs_join; [apply (rs_apply a w)|exact H2]|apply (rs_undo a rc)]]. set_solver. }
  destruct (rollback_action a rc w2) as [w3 o] eqn:E. cbn [fst snd] in *. destruct o as [rc'|cls].
  - destruct (decide (ac_action_id a ∈ X)) as [Hin|Hin].
    + eapply rs_mono; [|exact Hany]. set_solver.
    + pose proof (rs_undone X a w rc w2 rc' Ha Hc Hr Hin H2) as Hu. rewrite E in Hu.
      eapply rs_mono; [|by apply Hu]. set_solver.
  - by rewrite left_ids_one.
Qed.

Lemma undoes_applied S w0 applied a w rc :
  (apply_action a w).2 = Returned rc → undoes S w0 applied w →
  (rc_changed rc = true → ac_reversible a = false → ac_action_id a ∈ S) →
  undoes S w0 (if rc_changed rc then applied ++ [(a, rc)] else applied) (apply_action a w).1.
Proof.
  intros Ha H HS. destruct (rc_changed rc) eqn:Ec; [|eapply undoes_equiv; [by eapply rs_kept|exact H]].
  intros X w2 H2. unfold _rollback. rewrite reverse_snoc. cbn [rollback_loop]. rewrite Ec.
  destruct (ac_reversible a) eqn:Er; cbn [negb orb].
  - pose proof (undone_step a rc w w2 X Ha Ec Er H2) as Hu.
    destruct (rollback_action a rc w2) as [w3 o]. cbn [fst snd] in Hu.
    eapply rs_then in Hu; [|apply (Hobs (rollback_result a o))].
    apply H in Hu. unfold _rollback in Hu. destruct (rollback_loop obs (reverse applied) _) as [w4 rs].
    cbn [fst snd] in *. rewrite left_ids_cons. eapply rs_mono; [|exact Hu]. set_solver.
  - specialize (HS eq_refl eq_refl). eapply rs_mono; [|apply H, (rs_join _ _ _ _ _ (rs_apply a w) H2)].
    unfold _rollback. set_solver.
Qed.

Lemma stop_restores results applied res w0 w w1 :
  undoes (left_ids p results) w0 applied w → R (left_ids p [res]) w w1 →
  R (left_behind p (stop p true obs results applied res w1).2) w0 (stop p true obs results applied res w1).1.
Proof.
  intros H Hr. unfold stop, left_behind. pose proof (H _ _ (rs_then _ _ _ _ Hr (Hobs res w1))) as He.
  destruct (_rollback obs applied _) as [w2 rolled]. cbn [fst snd sr_actions sr_rollback_actions] in *.
  rewrite !left_ids_app. eapply rs_mono; [|exact He]. set_solver.
Qed.

Lemma loop_restores actions w0 : ∀ results applied w,
  (∀ a, a ∈ actions → a ∈ pl_actions p) → undoes (left_ids p results) w0 applied w →
  let '(w', r) := apply_loop p true obs results applied actions w in
  sr_status r = APPLY_FAILED → R (left_behind p r) w0 w'.
Proof.
  assert (∀ results applied res w w1, undoes (left_ids p results) w0 applied w → R (left_ids p [res]) w w1 →
    let '(w', r) := stop p true obs results applied res w1 in
    sr_status r = APPLY_FAILED → R (left_behind p r) w0 w') as Hstop.
  { intros results applied res w w1 H Hr. pose proof (stop_restores _ _ _ _ _ _ H Hr) as Hs.
    destruct (stop p true obs results applied res w1). done. }
  induction actions as [|a rest IH]; intros results applied w Hin H; cbn [apply_loop]; [done|].
  assert (∀ a', a' ∈ rest → a' ∈ pl_actions p) as Hrest by (intros a' ?; apply Hin; by right).
  assert (∀ results res, left_ids p results ⊆ left_ids p (results ++ [res])) as Hmore.
  { intros results' res. rewrite left_ids_app. set_solver. }
  pose proof (rs_inspect a w) as Hi. destruct (inspect a w) as [w1 o]. cbn [fst] in Hi.
  apply (undoes_equiv _ _ _ _ _ Hi) in H. destruct o as [i|cls]; [|by eapply Hstop; [exact H|apply rs_refl]].
  destruct (in_state i); [|..|by eapply Hstop; [exact H|apply rs_refl]].
  - apply IH; [done|]. eapply undoes_mono; [apply Hmore|]. by apply (undoes_equiv _ _ _ _ _ (Hobs _ w1)).
  - pose proof (λ S, undoes_applied S w0 applied a w1) as Hap.
    pose proof (rs_apply a w1) as Hr.
    destruct (apply_action a w1) as [w2 o]. cbn [fst snd] in *. destruct o as [rc|cls].
    + apply IH; [done|]. eapply undoes_equiv; [apply Hobs|].
      apply Hap; [done|eapply undoes_mono; [apply Hmore|done]|]. intros -> Hrev.
      rewrite left_ids_app, left_ids_one; [set_solver|]. cbn.
      apply irreversible_in; [apply Hin; by left|done].
    + eapply Hstop; [exact H|]. by rewrite left_ids_one.
Qed.
End restore.

(** ** An invariant of a run

    [A] holds while actions are applied, [B], which follows from it, once something failed;
    [Q] is what is known of a receipt. *)
Section phases.
Context (A B : W → Prop) (Q : SetupAction → ActionReceipt → Prop) (plan : SetupPlan) (obs : observer W).
Hypothesis HAB : ∀ w, A w → B w.
Hypothesis Hobs_A : ∀ res w, A w → A (_emit_result obs res w).
Hypothesis Hobs_B : ∀ res w, B w → B (_emit_result obs res w).
Hypothesis Hinspect : ∀ a w, a ∈ pl_actions plan → A w → A (inspect a w).1.
Hypothesis Happly : ∀ a w, a ∈ pl_actions plan → A w →
  (∃ i, (inspect a w).2 = Returned i ∧ in_state i = NEEDS_APPLY) →
  match apply_action a (inspect a w).1 with
  | (w', Returned rc) => A w' ∧ Q a rc
  | (w', Raised _) => B w'
  end.
Hypothesis Hrollback : ∀ a rc w, a ∈ pl_actions plan → Q a rc → B w → B (rollback_action a rc w).1.

Definition known (l : list (SetupAction * ActionReceipt)) : Prop :=
  ∀ a rc, (a, rc) ∈ l → a ∈ pl_actions plan ∧ Q a rc.

Lemma rollback_phase l : known l → ∀ w, B w → B (rollback_loop obs l w).1.
Proof.
  induction l as [|[a rc] l IH]; intros Hl w Hw; cbn [rollback_loop]; [done|].
  assert (known l) as Hk by (intros a' rc' ?; apply Hl; by right).
  destruct (negb (ac_reversible a) || negb (rc_changed rc)); [by apply IH|].
  destruct (Hl a rc) as [Ha Hq]; [by left|]. pose proof (Hrollback a rc w Ha Hq Hw) as Hr.
  destruct (rollback_action a rc w) as [w1 o]. cbn [fst] in Hr.
  apply (Hobs_B (rollback_result a o)), (IH Hk) in Hr. by destruct (rollback_loop obs l _).
Qed.

Lemma stop_phase rb results applied res w : known applied → B w → B (stop plan rb obs results applied res w).1.
Proof.
  intros Hk Hw. unfold stop. apply (Hobs_B res) in Hw. destruct rb; [|done]. unfold _rollback.
  assert (known (reverse applied)) as Hr by (intros a rc Ha; apply Hk; by rewrite elem_of_reverse in Ha).
  apply (rollback_phase _ Hr) in Hw. by destruct (rollback_loop obs _ _).
Qed.

Lemma loop_phase rb actions : ∀ results applied w,
  (∀ a, a ∈ actions → a ∈ pl_actions plan) → known applied → A w →
  B (apply_loop plan rb obs results applied actions w).1.
Proof.
  induction actions as [|a rest IH]; intros results applied w Hin Hk Hw; cbn [apply_loop]; [by apply HAB|].
  assert (a ∈ pl_actions plan) as Ha by (apply Hin; left).
  assert (∀ a', a' ∈ rest → a' ∈ pl_actions plan) as Hrest by (intros a' ?; apply Hin; by right).
  pose proof (Hinspect a w Ha Hw) as Hi. pose proof (Happly a w Ha Hw) as Hap.
  destruct (inspect a w) as [w1 o]. cbn [fst snd] in *.
  destruct o as [i|cls]; [|apply stop_phase; [done|by apply HAB]].
  destruct (in_state i) eqn:Ei; [|..|apply stop_phase; [done|by apply HAB]].
  - apply IH; [done|done|by apply Hobs_A].
  - specialize (Hap (ex_intro _ i (conj eq_refl Ei))).
    destruct (apply_action a w1) as [w2 [rc|cls]]; [|by apply stop_phase].
    destruct Hap as [Hw2 Hq]. apply IH; [done| |by apply Hobs_A].
    destruct (rc_changed rc); [|done].
    intros a' rc' [H'|H']%elem_of_app; [by apply Hk|]. apply list_elem_of_singleton in H'. by injection H' as -> ->.
Qed.
End phases.

(** The action is found satisfied. *)
Definition satisfied (a : SetupAction) (w : W) : Prop :=
  ∃ i, inspect a w = (w, Returned i) ∧ in_state i = SATISFIED.

(** What the driver interface asks of an implementation: inspecting changes nothing, what was
    applied is found satisfied, and applying one action of the plan leaves the others so. *)
Class Convergent (plan : SetupPlan) := {
  cv_inspect a w : (inspect a w).1 = w;
  cv_apply a w rc : a ∈ pl_actions plan → (apply_action a w).2 = Returned rc →
    satisfied a (apply_action a w).1;
  cv_stable a b w : a ∈ pl_actions plan → b ∈ pl_actions plan → satisfied b w →
    satisfied b (apply_action a w).1;
}.

Section converge.
Context (plan : SetupPlan) {CV : Convergent plan} (obs : observer W).
Hypothesis Hobs : ∀ res w, _emit_result obs res w = w.

Lemma loop_satisfies rb actions before : ∀ results applied w,
  (∀ a, a ∈ before ++ actions → a ∈ pl_actions plan) → (∀ a, a ∈ before → satisfied a w) →
  let '(w', r) := apply_loop plan rb obs results applied actions w in
  sr_status r = APPLY_SUCCEEDED → ∀ a, a ∈ before ++ actions → satisfied a w'.
Proof.
  assert (∀ results applied res w (P : W → Prop),
    let '(w', r) := stop plan rb obs results applied res w in
    sr_status r = APPLY_SUCCEEDED → P w') as Hstop.
  { intros results applied res w P. unfold stop. destruct rb; [|done].
    by destruct (_rollback obs applied (_emit_result obs res w)). }
  revert before. induction actions as [|a rest IH]; intros before results applied w Hin Hsat; cbn [apply_loop].
  { intros _ a. rewrite app_nil_r. apply Hsat. }
  pose proof (cv_inspect a w) as Hi. destruct (inspect a w) as [w1 o] eqn:Ei. cbn [fst] in Hi. subst w1.
  destruct o as [i|cls]; [|apply (Hstop _ _ _ _ (λ w', ∀ b, b ∈ before ++ a :: rest → satisfied b w'))].
  assert (before ++ a :: rest = (before ++ [a]) ++ rest) as E by by rewrite <-app_assoc.
  destruct (in_state i) eqn:Es; [| |apply (Hstop _ _ _ _ (λ w', ∀ b, b ∈ before ++ a :: rest → satisfied b w'))].
  - rewrite Hobs, E in *. apply IH; [done|]. intros b [Hb| ->%list_elem_of_singleton]%elem_of_app; [by apply Hsat|].
    by exists i.
  - assert (a ∈ pl_actions plan) as Ha by (apply Hin; set_solver).
    pose proof (cv_apply a w) as Hap. pose proof (λ b, cv_stable a b w Ha) as Hst.
    destruct (apply_action a w) as [w2 o]. cbn [fst snd] in *.
    destruct o as [rc|cls]; [|apply (Hstop _ _ _ _ (λ w', ∀ b, b ∈ before ++ a :: rest → satisfied b w'))].
    rewrite Hobs, E in *. apply IH; [done|].
    intros b [Hb| ->%list_elem_of_singleton]%elem_of_app; [|by eapply Hap].
    apply Hst; [apply Hin; set_solver|by apply Hsat].
Qed.

Lemma loop_skips rb actions : ∀ results applied w l0,
  (∀ a, a ∈ actions → satisfied a w) →
  ∃ new log,
    apply_loop (D:=logged) plan rb (logged_observer obs) results applied actions (w, l0) =
      ((w, l0 ++ log),
       {| sr_plan_digest := digest plan; sr_status := APPLY_SUCCEEDED;
          sr_actions := results ++ new; sr_rollback_actions := [] |}) ∧
    Forall (λ r, ar_status r = SKIPPED ∧ ar_changed r = false) new ∧
    Forall (λ c, ∀ a o, c ≠ CApply a o) log.
Proof.
  induction actions as [|a rest IH]; intros results applied w l0 Hsat; cbn [apply_loop].
  { exists [], []. by rewrite !app_nil_r. }
  destruct (Hsat a) as (i & Ei & Es); [left|]. cbn [inspect logged fst snd]. rewrite Ei, Es.
  set (res := action_result a SKIPPED _ _ _). cbn [logged_observer _emit_result fst snd]. rewrite Hobs.
  destruct (IH (results ++ [res]) applied w ((l0 ++ [CInspect a (Returned i)]) ++ [CEmit res]))
    as (new & log & E & Hn & Hl); [intros b Hb; apply Hsat; by right|].
  exists (res :: new), (CInspect a (Returned i) :: CEmit res :: log). 
  rewrite E, <-!app_assoc. split; [done|]. split; by repeat constructor.
Qed.
End converge.
End apply.
