(* ===== verification/SetupProps.v ===== *)
(** * Setup plans: the properties

    Round trips of plans and their digests, the approval gate, the calls of an apply, the
    restoration after a failure, and convergence. *)

From S2P Require Import Prelude PyStr PyDict PyVal Json RuntimeContracts SetupContracts SetupApply SetupApplyProps.

(** ** Round trips *)

Lemma mk_SetupAction_id a : wf_SetupAction a →
  mk_SetupAction (ac_action_id a) (ac_kind a) (ac_description a) (ac_payload a)
    (ac_requires_privilege a) (ac_requires_network a) (ac_requires_confirmation a)
    (ac_reversible a) = Ok a.
Proof.
  intros (H1 & H2 & H3 & H4). unfold mk_SetupAction.
  rewrite !nonblank_str_id by done. cbn [mbind result_bind]. rewrite H2, H4. by destruct a.
Qed.

Lemma action_roundtrip a : wf_SetupAction a → action_from_dict (PDict (action_to_dict a)) = Ok a.
Proof.
  intros H. unfold action_from_dict.
  change (py_item "action_id" _) with (Ok (PStr (ac_action_id a))).
  change (py_item "kind" _) with (Ok (PStr (enum_value (ac_kind a)))).
  change (py_item "description" _) with (Ok (PStr (ac_description a))).
  change (py_get "payload" _) with (Ok (PDict (ac_payload a))).
  change (py_get "requires_privilege" _) with (Ok (PBool (ac_requires_privilege a))).
  change (py_get "requires_network" _) with (Ok (PBool (ac_requires_network a))).
  change (py_get "requires_confirmation" _) with (Ok (PBool (ac_requires_confirmation a))).
  change (py_get "reversible" _) with (Ok (PBool (ac_reversible a))).
  cbn [mbind result_bind py_str]. rewrite enum_complete. cbn [mbind result_bind].
  rewrite Serde.dict_or_empty_id. cbn [mbind result_bind truthy]. by apply mk_SetupAction_id.
Qed.

Section digests.
Context {DG : Digests}.

Lemma mk_SetupPlan_id p : wf_SetupPlan p →
  mk_SetupPlan (pl_provider_id p) (pl_deployment_path p) (pl_goal p) (pl_actions p)
    (pl_metadata p) (pl_schema_version p) = Ok p.
Proof.
  intros (H1 & H2 & H3 & H4 & _ & H5). unfold mk_SetupPlan.
  rewrite !nonblank_str_id by done. cbn [mbind result_bind].
  destruct p as [pr pa g l m v]. cbn in *. unfold all_distinct. rewrite bool_decide_true by done.
  unfold frozen in H5. rewrite H5. by destruct l.
Qed.

Lemma actions_roundtrip l : Forall wf_SetupAction l →
  mapR action_from_dict ((λ a, PDict (action_to_dict a)) <$> l) = Ok l.
Proof.
  induction 1 as [|a l Ha _ IH]; [done|]. cbn [fmap list_fmap mapR].
  by rewrite action_roundtrip, IH.
Qed.

Lemma plan_parse p extra : wf_SetupPlan p →
  plan_from_dict (plan_to_dict p ++ extra) =
  match get "digest" extra with
  | PNone => Ok p
  | supplied => s ← py_str supplied;
      require (bool_decide (s = digest p)) (ValueError "SetupPlan digest does not match content");;
      Ok p
  end.
Proof.
  intros H. unfold plan_from_dict.
  change (get_default "schema_version" _ _) with (PStr (pl_schema_version p)).
  change (item "provider_id" _) with (Ok (PStr (pl_provider_id p))).
  change (item "deployment_path" _) with (Ok (PStr (enum_value (pl_deployment_path p)))).
  change (item "goal" _) with (Ok (PStr (enum_value (pl_goal p)))).
  change (get "actions" _) with (PList ((λ a, PDict (action_to_dict a)) <$> pl_actions p)).
  change (get "metadata" _) with (PDict (pl_metadata p)).
  change (get "digest" (_ ++ extra)) with (get "digest" extra).
  cbn [mbind result_bind py_str]. rewrite !enum_complete. cbn [mbind result_bind].
  assert (Serde.iter_or_empty (PList ((λ a, PDict (action_to_dict a)) <$> pl_actions p))
          = Ok ((λ a, PDict (action_to_dict a)) <$> pl_actions p)) as -> by by destruct (pl_actions p).
  cbn [mbind result_bind]. destruct H as (? & ? & ? & ? & Ha & ?).
  rewrite actions_roundtrip by done. cbn [mbind result_bind].
  rewrite Serde.dict_or_empty_id. cbn [mbind result_bind]. by rewrite mk_SetupPlan_id.
Qed.

(** A setup plan survives its JSON form.  Parsing what [to_dict] made of a
    plan gives the plan back, with or without the digest it was reviewed under; a digest
    that is not the plan's is refused, whatever it is. *)
Theorem plan_roundtrip p : wf_SetupPlan p →
  plan_from_dict (plan_to_dict p) = Ok p ∧
  ∀ d, plan_from_dict (plan_to_dict p ++ [("digest", PStr d)]) =
       if decide (d = digest p) then Ok p
       else Err (ValueError "SetupPlan digest does not match content").
Proof.
  intros H. split.
  - rewrite <-(app_nil_r (plan_to_dict p)). by rewrite plan_parse.
  - intros d. rewrite plan_parse by done. change (get "digest" _) with (PStr d).
    cbn [mbind result_bind py_str]. unfold require.
    destruct (decide (d = digest p)) as [->|Hd]; [by rewrite bool_decide_true|by rewrite bool_decide_false].
Qed.
End digests.

(** ** Properties of an apply *)

Section properties.
Context {W : Type} {D : SetupActionDriver W} {DG : Digests}.

(** Property C19: the approval gate is exact and binds one plan.  [apply_plan] goes ahead if
    and only if the approval names the plan's digest and grants every kind of permission an
    action of the plan asks for, and raises [SetupApprovalError] before any call of the
    driver otherwise; and one approval authorizes two different plans only if they exhibit
    a collision of SHA-256. *)
Theorem approval_exact p av rb obs w `{!FloatRepr float_repr} : wf_SetupPlan p →
  (approves av p → ∃ w' r, apply_plan p av rb obs w = Ok (w', r)) ∧
  (¬ approves av p → ∃ m, apply_plan p av rb obs w = Err (SetupApprovalError m)) ∧
  (∀ q, wf_SetupPlan q → approves av p → approves av q →
     p = q ∨ (to_json p ≠ to_json q ∧ sha256_hex (to_json p) = sha256_hex (to_json q))).
Proof.
  intros Hp. unfold apply_plan. split_and!.
  - intros Ha%validate_Ok. rewrite Ha. cbn [mbind result_bind].
    destruct (apply_loop _ _ _ _ _ _ w) as [w' r]. eauto.
  - intros (m & ->)%validate_Err. by exists m.
  - intros q Hq [Hdp _] [Hdq _]. destruct (decide (to_json p = to_json q)) as [E|E].
    + left. unfold to_json in E. by apply plan_dict_inj, (dumps_inj float_repr).
    + right. split; [done|]. unfold digest in *. congruence.
Qed.

(** What an apply calls.  With the calls recorded, an approved apply first
    inspects the actions one by one in the order of the plan, one result each, and applies
    or skips; it succeeds when every action was skipped or applied, and then never rolls
    back; otherwise it stops at the first action that failed or is blocked, and the
    rollback then calls, if it was asked for, exactly the reversible actions that reported a
    change, the last one first, each with its own receipt.  The observer sees every result,
    in order, and the results are the ones returned. *)
Theorem apply_calls p av rb obs w w' r :
  apply_plan p av rb obs w = Ok (w', r) →
  ∃ fwd bwd,
    apply_plan (D:=logged) p av rb (logged_observer obs) (w, []) = Ok ((w', fwd ++ bwd), r) ∧
    apply_end rb [] (pl_actions p) fwd bwd (sr_status r) (sr_actions r) (sr_rollback_actions r).
Proof.
  unfold apply_plan. destruct (_validate_approval p av) as [[]|e]; [|done].
  cbn [mbind result_bind]. intros [= E].
  destruct (loop_trace p rb obs (pl_actions p) [] [] w []) as (fwd & bwd & new & H & Hn & He).
  exists fwd, bwd. rewrite H, E in *. cbn [fst snd app] in *. rewrite Hn in *. done.
Qed.

(** Property C20: a failed apply leaves only what its report shows.  For a driver whose
    inspections, and actions that report no change, leave nothing, whose actions and rollbacks
    leave no more than their own, even when they raise, and whose rollback, when it returns, has
    undone its action ([Restorable]), and an observer that changes nothing that matters: an
    apply that fails with rollback leaves the host as it was, but for what may be left by the
    action that failed, by a rollback that failed, and by the irreversible actions that were
    applied, each of which has a result that says so ([left_behind]).  Everything else that was
    applied is undone: the rollbacks run in the order in which each receipt is still the right
    one. *)
Theorem failed_apply_restores (R : gset string → relation W) `{!Restorable R} p av obs w w' r :
  (∀ res w1, R ∅ w1 (_emit_result obs res w1)) →
  apply_plan p av true obs w = Ok (w', r) → succeeded r = false → R (left_behind p r) w w'.
Proof.
  intros Hobs. unfold apply_plan. destruct (_validate_approval p av) as [[]|e]; [|done].
  cbn [mbind result_bind]. intros [= E] Hs.
  pose proof (loop_restores R obs p Hobs (pl_actions p) w [] [] w) as H. rewrite E in H.
  apply H; [done| |unfold succeeded in Hs; bools; by destruct (sr_status r)].
  intros X w2 H2. eapply (rs_mono X); [|done]. set_solver.
Qed.

(** Applying converges.  For a driver that inspects without changing, finds
    satisfied what it applied, and does not undo one action by another, applying a plan
    again after a success calls no apply at all, skips every action, succeeds, and leaves
    the host untouched. *)
Theorem apply_converges p av rb obs w w' r `{!Convergent p} :
  (∀ res w1, _emit_result obs res w1 = w1) →
  apply_plan p av rb obs w = Ok (w', r) → succeeded r = true →
  ∃ r' log,
    apply_plan (D:=logged) p av rb (logged_observer obs) (w', []) = Ok ((w', log), r') ∧
    succeeded r' = true ∧
    Forall (λ x, ar_status x = SKIPPED ∧ ar_changed x = false) (sr_actions r') ∧
    Forall (λ c, ∀ a o, c ≠ CApply a o) log.
Proof.
  intros Hobs. unfold apply_plan. destruct (_validate_approval p av) as [[]|e]; [|done].
  cbn [mbind result_bind]. intros [= E] Hs. unfold succeeded in Hs. bools.
  pose proof (loop_satisfies p obs Hobs rb (pl_actions p) [] [] [] w) as H. rewrite E in H.
  destruct (loop_skips p obs Hobs rb (pl_actions p) [] [] w' []) as (new & log & E' & Hn & Hl).
  { apply H; [done|by intros a ?%elem_of_nil|done]. }
  rewrite E'. eexists _, log. split; [done|]. by split_and!.
Qed.
End properties.

(** ** A small host

    The host is the set of the actions it has; the action ["03-preflight"] leaves a mark and
    always fails. *)

Definition host := gset string.
#[export] Instance host_driver : SetupActionDriver host := {
  inspect a w :=
    (w, Returned (mk_ActionInspection
                    (if ac_reversible a && negb (bool_decide (ac_action_id a ∈ w))
                     then NEEDS_APPLY
                     else if bool_decide (ac_kind a = PREFLIGHT) then NEEDS_APPLY
                     else SATISFIED) EmptyString));
  apply_action a w :=
    if bool_decide (ac_kind a = PREFLIGHT) then ({[ac_action_id a]} ∪ w, Raised "RuntimeError")
    else if ac_reversible a
    then ({[ac_action_id a]} ∪ w,
          Returned (mk_ActionReceipt (negb (bool_decide (ac_action_id a ∈ w))) EmptyString [] []))
    else (w, Returned (mk_ActionReceipt true EmptyString [] []));
  rollback_action a rc w :=
    (w ∖ {[ac_action_id a]}, Returned (mk_ActionReceipt true EmptyString [] []));
}.

(** Hosts that differ in no action but those of [X]. *)
Definition but_for (X : gset string) (w w' : host) : Prop := ∀ id, id ∉ X → id ∈ w ↔ id ∈ w'.
#[export] Instance host_restorable : Restorable (D:=host_driver) but_for.
Proof.
  split; unfold but_for; cbn.
  - done.
  - intros X Y w w' HX H id Hid. apply H. set_solver.
  - intros X w1 w2 w3 H1 H2 id Hid. by rewrite H1, H2.
  - done.
  - intros a w id Hid. repeat case_match; cbn; set_solver.
  - intros a w rc. destruct (bool_decide (ac_kind a = PREFLIGHT)); cbn; [done|].
    destruct (ac_reversible a); cbn; [|by intros [= <-]]. intros [= <-] H id _. cbn in H. bools. set_solver.
  - intros a rc w id Hid. set_solver.
  - intros X a w rc w2 rc'. destruct (bool_decide (ac_kind a = PREFLIGHT)); cbn; [done|].
    destruct (ac_reversible a); cbn; [|done]. intros [= <-] H _ Ha H2 _ id Hid. cbn in H. bools.
    specialize (H2 id Hid). set_solver.
Qed.

Definition example_action (id : string) (kind : SetupActionKind) : SetupAction :=
  {| ac_action_id := id; ac_kind := kind; ac_description := "step"; ac_payload := [];
     ac_requires_privilege := true; ac_requires_network := false;
     ac_requires_confirmation := false; ac_reversible := true |}.
Definition example_plan (last : SetupActionKind) : SetupPlan :=
  {| pl_provider_id := "ollama"; pl_deployment_path := SYSTEMD; pl_goal := ACTIVATE;
     pl_actions := [example_action "01-ensure-directory" ENSURE_DIRECTORY;
                    example_action "02-render-config" RENDER_CONFIG;
                    example_action "03-preflight" last];
     pl_metadata := [("gpu_count", PInt 1)]; pl_schema_version := "v1" |}.

(** Digests that keep the text: a hash without collisions. *)
#[export] Instance example_digests : Digests := {
  float_repr := exact_repr; sha256_hex s := s }.
Definition example_approval (p : SetupPlan) : SetupApproval :=
  {| av_plan_digest := digest p; av_allow_privileged := true; av_allow_network := false;
     av_allow_model_download := false; av_allow_model_convert := false;
     av_allow_confirmation_actions := false |}.

Lemma example_plan_wf k : wf_SetupPlan (example_plan k).
Proof.
  split_and!; try vm_decide; try done.
  repeat constructor; vm_decide.
Qed.

#[export] Instance example_convergent : Convergent (example_plan RUNTIME_START).
Proof.
  assert (∀ a, a ∈ pl_actions (example_plan RUNTIME_START) →
    ac_reversible a = true ∧ bool_decide (ac_kind a = PREFLIGHT) = false) as Hp.
  { intros a Ha. cbn in Ha. repeat (apply elem_of_cons in Ha as [->|Ha]; [done|]).
    by apply elem_of_nil in Ha. }
  split; cbn.
  - done.
  - intros a w rc [Hr Hk]%Hp _. rewrite Hr, Hk. eexists. split; [done|]. cbn.
    rewrite Hr, Hk. by rewrite bool_decide_true by set_solver.
  - intros a b w [Hr Hk]%Hp [Hr' Hk']%Hp (i & [= <-] & Hs). rewrite Hr, Hk. cbn.
    eexists. split; [done|]. cbn in *. rewrite Hr', Hk' in *. cbn in *.
    destruct (bool_decide (ac_action_id b ∈ w)) eqn:E; [|done]. bools.
    by rewrite bool_decide_true by set_solver.
Qed.

(** ** Witnesses *)

Lemma plan_roundtrip_witness :
  plan_from_dict (plan_to_dict (example_plan PREFLIGHT)) = Ok (example_plan PREFLIGHT) ∧
  is_ok (plan_from_dict (plan_to_dict (example_plan PREFLIGHT) ++ [("digest", PStr "0")])) = false.
Proof.
  destruct (plan_roundtrip (example_plan PREFLIGHT) (example_plan_wf PREFLIGHT)) as [H1 H2].
  split; [exact H1|]. rewrite (H2 "0"). vm_compute. reflexivity.
Defined.

Lemma approval_exact_witness :
  (∃ m, apply_plan (W:=host) (example_plan PREFLIGHT)
          {| av_plan_digest := digest (example_plan PREFLIGHT); av_allow_privileged := false;
             av_allow_network := true; av_allow_model_download := true;
             av_allow_model_convert := true; av_allow_confirmation_actions := true |}
          true None ∅ = Err (SetupApprovalError m)).
Proof.
  pose proof (approval_exact (W:=host) (example_plan PREFLIGHT)
    {| av_plan_digest := digest (example_plan PREFLIGHT); av_allow_privileged := false;
       av_allow_network := true; av_allow_model_download := true;
       av_allow_model_convert := true; av_allow_confirmation_actions := true |}
    true None ∅ (FloatRepr0 := exact_repr_lawful) (example_plan_wf PREFLIGHT)) as (_ & H & _).
  apply H. intros [_ Ha].
  destruct (Ha (example_action "01-ensure-directory" ENSURE_DIRECTORY) (list_elem_of_here _ _)) as [Hpr _].
  discriminate (Hpr eq_refl).
Defined.

Definition failed_run := apply_loop (W:=host) (example_plan PREFLIGHT) true None [] []
  (pl_actions (example_plan PREFLIGHT)) {["other"]}.

Lemma apply_calls_witness :
  ∃ fwd bwd,
    apply_plan (D:=logged) (example_plan PREFLIGHT) (example_approval (example_plan PREFLIGHT))
      true (logged_observer None) ({["other"]}, []) = Ok ((failed_run.1, fwd ++ bwd), failed_run.2) ∧
    apply_end true [] (pl_actions (example_plan PREFLIGHT)) fwd bwd (sr_status failed_run.2)
      (sr_actions failed_run.2) (sr_rollback_actions failed_run.2).
Proof.
  apply (apply_calls (W:=host) (example_plan PREFLIGHT)
           (example_approval (example_plan PREFLIGHT)) true None {["other"]}).
  vm_compute. reflexivity.
Defined.

Lemma failed_apply_restores_witness :
  sr_status failed_run.2 = APPLY_FAILED ∧ left_behind (example_plan PREFLIGHT) failed_run.2 = {["03-preflight"]} ∧
  failed_run.1 = {["03-preflight"; "other"]} ∧ but_for {["03-preflight"]} {["other"]} failed_run.1.
Proof.
  split; [vm_compute; reflexivity|]. split; [vm_decide|]. split; [vm_decide|].
  apply (failed_apply_restores (W:=host) but_for (example_plan PREFLIGHT)
           (example_approval (example_plan PREFLIGHT)) None {["other"]} failed_run.1 failed_run.2).
  - done.
  - vm_compute. reflexivity.
  - vm_compute. reflexivity.
Defined.

Definition good_run := apply_loop (W:=host) (example_plan RUNTIME_START) true None [] []
  (pl_actions (example_plan RUNTIME_START)) ∅.

Lemma apply_converges_witness :
  ∃ r' log,
    apply_plan (D:=logged) (example_plan RUNTIME_START)
      (example_approval (example_plan RUNTIME_START)) true (logged_observer None)
      (good_run.1, []) = Ok ((good_run.1, log), r') ∧
    succeeded r' = true ∧
    Forall (λ x, ar_status x = SKIPPED ∧ ar_changed x = false) (sr_actions r') ∧
    Forall (λ c, ∀ a o, c ≠ CApply a o) log.
Proof.
  apply (apply_converges (W:=host) (example_plan RUNTIME_START)
           (example_approval (example_plan RUNTIME_START)) true None ∅ good_run.1 good_run.2).
  - reflexivity.
  - vm_compute. reflexivity.
  - vm_compute. reflexivity.
Defined.
