(* ===== verification/SetupPlannerProps.v ===== *)
(** * Planning a setup: what a plan contains

    An activation plan is the list of stages its inputs call for, in a fixed order, with
    distinct identifiers and the permissions each kind of action needs; and planning
    succeeds exactly on an explicit, compatible choice. *)

From S2P Require Import Prelude PyStr PyDict PyVal Contracts Json RuntimeContracts Planner Serde Deployment SetupContracts SetupPlanner SetupApplyProps.

(** ** Identifiers *)

(** [s] has no space. *)
Abbreviation nospace := (all_chars (λ c, negb (is_space c))).

Lemma all_chars_dashed (p : ascii → bool) s :
  p "-"%char = true → all_chars p s = true → all_chars p (dashed s) = true.
Proof.
  intros Hp. induction s as [|c s IH]; [done|]. cbn. rewrite !andb_true_iff. intros [Hc Hs].
  split; [|by apply IH]. by case_bool_decide.
Qed.

Lemma str_of_N_digits n : all_chars is_digit (str_of_N n) = true.
Proof. apply string_of_uint_digits. Qed.

Lemma two_digits_digits n : all_chars is_digit (two_digits n) = true.
Proof. unfold two_digits. case_match; cbn; by rewrite str_of_N_digits. Qed.
Lemma two_digits_nonempty n : two_digits n ≠ EmptyString.
Proof. unfold two_digits. case_match; [done|apply str_of_N_nonempty]. Qed.

Lemma kind_chars (k : SetupActionKind) :
  all_chars action_id_char (dashed (enum_value k)) = true ∧
  nospace (dashed (enum_value k)) = true.
Proof. by destruct k. Qed.

Lemma digit_id c : is_digit c = true → action_id_start c = true.
Proof. revert c. by intros [[] [] [] [] [] [] [] []]. Qed.

Lemma action_id_valid n k : nonblank (action_id n k) ∧ action_id_ok (action_id n k) = true.
Proof.
  unfold action_id. pose proof (two_digits_digits n) as Hd.
  destruct (kind_chars k) as [Hk Hk'].
  assert (nospace (two_digits n) = true) as Hn by by apply (all_chars_impl is_digit), Hd; apply digit_nospace.
  assert (nospace (two_digits n +:+ "-" +:+ dashed (enum_value k)) = true) as Hs
    by by rewrite !all_chars_app, Hk', Hn.
  destruct (two_digits n) as [|c t] eqn:E; [by apply two_digits_nonempty in E|].
  cbn in Hd. apply andb_true_iff in Hd as [Hc Ht]. split.
  - split; [by apply nospace_strip|by rewrite append_cons].
  - rewrite append_cons. cbn [action_id_ok]. rewrite (digit_id c Hc), !all_chars_app, Hk.
    rewrite (all_chars_impl is_digit action_id_char t); [done| |done].
    intros x Hx. unfold action_id_char. by rewrite digit_id.
Qed.

(** The index can be read off an identifier. *)
Lemma two_digits_value n : digits_value (two_digits n) = Some (N.of_nat n).
Proof.
  unfold two_digits. case_match; [|apply digits_value_str].
  pose proof (digits_value_str (N.of_nat n)) as Hv. unfold digits_value in *. cbn.
  destruct (DecimalString.NilEmpty.uint_of_string _) as [d|]; [|done]. cbn in *. by injection Hv as <-.
Qed.

Lemma action_id_inj n m k k' : action_id n k = action_id m k' → n = m.
Proof.
  assert (∀ n k, partition_char "-" (action_id n k) = (two_digits n, true, dashed (enum_value k))) as Hp.
  { clear. intros n k. unfold action_id. rewrite append_cons, append_nil_l.
    apply partition_char_found. eapply (all_chars_impl is_digit); [|apply two_digits_digits].
    intros c. by apply digit_not. }
  intros H. apply (f_equal (partition_char "-")) in H. rewrite !Hp in H. injection H as H _.
  apply (f_equal digits_value) in H. rewrite !two_digits_value in H. injection H as H. lia.
Qed.

(** ** Stages *)

(** The actions [l] is numbered and well formed from position [n]. *)
Fixpoint numbered (n : nat) (l : list SetupAction) : Prop :=
  match l with
  | [] => True
  | a :: l' => ac_action_id a = action_id (n + 1) (ac_kind a) ∧ wf_SetupAction a ∧ numbered (S n) l'
  end.

Lemma numbered_app n l m : numbered n (l ++ m) ↔ numbered n l ∧ numbered (n + length l) m.
Proof.
  revert n. induction l as [|a l IH]; intros n; cbn.
  - rewrite Nat.add_0_r. tauto.
  - rewrite IH. replace (S n + length l)%nat with (n + S (length l))%nat by lia. tauto.
Qed.

Lemma numbered_wf n l : numbered n l → Forall wf_SetupAction l.
Proof. revert n. induction l as [|a l IH]; intros n; cbn; [done|]. intros (_ & ? & ?). constructor; eauto. Qed.

Lemma numbered_ids n l a : numbered n l → a ∈ l → ∃ m k, (n < m)%nat ∧ ac_action_id a = action_id m k.
Proof.
  revert n. induction l as [|b l IH]; intros n; cbn; [by intros _ ?%elem_of_nil|].
  intros (Hb & _ & Hl) [->|Ha]%elem_of_cons; [exists (n + 1)%nat; eexists; split; [lia|done]|].
  destruct (IH _ Hl Ha) as (m & k & ? & ?). exists m, k. split; [lia|done].
Qed.

Lemma numbered_distinct n l : numbered n l → NoDup (ac_action_id <$> l).
Proof.
  revert n. induction l as [|a l IH]; intros n; cbn; [constructor|].
  intros (Ha & _ & Hl). constructor; [|by eapply IH].
  intros (b & Hab & Hb)%list_elem_of_fmap. destruct (numbered_ids _ _ _ Hl Hb) as (m & k & Hm & Hk).
  rewrite Hab, Hk in Ha. apply action_id_inj in Ha. lia.
Qed.

(** What distinguishes an action for the gate: its kind and what it asks for. *)
Definition shape (a : SetupAction) : SetupActionKind * flags :=
  (ac_kind a, {| fl_privilege := ac_requires_privilege a; fl_network := ac_requires_network a;
                 fl_confirmation := ac_requires_confirmation a; fl_reversible := ac_reversible a |}).

(** A stage appends numbered actions of the given shapes. *)
Definition stage (f : list SetupAction → result (list SetupAction))
    (shapes : list (SetupActionKind * flags)) : Prop :=
  ∀ acc, numbered 0 acc → ∃ new,
    f acc = Ok (acc ++ new) ∧ numbered 0 (acc ++ new) ∧ (shape <$> new) = shapes.

Lemma stage_nil : stage (λ acc, Ok acc) [].
Proof. intros acc H. exists []. by rewrite app_nil_r. Qed.

Lemma stage_add k d p f : nonblank (strip d) → stage (add k d p f) [(k, f)].
Proof.
  intros Hd acc H. unfold add, mk_SetupAction.
  destruct (action_id_valid (length acc + 1) k) as [Hid Hok].
  rewrite (nonblank_str_id (action_id _ _)) by done. cbn [mbind result_bind]. rewrite Hok.
  assert (nonblank_str d "description" = Ok (strip d)) as ->.
  { apply nonblank_str_Ok. by split. }
  cbn [require mbind result_bind]. eexists. split; [done|]. split; [|by destruct f].
  apply numbered_app. split; [done|]. cbn. split; [done|]. split; [|done].
  split_and!; [done|done|done|apply freeze_frozen].
Qed.

Lemma stage_bind f g s t : stage f s → stage g t → stage (λ acc, acc ← f acc; g acc) (s ++ t).
Proof.
  intros Hf Hg acc H. destruct (Hf acc H) as (l & E & Hl & Hs). rewrite E. cbn [mbind result_bind].
  destruct (Hg _ Hl) as (m & E' & Hm & Ht). exists (l ++ m). rewrite E', app_assoc.
  split; [done|]. split; [done|]. by rewrite fmap_app, Hs, Ht.
Qed.

Lemma stage_fold {A} (f : list SetupAction → A → result (list SetupAction)) sh (l : list A) :
  (∀ x, x ∈ l → stage (λ acc, f acc x) [sh]) →
  stage (λ acc, foldR f acc l) (replicate (length l) sh).
Proof.
  induction l as [|x l IH]; intros H; [apply stage_nil|]. cbn [foldR length replicate].
  apply (stage_bind _ _ [sh]); [apply H; left|]. apply IH. intros y Hy. apply H. by right.
Qed.

Lemma strip_nonblank c s : is_space c = false → nonblank (strip (String c s)).
Proof.
  intros Hc. split; [apply strip_stripped|]. unfold strip. rewrite lstrip_id by done.
  rewrite rstrip_cons, Hc. by case_match.
Qed.
#[local] Hint Extern 1 (nonblank (strip _)) => (apply strip_nonblank; reflexivity) : core.

(** ** The shapes of an activation *)

Definition model_shape (p : ModelPreparationPolicy) : SetupActionKind * flags :=
  match p with
  | REFERENCE_ONLY => (VERIFY_MODEL_REFERENCE, no_flags)
  | DOWNLOAD => (DOWNLOAD_MODEL, {| fl_privilege := false; fl_network := true;
                                    fl_confirmation := true; fl_reversible := false |})
  | CONVERT => (CONVERT_MODEL, {| fl_privilege := false; fl_network := false;
                                  fl_confirmation := true; fl_reversible := false |})
  end.

(** Directories, packages, bridge, configuration, model, Worker, preflight, start, health. *)
Definition activation_shapes (intent : RuntimeSetupIntent) (bridge reconcile : bool)
    : list (SetupActionKind * flags) :=
  let priv := si_requires_privilege intent in
  replicate 3 (ENSURE_DIRECTORY, privileged priv)
  ++ replicate (length (si_package_references intent))
       (ENSURE_PACKAGE, {| fl_privilege := priv; fl_network := true;
                           fl_confirmation := false; fl_reversible := false |})
  ++ (if bridge then [(ENSURE_NVIDIA_DRIVER_BRIDGE, reversible_if true)] else [])
  ++ (match si_configuration intent with [] => [] | _ => [(RENDER_CONFIG, reversible_if priv)] end)
  ++ [model_shape (si_model_preparation intent)]
  ++ (if reconcile then [(WORKER_STOP, reversible_if true);
                         (RECONCILE_WORKER_EXECUTION, reversible_if true)] else [])
  ++ [(PREFLIGHT, no_flags); (RUNTIME_START, reversible_if priv); (HEALTH_CHECK, no_flags)].

Lemma directory_stage p i :
  stage (directory_actions p i) (replicate 3 (ENSURE_DIRECTORY, privileged (si_requires_privilege i))).
Proof.
  apply (stage_fold _ (ENSURE_DIRECTORY, privileged (si_requires_privilege i)) ["config"; "state"; "cache"]).
  intros x _. apply stage_add. auto.
Qed.

Lemma package_stage p i :
  stage (package_actions p i) (replicate (length (si_package_references i))
    (ENSURE_PACKAGE, {| fl_privilege := si_requires_privilege i; fl_network := true;
                        fl_confirmation := false; fl_reversible := false |})).
Proof.
  rewrite <-(Permutation_length (sorted_strings_Permutation (si_package_references i))).
  apply stage_fold. intros x _. apply stage_add. auto.
Qed.

Lemma bridge_stage p b :
  stage (bridge_actions p b)
    (if b then [(ENSURE_NVIDIA_DRIVER_BRIDGE, reversible_if true)] else []).
Proof. destruct b; [apply stage_add; auto|apply stage_nil]. Qed.

Lemma config_stage p i d r :
  stage (config_actions p i d r)
    (match si_configuration i with [] => [] | _ =>
       [(RENDER_CONFIG, reversible_if (si_requires_privilege i))] end).
Proof.
  unfold config_actions. destruct (si_configuration i); [apply stage_nil|apply stage_add; auto].
Qed.

Lemma model_stage p i d : stage (model_actions p i d) [model_shape (si_model_preparation i)].
Proof. unfold model_actions. destruct (si_model_preparation i); apply stage_add; auto. Qed.

Lemma reconcile_stage p d path r : (r = true → path = SYSTEMD) →
  stage (reconcile_actions p d path r)
    (if r then [(WORKER_STOP, reversible_if true);
                (RECONCILE_WORKER_EXECUTION, reversible_if true)] else []).
Proof.
  intros Hp. unfold reconcile_actions. destruct r; [|apply stage_nil]. cbn [negb].
  rewrite (Hp eq_refl). rewrite bool_decide_true by done. cbn [require mbind result_bind].
  apply (stage_bind _ _ [_] [_]); apply stage_add; auto.
Qed.

Lemma final_stage p i d :
  stage (final_actions p i d)
    [(PREFLIGHT, no_flags); (RUNTIME_START, reversible_if (si_requires_privilege i));
     (HEALTH_CHECK, no_flags)].
Proof.
  unfold final_actions. apply (stage_bind _ _ [_] [_; _]); [apply stage_add; auto|].
  apply (stage_bind _ _ [_] [_]); apply stage_add; auto.
Qed.

Section planner.
Context {R : Type}.

Definition needs_bridge (context : RuntimeCompatibilityContext) (snapshot : SetupHostSnapshot) : bool :=
  bool_decide (hs_deployment_path snapshot = SYSTEMD)
  && (0 <? gpu_count (resources (cx_worker context))).

Lemma activation_stage p i cx sn d r : (r = true → hs_deployment_path sn = SYSTEMD) →
  ∃ l, activation_actions p i cx sn d r = Ok l ∧ numbered 0 l ∧
       (shape <$> l) = activation_shapes i (needs_bridge cx sn) r.
Proof.
  intros Hr. destruct (stage_bind _ _ _ _ (directory_stage p i)
    (stage_bind _ _ _ _ (package_stage p i)
    (stage_bind _ _ _ _ (bridge_stage p (needs_bridge cx sn))
    (stage_bind _ _ _ _ (config_stage p i d r)
    (stage_bind _ _ _ _ (model_stage p i (cx_demand cx))
    (stage_bind _ _ _ _ (reconcile_stage p d _ r Hr)
      (final_stage p i (cx_demand cx))))))) [] I) as (l & E & Hn & Hs).
  by exists l.
Qed.

Lemma activation_systemd p i cx sn d l :
  activation_actions p i cx sn d true = Ok l → hs_deployment_path sn = SYSTEMD.
Proof.
  unfold activation_actions, reconcile_actions. intros H. simp_res. cbn [negb] in *. simp_res. by bools.
Qed.

(** ** What the gate asks of a plan *)

Definition asks (f : flags → bool) (l : list SetupAction) : bool :=
  existsb (λ s, f s.2) (shape <$> l).

Lemma existsb_fmap {A B} (g : A → B) (f : B → bool) l : existsb f (g <$> l) = existsb (f ∘ g) l.
Proof. induction l as [|x l IH]; [done|]. cbn. by rewrite IH. Qed.

Lemma requires_asks p :
  requires_privilege p = asks fl_privilege (pl_actions p) ∧
  requires_network p = asks fl_network (pl_actions p) ∧
  requires_confirmation p = asks fl_confirmation (pl_actions p).
Proof. unfold asks. by rewrite !existsb_fmap. Qed.

Lemma existsb_replicate {A} (f : A → bool) n x : existsb f (replicate n x) = negb (n =? 0)%nat && f x.
Proof. induction n as [|n IH]; [done|]. cbn. rewrite IH. by destruct (f x), n. Qed.

Lemma activation_asks i b r :
  let shapes := activation_shapes i b r in
  existsb (λ s, fl_privilege s.2) shapes = si_requires_privilege i || b || r ∧
  existsb (λ s, fl_network s.2) shapes =
    negb (length (si_package_references i) =? 0)%nat
    || bool_decide (si_model_preparation i = DOWNLOAD) ∧
  existsb (λ s, fl_confirmation s.2) shapes =
    negb (bool_decide (si_model_preparation i = REFERENCE_ONLY)).
Proof.
  unfold activation_shapes. cbn zeta. rewrite !existsb_app, !existsb_replicate. cbn [snd fl_privilege fl_network fl_confirmation].
  destruct (si_configuration i), (si_model_preparation i), b, r, (si_requires_privilege i),
    (length (si_package_references i)); repeat split; reflexivity.
Qed.

(** ** The property *)

(** A plan is what its inputs call for. *)
Record planned (catalog : dict (RuntimeProvider R)) (cx : RuntimeCompatibilityContext)
    (sel : RuntimeSelection) (sn : SetupHostSnapshot) (reconcile : bool)
    (pid : string) (intent : RuntimeSetupIntent) (plan : SetupPlan) : Prop := {
  pd_explicit : rs_mode sel = EXPLICIT ∧ rs_provider_id sel = Some pid;
  pd_runs : runs catalog cx pid;
  pd_provider : pl_provider_id plan = pid ∧ si_provider_id intent = pid;
  pd_path : pl_deployment_path plan = hs_deployment_path sn ∧ pl_goal plan = ACTIVATE ∧
            (reconcile = true → hs_deployment_path sn = SYSTEMD);
  pd_wf : wf_SetupPlan plan;
  pd_ids : numbered 0 (pl_actions plan);
  pd_shapes : (shape <$> pl_actions plan) =
              activation_shapes intent (needs_bridge cx sn) reconcile;
  pd_asks :
    requires_privilege plan = si_requires_privilege intent || needs_bridge cx sn || reconcile ∧
    requires_network plan = negb (length (si_package_references intent) =? 0)%nat
                            || bool_decide (si_model_preparation intent = DOWNLOAD) ∧
    requires_confirmation plan = negb (bool_decide (si_model_preparation intent = REFERENCE_ONLY));
}.

Lemma mk_SetupPlan_planned pid path actions m :
  nonblank pid → numbered 0 actions → actions ≠ [] →
  ∃ plan, mk_SetupPlan pid path ACTIVATE actions m "v1" = Ok plan ∧ wf_SetupPlan plan ∧
    pl_provider_id plan = pid ∧ pl_deployment_path plan = path ∧ pl_goal plan = ACTIVATE ∧
    pl_actions plan = actions.
Proof.
  intros Hp Hn Hne. unfold mk_SetupPlan. rewrite !nonblank_str_id by done. cbn [mbind result_bind].
  unfold all_distinct. rewrite (bool_decide_true (NoDup _)) by by eapply numbered_distinct.
  destruct actions as [|a l]; [done|]. cbn [require mbind result_bind]. eexists. split; [done|].
  split_and!; try done. unfold wf_SetupPlan; cbn [pl_actions pl_metadata pl_provider_id pl_schema_version].
  split_and!; first [done|by eapply numbered_wf|by eapply numbered_distinct|apply freeze_frozen].
Qed.

Lemma mk_plan_planned (catalog : dict (RuntimeProvider R)) cx sel sn reconcile pid intent actions m plan :
  nonblank pid → rs_mode sel = EXPLICIT → rs_provider_id sel = Some pid → runs catalog cx pid →
  si_provider_id intent = pid → (reconcile = true → hs_deployment_path sn = SYSTEMD) →
  numbered 0 actions →
  (shape <$> actions) = activation_shapes intent (needs_bridge cx sn) reconcile →
  mk_SetupPlan pid (hs_deployment_path sn) ACTIVATE actions m "v1" = Ok plan →
  planned catalog cx sel sn reconcile pid intent plan.
Proof.
  intros Hnb He Hp Hr Hi Hrc Hn Hs H.
  destruct (mk_SetupPlan_planned pid (hs_deployment_path sn) actions m) as (q & E & Hw & H1 & H2 & H3 & H4);
    [done|done|by intros ->|].
  rewrite H in E. injection E as <-. split; try done; [by rewrite H4..|].
  destruct (requires_asks plan) as (-> & -> & ->). rewrite H4. unfold asks. rewrite Hs.
  apply activation_asks.
Qed.

(** A resolved explicit selection selects the chosen provider, which runs. *)
Lemma resolve_explicit (catalog : dict (RuntimeProvider R)) cx sel r : wf_catalog catalog → rs_mode sel = EXPLICIT →
  resolve_runtime catalog cx sel = Ok (Resolved r) →
  ∃ pid, rs_provider_id sel = Some pid ∧ rr_selected_provider_id r = Some pid ∧ runs catalog cx pid.
Proof.
  intros C He H. unfold resolve_runtime in H. apply bind_Ok in H as (reports & Hrep & H).
  rewrite He in H. destruct (rs_provider_id sel) as [pid|] eqn:Ep; [|done]. exists pid.
  destruct (dget pid catalog) as [p|] eqn:Ek; [|done].
  pose proof (report_runs catalog cx reports pid C Hrep) as Hr.
  destruct (dget pid reports) as [report|] eqn:Er; [|done].
  destruct (compatible report) eqn:Ec; [|done]. cbn [negb] in H.
  unfold mk_RuntimeResolution in H. simp_res. split; [done|]. split; [done|]. by apply Hr.
Qed.

Lemma resolve_runs (catalog : dict (RuntimeProvider R)) cx sel reports pid p : wf_catalog catalog → rs_mode sel = EXPLICIT →
  rs_provider_id sel = Some pid → evaluate_catalog catalog cx = Ok reports →
  runs catalog cx pid → dget pid catalog = Some p →
  ∃ r, resolve_runtime catalog cx sel = Ok (Resolved r) ∧ rr_selected_provider_id r = Some pid.
Proof.
  intros C He Hp Hrep Hrun Ek. unfold resolve_runtime. rewrite Hrep. cbn [mbind result_bind].
  rewrite He, Hp, Ek. apply (report_runs catalog cx reports pid C Hrep) in Hrun.
  destruct (dget pid reports) as [report|]; [|done]. rewrite Hrun. cbn [negb].
  unfold mk_RuntimeResolution. rewrite He, Hp. rewrite bool_decide_true by done.
  cbn [require mbind result_bind]. eauto.
Qed.

Lemma build_deployment (provider : RuntimeProvider R) cx intent :
  si_provider_id intent = provider_key provider → nonblank (provider_key provider) →
  (∀ v, rp_config provider = Some v → ∃ d, v = PDict d) →
  ∃ dep, build_runtime_deployment_spec provider cx (Some intent) = Ok dep.
Proof.
  intros Hi [Hs Hn] Hc. unfold build_runtime_deployment_spec. cbn [mbind result_bind].
  rewrite bool_decide_true by done. cbn [require mbind result_bind].
  assert (∀ d, ∃ dep, mk_RuntimeDeploymentSpec (provider_key provider) d (cx_demand cx)
                        (Some intent) "v1" = Ok dep) as Hm.
  { intros d. unfold mk_RuntimeDeploymentSpec. rewrite Hs, (proj2 (str_truthy_spec _)) by done.
    rewrite (bool_decide_true (_ = provider_key provider)) by done. cbn [require mbind result_bind].
    rewrite bool_decide_true by done. cbn [require mbind result_bind]. eauto. }
  destruct (rp_config provider) as [v|]; [|cbn [mbind result_bind]; apply Hm].
  destruct (Hc v eq_refl) as (d & ->). cbn [mbind result_bind _json_value]. apply Hm.
Qed.

(** Property C22: setup planning is exact.  For a catalog of providers and a validated
    selection, [build_runtime_setup_plan] returns a plan only for an explicit choice of an
    installed provider that runs the demand, when the snapshot is that of the planned host,
    and the plan is then well formed, numbered from 01 with distinct identifiers, and
    consists of exactly the stages its inputs call for in their order - directories,
    packages, driver bridge, configuration, model, existing Worker, preflight, start,
    health - each with the permissions its kind needs; so the gate asks for privilege,
    network and confirmation exactly when the intent, the bridge or the reconciliation do.
    Conversely the explicit choice of an installed provider that runs the demand, on the
    host of the snapshot, is planned whenever every provider of the catalog reports on the
    demand without raising, the chosen provider gives an intent that keeps its identity and
    a configuration that is a mapping (or none), and reconciling an existing worker is asked
    for only where the snapshot is of a systemd deployment (on NixOS it is refused). *)
Theorem setup_plan_exact (providers : list (RuntimeProvider R)) catalog m id sel cx sn reconcile :
  mk_RuntimeCatalog providers = Ok catalog → mk_RuntimeSelection m id = Ok sel →
  (∀ plan, build_runtime_setup_plan catalog cx sel sn reconcile = Ok plan →
     ∃ pid provider intent,
       dget pid catalog = Some provider ∧ rp_setup_intent provider cx = Ok intent ∧
       host_eqb (hs_runtime_host sn) (cx_host cx) = true ∧
       planned catalog cx sel sn reconcile pid intent plan) ∧
  (∀ pid provider intent reports,
     host_eqb (hs_runtime_host sn) (cx_host cx) = true →
     rs_mode sel = EXPLICIT → rs_provider_id sel = Some pid →
     evaluate_catalog catalog cx = Ok reports → runs catalog cx pid →
     dget pid catalog = Some provider → rp_setup_intent provider cx = Ok intent →
     si_provider_id intent = pid →
     (∀ v, rp_config provider = Some v → ∃ d, v = PDict d) →
     (reconcile = true → hs_deployment_path sn = SYSTEMD) →
     ∃ plan, build_runtime_setup_plan catalog cx sel sn reconcile = Ok plan).
Proof.
  intros Hcat Hsel. pose proof (mk_RuntimeCatalog_wf _ _ Hcat) as [C _].
  assert (∀ pid, rs_mode sel = EXPLICIT → rs_provider_id sel = Some pid → nonblank pid) as Hpid.
  { clear -Hsel. intros pid He Hp. unfold mk_RuntimeSelection in Hsel.
    destruct m, id; simp_res; cbn in *; try done. injection Hp as <-.
    match goal with H : nonblank_str _ _ = _ |- _ => by apply nonblank_str_Ok in H as [_ ?] end. }
  split.
  - intros plan H. unfold build_runtime_setup_plan, _require_snapshot_matches_context in H.
    apply guard_Ok in H as [Hh H]. apply guard_Ok in H as [He H]. bools.
    apply bind_Ok in H as (out & Hr & H). destruct out as [r|]; [|done].
    pose proof (resolve_explicit catalog cx sel r C He Hr) as (pid & Hs & Hps & Hrun).
    rewrite Hps in H. destruct (dget pid catalog) as [provider|] eqn:Ep; [|done].
    apply bind_Ok in H as (intent & Hi & H). apply guard_Ok in H as [Hid H]. bools.
    apply bind_Ok in H as (dep & _ & H). apply bind_Ok in H as (actions & Ha & H).
    assert (reconcile = true → hs_deployment_path sn = SYSTEMD) as Hrc.
    { intros ->. by eapply activation_systemd. }
    destruct (activation_stage pid intent cx sn (deployment_to_dict dep) reconcile Hrc)
      as (l & E & Hn & Hsh).
    rewrite Ha in E. injection E as <-.
    exists pid, provider, intent. split; [done|]. split; [done|]. split; [done|].
    eapply mk_plan_planned; try done. by apply Hpid.
  - intros pid provider intent reports Hh He Hp Hrep Hrun Ep Hi Hid Hcfg Hrc.
    unfold build_runtime_setup_plan, _require_snapshot_matches_context.
    rewrite Hh, He, bool_decide_true by done. cbn [require mbind result_bind].
    destruct (resolve_runs catalog cx sel reports pid provider C He Hp Hrep Hrun Ep) as (r & -> & Hps).
    cbn [mbind result_bind]. rewrite Hps, Ep, Hi. cbn [mbind result_bind].
    rewrite bool_decide_true by done. cbn [require mbind result_bind].
    pose proof (Hpid pid He Hp) as Hnb.
    destruct (build_deployment provider cx intent) as (dep & ->);
      [by rewrite Hid; apply (proj2 C) in Ep|by apply (proj2 C) in Ep as ->|done|].
    cbn [mbind result_bind].
    destruct (activation_stage pid intent cx sn (deployment_to_dict dep) reconcile Hrc)
      as (l & -> & Hn & Hsh). cbn [mbind result_bind].
    edestruct (mk_SetupPlan_planned pid (hs_deployment_path sn) l) as (plan & -> & _);
      [done|done| |by exists plan].
    intros ->. unfold activation_shapes in Hsh. by destruct (replicate 3 _) eqn:E.
Qed.
End planner.

(** ** A concrete plan *)

Definition demo_intent : RuntimeSetupIntent :=
  {| si_provider_id := "vllm"; si_package_references := ["pkg:vllm"; "pkg:cuda"];
     si_configuration := [("port", PInt 8000)]; si_model_preparation := DOWNLOAD;
     si_model_ref := None; si_requires_privilege := false; si_metadata := [] |}.
Definition planning_provider : RuntimeProvider unit :=
  {| rp_info := {| pi_provider_id := "vllm"; pi_display_name := "vLLM"; pi_description := EmptyString |};
     rp_compatibility := λ _, Ok {| rc_provider_id := "vllm"; rc_reasons := [] |};
     rp_setup_intent := λ _, Ok demo_intent; rp_create_runtime := λ _ _, Ok tt;
     rp_config := Some (PDict [("port", PInt 8000)]) |}.
Definition demo_snapshot : SetupHostSnapshot :=
  {| hs_runtime_host := cx_host demo_context; hs_deployment_path := SYSTEMD; hs_os_id := "debian";
     hs_os_version := "12"; hs_service_manager := Some "systemd"; hs_package_manager := None;
     hs_available_commands := ∅; hs_privilege_mode := SUDO; hs_metadata := [] |}.
Definition planning_catalog : dict (RuntimeProvider unit) := [("vllm", planning_provider)].

Definition demo_plan : result SetupPlan :=
  build_runtime_setup_plan planning_catalog demo_context demo_selection demo_snapshot true.

Example demo_plan_ids :
  match demo_plan with Ok p => ac_action_id <$> pl_actions p | Err _ => [] end =
  ["01-ensure-directory"; "02-ensure-directory"; "03-ensure-directory"; "04-ensure-package";
   "05-ensure-package"; "06-ensure-nvidia-driver-bridge"; "07-render-config";
   "08-download-model"; "09-worker-stop"; "10-reconcile-worker-execution"; "11-preflight";
   "12-runtime-start"; "13-health-check"].
Proof. vm_compute. reflexivity. Qed.

Lemma setup_plan_exact_witness :
  ∃ plan, demo_plan = Ok plan ∧
    planned planning_catalog demo_context demo_selection demo_snapshot true "vllm" demo_intent plan.
Proof.
  destruct (setup_plan_exact [planning_provider] planning_catalog EXPLICIT (Some " vllm ")
    demo_selection demo_context demo_snapshot true eq_refl eq_refl) as [Hs _].
  destruct demo_plan as [plan|e] eqn:E; [|vm_compute in E; discriminate E].
  exists plan. split; [done|]. destruct (Hs plan E) as (pid & pr & i & Hp & Hi & _ & H).
  pose proof (pd_explicit _ _ _ _ _ _ _ _ H) as [_ Hpid]. cbn in Hpid. injection Hpid as <-.
  cbn in Hp. injection Hp as <-. cbn in Hi. injection Hi as <-. exact H.
Defined.
