(* ===== verification/Migration.v ===== *)
(** * Migrating an installed Worker to runtime execution

    Models [src/src/astrumweaver/setup/migration.py]: reading the installed Worker
    configuration and systemd unit against their canonical forms, and rewriting both from the
    smoke executor to a runtime.  [tomllib.loads] is a parameter. *)

From S2P Require Import Prelude PyStr PyDict PyVal PyHost PyText Contracts.

(** [tomllib.loads]: the table, or [None] for [TOMLDecodeError]. *)
Class Toml := { toml_loads : string → option (dict pyval) }.

(** ** Constants, setup/migration.py *)

Definition SMOKE_EXECUTOR_FACTORY : string := "astrumweaver.executors.structured_echo:create_executor".
Definition RUNTIME_CAPABILITIES : gset string := {["llm.chat"; "text.generate"]}.
Definition DEFAULT_RUNTIME_MANIFEST : string := "/etc/astrumweaver/runtime-deployment.json".
Definition _RUNTIME_DRIVER_ENV_LINE : string :=
  "Environment=LD_LIBRARY_PATH=/etc/astrumweaver/runtime/nvidia-driver".

Definition quoted (s : string) : string := String "034" (s +:+ String "034" EmptyString).

(** [_SMOKE_SUFFIX], setup/migration.py lines 25-29. *)
Definition _SMOKE_SUFFIX : string :=
  print_lines [EmptyString; "[executor]"; "factory = " +:+ quoted SMOKE_EXECUTOR_FACTORY;
               EmptyString; "[executor.settings]"].

(** [_RUNTIME_SUFFIX_TEMPLATE.format(manifest=...)], setup/migration.py lines 30-35. *)
Definition runtime_suffix (manifest : string) : string :=
  print_lines [EmptyString; "[runtime]"; "manifest = " +:+ quoted manifest;
               "startup_timeout_seconds = 600"; "shutdown_timeout_seconds = 60"].

(** [_SMOKE_CAPABILITIES_LINE], setup/migration.py lines 36-36. *)
Definition _SMOKE_CAPABILITIES_LINE : string := "capabilities = [" +:+ quoted "debug.echo" +:+ "]".
(** [_RUNTIME_CAPABILITIES_LINE], setup/migration.py lines 37-37. *)
Definition _RUNTIME_CAPABILITIES_LINE : string :=
  "capabilities = [" +:+ quoted "llm.chat" +:+ ", " +:+ quoted "text.generate" +:+ "]".

(** The lines of [_UNIT_PREFIX], setup/migration.py lines 39-46. *)
Definition unit_prefix_lines : list string :=
  ["[Unit]"; "Description=AstrumWeaver GPU Worker"; "Wants=network-online.target";
   "After=network-online.target"; EmptyString; "[Service]"; "Type=simple"].
Definition _UNIT_PREFIX : string := print_lines unit_prefix_lines.

(** The lines of [_UNIT_SUFFIX], setup/migration.py lines 47-64. *)
Definition unit_suffix_lines : list string :=
  ["Restart=on-failure"; "RestartSec=5s"; "RuntimeDirectory=astrumweaver-worker";
   "RuntimeDirectoryMode=0750"; "StateDirectory=astrumweaver"; "StateDirectoryMode=0750";
   "NoNewPrivileges=yes"; "PrivateTmp=yes"; "ProtectSystem=strict"; "ProtectHome=yes";
   "ProtectKernelTunables=yes"; "ProtectKernelModules=yes"; "ProtectControlGroups=yes";
   "RestrictAddressFamilies=AF_UNIX AF_INET AF_INET6"; EmptyString; "[Install]";
   "WantedBy=multi-user.target"].
Definition _UNIT_SUFFIX : string := print_lines unit_suffix_lines.

Definition config_argument : string := " --config /etc/astrumweaver/worker.toml".
Definition manifest_argument : string := " --runtime-manifest /etc/astrumweaver/runtime-deployment.json".

(** [_EXEC_START_RE.fullmatch] of a line: the executable, and whether the runtime argument
    is there, setup/migration.py lines 65-70. *)
Definition exec_start_match (line : string) : option (string * bool) :=
  if startswith "ExecStart=" line then
    let '(executable, rest) := take_word (str_drop 10 line) in
    if startswith "/" executable && (2 <=? Z.of_nat (String.length executable)) then
      if bool_decide (rest = config_argument) then Some (executable, false)
      else if bool_decide (rest = config_argument +:+ manifest_argument) then Some (executable, true)
      else None
    else None
  else None.

(** [InstalledWorkerContract], setup/migration.py lines 73-82. *)
Record InstalledWorkerContract := {
  ic_spec : WorkerSpec;
  ic_control_url : string;
  ic_max_concurrency : Z;
  ic_gpu_preflight : pyval;
  ic_health_host : string;
  ic_health_port : Z;
  ic_execution_mode : string;
  ic_runtime_manifest : option string;
}.

(** [InstalledWorkerUnit], setup/migration.py lines 85-90. *)
Record InstalledWorkerUnit := {
  iu_service_user : string;
  iu_executable : string;
  iu_execution_mode : string;
  iu_nvidia_driver_bridge : bool;
}.

(** ** The unit *)

Definition lines_starting (p : string) (lines : list string) : list string :=
  List.filter (startswith p) lines.

(** [line.partition("=")[2].strip()] of the only line of a list. *)
Definition value_of (lines : list string) : string :=
  match lines with
  | l :: _ => strip (partition_char "=" l).2
  | [] => EmptyString
  end.

(** The text [parse_installed_worker_unit] expects, setup/migration.py lines 531-551. *)
Definition unit_text (u : InstalledWorkerUnit) : string :=
  let eol := String "010" EmptyString in
  _UNIT_PREFIX
  +:+ ("User=" +:+ iu_service_user u +:+ eol)
  +:+ ("Group=" +:+ iu_service_user u +:+ eol)
  +:+ ("SupplementaryGroups=astrumweaver-config" +:+ eol)
  +:+ ("EnvironmentFile=-/etc/astrumweaver/worker.env" +:+ eol)
  +:+ (if iu_nvidia_driver_bridge u then _RUNTIME_DRIVER_ENV_LINE +:+ eol else EmptyString)
  +:+ ("ExecStartPre=+/usr/local/libexec/astrumweaver/gpu-preflight /etc/astrumweaver/gpu-uuids" +:+ eol)
  +:+ ("ExecStart=" +:+ iu_executable u +:+ config_argument
       +:+ (if bool_decide (iu_execution_mode u = "runtime") then manifest_argument else EmptyString)
       +:+ eol)
  +:+ _UNIT_SUFFIX.

(** [parse_installed_worker_unit], setup/migration.py lines 450-561. *)
Definition parse_installed_worker_unit (text : string) : result InstalledWorkerUnit :=
  require (startswith _UNIT_PREFIX text && endswith _UNIT_SUFFIX text)
    (RuntimeError "installed Worker unit differs from the canonical template");;
  let lines := splitlines text in
  let user_lines := lines_starting "User=" lines in
  let group_lines := lines_starting "Group=" lines in
  let supplementary := lines_starting "SupplementaryGroups=" lines in
  let env_lines := lines_starting "EnvironmentFile=" lines in
  let runtime_env_lines := lines_starting "Environment=" lines in
  let preflight_lines := lines_starting "ExecStartPre=" lines in
  let exec_lines := lines_starting "ExecStart=" lines in
  require (forallb (λ l, Nat.eqb (length l) 1)
             [user_lines; group_lines; supplementary; env_lines; preflight_lines; exec_lines])
    (RuntimeError "installed Worker unit has non-canonical directives");;
  let service_user := value_of user_lines in
  let service_group := value_of group_lines in
  require (str_truthy service_user && bool_decide (service_group = service_user))
    (RuntimeError "installed Worker unit user/group is not canonical");;
  require (bool_decide (head supplementary = Some "SupplementaryGroups=astrumweaver-config"))
    (RuntimeError "installed Worker unit supplementary config group is not canonical");;
  require (bool_decide (head env_lines = Some "EnvironmentFile=-/etc/astrumweaver/worker.env"))
    (RuntimeError "installed Worker unit environment reference is not canonical");;
  require (bool_decide (head preflight_lines = Some
    "ExecStartPre=+/usr/local/libexec/astrumweaver/gpu-preflight /etc/astrumweaver/gpu-uuids"))
    (RuntimeError "installed Worker unit GPU preflight is not canonical");;
  match exec_start_match (default EmptyString (head exec_lines)) with
  | None => Err (RuntimeError "installed Worker unit ExecStart is not a recognized canonical form")
  | Some (executable, runtime_arg) =>
      require (negb (startswith "/nix/store/" executable))
        (RuntimeError "installed Worker unit is store-pinned rather than using a stable executable path");;
      require (if runtime_arg : bool
               then bool_decide (runtime_env_lines = []) || bool_decide (runtime_env_lines = [_RUNTIME_DRIVER_ENV_LINE])
               else bool_decide (runtime_env_lines = []))
        (RuntimeError (if runtime_arg
                       then "installed Worker unit runtime driver environment is not canonical"
                       else "smoke Worker unit must not define a runtime driver environment"));;
      let u := {| iu_service_user := service_user; iu_executable := executable;
                  iu_execution_mode := if runtime_arg then "runtime" else "smoke";
                  iu_nvidia_driver_bridge := negb (bool_decide (runtime_env_lines = [])) |} in
      require (bool_decide (text = unit_text u))
        (RuntimeError "installed Worker unit contains unrelated or reordered modifications");;
      Ok u
  end.

Definition exec_start_of (executable : string) : string := "ExecStart=" +:+ executable +:+ config_argument.
Definition environment_anchor : string :=
  "EnvironmentFile=-/etc/astrumweaver/worker.env" +:+ String "010" EmptyString.

(** [render_runtime_worker_unit], setup/migration.py lines 564-600. *)
Definition render_runtime_worker_unit (text : string) : result string :=
  u ← parse_installed_worker_unit text;
  let smoke := bool_decide (iu_execution_mode u = "smoke") in
  if bool_decide (iu_execution_mode u = "runtime") && iu_nvidia_driver_bridge u then Ok text
  else
    let old := exec_start_of (iu_executable u) in
    require (negb (smoke && negb (Nat.eqb (count_str old text) 1)))
      (RuntimeError "canonical Worker ExecStart is ambiguous");;
    require (Nat.eqb (count_str environment_anchor text) 1)
      (RuntimeError "canonical Worker EnvironmentFile directive is ambiguous");;
    let rendered := replace1 environment_anchor
      (environment_anchor +:+ _RUNTIME_DRIVER_ENV_LINE +:+ String "010" EmptyString) text in
    let rendered := if smoke then replace1 old (old +:+ manifest_argument) rendered else rendered in
    migrated ← parse_installed_worker_unit rendered;
    require (bool_decide (iu_execution_mode migrated = "runtime") && iu_nvidia_driver_bridge migrated)
      (RuntimeError "rendered Worker unit is invalid");;
    require (bool_decide (iu_executable migrated = iu_executable u))
      (RuntimeError "Worker executable path changed during migration");;
    Ok rendered.

(** ** The configuration *)

Section toml.
Context `{Toml}.

(** [_REQUIRED_WORKER_KEYS], setup/migration.py lines 93-104. *)
Definition _REQUIRED_WORKER_KEYS : list string :=
  ["id"; "class"; "control_url"; "capabilities"; "gpu_uuids"; "gpu_count"; "total_vram_mb";
   "max_single_gpu_vram_mb"].
(** [_OPTIONAL_WORKER_KEYS], setup/migration.py lines 105-119. *)
Definition _OPTIONAL_WORKER_KEYS : list string :=
  ["labels"; "accelerators"; "max_concurrency"; "gpu_preflight"; "nvidia_smi_command";
   "request_timeout_seconds"; "poll_interval_seconds"; "heartbeat_interval_seconds"; "health_host";
   "health_port"; "shutdown_grace_seconds"].
(** [_ACCELERATOR_KEYS], setup/migration.py lines 120-122. *)
Definition _ACCELERATOR_KEYS : list string := ["uuid"; "memory_mb"; "compute_capability"; "device_class"].

Definition is_str (v : pyval) : bool := if v is PStr _ then true else false.
Definition is_int (v : pyval) : bool := if v is PInt _ then true else false.
Definition is_bool (v : pyval) : bool := if v is PBool _ then true else false.
Definition is_number (v : pyval) : bool := match v with PInt _ | PFloat _ => true | _ => false end.
Definition is_dict (v : pyval) : bool := if v is PDict _ then true else false.
Definition absent_or (p : pyval → bool) (v : pyval) : bool := if v is PNone then true else p v.
Definition str_list (v : pyval) : bool := if v is PList l then forallb is_str l else false.
Definition subset (a b : list string) : bool := forallb (λ k, bool_decide (k ∈ b)) a.

(** Every named value of the table satisfies [p]. *)
Definition checked (names : list string) (p : pyval → bool) (kind : string) (worker : dict pyval)
    : result unit :=
  foldR (λ _ name, require (p (get name worker))
           (RuntimeError ("installed Worker worker." +:+ name +:+ " must be " +:+ kind))) tt names.

(** One accelerator entry, setup/migration.py lines 209-236. *)
Definition check_accelerator (accelerator : pyval) : result unit :=
  match accelerator with
  | PDict a =>
      require (subset ["uuid"; "memory_mb"] (dkeys a) && subset (dkeys a) _ACCELERATOR_KEYS)
        (RuntimeError "installed Worker accelerator entry is not canonical");;
      require (is_str (get "uuid" a)) (RuntimeError "installed Worker accelerator uuid must be a string");;
      require (is_int (get "memory_mb" a))
        (RuntimeError "installed Worker accelerator memory_mb must be an integer");;
      foldR (λ _ name, require (absent_or is_str (get name a))
               (RuntimeError ("installed Worker accelerator " +:+ name +:+ " must be a string")))
        tt ["compute_capability"; "device_class"]
  | _ => Err (RuntimeError "installed Worker accelerator entry must be a table")
  end.

(** [_validate_worker_shape], setup/migration.py lines 125-236. *)
Definition _validate_worker_shape (worker : dict pyval) : result unit :=
  require (subset _REQUIRED_WORKER_KEYS (dkeys worker))
    (RuntimeError "installed Worker TOML is missing canonical worker fields");;
  require (subset (dkeys worker) (_REQUIRED_WORKER_KEYS ++ _OPTIONAL_WORKER_KEYS))
    (RuntimeError "installed Worker TOML contains unrecognized worker fields");;
  checked ["id"; "class"; "control_url"] is_str "a string" worker;;
  checked ["health_host"; "nvidia_smi_command"] (absent_or is_str) "a string" worker;;
  checked ["gpu_count"; "total_vram_mb"; "max_single_gpu_vram_mb"] is_int "an integer" worker;;
  checked ["max_concurrency"; "health_port"] (absent_or is_int) "an integer" worker;;
  require (absent_or is_bool (get "gpu_preflight" worker))
    (RuntimeError "installed Worker worker.gpu_preflight must be boolean");;
  checked ["request_timeout_seconds"; "poll_interval_seconds"; "heartbeat_interval_seconds";
           "shutdown_grace_seconds"] (absent_or is_number) "numeric" worker;;
  checked ["capabilities"; "gpu_uuids"] str_list "a string array" worker;;
  require (absent_or (λ v, if v is PDict d then forallb is_str (dvalues d) else false) (get "labels" worker))
    (RuntimeError "installed Worker worker.labels must be a string table");;
  match get "accelerators" worker with
  | PNone => Ok tt
  | PList l => foldR (λ _ a, check_accelerator a) tt l
  | _ => Err (RuntimeError "installed Worker worker.accelerators must be an array of tables")
  end.

(** [worker.get(key, default)]. *)
Definition get_or (key : string) (d : pyval) (worker : dict pyval) : pyval := default d (dget key worker).
(** [d.get(key)] of an optional string. *)
Definition opt_string (key : string) (v : pyval) : result (option string) :=
  w ← py_get key v;
  match w with
  | PNone => Ok None
  | PStr s => Ok (Some s)
  | _ => Err (AttributeError "object has no attribute 'strip'")
  end.

(** An accelerator of [_worker_spec], setup/migration.py lines 241-249. *)
Definition accelerator_of (v : pyval) : result AcceleratorDevice :=
  uuid ← (u ← py_item "uuid" v; py_str u);
  memory_mb ← (m ← py_item "memory_mb" v; py_int m);
  compute_capability ← opt_string "compute_capability" v;
  device_class ← opt_string "device_class" v;
  mk_AcceleratorDevice uuid memory_mb compute_capability device_class.

(** [_worker_spec], setup/migration.py lines 239-269. *)
Definition _worker_spec (worker : dict pyval) : result WorkerSpec :=
  uuids ← (l ← py_iter (get_or "gpu_uuids" (PList []) worker); mapR py_str l);
  accelerators ← (l ← py_iter (get_or "accelerators" (PList []) worker); mapR accelerator_of l);
  id ← (v ← item "id" worker; py_str v);
  class ← (v ← item "class" worker; py_str v);
  count ← py_int (get_or "gpu_count" (PInt (Z.of_nat (length uuids))) worker);
  total ← py_int (get_or "total_vram_mb" (PInt 0) worker);
  single ← py_int (get_or "max_single_gpu_vram_mb" (PInt 0) worker);
  shape ← mk_ResourceShape count total single;
  caps ← (l ← py_iter (get_or "capabilities" (PList []) worker); mapR py_str l);
  labs ← (d ← py_dict (py_or (get "labels" worker) (PDict []));
          mapR (λ kv : string * pyval, s ← py_str kv.2; Ok (kv.1, s)) d);
  mk_WorkerSpec id class shape (StrIter uuids) accelerators (StrIter (remove_dups caps)) labs.

(** [except (KeyError, TypeError, ValueError) as exc: raise RuntimeError]. *)
Definition spec_or_invalid (r : result WorkerSpec) : result WorkerSpec :=
  match r with
  | Err (KeyError _ | TypeError _ | ValueError _) =>
      Err (RuntimeError "installed Worker resource/accelerator contract is invalid")
  | r => r
  end.

(** [str(worker.get(key) or "").strip()] is not empty. *)
Definition has_text (worker : dict pyval) (key : string) : result unit :=
  s ← py_str (py_or (get key worker) (PStr EmptyString));
  require (str_truthy (strip s)) (RuntimeError ("installed Worker TOML is missing worker." +:+ key)).

Definition same_keys (d : dict pyval) (names : list string) : bool :=
  subset (dkeys d) names && subset names (dkeys d).

(** What both modes read, setup/migration.py lines 272-305. *)
Definition worker_contract (parsed worker : dict pyval)
    : result (string → option string → InstalledWorkerContract) :=
  _validate_worker_shape worker;;
  foldR (λ _ key, has_text worker key) tt ["id"; "class"; "control_url"];;
  spec ← spec_or_invalid (_worker_spec worker);
  max_concurrency ← py_int (get_or "max_concurrency" (PInt 1) worker);
  require (0 <? max_concurrency) (RuntimeError "installed Worker max_concurrency must be positive");;
  let gpu_preflight := get_or "gpu_preflight" (PBool true) worker in
  health_host ← (s ← py_str (get_or "health_host" (PStr "127.0.0.1") worker); Ok (strip s));
  require (str_truthy health_host) (RuntimeError "installed Worker health_host must not be blank");;
  health_port ← py_int (get_or "health_port" (PInt 9100) worker);
  require ((1 <=? health_port) && (health_port <=? 65535))
    (RuntimeError "installed Worker health_port is invalid");;
  control_url ← (v ← item "control_url" worker; py_str v);
  Ok (λ mode manifest,
        {| ic_spec := spec; ic_control_url := control_url; ic_max_concurrency := max_concurrency;
           ic_gpu_preflight := gpu_preflight; ic_health_host := health_host;
           ic_health_port := health_port; ic_execution_mode := mode; ic_runtime_manifest := manifest |}).

(** The smoke branch, setup/migration.py lines 314-356. *)
Definition smoke_contract (text : string) (parsed executor : dict pyval)
    (contract : string → option string → InstalledWorkerContract) : result InstalledWorkerContract :=
  require (same_keys parsed ["worker"; "executor"])
    (RuntimeError "installed smoke Worker contains unrecognized top-level configuration");;
  require (same_keys executor ["factory"; "settings"])
    (RuntimeError "installed smoke executor differs from the canonical contract");;
  require (py_eqb (get "factory" executor) (PStr SMOKE_EXECUTOR_FACTORY))
    (RuntimeError "installed Worker uses an unrecognized executor factory");;
  settings ← py_dict (py_or (get "settings" executor) (PDict []));
  require (bool_decide (settings = [])) (RuntimeError "installed smoke executor settings are not canonical");;
  let c := contract "smoke" None in
  require (bool_decide (capabilities (ic_spec c) = {["debug.echo"]}))
    (RuntimeError "installed smoke Worker capabilities are not canonical");;
  require (endswith _SMOKE_SUFFIX text)
    (RuntimeError "installed smoke Worker TOML differs from the canonical rendered form");;
  require (Nat.eqb (count_str _SMOKE_CAPABILITIES_LINE text) 1)
    (RuntimeError "installed smoke Worker capability line is not canonical");;
  Ok c.

(** The runtime branch, setup/migration.py lines 358-410. *)
Definition runtime_contract (text : string) (parsed runtime : dict pyval)
    (contract : string → option string → InstalledWorkerContract) : result InstalledWorkerContract :=
  require (same_keys parsed ["worker"; "runtime"])
    (RuntimeError "installed runtime Worker contains unrecognized top-level configuration");;
  require (same_keys runtime ["manifest"; "startup_timeout_seconds"; "shutdown_timeout_seconds"])
    (RuntimeError "installed runtime section differs from the canonical contract");;
  manifest ← (s ← py_str (py_or (get "manifest" runtime) (PStr EmptyString)); Ok (strip s));
  require (bool_decide (manifest = DEFAULT_RUNTIME_MANIFEST))
    (RuntimeError "installed runtime manifest path is not canonical");;
  startup ← py_int (get_or "startup_timeout_seconds" (PInt 0) runtime);
  require (startup =? 600) (RuntimeError "installed runtime startup timeout is not canonical");;
  shutdown ← py_int (get_or "shutdown_timeout_seconds" (PInt 0) runtime);
  require (shutdown =? 60) (RuntimeError "installed runtime shutdown timeout is not canonical");;
  let c := contract "runtime" (Some manifest) in
  require (bool_decide (capabilities (ic_spec c) = RUNTIME_CAPABILITIES))
    (RuntimeError "installed runtime Worker capabilities are not canonical");;
  require (endswith (runtime_suffix manifest) text)
    (RuntimeError "installed runtime Worker TOML differs from the canonical rendered form");;
  require (Nat.eqb (count_str _RUNTIME_CAPABILITIES_LINE text) 1)
    (RuntimeError "installed runtime Worker capability line is not canonical");;
  Ok c.

(** [parse_installed_worker_toml], setup/migration.py lines 272-414. *)
Definition parse_installed_worker_toml (text : string) : result InstalledWorkerContract :=
  match toml_loads text with
  | None => Err (RuntimeError "installed Worker TOML is invalid")
  | Some parsed =>
      match get "worker" parsed with
      | PDict worker =>
          contract ← worker_contract parsed worker;
          executor ← py_dict (py_or (get "executor" parsed) (PDict []));
          runtime ← py_dict (py_or (get "runtime" parsed) (PDict []));
          match executor, runtime with
          | _ :: _, _ :: _ =>
              Err (RuntimeError "installed Worker mixes executor and runtime execution authority")
          | _ :: _, [] => smoke_contract text parsed executor contract
          | [], _ :: _ => runtime_contract text parsed runtime contract
          | [], [] => Err (RuntimeError
              "installed Worker has neither canonical smoke nor runtime execution authority")
          end
      | _ => Err (RuntimeError "installed Worker TOML lacks a canonical worker table")
      end
  end.

(** [render_runtime_worker_toml], setup/migration.py lines 417-447. *)
Definition render_runtime_worker_toml (text runtime_manifest : string) : result string :=
  contract ← parse_installed_worker_toml text;
  require (bool_decide (runtime_manifest = DEFAULT_RUNTIME_MANIFEST))
    (RuntimeError "runtime manifest path is not canonical");;
  if bool_decide (ic_execution_mode contract = "runtime") then
    require (bool_decide (ic_runtime_manifest contract = Some runtime_manifest))
      (RuntimeError "installed runtime Worker points at a different manifest");;
    Ok text
  else
    let prefix := cut_suffix _SMOKE_SUFFIX text in
    require (Nat.eqb (count_str _SMOKE_CAPABILITIES_LINE prefix) 1)
      (RuntimeError "canonical smoke capability line is missing");;
    let prefix := replace1 _SMOKE_CAPABILITIES_LINE _RUNTIME_CAPABILITIES_LINE prefix in
    let rendered := prefix +:+ runtime_suffix runtime_manifest in
    migrated ← parse_installed_worker_toml rendered;
    require (bool_decide (ic_execution_mode migrated = "runtime"))
      (RuntimeError "rendered runtime Worker contract is invalid");;
    Ok rendered.
End toml.
