(* ===== verification/MigrationProps.v ===== *)
(** * Migrating an installed Worker: exactness

    The unit parser accepts exactly the canonical texts and inverts their rendering; the
    migration turns a canonical smoke installation into a canonical runtime installation,
    changes nothing else, and is idempotent. *)

From S2P Require Import Prelude PyStr PyDict PyVal PyHost PyText Contracts Migration.

(** ** The canonical unit as lines *)

Definition unit_lines (u : InstalledWorkerUnit) : list string :=
  unit_prefix_lines
  ++ ["User=" +:+ iu_service_user u; "Group=" +:+ iu_service_user u;
      "SupplementaryGroups=astrumweaver-config"; "EnvironmentFile=-/etc/astrumweaver/worker.env"]
  ++ (if iu_nvidia_driver_bridge u then [_RUNTIME_DRIVER_ENV_LINE] else [])
  ++ ["ExecStartPre=+/usr/local/libexec/astrumweaver/gpu-preflight /etc/astrumweaver/gpu-uuids";
      "ExecStart=" +:+ iu_executable u +:+ config_argument
      +:+ (if bool_decide (iu_execution_mode u = "runtime") then manifest_argument else EmptyString)]
  ++ unit_suffix_lines.

Lemma print_lines_app l m : print_lines (l ++ m) = print_lines l +:+ print_lines m.
Proof.
  induction l as [|x l IH]; [done|].
  change (x +:+ String "010" (print_lines (l ++ m)) = (x +:+ String "010" (print_lines l)) +:+ print_lines m).
  by rewrite append_assoc, append_cons, IH.
Qed.
Lemma print_lines_one x : print_lines [x] = x +:+ String "010" EmptyString.
Proof. done. Qed.

Lemma unit_text_lines u : unit_text u = print_lines (unit_lines u).
Proof.
  unfold unit_text, unit_lines, _UNIT_PREFIX, _UNIT_SUFFIX. rewrite !print_lines_app.
  set (pre := print_lines unit_prefix_lines). set (suf := print_lines unit_suffix_lines).
  assert (∀ s r, String "010" s +:+ r = String "010" (s +:+ r)) as Heol by done.
  destruct (iu_nvidia_driver_bridge u); cbn [print_lines foldr];
    repeat first [rewrite append_assoc | rewrite Heol | rewrite append_nil_l]; done.
Qed.

(** The units the parser returns. *)
Definition wf_unit (u : InstalledWorkerUnit) : Prop :=
  nonblank (iu_service_user u) ∧ line (iu_service_user u) ∧
  startswith "/" (iu_executable u) = true ∧ (2 <= String.length (iu_executable u))%nat ∧
  all_chars (λ c, negb (is_space c)) (iu_executable u) = true ∧
  startswith "/nix/store/" (iu_executable u) = false ∧
  (iu_execution_mode u = "runtime" ∨ iu_execution_mode u = "smoke" ∧ iu_nvidia_driver_bridge u = false).

(** ** Words *)

Lemma take_word_nospace w s :
  all_chars (λ c, negb (is_space c)) w = true → take_word (w +:+ String " " s) = (w, String " " s).
Proof.
  induction w as [|c w IH]; [done|]. cbn. intros H. bools. rewrite append_cons. cbn.
  rewrite H. by rewrite IH.
Qed.

Lemma take_word_spec s w r : take_word s = (w, r) →
  s = w +:+ r ∧ all_chars (λ c, negb (is_space c)) w = true.
Proof.
  revert w. induction s as [|c s IH]; intros w; cbn; [by intros [= <- <-]|].
  destruct (is_space c) eqn:E; [by intros [= <- <-]|].
  destruct (take_word s) as [w' r'] eqn:Et. intros [= <- <-].
  destruct (IH w') as [-> Hw]; [done|]. split; [done|]. cbn. by rewrite E.
Qed.

Lemma exec_start_match_spec l exe arg : exec_start_match l = Some (exe, arg) ↔
  l = "ExecStart=" +:+ exe +:+ config_argument +:+ (if arg : bool then manifest_argument else EmptyString) ∧
  startswith "/" exe = true ∧ (2 <= String.length exe)%nat ∧
  all_chars (λ c, negb (is_space c)) exe = true.
Proof.
  unfold exec_start_match. split.
  - destruct (startswith "ExecStart=" l) eqn:E; [|done].
    apply startswith_spec in E as [t ->]. change (str_drop 10 ("ExecStart=" +:+ t)) with t.
    destruct (take_word t) as [w r] eqn:Et. apply take_word_spec in Et as [-> Hw].
    destruct (startswith "/" w && _) eqn:Es; [|done]. bools.
    match goal with H : (2 <=? _) = true |- _ => apply Z.leb_le in H end.
    repeat case_bool_decide; [intros [= <- <-]..|done]; subst.
    + rewrite append_nil_r. split_and!; [done..|lia|done].
    + split_and!; [done..|lia|done].
  - intros (-> & Hs & Hl & Hn). rewrite startswith_app.
    match goal with |- context [str_drop 10 ("ExecStart=" +:+ ?t)] =>
      change (str_drop 10 ("ExecStart=" +:+ t)) with t end.
    set (a := config_argument +:+ _).
    assert (take_word (exe +:+ a) = (exe, a)) as ->.
    { unfold a, config_argument. by apply take_word_nospace. }
    rewrite Hs. replace (2 <=? Z.of_nat (String.length exe)) with true by (symmetry; apply Z.leb_le; lia).
    cbn [andb]. unfold a. destruct arg.
    + rewrite bool_decide_false by done. by rewrite bool_decide_true.
    + by rewrite append_nil_r, bool_decide_true.
Qed.

(** ** The parser *)

Lemma nospace_exec_line u : wf_unit u →
  line ("ExecStart=" +:+ iu_executable u +:+ config_argument
        +:+ (if bool_decide (iu_execution_mode u = "runtime") then manifest_argument else EmptyString)).
Proof.
  intros (_ & _ & _ & _ & Hn & _). unfold line. rewrite !all_chars_app.
  apply nospace_line in Hn. unfold line in Hn. rewrite Hn. by case_bool_decide.
Qed.

Lemma unit_lines_lines u : wf_unit u → Forall line (unit_lines u).
Proof.
  intros Hu. pose proof (nospace_exec_line u Hu) as He. destruct Hu as (_ & Hl & _).
  assert (∀ p, line p → line (p +:+ iu_service_user u)) as Hp.
  { intros p Hp. unfold line in *. by rewrite all_chars_app, Hp, Hl. }
  unfold unit_lines. rewrite !Forall_app. split_and!.
  - by repeat constructor.
  - repeat constructor; by try apply Hp.
  - destruct (iu_nvidia_driver_bridge u); by repeat constructor.
  - constructor; [done|]. by constructor.
  - by repeat constructor.
Qed.

Lemma splitlines_unit u : wf_unit u → splitlines (unit_text u) = unit_lines u.
Proof. intros Hu. rewrite unit_text_lines. by apply splitlines_print, unit_lines_lines. Qed.

Lemma value_of_user x : value_of ["User=" +:+ x] = strip x.
Proof. reflexivity. Qed.
Lemma value_of_group x : value_of ["Group=" +:+ x] = strip x.
Proof. reflexivity. Qed.

(** The directives of a canonical unit. *)
Lemma unit_directives u :
  lines_starting "User=" (unit_lines u) = ["User=" +:+ iu_service_user u] ∧
  lines_starting "Group=" (unit_lines u) = ["Group=" +:+ iu_service_user u] ∧
  lines_starting "SupplementaryGroups=" (unit_lines u) = ["SupplementaryGroups=astrumweaver-config"] ∧
  lines_starting "EnvironmentFile=" (unit_lines u) = ["EnvironmentFile=-/etc/astrumweaver/worker.env"] ∧
  lines_starting "Environment=" (unit_lines u) =
    (if iu_nvidia_driver_bridge u then [_RUNTIME_DRIVER_ENV_LINE] else []) ∧
  lines_starting "ExecStartPre=" (unit_lines u) =
    ["ExecStartPre=+/usr/local/libexec/astrumweaver/gpu-preflight /etc/astrumweaver/gpu-uuids"] ∧
  lines_starting "ExecStart=" (unit_lines u) =
    ["ExecStart=" +:+ iu_executable u +:+ config_argument
      +:+ (if bool_decide (iu_execution_mode u = "runtime") then manifest_argument else EmptyString)].
Proof. unfold unit_lines. destruct (iu_nvidia_driver_bridge u); repeat split; reflexivity. Qed.

Lemma parse_unit_text u : wf_unit u → parse_installed_worker_unit (unit_text u) = Ok u.
Proof.
  intros Hu. unfold parse_installed_worker_unit.
  assert (startswith _UNIT_PREFIX (unit_text u) = true) as ->.
  { unfold unit_text. apply startswith_app. }
  assert (endswith _UNIT_SUFFIX (unit_text u) = true) as ->.
  { apply endswith_spec. unfold unit_text. eexists. rewrite <-!append_assoc. reflexivity. }
  rewrite splitlines_unit by done.
  destruct (unit_directives u) as (-> & -> & -> & -> & -> & -> & ->).
  cbn [andb require mbind result_bind forallb length Nat.eqb].
  rewrite value_of_user, value_of_group.
  pose proof Hu as (Hn & _ & Hs & Hl & Hns & Hnix & Hm). destruct Hn as [Hst Hne].
  unfold stripped in Hst. rewrite Hst, (proj2 (str_truthy_spec _) Hne).
  rewrite (bool_decide_true (iu_service_user u = iu_service_user u)) by done.
  cbn [andb require mbind result_bind head default].
  rewrite !(bool_decide_true (Some _ = Some _)) by done. cbn [require mbind result_bind].
  rewrite (proj2 (exec_start_match_spec _ (iu_executable u) (bool_decide (iu_execution_mode u = "runtime"))))
    by done.
  rewrite Hnix. cbn [negb require mbind result_bind].
  assert ({| iu_service_user := iu_service_user u; iu_executable := iu_executable u;
             iu_execution_mode := if bool_decide (iu_execution_mode u = "runtime") then "runtime" else "smoke";
             iu_nvidia_driver_bridge :=
               negb (bool_decide ((if iu_nvidia_driver_bridge u then [_RUNTIME_DRIVER_ENV_LINE] else []) = [])) |}
          = u) as ->.
  { destruct u as [us ex mo br]. cbn in *. destruct Hm as [->|[-> ->]]; [by destruct br|done]. }
  rewrite (bool_decide_true (unit_text u = unit_text u)) by done.
  destruct Hm as [->|[-> ->]]; [by destruct (iu_nvidia_driver_bridge u)|done].
Qed.

(** What the parser has checked. *)
Lemma parse_unit_Ok text u : parse_installed_worker_unit text = Ok u → wf_unit u ∧ text = unit_text u.
Proof.
  unfold parse_installed_worker_unit. intros H. apply guard_Ok in H as [_ H]. apply guard_Ok in H as [Hlen H].
  do 4 apply guard_Ok in H as [? H]. bools.
  destruct (exec_start_match _) as [[exe arg]|] eqn:Ee; [|done].
  apply exec_start_match_spec in Ee as (_ & Hs & Hl & Hns).
  apply guard_Ok in H as [Hnix H]. apply guard_Ok in H as [Henv H]. apply guard_Ok in H as [Ht H].
  bools. injection H as H. set (v := value_of _) in *. assert (line v) as Hv.
  { unfold v, value_of. destruct (lines_starting "User=" (splitlines text)) as [|l ls] eqn:El; [done|].
    apply line_strip. unfold line. apply all_chars_partition.
    assert (l ∈ splitlines text) as Hin.
    { apply list_elem_of_In. pose proof (in_eq l ls) as Hin. rewrite <-El in Hin.
      unfold lines_starting in Hin. by apply filter_In in Hin as [? _]. }
    pose proof (splitlines_lines text) as Hall. rewrite Forall_forall in Hall. by apply Hall. }
  assert (nonblank v) as Hnb.
  { split; [|by apply str_truthy_spec]. unfold v, value_of. destruct (lines_starting _ _); [done|apply strip_idemp]. }
  rewrite H in Ht. split; [|done]. rewrite <-H. unfold wf_unit. cbn. split_and!; try done.
  destruct arg; [by left|right]. bools. rewrite Henv. done.
Qed.

Lemma parse_unit_fails text :
  (∃ u, parse_installed_worker_unit text = Ok u) ∨
  ∃ m, parse_installed_worker_unit text = Err (RuntimeError m).
Proof.
  unfold parse_installed_worker_unit.
  repeat match goal with
  | |- context [require ?b ?e] => destruct b; cbn [require mbind result_bind]; [|right; by eexists]
  | |- context [exec_start_match ?l] => destruct (exec_start_match l) as [[? ?]|]; [|right; by eexists]
  end.
  left. by eexists.
Qed.

(** ** The migration of the unit *)

Definition to_runtime (u : InstalledWorkerUnit) : InstalledWorkerUnit :=
  {| iu_service_user := iu_service_user u; iu_executable := iu_executable u;
     iu_execution_mode := "runtime"; iu_nvidia_driver_bridge := true |}.

Lemma to_runtime_wf u : wf_unit u → wf_unit (to_runtime u).
Proof. intros (? & ? & ? & ? & ? & ? & _). unfold wf_unit. cbn. split_and!; try done. by left. Qed.

(** The text around the two rewritten directives. *)
Definition user_directive : string := _UNIT_PREFIX +:+ "User=".
Definition group_directive : string := String "010" "Group=".
Definition supplementary_line : string :=
  String "010" ("SupplementaryGroups=astrumweaver-config" +:+ String "010" EmptyString).
Definition before_env (u : InstalledWorkerUnit) : string :=
  user_directive +:+ iu_service_user u +:+ group_directive +:+ iu_service_user u +:+ supplementary_line.
Definition preflight_line : string :=
  "ExecStartPre=+/usr/local/libexec/astrumweaver/gpu-preflight /etc/astrumweaver/gpu-uuids"
  +:+ String "010" EmptyString.

Lemma unit_text_split u : unit_text u =
  before_env u +:+ environment_anchor
  +:+ (if iu_nvidia_driver_bridge u then _RUNTIME_DRIVER_ENV_LINE +:+ String "010" EmptyString else EmptyString)
  +:+ preflight_line +:+ exec_start_of (iu_executable u)
  +:+ (if bool_decide (iu_execution_mode u = "runtime") then manifest_argument else EmptyString)
  +:+ String "010" _UNIT_SUFFIX.
Proof.
  unfold unit_text, before_env, user_directive, group_directive, supplementary_line, environment_anchor,
    preflight_line, exec_start_of.
  assert (∀ s r, String "010" s +:+ r = String "010" (s +:+ r)) as Heol by done.
  repeat first [rewrite append_assoc | rewrite Heol | rewrite append_nil_l]; done.
Qed.

(** No occurrence of a pattern starts before its own line. *)
Lemma no_start_app sub a b c : no_start sub (a +:+ b) c = no_start sub a (b +:+ c) && no_start sub b c.
Proof.
  induction a as [|d a IH]; [done|]. rewrite append_cons. cbn [no_start].
  rewrite IH, append_cons, append_assoc, !append_cons. by rewrite andb_assoc.
Qed.

Lemma anchor_split : environment_anchor
  = "EnvironmentFile" +:+ String "=" ("-/etc/astrumweaver/worker.env" +:+ String "010" EmptyString).
Proof. reflexivity. Qed.
Lemma anchor_split_eol : environment_anchor
  = "EnvironmentFile=-/etc/astrumweaver/worker.env" +:+ String "010" EmptyString.
Proof. reflexivity. Qed.
Lemma exec_split exe : exec_start_of exe = "ExecStart" +:+ String "=" (exe +:+ config_argument).
Proof. reflexivity. Qed.

Section plain_user.
Variable u : InstalledWorkerUnit.
Hypothesis Hu : wf_unit u.
Hypothesis Heq : lacks "=" (iu_service_user u) = true.

Lemma no_start_user p q b : lacks "010" p = true →
  no_start (p +:+ String "=" q) (iu_service_user u) (String "010" b) = true.
Proof. intros Hp. by apply no_start_crossing. Qed.

Lemma no_start_exe p q b : lacks " " p = true →
  no_start (p +:+ String "010" q) (iu_executable u) (String " " b) = true.
Proof.
  intros Hp. apply no_start_crossing; [done..|]. destruct Hu as (_ & _ & _ & _ & Hn & _).
  unfold lacks. eapply all_chars_impl; [|exact Hn]. intros c Hc.
  case_bool_decide as E; [by rewrite E in Hc|done].
Qed.

(** A directive whose name is in no closed piece before it. *)
Lemma no_start_before p q b : lacks "010" p = true →
  (∀ t, no_start (p +:+ String "=" q) user_directive t = true) →
  (∀ t, no_start (p +:+ String "=" q) group_directive t = true) →
  no_start (p +:+ String "=" q) supplementary_line b = true →
  no_start (p +:+ String "=" q) (before_env u) b = true.
Proof.
  intros Hp H1 H2 H3. unfold before_env. rewrite !no_start_app, H1, H2, H3. cbn [andb].
  rewrite !andb_true_r. apply andb_true_iff. split; apply (no_start_user p q); done.
Qed.

Definition env_line (bridge : bool) : string :=
  if bridge then _RUNTIME_DRIVER_ENV_LINE +:+ String "010" EmptyString else EmptyString.
Definition after_exec (mode : string) : string :=
  (if bool_decide (mode = "runtime") then manifest_argument else EmptyString) +:+ String "010" _UNIT_SUFFIX.

Lemma anchor_before b : no_start environment_anchor (before_env u) (environment_anchor +:+ b) = true.
Proof. rewrite anchor_split. apply no_start_before; [reflexivity|intros; reflexivity..]. Qed.

Lemma anchor_after bridge mode :
  count_str environment_anchor (env_line bridge +:+ preflight_line +:+ exec_start_of (iu_executable u)
                                +:+ after_exec mode) = 0%nat.
Proof.
  unfold exec_start_of. rewrite !append_assoc, <-(append_assoc preflight_line), <-(append_assoc (env_line bridge)).
  rewrite count_no_start by (by destruct bridge).
  rewrite count_no_start.
  - unfold after_exec. by case_bool_decide.
  - rewrite anchor_split_eol. by apply no_start_exe.
Qed.

Lemma unit_text_pieces : unit_text u =
  before_env u +:+ environment_anchor +:+ env_line (iu_nvidia_driver_bridge u) +:+ preflight_line
  +:+ exec_start_of (iu_executable u) +:+ after_exec (iu_execution_mode u).
Proof. rewrite unit_text_split. unfold after_exec. by rewrite ?append_assoc. Qed.

Lemma count_anchor : count_str environment_anchor (unit_text u) = 1%nat.
Proof.
  rewrite unit_text_pieces, count_no_start by apply anchor_before.
  by rewrite count_here, anchor_after.
Qed.

Lemma replace_anchor : iu_nvidia_driver_bridge u = false →
  replace1 environment_anchor (environment_anchor +:+ _RUNTIME_DRIVER_ENV_LINE +:+ String "010" EmptyString)
    (unit_text u)
  = before_env u +:+ environment_anchor +:+ env_line true +:+ preflight_line
    +:+ exec_start_of (iu_executable u) +:+ after_exec (iu_execution_mode u).
Proof.
  intros Hb. rewrite unit_text_pieces, replace_no_start by apply anchor_before.
  rewrite replace_here by done. rewrite Hb. unfold env_line. by rewrite ?append_assoc.
Qed.

Lemma exec_before bridge b :
  no_start (exec_start_of (iu_executable u)) (before_env u +:+ environment_anchor +:+ env_line bridge
                                              +:+ preflight_line) b = true.
Proof.
  rewrite !no_start_app. rewrite exec_split.
  rewrite no_start_before by (intros; reflexivity). cbn [andb].
  by destruct bridge.
Qed.

Lemma exec_after mode : count_str (exec_start_of (iu_executable u)) (after_exec mode) = 0%nat.
Proof. rewrite exec_split. unfold after_exec. by case_bool_decide. Qed.

Lemma count_exec : count_str (exec_start_of (iu_executable u)) (unit_text u) = 1%nat.
Proof.
  rewrite unit_text_pieces.
  rewrite <-(append_assoc (env_line _)), <-(append_assoc environment_anchor), <-(append_assoc (before_env u)).
  rewrite count_no_start by apply exec_before. by rewrite count_here, exec_after.
Qed.

Lemma replace_exec bridge mode new :
  replace1 (exec_start_of (iu_executable u)) new
    (before_env u +:+ environment_anchor +:+ env_line bridge +:+ preflight_line
     +:+ exec_start_of (iu_executable u) +:+ after_exec mode)
  = before_env u +:+ environment_anchor +:+ env_line bridge +:+ preflight_line +:+ new +:+ after_exec mode.
Proof.
  rewrite <-(append_assoc (env_line _)), <-(append_assoc environment_anchor), <-(append_assoc (before_env u)).
  rewrite replace_no_start by apply exec_before. rewrite replace_here by done.
  by rewrite ?append_assoc.
Qed.

(** The migration of a canonical unit. *)
Lemma render_unit_text : render_runtime_worker_unit (unit_text u) = Ok (unit_text (to_runtime u)).
Proof.
  unfold render_runtime_worker_unit. rewrite parse_unit_text by done. cbn [mbind result_bind].
  assert (unit_text (to_runtime u) = before_env u +:+ environment_anchor +:+ env_line true +:+ preflight_line
            +:+ exec_start_of (iu_executable u) +:+ after_exec "runtime") as Hr.
  { rewrite unit_text_split. unfold after_exec. by rewrite ?append_assoc. }
  pose proof (parse_unit_text (to_runtime u) (to_runtime_wf u Hu)) as Hp.
  pose proof Hu as (_ & _ & _ & _ & _ & _ & Hm).
  destruct (bool_decide (iu_execution_mode u = "runtime") && iu_nvidia_driver_bridge u) eqn:E.
  { bools. f_equal. f_equal. destruct u as [us ex mo br]. cbn in *. by subst. }
  rewrite count_anchor, count_exec. cbn [Nat.eqb negb require mbind result_bind].
  rewrite andb_false_r. cbn [negb require mbind result_bind].
  assert (iu_nvidia_driver_bridge u = false) as Hb.
  { destruct Hm as [Hm|[_ Hb]]; [|done]. by rewrite bool_decide_true in E. }
  rewrite replace_anchor by done.
  assert ((if bool_decide (iu_execution_mode u = "smoke")
           then replace1 (exec_start_of (iu_executable u)) (exec_start_of (iu_executable u) +:+ manifest_argument)
                  (before_env u +:+ environment_anchor +:+ env_line true +:+ preflight_line
                   +:+ exec_start_of (iu_executable u) +:+ after_exec (iu_execution_mode u))
           else before_env u +:+ environment_anchor +:+ env_line true +:+ preflight_line
                +:+ exec_start_of (iu_executable u) +:+ after_exec (iu_execution_mode u))
          = unit_text (to_runtime u)) as ->.
  { rewrite Hr. destruct Hm as [->|[-> _]]; [done|].
    rewrite bool_decide_true by done. rewrite replace_exec. by rewrite ?append_assoc. }
  rewrite Hp. cbn [mbind result_bind to_runtime iu_execution_mode iu_nvidia_driver_bridge iu_executable].
  by rewrite !bool_decide_true.
Qed.
End plain_user.

(** What the migration of any unit returns. *)
Lemma render_unit_Ok text text' : render_runtime_worker_unit text = Ok text' →
  ∃ u u', parse_installed_worker_unit text = Ok u ∧ parse_installed_worker_unit text' = Ok u' ∧
    iu_execution_mode u' = "runtime" ∧ iu_nvidia_driver_bridge u' = true ∧
    iu_executable u' = iu_executable u.
Proof.
  unfold render_runtime_worker_unit. intros H. apply bind_Ok in H as (u & Hu & H).
  destruct (bool_decide _ && iu_nvidia_driver_bridge u) eqn:E.
  - bools. injection H as <-. by exists u, u.
  - do 2 apply guard_Ok in H as [_ H]. apply bind_Ok in H as (u' & Hu' & H).
    do 2 apply guard_Ok in H as [? H]. bools. injection H as <-. exists u, u'. by split_and!.
Qed.

Lemma render_unit_stable text u : parse_installed_worker_unit text = Ok u →
  iu_execution_mode u = "runtime" → iu_nvidia_driver_bridge u = true →
  render_runtime_worker_unit text = Ok text.
Proof.
  intros Hu Hm Hb. unfold render_runtime_worker_unit. rewrite Hu. cbn [mbind result_bind].
  by rewrite bool_decide_true, Hb.
Qed.

(** ** The configuration *)

Section toml.
Context `{Toml}.

Lemma worker_contract_Ok parsed worker contract : worker_contract parsed worker = Ok contract →
  ∃ spec, ∀ mode manifest, ic_spec (contract mode manifest) = spec ∧
    ic_execution_mode (contract mode manifest) = mode ∧
    ic_runtime_manifest (contract mode manifest) = manifest.
Proof.
  unfold worker_contract. intros Hc. simp_res.
  match goal with H : spec_or_invalid _ = Ok ?s |- _ => exists s end. intros mode manifest. by cbn.
Qed.

(** What a parsed contract says of its text. *)
Definition contract_of (text : string) (c : InstalledWorkerContract) : Prop :=
  (ic_execution_mode c = "smoke" ∧ ic_runtime_manifest c = None ∧
   capabilities (ic_spec c) = {["debug.echo"]} ∧ endswith _SMOKE_SUFFIX text = true ∧
   count_str _SMOKE_CAPABILITIES_LINE text = 1%nat) ∨
  (ic_execution_mode c = "runtime" ∧ ic_runtime_manifest c = Some DEFAULT_RUNTIME_MANIFEST ∧
   capabilities (ic_spec c) = RUNTIME_CAPABILITIES ∧
   endswith (runtime_suffix DEFAULT_RUNTIME_MANIFEST) text = true ∧
   count_str _RUNTIME_CAPABILITIES_LINE text = 1%nat).

Lemma parse_toml_Ok text c : parse_installed_worker_toml text = Ok c → contract_of text c.
Proof.
  unfold parse_installed_worker_toml. destruct (toml_loads text) as [parsed|]; [|done].
  destruct (get "worker" parsed) as [| | | | | |worker]; try done.
  intros Hp. apply bind_Ok in Hp as (contract & Hc & Hp).
  apply worker_contract_Ok in Hc as (spec & Hc).
  apply bind_Ok in Hp as (executor & _ & Hp). apply bind_Ok in Hp as (runtime & _ & Hp).
  destruct executor as [|x xs], runtime as [|y ys]; try done.
  - right. unfold runtime_contract in Hp. simp_res. bools. subst.
    match goal with H : Nat.eqb _ _ = true |- _ => apply Nat.eqb_eq in H end.
    match goal with H : strip _ = DEFAULT_RUNTIME_MANIFEST |- _ => rewrite H in * end.
    destruct (Hc "runtime" (Some DEFAULT_RUNTIME_MANIFEST)) as (_ & ? & ?). by split_and!.
  - left. unfold smoke_contract in Hp. simp_res. bools. subst.
    match goal with H : Nat.eqb _ _ = true |- _ => apply Nat.eqb_eq in H end.
    destruct (Hc "smoke" None) as (_ & ? & ?). by split_and!.
Qed.

(** The text changes in two places only. *)
Definition migrated_text (text text' : string) : Prop :=
  ∃ a b, text = (a +:+ _SMOKE_CAPABILITIES_LINE +:+ b) +:+ _SMOKE_SUFFIX ∧
         text' = (a +:+ _RUNTIME_CAPABILITIES_LINE +:+ b) +:+ runtime_suffix DEFAULT_RUNTIME_MANIFEST.

Lemma render_toml_Ok text manifest text' : render_runtime_worker_toml text manifest = Ok text' →
  ∃ c c', parse_installed_worker_toml text = Ok c ∧ parse_installed_worker_toml text' = Ok c' ∧
    ic_execution_mode c' = "runtime" ∧ manifest = DEFAULT_RUNTIME_MANIFEST ∧
    (ic_execution_mode c = "runtime" ∧ text' = text ∨
     ic_execution_mode c = "smoke" ∧ migrated_text text text').
Proof.
  unfold render_runtime_worker_toml. intros Hr. apply bind_Ok in Hr as (c & Hc & Hr).
  apply guard_Ok in Hr as [Hm Hr]. bools. subst manifest.
  pose proof (parse_toml_Ok _ _ Hc) as Ho. exists c.
  destruct (decide (ic_execution_mode c = "runtime")) as [E|E].
  - rewrite bool_decide_true in Hr by done. apply guard_Ok in Hr as [_ Hr]. injection Hr as <-.
    exists c. split_and!; try done. by left.
  - rewrite bool_decide_false in Hr by done. destruct Ho as [(Hs & _ & _ & Hend & _)|[? _]]; [|done].
    apply guard_Ok in Hr as [Hn Hr]. apply bind_Ok in Hr as (c' & Hc' & Hr).
    apply guard_Ok in Hr as [Hm Hr]. bools. injection Hr as <-.
    exists c'. split_and!; try done. right. split; [done|].
    apply endswith_spec in Hend as [p ->]. rewrite cut_suffix_app in *.
    apply Nat.eqb_eq in Hn.
    destruct (replace1_spec _SMOKE_CAPABILITIES_LINE _RUNTIME_CAPABILITIES_LINE p) as (a & b & -> & Hab);
      [done|lia|]. exists a, b. by rewrite Hab.
Qed.

Lemma render_toml_stable text c : parse_installed_worker_toml text = Ok c → ic_execution_mode c = "runtime" →
  render_runtime_worker_toml text DEFAULT_RUNTIME_MANIFEST = Ok text.
Proof.
  intros Hc Hm. unfold render_runtime_worker_toml. rewrite Hc. cbn [mbind result_bind].
  destruct (parse_toml_Ok _ _ Hc) as [[? _]|(_ & Hr & _)]; [congruence|].
  rewrite Hr, (bool_decide_true (ic_execution_mode c = "runtime")) by done.
  by rewrite !bool_decide_true.
Qed.
End toml.

(** ** Properties *)

(** The unit parser is exact and fails closed.  [parse_installed_worker_unit]
    accepts precisely the texts that the canonical template renders for a service user on
    one line and a stable executable without spaces outside the Nix store, with the driver
    environment only in runtime mode, and returns those very fields; every other text raises
    [RuntimeError]. *)
Theorem worker_unit_exact text u :
  (parse_installed_worker_unit text = Ok u ↔ wf_unit u ∧ text = unit_text u) ∧
  ((∀ v, parse_installed_worker_unit text ≠ Ok v) →
   ∃ m, parse_installed_worker_unit text = Err (RuntimeError m)).
Proof.
  split; [split; [apply parse_unit_Ok|intros [Hu ->]; by apply parse_unit_text]|].
  intros Hn. destruct (parse_unit_fails text) as [[v Hv]|Hm]; [by destruct (Hn v)|done].
Qed.

Definition demo_unit : InstalledWorkerUnit :=
  {| iu_service_user := "astrumweaver"; iu_executable := "/usr/local/bin/astrumweaver-worker";
     iu_execution_mode := "smoke"; iu_nvidia_driver_bridge := false |}.
Lemma demo_unit_wf : wf_unit demo_unit.
Proof. unfold wf_unit. split_and!; try done; cbn; [lia|]. by right. Qed.

Lemma worker_unit_exact_witness :
  (parse_installed_worker_unit (unit_text demo_unit) = Ok demo_unit ↔
   wf_unit demo_unit ∧ unit_text demo_unit = unit_text demo_unit) ∧
  ((∀ v, parse_installed_worker_unit (unit_text demo_unit) ≠ Ok v) →
   ∃ m, parse_installed_worker_unit (unit_text demo_unit) = Err (RuntimeError m)).
Proof. apply (worker_unit_exact (unit_text demo_unit) demo_unit). Defined.

(** Property C36: the migration rewrites only what it must, and is idempotent.  A canonical
    unit whose service user has no equals sign becomes the canonical runtime unit with the
    driver bridge, the same user and the same executable; a configuration is rewritten in
    its capability line and its last section only, and the result parses as a runtime
    contract; whatever either rewriting returns, it returns again unchanged. *)
Theorem migration_exact `{Toml} :
  (∀ u, wf_unit u → lacks "=" (iu_service_user u) = true →
     render_runtime_worker_unit (unit_text u) = Ok (unit_text (to_runtime u))) ∧
  (∀ text text', render_runtime_worker_unit text = Ok text' →
     (∃ u u', parse_installed_worker_unit text = Ok u ∧ parse_installed_worker_unit text' = Ok u' ∧
        iu_execution_mode u' = "runtime" ∧ iu_nvidia_driver_bridge u' = true ∧
        iu_executable u' = iu_executable u) ∧
     render_runtime_worker_unit text' = Ok text') ∧
  (∀ text manifest text', render_runtime_worker_toml text manifest = Ok text' →
     (text' = text ∨ migrated_text text text') ∧
     (∃ c, parse_installed_worker_toml text' = Ok c ∧ ic_execution_mode c = "runtime" ∧
        ic_runtime_manifest c = Some DEFAULT_RUNTIME_MANIFEST ∧
        capabilities (ic_spec c) = RUNTIME_CAPABILITIES) ∧
     render_runtime_worker_toml text' manifest = Ok text').
Proof.
  split_and!.
  - intros u Hu He. by apply render_unit_text.
  - intros text text' Hr. apply render_unit_Ok in Hr as (u & u' & ? & ? & ? & ? & ?).
    split; [by exists u, u'|]. by eapply render_unit_stable.
  - intros text manifest text' Hr.
    apply render_toml_Ok in Hr as (c & c' & Hc & Hc' & Hm & -> & Hcase).
    split_and!; [naive_solver| |by eapply render_toml_stable].
    exists c'. destruct (parse_toml_Ok _ _ Hc') as [[? _]|(_ & ? & ? & _)]; [congruence|]. by split_and!.
Qed.

(** An installed configuration, and what [tomllib] makes of it and of its migration. *)
Definition demo_config (capabilities_line suffix : string) : string :=
  print_lines ["[worker]"; "id = " +:+ quoted "worker-1"; capabilities_line; "gpu_count = 1"] +:+ suffix.
Definition demo_worker (caps : list string) : dict pyval :=
  [("id", PStr "worker-1"); ("class", PStr "gpu"); ("control_url", PStr "http://control");
   ("capabilities", PList (PStr <$> caps)); ("gpu_uuids", PList [PStr "GPU-1"]); ("gpu_count", PInt 1);
   ("total_vram_mb", PInt 8192); ("max_single_gpu_vram_mb", PInt 8192)].
Definition demo_toml : Toml := {|
  toml_loads text :=
    if endswith _SMOKE_SUFFIX text
    then Some [("worker", PDict (demo_worker ["debug.echo"]));
               ("executor", PDict [("factory", PStr SMOKE_EXECUTOR_FACTORY); ("settings", PDict [])])]
    else Some [("worker", PDict (demo_worker ["llm.chat"; "text.generate"]));
               ("runtime", PDict [("manifest", PStr DEFAULT_RUNTIME_MANIFEST);
                                  ("startup_timeout_seconds", PInt 600);
                                  ("shutdown_timeout_seconds", PInt 60)])]
|}.
Definition demo_smoke : string := demo_config _SMOKE_CAPABILITIES_LINE _SMOKE_SUFFIX.
Definition demo_runtime : string :=
  demo_config _RUNTIME_CAPABILITIES_LINE (runtime_suffix DEFAULT_RUNTIME_MANIFEST).

Lemma migration_exact_witness :
  render_runtime_worker_unit (unit_text demo_unit) = Ok (unit_text (to_runtime demo_unit)) ∧
  render_runtime_worker_toml (H:=demo_toml) demo_runtime DEFAULT_RUNTIME_MANIFEST = Ok demo_runtime.
Proof.
  pose proof (migration_exact (H:=demo_toml)) as (Hu & _ & Ht). split.
  - apply Hu; [apply demo_unit_wf|reflexivity].
  - apply (Ht demo_smoke). vm_compute. reflexivity.
Defined.
