(* ===== verification/Discovery.v ===== *)
(** * Discovering the host of a setup

    Models [src/src/astrumweaver/setup/discovery.py]: the GPUs nvidia-smi lists, the
    operating system, its commands and privileges.  What the host answers is a record of
    functions. *)

From S2P Require Import Prelude PyStr PyDict PyVal PyHost PyText RuntimeContracts Deployment SetupContracts.

(** A text file: its text, an [OSError], or bytes that are not UTF-8. *)
Inductive file_read := FileText (text : string) | FileUnavailable | FileUndecodable.
(** [subprocess.run(check=True)]: the output, [FileNotFoundError], or another [OSError] or
    [CalledProcessError]. *)
Inductive run_outcome := RunOutput (stdout : string) | RunNotFound | RunFailed.

(** The answers of the operating system. *)
Record os_answers := {
  os_run : list string → run_outcome;
  os_read : string → file_read;
  os_exists : string → bool;
  os_which : string → bool;
  os_cpu_count : option Z;
  os_geteuid : Z;
  os_machine : string;
}.

(** ** GPUs *)

(** [_optional_nvidia_value], setup/discovery.py lines 24-32. *)
Definition _optional_nvidia_value (value : option string) : option string :=
  match value with
  | None => None
  | Some v =>
      let normalized := strip v in
      if negb (str_truthy normalized) then None
      else if bool_decide (lower normalized = "n/a") then None
      else Some normalized
  end.

(** [DiscoveredGpu], setup/discovery.py lines 35-40. *)
Record DiscoveredGpu := {
  dg_uuid : string;
  dg_memory_mb : Z;
  dg_compute_capability : option string;
  dg_device_class : option string;
}.

(** [DiscoveredGpu.__post_init__], setup/discovery.py lines 42-58. *)
Definition mk_DiscoveredGpu (uuid : string) (memory_mb : Z)
    (compute_capability device_class : option string) : result DiscoveredGpu :=
  let normalized_uuid := strip uuid in
  require (str_truthy normalized_uuid) (ValueError "GPU UUID must not be blank");;
  require (0 <? memory_mb) (ValueError "GPU memory must be positive");;
  Ok {| dg_uuid := normalized_uuid; dg_memory_mb := memory_mb;
        dg_compute_capability := _optional_nvidia_value compute_capability;
        dg_device_class := _optional_nvidia_value device_class |}.

(** One row of the query, setup/discovery.py lines 84-90. *)
Definition query_row (fields : list string) (rows : list (list string)) (raw_line : string)
    : result (list (list string)) :=
  if negb (str_truthy (strip raw_line)) then Ok rows
  else
    let values := strip <$> split_char "," raw_line in
    require (Nat.eqb (length values) (length fields) && forallb str_truthy values)
      (HostDiscoveryError "nvidia-smi returned malformed GPU discovery data");;
    Ok (rows ++ [values]).

(** [_run_nvidia_query], setup/discovery.py lines 61-91. *)
Definition _run_nvidia_query (os : os_answers) (command : string) (fields : list string)
    : result (list (list string)) :=
  match os_run os [command; "--query-gpu=" +:+ join "," fields; "--format=csv,noheader,nounits"] with
  | RunNotFound => Ok []
  | RunFailed => Err (HostDiscoveryError "nvidia-smi GPU discovery failed")
  | RunOutput stdout => foldR (query_row fields) [] (splitlines stdout)
  end.

(** [try: int(memory_raw) except ValueError]. *)
Definition memory_of (memory_raw : string) : result Z :=
  match int_of_str memory_raw with
  | Err (ValueError _) => Err (HostDiscoveryError "nvidia-smi returned invalid GPU memory")
  | r => r
  end.

(** One parsed row, setup/discovery.py lines 126-172. *)
Definition gpu_of_row (row : list string) : result DiscoveredGpu :=
  match row with
  | uuid :: memory_raw :: more =>
      memory_mb ← memory_of memory_raw;
      mk_DiscoveredGpu uuid memory_mb (more !! 1%nat) (head more)
  | _ => Err (ValueError "not enough values to unpack")
  end.

Definition is_discovery_error (e : exn) : bool := if e is HostDiscoveryError _ then true else false.

(** [discover_local_gpus], setup/discovery.py lines 94-172. *)
Definition discover_local_gpus (os : os_answers) (command : string) : result (list DiscoveredGpu) :=
  let query fields := _run_nvidia_query os command fields in
  let rows :=
    match query ["uuid"; "memory.total"; "name"; "compute_cap"] with
    | Err (HostDiscoveryError _) =>
        match query ["uuid"; "memory.total"; "name"] with
        | Err (HostDiscoveryError _) => query ["uuid"; "memory.total"]
        | r => r
        end
    | r => r
    end in
  rows' ← rows; mapR gpu_of_row rows'.

(** ** Host metadata *)

(** One line of a key-value file, setup/discovery.py lines 183-188. *)
Definition key_value_line (values : dict string) (raw_line : string) : dict string :=
  let line := strip raw_line in
  if negb (str_truthy line) || startswith "#" line then values
  else
    let '(key, found, raw_value) := partition_char "=" line in
    if found : bool
    then dset (strip key) (strip_char "039" (strip_char "034" (strip raw_value))) values
    else values.

(** [_read_key_value_file], setup/discovery.py lines 175-189. *)
Definition _read_key_value_file (os : os_answers) (path : string) : result (dict string) :=
  match os_read os path with
  | FileUnavailable => Err (HostDiscoveryError ("cannot read host metadata: " +:+ path))
  | FileUndecodable => Err (ValueError "codec can't decode byte")
  | FileText content => Ok (foldl key_value_line [] (splitlines content))
  end.

(** The scan of [_read_host_ram_mb], setup/discovery.py lines 198-213. *)
Fixpoint scan_ram_mb (lines : list string) : result Z :=
  match lines with
  | [] => Err (HostDiscoveryError "MemTotal was not found")
  | raw_line :: rest =>
      if negb (startswith "MemTotal:" raw_line) then scan_ram_mb rest
      else match fields raw_line with
           | _ :: f :: _ =>
               match int_of_str f with
               | Ok kib =>
                   let mib := kib / 1024 in
                   require (negb (mib <=? 0)) (HostDiscoveryError "host RAM must be positive");;
                   Ok mib
               | Err (ValueError _) => Err (HostDiscoveryError "invalid MemTotal value")
               | Err e => Err e
               end
           | _ => Err (HostDiscoveryError "MemTotal was not found")
           end
  end.

(** [_read_host_ram_mb], setup/discovery.py lines 192-213. *)
Definition _read_host_ram_mb (os : os_answers) (path : string) : result Z :=
  match os_read os path with
  | FileUnavailable => Err (HostDiscoveryError "cannot read host RAM information")
  | FileUndecodable => Err (ValueError "codec can't decode byte")
  | FileText content => scan_ram_mb (splitlines content)
  end.

(** [command_candidates], setup/discovery.py lines 245-254. *)
Definition command_candidates : list string :=
  ["systemctl"; "nix"; "nvidia-smi"; "sudo"; "apt-get"; "dnf"; "pacman"; "zypper"].
Definition generic_package_managers : list string := ["apt-get"; "dnf"; "pacman"; "zypper"].

(** The deployment path and the package manager, setup/discovery.py lines 261-278. *)
Definition choose_path (is_nixos : bool) (available : list string)
    : result (DeploymentPath * option string) :=
  if is_nixos then Ok (NIXOS, if bool_decide ("nix" ∈ available) then Some "nix" else None)
  else
    require (bool_decide ("systemctl" ∈ available))
      (HostDiscoveryError "v0.x generic Linux setup requires systemd/systemctl");;
    Ok (SYSTEMD, head (List.filter (λ c, bool_decide (c ∈ available)) generic_package_managers)).

(** The privileges of the caller, setup/discovery.py lines 282-287. *)
Definition choose_privilege (euid : Z) (available : list string) : PrivilegeMode :=
  if euid =? 0 then ROOT
  else if bool_decide ("sudo" ∈ available) then SUDO else PRIVILEGE_UNAVAILABLE.

(** [release.get(key) or default]. *)
Definition release_value (key default_value : string) (release : dict string) : string :=
  match dget key release with
  | Some v => if str_truthy v then v else default_value
  | None => default_value
  end.

(** [discover_local_host], setup/discovery.py lines 216-303. *)
Definition discover_local_host (os : os_answers) (os_release_path meminfo_path nixos_marker_path : string)
    : result SetupHostSnapshot :=
  release ← _read_key_value_file os os_release_path;
  let os_id := lower (strip (release_value "ID" "linux" release)) in
  let os_version := strip (release_value "VERSION_ID" EmptyString release) in
  match os_cpu_count os with
  | None => Err (HostDiscoveryError "CPU count is unavailable")
  | Some count =>
      require (negb (count <=? 0)) (HostDiscoveryError "CPU count is unavailable");;
      ram_mb ← _read_host_ram_mb os meminfo_path;
      let architecture := strip (os_machine os) in
      require (str_truthy architecture) (HostDiscoveryError "architecture is unavailable");;
      let available := List.filter (os_which os) command_candidates in
      let is_nixos := bool_decide (os_id = "nixos") || os_exists os nixos_marker_path in
      path ← choose_path is_nixos available;
      let service_manager := if bool_decide ("systemctl" ∈ available) then Some "systemd" else None in
      host ← mk_RuntimeHostFacts count ram_mb architecture [];
      mk_SetupHostSnapshot host path.1 os_id os_version service_manager path.2 available
        (choose_privilege (os_geteuid os) available) []
  end.

(** ** Host discovery: agreement with the worker, choices, order of the GPUs *)

(** ** The host *)

(** The two scans of meminfo. *)
Lemma scan_ram_mb_meminfo lines mb : scan_ram_mb lines = Ok mb → meminfo_ram_mb lines = Ok (Some mb) ∧ 0 < mb.
Proof.
  induction lines as [|l lines IH]; cbn [scan_ram_mb meminfo_ram_mb]; [done|].
  destruct (startswith "MemTotal:" l); [|exact IH]. cbn [negb].
  destruct (fields l) as [|f0 [|f fs]]; try done.
  destruct (int_of_str f) as [z|[]]; try done.
  intros H. apply guard_Ok in H as [Hz H]. bools. apply Z.leb_gt in Hz. by injection H as <-.
Qed.

(** What the worker discovers at startup from the same answers. *)
Definition worker_host_facts (os : os_answers) (meminfo_path : string) : result RuntimeHostFacts :=
  discover_runtime_host_facts (os_cpu_count os)
    (match os_read os meminfo_path with FileText t => Some t | _ => None end) (os_machine os).

Lemma read_host_ram_text os path mb : _read_host_ram_mb os path = Ok mb →
  ∃ text, os_read os path = FileText text ∧ meminfo_ram_mb (splitlines text) = Ok (Some mb) ∧ 0 < mb.
Proof.
  unfold _read_host_ram_mb. destruct (os_read os path) as [text| |]; try done.
  intros H%scan_ram_mb_meminfo. by exists text.
Qed.

(** The commands that were looked for and found. *)
Definition found (os : os_answers) (c : string) : Prop := c ∈ command_candidates ∧ os_which os c = true.

Lemma elem_of_available os c : c ∈ List.filter (os_which os) command_candidates ↔ found os c.
Proof. rewrite !list_elem_of_In, filter_In, <-!list_elem_of_In. done. Qed.

(** The deployment path and package manager of a discovered host. *)
Definition path_chosen (os : os_answers) (nixos : bool) (path : DeploymentPath) (pm : option string) : Prop :=
  if nixos then path = NIXOS ∧ (pm = Some "nix" ∧ found os "nix" ∨ pm = None ∧ ¬ found os "nix")
  else path = SYSTEMD ∧ found os "systemctl" ∧
       (∀ c, pm = Some c → found os c ∧
          ∃ before after, generic_package_managers = before ++ c :: after ∧ ∀ b, b ∈ before → ¬ found os b) ∧
       (pm = None → ∀ c, c ∈ generic_package_managers → ¬ found os c).

Lemma first_available (p : string → bool) l :
  match head (List.filter p l) with
  | Some c => ∃ before after, l = before ++ c :: after ∧ p c = true ∧ ∀ b, b ∈ before → p b = false
  | None => ∀ c, c ∈ l → p c = false
  end.
Proof.
  induction l as [|x l IH]; cbn; [by intros c ?%elem_of_nil|].
  destruct (p x) eqn:E; cbn.
  - exists [], l. split_and!; [done..|by intros b ?%elem_of_nil].
  - destruct (head (List.filter p l)) as [c|].
    + destruct IH as (b & a & -> & Hc & Hb). exists (x :: b), a. split_and!; [done..|].
      intros y [->|Hy]%elem_of_cons; auto.
    + intros c [->|Hc]%elem_of_cons; auto.
Qed.

Lemma choose_path_Ok os available nixos r : (∀ c, c ∈ available ↔ found os c) →
  choose_path nixos available = Ok r → path_chosen os nixos r.1 r.2.
Proof.
  intros Hav. unfold choose_path, path_chosen. destruct nixos.
  - intros <-%Ok_inj. split; [done|]. cbn [snd]. rewrite <-Hav. case_bool_decide; auto.
  - intros H. apply guard_Ok in H as [Hs H]. bools. rewrite Hav in Hs.
    apply Ok_inj in H as <-. cbn [fst snd]. split; [done|]. split; [done|].
    pose proof (first_available (λ c, bool_decide (c ∈ available)) generic_package_managers) as Hf.
    destruct (head (List.filter _ generic_package_managers)) as [c|].
    + destruct Hf as (b & a & Hba & Hc & Hb). split; [|done]. intros c' [= <-]. bools.
      split; [by apply Hav|]. exists b, a. split; [done|].
      intros x Hx. specialize (Hb x Hx). bools. by rewrite <-Hav.
    + split; [done|]. intros _ c Hc. specialize (Hf c Hc). bools. by rewrite <-Hav.
Qed.

Lemma nonblank_available os l :
  mapR (λ c, nonblank_str c "available command") (List.filter (os_which os) command_candidates) = Ok l →
  l = List.filter (os_which os) command_candidates.
Proof.
  rewrite (mapR_id_Ok _ id).
  - intros [= <-]. apply list_fmap_id.
  - intros c Hc. apply elem_of_available in Hc as [Hc _].
    unfold command_candidates in Hc. rewrite !elem_of_cons in Hc.
    by destruct_or! Hc; try (apply elem_of_nil in Hc; done); subst.
Qed.

Lemma mk_snapshot_discovered os host path os_id os_version sm pm mode s :
  os_id = lower (strip os_id) → (∀ c, pm = Some c → nonblank c) → sm = None ∨ sm = Some "systemd" →
  mk_SetupHostSnapshot host path os_id os_version sm pm (List.filter (os_which os) command_candidates) mode [] = Ok s →
  hs_runtime_host s = host ∧ hs_deployment_path s = path ∧ hs_os_id s = os_id ∧
  hs_service_manager s = sm ∧ hs_package_manager s = pm ∧ hs_privilege_mode s = mode ∧
  hs_available_commands s = list_to_set (List.filter (os_which os) command_candidates) ∧ hs_metadata s = [].
Proof.
  intros Hid Hpm Hsm H. unfold mk_SetupHostSnapshot in H.
  apply bind_Ok in H as (id & Hi & H). apply nonblank_str_Ok in Hi as [-> _].
  apply bind_Ok in H as (sm' & Hsm' & H). apply bind_Ok in H as (pm' & Hpm' & H).
  apply bind_Ok in H as (cmds & Hc & H). apply nonblank_available in Hc as ->. apply Ok_inj in H as <-.
  assert (sm' = sm) as ->.
  { destruct Hsm as [->| ->]; vm_compute in Hsm'; by injection Hsm' as <-. }
  assert (pm' = pm) as ->.
  { unfold opt_nonblank in Hpm'. destruct pm as [c|]; [|by injection Hpm' as <-].
    rewrite nonblank_str_id in Hpm' by (by apply Hpm). by injection Hpm' as <-. }
  by split_and!.
Qed.

Lemma path_chosen_nonblank os nixos path pm c : path_chosen os nixos path pm → pm = Some c → nonblank c.
Proof.
  intros Hp ->. assert (found os c) as [Hc _].
  { destruct nixos; destruct Hp as [_ Hp]; [by destruct Hp as [[[= ->] ?]|[? _]]|].
    destruct Hp as (_ & Hp & _). by destruct (Hp c eq_refl). }
  unfold command_candidates in Hc. rewrite !elem_of_cons in Hc.
  by destruct_or! Hc; try (apply elem_of_nil in Hc; done); subst.
Qed.

(** ** The GPUs *)

(** A well-formed row of a query. *)
Definition row_of (n : nat) (raw : string) (row : list string) : Prop :=
  row = strip <$> split_char "," raw ∧ length row = n ∧ EmptyString ∉ row.

Lemma query_rows_Ok fields lines : ∀ acc rows, foldR (query_row fields) acc lines = Ok rows →
  ∃ new, rows = acc ++ new ∧
    Forall2 (row_of (length fields)) (List.filter (λ l, str_truthy (strip l)) lines) new.
Proof.
  induction lines as [|l lines IH]; intros acc rows; cbn [foldR List.filter].
  - intros [= ->]. exists []. split; [by rewrite app_nil_r|constructor].
  - intros (acc' & Hl & H)%bind_Ok. unfold query_row in Hl. destruct (str_truthy (strip l)) eqn:E.
    + cbn [negb] in Hl. apply guard_Ok in Hl as [Hr Hl]. bools. apply Ok_inj in Hl as <-.
      apply IH in H as (new & -> & Hnew). exists ((strip <$> split_char "," l) :: new).
      split; [by rewrite <-app_assoc|]. constructor; [|done]. split_and!; [done|by apply Nat.eqb_eq|].
      intros Hin. match goal with H : forallb _ _ = true |- _ => rewrite forallb_forall in H;
        by specialize (H EmptyString ltac:(by apply list_elem_of_In)) end.
    + cbn [negb] in Hl. apply Ok_inj in Hl as <-. by apply IH.
Qed.

(** The queries in the order they are tried. *)
Definition gpu_queries : list (list string) :=
  [["uuid"; "memory.total"; "name"; "compute_cap"]; ["uuid"; "memory.total"; "name"]; ["uuid"; "memory.total"]].

(** A GPU read from a row. *)
Definition gpu_read (row : list string) (g : DiscoveredGpu) : Prop :=
  ∃ memory, row !! 0%nat = Some (dg_uuid g) ∧ row !! 1%nat = Some memory ∧
    int_of_str memory = Ok (dg_memory_mb g) ∧ 0 < dg_memory_mb g ∧
    dg_device_class g = _optional_nvidia_value (row !! 2%nat) ∧
    dg_compute_capability g = _optional_nvidia_value (row !! 3%nat).

Lemma gpu_of_row_Ok n raw row g : row_of n raw row → gpu_of_row row = Ok g → gpu_read row g.
Proof.
  intros (Hr & _ & _). unfold gpu_of_row. destruct row as [|uuid [|memory more]]; try done.
  intros H. apply bind_Ok in H as (mb & Hm & H). unfold mk_DiscoveredGpu in H.
  apply guard_Ok in H as [_ H]. apply guard_Ok in H as [Hp H]. apply Ok_inj in H as <-.
  exists memory. cbn. split_and!; try done.
  - f_equal. assert (stripped uuid) as Hs; [|by rewrite Hs].
    assert (uuid ∈ strip <$> split_char "," raw) as (x & -> & _)%list_elem_of_fmap by (rewrite <-Hr; left).
    apply strip_stripped.
  - unfold memory_of in Hm. by destruct (int_of_str memory) as [z|[]].
  - by apply Z.ltb_lt.
  - by destruct more.
Qed.

Lemma run_query_Ok os command fields rows : _run_nvidia_query os command fields = Ok rows →
  let args := [command; "--query-gpu=" +:+ join "," fields; "--format=csv,noheader,nounits"] in
  os_run os args = RunNotFound ∧ rows = [] ∨
  ∃ stdout, os_run os args = RunOutput stdout ∧
    Forall2 (row_of (length fields)) (List.filter (λ l, str_truthy (strip l)) (splitlines stdout)) rows.
Proof.
  unfold _run_nvidia_query. cbn zeta. destruct (os_run os _) as [stdout| |]; try done.
  - intros H%query_rows_Ok. destruct H as (new & -> & Hnew). right. by exists stdout.
  - intros [= <-]. by left.
Qed.

(** The GPUs of one query: its rows in order, nothing else. *)
Definition gpus_of_query (os : os_answers) (command : string) (fields : list string)
    (gpus : list DiscoveredGpu) : Prop :=
  ∃ rows, _run_nvidia_query os command fields = Ok rows ∧ Forall2 gpu_read rows gpus.

Lemma rows_read os command fields rows gpus : _run_nvidia_query os command fields = Ok rows →
  mapR gpu_of_row rows = Ok gpus → gpus_of_query os command fields gpus.
Proof.
  intros Hq Hm. exists rows. split; [done|]. apply mapR_Ok in Hm.
  destruct (run_query_Ok _ _ _ _ Hq) as [[_ ->]|(out & _ & Hrows)]; [by inversion Hm|].
  assert (∀ r, r ∈ rows → ∃ raw, row_of (length fields) raw r) as Hr.
  { intros r Hr. apply list_elem_of_lookup in Hr as [i Hi].
    destruct (Forall2_lookup_r _ _ _ _ _ Hrows Hi) as (raw & _ & ?). by exists raw. }
  clear -Hm Hr. induction Hm as [|r g rows gpus Hrg _ IH]; constructor.
  - destruct (Hr r ltac:(left)) as [raw Hraw]. by eapply gpu_of_row_Ok.
  - apply IH. intros x Hx. apply Hr. by right.
Qed.

(** ** Properties *)

(** A discovered host is the host.  The snapshot holds exactly the host facts
    the worker finds at startup from the same answers (so the setup plan and the runtime
    agree on the host), exactly the searched commands that exist, NixOS if and only if the
    release or the marker says so and otherwise systemd, which must be there, with the first
    package manager found in the order of preference; root, sudo or no privilege follow the
    effective user and the presence of sudo. *)
Theorem host_discovery_exact os os_release_path meminfo_path marker s :
  discover_local_host os os_release_path meminfo_path marker = Ok s →
  worker_host_facts os meminfo_path = Ok (hs_runtime_host s) ∧
  (∀ c, c ∈ hs_available_commands s ↔ found os c) ∧
  path_chosen os (bool_decide (hs_os_id s = "nixos") || os_exists os marker)
    (hs_deployment_path s) (hs_package_manager s) ∧
  (hs_service_manager s = if bool_decide (found os "systemctl") then Some "systemd" else None) ∧
  hs_privilege_mode s = (if os_geteuid os =? 0 then ROOT
                         else if bool_decide (found os "sudo") then SUDO else PRIVILEGE_UNAVAILABLE) ∧
  hs_metadata s = [].
Proof.
  unfold discover_local_host. intros H. apply bind_Ok in H as (release & _ & H).
  set (os_id := lower (strip _)) in *. assert (os_id = lower (strip os_id)) as Hid.
  { unfold os_id. by rewrite strip_lower, lower_idemp, strip_idemp. }
  unfold worker_host_facts, discover_runtime_host_facts.
  destruct (os_cpu_count os) as [count|]; [|done].
  apply guard_Ok in H as [Hcount H]. apply bind_Ok in H as (ram & Hram & H).
  apply read_host_ram_text in Hram as (text & -> & Hmem & Hpos).
  apply guard_Ok in H as [Harch H]. apply bind_Ok in H as (path & Hpath & H).
  apply (choose_path_Ok os) in Hpath; [|apply elem_of_available].
  apply bind_Ok in H as (host & Hhost & H).
  apply mk_snapshot_discovered in H as (-> & -> & -> & -> & -> & -> & -> & ->);
    [|done|intros c; by eapply path_chosen_nonblank|case_bool_decide; auto].
  assert (∀ c (a b : bool), a = bool_decide (found os c) → a = bool_decide (c ∈ List.filter (os_which os) command_candidates)) as Hf.
  { intros c a _ ->. apply bool_decide_ext. by rewrite elem_of_available. }
  split_and!; try done.
  - rewrite Hcount. cbn [require mbind result_bind]. rewrite Hmem. cbn [mbind result_bind].
    rewrite (proj2 (Z.leb_gt _ _)) by lia. cbn [negb require mbind result_bind].
    rewrite Harch. exact Hhost.
  - intros c. by rewrite elem_of_list_to_set, elem_of_available.
  - by rewrite <-(Hf "systemctl" _ true eq_refl).
  - unfold choose_privilege. by rewrite <-(Hf "sudo" _ true eq_refl).
Qed.

(** GPU discovery keeps the driver's order and invents nothing.  A result is the
    rows of one of the three queries, each row one GPU with the row's UUID and a positive
    memory, in the order of nvidia-smi; a later query is read only when every earlier one
    failed as a discovery error, and a driver that is not installed means no GPU. *)
Theorem gpu_discovery_ordered os command gpus :
  discover_local_gpus os command = Ok gpus →
  ∃ i fields, gpu_queries !! i = Some fields ∧ gpus_of_query os command fields gpus ∧
    ∀ j earlier, (j < i)%nat → gpu_queries !! j = Some earlier →
      ∃ m, _run_nvidia_query os command earlier = Err (HostDiscoveryError m).
Proof.
  unfold discover_local_gpus. cbn zeta. intros H.
  destruct (_run_nvidia_query os command ["uuid"; "memory.total"; "name"; "compute_cap"]) as [rows|e] eqn:E1.
  { exists 0%nat. eexists. split; [reflexivity|]. split; [by eapply rows_read|lia]. }
  destruct e; try done. rename msg into m1.
  destruct (_run_nvidia_query os command ["uuid"; "memory.total"; "name"]) as [rows|e] eqn:E2.
  { exists 1%nat. eexists. split; [reflexivity|]. split; [by eapply rows_read|].
    intros [|j] earlier Hj; [|lia]. intros [= <-]. by exists m1. }
  destruct e; try done. rename msg into m2.
  apply bind_Ok in H as (rows & E3 & H).
  exists 2%nat. eexists. split; [reflexivity|]. split; [by eapply rows_read|].
  intros [|[|j]] earlier Hj; [| |lia]; intros [= <-]; [by exists m1|by exists m2].
Qed.

(** A Debian host with two GPUs whose driver knows no compute capability. *)
Definition demo_os : os_answers := {|
  os_run args := if bool_decide (args = ["nvidia-smi"; "--query-gpu=uuid,memory.total,name"; "--format=csv,noheader,nounits"])
                 then RunOutput (print_lines ["GPU-a, 24576, NVIDIA RTX 3090"; "GPU-b, 8192, N/A"])
                 else RunFailed;
  os_read path := if bool_decide (path = "/etc/os-release") then FileText (print_lines ["ID=debian"; "VERSION_ID='12'"])
                  else if bool_decide (path = "/proc/meminfo") then FileText (print_lines ["MemTotal: 16384000 kB"])
                  else FileUnavailable;
  os_exists _ := false;
  os_which c := bool_decide (c ∈ ["systemctl"; "nvidia-smi"; "apt-get"; "dnf"]);
  os_cpu_count := Some 8;
  os_geteuid := 0;
  os_machine := "x86_64";
|}.
Definition demo_snapshot : SetupHostSnapshot := {|
  hs_runtime_host := {| hf_cpu_count := 8; hf_host_ram_mb := 16000; hf_architecture := "x86_64"; hf_labels := [] |};
  hs_deployment_path := SYSTEMD; hs_os_id := "debian"; hs_os_version := "12";
  hs_service_manager := Some "systemd"; hs_package_manager := Some "apt-get";
  hs_available_commands := list_to_set (List.filter (os_which demo_os) command_candidates);
  hs_privilege_mode := ROOT; hs_metadata := [];
|}.
Definition demo_gpus : list DiscoveredGpu :=
  [{| dg_uuid := "GPU-a"; dg_memory_mb := 24576; dg_compute_capability := None;
      dg_device_class := Some "NVIDIA RTX 3090" |};
   {| dg_uuid := "GPU-b"; dg_memory_mb := 8192; dg_compute_capability := None; dg_device_class := None |}].

Lemma host_discovery_exact_witness :
  worker_host_facts demo_os "/proc/meminfo" = Ok (hs_runtime_host demo_snapshot) ∧
  hs_privilege_mode demo_snapshot = ROOT.
Proof.
  pose proof (host_discovery_exact demo_os "/etc/os-release" "/proc/meminfo" "/etc/NIXOS" demo_snapshot
                ltac:(vm_compute; reflexivity)) as (Hh & _ & _ & _ & Hp & _).
  split; [exact Hh|exact Hp].
Defined.

Lemma gpu_discovery_ordered_witness :
  ∃ i fields, gpu_queries !! i = Some fields ∧ gpus_of_query demo_os "nvidia-smi" fields demo_gpus ∧
    ∀ j earlier, (j < i)%nat → gpu_queries !! j = Some earlier →
      ∃ m, _run_nvidia_query demo_os "nvidia-smi" earlier = Err (HostDiscoveryError m).
Proof. apply (gpu_discovery_ordered demo_os "nvidia-smi" demo_gpus). vm_compute. reflexivity. Defined.
