(* ===== verification/Systemd.v ===== *)
(** * The systemd driver of setup: its host, and what it inspects

    Models [src/src/astrumweaver/setup/systemd.py] up to [inspect].  Everything the driver does
    outside its own memory is one of the operations [host_op]; a host answers them, changing
    its world, and every operation is logged with its answer.  [SystemdApply] has [apply] and
    [rollback]. *)

From Stdlib Require Import SpecFloat.
From S2P Require Import Prelude PyStr PyDict PyVal PyHost Effects PyText SetupFs PyNum Json GpuMapping GpuIsolation Preflight SetupContracts Migration.

(** ** The host *)

(** What the driver asks of its host: the methods of [SetupFilesystem] (modelled in [SetupFs]),
    processes, the user database, plain file tests and reads, HTTP and the clock.  [limited]
    says that a process has ten seconds; the answer of [HttpOpen] is the status. *)
Inductive host_op : Type → Type :=
  | Directory (p : path) (o : dir_opts) : host_op unit
  | ReadText (p : path) : host_op (option string)
  | WriteText (p : path) (content : string) (mode : Z) (gid : option Z) (preserve : bool) : host_op unit
  | RemoveFile (p : path) (expected : option string) : host_op unit
  | RemoveDirectory (p : path) (data_owner : option Z) : host_op bool
  | ReadLink (p : path) : host_op (option string)
  | ReplaceLink (p : path) (target : string) (expected : option string) : host_op unit
  | RemoveLink (p : path) (expected : string) : host_op unit
  | Run (argv : list string) (limited : bool) : host_op completed
  | Which (name : string) : host_op bool
  | IsFile (p : path) : host_op bool
  | IsDir (p : path) : host_op bool
  | Exists (p : path) : host_op bool
  | OpenText (p : path) : host_op string
  | Lstat (p : path) : host_op Z
  | Resolve (p : path) : host_op path
  | Stat (p : path) : host_op Z
  | Readable (p : path) : host_op bool
  | Getpwnam (name : string) : host_op Z
  | Getgrnam (name : string) : host_op Z
  | Geteuid : host_op Z
  | Getegid : host_op Z
  | HttpOpen (url : string) : host_op Z
  | HttpRead (url : string) : host_op string
  | Monotonic : host_op Z
  | Sleep (d : Z) : host_op unit.

Class SetupHost (W : Type) := { perform : ∀ A, host_op A → W → W * result A }.
Arguments perform {W _ A} _ _.

(** An operation and its answer. *)
Inductive performed :=
  | Performed : ∀ A, host_op A → result A → performed.
Arguments Performed {A} op answer.

(** [json.loads] ([None] is [JSONDecodeError]), [format(f, "g")], [float] of a text, and a
    number of seconds on the clock of the host. *)
Inductive duration := Ticks (d : Z) | Endless | NotANumber.
Class DriverLibrary := {
  json_loads : string → option pyval;
  format_g : spec_float → string;
  float_of_text : string → option spec_float;
  duration_of : spec_float → duration;
}.

(** ** Text *)

Definition GENERIC_SYSTEMD_RUNTIME_PROFILE_MANAGER : string :=
  "/nix/var/nix/profiles/astrumweaver-installer/bin/astrumweaver-runtime-profile".

(** [_PROVIDER_EXECUTABLES], setup/systemd.py lines 57-62. *)
Definition _PROVIDER_EXECUTABLES : dict string :=
  [("ollama", "ollama"); ("llama-cpp", "llama-server"); ("vllm", "vllm"); ("freetoken", "ft")].
Definition _NVIDIA_DRIVER_SONAME : string := "libcuda.so.1".
Definition _NVIDIA_DRIVER_BRIDGE_DIR : path := Path "/etc/astrumweaver/runtime/nvidia-driver".
Definition _SETUP_STATE_DIR : path := Path "/var/lib/astrumweaver-setup".

Definition newline : string := String "010" EmptyString.
(** A line break and the indentation of depth [n]. *)
Definition indentation (n : nat) : string :=
  newline +:+ foldr String.append EmptyString (replicate (2 * n) " ").

(** [json.dumps(v, indent=2, ensure_ascii=False)]. *)
Fixpoint render_indent (float_text : spec_float → string) (n : nat) (v : pyval) : string :=
  match v with
  | PList ((_ :: _) as l) =>
      "[" +:+ indentation (S n)
      +:+ join ("," +:+ indentation (S n)) (map (render_indent float_text (S n)) l)
      +:+ indentation n +:+ "]"
  | PDict ((_ :: _) as d) =>
      "{" +:+ indentation (S n)
      +:+ join ("," +:+ indentation (S n))
            (map (λ kv, quote kv.1 +:+ ": " +:+ render_indent float_text (S n) kv.2) d)
      +:+ indentation n +:+ "}"
  | _ => render float_text v
  end.

(** [_canonical_json], setup/systemd.py lines 70-76. *)
Definition _canonical_json `{Digests} (value : pyval) : string :=
  render_indent float_repr 0 (sort_keys (thaw_json value)) +:+ newline.

(** [_action_marker], setup/systemd.py lines 79-81. *)
Definition _action_marker `{Digests} (action : SetupAction) : string :=
  sha256_hex (_canonical_json (PDict (action_to_dict action))).

(** [_PROVIDER_COMPONENT.fullmatch], setup/systemd.py line 67: the form of an action id. *)
Definition provider_component (s : string) : bool := action_id_ok s.

(** [str(payload.get(key) or "")]. *)
Definition text_at (key : string) (payload : dict pyval) : result string :=
  py_str (py_or (get key payload) (PStr EmptyString)).
(** [payload.get(key) == value] for a text [value]. *)
Definition says (key value : string) (payload : dict pyval) : bool :=
  py_eqb (get key payload) (PStr value).

(** What follows the last [=>] of a line. *)
Fixpoint after_arrow (s : string) : option string :=
  match s with
  | EmptyString => None
  | String _ s' =>
      match after_arrow s' with
      | Some r => Some r
      | None => if startswith "=>" s then Some (str_drop 2 s) else None
      end
  end.

(** The first library of [ldconfig -p], setup/systemd.py lines 278-289. *)
Fixpoint first_library (lines : list string) : option path :=
  match lines with
  | [] => None
  | raw :: rest =>
      let line := strip raw in
      if negb (startswith (_NVIDIA_DRIVER_SONAME +:+ " ") line) then first_library rest
      else match after_arrow line with
           | Some r => if str_truthy (strip r) then Some (Path (strip r)) else first_library rest
           | None => first_library rest
           end
  end.

(** [stat.S_ISREG] and [stat.S_ISLNK]. *)
Definition S_ISREG (mode : Z) : bool := Z.land mode 61440 =? 32768.
Definition S_ISLNK (mode : Z) : bool := Z.land mode 61440 =? 40960.

(** The text of a [RuntimeError] (its subclasses included), and [type(exc).__name__]. *)
Definition runtime_error (e : exn) : option string :=
  match e with
  | RuntimeError m | UnsafeSetupPath m | RuntimeDeploymentAcceptanceError m | GpuMappingError m
  | HardwareAcceptanceError m | ModeTransitionError m | RuntimeLifecycleError m
  | RuntimeUnavailable m | SetupApprovalError m | SetupPlanningError m | HostDiscoveryError m => Some m
  | _ => None
  end.
Definition exn_class (e : exn) : string :=
  match e with
  | ValueError _ => "ValueError" | TypeError _ => "TypeError" | KeyError _ => "KeyError"
  | AttributeError _ => "AttributeError" | OverflowError _ => "OverflowError"
  | RuntimeError _ => "RuntimeError" | UnsafeSetupPath _ => "UnsafeSetupPath"
  | OSError _ => "OSError" | FileNotFoundError _ => "FileNotFoundError"
  | FileExistsError _ => "FileExistsError" | AssertionError _ => "AssertionError"
  | UnicodeDecodeError _ => "UnicodeDecodeError" | TOMLDecodeError _ => "TOMLDecodeError"
  | CalledProcessError _ => "CalledProcessError" | TimeoutExpired _ => "TimeoutExpired"
  | RuntimeDeploymentAcceptanceError _ => "RuntimeDeploymentAcceptanceError"
  | IndexError _ => "IndexError"
  | NotFoundError _ => "NotFoundError" | ConflictError _ => "ConflictError"
  | StorageUnavailable _ => "StorageUnavailable" | GpuMappingError _ => "GpuMappingError"
  | GpuIsolationUnavailableError _ => "GpuIsolationUnavailableError"
  | ModeTransitionError _ => "ModeTransitionError"
  | RuntimeLifecycleError _ => "RuntimeLifecycleError"
  | RuntimeUnavailable _ => "RuntimeUnavailable" | DatabaseError _ => "DatabaseError"
  | SetupApprovalError _ => "SetupApprovalError" | SetupPlanningError _ => "SetupPlanningError"
  | HostDiscoveryError _ => "HostDiscoveryError" | HTTPError _ => "HTTPError"
  | HardwareAcceptanceError _ => "HardwareAcceptanceError" | EOFError _ => "EOFError"
  | ControlTransportError _ _ => "ControlTransportError" | CancelledError => "CancelledError"
  | ProviderError _ | OutOfModel _ => "Exception"
  end.

(** ** Configuration and state *)

(** The attributes of [SystemdSetupDriver] that never change, setup/systemd.py lines 128-163. *)
Record systemd_config := {
  sc_filesystem : SetupFilesystem;
  sc_worker_config_path : path;
  sc_worker_unit_path : path;
  sc_runtime_manifest_path : path;
  sc_gpu_uuid_file_path : path;
  sc_gpu_device_map_path : path;
  sc_gpu_isolation_dropin_path : path;
  sc_gpu_device_map_command : string;
  sc_service_name : string;
  sc_systemctl : string;
  sc_nvidia_smi : string;
  sc_ldconfig : string;
  sc_nvidia_driver_library : option path;
  sc_ready_url : string;
  sc_ready_poll_interval_seconds : spec_float;
  sc_installers : dict (list string);
  sc_downloaders : dict (list string);
  sc_converters : dict (list string);
  sc_verifiers : dict (list string);
  sc_service_user : string;
  sc_service_group : string;
}.
Definition sc_root (c : systemd_config) : path := sf_root (sc_filesystem c).
Definition sc_owner (c : systemd_config) : Z := sf_owner (sc_filesystem c).

(** The host, [_worker_restart_safe] (setup/systemd.py line 167), and what was performed, the
    latest first. *)
Record driver (W : Type) := { sd_world : W; sd_safe : bool; sd_log : list performed }.
Arguments sd_world {W}. Arguments sd_safe {W}. Arguments sd_log {W}.
#[global] Arguments Build_driver {W}.

(** [min(a, b)], a number of seconds from now, and whether nothing of it remains. *)
Definition duration_lt (a b : duration) : bool :=
  match a, b with
  | Ticks x, Ticks y => x <? y
  | Ticks _, Endless => true
  | _, _ => false
  end.
Definition py_min (a b : duration) : duration := if duration_lt b a then b else a.
Definition elapse (d : duration) (dt : Z) : duration := if d is Ticks x then Ticks (x - dt) else d.
Definition over (d : duration) : bool := if d is Ticks x then x <=? 0 else false.

Section driver.
Context {W : Type} `{SetupHost W} {DG : Digests} {TM : Toml} {DL : DriverLibrary}.
Context (cfg : systemd_config).

Abbreviation D := (eff (driver W)).

Definition call {A} (op : host_op A) : D A := λ s,
  let '(w, r) := perform op (sd_world s) in
  (Build_driver w (sd_safe s) (Performed op r :: sd_log s), r).

(** [self._worker_restart_safe = b]. *)
Definition set_safe (b : bool) : D unit := sets (λ s, Build_driver (sd_world s) b (sd_log s)).

Definition blocked (detail : string) : D ActionInspection :=
  mret (mk_ActionInspection STATE_BLOCKED detail).
Definition satisfied (detail : string) : D ActionInspection :=
  mret (mk_ActionInspection SATISFIED detail).
Definition needs_apply (detail : string) : D ActionInspection :=
  mret (mk_ActionInspection NEEDS_APPLY detail).
(** [SATISFIED if b else NEEDS_APPLY]. *)
Definition satisfied_if (b : bool) (detail : string) : D ActionInspection :=
  if b then satisfied detail else needs_apply detail.

(** [try: a = m except RuntimeError as exc: return BLOCKED(str(exc))], then [k a]. *)
Definition or_blocked {A} (m : D A) (k : A → D ActionInspection) : D ActionInspection :=
  r ← try_catch (a ← m; mret (inl a))
        (λ e, match runtime_error e with Some text => mret (inr text) | None => throws e end);
  match r with inl a => k a | inr text => blocked text end.

(** [try: m except FileNotFoundError: return x]. *)
Definition or_missing {A} (x : A) (m : D A) : D A :=
  try_catch m (λ e, match e with FileNotFoundError _ => mret x | _ => throws e end).

Definition live_root : bool := bool_decide (sc_root cfg = root_path).

(** [_target], setup/systemd.py lines 169-172. *)
Definition _target (p : path) : D path :=
  if live_root then mret p
  else r ← lifts (relative_to p root_path); mret (path_join (sc_root cfg) r).

(** ** Directories and receipts *)

(** [_validate_provider_id], setup/systemd.py lines 175-177. *)
Definition _validate_provider_id (provider_id : string) : D unit :=
  ensure (provider_component provider_id)
    (UnsafeSetupPath "provider identity must be a single safe path component").

(** [_runtime_dir], setup/systemd.py lines 179-188. *)
Definition runtime_base (logical_name : string) : option string :=
  dget logical_name [("config", "/etc/astrumweaver/runtime");
                     ("state", "/var/lib/astrumweaver/runtime");
                     ("cache", "/var/cache/astrumweaver/runtime")].
Definition _runtime_dir (provider_id logical_name : string) : D path :=
  _validate_provider_id provider_id;;
  match runtime_base logical_name with
  | None => throws (UnsafeSetupPath "unknown runtime directory role")
  | Some base => _target (path_join (Path base) (Path provider_id))
  end.

(** [_receipt_path], setup/systemd.py lines 190-195. *)
Definition _receipt_path (action : SetupAction) : D path :=
  provider_id ← lifts (text_at "provider_id" (ac_payload action));
  _validate_provider_id provider_id;;
  _target (path_join (path_join _SETUP_STATE_DIR (Path provider_id))
                     (Path (_action_marker action +:+ ".json"))).

(** The policies of the directories setup owns. *)
Definition owned_opts (create : bool) (mode : Z) : dir_opts :=
  {| do_create := create; do_mode := Some mode; do_uid := Some (sc_owner cfg); do_gid := None;
     do_data_owner := None |}.

(** [_validate_receipt_path], setup/systemd.py lines 197-208. *)
Definition _validate_receipt_path (action : SetupAction) : D unit :=
  state_dir ← _target _SETUP_STATE_DIR;
  there ← or_missing false (call (Directory state_dir (owned_opts false 448));; mret true);
  if there : bool then p ← _receipt_path action; call (ReadText p);; mret tt else mret tt.

(** [_write_receipt], setup/systemd.py lines 210-219. *)
Definition _write_receipt (action : SetupAction) : D unit :=
  state_dir ← _target _SETUP_STATE_DIR;
  call (Directory state_dir (owned_opts true 448));;
  p ← _receipt_path action;
  call (WriteText p (_canonical_json (PDict [("version", PInt 1);
                       ("action_digest", PStr (_action_marker action))])) 384 None false).

(** [_service_ids], setup/systemd.py lines 395-403. *)
Definition _service_ids : D (Z * Z) :=
  try_catch (uid ← call (Getpwnam (sc_service_user cfg)); gid ← call (Getgrnam (sc_service_group cfg));
             mret (uid, gid))
    (λ e, match e with
          | KeyError _ => throws (RuntimeError
              "AstrumWeaver service user/group must exist before runtime setup")
          | _ => throws e
          end).

(** [_runtime_directory_policy], setup/systemd.py lines 405-409. *)
Definition _runtime_directory_policy (logical_name : string) : D dir_opts :=
  if bool_decide (logical_name = "config") then mret (owned_opts false 493)
  else
    ids ← (if live_root then _service_ids
           else uid ← call Geteuid; gid ← call Getegid; mret (uid, gid));
    mret {| do_create := false; do_mode := Some 488; do_uid := Some ids.1; do_gid := Some ids.2;
            do_data_owner := Some ids.1 |}.
Definition to_create (o : dir_opts) : dir_opts :=
  {| do_create := true; do_mode := do_mode o; do_uid := do_uid o; do_gid := do_gid o;
     do_data_owner := do_data_owner o |}.

(** ** Prerequisites *)

(** [d.get(key)], or [None] for an empty argv. *)
Definition argv_of (key : string) (d : dict (list string)) : option (list string) :=
  match dget key d with Some ((_ :: _) as argv) => Some argv | _ => None end.
(** [_installer], [_model_command], setup/systemd.py lines 378-393. *)
Definition _installer (provider_id : string) : option (list string) :=
  argv_of provider_id (sc_installers cfg).
Definition _model_command (provider_id : string) (kind : SetupActionKind) : option (list string) :=
  argv_of provider_id (if bool_decide (kind = DOWNLOAD_MODEL) then sc_downloaders cfg else sc_converters cfg).

(** [_provider_executable_available], setup/systemd.py lines 368-376. *)
Definition _provider_executable_available (provider_id : string) : D bool :=
  match dget provider_id _PROVIDER_EXECUTABLES with
  | None => mret false
  | Some executable => call (Which executable)
  end.

(** The configured verifier, setup/systemd.py lines 229-240. *)
Definition run_verifier (verifier : list string) (package : bool) (reference : string) : D bool :=
  checked ← try_catch
    (call (Run (verifier ++ [if package then "package" else "model"; reference]) true))
    (λ e, if is_OSError e || match e with TimeoutExpired _ => true | _ => false end
          then throws (RuntimeError "runtime prerequisite verifier failed") else throws e);
  ensure ((returncode checked =? 0) || (returncode checked =? 1))
    (RuntimeError "runtime prerequisite verifier returned an invalid status");;
  mret (returncode checked =? 0).

(** [_prerequisite_available], setup/systemd.py lines 221-250. *)
Definition _prerequisite_available (action : SetupAction) : D (option bool) :=
  provider_id ← lifts (text_at "provider_id" (ac_payload action));
  _validate_provider_id provider_id;;
  let package := bool_decide (ac_kind action = ENSURE_PACKAGE) in
  reference ← lifts (text_at (if package then "package_reference" else "model_ref") (ac_payload action));
  ensure (str_truthy reference) (RuntimeError "prerequisite reference must not be empty");;
  match argv_of provider_id (sc_verifiers cfg) with
  | Some verifier => b ← run_verifier verifier package reference; mret (Some b)
  | None =>
      if package then
        match dget provider_id _PROVIDER_EXECUTABLES with
        | None => mret None
        | Some _ => b ← _provider_executable_available provider_id; mret (Some b)
        end
      else if bool_decide (ac_kind action = DOWNLOAD_MODEL) && startswith "/" reference then
        target ← _target (Path reference);
        file ← call (IsFile target);
        if file : bool then mret (Some true) else dir ← call (IsDir target); mret (Some dir)
      else mret None
  end.

(** ** The bridge to the NVIDIA driver *)

(** The search of [ldconfig], setup/systemd.py lines 256-293. *)
Definition search_driver_library : D path :=
  ensure live_root (RuntimeError
    "staged NVIDIA driver bridge requires an explicit host driver-library path");;
  c ← try_catch (call (Run [sc_ldconfig cfg; "-p"] false))
        (λ e, if is_OSError e then throws (RuntimeError
                "cannot execute ldconfig to discover libcuda.so.1") else throws e);
  ensure (returncode c =? 0) (RuntimeError "ldconfig failed while discovering libcuda.so.1");;
  match first_library (splitlines (stdout c)) with
  | None => throws (RuntimeError "host NVIDIA CUDA driver library libcuda.so.1 is unavailable")
  | Some p => mret p
  end.

(** [_discover_nvidia_driver_library], setup/systemd.py lines 252-317. *)
Definition _discover_nvidia_driver_library : D path :=
  candidate ← match sc_nvidia_driver_library cfg with
              | Some p => mret p
              | None => search_driver_library
              end;
  ensure (is_absolute candidate)
    (RuntimeError "host NVIDIA CUDA driver-library path must be absolute");;
  found ← try_catch
    (mode ← call (Lstat candidate); resolved ← call (Resolve candidate);
     resolved_mode ← call (Stat resolved); mret (mode, resolved, resolved_mode))
    (λ e, if is_OSError e then throws (RuntimeError "host NVIDIA CUDA driver library is unavailable")
          else throws e);
  let '(mode, resolved, resolved_mode) := found in
  ensure ((S_ISREG mode || S_ISLNK mode) && S_ISREG resolved_mode)
    (RuntimeError "host NVIDIA CUDA driver library is not a regular file");;
  readable ← call (Readable resolved);
  ensure readable (RuntimeError "host NVIDIA CUDA driver library is not readable");;
  mret candidate.

(** [_nvidia_driver_bridge_paths], setup/systemd.py lines 319-337. *)
Definition bridge_target : D path :=
  dir ← _target _NVIDIA_DRIVER_BRIDGE_DIR; mret (path_join dir (Path _NVIDIA_DRIVER_SONAME)).
Definition _nvidia_driver_bridge_paths (action : SetupAction) : D (path * path) :=
  soname ← lifts (text_at "soname" (ac_payload action));
  directory ← lifts (text_at "bridge_directory" (ac_payload action));
  ensure (bool_decide (strip soname = _NVIDIA_DRIVER_SONAME))
    (RuntimeError "NVIDIA driver bridge must use the reviewed libcuda.so.1 soname");;
  ensure (bool_decide (strip directory = path_str _NVIDIA_DRIVER_BRIDGE_DIR))
    (RuntimeError "NVIDIA driver bridge directory is not canonical");;
  source ← _discover_nvidia_driver_library;
  target ← bridge_target;
  mret (source, target).

(** [_inspect_nvidia_driver_bridge], setup/systemd.py lines 339-366. *)
Definition _inspect_nvidia_driver_bridge (action : SetupAction) : D ActionInspection :=
  or_blocked (_nvidia_driver_bridge_paths action) (λ '(source, target),
    let look : D (option string) :=
      call (Directory (parent target) (owned_opts false 493));; call (ReadLink target) in
    r ← try_catch (current ← or_missing None look; mret (inl current))
          (λ e, match e with UnsafeSetupPath m => mret (inr m) | _ => throws e end);
    match r with
    | inr text => blocked text
    | inl current =>
        if bool_decide (current = Some (path_str source))
        then satisfied "narrow libcuda.so.1 driver bridge is installed"
        else needs_apply "host libcuda.so.1 requires a narrow runtime driver bridge"
    end).

(** ** The installed Worker *)

(** [_read_required_text], setup/systemd.py lines 430-434. *)
Definition _read_required_text (p : path) (label : string) : D string :=
  t ← _target p; content ← call (ReadText t);
  match content with
  | None => throws (RuntimeError (label +:+ " is unavailable"))
  | Some c => mret c
  end.

(** [_load_installed_worker_unit], setup/systemd.py lines 442-454. *)
Definition _load_installed_worker_unit : D (string * InstalledWorkerUnit) :=
  text ← _read_required_text (sc_worker_unit_path cfg) "Worker unit";
  unit ← lifts (parse_installed_worker_unit text);
  ensure (bool_decide (iu_service_user unit = sc_service_user cfg))
    (RuntimeError "installed Worker unit service identity differs from setup authority");;
  mret (text, unit).

(** [load_installed_worker_contract], [load_installed_worker_spec], setup/systemd.py lines 456-470. *)
Definition load_installed_worker_contract : D InstalledWorkerContract :=
  worker_text ← _read_required_text (sc_worker_config_path cfg) "Worker config";
  unit ← _load_installed_worker_unit;
  contract ← lifts (parse_installed_worker_toml worker_text);
  ensure (bool_decide (ic_execution_mode contract = iu_execution_mode unit.2))
    (RuntimeError "installed Worker config and unit use mixed execution authority");;
  mret contract.
Definition load_installed_worker_spec : D Contracts.WorkerSpec :=
  contract ← load_installed_worker_contract; mret (ic_spec contract).

(** [json.loads(self.filesystem.read_text(path) or "")], [None] for an [OSError] or invalid
    JSON. *)
Definition read_manifest : D (option pyval) :=
  p ← _target (sc_runtime_manifest_path cfg);
  text ← try_catch (t ← call (ReadText p); mret (Some (default EmptyString t)))
           (λ e, if is_OSError e then mret None else throws e);
  mret (text ≫= json_loads).

(** [_runtime_manifest_provider_id], setup/systemd.py lines 472-489. *)
Definition _runtime_manifest_provider_id : D string :=
  value ← read_manifest;
  match value with
  | None => throws (RuntimeError "runtime deployment manifest is unavailable or invalid")
  | Some (PDict d) =>
      provider_id ← lifts (text_at "provider_id" d);
      ensure (str_truthy (strip provider_id))
        (RuntimeError "runtime deployment manifest lacks provider identity");;
      mret (strip provider_id)
  | Some _ => throws (RuntimeError "runtime deployment manifest must contain an object")
  end.

(** [_expected_runtime_deployment_text], setup/systemd.py lines 491-500. *)
Definition _expected_runtime_deployment_text (action : SetupAction) : D string :=
  match get "runtime_deployment" (ac_payload action) with
  | PDict deployment => mret (_canonical_json (PDict deployment))
  | _ => throws (RuntimeError "Worker migration action lacks the reviewed runtime deployment")
  end.

(** [_runtime_manifest_matches], setup/systemd.py lines 502-511. *)
Definition _runtime_manifest_matches (action : SetupAction) : D bool :=
  expected ← _expected_runtime_deployment_text action;
  value ← read_manifest;
  mret (match value with
        | Some (PDict d) => bool_decide (_canonical_json (PDict d) = expected)
        | _ => false
        end).

(** [_service_active], setup/systemd.py lines 784-793. *)
Definition _service_active : D bool :=
  if negb live_root then mret false
  else c ← call (Run [sc_systemctl cfg; "is-active"; "--quiet"; sc_service_name cfg] false);
       mret (returncode c =? 0).

(** [_service_failed], setup/systemd.py lines 811-823. *)
Definition _service_failed : D bool :=
  if negb live_root then mret false
  else try_catch
    (c ← call (Run [sc_systemctl cfg; "is-failed"; "--quiet"; sc_service_name cfg] false);
     mret (returncode c =? 0))
    (λ e, if is_OSError e then mret false else throws e).

(** The end of [_inspect_worker_stop]: the Worker must not run, setup/systemd.py lines 548-573. *)
Definition inspect_stopped (detail : string) : D ActionInspection :=
  if negb live_root then satisfied "staged root has no live Worker service to stop"
  else active ← _service_active; satisfied_if (negb active) detail.

(** [_inspect_worker_stop], setup/systemd.py lines 513-573. *)
Definition _inspect_worker_stop (action : SetupAction) : D ActionInspection :=
  if negb (says "source_execution" "canonical_smoke_or_runtime" (ac_payload action)) then
    blocked "Worker stop source contract is not the reviewed canonical state"
  else if negb (says "desired_execution" "runtime" (ac_payload action)) then
    blocked "Worker stop target contract is not runtime execution"
  else or_blocked (contract ← load_installed_worker_contract;
                   _expected_runtime_deployment_text action;; mret contract) (λ contract,
    if bool_decide (ic_execution_mode contract = "runtime") then
      matches ← _runtime_manifest_matches action;
      if negb matches then
        blocked "installed runtime deployment differs from the reviewed desired state"
      else or_blocked _load_installed_worker_unit (λ '(_, unit),
        if iu_nvidia_driver_bridge unit
        then satisfied "current runtime Worker needs no execution-authority stop"
        else inspect_stopped "prior runtime Worker must be stopped before driver-bridge reconciliation")
    else inspect_stopped "existing smoke Worker must be stopped before execution reconciliation").

(** The runtime half of [_inspect_worker_execution], setup/systemd.py lines 622-649. *)
Definition inspect_runtime_execution (action : SetupAction) (provider_id : string)
    : D ActionInspection :=
  or_blocked _runtime_manifest_provider_id (λ manifest_provider,
    if negb (bool_decide (manifest_provider = provider_id)) then
      blocked "installed runtime provider differs from the reviewed provider"
    else
      matches ← _runtime_manifest_matches action;
      if negb matches then
        blocked "installed runtime deployment differs from the reviewed desired state"
      else or_blocked (u ← _load_installed_worker_unit;
                       desired ← lifts (render_runtime_worker_unit u.1);
                       mret (u.1, desired)) (λ '(unit_text, desired),
        if negb (bool_decide (unit_text = desired)) then
          needs_apply
            "prior canonical runtime Worker requires reviewed driver-bridge reconciliation"
        else satisfied
          "Worker config and unit already own the exact reviewed RuntimeProvider state")).

(** [_inspect_worker_execution], setup/systemd.py lines 575-649. *)
Definition _inspect_worker_execution (action : SetupAction) : D ActionInspection :=
  provider_text ← lifts (text_at "provider_id" (ac_payload action));
  let provider_id := strip provider_text in
  or_blocked (_expected_runtime_deployment_text action) (λ _,
    if negb (str_truthy provider_id) then
      blocked "Worker execution reconciliation lacks provider identity"
    else if negb (says "source_execution" "canonical_smoke_or_runtime" (ac_payload action)) then
      blocked "Worker execution source contract is not the reviewed canonical state"
    else if negb (says "desired_execution" "runtime" (ac_payload action)) then
      blocked "Worker execution target contract is not runtime execution"
    else
      manifest ← lifts (text_at "runtime_manifest" (ac_payload action));
      if negb (bool_decide (strip manifest = DEFAULT_RUNTIME_MANIFEST)) then
        blocked "Worker execution target uses a non-canonical runtime manifest"
      else or_blocked load_installed_worker_contract (λ contract,
        if bool_decide (ic_execution_mode contract = "smoke") then
          needs_apply "canonical smoke Worker requires reviewed runtime reconciliation"
        else inspect_runtime_execution action provider_id)).

(** ** Rendered files *)

(** [_render_targets], setup/systemd.py lines 853-887. *)
Definition tabby_target (action : SetupAction) : D (list (path * string)) :=
  match get "configuration" (ac_payload action) with
  | PDict configuration =>
      match get "config_path" configuration, get "tabby_config" configuration with
      | PStr config_path, PDict tabby =>
          if startswith "/" config_path
          then p ← _target (Path config_path); mret [(p, _canonical_json (PDict tabby))]
          else mret []
      | _, _ => mret []
      end
  | _ => mret []
  end.
Definition _render_targets (action : SetupAction) : D (list (path * string)) :=
  match get "runtime_deployment" (ac_payload action) with
  | PDict deployment =>
      p ← _target (sc_runtime_manifest_path cfg);
      more ← tabby_target action;
      mret ((p, _canonical_json (PDict deployment)) :: more)
  | _ => throws (RuntimeError "render_config action lacks runtime_deployment manifest")
  end.

(** [all(read_text(path) == content for path, content in targets)]. *)
Fixpoint all_current (targets : list (path * string)) : D bool :=
  match targets with
  | [] => mret true
  | (p, content) :: rest =>
      current ← call (ReadText p);
      if bool_decide (current = Some content) then all_current rest else mret false
  end.

(** [_validate_render_migration_source], setup/systemd.py lines 651-681: the text of the
    blocked inspection, if there is one. *)
Definition _validate_render_migration_source (action : SetupAction) : D (option ActionInspection) :=
  if negb (truthy (get "existing_worker_migration" (ac_payload action))) then mret None
  else
    provider_text ← lifts (text_at "provider_id" (ac_payload action));
    let free : ActionInspection := mk_ActionInspection SATISFIED EmptyString in
    i ← or_blocked load_installed_worker_contract (λ contract,
      if bool_decide (ic_execution_mode contract = "runtime") then
        or_blocked (current ← _runtime_manifest_provider_id; targets ← _render_targets action;
                    mret (current, targets)) (λ '(current, targets),
          if negb (bool_decide (current = strip provider_text)) then
            blocked "installed runtime provider differs from the reviewed provider"
          else
            same ← all_current targets;
            if negb same then
              blocked "already-migrated Worker differs from the reviewed desired runtime state"
            else mret free)
      else mret free);
    mret (if bool_decide (in_state i = STATE_BLOCKED) then Some i else None).
End driver.
