(* ===== verification/Acceptance.v ===== *)
(** * Acceptance of a GPU subset on a real host

    Models the runner of [src/src/astrumweaver/validation/runtime_deployment.py].  The runner
    asks the operations of the protocol [RuntimeDeploymentHost]; the systemd host answers them
    with operations of the operating system.  [GpuIsolation] has the checks of the unit. *)

From Stdlib Require Import SpecFloat.
From S2P Require Import Prelude PyStr PyDict PyVal PyHost Effects Trace PyText SetupFs PyNum GpuMapping GpuIsolation Migration Systemd.

(** ** The protocol *)

(** [RuntimeDeploymentHost], validation/runtime_deployment.py lines 94-113, with what the
    runner takes from elsewhere: the text of an EnvironmentFile, the clock and the date. *)
Inductive deployment_op : Type → Type :=
  | HostGpuDeviceMap : deployment_op (dict string)
  | WorkerGpuContract : deployment_op (list string * bool)
  | WorkerUnitProperties : deployment_op (dict string)
  | ServiceActive : deployment_op bool
  | StartService : deployment_op unit
  | StopService : deployment_op unit
  | Readiness : deployment_op (option (dict pyval))
  | ProbeIsolation (expected : list string) : deployment_op string
  | EnvironmentText (p : path) : deployment_op string
  | MonotonicNow : deployment_op Z
  | SleepFor (d : Z) : deployment_op unit
  | DateUtc : deployment_op string.

Definition acceptance_error (m : string) : exn := RuntimeDeploymentAcceptanceError m.

(** ** Evidence *)

(** [RuntimeDeploymentAcceptanceEvidence], validation/runtime_deployment.py lines 323-347. *)
Record RuntimeDeploymentAcceptanceEvidence := {
  ev_evidence_version : string;
  ev_date_utc : string;
  ev_astrumweaver_revision : string;
  ev_deployment_path : string;
  ev_outcome : string;
  ev_host_gpu_count : Z;
  ev_selected_gpu_count : Z;
  ev_private_values_omitted : bool;
  ev_host_gpu_superset : string;
  ev_worker_contract_exact : string;
  ev_worker_gpu_preflight_enabled : string;
  ev_uuid_device_mapping_verified : string;
  ev_isolation_enforcement : string;
  ev_fail_closed : string;
  ev_device_policy_closed : string;
  ev_selected_device_allow_exact : string;
  ev_cuda_visible_devices_exact : string;
  ev_in_service_gpu_preflight_present : string;
  ev_worker_start_attempted : string;
  ev_worker_started_ready : string;
  ev_worker_registered : string;
  ev_service_stopped_after_acceptance : string;
  ev_overall : string;
}.

Definition lower_bool (b : bool) : string := if b then "true" else "false".
Definition table_row (f : string * string) : string := "| " +:+ f.1 +:+ " | " +:+ f.2 +:+ " |".
Definition lines_of (l : list string) : string := join newline l.

(** The rows of the report, validation/runtime_deployment.py lines 820-853. *)
Definition evidence_rows (e : RuntimeDeploymentAcceptanceEvidence) : list (string * string) :=
  [("Evidence version", ev_evidence_version e);
   ("Date (UTC)", ev_date_utc e);
   ("AstrumWeaver revision", ev_astrumweaver_revision e);
   ("Deployment path", ev_deployment_path e);
   ("Outcome", ev_outcome e);
   ("Host-visible GPU count", str_of_Z (ev_host_gpu_count e));
   ("Selected GPU count", str_of_Z (ev_selected_gpu_count e));
   ("Private values omitted", lower_bool (ev_private_values_omitted e));
   ("Host-visible GPU superset", ev_host_gpu_superset e);
   ("Worker GPU contract exact", ev_worker_contract_exact e);
   ("Worker GPU preflight enabled", ev_worker_gpu_preflight_enabled e);
   ("UUID/device mapping verified", ev_uuid_device_mapping_verified e);
   ("Isolation enforcement", ev_isolation_enforcement e);
   ("Fail closed", ev_fail_closed e);
   ("DevicePolicy closed", ev_device_policy_closed e);
   ("Selected DeviceAllow exact", ev_selected_device_allow_exact e);
   ("CUDA visible-device order exact", ev_cuda_visible_devices_exact e);
   ("In-service GPU preflight present", ev_in_service_gpu_preflight_present e);
   ("Worker start attempted", ev_worker_start_attempted e);
   ("Worker started ready", ev_worker_started_ready e);
   ("Worker registered", ev_worker_registered e);
   ("Service stopped after acceptance", ev_service_stopped_after_acceptance e);
   ("Overall", ev_overall e)].

(** [render_runtime_deployment_markdown], validation/runtime_deployment.py lines 817-863. *)
Definition render_runtime_deployment_markdown (e : RuntimeDeploymentAcceptanceEvidence) : string :=
  lines_of ["# AstrumWeaver Runtime Deployment GPU Isolation Evidence"; EmptyString;
    "This file is intentionally redacted. It contains no hostname, IP address, Worker ID, GPU UUID, device ordinal, credential, private URL, or GPU model.";
    EmptyString; "| Field | Result |"; "| --- | --- |";
    lines_of (table_row <$> evidence_rows e); EmptyString].

(** ** The runner *)

(** [REVISION_PATTERN.fullmatch], validation/hardware.py line 41. *)
Definition hex_char (c : ascii) : bool :=
  let n := N_of_ascii c in
  ((48 <=? n) && (n <=? 57) || (65 <=? n) && (n <=? 70) || (97 <=? n) && (n <=? 102))%N.
Definition revision_ok (s : string) : bool :=
  all_chars hex_char s && (7 <=? String.length s)%nat && (String.length s <=? 64)%nat.

(** The attributes of [RuntimeDeploymentAcceptanceRunner]. *)
Record acceptance_runner := {
  ar_expected_gpu_uuids : list string;
  ar_revision : string;
  ar_deployment_path : string;
  ar_start_timeout_seconds : spec_float;
  ar_poll_interval_seconds : spec_float;
}.

(** [RuntimeDeploymentAcceptanceRunner.__init__], validation/runtime_deployment.py lines 605-634. *)
Definition mk_acceptance_runner (expected : list string) (revision deployment_path : string)
    (start_timeout poll_interval : spec_float) : result acceptance_runner :=
  require (match expected with [] => false | _ => true end)
    (ValueError "at least one expected GPU UUID is required");;
  require (all_distinct expected) (ValueError "expected GPU UUIDs must be unique");;
  require (revision_ok (strip revision)) (ValueError "revision must be a public git commit SHA");;
  require (bool_decide (deployment_path ∈ ["nixos"; "systemd"]))
    (ValueError "deployment_path must be nixos or systemd");;
  require (negb (float_le_zero start_timeout || float_le_zero poll_interval))
    (ValueError "acceptance timeouts must be positive");;
  Ok {| ar_expected_gpu_uuids := expected; ar_revision := strip revision;
        ar_deployment_path := deployment_path; ar_start_timeout_seconds := start_timeout;
        ar_poll_interval_seconds := poll_interval |}.

(** [payload.get(key) is True]. *)
Definition true_at (key : string) (payload : dict pyval) : bool :=
  match dget key payload with Some (PBool true) => true | _ => false end.

Section runner.
Context {W : Type} `{Handler deployment_op W} {DL : DriverLibrary}.
Context (runner : acceptance_runner).
Abbreviation T := (eff (logged deployment_op W)).
Abbreviation expected := (ar_expected_gpu_uuids runner).

(** [self._sleep(d)]. *)
Definition pause (d : duration) : T unit :=
  match d with
  | Ticks x => ask (SleepFor x)
  | Endless => throws (OverflowError "timestamp too large to convert to C PyTime_t")
  | NotANumber => throws (ValueError "Invalid value NaN (not a number)")
  end.

(** A payload that says ready and registered. *)
Definition enrolled (payload : option (dict pyval)) : option (dict pyval) :=
  match payload with
  | Some d => if true_at "ready" d && true_at "registered" d then Some d else None
  | None => None
  end.

(** The loop of [_wait_ready], validation/runtime_deployment.py lines 638-650; [None] when the
    turns run out. *)
Fixpoint ready_loop (fuel : nat) (started : Z) : T (option (dict pyval)) :=
  match fuel with
  | O => mret None
  | S fuel' =>
      payload ← ask Readiness;
      match enrolled payload with
      | Some d => mret (Some d)
      | None =>
          now ← ask MonotonicNow;
          ensure (negb (over (elapse (duration_of (ar_start_timeout_seconds runner)) (now - started))))
            (acceptance_error "isolated Worker did not become ready");;
          pause (duration_of (ar_poll_interval_seconds runner));;
          ready_loop fuel' started
      end
  end.

(** [_wait_ready], validation/runtime_deployment.py lines 636-650. *)
Definition _wait_ready (fuel : nat) : T (option (dict pyval)) :=
  started ← ask MonotonicNow; ready_loop fuel started.

(** One turn of [_ensure_service_stopped], validation/runtime_deployment.py lines 655-666:
    whether the service is inactive. *)
Definition stop_once : T bool :=
  try_catch (ask StopService) (λ _, mret tt);;
  active ← try_catch (ask ServiceActive) (λ _, throws
             (acceptance_error "could not verify Worker service stopped after acceptance"));
  mret (negb active).

(** [_ensure_service_stopped], validation/runtime_deployment.py lines 652-670. *)
Definition _ensure_service_stopped : T unit :=
  stopped ← stop_once;
  if stopped : bool then mret tt
  else
    stopped ← stop_once;
    if stopped : bool then mret tt
    else throws (acceptance_error "Worker service remained active after acceptance cleanup").

(** What both runs require first, validation/runtime_deployment.py lines 673-692:
    the selection is a proper subset of the GPUs of the host, and what the Worker is
    configured for. *)
Definition check_selection (kind : string) : T (dict string) :=
  host_map ← ask HostGpuDeviceMap;
  ensure (length expected <? length host_map)%nat
    (acceptance_error (kind +:+ " requires a host-visible GPU superset"));;
  ensure (forallb (λ u, bool_decide (u ∈ dkeys host_map)) expected)
    (acceptance_error "selected GPU UUID is not visible on the host");;
  contract ← ask WorkerGpuContract;
  ensure (bool_decide (contract.1 = expected))
    (acceptance_error "Worker GPU UUID order/set does not match acceptance selection");;
  ensure contract.2 (acceptance_error "Worker GPU preflight is disabled");;
  mret host_map.

(** The evidence of a passed run, validation/runtime_deployment.py lines 728-752. *)
Definition enforced_evidence (host_gpus : nat) (date : string) : RuntimeDeploymentAcceptanceEvidence :=
  {| ev_evidence_version := "runtime-deployment-v2"; ev_date_utc := date;
     ev_astrumweaver_revision := ar_revision runner;
     ev_deployment_path := ar_deployment_path runner; ev_outcome := "ENFORCED_SUBSET";
     ev_host_gpu_count := Z.of_nat host_gpus; ev_selected_gpu_count := Z.of_nat (length expected);
     ev_private_values_omitted := true; ev_host_gpu_superset := "PASS";
     ev_worker_contract_exact := "PASS"; ev_worker_gpu_preflight_enabled := "PASS";
     ev_uuid_device_mapping_verified := "PASS"; ev_isolation_enforcement := "PASS";
     ev_fail_closed := "NOT_APPLICABLE"; ev_device_policy_closed := "PASS";
     ev_selected_device_allow_exact := "PASS"; ev_cuda_visible_devices_exact := "PASS";
     ev_in_service_gpu_preflight_present := "PASS"; ev_worker_start_attempted := "YES";
     ev_worker_started_ready := "PASS"; ev_worker_registered := "PASS";
     ev_service_stopped_after_acceptance := "PASS"; ev_overall := "PASS" |}.

(** Starting the service, validation/runtime_deployment.py lines 708-718. *)
Definition start_and_wait (fuel : nat) : T (option unit) :=
  ask StartService;;
  and_then (_wait_ready fuel) (λ ready,
    ensure (true_at "ready" ready)
      (acceptance_error "Worker readiness did not prove isolated-access startup");;
    ensure (true_at "registered" ready)
      (acceptance_error "Worker did not register after isolated startup");;
    mret (Some tt)).

(** [run], validation/runtime_deployment.py lines 672-752. *)
Definition run (fuel : nat) : T (option RuntimeDeploymentAcceptanceEvidence) :=
  host_map ← check_selection "acceptance";
  let paths := (λ u, default EmptyString (dget u host_map)) <$> expected in
  properties ← ask WorkerUnitProperties;
  validate_effective_worker_gpu_isolation (λ p, ask (EnvironmentText p)) properties expected paths;;
  active ← ask ServiceActive;
  ensure (negb active)
    (acceptance_error "acceptance requires the Worker service to start from inactive state");;
  and_then (finally_done (start_and_wait fuel) _ensure_service_stopped) (λ _,
    active ← ask ServiceActive;
    ensure (negb active) (acceptance_error "Worker service remained active after acceptance");;
    date ← ask DateUtc;
    mret (Some (enforced_evidence (length host_map) date))).

(** The evidence of a host without isolation, validation/runtime_deployment.py lines 790-814. *)
Definition fail_closed_evidence (host_gpus : nat) (date : string) : RuntimeDeploymentAcceptanceEvidence :=
  {| ev_evidence_version := "runtime-deployment-v2"; ev_date_utc := date;
     ev_astrumweaver_revision := ar_revision runner;
     ev_deployment_path := ar_deployment_path runner; ev_outcome := "FAIL_CLOSED";
     ev_host_gpu_count := Z.of_nat host_gpus; ev_selected_gpu_count := Z.of_nat (length expected);
     ev_private_values_omitted := true; ev_host_gpu_superset := "PASS";
     ev_worker_contract_exact := "PASS"; ev_worker_gpu_preflight_enabled := "PASS";
     ev_uuid_device_mapping_verified := "PASS"; ev_isolation_enforcement := "UNAVAILABLE";
     ev_fail_closed := "PASS"; ev_device_policy_closed := "NOT_APPLICABLE";
     ev_selected_device_allow_exact := "NOT_APPLICABLE"; ev_cuda_visible_devices_exact := "PASS";
     ev_in_service_gpu_preflight_present := "NOT_APPLICABLE"; ev_worker_start_attempted := "NO";
     ev_worker_started_ready := "NOT_RUN"; ev_worker_registered := "NOT_RUN";
     ev_service_stopped_after_acceptance := "PASS"; ev_overall := "PASS" |}.

(** [run_fail_closed], validation/runtime_deployment.py lines 754-814. *)
Definition run_fail_closed : T RuntimeDeploymentAcceptanceEvidence :=
  host_map ← check_selection "fail-closed acceptance";
  active ← ask ServiceActive;
  ensure (negb active)
    (acceptance_error "fail-closed acceptance requires the Worker service inactive");;
  classification ← ask (ProbeIsolation expected);
  ensure (bool_decide (classification = "UNAVAILABLE"))
    (acceptance_error "GPU subset isolation was enforceable; expected isolation unavailable");;
  active ← ask ServiceActive;
  ensure (negb active)
    (acceptance_error "Worker service started during fail-closed acceptance");;
  date ← ask DateUtc;
  mret (fail_closed_evidence (length host_map) date).
End runner.

(** ** The systemd host *)

(** What [SystemdRuntimeDeploymentHost] asks of the operating system; a command raises
    [OSError], [HttpGet] answers the status and the body ([None] when it is not JSON). *)
Inductive system_op : Type → Type :=
  | Command (argv : list string) : system_op completed
  | ConfigText (p : path) : system_op string
  | HttpGet (url : string) : system_op (Z * option pyval)
  | Executable (p : path) : system_op bool
  | AbsolutePath (p : path) : system_op path
  | ResolvedPath (p : path) : system_op path
  | TemporaryDirectory : system_op path
  | WriteFile (p : path) (content : string) : system_op unit
  | RemoveTree (p : path) : system_op unit
  | MakeDirectories (p : path) : system_op unit
  | EnvironmentFileText (p : path) : system_op string
  | SystemClock : system_op Z
  | SystemSleep (d : Z) : system_op unit
  | SystemDate : system_op string.

(** The attributes of [SystemdRuntimeDeploymentHost]. *)
Record systemd_host := {
  sh_service : string;
  sh_worker_config : path;
  sh_systemctl : string;
  sh_nvidia_smi : string;
  sh_gpu_device_map : string;
  sh_gpu_isolation_probe : option string;
  sh_health_url : string;
}.

Section system.
Context {W : Type} `{Handler system_op W} {TM : Toml}.
Abbreviation T := (eff (logged system_op W)).

(** The first candidate that is an executable file, each tried once,
    validation/runtime_deployment.py lines 51-60. *)
Fixpoint first_executable (seen candidates : list path) (message : string) : T string :=
  match candidates with
  | [] => throws (acceptance_error message)
  | c :: rest =>
      if bool_decide (c ∈ seen) then first_executable seen rest message
      else
        b ← ask (Executable c);
        if b : bool then mret (path_str c) else first_executable (c :: seen) rest message
  end.

(** A tool beside the invoked script, validation/runtime_deployment.py lines 38-49. *)
Definition packaged_candidates (installed : path) (argv0 name : string) : T (list path) :=
  if contains "/" argv0 then
    a ← ask (AbsolutePath (Path argv0));
    r ← ask (ResolvedPath (Path argv0));
    mret [installed; path_join (parent a) (Path name); path_join (parent r) (Path name)]
  else mret [installed].

(** [resolve_packaged_gpu_device_map], validation/runtime_deployment.py lines 29-60. *)
Definition resolve_packaged_gpu_device_map (argv0 : string) : T string :=
  candidates ← packaged_candidates (Path "/usr/local/libexec/astrumweaver/gpu-device-map") argv0
    "astrumweaver-gpu-device-map";
  first_executable [] candidates
    "reviewed packaged GPU mapper is unavailable; supply --gpu-device-map explicitly".

(** [resolve_packaged_gpu_isolation_probe], validation/runtime_deployment.py lines 63-94. *)
Definition resolve_packaged_gpu_isolation_probe (argv0 : string) : T string :=
  candidates ← packaged_candidates (Path "/usr/local/libexec/astrumweaver/gpu-isolation-probe") argv0
    "astrumweaver-gpu-isolation-probe";
  first_executable [] candidates
    "reviewed packaged GPU isolation probe is unavailable; supply --gpu-isolation-probe explicitly".

(** An explicit tool must be an absolute path of an executable file,
    validation/runtime_deployment.py lines 134-143. *)
Definition explicit_tool (flag tool : string) : T unit :=
  ensure (is_absolute (Path tool))
    (acceptance_error (flag +:+ " must be an absolute executable path"));;
  b ← ask (Executable (Path tool));
  ensure b (acceptance_error (flag +:+ " must name an existing executable file")).

(** [SystemdRuntimeDeploymentHost.__init__], validation/runtime_deployment.py lines 119-159. *)
Definition mk_systemd_host (argv0 service : string) (worker_config : path)
    (systemctl nvidia_smi : string) (gpu_device_map gpu_isolation_probe : option string)
    (health_url : string) : T systemd_host :=
  mapper ← match gpu_device_map with
           | Some m => explicit_tool "--gpu-device-map" m;; mret m
           | None => resolve_packaged_gpu_device_map argv0
           end;
  match gpu_isolation_probe with
  | Some p => explicit_tool "--gpu-isolation-probe" p
  | None => mret tt
  end;;
  mret {| sh_service := service; sh_worker_config := worker_config; sh_systemctl := systemctl;
          sh_nvidia_smi := nvidia_smi; sh_gpu_device_map := mapper;
          sh_gpu_isolation_probe := gpu_isolation_probe;
          sh_health_url := rstrip_char "/" health_url |}.

Context (argv0 : string) (host : systemd_host).

(** [_run], validation/runtime_deployment.py lines 161-173. *)
Definition _run (argv : list string) (check : bool) : T completed :=
  c ← try_catch (ask (Command argv)) (λ e,
        if is_OSError e then throws (acceptance_error "required host command failed") else throws e);
  ensure (negb check || (returncode c =? 0)) (acceptance_error "required host command failed");;
  mret c.

(** One line of the device map, validation/runtime_deployment.py lines 185-203. *)
Definition device_line (mapping : dict string) (raw_line : string) : result (dict string) :=
  match strip <$> split1_char "=" raw_line with
  | [uuid; device_path] =>
      require (str_truthy uuid && gpu_device_path device_path)
        (acceptance_error "host GPU UUID/device mapping is unavailable");;
      require (negb (bool_decide (uuid ∈ dkeys mapping)))
        (acceptance_error "host reported duplicate GPU UUID");;
      require (negb (bool_decide (device_path ∈ dvalues mapping)))
        (acceptance_error "host reported duplicate GPU device minor");;
      Ok (dset uuid device_path mapping)
  | _ => Err (acceptance_error "host GPU UUID/device mapping is unavailable")
  end.

(** [host_gpu_device_map], validation/runtime_deployment.py lines 175-209. *)
Definition host_gpu_device_map : T (dict string) :=
  c ← _run [sh_gpu_device_map host; "--nvidia-smi"; sh_nvidia_smi host; "discover-visible"] true;
  mapping ← lifts (foldR device_line [] (splitlines (stdout c)));
  ensure (match mapping with [] => false | _ => true end)
    (acceptance_error "host reported no NVIDIA GPUs");;
  mret mapping.

(** [worker_gpu_contract], validation/runtime_deployment.py lines 211-222. *)
Definition worker_gpu_contract : T (list string * bool) :=
  let unavailable := acceptance_error "Worker configuration is unavailable" in
  text ← try_catch (ask (ConfigText (sh_worker_config host))) (λ e,
           if is_OSError e then throws unavailable else throws e);
  match toml_loads text with
  | None => throws unavailable
  | Some config =>
      worker ← lifts (py_dict (py_or (get "worker" config) (PDict [])));
      items ← lifts (py_iter (get_default "gpu_uuids" (PList []) worker));
      uuids ← lifts (mapR py_str items);
      mret (uuids, truthy (get_default "gpu_preflight" (PBool true) worker))
  end.

(** [worker_unit_properties], validation/runtime_deployment.py lines 224-235. *)
Definition worker_unit_properties : T (dict string) :=
  c ← _run [sh_systemctl host; "show"; "--no-pager"; "--all";
            "--property=DevicePolicy,DeviceAllow,Environment,EnvironmentFiles,UnsetEnvironment,ExecStartPre,Requires,After";
            sh_service host] true;
  lifts (parse_systemd_show_properties (stdout c)).

(** [service_active], validation/runtime_deployment.py lines 237-248. *)
Definition service_active : T bool :=
  c ← _run [sh_systemctl host; "is-active"; "--quiet"; sh_service host] false;
  if returncode c =? 0 then mret true
  else if returncode c =? 3 then mret false
  else throws (acceptance_error "cannot determine Worker service state").

(** [start_service] and [stop_service], validation/runtime_deployment.py lines 250-254. *)
Definition systemctl_unit (verb : string) : T unit :=
  _run [sh_systemctl host; verb; sh_service host] true;; mret tt.

(** [readiness], validation/runtime_deployment.py lines 256-267. *)
Definition readiness : T (option (dict pyval)) :=
  response ← try_catch (r ← ask (HttpGet (sh_health_url host)); mret (Some r)) (λ e,
    match e with HTTPError _ => mret None | _ => throws e end);
  mret match response with
       | Some (status, Some (PDict body)) => if status =? 200 then Some body else None
       | _ => None
       end.

(** What the probe is given, validation/runtime_deployment.py lines 287-298. *)
Definition uuid_lines (expected : list string) : string := print_lines expected.
Definition map_lines (host_map : dict string) (expected : list string) : string :=
  print_lines ((λ u, u +:+ "=" +:+ default EmptyString (dget u host_map)) <$> sorted_strings expected).

(** [probe_isolation_enforcement], validation/runtime_deployment.py lines 269-320. *)
Definition probe_isolation_enforcement (expected : list string) : T string :=
  host_map ← host_gpu_device_map;
  ensure (length expected <? length host_map)%nat
    (acceptance_error "isolation-unavailable acceptance requires a host GPU superset");;
  ensure (forallb (λ u, bool_decide (u ∈ dkeys host_map)) expected)
    (acceptance_error "selected GPU UUID is not visible on the host");;
  directory ← ask TemporaryDirectory;
  c ← try_finally
    (let expected_path := path_join directory (Path "gpu-uuids") in
     let map_path := path_join directory (Path "gpu-device-map") in
     ask (WriteFile expected_path (uuid_lines expected));;
     ask (WriteFile map_path (map_lines host_map expected));;
     probe ← match sh_gpu_isolation_probe host with
             | Some p => if str_truthy p then mret p else resolve_packaged_gpu_isolation_probe argv0
             | None => resolve_packaged_gpu_isolation_probe argv0
             end;
     _run [probe; path_str expected_path; path_str map_path; path_str (sh_worker_config host);
           join "," expected] false)
    (ask (RemoveTree directory));
  if returncode c =? 0 then mret "ENFORCEABLE"
  else if returncode c =? 3 then mret "UNAVAILABLE"
  else throws (acceptance_error "GPU isolation enforcement probe failed").

(** The protocol on this host. *)
Definition systemd_answer {A} (o : deployment_op A) : T A :=
  match o in deployment_op A return T A with
  | HostGpuDeviceMap => host_gpu_device_map
  | WorkerGpuContract => worker_gpu_contract
  | WorkerUnitProperties => worker_unit_properties
  | ServiceActive => service_active
  | StartService => systemctl_unit "start"
  | StopService => systemctl_unit "stop"
  | Readiness => readiness
  | ProbeIsolation expected => probe_isolation_enforcement expected
  | EnvironmentText p => ask (EnvironmentFileText p)
  | MonotonicNow => ask SystemClock
  | SleepFor d => ask (SystemSleep d)
  | DateUtc => ask SystemDate
  end.

#[local] Instance SystemdDeploymentHost : Handler deployment_op (logged system_op W) :=
  {| answer := λ A o, systemd_answer o |}.

(** ** The command *)

Context {DL : DriverLibrary}.

(** A run of the runner on this host. *)
Definition on_host {A} (m : eff (logged deployment_op (logged system_op W)) A) : T A := λ s,
  let '(s', r) := m (Build_logged s []) in (lg_world s', r).

(** [write_runtime_deployment_evidence], validation/runtime_deployment.py lines 866-874. *)
Definition write_runtime_deployment_evidence (p : path) (e : RuntimeDeploymentAcceptanceEvidence) : T unit :=
  ask (MakeDirectories (parent p));; ask (WriteFile p (render_runtime_deployment_markdown e)).

(** The message of an exception [main] handles. *)
Definition handled_text (e : exn) : option string :=
  match e with
  | ValueError m | UnicodeDecodeError m | TOMLDecodeError m => Some m
  | _ => runtime_error e
  end.
End system.

Section command.
Context {W : Type} `{Handler system_op W} {TM : Toml} {DL : DriverLibrary}.

(** The parsed arguments of the command, validation/runtime_deployment.py lines 878-932. *)
Record accept_args := {
  aa_gpu_uuids : list string;
  aa_revision : string;
  aa_deployment_path : string;
  aa_worker_config : path;
  aa_service : string;
  aa_systemctl : string;
  aa_nvidia_smi : string;
  aa_gpu_device_map : option string;
  aa_gpu_isolation_probe : option string;
  aa_expect_isolation_unavailable : bool;
  aa_health_url : string;
  aa_start_timeout_seconds : spec_float;
  aa_evidence : path;
}.

(** The default poll interval, 0.5 seconds. *)
Definition half_second : spec_float := S754_finite false 4503599627370496 (-53).

(** [main] after parsing, validation/runtime_deployment.py lines 934-975: [inl] is an exit
    status and its message. *)
Definition main_body (fuel : nat) (argv0 : string) (args : accept_args)
    : eff (logged system_op W) (option ((Z * string) + RuntimeDeploymentAcceptanceEvidence)) :=
  let uuids := strip <$> aa_gpu_uuids args in
  if negb (match uuids with [] => false | _ => true end && forallb str_truthy uuids) then
    mret (Some (inl (2, "at least one --gpu-uuid is required")))
  else
    try_catch
      (host ← mk_systemd_host argv0 (aa_service args) (aa_worker_config args) (aa_systemctl args)
                (aa_nvidia_smi args) (aa_gpu_device_map args) (aa_gpu_isolation_probe args)
                (aa_health_url args);
       runner ← lifts (mk_acceptance_runner uuids (aa_revision args) (aa_deployment_path args)
                         (aa_start_timeout_seconds args) half_second);
       let H' := SystemdDeploymentHost argv0 host in
       and_then
         (if aa_expect_isolation_unavailable args
          then evidence ← on_host (run_fail_closed runner); mret (Some evidence)
          else on_host (run runner fuel))
         (λ evidence, write_runtime_deployment_evidence (aa_evidence args) evidence;;
                      mret (Some (inr evidence))))
      (λ e, match handled_text e with
            | Some m => mret (Some (inl (1, m)))
            | None => throws e
            end).
End command.
