(* ===== verification/FirstRun.v ===== *)
(** * First run of a host: rendered configuration and the installer

    Models [src/src/astrumweaver/setup/first_run.py]: the values an operator reviews, the
    configuration files and the Nix snippet rendered from them, writing a protected file, and
    the installer that runs the packaged helpers.  The host answers the operations
    [first_run_op]; [ipaddress.ip_address] and [repr] of floats are arguments. *)

From Stdlib Require Import SpecFloat.
From S2P Require Import Prelude PyStr PyDict PyVal PyHost Effects Trace PyText SetupFs PyNum Contracts Json Api ControlDaemon SetupContracts Systemd.

(** ** Values *)

(** [FirstRunRole], setup/first_run.py lines 31-34. *)
Inductive FirstRunRole := ROLE_CONTROL | ROLE_WORKER | ROLE_BOTH.
(** [FirstRunExecutionMode], setup/first_run.py lines 37-39. *)
Inductive FirstRunExecutionMode := SMOKE | RUNTIME.

(** [ControlBootstrapSpec], setup/first_run.py lines 42-50. *)
Record ControlBootstrapSpec := {
  cb_bind_host : string;
  cb_port : Z;
  cb_client_auth : client_auth_mode;
  cb_worker_ttl_seconds : Z;
  cb_lease_seconds : Z;
  cb_maintenance_interval_seconds : spec_float;
  cb_access_log : bool;
}.

(** [ControlBootstrapSpec.__post_init__], setup/first_run.py lines 52-65; [client_auth] is the
    text of a mode. *)
Definition mk_ControlBootstrapSpec (bind_host : string) (port : Z) (client_auth : string)
    (ttl lease : Z) (interval : spec_float) (access_log : bool) : result ControlBootstrapSpec :=
  require (str_truthy (strip bind_host)) (ValueError "Control bind host must not be blank");;
  require ((1 <=? port) && (port <=? 65535)) (ValueError "Control port must be between 1 and 65535");;
  mode ← client_auth_of client_auth;
  require (negb ((ttl <=? 0) || (lease <=? 0))) (ValueError "Control TTL/lease must be positive");;
  require (negb (float_le_zero interval)) (ValueError "maintenance interval must be positive");;
  Ok {| cb_bind_host := bind_host; cb_port := port; cb_client_auth := mode;
        cb_worker_ttl_seconds := ttl; cb_lease_seconds := lease;
        cb_maintenance_interval_seconds := interval; cb_access_log := access_log |}.

(** [FirstRunSecrets], setup/first_run.py lines 68-72. *)
Record FirstRunSecrets := {
  fs_database_url : option string;
  fs_client_token : option string;
  fs_worker_token : option string;
}.

(** A secret that was supplied is not blank, setup/first_run.py lines 75-78. *)
Definition supplied (name : string) (value : option string) : result unit :=
  match value with
  | Some v => require (str_truthy (strip v)) (ValueError (name +:+ " must not be blank when supplied"))
  | None => Ok tt
  end.

(** [FirstRunSecrets.__post_init__], setup/first_run.py lines 74-84. *)
Definition mk_FirstRunSecrets (database_url client_token worker_token : option string)
    : result FirstRunSecrets :=
  supplied "database_url" database_url;;
  supplied "client_token" client_token;;
  supplied "worker_token" worker_token;;
  require (negb (match client_token, worker_token with
                 | Some c, Some w => bool_decide (c = w) | _, _ => false end))
    (ValueError "client and Worker authority tokens must differ");;
  Ok {| fs_database_url := database_url; fs_client_token := client_token;
        fs_worker_token := worker_token |}.

(** The loop of [generate_authority_tokens] over the tokens the system gives,
    setup/first_run.py lines 91-96; [None] when the list of tokens ends. *)
Fixpoint distinct_from (client : string) (tokens : list string) : option string :=
  match tokens with
  | [] => None
  | worker :: rest => if bool_decide (worker = client) then distinct_from client rest else Some worker
  end.
Definition generate_authority_tokens (tokens : list string) : option (string * string) :=
  match tokens with
  | client :: rest => worker ← distinct_from client rest; Some (client, worker)
  | [] => None
  end.

(** ** Quoting *)

(** [s.replace(old, new)] for a non-empty [old]; [skip] characters belong to a replaced one. *)
Fixpoint replace_from (skip : nat) (old new s : string) : string :=
  match s with
  | EmptyString => EmptyString
  | String c s' =>
      match skip with
      | S k => replace_from k old new s'
      | O => if startswith old s then new +:+ replace_from (String.length old - 1) old new s'
             else String c (replace_from 0 old new s')
      end
  end.
Definition replace_all (old new s : string) : string := replace_from 0 old new s.

(** [_toml_string], setup/first_run.py lines 99-100. *)
Definition _toml_string (value : string) : string := quote value.
(** [_toml_string_list], setup/first_run.py lines 103-104. *)
Definition _toml_string_list (values : list string) : string :=
  "[" +:+ join ", " (_toml_string <$> values) +:+ "]".
(** [_nix_string], setup/first_run.py lines 107-110. *)
Definition _nix_string (value : string) : string :=
  replace_all "${" (String backslash "${") (quote value).
(** [_nix_string_list], setup/first_run.py lines 133-134. *)
Definition _nix_string_list (values : list string) : string :=
  "[ " +:+ join " " (_nix_string <$> values) +:+ " ]".

(** An attribute name of a package path. *)
Definition ident_start (c : ascii) : bool := ascii_letter c || bool_decide (c = "_"%char).
Definition ident_char (c : ascii) : bool :=
  let n := N_of_ascii c in
  ident_start c || ((48 <=? n) && (n <=? 57))%N || bool_decide (c ∈ ["'"; "-"]%char).
Definition attribute_name (s : string) : bool :=
  match s with String c s' => ident_start c && all_chars ident_char s' | EmptyString => false end.
Definition nix_keywords : list string :=
  ["if"; "then"; "else"; "assert"; "with"; "let"; "in"; "rec"; "inherit"].

(** [validate_nixos_runtime_package_expression], setup/first_run.py lines 113-130. *)
Definition validate_nixos_runtime_package_expression (value : string) : result string :=
  let expression := strip value in
  require (match split_char "." expression with
           | root :: ((_ :: _) as parts) => bool_decide (root = "pkgs") && forallb attribute_name parts
               && negb (existsb (λ p, bool_decide (p ∈ nix_keywords)) parts)
           | _ => false
           end)
    (ValueError "runtime package expression must be a simple attribute path rooted in pkgs, such as pkgs.ollama or pkgs.vllm; expose custom packages through a nixpkgs overlay");;
  Ok expression.

(** A control character, which an environment line must not have. *)
Definition control_char (c : ascii) : bool := ((N_of_ascii c <? 32) || (N_of_ascii c =? 127))%N.

(** [_render_systemd_environment_line], setup/first_run.py lines 193-199. *)
Definition _render_systemd_environment_line (name value : string) : result string :=
  require (all_chars (λ c, negb (control_char c)) value)
    (ValueError (name +:+ " must not contain control characters"));;
  let q := String quotation EmptyString in
  let b := String backslash EmptyString in
  let escaped := replace_all q (b +:+ q) (replace_all b (b +:+ b) value) in
  Ok (name +:+ "=" +:+ q +:+ escaped +:+ q +:+ newline).

(** ** Configuration files *)

Definition client_auth_value (m : client_auth_mode) : string :=
  match m with BEARER => "bearer" | NO_AUTH => "none" end.
Definition truth (b : bool) : string := if b then "true" else "false".
(** Lines joined, and a last line break. *)
Definition text_of_lines (l : list string) : string := join newline l +:+ newline.

Section render.
Context {DG : Digests}.

(** [render_control_toml], setup/first_run.py lines 137-148. *)
Definition render_control_toml (spec : ControlBootstrapSpec) : string :=
  text_of_lines
    ["[control]";
     "host = " +:+ _toml_string (cb_bind_host spec);
     "port = " +:+ str_of_Z (cb_port spec);
     "client_auth = " +:+ _toml_string (client_auth_value (cb_client_auth spec));
     "worker_ttl_seconds = " +:+ str_of_Z (cb_worker_ttl_seconds spec);
     "lease_seconds = " +:+ str_of_Z (cb_lease_seconds spec);
     "maintenance_interval_seconds = " +:+ float_repr (cb_maintenance_interval_seconds spec);
     "access_log = " +:+ truth (cb_access_log spec)].

(** [render_control_env], setup/first_run.py lines 151-182. *)
Definition render_control_env (secrets : FirstRunSecrets) (mode : client_auth_mode) : result string :=
  match fs_database_url secrets, fs_worker_token secrets with
  | Some url, Some worker =>
      require (str_truthy url && str_truthy worker)
        (ValueError "Control bootstrap requires database and Worker secrets");;
      let client := default EmptyString (fs_client_token secrets) in
      require (negb (match mode with BEARER => true | NO_AUTH => false end && negb (str_truthy client)))
        (ValueError "Control bearer client auth requires a Client secret");;
      a ← _render_systemd_environment_line "ASTRUMWEAVER_DATABASE_URL" url;
      b ← _render_systemd_environment_line "ASTRUMWEAVER_WORKER_TOKEN" worker;
      match mode with
      | BEARER => c ← _render_systemd_environment_line "ASTRUMWEAVER_CLIENT_TOKEN" client;
                  Ok (a +:+ c +:+ b)
      | NO_AUTH => Ok (a +:+ b)
      end
  | _, _ => Err (ValueError "Control bootstrap requires database and Worker secrets")
  end.

(** [render_worker_env], setup/first_run.py lines 185-190. *)
Definition render_worker_env (worker_token : string) : result string :=
  require (str_truthy (strip worker_token)) (ValueError "Worker token must not be blank");;
  _render_systemd_environment_line "ASTRUMWEAVER_WORKER_TOKEN" worker_token.

(** [control_url_for_bind_host], setup/first_run.py lines 202-216; [ip_version] is the version
    of an IP address. *)
Definition control_url_for_bind_host (ip_version : string → option Z) (bind_host : string) (port : Z)
    : string :=
  let host := strip bind_host in
  let host := if bool_decide (host ∈ ["0.0.0.0"; "::"; "[::]"]) then "127.0.0.1"
              else if startswith "[" host && endswith "]" host
              then cut_suffix "]" (str_drop 1 host) else host in
  let formatted := match ip_version host with
                   | Some 6 => "[" +:+ host +:+ "]" | _ => host end in
  "http://" +:+ formatted +:+ ":" +:+ str_of_Z port.

(** [_validate_smoke_capabilities], setup/first_run.py lines 301-308. *)
Definition _validate_smoke_capabilities (worker : WorkerSpec) (mode : FirstRunExecutionMode) : result unit :=
  require (match mode with SMOKE => bool_decide (capabilities worker = {["debug.echo"]}) | RUNTIME => true end)
    (ValueError "smoke WorkerSpec must advertise only debug.echo").

(** The lines of one accelerator, setup/first_run.py lines 257-274. *)
Definition accelerator_lines (a : AcceleratorDevice) : list string :=
  [EmptyString; "[[worker.accelerators]]"; "uuid = " +:+ _toml_string (ad_uuid a);
   "memory_mb = " +:+ str_of_Z (ad_memory_mb a)]
  ++ match ad_compute_capability a with
     | Some c => ["compute_capability = " +:+ _toml_string c] | None => [] end
  ++ match ad_device_class a with
     | Some c => ["device_class = " +:+ _toml_string c] | None => [] end.

Definition sorted_capabilities (worker : WorkerSpec) : list string :=
  sorted_strings (elements (capabilities worker)).
Definition echo_factory : string := "astrumweaver.executors.structured_echo:create_executor".

(** The last section, setup/first_run.py lines 276-297. *)
Definition execution_lines (mode : FirstRunExecutionMode) (runtime_manifest : string) : list string :=
  match mode with
  | SMOKE => ["[executor]"; "factory = " +:+ _toml_string echo_factory; EmptyString; "[executor.settings]"]
  | RUNTIME => ["[runtime]"; "manifest = " +:+ _toml_string runtime_manifest;
                "startup_timeout_seconds = 600"; "shutdown_timeout_seconds = 60"]
  end.

(** [render_worker_toml], setup/first_run.py lines 219-298. *)
Definition render_worker_toml (worker : WorkerSpec) (control_url : string) (mode : FirstRunExecutionMode)
    (runtime_manifest health_host : string) (health_port : Z) : result string :=
  require (str_truthy (strip control_url)) (ValueError "Control URL must not be blank");;
  require ((1 <=? health_port) && (health_port <=? 65535))
    (ValueError "Worker health port must be between 1 and 65535");;
  _validate_smoke_capabilities worker mode;;
  Ok (text_of_lines
    (["[worker]"; "id = " +:+ _toml_string (worker_id worker);
      "class = " +:+ _toml_string (worker_class worker);
      "control_url = " +:+ _toml_string control_url;
      "capabilities = " +:+ _toml_string_list (sorted_capabilities worker);
      "gpu_uuids = " +:+ _toml_string_list (gpu_uuids worker);
      "gpu_count = " +:+ str_of_Z (gpu_count (resources worker));
      "total_vram_mb = " +:+ str_of_Z (total_vram_mb (resources worker));
      "max_single_gpu_vram_mb = " +:+ str_of_Z (max_single_gpu_vram_mb (resources worker));
      "max_concurrency = 1";
      "gpu_preflight = " +:+ truth (match gpu_uuids worker with [] => false | _ => true end);
      "health_host = " +:+ _toml_string health_host;
      "health_port = " +:+ str_of_Z health_port]
     ++ match labels worker with
        | [] => []
        | l => [EmptyString; "[worker.labels]"]
               ++ ((λ kv, _toml_string kv.1 +:+ " = " +:+ _toml_string kv.2) <$> sorted_pairs l)
        end
     ++ mjoin (accelerator_lines <$> accelerators worker)
     ++ [EmptyString] ++ execution_lines mode runtime_manifest)).

(** ** The Nix snippet *)

(** [json.dumps(text)]: outside the printable ASCII characters everything is escaped. *)
Definition escape_ascii_char (c : ascii) : string :=
  if (127 <=? N_of_ascii c)%N then
    String backslash ("u00" +:+ String (hex_digit (N_of_ascii c / 16))
                                  (String (hex_digit (N_of_ascii c mod 16)) EmptyString))
  else escape_char c.
Fixpoint escape_ascii (s : string) : string :=
  match s with EmptyString => EmptyString | String c s' => escape_ascii_char c +:+ escape_ascii s' end.
Definition quote_ascii (s : string) : string :=
  String quotation (escape_ascii s +:+ String quotation EmptyString).
Fixpoint render_ascii (v : pyval) : string :=
  match v with
  | PStr s => quote_ascii s
  | PList l => "[" +:+ join "," (map render_ascii l) +:+ "]"
  | PDict d => "{" +:+ join "," (map (λ kv, quote_ascii kv.1 +:+ ":" +:+ render_ascii kv.2) d) +:+ "}"
  | _ => render float_repr v
  end.
(** [json.dumps(d, sort_keys=True, separators=(",", ":"))]. *)
Definition compact_json (d : dict pyval) : string := render_ascii (sort_keys (PDict d)).

(** [dict(m.get(key) or {})] and [str(m[key])]. *)
Definition dict_at (key : string) (m : dict pyval) : result (dict pyval) :=
  py_dict (py_or (get key m) (PDict [])).
Definition str_item (key : string) (m : dict pyval) : result string := v ← item key m; py_str v.

(** The Control part, setup/first_run.py lines 682-705. *)
Definition nix_control (control : ControlBootstrapSpec) (control_env_path : string) : list string :=
  ["  services.astrumweaver.control = {";
   "    enable = true;";
   "    clientAuth = " +:+ _nix_string (client_auth_value (cb_client_auth control)) +:+ ";";
   "    settings.control = {";
   "      host = " +:+ _nix_string (cb_bind_host control) +:+ ";";
   "      port = " +:+ str_of_Z (cb_port control) +:+ ";";
   "      worker_ttl_seconds = " +:+ str_of_Z (cb_worker_ttl_seconds control) +:+ ";";
   "      lease_seconds = " +:+ str_of_Z (cb_lease_seconds control) +:+ ";";
   "      maintenance_interval_seconds = "
     +:+ float_repr (cb_maintenance_interval_seconds control) +:+ ";";
   "      access_log = " +:+ truth (cb_access_log control) +:+ ";";
   "    };";
   "    environmentFile = " +:+ _nix_string control_env_path +:+ ";";
   "    migrateOnStart = true;";
   "  };";
   EmptyString].

(** The numbers of the demand, setup/first_run.py lines 779-785. *)
Definition nix_minimums : list (string * string) :=
  [("minGpuCount", "min_gpu_count"); ("minTotalVramMb", "min_total_vram_mb");
   ("minSingleGpuVramMb", "min_single_gpu_vram_mb"); ("minHostRamMb", "min_host_ram_mb");
   ("preferredHostRamMb", "preferred_host_ram_mb")].

(** The runtime part, setup/first_run.py lines 742-817. *)
Definition nix_runtime (deployment : option (dict pyval)) (package_expression : option string)
    : result (list string) :=
  match deployment, package_expression with
  | Some deployment, Some expression =>
      package_expr ← validate_nixos_runtime_package_expression expression;
      provider_id ← str_item "provider_id" deployment;
      provider_config ← dict_at "provider_config" deployment;
      demand ← (v ← item "demand" deployment; py_dict v);
      model ← (v ← item "model" demand; py_dict v);
      model_ref ← str_item "model_ref" model;
      model_format ← str_item "model_format" model;
      topology ← str_item "topology" model;
      residency ← str_item "residency_policy" demand;
      size ← match get "estimated_size_mb" model with
             | PNone => Ok []
             | v => n ← py_int v; Ok ["      estimatedModelSizeMb = " +:+ str_of_Z n +:+ ";"]
             end;
      gpu_topology ← match get "gpu_topology" demand with
                     | PNone => Ok []
                     | v => s ← py_str v; Ok ["      gpuTopology = " +:+ _nix_string s +:+ ";"]
                     end;
      minimums ← mapR (λ names,
                    n ← py_int (get_default names.2 (PInt 0) demand);
                    Ok ("      " +:+ names.1 +:+ " = " +:+ str_of_Z n +:+ ";")) nix_minimums;
      model_metadata ← dict_at "metadata" model;
      demand_metadata ← dict_at "metadata" demand;
      Ok (["    runtime = {"; "      enable = true;";
           "      provider = " +:+ _nix_string provider_id +:+ ";";
           "      packages = [ " +:+ package_expr +:+ " ];";
           "      modelRef = " +:+ _nix_string model_ref +:+ ";";
           "      modelFormat = " +:+ _nix_string model_format +:+ ";";
           "      modelTopology = " +:+ _nix_string topology +:+ ";";
           "      residencyPolicy = " +:+ _nix_string residency +:+ ";"]
          ++ size ++ gpu_topology ++ minimums
          ++ ["      providerConfig = builtins.fromJSON " +:+ _nix_string (compact_json provider_config) +:+ ";";
              "      modelMetadata = builtins.fromJSON " +:+ _nix_string (compact_json model_metadata) +:+ ";";
              "      demandMetadata = builtins.fromJSON " +:+ _nix_string (compact_json demand_metadata) +:+ ";";
              "    };"])
  | _, _ => Err (ValueError "RuntimeProvider Nix rendering requires reviewed deployment data and an explicit Nix package expression")
  end.

(** The Worker part, setup/first_run.py lines 707-818. *)
Definition nix_worker (worker : WorkerSpec) (control_url : string) (mode : FirstRunExecutionMode)
    (worker_env_path : string) (deployment : option (dict pyval)) (package_expression : option string)
    : result (list string) :=
  _validate_smoke_capabilities worker mode;;
  execution ← match mode with
              | SMOKE => Ok ["    executorFactory = " +:+ _nix_string echo_factory +:+ ";"]
              | RUNTIME => nix_runtime deployment package_expression
              end;
  Ok (["  services.astrumweaver.worker = {";
       "    enable = true;";
       "    workerId = " +:+ _nix_string (worker_id worker) +:+ ";";
       "    workerClass = " +:+ _nix_string (worker_class worker) +:+ ";";
       "    controlUrl = " +:+ _nix_string control_url +:+ ";";
       "    capabilities = " +:+ _nix_string_list (sorted_capabilities worker) +:+ ";";
       "    gpuUuids = " +:+ _nix_string_list (gpu_uuids worker) +:+ ";";
       "    totalVramMb = " +:+ str_of_Z (total_vram_mb (resources worker)) +:+ ";";
       "    maxSingleGpuVramMb = " +:+ str_of_Z (max_single_gpu_vram_mb (resources worker)) +:+ ";";
       "    nvidiaSmiPackage = config.hardware.nvidia.package;";
       "    environmentFile = " +:+ _nix_string worker_env_path +:+ ";"]
      ++ execution ++ ["  };"; EmptyString]).

(** [render_nixos_bootstrap_snippet], setup/first_run.py lines 667-821. *)
Definition render_nixos_bootstrap_snippet (role : FirstRunRole) (control : option ControlBootstrapSpec)
    (worker : option WorkerSpec) (control_url : option string) (mode : FirstRunExecutionMode)
    (control_env_path worker_env_path : string) (deployment : option (dict pyval))
    (package_expression : option string) : result string :=
  control_lines ← match role, control with
                  | ROLE_WORKER, _ => Ok []
                  | _, Some c => Ok (nix_control c control_env_path)
                  | _, None => Err (ValueError "Control role requires ControlBootstrapSpec")
                  end;
  worker_lines ← match role, worker, control_url with
                 | ROLE_CONTROL, _, _ => Ok []
                 | _, Some w, Some url => nix_worker w url mode worker_env_path deployment package_expression
                 | _, _, _ => Err (ValueError "Worker role requires WorkerSpec/control URL")
                 end;
  Ok (text_of_lines (["{ config, pkgs, ... }:"; EmptyString; "{"] ++ control_lines ++ worker_lines ++ ["}"])).
End render.

(** ** The host *)

(** What first run asks of the host.  [TemporaryFile] is [tempfile.mkstemp] (in a directory, or
    the default one); its descriptor is written, synced and given a mode by path.  [RunTool]
    has the variables added to the environment, and answers the exit status; [OpenUrl] answers
    the status and the body. *)
Inductive first_run_op : Type → Type :=
  | EffectiveUid : first_run_op Z
  | ExecutableFile (p : path) : first_run_op bool
  | Absolute (p : path) : first_run_op path
  | Resolved (p : path) : first_run_op path
  | WhichTool (name : string) : first_run_op (option string)
  | TemporaryFile (directory : option path) (suffix : string) : first_run_op path
  | SetMode (p : path) (mode : Z) : first_run_op unit
  | WriteContent (p : path) (content : string) : first_run_op unit
  | SyncFile (p : path) : first_run_op unit
  | Unlink (p : path) : first_run_op unit
  | MakeParents (p : path) : first_run_op unit
  | ReadContent (p : path) : first_run_op string
  | ReplaceFile (source target : path) : first_run_op unit
  | RunTool (argv : list string) (env : list (string * string)) : first_run_op Z
  | OpenUrl (url : string) : first_run_op (Z * string)
  | ClockNow : first_run_op Z
  | WaitFor (d : Z) : first_run_op unit.

(** The attributes of [SystemdFirstRunInstaller], and [sys.argv[0]]. *)
Record installer := {
  in_tool_dir : option path;
  in_systemctl : string;
  in_poll_interval_seconds : spec_float;
  in_ready_timeout_seconds : spec_float;
  in_argv0 : string;
}.

(** [SystemdFirstRunInstaller.__init__], setup/first_run.py lines 363-378. *)
Definition mk_installer (tool_dir : option path) (systemctl : string) (poll timeout : spec_float)
    (argv0 : string) : result installer :=
  require (match tool_dir with Some d => is_absolute d | None => true end)
    (ValueError "packaged tool directory must be absolute");;
  Ok {| in_tool_dir := tool_dir; in_systemctl := systemctl; in_poll_interval_seconds := poll;
        in_ready_timeout_seconds := timeout; in_argv0 := argv0 |}.

(** [SystemdBootstrapResult], setup/first_run.py lines 344-350. *)
Record SystemdBootstrapResult := {
  br_control_installed : bool;
  br_control_ready : bool;
  br_migration_applied : bool;
  br_worker_installed : bool;
  br_worker_ready : bool;
}.

Section install.
Context {W : Type} `{Handler first_run_op W} {DG : Digests} {DL : DriverLibrary}.
Abbreviation T := (eff (logged first_run_op W)).

(** What [path.unlink(missing_ok=True)] does with a missing file. *)
Definition unlink (p : path) : T unit :=
  try_catch (ask (Unlink p)) (λ e, match e with FileNotFoundError _ => mret tt | _ => throws e end).

(** [write_protected_file], setup/first_run.py lines 311-341. *)
Definition write_protected_file (p : path) (content : string) : T unit :=
  ask (MakeParents p);;
  existing ← try_catch (text ← ask (ReadContent p); mret (Some text))
    (λ e, match e with FileNotFoundError _ => mret None | _ => throws e end);
  match existing with
  | Some text =>
      ensure (bool_decide (text = content))
        (RuntimeError ("refusing to replace existing protected file with different content: " +:+ path_str p));;
      ask (SetMode p 384)
  | None =>
      tmp ← ask (TemporaryFile (Some (parent p)) EmptyString);
      try_finally
        (ask (SetMode tmp 384);;
         ask (WriteContent tmp content);;
         ask (SyncFile tmp);;
         ask (ReplaceFile tmp p);;
         ask (SetMode p 384))
        (unlink tmp)
  end.

Variable config : installer.

(** [_require_root], setup/first_run.py lines 380-385. *)
Definition _require_root : T unit :=
  uid ← ask EffectiveUid;
  ensure (uid =? 0) (OSError "generic systemd first-run apply must run as root (invoke astrumweaver-setup-tui with sudo)").

(** The first executable candidate, setup/first_run.py lines 410-415. *)
Fixpoint first_tool (candidates : list path) (message : string) : T string :=
  match candidates with
  | [] => throws (RuntimeError message)
  | c :: rest => b ← ask (ExecutableFile c);
                 if b : bool then mret (path_str c) else first_tool rest message
  end.

(** [_resolve_tool], setup/first_run.py lines 387-415. *)
Definition _resolve_tool (name : string) : T string :=
  match in_tool_dir config with
  | Some directory =>
      first_tool [path_join directory (Path name)]
        ("required packaged command is unavailable from the explicit packaged tool authority: " +:+ name)
  | None =>
      beside ← (if contains "/" (in_argv0 config) then
                  a ← ask (Absolute (Path (in_argv0 config)));
                  r ← ask (Resolved (Path (in_argv0 config)));
                  mret [path_join (parent a) (Path name); path_join (parent r) (Path name)]
                else mret []);
      found ← ask (WhichTool name);
      first_tool (beside ++ match found with
                            | Some p => if str_truthy p then [Path p] else [] | None => [] end)
        ("required packaged command is unavailable: " +:+ name)
  end.

(** [_resolve_persistent_daemon], setup/first_run.py lines 422-432. *)
Definition _resolve_persistent_daemon (name : string) : T string :=
  resolved ← _resolve_tool name;
  ensure (negb (bool_decide (in_tool_dir config = None) && startswith "/nix/store/" resolved))
    (RuntimeError "persistent daemon executable resolved to an immutable Nix store path; invoke the packaged TUI or supply an explicit profile tool authority");;
  mret resolved.

(** [_temporary_file] around a computation, setup/first_run.py lines 434-454. *)
Definition with_temporary_file {A} (content suffix : string) (k : path → T A) : T A :=
  p ← ask (TemporaryFile None suffix);
  try_finally
    (ask (SetMode p 384);; ask (WriteContent p content);; ask (SyncFile p);; k p)
    (unlink p).

(** [_run], setup/first_run.py lines 456-466. *)
Definition _run (argv : list string) (env : list (string * string)) : T unit :=
  code ← ask (RunTool argv env);
  ensure (code =? 0) (CalledProcessError "Command returned non-zero exit status").

(** [str.capitalize] of the two roles. *)
Definition capitalized (role : string) : string :=
  if bool_decide (role = "control") then "Control" else "Worker".
(** [_diagnostics], setup/first_run.py lines 505-516. *)
Definition _diagnostics (role : string) (port : Z) : string :=
  join newline
    ["Inspect:"; "  systemctl status astrumweaver-" +:+ role +:+ ".service";
     "  journalctl -u astrumweaver-" +:+ role +:+ ".service -b";
     "  curl http://127.0.0.1:" +:+ str_of_Z port +:+ "/"
       +:+ (if bool_decide (role = "control") then "v1/ready" else "health");
     "Use the configured local bind address if loopback is not enabled."].

(** [_run_service], setup/first_run.py lines 518-532. *)
Definition _run_service (argv : list string) (env : list (string * string)) (role : string) (port : Z) : T unit :=
  try_catch (_run argv env) (λ e,
    match e with
    | CalledProcessError _ =>
        throws (RuntimeError (capitalized role +:+ " setup/migration/start command failed." +:+ newline
                              +:+ _diagnostics role port))
    | _ => if is_OSError e then
             throws (RuntimeError (capitalized role +:+ " setup/migration/start command failed." +:+ newline
                                   +:+ _diagnostics role port))
           else throws e
    end).

(** A body that says ready, and registered where that is required,
    setup/first_run.py lines 484-495. *)
Definition ready_body (require_registered : bool) (body : option pyval) : bool :=
  match body with
  | Some (PDict d) =>
      match dget "ready" d with Some (PBool true) => true | _ => false end
      && (negb require_registered || match dget "registered" d with Some (PBool true) => true | _ => false end)
  | _ => false
  end.

(** One attempt: [OSError], a status that is not 200 and a body that is not what it should be
    are retried, setup/first_run.py lines 477-503. *)
Definition poll_once (url : string) (require_registered : bool) : T bool :=
  try_catch
    (response ← ask (OpenUrl url);
     mret ((response.1 =? 200) && ready_body require_registered (json_loads response.2)))
    (λ e, match e with
          | RuntimeError _ => mret false
          | _ => if is_OSError e then mret false else throws e
          end).

(** [time.sleep]. *)
Definition wait_for (d : duration) : T unit :=
  match d with
  | Ticks x => ask (WaitFor x)
  | Endless => throws (OverflowError "timestamp too large to convert to C PyTime_t")
  | NotANumber => throws (ValueError "Invalid value NaN (not a number)")
  end.

(** Whether the clock is still before the deadline. *)
Definition before_deadline (timeout : duration) (elapsed : Z) : bool :=
  match timeout with Ticks t => elapsed <? t | Endless => true | NotANumber => false end.

(** The loop of [_wait_json_ready], setup/first_run.py lines 475-504; [None] when the turns run
    out. *)
Fixpoint poll_loop (fuel : nat) (url : string) (require_registered : bool) (started : Z) : T (option bool) :=
  match fuel with
  | O => mret None
  | S fuel' =>
      now ← ask ClockNow;
      if before_deadline (duration_of (in_ready_timeout_seconds config)) (now - started) then
        ready ← poll_once url require_registered;
        if ready : bool then mret (Some true)
        else
          wait_for (duration_of (in_poll_interval_seconds config));;
          poll_loop fuel' url require_registered started
      else mret (Some false)
  end.
(** [_wait_json_ready], setup/first_run.py lines 468-504. *)
Definition _wait_json_ready (fuel : nat) (url : string) (require_registered : bool) : T (option bool) :=
  started ← ask ClockNow; poll_loop fuel url require_registered started.

(** [install_control], setup/first_run.py lines 534-600; [None] when the turns of the wait run out. *)
Definition install_control (ip_version : string → option Z) (fuel : nat) (spec : ControlBootstrapSpec)
    (secrets : FirstRunSecrets) : T (option SystemdBootstrapResult) :=
  _require_root;;
  setup ← _resolve_tool "astrumweaver-setup-control-plane";
  executable ← _resolve_persistent_daemon "astrumweaver-control";
  migrate ← _resolve_tool "astrumweaver-migrate";
  with_temporary_file (render_control_toml spec) ".toml" (λ config_path,
    env ← lifts (render_control_env secrets (cb_client_auth spec));
    with_temporary_file env ".env" (λ env_path,
      _run_service [setup; "--config"; path_str config_path; "--environment-file"; path_str env_path;
                    "--executable"; executable] [] "control" (cb_port spec)));;
  match fs_database_url secrets with
  | None => throws (AssertionError EmptyString)
  | Some url =>
      _run_service [migrate] [("ASTRUMWEAVER_DATABASE_URL", url)] "control" (cb_port spec);;
      _run_service [in_systemctl config; "enable"; "--now"; "astrumweaver-control.service"] []
        "control" (cb_port spec);;
      and_then
        (_wait_json_ready fuel
           (control_url_for_bind_host ip_version (cb_bind_host spec) (cb_port spec) +:+ "/v1/ready") false)
        (λ ready,
          ensure ready (RuntimeError ("Control service did not become ready after migration/start."
                                      +:+ newline +:+ _diagnostics "control" (cb_port spec)));;
          mret (Some {| br_control_installed := true; br_control_ready := true;
                        br_migration_applied := true; br_worker_installed := false;
                        br_worker_ready := false |}))
  end.

(** Running the setup helper of a Worker, setup/first_run.py lines 614-651. *)
Definition run_worker_setup (setup executable worker_toml worker_token : string)
    (runtime_manifest_json : option string) (start : bool) : T unit :=
  with_temporary_file worker_toml ".toml" (λ config_path,
    env ← lifts (render_worker_env worker_token);
    with_temporary_file env ".env" (λ env_path,
      let argv := [setup; "--config"; path_str config_path; "--environment-file"; path_str env_path;
                   "--executable"; executable] in
      let tail := if start then ["--start"] else [] in
      match runtime_manifest_json with
      | Some manifest =>
          with_temporary_file manifest ".json" (λ manifest_path,
            _run_service (argv ++ ["--runtime-manifest"; path_str manifest_path] ++ tail) [] "worker" 9100)
      | None => _run_service (argv ++ tail) [] "worker" 9100
      end)).

(** [install_worker], setup/first_run.py lines 602-664. *)
Definition install_worker (fuel : nat) (worker_toml worker_token : string)
    (runtime_manifest_json : option string) (start : bool) : T (option SystemdBootstrapResult) :=
  _require_root;;
  setup ← _resolve_tool "astrumweaver-setup-gpu-worker";
  executable ← _resolve_persistent_daemon "astrumweaver-worker";
  run_worker_setup setup executable worker_toml worker_token runtime_manifest_json start;;
  let installed ready := {| br_control_installed := false; br_control_ready := false;
    br_migration_applied := false; br_worker_installed := true; br_worker_ready := ready |} in
  if start then
    and_then (_wait_json_ready fuel "http://127.0.0.1:9100/health" true) (λ ready,
      ensure ready (RuntimeError ("Worker service did not become ready/registered." +:+ newline
                                  +:+ _diagnostics "worker" 9100));;
      mret (Some (installed true)))
  else mret (Some (installed false)).
End install.
