(* ===== verification/FirstRunProps.v ===== *)
(** * What the first run writes, and what it runs

    The configuration text reads back as the values an operator reviewed; a protected file is
    never replaced and never seen in part; the installer runs the helpers in order, leaves no
    secret behind in a temporary file, and says ready only of a service that said so. *)

From Stdlib Require Import SpecFloat.
From S2P Require Import Prelude PyStr PyDict PyVal PyHost Effects Trace PyText SetupFs PyNum Contracts Json GpuIsolation Api ControlDaemon SetupContracts Systemd FirstRun.

(** ** Replacing *)

(** Every character [c] of a text replaced. *)
Fixpoint replace_char (c : ascii) (new s : string) : string :=
  match s with
  | EmptyString => EmptyString
  | String d s' => if bool_decide (d = c) then new +:+ replace_char c new s'
                   else String d (replace_char c new s')
  end.
Lemma replace_all_char c new s : replace_all (String c EmptyString) new s = replace_char c new s.
Proof.
  unfold replace_all. induction s as [|d s IH]; [done|]. cbn.
  rewrite (bool_decide_ext (c = d) (d = c)) by done.
  case_bool_decide; cbn; by rewrite IH.
Qed.

(** The escaped value of an environment line. *)
Fixpoint sh_escape (s : string) : string :=
  match s with
  | EmptyString => EmptyString
  | String c s' =>
      if bool_decide (c = sh_backslash) || bool_decide (c = dquote)
      then String sh_backslash (String c (sh_escape s')) else String c (sh_escape s')
  end.
Lemma replace_sh_escape s :
  replace_char dquote (String sh_backslash (String dquote EmptyString))
    (replace_char sh_backslash (String sh_backslash (String sh_backslash EmptyString)) s) = sh_escape s.
Proof.
  induction s as [|c s IH]; [done|]. cbn [replace_char sh_escape].
  destruct (decide (c = sh_backslash)) as [->|Hb].
  - rewrite (bool_decide_eq_true_2 (sh_backslash = sh_backslash)) by done.
    rewrite !append_cons, append_nil_l. cbn [replace_char]. rewrite IH.
    by rewrite !(bool_decide_eq_false_2 (sh_backslash = dquote)).
  - rewrite (bool_decide_eq_false_2 (c = sh_backslash)) by done. cbn [replace_char]. rewrite IH.
    case_bool_decide; cbn [orb]; [|done]. subst. by rewrite !append_cons, append_nil_l.
Qed.

(** ** Environment files *)

Lemma environment_line_Ok name value text : _render_systemd_environment_line name value = Ok text ↔
  all_chars (λ c, negb (control_char c)) value = true ∧
  text = name +:+ "=" +:+ String dquote (sh_escape value +:+ String dquote newline).
Proof.
  unfold _render_systemd_environment_line. rewrite replace_all_char.
  change (String backslash EmptyString +:+ String backslash EmptyString)
    with (String sh_backslash (String sh_backslash EmptyString)).
  change (String backslash EmptyString +:+ String quotation EmptyString)
    with (String sh_backslash (String dquote EmptyString)).
  change backslash with sh_backslash. change quotation with dquote.
  rewrite replace_all_char, replace_sh_escape.
  destruct (all_chars _ value); cbn; [|naive_solver].
  split; [intros [= <-]; split; [done|]|intros [_ ->]; f_equal]; by rewrite !append_cons, !append_nil_l.
Qed.

(** An escaped backslash or quotation mark, and any other character, inside quotation marks. *)
Lemma scan_quoted_escape c tok s : c = sh_backslash ∨ c = dquote →
  sh_scan (ShQuote dquote) tok true (String sh_backslash (String c s))
  = sh_scan (ShQuote dquote) (tok +:+ char_str c) true s.
Proof. by intros [-> | ->]. Qed.
Lemma scan_quoted_char c tok s : c ≠ sh_backslash → c ≠ dquote →
  sh_scan (ShQuote dquote) tok true (String c s) = sh_scan (ShQuote dquote) (tok +:+ char_str c) true s.
Proof.
  intros Hb Hq. cbn [sh_scan]. by rewrite (bool_decide_eq_false_2 (c = dquote)),
    (bool_decide_eq_false_2 (c = sh_backslash)) by done.
Qed.

(** What was escaped is read back inside quotation marks. *)
Lemma scan_escaped value : ∀ tok rest,
  sh_scan (ShQuote dquote) tok true (sh_escape value +:+ rest)
  = sh_scan (ShQuote dquote) (tok +:+ value) true rest.
Proof.
  induction value as [|c value IH]; intros tok rest; [by rewrite append_nil_r|].
  cbn [sh_escape]. destruct (bool_decide (c = sh_backslash) || bool_decide (c = dquote)) eqn:E.
  - rewrite !append_cons, scan_quoted_escape, IH.
    + unfold char_str. by rewrite append_assoc.
    + apply orb_true_iff in E as [?%bool_decide_eq_true | ?%bool_decide_eq_true]; auto.
  - apply orb_false_iff in E as [?%bool_decide_eq_false ?%bool_decide_eq_false].
    rewrite append_cons, scan_quoted_char, IH by done. unfold char_str. by rewrite append_assoc.
Qed.

(** The characters of a variable's name. *)
Definition plain_char (c : ascii) : bool :=
  negb (sh_space c || sh_quote c || bool_decide (c = sh_backslash)).
Lemma scan_plain name : all_chars plain_char name = true → ∀ tok rest,
  sh_scan ShWord tok false (name +:+ rest) = sh_scan ShWord (tok +:+ name) false rest.
Proof.
  induction name as [|c name IH]; intros Hn tok rest; [by rewrite append_nil_r|].
  cbn in Hn. apply andb_true_iff in Hn as [Hc Hn]. unfold plain_char in Hc.
  apply negb_true_iff, orb_false_iff in Hc as [[Hs Hq]%orb_false_iff Hb].
  rewrite append_cons. cbn [sh_scan]. rewrite Hs, Hq, Hb, (IH Hn). unfold char_str. by rewrite append_assoc.
Qed.

Lemma environment_line_reads name value text rest :
  _render_systemd_environment_line name value = Ok text →
  all_chars plain_char name = true → name ≠ EmptyString →
  shlex_split (text +:+ rest) = (words ← shlex_split rest; Ok ((name +:+ "=" +:+ value) :: words)).
Proof.
  intros [_ ->]%environment_line_Ok Hn Hne. destruct name as [|c name]; [done|]. cbn in Hn.
  apply andb_true_iff in Hn as [Hc Hn]. unfold plain_char in Hc.
  apply negb_true_iff, orb_false_iff in Hc as [[Hs Hq]%orb_false_iff Hb].
  unfold shlex_split. rewrite !append_assoc, append_cons. cbn [sh_scan]. rewrite Hs, Hq, Hb, (scan_plain _ Hn).
  rewrite (scan_plain "="), append_cons by done. cbn [sh_scan].
  change (sh_space dquote) with false. change (sh_quote dquote) with true. cbn match.
  rewrite !append_assoc, scan_escaped, append_cons. unfold newline. rewrite append_cons, append_nil_l.
  cbn [sh_scan]. rewrite (bool_decide_eq_true_2 (dquote = dquote)) by done.
  change (sh_space "010") with true. cbn match. unfold sh_emit. rewrite orb_true_r. cbn [app].
  destruct (sh_scan ShBlank EmptyString false rest) as [words|e]; [|done]. cbn.
  unfold char_str. by rewrite !append_assoc, append_cons, append_nil_l.
Qed.

Lemma splitlines_one s : all_chars (λ c, negb (is_linebreak c)) s = true →
  ∀ cur started, splitlines_aux cur started (s +:+ newline) = [cur +:+ s].
Proof.
  induction s as [|c s IH]; intros Hs cur started.
  { cbn. by rewrite append_nil_r. }
  cbn in Hs. apply andb_true_iff in Hs as [Hc%negb_true_iff Hs].
  rewrite append_cons. cbn [splitlines_aux]. rewrite Hc, (IH Hs). by rewrite append_assoc.
Qed.

Lemma escape_lines s : all_chars (λ c, negb (control_char c)) s = true → lacks "133" s = true →
  all_chars (λ c, negb (is_linebreak c)) (sh_escape s) = true.
Proof.
  intros Hs Hn. induction s as [|c s IH]; [done|]. cbn in Hs, Hn.
  apply andb_true_iff in Hs as [Hc Hs]. apply andb_true_iff in Hn as [Hd Hn]. specialize (IH Hs Hn).
  assert (negb (is_linebreak c) = true) as Hl.
  { unfold is_linebreak. unfold control_char in Hc.
    destruct (decide (N_of_ascii c = 133%N)) as [E|E].
    - apply (f_equal ascii_of_N) in E. rewrite ascii_N_embedding in E. by subst.
    - apply negb_true_iff, not_true_is_false. rewrite !orb_true_iff, !andb_true_iff, !N.leb_le, N.eqb_eq.
      apply negb_true_iff, orb_false_iff in Hc as [?%N.ltb_ge _]. lia. }
  cbn [sh_escape]. destruct (_ || _); cbn [all_chars]; [|by rewrite Hl].
  rewrite Hl, IH. done.
Qed.

(** What the variables of the Control's environment file are meant to be. *)
Definition control_assignments (secrets : FirstRunSecrets) (mode : client_auth_mode) : list string :=
  ["ASTRUMWEAVER_DATABASE_URL=" +:+ default EmptyString (fs_database_url secrets)]
  ++ match mode with
     | BEARER => ["ASTRUMWEAVER_CLIENT_TOKEN=" +:+ default EmptyString (fs_client_token secrets)]
     | NO_AUTH => []
     end
  ++ ["ASTRUMWEAVER_WORKER_TOKEN=" +:+ default EmptyString (fs_worker_token secrets)].

(** ** A Worker's file beyond Latin-1

    The same file and its check over the code points of a text, since [str.splitlines] knows
    two line boundaries, U+2028 and U+2029, that the strings of the model do not have. *)
Fixpoint points (s : string) : list Z :=
  match s with EmptyString => [] | String c s' => Z.of_N (N_of_ascii c) :: points s' end.
(** [str.isspace] and the line boundaries of [str.splitlines]. *)
Definition u_space (n : Z) : bool :=
  (9 <=? n) && (n <=? 13) || (28 <=? n) && (n <=? 32) || (8192 <=? n) && (n <=? 8202)
  || bool_decide (n ∈ [133; 160; 5760; 8232; 8233; 8239; 8287; 12288]).
Definition u_linebreak (n : Z) : bool :=
  (10 <=? n) && (n <=? 13) || (28 <=? n) && (n <=? 30) || bool_decide (n ∈ [133; 8232; 8233]).
Fixpoint u_lines_aux (cur : list Z) (started : bool) (s : list Z) : list (list Z) :=
  match s with
  | [] => if started then [cur] else []
  | c :: s' =>
      if u_linebreak c then
        match s' with
        | d :: s'' => if (c =? 13) && (d =? 10) then cur :: u_lines_aux [] false s'' else cur :: u_lines_aux [] false s'
        | [] => [cur]
        end
      else u_lines_aux (cur ++ [c]) true s'
  end.
Definition u_lines (s : list Z) : list (list Z) := u_lines_aux [] false s.
Fixpoint u_lstrip (s : list Z) : list Z :=
  match s with c :: s' => if u_space c then u_lstrip s' else s | [] => [] end.
Fixpoint u_startswith (p s : list Z) : bool :=
  match p, s with
  | [], _ => true
  | c :: p', d :: s' => (c =? d) && u_startswith p' s'
  | _, [] => false
  end.
(** A line that assigns a protected name and is no comment,
    validation/runtime_deployment.py lines 481-484 and 505-508. *)
Definition u_overriding_line (line : list Z) : bool :=
  let t := u_lstrip line in
  negb (u_startswith (points "#") t || u_startswith (points ";") t) &&
  existsb (λ name, u_startswith (points name) t &&
                   u_startswith (points "=") (u_lstrip (drop (String.length name) t))) protected_names.
(** [value.replace(old, new)] for one character. *)
Definition u_replace (old : Z) (new s : list Z) : list Z := s ≫= (λ c, if c =? old then new else [c]).
(** [_render_systemd_environment_line], setup/first_run.py lines 193-199; 92 is the backslash,
    34 the quotation mark. *)
Definition u_environment_line (name : string) (value : list Z) : result (list Z) :=
  require (negb (existsb (λ c, (c <? 32) || (c =? 127)) value))
    (ValueError (name +:+ " must not contain control characters"));;
  Ok (points name ++ [61; 34] ++ u_replace 34 [92; 34] (u_replace 92 [92; 92] value) ++ [34; 10]).
(** [render_worker_env], setup/first_run.py lines 185-190. *)
Definition u_render_worker_env (worker_token : list Z) : result (list Z) :=
  require (existsb (λ c, negb (u_space c)) worker_token) (ValueError "Worker token must not be blank");;
  u_environment_line "ASTRUMWEAVER_WORKER_TOKEN" worker_token.

(** The line boundaries that are no control characters. *)
Definition separators : list Z := [133; 8232; 8233].

Lemma u_lines_one s : Forall (λ c, u_linebreak c = false) s →
  ∀ cur started, u_lines_aux cur started (s ++ [10]) = [cur ++ s].
Proof.
  induction 1 as [|c s Hc Hs IH]; intros cur started; cbn [app u_lines_aux]; [by rewrite app_nil_r|].
  by rewrite Hc, IH, <-(assoc_L (++)).
Qed.
Lemma u_replace_unbroken old new s : Forall (λ c, u_linebreak c = false) new →
  Forall (λ c, u_linebreak c = false) s → Forall (λ c, u_linebreak c = false) (u_replace old new s).
Proof.
  intros Hn. unfold u_replace. induction 1 as [|c s Hc Hs IH]; cbn; [done|].
  apply Forall_app. split; [|exact IH]. destruct (c =? old); [done|by repeat constructor].
Qed.
Lemma u_value_unbroken value : existsb (λ c, (c <? 32) || (c =? 127)) value = false →
  Forall (λ c, c ∉ separators) value → Forall (λ c, u_linebreak c = false) value.
Proof.
  intros Hc. rewrite !Forall_forall. intros Hs c Hin. specialize (Hs c Hin).
  assert (32 ≤ c).
  { apply not_true_iff_false in Hc. rewrite existsb_exists in Hc. apply Z.le_ngt. intros Hlt. apply Hc.
    exists c. split; [by apply list_elem_of_In|]. lia. }
  unfold u_linebreak. unfold separators in Hs. rewrite bool_decide_false by done. lia.
Qed.
(** No line of the file of a token without separators sets what only the unit may set. *)
Lemma u_env_safe token text : u_render_worker_env token = Ok text → Forall (λ c, c ∉ separators) token →
  existsb u_overriding_line (u_lines text) = false.
Proof.
  unfold u_render_worker_env, u_environment_line. rewrite !guard_Ok. intros (_ & Hc%negb_true_iff & E) Hs.
  match type of E with Ok ?x = _ => assert (x = text) as <- by congruence end. clear E.
  pose proof (u_value_unbroken token Hc Hs) as Hv.
  set (v := u_replace 34 _ _). assert (Forall (λ c, u_linebreak c = false) v) as Hu.
  { by apply u_replace_unbroken, u_replace_unbroken; [repeat constructor..|]. }
  clearbody v. unfold u_lines.
  set (name := points _).
  replace (name ++ [61; 34] ++ v ++ [34; 10]) with ((name ++ [61; 34] ++ v ++ [34]) ++ [10])
    by by rewrite <-!(assoc_L (++)).
  rewrite u_lines_one; [done|]. rewrite !Forall_app.
  split; [vm_compute; by repeat constructor|]. split; [by repeat constructor|]. split; [done|by repeat constructor].
Qed.

(** A token with U+2028 makes the check refuse the file that setup wrote, though the variable is
    in the middle of a quoted value. *)
Definition separator_token : list Z := points "a" ++ [8232] ++ points "CUDA_VISIBLE_DEVICES=1".
Lemma separator_refused :
  match u_render_worker_env separator_token with
  | Ok text => existsb u_overriding_line (u_lines text) = true
  | Err _ => False
  end.
Proof. vm_compute. reflexivity. Qed.

(** Property C31: The environment files of the first run say exactly what was meant.  Over texts of
    code points up to U+00FF, whatever characters the secrets have: the shell words of the
    Control's file are the assignments of the database URL, of the client token when clients
    authenticate (and of none otherwise) and of the Worker token; those of a Worker's file are
    its token alone.  For a token of any code points without the line boundaries U+0085, U+2028
    and U+2029, which the file may hold though [str.splitlines] splits on them, the GPU
    isolation check of the running service accepts a Worker's file: no line of it assigns a
    variable that only the unit may set. *)
Theorem env_files_read_back :
  (∀ secrets mode text, render_control_env secrets mode = Ok text →
    shlex_split text = Ok (control_assignments secrets mode)) ∧
  (∀ token text, render_worker_env token = Ok text →
    shlex_split text = Ok ["ASTRUMWEAVER_WORKER_TOKEN=" +:+ token] ∧
    (lacks "133" token = true → existsb overriding_line (splitlines text) = false)) ∧
  (∀ token text, u_render_worker_env token = Ok text → Forall (λ c, c ∉ separators) token →
    existsb u_overriding_line (u_lines text) = false).
Proof.
  split; [|split; [|exact u_env_safe]].
  - intros [[url|] [client|] [worker|]] mode text; unfold render_control_env, control_assignments; cbn; try done;
      destruct (str_truthy url && str_truthy worker); cbn; try done;
      destruct mode; cbn; try done; try (destruct (str_truthy client); cbn; try done);
      destruct (_render_systemd_environment_line _ url) as [a|] eqn:Ea; cbn; try done;
      destruct (_render_systemd_environment_line _ worker) as [b|] eqn:Eb; cbn; try done;
      try (destruct (_render_systemd_environment_line _ client) as [c|] eqn:Ec; cbn; try done);
      intros [= <-]; rewrite (environment_line_reads _ _ _ _ Ea) by done;
      try (rewrite (environment_line_reads _ _ _ _ Ec) by done);
      rewrite <-(append_nil_r b); by rewrite (environment_line_reads _ _ _ _ Eb) by done.
  - intros token text. unfold render_worker_env. destruct (str_truthy (strip token)); [cbn|done].
    intros E. split.
    { rewrite <-(append_nil_r text). by rewrite (environment_line_reads _ _ _ _ E) by done. }
    intros Hn. apply environment_line_Ok in E as [Hc ->].
    set (t := sh_escape token). assert (all_chars (λ c, negb (is_linebreak c)) t = true) as Ht.
    { by apply escape_lines. }
    change (String dquote newline) with (String dquote EmptyString +:+ newline).
    rewrite <-append_cons, <-!append_assoc. unfold splitlines. rewrite splitlines_one; [done|].
    rewrite !all_chars_app. change (all_chars ?p (String dquote t)) with (all_chars p t). by rewrite Ht.
Qed.
Lemma env_files_read_back_witness :
  let secrets := {| fs_database_url := Some "postgresql://u:p w@h/d"; fs_client_token := Some "c";
                    fs_worker_token := Some (String dquote (String sh_backslash EmptyString)) |} in
  let text := "ASTRUMWEAVER_WORKER_TOKEN=" +:+ String dquote (String sh_backslash (String dquote
                (String sh_backslash (String sh_backslash (String dquote newline))))) in
  shlex_split ("ASTRUMWEAVER_DATABASE_URL=" +:+ String dquote ("postgresql://u:p w@h/d" +:+ String dquote newline)
               +:+ text) = Ok (control_assignments secrets NO_AUTH) ∧
  existsb overriding_line (splitlines text) = false.
Proof.
  destruct env_files_read_back as (Hc & Hw & _). split.
  - by apply (Hc _ NO_AUTH).
  - by apply (Hw (String dquote (String sh_backslash EmptyString))).
Defined.

(** ** Nix literals *)

(** What Nix reads of a string after its opening quotation mark, and the rest after the closing
    one; [None] when it is not closed or acquires scope by [${]. *)
Definition nix_unescape (c : ascii) : ascii :=
  if bool_decide (c = "n"%char) then "010" else if bool_decide (c = "r"%char) then "013"
  else if bool_decide (c = "t"%char) then "009" else c.
Fixpoint nix_read (s : string) : option (string * string) :=
  match s with
  | EmptyString => None
  | String c r =>
      if bool_decide (c = quotation) then Some (EmptyString, r)
      else if bool_decide (c = backslash) then
        match r with
        | EmptyString => None
        | String d r' => prod_map (String (nix_unescape d)) id <$> nix_read r'
        end
      else if bool_decide (c = "$"%char) && startswith "{" r then None
      else prod_map (String c) id <$> nix_read r
  end.

(** The escaped text, [${] included. *)
Fixpoint nix_escape (s : string) : string :=
  match s with
  | EmptyString => EmptyString
  | String c s' =>
      if bool_decide (c = "$"%char) && startswith "{" s' then String backslash (String c (nix_escape s'))
      else escape_char c +:+ nix_escape s'
  end.

Lemma startswith_escape s r : startswith "{" r = false →
  startswith "{" (escape s +:+ r) = startswith "{" s.
Proof.
  destruct s as [|c s]; cbn [escape].
  - intros Hr. by rewrite append_nil_l.
  - intros _. rewrite append_assoc. by destruct c as [[] [] [] [] [] [] [] []].
Qed.
Lemma startswith_nix_escape s r : startswith "{" r = false →
  startswith "{" (nix_escape s +:+ r) = startswith "{" s.
Proof.
  destruct s as [|c s]; cbn [nix_escape].
  - intros Hr. by rewrite append_nil_l.
  - intros _. destruct (bool_decide (c = "$"%char) && startswith "{" s) eqn:E.
    + apply andb_true_iff in E as [->%bool_decide_eq_true _]. done.
    + rewrite append_assoc. by destruct c as [[] [] [] [] [] [] [] []].
Qed.
Definition pure_char (c : ascii) : bool := negb (bool_decide (c = "$"%char)).
Lemma replace_pure a new b : all_chars pure_char a = true →
  replace_all "${" new (a +:+ b) = a +:+ replace_all "${" new b.
Proof.
  unfold replace_all. induction a as [|c a IH]; intros Ha; [done|].
  cbn in Ha. apply andb_true_iff in Ha as [Hc Ha]. unfold pure_char in Hc.
  apply negb_true_iff, bool_decide_eq_false in Hc.
  rewrite append_cons. cbn [replace_from startswith]. rewrite bool_decide_eq_false_2 by congruence.
  cbn [andb]. by rewrite IH.
Qed.
Lemma escape_char_pure c : c ≠ "$"%char → all_chars pure_char (escape_char c) = true.
Proof. destruct c as [[] [] [] [] [] [] [] []]; done. Qed.

Lemma nix_escape_spec s r : startswith "{" r = false → all_chars pure_char r = true →
  replace_all "${" (String backslash "${") (escape s +:+ r) = nix_escape s +:+ r.
Proof.
  intros Hb Hr. induction s as [|c s IH]; cbn [escape nix_escape].
  - rewrite !append_nil_l. rewrite <-(append_nil_r r) at 1. rewrite replace_pure by done.
    cbn. by rewrite append_nil_r.
  - destruct (decide (c = "$"%char)) as [->|Hc].
    + rewrite (bool_decide_eq_true_2 ("$"%char = "$"%char)) by done. cbn [andb].
      change (escape_char "$") with "$". rewrite append_assoc, append_cons, append_nil_l.
      pose proof (startswith_escape s r Hb) as Hs. destruct (startswith "{" s) eqn:E.
      * destruct s as [|d s]; [done|]. cbn in E. apply andb_true_iff in E as [<-%bool_decide_eq_true _].
        cbn [escape nix_escape] in IH |- *. change (escape_char "{") with "{" in *.
        rewrite !append_assoc, !append_cons, !append_nil_l in *.
        unfold replace_all in *. cbn in IH |- *. injection IH as IH. by rewrite IH.
      * unfold replace_all in *. cbn [replace_from].
        change (startswith "${" (String "$" ?x)) with (startswith "{" x). by rewrite Hs, IH.
    + rewrite bool_decide_eq_false_2 by done. cbn [andb]. rewrite !append_assoc.
      rewrite replace_pure by (by apply escape_char_pure). by rewrite IH.
Qed.

Lemma nix_read_escape s rest : ∃ v,
  nix_read (nix_escape s +:+ String quotation rest) = Some (v, rest) ∧
  (all_chars (λ c, (32 <=? N_of_ascii c)%N || bool_decide (c ∈ ["009"; "010"; "013"]%char)) s = true → v = s).
Proof.
  induction s as [|c s (v & Hv & IH)]; [by eexists|]. cbn [nix_escape].
  destruct (bool_decide (c = "$"%char) && startswith "{" s) eqn:E.
  - apply andb_true_iff in E as [->%bool_decide_eq_true _]. exists (String "$" v).
    rewrite !append_cons. cbn [nix_read].
    rewrite (bool_decide_eq_false_2 (backslash = quotation)), (bool_decide_eq_true_2 (backslash = backslash)) by done.
    rewrite Hv. split; [done|]. intros [_ Hs]%andb_true_iff. by rewrite IH.
  - rewrite append_assoc. set (t := nix_escape s +:+ String quotation rest) in *.
    assert (startswith "{" t = startswith "{" s) as Ht by by apply startswith_nix_escape.
    destruct (bool_decide (c ∈ [quotation; backslash; "010"; "013"; "009"]%char)) eqn:Ee;
      [|destruct (32 <=? N_of_ascii c)%N eqn:Ec].
    + exists (String c v). split; [|intros [_ Hs]%andb_true_iff; by rewrite IH].
      apply bool_decide_eq_true in Ee.
      assert (∃ d, escape_char c = String backslash (String d EmptyString) ∧ nix_unescape d = c) as (d & -> & Hd).
      { repeat (apply elem_of_cons in Ee as [-> | Ee]; [by eexists|]). by apply elem_of_nil in Ee. }
      rewrite !append_cons, append_nil_l. cbn [nix_read].
      rewrite (bool_decide_eq_false_2 (backslash = quotation)), (bool_decide_eq_true_2 (backslash = backslash)) by done.
      rewrite Hv. cbn. by rewrite Hd.
    + exists (String c v). split; [|intros [_ Hs]%andb_true_iff; by rewrite IH].
      apply bool_decide_eq_false in Ee.
      assert (c ≠ quotation ∧ c ≠ backslash ∧ c ≠ "010"%char ∧ c ≠ "013"%char ∧ c ≠ "009"%char)
        as (Hq & Hb & Hn & Hr & Ht').
      { by repeat split; intros ->; apply Ee; rewrite !elem_of_cons; auto 6. }
      assert (escape_char c = String c EmptyString) as ->.
      { clear -Hq Hb Hn Hr Ht' Ec. destruct c as [[] [] [] [] [] [] [] []]; done. }
      rewrite append_cons, append_nil_l. cbn [nix_read].
      rewrite (bool_decide_eq_false_2 (c = quotation)), (bool_decide_eq_false_2 (c = backslash)) by done.
      by rewrite Ht, E, Hv.
    + (* A control character of which Nix makes something else. *)
      assert (∃ d w, escape_char c = String backslash (String d w) ∧ lacks quotation w = true ∧
                     lacks backslash w = true ∧ lacks "$" w = true) as (d & w & -> & Hq & Hb & Hd).
      { clear -Ec Ee. destruct c as [[] [] [] [] [] [] [] []]; try done; eexists _, _; by split_and!. }
      exists (String (nix_unescape d) (w +:+ v)). split.
      2: { cbn. rewrite Ec. intros [Hc _]%andb_true_iff. exfalso. apply bool_decide_eq_false in Ee. apply Ee.
           cbn in Hc. apply bool_decide_eq_true in Hc. set_solver. }
      rewrite !append_cons. cbn [nix_read].
      rewrite (bool_decide_eq_false_2 (backslash = quotation)), (bool_decide_eq_true_2 (backslash = backslash)) by done.
      clear -Hq Hb Hd Hv. enough (nix_read (w +:+ t) = Some (w +:+ v, rest)) as -> by done.
      induction w as [|x w IH]; [done|]. cbn in Hq, Hb, Hd.
      apply andb_true_iff in Hq as [?%negb_true_iff Hq], Hb as [?%negb_true_iff Hb], Hd as [Hx%negb_true_iff Hd].
      rewrite append_cons. cbn [nix_read]. rewrite H, H0, Hx, IH by done. done.
Qed.

Lemma nix_string_reads value rest : ∃ v,
  nix_read (str_drop 1 (_nix_string value +:+ rest)) = Some (v, rest) ∧
  (all_chars (λ c, (32 <=? N_of_ascii c)%N || bool_decide (c ∈ ["009"; "010"; "013"]%char)) value = true →
   v = value).
Proof.
  unfold _nix_string, quote.
  rewrite <-(append_nil_l (escape value +:+ _)), <-append_cons, replace_pure by done.
  rewrite nix_escape_spec, append_cons, append_nil_l, append_cons by done.
  cbn [str_drop]. rewrite append_assoc, append_cons, append_nil_l. apply nix_read_escape.
Qed.

Lemma join_split c s : join (String c EmptyString) (split_char c s) = s.
Proof.
  induction s as [|d s IH]; [done|]. cbn [split_char]. destruct (split_char c s) as [|x l] eqn:E.
  { exfalso. clear -E. destruct s as [|a s]; [done|]. cbn in E. by repeat case_match. }
  case_bool_decide as Hd.
  - subst d. change (EmptyString +:+ (String c EmptyString +:+ join (String c EmptyString) (x :: l)) = String c s).
    by rewrite IH.
  - rewrite <-IH. by destruct l.
Qed.
Lemma split_char_chars (p : ascii → bool) c s : Forall (λ x, all_chars p x = true) (split_char c s) → p c = true →
  all_chars p s = true.
Proof.
  induction s as [|d s IH]; [done|]. cbn. intros Hs Hc.
  destruct (split_char c s) as [|x l] eqn:E.
  { exfalso. clear -E. destruct s as [|a s]; [done|]. cbn in E. by repeat case_match. }
  revert Hs. case_bool_decide as Hd; intros Hs.
  - subst. rewrite Hc. apply Forall_cons in Hs as [_ Hs]. by apply IH.
  - apply Forall_cons in Hs as [Hx Hs]. cbn in Hx. apply andb_true_iff in Hx as [-> Hx].
    apply IH; [|done]. by constructor.
Qed.

(** Nothing an operator or a model supplies acquires scope in the rendered Nix
    configuration: whatever the value, Nix reads the rendered string to exactly its end without
    meeting an interpolation, and reads the value itself when its control characters are tabs
    and line ends; an accepted package expression has only the characters of a dotted path
    rooted in [pkgs], so it neither ends its list nor opens an expression. *)
Theorem nix_values_inert value :
  (∀ rest, ∃ v, nix_read (str_drop 1 (_nix_string value +:+ rest)) = Some (v, rest) ∧
    (all_chars (λ c, (32 <=? N_of_ascii c)%N || bool_decide (c ∈ ["009"; "010"; "013"]%char)) value = true →
     v = value)) ∧
  (∀ expression, validate_nixos_runtime_package_expression value = Ok expression →
    startswith "pkgs." expression = true ∧
    all_chars (λ c, ident_char c || bool_decide (c = "."%char)) expression = true).
Proof.
  split; [intros rest; apply nix_string_reads|]. intros expression.
  unfold validate_nixos_runtime_package_expression.
  destruct (split_char "." (strip value)) as [|root [|part parts]] eqn:E; try done.
  destruct (bool_decide (root = "pkgs")) eqn:Er; [|done]. apply bool_decide_eq_true in Er as ->.
  destruct (forallb attribute_name (part :: parts)) eqn:Ep; [|done].
  destruct (negb _); [|done]. intros [= <-]. split.
  - rewrite <-(join_split "." (strip value)), E.
    change (startswith "pkgs." ("pkgs." +:+ join "." (part :: parts)) = true). apply startswith_app.
  - apply (split_char_chars _ "."); [|done]. rewrite E.
    constructor; [done|]. apply Forall_forall. intros x Hx.
    assert (attribute_name x = true) as Hn.
    { rewrite forallb_forall in Ep. apply Ep. by apply list_elem_of_In. }
    destruct x as [|c x]; [done|]. cbn in Hn |- *. apply andb_true_iff in Hn as [Hc Hn].
    unfold ident_char at 1. rewrite Hc. cbn. eapply all_chars_impl; [|exact Hn].
    intros d Hd. by rewrite Hd.
Qed.

(** Control characters other than tabs and line ends do not survive. *)
Example nix_loses_control_characters :
  nix_read (str_drop 1 (_nix_string (String "008" EmptyString))) = Some ("b", EmptyString) ∧
  nix_read (str_drop 1 (_nix_string (String "001" EmptyString))) = Some ("u0001", EmptyString).
Proof. done. Qed.

(** ** What a log says *)

Abbreviation event := (entry first_run_op).

(** The temporary file that was made, and whether a file was unlinked. *)
Definition makes (e : event) : option path :=
  match e with
  | Entry o r =>
      match o in first_run_op A return result A → option path with
      | TemporaryFile _ _ => λ r, match r with Ok p => Some p | Err _ => None end
      | _ => λ _, None
      end r
  end.
Definition unlinks (p : path) (e : event) : bool :=
  match e with Entry o _ => match o with Unlink q => bool_decide (q = p) | _ => false end end.
Definition writes (e : event) : option path :=
  match e with Entry o _ => match o with WriteContent p _ => Some p | _ => None end end.
(** A command that was run, and its answer. *)
Definition command : Type := list string * list (string * string).
Definition runs_of (e : event) : list (command * result Z) :=
  match e with
  | Entry o r =>
      match o in first_run_op A return result A → list (command * result Z) with
      | RunTool argv env => λ r, [((argv, env), r)]
      | _ => λ _, []
      end r
  end.
(** The commands that were run, the latest first. *)
Definition runs (l : list event) : list (command * result Z) := mjoin (runs_of <$> l).

(** Of the temporary files only those of [open] may not have been unlinked. *)
Fixpoint left_over (l : list event) : list path :=
  match l with
  | [] => []
  | e :: l' => match makes e with
               | Some p => p :: left_over l'
               | None => List.filter (λ p, negb (unlinks p e)) (left_over l')
               end
  end.
(** Every write goes to a file that was just made private to its owner. *)
Fixpoint private (l : list event) : Prop :=
  match l with
  | [] => True
  | e :: l' => private l' ∧
      match writes e with Some p => ∃ l'', l' = Entry (SetMode p 384) (Ok tt) :: l'' | None => True end
  end.
Definition careful (open : list path) (l : list event) : Prop :=
  (∀ p, p ∈ left_over l → p ∈ open) ∧ private l.

(** Neither makes a file, nor writes, nor runs a command. *)
Definition quiet (e : event) : bool :=
  bool_decide (makes e = None) && bool_decide (writes e = None) && match runs_of e with [] => true | _ => false end.

Lemma careful_quiet open e l : makes e = None → writes e = None → careful open l → careful open (e :: l).
Proof.
  intros Hm Hw [Ho Hp]. split; cbn [left_over private]; rewrite ?Hm, ?Hw; [|done].
  intros p Hq. apply Ho. apply list_elem_of_In, filter_In in Hq as [? _]. by apply list_elem_of_In.
Qed.
Lemma careful_made open e p l : makes e = Some p → writes e = None → careful open l → careful (p :: open) (e :: l).
Proof.
  intros Hm Hw [Ho Hp]. split; cbn [left_over private]; rewrite ?Hm, ?Hw; [|done].
  intros q [-> | Hq]%elem_of_cons; [left|]. right. by apply Ho.
Qed.
Lemma careful_unlinked open p r l : careful (p :: open) l → careful open (Entry (Unlink p) r :: l).
Proof.
  intros [Ho Hp]. split; [|done]. cbn. intros q Hq.
  apply list_elem_of_In, filter_In in Hq as [Hin Hne]. apply list_elem_of_In, Ho, elem_of_cons in Hin as [-> | ?]; [|done].
  by rewrite bool_decide_eq_true_2 in Hne.
Qed.
Lemma careful_written open p content r l : careful open (Entry (SetMode p 384) (Ok tt) :: l) →
  careful open (Entry (WriteContent p content) r :: Entry (SetMode p 384) (Ok tt) :: l).
Proof.
  intros [Ho Hp]. split.
  - intros q Hq. apply Ho. cbn in Hq |- *. by apply list_elem_of_In, filter_In in Hq as [? _]; apply list_elem_of_In.
  - cbn in *. split; [done|]. by eexists.
Qed.

(** Kept by every event that runs nothing. *)
Definition unmoved (P : list event → Prop) : Prop := ∀ e l, runs_of e = [] → P l → P (e :: l).
Lemma unmoved_in e : unmoved (λ l, e ∈ l).
Proof. intros e' l _. by right. Qed.
Lemma unmoved_runs rs : unmoved (λ l, runs l = rs).
Proof. intros e l He Hl. unfold runs. cbn. by rewrite He. Qed.
Lemma unmoved_and P Q : unmoved P → unmoved Q → unmoved (λ l, P l ∧ Q l).
Proof. intros HP HQ e l He []. split; auto. Qed.
Lemma unmoved_ex {A} (P : A → list event → Prop) : (∀ a, unmoved (P a)) → unmoved (λ l, ∃ a, P a l).
Proof. intros HP e l He [a Ha]. exists a. by apply HP. Qed.
Lemma unmoved_const (φ : Prop) : unmoved (λ _, φ).
Proof. by intros e l _. Qed.

(** ** Files *)

Section files.
Context {W : Type} `{Handler first_run_op W}.
Implicit Types (P E : list event → Prop).

Definition idle {A} (o : first_run_op A) : Prop :=
  ∀ r, makes (Entry o r) = None ∧ writes (Entry o r) = None ∧ runs_of (Entry o r) = [].

Lemma idle_keeps {A} open P (o : first_run_op A) : idle o → unmoved P →
  keeps (λ l, careful open l ∧ P l) (ask (W := W) o).
Proof.
  intros Ho HP. apply keeps_ask. intros r l [Hc Hl]. destruct (Ho r) as (Hm & Hw & Hr).
  split; [by apply careful_quiet|by apply HP].
Qed.
Lemma idle_remember {A} open P (E : exn → list event → Prop) (o : first_run_op A) : idle o → unmoved P →
  (∀ e l, P l → E e l) →
  traced (W := W) (λ l, careful open l ∧ P l) (ask o) (λ a l, careful open l ∧ P l ∧ Entry o (Ok a) ∈ l)
    (λ e l, careful open l ∧ E e l).
Proof.
  intros Ho HP HE. apply traced_ask. intros l [Hc Hl].
  split; [intros a; destruct (Ho (Ok a)) as (Hm & Hw & Hr)|intros e; destruct (Ho (Err e)) as (Hm & Hw & Hr)];
    (split; [by apply careful_quiet|]); [split; [by apply HP|left]|by apply HE, HP].
Qed.

Lemma unlink_spec open p P : unmoved P →
  traced (W := W) (λ l, careful (p :: open) l ∧ P l) (unlink p)
    (λ _ l, careful open l ∧ P l) (λ _ l, careful open l ∧ P l).
Proof.
  intros HP. unfold unlink. eapply (traced_catch _ _ _ (λ _ l, careful open l ∧ P l)).
  - apply traced_ask. intros l [Hc Hl]. split; intros; split; try (by apply careful_unlinked); by apply HP.
  - intros []; first [by apply traced_ret | by apply traced_throws].
Qed.

(** A file for a computation, unlinked however it ends. *)
Lemma temporary_spec {A} open P (Q : A → list event → Prop) E content suffix (k : path → eff _ A) :
  unmoved P → (∀ a, unmoved (Q a)) → unmoved E → (∀ l, P l → E l) → (∀ a l, Q a l → E l) →
  (∀ p, traced (W := W)
          (λ l, careful (p :: open) l ∧ P l ∧ Entry (TemporaryFile None suffix) (Ok p) ∈ l ∧
                Entry (WriteContent p content) (Ok tt) ∈ l)
          (k p) (λ a l, careful (p :: open) l ∧ Q a l) (λ _ l, careful (p :: open) l ∧ E l)) →
  traced (W := W) (λ l, careful open l ∧ P l) (with_temporary_file content suffix k)
    (λ a l, careful open l ∧ Q a l) (λ _ l, careful open l ∧ E l).
Proof.
  intros HP HQ HE HPE HQE Hk. unfold with_temporary_file.
  eapply (traced_bind _ _ (λ p l, careful (p :: open) l ∧ P l ∧ Entry (TemporaryFile None suffix) (Ok p) ∈ l)).
  { apply traced_ask. intros l [Hc Hl]. split; intros.
    - split; [by eapply careful_made|]. split; [by apply HP|left].
    - split; [by apply careful_quiet|]. by apply HPE, HP. }
  intros p. set (P' := λ l, P l ∧ Entry (TemporaryFile None suffix) (Ok p) ∈ l).
  assert (unmoved P') as HP' by (apply unmoved_and; [done|apply unmoved_in]).
  eapply (traced_finally _ _ (λ a l, careful (p :: open) l ∧ Q a l) (λ _ l, careful (p :: open) l ∧ E l)).
  - eapply (traced_bind _ _ (λ _ l, careful (p :: open) l ∧ P' l ∧ ∃ l', l = Entry (SetMode p 384) (Ok tt) :: l')).
    { apply traced_ask. intros l [Hc Hl]. split; [intros []|intros e];
        (split; [by apply careful_quiet|]); [split; [by apply HP'|by eexists]|]. apply HPE, HP; [done|]. apply Hl. }
    intros _. eapply (traced_bind _ _ (λ _ l, careful (p :: open) l ∧ P' l ∧ Entry (WriteContent p content) (Ok tt) ∈ l)).
    { apply traced_ask. intros l (Hc & Hl & l' & ->). split; [intros []|intros e];
        (split; [by apply careful_written|]); [split; [by apply HP'|left]|]. apply HPE, HP; [done|]. apply Hl. }
    intros _. eapply traced_keep.
    + apply (idle_keeps _ (λ l, P' l ∧ Entry (WriteContent p content) (Ok tt) ∈ l)); [done|]. apply unmoved_and; [done|apply unmoved_in].
    + intros e l (Hc & [Hl _] & _). split; [done|]. by apply HPE.
    + intros _. eapply traced_pre; [apply Hk|]. intros l (Hc & [Hl Ht] & Hw). done.
  - intros a. eapply traced_conseq; [by apply (unlink_spec open p (Q a))|done|done|].
    intros _ l [Hc Hl]. split; [done|]. by eapply HQE.
  - intros e. by apply unlink_spec.
Qed.

(** A protected file is replaced by a whole one, and only where there was none. *)
Fixpoint replaces_whole (p : path) (content : string) (l : list event) : Prop :=
  match l with
  | [] => True
  | e :: l' => replaces_whole p content l' ∧
      match e with
      | Entry o _ => match o with
          | ReplaceFile tmp target => target = p ∧ ∃ message,
              l' = [Entry (SyncFile tmp) (Ok tt); Entry (WriteContent tmp content) (Ok tt);
                    Entry (SetMode tmp 384) (Ok tt);
                    Entry (TemporaryFile (Some (parent p)) EmptyString) (Ok tmp);
                    Entry (ReadContent p) (Err (FileNotFoundError message)); Entry (MakeParents p) (Ok tt)]
          | _ => True
          end
      end
  end.
(** The file says [content], and is its owner's alone. *)
Definition protected_now (p : path) (content : string) (l : list event) : Prop :=
  Entry (SetMode p 384) (Ok tt) ∈ l ∧
  (Entry (ReadContent p) (Ok content) ∈ l ∨ ∃ tmp, Entry (ReplaceFile tmp p) (Ok tt) ∈ l).
End files.

Section protected.
Context {W : Type} `{Handler first_run_op W}.

(** What is to show of the end of a write. *)
Definition written_well p content (out : logged first_run_op W * result unit) : Prop :=
  careful [] (lg_log out.1) ∧ replaces_whole p content (lg_log out.1) ∧
  (out.2 = Ok tt → protected_now p content (lg_log out.1)) ∧
  (∀ other, Entry (ReadContent p) (Ok other) ∈ lg_log out.1 → other ≠ content →
    out.2 = Err (RuntimeError ("refusing to replace existing protected file with different content: " +:+ path_str p)) ∧
    lg_log out.1 = [Entry (ReadContent p) (Ok other); Entry (MakeParents p) (Ok tt)]).

Lemma unlink_run p (s : logged first_run_op W) : ∃ w r r',
  unlink p s = (Build_logged w (Entry (Unlink p) r :: lg_log s), r').
Proof.
  unfold unlink, try_catch, ask. destruct (answer (Unlink p) (lg_world s)) as [w' [a|e]]; [by repeat eexists|].
  destruct e; by repeat eexists.
Qed.
(** The text that was read. *)
Definition text_of (e : event) : option string :=
  match e with
  | Entry o r =>
      match o in first_run_op A return result A → option string with
      | ReadContent _ => λ r, match r with Ok text => Some text | Err _ => None end
      | _ => λ _, None
      end r
  end.
(** A log in which the target was not read, all of which is known. *)
Ltac known_log :=
  split_and!;
    [ split; [cbn; rewrite ?bool_decide_eq_true_2 by done; cbn; set_solver | cbn; repeat split; eauto]
    | cbn; repeat split; eauto
    | first [done | intros _; split; [|right; eexists]; cbn; rewrite !elem_of_cons; eauto 10]
    | intros other Hother; exfalso; revert Hother; cbn; rewrite !elem_of_cons, elem_of_nil;
      intros Hother; repeat destruct Hother as [Hother|Hother];
      first [done | apply (f_equal text_of) in Hother; discriminate] ].
(** A log in which the target was read last, or its mode set after that. *)
Ltac found_log :=
  split_and!;
    [ split; [cbn; set_solver | cbn; repeat split; eauto]
    | cbn; repeat split; eauto
    | first [done | intros _; split; [|left]; cbn; rewrite !elem_of_cons; eauto]
    | intros other Hother Hne; revert Hother; cbn; rewrite !elem_of_cons, elem_of_nil;
      intros Hother; repeat destruct Hother as [Hother|Hother];
      first [done | apply (f_equal text_of) in Hother; first [discriminate | by injection Hother as ->]] ].

(** A protected file is written whole or not at all, and never over another:
    whatever the host answers, a replacement puts a temporary file in the place of the target
    only after the target was found missing, and after the temporary file was made in its
    directory, made private to its owner before it was written, written with the whole content
    and synced; when the operation succeeds the target holds the content, put there now or
    found there, with mode 0600; existing different content is an error before anything else is
    touched; no temporary file is left behind however it ends. *)
Theorem protected_file_whole p content (w : W) :
  let '(s, r) := write_protected_file p content (Build_logged w []) in
  careful [] (lg_log s) ∧ replaces_whole p content (lg_log s) ∧
  (r = Ok tt → protected_now p content (lg_log s)) ∧
  (∀ other, Entry (ReadContent p) (Ok other) ∈ lg_log s → other ≠ content →
    r = Err (RuntimeError ("refusing to replace existing protected file with different content: " +:+ path_str p)) ∧
    lg_log s = [Entry (ReadContent p) (Ok other); Entry (MakeParents p) (Ok tt)]).
Proof.
  enough (written_well p content (write_protected_file p content (Build_logged w []))) as Hw.
  { unfold written_well in Hw. by destruct (write_protected_file p content _). }
  unfold write_protected_file, try_finally, try_catch, ask, ensure, mbind, eff_bind. cbn.
  destruct (answer (MakeParents p) w) as [w1 [[]|e1]]; cbn; [|known_log].
  destruct (answer (ReadContent p) w1) as [w2 [text|e2]]; cbn.
  - destruct (bool_decide (text = content)) eqn:E; cbn.
    + apply bool_decide_eq_true in E as ->. destruct (answer (SetMode p 384) w2) as [w3 [[]|e3]]; found_log.
    + apply bool_decide_eq_false in E. found_log.
  - destruct e2; cbn; try known_log.
    destruct (answer (TemporaryFile _ _) w2) as [w3 [tmp|e3]]; cbn; [|known_log].
    repeat match goal with
      | |- context [answer ?o ?v] => destruct (answer o v) as [? [[]|?]]; cbn
      | |- context [unlink tmp ?s] => destruct (unlink_run tmp s) as (? & ? & [[]|?] & ->); cbn
      end; known_log.
Qed.
End protected.

(** ** The installer *)

(** Facts that stay true as the log grows. *)
Definition grows (P : list event → Prop) : Prop := ∀ e l, P l → P (e :: l).
Lemma grows_unmoved P : grows P → unmoved P.
Proof. intros HP e l _. apply HP. Qed.
Lemma grows_in e : grows (λ l, e ∈ l).
Proof. intros e' l. by right. Qed.
Lemma grows_and P Q : grows P → grows Q → grows (λ l, P l ∧ Q l).
Proof. intros HP HQ e l [??]. split; auto. Qed.
Lemma grows_const (φ : Prop) : grows (λ _, φ).
Proof. by intros e l. Qed.
Lemma grows_ex {A} (P : A → list event → Prop) : (∀ a, grows (P a)) → grows (λ l, ∃ a, P a l).
Proof. intros HP e l [a Ha]. exists a. by apply HP. Qed.
#[local] Hint Resolve grows_unmoved grows_in grows_and grows_const grows_ex unmoved_and unmoved_runs : trace.

(** Commands that all succeeded, and a run that stopped within a plan. *)
Definition succeeded (plan : list command) : list (command * result Z) := reverse ((λ c, (c, Ok 0)) <$> plan).
Definition within (plan : list command) (rs : list (command * result Z)) : Prop := ∃ past rest,
  plan = past ++ rest ∧
  (rs = succeeded past ∨ ∃ c rest' r, rest = c :: rest' ∧ rs = (c, r) :: succeeded past).

Lemma runs_ran argv env r l : runs (Entry (RunTool argv env) r :: l) = ((argv, env), r) :: runs l.
Proof. done. Qed.
Lemma succeeded_snoc past c : succeeded (past ++ [c]) = (c, Ok 0) :: succeeded past.
Proof. unfold succeeded. by rewrite fmap_app, reverse_app. Qed.

Section installs.
Context {W : Type} `{Handler first_run_op W} {DG : Digests} {DL : DriverLibrary}.
Context (config : installer).
Implicit Types (P E : list event → Prop).
Abbreviation traced := (traced (W := W)).

(** A tool is a file that was seen executable, in the tool directory when one is configured. *)
Definition provided (name s : string) (l : list event) : Prop := ∃ p,
  s = path_str p ∧ Entry (ExecutableFile p) (Ok true) ∈ l ∧
  match in_tool_dir config with Some d => p = path_join d (Path name) | None => True end.
Definition persistent (name s : string) (l : list event) : Prop :=
  provided name s l ∧ (in_tool_dir config = None → startswith "/nix/store/" s = false).
Lemma grows_provided name s : grows (provided name s).
Proof. unfold provided. eauto 10 with trace. Qed.
Lemma grows_persistent name s : grows (persistent name s).
Proof. unfold persistent. apply grows_and; [apply grows_provided|apply grows_const]. Qed.
#[local] Hint Resolve grows_provided grows_persistent : trace.

Abbreviation at_state open P := (λ l, careful open l ∧ P l).

Lemma first_tool_spec open P (φ : path → Prop) candidates message : unmoved P → Forall φ candidates →
  traced (at_state open P) (first_tool candidates message)
    (λ s l, at_state open P l ∧ ∃ p, φ p ∧ s = path_str p ∧ Entry (ExecutableFile p) (Ok true) ∈ l)
    (λ _, at_state open P).
Proof.
  intros HP. induction 1 as [|c rest Hc Hrest IH]; cbn [first_tool]; [by apply traced_throws|].
  eapply traced_bind; [by apply (idle_remember open P (λ _, P))|intros [|]].
  - apply traced_ret. intros l (? & ? & ?). split; [done|]. by exists c.
  - eapply traced_pre; [apply IH|]. by intros l (? & ? & _).
Qed.

Lemma resolve_spec open P name : unmoved P →
  traced (at_state open P) (_resolve_tool config name)
    (λ s l, at_state open P l ∧ provided name s l) (λ _, at_state open P).
Proof.
  intros HP. unfold _resolve_tool. unfold provided.
  assert (∀ candidates message, traced (at_state open P) (first_tool candidates message)
    (λ s l, at_state open P l ∧ ∃ p, True ∧ s = path_str p ∧ Entry (ExecutableFile p) (Ok true) ∈ l)
    (λ _, at_state open P)) as Hany.
  { intros candidates message. apply first_tool_spec; [done|]. by apply Forall_true. }
  destruct (in_tool_dir config) as [d|].
  - eapply traced_conseq; [apply (first_tool_spec open P (λ p, p = path_join d (Path name))); [done|]|done| |done].
    + by repeat constructor.
    + intros s l [? (p & -> & ? & ?)]. split; [done|]. by exists (path_join d (Path name)).
  - apply traced_keep; [|done|intros beside].
    { destruct (contains _ _); keeping; by apply (idle_keeps open P). }
    apply traced_keep; [by apply (idle_keeps open P)|done|intros found].
    eapply traced_conseq; [apply Hany|done| |done].
    intros s l [? (p & _ & ? & ?)]. split; [done|]. by exists p.
Qed.

Lemma persistent_spec open P name : unmoved P →
  traced (at_state open P) (_resolve_persistent_daemon config name)
    (λ s l, at_state open P l ∧ persistent name s l) (λ _, at_state open P).
Proof.
  intros HP. unfold _resolve_persistent_daemon.
  eapply traced_bind; [by apply resolve_spec|intros s].
  apply traced_guard; [by intros _ l []|intros Hn]. apply traced_ret. intros l [? ?].
  split; [done|]. split; [done|]. intros Hd. rewrite bool_decide_eq_true_2 in Hn by done.
  by apply negb_true_iff in Hn.
Qed.

Lemma run_service_spec open P plan argv env role port past : grows P →
  (∃ rest, plan = past ++ (argv, env) :: rest) →
  traced (at_state open (λ l, runs l = succeeded past ∧ P l)) (_run_service argv env role port)
    (λ _, at_state open (λ l, runs l = succeeded (past ++ [(argv, env)]) ∧ P l))
    (λ _, at_state open (λ l, within plan (runs l) ∧ P l)).
Proof.
  intros HP [rest ->]. unfold _run_service, _run.
  eapply (traced_catch _ _ _ (λ _, at_state open (λ l, within (past ++ (argv, env) :: rest) (runs l) ∧ P l))).
  - eapply (traced_bind _ _ (λ code, at_state open (λ l, runs l = ((argv, env), Ok code) :: succeeded past ∧ P l))).
    + apply traced_ask. intros l (Hc & Hr & Hl). split.
      * intros code. split; [by apply careful_quiet|]. split; [|by apply HP].
        by rewrite runs_ran, Hr.
      * intros e. split; [by apply careful_quiet|]. split; [|by apply HP].
        exists past, ((argv, env) :: rest). split; [done|]. right. eexists _, _, (Err e). split; [done|].
        by rewrite runs_ran, Hr.
    + intros code. apply traced_ensure; intros E l (Hc & Hr & Hl).
      * split; [done|]. split; [|done]. exists past, ((argv, env) :: rest). split; [done|]. right.
        by eexists _, _, _.
      * apply Z.eqb_eq in E as ->. split; [done|]. split; [|done]. by rewrite succeeded_snoc.
  - intros e. destruct e; try (by apply traced_throws); destruct (is_OSError _); by apply traced_throws.
Qed.

(** The last answer of the service says that it is ready. *)
Definition says_ready (url : string) (require_registered : bool) (l : list event) : Prop := ∃ body l',
  l = Entry (OpenUrl url) (Ok (200, body)) :: l' ∧ ready_body require_registered (json_loads body) = true.

Lemma poll_once_spec open P url rr : unmoved P →
  traced (at_state open P) (poll_once url rr)
    (λ b l, at_state open P l ∧ (b = true → says_ready url rr l)) (λ _, at_state open P).
Proof.
  intros HP. unfold poll_once. eapply (traced_catch _ _ _ (λ _, at_state open P)).
  - eapply (traced_bind _ _ (λ response l, at_state open P l ∧ ∃ l', l = Entry (OpenUrl url) (Ok response) :: l')).
    + apply traced_ask. intros l [Hc Hl].
      split; intros; [split; [|by eexists]|]; (split; [by apply careful_quiet|by apply HP]).
    + intros [status body]. apply traced_ret. intros l [Hl (l' & ->)]. split; [done|].
      intros [Hs%Z.eqb_eq Hb]%andb_true_iff. cbn in Hs, Hb. subst status. by exists body, l'.
  - intros e. destruct e; try (by apply traced_ret); destruct (is_OSError _);
      first [by apply traced_ret | by apply traced_throws].
Qed.

Lemma poll_loop_spec open P url rr started fuel : unmoved P →
  traced (at_state open P) (poll_loop config fuel url rr started)
    (λ r l, at_state open P l ∧ (r = Some true → says_ready url rr l)) (λ _, at_state open P).
Proof.
  intros HP. induction fuel as [|fuel IH]; cbn [poll_loop]; [by apply traced_ret|].
  apply traced_keep; [by apply (idle_keeps open P)|done|intros now].
  destruct (before_deadline _ _); [|by apply traced_ret].
  eapply traced_bind; [by apply poll_once_spec|intros [|]].
  - apply traced_ret. intros l [? Hr]. split; [done|]. intros _. by apply Hr.
  - apply (traced_pre _ (at_state open P)); [|by intros l [? _]]. apply traced_keep; [|done|intros _; apply IH].
    destruct (duration_of _); [by apply (idle_keeps open P)|by apply preserves_throws..].
Qed.

Lemma wait_ready_spec open P fuel url rr message res : unmoved P →
  traced (at_state open P)
    (and_then (_wait_json_ready config fuel url rr) (λ ready, ensure ready message;; mret (Some res)))
    (λ r l, at_state open P l ∧ (∀ a : SystemdBootstrapResult, r = Some a → a = res ∧ says_ready url rr l))
    (λ _, at_state open P).
Proof.
  intros HP. eapply (traced_and_then _ _ (λ r l, at_state open P l ∧ (r = Some true → says_ready url rr l))).
  - unfold _wait_json_ready. apply traced_keep; [by apply (idle_keeps open P)|done|intros started].
    by apply poll_loop_spec.
  - by intros l [? _].
  - intros ready. apply traced_guard; [by intros _ l []|intros ->]. apply traced_ret.
    intros l [? Hr]. split; [done|]. intros a [= <-]. split; [done|]. by apply Hr.
Qed.

(** What is known before a helper runs: the installer is root and its tools were seen. *)
Definition control_tools (setup executable migrate : string) (l : list event) : Prop :=
  Entry EffectiveUid (Ok 0) ∈ l ∧ provided "astrumweaver-setup-control-plane" setup l ∧
  persistent "astrumweaver-control" executable l ∧ provided "astrumweaver-migrate" migrate l.
Lemma grows_control_tools a b c : grows (control_tools a b c).
Proof. unfold control_tools. auto 10 with trace. Qed.
#[local] Hint Resolve grows_control_tools : trace.

(** The setup helper gets files that hold the rendered configuration and secrets. *)
Definition control_files (spec : ControlBootstrapSpec) (secrets : FirstRunSecrets)
    (setup executable migrate : string) (config_path env_path : path) (l : list event) : Prop :=
  control_tools setup executable migrate l ∧
  Entry (WriteContent config_path (render_control_toml spec)) (Ok tt) ∈ l ∧
  ∃ env, render_control_env secrets (cb_client_auth spec) = Ok env ∧
         Entry (WriteContent env_path env) (Ok tt) ∈ l.
Lemma grows_control_files spec secrets a b c p q : grows (control_files spec secrets a b c p q).
Proof. unfold control_files. eauto 20 with trace. Qed.

(** The commands that install a Control: the setup helper, the migrations of the database, the
    service. *)
Definition setup_command (setup executable : string) (config_path env_path : path) : command :=
  ([setup; "--config"; path_str config_path; "--environment-file"; path_str env_path;
    "--executable"; executable], []).
Definition control_commands (secrets : FirstRunSecrets) (setup executable migrate : string)
    (config_path env_path : path) : list command :=
  [setup_command setup executable config_path env_path;
   ([migrate], [("ASTRUMWEAVER_DATABASE_URL", default EmptyString (fs_database_url secrets))]);
   ([in_systemctl config; "enable"; "--now"; "astrumweaver-control.service"], [])].
Definition control_plan (spec : ControlBootstrapSpec) (secrets : FirstRunSecrets) (plan : list command)
    (l : list event) : Prop :=
  ∃ setup executable migrate config_path env_path,
    control_files spec secrets setup executable migrate config_path env_path l ∧
    plan = control_commands secrets setup executable migrate config_path env_path.
#[local] Hint Resolve grows_control_files : trace.
Lemma grows_control_plan spec secrets plan : grows (control_plan spec secrets plan).
Proof. unfold control_plan. eauto 20 with trace. Qed.
#[local] Hint Resolve grows_control_plan : trace.

(** Nothing was run, or the plan up to some point. *)
Definition within_plan (planned : list command → list event → Prop) (l : list event) : Prop :=
  runs l = [] ∨ ∃ plan, planned plan l ∧ within plan (runs l).
Lemma unmoved_within_plan planned : (∀ plan, grows (planned plan)) → unmoved (within_plan planned).
Proof.
  intros Hg e l He [Hl | (plan & Hp & Hl)]; [left; by apply (unmoved_runs [])|].
  right. exists plan. split; [by apply Hg|]. by rewrite (unmoved_runs (runs l) e l He eq_refl).
Qed.

Lemma render_control_env_url secrets mode env : render_control_env secrets mode = Ok env →
  ∃ url, fs_database_url secrets = Some url.
Proof. unfold render_control_env. destruct (fs_database_url secrets); [by eexists|done]. Qed.

Lemma root_spec open P : unmoved P →
  traced (at_state open P) _require_root (λ _ l, at_state open P l ∧ Entry EffectiveUid (Ok 0) ∈ l)
    (λ _, at_state open P).
Proof.
  intros HP. unfold _require_root. eapply traced_bind; [by apply (idle_remember open P (λ _, P))|intros uid].
  apply traced_ensure; [by intros _ l (? & ? & _)|].
  intros ->%Z.eqb_eq l (? & ? & ?). done.
Qed.

(** The steps before a helper runs, and the rest. *)
Section steps.
Context {A : Type} (open : list path) (P : list event → Prop) (R : A → list event → Prop)
        (E : exn → list event → Prop).
Hypothesis P_unmoved : unmoved P.
Hypothesis P_end : ∀ e l, careful open l → P l → E e l.

Lemma root_step (k : unit → eff (logged first_run_op W) A) :
  traced (at_state open (λ l, P l ∧ Entry EffectiveUid (Ok 0) ∈ l)) (k tt) R E →
  traced (at_state open P) (_require_root ≫= k) R E.
Proof.
  intros Hk. eapply traced_bind.
  - eapply traced_conseq; [exact (root_spec open P P_unmoved)|done|done|]. intros e l []. auto.
  - intros []. eapply traced_pre; [apply Hk|]. by intros l [[??]?].
Qed.
Lemma tool_step name (k : string → eff (logged first_run_op W) A) :
  (∀ s, traced (at_state open (λ l, P l ∧ provided name s l)) (k s) R E) →
  traced (at_state open P) (_resolve_tool config name ≫= k) R E.
Proof.
  intros Hk. eapply traced_bind.
  - eapply traced_conseq; [exact (resolve_spec open P name P_unmoved)|done|done|]. intros e l []. auto.
  - intros s. eapply traced_pre; [apply Hk|]. by intros l [[??]?].
Qed.
Lemma persistent_step name (k : string → eff (logged first_run_op W) A) :
  (∀ s, traced (at_state open (λ l, P l ∧ persistent name s l)) (k s) R E) →
  traced (at_state open P) (_resolve_persistent_daemon config name ≫= k) R E.
Proof.
  intros Hk. eapply traced_bind.
  - eapply traced_conseq; [exact (persistent_spec open P name P_unmoved)|done|done|]. intros e l []. auto.
  - intros s. eapply traced_pre; [apply Hk|]. by intros l [[??]?].
Qed.
End steps.

Section control.
Context (ip_version : string → option Z) (spec : ControlBootstrapSpec) (secrets : FirstRunSecrets).
Abbreviation planned := (control_plan spec secrets).
Abbreviation E := (λ (_ : exn), at_state [] (within_plan planned)).

Lemma planned_within setup executable migrate config_path env_path l :
  control_files spec secrets setup executable migrate config_path env_path l →
  within (control_commands secrets setup executable migrate config_path env_path) (runs l) →
  within_plan planned l.
Proof. intros Hf Hw. right. eexists. split; [|exact Hw]. do 5 eexists. split; [exact Hf|done]. Qed.

Lemma control_setup_spec setup executable migrate :
  traced (at_state [] (λ l, runs l = [] ∧ control_tools setup executable migrate l))
    (with_temporary_file (render_control_toml spec) ".toml" (λ config_path,
      env ← lifts (render_control_env secrets (cb_client_auth spec));
      with_temporary_file env ".env" (λ env_path,
        _run_service (setup_command setup executable config_path env_path).1 [] "control" (cb_port spec))))
    (λ _, at_state [] (λ l, ∃ config_path env_path,
       runs l = succeeded [setup_command setup executable config_path env_path] ∧
       control_files spec secrets setup executable migrate config_path env_path l)) E.
Proof.
  assert (unmoved (within_plan planned)) as HU by (apply unmoved_within_plan, grows_control_plan).
  set (Q := λ (_ : unit) l, ∃ config_path env_path,
       runs l = succeeded [setup_command setup executable config_path env_path] ∧
       control_files spec secrets setup executable migrate config_path env_path l).
  assert (∀ a, unmoved (Q a)) as HQ.
  { intros a. do 2 (apply unmoved_ex; intros ?). auto with trace. }
  assert (∀ a l, Q a l → within_plan planned l) as HQE.
  { intros _ l (c & v & Hr & Hl). eapply planned_within; [exact Hl|]. eexists [_], _. split; [done|]. by left. }
  apply (temporary_spec [] (λ l, runs l = [] ∧ control_tools setup executable migrate l) Q (within_plan planned));
    [auto with trace|done|done|by intros l [? _]; left|done|].
  intros c. set (P := λ l, runs l = [] ∧ control_tools setup executable migrate l ∧
    Entry (WriteContent c (render_control_toml spec)) (Ok tt) ∈ l).
  assert (unmoved P) as HP by (unfold P; auto 10 with trace).
  eapply (traced_bind _ _ (λ env l, render_control_env secrets (cb_client_auth spec) = Ok env ∧ at_state [c] P l)).
  { apply traced_lifts; [|intros e l (? & [? ?] & _ & ?) _; split; [done|by left]].
    by intros env l (? & [? ?] & _ & ?) ?. }
  intros env. apply traced_pure. intros He.
  apply (temporary_spec [c] P Q (within_plan planned)); [done|done|done|by intros l [? _]; left|done|].
  intros v. set (F := λ l, control_files spec secrets setup executable migrate c v l).
  eapply traced_conseq; [apply (run_service_spec [v; c] F (control_commands secrets setup executable migrate c v) _ [] _ _ [])|..].
  - unfold F. auto with trace.
  - by eexists.
  - intros l (Hc & (Hr & Ht & Hw) & _ & Hv). split; [done|]. split; [done|].
    split; [done|]. split; [done|]. by exists env.
  - intros a l (Hc & Hr & Hf). split; [done|]. by exists c, v.
  - intros e l (Hc & Hr & Hf). split; [done|]. by eapply planned_within.
Qed.

Definition control_done : SystemdBootstrapResult :=
  {| br_control_installed := true; br_control_ready := true; br_migration_applied := true;
     br_worker_installed := false; br_worker_ready := false |}.
Definition control_url : string :=
  control_url_for_bind_host ip_version (cb_bind_host spec) (cb_port spec) +:+ "/v1/ready".

Lemma install_control_spec fuel :
  traced (at_state [] (λ l, runs l = [])) (install_control config ip_version fuel spec secrets)
    (λ r, at_state [] (λ l, within_plan planned l ∧
       ∀ a, r = Some a → a = control_done ∧ says_ready control_url false l ∧
         ∃ plan, planned plan l ∧ runs l = succeeded plan)) E.
Proof.
  assert (∀ P, (∀ l, P l → runs l = []) → ∀ (e : exn) l, careful [] l → P l → E e l) as Hnone.
  { intros P HP _ l ? Hl. split; [done|]. left. by apply HP. }
  unfold install_control. apply root_step; [auto with trace|by apply Hnone|].
  apply tool_step; [auto with trace|apply Hnone; tauto|intros setup].
  apply persistent_step; [auto 10 with trace|apply Hnone; tauto|intros executable].
  apply tool_step; [auto 10 with trace|apply Hnone; tauto|intros migrate].
  eapply traced_bind.
  { eapply traced_pre; [apply (control_setup_spec setup executable migrate)|].
    unfold control_tools. tauto. }
  intros []. eapply (traced_pre _ (λ l, ∃ c, ∃ v, at_state [] (λ l, runs l = succeeded [setup_command setup executable c v] ∧
       control_files spec secrets setup executable migrate c v l) l)); [|by intros l (Hc & c & v & ?); exists c, v].
  apply traced_exists. intros c. apply traced_exists. intros v.
  set (F := control_files spec secrets setup executable migrate c v).
  assert (grows F) as HF by (unfold F; auto with trace).
  assert (∀ l, at_state [] (λ l, within (control_commands secrets setup executable migrate c v) (runs l) ∧ F l) l →
               at_state [] (within_plan planned) l) as HE.
  { intros l (Hc & Hw & Hf). split; [done|]. by eapply planned_within. }
  destruct (fs_database_url secrets) as [url|] eqn:Eu.
  2: { apply traced_throws. intros l (Hc & Hr & Hf). refine (HE l (conj Hc (conj _ Hf))).
       eexists [_], _. split; [done|]. left. exact Hr. }
  eapply traced_bind.
  { eapply traced_conseq; [apply (run_service_spec [] F (control_commands secrets setup executable migrate c v)
      [migrate] [("ASTRUMWEAVER_DATABASE_URL", url)] _ _ [setup_command setup executable c v]); [done|]|done|done|intros e; apply HE].
    unfold control_commands. rewrite Eu. by eexists. }
  intros []. eapply traced_bind.
  { eapply traced_conseq; [apply (run_service_spec [] F (control_commands secrets setup executable migrate c v)
      [in_systemctl config; "enable"; "--now"; "astrumweaver-control.service"] [] _ _
      [setup_command setup executable c v; ([migrate], [("ASTRUMWEAVER_DATABASE_URL", url)])]); [done|]|done|done|intros e; apply HE].
    unfold control_commands. rewrite Eu. by eexists. }
  intros []. eapply traced_conseq; [apply (wait_ready_spec [] (λ l, runs l = succeeded
      (control_commands secrets setup executable migrate c v) ∧ F l)); auto with trace|..].
  - unfold control_commands. rewrite Eu. done.
  - intros r l [(Hc & Hr & Hf) Hd]. split; [done|]. split.
    + eapply planned_within; [exact Hf|]. eexists _, []. rewrite app_nil_r. split; [done|]. by left.
    + intros res Hres. destruct (Hd res Hres) as [-> ?]. split; [done|]. split; [done|].
      eexists. split; [|exact Hr]. do 5 eexists. by split; [exact Hf|].
  - intros e l (Hc & Hr & Hf). refine (HE l (conj Hc (conj _ Hf))).
    eexists _, []. rewrite app_nil_r. split; [done|]. by left.
Qed.
End control.

Section worker.
Context (worker_toml worker_token : string) (manifest : option string) (start : bool).

(** The files of the setup helper of a Worker, and its command. *)
Definition worker_files (setup executable : string) (config_path env_path : path) (manifest_path : option path)
    (l : list event) : Prop :=
  Entry EffectiveUid (Ok 0) ∈ l ∧ provided "astrumweaver-setup-gpu-worker" setup l ∧
  persistent "astrumweaver-worker" executable l ∧
  Entry (WriteContent config_path worker_toml) (Ok tt) ∈ l ∧
  (∃ env, render_worker_env worker_token = Ok env ∧ Entry (WriteContent env_path env) (Ok tt) ∈ l) ∧
  match manifest, manifest_path with
  | Some text, Some p => Entry (WriteContent p text) (Ok tt) ∈ l
  | None, None => True
  | _, _ => False
  end.
Definition worker_command (setup executable : string) (config_path env_path : path)
    (manifest_path : option path) : command :=
  ((setup_command setup executable config_path env_path).1
   ++ match manifest_path with Some p => ["--runtime-manifest"; path_str p] | None => [] end
   ++ (if start then ["--start"] else []), []).
Definition worker_plan (plan : list command) (l : list event) : Prop :=
  ∃ setup executable config_path env_path manifest_path,
    worker_files setup executable config_path env_path manifest_path l ∧
    plan = [worker_command setup executable config_path env_path manifest_path].
Lemma grows_worker_files a b c p q : grows (worker_files a b c p q).
Proof.
  unfold worker_files. repeat apply grows_and; eauto with trace. destruct manifest, q; auto with trace.
Qed.
#[local] Hint Resolve grows_worker_files : trace.
Lemma grows_worker_plan plan : grows (worker_plan plan).
Proof. unfold worker_plan. eauto 20 with trace. Qed.

Abbreviation E := (λ (_ : exn), at_state [] (within_plan worker_plan)).
Definition worker_set_up (l : list event) : Prop := ∃ plan, worker_plan plan l ∧ runs l = succeeded plan.
Lemma unmoved_worker_set_up : unmoved worker_set_up.
Proof. apply unmoved_ex. intros plan. intros e l He [Hp Hr]. split; [by apply grows_worker_plan|].
  by rewrite (unmoved_runs (runs l) e l He eq_refl). Qed.
Lemma unmoved_worker_within : unmoved (within_plan worker_plan).
Proof. apply unmoved_within_plan, grows_worker_plan. Qed.
Lemma worker_set_up_within l : worker_set_up l → within_plan worker_plan l.
Proof.
  intros (plan & Hp & Hr). right. exists plan. split; [done|]. exists plan, []. rewrite app_nil_r.
  split; [done|]. by left.
Qed.
#[local] Hint Resolve grows_worker_plan unmoved_worker_set_up unmoved_worker_within worker_set_up_within : trace.

Lemma worker_run_spec open setup executable c v m :
  traced (at_state open (λ l, runs l = [] ∧ worker_files setup executable c v m l))
    (_run_service (worker_command setup executable c v m).1 [] "worker" 9100)
    (λ _, at_state open worker_set_up) (λ _, at_state open (within_plan worker_plan)).
Proof.
  eapply traced_conseq; [apply (run_service_spec open (worker_files setup executable c v m)
    [worker_command setup executable c v m] (worker_command setup executable c v m).1 [] _ _ [])|..].
  - auto with trace.
  - by eexists.
  - by intros l (? & ? & ?).
  - intros a l (Hc & Hr & Hf). split; [done|]. eexists. split; [|exact Hr]. do 5 eexists. by split; [exact Hf|].
  - intros e l (Hc & Hr & Hf). split; [done|]. right. eexists. split; [|exact Hr].
    do 5 eexists. by split; [exact Hf|].
Qed.

Lemma worker_setup_spec setup executable :
  traced (at_state [] (λ l, runs l = [] ∧ Entry EffectiveUid (Ok 0) ∈ l ∧
            provided "astrumweaver-setup-gpu-worker" setup l ∧ persistent "astrumweaver-worker" executable l))
    (run_worker_setup setup executable worker_toml worker_token manifest start)
    (λ _, at_state [] worker_set_up) E.
Proof.
  unfold run_worker_setup.
  eapply (temporary_spec [] _ (λ _, worker_set_up) (within_plan worker_plan));
    [auto 10 with trace|auto with trace|auto with trace|by intros l [? _]; left|auto with trace|].
  intros c. set (P := λ l, runs l = [] ∧ Entry EffectiveUid (Ok 0) ∈ l ∧
    provided "astrumweaver-setup-gpu-worker" setup l ∧ persistent "astrumweaver-worker" executable l ∧
    Entry (WriteContent c worker_toml) (Ok tt) ∈ l).
  assert (unmoved P) as HP by (unfold P; auto 10 with trace).
  eapply (traced_bind _ _ (λ env l, render_worker_env worker_token = Ok env ∧ at_state [c] P l)).
  { apply traced_lifts; [|intros e l (? & [? ?] & _ & ?) _; split; [done|by left]].
    intros env l (? & (? & ? & ? & ?) & _ & ?) ?. done. }
  intros env. apply traced_pure. intros He.
  apply (temporary_spec [c] P (λ _, worker_set_up) (within_plan worker_plan));
    [done|auto with trace|auto with trace|by intros l [? _]; left|auto with trace|].
  intros v. set (P' := λ l, P l ∧ Entry (WriteContent v env) (Ok tt) ∈ l).
  assert (unmoved P') as HP' by (unfold P'; auto 10 with trace).
  destruct manifest as [text|] eqn:Em.
  - eapply traced_pre; [apply (temporary_spec [v; c] P' (λ _, worker_set_up) (within_plan worker_plan));
      [done|auto with trace|auto with trace|by intros l [[? _] _]; left|auto with trace|]|by intros l (? & ? & _ & ?)].
    intros m. eapply traced_pre; [eapply (worker_run_spec _ setup executable c v (Some m))|].
    intros l (Hc & ((Hr & Hu & Hs & Hx & Ht) & Hv) & _ & Hm). split; [done|]. split; [done|].
    unfold worker_files. rewrite Em. eauto 10.
  - eapply traced_pre; [apply (worker_run_spec _ setup executable c v None)|].
    intros l (Hc & (Hr & Hu & Hs & Hx & Ht) & _ & Hv). split; [done|]. split; [done|].
    unfold worker_files. rewrite Em. eauto 10.
Qed.

Definition worker_done : SystemdBootstrapResult :=
  {| br_control_installed := false; br_control_ready := false; br_migration_applied := false;
     br_worker_installed := true; br_worker_ready := start |}.
Definition worker_url : string := "http://127.0.0.1:9100/health".

Lemma install_worker_spec fuel :
  traced (at_state [] (λ l, runs l = [])) (install_worker config fuel worker_toml worker_token manifest start)
    (λ r, at_state [] (λ l, within_plan worker_plan l ∧
       ∀ a, r = Some a → a = worker_done ∧ worker_set_up l ∧ (start = true → says_ready worker_url true l))) E.
Proof.
  assert (∀ P, (∀ l, P l → runs l = []) → ∀ (e : exn) l, careful [] l → P l → E e l) as Hnone.
  { intros P HP _ l ? Hl. split; [done|]. left. by apply HP. }
  unfold install_worker. apply root_step; [auto with trace|by apply Hnone|].
  apply tool_step; [auto with trace|apply Hnone; tauto|intros setup].
  apply persistent_step; [auto 10 with trace|apply Hnone; tauto|intros executable].
  eapply traced_bind.
  { eapply traced_pre; [apply (worker_setup_spec setup executable)|]. tauto. }
  intros []. unfold worker_done. destruct start.
  - eapply traced_conseq; [apply (wait_ready_spec [] worker_set_up); auto with trace|done|..].
    + intros r l [(Hc & Hs) Hd]. split; [done|]. split; [by apply worker_set_up_within|].
      intros a Ha. by destruct (Hd a Ha) as [-> ?].
    + intros e l (Hc & Hs). split; [done|]. by apply worker_set_up_within.
  - apply traced_ret. intros l (Hc & Hs). split; [done|]. split; [by apply worker_set_up_within|].
    by intros a [= <-].
Qed.
End worker.

(** Property C30: Installing a Control or a Worker runs nothing but its plan, in order, each
    command only after the one before succeeded: as root, with helpers that were seen executable
    (in the tool directory when there is one; a daemon that is to be persistent is otherwise no
    path of the Nix store), the setup helper on files that hold the reviewed configuration and
    secrets, then the migrations, then the service.  Ready is said only when the last answer of
    the service's own endpoint says so, and, of a Worker, that it is registered.  However it
    ends, every temporary file was private to its owner before it was written and was unlinked. *)
Theorem installs_in_order (w : W) fuel :
  (∀ ip_version spec secrets,
    let '(s, r) := install_control config ip_version fuel spec secrets (Build_logged w []) in
    let l := lg_log s in
    careful [] l ∧ within_plan (control_plan spec secrets) l ∧
    ∀ res, r = Ok (Some res) → res = control_done ∧ says_ready (control_url ip_version spec) false l ∧
      ∃ plan, control_plan spec secrets plan l ∧ runs l = succeeded plan) ∧
  (∀ worker_toml worker_token manifest start,
    let '(s, r) := install_worker config fuel worker_toml worker_token manifest start (Build_logged w []) in
    let l := lg_log s in
    careful [] l ∧ within_plan (worker_plan worker_toml worker_token manifest start) l ∧
    ∀ res, r = Ok (Some res) → res = worker_done start ∧ (start = true → says_ready worker_url true l) ∧
      ∃ plan, worker_plan worker_toml worker_token manifest start plan l ∧ runs l = succeeded plan).
Proof.
  assert (careful [] []) as H0 by (split; [by intros p Hp|done]). split.
  - intros ip_version spec secrets.
    pose proof (traced_run _ _ _ _ w (install_control_spec ip_version spec secrets fuel) (conj H0 eq_refl)) as Hr.
    destruct (install_control _ _ _ _ _ _) as [s [r|e]]; cbn in Hr; [|by destruct Hr].
    destruct Hr as (? & ? & Hd). split; [done|]. split; [done|]. intros res [= ->]. by apply Hd.
  - intros worker_toml worker_token manifest start.
    pose proof (traced_run _ _ _ _ w (install_worker_spec worker_toml worker_token manifest start fuel) (conj H0 eq_refl)) as Hr.
    destruct (install_worker _ _ _ _ _ _ _) as [s [r|e]]; cbn in Hr; [|by destruct Hr].
    destruct Hr as (? & ? & Hd). split; [done|]. split; [done|]. intros res [= ->].
    destruct (Hd res eq_refl) as (-> & ? & ?). done.
Qed.
End installs.

(** ** The wait ends *)

(** Time does not go back, the clock tells it, and a sleep lasts. *)
Class SteadyInstallHost (W : Type) `{Handler first_run_op W} (now : W → Z) := {
  si_forward A (o : first_run_op A) w : now w ≤ now (answer o w).1;
  si_tells w t : (answer ClockNow w).2 = Ok t → t = now (answer ClockNow w).1;
  si_sleeps d w : (answer (WaitFor d) w).2 = Ok tt → now w + d ≤ now (answer (WaitFor d) w).1;
}.

Section returns.
Context {W : Type} `{Handler first_run_op W} (now : W → Z) {SH : SteadyInstallHost W now}.
Context {DG : Digests} {DL : DriverLibrary} (config : installer) (t p : Z).
Hypothesis Htimeout : duration_of (in_ready_timeout_seconds config) = Ticks t.
Hypothesis Hpoll : duration_of (in_poll_interval_seconds config) = Ticks p.
Hypothesis p_pos : 0 < p.

Lemma ask_forward {A} (o : first_run_op A) (s : logged first_run_op W) :
  now (lg_world s) ≤ now (lg_world (ask o s).1).
Proof. unfold ask. pose proof (si_forward A o (lg_world s)). by destruct (answer o _). Qed.
Lemma poll_once_forward url rr (s : logged first_run_op W) :
  now (lg_world s) ≤ now (lg_world (poll_once url rr s).1).
Proof.
  pose proof (ask_forward (OpenUrl url) s) as Hf. unfold poll_once, try_catch, mbind, eff_bind.
  destruct (ask (OpenUrl url) s) as [s' [r|e]]; [done|]. cbn in Hf.
  destruct e; try done; by destruct (is_OSError _).
Qed.

Lemma poll_loop_ends url rr fuel started : ∀ s : logged first_run_op W,
  started + t - now (lg_world s) ≤ p * (Z.of_nat fuel - 1) → (0 < fuel)%nat →
  (poll_loop config fuel url rr started s).2 ≠ Ok None.
Proof.
  induction fuel as [|fuel IH]; intros s Hfuel Hf; [lia|].
  cbn [poll_loop]. unfold ask at 1. unfold mbind at 1, eff_bind at 1.
  pose proof (si_forward _ ClockNow (lg_world s)) as T1. pose proof (si_tells (lg_world s)) as T2.
  destruct (answer ClockNow (lg_world s)) as [w1 [read|e]]; [|done]. cbn [fst snd] in *.
  specialize (T2 read eq_refl). rewrite Htimeout, Hpoll. cbn [before_deadline].
  destruct (read - started <? t) eqn:Eo; [|done]. apply Z.ltb_lt in Eo.
  set (s1 := Build_logged w1 _). pose proof (poll_once_forward url rr s1) as T3.
  unfold mbind at 1, eff_bind at 1. destruct (poll_once url rr s1) as [s2 [[|]|e]]; [done| |done].
  cbn [fst lg_world s1] in T3. unfold mbind, eff_bind. cbn [wait_for]. unfold ask.
  pose proof (si_sleeps p (lg_world s2)) as T4.
  destruct (answer (WaitFor p) (lg_world s2)) as [w3 [[]|e]]; [|done]. cbn [fst snd] in T4.
  specialize (T4 eq_refl). assert (0 < Z.of_nat fuel) as Hturn by (destruct fuel; [exfalso|]; lia).
  apply IH; [|lia]. cbn [lg_world]. nia.
Qed.

(** Both installations end: on a clock that does not go back, for a timeout of [t] ticks and a
    poll interval of [p], [t / p + 1] turns are enough for the wait. *)
Theorem installs_return fuel (s : logged first_run_op W) :
  0 ≤ t → t ≤ p * (Z.of_nat fuel - 1) →
  (∀ ip_version spec secrets, (install_control config ip_version fuel spec secrets s).2 ≠ Ok None) ∧
  (∀ toml token manifest start, (install_worker config fuel toml token manifest start s).2 ≠ Ok None).
Proof.
  intros Ht Hfuel.
  assert (∀ url rr, ends (S := logged first_run_op W) (_wait_json_ready config fuel url rr)) as Hw.
  { intros url rr s'. unfold _wait_json_ready, ask, mbind, eff_bind.
    pose proof (si_tells (lg_world s')) as T1.
    destruct (answer ClockNow (lg_world s')) as [w [read|e]]; [|done]. cbn [fst snd] in *.
    specialize (T1 read eq_refl). apply poll_loop_ends; cbn [lg_world]; [lia|nia]. }
  assert (∀ url rr message (res : SystemdBootstrapResult), ends (S := logged first_run_op W)
    (and_then (_wait_json_ready config fuel url rr) (λ ready, ensure ready message;; mret (Some res)))) as He.
  { intros. apply trace_ends_and_then; [apply Hw|intros ready]. apply trace_ends_bind. intros _. apply trace_ends_ret. }
  split.
  - intros ip_version spec secrets. revert s. change (ends (S := logged first_run_op W)
      (install_control config ip_version fuel spec secrets)). unfold install_control.
    do 5 (apply trace_ends_bind; intros ?). destruct (fs_database_url secrets); [|by intros s].
    do 2 (apply trace_ends_bind; intros ?). apply He.
  - intros toml token manifest start. revert s. change (ends (S := logged first_run_op W)
      (install_worker config fuel toml token manifest start)). unfold install_worker.
    do 4 (apply trace_ends_bind; intros ?). destruct start; [apply He|apply trace_ends_ret].
Qed.
End returns.

(** ** A small host *)

(** Everything succeeds, and the service is ready at the third look. *)
#[local] Instance small_install : Handler first_run_op Z := {
  answer := λ A o w,
    match o in first_run_op A return Z * result A with
    | EffectiveUid => (w, Ok 0)
    | ExecutableFile _ => (w, Ok true)
    | Absolute p | Resolved p => (w, Ok p)
    | WhichTool _ => (w, Ok None)
    | TemporaryFile _ suffix => (w, Ok (Path ("/tmp/x" +:+ suffix)))
    | SetMode _ _ | WriteContent _ _ | SyncFile _ | Unlink _ | MakeParents _ | ReplaceFile _ _ => (w, Ok tt)
    | ReadContent _ => (w, Err (FileNotFoundError EmptyString))
    | RunTool _ _ => (w, Ok 0)
    | OpenUrl _ => (w, Ok (200, if 2 <=? w then "ready" else EmptyString))
    | ClockNow => (w, Ok w)
    | WaitFor d => (w + Z.max 0 d, Ok tt)
    end }.
#[local] Instance install_library : DriverLibrary := {
  json_loads s := if bool_decide (s = "ready")
                  then Some (PDict [("ready", PBool true); ("registered", PBool true)]) else None;
  format_g _ := EmptyString; float_of_text _ := None;
  duration_of f := if float_le_Z f 1 then Ticks 1 else Ticks 60 }.
#[local] Instance install_digests : Digests := { sha256_hex _ := EmptyString; float_repr _ := "5.0" }.
Definition small_installer : installer :=
  {| in_tool_dir := Some (Path "/opt/astrumweaver/bin"); in_systemctl := "systemctl";
     in_poll_interval_seconds := float_of_Z 1; in_ready_timeout_seconds := float_of_Z 60;
     in_argv0 := "astrumweaver-setup-tui" |}.
Definition small_spec : ControlBootstrapSpec :=
  {| cb_bind_host := "127.0.0.1"; cb_port := 9000; cb_client_auth := BEARER;
     cb_worker_ttl_seconds := 60; cb_lease_seconds := 300;
     cb_maintenance_interval_seconds := float_of_Z 5; cb_access_log := false |}.
Definition small_secrets : FirstRunSecrets :=
  {| fs_database_url := Some "postgresql://db"; fs_client_token := Some "c"; fs_worker_token := Some "w" |}.

(** Both installations succeed on it; the Control's ran its three commands. *)
Example small_installs :
  (let '(s, r) := install_control small_installer (λ _, Some 4) 61 small_spec small_secrets (Build_logged 0 []) in
   r = Ok (Some control_done) ∧ length (runs (lg_log s)) = 3%nat ∧ left_over (lg_log s) = []) ∧
  (install_worker small_installer 61 "[worker]" "w" (Some "{}") true (Build_logged 0 [])).2
  = Ok (Some (worker_done true)).
Proof. vm_compute. done. Qed.

#[local] Instance small_steady : SteadyInstallHost Z id.
Proof.
  split; [|by intros w t [= ->]|intros d w _; cbn; lia]. intros A o w. destruct o; cbn; lia.
Qed.
