(* ===== verification/Hardware.v ===== *)
(** * Acceptance of a real node

    Models [src/src/astrumweaver/validation/hardware.py]: the runner that takes a borrowable
    Worker through enrolment, a job, a drain under load, development use and back, with the
    controller of [Mode] and the Control API, and the redacted evidence it writes.  Times are
    ticks of the clock, as in [Mode]; HardwareAcceptanceError is a [RuntimeError], and nothing
    here tells the two apart. *)

From Stdlib Require Import SpecFloat.
From S2P Require Import Prelude PyStr PyDict PyVal PyHost Effects Trace PyText PyNum Contracts Models Serde Json Api SetupContracts Systemd ControlDaemon GpuMapping GpuIsolation Migration Acceptance Preflight Mode ModeProps.

(** A request to the Control API ([None] is [httpx.HTTPError]; the body is [None] when it is not
    JSON), [uuid4().hex], today's date, and writing a file after its parents were made. *)
Class NodeWorld (W : Type) `{ModeWorld W} := {
  nw_call : string → string → pyval → W → W * option (Z * option pyval);
  nw_marker : W → W * string;
  nw_date : W → string;
  nw_write : path → string → W → W * result unit;
}.

(** [PUBLIC_PROFILE_CLASSES], validation/hardware.py lines 36-40. *)
Definition PUBLIC_PROFILE_CLASSES : list string := ["modern-single"; "multi-gpu-large"; "legacy-single"].

(** The attributes of [HardwareAcceptanceRunner] that are values. *)
Record hardware_runner := {
  hr_expected_gpu_uuids : list string;
  hr_revision : string;
  hr_deployment_path : string;
  hr_profile_class : string;
  hr_capability : string;
  hr_poll_interval_seconds : Z;
  hr_job_timeout_seconds : Z;
  hr_drain_anchor_seconds : spec_float;
  hr_drain_probe_seconds : Z;
  hr_mode_start_timeout_seconds : Z;
  hr_mode_drain_timeout_seconds : option Z;
}.

(** [HardwareAcceptanceRunner.__init__], validation/hardware.py lines 172-238. *)
Definition mk_hardware_runner (expected : list string) (revision deployment_path profile_class capability : string)
    (poll_interval job_timeout : Z) (drain_anchor : spec_float) (drain_probe start_timeout : Z)
    (drain_timeout : option Z) : result hardware_runner :=
  require (match expected with [] => false | _ => true end)
    (ValueError "at least one expected GPU UUID is required");;
  require (all_distinct expected) (ValueError "expected GPU UUIDs must be unique");;
  require (bool_decide (deployment_path ∈ ["nixos"; "systemd"]))
    (ValueError "deployment_path must be nixos or systemd");;
  require (revision_ok (strip revision)) (ValueError "revision must be a public git commit SHA");;
  require (bool_decide (strip profile_class ∈ PUBLIC_PROFILE_CLASSES))
    (ValueError "profile_class must be one of the public v0.1 GPU profiles");;
  require (str_truthy (strip capability)) (ValueError "capability is required");;
  require (0 <? poll_interval) (ValueError "poll_interval_seconds must be positive");;
  require (0 <? job_timeout) (ValueError "job_timeout_seconds must be positive");;
  require (negb (float_le_zero drain_anchor)) (ValueError "drain_anchor_seconds must be positive");;
  require (0 <? drain_probe) (ValueError "drain_probe_seconds must be positive");;
  require (0 <? start_timeout) (ValueError "mode_start_timeout_seconds must be positive");;
  require (match drain_anchor with S754_nan => true | f => float_le_Z f 30 end)
    (ValueError "drain_anchor_seconds must not exceed 30");;
  Ok {| hr_expected_gpu_uuids := expected; hr_revision := strip revision;
        hr_deployment_path := deployment_path; hr_profile_class := strip profile_class;
        hr_capability := strip capability; hr_poll_interval_seconds := poll_interval;
        hr_job_timeout_seconds := job_timeout; hr_drain_anchor_seconds := drain_anchor;
        hr_drain_probe_seconds := drain_probe; hr_mode_start_timeout_seconds := start_timeout;
        hr_mode_drain_timeout_seconds := drain_timeout |}.

(** [HardwareAcceptanceEvidence], validation/hardware.py lines 148-168. *)
Record HardwareAcceptanceEvidence := {
  he_evidence_version : string;
  he_date_utc : string;
  he_astrumweaver_revision : string;
  he_deployment_path : string;
  he_profile_class : string;
  he_gpu_count : Z;
  he_private_values_omitted : bool;
  he_exact_uuid_preflight : string;
  he_worker_registration : string;
  he_first_job_round_trip : string;
  he_drain_state_observed : string;
  he_active_job_completed_while_draining : string;
  he_drain_no_new_claims : string;
  he_service_stopped_after_drain : string;
  he_gpu_processes_after_release : Z;
  he_development_mode : string;
  he_return_online : string;
  he_second_job_round_trip : string;
  he_overall : string;
}.

(** What [run] returns at its end, validation/hardware.py lines 375-395. *)
Definition passing_evidence (r : hardware_runner) (date : string) : HardwareAcceptanceEvidence :=
  {| he_evidence_version := "v0.1"; he_date_utc := date; he_astrumweaver_revision := hr_revision r;
     he_deployment_path := hr_deployment_path r; he_profile_class := hr_profile_class r;
     he_gpu_count := Z.of_nat (length (hr_expected_gpu_uuids r)); he_private_values_omitted := true;
     he_exact_uuid_preflight := "PASS"; he_worker_registration := "PASS";
     he_first_job_round_trip := "PASS"; he_drain_state_observed := "PASS";
     he_active_job_completed_while_draining := "PASS"; he_drain_no_new_claims := "PASS";
     he_service_stopped_after_drain := "PASS"; he_gpu_processes_after_release := 0;
     he_development_mode := "PASS"; he_return_online := "PASS"; he_second_job_round_trip := "PASS";
     he_overall := "PASS" |}.

(** The fields of [render_markdown], validation/hardware.py lines 402-425. *)
Definition hardware_fields (e : HardwareAcceptanceEvidence) : list (string * string) :=
  [("Evidence version", he_evidence_version e); ("Date (UTC)", he_date_utc e);
   ("AstrumWeaver revision", he_astrumweaver_revision e); ("Deployment path", he_deployment_path e);
   ("Profile class", he_profile_class e); ("GPU count", str_of_Z (he_gpu_count e));
   ("Private values omitted", lower_bool (he_private_values_omitted e));
   ("Exact UUID preflight", he_exact_uuid_preflight e);
   ("Worker registration / readiness", he_worker_registration e);
   ("First generic job round-trip", he_first_job_round_trip e);
   ("DRAINING observed", he_drain_state_observed e);
   ("Active job completed while DRAINING", he_active_job_completed_while_draining e);
   ("No new claim while DRAINING", he_drain_no_new_claims e);
   ("Worker service stopped after drain", he_service_stopped_after_drain e);
   ("GPU process contexts after release", str_of_Z (he_gpu_processes_after_release e));
   ("Development ownership reached", he_development_mode e);
   ("Worker returned ONLINE", he_return_online e);
   ("Second generic job round-trip", he_second_job_round_trip e); ("Overall", he_overall e)].
(** [render_markdown], validation/hardware.py lines 398-434. *)
Definition render_markdown (e : HardwareAcceptanceEvidence) : string :=
  join newline
    ["# AstrumWeaver v0.1 Hardware E2E Evidence"; EmptyString;
     "This file is intentionally redacted. It contains no hostname, IP address, VM/LXC identifier, GPU UUID, credential, private URL, or GPU model.";
     EmptyString; "| Field | Result |"; "| --- | --- |";
     join newline (table_row <$> hardware_fields e); EmptyString].

(** [HTTPAcceptanceControl.__init__], validation/hardware.py lines 60-84: the headers it sends. *)
Definition mk_control (base_url : string) (client_token : option string) (mode : client_auth_mode)
    : result (dict string) :=
  require (str_truthy base_url) (ValueError "control base_url is required");;
  match mode with
  | BEARER =>
      match client_token with
      | Some t => require (str_truthy t) (ValueError "client token is required when client_auth=bearer");;
                  Ok [("authorization", "Bearer " +:+ t)]
      | None => Err (ValueError "client token is required when client_auth=bearer")
      end
  | NO_AUTH => Ok []
  end.

Section hardware.
Context {W : Type} `{NodeWorld W}.
Abbreviation M := (eff (mstate (W := W))).

Definition call (verb location : string) (body : pyval) : M (option (Z * option pyval)) := λ s,
  let '(w, o) := nw_call verb location body s.1 in ((w, OCall verb location body o :: s.2), Ok o).
Definition marker : M string := λ s, let '(w, m) := nw_marker s.1 in ((w, s.2), Ok m).
Definition date_utc : M string := gets (λ s, nw_date s.1).
Definition write (p : path) (text : string) : M unit := λ s,
  let '(w, r) := nw_write p text s.1 in ((w, OWrite p text :: s.2), r).

(** [try: m finally: c] and [k] of what [m] gives, for an [m] that may be out of turns. *)
Definition finally_ended {A} (m : M (option A)) (c : M unit) : M (option A) := λ s,
  match m s with
  | (s', Ok None) => (s', Ok None)
  | (s', r) => match c s' with
               | (s'', Ok _) => (s'', r)
               | (s'', Err e) => (s'', Err e)
               end
  end.
Definition and_next {A B} (m : M (option A)) (k : A → M (option B)) : M (option B) :=
  r ← m; match r with Some a => k a | None => mret None end.

(** ** The Control API *)

(** [HTTPAcceptanceControl._request], validation/hardware.py lines 89-98. *)
Definition node_request (verb location : string) (body : pyval) : M (option pyval) :=
  o ← call verb location body;
  match o with
  | None => throws (RuntimeError "Control API is unavailable")
  | Some (status, json) =>
      ensure (negb (400 <=? status))
        (RuntimeError ("Control API rejected acceptance request (" +:+ str_of_Z status +:+ ")"));;
      mret json
  end.

(** [response.json().get(key)]. *)
Definition field (key : string) (json : option pyval) : result pyval :=
  match json with
  | None => Err (ValueError "Expecting value: line 1 column 1 (char 0)")
  | Some (PDict d) => Ok (get key d)
  | Some _ => Err (AttributeError "object has no attribute 'get'")
  end.

(** The body of a job, validation/hardware.py lines 108-130. *)
Definition pinned_job (capability : string) (gpu_uuids : list string) (mark : string) (delay : option spec_float)
    : pyval :=
  PDict [("protocol_version", PStr PROTOCOL_VERSION); ("capability", PStr capability);
         ("payload", PDict ([("acceptance", PStr "v0.1-hardware-e2e"); ("marker", PStr mark)]
                            ++ match delay with
                               | Some f => if float_is_zero f then [] else [("_debug_delay_seconds", PFloat f)]
                               | None => [] end));
         ("requirements", PDict [("required_gpu_uuids", PList (PStr <$> gpu_uuids))]);
         ("priority", PInt 100); ("max_attempts", PInt 1);
         ("idempotency_key", PStr ("hardware-e2e-" +:+ mark))].

(** [submit_pinned_job], validation/hardware.py lines 100-134. *)
Definition submit_pinned_job (capability : string) (gpu_uuids : list string) (mark : string)
    (delay : option spec_float) : M string :=
  json ← node_request "POST" "/v1/jobs" (pinned_job capability gpu_uuids mark delay);
  v ← lifts (field "job_id" json);
  match v with
  | PStr (String _ _ as job_id) => mret job_id
  | _ => throws (RuntimeError "Control returned an invalid job ID")
  end.

(** [job_status], validation/hardware.py lines 136-142. *)
Definition job_status (job_id : string) : M string :=
  json ← node_request "GET" ("/v1/jobs/" +:+ job_id) PNone;
  v ← lifts (field "status" json);
  match v with
  | PStr status => mret status
  | _ => throws (RuntimeError "Control returned an invalid job status")
  end.

(** [cancel_job], validation/hardware.py lines 144-145. *)
Definition cancel_job (job_id : string) : M unit :=
  node_request "POST" ("/v1/jobs/" +:+ job_id +:+ "/cancel") PNone;; mret tt.

(** ** The runner *)

Variables systemctl service_name base_url nvidia_smi : string.
Variable probe_gpu_uuids : list string.
Variable config : hardware_runner.
Abbreviation poll := (hr_poll_interval_seconds config).

(** The loop that the four waits share: a check, the deadline, a sleep. *)
Fixpoint until_loop {A} (fuel : nat) (check : M (option A)) (deadline : Z) (message : string) : M (option A) :=
  match fuel with
  | O => mret None
  | S fuel' =>
      r ← check;
      match r with
      | Some a => mret (Some a)
      | None =>
          now ← monotonic;
          ensure (negb (deadline <=? now)) (RuntimeError message);;
          sleep poll;; until_loop fuel' check deadline message
      end
  end.
Definition until {A} (fuel : nat) (check : M (option A)) (timeout : Z) (message : string) : M (option A) :=
  now ← monotonic; until_loop fuel check (now + timeout) message.

(** A snapshot that says so. *)
Definition check_snapshot (key : string) : M (option unit) :=
  s ← snapshot base_url; mret (if says_true key s then Some tt else None).

(** [_wait_for_worker_ready], validation/hardware.py lines 240-248. *)
Definition _wait_for_worker_ready (fuel : nat) : M (option unit) :=
  until fuel (check_snapshot "ready") (hr_mode_start_timeout_seconds config) "Worker did not become locally ready".

(** [_wait_drain_state], validation/hardware.py lines 289-297. *)
Definition _wait_drain_state (fuel : nat) : M (option unit) :=
  until fuel (check_snapshot "draining") (hr_job_timeout_seconds config) "Worker did not expose DRAINING locally".

Definition terminal_status (status : string) : bool := bool_decide (status ∈ ["succeeded"; "failed"; "cancelled"]).
(** [_wait_job_terminal], validation/hardware.py lines 250-258. *)
Definition _wait_job_terminal (fuel : nat) (job_id : string) : M (option string) :=
  until fuel (status ← job_status job_id; mret (if terminal_status status then Some status else None))
    (hr_job_timeout_seconds config) "validation job did not reach terminal state".
(** [_wait_job_running], validation/hardware.py lines 260-274. *)
Definition _wait_job_running (fuel : nat) (job_id : string) : M (option unit) :=
  until fuel
    (status ← job_status job_id;
     if bool_decide (status = "running") then mret (Some tt)
     else ensure (negb (terminal_status status))
            (RuntimeError "drain-anchor job reached terminal state before RUNNING was observed");;
          mret None)
    (hr_job_timeout_seconds config) "drain-anchor job did not become RUNNING".

Definition submit (delay : option spec_float) : M string :=
  mark ← marker; submit_pinned_job (hr_capability config) (hr_expected_gpu_uuids config) mark delay.

(** [_submit_round_trip], validation/hardware.py lines 276-287. *)
Definition _submit_round_trip (fuel : nat) : M (option unit) :=
  job_id ← submit None;
  and_next (_wait_job_terminal fuel job_id) (λ status,
    ensure (bool_decide (status = "succeeded"))
      (RuntimeError ("validation job terminal state was " +:+ status));;
    mret (Some tt)).

(** The controller's switches, validation/hardware.py lines 302-316. *)
Definition online (fuel : nat) : M (option ModeReport) :=
  to_astrumweaver systemctl service_name base_url nvidia_smi probe_gpu_uuids poll fuel
    (hr_mode_start_timeout_seconds config) (hr_mode_drain_timeout_seconds config).
Definition development (fuel : nat) : M (option ModeReport) :=
  to_development systemctl service_name base_url nvidia_smi probe_gpu_uuids poll fuel
    (hr_mode_drain_timeout_seconds config).

(** Enrolment and the first job, validation/hardware.py lines 300-321. *)
Definition enrol (fuel : nat) : M (option unit) :=
  require_exact_identity nvidia_smi probe_gpu_uuids;;
  and_next (online fuel) (λ report,
    ensure (mr_worker_ready report) (RuntimeError "Worker is not ready after enrollment");;
    and_next (_wait_for_worker_ready fuel) (λ _, _submit_round_trip fuel)).

(** A job that runs while the drain is requested, validation/hardware.py lines 323-334. *)
Definition drain_under_load (fuel : nat) : M (option string) :=
  anchor_job ← submit (Some (hr_drain_anchor_seconds config));
  and_next (_wait_job_running fuel anchor_job) (λ _,
    request_drain systemctl service_name;;
    and_next (_wait_drain_state fuel) (λ _, mret (Some anchor_job))).

(** No job is claimed while the running one completes, validation/hardware.py lines 336-354. *)
Definition no_new_claim (fuel : nat) (anchor_job : string) : M (option unit) :=
  probe_job ← submit None;
  finally_ended
    (sleep (hr_drain_probe_seconds config);;
     status ← job_status probe_job;
     ensure (bool_decide (status = "queued"))
       (RuntimeError "a new pinned job was claimed while Worker was draining");;
     and_next (_wait_job_terminal fuel anchor_job) (λ anchor_status,
       ensure (bool_decide (anchor_status = "succeeded"))
         (RuntimeError ("active drain-anchor job terminal state was " +:+ anchor_status));;
       mret (Some tt)))
    (cancel_job probe_job).

(** Development use, validation/hardware.py lines 356-364. *)
Definition release (fuel : nat) : M (option unit) :=
  and_next (development fuel) (λ released,
    ensure (negb (mr_service_active released)) (RuntimeError "Worker service remained active after release");;
    ensure (match mr_gpu_processes released with [] => true | _ => false end)
      (RuntimeError "GPU process contexts remained after release");;
    ensure (bool_decide (mr_mode released = "development"))
      (RuntimeError "local mode did not become development");;
    mret (Some tt)).

(** And back, validation/hardware.py lines 366-376. *)
Definition return_online (fuel : nat) : M (option unit) :=
  and_next (online fuel) (λ returned,
    ensure (mr_worker_ready returned && bool_decide (mr_mode returned = "astrumweaver"))
      (RuntimeError "Worker did not return ONLINE/ready");;
    _submit_round_trip fuel).

(** [HardwareAcceptanceRunner.run], validation/hardware.py lines 299-395. *)
Definition hardware_run (fuel : nat) : M (option HardwareAcceptanceEvidence) :=
  and_next (enrol fuel) (λ _,
  and_next (drain_under_load fuel) (λ anchor_job,
  and_next (no_new_claim fuel anchor_job) (λ _,
  and_next (release fuel) (λ _,
  and_next (return_online fuel) (λ _,
    date ← date_utc; mret (Some (passing_evidence config date))))))).

(** [write_evidence], validation/hardware.py lines 437-439. *)
Definition write_evidence (p : path) (e : HardwareAcceptanceEvidence) : M unit := write p (render_markdown e).
End hardware.

(** ** The command *)

(** The parsed arguments of [main], and the variable it reads. *)
Record hardware_args := {
  ha_control_url : string; ha_gpu_uuids : list string; ha_revision : string;
  ha_deployment_path : string; ha_profile_class : string; ha_capability : string;
  ha_client_auth : client_auth_mode; ha_health_url : string; ha_service : string;
  ha_systemctl : string; ha_nvidia_smi : string; ha_job_timeout_seconds : Z;
  ha_drain_anchor_seconds : spec_float; ha_drain_probe_seconds : Z;
  ha_drain_timeout_seconds : Z; ha_start_timeout_seconds : Z; ha_evidence : path;
  ha_client_token : string;
}.

Section command.
Context {W : Type} `{NodeWorld W}.
Abbreviation M := (eff (mstate (W := W))).

(** What is built before the run, validation/hardware.py lines 511-539: the GPUs of the probe
    and the runner. *)
Definition build_runner (half_second : Z) (a : hardware_args) (gpu_uuids : list string)
    : result (list string * hardware_runner) :=
  require (str_truthy (ha_service a)) (ValueError "service_name is required");;
  require (str_truthy (ha_health_url a)) (ValueError "health base_url is required");;
  probe ← mk_NvidiaGPUProbe gpu_uuids;
  r ← mk_hardware_runner gpu_uuids (ha_revision a) (ha_deployment_path a) (ha_profile_class a)
        (ha_capability a) half_second (ha_job_timeout_seconds a) (ha_drain_anchor_seconds a)
        (ha_drain_probe_seconds a) (ha_start_timeout_seconds a)
        (if ha_drain_timeout_seconds a =? 0 then None else Some (ha_drain_timeout_seconds a));
  Ok (probe, r).

(** [main] after argument parsing, validation/hardware.py lines 489-547: the evidence it prints,
    or the exit status and message; closing the client tells nothing. *)
Definition hardware_main (half_second : Z) (fuel : nat) (a : hardware_args)
    : M (option ((Z * string) + HardwareAcceptanceEvidence)) :=
  let say code text := mret (Some (inl (code, "astrumweaver-hardware-accept: " +:+ text +:+ newline))) in
  if match ha_client_auth a with BEARER => true | NO_AUTH => false end && negb (str_truthy (ha_client_token a))
  then say 2 "ASTRUMWEAVER_CLIENT_TOKEN is required when --client-auth=bearer"
  else
    let gpu_uuids := strip <$> ha_gpu_uuids a in
    if negb (match gpu_uuids with [] => false | _ => forallb str_truthy gpu_uuids end)
    then say 2 "at least one --gpu-uuid is required"
    else
      lifts (mk_control (ha_control_url a)
               (if str_truthy (ha_client_token a) then Some (ha_client_token a) else None) (ha_client_auth a));;
      try_catch
        (b ← lifts (build_runner half_second a gpu_uuids);
         and_next (hardware_run (ha_systemctl a) (ha_service a) (rstrip_char "/" (ha_health_url a))
                     (ha_nvidia_smi a) b.1 b.2 fuel)
           (λ evidence, write_evidence (ha_evidence a) evidence;; mret (Some (inr evidence))))
        (λ e, match e with
              | ModeTransitionError text | RuntimeError text | ValueError text => say 1 text
              | _ => throws e
              end).
End command.

(** ** What a part of the run adds to the log *)

Section segments.
Context {W : Type} `{NodeWorld W}.
Abbreviation M := (eff (mstate (W := W))).

(** A computation that does not look at the log, and adds to it only what [P] allows. *)
Definition appends {A} (P : observation → Prop) (m : M A) : Prop := ∀ w, ∃ w' l r,
  (∀ l0, m (w, l0) = ((w', l ++ l0), r)) ∧ Forall P l.
Abbreviation framed m := (appends (λ _, True) m).

Section rules.
Context (P : observation → Prop).
Lemma appends_pure {A} (r : result A) : appends P (λ s : mstate, (s, r)).
Proof. intros w. exists w, [], r. split; [done|constructor]. Qed.
Lemma appends_ret {A} (a : A) : appends P (mret a).
Proof. apply (appends_pure (Ok a)). Qed.
Lemma appends_throws {A} e : appends (A := A) P (throws e).
Proof. apply (appends_pure (Err e)). Qed.
Lemma appends_lifts {A} (r : result A) : appends P (lifts r).
Proof. apply appends_pure. Qed.
Lemma appends_ensure b e : appends P (ensure b e).
Proof. destruct b; [apply appends_ret|apply appends_throws]. Qed.
Lemma appends_time {A} (f : W → A) : appends P (gets (λ s : mstate, f s.1)).
Proof. intros w. exists w, [], (Ok (f w)). split; [done|constructor]. Qed.
Lemma appends_bind {A B} (m : M A) (k : A → M B) : appends P m → (∀ a, appends P (k a)) → appends P (m ≫= k).
Proof.
  intros Hm Hk w. destruct (Hm w) as (w1 & l1 & [a|e] & E1 & P1).
  - destruct (Hk a w1) as (w2 & l2 & r & E2 & P2). exists w2, (l2 ++ l1), r. split; [|by apply Forall_app].
    intros l0. unfold mbind, eff_bind. rewrite E1, E2. by rewrite app_assoc.
  - exists w1, l1, (Err e). split; [|done]. intros l0. unfold mbind, eff_bind. by rewrite E1.
Qed.
Lemma appends_one {A B} (f : W → W * A) (g : A → observation) (r : A → result B) :
  (∀ a, P (g a)) → appends P (λ s : mstate, let '(w, a) := f s.1 in ((w, g a :: s.2), r a)).
Proof. intros Hg w. destruct (f w) as [w' a] eqn:E. exists w', [g a], (r a). split; [by cbn; rewrite E|by constructor]. Qed.
Lemma appends_run args : (∀ o, P (ORun args o)) → appends P (run args).
Proof. intros Hp. by apply (appends_one (mw_run args) (ORun args) (λ o, Ok o)). Qed.
Lemma appends_get url : (∀ o, P (OGet url o)) → appends P (http_get url).
Proof. intros Hp. by apply (appends_one (mw_get url) (OGet url) (λ o, Ok o)). Qed.
Lemma appends_call v u b : (∀ o, P (OCall v u b o)) → appends P (call v u b).
Proof. intros Hp. by apply (appends_one (nw_call v u b) (OCall v u b) (λ o, Ok o)). Qed.
Lemma appends_write p text : P (OWrite p text) → appends P (write p text).
Proof. intros Hp. by apply (appends_one (nw_write p text) (λ _, OWrite p text) id). Qed.
Lemma appends_marker : appends P marker.
Proof. intros w. unfold marker. cbn. destruct (nw_marker w) as [w' m] eqn:E. exists w', [], (Ok m).
  by split; [|constructor]. Qed.
Lemma appends_sleep d : P OSleep → appends P (sleep d).
Proof. intros Hp w. exists (mw_sleep d w), [OSleep], (Ok tt). split; [done|by constructor]. Qed.
Lemma appends_finally {A} (m : M (option A)) c : appends P m → appends P c → appends P (finally_ended m c).
Proof.
  intros Hm Hc w. destruct (Hm w) as (w1 & l1 & r1 & E1 & P1). destruct (Hc w1) as (w2 & l2 & r2 & E2 & P2).
  unfold finally_ended. destruct r1 as [[a|]|e].
  - exists w2, (l2 ++ l1), (match r2 with Ok _ => Ok (Some a) | Err e => Err e end).
    split; [|by apply Forall_app]. intros l0. rewrite E1, E2, app_assoc. by destruct r2.
  - exists w1, l1, (Ok None). split; [|done]. intros l0. by rewrite E1.
  - exists w2, (l2 ++ l1), (match r2 with Ok _ => Err e | Err e => Err e end).
    split; [|by apply Forall_app]. intros l0. rewrite E1, E2, app_assoc. by destruct r2.
Qed.
Lemma appends_and_next {A B} (m : M (option A)) (k : A → M (option B)) :
  appends P m → (∀ a, appends P (k a)) → appends P (and_next m k).
Proof. intros Hm Hk. apply appends_bind; [done|]. intros [a|]; [apply Hk|apply appends_ret]. Qed.
End rules.

Lemma appends_mono {A} (P Q : observation → Prop) (m : M A) : appends P m → (∀ o, P o → Q o) → appends Q m.
Proof.
  intros Hm Hpq w. destruct (Hm w) as (w' & l & r & E & Hl). exists w', l, r. split; [done|].
  by eapply Forall_impl.
Qed.
End segments.

(** Walks through a computation; what is left speaks of single questions. *)
Ltac appending :=
  repeat first
    [ apply appends_ret | apply appends_throws | apply appends_lifts | apply appends_ensure
    | apply appends_bind; [|intros ?] | apply appends_and_next; [|intros ?] | apply appends_finally
    | apply appends_run; intros ? | apply appends_get; intros ? | apply appends_call; intros ?
    | apply appends_sleep | apply appends_marker | apply appends_time
    | match goal with
      | |- appends _ (match ?x with _ => _ end) => destruct x
      | |- appends _ (if ?x then _ else _) => destruct x
      end ].

(** The switches of [Mode] ask nothing of the Control API. *)
Section modal.
Context {W : Type} `{NodeWorld W}.
Variables systemctl service_name base_url nvidia_smi : string.
Variable uuids : list string.
Variable poll_interval : Z.
Definition modal (o : observation) : Prop := match o with OCall _ _ _ _ | OWrite _ _ => False | _ => True end.
Abbreviation local m := (appends modal m).

Lemma appends_wait fuel predicate timeout description :
  local predicate → local (_wait (W := W) poll_interval fuel predicate timeout description).
Proof.
  intros Hp. unfold _wait. apply appends_bind; [apply appends_time|intros now].
  generalize ((λ t, now + t) <$> timeout); intros deadline.
  induction fuel as [|fuel IH]; cbn [wait_loop]; [apply appends_ret|].
  apply appends_bind; [done|intros b]. destruct b; [apply appends_ret|].
  apply appends_bind; [apply appends_time|intros t]. destruct (match deadline with Some _ => _ | None => _ end).
  - apply appends_throws.
  - apply appends_bind; [by apply appends_sleep|intros _; apply IH].
Qed.
Lemma appends_is_active : local (is_active (W := W) systemctl service_name).
Proof. unfold is_active, _run. by appending. Qed.
Lemma appends_snapshot : local (snapshot (W := W) base_url).
Proof. unfold snapshot. by appending. Qed.
Lemma appends_drained : local (drained (W := W) systemctl service_name base_url).
Proof.
  unfold drained. apply appends_bind; [apply appends_is_active|intros active]. destruct (negb active); [appending|].
  apply appends_bind; [apply appends_snapshot|intros; appending].
Qed.
Lemma appends_worker_ready : local (worker_ready (W := W) base_url).
Proof. apply appends_bind; [apply appends_snapshot|intros; appending]. Qed.
Lemma appends_stop : local (stop_if_active (W := W) systemctl service_name).
Proof.
  apply appends_bind; [apply appends_is_active|intros active]. destruct active; [|appending].
  unfold stop_service, _run. by appending.
Qed.
Lemma appends_processes : local (active_processes (W := W) nvidia_smi uuids).
Proof. unfold active_processes, _gpu_index_map. by appending. Qed.
Lemma appends_identity : local (require_exact_identity (W := W) nvidia_smi uuids).
Proof. unfold require_exact_identity. by appending. Qed.
Lemma appends_idle message : local (require_idle_gpus (W := W) nvidia_smi uuids message).
Proof.
  apply appends_bind; [apply appends_identity|intros _].
  apply appends_bind; [apply appends_processes|intros; appending].
Qed.
Lemma appends_report : local (_report (W := W) systemctl service_name base_url nvidia_smi uuids).
Proof.
  unfold _report. apply appends_bind; [apply appends_is_active|intros active].
  apply appends_bind; [destruct active; [apply appends_snapshot|appending]|intros d].
  apply appends_bind; [appending|intros job]. apply appends_bind; [apply appends_processes|intros; appending].
Qed.
Lemma appends_request_drain : local (request_drain (W := W) systemctl service_name).
Proof. unfold request_drain, _run. by appending. Qed.

Lemma appends_development fuel timeout :
  local (to_development (W := W) systemctl service_name base_url nvidia_smi uuids poll_interval fuel timeout).
Proof.
  unfold to_development. apply appends_bind; [apply appends_is_active|intros active].
  apply appends_bind.
  - destruct active; [|appending]. apply appends_bind; [apply appends_request_drain|intros _].
    apply appends_bind; [apply appends_wait, appends_drained|intros [?|]]; [|appending].
    apply appends_bind; [apply appends_stop|intros; appending].
  - intros [?|]; [|appending]. apply appends_bind; [apply appends_is_active|intros still].
    apply appends_bind; [appending|intros _]. apply appends_bind; [apply appends_idle|intros _].
    apply appends_bind; [apply appends_report|intros; appending].
Qed.
Lemma appends_online fuel start timeout :
  local (to_astrumweaver (W := W) systemctl service_name base_url nvidia_smi uuids poll_interval fuel start timeout).
Proof.
  unfold to_astrumweaver. apply appends_bind; [appending|intros _]. apply appends_bind.
  - unfold settle_active. apply appends_bind; [apply appends_is_active|intros active].
    destruct (negb active); [appending|]. apply appends_bind; [apply appends_snapshot|intros d].
    destruct (says_true "draining" d).
    + apply appends_bind; [apply appends_wait, appends_drained|intros [?|]]; [|appending].
      apply appends_bind; [apply appends_stop|intros; appending].
    + apply appends_bind; [apply appends_wait, appends_worker_ready|intros [?|]]; [|appending].
      apply appends_bind; [apply appends_report|intros; appending].
  - intros [[?|?]|]; [appending| |appending]. unfold start_worker.
    apply appends_bind; [apply appends_idle|intros _].
    apply appends_bind; [unfold start_service, _run; by appending|intros _].
    apply appends_bind; [apply appends_wait, appends_is_active|intros [?|]]; [|appending].
    apply appends_bind; [apply appends_wait, appends_worker_ready|intros [?|]]; [|appending].
    apply appends_bind; [apply appends_report|intros; appending].
Qed.
End modal.

(** ** Parts of a run, and their logs *)

(** The job that a submission created. *)
Definition created (o : observation) : list string :=
  match o with
  | OCall verb location _ (Some (status, Some (PDict d))) =>
      if bool_decide (verb = "POST") && bool_decide (location = "/v1/jobs") && (status <? 400) then
        match get "job_id" d with PStr (String _ _ as job_id) => [job_id] | _ => [] end
      else []
  | _ => []
  end.
(** The jobs that were submitted, the latest first. *)
Definition submitted (l : list observation) : list string := mjoin (created <$> l).
Lemma submitted_app l2 l1 : submitted (l2 ++ l1) = submitted l2 ++ submitted l1.
Proof. unfold submitted. by rewrite fmap_app, join_app. Qed.
Lemma submitted_modal l : Forall modal l → submitted l = [].
Proof.
  induction 1 as [|o l Ho _ IH]; [done|]. change (created o ++ submitted l = []). rewrite IH. by destruct o.
Qed.

Section runs.
Context {W : Type} `{NodeWorld W}.
Variables systemctl service_name base_url nvidia_smi : string.
Variable probe_gpu_uuids : list string.
Variable config : hardware_runner.
Abbreviation M := (eff (mstate (W := W))).
Abbreviation safe := (safe systemctl service_name base_url nvidia_smi probe_gpu_uuids).
Abbreviation safe_state := (safe_state (W := W) systemctl service_name base_url nvidia_smi probe_gpu_uuids).

Lemma allowed_app o l2 l1 :
  allowed systemctl service_name base_url nvidia_smi probe_gpu_uuids o l2 →
  allowed systemctl service_name base_url nvidia_smi probe_gpu_uuids o (l2 ++ l1).
Proof.
  destruct o as [args c| | | |]; cbn; try done. intros [Hstop Hstart]. split.
  - intros E. destruct (Hstop E) as (a & d & older & -> & Ha & Hd). by exists a, d, (older ++ l1).
  - intros E. destruct (Hstart E) as (older & o1 & c2 & c3 & m & -> & Hm). exists (older ++ l1), o1, c2, c3, m. done.
Qed.
Lemma safe_app l2 l1 : safe l2 → safe l1 → safe (l2 ++ l1).
Proof.
  induction l2 as [|o l2 IH]; [done|]. cbn. intros [Ho Hl] H1. split; [by apply allowed_app|by apply IH].
Qed.

(** At most [n] jobs were submitted, and the switches were safe. *)
Definition sound (jobs : list string) (l : list observation) : Prop := safe l ∧ submitted l = jobs.
Lemma sound_app jobs2 jobs1 l2 l1 : sound jobs2 l2 → sound jobs1 l1 → sound (jobs2 ++ jobs1) (l2 ++ l1).
Proof. intros [??] [??]. split; [by apply safe_app|]. rewrite submitted_app. congruence. Qed.

Definition seg {A} (m : M A) (Q : A → list observation → Prop) (E : list observation → Prop) : Prop :=
  appends (λ _, True) m ∧
  ∀ w, match m (w, []) with ((_, l), Ok a) => Q a l | ((_, l), Err _) => E l end.

Lemma seg_conseq {A} (m : M A) Q Q' (E E' : list observation → Prop) :
  seg m Q E → (∀ a l, Q a l → Q' a l) → (∀ l, E l → E' l) → seg m Q' E'.
Proof.
  intros [Hf Hm] HQ HE. split; [done|]. intros w. specialize (Hm w).
  destruct (m (w, [])) as [[w' l] [a|e]]; auto.
Qed.
Lemma seg_ret {A} (a : A) (Q : A → list observation → Prop) E : Q a [] → seg (mret a) Q E.
Proof. intros Ha. split; [apply appends_ret|done]. Qed.
Lemma seg_throws {A} e (Q : A → list observation → Prop) (E : list observation → Prop) : E [] → seg (throws e) Q E.
Proof. intros He. split; [apply appends_throws|done]. Qed.
Lemma seg_bind {A B} (m : M A) (k : A → M B) Q (E : list observation → Prop) R F Q' (E' : list observation → Prop) :
  seg m Q E → (∀ a, seg (k a) (R a) (F a)) → (∀ l, E l → E' l) →
  (∀ a b l1 l2, Q a l1 → R a b l2 → Q' b (l2 ++ l1)) → (∀ a l1 l2, Q a l1 → F a l2 → E' (l2 ++ l1)) →
  seg (m ≫= k) Q' E'.
Proof.
  intros [Hf Hm] Hk HE HR HF. split; [apply appends_bind; [done|apply Hk]|].
  intros w. specialize (Hm w). unfold mbind, eff_bind. destruct (m (w, [])) as [[w1 l1] [a|e]]; [|by apply HE].
  destruct (Hk a) as [Kf Km]. specialize (Km w1). destruct (Kf w1) as (w2 & l2 & r & E2 & _).
  rewrite (E2 l1). rewrite (E2 []), app_nil_r in Km.
  destruct r as [b|e]; [by eapply HR|by eapply HF].
Qed.
(** A check, and what goes on. *)
Lemma seg_guard {A} b e (k : M A) Q (E : list observation → Prop) :
  E [] → (b = true → seg k Q E) → seg (ensure b e;; k) Q E.
Proof. intros He Hk. destruct b; [apply Hk; reflexivity|apply (seg_throws e Q E He)]. Qed.
Lemma seg_lifts {A} (r : result A) (Q : A → list observation → Prop) (E : list observation → Prop) :
  (∀ a, r = Ok a → Q a []) → E [] → seg (lifts r) Q E.
Proof. intros Ha He. split; [apply appends_lifts|]. intros w. cbn. destruct r; auto. Qed.

(** What [Mode] shows of its computations. *)
Lemma seg_modal {A} (m : M A) Q : appends modal m →
  triple safe_state m (λ a s, safe_state s ∧ Q a s.2) (λ _, safe_state) →
  seg m (λ a l, sound [] l ∧ Q a l) (sound []).
Proof.
  intros Ha Ht. split; [by eapply appends_mono|]. intros w. specialize (Ht (w, []) I).
  destruct (Ha w) as (w' & l & r & E & Hl). rewrite (E []), app_nil_r in Ht |- *. apply submitted_modal in Hl.
  destruct r as [a|e]; cbn in Ht; [|by split]. by destruct Ht.
Qed.

(** *** The Control API *)

(** The Control API said that the job is in that state. *)
Definition says (job_id status : string) (o : observation) : Prop := ∃ code d,
  o = OCall "GET" ("/v1/jobs/" +:+ job_id) PNone (Some (code, Some (PDict d))) ∧ code < 400 ∧
  get "status" d = PStr status.
(** The cancellation of the job was asked for, whatever the answer. *)
Definition cancel_asked (job_id : string) (o : observation) : Prop := ∃ answer,
  o = OCall "POST" ("/v1/jobs/" +:+ job_id +:+ "/cancel") PNone answer.
(** And the Control API accepted it. *)
Definition cancelled (job_id : string) (o : observation) : Prop := ∃ code json,
  o = OCall "POST" ("/v1/jobs/" +:+ job_id +:+ "/cancel") PNone (Some (code, json)) ∧ code < 400.
Lemma cancelled_asked job_id o : cancelled job_id o → cancel_asked job_id o.
Proof. intros (code & json & -> & _). by eexists. Qed.

Lemma safe_call v u b o : safe [OCall v u b o].
Proof. by split. Qed.
Lemma node_request_seg v u b :
  seg (node_request v u b) (λ json l, ∃ code, l = [OCall v u b (Some (code, json))] ∧ code < 400)
    (λ l, ∃ o, l = [OCall v u b o] ∧ match o with Some (code, _) => 400 ≤ code | None => True end).
Proof.
  split; [unfold node_request; by appending|]. intros w. unfold node_request, call, mbind, eff_bind. cbn.
  destruct (nw_call v u b w) as [w' [[code json]|]]; cbn; [|by eexists].
  destruct (Z.leb_spec 400 code); cbn; by eexists.
Qed.

Lemma sound_call v u b o : sound (created (OCall v u b o)) [OCall v u b o].
Proof. split; [done|]. unfold submitted. cbn -[created]. by rewrite app_nil_r. Qed.

Lemma submit_seg delay : seg (submit config delay) (λ job_id, sound [job_id]) (sound []).
Proof.
  split; [unfold submit, submit_pinned_job, node_request; appending; done|]. intros w.
  unfold submit, marker, submit_pinned_job, node_request, call, mbind, eff_bind. cbn.
  destruct (nw_marker w) as [w1 mark]. cbn. set (body := pinned_job _ _ _ _).
  destruct (nw_call "POST" "/v1/jobs" body w1) as [w2 [[code json]|]]; cbn; [|apply (sound_call _ _ body)].
  pose proof (sound_call "POST" "/v1/jobs" body (Some (code, json))) as Hs. revert Hs. cbn.
  destruct (Z.leb_spec 400 code); cbn; rewrite ?(proj2 (Z.ltb_lt code 400)), ?(proj2 (Z.ltb_ge code 400)) by lia.
  - rewrite andb_false_r. by destruct json as [[]|].
  - rewrite !bool_decide_eq_true_2 by done. destruct json as [[| | | | | |d]|]; cbn; try done.
    by destruct (get "job_id" d) as [| | | |[]| |].
Qed.

Lemma job_status_seg job_id :
  seg (job_status job_id) (λ status l, ∃ o, l = [o] ∧ says job_id status o ∧ sound [] l) (sound []).
Proof.
  split; [unfold job_status, node_request; appending; done|]. intros w.
  unfold job_status, node_request, call, mbind, eff_bind. cbn.
  set (u := "/v1/jobs/" +:+ job_id). destruct (nw_call "GET" u PNone w) as [w1 [[code json]|]]; cbn;
    [|apply (sound_call "GET")].
  assert (sound [] [OCall "GET" u PNone (Some (code, json))]) as Hs.
  { pose proof (sound_call "GET" u PNone (Some (code, json))) as Hs. cbn in Hs. by destruct json as [[]|]. }
  destruct (Z.leb_spec 400 code); cbn; [done|]. destruct json as [[| | | | | |d]|]; cbn; try done.
  destruct (get "status" d) eqn:E; try done. eexists. split; [done|]. split; [|done]. by exists code, d.
Qed.
Lemma cancel_seg job_id : seg (cancel_job job_id) (λ _ l, ∃ o, l = [o] ∧ cancelled job_id o ∧ sound [] l)
  (λ l, ∃ o, l = [o] ∧ cancel_asked job_id o ∧ sound [] l).
Proof.
  split; [unfold cancel_job, node_request; appending; done|]. intros w.
  unfold cancel_job, node_request, call, mbind, eff_bind. cbn.
  set (u := "/v1/jobs/" +:+ job_id +:+ "/cancel").
  assert (∀ o, sound [] [OCall "POST" u PNone o]) as Hs.
  { intros o. pose proof (sound_call "POST" u PNone o) as Hs. cbn in Hs. rewrite (bool_decide_eq_false_2 (u = "/v1/jobs")) in Hs by discriminate.
    rewrite andb_false_r in Hs. by destruct o as [[code [[]|]]|]. }
  destruct (nw_call "POST" u PNone w) as [w1 [[code json]|]]; cbn;
    [destruct (Z.leb_spec 400 code); cbn|]; (eexists; split; [done|]; split; [|done]);
    first [by exists code, json | by eexists].
Qed.

(** *** Waiting *)

(** What holds of the last part of a log. *)
Definition lately (Q : list observation → Prop) (l : list observation) : Prop := ∃ l2 l1, l = l2 ++ l1 ∧ Q l2.
Lemma lately_app Q l2 l1 : lately Q l2 → lately Q (l2 ++ l1).
Proof. intros (a & b & -> & Ha). exists a, (b ++ l1). by rewrite app_assoc. Qed.

Lemma until_seg {A} fuel (check : M (option A)) (Q : A → list observation → Prop) timeout message :
  seg check (λ r l, sound [] l ∧ ∀ a, r = Some a → Q a l) (sound []) →
  seg (until config fuel check timeout message)
    (λ r l, sound [] l ∧ ∀ a, r = Some a → lately (Q a) l) (sound []).
Proof.
  intros Hc. assert (sound [] []) as H00 by done.
  assert (∀ l2 l1, sound [] l1 → sound [] l2 → sound [] (l2 ++ l1)) as Happ.
  { intros l2 l1 ? ?. by apply (sound_app [] []). }
  unfold until. eapply (seg_bind _ _ (λ _ l, l = []) (λ l, l = [])
    (λ _ r l, sound [] l ∧ ∀ a, r = Some a → lately (Q a) l) (λ _, sound []));
    [split; [apply appends_time|done]| |by intros l ->|by intros ? ? ? ? ->; rewrite app_nil_r|by intros ? ? ? ->; rewrite app_nil_r].
  intros now. generalize (now + timeout); intros deadline.
  induction fuel as [|fuel IH]; cbn [until_loop]; [by apply seg_ret|].
  eapply (seg_bind _ _ _ _ (λ x r l, (sound [] l ∧ ∀ a, r = Some a → (x = Some a ∧ l = []) ∨ lately (Q a) l)) (λ _, sound []));
    [exact Hc| |done| |by intros ? ? ? [? _] ?; apply Happ].
  - intros [x|].
    { apply seg_ret. split; [done|]. intros a [= ->]. by left. }
    eapply (seg_bind _ _ (λ _ l, l = []) (λ l, l = []) (λ _ r l, sound [] l ∧ ∀ a, r = Some a → lately (Q a) l) (λ _, sound []));
      [split; [apply appends_time|done]| |by intros l ->| |by intros ? ? ? ->; rewrite app_nil_r].
    + intros t. apply seg_guard; [done|intros _].
      eapply (seg_bind _ _ (λ _, sound []) (sound []) (λ _ r l, sound [] l ∧ ∀ a, r = Some a → lately (Q a) l) (λ _, sound []));
        [split; [by apply appends_sleep|done]|intros _; apply IH|done| |by intros ? ? ? ? ?; apply Happ].
      intros _ r l1 l2 Hs [Hs' Hr]. split; [by apply Happ|]. intros a Ha. by apply lately_app, Hr.
    + intros _ r l1 l2 -> [Hs Hr]. rewrite app_nil_r. split; [done|]. intros a Ha. right. by apply Hr.
  - intros x r l1 l2 [Hs1 Hx] [Hs2 Hr]. split; [by apply Happ|]. intros a Ha.
    destruct (Hr a Ha) as [[-> ->] | Hl]; [|by apply lately_app]. exists l1, []. rewrite app_nil_r. split; [done|]. by apply Hx.
Qed.

Lemma seg_and_next {A B} (m : M (option A)) (k : A → M (option B)) Q (E : list observation → Prop) R F
    Q' (E' : list observation → Prop) :
  seg m Q E → (∀ a, seg (k a) (R a) (F a)) → (∀ l, E l → E' l) → (∀ l, Q None l → Q' None l) →
  (∀ a b l1 l2, Q (Some a) l1 → R a b l2 → Q' b (l2 ++ l1)) →
  (∀ a l1 l2, Q (Some a) l1 → F a l2 → E' (l2 ++ l1)) → seg (and_next m k) Q' E'.
Proof.
  intros Hm Hk HE HN HR HF. unfold and_next.
  apply (seg_bind _ _ Q E (λ o b l, match o with Some a => R a b l | None => b = None ∧ l = [] end)
           (λ o l, match o with Some a => F a l | None => False end)); [done| |done| |].
  - intros [a|]; [apply Hk|by apply seg_ret].
  - intros [a|] b l1 l2 HQ HRb; [by eapply HR|]. destruct HRb as [-> ->]. by apply HN.
  - intros [a|] l1 l2 HQ HFa; [by eapply HF|done].
Qed.

(** A part that ended, or one that ran out of turns. *)
Definition ended {A} (Q : A → list observation → Prop) (r : option A) (l : list observation) : Prop :=
  match r with Some a => Q a l | None => safe l end.

Definition saw_flag (key : string) (o : observation) : Prop := ∃ a,
  o = OGet (base_url +:+ "/health") a ∧ says_true key (ok_object a) = true.
Lemma check_snapshot_seg key :
  seg (check_snapshot base_url key) (λ r l, sound [] l ∧ ∀ a : unit, r = Some a → ∃ o, l = [o] ∧ saw_flag key o) (sound []).
Proof.
  split; [unfold check_snapshot, snapshot; by appending|]. intros w.
  unfold check_snapshot, snapshot, http_get, mbind, eff_bind. cbn.
  destruct (mw_get (base_url +:+ "/health") w) as [w' a]. cbn. split; [done|].
  intros []. destruct (says_true key (ok_object a)) eqn:E; [|done]. intros _. eexists. split; [done|]. by exists a.
Qed.
Lemma lately_saw p l : lately (λ l2, ∃ o, l2 = [o] ∧ p o) l → ends_with p l.
Proof. intros (l2 & l1 & -> & o & -> & Ho). by exists o, l1. Qed.
Lemma flag_seg fuel key timeout message :
  seg (until config fuel (check_snapshot base_url key) timeout message)
    (ended (λ _ l, sound [] l ∧ ends_with (saw_flag key) l)) (sound []).
Proof.
  eapply seg_conseq; [apply until_seg, check_snapshot_seg| |done].
  intros [[]|] l [Hs Hr]; [|apply Hs]. split; [done|]. by apply lately_saw, (Hr tt).
Qed.

(** A job that was submitted and succeeded. *)
Definition round_trip (l : list observation) : Prop := ∃ job_id,
  sound [job_id] l ∧ List.Exists (says job_id "succeeded") l.
(** At most one job. *)
Definition one_job (l : list observation) : Prop := ∃ jobs, (length jobs ≤ 1)%nat ∧ sound jobs l.
Lemma one_job_none l : sound [] l → one_job l.
Proof. intros Hl. exists []. split; [cbn; lia|done]. Qed.
Lemma one_job_some j l : sound [j] l → one_job l.
Proof. intros Hl. exists [j]. split; [cbn; lia|done]. Qed.

Lemma terminal_seg fuel job_id :
  seg (_wait_job_terminal config fuel job_id)
    (ended (λ status l, sound [] l ∧ List.Exists (says job_id status) l)) (sound []).
Proof.
  eapply seg_conseq; [apply (until_seg _ _ (λ status l, List.Exists (says job_id status) l))| |done].
  - eapply (seg_bind _ _ _ _ (λ status r l, l = [] ∧ ∀ a, r = Some a → a = status) (λ _, sound []));
      [apply job_status_seg| |done| |].
    + intros status. apply seg_ret. split; [done|]. by destruct (terminal_status status); intros a [= <-].
    + intros status r l1 l2 (o & -> & Ho & Hs) [-> Hr]. split; [done|]. intros a Ha. left. by rewrite (Hr a Ha).
    + intros status l1 l2 (o & -> & Ho & Hs) H2. by apply (sound_app [] []).
  - intros [status|] l [Hs Hr]; [|apply Hs]. split; [done|].
    destruct (Hr status eq_refl) as (l2 & l1 & -> & Hl). apply Exists_app. by left.
Qed.

Lemma round_trip_seg fuel : seg (_submit_round_trip config fuel) (ended (λ _, round_trip)) one_job.
Proof.
  unfold _submit_round_trip.
  eapply (seg_bind _ _ _ _ (λ job_id, ended (λ _ l, sound [] l ∧ List.Exists (says job_id "succeeded") l))
            (λ _, sound [])); [apply submit_seg| |apply one_job_none| |].
  - intros job_id. eapply (seg_and_next _ _ _ _ (λ status r l, r = Some tt ∧ status = "succeeded" ∧ l = []) (λ _ l, l = []));
      [apply terminal_seg| |done|done| |].
    + intros status. apply seg_guard; [done|]. intros E%bool_decide_eq_true. by apply seg_ret.
    + by intros status r l1 l2 [Hs He] (-> & -> & ->).
    + by intros status l1 l2 [Hs He] ->.
  - intros job_id [[]|] l1 l2 H1 H2; cbn in *.
    + exists job_id. destruct H2 as [H2 He]. split; [by apply (sound_app [])|]. apply Exists_app. by left.
    + apply safe_app; [done|apply H1].
  - intros job_id l1 l2 H1 H2. apply (one_job_some job_id). by apply (sound_app []).
Qed.

(** *** The parts *)

Abbreviation reported := (reported systemctl service_name base_url nvidia_smi probe_gpu_uuids).
Abbreviation online := (online systemctl service_name base_url nvidia_smi probe_gpu_uuids config).
Abbreviation identity_args := [nvidia_smi; "--query-gpu=uuid"; "--format=csv,noheader"].
Abbreviation drain_args := [systemctl; "kill"; "--kill-whom=main"; "--signal=SIGUSR1"; service_name].

Lemma online_seg fuel :
  seg (online fuel) (ended (λ _ l, sound [] l ∧ reported RequestAstrumweaver l)) (sound []).
Proof.
  eapply seg_conseq; [apply (seg_modal _ (λ r l, r ≠ None → reported RequestAstrumweaver l));
    [apply appends_online|apply to_astrumweaver_triple]| |done].
  intros [report|] l [Hs Hr]; [|apply Hs]. split; [done|]. by apply Hr.
Qed.
Lemma development_seg fuel :
  seg (development systemctl service_name base_url nvidia_smi probe_gpu_uuids config fuel)
    (ended (λ _ l, sound [] l ∧ reported RequestDevelopment l)) (sound []).
Proof.
  eapply seg_conseq; [apply (seg_modal _ (λ r l, r ≠ None → reported RequestDevelopment l));
    [apply appends_development|apply to_development_triple]| |done].
  intros [report|] l [Hs Hr]; [|apply Hs]. split; [done|]. by apply Hr.
Qed.

Definition enrolled (l : list observation) : Prop := ∃ rt ready on o,
  l = rt ++ ready ++ on ++ [ORun identity_args o] ∧ require_exact_gpu_set probe_gpu_uuids o = Ok tt ∧
  sound [] on ∧ reported RequestAstrumweaver on ∧ sound [] ready ∧ ends_with (saw_flag "ready") ready ∧
  round_trip rt.
Definition drained_under_load (anchor : string) (l : list observation) : Prop := ∃ after c before,
  l = after ++ ORun drain_args (Some c) :: before ∧ returncode c = 0 ∧
  sound [anchor] before ∧ List.Exists (says anchor "running") before ∧
  sound [] after ∧ ends_with (saw_flag "draining") after.
(** The job is seen queued, and after that the other one seen to succeed. *)
Definition kept_queued (probe anchor : string) (l : list observation) : Prop := ∃ later o earlier,
  l = later ++ o :: earlier ∧ says probe "queued" o ∧ List.Exists (says anchor "succeeded") later.
(** The probe is submitted, kept queued, and at last cancelled. *)
Definition nothing_claimed (anchor : string) (l : list observation) : Prop := ∃ probe o l' sub,
  l = o :: l' ++ sub ∧ cancelled probe o ∧ sound [] (o :: l') ∧ kept_queued probe anchor l' ∧
  sound [probe] sub.
Lemma nothing_claimed_sound anchor l : nothing_claimed anchor l →
  ∃ probe o l', l = o :: l' ∧ sound [probe] l ∧ cancel_asked probe o.
Proof.
  intros (probe & o & l' & sub & -> & Ho & Hs & _ & Hsub). exists probe, o, (l' ++ sub). split; [done|].
  split; [|by apply cancelled_asked]. by apply (sound_app [] [probe] (o :: l') sub).
Qed.
Definition released (l : list observation) : Prop := sound [] l ∧ reported RequestDevelopment l.
Definition back_online (l : list observation) : Prop := ∃ rt on,
  l = rt ++ on ∧ sound [] on ∧ reported RequestAstrumweaver on ∧ round_trip rt.

Lemma identity_seg : seg (require_exact_identity (W := W) nvidia_smi probe_gpu_uuids)
  (λ _ l, ∃ o, l = [ORun identity_args o] ∧ require_exact_gpu_set probe_gpu_uuids o = Ok tt ∧ sound [] l) (sound []).
Proof.
  split; [eapply appends_mono; [apply appends_identity|done]|]. intros w.
  assert (∀ o, sound [] [ORun identity_args o]) as Hs by (intros o; split; [split; [split|done]|done]; discriminate).
  unfold require_exact_identity, run, mbind, eff_bind. cbn. destruct (mw_run identity_args w) as [w' o]. cbn.
  destruct (require_exact_gpu_set probe_gpu_uuids o) as [[]|e] eqn:E; [|apply Hs]. by exists o.
Qed.

Lemma enrol_seg fuel :
  seg (enrol systemctl service_name base_url nvidia_smi probe_gpu_uuids config fuel) (ended (λ _, enrolled)) one_job.
Proof.
  unfold enrol. eapply (seg_bind _ _ _ _ (λ _, ended (λ _ l, ∃ rt ready on, l = rt ++ ready ++ on ∧
      sound [] on ∧ reported RequestAstrumweaver on ∧ sound [] ready ∧ ends_with (saw_flag "ready") ready ∧
      round_trip rt)) (λ _, one_job)); [apply identity_seg| |apply one_job_none| |].
  - intros _. eapply (seg_and_next _ _ _ _ (λ _, ended (λ _ l, ∃ rt ready, l = rt ++ ready ∧
      sound [] ready ∧ ends_with (saw_flag "ready") ready ∧ round_trip rt)) (λ _, one_job));
      [apply online_seg| |apply one_job_none|done| |].
    + intros report. apply seg_guard; [by apply one_job_none|intros _].
      eapply (seg_and_next _ _ _ _ (λ _, ended (λ _, round_trip)) (λ _, one_job));
        [apply flag_seg|intros []; apply round_trip_seg|apply one_job_none|done| |].
      * intros [] [[]|] l1 l2 [Hs Hr] H2; [by exists l2, l1|]. apply safe_app; [done|apply Hs].
      * intros [] l1 l2 [Hs Hr] (jobs & Hj & H2). exists jobs. split; [done|].
        rewrite <-(app_nil_r jobs). by apply sound_app.
    + intros report [[]|] l1 l2 [Hs Hr] H2; cbn in *.
      * destruct H2 as (rt & ready & -> & ?). exists rt, ready, l1. by rewrite <-app_assoc.
      * apply safe_app; [done|apply Hs].
    + intros report l1 l2 [Hs Hr] (jobs & Hj & H2). exists jobs. split; [done|].
      rewrite <-(app_nil_r jobs). by apply sound_app.
  - intros _ [[]|] l1 l2 (o & -> & Ho & Hs) H2; cbn in *.
    + destruct H2 as (rt & ready & on & -> & ?). exists rt, ready, on, o. rewrite <-!app_assoc. split; [done|]. split; [done|]. done.
    + apply safe_app; [done|apply Hs].
  - intros _ l1 l2 (o & -> & Ho & Hs) (jobs & Hj & H2). exists jobs. split; [done|].
    rewrite <-(app_nil_r jobs). by apply sound_app.
Qed.

Lemma running_seg fuel job_id :
  seg (_wait_job_running config fuel job_id)
    (ended (λ _ l, sound [] l ∧ List.Exists (says job_id "running") l)) (sound []).
Proof.
  eapply seg_conseq; [apply (until_seg _ _ (λ _ l, List.Exists (says job_id "running") l))| |done].
  - eapply (seg_bind _ _ _ _ (λ status r l, l = [] ∧ (is_Some r → status = "running")) (λ _ l, l = []));
      [apply job_status_seg| |done| |].
    + intros status. destruct (bool_decide (status = "running")) eqn:E.
      * apply bool_decide_eq_true in E. by apply seg_ret.
      * apply seg_guard; [done|intros _]. apply seg_ret. split; [done|]. by intros [].
    + intros status r l1 l2 (o & -> & Ho & Hs) [-> Hr]. split; [done|]. intros a ->. left. by rewrite <-Hr.
    + by intros status l1 l2 (o & -> & Ho & Hs) ->.
  - intros [[]|] l [Hs Hr]; [|apply Hs]. split; [done|].
    destruct (Hr tt eq_refl) as (l2 & l1 & -> & Hl). apply Exists_app. by left.
Qed.
Lemma request_drain_seg : seg (request_drain (W := W) systemctl service_name)
  (λ _ l, ∃ c, l = [ORun drain_args (Some c)] ∧ returncode c = 0 ∧ sound [] l) (sound []).
Proof.
  split; [eapply appends_mono; [apply appends_request_drain|done]|]. intros w.
  assert (∀ o, sound [] [ORun drain_args o]) as Hs by (intros o; split; [split; [split|done]|done]; discriminate).
  unfold request_drain, _run, run, mbind, eff_bind. cbn. destruct (mw_run drain_args w) as [w' [c|]]; cbn; [|apply Hs].
  destruct (Z.eqb_spec (returncode c) 0); cbn; [by exists c|apply Hs].
Qed.

Lemma drain_seg fuel :
  seg (drain_under_load systemctl service_name base_url config fuel)
    (ended (λ anchor l, sound [anchor] l ∧ drained_under_load anchor l)) one_job.
Proof.
  unfold Hardware.drain_under_load.
  eapply (seg_bind _ _ _ _ (λ anchor, ended (λ a l, a = anchor ∧ ∃ after c before, l = after ++ ORun drain_args (Some c) :: before ∧
      returncode c = 0 ∧ sound [] before ∧ List.Exists (says anchor "running") before ∧
      sound [] (after ++ [ORun drain_args (Some c)]) ∧ sound [] after ∧ ends_with (saw_flag "draining") after)) (λ _, sound []));
    [apply submit_seg| |apply one_job_none| |].
  - intros anchor. eapply (seg_and_next _ _ _ _ (λ _, ended (λ a l, a = anchor ∧ ∃ after c, l = after ++ [ORun drain_args (Some c)] ∧
      returncode c = 0 ∧ sound [] l ∧ sound [] after ∧ ends_with (saw_flag "draining") after)) (λ _, sound []));
      [apply running_seg| |done|done| |].
    + intros []. eapply (seg_bind _ _ _ _ (λ _, ended (λ a l, a = anchor ∧ sound [] l ∧ ends_with (saw_flag "draining") l)) (λ _, sound []));
        [apply request_drain_seg| |done| |].
      * intros _. eapply (seg_and_next _ _ _ _ (λ _ r l, r = Some anchor ∧ l = []) (λ _ _, False));
          [apply flag_seg|intros []; by apply seg_ret|done|done| |done].
        by intros [] r l1 l2 [Hs Hr] [-> ->].
      * intros [] [a|] l1 l2 (c & -> & Hc & Hs) H2; cbn in *; [|apply safe_app; [done|apply Hs]].
        destruct H2 as (-> & H2 & He). split; [done|]. exists l2, c. split; [done|]. split; [done|].
        split; [by apply (sound_app [] [])|done].
      * intros [] l1 l2 (c & -> & Hc & Hs) H2. by apply (sound_app [] []).
    + intros [] [a|] l1 l2 [Hs Hr] H2; cbn in *; [|apply safe_app; [done|apply Hs]].
      destruct H2 as (-> & after & c & -> & Hc & H2 & Ha & He). split; [done|].
      exists after, c, l1. rewrite <-app_assoc. done.
    + intros [] l1 l2 [Hs Hr] H2. by apply (sound_app [] []).
  - intros anchor [a|] l1 l2 H1 H2; cbn in *; [|apply safe_app; [done|apply H1]].
    destruct H2 as (-> & after & c & before & -> & Hc & Hb & He & Hk & Ha & Hd). split.
    + rewrite <-app_assoc. change (ORun drain_args (Some c) :: before) with ([ORun drain_args (Some c)] ++ before).
      rewrite <-app_assoc, app_assoc. apply (sound_app [] [anchor]); [done|]. by apply (sound_app [] [anchor]).
    + exists after, c, (before ++ l1). rewrite <-app_assoc. split; [done|]. split; [done|].
      split; [by apply (sound_app [] [anchor])|]. split; [apply Exists_app; by left|done].
  - intros anchor l1 l2 H1 H2. apply (one_job_some anchor). by apply (sound_app []).
Qed.

(** The cancellation of a probe that was submitted was asked for. *)
Definition probe_gone (l : list observation) : Prop :=
  sound [] l ∨ ∃ probe o l', l = o :: l' ∧ sound [probe] l ∧ cancel_asked probe o.

Lemma seg_finally {A} (m : M (option A)) c Q (E : list observation → Prop) R F Q' (E' : list observation → Prop) :
  seg m Q E → seg c R F → (∀ l, Q None l → Q' None l) →
  (∀ a l1 l2, Q (Some a) l1 → R tt l2 → Q' (Some a) (l2 ++ l1)) →
  (∀ l1 l2, E l1 → R tt l2 → E' (l2 ++ l1)) →
  (∀ r l1 l2, match r with Some a => Q (Some a) l1 | None => E l1 end → F l2 → E' (l2 ++ l1)) →
  seg (finally_ended m c) Q' E'.
Proof.
  intros [Hf Hm] [Kf Kc] HN HQ HE HF. split; [by apply appends_finally|]. intros w. specialize (Hm w).
  unfold finally_ended. destruct (m (w, [])) as [[w1 l1] [[a|]|e]]; [|by apply HN|].
  all: specialize (Kc w1); destruct (Kf w1) as (w2 & l2 & r & E2 & _);
    rewrite (E2 l1); rewrite (E2 []), app_nil_r in Kc; destruct r as [[]|e'].
  - by apply HQ.
  - by apply (HF (Some a)).
  - by apply HE.
  - by apply (HF None).
Qed.

Lemma kept_queued_seg fuel probe anchor :
  seg (status ← job_status probe;
       ensure (bool_decide (status = "queued"))
         (RuntimeError "a new pinned job was claimed while Worker was draining");;
       and_next (_wait_job_terminal config fuel anchor) (λ anchor_status,
         ensure (bool_decide (anchor_status = "succeeded"))
           (RuntimeError ("active drain-anchor job terminal state was " +:+ anchor_status));;
         mret (Some tt)))
    (ended (λ _ l, sound [] l ∧ kept_queued probe anchor l)) (sound []).
Proof.
  eapply (seg_bind _ _ _ _ (λ status, ended (λ _ l, status = "queued" ∧ sound [] l ∧
    List.Exists (says anchor "succeeded") l)) (λ _, sound [])); [apply job_status_seg| |done| |].
  - intros status. apply seg_guard; [done|]. intros Eq%bool_decide_eq_true.
    eapply (seg_and_next _ _ _ _ (λ a r l, r = Some tt ∧ a = "succeeded" ∧ l = []) (λ _ l, l = []));
      [apply terminal_seg| |done|done| |].
    + intros a. apply seg_guard; [done|]. intros E%bool_decide_eq_true. by apply seg_ret.
    + by intros a r l1 l2 [Hs He] (-> & -> & ->).
    + by intros a l1 l2 [Hs He] ->.
  - intros status [[]|] l1 l2 (o & -> & Ho & Hs) H2; cbn in *; [|apply safe_app; [done|apply Hs]].
    destruct H2 as (-> & H2 & He). split; [by apply (sound_app [] [])|]. by exists l2, o, [].
  - intros status l1 l2 (o & -> & Ho & Hs) H2. by apply (sound_app [] []).
Qed.

Lemma kept_queued_app probe anchor l2 l1 : kept_queued probe anchor l2 → kept_queued probe anchor (l2 ++ l1).
Proof.
  intros (later & o & earlier & -> & Ho & He). exists later, o, (earlier ++ l1). by rewrite <-app_assoc.
Qed.

Lemma no_new_claim_seg fuel anchor :
  seg (no_new_claim config fuel anchor) (ended (λ _, nothing_claimed anchor)) probe_gone.
Proof.
  unfold no_new_claim.
  eapply (seg_bind _ _ _ _ (λ probe, ended (λ _ l, ∃ o l', l = o :: l' ∧ sound [] l ∧ cancelled probe o ∧
      kept_queued probe anchor l'))
      (λ probe l, ∃ o l', l = o :: l' ∧ sound [] l ∧ cancel_asked probe o));
    [apply submit_seg| |by left| |].
  - intros probe. eapply (seg_finally _ _ (ended (λ _ l, sound [] l ∧ kept_queued probe anchor l)) (sound []));
      [|apply cancel_seg|done| | |].
    + eapply (seg_bind _ _ (λ _, sound []) (sound []) (λ _, ended (λ _ l, sound [] l ∧ kept_queued probe anchor l))
        (λ _, sound [])); [split; [by apply appends_sleep|done]|intros _; apply kept_queued_seg|done| |].
      * intros a [[]|] l1 l2 Hs H2; cbn in *; [|apply safe_app; [done|apply Hs]].
        destruct H2 as (H2 & Hk). split; [by apply (sound_app [] [])|by apply kept_queued_app].
      * intros a l1 l2 Hs H2. by apply (sound_app [] []).
    + intros [] l1 l2 (Hs & Hk) (o & -> & Ho & H2). cbn. exists o, l1. split; [done|].
      split; [by apply (sound_app [] [] [o] l1)|done].
    + intros l1 l2 Hs (o & -> & Ho & H2). exists o, l1. split; [done|].
      split; [by apply (sound_app [] [] [o] l1)|by apply cancelled_asked].
    + intros r l1 l2 Hr (o & -> & Ho & H2). exists o, l1. split; [done|]. split; [|done].
      apply (sound_app [] [] [o] l1); [done|]. destruct r; [apply Hr|done].
  - intros probe [[]|] l1 l2 H1 H2; cbn in *; [|apply safe_app; [done|apply H1]].
    destruct H2 as (o & l' & -> & H2 & Ho & Hk). by exists probe, o, l', l1.
  - intros probe l1 l2 H1 (o & l' & -> & H2 & Ho). right. exists probe, o, (l' ++ l1). split; [done|].
    split; [by apply (sound_app [] [probe] (o :: l') l1)|done].
Qed.

Lemma release_seg fuel :
  seg (release systemctl service_name base_url nvidia_smi probe_gpu_uuids config fuel)
    (ended (λ _, released)) (sound []).
Proof.
  eapply (seg_and_next _ _ _ _ (λ _ r l, r = Some tt ∧ l = []) (λ _ l, l = []));
    [apply development_seg| |done|done| |].
  - intros report. apply seg_guard; [done|intros _]. apply seg_guard; [done|intros _].
    apply seg_guard; [done|intros _]. by apply seg_ret.
  - by intros report r l1 l2 Hr [-> ->].
  - by intros report l1 l2 [Hs _] ->.
Qed.
Lemma return_seg fuel :
  seg (return_online systemctl service_name base_url nvidia_smi probe_gpu_uuids config fuel)
    (ended (λ _, back_online)) one_job.
Proof.
  eapply (seg_and_next _ _ _ _ (λ _, ended (λ _, round_trip)) (λ _, one_job));
    [apply online_seg| |apply one_job_none|done| |].
  - intros report. apply seg_guard; [by apply one_job_none|intros _]. apply round_trip_seg.
  - intros report [[]|] l1 l2 [Hs Hr] H2; cbn in *; [by exists l2, l1|]. apply safe_app; [done|apply Hs].
  - intros report l1 l2 [Hs Hr] (jobs & Hj & H2). exists jobs. split; [done|].
    rewrite <-(app_nil_r jobs). by apply sound_app.
Qed.

(** The cancellation of job number [n], when there is one, was asked for. *)
Definition cancels (n : nat) (l : list observation) : Prop := safe l ∧
  ∀ probe, reverse (submitted l) !! n = Some probe → List.Exists (cancel_asked probe) l.

Lemma cancels_few n l : (∃ jobs, (length jobs ≤ n)%nat ∧ sound jobs l) → cancels n l.
Proof.
  intros (jobs & Hn & Hs & Hj). split; [done|]. intros probe Hp. exfalso. rewrite Hj in Hp.
  apply lookup_lt_Some in Hp. rewrite length_reverse in Hp. lia.
Qed.
Lemma cancels_after n j l2 l1 : cancels n l2 → sound [j] l1 → cancels (S n) (l2 ++ l1).
Proof.
  intros [Hs Hc] [Hs1 Hj]. split; [by apply safe_app|]. intros probe. rewrite submitted_app, Hj, reverse_app.
  cbn. intros Hp. apply Exists_app. left. by apply Hc.
Qed.
Lemma cancels_probe probe o l' l2 : safe l2 → sound [probe] (o :: l') → cancel_asked probe o →
  cancels 0 (l2 ++ o :: l').
Proof.
  intros H2 [Hs Hj] Ho. split; [by apply safe_app|]. intros q. rewrite submitted_app, Hj, reverse_app. cbn.
  intros [= <-]. apply Exists_app. right. by left.
Qed.

(** What the evidence stands for, the latest part first. *)
Definition observed (l : list observation) : Prop := ∃ back rel quiet drain enr anchor,
  l = back ++ rel ++ quiet ++ drain ++ enr ∧ enrolled enr ∧ drained_under_load anchor drain ∧
  nothing_claimed anchor quiet ∧ released rel ∧ back_online back.

Lemma back_online_sound l : back_online l → ∃ j, sound [j] l.
Proof. intros (rt & on & -> & Hs & _ & j & Hj & _). exists j. by apply (sound_app [j] []). Qed.
Lemma released_safe l : released l → safe l.
Proof. by intros [[Hs _] _]. Qed.
Lemma one_job_safe l : one_job l → safe l.
Proof. intros (jobs & _ & Hs). apply Hs. Qed.
Lemma enrolled_sound l : enrolled l → ∃ j, sound [j] l.
Proof.
  intros (rt & ready & on & o & -> & _ & Hon & _ & Hr & _ & j & Hj & _). exists j.
  apply (sound_app [j] []); [done|]. apply (sound_app [] []); [done|]. apply (sound_app [] []); [done|].
  split; [split; [split|done]|done]; discriminate.
Qed.

(** The evidence is the passing one. *)
Definition passes (e : HardwareAcceptanceEvidence) : Prop := ∃ date, e = passing_evidence config date.

Lemma last_parts_seg fuel :
  seg (and_next (release systemctl service_name base_url nvidia_smi probe_gpu_uuids config fuel) (λ _,
       and_next (return_online systemctl service_name base_url nvidia_smi probe_gpu_uuids config fuel) (λ _,
         date ← date_utc; mret (Some (passing_evidence config date)))))
    (ended (λ e l, passes e ∧ safe l ∧ ∃ back rel, l = back ++ rel ∧ released rel ∧ back_online back)) safe.
Proof.
  eapply (seg_and_next _ _ _ _ (λ _, ended (λ e l, passes e ∧ back_online l)) (λ _, safe));
    [apply release_seg| |by intros l []|done| |].
  - intros []. eapply (seg_and_next _ _ _ _ (λ _ r l, l = [] ∧ ∃ e, r = Some e ∧ passes e) (λ _ l, l = []));
      [apply return_seg| |apply one_job_safe|done| |].
    + intros []. split; [unfold date_utc; appending|]. intros w. cbn. split; [done|]. eexists. split; [done|]. by eexists.
    + by intros [] r l1 l2 Hb (-> & e & -> & He).
    + intros [] l1 l2 Hb ->. destruct (back_online_sound _ Hb) as (j & Hs & _). exact Hs.
  - intros [] [e|] l1 l2 Hr H2; cbn in *; [|by apply safe_app; [|apply released_safe]].
    destruct H2 as [He Hb]. split; [done|]. destruct (back_online_sound _ Hb) as (j & Hs & _).
    split; [by apply safe_app; [|apply released_safe]|by exists l2, l1].
  - intros [] l1 l2 Hr H2. by apply safe_app; [|apply released_safe].
Qed.

Lemma hardware_run_seg fuel :
  seg (hardware_run systemctl service_name base_url nvidia_smi probe_gpu_uuids config fuel)
    (ended (λ e l, passes e ∧ cancels 2 l ∧ observed l)) (cancels 2).
Proof.
  eapply (seg_and_next _ _ _ _ (λ _, ended (λ e l, passes e ∧ cancels 1 l ∧
      ∃ back rel quiet drain anchor, l = back ++ rel ++ quiet ++ drain ∧ drained_under_load anchor drain ∧
      nothing_claimed anchor quiet ∧ released rel ∧ back_online back)) (λ _, cancels 1));
    [apply enrol_seg| |intros l (jobs & Hj & Hl); apply cancels_few; exists jobs; split; [lia|done]|done| |].
  - intros []. eapply (seg_and_next _ _ _ _ (λ anchor, ended (λ e l, passes e ∧ cancels 0 l ∧
      ∃ back rel quiet, l = back ++ rel ++ quiet ∧ nothing_claimed anchor quiet ∧ released rel ∧ back_online back))
      (λ _, cancels 0)); [apply drain_seg| |intros l Hl; apply cancels_few, Hl|done| |].
    + intros anchor. eapply (seg_and_next _ _ _ _ (λ _, ended _) (λ _, safe));
        [apply no_new_claim_seg|intros []; apply last_parts_seg| |done| |].
      * intros l [Hl | (probe & o & l' & -> & Hs & Ho)]; [apply cancels_few; by exists []|].
        apply (cancels_probe probe o l' []); [done|done|done].
      * intros [] [e|] l1 l2 Hn H2; cbn in *; destruct (nothing_claimed_sound _ _ Hn) as (probe & o & l' & El & Hs & Ho);
          rewrite El in Hs; [|rewrite El; apply safe_app; [done|apply Hs]].
        destruct H2 as (He & H2 & back & rel & -> & Hrel & Hb). split; [done|].
        split; [rewrite El; by apply (cancels_probe probe)|]. exists back, rel, l1. by rewrite app_assoc.
      * intros [] l1 l2 Hn H2. destruct (nothing_claimed_sound _ _ Hn) as (probe & o & l' & -> & Hs & Ho).
        by apply (cancels_probe probe).
    + intros anchor [e|] l1 l2 [Hs Hd] H2; cbn in *; [|apply safe_app; [done|apply Hs]].
      destruct H2 as (He & H2 & back & rel & quiet & -> & Hn & Hr & Hb). split; [done|].
      split; [by apply (cancels_after 0 anchor)|]. exists back, rel, quiet, l1, anchor. by rewrite <-!app_assoc.
    + intros anchor l1 l2 [Hs Hd] H2. by apply (cancels_after 0 anchor).
  - intros [] [e|] l1 l2 He H2; cbn in *; destruct (enrolled_sound _ He) as (j & Hs); [|apply safe_app; [done|apply Hs]].
    destruct H2 as (Hp & H2 & back & rel & quiet & drain & anchor & -> & Hd & Hn & Hr & Hb). split; [done|].
    split; [by apply (cancels_after 1 j)|]. exists back, rel, quiet, drain, l1, anchor. by rewrite <-!app_assoc.
  - intros [] l1 l2 He H2. destruct (enrolled_sound _ He) as (j & Hs). by apply (cancels_after 1 j).
Qed.

(** Property C34: The acceptance of a node tells what it saw, and cleans up.  In every run, in any
    world: the Worker is stopped only when it was seen drained and started only on GPUs seen
    idle; when the run ends, however it ends, the cancellation of the job that probes the
    draining Worker, the third one submitted, has been asked for; and evidence is given only
    after all it says was observed, in order: the exact GPU set, an enrolled and ready Worker,
    a job that succeeded; a job that runs when the drain is requested, and a Worker that says
    it drains; a job submitted then that is seen still queued, after which the running one is
    seen to succeed, and after that the accepted cancellation of the queued one; a service
    seen inactive and GPUs then seen idle; a Worker enrolled again, and another job that
    succeeded. *)
Theorem evidence_observed fuel (w : W) :
  let '(s, r) := hardware_run systemctl service_name base_url nvidia_smi probe_gpu_uuids config fuel (w, []) in
  safe s.2 ∧
  (r ≠ Ok None → ∀ probe, reverse (submitted s.2) !! 2%nat = Some probe → List.Exists (cancel_asked probe) s.2) ∧
  (∀ e, r = Ok (Some e) → passes e ∧ observed s.2).
Proof.
  pose proof (proj2 (hardware_run_seg fuel) w) as Hr.
  destruct (hardware_run _ _ _ _ _ _ _ _) as [[w' l] [[e|]|e]]; cbn in *.
  - destruct Hr as (He & [Hs Hc] & Ho). split; [done|]. split; [by intros _|]. by intros e' [= <-].
  - split; [done|]. split; [done|]. by intros e'.
  - destruct Hr as [Hs Hc]. split; [done|]. split; [by intros _|]. by intros e'.
Qed.
End runs.

(** ** The run ends *)

(** Requests take no time back. *)
Class NodeClock (W : Type) `{NodeWorld W} := {
  nc_call v u b w : mw_time w <= mw_time (nw_call v u b w).1;
  nc_marker w : mw_time w <= mw_time (nw_marker w).1;
}.

Section returns.
Context {W : Type} `{NodeWorld W} {CL : ClockLaws W} {NC : NodeClock W}.
Variables systemctl service_name base_url nvidia_smi : string.
Variable probe_gpu_uuids : list string.
Variable config : hardware_runner.
Hypothesis Hpoll : 0 < hr_poll_interval_seconds config.
Abbreviation M := (eff (mstate (W := W))).
Abbreviation returns m := (∀ t, triple (later t) m (λ _, later t) (λ _ _, True)).
Abbreviation ends m := (∀ t, triple (later t) m (λ r s, r ≠ None ∧ later t s) (λ _ _, True)).

Lemma returns_call v u b : returns (call v u b).
Proof.
  intros t s Hs. unfold call. pose proof (nc_call v u b s.1) as Hc.
  destruct (nw_call v u b s.1) as [w o]. unfold later in *. cbn in *. lia.
Qed.
Lemma returns_marker : returns marker.
Proof.
  intros t s Hs. unfold marker. pose proof (nc_marker s.1) as Hc.
  destruct (nw_marker s.1) as [w m]. unfold later in *. cbn in *. lia.
Qed.
Lemma returns_pause d : 0 ≤ d → returns (sleep (W := W) d).
Proof. intros Hd t s Hs. pose proof (clock_sleep d s.1). unfold later in *. cbn. lia. Qed.
Lemma returns_request v u b : returns (node_request (W := W) v u b).
Proof.
  unfold node_request. apply mode_returns_bind; [apply returns_call|intros [[code json]|]]; [|apply mode_returns_throws].
  apply mode_returns_bind; [apply returns_ensure|intros; apply mode_returns_ret].
Qed.
Lemma returns_submit delay : returns (submit (W := W) config delay).
Proof.
  apply mode_returns_bind; [apply returns_marker|intros mark]. apply mode_returns_bind; [apply returns_request|intros json].
  apply mode_returns_bind; [apply mode_returns_lifts|intros v].
  destruct v as [| | | |[]| |]; first [apply mode_returns_throws | apply mode_returns_ret].
Qed.
Lemma returns_status job_id : returns (job_status (W := W) job_id).
Proof.
  apply mode_returns_bind; [apply returns_request|intros json]. apply mode_returns_bind; [apply mode_returns_lifts|intros v].
  destruct v; first [apply mode_returns_throws | apply mode_returns_ret].
Qed.
Lemma returns_cancel job_id : returns (cancel_job (W := W) job_id).
Proof. apply mode_returns_bind; [apply returns_request|intros; apply mode_returns_ret]. Qed.

Lemma until_loop_ends {A} (check : M (option A)) message fuel : returns check → ∀ t d,
  d <= t + hr_poll_interval_seconds config * Z.of_nat fuel →
  triple (later t) (until_loop config (S fuel) check d message) (λ r s, r ≠ None ∧ later t s) (λ _ _, True).
Proof.
  intros Hc. induction fuel as [|fuel IH]; intros t d Hd; cbn [until_loop].
  all: eapply triple_bind; [apply Hc|intros [a|]; [by apply triple_ret|]].
  all: apply (triple_bind _ _ (λ now s, later t s ∧ t <= now));
    [apply triple_gets; intros s Hs; split; exact Hs|intros now].
  all: destruct (Z.leb_spec d now); [by apply triple_throws|].
  { intros s [Hs Hn]. lia. }
  cbn [negb ensure]. unfold ensure.
  apply (triple_bind _ _ (λ (_ : unit) s, later t s ∧ t <= now)); [by apply triple_ret|intros _].
  eapply triple_bind; [eapply triple_pre; [apply (returns_sleep (hr_poll_interval_seconds config) t)|by intros s []]|].
  intros []. eapply triple_conseq; [apply (IH (t + hr_poll_interval_seconds config) d)|done| |done]; [lia|].
  intros r s [Hr Hs]. split; [done|]. unfold later in *. lia.
Qed.
Lemma until_ends {A} fuel (check : M (option A)) timeout message :
  returns check → timeout <= hr_poll_interval_seconds config * Z.of_nat fuel →
  ends (until config (S fuel) check timeout message).
Proof.
  intros Hc Ht t. unfold until.
  apply (triple_bind _ _ (λ now s, t <= now ∧ later now s)).
  { apply triple_gets. intros s Hs. split; [exact Hs|]. unfold later. lia. }
  intros now s [Hn Hs]. pose proof (until_loop_ends check message fuel Hc now (now + timeout) ltac:(lia) s Hs) as Hw.
  destruct (until_loop _ _ _ _ _ _) as [s' [a|e]]; [|done].
  destruct Hw as [Ha Hl]. split; [done|]. unfold later in *. lia.
Qed.
Lemma and_next_ends {A B} (m : M (option A)) (k : A → M (option B)) :
  ends m → (∀ a, ends (k a)) → ends (and_next m k).
Proof. intros Hm Hk. by apply (ends_bind (A := A)). Qed.
Lemma finally_ends {A} (m : M (option A)) c : ends m → returns c → ends (finally_ended m c).
Proof.
  intros Hm Hc t s Hs. specialize (Hm t s Hs). unfold finally_ended.
  destruct (m s) as [s' [[a|]|e]]; [|by destruct Hm|].
  - destruct Hm as [_ Hm]. specialize (Hc t s' Hm). by destruct (c s') as [s'' []].
  - by destruct (c s') as [s'' []].
Qed.

Abbreviation turns fuel := (hr_poll_interval_seconds config * Z.of_nat fuel).
Lemma terminal_ends fuel job_id : hr_job_timeout_seconds config <= turns fuel →
  ends (_wait_job_terminal (W := W) config (S fuel) job_id).
Proof.
  intros Ht. apply until_ends; [|done]. apply mode_returns_bind; [apply returns_status|intros; apply mode_returns_ret].
Qed.
Lemma check_snapshot_returns key : returns (check_snapshot (W := W) base_url key).
Proof. apply mode_returns_bind; [apply returns_snapshot|intros; apply mode_returns_ret]. Qed.
Lemma round_trip_ends fuel : hr_job_timeout_seconds config <= turns fuel →
  ends (_submit_round_trip (W := W) config (S fuel)).
Proof.
  intros Ht. apply ends_returns; [apply returns_submit|intros job_id].
  apply and_next_ends; [by apply terminal_ends|intros status].
  apply ends_returns; [apply returns_ensure|intros; apply ends_ret].
Qed.

(** The acceptance ends: with a clock that does not go back and a time limit for drains, the
    longest of the limits, in poll intervals, bounds the turns of every wait. *)
Theorem hardware_returns fuel drain_timeout (s : mstate (W := W)) :
  hr_mode_drain_timeout_seconds config = Some drain_timeout → 0 ≤ hr_drain_probe_seconds config →
  drain_timeout <= turns fuel → hr_mode_start_timeout_seconds config <= turns fuel →
  hr_job_timeout_seconds config <= turns fuel →
  (hardware_run systemctl service_name base_url nvidia_smi probe_gpu_uuids config (S fuel) s).2 ≠ Ok None.
Proof.
  intros Hd Hp Hdt Hst Hjt.
  assert (ends (online (W := W) systemctl service_name base_url nvidia_smi probe_gpu_uuids config (S fuel))) as Hon.
  { unfold online. rewrite Hd. by apply to_astrumweaver_ends. }
  assert (ends (hardware_run systemctl service_name base_url nvidia_smi probe_gpu_uuids config (S fuel))) as Hends.
  { unfold hardware_run. apply and_next_ends; [|intros _; apply and_next_ends; [|intros anchor;
      apply and_next_ends; [|intros _; apply and_next_ends; [|intros _; apply and_next_ends; [|intros _]]]]].
    - apply ends_returns; [|intros _].
      { unfold require_exact_identity. apply mode_returns_bind; [apply returns_run|intros; apply mode_returns_lifts]. }
      apply and_next_ends; [done|intros report]. apply ends_returns; [apply returns_ensure|intros _].
      apply and_next_ends; [|intros _; by apply round_trip_ends].
      apply until_ends; [apply check_snapshot_returns|done].
    - apply ends_returns; [apply returns_submit|intros anchor]. apply and_next_ends.
      + apply until_ends; [|done]. apply mode_returns_bind; [apply returns_status|intros status].
        destruct (bool_decide _); [apply mode_returns_ret|].
        apply mode_returns_bind; [apply returns_ensure|intros; apply mode_returns_ret].
      + intros _. apply ends_returns.
        { unfold request_drain. apply mode_returns_bind; [apply returns_systemctl|intros; apply returns_ensure]. }
        intros _. apply and_next_ends; [|intros _; apply ends_ret].
        apply until_ends; [apply check_snapshot_returns|done].
    - apply ends_returns; [apply returns_submit|intros probe]. apply finally_ends; [|apply returns_cancel].
      apply ends_returns; [by apply returns_pause|intros _]. apply ends_returns; [apply returns_status|intros status].
      apply ends_returns; [apply returns_ensure|intros _]. apply and_next_ends; [by apply terminal_ends|intros a].
      apply ends_returns; [apply returns_ensure|intros; apply ends_ret].
    - apply and_next_ends; [unfold development; rewrite Hd; by apply to_development_ends|intros report].
      do 3 (apply ends_returns; [apply returns_ensure|intros _]). apply ends_ret.
    - apply and_next_ends; [done|intros report]. apply ends_returns; [apply returns_ensure|intros _].
      by apply round_trip_ends.
    - apply ends_returns; [|intros; apply ends_ret]. intros t. by apply triple_gets. }
  specialize (Hends (mw_time s.1) s (Z.le_refl _)). destruct (hardware_run _ _ _ _ _ _ _ _) as [s' [[e|]|e]]; [done|by destruct Hends|done].
Qed.
End returns.

(** ** An example: a node that passes *)

Record demo_node := { dn_mode : demo; dn_jobs : Z }.
Definition in_mode {A} (f : demo → demo * A) (w : demo_node) : demo_node * A :=
  let '(m, a) := f (dn_mode w) in ({| dn_mode := m; dn_jobs := dn_jobs w |}, a).
#[export] Instance demo_node_mode : ModeWorld demo_node := {
  mw_run args := in_mode (mw_run args);
  mw_get url := in_mode (mw_get url);
  mw_time w := mw_time (dn_mode w);
  mw_sleep d w := {| dn_mode := mw_sleep d (dn_mode w); dn_jobs := dn_jobs w |};
}.
(** The second job runs until the Worker drains, the third stays queued. *)
Definition demo_status (w : demo_node) (location : string) : string :=
  if endswith "2" location then (if dw_draining (dn_mode w) then "succeeded" else "running")
  else if endswith "3" location then "queued" else "succeeded".
#[export] Instance demo_node_world : NodeWorld demo_node := {
  nw_call verb location body w :=
    if bool_decide (verb = "GET") then
      (w, Some (200, Some (PDict [("status", PStr (demo_status w location))])))
    else if bool_decide (location = "/v1/jobs") then
      ({| dn_mode := dn_mode w; dn_jobs := dn_jobs w + 1 |},
       Some (200, Some (PDict [("job_id", PStr ("job-" +:+ str_of_Z (dn_jobs w + 1)))])))
    else (w, Some (200, None));
  nw_marker w := (w, "00");
  nw_date _ := "2026-01-01";
  nw_write _ _ w := (w, Ok tt);
}.
Definition demo_args : hardware_args := {|
  ha_control_url := "http://control"; ha_gpu_uuids := [" GPU-1"]; ha_revision := "0123abc";
  ha_deployment_path := "systemd"; ha_profile_class := "modern-single"; ha_capability := "debug.echo";
  ha_client_auth := BEARER; ha_health_url := "http://h/"; ha_service := "w.service";
  ha_systemctl := "systemctl"; ha_nvidia_smi := "nvidia-smi"; ha_job_timeout_seconds := 10;
  ha_drain_anchor_seconds := float_of_Z 3; ha_drain_probe_seconds := 2; ha_drain_timeout_seconds := 10;
  ha_start_timeout_seconds := 10; ha_evidence := Path "evidence.md"; ha_client_token := "token" |}.
Definition demo_accept (args : hardware_args) :=
  hardware_main 1 11 args ({| dn_mode := busy_worker; dn_jobs := 0 |}, []).

(** The whole command passes on it, four jobs were submitted and the third was cancelled; without
    a token nothing is asked. *)
Example demo_node_passes :
  (let '(s, r) := demo_accept demo_args in
   submitted s.2 = ["job-4"; "job-3"; "job-2"; "job-1"] ∧
   match r with Ok (Some (inr e)) => he_overall e = "PASS" | _ => False end) ∧
  snd (fst (demo_accept {| ha_control_url := "http://control"; ha_gpu_uuids := ["GPU-1"]; ha_revision := "0123abc";
     ha_deployment_path := "systemd"; ha_profile_class := "modern-single"; ha_capability := "debug.echo";
     ha_client_auth := BEARER; ha_health_url := "http://h"; ha_service := "w.service";
     ha_systemctl := "systemctl"; ha_nvidia_smi := "nvidia-smi"; ha_job_timeout_seconds := 10;
     ha_drain_anchor_seconds := float_of_Z 3; ha_drain_probe_seconds := 2; ha_drain_timeout_seconds := 10;
     ha_start_timeout_seconds := 10; ha_evidence := Path "evidence.md"; ha_client_token := EmptyString |})) = [].
Proof. vm_compute. done. Qed.
