(* ===== verification/WorkerDaemon.v ===== *)
(** * The Worker daemon and the sample executors

    Models [src/src/astrumweaver/worker/daemon.py] (the specification a configuration makes, the
    runtime manifest, the GPU preflight, the assembly of the Worker with its tasks, and their
    end) and the executors of [src/src/astrumweaver/executors/].  The event loop, the operating
    system, the Control client and the objects that other components model answer the operations
    [daemon_op]; [R] is the type of managed runtimes. *)

From Stdlib Require Import SpecFloat.
From S2P Require Import Prelude PyStr PyDict PyVal PyHost Effects Trace PyText Posix SetupFs PyNum Contracts Models GpuMapping RuntimeContracts Planner Deployment Lifecycle Preflight SetupContracts Migration MigrationProps Systemd.

(** ** Executors *)

(** [StructuredEchoExecutor.execute], executors/structured_echo.py lines 14-30: the time it
    sleeps, if it does, and its result. *)
Definition echo_delay (payload : dict pyval) : result spec_float :=
  match get_default "_debug_delay_seconds" (PInt 0) payload with
  | PInt z => py_float (PInt z)
  | PFloat f => Ok f
  | _ => Err (TypeError "_debug_delay_seconds must be numeric")
  end.
Definition echo_execute (capability : string) (payload : dict pyval)
    : result (option spec_float * JobResult) :=
  delay ← echo_delay payload;
  require (negb (float_lt_Z delay 0
                 || match delay with S754_nan => false | _ => negb (float_le_Z delay 30) end))
    (ValueError "_debug_delay_seconds must be between 0 and 30");;
  r ← mk_JobResult [("capability", PStr capability); ("payload", PDict payload)] [] [] None
        [("executor", PStr "structured-echo")];
  Ok (if float_is_zero delay then None else Some delay, r).

(** What a text runtime may return: a result, text, a mapping, an object with [text] and maybe a
    mapping [raw], or anything else. *)
Inductive text_value :=
  | AResult (r : JobResult)
  | AText (s : string)
  | AMapping (d : dict pyval)
  | AnObject (text : string) (raw : option (dict pyval))
  | Unsupported.

(** [_extract_text], executors/text_generation.py lines 83-88. *)
Definition _extract_text (value : dict pyval) : option string :=
  let candidate key := match dget key value with Some (PStr s) => Some s | _ => None end in
  match candidate "text", candidate "response", candidate "content" with
  | Some s, _, _ | None, Some s, _ | None, None, Some s => Some s
  | _, _, _ => None
  end.

Definition text_result (outputs : dict pyval) (text : option string) : result JobResult :=
  mk_JobResult outputs [] [] text [].

(** [_coerce_text_result], executors/text_generation.py lines 61-80. *)
Definition _coerce_text_result (value : text_value) : result JobResult :=
  match value with
  | AResult r => Ok r
  | AText s => text_result [("text", PStr s)] (Some s)
  | AMapping d => text_result d (_extract_text d)
  | AnObject text raw =>
      let outputs := default [("text", PStr text)] raw in
      text_result (if dget "text" outputs then outputs else dset "text" (PStr text) outputs) (Some text)
  | Unsupported => Err (TypeError "text runtime returned an unsupported result type")
  end.

(** The capabilities of [TextGenerationExecutor.__init__], executors/text_generation.py lines
    30-39; the first argument is what the caller configured, the second what the runtime has. *)
Definition text_capabilities (configured runtime_capabilities : option (gset string)) : gset string :=
  match configured, runtime_capabilities with
  | Some s, _ | None, Some s => if bool_decide (s = ∅) then {["text.generate"]} else s
  | None, None => {["text.generate"]}
  end.

(** ** Configuration *)

(** [section.get(key, default)] as a list of texts. *)
Definition str_list (key : string) (section : dict pyval) : result (list string) :=
  l ← py_iter (get_default key (PList []) section); mapR py_str l.

(** [_build_spec], worker/daemon.py lines 56-81. *)
Definition _build_spec (section : dict pyval) : result WorkerSpec :=
  gpu_uuids ← str_list "gpu_uuids" section;
  capabilities ← str_list "capabilities" section;
  labels ← (d ← py_dict (py_or (get "labels" section) (PDict []));
            mapR (λ kv : string * pyval, s ← py_str kv.2; Ok (kv.1, s)) d);
  accelerators ← (l ← py_iter (get_default "accelerators" (PList []) section); mapR accelerator_of l);
  worker_id ← (v ← item "id" section; py_str v);
  worker_class ← (v ← item "class" section; py_str v);
  gpu_count ← py_int (get_default "gpu_count" (PInt (Z.of_nat (length gpu_uuids))) section);
  total ← py_int (get_default "total_vram_mb" (PInt 0) section);
  single ← py_int (get_default "max_single_gpu_vram_mb" (PInt 0) section);
  shape ← mk_ResourceShape gpu_count total single;
  mk_WorkerSpec worker_id worker_class shape (StrIter gpu_uuids) accelerators
    (StrIter (remove_dups capabilities)) labels.

(** ** The world of the daemon *)

(** The four tasks of the daemon. *)
Inductive task := TWorker | THealth | TSignal | TDrain.
#[export] Instance task_eq : EqDecision task.
Proof. solve_decision. Defined.

Inductive daemon_op (R : Type) : Type → Type :=
  | LoadToml (location : string) : daemon_op R (dict pyval)
  | ReadManifest (location : string) : daemon_op R string
  | GetEnv (name : string) : daemon_op R (option string)
  | VisibleGpus (command : string) : daemon_op R (option completed)
  | InspectHost : daemon_op R host
  | HostFacts : daemon_op R (option Z * option string * string)
  | CreateClient (url token : string) (timeout : spec_float) : daemon_op R unit
  | CloseClient : daemon_op R unit
  | EnsureReady (runtime : R) (timeout : spec_float) : daemon_op R unit
  | RuntimeExecutor (runtime : R) : daemon_op R (option str_values)
  | LoadExecutor (factory : string) (settings : dict pyval) : daemon_op R (option str_values)
  | MakeSupervisor (runtime : R) (shutdown_timeout : spec_float) : daemon_op R unit
  | ShutdownOwned (runtime : R) (timeout : spec_float) : daemon_op R unit
  | MakeWorkerRuntime (max_concurrency : Z) (poll heartbeat : spec_float) : daemon_op R unit
  | MakeHealthServer (bind_host : string) (port : Z) : daemon_op R unit
  | HasSignal (name : string) : daemon_op R bool
  | AddSignalHandler (name : string) : daemon_op R bool
  | StartTasks : daemon_op R unit
  | FirstCompleted : daemon_op R (list task)
  | TaskException (t : task) : daemon_op R (option exn)
  | Registered : daemon_op R bool
  | DrainWorker : daemon_op R unit
  | ActiveJob : daemon_op R bool
  | LoopTime : daemon_op R Z
  | SleepTenth : daemon_op R unit
  | RequestStop : daemon_op R unit
  | ExitServer : daemon_op R unit
  | TaskDone (t : task) : daemon_op R bool
  | CancelTask (t : task) : daemon_op R unit
  | Gather (l : list task) : daemon_op R unit.
Arguments LoadToml {R}. Arguments ReadManifest {R}. Arguments GetEnv {R}. Arguments VisibleGpus {R}.
Arguments InspectHost {R}. Arguments HostFacts {R}. Arguments CreateClient {R}. Arguments CloseClient {R}.
Arguments EnsureReady {R}. Arguments RuntimeExecutor {R}. Arguments LoadExecutor {R}. Arguments MakeSupervisor {R}.
Arguments ShutdownOwned {R}. Arguments MakeWorkerRuntime {R}. Arguments MakeHealthServer {R}.
Arguments HasSignal {R}. Arguments AddSignalHandler {R}. Arguments StartTasks {R}. Arguments FirstCompleted {R}.
Arguments TaskException {R}. Arguments Registered {R}. Arguments DrainWorker {R}. Arguments ActiveJob {R}.
Arguments LoopTime {R}. Arguments SleepTenth {R}. Arguments RequestStop {R}. Arguments ExitServer {R}.
Arguments TaskDone {R}. Arguments CancelTask {R}. Arguments Gather {R}.

(** [float(v)], of text too; [float(section.get(key, default))]. *)
Definition float_of {DL : DriverLibrary} (v : pyval) : result spec_float :=
  match v with
  | PStr s => match float_of_text s with
              | Some f => Ok f
              | None => Err (ValueError "could not convert string to float")
              end
  | v => py_float v
  end.
Definition seconds {DL : DriverLibrary} (key : string) (d : Z) (section : dict pyval) : result spec_float :=
  float_of (get_default key (PFloat (float_of_Z d)) section).

Section daemon.
Context {R W : Type} `{Handler (daemon_op R) W} {DL : DriverLibrary}.
Context (provider_types : dict (dict pyval → result (RuntimeProvider R))).
Abbreviation T := (eff (logged (daemon_op R) W)).

(** [_load_runtime_deployment], worker/daemon.py lines 40-53. *)
Definition _load_runtime_deployment (location : string) : T RuntimeDeploymentSpec :=
  let unreadable := RuntimeError ("cannot load runtime deployment manifest: " +:+ location) in
  text ← try_catch (ask (ReadManifest location)) (λ e, if is_OSError e then throws unreadable else throws e);
  match json_loads text with
  | None => throws unreadable
  | Some (PDict _ as value) =>
      lifts (match deployment_from_dict value with
             | Err (KeyError _ | TypeError _ | ValueError _) =>
                 Err (RuntimeError "runtime deployment manifest is invalid")
             | r => r
             end)
  | Some _ => throws (RuntimeError "runtime deployment manifest must contain an object")
  end.

(** [os.environ.get(name, default).strip()]. *)
Definition env_text (name default_value : string) : T string :=
  v ← ask (GetEnv name); mret (strip (default default_value v)).

(** [_run_gpu_preflight], worker/daemon.py lines 84-130. *)
Definition _run_gpu_preflight (spec : WorkerSpec) (section : dict pyval) : T unit :=
  if match gpu_uuids spec with [] => true | _ => false end
     || negb (truthy (get_default "gpu_preflight" (PBool true) section))
  then mret tt
  else
    fallback ← lifts (py_str (get_default "nvidia_smi_command" (PStr "nvidia-smi") section));
    command ← env_text "ASTRUMWEAVER_NVIDIA_SMI" fallback;
    preflight_mode ← env_text "ASTRUMWEAVER_GPU_PREFLIGHT_MODE" "exact-visible";
    if bool_decide (preflight_mode = "exact-visible") then
      outcome ← ask (VisibleGpus command);
      lifts (require_exact_gpu_set (gpu_uuids spec) outcome)
    else if bool_decide (preflight_mode = "isolated-access") then
      reviewed_map_path ← env_text "ASTRUMWEAVER_GPU_DEVICE_MAP" EmptyString;
      ensure (str_truthy reviewed_map_path)
        (RuntimeError "isolated-access GPU preflight requires ASTRUMWEAVER_GPU_DEVICE_MAP");;
      cuda_visible_devices ← ask (GetEnv "CUDA_VISIBLE_DEVICES");
      h ← ask InspectHost;
      lifts (require_isolated_gpu_access h (gpu_uuids spec) reviewed_map_path command cuda_visible_devices).2
    else throws (RuntimeError "ASTRUMWEAVER_GPU_PREFLIGHT_MODE must be exact-visible or isolated-access").

(** What the daemon runs jobs with: an executor factory, or the manifest of a runtime. *)
Inductive execution_source := Factory (name : string) | Manifest (location : string).

(** The sections and the choice of [run_worker], worker/daemon.py lines 138-160. *)
Definition section_of (name : string) (config : dict pyval) : result (dict pyval) :=
  py_dict (py_or (get name config) (PDict [])).
Definition choose_execution (executor runtime : dict pyval) (manifest_argument : option string)
    : result execution_source :=
  factory ← (s ← py_str (get_default "factory" (PStr EmptyString) executor); Ok (strip s));
  manifest ← match manifest_argument with
             | Some m => Ok (strip m)
             | None => s ← py_str (get_default "manifest" (PStr EmptyString) runtime); Ok (strip s)
             end;
  match str_truthy factory, str_truthy manifest with
  | true, false => Ok (Factory factory)
  | false, true => Ok (Manifest manifest)
  | _, _ => Err (RuntimeError "configure exactly one of executor.factory or runtime.manifest")
  end.
Definition missing_keys (section : dict pyval) : list string :=
  List.filter (λ name, negb (truthy (get name section))) ["id"; "class"; "control_url"].

(** ** The tasks *)

(** [contextlib.suppress(Exception)]: a cancellation is no [Exception]. *)
Definition suppressed (m : T unit) : T unit :=
  try_catch m (λ e, match e with CancelledError => throws e | _ => mret tt end).

(** [max(grace, 0.0)] on the clock of the loop. *)
Definition grace_of (f : spec_float) : duration := if float_le_zero f then Ticks 0 else duration_of f.
Definition within_grace (grace : duration) (elapsed : Z) : bool :=
  match grace with Ticks t => elapsed <? t | Endless => true | NotANumber => false end.

(** The wait for the job in hand, worker/daemon.py lines 299-303. *)
Fixpoint grace_loop (fuel : nat) (grace : duration) (started : Z) : T (option unit) :=
  match fuel with
  | O => mret None
  | S fuel' =>
      active ← ask ActiveJob;
      if negb active then mret (Some tt)
      else
        now ← ask LoopTime;
        if within_grace grace (now - started) then ask SleepTenth;; grace_loop fuel' grace started
        else mret (Some tt)
  end.

(** What a signal does to a registered Worker, worker/daemon.py lines 290-308: whether the Worker
    is to be cancelled. *)
Definition drain_gracefully (fuel : nat) (section : dict pyval) : T (option bool) :=
  registered ← ask Registered;
  if negb registered then mret (Some false)
  else
    suppressed (ask DrainWorker);;
    grace ← lifts (seconds "shutdown_grace_seconds" 30 section);
    started ← ask LoopTime;
    and_then (grace_loop fuel (grace_of grace) started) (λ _, active ← ask ActiveJob; mret (Some active)).

(** The exception of a task that is done is raised, worker/daemon.py lines 280-288. *)
Definition raise_of (done : list task) (t : task) : T unit :=
  if bool_decide (t ∈ done) then
    e ← ask (TaskException t);
    match e with Some x => throws x | None => mret tt end
  else mret tt.

(** The body of the inner [try], worker/daemon.py lines 274-320. *)
Definition serve (fuel : nat) (section : dict pyval) : T (option unit) :=
  done ← ask FirstCompleted;
  raise_of done TWorker;;
  raise_of done THealth;;
  and_then (if bool_decide (TSignal ∈ done) then drain_gracefully fuel section else mret (Some false))
    (λ forced : bool,
      ask RequestStop;;
      ask ExitServer;;
      (if forced then
         finished ← ask (TaskDone TWorker);
         if finished : bool then mret tt else ask (CancelTask TWorker)
       else mret tt);;
      ask (Gather [TWorker; THealth]);;
      mret (Some tt)).

Definition all_tasks : list task := [TWorker; THealth; TSignal; TDrain].
(** The inner [finally], worker/daemon.py lines 321-330. *)
Definition stop_tasks : T unit :=
  ask RequestStop;;
  ask ExitServer;;
  each (λ t, finished ← ask (TaskDone t);
             if finished : bool then mret tt else ask (CancelTask t)) all_tasks;;
  ask (Gather all_tasks).

(** The handlers of the signals, worker/daemon.py lines 230-248. *)
Definition install_handlers : T unit :=
  each (λ name, ask (AddSignalHandler name);; mret tt) ["SIGTERM"; "SIGINT"];;
  there ← ask (HasSignal "SIGUSR1");
  if there : bool then ask (AddSignalHandler "SIGUSR1");; mret tt else mret tt.

(** From the executor to the end of the tasks, worker/daemon.py lines 200-330. *)
Definition assemble (fuel : nat) (spec : WorkerSpec) (section : dict pyval) (executor : option str_values)
    : T (option unit) :=
  lifts (require_executor_capabilities executor (capabilities spec));;
  max_concurrency ← lifts (py_int (get_default "max_concurrency" (PInt 1) section));
  poll ← lifts (seconds "poll_interval_seconds" 1 section);
  heartbeat ← lifts (seconds "heartbeat_interval_seconds" 5 section);
  ask (MakeWorkerRuntime max_concurrency poll heartbeat);;
  health_host ← lifts (py_str (get_default "health_host" (PStr "127.0.0.1") section));
  health_port ← lifts (py_int (get_default "health_port" (PInt 9100) section));
  ask (MakeHealthServer health_host health_port);;
  install_handlers;;
  ask StartTasks;;
  finally_done (serve fuel section) stop_tasks.

(** ** The daemon *)

(** The runtime of a manifest, worker/daemon.py lines 175-182. *)
Definition make_runtime (spec : WorkerSpec) (source : execution_source) : T (option R) :=
  match source with
  | Factory _ => mret None
  | Manifest location =>
      deployment ← _load_runtime_deployment location;
      facts ← ask HostFacts;
      h ← lifts (discover_runtime_host_facts facts.1.1 facts.1.2 facts.2);
      runtime ← lifts (managed_runtime_from_deployment provider_types deployment spec h);
      mret (Some runtime)
  end.

(** The executor of either source, worker/daemon.py lines 183-198. *)
Definition make_executor (source : execution_source) (executor_section runtime_section : dict pyval)
    (runtime : option R) : T (option str_values) :=
  match runtime, source with
  | Some r, _ =>
      startup ← lifts (seconds "startup_timeout_seconds" 600 runtime_section);
      ask (EnsureReady r startup);;
      executor ← ask (RuntimeExecutor r);
      shutdown ← lifts (seconds "shutdown_timeout_seconds" 60 runtime_section);
      ask (MakeSupervisor r shutdown);;
      mret executor
  | None, Factory name =>
      settings ← lifts (py_dict (py_or (get "settings" executor_section) (PDict [])));
      ask (LoadExecutor name settings)
  | None, Manifest _ => throws (OutOfModel "a manifest always makes a runtime")
  end.

(** The outer [finally], worker/daemon.py lines 331-338. *)
Definition close_down (runtime_section : dict pyval) (runtime : option R) : T unit :=
  try_finally (ask CloseClient)
    (match runtime with
     | Some r => shutdown ← lifts (seconds "shutdown_timeout_seconds" 60 runtime_section);
                 ask (ShutdownOwned r shutdown)
     | None => mret tt
     end).

(** [run_worker], worker/daemon.py lines 133-338. *)
Definition run_worker (fuel : nat) (config_path : string) (manifest_argument : option string) : T (option unit) :=
  config ← ask (LoadToml config_path);
  section ← lifts (section_of "worker" config);
  executor_section ← lifts (section_of "executor" config);
  runtime_section ← lifts (section_of "runtime" config);
  ensure (match missing_keys section with [] => true | _ => false end)
    (RuntimeError ("missing worker configuration: " +:+ join ", " (missing_keys section)));;
  source ← lifts (choose_execution executor_section runtime_section manifest_argument);
  token ← ask (GetEnv "ASTRUMWEAVER_WORKER_TOKEN");
  ensure (str_truthy (default EmptyString token)) (RuntimeError "ASTRUMWEAVER_WORKER_TOKEN is required");;
  spec ← lifts (_build_spec section);
  _run_gpu_preflight spec section;;
  url ← lifts (v ← item "control_url" section; py_str v);
  timeout ← lifts (seconds "request_timeout_seconds" 10 section);
  ask (CreateClient url (default EmptyString token) timeout);;
  runtime ← on_error (close_down runtime_section None) (make_runtime spec source);
  finally_done
    (executor ← make_executor source executor_section runtime_section runtime;
     assemble fuel spec section executor)
    (close_down runtime_section runtime).
End daemon.

(** ** What a log owes *)

Section logs.
Context {R : Type}.
Abbreviation event := (Trace.entry (daemon_op R)).

(** Something was opened and not closed since. *)
Fixpoint owes (opens closes : event → bool) (l : list event) : bool :=
  match l with [] => false | e :: l' => negb (closes e) && (opens e || owes opens closes l') end.

Definition starts_tasks (e : event) : bool :=
  match e with
  | Trace.Entry o r => match o in daemon_op _ A return result A → bool with
                 | StartTasks => λ r, match r with Ok _ => true | Err _ => false end
                 | _ => λ _, false end r
  end.
Definition gathers (e : event) : bool :=
  match e with Trace.Entry o _ => match o with Gather l => bool_decide (l = all_tasks) | _ => false end end.
Definition makes_client (e : event) : bool :=
  match e with
  | Trace.Entry o r => match o in daemon_op _ A return result A → bool with
                 | CreateClient _ _ _ => λ r, match r with Ok _ => true | Err _ => false end
                 | _ => λ _, false end r
  end.
Definition closes_client (e : event) : bool :=
  match e with Trace.Entry o _ => match o with CloseClient => true | _ => false end end.
Definition starts_runtime (e : event) : bool :=
  match e with Trace.Entry o _ => match o with EnsureReady _ _ => true | _ => false end end.
Definition shuts_down (e : event) : bool :=
  match e with Trace.Entry o _ => match o with ShutdownOwned _ _ => true | _ => false end end.

Definition tasks_run : list event → bool := owes starts_tasks gathers.
Definition client_open : list event → bool := owes makes_client closes_client.
Definition runtime_up : list event → bool := owes starts_runtime shuts_down.

(** The GPUs of the Worker were checked, unless it has none or the check is turned off. *)
Definition gpus_checked (spec : WorkerSpec) (section : dict pyval) (l : list event) : Prop :=
  gpu_uuids spec = [] ∨ truthy (get_default "gpu_preflight" (PBool true) section) = false ∨
  (∃ command outcome, Trace.Entry (VisibleGpus command) (Ok outcome) ∈ l ∧
     require_exact_gpu_set (gpu_uuids spec) outcome = Ok tt) ∨
  (∃ h reviewed command cuda, Trace.Entry InspectHost (Ok h) ∈ l ∧
     (require_isolated_gpu_access h (gpu_uuids spec) reviewed command cuda).2 = Ok tt).

(** The executor comes from its source, and a runtime behind it is ready and supervised. *)
Definition executor_from (source : execution_source) (executor : option str_values) (l : list event) : Prop :=
  match source with
  | Factory name => ∃ settings, Trace.Entry (LoadExecutor name settings) (Ok executor) ∈ l
  | Manifest _ => ∃ r startup shutdown, Trace.Entry (EnsureReady r startup) (Ok tt) ∈ l ∧
      Trace.Entry (RuntimeExecutor r) (Ok executor) ∈ l ∧ Trace.Entry (MakeSupervisor r shutdown) (Ok tt) ∈ l
  end.

(** What is known when the tasks start. *)
Definition admitted (config_path : string) (manifest_argument : option string) (l : list event) : Prop :=
  ∃ config section executor_section runtime_section source spec executor,
    Trace.Entry (LoadToml config_path) (Ok config) ∈ l ∧
    section_of "worker" config = Ok section ∧ section_of "executor" config = Ok executor_section ∧
    section_of "runtime" config = Ok runtime_section ∧
    choose_execution executor_section runtime_section manifest_argument = Ok source ∧
    _build_spec section = Ok spec ∧ gpus_checked spec section l ∧ executor_from source executor l ∧
    require_executor_capabilities executor (capabilities spec) = Ok tt.

(** The tasks start only when admitted, the client is closed only after the tasks ended, the
    runtime is shut down only after that. *)
Fixpoint orderly (start : list event → Prop) (l : list event) : Prop :=
  match l with
  | [] => True
  | e :: l' => orderly start l' ∧
      match e with
      | Trace.Entry o _ => match o with
          | StartTasks => start l'
          | CloseClient => tasks_run l' = false
          | ShutdownOwned _ _ => client_open l' = false
          | _ => True
          end
      end
  end.

Definition grows (P : list event → Prop) : Prop := ∀ e l, P l → P (e :: l).
Lemma daemon_grows_in e : grows (λ l, e ∈ l).
Proof. intros e' l. by right. Qed.
Lemma daemon_grows_and P Q : grows P → grows Q → grows (λ l, P l ∧ Q l).
Proof. intros HP HQ e l [??]. split; auto. Qed.
Lemma daemon_grows_or P Q : grows P → grows Q → grows (λ l, P l ∨ Q l).
Proof. intros HP HQ e l [?|?]; [left|right]; auto. Qed.
Lemma daemon_grows_const (φ : Prop) : grows (λ _, φ).
Proof. by intros e l. Qed.
Lemma daemon_grows_ex {A} (P : A → list event → Prop) : (∀ a, grows (P a)) → grows (λ l, ∃ a, P a l).
Proof. intros HP e l [a Ha]. exists a. by apply HP. Qed.
Hint Resolve daemon_grows_in daemon_grows_and daemon_grows_or daemon_grows_const daemon_grows_ex : trace.
Lemma grows_gpus_checked spec section : grows (gpus_checked spec section).
Proof.
  intros e l [?|[?|[(c & o & ? & ?)|(h & r & c & v & ? & ?)]]]; [by left|by right; left|..].
  - right; right; left. exists c, o. split; [by right|done].
  - right; right; right. exists h, r, c, v. split; [by right|done].
Qed.
Lemma grows_executor_from source executor : grows (executor_from source executor).
Proof.
  destruct source; intros e l; cbn [executor_from].
  - intros [settings ?]. exists settings. by right.
  - intros (r & s1 & s2 & ? & ? & ?). exists r, s1, s2. split_and!; by right.
Qed.

(** The state of a log: what runs, what is open, and what is known. *)
Definition at_point (start : list event → Prop) (tasks client runtime : bool) (P : list event → Prop)
    (l : list event) : Prop :=
  tasks_run l = tasks ∧ client_open l = client ∧ runtime_up l = runtime ∧ orderly start l ∧ P l.

(** The questions that change nothing of it. *)
Definition quiet {A} (o : daemon_op R A) : bool :=
  match o with
  | StartTasks | CreateClient _ _ _ | CloseClient | EnsureReady _ _ | ShutdownOwned _ _ => false
  | Gather l => negb (bool_decide (l = all_tasks))
  | _ => true
  end.
Lemma quiet_events {A} (o : daemon_op R A) (r : result A) : quiet o = true →
  let e := Trace.Entry o r in
  starts_tasks e = false ∧ gathers e = false ∧ makes_client e = false ∧ closes_client e = false ∧
  starts_runtime e = false ∧ shuts_down e = false.
Proof. destruct o; cbn; intros Hq; split_and!; try reflexivity; try discriminate Hq; by apply negb_true_iff. Qed.
Lemma owes_idle opens closes (e : event) l : opens e = false → closes e = false →
  owes opens closes (e :: l) = owes opens closes l.
Proof. intros Ho Hc. cbn [owes]. by rewrite Ho, Hc. Qed.
Lemma at_point_quiet start tasks client runtime P {A} (o : daemon_op R A) r l : quiet o = true → grows P →
  at_point start tasks client runtime P l → at_point start tasks client runtime P (Trace.Entry o r :: l).
Proof.
  intros Hq HP (Ht & Hc & Hr & Ho & Hl). destruct (quiet_events o r Hq) as (E1 & E2 & E3 & E4 & E5 & E6).
  unfold at_point, tasks_run, client_open, runtime_up. rewrite !owes_idle by assumption.
  split_and!; [assumption..| |by apply HP]. cbn [orderly]. split; [assumption|].
  destruct o; try exact I; discriminate Hq.
Qed.
Lemma at_point_mono start tasks client runtime (P Q : list event → Prop) l : (∀ l, P l → Q l) →
  at_point start tasks client runtime P l → at_point start tasks client runtime Q l.
Proof. unfold at_point. naive_solver. Qed.
End logs.
#[export] Hint Resolve daemon_grows_in daemon_grows_and daemon_grows_or daemon_grows_const
  grows_gpus_checked grows_executor_from : trace.

(** Setting a flag or asking a task to stop does not raise. *)
Definition never_raises {R A} (o : daemon_op R A) : bool :=
  match o with RequestStop | ExitServer | TaskDone _ | CancelTask _ => true | _ => false end.
Class PromptLoop (R W : Type) `{Handler (daemon_op R) W} :=
  prompt_answers A (o : daemon_op R A) w : never_raises o = true → ∃ a, (answer o w).2 = Ok a.

Section closes.
Context {R W : Type} `{Handler (daemon_op R) W} `{!PromptLoop R W} {DL : DriverLibrary}.
Context (provider_types : dict (dict pyval → result (RuntimeProvider R))).
Context (start : list (Trace.entry (daemon_op R)) → Prop).
Abbreviation T := (eff (logged (daemon_op R) W)).
Implicit Types (P : list (Trace.entry (daemon_op R)) → Prop).

Lemma keeps_quiet t c u P {A} (o : daemon_op R A) : quiet o = true → grows P →
  keeps (at_point start t c u P) (ask o).
Proof. intros Hq HP. apply keeps_ask. intros r l. by apply at_point_quiet. Qed.
Hint Extern 1 (preserves _ (ask _)) =>
  (apply keeps_quiet; [reflexivity|solve [auto 10 with trace]]) : trace.

(** What a quiet question is answered is known. *)
Lemma traced_note t c u P {A} (o : daemon_op R A) : quiet o = true → grows P →
  traced (at_point start t c u P) (ask o)
    (λ a, at_point start t c u (λ l, P l ∧ Trace.Entry o (Ok a) ∈ l)) (λ _, at_point start t c u P).
Proof.
  intros Hq HP. apply traced_ask. intros l Hl. split; [intros a|intros e; by apply at_point_quiet].
  destruct (at_point_quiet start t c u P o (Ok a) l Hq HP Hl) as (H1 & H2 & H3 & H4 & H5).
  unfold at_point. split_and!; try assumption. by left.
Qed.

(** A question that is never answered by an exception. *)
Lemma traced_prompt t c u P {A} (o : daemon_op R A) Q (E : exn → _ → Prop) :
  never_raises o = true → quiet o = true → grows P →
  (∀ a l, at_point start t c u P l → Q a l) →
  traced (at_point start t c u P) (ask o) Q E.
Proof.
  intros Hn Hq HP HQ s Hs. unfold ask. assert (∃ a, (answer o (lg_world s)).2 = Ok a) as [a Ha].
  { exact (prompt_answers A o (lg_world s) Hn). }
  destruct (answer o (lg_world s)) as [w r]. cbn in Ha. subst. apply HQ. by apply at_point_quiet.
Qed.

Lemma stop_tasks_spec t c u P : grows P →
  traced (at_point start t c u P) (stop_tasks (R := R) (W := W))
    (λ _, at_point start false c u P) (λ _, at_point start false c u P).
Proof.
  intros HP. unfold stop_tasks.
  eapply traced_bind; [by apply (traced_prompt t c u P _ (λ _, at_point start t c u P))|intros ?].
  eapply traced_bind; [by apply (traced_prompt t c u P _ (λ _, at_point start t c u P))|intros ?].
  apply (traced_bind _ _ (λ _, at_point start t c u P)).
  - apply traced_each. intros k.
    eapply traced_bind; [by apply (traced_prompt t c u P _ (λ _, at_point start t c u P))|intros [|]].
    + by apply traced_ret.
    + by apply traced_prompt.
  - intros ?. apply traced_ask. intros l (Ht & Hc & Hu & Ho & Hl).
    split; intros ?; (split_and!; [done|done|done|split; done|by apply HP]).
Qed.
Lemma keeps_grace_loop fuel grace started t c u P : grows P →
  keeps (at_point start t c u P) (grace_loop fuel grace started).
Proof. intros HP. revert started. induction fuel as [|fuel IH]; intros started; cbn [grace_loop]; keeping. Qed.
Hint Resolve keeps_grace_loop : trace.
Lemma keeps_raise_of done_tasks k t c u P : grows P →
  keeps (at_point start t c u P) (raise_of (R := R) (W := W) done_tasks k).
Proof. intros HP. unfold raise_of. keeping. Qed.
Lemma keeps_drain fuel section t c u P : grows P →
  keeps (at_point start t c u P) (drain_gracefully fuel section).
Proof. intros HP. unfold drain_gracefully, suppressed. keeping. Qed.
Hint Resolve keeps_raise_of keeps_drain : trace.
Lemma keeps_serve fuel section t c u P : grows P →
  keeps (at_point start t c u P) (serve fuel section).
Proof. intros HP. unfold serve. keeping. Qed.
Lemma keeps_install_handlers t c u P : grows P →
  keeps (at_point start t c u P) (install_handlers (R := R) (W := W)).
Proof. intros HP. unfold install_handlers. keeping. Qed.
Lemma keeps_env_text name d t c u P : grows P →
  keeps (at_point start t c u P) (env_text (R := R) (W := W) name d).
Proof. intros HP. unfold env_text. keeping. Qed.
Lemma keeps_load_deployment location t c u P : grows P →
  keeps (at_point start t c u P) (_load_runtime_deployment (R := R) (W := W) location).
Proof. intros HP. unfold _load_runtime_deployment. keeping. Qed.
Hint Resolve keeps_serve keeps_install_handlers keeps_env_text keeps_load_deployment : trace.

(** The tasks start when all is known, and have ended unless the loop still serves. *)
Lemma assemble_spec fuel spec section executor u P : grows P →
  (∀ l, P l → require_executor_capabilities executor (capabilities spec) = Ok tt → start l) →
  traced (at_point start false true u P) (assemble fuel spec section executor)
    (λ r, at_point start (match r with None => true | Some _ => false end) true u P)
    (λ _, at_point start false true u P).
Proof.
  intros HP Hstart. unfold assemble.
  apply (traced_bind _ _ (λ _ l, require_executor_capabilities executor (capabilities spec) = Ok tt
    ∧ at_point start false true u P l)).
  { apply traced_lifts; [intros [] l Hl Hr|intros e l Hl Hr]; done. }
  intros ?. apply traced_pure. intros Hcap.
  do 8 (apply traced_keep; [solve [keeping]|done|intros ?]).
  apply (traced_bind _ _ (λ _, at_point start true true u P)).
  { apply traced_ask. intros l (Ht & Hc & Hu & Ho & Hl). split; [intros []|intros x].
    - split_and!; [done|done|done|split; [done|by apply Hstart]|by apply HP].
    - split_and!; [done|done|done|split; [done|by apply Hstart]|by apply HP]. }
  intros ?. apply (traced_finally_done _ _ (λ _, at_point start true true u P) (λ _, at_point start true true u P)).
  - apply keeps_mono; [by apply keeps_serve|done..].
  - done.
  - intros ?. by apply stop_tasks_spec.
  - intros ?. by apply stop_tasks_spec.
Qed.

(** The GPUs are checked before anything is opened. *)
Lemma preflight_spec_daemon spec section P : grows P →
  traced (at_point start false false false P) (_run_gpu_preflight spec section)
    (λ _, at_point start false false false (λ l, P l ∧ gpus_checked spec section l))
    (λ _, at_point start false false false P).
Proof.
  intros HP. unfold _run_gpu_preflight. destruct (_ || _) eqn:Eskip.
  - apply traced_ret. intros l. apply at_point_mono. intros l' Hl. split; [done|].
    apply orb_true_iff in Eskip as [E|E%negb_true_iff]; [left|right; by left]. by destruct (gpu_uuids spec).
  - do 3 (apply traced_keep; [solve [keeping]|done|intros ?]).
    case_bool_decide; [|case_bool_decide].
    + eapply traced_bind; [by apply traced_note|]. intros outcome. apply traced_lifts.
      * intros [] l Hl Hr. revert Hl. apply at_point_mono. intros l' [Hl Hin]. split; [done|].
        right; right; left. by eexists _, _.
      * intros e l Hl _. revert Hl. apply at_point_mono. naive_solver.
    + apply traced_keep; [solve [keeping]|done|intros ?]. apply traced_guard; [done|]. intros _.
      apply traced_keep; [solve [keeping]|done|intros ?].
      eapply traced_bind; [by apply traced_note|]. intros h. apply traced_lifts.
      * intros [] l Hl Hr. revert Hl. apply at_point_mono. intros l' [Hl Hin]. split; [done|].
        right; right; right. by eexists _, _, _, _.
      * intros e l Hl _. revert Hl. apply at_point_mono. naive_solver.
    + by apply traced_throws.
Qed.

(** A runtime is made of a manifest, and of a manifest only. *)
Definition runtime_of (source : execution_source) (runtime : option R) : Prop :=
  match source with Factory _ => runtime = None | Manifest _ => is_Some runtime end.
Lemma make_runtime_spec spec source P : grows P →
  traced (at_point start false true false P) (make_runtime provider_types spec source)
    (λ runtime l, runtime_of source runtime ∧ at_point start false true false P l)
    (λ _, at_point start false true false P).
Proof.
  intros HP. destruct source as [name|location]; cbn [make_runtime].
  - by apply traced_ret.
  - do 4 (apply traced_keep; [solve [keeping]|done|intros ?]). apply traced_ret. intros l Hl.
    split; [by eexists|done].
Qed.

(** A runtime may be up only when there is one. *)
Definition may_be_up (runtime : option R) P l : Prop :=
  ∃ u, (runtime = None → u = false) ∧ at_point start false true u P l.
Lemma traced_note_up r P (Q : list (Trace.entry (daemon_op R)) → Prop) {A} (o : daemon_op R A) :
  quiet o = true → grows Q → (∀ l, Q l → P l) →
  traced (at_point start false true true Q) (ask o)
    (λ a, at_point start false true true (λ l, Q l ∧ Trace.Entry o (Ok a) ∈ l)) (λ _, may_be_up (Some r) P).
Proof.
  intros Hq HQ HP. eapply traced_conseq; [by apply traced_note|done|done|].
  intros e l Hl. exists true. split; [done|]. revert Hl. by apply at_point_mono.
Qed.
Lemma make_executor_spec source executor_section runtime_section runtime P : grows P →
  runtime_of source runtime →
  traced (at_point start false true false P) (make_executor source executor_section runtime_section runtime)
    (λ executor, at_point start false true (match runtime with Some _ => true | None => false end)
                   (λ l, P l ∧ executor_from source executor l))
    (λ _, may_be_up runtime P).
Proof.
  intros HP Hr. destruct source as [name|location]; cbn in Hr.
  - subst. cbn [make_executor].
    apply traced_keep; [solve [keeping]|intros ? l Hl; by exists false|intros settings].
    eapply traced_conseq; [by apply (traced_note false true false P)|done| |].
    + intros executor l. apply at_point_mono. intros l' [Hl Hin]. split; [done|]. by exists settings.
    + intros e l Hl. by exists false.
  - destruct Hr as [r ->]. cbn [make_executor].
    apply traced_keep; [solve [keeping]|intros ? l Hl; by exists false|intros startup].
    apply (traced_bind _ _ (λ _, at_point start false true true
      (λ l, P l ∧ Trace.Entry (EnsureReady r startup) (Ok tt) ∈ l))).
    { apply traced_ask. intros l (Ht & Hc & Hu & Ho & Hl). split; [intros []|intros x].
      - split_and!; [done..|by apply HP|by left].
      - exists true. split; [done|]. split_and!; [done..|by apply HP]. }
    intros ?. eapply traced_bind.
    { apply (traced_note_up r P); [done|apply daemon_grows_and; auto with trace|naive_solver]. }
    intros executor. cbn beta. apply traced_keep; [solve [keeping]| |intros shutdown].
    { intros e l Hl. exists true. split; [done|]. revert Hl. apply at_point_mono. naive_solver. }
    eapply traced_bind.
    { apply (traced_note_up r P); [done|repeat apply daemon_grows_and; auto with trace|naive_solver]. }
    intros []. apply traced_ret. intros l. apply at_point_mono. intros l' [[[Hl H1] H2] H3].
    split; [done|]. by exists r, startup, shutdown.
Qed.

(** After the end nothing runs, and what is still up could not be shut down. *)
Definition closed_down (runtime_section : dict pyval) P l : Prop :=
  ∃ u, at_point start false false u P l ∧
    (u = true → ∃ e, seconds "shutdown_timeout_seconds" 60 runtime_section = Err e).
Lemma close_down_spec runtime_section runtime u P : grows P → (runtime = None → u = false) →
  traced (at_point start false true u P) (close_down runtime_section runtime)
    (λ _, closed_down runtime_section P) (λ _, closed_down runtime_section P).
Proof.
  intros HP Hu. unfold close_down.
  assert (traced (at_point start false false u P)
    (match runtime with
     | Some r => shutdown ← lifts (seconds "shutdown_timeout_seconds" 60 runtime_section);
                 ask (ShutdownOwned r shutdown)
     | None => mret tt
     end) (λ _, closed_down runtime_section P) (λ _, closed_down runtime_section P)) as Hrest.
  { destruct runtime as [r|].
    - destruct (seconds _ _ _) as [shutdown|e] eqn:E.
      + apply (traced_bind _ _ (λ _, at_point start false false u P)); [by apply traced_lifts|intros ?].
        apply traced_ask. intros l (Ht & Hc & Hup & Ho & Hl).
        split; intros ?; (exists false; split; [|done]; split_and!; [done..|by split|by apply HP]).
      + apply (traced_bind _ _ (λ _ _, False)); [|by intros ? ? []].
        apply traced_lifts; [done|]. intros e' l Hl [= ->]. exists u. split; [done|]. intros _. by exists e'.
    - apply traced_ret. intros l Hl. rewrite (Hu eq_refl) in Hl. by exists false. }
  apply (traced_finally _ _ (λ _, at_point start false false u P) (λ _, at_point start false false u P));
    [|intros ?; exact Hrest..].
  apply traced_ask. intros l (Ht & Hc & Hup & Ho & Hl).
  split; intros ?; (split_and!; [done..|by split|by apply HP]).
Qed.
End closes.

(** ** The daemon as a whole *)

Section whole.
Context {R W : Type} `{Handler (daemon_op R) W} `{!PromptLoop R W} {DL : DriverLibrary}.
Context (provider_types : dict (dict pyval → result (RuntimeProvider R))).
Abbreviation event := (Trace.entry (daemon_op R)).

(** The configured time to shut a runtime down is no number. *)
Definition no_shutdown_time (config_path : string) (l : list event) : Prop :=
  ∃ config runtime_section e, Trace.Entry (LoadToml config_path) (Ok config) ∈ l ∧
    section_of "runtime" config = Ok runtime_section ∧
    seconds "shutdown_timeout_seconds" 60 runtime_section = Err e.

(** Nothing is left behind. *)
Definition all_closed (config_path : string) (l : list event) : Prop :=
  tasks_run l = false ∧ client_open l = false ∧ (runtime_up l = false ∨ no_shutdown_time config_path l).

Lemma closed_down_all config_path start config runtime_section P l :
  (∀ l, P l → Trace.Entry (LoadToml config_path) (Ok config) ∈ l) →
  section_of "runtime" config = Ok runtime_section →
  closed_down start runtime_section P l → orderly start l ∧ all_closed config_path l.
Proof.
  intros HP Hs ([|] & (Ht & Hc & Hu & Ho & Hl) & Hup); (split; [done|]); (split_and!; [done..|]).
  - right. destruct (Hup eq_refl) as [e He]. exists config, runtime_section, e. auto.
  - by left.
Qed.
Lemma at_rest start config_path P l : at_point start false false false P l →
  orderly start l ∧ all_closed config_path l.
Proof. intros (Ht & Hc & Hu & Ho & Hl). split; [done|]. split_and!; auto. Qed.

(** What is left of the daemon once its client exists. *)
Definition with_client fuel section executor_section runtime_section source spec : eff (logged (daemon_op R) W) (option unit) :=
  runtime ← on_error (close_down runtime_section None) (make_runtime provider_types spec source);
  finally_done
    (executor ← make_executor source executor_section runtime_section runtime;
     assemble fuel spec section executor)
    (close_down runtime_section runtime).
Lemma with_client_spec start fuel section executor_section runtime_section source spec P : grows P →
  (∀ executor l, P l → executor_from source executor l →
    require_executor_capabilities executor (capabilities spec) = Ok tt → start l) →
  traced (at_point start false true false P)
    (with_client fuel section executor_section runtime_section source spec)
    (λ r l, match r with Some _ => closed_down start runtime_section P l | None => orderly start l end)
    (λ _, closed_down start runtime_section P).
Proof.
  intros HP Hstart. unfold with_client.
  apply (traced_bind _ _ (λ runtime l, runtime_of source runtime ∧ at_point start false true false P l)).
  { apply (triple_on_error _ _ _ (λ _ s, at_point start false true false P (lg_log s)));
      [by apply make_runtime_spec|]. intros e. by apply (close_down_spec start runtime_section None false P). }
  intros runtime. apply traced_pure. intros Hr.
  set (u := match runtime with Some _ => true | None => false end).
  apply (traced_finally_done _ _
    (λ r, at_point start (match r with None => true | Some _ => false end) true u P)
    (λ _, may_be_up start runtime P)).
  - eapply traced_bind; [by apply make_executor_spec|]. intros executor. fold u.
    eapply traced_conseq; [eapply (assemble_spec start fuel spec section executor u
      (λ l, P l ∧ executor_from source executor l))|done|..].
    + auto with trace.
    + intros l [Hl Hx] Hcap. by eapply Hstart.
    + intros a l. apply at_point_mono. naive_solver.
    + intros e l Hl. exists u. split; [by intros ->|]. revert Hl. apply at_point_mono. naive_solver.
  - by intros l (_ & _ & _ & Ho & _).
  - intros []. apply close_down_spec; [done|]. by intros ->.
  - intros e. apply traced_exists. intros u'. apply traced_pure. intros Hu. by apply close_down_spec.
Qed.

Lemma run_worker_spec fuel config_path manifest_argument :
  traced (at_point (admitted config_path manifest_argument) false false false (λ _, True))
    (run_worker provider_types fuel config_path manifest_argument)
    (λ r l, orderly (admitted config_path manifest_argument) l ∧ (r ≠ None → all_closed config_path l))
    (λ _ l, orderly (admitted config_path manifest_argument) l ∧ all_closed config_path l).
Proof.
  set (start := admitted config_path manifest_argument). unfold run_worker.
  eapply traced_bind.
  { eapply traced_conseq; [by apply (traced_note start false false false (λ _, True))|done|done|].
    intros e l. apply at_rest. }
  intros config. cbn beta. set (P := λ l, True ∧ Trace.Entry (LoadToml config_path) (Ok config) ∈ l).
  assert (grows P) as HP by (apply daemon_grows_and; auto with trace).
  do 3 (apply traced_given; [intros e l; apply at_rest|]; intros ? ?).
  apply traced_guard; [intros _ l; apply at_rest|intros _].
  apply traced_given; [intros e l; apply at_rest|]. intros source Hsource.
  apply traced_keep; [by apply keeps_quiet|intros e l; apply at_rest|]. intros token.
  apply traced_guard; [intros _ l; apply at_rest|intros _].
  apply traced_given; [intros e l; apply at_rest|]. intros spec Hspec.
  eapply traced_bind.
  { eapply traced_conseq; [by apply preflight_spec_daemon|done|done|]. intros e l. apply at_rest. }
  intros ?. cbn beta. set (P' := λ l, P l ∧ gpus_checked spec a l).
  assert (grows P') as HP' by (apply daemon_grows_and; auto with trace).
  do 2 (apply traced_given; [intros e l; apply at_rest|]; intros ? ?).
  apply (traced_bind _ _ (λ _, at_point start false true false P')).
  { apply traced_ask. intros l (Ht & Hc & Hu & Ho & Hl). split; [intros []|intros x].
    - split_and!; [done..|by split|by apply HP'].
    - apply (at_rest start config_path P'). split_and!; [done..|by split|by apply HP']. }
  intros ?. eapply traced_conseq; [eapply (with_client_spec start); [exact HP'|]|done|..].
  - intros executor l [[_ Hload] Hgpu] Hx Hcap. unfold start, admitted. naive_solver.
  - intros [[]|] l; [|done]. intros Hl.
    destruct (closed_down_all config_path start config a1 P' l) as [Ho Hc];
      [by intros l' [[_ Hload] _]|done..|]. by split.
  - intros e l. apply (closed_down_all config_path start config a1 P'); [by intros l' [[_ Hload] _]|done].
Qed.

(** Property C32: the daemon starts its tasks only for a Worker whose configuration was read,
    whose GPUs were checked and whose executor (with the runtime behind it ready and supervised)
    offers its capabilities; however it ends, every task was stopped and waited for, then the
    client closed, then the runtime shut down, in this order.  Only a shutdown time that is no
    number keeps a runtime from being shut down. *)
Theorem daemon_closes_down fuel config_path manifest_argument (w : W) :
  let out := run_worker provider_types fuel config_path manifest_argument (Build_logged w []) in
  orderly (admitted config_path manifest_argument) (lg_log out.1) ∧
  (out.2 ≠ Ok None → all_closed config_path (lg_log out.1)).
Proof.
  cbv zeta. pose proof (run_worker_spec fuel config_path manifest_argument (Build_logged w [])) as Hr.
  destruct (run_worker _ _ _ _ _) as [s [r|e]]; cbn in Hr |- *.
  - destruct Hr as [Ho Hc]; [by split_and!|]. split; [done|]. intros Hne. apply Hc. by intros ->.
  - by destruct Hr as [Ho Hc]; [split_and!|].
Qed.
End whole.

(** ** What the setup accepts *)

Lemma specs_agree (section : dict pyval) spec :
  _worker_spec section = Ok spec ↔ _build_spec section = Ok spec.
Proof.
  unfold _worker_spec, _build_spec, str_list. change get_or with get_default.
  unfold mbind, result_bind.
  repeat match goal with
  | |- context [match ?x with Ok _ => _ | Err _ => _ end] => destruct x; cbn beta iota
  end; split; intros [=]; try done; congruence.
Qed.

(** What the daemon reads in the Worker's section is what the contract says. *)
Definition reads_contract (section : dict pyval) (c : InstalledWorkerContract) : Prop :=
  _build_spec section = Ok (ic_spec c) ∧
  (v ← item "control_url" section; py_str v) = Ok (ic_control_url c) ∧
  py_int (get_default "max_concurrency" (PInt 1) section) = Ok (ic_max_concurrency c) ∧
  0 < ic_max_concurrency c ∧
  py_int (get_default "health_port" (PInt 9100) section) = Ok (ic_health_port c) ∧
  1 ≤ ic_health_port c ≤ 65535 ∧
  (∃ s, py_str (get_default "health_host" (PStr "127.0.0.1") section) = Ok s ∧
     strip s = ic_health_host c ∧ ic_health_host c ≠ EmptyString) ∧
  get_default "gpu_preflight" (PBool true) section = ic_gpu_preflight c.

Lemma has_text_truthy section key : has_text section key = Ok tt → truthy (get key section) = true.
Proof.
  unfold has_text, py_or. destruct (truthy (get key section)); [done|]. cbn. done.
Qed.

Lemma spec_or_invalid_Ok r spec : spec_or_invalid r = Ok spec → r = Ok spec.
Proof. destruct r as [?|[]]; by intros [=]; subst. Qed.

Lemma worker_contract_reads parsed section contract : worker_contract parsed section = Ok contract →
  missing_keys section = [] ∧ ∀ mode manifest, reads_contract section (contract mode manifest).
Proof.
  unfold worker_contract. intros Hc. simp_res. bools. split.
  - unfold missing_keys. cbn [List.filter foldR] in *. simp_res.
    repeat match goal with H : has_text _ _ = Ok ?u |- _ => destruct u; apply has_text_truthy in H; rewrite H end.
    done.
  - intros mode manifest. unfold reads_contract. cbn.
    match goal with H : spec_or_invalid _ = _ |- _ => apply spec_or_invalid_Ok, specs_agree in H end.
    split_and!; try done; try lia.
    + by match goal with H : item _ _ = Ok _ |- _ => rewrite H end.
    + match goal with H : py_str (get_or "health_host" _ _) = Ok ?h |- _ => exists h end.
      split_and!; [done..|]. by intros E; rewrite E in *.
Qed.

Lemma worker_contract_modes parsed section contract : worker_contract parsed section = Ok contract →
  ∀ mode manifest, ic_execution_mode (contract mode manifest) = mode.
Proof. intros Hc. apply worker_contract_Ok in Hc as (spec & Hc). intros mode manifest. apply Hc. Qed.

(** How a mode executes. *)
Definition execution_of (mode : string) : execution_source :=
  if bool_decide (mode = "smoke") then Factory SMOKE_EXECUTOR_FACTORY else Manifest DEFAULT_RUNTIME_MANIFEST.

Lemma smoke_executes text parsed executor contract c : smoke_contract text parsed executor contract = Ok c →
  c = contract "smoke" None ∧
  choose_execution executor [] None = Ok (Factory SMOKE_EXECUTOR_FACTORY).
Proof.
  unfold smoke_contract. intros Hs. simp_res. split; [done|].
  unfold choose_execution, get_default. unfold get in *.
  destruct (dget "factory" executor) as [[| | | |f| |]|]; cbn in *; try done.
  bools. by subst.
Qed.
Lemma runtime_executes text parsed runtime contract c : runtime_contract text parsed runtime contract = Ok c →
  c = contract "runtime" (Some DEFAULT_RUNTIME_MANIFEST) ∧
  choose_execution [] runtime None = Ok (Manifest DEFAULT_RUNTIME_MANIFEST).
Proof.
  unfold runtime_contract. intros Hs. simp_res. bools.
  match goal with H : strip _ = DEFAULT_RUNTIME_MANIFEST |- _ => rename H into Hm end. rewrite Hm. split; [done|].
  unfold choose_execution, get_default, py_or in *. unfold get in *.
  match goal with H : py_str _ = Ok _ |- _ => revert H end.
  destruct (dget "manifest" runtime) as [v|]; cbn [default id]; [destruct (truthy v)|]; intros Hs; cbn.
  { rewrite Hs. cbn. by rewrite Hm. }
  all: injection Hs as <-; discriminate Hm.
Qed.

(** Property C33: a Worker configuration that the setup accepts is one the daemon can start
    with: no key is missing, exactly one source of execution is configured (the echo executor
    for a smoke Worker, the canonical manifest for a runtime Worker), and the specification,
    the Control's address, the concurrency and the health endpoint that the daemon reads are
    those of the contract the setup reviewed. *)
Theorem accepted_worker_starts `{Toml} text c : parse_installed_worker_toml text = Ok c →
  ∃ config section executor runtime, toml_loads text = Some config ∧
    section_of "worker" config = Ok section ∧ section_of "executor" config = Ok executor ∧
    section_of "runtime" config = Ok runtime ∧
    missing_keys section = [] ∧
    choose_execution executor runtime None = Ok (execution_of (ic_execution_mode c)) ∧
    reads_contract section c.
Proof.
  unfold parse_installed_worker_toml. destruct (toml_loads text) as [config|] eqn:El; [|done].
  destruct (get "worker" config) as [| | | | | |section] eqn:Ew; try done.
  intros Hp. apply bind_Ok in Hp as (contract & Hc & Hp).
  pose proof (worker_contract_modes _ _ _ Hc) as Hmode.
  apply worker_contract_reads in Hc as [Hk Hreads].
  apply bind_Ok in Hp as (executor & He & Hp). apply bind_Ok in Hp as (runtime & Hr & Hp).
  exists config, section, executor, runtime. split_and!; try done.
  { unfold section_of, py_or. rewrite Ew. by destruct section. }
  all: destruct executor as [|x xs], runtime as [|y ys]; try done.
  - apply runtime_executes in Hp as [-> Hx]. by rewrite Hmode.
  - apply smoke_executes in Hp as [-> Hx]. by rewrite Hmode.
  - apply runtime_executes in Hp as [-> Hx]. apply Hreads.
  - apply smoke_executes in Hp as [-> Hx]. apply Hreads.
Qed.
Lemma accepted_worker_starts_witness :
  ∃ config section executor runtime, toml_loads (Toml := demo_toml) demo_runtime = Some config ∧
    section_of "worker" config = Ok section ∧ section_of "executor" config = Ok executor ∧
    section_of "runtime" config = Ok runtime ∧ missing_keys section = [] ∧
    choose_execution executor runtime None = Ok (Manifest DEFAULT_RUNTIME_MANIFEST).
Proof.
  destruct (parse_installed_worker_toml (H := demo_toml) demo_runtime) as [c|e] eqn:E.
  - destruct (accepted_worker_starts (H := demo_toml) demo_runtime c E)
      as (config & section & executor & runtime & H1 & H2 & H3 & H4 & H5 & H6 & _).
    exists config, section, executor, runtime. split_and!; try assumption.
    rewrite H6.
    assert (match parse_installed_worker_toml (H := demo_toml) demo_runtime with
            | Ok c => ic_execution_mode c | Err _ => EmptyString end = "runtime") as Hm by (vm_compute; reflexivity).
    rewrite E in Hm. rewrite Hm. reflexivity.
  - exfalso. vm_compute in E. discriminate E.
Defined.

(** ** The loop ends *)

(** A clock that does not go back, and sleeps that last [p] ticks at least. *)
Class LoopClock (R W : Type) `{Handler (daemon_op R) W} (now : W → Z) (p : Z) := {
  lc_forward A (o : daemon_op R A) w : now w ≤ now (answer o w).1;
  lc_tells w t : (answer LoopTime w).2 = Ok t → t = now (answer LoopTime w).1;
  lc_sleeps w : (answer SleepTenth w).2 = Ok tt → now w + p ≤ now (answer SleepTenth w).1;
}.

Section returns.
Context {R W : Type} `{Handler (daemon_op R) W} (now : W → Z) (p : Z) `{!LoopClock R W now p}.
Context {DL : DriverLibrary} (provider_types : dict (dict pyval → result (RuntimeProvider R))).
Hypothesis p_pos : 0 < p.
Abbreviation S' := (logged (daemon_op R) W).

(** A question that is answered, and what goes on. *)
Lemma ask_step {A B} (o : daemon_op R A) (k : A → eff S' (option B)) (s : S') :
  (∀ w a, answer o (lg_world s) = (w, Ok a) →
     (k a (Build_logged w (Trace.Entry o (Ok a) :: lg_log s))).2 ≠ Ok None) →
  ((ask o ≫= k) s).2 ≠ Ok None.
Proof.
  intros Hk. unfold mbind, eff_bind, ask. destruct (answer o (lg_world s)) as [w [a|e]]; [|done]. by apply Hk.
Qed.
Lemma ends_given {A B} (r : result A) (k : A → eff S' (option B)) :
  (∀ a, r = Ok a → ends (k a)) → ends (lifts r ≫= k).
Proof. intros Hk s. destruct r as [a|e]; [exact (Hk a eq_refl s)|done]. Qed.
Lemma forward {A} (o : daemon_op R A) w w' r : answer o w = (w', r) → now w ≤ now w'.
Proof. intros E. pose proof (lc_forward _ o w) as Hf. by rewrite E in Hf. Qed.
Lemma tells w w' t : answer LoopTime w = (w', Ok t) → t = now w'.
Proof. intros E. pose proof (lc_tells w t) as Ht. rewrite E in Ht. by apply Ht. Qed.
Lemma sleeps w w' : answer SleepTenth w = (w', Ok tt) → now w + p ≤ now w'.
Proof. intros E. pose proof (lc_sleeps w) as Hs. rewrite E in Hs. by apply Hs. Qed.

Lemma grace_loop_ends t grace fuel started : (∀ e, within_grace grace e = true → e < t) →
  ∀ s : S', started + t - now (lg_world s) ≤ p * (Z.of_nat fuel - 1) → (0 < fuel)%nat →
  (grace_loop fuel grace started s).2 ≠ Ok None.
Proof.
  intros Hg. induction fuel as [|fuel IH]; intros s Hfuel Hf; [lia|].
  cbn [grace_loop]. apply ask_step. intros w0 [|] T0%forward; [|done]. cbn [negb].
  apply ask_step. cbn [lg_world]. intros w1 read E1. pose proof (forward _ _ _ _ E1). apply tells in E1.
  destruct (within_grace grace (read - started)) eqn:Eg; [|done]. apply Hg in Eg.
  apply ask_step. cbn [lg_world]. intros w2 [] E2%sleeps.
  assert (0 < Z.of_nat fuel) as Hturn by (destruct fuel; [exfalso|]; lia).
  apply IH; [|lia]. cbn [lg_world]. nia.
Qed.

(** The grace of a Worker's section is at most [t] ticks. *)
Definition grace_within (t : Z) (section : dict pyval) : Prop :=
  ∀ f, seconds "shutdown_grace_seconds" 30 section = Ok f → ∀ e, within_grace (grace_of f) e = true → e < t.

Lemma serve_ends t fuel section : 0 ≤ t → t ≤ p * (Z.of_nat fuel - 1) → grace_within t section →
  ends (S := S') (serve fuel section).
Proof.
  intros Ht Hfuel Hg. unfold serve. do 3 (apply trace_ends_bind; intros ?).
  apply trace_ends_and_then.
  - case_bool_decide; [|apply trace_ends_ret]. unfold drain_gracefully.
    apply trace_ends_bind; intros [|]; cbn [negb]; [|apply trace_ends_ret].
    apply trace_ends_bind; intros ?. destruct (seconds _ _ _) as [f|e] eqn:Ef; [|by intros s].
    intros s. change (((started ← ask LoopTime; and_then (grace_loop fuel (grace_of f) started)
      (λ _, active ← ask ActiveJob; mret (Some active))) s).2 ≠ Ok None).
    apply ask_step. intros w started E%tells. unfold and_then, mbind, eff_bind.
    pose proof (grace_loop_ends t (grace_of f) fuel started (Hg f Ef)
      (Build_logged w (Trace.Entry LoopTime (Ok started) :: lg_log s))) as Hl.
    destruct (grace_loop _ _ _ _) as [s' [[[]|]|e]]; [|exfalso; apply Hl; cbn; first [reflexivity|nia]|done].
    destruct (ask ActiveJob s') as [s'' []]; done.
  - intros forced. do 4 (apply trace_ends_bind; intros ?). apply trace_ends_ret.
Qed.

(** The daemon returns once its tasks do: when the configured grace is at most [t] ticks,
    [t / p + 1] looks at the job in hand are enough. *)
Theorem daemon_returns t fuel config_path manifest_argument (s : S') :
  0 ≤ t → t ≤ p * (Z.of_nat fuel - 1) →
  (∀ w config section, (answer (LoadToml config_path) w).2 = Ok config →
     section_of "worker" config = Ok section → grace_within t section) →
  (run_worker provider_types fuel config_path manifest_argument s).2 ≠ Ok None.
Proof.
  intros Ht Hfuel Hgrace. unfold run_worker. apply ask_step. intros w config Hload.
  match goal with |- (_ ?s').2 ≠ _ => generalize s' end.
  match goal with |- ∀ s', (?m s').2 ≠ _ => change (ends m) end.
  apply ends_given. intros section Es.
  assert (grace_within t section) as Hg by (eapply Hgrace; [by rewrite Hload|done]).
  do 12 (apply trace_ends_bind; intros ?). apply trace_ends_finally_done.
  apply trace_ends_bind; intros executor. unfold assemble. do 9 (apply trace_ends_bind; intros ?).
  apply trace_ends_bind; intros ?. apply trace_ends_finally_done. by apply (serve_ends t).
Qed.
End returns.

(** ** A small daemon *)

(** A Worker with a runtime behind it: its configuration, what the host answers, and a signal
    that stops it while a job is in hand for two looks. *)
Section small.
Context (shutdown_timeout : pyval).
Definition small_config : dict pyval :=
  [("worker", PDict [("id", PStr "worker-1"); ("class", PStr "gpu"); ("control_url", PStr "http://control");
                     ("capabilities", PList [PStr "llm.chat"]); ("gpu_uuids", PList [PStr "GPU-1"; PStr "GPU-2"]);
                     ("gpu_preflight", PBool false); ("gpu_count", PInt 2);
                     ("total_vram_mb", PInt 20000); ("max_single_gpu_vram_mb", PInt 12000)]);
   ("runtime", PDict [("manifest", PStr "/etc/runtime.json"); ("shutdown_timeout_seconds", shutdown_timeout)])].
Definition small_answer A (o : daemon_op Z A) (w : Z) : Z * result A :=
  match o in daemon_op _ A return Z * result A with
  | LoadToml _ => (w, Ok small_config)
  | ReadManifest _ => (w, Ok "deployment")
  | GetEnv name => (w, Ok (if bool_decide (name = "ASTRUMWEAVER_WORKER_TOKEN") then Some "token" else None))
  | VisibleGpus _ => (w, Ok None)
  | InspectHost => (w, Err (RuntimeError "no host"))
  | HostFacts => (w, Ok (Some 8, Some "MemTotal: 32768000 kB", "x86_64"))
  | RuntimeExecutor _ | LoadExecutor _ _ => (w, Ok (Some (StrIter ["llm.chat"])))
  | HasSignal _ | AddSignalHandler _ | Registered => (w, Ok true)
  | FirstCompleted => (w, Ok [TSignal])
  | TaskException _ => (w, Ok None)
  | ActiveJob => (w, Ok (w <? 2))
  | LoopTime => (w, Ok w)
  | SleepTenth => (w + 1, Ok tt)
  | TaskDone t => (w, Ok (bool_decide (t = TSignal)))
  | CreateClient _ _ _ | CloseClient | EnsureReady _ _ | MakeSupervisor _ _ | ShutdownOwned _ _
  | MakeWorkerRuntime _ _ _ | MakeHealthServer _ _ | StartTasks | DrainWorker | RequestStop | ExitServer
  | CancelTask _ | Gather _ => (w, Ok tt)
  end.
End small.
#[local] Instance small_daemon : Handler (daemon_op Z) Z := { answer := small_answer (PInt 60) }.
#[local] Instance daemon_library : DriverLibrary := {
  json_loads _ := Some (PDict (deployment_to_dict demo_deployment));
  format_g _ := EmptyString; float_of_text _ := None; duration_of _ := Ticks 300 }.
Definition small_run : logged (daemon_op Z) Z * result (option unit) :=
  run_worker demo_types 301 "worker.toml" None (Build_logged 0 []).
#[local] Instance small_prompt : PromptLoop Z Z.
Proof. intros A o w. destruct o; intros [=]; by eexists. Qed.
#[local] Instance small_clock : LoopClock Z Z id 1.
Proof. split; [intros A o w; destruct o; cbn; lia|by intros w t [= ->]|intros w _; cbn; lia]. Qed.

(** It serves, waits for the job in hand, and ends. *)
Example small_daemon_serves : small_run.2 = Ok (Some tt) ∧
  List.filter (λ e, match e with Trace.Entry o _ => match o with SleepTenth => true | _ => false end end)
    (lg_log small_run.1) = [Trace.Entry SleepTenth (Ok tt); Trace.Entry SleepTenth (Ok tt)].
Proof. vm_compute. done. Qed.

Lemma daemon_closes_down_witness :
  orderly (admitted "worker.toml" None) (lg_log small_run.1) ∧ all_closed "worker.toml" (lg_log small_run.1).
Proof.
  destruct (daemon_closes_down demo_types 301 "worker.toml" None (0 : Z)) as [Ho Hc].
  split; [exact Ho|]. apply Hc. vm_compute. discriminate.
Defined.

Lemma small_daemon_returns : small_run.2 ≠ Ok None.
Proof.
  apply (daemon_returns id 1 demo_types eq_refl 300 301 "worker.toml" None (Build_logged 0 []));
    [vm_compute; discriminate|vm_compute; discriminate|].
  intros w config section [= <-] Hs f Hf e He. vm_compute in Hs. injection Hs as <-.
  vm_compute in Hf. injection Hf as <-. cbn in He. lia.
Defined.

(** A shutdown time that is no number is seen only after the runtime was started: the daemon
    fails, and the runtime it owns stays up. *)
Example unstopped_runtime :
  let unsound : Handler (daemon_op Z) Z := {| answer := small_answer (PStr "soon") |} in
  let out := run_worker demo_types 301 "worker.toml" None (Build_logged 0 []) in
  (∃ m, out.2 = Err (ValueError m)) ∧ runtime_up (lg_log out.1) = true ∧ client_open (lg_log out.1) = false.
Proof. vm_compute. split_and!; [by eexists|done..]. Qed.
(** So is one that is not positive: the lifecycle manager refuses it and stops nothing. *)
Lemma shutdown_time_refused t m : t ≤ 0 →
  Lifecycle.shutdown_owned (Some t) m = (m, Err (ValueError "shutdown timeout must be finite and positive")).
Proof. intros Ht. cbn. by rewrite (proj2 (Z.leb_le t 0) Ht). Qed.

(** The echo executor gives the payload back, and sleeps at most half a minute (or for a time
    that is not a number). *)
Lemma echo_gives_back capability payload slept r : echo_execute capability payload = Ok (slept, r) →
  res_outputs r = [("capability", PStr capability); ("payload", PDict payload)] ∧
  ∀ f, slept = Some f → float_lt_Z f 0 = false ∧ (f = S754_nan ∨ float_le_Z f 30 = true).
Proof.
  unfold echo_execute, mk_JobResult. intros He. simp_res. bools. split; [done|].
  intros f. destruct (float_is_zero _); [done|]. intros [= <-].
  split; [assumption|].
  match goal with H : match ?x with _ => _ end = false |- _ => destruct x; try (by left); right; by bools end.
Qed.

(** A text that a runtime names is the text of the result, and among its outputs. *)
Lemma coerced_text value r : _coerce_text_result value = Ok r →
  match value with
  | AResult r' => r = r'
  | AText s => res_text r = Some s ∧ dget "text" (res_outputs r) = Some (PStr s)
  | AMapping d => res_outputs r = d ∧ ∀ s, res_text r = Some s → ∃ key, dget key d = Some (PStr s)
  | AnObject s _ => res_text r = Some s ∧ is_Some (dget "text" (res_outputs r))
  | Unsupported => False
  end.
Proof.
  destruct value as [r'|s|d|s raw|]; cbn; [by intros [= <-]|by intros [= <-]| |  |done].
  - intros [= <-]. split; [done|]. cbn. unfold _extract_text. intros s. cbn beta zeta.
    destruct (dget "text" d) as [[]|] eqn:E1, (dget "response" d) as [[]|] eqn:E2,
      (dget "content" d) as [[]|] eqn:E3; intros [= <-]; eauto.
  - intros [= <-]. split; [done|]. cbn. destruct (dget "text" (default _ raw)) as [v|] eqn:E; [by rewrite E|].
    by rewrite dget_dset_eq.
Qed.
