(* ===== verification/Tui.v ===== *)
(** * The terminal interface of the setup

    Models [src/src/astrumweaver/setup/tui.py]: the options of the providers, the prompts, the
    choice of a runtime, the review, the approval, and the two wizards.  The terminal, the setup
    driver, the installer and the system answer the operations [tui_op]; the turns of a prompt
    that is asked again are fuel, and [None] says that they ran out. *)

From Stdlib Require Import SpecFloat.
From S2P Require Import Prelude PyStr PyDict PyVal PyHost Effects Trace PyText PyNum Contracts Json Models RuntimeContracts Planner Deployment Providers LlamaCpp Vllm FreeToken ExLlama Ollama Api SetupContracts SetupPlanner SetupApply Migration Discovery Systemd ControlDaemon FirstRun.

(** ** Values *)

(** [TuiRunStatus], setup/tui.py lines 112-117. *)
Inductive TuiRunStatus := TUI_PLANNED | TUI_CANCELLED | TUI_BLOCKED | TUI_APPLIED | TUI_FAILED.
#[export] Instance TuiRunStatus_eq : EqDecision TuiRunStatus.
Proof. solve_decision. Defined.

(** [TuiRunResult], setup/tui.py lines 120-125. *)
Record TuiRunResult := {
  tr_status : TuiRunStatus;
  tr_provider_id : option string;
  tr_plan_digest : option string;
  tr_apply_result : option SetupApplyResult;
}.

(** [RuntimeTuiPlan], setup/tui.py lines 128-131. *)
Record RuntimeTuiPlan := { rt_provider_id : string; rt_plan : SetupPlan }.

(** ** Options *)

Section options.
Context {DL : DriverLibrary}.

(** [_parse_bool], setup/tui.py lines 144-150. *)
Definition _parse_bool (value : string) : result bool :=
  let normalized := lower (strip value) in
  if bool_decide (normalized ∈ ["1"; "true"; "yes"; "y"; "on"]) then Ok true
  else if bool_decide (normalized ∈ ["0"; "false"; "no"; "n"; "off"]) then Ok false
  else Err (ValueError "expected yes/no or true/false").

(** [value.strip().lower() in {"none", "auto", "default"}]. *)
Definition says_default (value : string) : bool :=
  bool_decide (lower (strip value) ∈ ["none"; "auto"; "default"]).

(** [float(text)]. *)
Definition float_text (s : string) : result spec_float :=
  match float_of_text s with
  | Some f => Ok f
  | None => Err (ValueError ("could not convert string to float: '" +:+ s +:+ "'"))
  end.

(** The parsers of the options, setup/tui.py lines 153-176. *)
Definition parse_bool_value (value : string) : result pyval := b ← _parse_bool value; Ok (PBool b).
Definition _parse_optional_bool (value : string) : result pyval :=
  if says_default value then Ok PNone else parse_bool_value value.
Definition _parse_int (value : string) : result pyval := z ← int_of_str (strip value); Ok (PInt z).
Definition _parse_optional_int (value : string) : result pyval :=
  if says_default value then Ok PNone else _parse_int value.
Definition _parse_float (value : string) : result pyval := f ← float_text (strip value); Ok (PFloat f).
Definition _parse_optional_float (value : string) : result pyval :=
  if says_default value then Ok PNone else _parse_float value.

(** The items of a list between commas. *)
Definition comma_items (value : string) : list string :=
  List.filter str_truthy (strip <$> split_char "," (strip value)).
(** [_parse_float_tuple], setup/tui.py lines 179-186. *)
Definition _parse_float_tuple (value : string) : result pyval :=
  if says_default value then Ok PNone
  else
    values ← mapR float_text (comma_items value);
    require (match values with [] => false | _ => true end) (ValueError "expected comma-separated numbers");;
    Ok (PList (PFloat <$> values)).
(** [_parse_int_tuple], setup/tui.py lines 189-196. *)
Definition _parse_int_tuple (value : string) : result pyval :=
  if says_default value then Ok PNone
  else
    values ← mapR int_of_str (comma_items value);
    require (match values with [] => false | _ => true end) (ValueError "expected comma-separated integers");;
    Ok (PList (PInt <$> values)).

(** [_parse_gpu_layers], setup/tui.py lines 199-205. *)
Definition _parse_gpu_layers (value : string) : result pyval :=
  let normalized := lower (strip value) in
  if bool_decide (normalized ∈ ["none"; "default"]) then Ok PNone
  else if bool_decide (normalized ∈ ["auto"; "all"]) then Ok (PStr normalized)
  else z ← int_of_str normalized; Ok (PInt z).

(** [_enum_parser], setup/tui.py lines 208-212. *)
Definition _enum_parser (A : Type) `{StrEnum A} (value : string) : result pyval :=
  a ← enum_of (A := A) (strip value); Ok (PStr (enum_value a)).

(** [str]. *)
Definition parse_text (value : string) : result pyval := Ok (PStr value).

(** [TuiOptionSpec], setup/tui.py lines 134-138. *)
Record TuiOptionSpec := { op_field_name : string; op_label : string; op_parser : string → result pyval }.
Definition spec_of (name label : string) (parser : string → result pyval) : TuiOptionSpec :=
  {| op_field_name := name; op_label := label; op_parser := parser |}.

(** [_PROVIDER_OPTIONS], setup/tui.py lines 225-262. *)
Definition _PROVIDER_OPTIONS : dict (list TuiOptionSpec) :=
  [("ollama", [spec_of "keep_alive" "model keep-alive" parse_text]);
   ("llama-cpp",
     [spec_of "context_size" "context size" _parse_int;
      spec_of "gpu_layers" "GPU layers (auto/all/int)" _parse_gpu_layers;
      spec_of "split_mode" "multi-GPU split mode" (_enum_parser LlamaCppSplitMode);
      spec_of "tensor_split" "tensor split weights" _parse_float_tuple;
      spec_of "fit" "automatic fit" _parse_optional_bool;
      spec_of "cpu_moe" "CPU MoE" parse_bool_value;
      spec_of "n_cpu_moe" "CPU MoE layers" _parse_optional_int;
      spec_of "n_cpu_ffn" "CPU FFN layers" _parse_optional_int]);
   ("vllm",
     [spec_of "gpu_memory_utilization" "GPU memory utilization" _parse_float;
      spec_of "tensor_parallel_size" "tensor parallel size" _parse_optional_int;
      spec_of "enable_expert_parallel" "expert parallel" _parse_optional_bool;
      spec_of "cpu_offload_gb" "CPU offload GiB per GPU" _parse_float;
      spec_of "enforce_eager" "enforce eager execution" parse_bool_value]);
   ("freetoken",
     [spec_of "moe_strategy" "MoE strategy" (_enum_parser FreeTokenMoeStrategy);
      spec_of "memory_ratio" "GPU memory ratio" _parse_float;
      spec_of "moe_cache_size" "MoE cache slots" _parse_optional_int;
      spec_of "moe_cache_rate" "MoE cache fraction" _parse_optional_float;
      spec_of "moe_cpu_threads" "MoE CPU threads" _parse_optional_int]);
   ("exllamav3",
     [spec_of "multi_gpu_mode" "multi-GPU mode" (_enum_parser ExLlamaMultiGpuMode);
      spec_of "tensor_parallel_backend" "tensor-parallel backend" parse_text;
      spec_of "gpu_split" "GPU split GiB" _parse_float_tuple;
      spec_of "autosplit_reserve_mb" "autosplit reserve MiB" _parse_int_tuple;
      spec_of "cache_mode" "cache mode" parse_text;
      spec_of "max_seq_len" "maximum sequence length" _parse_optional_int;
      spec_of "max_batch_size" "maximum batch size" _parse_optional_int])].
End options.

(** [str] of a scalar of a configuration. *)
Definition scalar_text `{Digests} (v : pyval) : result string :=
  match v with PFloat f => Ok (float_repr f) | _ => py_str v end.
(** [_format_option], setup/tui.py lines 215-222; a tuple is a list, a member of an enum its
    value. *)
Definition _format_option `{Digests} (value : pyval) : result string :=
  match value with
  | PNone => Ok "default"
  | PList l => texts ← mapR scalar_text l; Ok (join "," texts)
  | v => scalar_text v
  end.

(** ** Configurations *)

(** The fields of the configuration of a provider, and the configuration of fields. *)
Definition config_fields (c : provider_config) : dict pyval :=
  match c with
  | COllama c => ollama_config_to_dict c
  | CLlamaCpp c => llama_config_to_dict c
  | CVllm c => vllm_config_to_dict c
  | CFreeToken c => freetoken_config_to_dict c
  | CExLlamaV3 c => exllama_config_to_dict c
  end.
(** [dataclasses.replace(config, **updates)]. *)
Definition config_replace (c : provider_config) (updates : dict pyval) : result provider_config :=
  let fields := dmerge (config_fields c) updates in
  match c with
  | COllama _ => c ← ollama_config_of fields; Ok (COllama c)
  | CLlamaCpp _ => c ← llama_config_of fields; Ok (CLlamaCpp c)
  | CVllm _ => c ← vllm_config_of fields; Ok (CVllm c)
  | CFreeToken _ => c ← freetoken_config_of fields; Ok (CFreeToken c)
  | CExLlamaV3 _ => c ← exllama_config_of fields; Ok (CExLlamaV3 c)
  end.
Definition config_id (c : provider_config) : string := provider_key (provider_of c).

(** The executable of a llama.cpp of the Nix profile, setup/systemd.py lines 53-55. *)
Definition GENERIC_SYSTEMD_LLAMA_CPP_EXECUTABLE : string :=
  "/nix/var/nix/profiles/astrumweaver-runtime-llama-cpp/bin/llama-server".

(** [default_runtime_catalog], setup/tui.py lines 265-284: the configurations, in order. *)
Definition default_runtime_catalog (deployment_path : option DeploymentPath) : result (list provider_config) :=
  ollama ← ollama_config_of [];
  llama_cpp ← llama_config_of
    (if bool_decide (deployment_path = Some SYSTEMD)
     then [("executable", PStr GENERIC_SYSTEMD_LLAMA_CPP_EXECUTABLE)] else []);
  vllm ← vllm_config_of [];
  freetoken ← freetoken_config_of [];
  exllama ← exllama_config_of [];
  Ok [COllama ollama; CLlamaCpp llama_cpp; CVllm vllm; CFreeToken freetoken; CExLlamaV3 exllama].

(** The catalog of configurations, its providers in order, and a member. *)
Definition catalog_of (configs : list provider_config) : result (dict (RuntimeProvider managed_runtime)) :=
  mk_RuntimeCatalog (provider_of <$> configs).
Definition config_named (id : string) (configs : list provider_config) : option provider_config :=
  List.find (λ c, bool_decide (config_id c = id)) configs.
Definition configs_in_order (configs : list provider_config) : list provider_config :=
  omap (λ id, config_named id configs) (sorted_strings (config_id <$> configs)).

(** [_replace_catalog_provider], setup/tui.py lines 584-591. *)
Definition _replace_catalog_provider (configs : list provider_config) (replacement : provider_config)
    : list provider_config :=
  (λ c, if bool_decide (config_id c = config_id replacement) then replacement else c) <$> configs_in_order configs.

(** ** The world of the interface *)

Inductive tui_op : Type → Type :=
  | Write (text : string) : tui_op unit
  | AskLine (prompt : string) : tui_op string
  | AskSecret (prompt : string) : tui_op string
  | ClearScreen : tui_op unit
  | NewTokens : tui_op (list string)
  | InspectAction (a : SetupAction) : tui_op ActionInspection
  | ApplyAction (a : SetupAction) : tui_op ActionReceipt
  | RollbackAction (a : SetupAction) (receipt : ActionReceipt) : tui_op ActionReceipt
  | WriteSnippet (p : path) (text : string) : tui_op unit
  | EffectiveRoot : tui_op bool
  | CreateSystemdDriver : tui_op unit
  | Install {A} (o : first_run_op A) : tui_op A
  | DiscoverHost : tui_op SetupHostSnapshot
  | DiscoverGpus : tui_op (list DiscoveredGpu)
  | LoadDriver (module_name attribute : string) : tui_op (option bool)
  | InstalledContract : tui_op InstalledWorkerContract
  | PrintLine (text : string) : tui_op unit
  | PrintError (text : string) : tui_op unit.

Section tui.
Context {W : Type} `{Handler tui_op W} {DG : Digests} {DL : DriverLibrary}.
Abbreviation T := (eff (logged tui_op W)).

(** The installer runs in the same world; what it asks is logged. *)
#[local] Instance installer_world : Handler first_run_op W := { answer A o w := answer (Install o) w }.
Definition install_entry (e : Trace.entry first_run_op) : Trace.entry tui_op :=
  match e with Trace.Entry o r => Trace.Entry (Install o) r end.
Definition on_host {A} (m : eff (logged first_run_op W) A) : T A := λ s,
  let '(s', r) := m (Build_logged (lg_world s) []) in
  (Build_logged (lg_world s') (map install_entry (lg_log s') ++ lg_log s), r).

(** The driver: a call that raises gives the name of the class. *)
Definition attempted_call {A} (r : logged tui_op W * result A) : logged tui_op W * attempt A :=
  match r with
  | (s, Ok a) => (s, Returned a)
  | (s, Err e) => (s, SetupApply.Raised (exn_class e))
  end.
#[local] Instance connected_driver : SetupActionDriver (logged tui_op W) := {
  SetupApply.inspect := λ a s, attempted_call (ask (InspectAction a) s);
  apply_action := λ a s, attempted_call (ask (ApplyAction a) s);
  rollback_action := λ a receipt s, attempted_call (ask (RollbackAction a receipt) s);
}.

Definition write (text : string) : T unit := ask (Write text).
Definition write_lines (l : list string) : T unit := each write l.

(** ** Prompts *)

(** [_confirm], setup/tui.py lines 287-296. *)
Fixpoint _confirm (fuel : nat) (prompt : string) (default_value : bool) : T (option bool) :=
  match fuel with
  | O => mret None
  | S fuel' =>
      line ← ask (AskLine (prompt +:+ if default_value then " [Y/n]: " else " [y/N]: "));
      let raw := strip line in
      if negb (str_truthy raw) then mret (Some default_value)
      else match _parse_bool raw with
           | Ok b => mret (Some b)
           | Err (ValueError _) => write "Enter yes/no (y/n).";; _confirm fuel' prompt default_value
           | Err e => throws e
           end
  end.

(** [_ask_nonblank], setup/tui.py lines 299-306. *)
Fixpoint _ask_nonblank (fuel : nat) (prompt : string) (default_value : option string) : T (option string) :=
  match fuel with
  | O => mret None
  | S fuel' =>
      line ← ask (AskLine (prompt +:+ match default_value with
                                      | Some d => " [" +:+ d +:+ "]: " | None => ": " end));
      let value := or_str (strip line) (default EmptyString default_value) in
      if str_truthy value then mret (Some value)
      else write "Value must not be blank.";; _ask_nonblank fuel' prompt default_value
  end.

(** [_ask_secret_nonblank], setup/tui.py lines 309-314. *)
Fixpoint _ask_secret_nonblank (fuel : nat) (prompt : string) : T (option string) :=
  match fuel with
  | O => mret None
  | S fuel' =>
      line ← ask (AskSecret (prompt +:+ ": "));
      if str_truthy (strip line) then mret (Some (strip line))
      else write "Secret value must not be blank.";; _ask_secret_nonblank fuel' prompt
  end.

(** [_ask_int], setup/tui.py lines 317-330. *)
Fixpoint _ask_int (fuel : nat) (prompt : string) (default_value : Z) : T (option Z) :=
  match fuel with
  | O => mret None
  | S fuel' =>
      line ← ask (AskLine (prompt +:+ " [" +:+ str_of_Z default_value +:+ "]: "));
      let raw := strip line in
      if negb (str_truthy raw) then mret (Some default_value)
      else match int_of_str raw with
           | Ok value =>
               if value <? 0 then write "Value must not be negative.";; _ask_int fuel' prompt default_value
               else mret (Some value)
           | Err (ValueError _) => write "Enter an integer.";; _ask_int fuel' prompt default_value
           | Err e => throws e
           end
  end.

(** [_ask_optional_int], setup/tui.py lines 333-346. *)
Fixpoint _ask_optional_int (fuel : nat) (prompt : string) : T (option (option Z)) :=
  match fuel with
  | O => mret None
  | S fuel' =>
      line ← ask (AskLine (prompt +:+ " [unknown]: "));
      let raw := strip line in
      if negb (str_truthy raw) then mret (Some None)
      else match int_of_str raw with
           | Ok value =>
               if value <=? 0 then write "Value must be positive.";; _ask_optional_int fuel' prompt
               else mret (Some (Some value))
           | Err (ValueError _) => write "Enter an integer or leave blank.";; _ask_optional_int fuel' prompt
           | Err e => throws e
           end
  end.

(** ** GPUs and the Worker *)

(** [a or b] on an optional text. *)
Definition opt_or (a : option string) (b : string) : string := or_str (default EmptyString a) b.
Definition gpu_line (index : nat) (gpu : DiscoveredGpu) : string :=
  "  " +:+ str_of_Z (Z.of_nat index) +:+ ". " +:+ dg_uuid gpu +:+ "  " +:+ str_of_Z (dg_memory_mb gpu)
    +:+ " MiB  class=" +:+ opt_or (dg_device_class gpu) "unknown"
    +:+ " compute=" +:+ opt_or (dg_compute_capability gpu) "unknown".

(** What a line selects: the GPUs, or what to say, setup/tui.py lines 363-379. *)
Definition selection_of (gpus : list DiscoveredGpu) (line : string) : result (list DiscoveredGpu + string) :=
  let raw := lower (strip line) in
  if negb (str_truthy raw) || bool_decide (raw = "all") then Ok (inl gpus)
  else if bool_decide (raw = "none") then Ok (inl [])
  else match mapR (λ item, int_of_str (strip item)) (split_char "," raw) with
       | Err (ValueError _) => Ok (inr "Use GPU indexes such as 1 or 1,2.")
       | Err e => Err e
       | Ok indexes =>
           if negb (bool_decide (NoDup indexes)) then Ok (inr "GPU selection must not contain duplicates.")
           else if existsb (λ i, (i <? 1) || (Z.of_nat (length gpus) <? i)) indexes
           then Ok (inr "GPU index is outside the detected range.")
           else Ok (inl (omap (λ i, gpus !! Z.to_nat (i - 1)) indexes))
       end.

Fixpoint select_loop (fuel : nat) (gpus : list DiscoveredGpu) : T (option (list DiscoveredGpu)) :=
  match fuel with
  | O => mret None
  | S fuel' =>
      line ← ask (AskLine "GPU selection [all; comma-separated indexes; none]: ");
      outcome ← lifts (selection_of gpus line);
      match outcome with
      | inl selected => mret (Some selected)
      | inr message => write message;; select_loop fuel' gpus
      end
  end.
(** [_select_gpus], setup/tui.py lines 349-362. *)
Definition _select_gpus (fuel : nat) (gpus : list DiscoveredGpu) : T (option (list DiscoveredGpu)) :=
  write "Detected GPUs:";;
  match gpus with
  | [] => write "  none";; mret (Some [])
  | _ => write_lines (imap (λ i g, gpu_line (S i) g) gpus);; select_loop fuel gpus
  end.

(** A capability as Python orders it, setup/tui.py lines 386-394. *)
Definition capability_key (capability : string) : result (Z * Z * string) :=
  match split1_char "." capability with
  | [major; minor] => a ← int_of_str major; b ← int_of_str minor; Ok (a, b, capability)
  | _ => a ← int_of_str capability; Ok (a, 0, capability)
  end.
Definition key_lt (a b : Z * Z * string) : bool :=
  (a.1.1 <? b.1.1)
  || ((a.1.1 =? b.1.1) && ((a.1.2 <? b.1.2)
      || ((a.1.2 =? b.1.2) && negb (bool_decide (String.le b.2 a.2))))).
Definition min_key (l : list (Z * Z * string)) : option (Z * Z * string) :=
  match l with [] => None | x :: l' => Some (foldl (λ m y, if key_lt y m then y else m) x l') end.
(** [_minimum_compute_capability], setup/tui.py lines 382-395. *)
Definition _minimum_compute_capability (gpus : list DiscoveredGpu) : result (option string) :=
  match mapM dg_compute_capability gpus with
  | None => Ok None
  | Some capabilities =>
      match mapR capability_key capabilities with
      | Ok keys => Ok (snd <$> min_key keys)
      | Err (ValueError _) => Ok None
      | Err e => Err e
      end
  end.

(** [build_worker_spec], setup/tui.py lines 398-430. *)
Definition build_worker_spec (worker_id worker_class : string) (gpus : list DiscoveredGpu)
    : result WorkerSpec :=
  let memories := dg_memory_mb <$> gpus in
  capability ← _minimum_compute_capability gpus;
  let labels := match capability with Some c => [("gpu.compute_capability.min", c)] | None => [] end in
  shape ← mk_ResourceShape (Z.of_nat (length gpus)) (foldr Z.add 0 memories)
            (match memories with [] => 0 | m :: l => foldl Z.max m l end);
  accelerators ← mapR (λ g, mk_AcceleratorDevice (dg_uuid g) (dg_memory_mb g) (dg_compute_capability g)
                              (dg_device_class g)) gpus;
  mk_WorkerSpec worker_id worker_class shape (StrIter (dg_uuid <$> gpus)) accelerators
    (StrIter ["llm.chat"; "text.generate"]) labels.

(** [_prompt_worker], setup/tui.py lines 433-447. *)
Definition _prompt_worker (fuel : nat) (gpus : list DiscoveredGpu) : T (option WorkerSpec) :=
  let default_class := match gpus with [] => "cpu" | [_] => "gpu-single" | _ => "gpu-multi" end in
  and_then (_ask_nonblank fuel "Worker ID" (Some "worker-1")) (λ worker_id,
  and_then (_ask_nonblank fuel "Worker class" (Some default_class)) (λ worker_class,
    spec ← lifts (build_worker_spec worker_id worker_class gpus); mret (Some spec))).

(** ** The demand *)

(** A member of an enum, asked until there is one. *)
Fixpoint ask_enum {A} `{StrEnum A} (turns fuel : nat) (prompt fallback message : string) : T (option A) :=
  match turns with
  | O => mret None
  | S turns' =>
      and_then (_ask_nonblank fuel prompt (Some fallback)) (λ raw,
        match enum_of (A := A) (lower raw) with
        | Ok a => mret (Some a)
        | Err (ValueError _) => write message;; ask_enum turns' fuel prompt fallback message
        | Err e => throws e
        end)
  end.

(** [_prompt_demand], setup/tui.py lines 450-516. *)
Definition _prompt_demand (fuel : nat) (worker : WorkerSpec) : T (option ExecutionDemand) :=
  and_then (_ask_nonblank fuel "Model reference" None) (λ model_ref,
  and_then (_ask_nonblank fuel "Model format (safetensors/gguf/exl3/ftw/provider-native)" (Some "safetensors"))
    (λ model_format,
  and_then (ask_enum (A := ModelTopology) fuel fuel "Model topology (dense/moe)" "dense"
              "Model topology must be dense or moe.") (λ model_topology,
  and_then (ask_enum (A := ResidencyPolicy) fuel fuel
              "Residency policy (vram_only/prefer_vram/cpu_gpu_hybrid)" "prefer_vram"
              "Unknown residency policy.") (λ residency,
  let count := gpu_count (resources worker) in
  let topology := if count =? 0 then NO_GPU else if count =? 1 then SINGLE_GPU else MULTI_GPU in
  and_then (_ask_optional_int fuel "Estimated model size MiB") (λ estimated,
  and_then (_ask_int fuel "Minimum total VRAM MiB" 0) (λ total,
  and_then (_ask_int fuel "Minimum single-GPU VRAM MiB" 0) (λ single,
  and_then (_ask_int fuel "Minimum host RAM MiB" 0) (λ host,
  and_then (_ask_int fuel "Preferred host RAM MiB" host) (λ preferred,
    preferred ← (if preferred <? host
                 then write "Preferred host RAM raised to the declared minimum.";; mret host
                 else mret preferred);
    model ← lifts (mk_ModelDemand model_ref (lower model_format) model_topology (of_opt_Z estimated) []);
    demand ← lifts (mk_ExecutionDemand model residency topology
                      (if bool_decide (topology = MULTI_GPU) then 2 else 0) total single host preferred []);
    mret (Some demand)))))))))).

(** ** The runtime *)

(** [_render_report], setup/tui.py lines 519-527. *)
Definition report_lines (report : RuntimeCompatibility) : list string :=
  ("  [" +:+ (if compatible report then "compatible" else "incompatible") +:+ "] " +:+ rc_provider_id report)
  :: match rc_reasons report with
     | [] => ["      no compatibility notes"]
     | reasons => (λ r, "      " +:+ (if cr_blocking r then "BLOCK" else "note") +:+ ": " +:+ cr_code r
                        +:+ ": " +:+ cr_message r) <$> reasons
     end.
Definition _render_report (report : RuntimeCompatibility) : T unit := write_lines (report_lines report).

(** [str.isdigit]: the superscripts are digits, too. *)
Definition isdigit (s : string) : bool :=
  str_truthy s
  && all_chars (λ c, is_digit c || bool_decide (N_of_ascii c ∈ [178; 179; 185]%N)) s.

(** The provider that a line names, setup/tui.py lines 543-550. *)
Definition named_provider (configs : list provider_config) (raw : string) : result (option string) :=
  let ids := config_id <$> configs_in_order configs in
  by_number ← (if isdigit raw then
                 index ← int_of_str raw;
                 Ok (if (1 <=? index) && (index <=? Z.of_nat (length ids))
                     then ids !! Z.to_nat (index - 1) else None)
               else Ok None);
  Ok (match by_number with
      | Some id => Some id
      | None => if config_named raw configs then Some raw else None
      end).
Fixpoint choose_loop (fuel : nat) (configs : list provider_config) : T (option string) :=
  match fuel with
  | O => mret None
  | S fuel' =>
      line ← ask (AskLine "Select runtime by number or provider ID: ");
      choice ← lifts (named_provider configs (strip line));
      match choice with
      | Some id => mret (Some id)
      | None => write "Unknown runtime selection.";; choose_loop fuel' configs
      end
  end.
(** [_choose_provider], setup/tui.py lines 530-550. *)
Definition _choose_provider (fuel : nat) (configs : list provider_config)
    (context : RuntimeCompatibilityContext) : T (option string) :=
  catalog ← lifts (catalog_of configs);
  reports ← lifts (evaluate_catalog catalog context);
  write "Runtime candidates:";;
  each (λ ic : nat * RuntimeProvider managed_runtime,
    write (str_of_Z (Z.of_nat (S ic.1)) +:+ ". " +:+ pi_display_name (rp_info ic.2));;
    match dget (provider_key ic.2) reports with
    | Some report => _render_report report
    | None => throws (KeyError (provider_key ic.2))
    end) (imap pair (catalog_providers catalog));;
  choose_loop fuel configs.

(** One option, asked until it is left alone or parsed, setup/tui.py lines 566-577. *)
Fixpoint ask_option (fuel : nat) (spec : TuiOptionSpec) (current : string) : T (option (option pyval)) :=
  match fuel with
  | O => mret None
  | S fuel' =>
      line ← ask (AskLine (op_label spec +:+ " [" +:+ current +:+ "]: "));
      let raw := strip line in
      if negb (str_truthy raw) then mret (Some None)
      else match op_parser spec raw with
           | Ok v => mret (Some (Some v))
           | Err ((TypeError _ | ValueError _) as e) =>
               write ("Invalid value: " +:+ exn_text e);; ask_option fuel' spec current
           | Err e => throws e
           end
  end.
Fixpoint ask_options (fuel : nat) (config : dict pyval) (specs : list TuiOptionSpec) (updates : dict pyval)
    : T (option (dict pyval)) :=
  match specs with
  | [] => mret (Some updates)
  | spec :: rest =>
      current ← lifts (v ← item (op_field_name spec) config; _format_option v);
      and_then (ask_option fuel spec current) (λ value,
        ask_options fuel config rest
          (match value with Some v => dset (op_field_name spec) v updates | None => updates end))
  end.
(** [configure_provider], setup/tui.py lines 553-581. *)
Definition configure_provider (fuel : nat) (c : provider_config) : T (option provider_config) :=
  match default [] (dget (config_id c) _PROVIDER_OPTIONS) with
  | [] => mret (Some c)
  | specs =>
      and_then (_confirm fuel "Customize runtime-specific options?" false) (λ customize : bool,
        if customize then
          and_then (ask_options fuel (config_fields c) specs []) (λ updates,
            c' ← lifts (config_replace c updates); mret (Some c'))
        else mret (Some c))
  end.

(** The loop of [plan_runtime_for_worker], setup/tui.py lines 745-779: [None] inside says that the
    operator quit. *)
Fixpoint plan_loop (turns fuel : nat) (snapshot : SetupHostSnapshot) (worker : WorkerSpec)
    (configs : list provider_config) (demand : ExecutionDemand)
    : T (option (option (string * list provider_config * RuntimeCompatibilityContext))) :=
  match turns with
  | O => mret None
  | S turns' =>
      let context := {| cx_worker := worker; cx_host := hs_runtime_host snapshot; cx_demand := demand |} in
      and_then (_choose_provider fuel configs context) (λ provider_id,
      match config_named provider_id configs with
      | None => throws (AssertionError EmptyString)
      | Some provider =>
      and_then (configure_provider fuel provider) (λ configured,
      let configs := _replace_catalog_provider configs configured in
      lifts (catalog_of configs);;
      report ← lifts (evaluate_provider (provider_of configured) context);
      write "Selected runtime after options:";;
      _render_report report;;
      if compatible report then mret (Some (Some (provider_id, configs, context)))
      else
        and_then (_ask_nonblank fuel "Incompatible: choose action (runtime/demand/options/quit)" (Some "runtime"))
          (λ answer_text,
          let choice := lower answer_text in
          if bool_decide (choice ∈ ["quit"; "q"]) then mret (Some None)
          else if bool_decide (choice ∈ ["demand"; "d"]) then
            and_then (_prompt_demand fuel worker) (λ demand,
              plan_loop turns' fuel snapshot worker configs demand)
          else if bool_decide (choice ∈ ["options"; "o"]) then
            and_then (configure_provider fuel configured) (λ configured,
              let configs := _replace_catalog_provider configs configured in
              lifts (catalog_of configs);;
              report ← lifts (evaluate_provider (provider_of configured) context);
              if compatible report then mret (Some (Some (config_id configured, configs, context)))
              else plan_loop turns' fuel snapshot worker configs demand)
          else plan_loop turns' fuel snapshot worker configs demand))
      end)
  end.
(** [plan_runtime_for_worker], setup/tui.py lines 732-793. *)
Definition plan_runtime_for_worker (fuel : nat) (snapshot : SetupHostSnapshot) (worker : WorkerSpec)
    (reconcile : bool) : T (option (option RuntimeTuiPlan)) :=
  configs ← lifts (default_runtime_catalog (Some (hs_deployment_path snapshot)));
  and_then (_prompt_demand fuel worker) (λ demand,
  and_then (plan_loop fuel fuel snapshot worker configs demand) (λ outcome,
    match outcome with
    | None => mret (Some None)
    | Some (provider_id, configs, context) =>
        catalog ← lifts (catalog_of configs);
        selection ← lifts (mk_RuntimeSelection EXPLICIT (Some provider_id));
        plan ← lifts (build_runtime_setup_plan catalog context selection snapshot reconcile);
        mret (Some (Some {| rt_provider_id := provider_id; rt_plan := plan |}))
    end)).

(** ** Review and approval *)

(** The dash of these lines is U+2014, which is outside the characters of the model. *)
Definition dash : string := "-".
Definition with_detail (detail : string) : string :=
  if str_truthy detail then " " +:+ dash +:+ " " +:+ detail else EmptyString.

(** [_render_preview], setup/tui.py lines 594-616. *)
Definition _render_preview (plan : SetupPlan) : T bool := λ s,
  let '(s', preview) := preview_plan plan s in
  (write "Dry-run:";;
   write_lines ((λ a, "  " +:+ pv_action_id a +:+ " " +:+ enum_value (pv_state a) +:+ ": "
                      +:+ pv_description a +:+ with_detail (pv_detail a)) <$> sv_actions preview);;
   (if bool_decide (pl_deployment_path plan = SYSTEMD) && bool_decide (pl_provider_id plan = "llama-cpp")
       && existsb (λ a, bool_decide (pv_kind a = ENSURE_PACKAGE) && negb (bool_decide (pv_state a = SATISFIED)))
            (sv_actions preview)
    then write "  RuntimeBackend recovery: docs/installation.md#runtimebackend-nix-profile"
    else mret tt);;
   mret (negb (preview_blocked preview))) s'.

(** The phrase of a digest. *)
Definition phrase (verb digest : string) : string := verb +:+ " " +:+ str_take 12 digest.

(** [not needed or _confirm(...)]. *)
Definition confirm_if (fuel : nat) (needed : bool) (prompt : string) : T (option bool) :=
  if needed then _confirm fuel prompt false else mret (Some true).
Definition has_kind (k : SetupActionKind) (plan : SetupPlan) : bool :=
  existsb (λ a, bool_decide (ac_kind a = k)) (pl_actions plan).
Definition approval_prompt (plan : SetupPlan) : string :=
  "Type '" +:+ phrase "APPLY" (digest plan) +:+ "' to apply this exact plan: ".

(** [_approval], setup/tui.py lines 619-672. *)
Definition _approval (fuel : nat) (plan : SetupPlan) : T (option (option SetupApproval)) :=
  line ← ask (AskLine (approval_prompt plan));
  if negb (bool_decide (strip line = phrase "APPLY" (digest plan)))
  then write "Apply cancelled; plan was not mutated.";; mret (Some None)
  else
    and_then (confirm_if fuel (requires_privilege plan) "Approve privileged actions?") (λ privileged : bool,
    and_then (confirm_if fuel (requires_network plan) "Approve network access?") (λ network : bool,
    and_then (confirm_if fuel (has_kind SetupContracts.DOWNLOAD_MODEL plan) "Approve selected-model download?")
      (λ download : bool,
    and_then (confirm_if fuel (has_kind CONVERT_MODEL plan) "Approve selected-model conversion?")
      (λ convert : bool,
    and_then (confirm_if fuel (requires_confirmation plan) "Approve confirmation-gated actions?")
      (λ confirmation : bool,
      if privileged && network && download && convert && confirmation then
        approval ← lifts (mk_SetupApproval (digest plan) privileged network download convert confirmation);
        mret (Some (Some approval))
      else
        write "One or more required permissions were denied; nothing was applied.";;
        mret (Some None)))))).

(** [recovery_guidance], setup/tui.py lines 675-713. *)
Definition recovery_guidance (r : SetupApplyResult) (deployment_path : option DeploymentPath)
    (provider_id : option string) : list string :=
  if succeeded r then ["Setup completed successfully."]
  else if existsb (λ a, bool_decide (ar_status a = ROLLBACK_FAILED)) (sr_rollback_actions r) then
    ["Rollback was incomplete. Reconcile the reported action before retrying.";
     "Do not switch runtime providers implicitly; keep the explicit selection or edit it."]
  else if existsb (λ a, bool_decide (ar_kind a = ENSURE_PACKAGE)
                        && bool_decide (ar_status a ∈ [ACTION_BLOCKED; ACTION_FAILED])) (sr_actions r) then
    ["Runtime package provisioning did not complete."]
    ++ (if bool_decide (deployment_path = Some SYSTEMD) && bool_decide (provider_id = Some "llama-cpp")
        then ["Use the standard Nix RuntimeBackend path in docs/installation.md#runtimebackend-nix-profile; custom installer argv is an advanced override."]
        else [])
    ++ ["No provider substitution was performed."]
  else if existsb (λ a, bool_decide (ar_status a = ACTION_BLOCKED)) (sr_actions r) then
    ["Resolve the blocked preflight/action and rerun the same reviewed setup flow.";
     "No provider substitution was performed."]
  else
    ["Review the failed action, correct the host/runtime prerequisite, then rerun.";
     "Applied reversible actions were rolled back where the driver supported it."].

(** [_render_result], setup/tui.py lines 716-729. *)
Definition _render_result (r : SetupApplyResult) (plan : SetupPlan) : T unit :=
  write ("Apply result: " +:+ enum_value (sr_status r));;
  write_lines ((λ a, "  " +:+ ar_action_id a +:+ " " +:+ enum_value (ar_status a)
                     +:+ with_detail (ar_detail a)) <$> sr_actions r);;
  write_lines ((λ a, "  rollback " +:+ ar_action_id a +:+ " " +:+ enum_value (ar_status a)
                     +:+ with_detail (ar_detail a)) <$> sr_rollback_actions r);;
  write_lines (recovery_guidance r (Some (pl_deployment_path plan)) (Some (pl_provider_id plan))).

Definition tui_result (status : TuiRunStatus) (provider_id plan_digest : option string)
    (applied : option SetupApplyResult) : TuiRunResult :=
  {| tr_status := status; tr_provider_id := provider_id; tr_plan_digest := plan_digest;
     tr_apply_result := applied |}.

(** The observer of [apply_plan], setup/tui.py lines 844-846; what it raises is suppressed. *)
Definition show_result : observer (logged tui_op W) :=
  Some (λ r s, (write ("  " +:+ ar_action_id r +:+ ": " +:+ enum_value (ar_status r)) s).1).
Definition run_plan (plan : SetupPlan) (approval : SetupApproval) : T SetupApplyResult := λ s,
  match apply_plan plan approval true show_result s with
  | Ok (s', r) => (s', Ok r)
  | Err e => (s, Err e)
  end.

(** [apply_runtime_tui_plan], setup/tui.py lines 796-854; [connected] says that there is a driver. *)
Definition apply_runtime_tui_plan (fuel : nat) (runtime_plan : RuntimeTuiPlan) (connected : bool)
    : T (option TuiRunResult) :=
  let plan := rt_plan runtime_plan in
  let ended status := tui_result status (Some (rt_provider_id runtime_plan)) (Some (digest plan)) in
  write EmptyString;;
  write (explain_plan plan);;
  write "No secret values are stored in or printed from the SetupPlan.";;
  if negb connected then
    write_lines [EmptyString; "Planning-only mode: no deployment SetupActionDriver is connected.";
                 "The exact plan above can be reviewed now; no install/config/start action ran."];;
    mret (Some (ended TUI_PLANNED None))
  else
    clear ← _render_preview plan;
    if negb clear then
      write "Dry-run is blocked. Resolve the displayed prerequisite and rerun.";;
      mret (Some (ended TUI_BLOCKED None))
    else
      and_then (_approval fuel plan) (λ approval,
        match approval with
        | None => mret (Some (ended TUI_CANCELLED None))
        | Some approval =>
            write "Applying reviewed plan...";;
            r ← run_plan plan approval;
            _render_result r plan;;
            mret (Some (ended (if succeeded r then TUI_APPLIED else TUI_FAILED) (Some r)))
        end).

(** ** An installed Worker *)

(** One GPU of [_verify_installed_worker_gpus], setup/tui.py lines 865-891. *)
Definition verify_gpu (accelerators : list AcceleratorDevice) (discovered : list DiscoveredGpu)
    (selected : list DiscoveredGpu) (uuid : string) : result (list DiscoveredGpu) :=
  match List.find (λ g, bool_decide (dg_uuid g = uuid)) discovered with
  | None => Err (RuntimeError "installed Worker GPU ownership is not present on this host")
  | Some gpu =>
      match accelerators with
      | [] => Ok (selected ++ [gpu])
      | _ =>
          match accelerators !! length selected with
          | None => Err (IndexError "tuple index out of range")
          | Some expected =>
              require (dg_memory_mb gpu =? ad_memory_mb expected)
                (RuntimeError "installed Worker per-device VRAM no longer matches discovery");;
              require (match ad_compute_capability expected with
                       | None => true | c => bool_decide (dg_compute_capability gpu = c) end)
                (RuntimeError "installed Worker compute capability no longer matches discovery");;
              require (match ad_device_class expected with
                       | None => true | c => bool_decide (dg_device_class gpu = c) end)
                (RuntimeError "installed Worker device class no longer matches discovery");;
              Ok (selected ++ [gpu])
          end
      end
  end.
(** [_verify_installed_worker_gpus], setup/tui.py lines 857-903. *)
Definition _verify_installed_worker_gpus (worker : WorkerSpec) (discovered : list DiscoveredGpu) : result unit :=
  require (bool_decide (NoDup (dg_uuid <$> discovered)))
    (RuntimeError "local GPU discovery returned duplicate UUIDs");;
  selected ← foldR (verify_gpu (accelerators worker) discovered) [] (gpu_uuids worker);
  let memories := dg_memory_mb <$> selected in
  require (foldr Z.add 0 memories =? total_vram_mb (resources worker))
    (RuntimeError "installed Worker total VRAM no longer matches local GPU discovery");;
  require ((match memories with [] => 0 | m :: l => foldl Z.max m l end)
           =? max_single_gpu_vram_mb (resources worker))
    (RuntimeError "installed Worker maximum single-GPU VRAM no longer matches discovery").

(** ** The wizard of a runtime *)

Definition host_line (snapshot : SetupHostSnapshot) : string :=
  "Host: " +:+ hs_os_id snapshot +:+ " " +:+ hs_os_version snapshot +:+ " | "
    +:+ str_of_Z (hf_cpu_count (hs_runtime_host snapshot)) +:+ " CPUs | "
    +:+ str_of_Z (hf_host_ram_mb (hs_runtime_host snapshot)) +:+ " MiB RAM | "
    +:+ enum_value (hs_deployment_path snapshot).
Definition rule (n : nat) : string := foldr String.append EmptyString (replicate n "=").
Definition source_execution (c : InstalledWorkerContract) : string :=
  if bool_decide (ic_execution_mode c = "smoke") then "smoke/debug.echo" else "runtime/current-provider".

(** The Worker of the wizard, setup/tui.py lines 928-958. *)
Definition wizard_worker (fuel : nat) (gpus : list DiscoveredGpu) (existing : option InstalledWorkerContract)
    (reconcile : bool) : T (option WorkerSpec) :=
  match existing with
  | None =>
      ensure (negb reconcile)
        (ValueError "existing Worker reconciliation requires an installed Worker contract");;
      and_then (_select_gpus fuel gpus) (λ selected, _prompt_worker fuel selected)
  | Some c =>
      ensure reconcile (ValueError "installed Worker contract requires explicit reconciliation mode");;
      lifts (_verify_installed_worker_gpus (ic_spec c) gpus);;
      write_lines
        [EmptyString; "Existing Worker: " +:+ worker_id (ic_spec c);
         "Execution transition: " +:+ source_execution c +:+ " -> runtime/selected-provider";
         "GPU ownership: preserved from installed Worker contract";
         "Control URL: preserved from installed Worker contract";
         "Worker token: preserved by reference; value not read";
         "Runtime manifest: " +:+ DEFAULT_RUNTIME_MANIFEST];;
      mret (Some (ic_spec c))
  end.

(** [run_setup_tui], setup/tui.py lines 906-982. *)
Definition run_setup_tui (fuel : nat) (snapshot : SetupHostSnapshot) (gpus : list DiscoveredGpu)
    (connected : bool) (existing : option InstalledWorkerContract) (reconcile : bool)
    : T (option TuiRunResult) :=
  ask ClearScreen;;
  write_lines ["AstrumWeaver Worker/runtime setup"; rule 34; host_line snapshot];;
  and_then (wizard_worker fuel gpus existing reconcile) (λ worker,
  and_then (plan_runtime_for_worker fuel snapshot worker reconcile) (λ runtime_plan,
    match runtime_plan with
    | None => mret (Some (tui_result TUI_CANCELLED None None None))
    | Some runtime_plan =>
        match existing with
        | Some c => write ("Reviewed execution transition: " +:+ source_execution c +:+ " -> runtime/"
                           +:+ rt_provider_id runtime_plan)
        | None => mret tt
        end;;
        apply_runtime_tui_plan fuel runtime_plan connected
    end)).

(** ** The first run *)

Definition role_value (r : FirstRunRole) : string :=
  match r with ROLE_CONTROL => "control" | ROLE_WORKER => "worker" | ROLE_BOTH => "both" end.
Definition mode_value (m : FirstRunExecutionMode) : string :=
  match m with SMOKE => "smoke" | RUNTIME => "runtime" end.
Definition with_control (r : FirstRunRole) : bool := match r with ROLE_WORKER => false | _ => true end.
Definition with_worker (r : FirstRunRole) : bool := match r with ROLE_CONTROL => false | _ => true end.

(** A choice among words, asked until it is one of them. *)
Fixpoint ask_choice {A} (turns fuel : nat) (prompt fallback message : string) (choice : string → option A)
    : T (option A) :=
  match turns with
  | O => mret None
  | S turns' =>
      and_then (_ask_nonblank fuel prompt (Some fallback)) (λ raw,
        match choice (lower raw) with
        | Some a => mret (Some a)
        | None => write message;; ask_choice turns' fuel prompt fallback message choice
        end)
  end.

(** [_choose_first_run_role], setup/tui.py lines 985-1003. *)
Definition _choose_first_run_role (fuel : nat) : T (option FirstRunRole) :=
  write_lines ["First-run role:"; "  1. Control"; "  2. Worker"; "  3. Control + Worker"];;
  ask_choice fuel fuel "Role" "3" "Choose 1/control, 2/worker, or 3/both." (λ raw,
    if bool_decide (raw ∈ ["1"; "control"]) then Some ROLE_CONTROL
    else if bool_decide (raw ∈ ["2"; "worker"]) then Some ROLE_WORKER
    else if bool_decide (raw ∈ ["3"; "both"]) then Some ROLE_BOTH else None).

(** [_choose_execution_mode], setup/tui.py lines 1006-1016. *)
Definition _choose_execution_mode (fuel : nat) : T (option FirstRunExecutionMode) :=
  write_lines ["Worker execution mode:"; "  1. smoke " +:+ dash +:+ " built-in debug.echo";
               "  2. runtime " +:+ dash +:+ " choose a first-class RuntimeProvider"];;
  ask_choice fuel fuel "Execution mode" "1" "Choose 1/smoke or 2/runtime." (λ raw,
    if bool_decide (raw ∈ ["1"; "smoke"; "debug"; "echo"]) then Some SMOKE
    else if bool_decide (raw ∈ ["2"; "runtime"; "provider"]) then Some RUNTIME else None).

(** [_prompt_control_spec], setup/tui.py lines 1019-1051. *)
Definition _prompt_control_spec (fuel : nat) : T (option ControlBootstrapSpec) :=
  and_then (_ask_nonblank fuel "Control bind host" (Some "127.0.0.1")) (λ bind_host,
  and_then (_ask_int fuel "Control port" 9000) (λ port,
    ensure (negb ((port <=? 0) || (65535 <? port))) (ValueError "Control port must be between 1 and 65535");;
  and_then (ask_choice fuel fuel "Client API auth (bearer/none)" "bearer"
              "Client API auth must be bearer or none."
              (λ raw, match client_auth_of raw with Ok m => Some m | Err _ => None end)) (λ client_auth,
    match client_auth with
    | NO_AUTH => write "Client API bearer auth is disabled. Protect job submit/read/cancel with the deployment network, VPN, reverse proxy, or upstream auth."
    | BEARER => mret tt
    end;;
    spec ← lifts (mk_ControlBootstrapSpec bind_host port (client_auth_value client_auth) 60 300 (float_of_Z 5) false);
    mret (Some spec)))).

(** [generate_worker_token] and [generate_authority_tokens] of what the system gives. *)
Definition fresh_token : T (option string) := tokens ← ask NewTokens; mret (head tokens).
Definition fresh_tokens : T (option (string * string)) :=
  tokens ← ask NewTokens; mret (generate_authority_tokens tokens).

(** The tokens of a Control, setup/tui.py lines 1063-1096. *)
Definition control_tokens (fuel : nat) (client_auth : client_auth_mode) : T (option (option string * string)) :=
  let worker_secret := _ask_secret_nonblank fuel "Worker authority token (input hidden)" in
  match client_auth with
  | NO_AUTH =>
      and_then (_confirm fuel "Generate new Worker authority token?" true) (λ generate : bool,
        if generate then
          and_then fresh_token (λ worker,
            write "Generated Worker authority token. No Client token is generated or stored because client_auth=none.";;
            mret (Some (None, worker)))
        else and_then worker_secret (λ worker, mret (Some (None, worker))))
  | BEARER =>
      and_then (_confirm fuel "Generate new client/Worker authority tokens?" true) (λ generate : bool,
        if generate then
          and_then fresh_tokens (λ tokens,
            write "Generated distinct authority tokens. Values will be written only to the protected Control environment file.";;
            mret (Some (Some tokens.1, tokens.2)))
        else
          and_then (_ask_secret_nonblank fuel "Client authority token (input hidden)") (λ client,
          and_then worker_secret (λ worker, mret (Some (Some client, worker)))))
  end.
(** [_prompt_control_secrets], setup/tui.py lines 1054-1101. *)
Definition _prompt_control_secrets (fuel : nat) (client_auth : client_auth_mode) : T (option FirstRunSecrets) :=
  and_then (_ask_secret_nonblank fuel "PostgreSQL URL (input hidden)") (λ database_url,
  and_then (control_tokens fuel client_auth) (λ tokens,
    secrets ← lifts (mk_FirstRunSecrets (Some database_url) tokens.1 (Some tokens.2));
    mret (Some secrets))).

(** [_runtime_deployment_dict], setup/tui.py lines 1104-1119. *)
Fixpoint deployment_of_actions (actions : list SetupAction) : result (dict pyval) :=
  match actions with
  | [] => Err (RuntimeError "Runtime SetupPlan lacks runtime deployment manifest")
  | action :: rest =>
      if negb (bool_decide (ac_kind action = RENDER_CONFIG)) then deployment_of_actions rest
      else match get "runtime_deployment" (ac_payload action) with
           | PNone => deployment_of_actions rest
           | PDict d => Ok d
           | _ => Err (RuntimeError "Runtime SetupPlan deployment manifest is not an object")
           end
  end.
Definition _runtime_deployment_dict (runtime_plan : RuntimeTuiPlan) : result (dict pyval) :=
  deployment_of_actions (pl_actions (rt_plan runtime_plan)).
(** [_runtime_manifest_json], setup/tui.py lines 1122-1128. *)
Definition _runtime_manifest_json (runtime_plan : RuntimeTuiPlan) : result string :=
  d ← _runtime_deployment_dict runtime_plan; Ok (_canonical_json (PDict d)).

(** What an operator decided for a first run. *)
Record first_run_choice := {
  fc_role : FirstRunRole;
  fc_control : option ControlBootstrapSpec;
  fc_secrets : FirstRunSecrets;
  fc_worker : option WorkerSpec;
  fc_control_url : option string;
  fc_mode : option FirstRunExecutionMode;
  fc_plan : option RuntimeTuiPlan;
  fc_package : option string;
}.

Definition of_opt_str (o : option string) : pyval := match o with Some s => PStr s | None => PNone end.
(** The payload of [_first_run_review_token], setup/tui.py lines 1143-1186. *)
Definition review_payload (c : first_run_choice) : dict pyval :=
  [("role", PStr (role_value (fc_role c)));
   ("control", match fc_control c with
     | None => PNone
     | Some k => PDict [("bind_host", PStr (cb_bind_host k)); ("port", PInt (cb_port k));
         ("client_auth", PStr (client_auth_value (cb_client_auth k)));
         ("worker_ttl_seconds", PInt (cb_worker_ttl_seconds k)); ("lease_seconds", PInt (cb_lease_seconds k));
         ("maintenance_interval_seconds", PFloat (cb_maintenance_interval_seconds k));
         ("access_log", PBool (cb_access_log k))]
     end);
   ("worker", match fc_worker c with
     | None => PNone
     | Some w => PDict [("id", PStr (worker_id w)); ("class", PStr (worker_class w));
         ("gpu_uuids", PList (PStr <$> gpu_uuids w)); ("capabilities", PList (PStr <$> sorted_capabilities w));
         ("resources", PDict [("gpu_count", PInt (gpu_count (resources w)));
            ("total_vram_mb", PInt (total_vram_mb (resources w)));
            ("max_single_gpu_vram_mb", PInt (max_single_gpu_vram_mb (resources w)))])]
     end);
   ("control_url", of_opt_str (fc_control_url c));
   ("execution_mode", of_opt_str (mode_value <$> fc_mode c));
   ("runtime_plan_digest", of_opt_str ((λ p, digest (rt_plan p)) <$> fc_plan c));
   ("runtime_package_expression", of_opt_str (fc_package c));
   ("secret_refs", PDict
     [("database_url", PBool (with_control (fc_role c)));
      ("client_token", PBool (with_control (fc_role c)
         && match fc_control c with Some k => match cb_client_auth k with BEARER => true | NO_AUTH => false end
                                  | None => false end));
      ("worker_token", PBool true)])].
(** [_first_run_review_token], setup/tui.py lines 1131-1188. *)
Definition _first_run_review_token (c : first_run_choice) : string := sha256_hex (compact_json (review_payload c)).

(** [_render_first_run_review], setup/tui.py lines 1191-1255. *)
Definition control_review (nixos : bool) (k : ControlBootstrapSpec) : list string :=
  ["Control: " +:+ cb_bind_host k +:+ ":" +:+ str_of_Z (cb_port k);
   "Client API auth: " +:+ client_auth_value (cb_client_auth k)]
  ++ match cb_client_auth k with
     | NO_AUTH => ["Client API access control is delegated to the deployment/network boundary."] | BEARER => [] end
  ++ ["Control actions:"]
  ++ (if nixos then ["  - render reviewed NixOS module snippet";
                     "  - optionally write protected /etc/astrumweaver/control.env";
                     "  - preserve nixos-rebuild as the mutation boundary"]
      else ["  - write /etc/astrumweaver/control.toml"; "  - write protected /etc/astrumweaver/control.env";
            "  - run astrumweaver-migrate explicitly"; "  - enable/start astrumweaver-control.service";
            "  - wait for /v1/ready"]).
Definition worker_review (nixos : bool) (c : first_run_choice) (w : WorkerSpec) : list string :=
  ["Worker: " +:+ worker_id w +:+ " | " +:+ worker_class w +:+ " | "
     +:+ str_of_Z (Z.of_nat (length (gpu_uuids w))) +:+ " GPU(s)";
   "Control URL: " +:+ default "None" (fc_control_url c);
   "Execution: " +:+ match fc_mode c with Some m => mode_value m | None => "none" end;
   "Capabilities: " +:+ join ", " (sorted_capabilities w)]
  ++ match fc_plan c with
     | Some p => ["RuntimeProvider: " +:+ rt_provider_id p; "Runtime plan digest: " +:+ digest (rt_plan p)]
     | None => [] end
  ++ match fc_package c with Some e => ["Nix runtime package: " +:+ e] | None => [] end
  ++ ["Worker actions:"]
  ++ (if nixos then
        ["  - render reviewed NixOS Worker module snippet";
         "  - optionally write protected /etc/astrumweaver/worker.env"]
        ++ match fc_mode c with
           | Some RUNTIME => ["  - embed reviewed RuntimeProvider settings with explicit package expression"]
           | _ => [] end
        ++ ["  - preserve nixos-rebuild as the mutation boundary"]
      else
        ["  - write /etc/astrumweaver/worker.toml"; "  - write protected /etc/astrumweaver/worker.env";
         "  - install systemd Worker integration";
         match fc_mode c with
         | Some SMOKE => "  - start Worker and wait for registration/readiness"
         | _ => "  - hand off to reviewed RuntimeProvider SetupPlan" end]).
Definition digest_line (digest : string) : string := "First-run digest: " +:+ digest.
Definition _render_first_run_review (path : DeploymentPath) (c : first_run_choice) (digest : string) : T unit :=
  let nixos := bool_decide (path = NIXOS) in
  write_lines ([EmptyString; "First-run review"; rule 16; "Role: " +:+ role_value (fc_role c)]
    ++ match fc_control c with Some k => control_review nixos k | None => [] end
    ++ match fc_worker c with Some w => worker_review nixos c w | None => [] end
    ++ ["Secret values are omitted from this review and digest."]);;
  write (digest_line digest).

(** [replace(worker, capabilities=frozenset({"debug.echo"}))]. *)
Definition smoke_worker (w : WorkerSpec) : result WorkerSpec :=
  mk_WorkerSpec (worker_id w) (worker_class w) (resources w) (StrIter (gpu_uuids w)) (accelerators w)
    (StrIter ["debug.echo"]) (labels w).

(** The expression of a Nix package, asked until it is valid, setup/tui.py lines 1336-1347. *)
Fixpoint ask_package (turns fuel : nat) : T (option string) :=
  match turns with
  | O => mret None
  | S turns' =>
      and_then (_ask_nonblank fuel "Nix runtime package attribute path (pkgs.ollama / pkgs.vllm)" None) (λ expression,
        match validate_nixos_runtime_package_expression expression with
        | Ok e => mret (Some e)
        | Err (ValueError m) => write m;; ask_package turns' fuel
        | Err e => throws e
        end)
  end.

Context (ip_version : string → option Z) (argv0 : string).

(** The address of the Control and the secrets of a Worker, setup/tui.py lines 1308-1325. *)
Definition worker_access (fuel : nat) (role : FirstRunRole) (control : option ControlBootstrapSpec)
    (secrets : FirstRunSecrets) : T (option (string * FirstRunSecrets)) :=
  match role with
  | ROLE_BOTH =>
      match control with
      | None => throws (AssertionError EmptyString)
      | Some k =>
          ensure (bool_decide (is_Some (fs_worker_token secrets))) (AssertionError EmptyString);;
          mret (Some (control_url_for_bind_host ip_version (cb_bind_host k) (cb_port k), secrets))
      end
  | _ =>
      and_then (_ask_nonblank fuel "Control URL" (Some "http://127.0.0.1:9000")) (λ url,
      and_then (_ask_secret_nonblank fuel "Worker authority token (input hidden)") (λ token,
        secrets ← lifts (mk_FirstRunSecrets None None (Some token)); mret (Some (url, secrets))))
  end.

(** The Worker of a first run, setup/tui.py lines 1292-1347; a result inside ends the wizard. *)
Definition choose_worker (fuel : nat) (snapshot : SetupHostSnapshot) (gpus : list DiscoveredGpu)
    (role : FirstRunRole) (control : option ControlBootstrapSpec) (secrets : FirstRunSecrets)
    : T (option (TuiRunResult + first_run_choice)) :=
  let ended status : T (option (TuiRunResult + first_run_choice)) :=
    mret (Some (inl (tui_result status None None None))) in
  and_then (_select_gpus fuel gpus) (λ selected,
    if match selected with [] => true | _ => false end && bool_decide (hs_deployment_path snapshot = SYSTEMD)
    then
      write "Generic systemd first-run Worker setup currently requires at least one NVIDIA GPU.";;
      ended TUI_BLOCKED
    else
  and_then (_prompt_worker fuel selected) (λ worker,
  and_then (_choose_execution_mode fuel) (λ mode,
    worker ← lifts (match mode with SMOKE => smoke_worker worker | RUNTIME => Ok worker end);
  and_then (worker_access fuel role control secrets) (λ access,
    let choice plan package : T (option (TuiRunResult + first_run_choice)) :=
      mret (Some (inr {| fc_role := role; fc_control := control; fc_secrets := access.2;
        fc_worker := Some worker; fc_control_url := Some access.1; fc_mode := Some mode;
        fc_plan := plan; fc_package := package |})) in
    match mode with
    | SMOKE => choice None None
    | RUNTIME =>
        and_then (plan_runtime_for_worker fuel snapshot worker false) (λ plan,
          match plan with
          | None => ended TUI_CANCELLED
          | Some plan =>
              if bool_decide (hs_deployment_path snapshot = NIXOS)
              then and_then (ask_package fuel fuel) (λ package, choice (Some plan) (Some package))
              else choice (Some plan) None
          end)
    end)))).

(** The prompts of [run_first_run_tui], setup/tui.py lines 1276-1347. *)
Definition choose_first_run (fuel : nat) (snapshot : SetupHostSnapshot) (gpus : list DiscoveredGpu)
    : T (option (TuiRunResult + first_run_choice)) :=
  and_then (_choose_first_run_role fuel) (λ role,
  and_then (if with_control role then
              and_then (_prompt_control_spec fuel) (λ k,
              and_then (_prompt_control_secrets fuel (cb_client_auth k)) (λ secrets, mret (Some (Some k, secrets))))
            else mret (Some (None, {| fs_database_url := None; fs_client_token := None; fs_worker_token := None |})))
    (λ control,
    if with_worker role then choose_worker fuel snapshot gpus role control.1 control.2
    else mret (Some (inr {| fc_role := role; fc_control := control.1; fc_secrets := control.2;
           fc_worker := None; fc_control_url := None; fc_mode := None; fc_plan := None; fc_package := None |})))).

(** The files with the secrets, setup/tui.py lines 1420-1435. *)
Definition write_env_files (c : first_run_choice) : T unit :=
  (match fc_control c, with_control (fc_role c) with
   | Some k, true =>
       env ← lifts (render_control_env (fc_secrets c) (cb_client_auth k));
       on_host (write_protected_file (Path "/etc/astrumweaver/control.env") env);;
       write "Wrote protected /etc/astrumweaver/control.env"
   | None, true => throws (AttributeError "'NoneType' object has no attribute 'client_auth'")
   | _, false => mret tt
   end);;
  if with_worker (fc_role c) then
    match fs_worker_token (fc_secrets c) with
    | None => throws (AssertionError EmptyString)
    | Some token =>
        env ← lifts (render_worker_env token);
        on_host (write_protected_file (Path "/etc/astrumweaver/worker.env") env);;
        write "Wrote protected /etc/astrumweaver/worker.env"
    end
  else mret tt.

Definition planned_provider (c : first_run_choice) : option string := rt_provider_id <$> fc_plan c.
Definition snippet_prompt (digest : string) : string :=
  "Type '" +:+ phrase "WRITE" digest +:+ "' to write the reviewed snippet: ".
Definition first_run_prompt (digest : string) : string :=
  "Type '" +:+ phrase "APPLY" digest +:+ "' to apply this reviewed first-run setup: ".

(** A first run on NixOS, setup/tui.py lines 1375-1449. *)
Definition nixos_first_run (fuel : nat) (c : first_run_choice) (digest : string) : T (option TuiRunResult) :=
  deployment ← lifts (match fc_plan c with
                      | Some p => d ← _runtime_deployment_dict p; Ok (Some d) | None => Ok None end);
  snippet ← lifts (render_nixos_bootstrap_snippet (fc_role c) (fc_control c) (fc_worker c) (fc_control_url c)
                     (default SMOKE (fc_mode c)) "/etc/astrumweaver/control.env" "/etc/astrumweaver/worker.env"
                     deployment (fc_package c));
  and_then (_ask_nonblank fuel "Write generated Nix module snippet to" (Some "./astrumweaver-first-run.nix"))
    (λ output,
    line ← ask (AskLine (snippet_prompt digest));
    if negb (bool_decide (strip line = phrase "WRITE" digest)) then
      write "First-run snippet write cancelled.";;
      mret (Some (tui_result TUI_CANCELLED None None None))
    else
      ask (WriteSnippet (Path output) snippet);;
      write ("Wrote Nix module snippet: " +:+ path_str (Path output));;
      write "NixOS authority boundary preserved: import/review this file and run nixos-rebuild yourself.";;
      can_write ← ask EffectiveRoot;
      and_then (_confirm fuel "Write protected environment files under /etc/astrumweaver now?" can_write)
        (λ wanted : bool,
        (if wanted then
           ensure can_write (OSError "writing /etc/astrumweaver secret files requires root");;
           write_env_files c
         else
           write "Secret environment files were not written. Create the environmentFile paths from the generated snippet before rebuild.");;
        mret (Some (tui_result TUI_PLANNED (planned_provider c) (Some digest) None)))).

(** The Worker of a first run under systemd, setup/tui.py lines 1484-1519; a result inside is that
    of a runtime that was not applied. *)
Definition install_first_worker (fuel : nat) (config : installer) (c : first_run_choice) (w : WorkerSpec)
    : T (option (option TuiRunResult)) :=
  match fc_control_url c, fc_mode c, fs_worker_token (fc_secrets c) with
  | Some url, Some mode, Some token =>
      manifest ← lifts (match fc_plan c with
                        | Some p => m ← _runtime_manifest_json p; Ok (Some m) | None => Ok None end);
      toml ← lifts (render_worker_toml w url mode "/etc/astrumweaver/runtime-deployment.json" "127.0.0.1" 9100);
      write "Installing Worker base configuration...";;
      and_then (on_host (install_worker config fuel toml token manifest
                           (match mode with SMOKE => true | RUNTIME => false end))) (λ _,
        match mode, fc_plan c with
        | SMOKE, _ => write "Worker is registered and ready.";; mret (Some None)
        | RUNTIME, Some plan =>
            write "Base Worker installed; entering RuntimeProvider apply phase.";;
            ask CreateSystemdDriver;;
            and_then (apply_runtime_tui_plan fuel plan true) (λ r,
              mret (Some (if bool_decide (tr_status r = TUI_APPLIED) then None else Some r)))
        | RUNTIME, None => throws (AssertionError EmptyString)
        end)
  | _, _, _ => throws (AssertionError EmptyString)
  end.

(** A first run under systemd, setup/tui.py lines 1460-1539. *)
Definition systemd_first_run (fuel : nat) (tool_dir : option path) (c : first_run_choice) (digest : string)
    : T (option TuiRunResult) :=
  line ← ask (AskLine (first_run_prompt digest));
  if negb (bool_decide (strip line = phrase "APPLY" digest)) then
    write "First-run apply cancelled; no host mutation was started.";;
    mret (Some (tui_result TUI_CANCELLED None (Some digest) None))
  else
    config ← lifts (mk_installer tool_dir "systemctl" (S754_finite false 4503599627370496 (-53)) (float_of_Z 60) argv0);
    and_then
      (match fc_control c with
       | Some k =>
           write "Installing Control...";;
           and_then (on_host (install_control config ip_version fuel k (fc_secrets c))) (λ _,
             write "Control migration applied and /v1/ready is healthy.";; mret (Some tt))
       | None => mret (Some tt)
       end) (λ _,
    and_then
      (match fc_worker c with
       | Some w => install_first_worker fuel config c w
       | None => mret (Some None)
       end) (λ stopped,
      match stopped with
      | Some r => mret (Some r)
      | None =>
          write_lines ([EmptyString; "First-run setup completed."]
            ++ match fc_control c with Some _ => ["Control: systemctl status astrumweaver-control.service"] | None => [] end
            ++ match fc_worker c with Some _ => ["Worker: curl -fsS http://127.0.0.1:9100/health"] | None => [] end);;
          mret (Some (tui_result TUI_APPLIED (planned_provider c) (Some digest) None))
      end)).

(** [run_first_run_tui], setup/tui.py lines 1258-1373, then one of the two ends above. *)
Definition run_first_run_tui (fuel : nat) (snapshot : SetupHostSnapshot) (gpus : list DiscoveredGpu)
    (tool_dir : option path) : T (option TuiRunResult) :=
  ask ClearScreen;;
  write_lines ["AstrumWeaver first-run setup"; rule 27; host_line snapshot];;
  and_then (choose_first_run fuel snapshot gpus) (λ outcome,
    match outcome with
    | inl r => mret (Some r)
    | inr c =>
        let digest := _first_run_review_token c in
        _render_first_run_review (hs_deployment_path snapshot) c digest;;
        match hs_deployment_path snapshot with
        | NIXOS => nixos_first_run fuel c digest
        | SYSTEMD => systemd_first_run fuel tool_dir c digest
        end
    end).

(** ** The command *)

(** [_load_driver], setup/tui.py lines 1542-1558: whether it is the systemd driver. *)
Definition _load_driver (specifier : string) : T bool :=
  let '(module_name, separator, attribute) := partition_char ":" specifier in
  ensure (separator && str_truthy module_name && str_truthy attribute)
    (ValueError "driver must use module:attribute syntax");;
  kind ← ask (LoadDriver module_name attribute);
  match kind with
  | Some systemd => mret systemd
  | None => throws (TypeError "driver target does not implement SetupActionDriver")
  end.

Definition packaged_tools : list string :=
  ["astrumweaver-setup-control-plane"; "astrumweaver-setup-gpu-worker"; "astrumweaver-control";
   "astrumweaver-worker"; "astrumweaver-migrate"; "astrumweaver-runtime-profile"].
(** [_check_packaging], setup/tui.py lines 1603-1634. *)
Definition _check_packaging (tool_dir : option path) : T Z :=
  match tool_dir with
  | None => throws (ValueError "packaging check requires the package-provided tool authority")
  | Some dir =>
      config ← lifts (mk_installer (Some dir) "systemctl" (S754_finite false 4503599627370496 (-53)) (float_of_Z 60) argv0);
      ask (PrintLine ("packaged tool authority: " +:+ path_str dir));;
      each (λ name,
        resolved ← try_catch (on_host (_resolve_tool config name)) (λ e,
          match runtime_error e with
          | Some m => throws (RuntimeError (m +:+ " (authority=" +:+ path_str dir +:+ ")"))
          | None => throws e
          end);
        ensure (bool_decide (parent (Path resolved) = dir))
          (RuntimeError ("packaged command escaped explicit tool authority: " +:+ name));;
        code ← ask (Install (RunTool [path_str (Path resolved); "--help"] []));
        ensure (code =? 0) (CalledProcessError "Command returned non-zero exit status");;
        ask (PrintLine (name +:+ ": " +:+ path_str (Path resolved)))) packaged_tools;;
      mret 0
  end.

(** The arguments of [build_parser], setup/tui.py lines 1561-1600. *)
Record tui_arguments := {
  ta_runtime_mode : bool;
  ta_driver : option string;
  ta_packaged_tool_dir : option path;
  ta_check_packaging : bool;
}.

(** The wizard that [main] runs, setup/tui.py lines 1639-1687. *)
Definition run_wizard (fuel : nat) (a : tui_arguments) : T (option TuiRunResult) :=
  snapshot ← ask DiscoverHost;
  gpus ← ask DiscoverGpus;
  let driver := match ta_driver a with Some d => if str_truthy d then Some d else None | None => None end in
  if ta_runtime_mode a then
    systemd_driver ← match driver with Some d => b ← _load_driver d; mret (Some b) | None => mret None end;
    match hs_deployment_path snapshot with
    | SYSTEMD =>
        match systemd_driver with
        | Some false => throws (TypeError "generic-systemd runtime migration requires SystemdSetupDriver")
        | Some true => mret tt
        | None => ask CreateSystemdDriver
        end;;
        existing ← ask InstalledContract;
        run_setup_tui fuel snapshot gpus (bool_decide (is_Some systemd_driver)) (Some existing) true
    | NIXOS => run_setup_tui fuel snapshot gpus (bool_decide (is_Some systemd_driver)) None false
    end
  else
    ensure (bool_decide (driver = None))
      (ValueError "--driver applies only to --mode runtime; first-run selects its deployment integration automatically");;
    run_first_run_tui fuel snapshot gpus (ta_packaged_tool_dir a).

(** [main], setup/tui.py lines 1637-1699; an interrupt at a prompt ends it as the end of the input
    does. *)
Definition exit_code (r : TuiRunResult) : Z :=
  match tr_status r with TUI_PLANNED | TUI_APPLIED => 0 | TUI_CANCELLED => 2 | _ => 1 end.
Definition main (fuel : nat) (a : tui_arguments) : T (option Z) :=
  try_catch
    (if ta_check_packaging a then code ← _check_packaging (ta_packaged_tool_dir a); mret (Some code)
     else and_then (run_wizard fuel a) (λ r, mret (Some (exit_code r))))
    (λ e, match e with
          | EOFError _ => ask (PrintError (newline +:+ "Setup cancelled."));; mret (Some 130)
          | CancelledError | OutOfModel _ => throws e
          | _ => ask (PrintError ("setup failed: " +:+ exn_class e +:+ ": " +:+ exn_text e));; mret (Some 1)
          end).
End tui.
