(* ===== verification/TuiProps.v ===== *)
(** * What the setup wizard may do

    Nothing on the host changes before the operator was shown what would change and typed its
    phrase; the GPUs of a selection are GPUs that were found, and an installed Worker is taken
    over only when its GPUs are those of the host. *)

From Stdlib Require Import SpecFloat.
From S2P Require Import Prelude PyStr PyDict PyVal PyHost Effects PyText PyNum Contracts Json Models RuntimeContracts Planner Deployment Providers Api SetupContracts SetupPlanner SetupApply SetupApplyProps Migration Discovery Systemd ControlDaemon FirstRun Tui Trace.

(** ** Consent *)

Abbreviation event := (Trace.entry tui_op).

(** The operations of the installer that only look. *)
Definition looks {A} (o : first_run_op A) : bool :=
  match o with
  | EffectiveUid | ExecutableFile _ | Absolute _ | Resolved _ | WhichTool _ | ReadContent _ | OpenUrl _
  | ClockNow | WaitFor _ => true
  | _ => false
  end.

Definition told (text : string) (l : list event) : Prop := Trace.Entry (Write text) (Ok tt) ∈ l.
Definition typed (prompt word : string) (l : list event) : Prop :=
  ∃ line, Trace.Entry (AskLine prompt) (Ok line) ∈ l ∧ strip line = word.
Definition said_yes (prompt : string) (l : list event) : Prop :=
  ∃ line, Trace.Entry (AskLine (prompt +:+ " [y/N]: ")) (Ok line) ∈ l ∧ _parse_bool (strip line) = Ok true.
Definition permitted (needed : bool) (prompt : string) (l : list event) : Prop :=
  needed = true → said_yes prompt l.

(** The operator saw the plan, typed its phrase and gave every permission it needs. *)
Definition approved_plan `{Digests} (plan : SetupPlan) (l : list event) : Prop :=
  told (explain_plan plan) l ∧ typed (approval_prompt plan) (phrase "APPLY" (digest plan)) l ∧
  permitted (requires_privilege plan) "Approve privileged actions?" l ∧
  permitted (requires_network plan) "Approve network access?" l ∧
  permitted (has_kind SetupContracts.DOWNLOAD_MODEL plan) "Approve selected-model download?" l ∧
  permitted (has_kind CONVERT_MODEL plan) "Approve selected-model conversion?" l ∧
  permitted (requires_confirmation plan) "Approve confirmation-gated actions?" l.

(** The operator saw the digest of the choices and typed the phrase of what follows. *)
Definition agreed_apply `{Digests} (c : first_run_choice) (l : list event) : Prop :=
  let digest := _first_run_review_token c in
  told (digest_line digest) l ∧ typed (first_run_prompt digest) (phrase "APPLY" digest) l.
Definition agreed_write `{Digests} (c : first_run_choice) (l : list event) : Prop :=
  let digest := _first_run_review_token c in
  told (digest_line digest) l ∧ typed (snippet_prompt digest) (phrase "WRITE" digest) l.
(** The module of the choices: with the deployment of the reviewed runtime plan, if there is one. *)
Definition deployment_of (c : first_run_choice) (deployment : option (dict pyval)) : Prop :=
  match fc_plan c, deployment with
  | Some p, Some d => _runtime_deployment_dict p = Ok d
  | None, None => True
  | _, _ => False
  end.
Definition snippet_of `{Digests} (c : first_run_choice) (text : string) : Prop := ∃ deployment,
  deployment_of c deployment ∧
  render_nixos_bootstrap_snippet (fc_role c) (fc_control c) (fc_worker c) (fc_control_url c)
    (default SMOKE (fc_mode c)) "/etc/astrumweaver/control.env" "/etc/astrumweaver/worker.env"
    deployment (fc_package c) = Ok text.

(** What has to be known when an operation is asked. *)
Definition consented `{Digests} {A} (o : tui_op A) (l : list event) : Prop :=
  match o with
  | ApplyAction a | RollbackAction a _ => ∃ plan, a ∈ pl_actions plan ∧ approved_plan plan l
  | WriteSnippet _ text => ∃ c, snippet_of c text ∧ agreed_write c l
  | Install o => looks o = true ∨ ∃ c, agreed_apply c l ∨ agreed_write c l
  | _ => True
  end.
Fixpoint guarded `{Digests} (l : list event) : Prop :=
  match l with
  | [] => True
  | e :: l' => guarded l' ∧ match e with Trace.Entry o _ => consented o l' end
  end.

Definition grows (P : list event → Prop) : Prop := ∀ e l, P l → P (e :: l).
Lemma tui_grows_const (φ : Prop) : grows (λ _, φ).
Proof. by intros e l. Qed.
Lemma tui_grows_and P Q : grows P → grows Q → grows (λ l, P l ∧ Q l).
Proof. intros HP HQ e l [??]. split; auto. Qed.
Lemma tui_grows_impl (φ : Prop) Q : grows Q → grows (λ l, φ → Q l).
Proof. intros HQ e l H ?. apply HQ. auto. Qed.
Lemma grows_told text : grows (told text).
Proof. intros e l. by right. Qed.
Lemma grows_typed prompt word : grows (typed prompt word).
Proof. intros e l (line & Hin & Hw). exists line. split; [by right|done]. Qed.
Lemma grows_said_yes prompt : grows (said_yes prompt).
Proof. intros e l (line & Hin & Hw). exists line. split; [by right|done]. Qed.
Create HintDb consent discriminated.
Hint Resolve tui_grows_const tui_grows_and tui_grows_impl grows_told grows_typed grows_said_yes : consent.
Lemma grows_permitted needed prompt : grows (permitted needed prompt).
Proof. unfold permitted. auto with consent. Qed.
Hint Resolve grows_permitted : consent.
Lemma grows_approved_plan `{Digests} plan : grows (approved_plan plan).
Proof. unfold approved_plan. auto 20 with consent. Qed.
Lemma grows_agreed_apply `{Digests} c : grows (agreed_apply c).
Proof. unfold agreed_apply. auto with consent. Qed.
Lemma grows_agreed_write `{Digests} c : grows (agreed_write c).
Proof. unfold agreed_write. auto with consent. Qed.
Hint Resolve grows_approved_plan grows_agreed_apply grows_agreed_write : consent.

(** A guarded log of which [P] is known. *)
Definition safe `{Digests} (P : list event → Prop) (l : list event) : Prop := guarded l ∧ P l.
Lemma safe_mono `{Digests} (P Q : list event → Prop) l : (∀ l, P l → Q l) → safe P l → safe Q l.
Proof. unfold safe. naive_solver. Qed.

Lemma safe_left `{Digests} (P Q : list event → Prop) l : safe (λ l, P l ∧ Q l) l → safe P l.
Proof. apply safe_mono. by intros l' []. Qed.

(** The operations that need no consent. *)
Definition free {A} (o : tui_op A) : bool :=
  match o with ApplyAction _ | RollbackAction _ _ | WriteSnippet _ _ | Install _ => false | _ => true end.

Section consent.
Context {W : Type} `{Handler tui_op W} {DG : Digests} {DL : DriverLibrary}.
Abbreviation T := (eff (logged tui_op W)).
Implicit Types (P : list event → Prop).

Lemma safe_step P {A} (o : tui_op A) r l : grows P → consented o l → safe P l → safe P (Trace.Entry o r :: l).
Proof. intros HP Ho [Hg Hl]. split; [by split|by apply HP]. Qed.
Lemma free_consented {A} (o : tui_op A) l : free o = true → consented o l.
Proof. by destruct o. Qed.
Lemma keeps_free P {A} (o : tui_op A) : free o = true → grows P → keeps (safe P) (ask o).
Proof. intros Ho HP. apply keeps_ask. intros r l. apply safe_step; [done|by apply free_consented]. Qed.
Hint Extern 1 (preserves _ (ask _)) => (apply keeps_free; [reflexivity|assumption]) : trace.

Lemma keeps_write P text : grows P → keeps (safe P) (write (W := W) text).
Proof. intros HP. unfold write. keeping. Qed.
Hint Resolve keeps_write : trace.
Lemma keeps_write_lines P lines : grows P → keeps (safe P) (write_lines (W := W) lines).
Proof. intros HP. unfold write_lines. keeping. Qed.
Hint Resolve keeps_write_lines : trace.

Lemma keeps_confirm P fuel prompt d : grows P → keeps (safe P) (_confirm (W := W) fuel prompt d).
Proof. intros HP. induction fuel as [|fuel IH]; cbn [_confirm]; keeping. Qed.
Lemma keeps_ask_nonblank P fuel prompt d : grows P → keeps (safe P) (_ask_nonblank (W := W) fuel prompt d).
Proof. intros HP. induction fuel as [|fuel IH]; cbn [_ask_nonblank]; keeping. Qed.
Lemma keeps_ask_secret P fuel prompt : grows P → keeps (safe P) (_ask_secret_nonblank (W := W) fuel prompt).
Proof. intros HP. induction fuel as [|fuel IH]; cbn [_ask_secret_nonblank]; keeping. Qed.
Lemma keeps_ask_int P fuel prompt d : grows P → keeps (safe P) (_ask_int (W := W) fuel prompt d).
Proof. intros HP. induction fuel as [|fuel IH]; cbn [_ask_int]; keeping. Qed.
Lemma keeps_ask_optional_int P fuel prompt : grows P → keeps (safe P) (_ask_optional_int (W := W) fuel prompt).
Proof. intros HP. induction fuel as [|fuel IH]; cbn [_ask_optional_int]; keeping. Qed.
Hint Resolve keeps_confirm keeps_ask_nonblank keeps_ask_secret keeps_ask_int keeps_ask_optional_int : trace.
Lemma keeps_ask_enum P {A} `{StrEnum A} turns fuel a b c : grows P →
  keeps (safe P) (ask_enum (W := W) (A := A) turns fuel a b c).
Proof. intros HP. induction turns as [|turns IH]; cbn [ask_enum]; keeping. Qed.
Lemma keeps_ask_choice P {A} turns fuel a b c (f : string → option A) : grows P →
  keeps (safe P) (ask_choice (W := W) turns fuel a b c f).
Proof. intros HP. induction turns as [|turns IH]; cbn [ask_choice]; keeping. Qed.
Hint Resolve keeps_ask_enum keeps_ask_choice : trace.

Lemma keeps_select_gpus P fuel gpus : grows P → keeps (safe P) (_select_gpus (W := W) fuel gpus).
Proof.
  intros HP. assert (keeps (safe P) (select_loop (W := W) fuel gpus)).
  { induction fuel as [|fuel IH]; cbn [select_loop]; keeping. }
  unfold _select_gpus. keeping.
Qed.
Lemma keeps_prompt_worker P fuel gpus : grows P → keeps (safe P) (_prompt_worker (W := W) fuel gpus).
Proof. intros HP. unfold _prompt_worker. keeping. Qed.
Lemma keeps_prompt_demand P fuel worker : grows P → keeps (safe P) (_prompt_demand (W := W) fuel worker).
Proof. intros HP. unfold _prompt_demand. keeping. Qed.
Hint Resolve keeps_select_gpus keeps_prompt_worker keeps_prompt_demand : trace.
Lemma keeps_choose_provider P fuel configs context : grows P →
  keeps (safe P) (_choose_provider (W := W) fuel configs context).
Proof.
  intros HP. assert (keeps (safe P) (choose_loop (W := W) fuel configs)).
  { induction fuel as [|fuel IH]; cbn [choose_loop]; keeping. }
  unfold _choose_provider, _render_report. keeping.
Qed.
Lemma keeps_configure P fuel c : grows P → keeps (safe P) (configure_provider (W := W) fuel c).
Proof.
  intros HP.
  assert (∀ spec current, keeps (safe P) (ask_option (W := W) fuel spec current)) as Ho.
  { intros spec current. induction fuel as [|fuel' IH]; cbn [ask_option]; keeping. }
  assert (∀ config specs updates, keeps (safe P) (ask_options (W := W) fuel config specs updates)) as Hs.
  { intros config specs. induction specs as [|spec specs IH]; intros updates; cbn [ask_options]; keeping. }
  unfold configure_provider. keeping.
Qed.
Hint Resolve keeps_choose_provider keeps_configure : trace.
Lemma keeps_plan_loop P fuel snapshot worker turns : grows P → ∀ configs demand,
  keeps (safe P) (plan_loop (W := W) turns fuel snapshot worker configs demand).
Proof.
  intros HP. induction turns as [|turns IH]; intros configs demand; cbn [plan_loop]; unfold _render_report; keeping.
Qed.
Lemma keeps_plan_runtime P fuel snapshot worker reconcile : grows P →
  keeps (safe P) (plan_runtime_for_worker (W := W) fuel snapshot worker reconcile).
Proof. intros HP. pose proof keeps_plan_loop. unfold plan_runtime_for_worker. keeping. Qed.
Hint Resolve keeps_plan_runtime : trace.

(** ** What an answer makes known *)

Lemma traced_free P {A} (o : tui_op A) : free o = true → grows P →
  traced (safe P) (ask o) (λ a, safe (λ l, P l ∧ Trace.Entry o (Ok a) ∈ l)) (λ _, safe P).
Proof.
  intros Ho HP. apply traced_ask. intros l Hl. pose proof (free_consented o l Ho) as Hc.
  split; [intros x|intros e; by apply safe_step].
  destruct (safe_step P o (Ok x) l HP Hc Hl) as [Hg Hp]. split; [done|]. split; [done|by left].
Qed.
Lemma traced_told P text : grows P →
  traced (safe P) (write (W := W) text) (λ _, safe (λ l, P l ∧ told text l)) (λ _, safe P).
Proof.
  intros HP. eapply traced_conseq; [by apply (traced_free P (Write text))|done| |done].
  intros [] l. by apply safe_mono.
Qed.

(** A confirmation that stays off unless it is given. *)
Lemma confirm_spec P fuel prompt : grows P →
  traced (safe P) (_confirm (W := W) fuel prompt false)
    (λ r, safe (λ l, P l ∧ (r = Some true → said_yes prompt l))) (λ _, safe P).
Proof.
  intros HP. induction fuel as [|fuel IH]; cbn [_confirm].
  { apply traced_ret. intros l. apply safe_mono. intros l' Hl. by split. }
  eapply traced_bind; [by apply traced_free|]. intros line. cbn beta.
  destruct (str_truthy (strip line)); cbn [negb].
  - destruct (_parse_bool (strip line)) as [b|e] eqn:Eb.
    + apply traced_ret. intros l. apply safe_mono. intros l' [Hl Hin]. split; [done|].
      intros [= ->]. by exists line.
    + destruct e; try (apply traced_throws; intros l; apply safe_left).
      eapply traced_pre; [|intros l; apply safe_left].
      by apply traced_keep; [apply keeps_write| |].
  - apply traced_ret. intros l. apply safe_mono. intros l' [Hl Hin]. by split.
Qed.
Lemma confirm_if_spec P fuel needed prompt : grows P →
  traced (safe P) (confirm_if (W := W) fuel needed prompt)
    (λ r, safe (λ l, P l ∧ (r = Some true → permitted needed prompt l))) (λ _, safe P).
Proof.
  intros HP. unfold confirm_if. destruct needed.
  - eapply traced_conseq; [by apply confirm_spec|done| |done].
    intros r l. apply safe_mono. intros l' [Hl Hr]. split; [done|]. intros E _. auto.
  - apply traced_ret. intros l. apply safe_mono. intros l' Hl. by split.
Qed.
(** One more permission, then the rest. *)
Lemma traced_permission P fuel needed prompt {A} (k : bool → T (option A)) (Q : option A → list event → Prop)
    (E : exn → list event → Prop) : grows P →
  (∀ l, P l → guarded l → Q None l) → (∀ e l, P l → guarded l → E e l) →
  (∀ b : bool, traced (safe (λ l, P l ∧ (b = true → permitted needed prompt l))) (k b) Q E) →
  traced (safe P) (and_then (confirm_if (W := W) fuel needed prompt) k) Q E.
Proof.
  intros HP Hn He Hk. eapply (traced_and_then _ _ (λ r, safe (λ l, P l ∧ (r = Some true → permitted needed prompt l)))).
  - eapply traced_conseq; [by apply confirm_if_spec|done|done|]. intros e l [Hg Hl]. by apply He.
  - intros l [Hg [Hl _]]. by apply Hn.
  - intros b. eapply traced_pre; [apply Hk|]. intros l. apply safe_mono. intros l' [Hl Hb]. split; [done|].
    intros ->. auto.
Qed.

(** An approval is given only with every permission the plan needs. *)
Lemma approval_spec fuel plan P : grows P → (∀ l, P l → told (explain_plan plan) l) →
  traced (safe P) (_approval (W := W) fuel plan)
    (λ r, safe (λ l, P l ∧ (∀ av, r = Some (Some av) → approved_plan plan l))) (λ _, safe P).
Proof.
  intros HP Htold. unfold _approval. eapply traced_bind; [by apply traced_free|]. intros line. cbn beta.
  case_bool_decide as Hline; cbn [negb].
  2: { eapply traced_pre; [|intros l; apply safe_left].
       apply traced_keep; [by apply keeps_write|done|]. intros ?. apply traced_ret. intros l.
       apply safe_mono. intros l' Hl. by split. }
  set (P0 := λ l, P l ∧ typed (approval_prompt plan) (phrase "APPLY" (digest plan)) l).
  assert (grows P0) as H0 by (unfold P0; auto with consent).
  eapply traced_pre; [|intros l Hl; apply (safe_mono _ P0) in Hl; [exact Hl|]; intros l' [Hp Hin];
    split; [done|by exists line]].
  do 5 (apply traced_permission;
    [auto 12 with consent|intros l Hl Hg; split; [done|]; split; [unfold P0 in Hl; tauto|done]
    |intros e l Hl Hg; split; [done|unfold P0 in Hl; tauto]|intros ?]).
  destruct (_ && _) eqn:Eall.
  - apply andb_true_iff in Eall as [[[[-> ->]%andb_true_iff ->]%andb_true_iff ->]%andb_true_iff ->].
    apply traced_given; [intros e l; apply safe_mono; unfold P0; tauto|]. intros av Hav.
    apply traced_ret. intros l. apply safe_mono. unfold P0. intros l' Hl. split; [tauto|].
    intros av' _. unfold approved_plan. specialize (Htold l'). tauto.
  - apply traced_keep; [apply keeps_write; unfold P0; auto 12 with consent|intros e l; apply safe_mono; unfold P0; tauto|].
    intros ?. apply traced_ret. intros l. apply safe_mono. unfold P0. intros l' Hl. split; [tauto|done].
Qed.

(** ** Applying *)

#[local] Existing Instance connected_driver.
(** One call of the driver keeps the log guarded. *)
Lemma call_safe P {A} (o : tui_op A) (s : logged tui_op W) : grows P →
  consented o (lg_log s) → safe P (lg_log s) → safe P (lg_log (ask o s).1).
Proof.
  intros HP Ho Hs. unfold ask. destruct (answer o (lg_world s)) as [w r]. cbn. by apply safe_step.
Qed.
Lemma attempted_log {A} (r : logged tui_op W * result A) : (attempted_call r).1 = r.1.
Proof. by destruct r as [s []]. Qed.

Lemma keeps_preview P plan : grows P → keeps (safe P) (_render_preview (W := W) plan).
Proof.
  intros HP. unfold _render_preview, preview_plan.
  assert (∀ actions (s : logged tui_op W), safe P (lg_log s) →
    safe P (lg_log (preview_actions actions s).1)) as Hp.
  { induction actions as [|a actions IH]; intros s Hs; cbn [preview_actions]; [done|].
    unfold preview_action. cbn [SetupApply.inspect connected_driver].
    pose proof (call_safe P (InspectAction a) s HP I Hs) as Hi. rewrite <-attempted_log in Hi.
    destruct (attempted_call _) as [s1 o]. cbn [fst] in Hi. specialize (IH s1 Hi).
    destruct (preview_actions actions s1) as [s2 ps]. done. }
  intros s Hs. specialize (Hp (pl_actions plan) s Hs).
  destruct (preview_actions (pl_actions plan) s) as [s' previews]. cbn [fst] in Hp.
  match goal with |- match ?m s' with _ => _ end => enough (keeps (safe P) m) as Hk by exact (Hk s' Hp) end.
  keeping.
Qed.

Lemma keeps_run_plan P plan approval : grows P → (∀ l, P l → approved_plan plan l) →
  keeps (safe P) (run_plan (W := W) plan approval).
Proof.
  intros HP Happ s Hs. unfold run_plan, apply_plan.
  destruct (_validate_approval plan approval) as [[]|e]; [|done]. cbn [mbind result_bind].
  set (G := λ s : logged tui_op W, safe P (lg_log s)).
  assert (∀ s, G s → approved_plan plan (lg_log s)) as HG by (intros s0 [_ Hp]; by apply Happ).
  assert (∀ r s, G s → G (_emit_result show_result r s)) as Hobs.
  { intros r s0 Hs0. unfold show_result, _emit_result, write. by apply call_safe. }
  assert (∀ (a : SetupAction) s, G s → G (SetupApply.inspect a s).1) as Hins.
  { intros a s0 Hs0. cbn [SetupApply.inspect connected_driver]. rewrite attempted_log. by apply call_safe. }
  pose proof (loop_phase G G (λ _ _, True) plan show_result) as Hloop.
  destruct (apply_loop plan true show_result [] [] (pl_actions plan) s) as [s' r] eqn:E.
  assert (G (apply_loop plan true show_result [] [] (pl_actions plan) s).1) as Hend;
    [|by rewrite E in Hend].
  apply Hloop; clear Hloop; try done.
  - intros a s0 _. apply Hins.
  - intros a s0 Ha Hs0 _. cbn [apply_action connected_driver].
    pose proof (call_safe P (ApplyAction a) (SetupApply.inspect a s0).1 HP) as Hc.
    rewrite <-attempted_log in Hc. specialize (Hins a s0 Hs0).
    assert (G (attempted_call (ask (ApplyAction a) (SetupApply.inspect a s0).1)).1) as Hg
      by (apply Hc; [exists plan; by split; [|apply HG]|done]).
    by destruct (attempted_call _) as [s2 []].
  - intros a rc s0 Ha _ Hs0. cbn [rollback_action connected_driver]. rewrite attempted_log.
    apply call_safe; [done| |done]. exists plan. split; [done|by apply HG].
  - intros a rc Hin. by apply not_elem_of_nil in Hin.
Qed.

(** What the interface applies was seen and approved. *)
Lemma keeps_apply_runtime P fuel runtime_plan connected : grows P →
  traced (safe P) (apply_runtime_tui_plan (W := W) fuel runtime_plan connected) (λ _, safe P) (λ _, safe P).
Proof.
  intros HP. unfold apply_runtime_tui_plan. set (plan := rt_plan runtime_plan).
  apply traced_keep; [by apply keeps_write|done|intros ?].
  eapply traced_bind; [by apply traced_told|]. intros ?. cbn beta.
  set (P0 := λ l, P l ∧ told (explain_plan plan) l).
  assert (grows P0) as H0 by (unfold P0; auto with consent).
  assert (∀ (e : exn) l, safe P0 l → safe P l) as Hw by (intros e l; apply safe_left).
  apply traced_keep; [by apply keeps_write|done|intros ?].
  destruct connected; cbn [negb].
  2: { apply (keeps_mono (safe P0)); [keeping|intros ? l; apply safe_left|done]. }
  apply traced_keep; [by apply keeps_preview|done|intros clear]. destruct clear; cbn [negb].
  2: { apply (keeps_mono (safe P0)); [keeping|intros ? l; apply safe_left|done]. }
  eapply (traced_and_then _ _ (λ r, safe (λ l, P0 l ∧ (∀ av, r = Some (Some av) → approved_plan plan l)))).
  - eapply traced_conseq; [apply (approval_spec fuel plan P0 H0)|done|done|exact Hw]. by intros l [].
  - intros l. apply safe_mono. unfold P0. tauto.
  - intros [av|].
    + set (P1 := λ l, P0 l ∧ approved_plan plan l). assert (grows P1) as H1 by (unfold P1; auto with consent).
      eapply (traced_pre _ (safe P1)); [|intros l; apply safe_mono; intros l' [Hl Ha]; split; [done|by eapply Ha]].
      assert (∀ (e : exn) l, safe P1 l → safe P l) as Hw1 by (intros e l; apply safe_mono; unfold P1, P0; tauto).
      apply traced_keep; [by apply keeps_write|done|intros ?].
      apply traced_keep; [apply keeps_run_plan; [done|by intros l []]|done|intros r].
      apply (keeps_mono (safe P1)); [unfold _render_result; keeping|intros ? l; exact (Hw1 CancelledError l)|done].
    + apply traced_ret. intros l. apply safe_mono. unfold P0. tauto.
Qed.

(** ** Installing *)

Lemma installs_safe P (past l : list event) (entries : list (Trace.entry first_run_op)) : grows P →
  (∀ l, P l → ∃ c, agreed_apply c l ∨ agreed_write c l) → safe P l →
  safe P (map install_entry entries ++ l).
Proof.
  intros HP Hc Hl. induction entries as [|[A o r] entries IH]; [done|].
  cbn [map app install_entry]. apply safe_step; [done| |done]. right. apply Hc. apply IH.
Qed.
(** Whatever the installer does once the operator agreed. *)
Lemma keeps_on_host P {A} (m : eff (logged first_run_op W) A) : grows P →
  (∀ l, P l → ∃ c, agreed_apply c l ∨ agreed_write c l) → keeps (safe P) (on_host m).
Proof.
  intros HP Hc s Hs. unfold on_host. destruct (m _) as [s' r].
  pose proof (installs_safe P [] (lg_log s) (lg_log s') HP Hc Hs). by destruct r.
Qed.

Lemma keeps_apply P fuel runtime_plan connected : grows P →
  keeps (safe P) (apply_runtime_tui_plan (W := W) fuel runtime_plan connected).
Proof. exact (keeps_apply_runtime P fuel runtime_plan connected). Qed.
Hint Resolve keeps_apply : trace.

(** ** The wizards *)

Lemma keeps_setup_tui P fuel snapshot gpus connected existing reconcile : grows P →
  keeps (safe P) (run_setup_tui (W := W) fuel snapshot gpus connected existing reconcile).
Proof. intros HP. unfold run_setup_tui, wizard_worker. keeping. Qed.

Context (ip_version : string → option Z) (argv0 : string).
Lemma keeps_choose P fuel snapshot gpus : grows P →
  keeps (safe P) (choose_first_run (W := W) ip_version fuel snapshot gpus).
Proof.
  intros HP.
  assert (∀ turns, keeps (safe P) (ask_package (W := W) turns fuel)) as Hpackage.
  { induction turns as [|turns IH]; cbn [ask_package]; keeping. }
  unfold choose_first_run, _choose_first_run_role, _prompt_control_spec, _prompt_control_secrets, control_tokens,
    fresh_token, fresh_tokens, choose_worker, worker_access, _choose_execution_mode. keeping.
Qed.

(** What may be done once the operator agreed to the choices [c]. *)
Definition knows_choice (P : list event → Prop) : Prop := ∀ l, P l → ∃ c, agreed_apply c l ∨ agreed_write c l.
Lemma keeps_env_files P c : grows P → knows_choice P → keeps (safe P) (write_env_files (W := W) c).
Proof.
  intros HP Hc. pose proof (λ A m, keeps_on_host (A := A) P m HP Hc) as Hon. unfold write_env_files. keeping.
Qed.
Lemma keeps_first_worker P fuel config c w : grows P → knows_choice P →
  keeps (safe P) (install_first_worker (W := W) fuel config c w).
Proof.
  intros HP Hc. pose proof (λ A m, keeps_on_host (A := A) P m HP Hc) as Hon. unfold install_first_worker. keeping.
Qed.
Hint Resolve keeps_env_files keeps_first_worker : trace.

Lemma systemd_first_run_safe P fuel tool_dir c : grows P →
  (∀ l, P l → told (digest_line (_first_run_review_token c)) l) →
  traced (safe P) (systemd_first_run (W := W) ip_version argv0 fuel tool_dir c (_first_run_review_token c))
    (λ _, safe P) (λ _, safe P).
Proof.
  intros HP Htold. unfold systemd_first_run. set (d := _first_run_review_token c).
  eapply traced_bind; [by apply traced_free|]. intros line. cbn beta.
  case_bool_decide as Hline; cbn [negb].
  2: { eapply traced_pre; [|intros l; apply safe_left]. apply keeps_mono; [keeping|done|done]. }
  set (P0 := λ l, P l ∧ agreed_apply c l). assert (grows P0) as H0 by (unfold P0; auto with consent).
  assert (knows_choice P0) as Hk by (intros l [_ Ha]; exists c; by left).
  pose proof (λ A m, keeps_on_host (A := A) P0 m H0 Hk) as Hon.
  eapply (traced_pre _ (safe P0)); [|intros l; apply safe_mono; intros l' [Hl Hin]; split; [done|];
    split; [by apply Htold|by exists line]].
  apply (keeps_mono (safe P0)); [keeping|intros ? l; apply safe_left|intros ? l; apply safe_left].
Qed.

Lemma nixos_first_run_safe P fuel c : grows P →
  (∀ l, P l → told (digest_line (_first_run_review_token c)) l) →
  traced (safe P) (nixos_first_run (W := W) fuel c (_first_run_review_token c)) (λ _, safe P) (λ _, safe P).
Proof.
  intros HP Htold. unfold nixos_first_run. set (d := _first_run_review_token c).
  apply traced_given; [done|]. intros deployment Hdep.
  assert (deployment_of c deployment) as Hd.
  { unfold deployment_of. destruct (fc_plan c) as [p|]; simp_res; done. }
  clear Hdep. apply traced_given; [done|]. intros snippet Hsnippet.
  eapply (traced_and_then _ _ (λ _, safe P)); [by apply keeps_mono; [apply keeps_ask_nonblank|done|done]|done|].
  intros output. eapply traced_bind; [by apply traced_free|]. intros line. cbn beta.
  case_bool_decide as Hline; cbn [negb].
  2: { eapply traced_pre; [|intros l; apply safe_left]. apply keeps_mono; [keeping|done|done]. }
  set (P0 := λ l, P l ∧ agreed_write c l). assert (grows P0) as H0 by (unfold P0; auto with consent).
  assert (knows_choice P0) as Hk by (intros l [_ Ha]; exists c; by right).
  eapply (traced_pre _ (safe P0)); [|intros l; apply safe_mono; intros l' [Hl Hin]; split; [done|];
    split; [by apply Htold|by exists line]].
  assert (∀ (e : exn) l, safe P0 l → safe P l) as Hw by (intros e l; apply safe_left).
  apply traced_keep; [|done|].
  { apply keeps_ask. intros r l Hl. apply safe_step; [done| |done]. exists c. split; [by exists deployment; split|apply Hl]. }
  intros ?. apply (keeps_mono (safe P0)); [keeping|intros ? l; apply safe_left|done].
Qed.

Lemma keeps_first_run P fuel snapshot gpus tool_dir : grows P →
  keeps (safe P) (run_first_run_tui (W := W) ip_version argv0 fuel snapshot gpus tool_dir).
Proof.
  intros HP. unfold run_first_run_tui. apply preserves_bind; [keeping|intros ?].
  apply preserves_bind; [keeping|intros ?].
  apply preserves_and_then; [by apply keeps_choose|]. intros [r|c]; [keeping|].
  unfold _render_first_run_review. set (d := _first_run_review_token c).
  change (traced (safe P) ((write_lines ([EmptyString; "First-run review"; rule 16; "Role: " +:+ role_value (fc_role c)]
    ++ match fc_control c with Some k => control_review (bool_decide (hs_deployment_path snapshot = NIXOS)) k | None => [] end
    ++ match fc_worker c with Some w => worker_review (bool_decide (hs_deployment_path snapshot = NIXOS)) c w | None => [] end
    ++ ["Secret values are omitted from this review and digest."]);; write (digest_line d));;
    match hs_deployment_path snapshot with
    | NIXOS => nixos_first_run fuel c d
    | SYSTEMD => systemd_first_run ip_version argv0 fuel tool_dir c d
    end) (λ _, safe P) (λ _, safe P)).
  set (P0 := λ l, P l ∧ told (digest_line d) l). assert (grows P0) as H0 by (unfold P0; auto with consent).
  assert (∀ l, P0 l → told (digest_line (_first_run_review_token c)) l) as Htold by by intros l [].
  apply (traced_bind _ _ (λ _, safe P0)).
  - apply traced_keep; [keeping|done|intros ?]. by apply traced_told.
  - intros ?. assert (∀ (m : T (option TuiRunResult)), traced (safe P0) m (λ _, safe P0) (λ _, safe P0) →
      traced (safe P0) m (λ _, safe P) (λ _, safe P)) as Hweak.
    { intros m Hm. eapply traced_conseq; [exact Hm|done|intros ? l; apply safe_left|intros ? l; apply safe_left]. }
    destruct (hs_deployment_path snapshot); apply Hweak; [by apply nixos_first_run_safe|by apply systemd_first_run_safe].
Qed.

Lemma keeps_wizard P fuel a : grows P → keeps (safe P) (run_wizard (W := W) ip_version argv0 fuel a).
Proof.
  intros HP. pose proof keeps_setup_tui as Hs. pose proof keeps_first_run as Hf.
  unfold run_wizard, _load_driver. keeping.
Qed.

(** Property C21: the wizard changes nothing the operator did not agree to.  Whatever is typed and
    whatever the host answers, a setup action is applied or rolled back only if it belongs to a
    plan that was shown in full, whose own phrase was typed, and for which every permission it
    needs was confirmed; a Nix module is written only if it is that of the reviewed choices,
    with the deployment of the runtime plan among them, and with none when there is no plan;
    and the installer touches the host only after the digest of the choices was shown and its
    phrase typed. *)
Theorem wizard_consents fuel a (w : W) :
  guarded (lg_log (run_wizard ip_version argv0 fuel a (Build_logged w [])).1).
Proof.
  pose proof (keeps_wizard (λ _, True) fuel a (tui_grows_const True) (Build_logged w []) (conj I I)) as Hk.
  destruct (run_wizard _ _ _ _ _) as [s []]; by destruct Hk.
Qed.
End consent.

(** ** The approval *)

(** The approval that the interface makes is never refused. *)
Lemma approval_passes `{Handler tui_op W} {DG : Digests} {DL : DriverLibrary} fuel plan (s s' : logged tui_op W) av :
  lower (strip (digest plan)) = digest plan →
  _approval fuel plan s = (s', Ok (Some (Some av))) → _validate_approval plan av = Ok tt.
Proof.
  intros Hd.
  assert (traced (λ _, True) (_approval (W := W) fuel plan)
    (λ r _, ∀ av, r = Some (Some av) → _validate_approval plan av = Ok tt) (λ _ _, True)) as Ha.
  2: { intros E. specialize (Ha s I). rewrite E in Ha. by apply Ha. }
  assert (∀ {A} (o : tui_op A), traced (W := W) (λ _, True) (ask o) (λ _ _, True) (λ _ _, True)) as Hask
    by (intros A o; by apply traced_ask).
  assert (∀ fuel p, traced (W := W) (λ _, True) (_confirm fuel p false) (λ _ _, True) (λ _ _, True)) as Hconf.
  { intros f p. induction f as [|f IH]; cbn [_confirm]; [by apply traced_ret|].
    eapply traced_bind; [apply Hask|]. intros line. cbn beta. destruct (negb _); [by apply traced_ret|].
    destruct (_parse_bool _) as [b|[]]; try (by apply traced_ret); try (by apply traced_throws).
    unfold write. eapply traced_bind; [apply Hask|intros ?; exact IH]. }
  assert (∀ n p, traced (W := W) (λ _, True) (confirm_if fuel n p) (λ _ _, True) (λ _ _, True)) as Hif.
  { intros n p. unfold confirm_if. destruct n; [apply Hconf|by apply traced_ret]. }
  unfold _approval. eapply traced_bind; [apply Hask|]. intros line. cbn beta. destruct (negb _).
  { unfold write. eapply traced_bind; [apply Hask|]. intros ?. by apply traced_ret. }
  do 5 (eapply traced_and_then; [apply Hif|done|intros ?]).
  destruct (_ && _) eqn:Eall.
  - apply andb_true_iff in Eall as [[[[-> ->]%andb_true_iff ->]%andb_true_iff ->]%andb_true_iff ->].
    apply traced_given; [done|]. intros av' Hav. apply traced_ret. intros l _ av0 [= ->].
    apply validate_Ok. unfold mk_SetupApproval in Hav. simp_res.
    match goal with H : nonblank_str _ _ = Ok _ |- _ => apply nonblank_str_Ok in H as [-> _] end.
    rewrite Hd. unfold approves. cbn. split_and!; auto.
  - unfold write. eapply traced_bind; [apply Hask|]. intros ?. by apply traced_ret.
Qed.

(** ** GPUs *)

(** A selection is of GPUs that were found, none of them twice; with a list of numbers it is the
    GPUs of these numbers, in their order. *)
Lemma selection_found gpus line selected : selection_of gpus line = Ok (inl selected) →
  (∀ g, g ∈ selected → g ∈ gpus) ∧ (NoDup gpus → NoDup selected) ∧
  (selected = gpus ∨ selected = [] ∨ ∃ indexes, NoDup indexes ∧ (∀ i, i ∈ indexes → 1 ≤ i ≤ Z.of_nat (length gpus)) ∧
     selected = omap (λ i, gpus !! Z.to_nat (i - 1)) indexes).
Proof.
  unfold selection_of. intros Hs.
  destruct (_ || _); [injection Hs as <-; split_and!; auto|].
  case_bool_decide; [injection Hs as <-; split_and!; auto; [by intros g ?%not_elem_of_nil|constructor]|].
  destruct (mapR _ _) as [indexes|[]]; try done.
  case_bool_decide as Hnd; cbn [negb] in Hs; [|done].
  destruct (existsb _ indexes) eqn:Ex; [done|]. injection Hs as <-.
  assert (∀ i, i ∈ indexes → 1 ≤ i ≤ Z.of_nat (length gpus)) as Hin.
  { intros i Hi. assert (¬ ((i <? 1) || (Z.of_nat (length gpus) <? i) = true)) as Hn.
    { intros E. rewrite <-not_true_iff_false, existsb_exists in Ex. apply Ex. exists i.
      split; [by apply list_elem_of_In|done]. }
    apply not_true_is_false, orb_false_iff in Hn as [?%Z.ltb_ge ?%Z.ltb_ge]. lia. }
  split_and!; [|intros Hg|by right; right; exists indexes].
  - intros g (i & Hi & Hl)%list_elem_of_omap. by eapply list_elem_of_lookup_2.
  - clear Ex. induction indexes as [|i indexes IH]; [constructor|]. cbn.
    apply NoDup_cons in Hnd as [Hni Hnd].
    assert (NoDup (omap (λ i, gpus !! Z.to_nat (i - 1)) indexes)) as Hrec
      by (apply IH; [done|intros j ?; apply Hin; by right]).
    destruct (gpus !! Z.to_nat (i - 1)) as [g|] eqn:E; [|done]. constructor; [|done].
    intros (j & Hj & Hg')%list_elem_of_omap.
    pose proof (NoDup_lookup _ _ _ _ Hg E Hg') as Heq.
    pose proof (Hin i ltac:(left)). pose proof (Hin j ltac:(by right)).
    assert (i = j) as -> by lia. done.
Qed.

(** A GPU is the device an accelerator describes, where it says something. *)
Definition same_device (a : AcceleratorDevice) (g : DiscoveredGpu) : Prop :=
  dg_memory_mb g = ad_memory_mb a ∧
  (∀ c, ad_compute_capability a = Some c → dg_compute_capability g = Some c) ∧
  (∀ c, ad_device_class a = Some c → dg_device_class g = Some c).
Definition device_at (accelerators : list AcceleratorDevice) (i : nat) (g : DiscoveredGpu) : Prop :=
  accelerators = [] ∨ ∃ a, accelerators !! i = Some a ∧ same_device a g.

Lemma find_gpu discovered uuid g : NoDup (dg_uuid <$> discovered) →
  List.find (λ g, bool_decide (dg_uuid g = uuid)) discovered = Some g ↔ g ∈ discovered ∧ dg_uuid g = uuid.
Proof.
  intros Hnd. split.
  - intros Hf. apply List.find_some in Hf as [Hin Hu]. apply bool_decide_eq_true in Hu.
    split; [by apply list_elem_of_In|done].
  - intros [Hin Hu]. induction discovered as [|x discovered IH]; [by apply not_elem_of_nil in Hin|].
    cbn. apply NoDup_cons in Hnd as [Hx Hnd]. apply elem_of_cons in Hin as [->|Hin].
    + by rewrite bool_decide_eq_true_2.
    + rewrite bool_decide_eq_false_2; [by apply IH|]. intros E. apply Hx.
      rewrite E, <-Hu. by apply list_elem_of_fmap_2.
Qed.

Lemma verify_gpu_Ok accelerators discovered selected uuid r : NoDup (dg_uuid <$> discovered) →
  verify_gpu accelerators discovered selected uuid = Ok r ↔
  ∃ g, r = selected ++ [g] ∧ g ∈ discovered ∧ dg_uuid g = uuid ∧ device_at accelerators (length selected) g.
Proof.
  intros Hnd. unfold verify_gpu, device_at, same_device.
  destruct (List.find _ discovered) as [g|] eqn:Ef.
  2: { split; [done|]. intros (g & _ & Hin & Hu & _). pose proof (proj2 (find_gpu discovered uuid g Hnd) (conj Hin Hu)).
       congruence. }
  pose proof (proj1 (find_gpu discovered uuid g Hnd) Ef) as [Hin Hu].
  assert (∀ g', g' ∈ discovered → dg_uuid g' = uuid → g' = g) as Huniq.
  { intros g' H1 H2. pose proof (proj2 (find_gpu discovered uuid g' Hnd) (conj H1 H2)). congruence. }
  destruct accelerators as [|a0 accs].
  { split; [intros [= <-]; exists g; auto|]. intros (g' & -> & H1 & H2 & _). by rewrite (Huniq g' H1 H2). }
  remember (a0 :: accs) as l eqn:El. assert (l ≠ []) as Hl by (by subst). clear El.
  destruct (l !! length selected) as [a|] eqn:Ea.
  2: { split; [done|]. intros (g' & _ & _ & _ & [?|(a & [=] & _)]); done. }
  split.
  - intros Hr. simp_res. bools. exists g. split_and!; [done..|]. right. exists a. split; [done|].
    split_and!; [lia| |]; intros c Hc; rewrite Hc in *; by bools.
  - intros (g' & -> & H1 & H2 & [?|(a' & [= <-] & Hm & Hc & Hd)]); [done|]. rewrite (Huniq g' H1 H2) in *.
    rewrite (proj2 (Z.eqb_eq _ _) Hm). cbn [require mbind result_bind].
    destruct (ad_compute_capability a) as [c|]; [rewrite (bool_decide_eq_true_2 _ (Hc c eq_refl))|];
      cbn [require mbind result_bind];
      (destruct (ad_device_class a) as [d|]; [rewrite (bool_decide_eq_true_2 _ (Hd d eq_refl))|]); done.
Qed.
Lemma verify_gpus_Ok accelerators discovered uuids : NoDup (dg_uuid <$> discovered) → ∀ selected r,
  foldR (verify_gpu accelerators discovered) selected uuids = Ok r ↔
  ∃ more, r = selected ++ more ∧ dg_uuid <$> more = uuids ∧ (∀ g, g ∈ more → g ∈ discovered) ∧
    ∀ i g, more !! i = Some g → device_at accelerators (length selected + i) g.
Proof.
  intros Hnd. induction uuids as [|uuid uuids IH]; intros selected r; cbn [foldR].
  - split.
    + intros [= <-]. exists []. rewrite app_nil_r. split_and!; [done|done|by intros g ?%not_elem_of_nil|done].
    + intros (more & -> & Hm & _). apply fmap_nil_inv in Hm as ->. by rewrite app_nil_r.
  - split.
    + intros (s1 & H1 & H2)%bind_Ok. apply verify_gpu_Ok in H1 as (g & -> & Hg & Hu & Hd); [|done].
      apply IH in H2 as (more & -> & Hm & Hin & Hat). exists (g :: more). rewrite <-app_assoc.
      split_and!; [done|by cbn; rewrite Hu, Hm|by intros g' [->|?]%elem_of_cons; auto|].
      intros [|i] g' Hi; [injection Hi as <-; by rewrite Nat.add_0_r|].
      specialize (Hat i g' Hi). rewrite length_app in Hat. cbn in Hat.
      by replace (length selected + S i)%nat with (length selected + 1 + i)%nat by lia.
    + intros ([|g more] & -> & Hm & Hin & Hat); [done|]. injection Hm as Hu Hm.
      assert (verify_gpu accelerators discovered selected uuid = Ok (selected ++ [g])) as ->.
      { apply verify_gpu_Ok; [done|]. exists g. split_and!; [done|apply Hin; by left|done|].
        specialize (Hat 0%nat g eq_refl). by rewrite Nat.add_0_r in Hat. }
      cbn [mbind result_bind]. apply IH. exists more. rewrite <-app_assoc.
      split_and!; [done|done|intros g' ?; apply Hin; by right|].
      intros i g' Hi. rewrite length_app. cbn. specialize (Hat (S i) g' Hi).
      by replace (length selected + 1 + i)%nat with (length selected + S i)%nat by lia.
Qed.

(** An installed Worker is reconciled only on the host of its GPUs: they are all found, each is the
    device the configuration describes, and their memory is what it declares. *)
Theorem installed_gpus_exact worker discovered :
  _verify_installed_worker_gpus worker discovered = Ok tt ↔
  NoDup (dg_uuid <$> discovered) ∧ ∃ selected,
    dg_uuid <$> selected = gpu_uuids worker ∧ (∀ g, g ∈ selected → g ∈ discovered) ∧
    (∀ i g, selected !! i = Some g → device_at (accelerators worker) i g) ∧
    foldr Z.add 0 (dg_memory_mb <$> selected) = total_vram_mb (resources worker) ∧
    match dg_memory_mb <$> selected with [] => 0 | m :: l => foldl Z.max m l end
    = max_single_gpu_vram_mb (resources worker).
Proof.
  unfold _verify_installed_worker_gpus. split.
  - intros Hv. simp_res. bools. split; [done|].
    match goal with H : foldR _ _ _ = Ok ?s |- _ => apply verify_gpus_Ok in H as (more & -> & Hm & Hin & Hat); [|done] end.
    exists more. cbn [app] in *. split_and!; [done..|lia|lia].
  - intros [Hnd (selected & Hm & Hin & Hat & Ht & Hx)]. rewrite bool_decide_eq_true_2 by done.
    cbn [require mbind result_bind].
    assert (foldR (verify_gpu (accelerators worker) discovered) [] (gpu_uuids worker) = Ok selected) as ->.
    { apply verify_gpus_Ok; [done|]. by exists selected. }
    cbn [mbind result_bind]. rewrite Ht, Hx, !Z.eqb_refl. done.
Qed.

(** ** Small runs *)

(** A digit that is no number of [int] ends the wizard: the superscript two is a digit to
    [str.isdigit], and [int] refuses it. *)
Example superscript_selection :
  let two := String "178" EmptyString in
  isdigit two = true ∧ (∃ m, named_provider [] two = Err (ValueError m)) ∧ named_provider [] "2" = Ok None.
Proof. vm_compute. split_and!; [done|by eexists|done]. Qed.

(** A host whose operator types the lines of a script. *)
#[local] Instance scripted : Handler tui_op (list string) := {
  answer := λ A o w,
    match o in tui_op A return list string * result A with
    | AskLine _ | AskSecret _ => match w with
                                 | [] => (w, Err (EOFError EmptyString))
                                 | line :: rest => (rest, Ok line)
                                 end
    | Write _ | ClearScreen | PrintLine _ | PrintError _ | CreateSystemdDriver | WriteSnippet _ _ => (w, Ok tt)
    | NewTokens => (w, Ok ["client-token"; "worker-token"])
    | InspectAction _ => (w, Ok (mk_ActionInspection NEEDS_APPLY EmptyString))
    | ApplyAction _ => (w, Ok (mk_ActionReceipt true EmptyString [] []))
    | RollbackAction _ r => (w, Ok r)
    | EffectiveRoot => (w, Ok true)
    | DiscoverHost => (w, Ok demo_snapshot)
    | DiscoverGpus => (w, Ok demo_gpus)
    | LoadDriver _ _ => (w, Ok (Some true))
    | InstalledContract => (w, Err (RuntimeError "none"))
    | Install o =>
        match o in first_run_op A return list string * result A with
        | EffectiveUid => (w, Ok 0)
        | ExecutableFile _ => (w, Ok true)
        | Absolute p | Resolved p => (w, Ok p)
        | WhichTool _ => (w, Ok None)
        | TemporaryFile _ suffix => (w, Ok (Path ("/tmp/x" +:+ suffix)))
        | SetMode _ _ | WriteContent _ _ | SyncFile _ | Unlink _ | MakeParents _ | ReplaceFile _ _ => (w, Ok tt)
        | ReadContent _ => (w, Err (FileNotFoundError EmptyString))
        | RunTool _ _ => (w, Ok 0)
        | OpenUrl _ => (w, Ok (200, "ready"))
        | ClockNow => (w, Ok 0)
        | WaitFor _ => (w, Ok tt)
        end
    end }.
#[local] Instance wizard_library : DriverLibrary := {
  json_loads s := Some (PDict [("ready", PBool true); ("registered", PBool true)]);
  format_g _ := EmptyString; float_of_text _ := None; duration_of f := Ticks 60 }.
#[local] Instance wizard_digests : Digests := {
  sha256_hex _ := "0123456789abcdef0123456789abcdef0123456789abcdef0123456789abcdef"; float_repr _ := "5.0" }.
Definition scripted_run (a : tui_arguments) (script : list string) : logged tui_op (list string) * result (option TuiRunResult) :=
  run_wizard (λ _, Some 4) "astrumweaver-setup-tui" 9 a (Build_logged script []).
Definition first_run_arguments : tui_arguments :=
  {| ta_runtime_mode := false; ta_driver := None; ta_packaged_tool_dir := Some (Path "/opt/bin"); ta_check_packaging := false |}.
Definition status_of (r : result (option TuiRunResult)) : option TuiRunStatus :=
  match r with Ok (Some r) => Some (tr_status r) | _ => None end.
Definition installs (l : list event) : nat :=
  length (List.filter (λ e, match e with Trace.Entry o _ => match o with Install o => negb (looks o) | _ => false end end) l).
Definition applied (l : list event) : nat :=
  length (List.filter (λ e, match e with Trace.Entry o _ => match o with ApplyAction _ => true | _ => false end end) l).

(** A Control is installed by the exact phrase, and by nothing else. *)
Example control_by_phrase :
  let run word := scripted_run first_run_arguments
                    ["1"; "127.0.0.1"; "9000"; "bearer"; "postgresql://db"; "y"; word] in
  status_of (run "APPLY 0123456789ab").2 = Some TUI_APPLIED ∧
  installs (lg_log (run "APPLY 0123456789ab").1) = 13%nat ∧
  status_of (run "apply 0123456789ab").2 = Some TUI_CANCELLED ∧
  installs (lg_log (run "apply 0123456789ab").1) = 0%nat.
Proof. vm_compute. done. Qed.

(** A Worker with a runtime of its own: a larger context is asked for, ten actions are applied. *)
Example worker_with_runtime :
  let run := scripted_run first_run_arguments
    ["2"; ""; ""; ""; "2"; ""; "secret"; "llama3"; "gguf"; ""; ""; ""; ""; ""; ""; ""; "3"; "y"; "8192";
     ""; ""; ""; ""; ""; ""; ""; "APPLY 0123456789ab"; "APPLY 0123456789ab"; "y"; "y"; "y"; "y"; "y"] in
  status_of run.2 = Some TUI_APPLIED ∧ applied (lg_log run.1) = 10%nat.
Proof. vm_compute. done. Qed.

(** None of the formats that the prompt offers makes Ollama compatible. *)
Lemma offered_formats_without_ollama (context : RuntimeCompatibilityContext) report :
  md_model_format (ed_model (cx_demand context)) ∈ ["safetensors"; "gguf"; "exl3"; "ftw"; "provider-native"] →
  Ollama.ollama_compatibility context = Ok report → compatible report = false.
Proof.
  intros Hf Hr. unfold Ollama.ollama_compatibility in Hr.
  rewrite (bool_decide_eq_false_2 (_ = "ollama")) in Hr.
  - unfold mk_RuntimeCompatibility in Hr. simp_res. reflexivity.
  - intros E. rewrite E in Hf.
    repeat (apply elem_of_cons in Hf as [Hf|Hf]; [discriminate Hf|]). by apply not_elem_of_nil in Hf.
Qed.
