(* ===== verification/AcceptanceProps.v ===== *)
(** * What the acceptance of a GPU subset leaves behind

    On every host, however it answers: the Worker is started at most once, after the checks
    passed and while it was inactive, and the run does not end before the service was seen
    inactive again, or says so.  A fail-closed run starts nothing. *)

From Stdlib Require Import SpecFloat.
From S2P Require Import Prelude PyStr PyDict PyVal PyHost Effects Trace PyText SetupFs PyNum GpuMapping GpuIsolation Migration Systemd Acceptance.

(** ** What a log says *)

Abbreviation event := (entry deployment_op).

Definition is_start (e : event) : bool :=
  match e with Entry o _ => match o with StartService => true | _ => false end end.
Definition is_stop (e : event) : bool :=
  match e with Entry o _ => match o with StopService => true | _ => false end end.
(** The service was asked for and said to be inactive. *)
Definition says_inactive (e : event) : bool :=
  match e with
  | Entry o r =>
      match o in deployment_op A return result A → bool with
      | ServiceActive => λ r, match r with Ok false => true | _ => false end
      | _ => λ _, false
      end r
  end.
(** An EnvironmentFile was read that sets none of the protected names. *)
Definition harmless_file (e : event) : Prop :=
  match e with
  | Entry o r =>
      match o in deployment_op A return result A → Prop with
      | EnvironmentText _ => λ r, match r with
          | Ok text => existsb overriding_line (splitlines text) = false | Err _ => True end
      | _ => λ _, True
      end r
  end.

(** No start. *)
Definition calm (l : list event) : Prop := Forall (λ e, is_start e = false) l.

(** Since the last start, the service was seen inactive. *)
Fixpoint settled (l : list event) : bool :=
  match l with
  | [] => true
  | e :: l' => says_inactive e || (negb (is_start e) && settled l')
  end.

Section runner.
Context (runner : acceptance_runner).
Abbreviation expected := (ar_expected_gpu_uuids runner).

(** The selection is a proper part of the GPUs of the host, and the Worker's own. *)
Definition selected (m : dict string) (l : list event) : Prop :=
  (length expected < length m)%nat ∧ (∀ u, u ∈ expected → u ∈ dkeys m) ∧
  Entry HostGpuDeviceMap (Ok m) ∈ l ∧ Entry WorkerGpuContract (Ok (expected, true)) ∈ l.

Definition device_paths (m : dict string) : list string :=
  (λ u, default EmptyString (dget u m)) <$> expected.

(** The effective unit gives the Worker those devices and no others. *)
Definition isolated (m : dict string) (l : list event) : Prop :=
  ∃ properties, Entry WorkerUnitProperties (Ok properties) ∈ l ∧
    check_devices properties (device_paths m) = Ok tt ∧
    check_environment properties expected = Ok tt ∧
    check_preflight properties = Ok tt ∧ Forall harmless_file l.

Definition reviewed (l : list event) : Prop := ∃ m, selected m l ∧ isolated m l.

(** One start, of a reviewed unit that had just been seen inactive. *)
Definition started (l : list event) : Prop := ∃ l1 r l2,
  l = l1 ++ Entry StartService r :: Entry ServiceActive (Ok false) :: l2 ∧
  calm l1 ∧ calm l2 ∧ reviewed l2.

(** The runner gives up on stopping the service, and says so. *)
Definition cleanup_failure (e : exn) : Prop :=
  e = acceptance_error "could not verify Worker service stopped after acceptance" ∨
  e = acceptance_error "Worker service remained active after acceptance cleanup".

Lemma calm_cons e l : is_start e = false → calm l → calm (e :: l).
Proof. intros He Hl. by constructor. Qed.
Lemma calm_settled l : calm l → settled l = true.
Proof.
  induction 1 as [|e l He _ IH]; [done|]. cbn. rewrite He, IH. apply orb_true_r.
Qed.
Lemma settled_cons e l : is_start e = false → settled l = true → settled (e :: l) = true.
Proof. intros He Hl. cbn. rewrite He, Hl. apply orb_true_r. Qed.
Lemma started_cons e l : is_start e = false → started l → started (e :: l).
Proof.
  intros He (l1 & r & l2 & -> & H1 & H2 & H3). exists (e :: l1), r, l2. split; [done|].
  split; [by constructor|done].
Qed.
Lemma selected_cons e m l : selected m l → selected m (e :: l).
Proof. intros (? & ? & ? & ?). repeat split; try done; by right. Qed.
End runner.

(** ** The steps *)

Section steps.
Context {W : Type} `{Handler deployment_op W} {DL : DriverLibrary}.
Context (runner : acceptance_runner).
Abbreviation T := (eff (logged deployment_op W)).
Abbreviation expected := (ar_expected_gpu_uuids runner).

(** Kept by every question that neither starts the service nor reads a harmful file. *)
Definition lasting (P : list event → Prop) : Prop :=
  ∀ e l, is_start e = false → harmless_file e → P l → P (e :: l).

Lemma lasting_ask {A} P (o : deployment_op A) : lasting P →
  (∀ r, is_start (Entry o r) = false ∧ harmless_file (Entry o r)) → keeps P (ask (W := W) o).
Proof. intros HP Ho. apply keeps_ask. intros r l Hl. destruct (Ho r). by apply HP. Qed.
Lemma lasting_and P Q : lasting P → lasting Q → lasting (λ l, P l ∧ Q l).
Proof. intros HP HQ e l He Hf [??]. split; auto. Qed.
Lemma lasting_in e : lasting (λ l, e ∈ l).
Proof. intros e' l _ _ Hl. by right. Qed.
Lemma lasting_calm : lasting calm.
Proof. intros e l He _. by apply calm_cons. Qed.
Lemma lasting_harmless : lasting (Forall harmless_file).
Proof. intros e l _ He Hl. by constructor. Qed.
Lemma lasting_started : lasting (started runner).
Proof. intros e l He _. by apply started_cons. Qed.
Lemma lasting_settled : lasting (λ l, settled l = true).
Proof. intros e l He _. by apply settled_cons. Qed.
Lemma lasting_selected m : lasting (selected runner m).
Proof. intros e l _ _. apply selected_cons. Qed.
Hint Resolve lasting_and lasting_in lasting_calm lasting_harmless lasting_started lasting_settled
  lasting_selected : trace.

(** An answer to remember. *)
Lemma remember_ask {A} P (E : exn → list event → Prop) (o : deployment_op A) : lasting P →
  (∀ r, is_start (Entry o r) = false ∧ harmless_file (Entry o r)) → (∀ e l, P l → E e l) →
  traced (W := W) P (ask o) (λ a l, P l ∧ Entry o (Ok a) ∈ l) E.
Proof.
  intros HP Ho HE. apply traced_ask. intros l Hl.
  split; intros; [split; [|left]|apply HE]; (apply HP; [apply Ho|apply Ho|done]).
Qed.

Lemma selection_spec P (E : exn → list event → Prop) kind : lasting P → (∀ e l, P l → E e l) →
  traced (W := W) P (check_selection runner kind) (λ m l, P l ∧ selected runner m l) E.
Proof.
  intros HP HE. unfold check_selection. eapply traced_bind; [by apply remember_ask|intros m].
  apply traced_guard; [intros _ l []; by apply HE|intros Hlen].
  apply traced_guard; [intros _ l []; by apply HE|intros Hin].
  eapply traced_bind; [apply remember_ask; [by eauto with trace|done|intros e l []; by apply HE]|].
  intros [uuids preflight]. apply traced_guard; [intros _ l [[] _]; by apply HE|intros Hc].
  apply traced_guard; [intros _ l [[] _]; by apply HE|intros Hp]. apply traced_ret. intros l [[Hl Hm] Hw].
  cbn in *. apply bool_decide_eq_true in Hc as ->. subst preflight. split; [done|].
  repeat split; try done; [by apply Nat.ltb_lt|]. intros u Hu. rewrite forallb_forall in Hin.
  apply (bool_decide_unpack _), Is_true_eq_left, Hin. by apply list_elem_of_In.
Qed.

(** ** The checks of the unit *)

Section unit.
Context (P E : list event → Prop).
Hypothesis P_file : ∀ p r l, P l → harmless_file (Entry (EnvironmentText p) r) →
  P (Entry (EnvironmentText p) r :: l).
Hypothesis E_file : ∀ p r l, P l → E (Entry (EnvironmentText p) r :: l).
Hypothesis P_E : ∀ l, P l → E l.
Abbreviation read_text := (λ p, ask (W := W) (EnvironmentText p)).

Lemma file_spec item : traced P (check_environment_file read_text item) (λ _, P) (λ _, E).
Proof.
  unfold check_environment_file. eapply (traced_bind _ _ (λ _, P)).
  { apply traced_lifts; [done|]. intros e l Hl _. by apply P_E. }
  intros [p|]; [|by apply traced_ret].
  eapply (traced_bind _ _ (λ found l, match found with
    | Some text => ∃ l', l = Entry (EnvironmentText p) (Ok text) :: l' ∧ P l' | None => P l end)).
  - eapply (traced_catch _ _ _ (λ _, P)).
    + eapply (traced_bind _ _ (λ text l, ∃ l', l = Entry (EnvironmentText p) (Ok text) :: l' ∧ P l')).
      { apply traced_ask. intros l Hl. split; intros; [by eexists|]. by apply P_file. }
      intros text. by apply traced_ret.
    + intros []; first [by apply traced_ret | apply traced_throws, P_E].
  - intros [text|]; [|by apply traced_ret]. apply traced_ensure.
    + intros _ l (l' & -> & Hl). by apply E_file.
    + intros Hb l (l' & -> & Hl). apply P_file; [done|]. cbn. by apply negb_true_iff.
Qed.

Lemma unit_spec properties uuids paths :
  traced P (validate_effective_worker_gpu_isolation read_text properties uuids paths)
    (λ _ l, P l ∧ check_devices properties paths = Ok tt ∧ check_environment properties uuids = Ok tt
            ∧ check_preflight properties = Ok tt) (λ _, E).
Proof.
  assert (∀ r : result unit, traced (W := W) P (lifts r) (λ _ l, r = Ok tt ∧ P l) (λ _, E)) as Hr.
  { intros r. apply traced_lifts; [by intros [] l Hl ->|]. intros e l Hl _. by apply P_E. }
  unfold validate_effective_worker_gpu_isolation.
  eapply traced_bind; [apply Hr|intros ?]. apply traced_pure. intros Hd.
  eapply traced_bind; [apply Hr|intros ?]. apply traced_pure. intros He.
  eapply (traced_bind _ _ (λ _, P)).
  - unfold _reject_effective_gpu_environment_override.
    eapply (traced_bind _ _ (λ _, P)); [apply traced_lifts; [done|]; intros; by apply P_E|intros unset].
    apply traced_guard; [intros _ l Hl; by apply P_E|intros _].
    eapply (traced_bind _ _ (λ _, P)); [apply traced_lifts; [done|]; intros; by apply P_E|intros files].
    induction files as [|f files IH]; cbn [each]; [by apply traced_ret|].
    eapply traced_bind; [apply file_spec|]. by intros [].
  - intros _. eapply traced_conseq; [apply Hr|done| |done]. by intros [] l [-> Hl].
Qed.
End unit.

(** ** Starting and stopping *)

Abbreviation started := (started runner).

Lemma pause_keeps P d : lasting P → keeps P (pause (W := W) d).
Proof. intros HP. destruct d; keeping. by apply lasting_ask. Qed.

(** What the wait returns was read, and says ready and registered. *)
Definition enrolment (d : dict pyval) (l : list event) : Prop :=
  Entry Readiness (Ok (Some d)) ∈ l ∧ true_at "ready" d = true ∧ true_at "registered" d = true.

Lemma enrolled_Some payload d : enrolled payload = Some d →
  payload = Some d ∧ true_at "ready" d = true ∧ true_at "registered" d = true.
Proof.
  destruct payload as [d'|]; [|done]. cbn. destruct (true_at "ready" d' && _) eqn:E; [|done].
  intros [= ->]. apply andb_true_iff in E as [??]. done.
Qed.

Lemma acceptance_loop_spec P fuel t0 : lasting P →
  traced (W := W) P (ready_loop runner fuel t0)
    (λ r l, P l ∧ match r with Some d => enrolment d l | None => True end) (λ _, P).
Proof.
  intros HP. induction fuel as [|fuel IH]; cbn [ready_loop]; [by apply traced_ret|].
  eapply (traced_bind _ _ (λ payload l, P l ∧ Entry Readiness (Ok payload) ∈ l)).
  { apply traced_ask. intros l Hl. split; intros; [split; [by apply HP|left]|by apply HP]. }
  intros payload. destruct (enrolled payload) as [d|] eqn:E.
  - apply enrolled_Some in E as (-> & ? & ?). apply traced_ret. by intros l [? ?].
  - apply (traced_pre _ P); [|by intros l []].
    apply traced_keep; [by apply lasting_ask|done|intros now].
    apply traced_guard; [done|intros _]. apply traced_keep; [by apply pause_keeps|done|by intros []].
Qed.

Definition start_ok (l : list event) : Prop := Entry StartService (Ok tt) ∈ l.
(** The service was just seen inactive, after the checks. *)
Definition may_start (m : dict string) (l : list event) : Prop :=
  ∃ l2, l = Entry ServiceActive (Ok false) :: l2 ∧ calm l2 ∧ reviewed runner l2 ∧ selected runner m l2.
Definition begun (m : dict string) (l : list event) : Prop := started l ∧ selected runner m l.
Lemma lasting_begun m : lasting (begun m).
Proof. apply lasting_and; eauto with trace. Qed.
Hint Resolve lasting_begun : trace.

Lemma begun_now m r l : may_start m l → begun m (Entry StartService r :: l).
Proof.
  intros (l2 & -> & Hc & Hr & Hs). split; [|by apply selected_cons, selected_cons].
  exists [], r, l2. split; [done|]. by split; [apply Forall_nil|].
Qed.

(** Started and enrolled. *)
Definition running (l : list event) : Prop := start_ok l ∧ ∃ d, enrolment d l.
Lemma lasting_running : lasting running.
Proof.
  intros e l _ _ [Hs (d & Hd & ? & ?)]. split; [by right|]. exists d. by split; [right|].
Qed.
Hint Resolve lasting_running : trace.

Lemma start_spec m fuel :
  traced (W := W) (may_start m) (start_and_wait runner fuel)
    (λ r l, begun m l ∧ (is_Some r → running l)) (λ _, begun m).
Proof.
  unfold start_and_wait. eapply (traced_bind _ _ (λ _ l, begun m l ∧ start_ok l)).
  { apply traced_ask. intros l Hl. split; intros; [split; [|destruct a; left]|]; by apply begun_now. }
  intros []. assert (lasting (λ l, begun m l ∧ start_ok l)) as HP by (unfold start_ok; eauto with trace).
  eapply (traced_and_then _ _ (λ r l, (begun m l ∧ start_ok l) ∧
                                      match r with Some d => enrolment d l | None => True end)).
  - apply traced_keep; [by apply (lasting_ask _ _ HP)|by intros ? ? []|intros t0].
    eapply traced_conseq; [by apply acceptance_loop_spec|done|done|by intros ? ? []].
  - intros l [[? _] _]. split; [done|]. by intros [].
  - intros d. apply traced_guard; [by intros _ l [[? ?] _]|intros _].
    apply traced_guard; [by intros _ l [[? ?] _]|intros _]. apply traced_ret.
    intros l [[? ?] ?]. split; [done|]. intros _. split; [done|]. by exists d.
Qed.

Lemma stop_once_spec P : lasting P →
  traced (W := W) P stop_once (λ b l, P l ∧ (b = true → settled l = true))
    (λ e l, P l ∧ cleanup_failure e).
Proof.
  intros HP. unfold stop_once. eapply (traced_bind _ _ (λ _, P)).
  { eapply (traced_catch _ _ _ (λ _, P)); [by apply lasting_ask|]. intros e. by apply traced_ret. }
  intros _. eapply (traced_bind _ _ (λ b l, P l ∧ (b = false → settled l = true))).
  - eapply (traced_catch _ _ _ (λ _, P)).
    + apply traced_ask. intros l Hl. split; intros; [|by apply HP]. split; [by apply HP|]. by intros ->.
    + intros e. apply traced_throws. intros l Hl. split; [done|]. by left.
  - intros b. apply traced_ret. intros l [? Hs]. split; [done|]. intros Hb. by apply Hs, negb_true_iff.
Qed.

Lemma stopped_spec P : lasting P →
  traced (W := W) P _ensure_service_stopped (λ _ l, P l ∧ settled l = true)
    (λ e l, P l ∧ cleanup_failure e).
Proof.
  intros HP. unfold _ensure_service_stopped.
  eapply traced_bind; [by apply stop_once_spec|intros []]; [apply traced_ret; naive_solver|].
  eapply traced_bind.
  { apply (traced_pre _ P); [by apply stop_once_spec|by intros l []]. }
  intros []; [apply traced_ret; naive_solver|]. apply traced_throws. intros l [? _]. split; [done|]. by right.
Qed.

(** ** The runs *)

(** How a run may end. *)
Definition good_end (e : exn) (l : list event) : Prop :=
  (calm l ∨ started l) ∧ (settled l = true ∨ cleanup_failure e).
Definition enforced (evidence : RuntimeDeploymentAcceptanceEvidence) (l : list event) : Prop :=
  started l ∧ settled l = true ∧ running l ∧
  ∃ m date, selected runner m l ∧ evidence = enforced_evidence runner (length m) date.

Lemma calm_good e l : calm l → good_end e l.
Proof. intros Hl. split; [by left|]. left. by apply calm_settled. Qed.
Lemma settled_good e l : started l ∧ settled l = true → good_end e l.
Proof. intros [??]. split; [by right|by left]. Qed.

(** Before the start. *)
Definition before (l : list event) : Prop := calm l ∧ Forall harmless_file l.
Lemma lasting_before : lasting before.
Proof. apply lasting_and; eauto with trace. Qed.
Hint Resolve lasting_before : trace.
Lemma before_good e l : before l → good_end e l.
Proof. intros [? _]. by apply calm_good. Qed.

Lemma review_spec m properties :
  traced (W := W) (λ l, (before l ∧ selected runner m l) ∧ Entry WorkerUnitProperties (Ok properties) ∈ l)
    (validate_effective_worker_gpu_isolation (λ p, ask (EnvironmentText p)) properties expected
       (device_paths runner m))
    (λ _ l, before l ∧ reviewed runner l ∧ selected runner m l) good_end.
Proof.
  pose (P := λ l, (before l ∧ selected runner m l) ∧ Entry WorkerUnitProperties (Ok properties) ∈ l).
  assert (lasting P) as HP by (unfold P; eauto 6 with trace).
  apply (traced_conseq P P _ _ (λ _ l, P l ∧ check_devices properties (device_paths runner m) = Ok tt
    ∧ check_environment properties expected = Ok tt ∧ check_preflight properties = Ok tt) _ (λ _, calm)).
  - apply unit_spec.
    + intros p r l Hl Hf. by apply HP.
    + intros p r l [[[? _] _] _]. by apply calm_cons.
    + by intros l [[[? _] _] _].
  - done.
  - intros _ l (((Hb & Hs) & Hp) & Hd & He & Hq). split; [done|]. split; [|done].
    exists m. split; [done|]. exists properties. by destruct Hb.
  - intros e l. apply calm_good.
Qed.

(** The start with its cleanup. *)
Lemma started_and_stopped m fuel :
  traced (W := W) (may_start m) (finally_done (start_and_wait runner fuel) _ensure_service_stopped)
    (λ r l, begun m l ∧ (is_Some r → running l ∧ settled l = true)) good_end.
Proof.
  eapply traced_finally_done; [apply start_spec| | |].
  - intros l [? _]. split; [done|]. by intros [].
  - intros u. apply (traced_conseq _ (λ l, begun m l ∧ running l) _ _
      (λ _ l, (begun m l ∧ running l) ∧ settled l = true)
      _ (λ e l, (begun m l ∧ running l) ∧ cleanup_failure e)).
    + apply stopped_spec. eauto with trace.
    + intros l [? Hr]. split; [done|]. by apply Hr.
    + intros _ l [[? ?] ?]. by split.
    + intros e l [[[? _] _] ?]. split; [by right|by right].
  - intros e. eapply traced_conseq; [apply (stopped_spec (begun m)); eauto with trace|done| |].
    + intros _ l [[? _] ?]. by apply settled_good.
    + intros e' l [[? _] ?]. split; [by right|by right].
Qed.

Lemma run_spec fuel :
  traced (W := W) before (run runner fuel)
    (λ r l, match r with Some ev => enforced ev l | None => started l end) good_end.
Proof.
  unfold run. eapply traced_bind; [apply selection_spec; [by eauto with trace|apply before_good]|].
  intros m. cbn zeta.
  eapply traced_bind; [apply remember_ask; [by eauto with trace|done|intros e l []; by apply before_good]|].
  intros properties. eapply traced_bind; [apply review_spec|intros []].
  eapply (traced_bind _ _ (λ b l, calm l ∧ (b = false → may_start m l))).
  { apply traced_ask. intros l ([Hc ?] & ? & ?). split.
    - intros b. split; [by apply calm_cons|]. intros ->. by exists l.
    - intros e. by apply calm_good, calm_cons. }
  intros active. apply traced_guard; [intros _ l [? _]; by apply calm_good|intros Ha%negb_true_iff].
  apply (traced_pre _ (may_start m)); [|intros l [_ Hm]; by apply Hm].
  eapply traced_and_then; [apply started_and_stopped|by intros l [[? _] _]|intros u].
  pose (P := λ l, (begun m l ∧ running l) ∧ settled l = true).
  assert (lasting P) as HP by (unfold P; eauto with trace).
  assert (∀ e l, P l → good_end e l) as HE by (intros e l [[[? _] _] ?]; by apply settled_good).
  apply (traced_pre _ P); [|intros l [? Hr]; by destruct Hr].
  apply traced_keep; [by apply (lasting_ask _ _ HP)|done|intros still].
  apply traced_guard; [by intros _ l; apply HE|intros _].
  apply traced_keep; [by apply (lasting_ask _ _ HP)|done|intros date].
  apply traced_ret. intros l [[[? ?] ?] ?]. unfold enforced. split_and!; try done. by exists m, date.
Qed.

Lemma fail_closed_spec :
  traced (W := W) before (run_fail_closed runner)
    (λ ev l, calm l ∧ Entry (ProbeIsolation expected) (Ok "UNAVAILABLE") ∈ l ∧
       ∃ m date, selected runner m l ∧ ev = fail_closed_evidence runner (length m) date) (λ _, calm).
Proof.
  unfold run_fail_closed.
  eapply traced_bind; [apply selection_spec; [by eauto with trace|by intros _ l []]|intros m].
  pose (P := λ l, before l ∧ selected runner m l).
  assert (lasting P) as HP by (unfold P; eauto with trace).
  assert (∀ l, P l → calm l) as HE by (by intros l [[] _]).
  apply traced_keep; [by apply (lasting_ask _ _ HP)|by intros _|intros active].
  apply traced_guard; [by intros _; apply HE|intros _].
  eapply traced_bind; [apply remember_ask; [done|done|by intros _]|intros class].
  apply traced_guard; [by intros _ l [? _]; apply HE|intros ->%bool_decide_eq_true].
  pose (P' := λ l, P l ∧ Entry (ProbeIsolation expected) (Ok "UNAVAILABLE") ∈ l).
  apply (traced_pre _ P'); [|done].
  assert (lasting P') as HP' by (unfold P'; eauto with trace).
  assert (∀ l, P' l → calm l) as HE' by (intros l [? _]; by apply HE).
  apply traced_keep; [by apply (lasting_ask _ _ HP')|by intros _|intros still].
  apply traced_guard; [by intros _; apply HE'|intros _].
  apply traced_keep; [by apply lasting_ask|by intros _|intros date].
  apply traced_ret. intros l [[[? _] ?] ?]. split_and!; try done. by exists m, date.
Qed.
End steps.

(** ** The runner *)

Section theorems.
Context {W : Type} `{Handler deployment_op W} {DL : DriverLibrary}.
Context (runner : acceptance_runner).

(** Property C29: Acceptance never leaves the Worker running by accident.  Whatever the host
    answers, a run that starts nothing has no start in its log, and any other run starts the
    service exactly once: after the host map showed a proper superset of the selection, the
    Worker's configuration named exactly it with the preflight on, the effective unit passed
    every check of isolation, no EnvironmentFile set a protected name, and the service was just
    seen inactive.  When such a run ends, with evidence or with an exception, the service has
    been seen inactive since, or the exception is the one that says that stopping failed.
    Evidence is given only if the start succeeded and a payload said ready and registered. *)
Theorem acceptance_guarded fuel (w : W) :
  match run runner fuel (Build_logged w []) with
  | (s, Ok None) => started runner (lg_log s)
  | (s, Ok (Some evidence)) => enforced runner evidence (lg_log s)
  | (s, Err e) => good_end runner e (lg_log s)
  end.
Proof.
  pose proof (traced_run _ _ _ _ w (run_spec runner fuel)) as Hr.
  destruct (run runner fuel _) as [s [[ev|]|e]]; apply Hr; by split; apply Forall_nil.
Qed.

(** The fail-closed run starts nothing, and gives evidence only of a host whose probe found
    isolation unavailable. *)
Theorem fail_closed_calm (w : W) :
  match run_fail_closed runner (Build_logged w []) with
  | (s, Ok evidence) => calm (lg_log s) ∧
      Entry (ProbeIsolation (ar_expected_gpu_uuids runner)) (Ok "UNAVAILABLE") ∈ lg_log s
  | (s, Err e) => calm (lg_log s)
  end.
Proof.
  pose proof (traced_run _ _ _ _ w (fail_closed_spec runner)) as Hr.
  destruct (run_fail_closed runner _) as [s [ev|e]]; [|by apply Hr; split; apply Forall_nil].
  destruct Hr as (? & ? & _); [by split; apply Forall_nil|done].
Qed.
End theorems.

(** ** On the systemd host *)

Section system.
Context {W : Type} `{Handler system_op W} {TM : Toml} {DL : DriverLibrary}.
Abbreviation T := (eff (logged system_op W)).

Definition command_of (e : entry system_op) : option (list string) :=
  match e with Entry o _ => match o with Command argv => Some argv | _ => None end end.

(** The commands of a fail-closed run: listing the GPUs, asking whether the service is active,
    and the probe with its five arguments. *)
Definition looking (service systemctl nvidia_smi : string) (config : path) (argv : list string) : Prop :=
  (∃ mapper, argv = [mapper; "--nvidia-smi"; nvidia_smi; "discover-visible"]) ∨
  argv = [systemctl; "is-active"; "--quiet"; service] ∨
  ∃ probe uuids map selection, argv = [probe; uuids; map; path_str config; selection].

Definition only_looks (host : systemd_host) (l : list (entry system_op)) : Prop :=
  Forall (λ e, match command_of e with
    | Some argv => looking (sh_service host) (sh_systemctl host) (sh_nvidia_smi host) (sh_worker_config host) argv
    | None => True end) l.

Section host.
Context (argv0 : string) (host : systemd_host).
Abbreviation K := (only_looks host).

Lemma quiet_op {A} (o : system_op A) :
  (∀ r, match command_of (Entry o r) with
        | Some argv => looking (sh_service host) (sh_systemctl host) (sh_nvidia_smi host) (sh_worker_config host) argv
        | None => True end) → keeps K (ask (W := W) o).
Proof. intros Ho. apply keeps_ask. intros r l Hl. constructor; [apply Ho|done]. Qed.
Hint Extern 1 (preserves _ (ask _)) => apply quiet_op; intros ?; exact I : trace.

Lemma looking_run argv check :
  looking (sh_service host) (sh_systemctl host) (sh_nvidia_smi host) (sh_worker_config host) argv →
  keeps K (_run (W := W) argv check).
Proof. intros Ha. unfold _run. keeping. by apply quiet_op. Qed.
Hint Extern 1 (preserves _ (_run _ _)) => apply looking_run; unfold looking; eauto 8 : trace.

Lemma executable_looks seen l m : keeps K (first_executable (W := W) seen l m).
Proof. revert seen. induction l as [|c l IH]; intros seen; cbn [first_executable]; keeping. Qed.
Hint Resolve executable_looks : trace.
Lemma probe_tool_looks : keeps K (resolve_packaged_gpu_isolation_probe (W := W) argv0).
Proof.
  unfold resolve_packaged_gpu_isolation_probe, packaged_candidates. keeping.
Qed.
Lemma map_looks : keeps K (host_gpu_device_map (W := W) host).
Proof. unfold host_gpu_device_map. keeping. Qed.
Lemma contract_looks : keeps K (worker_gpu_contract (W := W) host).
Proof. unfold worker_gpu_contract. keeping. Qed.
Lemma active_looks : keeps K (service_active (W := W) host).
Proof. unfold service_active. keeping. Qed.
Hint Resolve probe_tool_looks map_looks contract_looks active_looks : trace.
Lemma probe_looks l : keeps K (probe_isolation_enforcement (W := W) argv0 host l).
Proof.
  unfold probe_isolation_enforcement. keeping.
Qed.
Hint Resolve probe_looks : trace.

Lemma fail_closed_looks runner : keeps K (on_host (W := W) (run_fail_closed (H := SystemdDeploymentHost argv0 host) runner)).
Proof.
  assert (∀ A (o : deployment_op A), keeps K (systemd_answer (W := W) argv0 host o) →
    preserves (λ s : logged deployment_op (logged system_op W), K (lg_log (lg_world s)))
      (ask (H := SystemdDeploymentHost argv0 host) o)) as Ho.
  { intros A o Hk. apply (keeps_world (λ w, K (lg_log w))). intros w Hw. specialize (Hk w Hw).
    cbn. by destruct (systemd_answer argv0 host o w) as [w' []]. }
  assert (preserves (λ s : logged deployment_op (logged system_op W), K (lg_log (lg_world s)))
            (run_fail_closed (H := SystemdDeploymentHost argv0 host) runner)) as Hrun.
  { unfold run_fail_closed, check_selection. keeping; apply Ho; cbn [systemd_answer]; keeping. }
  intros s Hs. specialize (Hrun (Build_logged s []) Hs). unfold on_host.
  by destruct (run_fail_closed runner _) as [s' []].
Qed.
End host.

(** The host of the command is the one its arguments name. *)
Definition of_args (args : accept_args) (host : systemd_host) : Prop :=
  sh_service host = aa_service args ∧ sh_systemctl host = aa_systemctl args ∧
  sh_nvidia_smi host = aa_nvidia_smi args ∧ sh_worker_config host = aa_worker_config args.

Section command.
Context (argv0 : string) (args : accept_args).
Definition plain_host : systemd_host := {|
  sh_service := aa_service args; sh_worker_config := aa_worker_config args;
  sh_systemctl := aa_systemctl args; sh_nvidia_smi := aa_nvidia_smi args;
  sh_gpu_device_map := EmptyString; sh_gpu_isolation_probe := None; sh_health_url := EmptyString |}.
Abbreviation K := (only_looks plain_host).
Hint Extern 1 (preserves _ (ask _)) => apply quiet_op; intros ?; exact I : trace.

Lemma same_looks host l : of_args args host → only_looks host l ↔ K l.
Proof. intros (E1 & E2 & E3 & E4). unfold only_looks. by rewrite E1, E2, E3, E4. Qed.

Lemma tool_looks flag tool : keeps K (explicit_tool (W := W) flag tool).
Proof. unfold explicit_tool. keeping. Qed.
Lemma mapper_looks : keeps K (resolve_packaged_gpu_device_map (W := W) argv0).
Proof.
  unfold resolve_packaged_gpu_device_map, packaged_candidates. keeping; apply executable_looks.
Qed.
Hint Resolve tool_looks mapper_looks : trace.

Lemma host_looks :
  traced (W := W) K
    (mk_systemd_host argv0 (aa_service args) (aa_worker_config args) (aa_systemctl args)
       (aa_nvidia_smi args) (aa_gpu_device_map args) (aa_gpu_isolation_probe args) (aa_health_url args))
    (λ host l, of_args args host ∧ K l) (λ _, K).
Proof.
  unfold mk_systemd_host. apply traced_keep; [keeping|done|intros mapper].
  apply traced_keep; [keeping|done|intros []]. by apply traced_ret.
Qed.

Lemma command_looks fuel : aa_expect_isolation_unavailable args = true →
  keeps K (main_body (W := W) fuel argv0 args).
Proof.
  intros Hx. unfold main_body. destruct (negb _); [keeping|].
  apply preserves_catch; [|intros e; destruct (handled_text e); keeping].
  refine (traced_bind K _ (λ host l, of_args args host ∧ K l) _ (λ _, K) (λ _, K) host_looks _).
  intros host. apply traced_pure. intros Hh. apply (traced_keep K); [keeping|done|intros runner]. cbn zeta. rewrite Hx.
  apply preserves_and_then; [|intros ev; unfold write_runtime_deployment_evidence; keeping].
  apply preserves_bind; [|keeping].
  eapply triple_conseq; [apply (fail_closed_looks argv0 host runner)| | |]; cbv beta.
  - intros s. by apply same_looks.
  - intros ev s. by apply (same_looks host).
  - intros e s. by apply (same_looks host).
Qed.
End command.

(** A fail-closed acceptance starts nothing.  With --expect-isolation-unavailable,
    whatever the host answers and however the command ends, every command it runs lists the
    GPUs, asks whether the service is active, or is the isolation probe with its five
    arguments; so it never starts or stops a unit. *)
Theorem fail_closed_only_looks fuel argv0 args (w : W) :
  aa_expect_isolation_unavailable args = true →
  let '(s, _) := main_body fuel argv0 args (Build_logged w []) in
  ∀ argv r, Entry (Command argv) r ∈ lg_log s →
    looking (aa_service args) (aa_systemctl args) (aa_nvidia_smi args) (aa_worker_config args) argv ∧
    ∀ verb, argv ≠ [aa_systemctl args; verb; aa_service args].
Proof.
  intros Hx. pose proof (command_looks argv0 args fuel Hx (Build_logged w []) (Forall_nil_2 _)) as Hk.
  destruct (main_body fuel argv0 args _) as [s r]. assert (only_looks (plain_host args) (lg_log s)) as Hl
    by (by destruct r). intros argv a Ha. unfold only_looks in Hl. rewrite Forall_forall in Hl.
  specialize (Hl _ Ha). cbn in Hl. split; [exact Hl|]. intros verb ->.
  by destruct Hl as [[m Hm]|[Hm|(p & u & q & v & Hm)]].
Qed.
End system.

(** ** The wait ends *)

(** Time does not go back, the clock tells it, and a sleep lasts. *)
Class SteadyHost (W : Type) `{Handler deployment_op W} (now : W → Z) := {
  sy_forward A (o : deployment_op A) w : now w ≤ now (answer o w).1;
  sy_tells w t : (answer MonotonicNow w).2 = Ok t → t = now (answer MonotonicNow w).1;
  sy_sleeps d w : (answer (SleepFor d) w).2 = Ok tt → now w + d ≤ now (answer (SleepFor d) w).1;
}.

Section returns.
Context {W : Type} `{Handler deployment_op W} (now : W → Z) {SH : SteadyHost W now} {DL : DriverLibrary}.
Context (runner : acceptance_runner) (t p : Z).
Hypothesis Htimeout : duration_of (ar_start_timeout_seconds runner) = Ticks t.
Hypothesis Hpoll : duration_of (ar_poll_interval_seconds runner) = Ticks p.
Hypothesis p_pos : 0 < p.

Lemma acceptance_loop_ends fuel started : ∀ s : logged deployment_op W,
  started + t - now (lg_world s) ≤ p * (Z.of_nat fuel - 1) → (0 < fuel)%nat →
  (ready_loop runner fuel started s).2 ≠ Ok None.
Proof.
  induction fuel as [|fuel IH]; intros s Hfuel Hf; [lia|].
  cbn [ready_loop]. unfold ask, mbind, eff_bind.
  pose proof (sy_forward _ Readiness (lg_world s)) as T1.
  destruct (answer Readiness (lg_world s)) as [w1 [payload|e]]; [|done]. cbn [fst lg_world] in *.
  destruct (enrolled payload); [done|]. cbn [lg_world].
  pose proof (sy_forward _ MonotonicNow w1) as T2. pose proof (sy_tells w1) as T3.
  destruct (answer MonotonicNow w1) as [w2 [read|e]]; [|done]. cbn [fst snd] in *.
  specialize (T3 read eq_refl). rewrite Htimeout, Hpoll. unfold elapse, over.
  destruct (t - (read - started) <=? 0) eqn:Eo; [done|]. unfold ensure, mret, eff_ret. cbn [negb pause].
  unfold ask. cbn [lg_world]. apply Z.leb_gt in Eo.
  pose proof (sy_sleeps p w2) as T4. destruct (answer (SleepFor p) w2) as [w3 [[]|e]]; [|by cbn].
  cbn [fst snd] in T4. specialize (T4 eq_refl).
  assert (0 < Z.of_nat fuel) as Hturn by (destruct fuel; [exfalso|]; lia).
  apply IH; [|lia]. cbn [lg_world]. nia.
Qed.

(** The run ends: on a clock that does not go back, for a timeout of [t] ticks and a poll
    interval of [p], [t / p + 1] turns are enough for the wait. *)
Theorem acceptance_returns fuel (s : logged deployment_op W) :
  0 ≤ t → t ≤ p * (Z.of_nat fuel - 1) → (run runner fuel s).2 ≠ Ok None.
Proof.
  intros Ht Hfuel. revert s. change (ends (S := logged deployment_op W) (run runner fuel)).
  unfold run. do 4 (apply trace_ends_bind; intros ?). apply trace_ends_bind; intros [].
  apply trace_ends_and_then; [|intros u; do 3 (apply trace_ends_bind; intros ?); apply trace_ends_ret].
  apply trace_ends_finally_done. unfold start_and_wait. apply trace_ends_bind; intros [].
  apply trace_ends_and_then; [|intros d; do 2 (apply trace_ends_bind; intros ?); apply trace_ends_ret].
  intros s. unfold _wait_ready, ask, mbind, eff_bind.
  pose proof (sy_tells (lg_world s)) as T1.
  destruct (answer MonotonicNow (lg_world s)) as [w [read|e]]; [|done]. cbn [fst snd] in *.
  specialize (T1 read eq_refl). apply acceptance_loop_ends; cbn [lg_world]; [lia|nia].
Qed.
End returns.

(** ** A small host *)

Record accept_host := { ah_active : bool; ah_clock : Z }.
Definition shown_unit : string := print_lines
  ["DevicePolicy=closed"; "DeviceAllow=/dev/nvidia0 rw /dev/nvidiactl rw";
   "Environment=CUDA_VISIBLE_DEVICES=GPU-1 ASTRUMWEAVER_GPU_PREFLIGHT_MODE=isolated-access ASTRUMWEAVER_GPU_DEVICE_MAP=/etc/astrumweaver/gpu-device-map ASTRUMWEAVER_GPU_WORKER_CONFIG=/etc/astrumweaver/worker.toml ASTRUMWEAVER_GPU_DEVICE_MAP_COMMAND=/usr/local/libexec/astrumweaver/gpu-device-map ASTRUMWEAVER_NVIDIA_SMI=/usr/bin/nvidia-smi";
   "EnvironmentFiles=/etc/astrumweaver/worker.env (ignore_errors=yes)"; "UnsetEnvironment=";
   "ExecStartPre={ path=/usr/local/libexec/astrumweaver/gpu-preflight ; argv[]=/usr/local/libexec/astrumweaver/gpu-preflight /etc/astrumweaver/gpu-uuids ; ignore_errors=no ; pid=0 }";
   "Requires=astrumweaver-worker-gpu-isolation-preflight.service";
   "After=network.target astrumweaver-worker-gpu-isolation-preflight.service"].
Definition exit_with (code : Z) (text : string) : completed := {| returncode := code; stdout := text; stderr := EmptyString |}.
Definition accept_command (argv : list string) (w : accept_host) : accept_host * result completed :=
  let says (verb : string) := bool_decide (verb ∈ argv) in
  if says "start" then ({| ah_active := true; ah_clock := ah_clock w |}, Ok (exit_with 0 EmptyString))
  else if says "stop" then ({| ah_active := false; ah_clock := ah_clock w |}, Ok (exit_with 0 EmptyString))
  else if says "is-active" then (w, Ok (exit_with (if ah_active w then 0 else 3) EmptyString))
  else if says "show" then (w, Ok (exit_with 0 shown_unit))
  else if says "discover-visible" then
    (w, Ok (exit_with 0 (print_lines ["GPU-1=/dev/nvidia0"; "GPU-2=/dev/nvidia1"])))
  else (w, Ok (exit_with 3 EmptyString)).
#[local] Instance small_accept : Handler system_op accept_host := {
  answer := λ A o w,
    match o in system_op A return accept_host * result A with
    | Command argv => accept_command argv w
    | ConfigText _ => (w, Ok "[worker]")
    | HttpGet _ => (w, Ok (200, Some (PDict [("ready", PBool (ah_active w)); ("registered", PBool true)])))
    | Executable _ => (w, Ok true)
    | AbsolutePath p | ResolvedPath p => (w, Ok p)
    | TemporaryDirectory => (w, Ok (Path "/tmp/accept"))
    | WriteFile _ _ | RemoveTree _ | MakeDirectories _ => (w, Ok tt)
    | EnvironmentFileText _ => (w, Ok "TOKEN=x")
    | SystemClock => (w, Ok (ah_clock w))
    | SystemSleep d => ({| ah_active := ah_active w; ah_clock := ah_clock w + d |}, Ok tt)
    | SystemDate => (w, Ok "2026-01-01")
    end }.
#[local] Instance accept_toml : Toml :=
  {| toml_loads _ := Some [("worker", PDict [("gpu_uuids", strs ["GPU-1"])])] |}.
#[local] Instance accept_library : DriverLibrary := {
  json_loads _ := None; format_g _ := EmptyString; float_of_text _ := None; duration_of _ := Ticks 1 }.
Definition small_args (unavailable : bool) : accept_args := {|
  aa_gpu_uuids := [" GPU-1 "]; aa_revision := "0123abc"; aa_deployment_path := "systemd";
  aa_worker_config := Path "/etc/astrumweaver/worker.toml";
  aa_service := "astrumweaver-worker.service"; aa_systemctl := "systemctl";
  aa_nvidia_smi := "nvidia-smi"; aa_gpu_device_map := None; aa_gpu_isolation_probe := None;
  aa_expect_isolation_unavailable := unavailable; aa_health_url := "http://127.0.0.1:9100/health";
  aa_start_timeout_seconds := float_of_Z 60; aa_evidence := Path "evidence.md" |}.
Definition idle_host : accept_host := {| ah_active := false; ah_clock := 0 |}.
Definition accept_run (unavailable : bool) :=
  main_body 3 "astrumweaver-runtime-deployment-accept" (small_args unavailable) (Build_logged idle_host []).

(** Both runs pass on it, and the Worker is not left running. *)
Example small_accepts :
  match accept_run false, accept_run true with
  | (s, Ok (Some (inr e))), (_, Ok (Some (inr f))) =>
      ah_active (lg_world s) = false ∧ ev_outcome e = "ENFORCED_SUBSET" ∧ ev_outcome f = "FAIL_CLOSED"
  | _, _ => False
  end.
Proof. vm_compute. done. Qed.

Lemma fail_closed_only_looks_witness :
  let '(s, _) := accept_run true in
  ∀ argv r, Entry (Command argv) r ∈ lg_log s →
    looking "astrumweaver-worker.service" "systemctl" "nvidia-smi" (Path "/etc/astrumweaver/worker.toml") argv ∧
    ∀ verb, argv ≠ ["systemctl"; verb; "astrumweaver-worker.service"].
Proof.
  pose proof (fail_closed_only_looks 3 "astrumweaver-runtime-deployment-accept" (small_args true) idle_host
    eq_refl) as Hl.
  unfold accept_run. destruct (main_body _ _ _ _) as [s r]. exact Hl.
Defined.
