(* ===== verification/SystemdInspect.v ===== *)
(** * The systemd driver of setup: inspection

    Models [inspect] of [src/src/astrumweaver/setup/systemd.py], kind by kind, with the GPU
    preflight and the wait for readiness. *)

From Stdlib Require Import SpecFloat.
From S2P Require Import Prelude PyStr PyDict PyVal PyHost Effects PyText SetupFs PyNum Contracts Json GpuMapping GpuIsolation RuntimeContracts Preflight SetupContracts Migration Systemd.

(** The lines of a file without the blank ones, setup/systemd.py lines 706-714. *)
Definition listed (text : string) : list string :=
  List.filter str_truthy (strip <$> splitlines text).

(** One line of the reviewed device map, setup/systemd.py lines 719-732. *)
Definition map_line (mapping : dict string) (raw_line : string) : option (dict string) :=
  let line := strip raw_line in
  if negb (str_truthy line && contains "=" line) then Some mapping
  else
    let '(u, _, p) := partition_char "=" line in
    let uuid := strip u in
    let device := strip p in
    if negb (str_truthy uuid) || negb (gpu_device_path device) || bool_decide (uuid ∈ dkeys mapping)
    then None else Some (dset uuid device mapping).
Fixpoint device_map (mapping : dict string) (lines : list string) : option (dict string) :=
  match lines with
  | [] => Some mapping
  | l :: rest => m ← map_line mapping l; device_map m rest
  end.

(** The expected GPUs, each on a device of its own, setup/systemd.py lines 718-737. *)
Definition reviewed_map (expected : list string) (map_text : string) : option (dict string) :=
  mapping ← device_map [] (splitlines map_text);
  if bool_decide (sorted_strings (dkeys mapping) = sorted_strings expected)
     && all_distinct (dvalues mapping)
  then Some mapping else None.

(** [body.get("ready") is True]. *)
Definition says_ready (body : option pyval) : bool :=
  match body with
  | Some (PDict d) => match dget "ready" d with Some (PBool true) => true | _ => false end
  | _ => false
  end.

Section driver.
Context {W : Type} `{SetupHost W} {DG : Digests} {TM : Toml} {DL : DriverLibrary}.
Context (cfg : systemd_config).

Abbreviation D := (eff (driver W)).

(** ** GPUs *)

(** [_read_worker_gpu_uuids], setup/systemd.py lines 683-693. *)
Definition _read_worker_gpu_uuids : D (list string) :=
  p ← _target cfg (sc_worker_config_path cfg);
  text ← try_catch (call (OpenText p)) (λ e,
           if is_OSError e then throws (RuntimeError ("Worker config is unavailable: " +:+ path_str p))
           else throws e);
  match toml_loads text with
  | None => throws (TOMLDecodeError "Invalid TOML")
  | Some config =>
      worker ← lifts (py_dict (py_or (get "worker" config) (PDict [])));
      items ← lifts (py_iter (get_default "gpu_uuids" (PList []) worker));
      lifts (mapR py_str items)
  end.

(** [require_exact_gpu_set(expected, command=self.nvidia_smi)] for expected GPUs,
    worker/runtime.py lines 52-66. *)
Definition exact_gpu_set (expected : list string) : D unit :=
  ensure (all_distinct expected) (RuntimeError "configured GPU UUIDs contain duplicates");;
  outcome ← try_catch
    (c ← call (Run [sc_nvidia_smi cfg; "--query-gpu=uuid"; "--format=csv,noheader"] false); mret (Some c))
    (λ e, if is_OSError e then mret None else throws e);
  lifts (require_exact_gpu_set expected outcome).

Definition show_properties : list string :=
  [sc_systemctl cfg; "show"; "--no-pager"; "--all";
   "--property=DevicePolicy,DeviceAllow,Environment,EnvironmentFiles,UnsetEnvironment,ExecStartPre,Requires,After";
   sc_service_name cfg].

(** The effective properties of the unit, setup/systemd.py lines 742-767. *)
Definition effective_isolation (expected : list string) (mapping : dict string) : D bool :=
  try_catch
    (c ← call (Run show_properties false);
     if negb (returncode c =? 0) then mret false
     else
       properties ← lifts (parse_systemd_show_properties (stdout c));
       validate_effective_worker_gpu_isolation (λ p, call (OpenText p)) properties expected
         (dvalues mapping);;
       mret true)
    (λ e, match e with
          | RuntimeDeploymentAcceptanceError _ => mret false
          | _ => if is_OSError e then mret false else throws e
          end).

(** [expected_file.is_file() and map_file.is_file() and dropin.is_file()]. *)
Fixpoint all_files (paths : list path) : D bool :=
  match paths with
  | [] => mret true
  | p :: rest => b ← call (IsFile p); if b : bool then all_files rest else mret false
  end.

(** [_gpu_isolation_verified], setup/systemd.py lines 695-782. *)
Definition _gpu_isolation_verified (expected : list string) : D bool :=
  expected_file ← _target cfg (sc_gpu_uuid_file_path cfg);
  map_file ← _target cfg (sc_gpu_device_map_path cfg);
  dropin ← _target cfg (sc_gpu_isolation_dropin_path cfg);
  present ← all_files [expected_file; map_file; dropin];
  if negb present then mret false
  else
    uuid_text ← call (OpenText expected_file);
    if negb (bool_decide (sorted_strings (listed uuid_text) = sorted_strings expected)) then mret false
    else
      map_text ← call (OpenText map_file);
      match reviewed_map expected map_text with
      | None => mret false
      | Some mapping =>
          if negb (live_root cfg) then mret false
          else
            effective ← effective_isolation expected mapping;
            if negb effective then mret false
            else
              c ← call (Run [sc_gpu_device_map_command cfg; "--nvidia-smi"; sc_nvidia_smi cfg; "verify";
                             path_str expected_file; path_str map_file] false);
              mret (returncode c =? 0)
      end.

(** ** Readiness *)

(** [_ready], setup/systemd.py lines 795-809. *)
Definition _ready : D bool :=
  if negb (live_root cfg) then mret false
  else try_catch
    (status ← call (HttpOpen (sc_ready_url cfg));
     if negb (status =? 200) then mret false
     else text ← call (HttpRead (sc_ready_url cfg)); mret (says_ready (json_loads text)))
    (λ e, if is_OSError e then mret false else throws e).

(** [_health_timeout_seconds], setup/systemd.py lines 825-837. *)
Definition _health_timeout_seconds (action : SetupAction) : D spec_float :=
  let value := get "timeout_seconds" (ac_payload action) in
  ensure (is_number value)
    (RuntimeError "health check lacks an explicit reviewed startup timeout");;
  timeout ← lifts (py_float value);
  ensure (negb (float_le_zero timeout))
    (RuntimeError "health check startup timeout must be positive");;
  mret timeout.

(** [time.sleep(d)]. *)
Definition sleep_for (d : duration) : D unit :=
  match d with
  | Ticks x => call (Sleep x)
  | Endless => throws (OverflowError "timestamp too large to convert to C PyTime_t")
  | NotANumber => throws (ValueError "Invalid value NaN (not a number)")
  end.

(** The loop of [_wait_ready], setup/systemd.py lines 841-851; [None] when the turns run out. *)
Fixpoint wait_loop (fuel : nat) (timeout : duration) (started : Z) : D (option bool) :=
  match fuel with
  | O => mret None
  | S fuel' =>
      ready ← _ready;
      if ready : bool then mret (Some true)
      else
        failed ← _service_failed cfg;
        if failed : bool then mret (Some false)
        else
          now ← call Monotonic;
          let remaining := elapse timeout (now - started) in
          if over remaining then mret (Some false)
          else
            sleep_for (py_min (duration_of (sc_ready_poll_interval_seconds cfg)) remaining);;
            wait_loop fuel' timeout started
  end.

(** [_wait_ready], setup/systemd.py lines 839-851. *)
Definition _wait_ready (fuel : nat) (timeout_seconds : spec_float) : D (option bool) :=
  started ← call Monotonic; wait_loop fuel (duration_of timeout_seconds) started.

(** ** Inspection, kind by kind *)

(** setup/systemd.py lines 899-907. *)
Definition inspect_directory (action : SetupAction) (provider_id : string) : D ActionInspection :=
  value ← lifts (item "logical_name" (ac_payload action));
  logical_name ← lifts (py_str value);
  p ← _runtime_dir cfg provider_id logical_name;
  there ← or_missing false
    (policy ← _runtime_directory_policy cfg logical_name; call (Directory p policy);; mret true);
  if there : bool then satisfied "runtime directory has safe ownership and mode"
  else needs_apply "runtime directory is missing".

(** setup/systemd.py lines 909-924. *)
Definition inspect_package (action : SetupAction) (provider_id : string) : D ActionInspection :=
  _validate_receipt_path cfg action;;
  available ← _prerequisite_available cfg action;
  if bool_decide (available = Some true) then
    satisfied "runtime prerequisite is currently available"
  else if bool_decide (_installer cfg provider_id = None) then
    blocked "runtime package is unavailable and no explicit installer is configured"
  else if bool_decide (available = None) then
    blocked "runtime package requires an explicit reviewed read-only verifier"
  else needs_apply "runtime package requires explicit installer".

(** setup/systemd.py lines 929-949. *)
Definition inspect_config (action : SetupAction) : D ActionInspection :=
  migration_block ← _validate_render_migration_source cfg action;
  match migration_block with
  | Some i => mret i
  | None =>
      or_blocked (_render_targets cfg action) (λ targets,
        same ← all_current targets; satisfied_if same "runtime deployment configuration")
  end.

(** setup/systemd.py lines 951-968. *)
Definition inspect_model_reference (action : SetupAction) : D ActionInspection :=
  model_ref ← lifts (text_at "model_ref" (ac_payload action));
  if startswith "/" model_ref then
    p ← _target cfg (Path model_ref);
    state ← call (Exists p);
    text ← call (Exists p);
    mret (mk_ActionInspection (if state : bool then SATISFIED else STATE_BLOCKED)
            (if text : bool then "local model reference exists"
             else "local model reference does not exist"))
  else satisfied "provider-native model reference will be resolved by the runtime".

(** setup/systemd.py lines 970-985. *)
Definition inspect_model (action : SetupAction) (provider_id : string) : D ActionInspection :=
  _validate_receipt_path cfg action;;
  available ← _prerequisite_available cfg action;
  if bool_decide (available = Some true) then satisfied "model prerequisite is currently available"
  else if bool_decide (_model_command cfg provider_id (ac_kind action) = None) then
    blocked (enum_value (ac_kind action) +:+ " requires an explicit reviewed model command")
  else if bool_decide (available = None) then
    blocked "model preparation requires an explicit reviewed read-only verifier"
  else needs_apply "model preparation command is configured".

(** Which GPUs the Worker will see; [inl] is the text of the blocked inspection,
    setup/systemd.py lines 995-1019. *)
Definition gpu_visibility (expected : list string) : D (string + string) :=
  match expected with
  | [] => mret (inr "no GPU visibility requirement")
  | _ =>
      failure ← try_catch (exact_gpu_set expected;; mret None) (λ e, mret (Some e));
      match failure with
      | None => mret (inr "host-visible GPU set is already exact")
      | Some e =>
          verified ← _gpu_isolation_verified expected;
          mret (if verified : bool then
                  inr "host GPU superset accepted only because the reviewed systemd isolation contract is configured; service ExecStartPre must still prove isolated-access inside the final Worker cgroup"
                else inl ("GPU visibility preflight failed and no verified service device isolation exists: "
                          +:+ exn_class e))
      end
  end.

(** setup/systemd.py lines 987-1029. *)
Definition inspect_preflight : D ActionInspection :=
  if negb (live_root cfg) then blocked "runtime preflight requires the live target host"
  else
    expected ← _read_worker_gpu_uuids;
    visibility ← gpu_visibility expected;
    match visibility with
    | inl text => blocked text
    | inr detail =>
        p ← _target cfg (sc_runtime_manifest_path cfg);
        there ← call (IsFile p);
        if negb there then
          needs_apply "runtime deployment manifest will be materialized by the reviewed plan"
        else satisfied ("runtime preflight passed; " +:+ detail)
    end.

(** setup/systemd.py lines 1037-1048. *)
Definition inspect_start : D ActionInspection :=
  if negb (live_root cfg) then blocked "service start requires the live target host"
  else active ← _service_active cfg;
       satisfied_if active "Worker service owns the selected RuntimeProvider lifecycle".

(** setup/systemd.py lines 1050-1066. *)
Definition inspect_health (action : SetupAction) : D ActionInspection :=
  or_blocked (_health_timeout_seconds action) (λ timeout_seconds,
    ready ← _ready;
    satisfied_if ready ("Worker readiness includes RuntimeProvider readiness; apply may wait up to "
                        +:+ format_g timeout_seconds +:+ " seconds")).

(** setup/systemd.py lines 1068-1077. *)
Definition inspect_stop : D ActionInspection :=
  active ← _service_active cfg;
  satisfied_if (negb active) "Worker service lifecycle owns runtime stop/release".

(** [_inspect], setup/systemd.py lines 895-1082. *)
Definition _inspect (action : SetupAction) : D ActionInspection :=
  provider_text ← lifts (text_at "provider_id" (ac_payload action));
  let provider_id := strip provider_text in
  match ac_kind action with
  | ENSURE_DIRECTORY => inspect_directory action provider_id
  | ENSURE_PACKAGE => inspect_package action provider_id
  | ENSURE_NVIDIA_DRIVER_BRIDGE => _inspect_nvidia_driver_bridge cfg action
  | RENDER_CONFIG => inspect_config action
  | VERIFY_MODEL_REFERENCE => inspect_model_reference action
  | DOWNLOAD_MODEL | CONVERT_MODEL => inspect_model action provider_id
  | PREFLIGHT => inspect_preflight
  | WORKER_STOP => _inspect_worker_stop cfg action
  | RECONCILE_WORKER_EXECUTION => _inspect_worker_execution cfg action
  | RUNTIME_START => inspect_start
  | HEALTH_CHECK => inspect_health action
  | RUNTIME_STOP | RUNTIME_RELEASE => inspect_stop
  end.

(** [inspect], setup/systemd.py lines 889-893. *)
Definition inspect (action : SetupAction) : D ActionInspection :=
  try_catch (_inspect action) (λ e, match e with UnsafeSetupPath m => blocked m | _ => throws e end).
End driver.
