(* ===== verification/SystemdApply.v ===== *)
(** * The systemd driver of setup: apply, rollback, construction

    Models the rest of [src/src/astrumweaver/setup/systemd.py]: [apply] and [rollback], kind by
    kind, the driver as an instance of the interface [SetupApply] works with, and its
    construction from the environment. *)

From Stdlib Require Import SpecFloat.
From S2P Require Import Prelude PyStr PyDict PyVal PyHost Effects PyText SetupFs PyNum Json GpuMapping RuntimeContracts SetupContracts SetupApply Migration Systemd SystemdInspect.

(** [item["path"]] and the like of a mapping of rollback data. *)
Definition file_record (p : path) (previous : option string) (installed : string) : pyval :=
  PDict [("path", PStr (path_str p)); ("previous", of_opt_str previous); ("installed", PStr installed)].

Section driver.
Context {W : Type} `{SetupHost W} {DG : Digests} {TM : Toml} {DL : DriverLibrary}.
Context (cfg : systemd_config).
(** Turns of the wait for readiness. *)
Context (fuel : nat).

Abbreviation D := (eff (driver W)).

Definition only_if (b : bool) (m : D unit) : D unit := if b then m else mret tt.

(** [subprocess.run(argv, check=True)]. *)
Definition run_checked (argv : list string) : D unit :=
  c ← call (Run argv false);
  ensure (returncode c =? 0) (CalledProcessError "Command returned non-zero exit status").
Definition daemon_reload : list string := [sc_systemctl cfg; "daemon-reload"].
Definition stop_command : list string := [sc_systemctl cfg; "stop"; sc_service_name cfg].
Definition start_command : list string := [sc_systemctl cfg; "start"; sc_service_name cfg].
Definition enable_command : list string := [sc_systemctl cfg; "enable"; "--now"; sc_service_name cfg].

Definition unchanged (detail : string) : D ActionReceipt := mret (mk_ActionReceipt false detail [] []).
Definition changed (detail : string) (rollback_data : dict pyval) : D ActionReceipt :=
  mret (mk_ActionReceipt true detail [] rollback_data).

(** What follows an inspection: blocked raises, satisfied changes nothing. *)
Definition when_needed (inspection : ActionInspection) (otherwise : string) (k : D ActionReceipt)
    : D ActionReceipt :=
  match in_state inspection with
  | STATE_BLOCKED => throws (RuntimeError (or_str (in_detail inspection) otherwise))
  | SATISFIED => unchanged (in_detail inspection)
  | NEEDS_APPLY => k
  end.

(** [_replace_preserving_metadata], setup/systemd.py lines 436-440. *)
Definition _replace_preserving_metadata (p : path) (content : string) : D unit :=
  target ← _target cfg p;
  current ← call (ReadText target);
  match current with
  | None => throws (RuntimeError "managed file is unavailable")
  | Some _ => call (WriteText target content 384 None true)
  end.

(** [_write_nonsecret_config], setup/systemd.py lines 426-428. *)
Definition _write_nonsecret_config (p : path) (content : string) : D unit :=
  gid ← (if live_root cfg then ids ← _service_ids cfg; mret (Some ids.2) else mret None);
  call (WriteText p content 416 gid false).

(** [_prepare_runtime_directory], setup/systemd.py lines 411-424. *)
Definition _prepare_runtime_directory (provider_id logical_name : string) : D (path * bool) :=
  p ← _runtime_dir cfg provider_id logical_name;
  policy ← _runtime_directory_policy cfg logical_name;
  existed ← or_missing false (call (Directory p policy);; mret true);
  only_if (negb existed) (call (Directory p (to_create policy)));;
  mret (p, existed).

(** ** Apply *)

(** setup/systemd.py lines 1088-1097. *)
Definition apply_directory (action : SetupAction) (provider_id : string) : D ActionReceipt :=
  value ← lifts (item "logical_name" (ac_payload action));
  logical_name ← lifts (py_str value);
  r ← _prepare_runtime_directory provider_id logical_name;
  mret (mk_ActionReceipt (negb r.2) ("ensured " +:+ path_str r.1) []
          [("path", PStr (path_str r.1)); ("created", PBool (negb r.2))]).

(** setup/systemd.py lines 1099-1112. *)
Definition apply_package (action : SetupAction) (provider_id : string) : D ActionReceipt :=
  inspection ← inspect cfg action;
  when_needed inspection EmptyString (
    match _installer cfg provider_id with
    | None => throws (AssertionError EmptyString)
    | Some installer =>
        value ← lifts (item "package_reference" (ac_payload action));
        package_reference ← lifts (py_str value);
        run_checked (installer ++ [package_reference]);;
        available ← _prerequisite_available cfg action;
        ensure (bool_decide (available = Some true))
          (RuntimeError "runtime prerequisite is still unavailable after installer completed");;
        _write_receipt cfg action;;
        changed "runtime package installer completed and verified" []
    end).

(** setup/systemd.py lines 1114-1142. *)
Definition apply_bridge (action : SetupAction) : D ActionReceipt :=
  inspection ← _inspect_nvidia_driver_bridge cfg action;
  when_needed inspection "NVIDIA driver bridge is blocked" (
    paths ← _nvidia_driver_bridge_paths cfg action;
    let '(source, target) := paths in
    there ← or_missing false (call (Directory (parent target) (owned_opts cfg false 493));; mret true);
    only_if (negb there) (call (Directory (parent target) (owned_opts cfg true 493)));;
    previous_target ← call (ReadLink target);
    call (ReplaceLink target (path_str source) previous_target);;
    mret (mk_ActionReceipt true "installed narrow host libcuda.so.1 runtime bridge"
            [("soname", PStr _NVIDIA_DRIVER_SONAME)]
            [("target", PStr (path_str target)); ("installed_target", PStr (path_str source));
             ("previous_target", of_opt_str previous_target); ("created_dir", PBool (negb there))])).

(** [_restore_rendered_files], setup/systemd.py lines 1352-1361; [restore_items] takes the
    items the last one first. *)
Definition restore_item (entry : pyval) : D unit :=
  p ← lifts (py_item "path" entry ≫= py_str);
  current ← call (ReadText (Path p));
  installed ← lifts (py_item "installed" entry);
  ensure (py_eqb (of_opt_str current) installed)
    (UnsafeSetupPath "runtime configuration changed after apply; refusing rollback");;
  previous ← lifts (py_item "previous" entry);
  match previous with
  | PNone =>
      match installed with
      | PStr content => call (RemoveFile (Path p) (Some content))
      | _ => throws (OutOfModel "an installed content that is no text")
      end
  | v => text ← lifts (py_str v); _write_nonsecret_config (Path p) text
  end.
Definition _restore_rendered_files (items : list pyval) : D unit := each restore_item (reverse items).

(** The targets with what is there now, setup/systemd.py lines 1154-1157. *)
Fixpoint with_previous (targets : list (path * string)) : D (list (path * string * option string)) :=
  match targets with
  | [] => mret []
  | (p, content) :: rest =>
      previous ← call (ReadText p); more ← with_previous rest; mret ((p, content, previous) :: more)
  end.

(** The writes; when one fails the earlier ones are undone, setup/systemd.py lines 1158-1168. *)
Fixpoint write_targets (files : list pyval) (targets : list (path * string * option string))
    : D (list pyval) :=
  match targets with
  | [] => mret files
  | (p, content, previous) :: rest =>
      if bool_decide (previous = Some content) then write_targets files rest
      else
        on_error (_restore_rendered_files files) (_write_nonsecret_config p content);;
        write_targets (files ++ [file_record p previous content]) rest
  end.

(** setup/systemd.py lines 1144-1172. *)
Definition apply_config (action : SetupAction) : D ActionReceipt :=
  migration_block ← _validate_render_migration_source cfg action;
  match migration_block with
  | Some i => throws (RuntimeError (or_str (in_detail i) "runtime configuration migration is blocked"))
  | None =>
      rendered ← _render_targets cfg action;
      targets ← with_previous rendered;
      files ← write_targets [] targets;
      mret (mk_ActionReceipt (match files with [] => false | _ => true end)
              "rendered runtime deployment configuration" [] [("files", PList files)])
  end.

(** setup/systemd.py lines 1174-1187. *)
Definition apply_model (action : SetupAction) (provider_id : string) : D ActionReceipt :=
  inspection ← inspect cfg action;
  when_needed inspection EmptyString (
    match _model_command cfg provider_id (ac_kind action) with
    | None => throws (AssertionError EmptyString)
    | Some command =>
        value ← lifts (item "model_ref" (ac_payload action));
        model_ref ← lifts (py_str value);
        run_checked (command ++ [model_ref]);;
        available ← _prerequisite_available cfg action;
        ensure (bool_decide (available = Some true))
          (RuntimeError "model prerequisite is still unavailable after preparation");;
        _write_receipt cfg action;;
        changed "model preparation completed and verified" []
    end).

(** setup/systemd.py lines 1189-1205. *)
Definition apply_worker_stop (action : SetupAction) : D ActionReceipt :=
  inspection ← _inspect_worker_stop cfg action;
  when_needed inspection "Worker stop is blocked" (
    run_checked stop_command;;
    changed "stopped existing Worker before execution reconciliation" [("was_active", PBool true)]).

(** The body of the [try], setup/systemd.py lines 1240-1257. *)
Definition install_execution (worker service : option string) : D unit :=
  match worker with Some w => _replace_preserving_metadata (sc_worker_config_path cfg) w | None => mret tt end;;
  match service with Some u => _replace_preserving_metadata (sc_worker_unit_path cfg) u | None => mret tt end;;
  only_if (live_root cfg && bool_decide (is_Some service)) (run_checked daemon_reload);;
  only_if (live_root cfg) (set_safe true).

(** The repair of a failed reconciliation, setup/systemd.py lines 1259-1275. *)
Definition restore_if_file (target p : path) (previous : option string) : D unit :=
  match previous with
  | Some text => there ← call (IsFile target);
                 only_if there (_replace_preserving_metadata p text)
  | None => mret tt
  end.
Definition repair_execution (worker_path unit_path : path) (worker service : option string) : D unit :=
  restore_if_file worker_path (sc_worker_config_path cfg) worker;;
  restore_if_file unit_path (sc_worker_unit_path cfg) service;;
  only_if (live_root cfg && bool_decide (is_Some service)) (run_checked daemon_reload).

(** The writes of a reconciliation: [_worker_restart_safe] and the [try] with its [except],
    setup/systemd.py lines 1238-1281.  A file that does not change is [None]. *)
Definition write_execution (worker_path unit_path : path)
    (worker_new unit_new worker_old unit_old : option string) : D unit :=
  only_if (live_root cfg && (bool_decide (is_Some worker_new) || bool_decide (is_Some unit_new)))
    (set_safe false);;
  try_catch (install_execution worker_new unit_new) (λ e,
    repaired ← try_catch (repair_execution worker_path unit_path worker_old unit_old;; mret true)
                 (λ _, mret false);
    only_if (live_root cfg) (set_safe repaired);;
    throws e).

(** setup/systemd.py lines 1207-1292. *)
Definition apply_reconcile (action : SetupAction) : D ActionReceipt :=
  inspection ← _inspect_worker_execution cfg action;
  when_needed inspection "Worker execution reconciliation is blocked" (
    active ← (if live_root cfg then _service_active cfg else mret false);
    ensure (negb active)
      (RuntimeError "Worker service is still active; refusing to change execution authority");;
    worker_path ← _target cfg (sc_worker_config_path cfg);
    unit_path ← _target cfg (sc_worker_unit_path cfg);
    worker_previous ← _read_required_text cfg (sc_worker_config_path cfg) "Worker config";
    unit_previous ← _read_required_text cfg (sc_worker_unit_path cfg) "Worker unit";
    worker_desired ← lifts (render_runtime_worker_toml worker_previous DEFAULT_RUNTIME_MANIFEST);
    unit_desired ← lifts (render_runtime_worker_unit unit_previous);
    let worker_changed := negb (bool_decide (worker_previous = worker_desired)) in
    let unit_changed := negb (bool_decide (unit_previous = unit_desired)) in
    let only (b : bool) (text : string) := if b then Some text else None in
    write_execution worker_path unit_path (only worker_changed worker_desired)
      (only unit_changed unit_desired) (only worker_changed worker_previous)
      (only unit_changed unit_previous);;
    mret (mk_ActionReceipt (worker_changed || unit_changed)
            "reconciled Worker config and unit to reviewed runtime execution" []
            [("worker_previous", PStr worker_previous); ("unit_previous", PStr unit_previous)])).

(** setup/systemd.py lines 1294-1303. *)
Definition apply_start : D ActionReceipt :=
  run_checked enable_command;;
  changed "started Worker-owned runtime service" [("service_started", PBool true)].

(** setup/systemd.py lines 1305-1319. *)
Definition apply_health (action : SetupAction) : D ActionReceipt :=
  timeout_seconds ← _health_timeout_seconds action;
  ready ← _wait_ready cfg fuel timeout_seconds;
  match ready with
  | Some true => unchanged "Worker and selected runtime are ready"
  | Some false =>
      failed ← _service_failed cfg;
      if failed : bool then
        throws (RuntimeError "Worker service entered failed state before readiness")
      else throws (RuntimeError
        "Worker/RuntimeProvider readiness endpoint did not become ready before the reviewed startup timeout")
  | None => throws (OutOfModel "more turns")
  end.

(** setup/systemd.py lines 1321-1328. *)
Definition apply_check (action : SetupAction) : D ActionReceipt :=
  inspection ← inspect cfg action;
  ensure (bool_decide (in_state inspection = SATISFIED))
    (RuntimeError (or_str (in_detail inspection) "preflight failed"));;
  unchanged (in_detail inspection).

(** setup/systemd.py lines 1330-1346. *)
Definition apply_stop : D ActionReceipt :=
  active ← _service_active cfg;
  if negb active then unchanged "Worker-owned runtime is already stopped"
  else run_checked stop_command;; changed "stopped Worker-owned runtime service" [].

(** [apply], setup/systemd.py lines 1084-1350. *)
Definition apply (action : SetupAction) : D ActionReceipt :=
  provider_text ← lifts (text_at "provider_id" (ac_payload action));
  let provider_id := strip provider_text in
  match ac_kind action with
  | ENSURE_DIRECTORY => apply_directory action provider_id
  | ENSURE_PACKAGE => apply_package action provider_id
  | ENSURE_NVIDIA_DRIVER_BRIDGE => apply_bridge action
  | RENDER_CONFIG => apply_config action
  | DOWNLOAD_MODEL | CONVERT_MODEL => apply_model action provider_id
  | WORKER_STOP => apply_worker_stop action
  | RECONCILE_WORKER_EXECUTION => apply_reconcile action
  | RUNTIME_START => apply_start
  | HEALTH_CHECK => apply_health action
  | PREFLIGHT | VERIFY_MODEL_REFERENCE => apply_check action
  | RUNTIME_STOP | RUNTIME_RELEASE => apply_stop
  end.

(** ** Rollback *)

(** setup/systemd.py lines 1371-1379. *)
Definition rollback_directory (action : SetupAction) (receipt : ActionReceipt) : D ActionReceipt :=
  provider_id ← lifts (text_at "provider_id" (ac_payload action));
  value ← lifts (item "logical_name" (ac_payload action));
  logical_name ← lifts (py_str value);
  p ← _runtime_dir cfg provider_id logical_name;
  removed ← (if truthy (get "created" (rc_rollback_data receipt)) then
               policy ← _runtime_directory_policy cfg logical_name;
               call (RemoveDirectory p (do_data_owner policy))
             else mret false);
  mret (mk_ActionReceipt removed
          (if removed : bool then "removed empty directory" else "directory retained") [] []).

(** setup/systemd.py lines 1381-1393. *)
Definition rollback_bridge (receipt : ActionReceipt) : D ActionReceipt :=
  target ← bridge_target cfg;
  installed ← lifts (text_at "installed_target" (rc_rollback_data receipt));
  match get "previous_target" (rc_rollback_data receipt) with
  | PNone => call (RemoveLink target installed)
  | PStr (String _ _ as previous) => call (ReplaceLink target previous (Some installed))
  | _ => throws (RuntimeError "NVIDIA driver bridge rollback receipt is invalid")
  end;;
  only_if (truthy (get "created_dir" (rc_rollback_data receipt)))
    (call (RemoveDirectory (parent target) None);; mret tt);;
  changed "restored previous NVIDIA driver bridge state" [].

(** setup/systemd.py lines 1395-1398. *)
Definition rollback_config (receipt : ActionReceipt) : D ActionReceipt :=
  items ← lifts (py_iter (py_or (get "files" (rc_rollback_data receipt)) (PList [])));
  _restore_rendered_files items;;
  mret (mk_ActionReceipt (match items with [] => false | _ => true end)
          "restored previous runtime configuration" [] []).

(** setup/systemd.py lines 1400-1433. *)
Definition rollback_reconcile (receipt : ActionReceipt) : D ActionReceipt :=
  match get "worker_previous" (rc_rollback_data receipt), get "unit_previous" (rc_rollback_data receipt) with
  | PStr worker_previous, PStr unit_previous =>
      only_if (live_root cfg)
        (set_safe false;;
         active ← _service_active cfg; only_if active (run_checked stop_command));;
      _replace_preserving_metadata (sc_worker_config_path cfg) worker_previous;;
      _replace_preserving_metadata (sc_worker_unit_path cfg) unit_previous;;
      only_if (live_root cfg) (run_checked daemon_reload;; set_safe true);;
      changed "restored previous Worker execution configuration" []
  | _, _ => throws (RuntimeError "Worker execution rollback receipt is incomplete")
  end.

(** setup/systemd.py lines 1435-1479. *)
Definition rollback_worker_stop (receipt : ActionReceipt) : D ActionReceipt :=
  if negb (truthy (get "was_active" (rc_rollback_data receipt))) then
    unchanged "Worker was already stopped before migration"
  else if negb (live_root cfg) then unchanged "staged root has no live Worker service to restore"
  else
    safe ← gets sd_safe;
    if negb safe then unchanged
      "Worker restart refused because systemd execution authority reload was not proven safe"
    else
      restored ← try_catch (c ← load_installed_worker_contract cfg; mret (Some c))
                   (λ e, match runtime_error e with Some _ => mret None | None => throws e end);
      match restored with
      | None => unchanged
          "Worker left stopped because rollback did not restore a recognizable execution contract"
      | Some c =>
          if negb (bool_decide (ic_execution_mode c = "smoke")) then unchanged
            "Worker left stopped because smoke execution authority was not restored"
          else run_checked start_command;;
               changed "restored previously active smoke Worker service" []
      end.

(** setup/systemd.py lines 1481-1489. *)
Definition rollback_start : D ActionReceipt :=
  run_checked stop_command;; changed "stopped Worker service started by this plan" [].

(** [rollback], setup/systemd.py lines 1363-1494. *)
Definition rollback (action : SetupAction) (receipt : ActionReceipt) : D ActionReceipt :=
  if negb (rc_changed receipt) then unchanged "no rollback required"
  else match ac_kind action with
       | ENSURE_DIRECTORY => rollback_directory action receipt
       | ENSURE_NVIDIA_DRIVER_BRIDGE => rollback_bridge receipt
       | RENDER_CONFIG => rollback_config receipt
       | RECONCILE_WORKER_EXECUTION => rollback_reconcile receipt
       | WORKER_STOP => rollback_worker_stop receipt
       | RUNTIME_START => rollback_start
       | _ => unchanged "action is not reversibly managed by systemd driver"
       end.

(** ** The interface *)

Definition attempted {A} (r : driver W * result A) : driver W * attempt A :=
  match r with
  | (s, Ok a) => (s, Returned a)
  | (s, Err e) => (s, Raised (exn_class e))
  end.

#[export] Instance SystemdSetupDriver : SetupActionDriver (driver W) := {
  SetupApply.inspect := λ action s, attempted (inspect cfg action s);
  apply_action := λ action s, attempted (apply action s);
  rollback_action := λ action receipt s, attempted (rollback action receipt s);
}.
End driver.

(** ** Construction *)

Section construction.
Context {DL : DriverLibrary}.
(** [os.environ] and [os.geteuid()]. *)
Context (environ : string → option string) (euid : Z).

Definition env (name fallback : string) : string := default fallback (environ name).

(** [_argv_map_from_env], setup/systemd.py lines 1497-1516. *)
Definition argv_entry (name : string) (argv : pyval) : result (list string) :=
  match argv with
  | PList ((_ :: _) as items) =>
      mapR (λ v, match v with
                 | PStr (String _ _ as s) => Ok s
                 | _ => Err (RuntimeError (name +:+ " entries must be non-empty argv arrays"))
                 end) items
  | _ => Err (RuntimeError (name +:+ " entries must be non-empty argv arrays"))
  end.
Definition _argv_map_from_env (name : string) : result (dict (list string)) :=
  match json_loads (env name "{}") with
  | None => Err (RuntimeError (name +:+ " must be valid JSON"))
  | Some (PDict parsed) =>
      foldR (λ values kv, argv ← argv_entry name kv.2; Ok (dset kv.1 argv values)) [] parsed
  | Some _ => Err (RuntimeError (name +:+ " must contain an object"))
  end.

(** [_argv_map_with_defaults], setup/systemd.py lines 1519-1528. *)
Definition _argv_map_with_defaults (name : string) (defaults : dict (list string))
    : result (dict (list string)) :=
  values ← _argv_map_from_env name; Ok (dmerge defaults values).

Definition float_from_env (name fallback : string) : result spec_float :=
  match float_of_text (env name fallback) with
  | Some f => Ok f
  | None => Err (ValueError "could not convert string to float")
  end.

(** [create_systemd_driver] with [SystemdSetupDriver.__init__], setup/systemd.py lines 1531-1647. *)
Definition create_systemd_driver : result systemd_config :=
  let root := Path (env "ASTRUMWEAVER_SETUP_ROOT" "/") in
  let manager := strip (env "ASTRUMWEAVER_RUNTIME_PROFILE_MANAGER" GENERIC_SYSTEMD_RUNTIME_PROFILE_MANAGER) in
  require (str_truthy manager && is_absolute (Path manager))
    (RuntimeError "ASTRUMWEAVER_RUNTIME_PROFILE_MANAGER must be an absolute path");;
  let library := strip (env "ASTRUMWEAVER_NVIDIA_DRIVER_LIBRARY" EmptyString) in
  poll ← float_from_env "ASTRUMWEAVER_WORKER_READY_POLL_INTERVAL_SECONDS" "0.25";
  installers ← _argv_map_with_defaults "ASTRUMWEAVER_RUNTIME_INSTALLERS_JSON" [("llama-cpp", [manager; "ensure"])];
  downloaders ← _argv_map_from_env "ASTRUMWEAVER_RUNTIME_DOWNLOADERS_JSON";
  converters ← _argv_map_from_env "ASTRUMWEAVER_RUNTIME_CONVERTERS_JSON";
  verifiers ← _argv_map_with_defaults "ASTRUMWEAVER_RUNTIME_VERIFIERS_JSON" [("llama-cpp", [manager; "verify"])];
  filesystem ← mk_SetupFilesystem root euid;
  require (negb (float_le_zero poll)) (ValueError "ready_poll_interval_seconds must be positive");;
  Ok {| sc_filesystem := filesystem;
        sc_worker_config_path := Path (env "ASTRUMWEAVER_WORKER_CONFIG" "/etc/astrumweaver/worker.toml");
        sc_worker_unit_path := Path (env "ASTRUMWEAVER_WORKER_UNIT" "/etc/systemd/system/astrumweaver-worker.service");
        sc_runtime_manifest_path := Path (env "ASTRUMWEAVER_RUNTIME_MANIFEST" "/etc/astrumweaver/runtime-deployment.json");
        sc_gpu_uuid_file_path := Path (env "ASTRUMWEAVER_GPU_UUID_FILE" "/etc/astrumweaver/gpu-uuids");
        sc_gpu_device_map_path := Path (env "ASTRUMWEAVER_GPU_DEVICE_MAP" "/etc/astrumweaver/gpu-device-map");
        sc_gpu_isolation_dropin_path := Path (env "ASTRUMWEAVER_GPU_ISOLATION_DROPIN"
          "/etc/systemd/system/astrumweaver-worker.service.d/10-gpu-isolation.conf");
        sc_gpu_device_map_command := env "ASTRUMWEAVER_GPU_DEVICE_MAP_COMMAND" "/usr/local/libexec/astrumweaver/gpu-device-map";
        sc_service_name := env "ASTRUMWEAVER_WORKER_SERVICE" "astrumweaver-worker.service";
        sc_systemctl := env "ASTRUMWEAVER_SYSTEMCTL" "systemctl";
        sc_nvidia_smi := env "ASTRUMWEAVER_NVIDIA_SMI" "nvidia-smi";
        sc_ldconfig := env "ASTRUMWEAVER_LDCONFIG" "ldconfig";
        sc_nvidia_driver_library := if str_truthy library then Some (Path library) else None;
        sc_ready_url := env "ASTRUMWEAVER_WORKER_READY_URL" "http://127.0.0.1:9100/ready";
        sc_ready_poll_interval_seconds := poll;
        sc_installers := installers;
        sc_downloaders := downloaders;
        sc_converters := converters;
        sc_verifiers := verifiers;
        sc_service_user := env "ASTRUMWEAVER_WORKER_USER" "astrumweaver";
        sc_service_group := env "ASTRUMWEAVER_WORKER_GROUP" "astrumweaver" |}.
End construction.
