(* ===== verification/SystemdLaws.v ===== *)
(** * What the systemd driver performs

    [performs P m]: whatever happens, [m] leaves [_worker_restart_safe] alone and every
    operation it performs satisfies [P].  With it: inspection only reads ([read_only]), and so
    do the checks that [apply] and [rollback] make. *)

From Stdlib Require Import SpecFloat.
From S2P Require Import Prelude PyStr PyDict PyVal PyHost Effects PyText SetupFs PyNum GpuMapping GpuIsolation RuntimeContracts SetupContracts SetupApply Migration Systemd SystemdInspect SystemdApply.

(** A property of operations. *)
Definition op_prop := ∀ A, host_op A → Prop.
Definition of_entry (P : op_prop) (o : performed) : Prop := match o with Performed op _ => P _ op end.

Section performs.
Context {W : Type} `{SetupHost W}.
Abbreviation D := (eff (driver W)).
Implicit Types (P : op_prop) (s : driver W).

(** [s'] is what operations in [P] made of [s]. *)
Definition performs_one P s s' : Prop := ∃ A (op : host_op A), P A op ∧ s' = (call op s).1.
Definition extends P : relation (driver W) := rtc (performs_one P).

Definition performs {A} P (m : D A) : Prop := ∀ s, extends P s (m s).1.

#[export] Instance extends_refl P : Reflexive (extends P).
Proof. unfold extends. apply _. Qed.
#[export] Instance extends_trans P : Transitive (extends P).
Proof. unfold extends. apply _. Qed.

(** What it says of the log. *)
Lemma extends_log P s s' : extends P s s' →
  sd_safe s' = sd_safe s ∧ ∃ l, sd_log s' = l ++ sd_log s ∧ Forall (of_entry P) l.
Proof.
  induction 1 as [s|s1 s2 s3 (A & op & Hop & ->) _ [E (l & L & F)]]; [split; [done|by exists []]|].
  unfold call in *. destruct (perform op (sd_world s1)) as [w r]. cbn in *. split; [done|].
  exists (l ++ [Performed op r]). rewrite L, <-app_assoc. split; [done|].
  apply Forall_app. split; [done|]. by repeat constructor.
Qed.
(** And of the state. *)
Lemma performs_preserves {A} P (I : driver W → Prop) (m : D A) :
  (∀ B (op : host_op B) s, P B op → I s → I (call op s).1) → performs P m → preserves I m.
Proof.
  intros Hop Hm s Hs. specialize (Hm s).
  assert (I (m s).1) as Hi.
  { revert Hs. generalize dependent (m s).1. intros s' Hm. induction Hm as [|s1 s2 s3 (B & op & HP & ->) _ IH]; eauto. }
  by destruct (m s) as [s' []].
Qed.

Lemma performs_pure {A} P (r : result A) : performs P (λ s, (s, r)).
Proof. intros s. done. Qed.
Lemma performs_ret {A} P (a : A) : performs P (mret a).
Proof. intros s. done. Qed.
Lemma performs_throws {A} P e : performs (A := A) P (throws e).
Proof. intros s. done. Qed.
Lemma performs_lifts {A} P (r : result A) : performs P (lifts r).
Proof. intros s. done. Qed.
Lemma performs_gets {A} P (f : driver W → A) : performs P (gets f).
Proof. intros s. done. Qed.
Lemma performs_ensure P b e : performs P (ensure b e).
Proof. intros s. unfold ensure. by destruct b. Qed.
Lemma performs_bind {A B} P (m : D A) (k : A → D B) :
  performs P m → (∀ a, performs P (k a)) → performs P (m ≫= k).
Proof.
  intros Hm Hk s. specialize (Hm s). unfold mbind, eff_bind. destruct (m s) as [s1 [a|e]]; [|done].
  etrans; [exact Hm|]. apply Hk.
Qed.
(** With what is known of the values [m] returns. *)
Definition returns {A} (Q : A → Prop) (m : D A) : Prop := ∀ s, match (m s).2 with Ok a => Q a | Err _ => True end.
Lemma performs_bind_returns {A B} P (Q : A → Prop) (m : D A) (k : A → D B) :
  returns Q m → performs P m → (∀ a, Q a → performs P (k a)) → performs P (m ≫= k).
Proof.
  intros Hq Hm Hk s. specialize (Hm s). specialize (Hq s). unfold mbind, eff_bind.
  destruct (m s) as [s1 [a|e]]; [|done]. etrans; [exact Hm|]. by apply Hk.
Qed.
Lemma performs_catch {A} P (m : D A) h : performs P m → (∀ e, performs P (h e)) → performs P (try_catch m h).
Proof.
  intros Hm Hh s. specialize (Hm s). unfold try_catch. destruct (m s) as [s1 [a|e]]; [done|].
  etrans; [exact Hm|]. apply Hh.
Qed.
Lemma performs_on_error {A} P (m : D A) c : performs P m → performs P c → performs P (on_error c m).
Proof.
  intros Hm Hc s. specialize (Hm s). unfold on_error. destruct (m s) as [s1 [a|e]]; [done|].
  specialize (Hc s1). destruct (c s1) as [s2 []]; by etrans.
Qed.
Lemma performs_call {A} P (op : host_op A) : P A op → performs P (call op).
Proof.
  intros Hp s. apply rtc_once. by exists A, op.
Qed.
Lemma performs_each {A} P (f : A → D unit) l : (∀ x, performs P (f x)) → performs P (each f l).
Proof.
  intros Hf. induction l as [|x l IH]; cbn [each]; [apply performs_ret|].
  apply performs_bind; [apply Hf|by intros []].
Qed.
Lemma performs_mono {A} P Q (m : D A) : (∀ B (op : host_op B), P B op → Q B op) → performs P m → performs Q m.
Proof.
  intros HPQ Hm s. eapply rtc_subrel; [|apply Hm]. intros s1 s2 (B & op & Hop & ->). exists B, op. eauto.
Qed.

(** The words of the driver. *)
Lemma performs_or_missing {A} P (x : A) (m : D A) : performs P m → performs P (or_missing x m).
Proof.
  intros Hm. apply performs_catch; [done|]. intros []; apply performs_ret || apply performs_throws.
Qed.
Lemma performs_or_blocked {A} P (m : D A) k :
  performs P m → (∀ a, performs P (k a)) → performs P (or_blocked m k).
Proof.
  intros Hm Hk. apply performs_bind.
  - apply performs_catch; [apply performs_bind; [done|]; intros a; apply performs_ret|].
    intros e. destruct (runtime_error e); [apply performs_ret|apply performs_throws].
  - intros [a|text]; [apply Hk|apply performs_ret].
Qed.
Lemma performs_blocked P d : performs P (blocked d).
Proof. apply performs_ret. Qed.
Lemma performs_satisfied P d : performs P (satisfied d).
Proof. apply performs_ret. Qed.
Lemma performs_needs_apply P d : performs P (needs_apply d).
Proof. apply performs_ret. Qed.
Lemma performs_satisfied_if P b d : performs P (satisfied_if b d).
Proof. destruct b; apply performs_ret. Qed.
Lemma performs_unchanged P d : performs P (unchanged d).
Proof. apply performs_ret. Qed.
Lemma performs_changed P d r : performs P (changed d r).
Proof. apply performs_ret. Qed.
Lemma performs_guard {A} P b e (k : D A) : (b = true → performs P k) → performs P (ensure b e;; k).
Proof. intros Hk. destruct b; [by apply Hk|]. intros s. done. Qed.
Lemma performs_only_if P b m : performs P m → performs P (only_if b m).
Proof. intros Hm. destruct b; [done|apply performs_ret]. Qed.
Lemma performs_when_needed P i o k : performs P k → performs P (when_needed i o k).
Proof.
  intros Hk. unfold when_needed. destruct (in_state i); [apply performs_unchanged|done|apply performs_throws].
Qed.
End performs.

Create HintDb ops discriminated.
#[export] Hint Resolve performs_ret performs_throws performs_lifts performs_gets performs_ensure
  performs_blocked performs_satisfied performs_needs_apply performs_satisfied_if
  performs_unchanged performs_changed performs_pure : ops.

(** Walks through a computation; what it performs is left as goals about operations. *)
Ltac ops :=
  repeat first
    [ progress eauto with ops nocore
    | apply performs_guard; intros ?
    | apply performs_bind; [|intros ?]
    | apply performs_catch; [|intros ?]
    | apply performs_or_missing
    | apply performs_or_blocked; [|intros ?]
    | apply performs_on_error
    | apply performs_only_if
    | apply performs_when_needed
    | apply performs_call
    | apply performs_each; intros ?
    | match goal with
      | |- performs _ (let '(_, _) := ?x in _) => destruct x
      | |- performs _ (match ?x with _ => _ end) => destruct x eqn:?
      end ].

(** ** Reading *)

Section reads.
Context {W : Type} `{SetupHost W} {DG : Digests} {TM : Toml} {DL : DriverLibrary}.
Context (cfg : systemd_config).
Abbreviation D := (eff (driver W)).

(** The commands that only ask: the configured verifiers, for ten seconds at most, the dynamic
    linker's cache, the state of the service, the GPUs and the check of the device map. *)
Inductive question : list string → bool → Prop :=
  | ask_verifier provider_id verifier what reference :
      argv_of provider_id (sc_verifiers cfg) = Some verifier →
      question (verifier ++ [what; reference]) true
  | ask_ldconfig : live_root cfg = true → question [sc_ldconfig cfg; "-p"] false
  | ask_active : live_root cfg = true →
      question [sc_systemctl cfg; "is-active"; "--quiet"; sc_service_name cfg] false
  | ask_failed : live_root cfg = true →
      question [sc_systemctl cfg; "is-failed"; "--quiet"; sc_service_name cfg] false
  | ask_properties : live_root cfg = true → question (show_properties cfg) false
  | ask_gpus : live_root cfg = true →
      question [sc_nvidia_smi cfg; "--query-gpu=uuid"; "--format=csv,noheader"] false
  | ask_map uuids mapping : live_root cfg = true →
      question [sc_gpu_device_map_command cfg; "--nvidia-smi"; sc_nvidia_smi cfg; "verify"; uuids; mapping]
        false.

(** An operation that changes nothing on the host. *)
Definition read_only : op_prop := λ A op,
  match op with
  | WriteText _ _ _ _ _ | RemoveFile _ _ | RemoveDirectory _ _ | ReplaceLink _ _ _
  | RemoveLink _ _ | Sleep _ => False
  | Directory _ o => do_create o = false
  | Run argv limited => question argv limited
  | _ => True
  end.

(** The narrower class of what [rollback] asks: the only command is whether the service runs. *)
Definition asks : op_prop := λ A op,
  match op with
  | WriteText _ _ _ _ _ | RemoveFile _ _ | RemoveDirectory _ _ | ReplaceLink _ _ _
  | RemoveLink _ _ | Sleep _ => False
  | Directory _ o => do_create o = false
  | Run argv limited => limited = false ∧ live_root cfg = true ∧
      argv = [sc_systemctl cfg; "is-active"; "--quiet"; sc_service_name cfg]
  | _ => True
  end.
Lemma asks_read_only {A} (m : D A) : performs asks m → performs read_only m.
Proof.
  apply performs_mono. intros B []; cbn; try done. intros (-> & Hl & ->). by apply ask_active.
Qed.
Hint Resolve asks_read_only : ops.

Local Ltac reads := ops; try exact I; try reflexivity; try (econstructor; eassumption).

Lemma target_reads p : performs (W := W) asks (_target cfg p).
Proof. unfold _target. reads. Qed.
Hint Resolve target_reads : ops.
Lemma provider_reads p : performs (W := W) asks (_validate_provider_id (W := W) p).
Proof. unfold _validate_provider_id. reads. Qed.
Hint Resolve provider_reads : ops.
Lemma runtime_dir_reads p n : performs (W := W) asks (_runtime_dir cfg p n).
Proof. unfold _runtime_dir. reads. Qed.
Lemma receipt_path_reads a : performs (W := W) asks (_receipt_path cfg a).
Proof. unfold _receipt_path. reads. Qed.
Hint Resolve runtime_dir_reads receipt_path_reads : ops.
Lemma validate_receipt_reads a : performs (W := W) asks (_validate_receipt_path cfg a).
Proof. unfold _validate_receipt_path. reads. Qed.
Lemma service_ids_reads : performs (W := W) asks (_service_ids cfg).
Proof. unfold _service_ids. reads. Qed.
Hint Resolve validate_receipt_reads service_ids_reads : ops.
Lemma policy_reads n : performs (W := W) asks (_runtime_directory_policy cfg n).
Proof. unfold _runtime_directory_policy. reads. Qed.
Lemma policy_plain n : returns (λ o, do_create o = false) (_runtime_directory_policy (W := W) cfg n).
Proof.
  intros s. unfold _runtime_directory_policy. case_bool_decide; [done|].
  destruct (live_root cfg); unfold mbind, eff_bind.
  - by destruct (_service_ids cfg s) as [s1 [a|e]].
  - destruct (call Geteuid s) as [s1 [a|e]]; [|done]. by destruct (call Getegid s1) as [s2 [b|e]].
Qed.
Lemma with_policy {A} n (k : dir_opts → D A) :
  (∀ o, do_create o = false → performs read_only (k o)) →
  performs read_only (_runtime_directory_policy cfg n ≫= k).
Proof. apply performs_bind_returns; [apply policy_plain|apply asks_read_only, policy_reads]. Qed.
Lemma prerequisite_reads a : performs (W := W) read_only (_prerequisite_available cfg a).
Proof. unfold _prerequisite_available, run_verifier, _provider_executable_available. reads. Qed.
Lemma library_reads : performs (W := W) read_only (_discover_nvidia_driver_library cfg).
Proof. unfold _discover_nvidia_driver_library, search_driver_library. reads. Qed.
Hint Resolve prerequisite_reads library_reads : ops.
Lemma bridge_paths_reads a : performs (W := W) read_only (_nvidia_driver_bridge_paths cfg a).
Proof. unfold _nvidia_driver_bridge_paths, bridge_target. reads. Qed.
Hint Resolve bridge_paths_reads : ops.
Lemma inspect_bridge_reads a : performs (W := W) read_only (_inspect_nvidia_driver_bridge cfg a).
Proof. unfold _inspect_nvidia_driver_bridge. reads. Qed.
Lemma required_reads p l : performs (W := W) asks (_read_required_text cfg p l).
Proof. unfold _read_required_text. reads. Qed.
Hint Resolve inspect_bridge_reads required_reads : ops.
Lemma unit_reads : performs (W := W) asks (_load_installed_worker_unit cfg).
Proof. unfold _load_installed_worker_unit. reads. Qed.
Hint Resolve unit_reads : ops.
Lemma contract_reads : performs (W := W) asks (load_installed_worker_contract cfg).
Proof. unfold load_installed_worker_contract. reads. Qed.
Lemma manifest_reads : performs (W := W) asks (read_manifest cfg).
Proof. unfold read_manifest. reads. Qed.
Hint Resolve contract_reads manifest_reads : ops.
Lemma manifest_provider_reads : performs (W := W) asks (_runtime_manifest_provider_id cfg).
Proof. unfold _runtime_manifest_provider_id. reads. Qed.
Lemma expected_reads a : performs (W := W) asks (_expected_runtime_deployment_text (W := W) a).
Proof. unfold _expected_runtime_deployment_text. reads. Qed.
Hint Resolve manifest_provider_reads expected_reads : ops.
Lemma matches_reads a : performs (W := W) asks (_runtime_manifest_matches cfg a).
Proof. unfold _runtime_manifest_matches. reads. Qed.
Lemma active_reads : performs (W := W) asks (_service_active cfg).
Proof. unfold _service_active. reads. split; [done|]. split; [by apply negb_false_iff|done]. Qed.
Lemma failed_reads : performs (W := W) read_only (_service_failed cfg).
Proof. unfold _service_failed. reads. apply ask_failed. by apply negb_false_iff. Qed.
Hint Resolve matches_reads active_reads failed_reads : ops.
Lemma inspect_worker_stop_reads a : performs (W := W) asks (_inspect_worker_stop cfg a).
Proof. unfold _inspect_worker_stop, inspect_stopped. reads. Qed.
Lemma inspect_worker_execution_reads a : performs (W := W) asks (_inspect_worker_execution cfg a).
Proof. unfold _inspect_worker_execution, inspect_runtime_execution. reads. Qed.
Hint Resolve inspect_worker_stop_reads inspect_worker_execution_reads : ops.
Lemma render_targets_reads a : performs (W := W) asks (_render_targets cfg a).
Proof. unfold _render_targets, tabby_target. reads. Qed.
Lemma all_current_reads l : performs (W := W) asks (all_current (W := W) l).
Proof. induction l as [|[p c] l IH]; cbn [all_current]; reads. Qed.
Hint Resolve render_targets_reads all_current_reads : ops.
Lemma render_source_reads a : performs (W := W) asks (_validate_render_migration_source cfg a).
Proof. unfold _validate_render_migration_source. reads. Qed.
Lemma worker_gpus_reads : performs (W := W) asks (_read_worker_gpu_uuids cfg).
Proof. unfold _read_worker_gpu_uuids. reads. Qed.
Hint Resolve render_source_reads worker_gpus_reads : ops.
Lemma all_files_reads l : performs (W := W) read_only (all_files (W := W) l).
Proof. induction l as [|p l IH]; cbn [all_files]; reads. Qed.
Hint Resolve all_files_reads : ops.
Lemma ready_reads : performs (W := W) read_only (_ready cfg).
Proof. unfold _ready. reads. Qed.
Lemma health_timeout_reads a : performs (W := W) read_only (_health_timeout_seconds (W := W) a).
Proof. unfold _health_timeout_seconds. reads. Qed.
Hint Resolve ready_reads health_timeout_reads : ops.

Section live.
Hypothesis Hlive : live_root cfg = true.

(** On a live root a path is its own target. *)
Lemma target_live p : _target (W := W) cfg p = mret p.
Proof. unfold _target. by rewrite Hlive. Qed.
Lemma target_then {B} (k : path → D B) p P Q E : triple P (k p) Q E → triple P (_target cfg p ≫= k) Q E.
Proof. by rewrite target_live. Qed.

Lemma gpu_set_reads l : performs (W := W) read_only (exact_gpu_set cfg l).
Proof. unfold exact_gpu_set. reads. Qed.
Lemma isolation_reads properties uuids paths :
  performs (W := W) read_only (validate_effective_worker_gpu_isolation (λ p, call (W := W) (OpenText p))
                        properties uuids paths).
Proof.
  unfold validate_effective_worker_gpu_isolation, _reject_effective_gpu_environment_override,
    check_environment_file. reads.
Qed.
Hint Resolve gpu_set_reads isolation_reads : ops.
Lemma isolation_verified_reads l : performs (W := W) read_only (_gpu_isolation_verified cfg l).
Proof.
  unfold _gpu_isolation_verified, effective_isolation. reads.
Qed.
Hint Resolve isolation_verified_reads : ops.
Lemma visibility_reads l : performs (W := W) read_only (gpu_visibility cfg l).
Proof. unfold gpu_visibility. reads. Qed.
End live.

Lemma preflight_reads : performs (W := W) read_only (inspect_preflight cfg).
Proof.
  unfold inspect_preflight. destruct (live_root cfg) eqn:E; cbn [negb]; reads. by apply visibility_reads.
Qed.
Hint Resolve preflight_reads : ops.

Lemma inspect_directory_reads action provider_id :
  performs (W := W) read_only (inspect_directory cfg action provider_id).
Proof.
  unfold inspect_directory. do 3 (apply performs_bind; [reads|intros ?]).
  apply performs_bind; [apply performs_or_missing|intros []; reads].
  apply with_policy. intros o Ho. reads.
Qed.
Hint Resolve inspect_directory_reads : ops.

Lemma inspect_reads action : performs (W := W) read_only (inspect cfg action).
Proof.
  unfold inspect, _inspect, inspect_package, inspect_config, inspect_model_reference,
    inspect_model, inspect_start, inspect_health, inspect_stop. reads.
Qed.
End reads.

#[export] Hint Resolve asks_read_only target_reads provider_reads runtime_dir_reads receipt_path_reads
  validate_receipt_reads service_ids_reads policy_reads prerequisite_reads library_reads
  bridge_paths_reads inspect_bridge_reads required_reads unit_reads contract_reads manifest_reads
  manifest_provider_reads expected_reads matches_reads active_reads failed_reads
  inspect_worker_stop_reads inspect_worker_execution_reads render_targets_reads all_current_reads
  render_source_reads worker_gpus_reads ready_reads health_timeout_reads preflight_reads
  inspect_reads : ops.

(** ** Values returned *)

Section returns.
Context {W : Type} `{SetupHost W}.
Abbreviation D := (eff (driver W)).

Lemma returns_ret {A} (Q : A → Prop) a : Q a → returns Q (mret a : D A).
Proof. intros Ha s. exact Ha. Qed.
Lemma returns_throws {A} (Q : A → Prop) e : returns Q (throws e : D A).
Proof. intros s. done. Qed.
Lemma returns_lifts {A} (Q : A → Prop) (r : result A) :
  (∀ a, r = Ok a → Q a) → returns Q (lifts r : D A).
Proof. intros Hr s. unfold lifts. cbn. destruct r; [by apply Hr|done]. Qed.
Lemma returns_bind {A B} (Q : A → Prop) (R : B → Prop) (m : D A) (k : A → D B) :
  returns Q m → (∀ a, Q a → returns R (k a)) → returns R (m ≫= k).
Proof.
  intros Hm Hk s. specialize (Hm s). unfold mbind, eff_bind. destruct (m s) as [s1 [a|e]]; [|done].
  by apply Hk.
Qed.
Lemma returns_seq {A B} (R : B → Prop) (m : D A) (k : A → D B) :
  (∀ a, returns R (k a)) → returns R (m ≫= k).
Proof. intros Hk. apply (returns_bind (λ _, True)); [|by auto]. intros s. by destruct (m s).2. Qed.
Lemma returns_mono {A} (Q R : A → Prop) (m : D A) : (∀ a, Q a → R a) → returns Q m → returns R m.
Proof. intros HQR Hm s. specialize (Hm s). destruct (m s).2; auto. Qed.
End returns.
