(* ===== verification/SystemdAuthority.v ===== *)
(** * Starting the Worker on the authority systemd has loaded

    A reconciliation rewrites the Worker's unit; until systemd reloads it, starting the service
    would run what the operator did not review.  [starts_loaded] says of the log of a run that
    every start came after a reload of the last rewriting; it is shown of whole runs of
    [apply_plan], rollbacks included, on hosts that answer arbitrarily. *)

From Stdlib Require Import SpecFloat.
From S2P Require Import Prelude PyStr PyDict PyVal PyHost Effects PyText SetupFs PyNum Json GpuMapping RuntimeContracts SetupContracts SetupApply SetupApplyProps Migration Systemd SystemdInspect SystemdApply SystemdLaws.

Section authority.
Context (cfg : systemd_config).

(** The unit is rewritten; [daemon-reload] succeeds; the service is started. *)
Definition rewrites_op {A} (op : host_op A) : bool :=
  match op with
  | WriteText p _ _ _ _ | RemoveFile p _ | ReplaceLink p _ _ | RemoveLink p _ =>
      bool_decide (p = sc_worker_unit_path cfg)
  | _ => false
  end.
Definition rewrites (o : performed) : bool := match o with Performed op _ => rewrites_op op end.
Definition reloads (o : performed) : bool :=
  match o with
  | @Performed A op r =>
      match op in host_op A return result A → bool with
      | Run argv _ => λ r, bool_decide (argv = daemon_reload cfg)
                           && match r with Ok c => returncode c =? 0 | Err _ => false end
      | _ => λ _, false
      end r
  end.
Definition starts_op {A} (op : host_op A) : bool :=
  match op with
  | Run argv _ => bool_decide (argv = start_command cfg) || bool_decide (argv = enable_command cfg)
  | _ => false
  end.
Definition starts (o : performed) : bool := match o with Performed op _ => starts_op op end.

(** systemd has loaded the last rewriting of the unit; the log has the latest entry first. *)
Fixpoint loaded (log : list performed) : bool :=
  match log with
  | [] => true
  | o :: older => if rewrites o then false else reloads o || loaded older
  end.
Fixpoint starts_loaded (log : list performed) : Prop :=
  match log with
  | [] => True
  | o :: older => (starts o = true → loaded older = true) ∧ starts_loaded older
  end.

(** Everything but the unit may be written; nothing is started. *)
Definition elsewhere : op_prop := λ A op, rewrites_op op = false.
Definition calm : op_prop := λ A op, rewrites_op op = false ∧ starts_op op = false.

Section states.
Context {W : Type} `{SetupHost W}.
Abbreviation D := (eff (driver W)).
Implicit Types (s : driver W).

(** While actions are applied; once something failed; while the unit is being rewritten
    ([b]: it is not going to be). *)
Definition applying s : Prop := sd_safe s = true ∧ loaded (sd_log s) = true ∧ starts_loaded (sd_log s).
Definition failing s : Prop := (sd_safe s = true → loaded (sd_log s) = true) ∧ starts_loaded (sd_log s).
Definition rewriting (b : bool) s : Prop :=
  sd_safe s = false ∧ (b = true → loaded (sd_log s) = true) ∧ starts_loaded (sd_log s).

Lemma applying_failing s : applying s → failing s.
Proof. intros (? & ? & ?). by split. Qed.
Lemma rewriting_failing b s : rewriting b s → failing s.
Proof. intros (Hs & _ & ?). split; [|done]. by rewrite Hs. Qed.

Lemma elsewhere_loaded (l older : list performed) : Forall (of_entry elsewhere) l →
  loaded older = true → starts_loaded older →
  loaded (l ++ older) = true ∧ starts_loaded (l ++ older).
Proof.
  induction 1 as [|o l Ho Hl IH]; intros Hold Hs; [done|]. destruct (IH Hold Hs) as [H1 H2].
  destruct o as [A op r]. cbn in Ho. unfold elsewhere in Ho.
  cbn [app loaded starts_loaded]. cbn [rewrites]. rewrite Ho, H1, orb_true_r. done.
Qed.
Lemma calm_loaded (l older : list performed) : Forall (of_entry calm) l → starts_loaded older →
  (loaded older = true → loaded (l ++ older) = true) ∧ starts_loaded (l ++ older).
Proof.
  induction 1 as [|o l Ho Hl IH]; intros Hs; [done|]. destruct (IH Hs) as [H1 H2].
  destruct o as [A op r]. cbn in Ho. destruct Ho as [Hr Ht].
  cbn [app loaded starts_loaded]. cbn [rewrites starts]. rewrite Hr, Ht. split; [|done].
  intros Hold. by rewrite (H1 Hold), orb_true_r.
Qed.

Lemma elsewhere_applying {A} (m : D A) : performs elsewhere m → preserves applying m.
Proof.
  intros Hm s (Hs & Hl & Hst). destruct (extends_log _ _ _ (Hm s)) as [E (l & L & F)].
  destruct (elsewhere_loaded l (sd_log s) F Hl Hst). unfold applying.
  destruct (m s) as [s' [a|e]]; cbn [fst] in *; by rewrite E, L.
Qed.
Lemma calm_failing {A} (m : D A) : performs calm m → preserves failing m.
Proof.
  intros Hm s [Hs Hst]. destruct (extends_log _ _ _ (Hm s)) as [E (l & L & F)].
  destruct (calm_loaded l (sd_log s) F Hst). unfold failing.
  destruct (m s) as [s' [a|e]]; cbn [fst] in *; rewrite E, L; auto.
Qed.
Lemma calm_rewriting {A} b (m : D A) : performs calm m → preserves (rewriting b) m.
Proof.
  intros Hm s (Hs & Hl & Hst). destruct (extends_log _ _ _ (Hm s)) as [E (l & L & F)].
  destruct (calm_loaded l (sd_log s) F Hst). unfold rewriting.
  destruct (m s) as [s' [a|e]]; cbn [fst] in *; rewrite E, L; auto.
Qed.
(** Writing the unit, which nobody loads. *)
Definition quiet : op_prop := λ A op, starts_op op = false.
Lemma quiet_rewriting {A} (m : D A) : performs quiet m → preserves (rewriting false) m.
Proof.
  intros Hm s (Hs & _ & Hst). destruct (extends_log _ _ _ (Hm s)) as [E (l & L & F)].
  assert (starts_loaded (l ++ sd_log s)).
  { clear L. induction F as [|[B op r] l Ho Hl IH]; [done|]. cbn in *.
    unfold quiet in Ho. rewrite Ho. done. }
  unfold rewriting. destruct (m s) as [s' [a|e]]; cbn [fst] in *; by rewrite E, L.
Qed.

(** A reload that succeeds. *)
Lemma reload_starts_nothing : starts_op (Run (daemon_reload cfg) false) = false.
Proof. unfold starts_op. by rewrite !bool_decide_false. Qed.
Lemma reload_loads b :
  triple (S := driver W) (rewriting b) (run_checked (daemon_reload cfg)) (λ _, rewriting true)
    (λ _, rewriting b).
Proof.
  intros s (Hsafe & Hl & Hs). unfold run_checked, call, mbind, eff_bind.
  destruct (perform _ (sd_world s)) as [w [c|e]].
  - unfold ensure. destruct (returncode c =? 0) eqn:E;
      unfold rewriting; cbn [mret eff_ret throws sd_safe sd_log loaded starts_loaded rewrites rewrites_op reloads starts];
      rewrite reload_starts_nothing, bool_decide_true, E by done; cbn; done.
  - unfold rewriting. cbn [sd_safe sd_log loaded starts_loaded rewrites rewrites_op reloads starts].
    rewrite reload_starts_nothing, andb_false_r. cbn. done.
Qed.
End states.

(** ** Where the driver writes *)

Section paths.
Context {W : Type} `{SetupHost W} {DG : Digests} {TM : Toml} {DL : DriverLibrary}.
Abbreviation D := (eff (driver W)).

(** The files an action may write besides the unit, as the driver of a live root names them
    and as it reads them back from a receipt. *)
Definition rendered_paths (action : SetupAction) : list path :=
  sc_runtime_manifest_path cfg ::
  match get "configuration" (ac_payload action) with
  | PDict configuration => match get "config_path" configuration with PStr p => [Path p] | _ => [] end
  | _ => []
  end.
Definition receipt_paths (action : SetupAction) : list path :=
  match text_at "provider_id" (ac_payload action) with
  | Ok p => [path_join (path_join _SETUP_STATE_DIR (Path p)) (Path (_action_marker action +:+ ".json"))]
  | Err _ => []
  end.
Definition bridge_path : path := path_join _NVIDIA_DRIVER_BRIDGE_DIR (Path _NVIDIA_DRIVER_SONAME).
Definition read_back (l : list path) : list path := l ++ ((λ p, Path (path_str p)) <$> l).
Definition own_paths (action : SetupAction) : list path :=
  read_back (rendered_paths action) ++ receipt_paths action ++ [bridge_path; sc_worker_config_path cfg].
Definition unit_apart (actions : list SetupAction) : Prop :=
  ∀ a, a ∈ actions → sc_worker_unit_path cfg ∉ own_paths a.

Hypothesis Hlive : live_root cfg = true.


Lemma target_returns p : returns (λ q, q = p) (_target (W := W) cfg p).
Proof. rewrite (target_live cfg Hlive). by apply returns_ret. Qed.
Lemma receipt_path_returns action :
  returns (λ p, p ∈ receipt_paths action) (_receipt_path (W := W) cfg action).
Proof.
  unfold _receipt_path, receipt_paths. eapply returns_bind.
  { apply (returns_lifts (λ p, text_at "provider_id" (ac_payload action) = Ok p)). done. }
  intros p ->. apply returns_seq. intros _. eapply returns_mono; [|apply target_returns].
  intros q ->. by left.
Qed.
Lemma bridge_target_returns : returns (λ p, p = bridge_path) (bridge_target (W := W) cfg).
Proof.
  unfold bridge_target. eapply returns_bind; [apply target_returns|]. intros d ->. by apply returns_ret.
Qed.
Lemma bridge_paths_returns action :
  returns (λ st, st.2 = bridge_path) (_nvidia_driver_bridge_paths (W := W) cfg action).
Proof.
  unfold _nvidia_driver_bridge_paths. do 5 (apply returns_seq; intros ?).
  eapply returns_bind; [apply bridge_target_returns|]. intros t ->. by apply returns_ret.
Qed.
Lemma render_targets_returns action :
  returns (λ l, Forall (λ t, t.1 ∈ rendered_paths action) l) (_render_targets (W := W) cfg action).
Proof.
  unfold _render_targets, tabby_target, rendered_paths.
  destruct (get "runtime_deployment" _); try apply returns_throws.
  eapply returns_bind; [apply target_returns|]. intros m ->.
  apply (returns_bind (λ l, Forall (λ t, t.1 ∈ match get "configuration" (ac_payload action) with
    | PDict c => match get "config_path" c with PStr p => [Path p] | _ => [] end | _ => [] end) l)).
  - destruct (get "configuration" _); try by apply returns_ret.
    destruct (get "config_path" _); try by apply returns_ret.
    destruct (get "tabby_config" _); try by apply returns_ret.
    destruct (startswith "/" _); [|by apply returns_ret].
    eapply returns_bind; [apply target_returns|]. intros p ->. apply returns_ret.
    repeat constructor.
  - intros more Hm. apply returns_ret. constructor; [by left|].
    eapply Forall_impl; [exact Hm|]. intros t Ht. by right.
Qed.

(** Reading is not writing. *)
Lemma read_only_elsewhere {A} (m : D A) : performs (read_only cfg) m → performs elsewhere m.
Proof. apply performs_mono. by intros B []. Qed.
Lemma asks_calm {A} (m : D A) : performs (asks cfg) m → performs calm m.
Proof.
  apply performs_mono. intros B []; cbn; try done. intros (_ & _ & ->). split; [done|].
  cbn. by rewrite !bool_decide_false.
Qed.
Lemma calm_elsewhere {A} (m : D A) : performs calm m → performs elsewhere m.
Proof. apply performs_mono. by intros B op [? _]. Qed.
Lemma calm_quiet {A} (m : D A) : performs calm m → performs quiet m.
Proof. apply performs_mono. by intros B op [_ ?]. Qed.
Hint Resolve read_only_elsewhere asks_calm : ops.
Local Ltac writes := ops; try reflexivity; try (split; reflexivity).

Section action.
Context (action : SetupAction) (Hapart : sc_worker_unit_path cfg ∉ own_paths action).

Lemma own_apart p : p ∈ own_paths action → bool_decide (p = sc_worker_unit_path cfg) = false.
Proof. intros Hp. apply bool_decide_false. by intros ->. Qed.
Lemma read_back_of p l : p ∈ l → Path (path_str p) ∈ read_back l.
Proof. intros Hp. apply elem_of_app. right. apply list_elem_of_fmap. by exists p. Qed.
Lemma rendered_own p : p ∈ read_back (rendered_paths action) → p ∈ own_paths action.
Proof. intros Hp. unfold own_paths. apply elem_of_app. by left. Qed.
Lemma receipt_own p : p ∈ receipt_paths action → p ∈ own_paths action.
Proof. intros Hp. unfold own_paths. rewrite !elem_of_app. naive_solver. Qed.
Lemma bridge_own : bridge_path ∈ own_paths action.
Proof. unfold own_paths. rewrite !elem_of_app. right; right. by left. Qed.

Lemma write_receipt_elsewhere : performs elsewhere (_write_receipt (W := W) cfg action).
Proof.
  unfold _write_receipt. do 2 (apply performs_bind; [writes|intros ?]).
  eapply performs_bind_returns; [apply receipt_path_returns| |].
  - apply read_only_elsewhere, asks_read_only, receipt_path_reads.
  - intros p Hp. apply performs_call. by apply own_apart, receipt_own.
Qed.
Hint Resolve write_receipt_elsewhere : ops.

Lemma bridge_elsewhere : performs elsewhere (apply_bridge (W := W) cfg action).
Proof.
  unfold apply_bridge. apply performs_bind; [writes|intros i]. apply performs_when_needed.
  eapply performs_bind_returns; [apply bridge_paths_returns|writes|].
  intros [source target] Ht. cbn in Ht. subst target. writes.
  by apply own_apart, bridge_own.
Qed.

(** What a receipt says of a rendered file. *)
Definition entry_apart (entry : pyval) : Prop :=
  ∀ t, py_item "path" entry ≫= py_str = Ok t → Path t ∈ read_back (rendered_paths action).
Definition rendered_record (entry : pyval) : Prop :=
  ∃ p previous installed, p ∈ rendered_paths action ∧ entry = file_record p previous installed.
Lemma record_sorted (a b c : pyval) :
  sort_items [("path", a); ("previous", b); ("installed", c)]
  = [("installed", c); ("path", a); ("previous", b)].
Proof. reflexivity. Qed.
Lemma record_apart entry : rendered_record entry → entry_apart entry ∧ entry_apart (sort_keys entry).
Proof.
  intros (p & previous & installed & Hp & ->). split; intros t Ht.
  - apply (f_equal (λ r, if r is Ok x then x else EmptyString)) in Ht. cbn in Ht. subst t. by apply read_back_of.
  - unfold file_record in Ht. cbn [sort_keys map fst snd] in Ht. rewrite record_sorted in Ht.
    apply (f_equal (λ r, if r is Ok x then x else EmptyString)) in Ht. cbn in Ht. subst t. by apply read_back_of.
Qed.

Lemma nonsecret_calm p c : p ∈ own_paths action → performs calm (_write_nonsecret_config (W := W) cfg p c).
Proof.
  intros Hp. unfold _write_nonsecret_config. writes. split; [by apply own_apart|done].
Qed.
Lemma restore_item_calm entry : entry_apart entry → performs calm (restore_item (W := W) cfg entry).
Proof.
  intros He. unfold restore_item.
  eapply performs_bind_returns; [apply (returns_lifts (λ t, Path t ∈ own_paths action))|writes|].
  { intros t Ht. by apply rendered_own, He. }
  intros t Ht. pose proof (own_apart _ Ht). writes; try done; by apply nonsecret_calm.
Qed.
Lemma restore_calm l : Forall entry_apart l → performs calm (_restore_rendered_files (W := W) cfg l).
Proof.
  intros Hl. unfold _restore_rendered_files.
  assert (Forall entry_apart (reverse l)) as Hr by by apply Forall_reverse.
  induction Hr as [|e l' He Hr IH]; cbn [each]; [apply performs_ret|].
  apply performs_bind; [by apply restore_item_calm|by intros []].
Qed.

Lemma with_previous_returns l : Forall (λ t, t.1 ∈ rendered_paths action) l →
  returns (λ l', Forall (λ t, t.1.1 ∈ rendered_paths action) l') (with_previous (W := W) l).
Proof.
  induction 1 as [|[p c] l Hp Hl IH]; cbn [with_previous]; [by apply returns_ret|].
  apply returns_seq. intros previous. eapply returns_bind; [exact IH|]. intros more Hm.
  apply returns_ret. by constructor.
Qed.
Lemma with_previous_reads l : performs (asks cfg) (with_previous (W := W) l).
Proof. induction l as [|[p c] l IH]; cbn [with_previous]; writes. Qed.
Lemma write_targets_elsewhere l : Forall (λ t, t.1.1 ∈ rendered_paths action) l → ∀ files,
  Forall rendered_record files →
  performs elsewhere (write_targets (W := W) cfg files l) ∧
  returns (Forall rendered_record) (write_targets (W := W) cfg files l).
Proof.
  induction 1 as [|[[p c] previous] l Hp Hl IH]; intros files Hf; cbn [write_targets].
  { split; [apply performs_ret|by apply returns_ret]. }
  case_bool_decide; [by apply IH|].
  assert (Forall rendered_record (files ++ [file_record p previous c])) as Hf'.
  { apply Forall_app. split; [done|]. constructor; [|done]. by exists p, previous, c. }
  destruct (IH _ Hf') as [H1 H2]. split.
  - apply performs_bind; [|by intros []]. apply performs_on_error.
    + apply calm_elsewhere, nonsecret_calm, rendered_own. apply elem_of_app. by left.
    + apply calm_elsewhere, restore_calm. eapply Forall_impl; [exact Hf|]. intros e He. by apply record_apart.
  - apply returns_seq. by intros [].
Qed.

(** The receipt of a rendering, as the rollback reads it. *)
Definition receipt_apart (receipt : ActionReceipt) : Prop :=
  ∀ items, py_iter (py_or (get "files" (rc_rollback_data receipt)) (PList [])) = Ok items →
  Forall entry_apart items.
Lemma files_receipt files changed detail :
  Forall rendered_record files → receipt_apart (mk_ActionReceipt changed detail [] [("files", PList files)]).
Proof.
  intros Hf items Hi.
  assert (items = map sort_keys files) as ->.
  { destruct files as [|x l].
    - apply (f_equal (λ r, if r is Ok y then y else [])) in Hi. by cbn in Hi.
    - apply (f_equal (λ r, if r is Ok y then y else [])) in Hi. by cbn in Hi. }
  apply Forall_fmap. eapply Forall_impl; [exact Hf|]. intros e He. by apply record_apart.
Qed.
Lemma config_elsewhere :
  performs elsewhere (apply_config (W := W) cfg action) ∧ returns receipt_apart (apply_config (W := W) cfg action).
Proof.
  unfold apply_config. split.
  - apply performs_bind; [writes|intros [i|]; [apply performs_throws|]].
    eapply performs_bind_returns; [apply render_targets_returns|writes|]. intros rendered Hr.
    eapply performs_bind_returns; [by apply with_previous_returns|apply read_only_elsewhere, asks_read_only, with_previous_reads|].
    intros targets Ht. apply performs_bind; [|intros files; apply performs_ret].
    by apply write_targets_elsewhere.
  - apply returns_seq. intros [i|]; [apply returns_throws|].
    eapply returns_bind; [apply render_targets_returns|]. intros rendered Hr.
    eapply returns_bind; [by apply with_previous_returns|]. intros targets Ht.
    eapply returns_bind; [by apply write_targets_elsewhere|]. intros files Hf.
    apply returns_ret. by apply files_receipt.
Qed.

(** Every kind but the reconciliation. *)
Lemma wait_elsewhere fuel timeout started : performs elsewhere (wait_loop (W := W) cfg fuel timeout started).
Proof.
  induction fuel as [|fuel IH]; cbn [wait_loop]; [apply performs_ret|].
  unfold sleep_for. writes.
Qed.
Lemma apply_elsewhere fuel : ac_kind action ≠ RECONCILE_WORKER_EXECUTION →
  performs elsewhere (apply (W := W) cfg fuel action).
Proof.
  intros Hk. unfold apply. apply performs_bind; [writes|intros provider].
  destruct (ac_kind action) eqn:E; try done; try exact bridge_elsewhere;
    try exact (proj1 config_elsewhere).
  all: unfold apply_directory, _prepare_runtime_directory, apply_package, apply_model, apply_worker_stop,
    apply_start, apply_health, _wait_ready, apply_check, apply_stop, run_checked.
  all: writes; apply wait_elsewhere.
Qed.
End action.

(** ** The reconciliation *)

Section reconcile.
Hypothesis Hconfig : sc_worker_config_path cfg ≠ sc_worker_unit_path cfg.

Lemma replace_config_calm c : performs calm (_replace_preserving_metadata (W := W) cfg (sc_worker_config_path cfg) c).
Proof.
  unfold _replace_preserving_metadata. eapply performs_bind_returns; [apply target_returns|writes|].
  intros p ->. writes. split; [|done]. by apply bool_decide_false.
Qed.
Lemma replace_quiet p c : performs quiet (_replace_preserving_metadata (W := W) cfg p c).
Proof.
  unfold _replace_preserving_metadata. apply performs_bind; [by apply calm_quiet, asks_calm, target_reads|].
  intros t. writes.
Qed.

Hint Resolve replace_config_calm replace_quiet : ops.

(** A file that stays needs no reload ([b]: the unit stays). *)
Lemma install_phase worker service :
  triple (S := driver W) (rewriting (bool_decide (service = None))) (install_execution cfg worker service)
    (λ _, applying) (λ _, rewriting (bool_decide (service = None))).
Proof.
  unfold install_execution. rewrite Hlive.
  apply (triple_bind _ _ (λ _, rewriting (bool_decide (service = None)))).
  { destruct worker; [apply calm_rewriting, replace_config_calm|by apply triple_ret]. }
  intros []. apply (triple_bind _ _ (λ _, rewriting (bool_decide (service = None)))).
  { destruct service; [apply quiet_rewriting, replace_quiet|by apply triple_ret]. }
  intros []. apply (triple_bind _ _ (λ _, rewriting true)).
  { destruct service; [apply reload_loads|by apply triple_ret]. }
  intros []. apply triple_sets. intros s (_ & Hl & Hs). split_and!; auto.
Qed.

Lemma restore_config_phase target previous b :
  preserves (rewriting b) (restore_if_file (W := W) cfg target (sc_worker_config_path cfg) previous).
Proof.
  apply calm_rewriting. unfold restore_if_file. writes.
Qed.
Lemma repair_phase worker_path unit_path worker service :
  triple (S := driver W) (rewriting (bool_decide (service = None)))
    (repair_execution cfg worker_path unit_path worker service)
    (λ _, rewriting true) (λ _, rewriting (bool_decide (service = None))).
Proof.
  unfold repair_execution. rewrite Hlive.
  apply (triple_bind _ _ (λ _, rewriting (bool_decide (service = None)))).
  { apply restore_config_phase. }
  intros []. apply (triple_bind _ _ (λ _, rewriting (bool_decide (service = None)))).
  { destruct service; [|by apply triple_ret].
    apply quiet_rewriting. unfold restore_if_file. writes. }
  intros []. destruct service; [apply reload_loads|by apply triple_ret].
Qed.

Lemma write_phase worker_path unit_path worker_new unit_new worker_old unit_old :
  (unit_new = None ↔ unit_old = None) →
  triple (S := driver W) applying
    (write_execution cfg worker_path unit_path worker_new unit_new worker_old unit_old)
    (λ _, applying) (λ _, failing).
Proof.
  intros Hnone. unfold write_execution. rewrite Hlive. cbn [andb].
  destruct (decide (worker_new = None ∧ unit_new = None)) as [[-> ->]|Hsome].
  { rewrite !bool_decide_false by (by intros []). cbn. intros s Hs.
    unfold install_execution. rewrite Hlive. cbn. destruct Hs as (_ & ? & ?). by split. }
  assert (bool_decide (unit_new = None) = bool_decide (unit_old = None)) as Hb
    by by apply bool_decide_ext.
  apply (triple_bind _ _ (λ _, rewriting (bool_decide (unit_new = None)))).
  { replace (bool_decide (is_Some worker_new) || bool_decide (is_Some unit_new)) with true.
    - apply triple_sets. intros s (_ & Hl & Hs). by split.
    - symmetry. apply orb_true_iff. destruct worker_new; [left; by apply bool_decide_true|].
      destruct unit_new; [right; by apply bool_decide_true|]. by destruct Hsome. }
  intros []. eapply triple_catch; [apply install_phase|]. intros e. cbn beta. rewrite Hb.
  apply (triple_bind _ _ (λ (repaired : bool), rewriting (if repaired then true else bool_decide (unit_old = None)))).
  - eapply triple_catch.
    + eapply triple_bind; [apply repair_phase|]. intros []. by apply triple_ret.
    + intros e'. by apply triple_ret.
  - intros repaired. apply (triple_bind _ _ (λ _, failing)); [|intros []; by apply triple_throws].
    apply triple_sets. intros s (_ & Hl & Hs). split; [|done]. cbn. intros ->. auto.
Qed.

Lemma reconcile_phase action :
  triple (S := driver W) applying (apply_reconcile cfg action) (λ _, applying) (λ _, failing).
Proof.
  assert (∀ A B (m : D A) (k : A → D B), performs (asks cfg) m →
    (∀ a, triple (S := driver W) applying (k a) (λ _, applying) (λ _, failing)) →
    triple (S := driver W) applying (m ≫= k) (λ _, applying) (λ _, failing)) as Hstep.
  { intros A B m k Hm Hk. apply (triple_bind _ _ (λ _, applying)); [|done].
    eapply triple_conseq; [apply elsewhere_applying, read_only_elsewhere, asks_read_only, Hm|done|done|].
    intros e s. apply applying_failing. }
  unfold apply_reconcile. apply Hstep; [apply inspect_worker_execution_reads|]. intros i.
  unfold when_needed. destruct (in_state i);
    [by apply triple_ret| |apply triple_throws; intros s; apply applying_failing].
  rewrite Hlive. apply Hstep; [apply active_reads|]. intros active. cbn beta.
  apply Hstep; [ops|]. intros []. apply Hstep; [apply target_reads|]. intros wp.
  apply Hstep; [apply target_reads|]. intros up. apply Hstep; [apply required_reads|]. intros wprev.
  apply Hstep; [apply required_reads|]. intros uprev.
  apply Hstep; [ops|]. intros wnew. apply Hstep; [ops|]. intros unew. cbv zeta.
  apply (triple_bind _ _ (λ _, applying)); [|intros []; by apply triple_ret].
  apply write_phase. by destruct (negb (bool_decide (uprev = unew))).
Qed.
End reconcile.

(** ** Rollback *)

Lemma stop_calm : performs calm (run_checked (W := W) (stop_command cfg)).
Proof.
  unfold run_checked. writes. split; [done|]. unfold starts_op.
  by rewrite !bool_decide_false by (unfold stop_command, start_command, enable_command; congruence).
Qed.
Hint Resolve stop_calm : ops.

Lemma rollback_reconcile_phase receipt : sc_worker_config_path cfg ≠ sc_worker_unit_path cfg →
  preserves failing (rollback_reconcile (W := W) cfg receipt).
Proof.
  intros Hconfig. unfold rollback_reconcile. rewrite Hlive.
  destruct (get "worker_previous" _); try by apply triple_throws.
  destruct (get "unit_previous" _); try by apply triple_throws.
  assert (∀ A B (m : D A) (k : A → D B) b b', triple (rewriting b) m (λ _, rewriting b') (λ _, rewriting b) →
    (∀ a, triple (S := driver W) (rewriting b') (k a) (λ _, failing) (λ _, failing)) →
    triple (S := driver W) (rewriting b) (m ≫= k) (λ _, failing) (λ _, failing)) as Hstep.
  { intros A B m k b b' Hm Hk. apply (triple_bind _ _ (λ _, rewriting b')); [|done].
    eapply triple_conseq; [exact Hm|done|done|]. intros e s1. apply rewriting_failing. }
  apply (triple_bind _ _ (λ _, rewriting false)).
  { apply (triple_bind _ _ (λ _, rewriting false)).
    { apply triple_sets. intros s1 [_ Hs]. by split_and!. }
    intros []. eapply triple_conseq; [apply calm_rewriting|done|done|intros e s1; apply rewriting_failing].
    writes. }
  intros []. apply (Hstep _ _ _ _ _ false); [by apply calm_rewriting, replace_config_calm|]. intros [].
  apply (Hstep _ _ _ _ _ false); [apply quiet_rewriting, replace_quiet|]. intros [].
  apply (triple_bind _ _ (λ _, failing)); [|intros []; by apply triple_ret].
  apply (Hstep _ _ _ _ _ true); [apply reload_loads|]. intros [].
  apply triple_sets. intros s1 (_ & Hl & Hs). split; [|done]. intros _. by apply Hl.
Qed.

(** The Worker is started again only when a restart is safe. *)
Lemma start_phase : triple (S := driver W) (λ s, sd_safe s = true ∧ failing s)
  (run_checked (start_command cfg)) (λ _, failing) (λ _, failing).
Proof.
  intros s [Hsafe [Hl Hs]]. specialize (Hl Hsafe). unfold run_checked, call, mbind, eff_bind.
  assert (∀ w r, failing (Build_driver (W := W) w (sd_safe s)
    (Performed (Run (start_command cfg) false) r :: sd_log s))) as Hf.
  { intros w r. unfold failing. cbn [sd_safe sd_log loaded starts_loaded rewrites rewrites_op starts].
    rewrite Hl, orb_true_r. done. }
  destruct (perform _ (sd_world s)) as [w [c|e]]; [|apply Hf].
  unfold ensure. destruct (returncode c =? 0); apply Hf.
Qed.
Lemma rollback_stop_phase receipt : preserves failing (rollback_worker_stop (W := W) cfg receipt).
Proof.
  unfold rollback_worker_stop. rewrite Hlive. destruct (negb (truthy _)); [by apply triple_ret|]. cbn [negb].
  apply (triple_bind _ _ (λ safe s, sd_safe s = safe ∧ failing s)); [by apply triple_gets|].
  intros []; [|apply triple_ret; naive_solver]. cbn [negb].
  apply (triple_bind _ _ (λ _ s, sd_safe s = true ∧ failing s)).
  - set (m := try_catch _ _).
    assert (performs calm m) as Hm by (subst m; writes).
    intros s [Hsafe Hf]. pose proof (calm_failing m Hm s Hf) as H1. destruct (extends_log _ _ _ (Hm s)) as [E _].
    destruct (m s) as [s1 [a|e]]; cbn [fst] in E; [|done]. split; [congruence|done].
  - intros [c|]; [|apply triple_ret; naive_solver].
    destruct (bool_decide (ic_execution_mode c = "smoke")); [|apply triple_ret; naive_solver]. cbn [negb].
    eapply triple_bind; [apply start_phase|]. intros []. by apply triple_ret.
Qed.

Lemma rollback_phase_failing action receipt :
  sc_worker_unit_path cfg ∉ own_paths action →
  (ac_kind action = RENDER_CONFIG → receipt_apart action receipt) →
  preserves failing (rollback (W := W) cfg action receipt).
Proof.
  intros Hapart Hreceipt. unfold rollback. destruct (negb (rc_changed receipt)); [by apply triple_ret|].
  assert (sc_worker_config_path cfg ≠ sc_worker_unit_path cfg) as Hconfig.
  { intros E. apply Hapart. unfold own_paths. rewrite <-E, !elem_of_app. right; right. right. by left. }
  destruct (ac_kind action) eqn:E; try by apply triple_ret.
  - apply calm_failing. unfold rollback_directory. writes.
  - apply calm_failing. unfold rollback_bridge.
    eapply performs_bind_returns; [apply bridge_target_returns|unfold bridge_target; writes|]. intros t ->.
    pose proof (own_apart action Hapart _ (bridge_own action)) as Hb. writes; by split.
  - apply calm_failing. unfold rollback_config.
    eapply performs_bind_returns; [by apply returns_lifts, Hreceipt|writes|]. intros items Hi.
    apply performs_bind; [by eapply restore_calm|intros []; apply performs_ret].
  - apply rollback_stop_phase.
  - by apply rollback_reconcile_phase.
  - apply calm_failing. unfold rollback_start. writes.
Qed.
End paths.
End authority.
