(* ===== verification/SystemdProps.v ===== *)
(** * Properties of the systemd driver of setup

    What the driver of setup/systemd.py promises to the operator, on hosts that answer
    arbitrarily: a dry run changes nothing, and the Worker is never started on a unit systemd
    has not loaded.  The witnesses run on a small host with files and one service. *)

From Stdlib Require Import SpecFloat.
From S2P Require Import Prelude PyStr PyDict PyVal PyHost Effects PyText SetupFs PyNum Json GpuMapping RuntimeContracts SetupContracts SetupApply SetupApplyProps SetupProps Migration MigrationProps Systemd SystemdInspect SystemdApply SystemdLaws SystemdAuthority.

(** ** A host for the witnesses *)

(** The files by name, whether the service runs, the clock, the GPUs nvidia-smi lists and the
    properties systemctl shows. *)
Record small_host := {
  sh_files : gmap string string; sh_running : bool; sh_clock : Z; sh_gpus : string; sh_shown : string }.
Definition with_files (f : gmap string string → gmap string string) (w : small_host) : small_host :=
  {| sh_files := f (sh_files w); sh_running := sh_running w; sh_clock := sh_clock w; sh_gpus := sh_gpus w;
     sh_shown := sh_shown w |}.
Definition with_service (b : bool) (w : small_host) : small_host :=
  {| sh_files := sh_files w; sh_running := b; sh_clock := sh_clock w; sh_gpus := sh_gpus w;
     sh_shown := sh_shown w |}.
Definition after (d : Z) (w : small_host) : small_host :=
  {| sh_files := sh_files w; sh_running := sh_running w; sh_clock := sh_clock w + Z.max 0 d;
     sh_gpus := sh_gpus w; sh_shown := sh_shown w |}.

Definition answer_with (c : Z) (out : string) : result GpuMapping.completed :=
  Ok {| returncode := c; stdout := out; stderr := EmptyString |}.
Definition answer_of (c : Z) : result GpuMapping.completed := answer_with c EmptyString.
Definition small_run (argv : list string) (w : small_host) : small_host * result GpuMapping.completed :=
  match argv with
  | _ :: "is-active" :: _ => (w, answer_of (if sh_running w then 0 else 3))
  | _ :: "is-failed" :: _ => (w, answer_of 1)
  | _ :: "stop" :: _ => (with_service false w, answer_of 0)
  | _ :: "start" :: _ | _ :: "enable" :: _ => (with_service true w, answer_of 0)
  | _ :: "--query-gpu=uuid" :: _ => (w, answer_with 0 (sh_gpus w))
  | _ :: "show" :: _ => (w, answer_with 0 (sh_shown w))
  | _ => (w, answer_of 0)
  end.
#[export] Instance small_setup_host : SetupHost small_host := {
  perform A op w :=
    match op in host_op A return small_host * result A with
    | ReadText p => (w, Ok (universal_newlines <$> sh_files w !! path_str p))
    | WriteText p c _ _ _ => (with_files (λ f, <[path_str p := c]> f) w, Ok tt)
    | RemoveFile p _ => (with_files (delete (path_str p)) w, Ok tt)
    | IsFile p => (w, Ok (bool_decide (is_Some (sh_files w !! path_str p))))
    | Run argv _ => small_run argv w
    | OpenText p => (w, match sh_files w !! path_str p with
                        | Some c => Ok c
                        | None => Err (FileNotFoundError "No such file or directory")
                        end)
    | Directory _ _ => (w, Ok tt)
    | Getpwnam _ => (w, Ok 900)
    | Getgrnam _ => (w, Ok 900)
    | Monotonic => (w, Ok (sh_clock w))
    | Sleep d => (after d w, Ok tt)
    | _ => (w, Err (OSError "Not supported"))
    end }.
#[export] Instance small_library : DriverLibrary := {
  json_loads _ := None; format_g _ := "600"; float_of_text _ := None; duration_of f := Ticks (if float_le_Z f 1 then 1 else 60) }.

Definition small_config : systemd_config := {|
  sc_filesystem := {| sf_root := root_path; sf_owner := 0 |};
  sc_worker_config_path := Path "/etc/astrumweaver/worker.toml";
  sc_worker_unit_path := Path "/etc/systemd/system/astrumweaver-worker.service";
  sc_runtime_manifest_path := Path "/etc/astrumweaver/runtime-deployment.json";
  sc_gpu_uuid_file_path := Path "/etc/astrumweaver/gpu-uuids";
  sc_gpu_device_map_path := Path "/etc/astrumweaver/gpu-device-map";
  sc_gpu_isolation_dropin_path := Path "/etc/systemd/system/10-gpu-isolation.conf";
  sc_gpu_device_map_command := "/usr/local/libexec/astrumweaver/gpu-device-map";
  sc_service_name := "astrumweaver-worker.service"; sc_systemctl := "systemctl";
  sc_nvidia_smi := "nvidia-smi"; sc_ldconfig := "ldconfig"; sc_nvidia_driver_library := None;
  sc_ready_url := "http://127.0.0.1:9100/ready"; sc_ready_poll_interval_seconds := float_of_Z 1;
  sc_installers := []; sc_downloaders := []; sc_converters := []; sc_verifiers := [];
  sc_service_user := "astrumweaver"; sc_service_group := "astrumweaver" |}.

(** A running smoke Worker. *)
Definition smoke_host : small_host := {|
  sh_files := <["/etc/astrumweaver/worker.toml" := demo_smoke]>
    (<["/etc/systemd/system/astrumweaver-worker.service" := unit_text demo_unit]> ∅);
  sh_running := true; sh_clock := 0; sh_gpus := EmptyString; sh_shown := EmptyString |}.

Definition migration_payload : dict pyval :=
  [("desired_execution", PStr "runtime"); ("provider_id", PStr "ollama");
   ("runtime_deployment", PDict [("provider_id", PStr "ollama")]);
   ("runtime_manifest", PStr DEFAULT_RUNTIME_MANIFEST);
   ("source_execution", PStr "canonical_smoke_or_runtime")].
Definition small_action (id : string) (kind : SetupActionKind) (payload : dict pyval) : SetupAction :=
  {| ac_action_id := id; ac_kind := kind; ac_description := "step"; ac_payload := payload;
     ac_requires_privilege := true; ac_requires_network := false;
     ac_requires_confirmation := false; ac_reversible := true |}.
(** The last action has no timeout, so it is blocked and the others are rolled back. *)
Definition migration_plan : SetupPlan :=
  {| pl_provider_id := "ollama"; pl_deployment_path := SYSTEMD; pl_goal := ACTIVATE;
     pl_actions := [small_action "01-worker-stop" WORKER_STOP migration_payload;
                    small_action "02-render-config" RENDER_CONFIG migration_payload;
                    small_action "03-reconcile" RECONCILE_WORKER_EXECUTION migration_payload;
                    small_action "04-runtime-start" RUNTIME_START migration_payload;
                    small_action "05-health" HEALTH_CHECK []];
     pl_metadata := []; pl_schema_version := "v1" |}.

Definition small_run_result :=
  apply_plan (D := SystemdSetupDriver (TM := demo_toml) small_config 10) migration_plan
    (example_approval migration_plan) true None (Build_driver smoke_host true []).

Section props.
Context {W : Type} `{SetupHost W} {DG : Digests} {TM : Toml} {DL : DriverLibrary}.
Context (cfg : systemd_config) (fuel : nat).
#[local] Instance the_driver : SetupActionDriver (driver W) := SystemdSetupDriver cfg fuel.

(** Property C28: a dry run changes nothing.  Whatever the plan and whatever the host answers,
    [preview_plan] leaves the driver as it was and performs only operations that read:
    directories are opened and never created, no file or link is written or removed, and the
    only commands are the questions the driver may ask (the configured verifiers, the state of
    the service and of the GPUs, the linker's cache), and on a staged root only verifiers. *)
Theorem dry_run_only_reads plan s :
  let s' := (preview_plan plan s).1 in
  sd_safe s' = sd_safe s ∧
  ∃ l, sd_log s' = l ++ sd_log s ∧ Forall (of_entry (read_only cfg)) l.
Proof.
  unfold preview_plan.
  assert (∀ actions s, extends (read_only cfg) s (preview_actions actions s).1) as Hp.
  { induction actions as [|a actions IH]; intros s0; cbn [preview_actions]; [done|].
    unfold preview_action. pose proof (inspect_reads (TM := TM) (DL := DL) cfg a s0) as Hi.
    cbn [SetupApply.inspect the_driver SystemdSetupDriver].
    destruct (inspect cfg a s0) as [s1 [i|e]]; cbn [attempted fst] in *;
      specialize (IH s1); destruct (preview_actions actions s1) as [s2 ps]; by etrans. }
  specialize (Hp (pl_actions plan) s). apply extends_log. by destruct (preview_actions _ s) as [s' previews].
Qed.

(** An observer that leaves the driver alone. *)
Definition passive (obs : observer (driver W)) : Prop :=
  ∀ res s, sd_safe (_emit_result obs res s) = sd_safe s ∧ sd_log (_emit_result obs res s) = sd_log s.

Lemma apply_phase action : live_root cfg = true → sc_worker_unit_path cfg ∉ own_paths cfg action →
  triple (S := driver W) (applying cfg) (apply cfg fuel action)
    (λ rc s, applying cfg s ∧ (ac_kind action = RENDER_CONFIG → receipt_apart cfg action rc))
    (λ _, failing cfg).
Proof.
  intros Hlive Hapart. destruct (decide (ac_kind action = RECONCILE_WORKER_EXECUTION)) as [E|E].
  - unfold apply. rewrite E. apply (triple_bind _ _ (λ _, applying cfg)).
    { apply triple_lifts. intros s Hs. destruct (text_at _ _); [done|by apply applying_failing]. }
    intros a. eapply triple_conseq; [apply (reconcile_phase cfg Hlive)| | |]; try done.
    intros Eq. apply Hapart. unfold own_paths. rewrite <-Eq, !elem_of_app. right; right. right. by left.
  - intros s Hs. pose proof (elsewhere_applying cfg _ (apply_elsewhere cfg Hlive action Hapart fuel E) s Hs) as Ha.
    assert (ac_kind action = RENDER_CONFIG → returns (receipt_apart cfg action) (apply (W := W) cfg fuel action)) as Hr.
    { intros Ek. unfold apply. rewrite Ek. apply returns_seq. intros p. apply (config_elsewhere cfg Hlive action Hapart). }
    destruct (apply cfg fuel action s) as [s' [rc|e]] eqn:Er; [|by apply applying_failing].
    split; [done|]. intros Ek. specialize (Hr Ek s). by rewrite Er in Hr.
Qed.

(** Property C25: the Worker is never started on a unit systemd has not loaded.  Run a plan on a
    live root whose actions render nothing into the Worker's unit, on a host that answers
    arbitrarily: in the log of the whole run, rollbacks included, every [systemctl start] and
    [enable --now] of the service comes after a successful [daemon-reload] that followed the
    last write to the unit. *)
Theorem restart_needs_loaded_authority plan approval rb obs w s' r :
  live_root cfg = true → unit_apart cfg (pl_actions plan) → passive obs →
  apply_plan plan approval rb obs (Build_driver w true []) = Ok (s', r) →
  starts_loaded cfg (sd_log s').
Proof.
  intros Hlive Hapart Hobs. unfold apply_plan. destruct (_validate_approval plan approval) as [[]|e]; [|done].
  cbn [mbind result_bind]. intros [= Hrun].
  assert (failing cfg s') as [_ Hs]; [|done].
  replace s' with (apply_loop plan rb obs [] [] (pl_actions plan) (Build_driver w true [])).1 by by rewrite Hrun.
  apply (loop_phase (applying cfg) (failing cfg)
           (λ a rc, ac_kind a = RENDER_CONFIG → receipt_apart cfg a rc)).
  - apply applying_failing.
  - intros res s Ha. destruct (Hobs res s) as [E1 E2]. unfold applying. by rewrite E1, E2.
  - intros res s Ha. destruct (Hobs res s) as [E1 E2]. unfold failing. by rewrite E1, E2.
  - intros a s _ Ha. pose proof (elsewhere_applying cfg _ (read_only_elsewhere cfg _ (inspect_reads cfg a)) s Ha) as Hi.
    cbn [SetupApply.inspect the_driver SystemdSetupDriver]. by destruct (inspect cfg a s) as [s1 [i|e]].
  - intros a s Hin Ha _.
    pose proof (elsewhere_applying cfg _ (read_only_elsewhere cfg _ (inspect_reads cfg a)) s Ha) as Hi.
    cbn [SetupApply.inspect apply_action the_driver SystemdSetupDriver].
    assert (applying cfg (attempted (inspect cfg a s)).1) as Hi' by by destruct (inspect cfg a s) as [s1 [i|e]].
    pose proof (apply_phase a Hlive (Hapart a Hin) _ Hi') as Hp.
    by destruct (apply cfg fuel a _) as [s2 [rc|e]].
  - intros a rc s Hin Hq Hf.
    pose proof (rollback_phase_failing cfg Hlive a rc (Hapart a Hin) Hq s Hf) as Hb.
    cbn [rollback_action the_driver SystemdSetupDriver]. by destruct (rollback cfg a rc s) as [s1 [x|e]].
  - done.
  - by intros a rc ?%elem_of_nil.
  - done.
Qed.
End props.

(** A migration that fails at its last step: the service is started twice, once with the new
    unit and once with the restored one. *)
Lemma restart_needs_loaded_authority_witness :
  match small_run_result with
  | Ok (s', _) =>
      length (List.filter (starts small_config) (sd_log s')) = 2%nat ∧ starts_loaded small_config (sd_log s')
  | Err _ => False
  end.
Proof.
  assert (match small_run_result with
          | Ok (s', _) => length (List.filter (starts small_config) (sd_log s')) = 2%nat
          | Err _ => False
          end) as Hn by (vm_compute; reflexivity).
  destruct small_run_result as [[s' r]|e] eqn:E; [|done]. split; [exact Hn|].
  unfold small_run_result in E.
  refine (restart_needs_loaded_authority (TM := demo_toml) small_config 10 migration_plan
    (example_approval migration_plan) true None smoke_host s' r _ _ _ E);
    [vm_compute; reflexivity| |by split].
  unfold unit_apart. apply Forall_forall. vm_decide.
Defined.
