(* ===== verification/SystemdFiles.v ===== *)
(** * The reconciliation of the Worker's execution is all or nothing

    [LawfulFiles] is what the driver needs of its file operations: reads return what is there
    with every line end as LF (text mode), a write that returns has written its text as it is,
    one that raises has written everything or nothing ([SetupFsWrite] shows this of
    setup/filesystem.py), and nothing else changes a file.  On such a host, a reconciliation
    that fails either put both texts back or leaves a restart of the Worker refused, and a
    rollback gives both texts back.  What is put back is the text as it was read:
    [crlf_not_put_back] is a file with CRLF line ends that a rollback does not give back. *)

From Stdlib Require Import SpecFloat.
From S2P Require Import Prelude PyStr PyDict PyVal PyHost Effects PyText SetupFs PyNum Json GpuMapping RuntimeContracts SetupContracts SetupApply SetupProps Migration MigrationProps Systemd SystemdInspect SystemdApply SystemdLaws SystemdProps.

Definition writes_op {A} (op : host_op A) : bool :=
  match op with WriteText _ _ _ _ _ | RemoveFile _ _ => true | _ => false end.

(** [files w name]: the content of the file of that name, with the line ends it has. *)
Class LawfulFiles (W : Type) `{SetupHost W} (files : W → string → option string) := {
  lf_keeps A (op : host_op A) w name : writes_op op = false → files (perform op w).1 name = files w name;
  lf_read p w c : (perform (ReadText p) w).2 = Ok c → c = universal_newlines <$> files w (path_str p);
  lf_is_file p w : (perform (IsFile p) w).2 = Ok false → files w (path_str p) = None;
  lf_others p c m g k w name : name ≠ path_str p →
    files (perform (WriteText p c m g k) w).1 name = files w name;
  lf_written p c m g k w : (perform (WriteText p c m g k) w).2 = Ok tt →
    files (perform (WriteText p c m g k) w).1 (path_str p) = Some c;
  lf_whole p c m g k w : files (perform (WriteText p c m g k) w).1 (path_str p) = files w (path_str p) ∨
    files (perform (WriteText p c m g k) w).1 (path_str p) = Some c;
}.

Section files.
Context {W : Type} `{SetupHost W} (files : W → string → option string) {LF : LawfulFiles W files}.
Context {DG : Digests} {TM : Toml} {DL : DriverLibrary}.
Context (cfg : systemd_config) (Hlive : live_root cfg = true).
Abbreviation D := (eff (driver W)).
Implicit Types (s : driver W).

Abbreviation config_name := (path_str (sc_worker_config_path cfg)).
Abbreviation unit_name := (path_str (sc_worker_unit_path cfg)).

(** [_worker_restart_safe] and the files. *)
Definition content s : string → option string := files (sd_world s).
Definition at_files (safe : bool) (F : string → option string) s : Prop :=
  sd_safe s = safe ∧ ∀ name, content s name = F name.
(** A file written, and written only when there is something new. *)
Definition upd (F : string → option string) (name c : string) : string → option string :=
  λ n, if decide (n = name) then Some c else F n.
Definition upd_opt (F : string → option string) (name : string) (new : option string) : string → option string :=
  match new with Some c => upd F name c | None => F end.

Lemma upd_same F name c : upd F name c name = Some c.
Proof. unfold upd. by rewrite decide_True. Qed.
Lemma upd_other F name c n : n ≠ name → upd F name c n = F n.
Proof. intros Hn. unfold upd. by rewrite decide_False. Qed.

(** Operations that write nothing leave the files. *)
Definition writes_nothing : op_prop := λ A op, writes_op op = false.
Lemma quiet_files {A} safe F (m : D A) : performs writes_nothing m → preserves (at_files safe F) m.
Proof.
  apply performs_preserves. intros B op s Hw [Hs Hf]. unfold call.
  pose proof (λ n, lf_keeps B op (sd_world s) n Hw) as Hk.
  destruct (perform op (sd_world s)) as [w r]. cbn in *. split; [done|].
  intros name. unfold content. cbn. rewrite Hk. apply Hf.
Qed.
Lemma asks_quiet {A} (m : D A) : performs (asks cfg) m → performs writes_nothing m.
Proof. apply performs_mono. by intros B []; cbn. Qed.
Lemma reads_quiet {A} (m : D A) : performs (read_only cfg) m → performs writes_nothing m.
Proof. apply performs_mono. by intros B []; cbn. Qed.
Lemma run_quiet argv : performs writes_nothing (run_checked (W := W) argv).
Proof. unfold run_checked. ops. done. Qed.

(** Replacing a file writes it, or, when it raises, perhaps. *)
Lemma replace_files safe F p c :
  triple (at_files safe F) (_replace_preserving_metadata cfg p c)
    (λ _, at_files safe (upd F (path_str p) c))
    (λ _ s, at_files safe F s ∨ at_files safe (upd F (path_str p) c) s).
Proof.
  unfold _replace_preserving_metadata. apply (target_then cfg Hlive).
  apply (triple_bind _ _ (λ _, at_files safe F)).
  { eapply triple_conseq; [apply quiet_files; by apply performs_call|done|done|by left]. }
  intros [old|]; [|by apply triple_throws; left].
  intros s [Hs Hf]. unfold call.
  pose proof (λ n Hn, lf_others p c 384 None true (sd_world s) n Hn) as Ho.
  pose proof (lf_written p c 384 None true (sd_world s)) as Hw.
  pose proof (lf_whole p c 384 None true (sd_world s)) as Hh.
  destruct (perform _ (sd_world s)) as [w r]. cbn in *.
  assert (∀ G : string → option string, (∀ n, n ≠ path_str p → G n = F n) → files w (path_str p) = G (path_str p) →
    at_files safe G (Build_driver w (sd_safe s) (Performed (WriteText p c 384 None true) r :: sd_log s))) as Hat.
  { intros G HG Hp. split; [done|]. intros n. unfold content. cbn.
    destruct (decide (n = path_str p)) as [->|Hn]; [done|]. rewrite (Ho n Hn), HG by done. apply Hf. }
  assert (∀ n, n ≠ path_str p → upd F (path_str p) c n = F n) as Hu by (intros n; apply upd_other).
  destruct r as [[]|e].
  - apply Hat; [done|]. rewrite upd_same. by apply Hw.
  - destruct Hh as [Hh|Hh]; [left|right]; apply Hat; try done.
    + rewrite Hh. apply Hf.
    + by rewrite upd_same.
Qed.

(** Some of the writes of an installation. *)
Definition partly (F : string → option string) (worker service : option string) : list (string → option string) :=
  [F; upd_opt F config_name worker; upd_opt (upd_opt F config_name worker) unit_name service].
Definition in_part safe F worker service s : Prop := ∃ G, G ∈ partly F worker service ∧ at_files safe G s.

Ltac part_in := unfold partly; rewrite !elem_of_cons; auto.
Lemma replace_opt_files safe F p new :
  triple (at_files safe F)
    (match new with Some c => _replace_preserving_metadata cfg p c | None => mret tt end)
    (λ _, at_files safe (upd_opt F (path_str p) new))
    (λ _ s, at_files safe F s ∨ at_files safe (upd_opt F (path_str p) new) s).
Proof. destruct new; [apply replace_files|by apply triple_ret]. Qed.

Lemma install_files safe F worker service :
  triple (at_files safe F) (install_execution cfg worker service)
    (λ _, at_files true (upd_opt (upd_opt F config_name worker) unit_name service))
    (λ _, in_part safe F worker service).
Proof.
  unfold install_execution. rewrite Hlive.
  eapply triple_bind.
  { eapply triple_conseq; [apply replace_opt_files|done|intros a s0 H0; exact H0|].
    intros e s0 [H0|H0]; eexists; (split; [|exact H0]); part_in. }
  intros []. eapply triple_bind.
  { eapply triple_conseq; [apply replace_opt_files|done|intros a s0 H0; exact H0|].
    intros e s0 [H0|H0]; eexists; (split; [|exact H0]); part_in. }
  intros []. eapply triple_bind.
  { eapply triple_conseq.
    - apply (quiet_files safe (upd_opt (upd_opt F config_name worker) unit_name service)).
      apply performs_only_if, run_quiet.
    - done.
    - intros a s0 H0; exact H0.
    - intros e s0 H0. eexists. split; [|exact H0]. part_in. }
  intros []. apply triple_sets. intros s0 [_ H0]. by split.
Qed.

(** Putting a file back that is there. *)
Lemma restore_files safe F p previous : (is_Some previous → is_Some (F (path_str p))) →
  triple (at_files safe F) (restore_if_file cfg p p previous)
    (λ _, at_files safe (upd_opt F (path_str p) previous)) (λ _ s, sd_safe s = safe).
Proof.
  intros Hthere. unfold restore_if_file. destruct previous as [text|]; [|by apply triple_ret].
  apply (triple_bind _ _ (λ there s, there = true ∧ at_files safe F s)).
  - intros s0 H0. unfold call. pose proof (lf_is_file p (sd_world s0)) as Hf.
    assert (performs writes_nothing (call (W := W) (IsFile p))) as Hq by by apply performs_call.
    pose proof (quiet_files safe F _ Hq s0 H0) as Hk.
    unfold call in Hk. destruct (perform (IsFile p) (sd_world s0)) as [w [[]|e]]; cbn in *.
    + by split.
    + exfalso. specialize (Hf eq_refl). destruct H0 as [_ H0]. unfold content in H0. rewrite H0 in Hf.
      destruct Hthere as [c Hc]; [done|]. congruence.
    + apply Hk.
  - intros there. apply triple_pure. intros ->.
    eapply triple_conseq; [apply replace_files|done|done|]. intros e s0 [H0|H0]; apply H0.
Qed.

Definition fits (F : string → option string) (name : string) (new old : option string) : Prop :=
  (is_Some new ↔ is_Some old) ∧ (is_Some old → universal_newlines <$> F name = old).

Lemma upd_opt_there F name new n : is_Some (F n) → is_Some (upd_opt F name new n).
Proof. intros Hn. destruct new; [|done]. cbn. unfold upd. by case_decide. Qed.
Lemma part_there F worker service G n : G ∈ partly F worker service → is_Some (F n) → is_Some (G n).
Proof.
  unfold partly. rewrite !elem_of_cons, elem_of_nil. intros [->|[->|[->|[]]]] Hn; [done|..];
    repeat apply upd_opt_there; done.
Qed.
(** After the texts are put back, it is as if they had been put over the files there were. *)
Lemma restored_part F worker service worker_old service_old G :
  (is_Some worker → is_Some worker_old) → (is_Some service → is_Some service_old) →
  G ∈ partly F worker service →
  ∀ n, upd_opt (upd_opt G config_name worker_old) unit_name service_old n =
       upd_opt (upd_opt F config_name worker_old) unit_name service_old n.
Proof.
  intros Nw Nu HG n. unfold partly in HG. rewrite !elem_of_cons, elem_of_nil in HG.
  unfold upd_opt, upd in *.
  destruct worker as [w|], worker_old as [w'|]; try (by destruct Nw as [? [=]]);
    destruct service as [u|], service_old as [u'|]; try (by destruct Nu as [? [=]]);
    destruct HG as [->|[->|[->|[]]]]; repeat case_decide; subst; done.
Qed.

(** The files are back: each of the two as it was, or with the text that was read of it, whose
    line ends are LF; all others as they were. *)
Definition put_back (F F' : string → option string) : Prop := ∀ n,
  F' n = F n ∨ (n = config_name ∨ n = unit_name) ∧ F' n = universal_newlines <$> F n.

Lemma put_back_refl F F' : (∀ n, F' n = F n) → put_back F F'.
Proof. intros Hn n. by left. Qed.
(** Nothing is lost of files that have no CR. *)
Lemma put_back_exact F F' n : put_back F F' → (∀ t, F n = Some t → no_return t = true) → F' n = F n.
Proof.
  intros Hb Hn. destruct (Hb n) as [?|[_ ->]]; [done|].
  destruct (F n) as [t|]; [|done]. cbn. by rewrite universal_newlines_id by by apply Hn.
Qed.
Lemma restored_back F worker service worker_old service_old :
  fits F config_name worker worker_old → fits F unit_name service service_old →
  put_back F (upd_opt (upd_opt F config_name worker_old) unit_name service_old).
Proof.
  intros [_ Fw] [_ Fu] n. unfold upd_opt, upd.
  destruct service_old as [u|]; [case_decide as E; [right; subst n; split; [by right|symmetry; by apply Fu]|]|];
    (destruct worker_old as [w|]; [case_decide as E'; [right; subst n; split; [by left|symmetry; by apply Fw]|]|]);
    by left.
Qed.

Lemma repair_files safe F worker service worker_old service_old :
  is_Some (F config_name) → is_Some (F unit_name) →
  fits F config_name worker worker_old → fits F unit_name service service_old →
  triple (in_part safe F worker service)
    (repair_execution cfg (sc_worker_config_path cfg) (sc_worker_unit_path cfg) worker_old service_old)
    (λ _, at_files safe (upd_opt (upd_opt F config_name worker_old) unit_name service_old)) (λ _ s, sd_safe s = safe).
Proof.
  intros Hc Hu Fc Fu. unfold in_part. apply triple_exists. intros G. apply triple_pure. intros HG.
  unfold repair_execution. rewrite Hlive.
  eapply triple_bind; [apply restore_files; intros _; by eapply part_there|]. intros [].
  eapply triple_bind; [apply restore_files; intros _; apply upd_opt_there; by eapply part_there|]. intros [].
  eapply triple_conseq.
  - apply (quiet_files safe (upd_opt (upd_opt G config_name worker_old) unit_name service_old)).
    apply performs_only_if, run_quiet.
  - done.
  - intros a s0 [Hs Hn]. split; [done|]. intros n. rewrite Hn. eapply restored_part; [apply Fc|apply Fu|done].
  - intros e s0 [Hs _]. done.
Qed.

Lemma write_files safe F worker service worker_old service_old :
  is_Some (F config_name) → is_Some (F unit_name) →
  fits F config_name worker worker_old → fits F unit_name service service_old →
  triple (at_files safe F)
    (write_execution cfg (sc_worker_config_path cfg) (sc_worker_unit_path cfg) worker service worker_old service_old)
    (λ _, at_files true (upd_opt (upd_opt F config_name worker) unit_name service))
    (λ _ s, sd_safe s = true → put_back F (content s)).
Proof.
  intros Hc Hu Fc Fu. unfold write_execution. rewrite Hlive. cbn [andb].
  set (b := bool_decide (is_Some worker) || bool_decide (is_Some service)).
  apply (triple_bind _ _ (λ _, at_files (if b then false else safe) F)).
  { destruct b; [apply triple_sets; intros s0 [_ ?]; by split|by apply triple_ret]. }
  intros []. eapply triple_catch; [apply install_files|]. intros e. cbn beta.
  apply (triple_bind _ _ (λ repaired s, repaired = true → put_back F (content s))).
  - eapply triple_catch.
    + eapply triple_bind; [by apply repair_files|]. intros []. apply triple_ret. intros s0 [_ Hs] _ n.
      rewrite Hs. by eapply restored_back.
    + intros e'. by apply triple_ret.
  - intros repaired. eapply triple_bind.
    + apply (triple_sets _ _ (λ _ s, sd_safe s = true → put_back F (content s))). intros s0 Hs. cbn. exact Hs.
    + intros []. by apply triple_throws.
Qed.

Lemma required_files safe F p label :
  triple (at_files safe F) (_read_required_text cfg p label)
    (λ c s, universal_newlines <$> F (path_str p) = Some c ∧ at_files safe F s) (λ _, at_files safe F).
Proof.
  unfold _read_required_text. apply (target_then cfg Hlive).
  apply (triple_bind _ _ (λ c s, c = universal_newlines <$> F (path_str p) ∧ at_files safe F s)).
  - intros s0 H0. assert (performs writes_nothing (call (W := W) (ReadText p))) as Hq by by apply performs_call.
    pose proof (quiet_files safe F _ Hq s0 H0) as Hk. pose proof (lf_read p (sd_world s0)) as Hr.
    unfold call in *. destruct (perform (ReadText p) (sd_world s0)) as [w [c|e]]; cbn in *; [|done].
    split; [|done]. rewrite (Hr c eq_refl). f_equal. apply H0.
  - intros c. apply triple_pure. intros ->.
    destruct (universal_newlines <$> F (path_str p)) as [c|]; [by apply triple_ret|]. by apply triple_throws.
Qed.

(** A text is written when it is not the one that was read. *)
Definition only (b : bool) (text : string) : option string := if b then Some text else None.
Definition news (old new : string) : option string := only (negb (bool_decide (old = new))) new.
Lemma only_fits F name old new : universal_newlines <$> F name = Some old →
  fits F name (news old new) (only (negb (bool_decide (old = new))) old).
Proof. intros Hold. unfold fits, news. by destruct (negb _); cbn; rewrite ?is_Some_alt. Qed.

(** The files a reconciliation rewrites, before and after. *)
Record rewritten (F F' : string → option string) (rc : ActionReceipt) (worker unit_file : string) : Prop := {
  rw_worker : universal_newlines <$> F config_name = Some worker;
  rw_unit : universal_newlines <$> F unit_name = Some unit_file;
  rw_new : ∃ worker' unit_file',
    render_runtime_worker_toml worker DEFAULT_RUNTIME_MANIFEST = Ok worker' ∧
    render_runtime_worker_unit unit_file = Ok unit_file' ∧
    ∀ n, F' n = upd_opt (upd_opt F config_name (news worker worker')) unit_name (news unit_file unit_file') n;
  rw_receipt_worker : get "worker_previous" (rc_rollback_data rc) = PStr worker;
  rw_receipt_unit : get "unit_previous" (rc_rollback_data rc) = PStr unit_file;
}.

Definition reconciled (F : string → option string) (rc : ActionReceipt) s : Prop :=
  (rc_changed rc = false → ∀ n, content s n = F n) ∧
  (rc_changed rc = true → ∃ worker unit_file, rewritten F (content s) rc worker unit_file).

Lemma receipt_texts changed detail worker unit_file :
  let rc := mk_ActionReceipt changed detail []
              [("worker_previous", PStr worker); ("unit_previous", PStr unit_file)] in
  get "worker_previous" (rc_rollback_data rc) = PStr worker ∧
  get "unit_previous" (rc_rollback_data rc) = PStr unit_file.
Proof. by split. Qed.

(** Until something is written the files are as they were. *)
Abbreviation or_back F := (λ (_ : exn) s, sd_safe s = true → put_back F (content s)).
Lemma files_back safe F s : at_files safe F s → sd_safe s = true → put_back F (content s).
Proof. intros [_ Hs] _. by apply put_back_refl. Qed.
Lemma quiet_step {A B} safe F (m : D A) (k : A → D B) Q : performs (asks cfg) m →
  (∀ a, triple (at_files safe F) (k a) Q (or_back F)) → triple (at_files safe F) (m ≫= k) Q (or_back F).
Proof.
  intros Hm Hk. apply (triple_bind _ _ (λ _, at_files safe F)); [|done].
  eapply triple_conseq; [by apply quiet_files, asks_quiet|done|done|]. intros e s0. apply files_back.
Qed.
Lemma required_step {B} safe F (k : string → D B) p l Q :
  (∀ c, universal_newlines <$> F (path_str p) = Some c → triple (at_files safe F) (k c) Q (or_back F)) →
  triple (at_files safe F) (_read_required_text cfg p l ≫= k) Q (or_back F).
Proof.
  intros Hk. eapply triple_bind.
  - eapply triple_conseq; [apply required_files|done|intros a s0 H0; exact H0|]. intros e s0. apply files_back.
  - intros c. apply triple_pure. apply Hk.
Qed.
Lemma lifts_step {A B} safe F (x : result A) (k : A → D B) Q :
  (∀ a, x = Ok a → triple (at_files safe F) (k a) Q (or_back F)) →
  triple (at_files safe F) (lifts x ≫= k) Q (or_back F).
Proof.
  intros Hk. eapply triple_bind; [|intros a; apply triple_pure, Hk].
  apply triple_lifts. intros s0 H0. destruct x; [done|]. by eapply files_back.
Qed.

Lemma reconcile_files action safe F :
  triple (at_files safe F) (apply_reconcile cfg action) (λ rc, reconciled F rc) (or_back F).
Proof.
  unfold apply_reconcile. apply quiet_step; [apply inspect_worker_execution_reads|]. intros i.
  unfold when_needed. destruct (in_state i).
  { apply triple_ret. intros s0 [_ Hs]. by split. }
  2: { apply triple_throws. intros s0. apply files_back. }
  rewrite Hlive. apply quiet_step; [apply active_reads|]. intros active. cbn beta.
  apply quiet_step; [ops|]. intros []. do 2 apply (target_then cfg Hlive).
  apply required_step. intros worker Hw. apply required_step. intros unit_file Hu.
  apply lifts_step. intros worker' Ew. apply lifts_step. intros unit_file' Eu. cbv zeta.
  eapply triple_bind.
  { eapply (write_files safe F (news _ _) (news _ _) (only _ _) (only _ _));
      [destruct (F config_name); [by eexists|done]|destruct (F unit_name); [by eexists|done]|
       by apply only_fits|by apply only_fits]. }
  intros []. apply triple_ret. intros s0 [_ Hs]. split; cbn [rc_changed mk_ActionReceipt].
  - intros Hsame n. apply orb_false_iff in Hsame as [H1 H2]. rewrite Hs. unfold news, only. by rewrite H1, H2.
  - intros _. exists worker, unit_file. split; try done. exists worker', unit_file'. by split_and!.
Qed.

(** Giving both files back. *)
Lemma rollback_files safe F rc worker unit_file :
  get "worker_previous" (rc_rollback_data rc) = PStr worker →
  get "unit_previous" (rc_rollback_data rc) = PStr unit_file →
  triple (at_files safe F) (rollback_reconcile cfg rc)
    (λ _, at_files true (upd (upd F config_name worker) unit_name unit_file)) (λ _ s, sd_safe s = false).
Proof.
  intros Ew Eu. unfold rollback_reconcile. rewrite Ew, Eu, Hlive.
  assert (∀ A B (m : D A) (k : A → D B) Q G, performs writes_nothing m →
    (∀ a, triple (at_files false G) (k a) Q (λ _ s, sd_safe s = false)) →
    triple (at_files false G) (m ≫= k) Q (λ _ s, sd_safe s = false)) as Hstep.
  { intros A B m k Q G Hm Hk. apply (triple_bind _ _ (λ _, at_files false G)); [|done].
    eapply triple_conseq; [by apply quiet_files|done|done|]. by intros e s0 [? _]. }
  assert (∀ B (k : unit → D B) p c Q G,
    triple (at_files false (upd G (path_str p) c)) (k tt) Q (λ _ s, sd_safe s = false) →
    triple (at_files false G) (_replace_preserving_metadata cfg p c ≫= k) Q (λ _ s, sd_safe s = false)) as Hreplace.
  { intros B k p c Q G Hk. eapply triple_bind.
    - eapply triple_conseq; [apply replace_files|done|intros a s0 H0; exact H0|].
      by intros e s0 [[? _]|[? _]].
    - by intros []. }
  apply (triple_bind _ _ (λ _, at_files false F)).
  { apply (triple_bind _ _ (λ _, at_files false F)).
    { apply triple_sets. intros s0 [_ ?]. by split. }
    intros []. apply Hstep; [apply asks_quiet, active_reads|]. intros active.
    eapply triple_conseq; [apply quiet_files, performs_only_if, run_quiet|done|done|]. by intros e s0 [? _]. }
  intros []. apply Hreplace, Hreplace.
  apply (triple_bind _ _ (λ _, at_files true (upd (upd F config_name worker) unit_name unit_file))).
  { apply Hstep; [apply run_quiet|]. intros []. apply triple_sets. intros s0 [_ ?]. by split. }
  intros []. by apply triple_ret.
Qed.

(** Property C26: reconciling the Worker's execution is all or nothing.  On a live root, and a
    host that answers arbitrarily but for [LawfulFiles]: a reconciliation that changes something has rendered the configuration
    and the unit from their texts as they were read, has replaced each of the two whose rendered
    text is new by exactly that text, and left every other file as it was; one that reports no
    change has changed no file; one that raises has put the two files back and left the others,
    or a restart of the Worker is refused from then on.  The rollback of its receipt, while the
    files are still what it left, puts both texts back and leaves every other file as it was
    before the reconciliation, or again leaves a restart refused.  Files are put back with the
    text that was read of them: a file without CR is given back exactly ([put_back_exact]), the
    line ends of any other become LF. *)
Theorem reconcile_all_or_nothing action s s' r :
  apply_reconcile cfg action s = (s', r) →
  match r with
  | Err _ => sd_safe s' = true → put_back (content s) (content s')
  | Ok rc =>
      (rc_changed rc = false → ∀ n, content s' n = content s n) ∧
      (rc_changed rc = true → ∃ worker unit_file worker' unit_file',
         universal_newlines <$> content s config_name = Some worker ∧
         universal_newlines <$> content s unit_name = Some unit_file ∧
         render_runtime_worker_toml worker DEFAULT_RUNTIME_MANIFEST = Ok worker' ∧
         render_runtime_worker_unit unit_file = Ok unit_file' ∧
         (∀ n, content s' n =
            upd_opt (upd_opt (content s) config_name (news worker worker')) unit_name (news unit_file unit_file') n) ∧
         ∀ later, (∀ n, content later n = content s' n) →
           match rollback_reconcile cfg rc later with
           | (s'', Ok _) => sd_safe s'' = true ∧
               ∀ n, content s'' n = upd (upd (content s) config_name worker) unit_name unit_file n
           | (s'', Err _) => sd_safe s'' = false
           end)
  end.
Proof.
  intros Hrun. pose proof (reconcile_files action (sd_safe s) (content s) s (conj eq_refl (λ n, eq_refl))) as Hr.
  rewrite Hrun in Hr. destruct r as [rc|e]; [|exact Hr]. destruct Hr as [Hno Hyes]. split; [exact Hno|].
  intros Hc. destruct (Hyes Hc) as (worker & unit_file & [Hw Hu (worker' & unit_file' & Ew & Eu & Hn) Rw Ru]).
  exists worker, unit_file, worker', unit_file'. split_and!; try done. intros later Hl.
  pose proof (rollback_files (sd_safe later) (content later) rc worker unit_file Rw Ru later
    (conj eq_refl (λ n, eq_refl))) as Hb.
  destruct (rollback_reconcile cfg rc later) as [s'' [x|e]]; [|done]. destruct Hb as [Hs Hb]. split; [done|].
  intros n. rewrite Hb. unfold upd. repeat case_decide; subst; try done.
  rewrite Hl, Hn. unfold upd_opt, news, only. repeat case_match; by rewrite ?upd_other.
Qed.
End files.

(** ** A witness *)

#[export] Instance small_lawful : LawfulFiles small_host (λ w name, sh_files w !! name).
Proof.
  constructor; try done.
  - intros A op w name. destruct op; try done. intros _. cbn. unfold small_run. by repeat case_match.
  - intros p w c. cbn. by intros [= <-].
  - intros p w. cbn. intros [= Hn%bool_decide_eq_false]. by apply eq_None_not_Some.
  - intros p c m g k w name Hn. cbn. by rewrite lookup_insert_ne.
  - intros p c m g k w _. cbn. by rewrite lookup_insert_eq.
  - intros p c m g k w. right. cbn. by rewrite lookup_insert_eq.
Qed.

Definition stopped_host : driver small_host :=
  Build_driver (with_service false smoke_host) true [].
Definition migration_run : driver small_host * result ActionReceipt :=
  apply_reconcile (TM := demo_toml) small_config
    (small_action "03-reconcile" RECONCILE_WORKER_EXECUTION migration_payload) stopped_host.

Lemma reconcile_all_or_nothing_witness :
  match migration_run with
  | (s', Ok rc) =>
      rc_changed rc = true ∧
      content (λ w name, sh_files w !! name) s' "/etc/astrumweaver/worker.toml" = Some demo_runtime ∧
      ∃ worker unit_file,
        universal_newlines <$> content (λ w name, sh_files w !! name) stopped_host "/etc/astrumweaver/worker.toml" = Some worker ∧
        universal_newlines <$> content (λ w name, sh_files w !! name) stopped_host
          "/etc/systemd/system/astrumweaver-worker.service" = Some unit_file
  | _ => False
  end.
Proof.
  assert (match migration_run with
    | (s', Ok rc) => rc_changed rc = true ∧
        content (λ w name, sh_files w !! name) s' "/etc/astrumweaver/worker.toml" = Some demo_runtime
    | _ => False end) as Hn by (vm_compute; split; reflexivity).
  destruct migration_run as [s' [rc|e]] eqn:E; [|done]. destruct Hn as [Hc Hd]. split; [done|]. split; [done|].
  unfold migration_run in E.
  assert (live_root small_config = true) as Hl by by vm_compute.
  assert (E2 := reconcile_all_or_nothing (TM := demo_toml) (λ w name, sh_files w !! name) small_config
    Hl (small_action "03-reconcile" RECONCILE_WORKER_EXECUTION migration_payload) stopped_host s' (Ok rc) E).
  destruct E2 as [_ Hy].
  destruct (Hy Hc) as (worker & unit_file & worker' & unit_file' & Hw & Hu & _).
  exists worker, unit_file. split; [exact Hw|exact Hu].
Defined.

(** The same Worker with a configuration whose first line ends in CRLF: the reconciliation
    succeeds, its rollback reports success and allows a restart, and the file has lost its CR. *)
Definition crlf_config : string :=
  match demo_smoke with String c s => String "#" (String "013" (String "010" (String c s))) | EmptyString => EmptyString end.
Definition crlf_host : driver small_host :=
  Build_driver (with_files (<["/etc/astrumweaver/worker.toml" := crlf_config]>) (with_service false smoke_host)) true [].

Definition crlf_action : SetupAction := small_action "03-reconcile" RECONCILE_WORKER_EXECUTION migration_payload.
Lemma crlf_not_put_back :
  match apply_reconcile (TM := demo_toml) small_config crlf_action crlf_host with
  | (s', Ok rc) =>
      match rollback_reconcile small_config rc s' with
      | (s'', Ok _) => sd_safe s'' = true ∧
          sh_files (sd_world s'') !! "/etc/astrumweaver/worker.toml" ≠
          sh_files (sd_world crlf_host) !! "/etc/astrumweaver/worker.toml"
      | _ => False
      end
  | _ => False
  end.
Proof. vm_compute. split; [reflexivity|discriminate]. Qed.
