(* ===== verification/SystemdChecks.v ===== *)
(** * What the checks of the systemd driver mean

    The wait for readiness ends by its deadline and says ready only on the word of the Worker,
    and the GPU preflight passes only when the Worker can reach exactly the GPUs of its
    configuration, on a host that answers arbitrarily. *)

From Stdlib Require Import SpecFloat.
From S2P Require Import Prelude PyStr PyDict PyVal PyHost Effects PyText SetupFs PyNum Json GpuMapping GpuIsolation RuntimeContracts Preflight SetupContracts SetupApply SetupApplyProps SetupProps Migration MigrationProps Systemd SystemdInspect SystemdApply SystemdLaws SystemdProps.

(** ** The wait for readiness *)

(** Time does not go back, [monotonic] tells it, and a sleep lasts. *)
Class SteadyClock (W : Type) `{SetupHost W} (now : W → Z) := {
  sk_forward A (op : host_op A) w : now w ≤ now (perform op w).1;
  sk_tells w t : (perform Monotonic w).2 = Ok t → t = now (perform Monotonic w).1;
  sk_sleeps d w : now w + d ≤ now (perform (Sleep d) w).1;
}.

Section wait.
Context {W : Type} `{SetupHost W} (now : W → Z) {SC : SteadyClock W now} {DL : DriverLibrary}.
Context (cfg : systemd_config).
Abbreviation D := (eff (driver W)).
Implicit Types (s : driver W).

Definition time s : Z := now (sd_world s).
Definition said_ready s : Prop := ∃ text older,
  sd_log s = Performed (HttpRead (sc_ready_url cfg)) (Ok text) :: older ∧ says_ready (json_loads text) = true.
Definition said_failed s : Prop := ∃ c older,
  sd_log s = Performed (Run [sc_systemctl cfg; "is-failed"; "--quiet"; sc_service_name cfg] false) (Ok c) :: older
  ∧ returncode c = 0.

Lemma later {A} P t0 (m : D A) : performs P m → preserves (λ s, t0 ≤ time s) m.
Proof.
  apply performs_preserves. intros B op s _ Hs. unfold call, time in *.
  pose proof (sk_forward B op (sd_world s)). destruct (perform op (sd_world s)). cbn in *. lia.
Qed.

(** A step that keeps the time from going back. *)
Lemma later_case {A} P (m : D A) s : performs P m → time s ≤ time (m s).1.
Proof.
  intros Hm. pose proof (later P (time s) m Hm s (Z.le_refl _)) as Hl. by destruct (m s) as [s' []].
Qed.

Lemma ready_said s : match _ready cfg s with
  | (s', Ok true) => said_ready s' | _ => True end.
Proof.
  unfold _ready. destruct (negb (live_root cfg)); [done|]. unfold try_catch, call, mbind, eff_bind.
  destruct (perform (HttpOpen _) _) as [w1 [status|e]]; [|by destruct (is_OSError e)].
  destruct (negb (status =? 200)); [done|]. cbn [sd_world].
  destruct (perform (HttpRead _) w1) as [w2 [text|e]]; [|by destruct (is_OSError e)]. cbn.
  destruct (says_ready (json_loads text)) eqn:E; [|done]. by eexists _, _.
Qed.
Lemma failed_said s : match _service_failed cfg s with
  | (s', Ok true) => said_failed s' | _ => True end.
Proof.
  unfold _service_failed. destruct (negb (live_root cfg)); [done|]. unfold try_catch, call, mbind, eff_bind.
  destruct (perform (Run _ _) _) as [w1 [c|e]]; [|by destruct (is_OSError e)]. cbn.
  destruct (returncode c =? 0) eqn:E; [|done]. eexists _, _. split; [done|]. lia.
Qed.

Definition wait_outcome (deadline : Z) (s' : driver W) (r : result (option bool)) : Prop :=
  match r with
  | Ok None => False
  | Ok (Some true) => said_ready s'
  | Ok (Some false) => said_failed s' ∨ deadline ≤ time s'
  | Err _ => True
  end.

Lemma wait_loop_returns fuel t p started : ∀ s,
  duration_of (sc_ready_poll_interval_seconds cfg) = Ticks p → 0 < p →
  started + t - time s ≤ p * (Z.of_nat fuel - 1) → (0 < fuel)%nat →
  let '(s', r) := wait_loop cfg fuel (Ticks t) started s in wait_outcome (started + t) s' r.
Proof.
  induction fuel as [|fuel IH]; intros s Hp Hpos Hfuel Hf; [lia|]. cbn [wait_loop]. unfold mbind, eff_bind.
  pose proof (ready_said s) as H1. pose proof (later_case _ (_ready cfg) s (ready_reads cfg)) as T1.
  destruct (_ready cfg s) as [s1 [[]|e]]; [done| |done]. cbn [fst] in T1.
  pose proof (failed_said s1) as H2. pose proof (later_case _ (_service_failed cfg) s1 (failed_reads cfg)) as T2.
  destruct (_service_failed cfg s1) as [s2 [[]|e]]; [by left| |done]. cbn [fst] in T2.
  unfold call at 1. pose proof (sk_forward _ Monotonic (sd_world s2)) as T3.
  pose proof (sk_tells (sd_world s2)) as T4. unfold time in T2.
  destruct (perform Monotonic (sd_world s2)) as [w [read|e]]; [|done]. cbn [fst snd] in *.
  specialize (T4 read eq_refl). unfold elapse, over. destruct (t - (read - started) <=? 0) eqn:Eo.
  { cbn. right. unfold time. cbn. lia. }
  rewrite Hp. unfold py_min, duration_lt.
  set (d := if t - (read - started) <? p then Ticks (t - (read - started)) else Ticks p).
  assert (∃ x, d = Ticks x ∧ (x = p ∨ x = t - (read - started)) ∧ x ≤ p) as (x & Hd & Hx & Hle).
  { unfold d. destruct (_ <? p) eqn:El; eexists; (split; [done|]); lia. }
  rewrite Hd. unfold sleep_for, call. cbn [sd_world].
  pose proof (sk_sleeps x w) as T5. destruct (perform (Sleep x) w) as [w' [[]|e]]; [|done]. cbn [fst] in T5.
  unfold time in *. apply Z.leb_gt in Eo.
  assert (0 < Z.of_nat fuel) as Hturn by (destruct fuel; [exfalso|]; lia).
  apply IH; [done|done| |lia]. cbn [sd_world]. destruct Hx as [-> | ->]; nia.
Qed.

(** The wait for readiness ends.  On a clock that does not go back, with a finite
    timeout of [t] ticks and a poll interval of [p], [t / p + 1] turns are enough: the wait
    returns, or raises what the host raised.  It returns true only when the last thing it did
    was to read a body of the Worker's readiness endpoint that says ready, and false only when
    systemd had just reported the service failed or the deadline had passed. *)
Theorem wait_ready_returns fuel timeout s t p :
  duration_of timeout = Ticks t → duration_of (sc_ready_poll_interval_seconds cfg) = Ticks p →
  0 ≤ t → 0 < p → t ≤ p * (Z.of_nat fuel - 1) →
  let '(s', r) := _wait_ready cfg fuel timeout s in wait_outcome (time s + t) s' r.
Proof.
  intros Ht Hp Ht0 Hp0 Hfuel. unfold _wait_ready, mbind, eff_bind, call.
  pose proof (sk_forward _ Monotonic (sd_world s)) as T1. pose proof (sk_tells (sd_world s)) as T2.
  destruct (perform Monotonic (sd_world s)) as [w [started|e]]; [|done]. cbn [fst snd] in *.
  specialize (T2 started eq_refl). rewrite Ht.
  pose proof (wait_loop_returns fuel t p started
    (Build_driver w (sd_safe s) (Performed Monotonic (Ok started) :: sd_log s)) Hp Hp0) as Hw.
  unfold time in *. cbn [sd_world] in Hw.
  destruct (wait_loop cfg fuel (Ticks t) started _) as [s' r].
  assert (wait_outcome (started + t) s' r) as Hr by (apply Hw; nia).
  destruct r as [[[]|]|]; cbn in *; try done. destruct Hr as [Hr|Hr]; [by left|right]. unfold time in *. lia.
Qed.
End wait.

(** ** The GPU preflight *)

Section preflight.
Context {W : Type} `{SetupHost W} {DG : Digests} {TM : Toml} {DL : DriverLibrary}.
Context (cfg : systemd_config).
Abbreviation D := (eff (driver W)).
Implicit Types (s : driver W) (L : list performed).

(** ** What was observed since the log was [l0], newest first *)
Section since.
Context (l0 : list performed).

Definition has L s : Prop := ∃ l, sd_log s = l ++ l0 ∧ L `sublist_of` l.
Lemma call_grows {A} (op : host_op A) L s : has L s → has L (call op s).1.
Proof.
  intros (l & Hs & Hl). unfold call. destruct (perform op (sd_world s)) as [w x]. cbn.
  exists (Performed op x :: l). split; [by rewrite Hs|by apply sublist_cons].
Qed.
Lemma performs_has {A} P (m : D A) L : performs P m → preserves (has L) m.
Proof.
  apply performs_preserves. intros B op s _ Hs. pose proof (call_grows op L s Hs) as Hc.
  by destruct (call op s) as [s' []].
Qed.
Lemma call_has {A} (op : host_op A) L :
  triple (has L) (call op) (λ a, has (Performed op (Ok a) :: L)) (λ _ _, True).
Proof.
  intros s (l & Hs & Hl). unfold call. destruct (perform op (sd_world s)) as [w [a|e]]; [|done].
  exists (Performed op (Ok a) :: l). cbn. split; [by rewrite Hs|by apply sublist_skip].
Qed.
Lemma performs_has_any {A} P (m : D A) L : performs P m → triple (has L) m (λ _, has L) (λ _ _, True).
Proof. intros Hm. eapply triple_conseq; [by eapply performs_has|done|done|done]. Qed.

(** The GPUs a configuration names. *)
Definition configured_gpus (text : string) (expected : list string) : Prop :=
  ∃ config worker items, toml_loads text = Some config ∧
    py_dict (py_or (get "worker" config) (PDict [])) = Ok worker ∧
    py_iter (get_default "gpu_uuids" (PList []) worker) = Ok items ∧ mapR py_str items = Ok expected.
(** nvidia-smi listed exactly them. *)
Definition visible_exactly (expected : list string) (c : GpuMapping.completed) : Prop :=
  returncode c = 0 ∧ NoDup expected ∧
  filter (λ l, l ≠ EmptyString) (strip <$> splitlines (stdout c)) ≡ₚ expected.
(** The service may open exactly their devices: [mapping] gives each GPU a device of its own,
    the effective unit grants these and nothing else of the driver's but read-write nodes, the
    processes see the GPUs in their order, and the preflight inside the unit is in place. *)
Definition isolates (expected : list string) (map_text : string) (shown : GpuMapping.completed) : Prop :=
  ∃ mapping properties grants environment,
    device_map [] (splitlines map_text) = Some mapping ∧ dkeys mapping ≡ₚ expected ∧ NoDup (dvalues mapping) ∧
    returncode shown = 0 ∧ parse_systemd_show_properties (stdout shown) = Ok properties ∧
    dget "DevicePolicy" properties = Some "closed" ∧
    _parse_device_allow (property "DeviceAllow" properties) = Ok grants ∧
    Forall (λ g, gpu_allowed_path g.1 = true ∧ g.2 = "rw") grants ∧
    (List.filter (λ g, gpu_device_path g.1) grants).*1 ≡ₚ dvalues mapping ∧
    shlex_split (property "Environment" properties) = Ok environment ∧
    _environment_values environment "CUDA_VISIBLE_DEVICES" = [join "," expected] ∧
    _has_exact_set_preflight (property "ExecStartPre" properties) = true.

Lemma sorted_perm l m : sorted_strings l = sorted_strings m → l ≡ₚ m.
Proof.
  unfold sorted_strings. intros E.
  by rewrite <-(merge_sort_Permutation String.le l), E, (merge_sort_Permutation String.le m).
Qed.

Lemma exact_visible expected c : expected ≠ [] → all_distinct expected = true →
  require_exact_gpu_set expected (Some c) = Ok tt → visible_exactly expected c.
Proof.
  intros Hne Hd. unfold require_exact_gpu_set, discover_nvidia_gpu_uuids.
  destruct (sorted_strings expected) as [|x l] eqn:Es.
  { exfalso. apply Hne, Permutation_nil_r. rewrite <-(merge_sort_Permutation String.le expected).
    unfold sorted_strings in Es. by rewrite Es. }
  rewrite <-Es. intros Hr. simp_res. split_and!; [lia| |].
  - unfold all_distinct in Hd. by bools.
  - bools. subst. by apply sorted_perm.
Qed.

Lemma check_devices_exact properties paths : NoDup paths → check_devices properties paths = Ok tt →
  dget "DevicePolicy" properties = Some "closed" ∧
  ∃ grants, _parse_device_allow (property "DeviceAllow" properties) = Ok grants ∧
    Forall (λ g, gpu_allowed_path g.1 = true ∧ g.2 = "rw") grants ∧
    (List.filter (λ g, gpu_device_path g.1) grants).*1 ≡ₚ paths.
Proof.
  intros Hnd. unfold check_devices. rewrite guard_Ok. intros [Hp Hr].
  apply bind_Ok in Hr as (grants & Hg & Hr). apply guard_Ok in Hr as [Hall Hr].
  apply require_Ok, bool_decide_eq_true in Hr. apply bool_decide_eq_true in Hp. split; [done|]. exists grants. split; [done|]. split.
  - apply Forall_forall. intros g Hin. rewrite forallb_forall in Hall.
    specialize (Hall g (proj1 (list_elem_of_In _ _) Hin)). bools. done.
  - rewrite <-(merge_sort_Permutation pair_le (List.filter _ grants)). unfold sorted_pairs in Hr.
    rewrite Hr, <-list_fmap_compose. cbn. rewrite list_fmap_id. unfold sorted_set, sorted_strings.
    rewrite merge_sort_Permutation.
    apply NoDup_Permutation; [apply NoDup_remove_dups|done|]. intros x. apply elem_of_remove_dups.
Qed.

(** The configuration of the Worker was read; the three files a reviewed isolation consists of. *)
Definition config_read (text : string) : list performed :=
  [Performed (OpenText (sc_worker_config_path cfg)) (Ok text)].
Definition listing (c : GpuMapping.completed) : performed :=
  Performed (Run [sc_nvidia_smi cfg; "--query-gpu=uuid"; "--format=csv,noheader"] false) (Ok c).
Definition verification (c : GpuMapping.completed) : performed :=
  Performed (Run [sc_gpu_device_map_command cfg; "--nvidia-smi"; sc_nvidia_smi cfg; "verify";
                  path_str (sc_gpu_uuid_file_path cfg); path_str (sc_gpu_device_map_path cfg)] false) (Ok c).
(** What a passed check leaves in the log, after the configuration [text] was read. *)
Definition passed (text : string) (expected : list string) s : Prop :=
  (expected = [] ∧ has (config_read text) s) ∨
  (∃ c, has (listing c :: config_read text) s ∧ visible_exactly expected c) ∨
  (∃ uuid_text map_text shown verified,
     has (verification verified :: Performed (Run (show_properties cfg) false) (Ok shown) ::
          Performed (OpenText (sc_gpu_device_map_path cfg)) (Ok map_text) ::
          Performed (OpenText (sc_gpu_uuid_file_path cfg)) (Ok uuid_text) :: config_read text) s ∧
     listed uuid_text ≡ₚ expected ∧ isolates expected map_text shown ∧ returncode verified = 0).

Lemma passed_grows {A} (op : host_op A) text expected s : passed text expected s → passed text expected (call op s).1.
Proof.
  intros [[? Hs]|[(c & Hs & ?)|(u & m & sh & v & Hs & ?)]].
  - left. split; [done|by apply call_grows].
  - right; left. exists c. split; [by apply call_grows|done].
  - right; right. exists u, m, sh, v. split; [by apply call_grows|done].
Qed.

Section live.
Hypothesis Hlive : live_root cfg = true.

Lemma worker_gpus_spec :
  triple (has []) (_read_worker_gpu_uuids (TM := TM) cfg)
    (λ expected s, ∃ text, has (config_read text) s ∧ configured_gpus text expected)
    (λ _ _, True).
Proof.
  unfold _read_worker_gpu_uuids. apply (target_then cfg Hlive).
  apply (triple_bind _ _ (λ text, has (config_read text))).
  { eapply triple_catch; [apply call_has|]. intros e s _. by destruct (is_OSError e). }
  intros text s Hs. destruct (toml_loads text) as [config|] eqn:Et; [|done].
  unfold lifts, mbind, eff_bind.
  destruct (py_dict _) as [worker|e] eqn:Ew; [|done]. destruct (py_iter _) as [items|e] eqn:Ei; [|done].
  destruct (mapR py_str items) as [expected|e] eqn:Ex; [|done].
  exists text. split; [done|]. by exists config, worker, items.
Qed.

Lemma exact_set_spec text expected : expected ≠ [] →
  triple (has (config_read text)) (exact_gpu_set (W := W) cfg expected) (λ _ s, passed text expected s) (λ _ _, True).
Proof.
  intros Hne. unfold exact_gpu_set. intros s Hs. unfold ensure.
  destruct (all_distinct expected) eqn:Ed; [|done].
  pose proof (call_has (Run [sc_nvidia_smi cfg; "--query-gpu=uuid"; "--format=csv,noheader"] false)
    _ s Hs) as Hc.
  unfold mbind, eff_bind, try_catch, mret, eff_ret.
  destruct (call (Run _ false) s) as [s1 [c|e]]; unfold lifts.
  - destruct (require_exact_gpu_set expected (Some c)) as [[]|e] eqn:Er; [|done].
    right; left. exists c. split; [exact Hc|]. by apply exact_visible.
  - destruct (is_OSError e); [|done]. unfold require_exact_gpu_set.
    destruct (sorted_strings expected) eqn:Es; [|by destruct (require _ _)].
    exfalso. apply Hne, Permutation_nil_r. rewrite <-(merge_sort_Permutation String.le expected).
    unfold sorted_strings in Es. by rewrite Es.
Qed.

Lemma effective_spec expected mapping L : NoDup (dvalues mapping) →
  triple (has L) (effective_isolation (W := W) cfg expected mapping)
    (λ b s, b = true → ∃ shown properties environment,
       has (Performed (Run (show_properties cfg) false) (Ok shown) :: L) s ∧ returncode shown = 0 ∧
       parse_systemd_show_properties (stdout shown) = Ok properties ∧
       check_devices properties (dvalues mapping) = Ok tt ∧
       shlex_split (property "Environment" properties) = Ok environment ∧
       _environment_values environment "CUDA_VISIBLE_DEVICES" = [join "," expected] ∧
       _has_exact_set_preflight (property "ExecStartPre" properties) = true)
    (λ _ _, True).
Proof.
  intros Hnd. unfold effective_isolation. eapply (triple_catch _ _ _ (λ _ _, True)).
  2: { intros e s _. destruct e; cbn; try done. }
  eapply triple_bind; [apply call_has|]. intros c.
  destruct (returncode c =? 0) eqn:Ec; cbn [negb]; [|by apply triple_ret].
  intros s Hs. unfold lifts, mbind at 1, eff_bind at 1.
  destruct (parse_systemd_show_properties (stdout c)) as [properties|e] eqn:Ep; [|done].
  unfold validate_effective_worker_gpu_isolation, lifts, mbind, eff_bind.
  destruct (check_devices properties (dvalues mapping)) as [[]|e] eqn:Ed; [|done].
  destruct (check_environment properties expected) as [[]|e] eqn:Ee; [|done].
  set (m := _reject_effective_gpu_environment_override _ _).
  assert (performs (W := W) (read_only cfg) m) as Hm.
  { subst m. unfold _reject_effective_gpu_environment_override, check_environment_file. ops; exact I. }
  pose proof (performs_has_any _ m _ Hm s Hs) as Hm'. destruct (m s) as [s1 [[]|e]]; [|done].
  destruct (check_preflight properties) as [[]|e] eqn:Ef; [|done]. intros _.
  unfold check_environment in Ee. apply bind_Ok in Ee as (environment & He & Ee).
  apply guard_Ok in Ee as [Hv _]. unfold check_preflight in Ef. apply guard_Ok in Ef as [Hx _].
  exists c, properties, environment. split_and!; try done; [lia| |by bools].
  unfold _split_systemd_list in He. destruct (shlex_split _) eqn:Es; [|done]. injection He as ->. done.
Qed.

Lemma isolation_spec text expected :
  triple (has (config_read text)) (_gpu_isolation_verified (W := W) cfg expected)
    (λ b s, b = true → passed text expected s) (λ _ _, True).
Proof.
  unfold _gpu_isolation_verified. rewrite Hlive. do 3 apply (target_then cfg Hlive).
  eapply (triple_bind (has (config_read text))); [by eapply (performs_has_any (read_only cfg)), all_files_reads|].
  intros []; cbn [negb]; [|by apply triple_ret].
  eapply triple_bind; [apply call_has|]. intros uuid_text.
  destruct (bool_decide (sorted_strings (listed uuid_text) = _)) eqn:Eu; cbn [negb]; [|by apply triple_ret].
  apply bool_decide_eq_true, sorted_perm in Eu. eapply triple_bind; [apply call_has|].
  intros map_text. unfold reviewed_map.
  destruct (device_map [] (splitlines map_text)) as [mapping|] eqn:Em; cbn [mbind option_bind]; [|by apply triple_ret].
  destruct (bool_decide _ && all_distinct _) eqn:Ec; [|by apply triple_ret].
  apply andb_true_iff in Ec as [Ek%bool_decide_eq_true%sorted_perm Ev].
  unfold all_distinct in Ev. apply bool_decide_eq_true in Ev.
  eapply triple_bind; [by apply effective_spec|]. intros []; cbn [negb]; [|by apply triple_ret].
  intros s Hs. destruct (Hs eq_refl) as (shown & properties & environment & Hh & Hr & Hp & Hd & He & Hc & Hx).
  unfold mbind, eff_bind. pose proof (call_has (Run [sc_gpu_device_map_command cfg; "--nvidia-smi";
    sc_nvidia_smi cfg; "verify"; path_str (sc_gpu_uuid_file_path cfg); path_str (sc_gpu_device_map_path cfg)] false) _ s Hh) as Hv.
  destruct (call (Run _ false) s) as [s1 [verified|e]]; [|done]. intros Hz. right; right.
  exists uuid_text, map_text, shown, verified. split; [exact Hv|]. split; [done|]. split; [|lia].
  destruct (check_devices_exact _ _ Ev Hd) as [Hpol (grants & Hg & Hrw & Hphys)].
  by exists mapping, properties, grants, environment.
Qed.

Lemma visibility_spec text expected :
  triple (has (config_read text)) (gpu_visibility (W := W) cfg expected)
    (λ v s, (∃ d, v = inr d) → passed text expected s) (λ _ _, True).
Proof.
  unfold gpu_visibility. destruct expected as [|u l]; [apply triple_ret; intros s Hs _; by left|].
  apply (triple_bind _ _ (λ failure s, match failure with
    | None => passed text (u :: l) s | Some _ => has (config_read text) s end)).
  - apply (triple_catch _ _ _ (λ _, has (config_read text))).
    + apply (triple_bind _ _ (λ _ s, passed text (u :: l) s)); [|intros []; by apply triple_ret].
      intros s Hs. pose proof (exact_set_spec text (u :: l) ltac:(done) s Hs) as Hx.
      pose proof (performs_has (read_only cfg) _ _ (gpu_set_reads cfg Hlive (u :: l)) s Hs) as Hh.
      by destruct (exact_gpu_set cfg (u :: l) s) as [s1 [[]|e]].
    + intros e. by apply triple_ret.
  - intros [e|]; [|apply triple_ret; done].
    eapply triple_bind; [apply isolation_spec|]. intros verified. apply triple_ret. intros s Hs [d Hd].
    destruct verified; [by apply Hs|done].
Qed.

End live.

Definition preflight_passed s : Prop :=
  live_root cfg = true ∧ ∃ text expected, configured_gpus text expected ∧ passed text expected s.
Lemma passed_stays {A} P (m : D A) : performs P m → preserves preflight_passed m.
Proof.
  apply performs_preserves. intros B op s _ (Hlive & text & expected & Hc & Hp).
  pose proof (passed_grows op _ _ _ Hp) as Hg.
  assert (preflight_passed (call op s).1) as Hs by by split; [|exists text, expected].
  by destruct (call op s) as [s' []].
Qed.

Lemma preflight_spec action : ac_kind action = PREFLIGHT →
  triple (has []) (inspect (W := W) cfg action)
    (λ i s, in_state i ≠ STATE_BLOCKED → preflight_passed s) (λ _ _, True).
Proof.
  intros Hk. unfold inspect, _inspect. rewrite Hk. eapply (triple_catch _ _ _ (λ _ _, True)).
  2: { intros e s _. destruct e; try done; intros Hb; by destruct Hb. }
  apply (triple_bind _ _ (λ _, has [])); [apply triple_lifts; intros s Hs; by destruct (text_at _ _)|].
  intros provider. unfold inspect_preflight.
  destruct (live_root cfg) eqn:Hlive; cbn [negb]; [|apply triple_ret; intros s _ Hb; by destruct Hb].
  eapply triple_bind; [by apply worker_gpus_spec|]. intros expected.
  apply (triple_bind _ _ (λ v s, (∃ d, v = inr d) → preflight_passed s)).
  - intros s (text & Ht & Hc). pose proof (visibility_spec Hlive text expected s Ht) as Hv.
    destruct (gpu_visibility cfg expected s) as [s1 [v|e]]; [|done].
    intros Hd. split; [done|]. exists text, expected. by auto.
  - intros [b|d]; [apply triple_ret; intros s _ Hb; by destruct Hb|].
    eapply (triple_conseq _ preflight_passed _ _ (λ _, preflight_passed) _ (λ _, preflight_passed)).
    + apply (passed_stays (read_only cfg)). ops. exact I.
    + intros s Hs. apply Hs. by exists d.
    + done.
    + done.
Qed.

End since.

(** Property C27: the GPU preflight passes only for exactly the configured GPUs.  On a host that
    answers arbitrarily: when the inspection of a PREFLIGHT action is not blocked, the root is
    live and this very inspection read the Worker configuration at its path, which names GPUs
    [expected]; and there are none, or after that nvidia-smi listed exactly those, or the
    service is isolated.  Isolated means that the inspection then read, in this order, the
    reviewed UUID file, which lists exactly those GPUs; the reviewed map, which gives each of
    them a device node of its own; the effective unit, which has a closed device policy whose
    physical GPU grants are exactly these nodes, shows its processes exactly those GPUs in
    their order and keeps its own preflight; and that the verification of the map against the
    UUID file succeeded. *)
Theorem preflight_exact_gpus action s s' i :
  ac_kind action = PREFLIGHT → inspect cfg action s = (s', Ok i) → in_state i ≠ STATE_BLOCKED →
  live_root cfg = true ∧ ∃ text expected, configured_gpus text expected ∧ passed (sd_log s) text expected s'.
Proof.
  intros Hk Hrun Hi.
  pose proof (preflight_spec (sd_log s) action Hk s (ex_intro _ [] (conj eq_refl (sublist_nil_l _)))) as Hs.
  rewrite Hrun in Hs. by apply Hs.
Qed.
End preflight.

(** ** Witnesses *)

#[export] Instance small_clock : SteadyClock small_host sh_clock.
Proof.
  constructor.
  - intros A op w. destruct op; cbn; try lia. unfold small_run. repeat case_match; cbn; lia.
  - intros w t. cbn. by intros [= <-].
  - intros d w. cbn. lia.
Qed.

(** Nobody answers on the readiness endpoint, so the wait ends at the deadline. *)
Lemma wait_ready_small :
  match _wait_ready small_config 100 (float_of_Z 60) (Build_driver smoke_host true []) with
  | (s', Ok (Some b)) => b = false ∧ 60 ≤ time sh_clock s'
  | _ => False
  end.
Proof.
  pose proof (wait_ready_returns sh_clock small_config 100 (float_of_Z 60) (Build_driver smoke_host true [])
    60 1 eq_refl eq_refl ltac:(lia) ltac:(lia) ltac:(lia)) as Hw.
  assert (match (_wait_ready small_config 100 (float_of_Z 60) (Build_driver smoke_host true [])).2 with
    | Ok (Some b) => b = false | _ => False end) as Hb by (vm_compute; reflexivity).
  assert (60 ≤ time sh_clock (_wait_ready small_config 100 (float_of_Z 60) (Build_driver smoke_host true [])).1)
    as Ht by (vm_compute; discriminate).
  destruct (_wait_ready _ _ _ _) as [s' [[b|]|e]]; [by split|by destruct Hw|done].
Defined.

(** A host with one GPU more than the Worker's, whose service is isolated. *)
Definition isolated_host : small_host := {|
  sh_files := <["/etc/astrumweaver/gpu-uuids" := print_lines ["GPU-1"]]>
    (<["/etc/astrumweaver/gpu-device-map" := print_lines ["GPU-1=/dev/nvidia0"]]>
    (<["/etc/systemd/system/10-gpu-isolation.conf" := EmptyString]>
    (<["/etc/astrumweaver/worker.env" := print_lines ["# tokens"; "TOKEN=x"]]> (sh_files smoke_host))));
  sh_running := true; sh_clock := 0; sh_gpus := print_lines ["GPU-1"; "GPU-2"];
  sh_shown := print_lines
    ["DevicePolicy=closed"; "DeviceAllow=/dev/nvidia0 rw /dev/nvidiactl rw";
     "Environment=CUDA_VISIBLE_DEVICES=GPU-1 ASTRUMWEAVER_GPU_PREFLIGHT_MODE=isolated-access ASTRUMWEAVER_GPU_DEVICE_MAP=/etc/astrumweaver/gpu-device-map ASTRUMWEAVER_GPU_WORKER_CONFIG=/etc/astrumweaver/worker.toml ASTRUMWEAVER_GPU_DEVICE_MAP_COMMAND=/usr/local/libexec/astrumweaver/gpu-device-map ASTRUMWEAVER_NVIDIA_SMI=/usr/bin/nvidia-smi";
     "EnvironmentFiles=/etc/astrumweaver/worker.env (ignore_errors=yes)"; "UnsetEnvironment=";
     "ExecStartPre={ path=/usr/local/libexec/astrumweaver/gpu-preflight ; argv[]=/usr/local/libexec/astrumweaver/gpu-preflight /etc/astrumweaver/gpu-uuids ; ignore_errors=no ; pid=0 }";
     "Requires=astrumweaver-worker-gpu-isolation-preflight.service";
     "After=network.target astrumweaver-worker-gpu-isolation-preflight.service"] |}.
Definition preflight_run : driver small_host * result ActionInspection :=
  inspect (TM := demo_toml) small_config (small_action "01-preflight" PREFLIGHT [])
    (Build_driver isolated_host true []).

Lemma preflight_exact_gpus_witness :
  match preflight_run with
  | (s', Ok i) => in_state i = NEEDS_APPLY ∧ live_root small_config = true ∧ ∃ text expected,
      configured_gpus (TM := demo_toml) text expected ∧ passed small_config [] text expected s'
  | _ => False
  end.
Proof.
  assert (match preflight_run.2 with Ok i => in_state i = NEEDS_APPLY | _ => False end) as Hi
    by (vm_compute; reflexivity).
  destruct preflight_run as [s' [i|e]] eqn:E; [|done]. split; [exact Hi|].
  unfold preflight_run in E.
  refine (preflight_exact_gpus (TM := demo_toml) small_config
    (small_action "01-preflight" PREFLIGHT []) (Build_driver isolated_host true []) s' i eq_refl E _).
  intros Hb. cbn in Hi. rewrite Hi in Hb. discriminate Hb.
Defined.

(** ** Setup of a staged root runs no command of the host

    With a root other than [/], a whole run of a plan asks nothing of the host's services, GPUs
    or linker: the only commands are the installers, model commands and verifiers the operator
    configured. *)

Section staged.
Context {W : Type} `{SetupHost W} {DG : Digests} {TM : Toml} {DL : DriverLibrary}.
Context (cfg : systemd_config) (fuel : nat).
Abbreviation D := (eff (driver W)).
Implicit Types (s : driver W).

(** A command the operator configured, with its arguments. *)
Definition configured_command (argv : list string) : Prop :=
  ∃ table key prefix rest,
    table ∈ [sc_installers cfg; sc_downloaders cfg; sc_converters cfg; sc_verifiers cfg] ∧
    argv_of key table = Some prefix ∧ argv = prefix ++ rest.
Definition runs_configured : op_prop := λ A op,
  match op with Run argv _ => configured_command argv | _ => True end.

Hypothesis Hstaged : live_root cfg = false.

Lemma read_only_configured {A} (m : D A) : performs (read_only cfg) m → performs runs_configured m.
Proof.
  apply performs_mono. intros B [] Hq; try exact I. cbn in *. inversion Hq; subst; try congruence.
  exists (sc_verifiers cfg), provider_id, verifier, [what; reference]. split_and!; [set_solver|done|done].
Qed.
Lemma asks_configured {A} (m : D A) : performs (asks cfg) m → performs runs_configured m.
Proof. intros Hm. by apply read_only_configured, asks_read_only. Qed.
Hint Resolve read_only_configured asks_configured : ops.
Local Ltac runs := ops; try exact I.

Lemma installer_configured provider_id argv rest :
  _installer cfg provider_id = Some argv → configured_command (argv ++ rest).
Proof. intros Ha. exists (sc_installers cfg), provider_id, argv, rest. split_and!; [set_solver|done|done]. Qed.
Lemma model_configured provider_id kind argv rest :
  _model_command cfg provider_id kind = Some argv → configured_command (argv ++ rest).
Proof.
  unfold _model_command. intros Ha.
  eexists _, provider_id, argv, rest. split_and!; [|exact Ha|done]. case_bool_decide; set_solver.
Qed.

Lemma active_false : _service_active (W := W) cfg = mret false.
Proof. unfold _service_active. by rewrite Hstaged. Qed.

(** A staged Worker is never found running. *)
Lemma stop_never_needed action :
  returns (λ i, in_state i ≠ NEEDS_APPLY) (_inspect_worker_stop (W := W) cfg action).
Proof.
  assert (∀ A (m : D A) k, (∀ a, returns (λ i, in_state i ≠ NEEDS_APPLY) (k a)) →
    returns (λ i, in_state i ≠ NEEDS_APPLY) (or_blocked m k)) as Hor.
  { intros A m k Hk. apply returns_seq. intros [a|text]; [apply Hk|]. by apply returns_ret. }
  unfold _inspect_worker_stop, inspect_stopped. rewrite Hstaged. cbn [negb].
  repeat match goal with |- returns _ (if ?b then _ else _) => destruct b; [by apply returns_ret|] end.
  apply Hor. intros contract. destruct (bool_decide _); [|by apply returns_ret].
  apply returns_seq. intros matches. destruct (negb matches); [by apply returns_ret|].
  apply Hor. intros [t u]. by destruct (iu_nvidia_driver_bridge u); apply returns_ret.
Qed.
Lemma start_never_needed action s i :
  ac_kind action = RUNTIME_START → (inspect (W := W) cfg action s).2 = Ok i → in_state i ≠ NEEDS_APPLY.
Proof.
  intros Hk. unfold inspect, _inspect. rewrite Hk. unfold inspect_start. rewrite Hstaged. cbn [negb].
  unfold try_catch, mbind, eff_bind, lifts.
  destruct (text_at _ _) as [p|[]]; cbn; intros [= <-]; done.
Qed.

Lemma replace_configured p c : performs runs_configured (_replace_preserving_metadata (W := W) cfg p c).
Proof. unfold _replace_preserving_metadata. runs. Qed.
Lemma nonsecret_configured p c : performs runs_configured (_write_nonsecret_config (W := W) cfg p c).
Proof. unfold _write_nonsecret_config. runs. Qed.
Hint Resolve replace_configured nonsecret_configured : ops.
Lemma restore_item_configured entry : performs runs_configured (restore_item (W := W) cfg entry).
Proof. unfold restore_item. runs. Qed.
Hint Resolve restore_item_configured : ops.
Lemma restore_configured l : performs runs_configured (_restore_rendered_files (W := W) cfg l).
Proof. unfold _restore_rendered_files. apply performs_each. runs. Qed.
Lemma write_receipt_configured action : performs runs_configured (_write_receipt (W := W) cfg action).
Proof. unfold _write_receipt. runs. Qed.
Hint Resolve restore_configured write_receipt_configured : ops.
Lemma with_previous_configured l : performs runs_configured (with_previous (W := W) l).
Proof. induction l as [|[p c] l IH]; cbn [with_previous]; runs. Qed.
Lemma write_targets_configured l : ∀ files, performs runs_configured (write_targets (W := W) cfg files l).
Proof. induction l as [|[[p c] previous] l IH]; intros files; cbn [write_targets]; runs. Qed.
Hint Resolve with_previous_configured write_targets_configured : ops.
Lemma wait_configured timeout started n : performs runs_configured (wait_loop (W := W) cfg n timeout started).
Proof. induction n as [|n IH]; cbn [wait_loop]; unfold sleep_for; runs. Qed.
Hint Resolve wait_configured : ops.

Lemma write_execution_configured wp up a b c d :
  performs runs_configured (write_execution (W := W) cfg wp up a b c d).
Proof.
  unfold write_execution, install_execution, repair_execution, restore_if_file. rewrite Hstaged. cbn [andb only_if].
  runs.
Qed.
Hint Resolve write_execution_configured : ops.

Lemma apply_stop_configured : performs runs_configured (apply_stop (W := W) cfg).
Proof.
  unfold apply_stop. rewrite active_false.
  apply (performs_bind_returns _ (λ b, b = false)); [by apply returns_ret|runs|]. intros b ->. cbn [negb]. runs.
Qed.
Hint Resolve apply_stop_configured : ops.

Lemma apply_configured action : ac_kind action ≠ RUNTIME_START →
  performs runs_configured (apply (W := W) cfg fuel action).
Proof.
  intros Hk. unfold apply. apply performs_bind; [runs|intros provider_text].
  destruct (ac_kind action) eqn:E; try done.
  all: unfold apply_directory, _prepare_runtime_directory, apply_package, apply_model, apply_bridge,
    apply_config, apply_reconcile, apply_health, _wait_ready, apply_check, run_checked.
  all: rewrite ?active_false, ?Hstaged.
  9: { unfold apply_worker_stop. eapply performs_bind_returns; [apply stop_never_needed|runs|].
       intros i Hi. unfold when_needed. destruct (in_state i) eqn:Ei; [runs|by destruct Hi|runs]. }
  all: runs; first [by eapply installer_configured|by eapply model_configured].
Qed.

Lemma rollback_configured action receipt : ac_kind action ≠ RUNTIME_START →
  performs runs_configured (rollback (W := W) cfg action receipt).
Proof.
  intros Hk. unfold rollback. destruct (negb (rc_changed receipt)); [runs|].
  destruct (ac_kind action) eqn:E; try done; try apply performs_unchanged.
  all: unfold rollback_directory, rollback_bridge, bridge_target, rollback_config, rollback_worker_stop, rollback_reconcile.
  all: rewrite ?Hstaged; cbn [negb only_if]; runs.
Qed.

(** A staged root runs no command of the host.  Whatever the plan and the host,
    the whole run of a plan with a root other than [/], rollbacks included, runs only commands
    the operator configured: an installer, a downloader, a converter or a verifier, followed by
    its arguments; nothing asks or tells systemd, nvidia-smi or ldconfig anything. *)
Theorem staged_root_runs_nothing plan approval rb obs w s' r :
  passive obs →
  apply_plan (D := SystemdSetupDriver cfg fuel) plan approval rb obs (Build_driver w true []) = Ok (s', r) →
  Forall (of_entry runs_configured) (sd_log s').
Proof.
  intros Hobs. unfold apply_plan. destruct (_validate_approval plan approval) as [[]|e]; [|done].
  cbn [mbind result_bind]. intros [= Hrun].
  set (I := λ s, Forall (of_entry runs_configured) (sd_log s)).
  assert (∀ A (m : D A) s, performs runs_configured m → I s → I (attempted (m s)).1) as Hkeep.
  { intros A m s Hm Hs. destruct (extends_log _ _ _ (Hm s)) as [_ (l & L & F)].
    unfold I in *. destruct (m s) as [s1 []]; cbn in *; rewrite L; by apply Forall_app. }
  assert (∀ res s, I s → I (_emit_result obs res s)) as Hpassive.
  { intros res s Hs. unfold I. by rewrite (proj2 (Hobs res s)). }
  change (I s'). replace s' with (apply_loop (D := SystemdSetupDriver cfg fuel) plan rb obs [] []
    (pl_actions plan) (Build_driver w true [])).1 by by rewrite Hrun.
  apply (loop_phase I I (λ a _, ac_kind a ≠ RUNTIME_START)); try done; try by intros a rc ?%elem_of_nil.
  - intros a s _ Hs. by apply Hkeep; [apply read_only_configured, inspect_reads|].
  - intros a s _ Hs (i & Hi & Hneeds).
    assert (ac_kind a ≠ RUNTIME_START) as Hk.
    { intros Ek. cbn in Hi. pose proof (start_never_needed a s) as Hn.
      destruct (inspect cfg a s) as [s1 [i1|e]]; [|done]. injection Hi as ->. by apply (Hn i). }
    pose proof (Hkeep _ _ s (read_only_configured _ (inspect_reads cfg a)) Hs) as H1.
    cbn [SetupApply.inspect apply_action SystemdSetupDriver].
    pose proof (Hkeep _ _ _ (apply_configured a Hk) H1) as H2.
    by destruct (apply cfg fuel a _) as [s2 [rc|e]].
  - intros a rc s _ Hk Hs. by apply Hkeep; [apply rollback_configured|].
  - by apply Forall_nil.
Qed.
End staged.

(** The same migration on a staged root: nothing of the host is asked. *)
Definition staged_config : systemd_config := {|
  sc_filesystem := {| sf_root := Path "/mnt"; sf_owner := 1000 |};
  sc_worker_config_path := sc_worker_config_path small_config;
  sc_worker_unit_path := sc_worker_unit_path small_config;
  sc_runtime_manifest_path := sc_runtime_manifest_path small_config;
  sc_gpu_uuid_file_path := sc_gpu_uuid_file_path small_config;
  sc_gpu_device_map_path := sc_gpu_device_map_path small_config;
  sc_gpu_isolation_dropin_path := sc_gpu_isolation_dropin_path small_config;
  sc_gpu_device_map_command := sc_gpu_device_map_command small_config;
  sc_service_name := sc_service_name small_config; sc_systemctl := sc_systemctl small_config;
  sc_nvidia_smi := sc_nvidia_smi small_config; sc_ldconfig := sc_ldconfig small_config;
  sc_nvidia_driver_library := None; sc_ready_url := sc_ready_url small_config;
  sc_ready_poll_interval_seconds := sc_ready_poll_interval_seconds small_config;
  sc_installers := [("ollama", ["install-ollama"])]; sc_downloaders := []; sc_converters := [];
  sc_verifiers := [("ollama", ["verify-ollama"])]; sc_service_user := "astrumweaver";
  sc_service_group := "astrumweaver" |}.
Definition staged_host : small_host := with_files (λ f,
  <["/mnt/etc/astrumweaver/worker.toml" := demo_smoke]>
    (<["/mnt/etc/systemd/system/astrumweaver-worker.service" := unit_text demo_unit]> f)) smoke_host.
Definition staged_plan : SetupPlan :=
  {| pl_provider_id := "ollama"; pl_deployment_path := SYSTEMD; pl_goal := ACTIVATE;
     pl_actions := [small_action "01-package" ENSURE_PACKAGE
                      [("package_reference", PStr "ollama"); ("provider_id", PStr "ollama")];
                    small_action "02-worker-stop" WORKER_STOP migration_payload;
                    small_action "03-reconcile" RECONCILE_WORKER_EXECUTION migration_payload];
     pl_metadata := []; pl_schema_version := "v1" |}.
Definition staged_run :=
  apply_plan (D := SystemdSetupDriver (TM := demo_toml) staged_config 10) staged_plan
    (example_approval staged_plan) true None (Build_driver staged_host true []).

Lemma staged_root_runs_nothing_witness :
  match staged_run with
  | Ok (s', r) => succeeded r = true ∧
      sh_files (sd_world s') !! "/mnt/etc/astrumweaver/worker.toml" = Some demo_runtime ∧
      Forall (of_entry (runs_configured staged_config)) (sd_log s')
  | Err _ => False
  end.
Proof.
  assert (match staged_run with
    | Ok (s', r) => succeeded r = true ∧
        sh_files (sd_world s') !! "/mnt/etc/astrumweaver/worker.toml" = Some demo_runtime
    | Err _ => False end) as Hn by (vm_compute; split; reflexivity).
  destruct staged_run as [[s' r]|e] eqn:E; [|done]. destruct Hn as [H1 H2]. split; [exact H1|]. split; [exact H2|].
  unfold staged_run in E.
  refine (staged_root_runs_nothing (TM := demo_toml) staged_config 10 _ staged_plan
    (example_approval staged_plan) true None staged_host s' r _ E); [vm_compute; reflexivity|by split].
Defined.
